(* ===== verification/_CoqProject ===== *)
-Q . S2P
Prelude.v
Transaction.v
Snapshot.v
DList.v
ResourceOwner.v
MemPool.v
HashTable.v
Locks.v
Bytes.v
DataTypes.v
Net.v
Page.v
PageStore.v
Space.v
TFile.v
Smgr.v
RelCache.v
Tables.v
Express.v
Plan.v
Executor.v
SeqScan.v
Query.v
Statement.v
Tuple.v
Insert.v
InsertScan.v
Modify.v
Delete.v
Update.v
Portal.v
Session.v
BufferPool.v
PoolStore.v
