(* ===== verification/Prelude.v ===== *)
(** * A verification development for toadb

    toadb is a relational database server in C: a statement is parsed, analysed
    into a query tree, planned, and executed by nodes that pull rows from one
    another; rows lie in a column store of 4096-byte pages, in groups with one page
    per column, behind a buffer pool; transactions see the database through
    snapshots, and updates keep old versions in undo pages. This library models
    the core of the server, from the statement to the bytes of the pages, and proves
    what makes it correct - or, where it is not, what it does instead.

    ** The parts and their files

    A statement goes through, under [src/src/sqlcore]:

    - [Query] ([plan/query.c]): analysis. Range table, targets, condition trees and
      the tree of the tables to join.
    - [Plan] ([plan/plan.c], [AddJoinTblNode] of [query.c]): planning.
    - [Express] ([executor/execExpre.c], the row access of [executor/scan/scan.c],
      [node/node.c]) over [DataTypes] ([dictionary/dataTypes], [dictionary/express]):
      conditions and their operators.
    - [Executor] ([executor/executor.c], [execNestLoop.c], [execSelect.c],
      [execProject.c], [execInitNode.c], [execNodeProc.c]): the nodes of [SELECT].
    - [SeqScan] ([executor/scan/seqscan.c], [GetGroupMemberPagesOpt] of [buffer.c]):
      the scan of a table, which is the [Scanner] the executor is proved against.
    - [Tuple] ([storage/tuple/tuples.c], list searches of [node/parserNode.c]): values
      of a statement and columns of a row.
    - [Insert] ([executor/execModifyTable.c], [executor/scan/valueScan.c], the group
      search of [buffer.c]): [INSERT] from the statement to the groups of the table,
      whose stored form is the invariant [stored]; [InsertScan]: reading what was
      inserted.
    - [Modify] ([executor/execModifyTable.c], [FormNewRowsPos] and [FormOriginRowsPos]
      of [executor/execSelect.c], [plan.c]): [UPDATE] and [DELETE]; [Delete]: what a
      [DELETE] does to a stored table; [Update]: what an [UPDATE] does to a column and
      its older version.
    - [Statement]: analysis, planning and execution together.

    Below them lies the storage:

    - [Bytes]: blocks of memory as lists of bytes, little-endian loads and stores.
    - [Page] ([storage/tables/tablecom.h], [tables.c]): the format of a page, writing
      and reading rows.
    - [PageStore] ([storage/buffer/buffer.c], [undopage.c]): pages of a table, their
      locks and pins, inserting a row over a group, walking the versions of a row.
    - [Space] ([buffer.c]): extending a table, finding free space, the group file.
    - [BufferPool] ([util/bufferPool], [buffer.c]): the cache of pages; [PoolStore]
      proves that it implements the store of pages of [PageStore].

    - [TFile] ([storage/file/tfile.c]): files over a model of the system calls; [Smgr]
      ([storage/smgr/smgr.c]): the virtual files of the tables, their ring and the limit
      of open ones; [RelCache] ([storage/tables/tables.c], [buffer/relCache.c],
      [executor/exectable.c]): creating, opening and dropping tables and the cache of
      those open; [Tables]: what these three promise together. [PageStore] and
      [BufferPool] take the pages of a table's files as an array, which is what
      [Tables] shows of them.

    Around it lies the session: [Net] ([portal/netclient.c], [util/sock/tcpsock.c],
    [processor/dispatch/servprocess.c], [tools/tsql/tsqlclient.c]) has the messages
    between client and server, how they are cut into pieces and put together again.
    [Portal] ([portal/portal.c], the formatting of [netclient.c]) turns rows into messages
    and is the [Port] of the executor; [Session] puts executor, portal and messages
    together.

    Transactions: [Transaction] ([transaction/xtid.c], [transactionControl.c],
    [executor/execTransaction.c], [toadmain/toadmain.c]) and [Snapshot]
    ([transaction/snapshot.c]).

    Utilities, under [src/src/util]: [DList] ([dlist/list.c]), [ResourceOwner]
    ([resourceManger/resourceMgr.c]), [MemPool] ([mem/memPool.c], [mem/memstack.c]),
    [HashTable] ([hashtable/hashtab.c]), [Locks] ([ipc/lock]). This file,
    [Prelude], has the integers, the state monad and the automation they share.

    ** How the models correspond to the code

    A C function is a Rocq function of its name; a loop is a [Fixpoint] whose name
    says so. Code without effects is a function to [option], [None] being a fault: a
    load or store outside a block, an address that is not mapped, an arithmetic
    overflow. Code with state runs in [ST S], where [None] is a fault too. Structures
    are records with the fields the functions use. Integers are [Z], wrapped by
    [u32], [i32], [u64] where the code stores them. Pages, columns and group items are
    their bytes at the offsets of the packed structures. A pointer to a page is the
    page's fork and number; nodes, buffers, list nodes and memory blocks have
    addresses, since the code compares and shares them.

    Locks and pins of pages are recorded as events of a trace; the functions run as
    one worker, and what other workers may have done shows in the state they find.
    Transactions are stated over a shared array of contexts that the workers change
    access by access ([sys_step]): the state is stored before the id is drawn, the id
    drawn before it is stored, [TS_IDLE] stored before the high mark is raised. A
    snapshot is one step. [memcpy] between overlapping areas and freeing a block twice
    are faults; a table that does not fit its allocation faults where it is used.

    ** What the theorems show

    - From a statement to its rows: [SELECT] sends exactly the rows its text asks for
      ([Statement], [Query], [Executor]), and the client prints them ([Session]); the
      scan delivers the visible rows of the groups in order ([SeqScan]), a condition is
      evaluated to its meaning ([Express]), operators are typed ([DataTypes]). This is
      the case for conditions that keep a column on the left of an operator that tells its
      sides apart, compare no two columns of one table and have no [NOT], [<] or unary
      sign; other conditions change their meaning ([SimpleExpr_turned_round],
      [NOT_faults], [ExecSelectQual_selects_wrongly]). A scan reads columns in the order
      of the table over one page of groups; joins need scans that can be rescanned after
      their end ([ScannerLaws]), which a stored table's is only for one column
      ([rescan_double_free]).
    - Storage: what fills a page is what a scan of it reads, a row is inserted in all
      its columns or in none, free space is found first fit, a group names its member
      pages, a version walk ends at the first visible version ([Page], [PageStore],
      [Space], [Tuple]); the pool reads what the file holds, the clock sweep ends, and
      the pool implements the store ([BufferPool], [PoolStore]); [INSERT] adds its
      rows and nothing else, and its transaction reads them ([Insert], [InsertScan]);
      [DELETE], from its statement on, takes away exactly the rows its text selects, whole,
      while the scan of its [WHERE] columns goes on over the pages that change ([Delete]); [UPDATE] in place keeps the old version for the
      transactions that see it ([Update]).
    - Tables: a table that was created is found again on the disk with its description,
      its files are arrays of pages, dropping it removes them - and loses the tables
      opened later; what a missing file, too many columns and too many open files do
      ([Tables]).
    - Messages: what one side writes the other reads when it arrives in pieces of 8 to
      2048 bytes, for the client such that no copy overlaps ([Net]), and which
      messages make a side fault or stop.
    - Transactions: statements follow the session's state machine, ids stay
      consistent in every state the interleaved accesses reach; a snapshot taken while
      every worker is between two operations, into an array without left-over ids above
      its bound, isolates ([Transaction], [Snapshot]).
    - Utilities implement their specifications: lists sequences (deletion apart, which
      keeps the list variable), a hash table that fits its allocation a map, the lock
      table counters, the resource owner a queue; the memory pool hands out disjoint
      blocks.
    - Where the code does not do what it means to, the theorem states what it does:
      conditions that are dropped or turned round, dirty reads after a rollback, through
      a reused array or a late id, lost deletions, locks that stay held, memory freed
      too early or twice, overlapping copies, array overruns, a cache that forgets
      tables.

    ** Fuel

    A loop whose end depends on the state takes fuel and faults without it; its
    theorem says how much is enough and that it then returns: rounds of a join or a
    scan are bounded by the rows and groups ([product_bound], the counts in
    [SeqScan]), searches over pages by the file's page count, the clock sweep by the
    usage counts, the items of a page by [item_fuel] (a page has room for 253), the
    chain of undo pages by [chain_fuel_max], the version walk by the chain's length; a
    client that reads takes one turn per piece, and one per message of at least nine
    bytes of the 4096 it keeps; a search of the cache takes one turn per table there
    is, one of the ring of files one per virtual file.

    ** Parameters

    The name of the data directory ([DataDir]) and what [AllocMem] finds in a page it
    hands out ([stale]), [malloc] (a region outside the live blocks), the pthread read-write lock (a class
    with the behaviour POSIX documents), the outcome of [TryLockBufDesc] (what other
    workers hold), the contents of memory that was allocated and not written
    ([fresh], [behind]: what lies behind a column), the catalogue the analysis and the
    nodes look tables up in ([GetTableInfo], [tableDef]; [RelCache] models the functions
    that fill it), the portal
    ([Port], which [Portal] implements), and what a socket accepts ([send]) and delivers
    at a time. Each is an argument with its assumptions named, and the witnesses
    instantiate it.

    ** Not modelled

    - The parser ([parser/grammar.c], [parser/scanner.c]) is generated; its trees are the
      input of [Query], its rules ([grammar.y]) were read for what they can produce.
    - [util/hashtable/spooky-c.c] is a third-party hash: keys arrive hashed.
    - The setting up of sockets ([util/sock]), processes and shared memory
      ([processor/threadPool], [util/ipc/ipc.c], [util/shareMem]), logging
      ([miscellaneous/logger]) and the other client tools ([tools]) are calls into the
      operating system with little logic of their own; so are the Windows half of
      [tfile.c] and the dispatch of utility statements ([executor/execUtility.c]).
    - The single-process mode of the portal: its table is made from rows whose columns
      have gone back to the pages, with widths in memory that has been freed.
    - The printing functions of [node/parserNode.c].
    - NSM tables ([nsm_ExecInsert], [FormRowData], [WriteRowData]): the server creates PAX
      tables.
*)

From stdpp Require Export base tactics option list gmap.
From Stdlib Require Export ZArith Lia.

Open Scope Z_scope.

(** ** Machine integers

    Integers of the C code are kept as [Z]; the three wrap functions give the
    value a C object of that type holds after an assignment. *)

Definition u32 (z : Z) : Z := z mod 2 ^ 32.
Definition u64 (z : Z) : Z := z mod 2 ^ 64.
Definition i32 (z : Z) : Z := (z + 2 ^ 31) mod 2 ^ 32 - 2 ^ 31.

Definition in_u32 (z : Z) : Prop := 0 <= z < 2 ^ 32.
Definition in_u64 (z : Z) : Prop := 0 <= z < 2 ^ 64.
Definition in_i32 (z : Z) : Prop := - 2 ^ 31 <= z < 2 ^ 31.

Lemma u32_small z : in_u32 z -> u32 z = z.
Proof. apply Z.mod_small. Qed.

Lemma u64_small z : in_u64 z -> u64 z = z.
Proof. apply Z.mod_small. Qed.

Lemma i32_small z : in_i32 z -> i32 z = z.
Proof. unfold in_i32, i32. intros. rewrite Z.mod_small by lia. lia. Qed.

Lemma u32_range z : in_u32 (u32 z).
Proof. apply Z.mod_pos_bound. lia. Qed.

Lemma u64_range z : in_u64 (u64 z).
Proof. apply Z.mod_pos_bound. lia. Qed.

Lemma i32_range z : in_i32 (i32 z).
Proof.
  unfold in_i32, i32.
  pose proof (Z.mod_pos_bound (z + 2 ^ 31) (2 ^ 32)). lia.
Qed.

Lemma i32_u32 z : i32 (u32 z) = i32 z.
Proof. unfold i32, u32. rewrite Zplus_mod_idemp_l. done. Qed.

(** ** State and faults

    Pointer code runs in [ST S]: [None] is a fault (a load or store through a
    pointer that is not mapped, or an exhausted fuel), [Some (a, s)] a normal
    return of [a] in state [s]. *)

Definition ST (S A : Type) : Type := S -> option (A * S).

#[export] Instance ST_ret S : MRet (ST S) := fun A a s => Some (a, s).
#[export] Instance ST_bind S : MBind (ST S) := fun A B f m s =>
  match m s with Some (a, s') => f a s' | None => None end.

Definition st_get {S} : ST S S := fun s => Some (s, s).
Definition st_put {S} (s : S) : ST S unit := fun _ => Some (tt, s).
Definition st_gets {S A} (f : S -> A) : ST S A := fun s => Some (f s, s).
Definition st_modify {S} (f : S -> S) : ST S unit := fun s => Some (tt, f s).
Definition st_fault {S A} : ST S A := fun _ => None.
Definition st_lift {S A} (o : option A) : ST S A := fun s => (fun a => (a, s)) <$> o.

Lemma st_bind_some {S A B} (m : ST S A) (f : A -> ST S B) s a s' :
  m s = Some (a, s') -> (m ≫= f) s = f a s'.
Proof. intros H. unfold mbind, ST_bind. by rewrite H. Qed.

Lemma st_bind_none {S A B} (m : ST S A) (f : A -> ST S B) s : m s = None -> (m ≫= f) s = None.
Proof. intros H. unfold mbind, ST_bind. by rewrite H. Qed.

Lemma st_bind_inv {S A B} (m : ST S A) (f : A -> ST S B) s r :
  (m ≫= f) s = Some r -> exists a s', m s = Some (a, s') /\ f a s' = Some r.
Proof. unfold mbind, ST_bind. destruct (m s) as [[a s']|]; [eauto|done]. Qed.

Lemma st_ret_eq {S A} (a a' : A) (s s' : S) :
  a = a' -> s = s' -> mret (M := ST S) a s = Some (a', s').
Proof. by intros -> ->. Qed.

Lemma st_lift_run {S A} (o : option A) a (s : S) : o = Some a -> st_lift o s = Some (a, s).
Proof. by intros ->. Qed.

Lemma st_modify_run {S} (f : S -> S) s : st_modify f s = Some (tt, f s).
Proof. done. Qed.

(** One step of a computation by an equation of its first command. *)
Ltac run H := rewrite (st_bind_some _ _ _ _ _ H); cbv beta iota.
Ltac run_refl := erewrite st_bind_some by reflexivity; cbv beta iota.

(** ** Automation *)

Create HintDb toad.
Create Rewrite HintDb toad_len.
#[export] Hint Resolve u32_range u64_range i32_range : toad.
#[export] Hint Rewrite @length_app @length_take @length_drop @length_replicate
  @length_insert @length_map @length_seq : toad_len.

(** Lengths of list expressions reduced to arithmetic. *)
Ltac len := simpl in *; autorewrite with toad_len in *; try lia.

(** Case analysis on every [if]/[match] of the goal, keeping the equations. *)
Ltac cases :=
  repeat (first [case_bool_decide | case_match]); simplify_eq/=.

(** Closes goals that are one [simplify_eq] away from arithmetic. *)
Ltac arith := simplify_eq/=; try done; try lia.

(** Splits a conjunction and closes every part. *)
Ltac by_parts := intros; split_and?; try first [done | lia | by eauto].
