(* ===== verification/Transaction.v ===== *)
(** * Transaction ids and the transaction state machine

    Models [src/src/sqlcore/transaction/xtid.c] and [transactionControl.c] and
    the statement driver of [executor/execTransaction.c] and [toadmain.c].

    A worker sees the shared transaction ids ([info]), the shared array of
    transaction contexts ([procs]) and its thread-local pointer
    [myTransaction], kept here as an index into [procs]. *)

From S2P Require Import Prelude.

(** ** Data: xtid.h, transactionControl.h, tablecom.h, parserNode.h *)

Definition INVALID_XTID : Z := 2 ^ 64 - 1.
Definition CLEAN_XTID : Z := 0.
Definition XTID_ISINVALID (xid : Z) : bool := xid =? INVALID_XTID.

Inductive TransactionState := TRANS_RUNNING | TRANS_COMMITED | TRANS_ABORT | TRANS_UNKNOW.

Inductive TransactionFSMState :=
  TS_IDLE | TS_START | TS_BEGIN | TS_INPROCESS | TS_COMMIT | TS_ABORT | TS_UNKNOW.

#[export] Instance TransactionFSMState_eq_dec : EqDecision TransactionFSMState.
Proof. solve_decision. Defined.
#[export] Instance TransactionState_eq_dec : EqDecision TransactionState.
Proof. solve_decision. Defined.

Inductive TransactionFlag :=
  TF_BEGIN | TF_END | TF_COMMIT | TF_ROLLBACK | TF_SAVEPOINT | TF_UNKNOWN.

Record TransactionIDInfo := mkInfo {
  nextTransactionId : Z;
  lowLevelXtid : Z;
  highLevelXtid : Z
}.

Record TransactionContext := mkCtx {
  ts : TransactionFSMState;
  transactionID : Z;
  snapshot : Z
}.

Record RowPosition := mkRowPos { rp_segno : Z; rp_pageno : Z; rp_itemIndex : Z }.

Record TupleHeader := mkTuple {
  tmin : Z;
  tmax : Z;
  tinfo : Z;
  cid : Z;
  undo : RowPosition
}.

Record TState := mkT {
  info : TransactionIDInfo;
  procs : list TransactionContext;
  myTransaction : option nat
}.

#[export] Instance TransactionContext_eq_dec : EqDecision TransactionContext.
Proof. solve_decision. Defined.

(** [transactionInfo = {1,0,0}] of xtid.c. *)
Definition transactionInfo0 : TransactionIDInfo := mkInfo 1 0 0.

(** [InitTransactContext]: the array is zeroed, so every context is
    [TS_IDLE] with id 0; [maxNum <= 0] is refused. *)
Definition InitTransactContext (maxNum : Z) : option (list TransactionContext) :=
  if maxNum <=? 0 then None
  else Some (replicate (Z.to_nat maxNum) (mkCtx TS_IDLE 0 0)).

(** ** xtid.c *)

Definition GetNewTransactionID : ST TState Z := fun st =>
  let i := info st in
  Some (nextTransactionId i,
        mkT (mkInfo (u64 (nextTransactionId i + 1)) (lowLevelXtid i) (highLevelXtid i))
            (procs st) (myTransaction st)).

(** [atomic_compare_exchange64]: returns whether the swap happened, the value
    left in [*expected] and the value left in memory. *)
Definition atomic_compare_exchange64 (mem expected newval : Z) : bool * Z * Z :=
  (mem =? expected, mem, if mem =? expected then newval else mem).

(** The retry loop of [SetHighLevelTransaction]. [env k] is what the other
    workers do to the word between two accesses of this worker. *)
Fixpoint SetHigh_loop (env : nat -> Z -> Z) (fuel : nat) (k : nat)
    (mem highlevelXid xid : Z) : option (Z * Z) :=
  match fuel with
  | O => None
  | S fuel =>
      if xid <=? highlevelXid then Some (highlevelXid, mem)
      else
        let '(ok, cur, mem') := atomic_compare_exchange64 (env k mem) highlevelXid xid in
        if ok then Some (cur, mem') else SetHigh_loop env fuel (S k) mem' cur xid
  end.

Definition SetHighLevelTransaction_env (env : nat -> Z -> Z) (fuel : nat) (mem xid : Z)
    : option (Z * Z) :=
  if XTID_ISINVALID xid then Some (mem, mem) else SetHigh_loop env fuel 0 mem mem xid.

(** The mirror loop of [SetLowLevelTransaction]. *)
Fixpoint SetLow_loop (env : nat -> Z -> Z) (fuel : nat) (k : nat)
    (mem lowLevel xid : Z) : option (Z * Z) :=
  match fuel with
  | O => None
  | S fuel =>
      if lowLevel <=? xid then Some (lowLevel, mem)
      else
        let '(ok, cur, mem') := atomic_compare_exchange64 (env k mem) lowLevel xid in
        if ok then Some (cur, mem') else SetLow_loop env fuel (S k) mem' cur xid
  end.

Definition SetLowLevelTransaction_env (env : nat -> Z -> Z) (fuel : nat) (mem xid : Z)
    : option (Z * Z) :=
  if XTID_ISINVALID xid then Some (mem, mem) else SetLow_loop env fuel 0 mem mem xid.

(** Without interference the first exchange succeeds, so fuel 2 is enough
    ([SetHighLevelTransaction_run]). *)
Definition SetHighLevelTransaction (xid : Z) : ST TState Z := fun st =>
  let i := info st in
  '(r, high) ← SetHighLevelTransaction_env (fun _ v => v) 2 (highLevelXtid i) xid;
  Some (r, mkT (mkInfo (nextTransactionId i) (lowLevelXtid i) high)
               (procs st) (myTransaction st)).

Definition GetHighLevelTransaction (st : TState) : Z := highLevelXtid (info st).

(** "TODO": every transaction is reported as committed. *)
Definition GetTransactionState (xtid : Z) : TransactionState := TRANS_COMMITED.

(** ** transactionControl.c *)

(** The context [myTransaction] points to. *)
Definition my_ctx (st : TState) : option TransactionContext :=
  i ← myTransaction st; procs st !! i.

Definition set_procs (p : list TransactionContext) (st : TState) : TState :=
  mkT (info st) p (myTransaction st).
Definition set_my (m : option nat) (st : TState) : TState :=
  mkT (info st) (procs st) m.

(** A field update through [myTransaction]; a fault when it is [NULL] or
    points outside the array. *)
Definition upd_ctx (f : TransactionContext -> TransactionContext) : ST TState unit := fun st =>
  i ← myTransaction st; c ← procs st !! i;
  Some (tt, set_procs (<[i := f c]> (procs st)) st).

Definition set_ts (s : TransactionFSMState) : ST TState unit :=
  upd_ctx (fun c => mkCtx s (transactionID c) (snapshot c)).
Definition set_id (x : Z) : ST TState unit :=
  upd_ctx (fun c => mkCtx (ts c) x (snapshot c)).
Definition set_snapshot (n : Z) : ST TState unit :=
  upd_ctx (fun c => mkCtx (ts c) (transactionID c) n).

Definition get_ts : ST TState TransactionFSMState := fun st =>
  c ← my_ctx st; Some (ts c, st).
Definition get_id : ST TState Z := fun st =>
  c ← my_ctx st; Some (transactionID c, st).

(** The entry of [StartTransaction] and [BeginTransaction]: point
    [myTransaction] at slot [myIndex - 1] unless the index exceeds the array.
    [false] is the early return. *)
Definition attach (myIndex : Z) : ST TState bool := fun st =>
  if Z.of_nat (length (procs st)) <? myIndex then Some (false, st)
  else if myIndex <? 1 then None
  else
    ('(_, st') ← set_snapshot 0 (set_my (Some (Z.to_nat (myIndex - 1))) st);
     Some (true, st')).

Definition StartTransaction (myIndex : Z) : ST TState unit := fun st =>
  match myTransaction st with
  | Some _ => Some (tt, st)
  | None =>
      (ok ← attach myIndex;
       if (ok : bool) then
         s ← get_ts;
         if decide (s = TS_IDLE) then
           set_ts TS_START;; x ← GetNewTransactionID; set_id x
         else mret tt
       else mret tt) st
  end.

Definition BeginTransaction (myIndex : Z) : ST TState unit := fun st =>
  (ok ← (match myTransaction st with
         | Some _ => mret true
         | None => attach myIndex
         end);
   if (ok : bool) then
     s ← get_ts;
     match s with
     | TS_IDLE => x ← GetNewTransactionID; set_id x;; set_ts TS_BEGIN
     | TS_START => set_ts TS_BEGIN
     | _ => mret tt
     end
   else mret tt) st.

Definition EndTransaction : ST TState unit := fun st =>
  match myTransaction st with
  | None => Some (tt, st)
  | Some _ =>
      (s ← get_ts; if decide (s = TS_IDLE) then mret tt else set_ts TS_COMMIT) st
  end.

Definition AbortTransaction : ST TState unit := fun st =>
  match myTransaction st with
  | None => Some (tt, st)
  | Some _ =>
      (s ← get_ts; if decide (s = TS_IDLE) then mret tt else set_ts TS_ABORT) st
  end.

(** The branch shared by [TS_START], [TS_COMMIT] and [TS_ABORT]. *)
Definition finish_slot : ST TState unit :=
  set_ts TS_IDLE;; x ← get_id; SetHighLevelTransaction x;; st_modify (set_my None).

Definition FinishTransaction : ST TState unit := fun st =>
  match myTransaction st with
  | None => Some (tt, st)
  | Some _ =>
      (s ← get_ts;
       match s with
       | TS_START | TS_COMMIT | TS_ABORT => finish_slot
       | _ => mret tt
       end) st
  end.

Definition GetCurrentTransactionState (st : TState) : option TransactionFSMState :=
  match myTransaction st with
  | None => Some TS_IDLE
  | Some _ => ts <$> my_ctx st
  end.

Definition GetCurrentTransactionID (st : TState) : option Z :=
  match myTransaction st with
  | None => Some INVALID_XTID
  | Some _ => transactionID <$> my_ctx st
  end.

Definition ComputeXminTupleHeader (curr : Z) (tupHeader : TupleHeader) : TupleHeader :=
  mkTuple curr INVALID_XTID CLEAN_XTID 0 (undo tupHeader).

(** Returns the new version's header and the old version's. *)
Definition ComputeXmaxTupleHeader (curr : Z) (tupHeader oldHeader : TupleHeader)
    : TupleHeader * TupleHeader :=
  (mkTuple curr INVALID_XTID CLEAN_XTID 0 (undo tupHeader),
   mkTuple (tmin oldHeader) curr (tinfo oldHeader) 0 (undo oldHeader)).

(** ** execTransaction.c and the statement driver of toadmain.c *)

Definition ExecTransaction (myIndex : Z) (tag : TransactionFlag) : ST TState Z := fun st =>
  cur ← GetCurrentTransactionState st;
  (match tag with
   | TF_BEGIN => BeginTransaction myIndex;; mret 0
   | TF_END | TF_COMMIT =>
       if decide (cur = TS_IDLE) then mret (-1) else EndTransaction;; mret 0
   | TF_ROLLBACK =>
       if decide (cur = TS_IDLE) then mret (-1) else AbortTransaction;; mret 0
   | TF_SAVEPOINT => mret 0
   | TF_UNKNOWN => mret (-1)
   end) st.

(** What one planned query does to the transaction state: a transaction
    command, or anything else, which leaves it alone. *)
Inductive QueryKind := QTransaction (tag : TransactionFlag) | QOther.

Definition exec_query (myIndex : Z) (q : QueryKind) : ST TState unit :=
  match q with
  | QTransaction tag => ExecTransaction myIndex tag;; mret tt
  | QOther => mret tt
  end.

(** [ToadMainEntry]: the queries of one input line, each bracketed by
    [StartTransaction] and [FinishTransaction]. *)
Fixpoint exec_queries (myIndex : Z) (qs : list QueryKind) : ST TState unit :=
  match qs with
  | [] => mret tt
  | q :: qs =>
      StartTransaction myIndex;; exec_query myIndex q;; FinishTransaction;;
      exec_queries myIndex qs
  end.

Definition ToadMainEntry (myIndex : Z) (qs : list QueryKind) : ST TState unit :=
  StartTransaction myIndex;; exec_queries myIndex qs;; FinishTransaction.

(** ** Behaviour of the single operations *)

Lemma my_ctx_some i c st :
  myTransaction st = Some i -> procs st !! i = Some c -> my_ctx st = Some c.
Proof. intros H1 H2. unfold my_ctx. by rewrite H1. Qed.

Lemma SetHighLevelTransaction_run xid st :
  SetHighLevelTransaction xid st =
  Some (highLevelXtid (info st),
        mkT (mkInfo (nextTransactionId (info st)) (lowLevelXtid (info st))
               (if XTID_ISINVALID xid then highLevelXtid (info st)
                else Z.max (highLevelXtid (info st)) xid))
            (procs st) (myTransaction st)).
Proof.
  unfold SetHighLevelTransaction, SetHighLevelTransaction_env.
  destruct (XTID_ISINVALID xid); simpl; [done|].
  destruct (xid <=? highLevelXtid (info st)) eqn:E; simpl.
  - do 3 f_equal. apply Z.leb_le in E. f_equal. lia.
  - rewrite Z.eqb_refl. simpl. do 3 f_equal. apply Z.leb_gt in E. f_equal. lia.
Qed.

(** The retry loop under interference that only raises the word: it stops
    after at most [xid - mem] retries and never lowers the mark. *)
Lemma SetHigh_loop_ok env fuel k mem h xid :
  (forall j v, v <= env j v) -> h <= mem -> Z.max 0 (xid - h) < Z.of_nat fuel ->
  exists r mem', SetHigh_loop env fuel k mem h xid = Some (r, mem') /\ xid <= mem' /\ mem <= mem'.
Proof.
  intros Henv. revert k mem h. induction fuel as [|fuel IH]; intros k mem h Hle Hf; [lia|].
  simpl. destruct (xid <=? h) eqn:E.
  { apply Z.leb_le in E. exists h, mem. by_parts. }
  apply Z.leb_gt in E. pose proof (Henv k mem).
  destruct (Z.eqb_spec (env k mem) h).
  - exists (env k mem), xid. by_parts.
  - destruct (IH (S k) (env k mem) (env k mem)) as (r & m' & ? & ? & ?); [lia|lia|].
    exists r, m'. by_parts.
Qed.

Lemma SetLow_loop_ok env fuel k mem l xid :
  (forall j v, env j v <= v) -> mem <= l -> Z.max 0 (l - xid) < Z.of_nat fuel ->
  exists r mem', SetLow_loop env fuel k mem l xid = Some (r, mem') /\ mem' <= xid /\ mem' <= mem.
Proof.
  intros Henv. revert k mem l. induction fuel as [|fuel IH]; intros k mem l Hle Hf; [lia|].
  simpl. destruct (l <=? xid) eqn:E.
  { apply Z.leb_le in E. exists l, mem. by_parts. }
  apply Z.leb_gt in E. pose proof (Henv k mem).
  destruct (Z.eqb_spec (env k mem) l).
  - exists (env k mem), xid. by_parts.
  - destruct (IH (S k) (env k mem) (env k mem)) as (r & m' & ? & ? & ?); [lia|lia|].
    exists r, m'. by_parts.
Qed.


(** Symbolic execution: the state of worker [w] in the form
    [mkT i (<[w := c]> p) (Some w)]. *)
Section focus.
Context (w : nat) (p : list TransactionContext) (Hw : (w < length p)%nat).

Lemma focus_upd f i c :
    upd_ctx f (mkT i (<[w := c]> p) (Some w)) = Some (tt, mkT i (<[w := f c]> p) (Some w)).
  Proof using Hw.
    unfold upd_ctx, set_procs; simpl. rewrite list_lookup_insert_eq by done. simpl.
    by rewrite list_insert_insert_eq.
  Qed.

Lemma focus_ctx i c : my_ctx (mkT i (<[w := c]> p) (Some w)) = Some c.
  Proof using Hw. unfold my_ctx; simpl. by rewrite list_lookup_insert_eq. Qed.

Lemma focus_attach i c :
    attach (Z.of_nat w + 1) (mkT i (<[w := c]> p) None) =
    Some (true, mkT i (<[w := mkCtx (ts c) (transactionID c) 0]> p) (Some w)).
  Proof using Hw.
    unfold attach. simpl. rewrite length_insert.
    destruct (Z.ltb_spec (Z.of_nat (length p)) (Z.of_nat w + 1)); [lia|].
    destruct (Z.ltb_spec (Z.of_nat w + 1) 1); [lia|].
    replace (Z.to_nat (Z.of_nat w + 1 - 1)) with w by lia.
    unfold set_snapshot, set_my; simpl. by rewrite focus_upd.
  Qed.
End focus.

#[local] Ltac focus_step :=
  first [rewrite focus_upd by done | rewrite focus_ctx by done | rewrite focus_attach by done
        | rewrite SetHighLevelTransaction_run];
  cbv beta iota zeta delta [mbind ST_bind mret ST_ret option_bind option_ret option_fmap fmap
       option_map info procs myTransaction ts transactionID snapshot].

#[local] Ltac focus_run :=
  unfold StartTransaction, BeginTransaction, EndTransaction, AbortTransaction, FinishTransaction,
    finish_slot, ExecTransaction, GetCurrentTransactionState, get_ts, get_id, set_ts, set_id,
    set_snapshot, GetNewTransactionID, st_modify, set_my;
  cbv beta iota zeta delta [mbind ST_bind mret ST_ret option_bind option_ret option_fmap fmap
       option_map info procs myTransaction ts transactionID snapshot];
  repeat (focus_step || case_decide || case_match); simplify_eq/=; try done.

Section operations.
Context (w : nat) (p : list TransactionContext) (Hw : (w < length p)%nat).
Context (i : TransactionIDInfo) (c : TransactionContext).
Let myIndex := Z.of_nat w + 1.
Let idle := mkT i (<[w := c]> p) None.
Let busy := mkT i (<[w := c]> p) (Some w).
Let i' := mkInfo (u64 (nextTransactionId i + 1)) (lowLevelXtid i) (highLevelXtid i).
Let at_slot j s x n m := mkT j (<[w := mkCtx s x n]> p) m.
Let raised := mkInfo (nextTransactionId i) (lowLevelXtid i)
    (if XTID_ISINVALID (transactionID c) then highLevelXtid i
     else Z.max (highLevelXtid i) (transactionID c)).

Lemma Start_idle :
    ts c = TS_IDLE ->
    StartTransaction myIndex idle =
    Some (tt, at_slot i' TS_START (nextTransactionId i) 0 (Some w)).
  Proof using Hw. intros Hc. unfold idle, myIndex, at_slot, i'. focus_run. Qed.

Lemma Start_busy : StartTransaction myIndex busy = Some (tt, busy).
  Proof using. done. Qed.

Lemma Begin_idle :
    ts c = TS_IDLE ->
    BeginTransaction myIndex idle =
    Some (tt, at_slot i' TS_BEGIN (nextTransactionId i) 0 (Some w)).
  Proof using Hw. intros Hc. unfold idle, myIndex, at_slot, i'. focus_run. Qed.

Lemma Begin_busy :
    ts c <> TS_IDLE ->
    BeginTransaction myIndex busy =
    Some (tt, if decide (ts c = TS_START)
              then at_slot i TS_BEGIN (transactionID c) (snapshot c) (Some w) else busy).
  Proof using Hw. intros Hc. unfold busy, myIndex, at_slot. focus_run; congruence. Qed.

Lemma End_busy :
    ts c <> TS_IDLE ->
    EndTransaction busy =
    Some (tt, at_slot i TS_COMMIT (transactionID c) (snapshot c) (Some w)).
  Proof using Hw. intros Hc. unfold busy, at_slot. focus_run. Qed.

Lemma Abort_busy :
    ts c <> TS_IDLE ->
    AbortTransaction busy =
    Some (tt, at_slot i TS_ABORT (transactionID c) (snapshot c) (Some w)).
  Proof using Hw. intros Hc. unfold busy, at_slot. focus_run. Qed.

Lemma Finish_busy :
    FinishTransaction busy =
    Some (tt, match ts c with
              | TS_START | TS_COMMIT | TS_ABORT =>
                  at_slot raised TS_IDLE (transactionID c) (snapshot c) None
              | _ => busy
              end).
  Proof using Hw. unfold busy, raised, at_slot. destruct (ts c) eqn:E; focus_run. Qed.

Lemma Exec_idle tag :
    ts c = TS_IDLE ->
    ExecTransaction myIndex tag idle =
    Some (match tag with TF_BEGIN | TF_SAVEPOINT => 0 | _ => -1 end,
          match tag with
          | TF_BEGIN => at_slot i' TS_BEGIN (nextTransactionId i) 0 (Some w)
          | _ => idle
          end).
  Proof using Hw.
    intros Hc. unfold ExecTransaction; simpl.
    destruct tag; simpl; try done. unfold mbind at 1, ST_bind. by rewrite Begin_idle.
  Qed.

Lemma Exec_busy tag :
    ts c <> TS_IDLE ->
    ExecTransaction myIndex tag busy =
    Some (match tag with TF_UNKNOWN => -1 | _ => 0 end,
          match tag with
          | TF_BEGIN =>
              if decide (ts c = TS_START)
              then at_slot i TS_BEGIN (transactionID c) (snapshot c) (Some w) else busy
          | TF_END | TF_COMMIT => at_slot i TS_COMMIT (transactionID c) (snapshot c) (Some w)
          | TF_ROLLBACK => at_slot i TS_ABORT (transactionID c) (snapshot c) (Some w)
          | _ => busy
          end).
  Proof using Hw.
    intros Hc. unfold ExecTransaction, GetCurrentTransactionState, busy at 1; simpl.
    unfold busy at 1. rewrite focus_ctx by done; simpl.
    destruct tag; simpl; rewrite ?decide_False by done; try done;
      unfold mbind at 1, ST_bind; fold busy; by rewrite ?Begin_busy, ?End_busy, ?Abort_busy.
  Qed.
End operations.

(** ** Operations as sequences of accesses

    Other workers read the shared array and the shared ids while an operation
    is under way. What they can observe of [StartTransaction],
    [BeginTransaction] and [FinishTransaction] is the order of the accesses to
    [ts], [transactionID], the id counter and the high mark, so an operation
    is cut there: the first access is made by the call, [Pc] says which one is
    next. What only the worker itself reads and writes ([myTransaction], the
    [snapshot] flag, its own [ts] when it tests it) needs no cut. *)

Inductive Action := AStart | AExec (tag : TransactionFlag) | AFinish.

Definition run_action (w : nat) (a : Action) : ST TState unit :=
  let myIndex := Z.of_nat w + 1 in
  match a with
  | AStart => StartTransaction myIndex
  | AExec tag => ExecTransaction myIndex tag;; mret tt
  | AFinish => FinishTransaction
  end.

Inductive Pc :=
| P_ready                  (* between two operations *)
| P_start_draw             (* [TS_START] is stored, the id is not drawn yet *)
| P_start_store (x : Z)    (* id [x] is drawn, the context holds the old one *)
| P_begin_store (x : Z)    (* the same in [BeginTransaction], [ts] still [TS_IDLE] *)
| P_begin_ts               (* the id is stored, [TS_BEGIN] is not *)
| P_finish_load            (* [TS_IDLE] is stored, the high mark is not read *)
| P_finish_cas (h : Z)     (* the high mark was read as [h] *)
| P_finish_null.           (* the mark is raised, [myTransaction] still set *)

#[export] Instance Pc_eq_dec : EqDecision Pc.
Proof. solve_decision. Defined.

Definition start_first (myIndex : Z) : ST TState Pc := fun st =>
  match myTransaction st with
  | Some _ => Some (P_ready, st)
  | None =>
      (ok ← attach myIndex;
       if (ok : bool) then
         s ← get_ts;
         if decide (s = TS_IDLE) then set_ts TS_START;; mret P_start_draw else mret P_ready
       else mret P_ready) st
  end.

Definition begin_first (myIndex : Z) : ST TState Pc := fun st =>
  (ok ← (match myTransaction st with
         | Some _ => mret true
         | None => attach myIndex
         end);
   if (ok : bool) then
     s ← get_ts;
     match s with
     | TS_IDLE => x ← GetNewTransactionID; mret (P_begin_store x)
     | TS_START => set_ts TS_BEGIN;; mret P_ready
     | _ => mret P_ready
     end
   else mret P_ready) st.

Definition finish_first : ST TState Pc := fun st =>
  match myTransaction st with
  | None => Some (P_ready, st)
  | Some _ =>
      (s ← get_ts;
       match s with
       | TS_START | TS_COMMIT | TS_ABORT => set_ts TS_IDLE;; mret P_finish_load
       | _ => mret P_ready
       end) st
  end.

Definition exec_first (myIndex : Z) (tag : TransactionFlag) : ST TState Pc := fun st =>
  cur ← GetCurrentTransactionState st;
  (match tag with
   | TF_BEGIN => begin_first myIndex
   | TF_END | TF_COMMIT =>
       if decide (cur = TS_IDLE) then mret P_ready else EndTransaction;; mret P_ready
   | TF_ROLLBACK =>
       if decide (cur = TS_IDLE) then mret P_ready else AbortTransaction;; mret P_ready
   | TF_SAVEPOINT | TF_UNKNOWN => mret P_ready
   end) st.

Definition first_access (w : nat) (a : Action) : ST TState Pc :=
  let myIndex := Z.of_nat w + 1 in
  match a with
  | AStart => start_first myIndex
  | AExec tag => exec_first myIndex tag
  | AFinish => finish_first
  end.

(** The exchange of [SetHighLevelTransaction] on the shared mark. *)
Definition cas_high (expected newval : Z) : ST TState (bool * Z) := fun st =>
  let i := info st in
  let '(ok, cur, high) := atomic_compare_exchange64 (highLevelXtid i) expected newval in
  Some ((ok, cur), mkT (mkInfo (nextTransactionId i) (lowLevelXtid i) high)
                       (procs st) (myTransaction st)).

Definition next_access (pc : Pc) : ST TState Pc :=
  match pc with
  | P_ready => mret P_ready
  | P_start_draw => x ← GetNewTransactionID; mret (P_start_store x)
  | P_start_store x => set_id x;; mret P_ready
  | P_begin_store x => set_id x;; mret P_begin_ts
  | P_begin_ts => set_ts TS_BEGIN;; mret P_ready
  | P_finish_load =>
      x ← get_id; h ← st_gets GetHighLevelTransaction;
      mret (if XTID_ISINVALID x then P_finish_null else P_finish_cas h)
  | P_finish_cas h =>
      x ← get_id;
      if x <=? h then mret P_finish_null
      else '(ok, cur) ← cas_high h x; mret (if (ok : bool) then P_finish_null else P_finish_cas cur)
  | P_finish_null => st_modify (set_my None);; mret P_ready
  end.

(** An operation that is not interrupted: its accesses one after the other. *)
Fixpoint drive (fuel : nat) (pc : Pc) : ST TState unit :=
  match pc with
  | P_ready => mret tt
  | _ => match fuel with O => st_fault | S fuel => pc' ← next_access pc; drive fuel pc' end
  end.

#[local] Ltac access_run :=
  unfold first_access, exec_first, start_first, begin_first, finish_first, next_access, cas_high,
    atomic_compare_exchange64, GetHighLevelTransaction, st_gets in *;
  focus_run.

Section accesses.
Context (w : nat) (p : list TransactionContext) (Hw : (w < length p)%nat).
Context (i : TransactionIDInfo) (c : TransactionContext).
Let at_slot j s x n m := mkT j (<[w := mkCtx s x n]> p) m.
Let drawn := mkInfo (u64 (nextTransactionId i + 1)) (lowLevelXtid i) (highLevelXtid i).

Lemma first_idle a :
    ts c = TS_IDLE ->
    first_access w a (mkT i (<[w := c]> p) None) =
    Some match a with
         | AStart => (P_start_draw, at_slot i TS_START (transactionID c) 0 (Some w))
         | AExec TF_BEGIN =>
             (P_begin_store (nextTransactionId i), at_slot drawn TS_IDLE (transactionID c) 0 (Some w))
         | _ => (P_ready, mkT i (<[w := c]> p) None)
         end.
  Proof using Hw.
    intros Hc. unfold at_slot, drawn. destruct a as [|[]|]; access_run.
  Qed.

Lemma first_busy a :
    ts c <> TS_IDLE ->
    first_access w a (mkT i (<[w := c]> p) (Some w)) =
    Some match a with
         | AExec TF_BEGIN =>
             (P_ready, if decide (ts c = TS_START)
                       then at_slot i TS_BEGIN (transactionID c) (snapshot c) (Some w)
                       else mkT i (<[w := c]> p) (Some w))
         | AExec (TF_END | TF_COMMIT) =>
             (P_ready, at_slot i TS_COMMIT (transactionID c) (snapshot c) (Some w))
         | AExec TF_ROLLBACK =>
             (P_ready, at_slot i TS_ABORT (transactionID c) (snapshot c) (Some w))
         | AFinish =>
             if decide (ts c = TS_START \/ ts c = TS_COMMIT \/ ts c = TS_ABORT)
             then (P_finish_load, at_slot i TS_IDLE (transactionID c) (snapshot c) (Some w))
             else (P_ready, mkT i (<[w := c]> p) (Some w))
         | _ => (P_ready, mkT i (<[w := c]> p) (Some w))
         end.
  Proof using Hw.
    intros Hc. unfold at_slot. destruct c as [[] x n]; simpl in *;
      destruct a as [|[]|]; access_run; naive_solver.
  Qed.

Lemma next_run pc :
    next_access pc (mkT i (<[w := c]> p) (Some w)) =
    Some match pc with
         | P_ready => (P_ready, mkT i (<[w := c]> p) (Some w))
         | P_start_draw =>
             (P_start_store (nextTransactionId i), mkT drawn (<[w := c]> p) (Some w))
         | P_start_store x => (P_ready, at_slot i (ts c) x (snapshot c) (Some w))
         | P_begin_store x => (P_begin_ts, at_slot i (ts c) x (snapshot c) (Some w))
         | P_begin_ts => (P_ready, at_slot i TS_BEGIN (transactionID c) (snapshot c) (Some w))
         | P_finish_load =>
             (if XTID_ISINVALID (transactionID c) then P_finish_null
              else P_finish_cas (highLevelXtid i), mkT i (<[w := c]> p) (Some w))
         | P_finish_cas h =>
             if transactionID c <=? h then (P_finish_null, mkT i (<[w := c]> p) (Some w))
             else if highLevelXtid i =? h
             then (P_finish_null,
                   mkT (mkInfo (nextTransactionId i) (lowLevelXtid i) (transactionID c))
                       (<[w := c]> p) (Some w))
             else (P_finish_cas (highLevelXtid i), mkT i (<[w := c]> p) (Some w))
         | P_finish_null => (P_ready, mkT i (<[w := c]> p) None)
         end.
  Proof using Hw.
    unfold at_slot, drawn. destruct pc; access_run. all: destruct i; done.
  Qed.
End accesses.

(** The pointer a worker keeps between two operations. *)
Definition own_slot (w : nat) (c : TransactionContext) : option nat :=
  if decide (ts c = TS_IDLE) then None else Some w.

#[local] Arguments next_access : simpl never.

(** Without interference the accesses compose to the whole operation; three
    after the first are enough. *)
Lemma accesses_compose w a i p c :
  (w < length p)%nat ->
  (first_access w a ≫= drive 3) (mkT i (<[w := c]> p) (own_slot w c)) =
  run_action w a (mkT i (<[w := c]> p) (own_slot w c)).
Proof.
  intros Hw. unfold mbind at 1, ST_bind, own_slot. case_decide as Hc.
  - rewrite first_idle by done.
    destruct a as [|tag|]; unfold run_action; cbv zeta;
      [rewrite Start_idle by done| unfold mbind, ST_bind; rewrite Exec_idle by done; destruct tag|];
      simpl; unfold mbind, ST_bind; repeat (rewrite next_run by done; simpl); done.
  - rewrite first_busy by done.
    destruct a as [|tag|]; unfold run_action; cbv zeta.
    + done.
    + unfold mbind, ST_bind. rewrite Exec_busy by done. by destruct tag; simpl.
    + rewrite Finish_busy by done. case_decide as Hend.
      * assert (ts c <> TS_BEGIN /\ ts c <> TS_INPROCESS /\ ts c <> TS_UNKNOW) as (? & ? & ?)
          by (split_and!; intuition congruence).
        simpl. unfold mbind, ST_bind. rewrite next_run by done. simpl.
        destruct (XTID_ISINVALID (transactionID c)) eqn:E; simpl.
        { rewrite ?next_run by done. simpl. destruct i, c as [[] x k]; naive_solver. }
        rewrite ?next_run by done. simpl. rewrite Z.eqb_refl.
        destruct (Z.leb_spec (transactionID c) (highLevelXtid i)); simpl;
          rewrite ?next_run by done; simpl;
          destruct i as [nx lo hi], c as [[] x k]; simpl in *; try done;
          first [rewrite Z.max_l by lia; done|rewrite Z.max_r by lia; done].
      * destruct c as [[] x k]; simpl in *; naive_solver.
Qed.

(** ** The system of workers

    Worker [w] runs with [myIndex = w + 1] (CreeateWorkerThread sets
    [tw_id = index + 1]). A step is one access of one worker: the first of an
    operation it calls, or the next of the one it is in. The workers' accesses
    interleave freely. *)

Record System := mkSys {
  sinfo : TransactionIDInfo;
  sprocs : list TransactionContext;
  slocals : list (option nat);
  spcs : list Pc
}.

Definition view (s : System) (w : nat) : TState :=
  mkT (sinfo s) (sprocs s) (default None (slocals s !! w)).

Definition unview (s : System) (w : nat) (pc : Pc) (t : TState) : System :=
  mkSys (info t) (procs t) (<[w := myTransaction t]> (slocals s)) (<[w := pc]> (spcs s)).

Definition init_system (n : nat) : System :=
  mkSys transactionInfo0 (replicate n (mkCtx TS_IDLE 0 0)) (replicate n None)
        (replicate n P_ready).

Inductive sys_step : System -> System -> Prop :=
| Sys_call s w a pc t :
    spcs s !! w = Some P_ready ->
    first_access w a (view s w) = Some (pc, t) ->
    sys_step s (unview s w pc t)
| Sys_next s w pc pc' t :
    spcs s !! w = Some pc -> pc <> P_ready ->
    next_access pc (view s w) = Some (pc', t) ->
    sys_step s (unview s w pc' t).

(** The id a worker holds: from its draw until the mark has been raised past
    it. While the id is being stored the context still shows the old one. *)
Definition owned (pc : Pc) (c : TransactionContext) : option Z :=
  match pc with
  | P_ready => if decide (ts c = TS_IDLE) then None else Some (transactionID c)
  | P_start_draw | P_finish_null => None
  | P_start_store x | P_begin_store x => Some x
  | P_begin_ts | P_finish_load | P_finish_cas _ => Some (transactionID c)
  end.

(** A transaction id is live while a worker holds it; it is finished when it
    was issued and is not live. *)
Definition live_at (s : System) (w : nat) (x : Z) : Prop :=
  exists pc c, spcs s !! w = Some pc /\ sprocs s !! w = Some c /\ owned pc c = Some x.
Definition live (s : System) (x : Z) : Prop := exists w, live_at s w x.
Definition issued (s : System) (x : Z) : Prop := 1 <= x < nextTransactionId (sinfo s).
Definition finished (s : System) (x : Z) : Prop := issued s x /\ ~ live s x.

Definition live_ids (s : System) : list Z :=
  omap id (zip_with owned (spcs s) (sprocs s)).

Lemma elem_of_live_ids s x : x ∈ live_ids s <-> live s x.
Proof.
  unfold live_ids, live, live_at. rewrite list_elem_of_omap. split.
  - intros (o & Ho & Hx). unfold id in Hx. subst o.
    apply list_elem_of_lookup in Ho as [w Hw]. exists w.
    by apply lookup_zip_with_Some in Hw as (pc & c & ? & ? & ?); eauto.
  - intros (w & pc & c & Hpc & Hc & Ho). exists (Some x). split; [|done].
    apply list_elem_of_lookup. exists w. apply lookup_zip_with_Some. eauto.
Qed.

#[export] Instance live_dec s x : Decision (live s x).
Proof.
  refine (cast_if (decide (x ∈ live_ids s))); by rewrite <- elem_of_live_ids.
Defined.

#[export] Instance finished_dec s x : Decision (finished s x).
Proof. unfold finished, issued. apply _. Defined.

(** What each access leaves behind in the worker's slot. *)
Definition slot_ok (w : nat) (high : Z) (pc : Pc) (c : TransactionContext) (m : option nat) : Prop :=
  match pc with
  | P_ready => m = own_slot w c
  | P_start_draw => ts c = TS_START /\ m = Some w
  | P_start_store x => ts c = TS_START /\ m = Some w /\ transactionID c <> x
  | P_finish_cas h => ts c = TS_IDLE /\ m = Some w /\ h <= high
  | _ => ts c = TS_IDLE /\ m = Some w
  end.

Record sys_inv (n : nat) (s : System) : Prop := {
  inv_len : length (slocals s) = length (sprocs s) /\ length (spcs s) = length (sprocs s);
  inv_slot : forall w pc c m, spcs s !! w = Some pc -> sprocs s !! w = Some c ->
    slocals s !! w = Some m -> slot_ok w (highLevelXtid (sinfo s)) pc c m;
  inv_shown : forall w c, sprocs s !! w = Some c ->
    0 <= transactionID c < nextTransactionId (sinfo s) /\
    forall w' x, w' <> w -> live_at s w' x -> x <> transactionID c;
  inv_issued : forall w x, live_at s w x -> issued s x;
  inv_distinct : forall w w' x, live_at s w x -> live_at s w' x -> w = w';
  inv_next : 1 <= nextTransactionId (sinfo s) <= 1 + Z.of_nat n;
  inv_high : 0 <= highLevelXtid (sinfo s) < nextTransactionId (sinfo s);
  inv_covered : forall x, finished s x -> x <= highLevelXtid (sinfo s)
}.

Lemma init_system_live n w x : ~ live_at (init_system n) w x.
Proof.
  intros (pc & c & [-> _]%lookup_replicate & [-> _]%lookup_replicate & Ho). done.
Qed.

Lemma init_system_inv n : sys_inv 0 (init_system n).
Proof.
  split; simpl.
  - by rewrite !length_replicate.
  - by intros w pc c m [-> _]%lookup_replicate [-> _]%lookup_replicate [-> _]%lookup_replicate.
  - intros w c [-> _]%lookup_replicate. simpl. split; [lia|].
    intros w' x _ Hl. by apply init_system_live in Hl.
  - intros w x Hl. by apply init_system_live in Hl.
  - intros w w' x Hl. by apply init_system_live in Hl.
  - lia.
  - lia.
  - intros x [Hx _]. unfold issued in Hx. simpl in Hx. lia.
Qed.

(** ** The invariant is preserved *)

(** The system after worker [w] has moved to [pc], leaving its slot [c], its
    pointer [m] and the ids [i] behind. *)
Definition moved (s : System) (w : nat) (i : TransactionIDInfo) (pc : Pc)
    (c : TransactionContext) (m : option nat) : System :=
  mkSys i (<[w := c]> (sprocs s)) (<[w := m]> (slocals s)) (<[w := pc]> (spcs s)).

Section moves.
Context (n : nat) (s : System) (w : nat) (pc : Pc) (c : TransactionContext).
Context (Hinv : sys_inv n s) (Hpc : spcs s !! w = Some pc) (Hc : sprocs s !! w = Some c).

Lemma slot_bounds :
    (w < length (sprocs s))%nat /\ (w < length (slocals s))%nat /\ (w < length (spcs s))%nat.
  Proof using All.
    pose proof (inv_len _ _ Hinv) as [-> ->]. apply lookup_lt_Some in Hc. done.
  Qed.

Lemma live_at_moved i pc' c' m' w' x :
    live_at (moved s w i pc' c' m') w' x <->
    (w' = w /\ owned pc' c' = Some x) \/ (w' <> w /\ live_at s w' x).
  Proof using All.
    pose proof slot_bounds as (? & ? & ?). unfold live_at; simpl.
    destruct (decide (w' = w)) as [->|Hne].
    - rewrite !list_lookup_insert_eq by done. naive_solver.
    - rewrite !list_lookup_insert_ne by done. naive_solver.
  Qed.

  (** One lemma for every access. *)
Lemma moved_inv i pc' c' m' :
    slot_ok w (highLevelXtid i) pc' c' m' ->
    nextTransactionId (sinfo s) <= nextTransactionId i <= 2 + Z.of_nat n ->
    highLevelXtid (sinfo s) <= highLevelXtid i < nextTransactionId i ->
    (transactionID c' = transactionID c \/ owned pc c = Some (transactionID c')) ->
    (owned pc' c' = None \/ owned pc' c' = owned pc c \/
     owned pc' c' = Some (nextTransactionId (sinfo s)) /\
       nextTransactionId (sinfo s) < nextTransactionId i) ->
    (forall x, 1 <= x < nextTransactionId i -> owned pc' c' <> Some x ->
       (nextTransactionId (sinfo s) <= x \/ owned pc c = Some x) -> x <= highLevelXtid i) ->
    sys_inv (S n) (moved s w i pc' c' m').
  Proof using All.
    intros Hslot Hnext Hhigh Hid Hown Hcov.
    pose proof slot_bounds as (? & ? & ?).
    pose proof (inv_next _ _ Hinv) as Hn. pose proof (inv_high _ _ Hinv) as Hh.
    assert (Hmine : forall x, owned pc c = Some x -> live_at s w x) by (unfold live_at; eauto).
    assert (Hdrawn : forall w' x, live_at s w' x -> 1 <= x < nextTransactionId (sinfo s))
      by (apply (inv_issued _ _ Hinv)).
    assert (Hnew : forall x, owned pc' c' = Some x ->
      1 <= x < nextTransactionId i /\
      (forall w', w' <> w -> ~ live_at s w' x) /\
      (forall w' c0, w' <> w -> sprocs s !! w' = Some c0 -> x <> transactionID c0)).
    { intros x Hx. destruct Hown as [E|[E|[E Hlt]]]; rewrite E in Hx; [done| |simplify_eq].
      - pose proof (Hdrawn _ _ (Hmine _ Hx)). split_and!; [lia|lia| |].
        + intros w' Hne Hl. apply Hne. by apply (inv_distinct _ _ Hinv) with x; auto.
        + intros w' c0 Hne Hz. apply (inv_shown _ _ Hinv w' c0 Hz) with w; auto.
      - split_and!; [lia|lia| |].
        + intros w' _ Hl%Hdrawn. lia.
        + intros w' c0 _ Hz. pose proof (inv_shown _ _ Hinv w' c0 Hz) as [? _]. lia. }
    assert (Hshow : 0 <= transactionID c' < nextTransactionId i /\
      forall w' x, w' <> w -> live_at s w' x -> x <> transactionID c').
    { pose proof (inv_shown _ _ Hinv w c Hc) as [Hb Hd].
      destruct Hid as [->|Hx]; [split; [lia|done]|].
      pose proof (Hdrawn _ _ (Hmine _ Hx)). split; [lia|].
      intros w' x Hne Hl ->. apply Hne. by apply (inv_distinct _ _ Hinv) with (transactionID c'); auto. }
    split; simpl.
    - pose proof (inv_len _ _ Hinv). by rewrite !length_insert.
    - intros w' pc0 c0 m0. destruct (decide (w' = w)) as [->|Hne].
      + rewrite !list_lookup_insert_eq by done. by intros [= <-] [= <-] [= <-].
      + rewrite !list_lookup_insert_ne by done. intros Ha Hb Hcc.
        pose proof (inv_slot _ _ Hinv _ _ _ _ Ha Hb Hcc) as Hs.
        destruct pc0; simpl in *; try done. destruct_and!. split_and!; [done..|lia].
    - intros w' c0. destruct (decide (w' = w)) as [->|Hne].
      + rewrite list_lookup_insert_eq by done. intros [= <-]. destruct Hshow as [? Hd].
        split; [done|]. intros w2 x Hne2 [[-> _]|[_ Hl]]%live_at_moved; [done|]. by apply (Hd w2).
      + rewrite list_lookup_insert_ne by done. intros Hz.
        pose proof (inv_shown _ _ Hinv w' c0 Hz) as [? Hd]. split; [lia|].
        intros w2 x Hne2 [[-> Hx]|[_ Hl]]%live_at_moved; [|by apply (Hd w2)].
        destruct (Hnew x Hx) as (_ & _ & Hno). by apply (Hno w').
    - intros w' x. rewrite live_at_moved. unfold issued; simpl. intros [[-> Hx]|[_ Hl]].
      + by apply Hnew.
      + apply Hdrawn in Hl. lia.
    - intros w1 w2 x. rewrite !live_at_moved.
      intros [[-> Ha]|[? Ha]] [[-> Hb]|[? Hb]]; [done| | |].
      + destruct (Hnew x Ha) as (_ & Hno & _). by destruct (Hno w2).
      + destruct (Hnew x Hb) as (_ & Hno & _). by destruct (Hno w1).
      + by apply (inv_distinct _ _ Hinv) with x.
    - lia.
    - lia.
    - intros x [Hx Hl]. unfold issued in Hx; simpl in Hx.
      assert (Hne : owned pc' c' <> Some x).
      { intros E. apply Hl. exists w. apply live_at_moved. by left. }
      destruct (decide (nextTransactionId (sinfo s) <= x)) as [Hge|Hlt]; [by apply Hcov; auto|].
      destruct (decide (owned pc c = Some x)) as [E|Hno]; [by apply Hcov; auto|].
      transitivity (highLevelXtid (sinfo s)); [|lia]. apply (inv_covered _ _ Hinv).
      split; [unfold issued; lia|]. intros [w' Hw']. destruct (decide (w' = w)) as [->|Hne'].
      + destruct Hw' as (? & ? & ? & ? & ?). congruence.
      + apply Hl. exists w'. apply live_at_moved. by right.
  Qed.
End moves.

#[local] Ltac moved_side :=
  first [done | lia | solve [auto] | naive_solver lia
        | match goal with |- forall x, _ -> Some ?y <> Some x -> _ =>
            intros x ? ? [?|?]; [assert (y <> x) by congruence; lia|congruence]
          end].

(** Every access of a worker succeeds on a consistent system and keeps the
    invariant. *)
Section step.
Context (n : nat) (s : System) (Hinv : sys_inv n s) (Hn : Z.of_nat n + 3 < 2 ^ 64).

Lemma slot_of w pc :
    spcs s !! w = Some pc ->
    exists c m, sprocs s !! w = Some c /\ slocals s !! w = Some m /\
      slot_ok w (highLevelXtid (sinfo s)) pc c m /\
      view s w = mkT (sinfo s) (<[w := c]> (sprocs s)) m.
  Proof using Hinv.
    intros Hpc. pose proof (inv_len _ _ Hinv) as [L1 L2]. pose proof (lookup_lt_Some _ _ _ Hpc).
    destruct (lookup_lt_is_Some_2 (sprocs s) w) as [c Hc]; [lia|].
    destruct (lookup_lt_is_Some_2 (slocals s) w) as [m Hm]; [lia|].
    exists c, m. split_and!; [done..| |].
    - by apply (inv_slot _ _ Hinv w pc).
    - unfold view. rewrite Hm, list_insert_id by done. done.
  Qed.

Lemma next_drawn : u64 (nextTransactionId (sinfo s) + 1) = nextTransactionId (sinfo s) + 1.
  Proof using All. pose proof (inv_next _ _ Hinv). apply u64_small. unfold in_u64. lia. Qed.

Lemma own_slot_idle w c : ts c = TS_IDLE -> own_slot w c = None.
  Proof using Type. intros Hc. unfold own_slot. by rewrite decide_True. Qed.

Lemma own_slot_busy w c : ts c <> TS_IDLE -> own_slot w c = Some w.
  Proof using Type. intros Hc. unfold own_slot. by rewrite decide_False. Qed.

Lemma first_inv w a :
    spcs s !! w = Some P_ready ->
    exists pc t, first_access w a (view s w) = Some (pc, t) /\ sys_inv (S n) (unview s w pc t).
  Proof using All.
    intros Hpc. destruct (slot_of w _ Hpc) as (c & m & Hc & Hm & -> & ->).
    pose proof (lookup_lt_Some _ _ _ Hc) as Hw. pose proof next_drawn as Hd.
    pose proof (inv_next _ _ Hinv). pose proof (inv_high _ _ Hinv).
    pose proof (inv_shown _ _ Hinv _ _ Hc) as [? _].
    pose proof (moved_inv n s w P_ready c Hinv Hpc Hc) as Hmoved.
    destruct (decide (ts c = TS_IDLE)) as [Hi|Hl].
    - rewrite own_slot_idle, first_idle by done.
      destruct a as [|[]|]; (eexists _, _; split; [reflexivity|]); apply Hmoved; simpl;
        rewrite ?Hd; rewrite ?(decide_True _ _ Hi), ?own_slot_idle by done;
        moved_side.
    - rewrite own_slot_busy, first_busy by done.
      destruct a as [|[]|]; try case_decide; (eexists _, _; split; [reflexivity|]);
        apply Hmoved; simpl; rewrite ?(decide_False _ _ Hl), ?own_slot_busy by done;
        moved_side.
  Qed.

Lemma next_inv w pc :
    spcs s !! w = Some pc -> pc <> P_ready ->
    exists pc' t, next_access pc (view s w) = Some (pc', t) /\ sys_inv (S n) (unview s w pc' t).
  Proof using All.
    intros Hpc Hne. destruct (slot_of w _ Hpc) as (c & m & Hc & Hm & Hs & ->).
    pose proof (lookup_lt_Some _ _ _ Hc) as Hw. pose proof next_drawn as Hd.
    pose proof (inv_next _ _ Hinv). pose proof (inv_high _ _ Hinv).
    pose proof (inv_shown _ _ Hinv _ _ Hc) as [? _].
    pose proof (moved_inv n s w pc c Hinv Hpc Hc) as Hmoved.
    assert (m = Some w) as -> by (destruct pc; simpl in Hs; naive_solver).
    rewrite next_run by done. eexists _, _; split; [by rewrite <- surjective_pairing|].
    assert (XTID_ISINVALID (transactionID c) = false) as Hv.
    { unfold XTID_ISINVALID, INVALID_XTID. apply Z.eqb_neq. lia. }
    destruct pc; try done; simpl in Hs; destruct Hs as [Ht Hs]; rewrite ?Hv; simpl;
      try (destruct (Z.leb_spec (transactionID c) h); simpl);
      try (destruct (Z.eqb_spec (highLevelXtid (sinfo s)) h); simpl);
      apply Hmoved; simpl; unfold own_slot; simpl; rewrite ?Hd, ?Ht; simpl;
      moved_side.
  Qed.
End step.

Lemma sys_step_inv n s s' :
  sys_inv n s -> Z.of_nat n + 3 < 2 ^ 64 -> sys_step s s' -> sys_inv (S n) s'.
Proof.
  intros Hinv Hn Hstep. destruct Hstep as [s w a pc t Hpc Hrun|s w pc pc' t Hpc Hne Hrun].
  - destruct (first_inv n s Hinv Hn w a Hpc) as (? & ? & Hrun' & ?). by simplify_eq.
  - destruct (next_inv n s Hinv Hn w pc Hpc Hne) as (? & ? & Hrun' & ?). by simplify_eq.
Qed.

Lemma reachable_inv k n s :
  nsteps sys_step n (init_system k) s -> Z.of_nat n + 3 < 2 ^ 64 -> sys_inv n s.
Proof.
  revert s. induction n as [|n IH]; intros s Hs Hn.
  - inversion Hs; subst. apply init_system_inv.
  - apply nsteps_inv_r in Hs as (s0 & Hs0 & Hstep).
    eapply sys_step_inv; [apply IH| |done]; try done; lia.
Qed.

(** A context whose [ts] is not [TS_IDLE] shows the id its worker holds, or,
    inside [StartTransaction], an id that is no longer live. *)
Lemma shown_id n s w c :
  sys_inv n s -> sprocs s !! w = Some c -> ts c <> TS_IDLE ->
  live_at s w (transactionID c) \/
  (exists pc, spcs s !! w = Some pc /\
     (pc = P_start_draw \/ exists x, pc = P_start_store x)) /\ ~ live s (transactionID c).
Proof.
  intros Hinv Hc Hl. pose proof (inv_len _ _ Hinv) as [L1 L2].
  pose proof (lookup_lt_Some _ _ _ Hc).
  destruct (lookup_lt_is_Some_2 (spcs s) w) as [pc Hpc]; [lia|].
  destruct (slot_of n s Hinv w pc Hpc) as (c' & m & Hc' & _ & Hs & _). simplify_eq.
  pose proof (inv_shown _ _ Hinv w c Hc) as [_ Hoth].
  destruct pc; simpl in Hs; try (by destruct Hs).
  - left. exists P_ready, c. simpl. by rewrite decide_False.
  - right. split; [eauto|]. intros [w' Hw']. destruct (decide (w' = w)) as [->|Hne].
    + destruct Hw' as (? & ? & ? & ? & ?). by simplify_eq.
    + by apply (Hoth w' (transactionID c)).
  - right. split; [eauto|]. intros [w' Hw']. destruct (decide (w' = w)) as [->|Hne].
    + destruct Hw' as (? & ? & ? & ? & ?). simplify_eq/=. destruct Hs as (_ & _ & Hs). congruence.
    + by apply (Hoth w' (transactionID c)).
Qed.

(** When no worker is inside an operation, what the contexts show is exact. *)
Lemma settled_live n s w x :
  sys_inv n s -> spcs s !! w = Some P_ready ->
  live_at s w x <-> exists c, sprocs s !! w = Some c /\ ts c <> TS_IDLE /\ transactionID c = x.
Proof.
  intros Hinv Hpc. unfold live_at. split.
  - intros (pc & c & ? & ? & Ho). simplify_eq/=. exists c. case_decide; naive_solver.
  - intros (c & Hc & Hl & <-). exists P_ready, c. simpl. by rewrite decide_False.
Qed.

(** ** Executable runs *)

Inductive Move := Call (a : Action) | Next.

Definition move (w : nat) (m : Move) (s : System) : option System :=
  pc ← spcs s !! w;
  '(pc', t) ← match m with
              | Call a => if decide (pc = P_ready) then first_access w a (view s w) else None
              | Next => if decide (pc = P_ready) then None else next_access pc (view s w)
              end;
  Some (unview s w pc' t).

Fixpoint run_moves (l : list (nat * Move)) (s : System) : option System :=
  match l with
  | [] => Some s
  | (w, m) :: l => s' ← move w m s; run_moves l s'
  end.

(** The moves of one uninterrupted [StartTransaction] and of one
    [FinishTransaction] whose exchange succeeds at once. *)
Definition start_moves (w : nat) : list (nat * Move) := [(w, Call AStart); (w, Next); (w, Next)].
Definition finish_moves (w : nat) : list (nat * Move) :=
  [(w, Call AFinish); (w, Next); (w, Next); (w, Next)].

Lemma run_moves_nsteps l s s' :
  run_moves l s = Some s' -> nsteps sys_step (length l) s s'.
Proof.
  revert s. induction l as [|[w m] l IH]; intros s H; simpl in H.
  - simplify_eq. constructor.
  - destruct (move w m s) as [s1|] eqn:E; [|done]. simpl in H.
    econstructor; [|by apply IH]. unfold move in E.
    destruct (spcs s !! w) as [pc|] eqn:Hpc; [|done]. simpl in E.
    destruct m; case_decide; try done.
    + subst pc. destruct (first_access w a (view s w)) as [[pc' t]|] eqn:Hrun; [|done].
      simplify_eq/=. by eapply Sys_call.
    + destruct (next_access pc (view s w)) as [[pc' t]|] eqn:Hrun; [|done].
      simplify_eq/=. by eapply Sys_next.
Qed.

(** ** The session automaton

    What a client observes of its worker between input lines: either no
    transaction is open, or a block opened by [BEGIN] is. *)

Inductive Session := Idle | InBlock.

#[export] Instance Session_eq_dec : EqDecision Session.
Proof. solve_decision. Defined.

Definition session_query (σ : Session) (q : QueryKind) : Session :=
  match σ, q with
  | Idle, QTransaction TF_BEGIN => InBlock
  | Idle, _ => Idle
  | InBlock, QTransaction (TF_END | TF_COMMIT | TF_ROLLBACK) => Idle
  | InBlock, _ => InBlock
  end.

(** The number of transaction ids a line of queries draws. *)
Fixpoint session_ids (σ : Session) (qs : list QueryKind) : Z :=
  match qs with
  | [] => 0
  | q :: qs => (if decide (σ = Idle) then 1 else 0) + session_ids (session_query σ q) qs
  end.

Definition session_rep (w : nat) (σ : Session) (st : TState) : Prop :=
  exists c, procs st !! w = Some c /\
  match σ with
  | Idle => myTransaction st = None /\ ts c = TS_IDLE
  | InBlock => myTransaction st = Some w /\ ts c = TS_BEGIN
  end.

(** The same with a transaction started for the next statement. *)
Definition started_rep (w : nat) (σ : Session) (st : TState) : Prop :=
  exists c, procs st !! w = Some c /\ myTransaction st = Some w /\
  ts c = match σ with Idle => TS_START | InBlock => TS_BEGIN end.

Definition next_id (st : TState) : Z := nextTransactionId (info st).

Lemma focus_form w st c :
  procs st !! w = Some c -> st = mkT (info st) (<[w := c]> (procs st)) (myTransaction st).
Proof. intros H. destruct st; simpl in *. by rewrite list_insert_id. Qed.

Lemma session_start w σ st :
  session_rep w σ st -> in_u64 (next_id st + 1) ->
  exists st', StartTransaction (Z.of_nat w + 1) st = Some (tt, st') /\ started_rep w σ st' /\
    next_id st' = next_id st + if decide (σ = Idle) then 1 else 0.
Proof.
  intros (c & Hc & Hσ) Hu. pose proof (lookup_lt_Some _ _ _ Hc) as Hw.
  destruct σ; destruct Hσ as [Hm Ht].
  - rewrite (focus_form w st c Hc), Hm, Start_idle by done. eexists; split; [done|].
    unfold started_rep, next_id; simpl. rewrite list_lookup_insert_eq by done.
    rewrite u64_small by done. eauto.
  - rewrite (focus_form w st c Hc), Hm. eexists; split; [done|].
    unfold started_rep, next_id; simpl. rewrite list_lookup_insert_eq by done.
    split; [eauto|lia].
Qed.

Lemma started_start w σ st :
  started_rep w σ st -> StartTransaction (Z.of_nat w + 1) st = Some (tt, st).
Proof. intros (c & _ & Hm & _). unfold StartTransaction. by rewrite Hm. Qed.

Lemma session_finish w σ st :
  started_rep w σ st ->
  exists st', FinishTransaction st = Some (tt, st') /\ session_rep w σ st' /\
    next_id st' = next_id st.
Proof.
  intros (c & Hc & Hm & Ht). pose proof (lookup_lt_Some _ _ _ Hc) as Hw.
  rewrite (focus_form w st c Hc), Hm, Finish_busy by done.
  destruct σ; rewrite Ht; (eexists; split; [done|]); unfold session_rep, next_id; simpl;
    rewrite list_lookup_insert_eq by done; eauto.
Qed.

Lemma session_one w σ q st :
  started_rep w σ st ->
  exists st', (exec_query (Z.of_nat w + 1) q;; FinishTransaction) st = Some (tt, st') /\
    session_rep w (session_query σ q) st' /\ next_id st' = next_id st.
Proof.
  intros Hrep. destruct q as [tag|]; [|by destruct σ; apply session_finish].
  destruct Hrep as (c & Hc & Hm & Ht). pose proof (lookup_lt_Some _ _ _ Hc) as Hw.
  assert (ts c <> TS_IDLE) by (destruct σ; congruence).
  unfold exec_query, mbind, ST_bind, mret, ST_ret.
  rewrite (focus_form w st c Hc), Hm, Exec_busy by done.
  destruct σ; destruct tag; rewrite ?decide_True, ?decide_False by congruence;
    rewrite Finish_busy by done; simpl; rewrite ?Ht; (eexists; split; [done|]);
    unfold session_rep, next_id; simpl; rewrite list_lookup_insert_eq by done; eauto.
Qed.

Lemma session_queries w σ qs st :
  session_rep w σ st -> in_u64 (next_id st + 1 + Z.of_nat (length qs)) -> 0 <= next_id st ->
  exists st', exec_queries (Z.of_nat w + 1) qs st = Some (tt, st') /\
    session_rep w (foldl session_query σ qs) st' /\
    next_id st' = next_id st + session_ids σ qs.
Proof.
  revert σ st. induction qs as [|q qs IH]; intros σ st Hrep Hu Hpos; simpl in *.
  - eexists; by_parts.
  - unfold in_u64 in *.
    destruct (session_start w σ st Hrep) as (st1 & E1 & Hrep1 & N1); [unfold in_u64; lia|].
    destruct (session_one w σ q st1 Hrep1) as (st2 & E2 & Hrep2 & N2).
    destruct (IH _ st2 Hrep2) as (st3 & E3 & Hrep3 & N3); [case_decide; lia..|].
    exists st3. split; [|by_parts].
    apply st_bind_inv in E2 as ([] & st1' & E21 & E22).
    erewrite st_bind_some by exact E1. erewrite st_bind_some by exact E21.
    by erewrite st_bind_some by exact E22.
Qed.

(** ** Properties *)

(** C36: one input line refines the session automaton: from any session state
    the statement driver returns (no fault), draws exactly the ids
    [session_ids] counts, and leaves the worker in the session state the
    automaton computes, so a line without [BEGIN] autocommits and a block
    stays open until [COMMIT], [END] or [ROLLBACK]. *)
Theorem ToadMainEntry_refines_session w σ qs st :
  session_rep w σ st -> 0 <= next_id st -> in_u64 (next_id st + 2 + Z.of_nat (length qs)) ->
  exists st', ToadMainEntry (Z.of_nat w + 1) qs st = Some (tt, st') /\
    session_rep w (foldl session_query σ qs) st' /\
    next_id st' = next_id st +
      match qs with [] => if decide (σ = Idle) then 1 else 0 | _ => session_ids σ qs end.
Proof.
  intros Hrep Hpos Hu. unfold in_u64 in Hu.
  destruct (session_start w σ st Hrep) as (st1 & E1 & Hrep1 & N1); [unfold in_u64; lia|].
  unfold ToadMainEntry. erewrite st_bind_some by exact E1. destruct qs as [|q qs]; simpl.
  - destruct (session_finish w σ st1 Hrep1) as (st2 & E2 & Hrep2 & N2).
    exists st2. by_parts.
  - destruct (session_one w σ q st1 Hrep1) as (st2 & E2 & Hrep2 & N2).
    destruct (session_queries w _ qs st2 Hrep2) as (st3 & E3 & Hrep3 & N3);
      [unfold in_u64; simpl in Hu; case_decide; lia|case_decide; lia|].
    apply st_bind_inv in E2 as ([] & st1' & E21 & E22).
    assert (Hrun : (StartTransaction (Z.of_nat w + 1);; exec_query (Z.of_nat w + 1) q;;
             FinishTransaction;; exec_queries (Z.of_nat w + 1) qs) st1 = Some (tt, st3)).
    { erewrite st_bind_some by exact (started_start w σ st1 Hrep1).
      erewrite st_bind_some by exact E21. by erewrite st_bind_some by exact E22. }
    exists (match FinishTransaction st3 with Some (_, t) => t | None => st3 end).
    erewrite st_bind_some by exact Hrun. destruct Hrep3 as (c & Hc & Hσ).
    assert (FinishTransaction st3 = Some (tt, st3)) as ->.
    { pose proof (lookup_lt_Some _ _ _ Hc). destruct (foldl _ _ _); destruct Hσ as [Hm Ht].
      - unfold FinishTransaction. by rewrite Hm.
      - rewrite (focus_form w st3 c Hc), Hm, Finish_busy by done. by rewrite Ht. }
    split; [done|]. split; [by exists c|]. case_decide; lia.
Qed.

Lemma ToadMainEntry_refines_session_witness :
  exists st', ToadMainEntry 1 [QTransaction TF_BEGIN; QOther; QTransaction TF_COMMIT; QOther]
                (mkT transactionInfo0 [mkCtx TS_IDLE 0 0] None) = Some (tt, st') /\
    session_rep 0 Idle st' /\ next_id st' = 3.
Proof.
  apply (ToadMainEntry_refines_session 0 Idle
           [QTransaction TF_BEGIN; QOther; QTransaction TF_COMMIT; QOther]
           (mkT transactionInfo0 [mkCtx TS_IDLE 0 0] None)).
  - exists (mkCtx TS_IDLE 0 0). repeat split.
  - vm_compute. congruence.
  - unfold in_u64, next_id; simpl. lia.
Defined.

(** C37: workers whose [StartTransaction], [BeginTransaction], [EndTransaction],
    [AbortTransaction] and [FinishTransaction] interleave access by access (the
    state is stored before the id is drawn, the id drawn before it is stored,
    [TS_IDLE] stored before the high mark is read, compared and exchanged). A
    worker holds an id from its draw until the mark has been raised. In every
    system reachable in fewer than [2^64 - 3] accesses: two workers never hold
    the same id; every held id was issued; every issued id that nobody holds is
    at most the high mark, which is below the next id; and a context in a
    transaction shows the id its worker holds, unless the worker is still inside
    [StartTransaction], when it shows an id that nobody holds any more. *)
Theorem reachable_ids_consistent k n s :
  nsteps sys_step n (init_system k) s -> Z.of_nat n + 3 < 2 ^ 64 ->
  (forall w w' x, live_at s w x -> live_at s w' x -> w = w') /\
  (forall x, live s x -> issued s x) /\
  (forall x, finished s x -> x <= highLevelXtid (sinfo s) < nextTransactionId (sinfo s)) /\
  (forall w c, sprocs s !! w = Some c -> ts c <> TS_IDLE ->
     live_at s w (transactionID c) \/
     (exists pc, spcs s !! w = Some pc /\
        (pc = P_start_draw \/ exists x, pc = P_start_store x)) /\ ~ live s (transactionID c)).
Proof.
  intros Hs Hn. pose proof (reachable_inv _ _ _ Hs Hn) as Hinv.
  pose proof (inv_high _ _ Hinv). split_and!.
  - apply (inv_distinct _ _ Hinv).
  - intros x [w Hw]. by apply (inv_issued _ _ Hinv w).
  - intros x Hx. pose proof (inv_covered _ _ Hinv x Hx). lia.
  - intros w c. by apply shown_id with n.
Qed.

(** Worker 0 finishes its first transaction between worker 1's draw of id 2 and
    its store, then is half way into the next [StartTransaction]. *)
Definition interleaved_run : list (nat * Move) :=
  start_moves 0 ++ [(1%nat, Call AStart); (1%nat, Next)] ++ finish_moves 0 ++
  [(0%nat, Call AStart)].

Lemma reachable_ids_consistent_witness :
  exists s, run_moves interleaved_run (init_system 2) = Some s /\
  spcs s = [P_start_draw; P_start_store 2] /\ live_at s 1 2 /\ finished s 1 /\
  ((forall w w' x, live_at s w x -> live_at s w' x -> w = w') /\
   (forall x, live s x -> issued s x) /\
   (forall x, finished s x -> x <= highLevelXtid (sinfo s) < nextTransactionId (sinfo s)) /\
   (forall w c, sprocs s !! w = Some c -> ts c <> TS_IDLE ->
      live_at s w (transactionID c) \/
      (exists pc, spcs s !! w = Some pc /\
         (pc = P_start_draw \/ exists x, pc = P_start_store x)) /\ ~ live s (transactionID c))).
Proof.
  eexists. split; [vm_compute; reflexivity|]. split; [reflexivity|].
  split; [by do 2 eexists; repeat split|].
  split; [by apply (bool_decide_unpack _); vm_compute|].
  apply (reachable_ids_consistent 2 10); [|lia].
  by apply (run_moves_nsteps interleaved_run).
Defined.

(** The compare-and-swap loops of [SetHighLevelTransaction] and
    [SetLowLevelTransaction] terminate whatever the other workers do to the
    word, as long as those only move it in the loop's own direction, within as
    many rounds as the distance still to go; afterwards the mark has reached
    the requested id and has not moved back. *)
Theorem SetLevel_terminates env_hi env_lo fuel mem xid :
  XTID_ISINVALID xid = false ->
  (forall j v, v <= env_hi j v) -> (forall j v, env_lo j v <= v) ->
  Z.abs (xid - mem) < Z.of_nat fuel ->
  (exists r mem', SetHighLevelTransaction_env env_hi fuel mem xid = Some (r, mem') /\
     Z.max mem xid <= mem') /\
  (exists r mem', SetLowLevelTransaction_env env_lo fuel mem xid = Some (r, mem') /\
     mem' <= Z.min mem xid).
Proof.
  intros Hx Hhi Hlo Hf. unfold SetHighLevelTransaction_env, SetLowLevelTransaction_env.
  rewrite Hx. split.
  - destruct (SetHigh_loop_ok env_hi fuel 0 mem mem xid) as (r & m & ? & ? & ?); [done|lia|lia|].
    exists r, m. by_parts.
  - destruct (SetLow_loop_ok env_lo fuel 0 mem mem xid) as (r & m & ? & ? & ?); [done|lia|lia|].
    exists r, m. by_parts.
Qed.

Lemma SetLevel_terminates_witness :
  exists r mem', SetHighLevelTransaction_env (fun j v => v + Z.of_nat j) 11 0 10 = Some (r, mem') /\
     Z.max 0 10 <= mem'.
Proof.
  apply (SetLevel_terminates (fun j v => v + Z.of_nat j) (fun j v => v - Z.of_nat j) 11 0 10);
    [reflexivity|intros; lia|intros; lia|simpl; lia].
Defined.
