(* ===== verification/Snapshot.v ===== *)
(** * Snapshots and tuple visibility

    Models [GetActiveXtids] and [GenerateSnapshot] of
    [src/src/sqlcore/transaction/transactionControl.c] and all of
    [snapshot.c]. A snapshot is what one worker keeps in its
    [snapshotPortal]; taking it reads the shared array of contexts in one
    step. *)

From S2P Require Import Prelude Transaction.

(** ** Data: snapshot.h *)

Inductive TupleVisibility :=
  TUPLE_INVISIBLE | TUPLE_VISIBLE | IN_SNAPSHOT | OUT_SNAPSHOT | TUPLE_UNKNOWN.

Inductive TupleUpdateResult :=
  TU_OK | TU_Invsible | TU_BegingModify | TU_Upated | TU_Deleted | TU_SelfModifed | TU_UNKNOW.

Inductive TransactionIsolationLevel := til_Read_Commited | til_Read_Repeatable.

#[export] Instance TupleVisibility_eq_dec : EqDecision TupleVisibility.
Proof. solve_decision. Defined.

Record SnapShotInfo := mkSnap {
  highLevel : Z;
  lowLevel : Z;
  xidNum : nat;
  xidArrMax : Z;
  runningXidArr : list Z
}.

(** [CreateSnapshot]: [AllocMem] hands out zeroed memory. *)
Definition CreateSnapshot (maxClient : nat) : SnapShotInfo :=
  mkSnap 0 0 0 (Z.of_nat maxClient) (replicate maxClient 0).

(** ** GetActiveXtids

    [mine] is the id of the caller's own transaction. The array [xtids] is the
    snapshot's, with the contents an earlier snapshot left in it: the test
    [xtids[count] > max] reads the cell before it is written. *)
Fixpoint GetActiveXtids_loop (mine : option Z) (max maxNum : Z)
    (ps : list TransactionContext) (xtids : list Z) (count : nat) (min : Z)
    : option (list Z * nat * Z) :=
  match ps with
  | [] => Some (xtids, count, min)
  | c :: ps =>
      if decide (ts c = TS_IDLE \/ mine = Some (transactionID c)) then
        GetActiveXtids_loop mine max maxNum ps xtids count min
      else
        old ← xtids !! count;
        if max <? old then GetActiveXtids_loop mine max maxNum ps xtids count min
        else
          let xtids' := <[count := transactionID c]> xtids in
          let min' := if transactionID c <? min then transactionID c else min in
          if maxNum <=? Z.of_nat (S count) then Some (xtids', S count, min')
          else GetActiveXtids_loop mine max maxNum ps xtids' (S count) min'
  end.

Definition GetActiveXtids (st : TState) (xtids : list Z) (maxNum : Z)
    : option (nat * list Z * Z * Z) :=
  let max := u64 (GetHighLevelTransaction st + 1) in
  mine ← match myTransaction st with
         | None => Some None
         | Some _ => c ← my_ctx st; Some (Some (transactionID c))
         end;
  let min := match mine with
             | Some x => if x <? max then x else max
             | None => max
             end in
  '(xtids', count, min') ← GetActiveXtids_loop mine max maxNum (procs st) xtids 0 min;
  Some (count, xtids', max, min').

Definition GetSnapshot (st : TState) (s : SnapShotInfo) : option SnapShotInfo :=
  '(n, arr, high, low) ← GetActiveXtids st (runningXidArr s) (xidArrMax s);
  Some (mkSnap high low n (xidArrMax s) arr).

(** [GenerateSnapshot]: under read committed every statement takes a new
    snapshot, under repeatable read only the first of a transaction does. *)
Definition GenerateSnapshot (level : TransactionIsolationLevel) (s : SnapShotInfo)
    : ST TState SnapShotInfo := fun st =>
  match myTransaction st with
  | None => Some (s, st)
  | Some _ =>
      c ← my_ctx st;
      let isNewSnapShot :=
        match level with
        | til_Read_Commited => true
        | til_Read_Repeatable => snapshot c =? 0
        end in
      if isNewSnapShot then
        s' ← GetSnapshot st s;
        '(_, st') ← set_snapshot 1 st;
        Some (s', st')
      else Some (s, st)
  end.

(** ** Visibility *)

(** The scan of [XtidIsInSnapshot] over the first [n] entries; a read past the
    array is a fault. *)
Fixpoint XtidIsInSnapshot_loop (xtid : Z) (arr : list Z) (n : nat) {struct n} : option bool :=
  match n, arr with
  | O, _ => Some false
  | S _, [] => None
  | S n, x :: arr => if xtid =? x then Some true else XtidIsInSnapshot_loop xtid arr n
  end.

Definition XtidIsInSnapshot (xtid : Z) (s : SnapShotInfo) : option bool :=
  XtidIsInSnapshot_loop xtid (runningXidArr s) (xidNum s).

Definition TupleVisibililtySnapshot (currxtid : Z) (s : SnapShotInfo) : option TupleVisibility :=
  if currxtid <? lowLevel s then Some OUT_SNAPSHOT
  else if currxtid <? highLevel s then
    b ← XtidIsInSnapshot currxtid s;
    Some (if b : bool then IN_SNAPSHOT else OUT_SNAPSHOT)
  else Some IN_SNAPSHOT.

Definition TupleVisibilitySatisfy (curr : Z) (h : TupleHeader) (snap : option SnapShotInfo)
    : option TupleVisibility :=
  match snap with
  | None => Some TUPLE_VISIBLE
  | Some s =>
      if XTID_ISINVALID (tmin h) then Some TUPLE_INVISIBLE
      else
        minv ← (if tmin h =? curr then Some OUT_SNAPSHOT
                else TupleVisibililtySnapshot (tmin h) s);
        if decide (minv = IN_SNAPSHOT) then Some TUPLE_INVISIBLE
        else if negb (tmin h =? curr)
                && bool_decide (GetTransactionState (tmin h) <> TRANS_COMMITED)
        then Some TUPLE_INVISIBLE
        else if XTID_ISINVALID (tmax h) then Some TUPLE_VISIBLE
        else
          maxv ← (if tmax h =? curr then Some OUT_SNAPSHOT
                  else TupleVisibililtySnapshot (tmax h) s);
          if decide (maxv = IN_SNAPSHOT) then Some TUPLE_VISIBLE
          else if negb (tmax h =? curr)
                  && bool_decide (GetTransactionState (tmin h) <> TRANS_COMMITED)
          then Some TUPLE_VISIBLE
          else Some TUPLE_INVISIBLE
  end.

Definition TupleUpdateSatisfy (curr : Z) (h : TupleHeader) : TupleUpdateResult :=
  if XTID_ISINVALID (tmin h) then TU_Invsible
  else if bool_decide (GetTransactionState (tmin h) <> TRANS_COMMITED) then
    if curr =? tmin h then
      if XTID_ISINVALID (tmax h) then TU_OK
      else if negb (curr =? tmax h) then TU_OK
      else TU_Invsible
    else TU_Invsible
  else if XTID_ISINVALID (tmax h) then TU_OK
  else TU_Invsible.

(** ** What a snapshot records *)

(** The ids of the contexts that are in a transaction other than the
    caller's. *)
Definition active_ids (mine : option Z) (ps : list TransactionContext) : list Z :=
  transactionID <$> filter (fun c => ~ (ts c = TS_IDLE \/ mine = Some (transactionID c))) ps.

Lemma elem_of_active_ids x mine ps :
  x ∈ active_ids mine ps <->
  exists w c, ps !! w = Some c /\ ts c <> TS_IDLE /\ transactionID c = x /\ mine <> Some x.
Proof.
  unfold active_ids. rewrite list_elem_of_fmap. split.
  - intros (c & -> & Hc%list_elem_of_filter). destruct Hc as [Hn Hin].
    apply list_elem_of_lookup in Hin as [w Hw]. exists w, c. naive_solver.
  - intros (w & c & Hw & Hl & <- & Hm). exists c. split; [done|].
    apply list_elem_of_filter. split; [naive_solver|]. by eapply list_elem_of_lookup_2.
Qed.

(** When no stale cell exceeds [max] the loop stores exactly the active ids,
    in slot order, and lowers [min] to the least of them. *)
Lemma GetActiveXtids_loop_ok mine max maxNum ps xtids count min :
  (count + length (active_ids mine ps) <= length xtids)%nat ->
  maxNum = Z.of_nat (length xtids) ->
  (forall i x, (count <= i)%nat -> xtids !! i = Some x -> x <= max) ->
  GetActiveXtids_loop mine max maxNum ps xtids count min =
  Some (take count xtids ++ active_ids mine ps
          ++ drop (count + length (active_ids mine ps)) xtids,
        (count + length (active_ids mine ps))%nat,
        foldl Z.min min (active_ids mine ps)).
Proof.
  intros Hlen HmaxNum. revert xtids count min Hlen HmaxNum.
  induction ps as [|c ps IH]; intros xtids count min Hlen HmaxNum Hstale; simpl.
  - rewrite Nat.add_0_r, take_drop. done.
  - unfold active_ids in *. rewrite filter_cons in *.
    destruct (decide (ts c = TS_IDLE \/ mine = Some (transactionID c))) as [Hskip|Hact].
    + rewrite decide_False in * by naive_solver. by apply IH.
    + rewrite decide_True in * by done. rewrite fmap_cons in *. simpl in *.
      set (ids := transactionID <$> filter _ ps) in *.
      destruct (lookup_lt_is_Some_2 xtids count) as [old Hold]; [lia|].
      rewrite Hold; simpl.
      destruct (Z.ltb_spec max old) as [?|_]; [specialize (Hstale count old ltac:(lia) Hold); lia|].
      assert (Hmin : (if transactionID c <? min then transactionID c else min)
                     = Z.min min (transactionID c)).
      { destruct (Z.ltb_spec (transactionID c) min); lia. }
      rewrite Hmin.
      assert (Htake : forall k, drop (count + S k) (<[count:=transactionID c]> xtids)
                                = drop (count + S k) xtids)
        by (intros k; rewrite drop_insert_lt by lia; done).
      assert (Htk : take (S count) (<[count:=transactionID c]> xtids)
                    = take count xtids ++ [transactionID c]).
      { erewrite take_S_r; [|apply list_lookup_insert_eq; lia]. by rewrite take_insert_ge by lia. }
      destruct (Z.leb_spec maxNum (Z.of_nat (S count))).
      * assert (ids = []) as -> by (apply length_zero_iff_nil; lia).
        simpl. rewrite <- (take_drop (S count) (<[_:=_]> xtids)), Htk.
        rewrite <- app_assoc. simpl. rewrite <- (Htake 0%nat). simpl.
        by replace (count + 1)%nat with (S count) by lia.
      * rewrite IH by (rewrite ?length_insert; try lia;
          intros i x Hi; rewrite list_lookup_insert_ne by lia; apply Hstale; lia).
        rewrite Htk, <- app_assoc. simpl.
        replace (S (count + length ids)) with (count + S (length ids))%nat by lia.
        by rewrite Htake.
Qed.

(** A stale cell [j] above [max] stops the loop there: of the active ids only
    those that fit before it are stored, the others are skipped. *)
Lemma GetActiveXtids_loop_stale mine max maxNum ps xtids count min j y :
  (count <= j)%nat -> Z.of_nat j < maxNum -> xtids !! j = Some y -> max < y ->
  (forall i x, (count <= i < j)%nat -> xtids !! i = Some x -> x <= max) ->
  exists rest m, GetActiveXtids_loop mine max maxNum ps xtids count min =
  Some (take count xtids ++ take (j - count) (active_ids mine ps) ++ rest,
        (count + Nat.min (j - count) (length (active_ids mine ps)))%nat, m).
Proof.
  intros Hcj Hjm Hy Hlt. revert xtids count min Hcj Hy.
  induction ps as [|c ps IH]; intros xtids count min Hcj Hy Hok; simpl.
  - exists (drop count xtids), min. change (active_ids mine []) with (@nil Z).
    simpl length. rewrite take_nil, Nat.min_0_r, Nat.add_0_r.
    by rewrite app_nil_l, take_drop.
  - unfold active_ids in *. rewrite filter_cons in *.
    destruct (decide (ts c = TS_IDLE \/ mine = Some (transactionID c))) as [Hskip|Hact].
    + rewrite decide_False by naive_solver. by apply IH.
    + rewrite decide_True by done. rewrite fmap_cons. set (ids := transactionID <$> filter _ ps) in *.
      destruct (decide (count = j)) as [->|Hne].
      * rewrite Hy. simpl. destruct (Z.ltb_spec max y); [|lia].
        destruct (IH xtids j min) as (rest & m & ->); [done..|].
        exists rest, m. by rewrite Nat.sub_diag, !take_0, !Nat.min_0_l.
      * destruct (lookup_lt_is_Some_2 xtids count) as [old Hold];
          [apply lookup_lt_Some in Hy; lia|]. rewrite Hold; simpl.
        destruct (Z.ltb_spec max old) as [?|_]; [specialize (Hok count old ltac:(lia) Hold); lia|].
        destruct (Z.leb_spec maxNum (Z.of_nat (S count))); [lia|].
        edestruct (IH (<[count:=transactionID c]> xtids) (S count)) as (rest & m & ->); [lia| | |].
        { by rewrite list_lookup_insert_ne by lia. }
        { intros i x Hi. rewrite list_lookup_insert_ne by lia. apply Hok. lia. }
        exists rest, m. replace (j - count)%nat with (S (j - S count)) by lia. simpl.
        erewrite take_S_r by (apply list_lookup_insert_eq; by apply lookup_lt_Some in Hold).
        rewrite take_insert_ge by lia. rewrite <- app_assoc. simpl.
        do 3 f_equal. lia.
Qed.

Lemma XtidIsInSnapshot_loop_take x ids rest :
  XtidIsInSnapshot_loop x (ids ++ rest) (length ids) = Some (bool_decide (x ∈ ids)).
Proof.
  induction ids as [|y ids IH]; simpl; [done|].
  destruct (Z.eqb_spec x y) as [->|Hne].
  - by rewrite bool_decide_eq_true_2 by set_solver.
  - rewrite IH. f_equal. apply bool_decide_ext. set_solver.
Qed.

Lemma foldl_min_spec (l : list Z) m x :
  (x < foldl Z.min m l <-> x < m /\ Forall (fun y => x < y) l).
Proof.
  revert m. induction l as [|y l IH]; intros m; simpl.
  - naive_solver.
  - rewrite IH, Forall_cons. lia || (split; intros; destruct_and!; split_and!; try done; lia).
Qed.

(** ** A snapshot separates finished from unfinished transactions *)

Section taken.
Context (n : nat) (s : System) (w : nat) (c : TransactionContext) (s0 : SnapShotInfo).
Context (Hinv : sys_inv n s) (Hn : Z.of_nat n + 3 < 2 ^ 64).
Context (Hpc : spcs s !! w = Some P_ready).
Context (Hc : sprocs s !! w = Some c) (Hlive : ts c <> TS_IDLE).
Context (Hmax : xidArrMax s0 = Z.of_nat (length (sprocs s))).
Context (Harr : length (runningXidArr s0) = length (sprocs s)).

Let me := transactionID c.
Let ids := active_ids (Some me) (sprocs s).

Lemma taker_view : view s w = mkT (sinfo s) (sprocs s) (Some w) /\ live_at s w me.
  Proof using Hinv Hpc Hc Hlive.
    destruct (slot_of n s Hinv w _ Hpc) as (c' & m & Hc' & _ & -> & ->). simplify_eq.
    rewrite own_slot_busy, list_insert_id by done. split; [done|].
    eapply settled_live; eauto.
  Qed.

Lemma GetActiveXtids_view :
    GetSnapshot (view s w) s0 =
    ('(xtids', count, min') ← GetActiveXtids_loop (Some me) (highLevelXtid (sinfo s) + 1)
        (xidArrMax s0) (sprocs s) (runningXidArr s0) 0 (Z.min me (highLevelXtid (sinfo s) + 1));
     Some (mkSnap (highLevelXtid (sinfo s) + 1) min' count (xidArrMax s0) xtids')).
  Proof using All.
    destruct taker_view as [-> _].
    pose proof (inv_next _ _ Hinv). pose proof (inv_high _ _ Hinv).
    unfold GetSnapshot, GetActiveXtids, my_ctx, GetHighLevelTransaction; simpl. rewrite Hc; simpl.
    rewrite u64_small by (unfold in_u64; lia).
    replace (Z.min me _) with
      (if transactionID c <? highLevelXtid (sinfo s) + 1 then transactionID c
       else highLevelXtid (sinfo s) + 1)
      by (unfold me; destruct (Z.ltb_spec (transactionID c) (highLevelXtid (sinfo s) + 1)); lia).
    by destruct (GetActiveXtids_loop _ _ _ _ _ _ _) as [[[? ?] ?]|].
  Qed.

(** A tuple whose creator the snapshot puts before it, and that nobody has
      deleted, is visible. *)
Lemma out_visible s1 h :
    TupleVisibililtySnapshot (tmin h) s1 = Some OUT_SNAPSHOT ->
    tmin h <= highLevelXtid (sinfo s) -> tmax h = INVALID_XTID ->
    TupleVisibilitySatisfy me h (Some s1) = Some TUPLE_VISIBLE.
  Proof using Hinv Hn.
    clear Harr. intros Hout Hle Hmaxh. pose proof (inv_next _ _ Hinv). pose proof (inv_high _ _ Hinv).
    unfold TupleVisibilitySatisfy, XTID_ISINVALID. rewrite Hmaxh, Z.eqb_refl, Hout.
    rewrite !(bool_decide_eq_false_2 (GetTransactionState _ <> TRANS_COMMITED)) by (by intros []).
    rewrite !andb_false_r. destruct (Z.eqb_spec (tmin h) INVALID_XTID) as [E|_].
    { unfold INVALID_XTID in E. lia. }
    by destruct (tmin h =? me).
  Qed.

Lemma stale_test j y :
    runningXidArr s0 !! j = Some y -> highLevelXtid (sinfo s) + 1 < y ->
    Forall (fun x => x <= highLevelXtid (sinfo s) + 1) (take j (runningXidArr s0)) ->
    exists s1, GetSnapshot (view s w) s0 = Some s1 /\
    xidNum s1 = Nat.min j (length ids) /\
    forall x, x <= highLevelXtid (sinfo s) -> x ∉ take j ids ->
      TupleVisibililtySnapshot x s1 = Some OUT_SNAPSHOT.
  Proof using All.
    intros Hy Hlt Hbefore. pose proof (lookup_lt_Some _ _ _ Hy).
    destruct (GetActiveXtids_loop_stale (Some me) (highLevelXtid (sinfo s) + 1) (xidArrMax s0)
      (sprocs s) (runningXidArr s0) 0 (Z.min me (highLevelXtid (sinfo s) + 1)) j y)
      as (rest & m & Hrun); [lia|lia|done|done| |].
    { intros i x Hi Hx. rewrite Forall_lookup in Hbefore. apply (Hbefore i).
      by rewrite lookup_take_lt by lia. }
    rewrite GetActiveXtids_view, Hrun. simpl. rewrite Nat.sub_0_r. fold ids.
    eexists. split; [done|]. split; [done|]. intros x Hx Hno.
    unfold TupleVisibililtySnapshot, XtidIsInSnapshot; simpl.
    rewrite <- length_take, XtidIsInSnapshot_loop_take. simpl.
    rewrite bool_decide_eq_false_2 by done.
    destruct (x <? m); [done|]. by destruct (Z.ltb_spec x (highLevelXtid (sinfo s) + 1)); [|lia].
  Qed.

Context (Hstale : Forall (fun x => x <= highLevelXtid (sinfo s) + 1) (runningXidArr s0)).

Lemma GetSnapshot_run :
    exists rest low, GetSnapshot (view s w) s0 =
      Some (mkSnap (highLevelXtid (sinfo s) + 1) low (length ids) (xidArrMax s0) (ids ++ rest)) /\
    (forall x, x < low <-> x < me /\ x < highLevelXtid (sinfo s) + 1 /\ Forall (fun y => x < y) ids).
  Proof using All.
    rewrite GetActiveXtids_view, GetActiveXtids_loop_ok.
    - simpl. eexists _, _. split; [done|].
      intros x. fold ids. rewrite foldl_min_spec. naive_solver lia.
    - unfold active_ids. rewrite length_fmap, Harr. apply length_filter.
    - by rewrite Hmax, Harr.
    - intros i x _ Hx. rewrite Forall_lookup in Hstale. by apply (Hstale i).
  Qed.

  (** Above the ids the contexts show, the bound alone decides. *)
Lemma snapshot_test :
    exists s1, GetSnapshot (view s w) s0 = Some s1 /\
    forall x, TupleVisibililtySnapshot x s1 =
      Some (if decide (x <= highLevelXtid (sinfo s) /\ x ∉ ids) then OUT_SNAPSHOT else IN_SNAPSHOT).
  Proof using All.
    destruct GetSnapshot_run as (rest & low & Hrun & Hlow).
    eexists; split; [exact Hrun|]. intros x.
    unfold TupleVisibililtySnapshot, XtidIsInSnapshot; simpl.
    rewrite XtidIsInSnapshot_loop_take. simpl.
    destruct (Z.ltb_spec x low) as [Hlt|Hge].
    - apply Hlow in Hlt as (_ & ? & Hall). rewrite decide_True; [done|]. split; [lia|].
      rewrite Forall_forall in Hall. intros Hin. specialize (Hall _ Hin). lia.
    - destruct (Z.ltb_spec x (highLevelXtid (sinfo s) + 1)) as [Hlt|Hge'].
      + case_bool_decide; [rewrite decide_False by tauto|rewrite decide_True by (split; [lia|done])]; done.
      + by rewrite decide_False by lia.
  Qed.

Context (Hset : Forall (fun pc => pc = P_ready) (spcs s)).

Lemma ids_live x : x <> me -> x ∈ ids <-> live s x.
  Proof using Hinv Hset.
    intros Hne. unfold ids. rewrite elem_of_active_ids. unfold live.
    assert (forall w' c', sprocs s !! w' = Some c' -> spcs s !! w' = Some P_ready) as Hall.
    { intros w' c' Hc'. apply lookup_lt_Some in Hc'.
      pose proof (inv_len _ _ Hinv) as [_ L]. rewrite <- L in Hc'.
      destruct (lookup_lt_is_Some_2 _ _ Hc') as [pc E]. rewrite E. f_equal.
      rewrite Forall_lookup in Hset. by apply (Hset w'). }
    split.
    - intros (w' & c' & Hc' & ? & ? & _). exists w'. eapply settled_live; eauto.
    - intros [w' Hw']. pose proof Hw' as (pc & c0 & _ & Hc0 & _).
      apply (settled_live n) in Hw' as (c' & Hc' & ? & ?); [|by eauto..]. exists w', c'. naive_solver.
  Qed.

Lemma snapshot_separates :
    exists s1, GetSnapshot (view s w) s0 = Some s1 /\
    forall x, 1 <= x -> x <> me ->
      (finished s x -> TupleVisibililtySnapshot x s1 = Some OUT_SNAPSHOT) /\
      (~ finished s x -> TupleVisibililtySnapshot x s1 = Some IN_SNAPSHOT).
  Proof using All.
    destruct snapshot_test as (s1 & Hrun & Htest). exists s1. split; [done|]. intros x Hx Hne.
    rewrite Htest. pose proof (ids_live x Hne) as Hids. pose proof (inv_high _ _ Hinv).
    unfold finished, issued. split.
    - intros Hf. rewrite decide_True; [done|]. split; [by apply (inv_covered _ _ Hinv)|].
      rewrite Hids. by destruct Hf.
    - intros Hf. rewrite decide_False; [done|]. intros [? Hno]. apply Hf.
      rewrite <- Hids. split; [lia|done].
  Qed.

  (** The tuples the transaction may see: its own and those of transactions
      that had finished when the snapshot was taken. *)
Definition sees (x : Z) : Prop := x = me \/ finished s x.

Lemma sees_test s1 x :
    (forall x, 1 <= x -> x <> me ->
      (finished s x -> TupleVisibililtySnapshot x s1 = Some OUT_SNAPSHOT) /\
      (~ finished s x -> TupleVisibililtySnapshot x s1 = Some IN_SNAPSHOT)) ->
    1 <= x ->
    (sees x /\ (if x =? me then Some OUT_SNAPSHOT else TupleVisibililtySnapshot x s1)
               = Some OUT_SNAPSHOT) \/
    (~ sees x /\ (x =? me) = false /\ TupleVisibililtySnapshot x s1 = Some IN_SNAPSHOT).
  Proof using.
    intros Hsep Hx. unfold sees. destruct (Z.eqb_spec x me) as [->|Hne]; [by auto|].
    destruct (Hsep x Hx Hne). destruct (decide (finished s x)); naive_solver.
  Qed.

Lemma invalid_unseen : ~ sees INVALID_XTID.
  Proof using All.
    destruct taker_view as [_ Hiss%(inv_issued _ _ Hinv)].
    pose proof (inv_next _ _ Hinv). unfold sees, finished, issued, INVALID_XTID in *.
    intros [|[? _]]; lia.
  Qed.

Lemma visibility_characterised :
    exists s1, GetSnapshot (view s w) s0 = Some s1 /\
    forall h, 1 <= tmin h -> 1 <= tmax h ->
      TupleVisibilitySatisfy me h (Some s1) =
      Some (if decide (sees (tmin h) /\ ~ sees (tmax h)) then TUPLE_VISIBLE else TUPLE_INVISIBLE).
  Proof using All.
    destruct snapshot_separates as (s1 & Hrun & Hsep). exists s1. split; [done|].
    intros h Hmin Hmax'. unfold TupleVisibilitySatisfy, XTID_ISINVALID.
    rewrite !(bool_decide_eq_false_2 (GetTransactionState _ <> TRANS_COMMITED)) by (by intros []).
    rewrite !andb_false_r.
    pose proof invalid_unseen as Hinvd.
    destruct (Z.eqb_spec (tmin h) INVALID_XTID) as [->|_]; [by rewrite decide_False by tauto|].
    destruct (sees_test s1 (tmin h) Hsep Hmin) as [[Hs ->]|(Hs & -> & ->)]; simpl;
      [|by rewrite decide_False by tauto].
    destruct (Z.eqb_spec (tmax h) INVALID_XTID) as [->|_]; [by rewrite decide_True by tauto|].
    destruct (sees_test s1 (tmax h) Hsep Hmax') as [[Hs' ->]|(Hs' & -> & ->)]; simpl;
      [by rewrite decide_False by tauto|by rewrite decide_True by tauto].
  Qed.
End taken.

(** ** Properties *)

(** C24: snapshot isolation. In every reachable system (the operations of the
    workers interleave access by access before), when every worker stands
    between two operations, a snapshot that a worker in a transaction takes in
    one step, into an array of one cell per worker none of whose left-over
    cells exceeds the new upper bound, makes exactly those tuples visible whose
    creator the transaction sees (its own, or finished before the snapshot) and
    whose deleter it does not see. [stale_array_dirty_read] shows that the bound
    on the left-over cells is needed (the zeroed array of [CreateSnapshot] meets
    it), [late_store_dirty_read] that other workers must not be starting. *)
Theorem snapshot_isolation k n s w c s0 :
  nsteps sys_step n (init_system k) s -> Z.of_nat n + 3 < 2 ^ 64 ->
  Forall (fun pc => pc = P_ready) (spcs s) ->
  sprocs s !! w = Some c -> ts c <> TS_IDLE ->
  xidArrMax s0 = Z.of_nat (length (sprocs s)) ->
  length (runningXidArr s0) = length (sprocs s) ->
  Forall (fun x => x <= highLevelXtid (sinfo s) + 1) (runningXidArr s0) ->
  exists s1, GetSnapshot (view s w) s0 = Some s1 /\
  forall h, 1 <= tmin h -> 1 <= tmax h ->
    TupleVisibilitySatisfy (transactionID c) h (Some s1) =
    Some (if decide (sees s c (tmin h) /\ ~ sees s c (tmax h))
          then TUPLE_VISIBLE else TUPLE_INVISIBLE).
Proof.
  intros Hs Hn Hset Hc ????. pose proof (reachable_inv _ _ _ Hs Hn) as Hinv.
  apply (visibility_characterised n s w c s0); try done.
  destruct (lookup_lt_is_Some_2 (spcs s) w) as [pc Hpc].
  { pose proof (inv_len _ _ Hinv) as [_ ->]. by apply lookup_lt_Some in Hc. }
  rewrite Hpc. f_equal. rewrite Forall_lookup in Hset. by apply (Hset w).
Qed.

Definition two_workers : list (nat * Move) :=
  start_moves 0 ++ finish_moves 0 ++ start_moves 1 ++ start_moves 0.

Lemma snapshot_isolation_witness :
  exists s, run_moves two_workers (init_system 2) = Some s /\
  exists s1, GetSnapshot (view s 1) (CreateSnapshot 2) = Some s1 /\
  forall h, 1 <= tmin h -> 1 <= tmax h ->
    TupleVisibilitySatisfy 2 h (Some s1) =
    Some (if decide (sees s (mkCtx TS_START 2 0) (tmin h) /\ ~ sees s (mkCtx TS_START 2 0) (tmax h))
          then TUPLE_VISIBLE else TUPLE_INVISIBLE).
Proof.
  eexists. split; [vm_compute; reflexivity|].
  apply (snapshot_isolation 2 13 _ 1 (mkCtx TS_START 2 0) (CreateSnapshot 2)).
  - by apply (run_moves_nsteps two_workers).
  - lia.
  - repeat constructor.
  - reflexivity.
  - discriminate.
  - reflexivity.
  - reflexivity.
  - repeat constructor; discriminate.
Defined.

(** C25: a dirty read through a reused array. [GetActiveXtids] compares the cell
    it is about to fill, not the id it would put there, with the bound. In every
    reachable system, when a worker in a transaction takes a snapshot into an
    array whose cell [j] still holds an id above the new bound (the cells before
    it do not), only the first [j] running transactions are recorded: every
    other id up to the high mark counts as finished, so that a tuple inserted by
    a transaction that is still running is visible. *)
Theorem stale_array_dirty_read k n s w c s0 j y :
  nsteps sys_step n (init_system k) s -> Z.of_nat n + 3 < 2 ^ 64 ->
  spcs s !! w = Some P_ready -> sprocs s !! w = Some c -> ts c <> TS_IDLE ->
  xidArrMax s0 = Z.of_nat (length (sprocs s)) ->
  length (runningXidArr s0) = length (sprocs s) ->
  runningXidArr s0 !! j = Some y -> highLevelXtid (sinfo s) + 1 < y ->
  Forall (fun x => x <= highLevelXtid (sinfo s) + 1) (take j (runningXidArr s0)) ->
  let running := active_ids (Some (transactionID c)) (sprocs s) in
  exists s1, GetSnapshot (view s w) s0 = Some s1 /\
  xidNum s1 = Nat.min j (length running) /\
  forall h, tmin h <= highLevelXtid (sinfo s) -> tmin h ∉ take j running ->
    tmax h = INVALID_XTID ->
    TupleVisibilitySatisfy (transactionID c) h (Some s1) = Some TUPLE_VISIBLE.
Proof.
  intros Hs Hn Hpc Hc Hl Hm Ha Hy Hlt Hb running. pose proof (reachable_inv _ _ _ Hs Hn) as Hinv.
  destruct (stale_test n s w c s0 Hinv Hn Hpc Hc Hl Hm Ha j y Hy Hlt Hb) as (s1 & Hrun & Hx & Htest).
  exists s1. split_and!; [done..|]. intros h Hle Hno Hmx.
  by apply (out_visible n s c Hinv Hn); [apply Htest| |].
Qed.

(** Workers 1, 2, 3 and 0 start transactions 1 to 4; worker 2 takes its
    snapshot, which leaves the ids 4, 1 and 3 in its array, finishes and starts
    transaction 5. *)
Definition stale_run : list (nat * Move) :=
  start_moves 1 ++ start_moves 2 ++ start_moves 3 ++ start_moves 0.

(** The second snapshot of worker 2 is taken into the array of its first:
    transaction 1 is still running and a tuple it inserted is visible to
    transaction 5. *)
Lemma stale_array_dirty_read_witness :
  exists sA snapA sB,
    run_moves stale_run (init_system 4) = Some sA /\
    GetSnapshot (view sA 2) (CreateSnapshot 4) = Some snapA /\
    run_moves (finish_moves 2 ++ start_moves 2) sA = Some sB /\
    live_at sB 1 1 /\
    exists snapB, GetSnapshot (view sB 2) snapA = Some snapB /\ xidNum snapB = 0%nat /\
    forall h, tmin h <= 2 -> tmin h ∉ [] -> tmax h = INVALID_XTID ->
    TupleVisibilitySatisfy 5 h (Some snapB) = Some TUPLE_VISIBLE.
Proof.
  do 3 eexists. split; [vm_compute; reflexivity|]. split; [vm_compute; reflexivity|].
  split; [vm_compute; reflexivity|]. split; [by do 2 eexists; repeat split|].
  match goal with |- exists _, GetSnapshot (view ?sB _) ?snapA = _ /\ _ =>
    apply (stale_array_dirty_read 4 19 sB 2 (mkCtx TS_START 5 0) snapA 0 4)
  end.
  - by apply (run_moves_nsteps (stale_run ++ finish_moves 2 ++ start_moves 2)).
  - lia.
  - reflexivity.
  - reflexivity.
  - discriminate.
  - reflexivity.
  - reflexivity.
  - reflexivity.
  - reflexivity.
  - constructor.
Defined.

(** The id is drawn before it is stored in the shared array. A snapshot taken in
    between, when a later transaction has already raised the high mark past the
    id, counts the starting transaction as finished: whatever it inserts
    afterwards is visible to the snapshot. *)
Theorem late_store_dirty_read k n s w c s0 w' pc x :
  nsteps sys_step n (init_system k) s -> Z.of_nat n + 3 < 2 ^ 64 ->
  spcs s !! w = Some P_ready -> sprocs s !! w = Some c -> ts c <> TS_IDLE ->
  xidArrMax s0 = Z.of_nat (length (sprocs s)) ->
  length (runningXidArr s0) = length (sprocs s) ->
  Forall (fun x => x <= highLevelXtid (sinfo s) + 1) (runningXidArr s0) ->
  live_at s w' x -> spcs s !! w' = Some pc ->
  pc = P_start_store x \/ pc = P_begin_store x \/ pc = P_begin_ts ->
  x <= highLevelXtid (sinfo s) ->
  exists s1, GetSnapshot (view s w) s0 = Some s1 /\
  forall h, tmin h = x -> tmax h = INVALID_XTID ->
    TupleVisibilitySatisfy (transactionID c) h (Some s1) = Some TUPLE_VISIBLE.
Proof.
  intros Hs Hn Hpc Hc Hl Hm Ha Hst Hlive Hpc' Hor Hx.
  pose proof (reachable_inv _ _ _ Hs Hn) as Hinv.
  destruct (snapshot_test n s w c s0 Hinv Hn Hpc Hc Hl Hm Ha Hst) as (s1 & Hrun & Htest).
  exists s1. split; [done|]. intros h Ht Hmx.
  apply (out_visible n s c Hinv Hn); [|by rewrite Ht|done]. rewrite Htest, Ht.
  rewrite decide_True; [done|]. split; [done|].
  rewrite elem_of_active_ids. intros (w2 & c2 & Hc2 & Hl2 & Hid & _).
  destruct (decide (w2 = w')) as [->|Hne].
  - destruct (slot_of n s Hinv w' pc Hpc') as (c3 & m & Hc3 & _ & Hs3 & _). simplify_eq.
    destruct Hor as [->|[->| ->]]; simpl in Hs3; naive_solver.
  - pose proof (inv_shown _ _ Hinv w2 c2 Hc2) as [_ Hno]. by apply (Hno w' x).
Qed.

(** Worker 1 has drawn id 1 when worker 0 runs transaction 2 to its end and
    worker 2 starts transaction 3 and takes its snapshot. *)
Definition late_run : list (nat * Move) :=
  [(1%nat, Call AStart); (1%nat, Next)] ++ start_moves 0 ++ finish_moves 0 ++ start_moves 2.

Lemma late_store_dirty_read_witness :
  exists s, run_moves late_run (init_system 3) = Some s /\ live_at s 1 1 /\
  exists s1, GetSnapshot (view s 2) (CreateSnapshot 3) = Some s1 /\
  forall h, tmin h = 1 -> tmax h = INVALID_XTID ->
    TupleVisibilitySatisfy 3 h (Some s1) = Some TUPLE_VISIBLE.
Proof.
  eexists. split; [vm_compute; reflexivity|]. split; [by do 2 eexists; repeat split|].
  match goal with |- exists _, GetSnapshot (view ?s _) _ = _ /\ _ =>
    apply (late_store_dirty_read 3 12 s 2 (mkCtx TS_START 3 0) (CreateSnapshot 3) 1
             (P_start_store 1) 1)
  end.
  - by apply (run_moves_nsteps late_run).
  - lia.
  - reflexivity.
  - reflexivity.
  - discriminate.
  - reflexivity.
  - reflexivity.
  - repeat constructor; discriminate.
  - by do 2 eexists; repeat split.
  - reflexivity.
  - by left.
  - discriminate.
Defined.

(** Worker 0 opens a block as transaction 1, inserts a tuple and rolls back. *)
Definition rollback_run : list (nat * Move) :=
  start_moves 0 ++ [(0%nat, Call (AExec TF_BEGIN)); (0%nat, Call AFinish);
   (0%nat, Call AStart); (0%nat, Call (AExec TF_ROLLBACK))] ++ finish_moves 0 ++ start_moves 1.

(** [ROLLBACK] undoes nothing: [GetTransactionState] reports every
    transaction as committed, so the tuple inserted by the rolled back
    transaction 1 is visible to the snapshot of any later transaction. *)
Theorem rollback_stays_visible :
  exists s snap,
    run_moves rollback_run (init_system 2) = Some s /\ finished s 1 /\
    GetSnapshot (view s 1) (CreateSnapshot 2) = Some snap /\
    GetCurrentTransactionID (view s 1) = Some 2 /\
    TupleVisibilitySatisfy 2 (ComputeXminTupleHeader 1 (mkTuple 0 0 0 0 (mkRowPos 0 0 0)))
      (Some snap) = Some TUPLE_VISIBLE.
Proof.
  do 2 eexists. split; [vm_compute; reflexivity|].
  split; [by apply (bool_decide_unpack _); vm_compute|]. by split; [vm_compute; reflexivity|]; vm_compute.
Qed.

(** Under repeatable read the second [GenerateSnapshot] of a transaction
    returns the snapshot of the first, whatever committed in between (the state
    [st'] may differ in everything but the worker's own context), while under
    read committed it is taken anew. *)
Theorem repeatable_read_keeps_snapshot w st s0 s1 st1 st' :
  GenerateSnapshot til_Read_Repeatable s0 st = Some (s1, st1) ->
  myTransaction st = Some w ->
  myTransaction st' = Some w -> procs st' !! w = procs st1 !! w ->
  GenerateSnapshot til_Read_Repeatable s1 st' = Some (s1, st') /\
  GenerateSnapshot til_Read_Commited s1 st' =
    (s2 ← GetSnapshot st' s1; '(_, st2) ← set_snapshot 1 st'; Some (s2, st2)).
Proof.
  intros Hgen Hm Hm' Hslot. unfold GenerateSnapshot in *. rewrite Hm in Hgen. rewrite Hm'.
  unfold my_ctx in *. rewrite Hm in Hgen. rewrite Hm'. simpl in *.
  destruct (procs st !! w) as [c|] eqn:Hc; [|done]. simpl in Hgen.
  assert (Hflag : exists c', procs st' !! w = Some c' /\ snapshot c' <> 0).
  { rewrite Hslot. destruct (Z.eqb_spec (snapshot c) 0) as [E|E].
    - destruct (GetSnapshot st s0) as [s'|]; [|done]. simpl in Hgen.
      unfold set_snapshot, upd_ctx in Hgen. rewrite Hm in Hgen. simpl in Hgen.
      rewrite Hc in Hgen. simplify_eq/=. apply lookup_lt_Some in Hc.
      rewrite list_lookup_insert_eq by done. by eexists.
    - simplify_eq. eauto. }
  destruct Hflag as (c' & -> & Hne). simpl. apply Z.eqb_neq in Hne. rewrite Hne. done.
Qed.

Lemma repeatable_read_keeps_snapshot_witness :
  exists s1 st1,
    GenerateSnapshot til_Read_Repeatable (CreateSnapshot 1)
      (mkT (mkInfo 2 0 0) [mkCtx TS_START 1 0] (Some 0%nat)) = Some (s1, st1) /\
    GenerateSnapshot til_Read_Repeatable s1 (mkT (mkInfo 9 0 8) (procs st1) (Some 0%nat))
      = Some (s1, mkT (mkInfo 9 0 8) (procs st1) (Some 0%nat)).
Proof.
  do 2 eexists. split; [vm_compute; reflexivity|].
  eapply (repeatable_read_keeps_snapshot 0
    (mkT (mkInfo 2 0 0) [mkCtx TS_START 1 0] (Some 0%nat)) (CreateSnapshot 1));
    reflexivity.
Defined.
