(* ===== verification/DList.v ===== *)
(** * The intrusive doubly linked list

    Models [src/src/util/dlist/list.c]. A [DList] node is a pair of links
    stored at an address; the lists are circular and share one store, and an
    access through a pointer that is not in the store is a fault. *)

From S2P Require Import Prelude.

Abbreviation loc := positive.

Record DList := mkDL { prev : loc; next : loc }.
Abbreviation dstore := (gmap loc DList).

#[export] Instance DList_eq_dec : EqDecision DList.
Proof. solve_decision. Defined.

(** ** Field access *)

Definition get_prev (a : loc) : ST dstore loc := fun s => n ← s !! a; Some (prev n, s).
Definition get_next (a : loc) : ST dstore loc := fun s => n ← s !! a; Some (next n, s).
Definition set_prev (a v : loc) : ST dstore unit := fun s =>
  n ← s !! a; Some (tt, <[a := mkDL v (next n)]> s).
Definition set_next (a v : loc) : ST dstore unit := fun s =>
  n ← s !! a; Some (tt, <[a := mkDL (prev n) v]> s).

(** [INIT_DLIST_NODE]: the node points to itself. *)
Definition INIT_DLIST_NODE (a : loc) : ST dstore unit := set_prev a a;; set_next a a.

(** ** The operations

    [list] is the content of the caller's [PDList] variable ([None] is
    [NULL]); the operations return its new content. *)

Definition AddDListTail (list : option loc) (cell : loc) : ST dstore (Z * option loc) :=
  match list with
  | None => set_prev cell cell;; set_next cell cell;; mret (1, Some cell)
  | Some head =>
      set_next cell head;;
      p ← get_prev head; set_prev cell p;;
      p ← get_prev head; set_next p cell;;
      set_prev head cell;;
      mret (0, list)
  end.

Definition AddDListNext (list : option loc) (cell : loc) : ST dstore (Z * option loc) :=
  match list with
  | None => set_prev cell cell;; set_next cell cell;; mret (0, Some cell)
  | Some head =>
      n ← get_next head; set_next cell n;;
      set_prev cell head;;
      set_next head cell;;
      n ← get_next cell; set_prev n cell;;
      mret (0, list)
  end.

Definition PopDListHeadNode (list : option loc) : ST dstore (option loc * option loc) :=
  match list with
  | None => mret (None, None)
  | Some node =>
      head ← get_next node;
      head' ← (if decide (head = node) then mret None
               else
                 p ← get_prev node; set_prev head p;;
                 p ← get_prev node; set_next p head;;
                 mret (Some head));
      set_next node node;; set_prev node node;;
      mret (Some node, head')
  end.

Definition PopDListTailNode (list : option loc) : ST dstore (option loc * option loc) :=
  match list with
  | None => mret (None, None)
  | Some head =>
      node ← get_prev head;
      head' ← (if decide (head = node) then mret None
               else
                 p ← get_prev node; n ← get_next node; set_next p n;;
                 n ← get_next node; p ← get_prev node; set_prev n p;;
                 mret (Some head));
      set_next node node;; set_prev node node;;
      mret (Some node, head')
  end.

Definition DelDListNode (list : option loc) (cell : loc) : ST dstore Z :=
  match list with
  | None => mret 0
  | Some _ =>
      p ← get_prev cell;
      if decide (p = cell) then mret 0
      else
        n ← get_next cell; p ← get_prev cell; set_prev n p;;
        p ← get_prev cell; n ← get_next cell; set_next p n;;
        set_prev cell cell;; set_next cell cell;;
        mret 1
  end.

(** ** The abstract list

    [chain s p l n]: the nodes [l] are linked in order, the first pointing back
    to [p], the last forward to [n]. *)

Fixpoint chain (s : dstore) (p : loc) (l : list loc) (n : loc) : Prop :=
  match l with
  | [] => True
  | x :: l' => s !! x = Some (mkDL p (hd n l')) /\ chain s x l' n
  end.

(** The last element, [d] when there is none. *)
Fixpoint lastd (d : loc) (l : list loc) : loc :=
  match l with [] => d | x :: l' => lastd x l' end.

(** [circ s l]: the nodes of [l], in order, form a circular list. *)
Definition circ (s : dstore) (l : list loc) : Prop :=
  NoDup l /\ match l with [] => True | x :: l' => chain s (lastd x l') l x end.

(** [frame l s s']: [s'] differs from [s] at most on the nodes of [l]. *)
Definition frame (l : list loc) (s s' : dstore) : Prop := forall a, a ∉ l -> s' !! a = s !! a.

Lemma lastd_app d l1 l2 : lastd d (l1 ++ l2) = lastd (lastd d l1) l2.
Proof. revert d. induction l1; intros; simpl; auto. Qed.

Lemma lastd_elem d l : lastd d l ∈ d :: l.
Proof. revert d. induction l as [|x l IH]; intros d; simpl; [set_solver|]. specialize (IH x). set_solver. Qed.

Lemma chain_app s p l1 l2 n :
  chain s p (l1 ++ l2) n <-> chain s p l1 (hd n l2) /\ chain s (lastd p l1) l2 n.
Proof.
  revert p. induction l1 as [|x l1 IH]; intros p; simpl; [tauto|].
  rewrite IH. destruct l1; simpl; tauto.
Qed.

Lemma chain_insert_ne s a v p l n : a ∉ l -> chain (<[a := v]> s) p l n <-> chain s p l n.
Proof.
  revert p. induction l as [|x l IH]; intros p Ha; simpl; [done|].
  rewrite lookup_insert_ne by set_solver. rewrite IH by set_solver. done.
Qed.

Lemma chain_set_first s p p' x l n :
  x ∉ l -> chain s p (x :: l) n -> chain (<[x := mkDL p' (hd n l)]> s) p' (x :: l) n.
Proof.
  intros Hx [_ Hl]. simpl. rewrite lookup_insert_eq, chain_insert_ne by done. done.
Qed.

Lemma chain_set_last s p l z n n' :
  z ∉ l -> chain s p (l ++ [z]) n ->
  chain (<[z := mkDL (lastd p l) n']> s) p (l ++ [z]) n'.
Proof.
  intros Hz [H1 _]%chain_app. apply chain_app. simpl in *.
  rewrite chain_insert_ne, lookup_insert_eq by done. done.
Qed.

Lemma chain_last s p l z n :
  chain s p (l ++ [z]) n -> s !! z = Some (mkDL (lastd p l) n).
Proof. intros [_ [H _]]%chain_app. done. Qed.

(** A non-empty list split at its last element. *)
Lemma last_split h t : exists l, h :: t = l ++ [lastd h t].
Proof.
  revert h. induction t as [|x t IH]; intros h; simpl; [by exists []|].
  destruct (IH x) as [l ->]. by exists (h :: l).
Qed.

Lemma circ_rotate s l1 l2 : circ s (l1 ++ l2) -> circ s (l2 ++ l1).
Proof.
  intros [Hnd Hc]. split; [by rewrite (Permutation_app_comm l2 l1)|].
  destruct l1 as [|x l1]; [by rewrite app_nil_r|].
  destruct l2 as [|y l2]; [by rewrite app_nil_r in Hc|].
  cbn [app] in *. rewrite lastd_app in Hc. rewrite lastd_app. cbn [lastd] in *.
  change (y :: l2 ++ x :: l1) with ((y :: l2) ++ x :: l1).
  change (x :: l1 ++ y :: l2) with ((x :: l1) ++ y :: l2) in Hc.
  apply chain_app in Hc as [H1 H2]. apply chain_app. simpl in *. tauto.
Qed.

Lemma chain_mapped s p l n a : chain s p l n -> a ∈ l -> is_Some (s !! a).
Proof.
  revert p. induction l as [|x l IH]; intros p; simpl; [set_solver|].
  intros [Hx Hl] [->|Ha]%elem_of_cons; [eauto|by eapply IH].
Qed.

Lemma chain_frame s s' p l n :
  (forall a, a ∈ l -> s' !! a = s !! a) -> chain s p l n -> chain s' p l n.
Proof.
  revert p. induction l as [|x l IH]; intros p Heq; simpl; [done|].
  intros [Hx Hl]. split; [rewrite Heq; [done|set_solver]|apply IH; [set_solver|done]].
Qed.

Lemma circ_mapped s l a : circ s l -> a ∈ l -> is_Some (s !! a).
Proof. intros [_ Hc] Ha. destruct l; [set_solver|]. by eapply chain_mapped. Qed.

Lemma circ_frame s s' l : (forall a, a ∈ l -> s' !! a = s !! a) -> circ s l -> circ s' l.
Proof. intros Heq [Hnd Hc]. split; [done|]. destruct l; [done|]. by eapply chain_frame. Qed.

Lemma frame_insert l s s' a v : frame l s s' -> a ∈ l -> frame l s (<[a := v]> s').
Proof. intros H Ha b Hb. rewrite lookup_insert_ne by set_solver. by apply H. Qed.

Lemma frame_refl l s : frame l s s.
Proof. done. Qed.

#[export] Hint Resolve frame_insert frame_refl : toad.

(** ** Each operation implements its list counterpart *)

(** Runs the field accesses of the goal; the nodes' contents come from the
    hypotheses on the store. *)
#[local] Ltac solve_frame :=
  repeat apply frame_insert; try apply frame_refl; rewrite ?elem_of_cons in *; tauto.

#[local] Ltac drun :=
  unfold mbind, ST_bind, mret, ST_ret, get_prev, get_next, set_prev, set_next;
  repeat (first
    [ progress cbn [option_bind mbind prev next]
    | match goal with H : ?s !! ?a = Some _ |- context [?s !! ?a] => rewrite H end
    | rewrite lookup_insert_eq
    | rewrite lookup_insert_ne by congruence ]).

Lemma AddDListTail_some s h t cell :
  circ s (h :: t) -> cell ∉ h :: t -> is_Some (s !! cell) ->
  exists s', AddDListTail (Some h) cell s = Some ((0, Some h), s') /\
    circ s' (h :: t ++ [cell]) /\ frame (cell :: h :: t) s s'.
Proof.
  intros [Hnd Hc] Hcell [[cp cn] Hcs].
  destruct (last_split h t) as [l' El']. set (z := lastd h t) in *.
  assert (Hh : s !! h = Some (mkDL z (hd h t))) by apply Hc.
  assert (Hz : s !! z = Some (mkDL (lastd z l') h)).
  { rewrite El' in Hc. by apply chain_last in Hc. }
  assert (Hzin : z ∈ h :: t) by apply lastd_elem.
  assert (z <> cell) by set_solver. assert (h <> cell) by set_solver.
  set (s2 := <[cell := mkDL z h]> s).
  set (s3 := <[z := mkDL (lastd z l') cell]> s2).
  assert (H3 : chain s3 z (h :: t) cell).
  { rewrite El'. apply chain_set_last with h.
    - intros ?. rewrite El' in Hnd. apply NoDup_app in Hnd. set_solver.
    - rewrite <- El'. by apply chain_insert_ne. }
  assert (H4 : chain (<[h := mkDL cell (hd cell t)]> s3) cell (h :: t) cell).
  { apply chain_set_first with z; [by inversion Hnd|done]. }
  exists (<[h := mkDL cell (hd cell t)]> s3). split_and!.
  - unfold AddDListTail. drun. rewrite (insert_insert_eq s cell). fold s2 s3.
    rewrite (proj1 H3). done.
  - split.
    + change (h :: t ++ [cell]) with ((h :: t) ++ [cell]). apply NoDup_app. split_and!; [done|set_solver|].
      apply NoDup_singleton.
    + change (h :: t ++ [cell]) with ((h :: t) ++ [cell]). rewrite lastd_app.
      apply chain_app. split; [done|]. simpl.
      rewrite lookup_insert_ne by done. unfold s3, s2.
      rewrite lookup_insert_ne, lookup_insert_eq by done. done.
  - unfold s3, s2. solve_frame.
Qed.

Lemma AddDListTail_none s cell :
  is_Some (s !! cell) ->
  exists s', AddDListTail None cell s = Some ((1, Some cell), s') /\
    circ s' [cell] /\ frame [cell] s s'.
Proof.
  intros [[cp cn] Hcs]. exists (<[cell := mkDL cell cell]> s). split_and!.
  - unfold AddDListTail. drun. by rewrite insert_insert_eq.
  - split; [apply NoDup_singleton|]. simpl. by rewrite lookup_insert_eq.
  - by apply frame_insert; [|set_solver].
Qed.

Lemma AddDListNext_some s h t cell :
  circ s (h :: t) -> cell ∉ h :: t -> is_Some (s !! cell) ->
  exists s', AddDListNext (Some h) cell s = Some ((0, Some h), s') /\
    circ s' (h :: cell :: t) /\ frame (cell :: h :: t) s s'.
Proof.
  intros [Hnd Hc] Hcell [[cp cn] Hcs]. assert (h <> cell) by set_solver.
  assert (Hh : s !! h = Some (mkDL (lastd h t) (hd h t))) by apply Hc.
  assert (Hnd' : NoDup (h :: cell :: t)).
  { apply NoDup_cons in Hnd as [? ?]. apply NoDup_cons. split; [set_solver|].
    apply NoDup_cons. set_solver. }
  set (s2 := <[cell := mkDL h (hd h t)]> s).
  set (s3 := <[h := mkDL (lastd h t) cell]> s2).
  destruct t as [|y t]; simpl in *.
  - exists (<[h := mkDL cell cell]> s3). split_and!.
    + unfold AddDListNext. drun. rewrite (insert_insert_eq s cell). fold s2 s3. done.
    + split; [done|]. simpl. rewrite lookup_insert_eq, lookup_insert_ne by done.
      unfold s3, s2. by rewrite lookup_insert_ne, lookup_insert_eq by done.
    + unfold s3, s2. solve_frame.
  - destruct Hc as (_ & Hy & Ht).
    assert (y <> h /\ y <> cell /\ y ∉ t /\ h ∉ t /\ cell ∉ t) as (? & ? & ? & ? & ?).
    { apply NoDup_cons in Hnd as [? Hnd]. apply NoDup_cons in Hnd as [? _]. set_solver. }
    exists (<[y := mkDL cell (hd h t)]> s3). split_and!.
    + unfold AddDListNext. drun. rewrite (insert_insert_eq s cell). fold s2 s3.
      unfold s3, s2. drun. done.
    + split; [done|]. simpl. rewrite lookup_insert_eq, !lookup_insert_ne by done.
      unfold s3 at 1. rewrite lookup_insert_eq. unfold s3 at 1, s2 at 1.
      rewrite lookup_insert_ne, lookup_insert_eq by done. split_and!; try done.
      unfold s3, s2. rewrite !chain_insert_ne by done. done.
    + unfold s3, s2. solve_frame.
Qed.

Lemma PopDListHeadNode_some s h t :
  circ s (h :: t) ->
  exists s', PopDListHeadNode (Some h) s = Some ((Some h, head t), s') /\
    circ s' t /\ circ s' [h] /\ frame (h :: t) s s'.
Proof.
  intros [Hnd Hc]. assert (Hh : s !! h = Some (mkDL (lastd h t) (hd h t))) by apply Hc.
  destruct t as [|y t]; simpl in Hh.
  - exists (<[h := mkDL h h]> s). split_and!.
    + unfold PopDListHeadNode. drun. rewrite decide_True by done. drun.
      by rewrite insert_insert_eq.
    + split; [constructor|done].
    + split; [apply NoDup_singleton|]. simpl. by rewrite lookup_insert_eq.
    + by apply frame_insert; [|set_solver].
  - destruct (last_split y t) as [l' El']. set (z := lastd y t) in *.
    apply NoDup_cons in Hnd as [Hh_t Hnd].
    assert (Hz_t : z ∈ y :: t) by apply lastd_elem.
    assert (z <> h /\ y <> h) as [? ?] by set_solver.
    destruct Hc as [_ Hc].
    set (s1 := <[y := mkDL z (hd h t)]> s).
    assert (H1 : chain s1 z (y :: t) h).
    { apply chain_set_first with h; [by inversion Hnd|done]. }
    pose proof H1 as Hz. rewrite El' in Hz. apply chain_last in Hz.
    set (s2 := <[z := mkDL (lastd z l') y]> s1).
    assert (H2 : chain s2 z (y :: t) y).
    { rewrite El'. apply chain_set_last with h; [|by rewrite <- El'].
      intros ?. rewrite El' in Hnd. apply NoDup_app in Hnd. set_solver. }
    assert (Hy : s !! y = Some (mkDL h (hd h t))) by apply Hc.
    assert (Hh1 : s1 !! h = Some (mkDL z y)) by (unfold s1; by rewrite lookup_insert_ne).
    exists (<[h := mkDL h h]> s2). split_and!.
    + unfold PopDListHeadNode. drun. rewrite decide_False by done. drun.
      fold s1. drun. fold s2. drun. by rewrite insert_insert_eq.
    + split; [done|]. fold z. by apply chain_insert_ne.
    + split; [apply NoDup_singleton|]. simpl. by rewrite lookup_insert_eq.
    + unfold s2, s1. solve_frame.
Qed.

Lemma PopDListTailNode_some s l z :
  circ s (l ++ [z]) ->
  exists s', PopDListTailNode (head (l ++ [z])) s = Some ((Some z, head l), s') /\
    circ s' l /\ circ s' [z] /\ frame (l ++ [z]) s s'.
Proof.
  intros [Hnd Hc]. destruct l as [|h t].
  - destruct Hc as [Hz _]. simpl in *. exists (<[z := mkDL z z]> s). split_and!.
    + unfold PopDListTailNode. drun. rewrite decide_True by done. drun.
      by rewrite insert_insert_eq.
    + split; [constructor|done].
    + split; [apply NoDup_singleton|]. simpl. by rewrite lookup_insert_eq.
    + solve_frame.
  - cbn [app head] in *. rewrite lastd_app in Hc. cbn [lastd] in Hc.
    change (h :: t ++ [z]) with ((h :: t) ++ [z]) in *.
    pose proof (chain_last _ _ _ _ _ Hc) as Hz. simpl in Hz.
    apply NoDup_app in Hnd as (Hnd & Hzt & _).
    assert (Hz_t : z ∉ h :: t) by (intros ?; eapply Hzt; [done|set_solver]).
    destruct (last_split h t) as [l' El']. set (p := lastd h t) in *.
    assert (p ∈ h :: t) by apply lastd_elem.
    assert (z <> h /\ p <> z) as [Hzh Hpz] by (split; intros E; apply Hz_t; [rewrite E; apply elem_of_cons; by left|by rewrite <- E]).
    apply chain_app in Hc as [Hc _]. simpl hd in Hc.
    set (s1 := <[p := mkDL (lastd z l') h]> s).
    assert (Hp : s !! p = Some (mkDL (lastd z l') z)) by (rewrite El' in Hc; by apply chain_last in Hc).
    assert (H1 : chain s1 z (h :: t) h).
    { rewrite El'. apply chain_set_last with z; [|by rewrite <- El'].
      intros ?. rewrite El' in Hnd. apply NoDup_app in Hnd as (_ & Hd & _).
      eapply Hd; [done|set_solver]. }
    assert (Hz1 : s1 !! z = Some (mkDL p h)) by (unfold s1; by rewrite lookup_insert_ne).
    set (s2 := <[h := mkDL p (hd h t)]> s1).
    assert (H2 : chain s2 p (h :: t) h).
    { apply chain_set_first with z; [by inversion Hnd|done]. }
    assert (Hh : s !! h = Some (mkDL z (hd z t))) by apply Hc.
    pose proof (proj1 H1) as Hh1.
    assert (Hz2 : s2 !! z = Some (mkDL p h)) by (unfold s2; by rewrite lookup_insert_ne).
    exists (<[z := mkDL z z]> s2). split_and!.
    + unfold PopDListTailNode. drun. rewrite decide_False by done. drun.
      fold s1. drun. fold s2. clearbody s2. drun. by rewrite insert_insert_eq.
    + split; [done|]. fold p. by apply chain_insert_ne.
    + split; [apply NoDup_singleton|]. simpl. by rewrite lookup_insert_eq.
    + unfold s2, s1. repeat apply frame_insert; try apply frame_refl;
        rewrite elem_of_app; rewrite ?elem_of_cons in *; tauto.
Qed.

(** Deleting the head of a longer list, whatever the [list] argument points
    to. *)
Lemma DelDListNode_head s a x t :
  circ s (x :: t) -> t <> [] ->
  exists s', DelDListNode (Some a) x s = Some (1, s') /\
    circ s' t /\ circ s' [x] /\ frame (x :: t) s s'.
Proof.
  intros [Hnd Hc] Ht. assert (Hx : s !! x = Some (mkDL (lastd x t) (hd x t))) by apply Hc.
  destruct t as [|y t]; [done|]. simpl in Hx.
  destruct (last_split y t) as [l' El']. set (z := lastd y t) in *.
  apply NoDup_cons in Hnd as [Hx_t Hnd].
  assert (Hz_t : z ∈ y :: t) by apply lastd_elem.
  assert (z <> x /\ y <> x) as [? ?].
  { split; intros E; apply Hx_t; rewrite <- E; [done|apply elem_of_cons; by left]. }
  destruct Hc as [_ Hc].
  set (s1 := <[y := mkDL z (hd x t)]> s).
  assert (H1 : chain s1 z (y :: t) x).
  { apply chain_set_first with x; [by inversion Hnd|done]. }
  pose proof H1 as Hz. rewrite El' in Hz. apply chain_last in Hz.
  set (s2 := <[z := mkDL (lastd z l') y]> s1).
  assert (H2 : chain s2 z (y :: t) y).
  { rewrite El'. apply chain_set_last with x; [|by rewrite <- El'].
    intros ?. rewrite El' in Hnd. apply NoDup_app in Hnd as (_ & Hd & _).
    eapply Hd; [done|set_solver]. }
  assert (Hy : s !! y = Some (mkDL x (hd x t))) by apply Hc.
  assert (Hx1 : s1 !! x = Some (mkDL z y)) by (unfold s1; by rewrite lookup_insert_ne).
  assert (Hx2 : s2 !! x = Some (mkDL z y)) by (unfold s2; by rewrite lookup_insert_ne).
  exists (<[x := mkDL x x]> s2). split_and!.
  + unfold DelDListNode. drun. rewrite decide_False by done. drun.
    fold s1. drun. fold s2. clearbody s2. drun. by rewrite insert_insert_eq.
  + split; [done|]. fold z. by apply chain_insert_ne.
  + split; [apply NoDup_singleton|]. simpl. by rewrite lookup_insert_eq.
  + unfold s2, s1. solve_frame.
Qed.

Lemma DelDListNode_some s a l1 x l2 :
  circ s (l1 ++ x :: l2) -> l1 ++ l2 <> [] ->
  exists s', DelDListNode (Some a) x s = Some (1, s') /\
    circ s' (l1 ++ l2) /\ circ s' [x] /\ frame (l1 ++ x :: l2) s s'.
Proof.
  intros Hc%circ_rotate Hne. simpl in Hc.
  destruct (DelDListNode_head s a x (l2 ++ l1) Hc) as (s' & ? & Hc' & ? & Hf).
  { intros [-> ->]%app_eq_nil. done. }
  exists s'. split_and!; [done|by apply circ_rotate|done|].
  intros b Hb. apply Hf. rewrite elem_of_cons, elem_of_app in *. 
  rewrite elem_of_cons in Hb. tauto.
Qed.

Lemma DelDListNode_single s a x :
  circ s [x] -> DelDListNode (Some a) x s = Some (0, s).
Proof.
  intros [_ [Hx _]]. unfold DelDListNode. drun. by rewrite decide_True by done.
Qed.

(** ** Properties *)

(** C39: what the pointer code of the list does to the sequence of its cells. Adding at
    the tail makes the list [cell] of an empty one (and reports 1) and appends to any
    other; adding next inserts behind the head; the two pops take the first and the last
    element, unlink it and give the new head, none after the last cell. Deletion is not
    the operation on the list variable the others are: from a list of at least two
    cells it takes the cell out wherever it is and never changes the variable, which
    after the deletion of the head points to the deleted cell, alone; it refuses
    the only cell of a list and leaves it there. No access faults and no other node changes. *)
Theorem dlist_refines_sequence s h t cell :
  circ s (h :: t) -> cell ∉ h :: t -> is_Some (s !! cell) ->
  (exists s', AddDListTail None cell s = Some ((1, Some cell), s') /\ circ s' [cell] /\ frame [cell] s s') /\
  (exists s', AddDListTail (Some h) cell s = Some ((0, Some h), s') /\
     circ s' (h :: t ++ [cell]) /\ frame (cell :: h :: t) s s') /\
  (exists s', AddDListNext (Some h) cell s = Some ((0, Some h), s') /\
     circ s' (h :: cell :: t) /\ frame (cell :: h :: t) s s') /\
  (exists s', PopDListHeadNode (Some h) s = Some ((Some h, head t), s') /\
     circ s' t /\ circ s' [h] /\ frame (h :: t) s s') /\
  (forall l z, h :: t = l ++ [z] ->
     exists s', PopDListTailNode (Some h) s = Some ((Some z, head l), s') /\
     circ s' l /\ circ s' [z] /\ frame (h :: t) s s') /\
  (forall l1 x l2, h :: t = l1 ++ x :: l2 ->
     if decide (t = []) then DelDListNode (Some h) x s = Some (0, s)
     else exists s', DelDListNode (Some h) x s = Some (1, s') /\
       circ s' (l1 ++ l2) /\ circ s' [x] /\ frame (h :: t) s s').
Proof.
  intros Hc Hcell Hmap. split_and!.
  - by apply AddDListTail_none.
  - by apply AddDListTail_some.
  - by apply AddDListNext_some.
  - by apply PopDListHeadNode_some.
  - intros l z E. rewrite E in *. replace (Some h) with (head (l ++ [z])) by (by rewrite <- E).
    by apply PopDListTailNode_some.
  - intros l1 x l2 E. case_decide as Ht.
    + subst t. destruct l1 as [|y l1]; [|by destruct l1]. injection E as <- <-. by apply DelDListNode_single.
    + rewrite E in *. apply DelDListNode_some; [done|].
      intros [-> ->]%app_eq_nil. simpl in E. congruence.
Qed.

Lemma dlist_refines_sequence_witness :
  let s := <[1%positive := mkDL 2 2]> (<[2%positive := mkDL 1 1]> (<[3%positive := mkDL 3 3]> ∅)) in
  (exists s', AddDListTail (Some 1%positive) 3%positive s = Some ((0, Some 1%positive), s') /\
    circ s' [1%positive; 2%positive; 3%positive]) /\
  exists s', DelDListNode (Some 1%positive) 1%positive s = Some (1, s') /\ circ s' [2%positive] /\ circ s' [1%positive].
Proof.
  intros s. destruct (dlist_refines_sequence s 1%positive [2%positive] 3%positive) as (_ & (s1 & E1 & H1 & _) & _ & _ & _ & Hdel).
  - split; [by apply (bool_decide_unpack _)|]. by repeat split.
  - by apply (bool_decide_unpack _).
  - by eexists.
  - split; [exists s1; by split|]. destruct (Hdel [] 1%positive [2%positive] eq_refl) as (s2 & E2 & H2 & H3 & _).
    exists s2. split; [exact E2|]. split; [exact H2|exact H3].
Defined.

(** [DelDListNode] and a list variable: the function never changes
    [*list], so deleting the head of a longer list leaves the variable pointing
    at the removed cell, and it refuses (returns 0) to delete the only cell. *)
Theorem DelDListNode_keeps_head_pointer s h t :
  circ s (h :: t) ->
  if decide (t = []) then DelDListNode (Some h) h s = Some (0, s)
  else exists s', DelDListNode (Some h) h s = Some (1, s') /\ circ s' t /\ circ s' [h].
Proof.
  intros Hc. case_decide as Ht; [subst t; by apply DelDListNode_single|].
  destruct (DelDListNode_head s h h t Hc Ht) as (s' & ? & ? & ? & _). eauto.
Qed.

Lemma DelDListNode_keeps_head_pointer_witness :
  exists s', DelDListNode (Some 1%positive) 1%positive
      (<[1%positive := mkDL 2 2]> (<[2%positive := mkDL 1 1]> ∅)) = Some (1, s') /\
    circ s' [2%positive] /\ circ s' [1%positive].
Proof.
  apply (DelDListNode_keeps_head_pointer _ 1%positive [2%positive]).
  split; [by apply (bool_decide_unpack _)|]. by repeat split.
Defined.
