(* ===== verification/ResourceOwner.v ===== *)
(** * The resource owner pool

    Models [src/src/util/resourceManger/resourceMgr.c]: a worker's queue of the
    buffers it has pinned, kept in two sentinel-headed [DList]s, the owned nodes
    and the free nodes, that share one store. *)

From S2P Require Import Prelude DList.

(** What a [BufferResource] node carries besides its links. *)
Record Resource := mkRes { res_type : Z; res_buffer : Z }.

#[export] Instance Resource_eq_dec : EqDecision Resource.
Proof. solve_decision. Defined.

Record ResourceOnwerPool := mkPool {
  nodes : dstore;                      (* links of all nodes, sentinels included *)
  payload : gmap loc Resource;         (* type and buffer fields *)
  freeList : loc;                      (* address of the sentinel [pool->freeList] *)
  header : loc;                        (* address of the sentinel [pool->header] *)
  freeNodeNum : Z;
  onwerResourceNum : Z
}.

Definition set_nodes (s : dstore) (p : ResourceOnwerPool) : ResourceOnwerPool :=
  mkPool s (payload p) (freeList p) (header p) (freeNodeNum p) (onwerResourceNum p).
Definition set_payload a r (p : ResourceOnwerPool) : ResourceOnwerPool :=
  mkPool (nodes p) (<[a := r]> (payload p)) (freeList p) (header p) (freeNodeNum p)
    (onwerResourceNum p).
Definition add_free (d : Z) (p : ResourceOnwerPool) : ResourceOnwerPool :=
  mkPool (nodes p) (payload p) (freeList p) (header p) (freeNodeNum p + d) (onwerResourceNum p).
Definition add_owner (d : Z) (p : ResourceOnwerPool) : ResourceOnwerPool :=
  mkPool (nodes p) (payload p) (freeList p) (header p) (freeNodeNum p) (onwerResourceNum p + d).

(** Runs a list operation on the pool's store. *)
Definition on_nodes {A} (m : ST dstore A) : ST ResourceOnwerPool A := fun p =>
  '(a, s) ← m (nodes p); Some (a, set_nodes s p).

Definition read_payload (a : loc) : ST ResourceOnwerPool Resource := fun p =>
  r ← payload p !! a; Some (r, p).

(** [CreateResourceOwnerPool]: both sentinels are initialised, counts are 0. *)
Definition CreateResourceOwnerPool (fl hd : loc) : ResourceOnwerPool :=
  mkPool (<[fl := mkDL fl fl]> (<[hd := mkDL hd hd]> ∅)) ∅ fl hd 0 0.

(** [AllocMem(sizeof(BufferResource))]: an address no node of the pool uses.
    The links are overwritten by [INIT_DLIST_NODE] before they are read. *)
Definition AllocNode : ST ResourceOnwerPool loc := fun p =>
  let a := fresh (dom (nodes p)) in
  Some (a, set_nodes (<[a := mkDL a a]> (nodes p)) (set_payload a (mkRes 0 0) p)).

Definition GetResourceOwnerNode : ST ResourceOnwerPool loc := fun p =>
  if 0 <? freeNodeNum p then
    ('(node, _) ← on_nodes (PopDListTailNode (Some (freeList p)));
     st_modify (add_free (-1));;
     st_lift node) p
  else AllocNode p.

Definition AddResourceOwnerNodeToFreeList (node : loc) : ST ResourceOnwerPool unit := fun p =>
  (on_nodes (AddDListTail (Some (freeList p)) node);; st_modify (add_free 1)) p.

Definition PushResourceOwner (buffer type : Z) : ST ResourceOnwerPool Z := fun p =>
  (node ← GetResourceOwnerNode;
   st_modify (set_payload node (mkRes type buffer));;
   on_nodes (INIT_DLIST_NODE node);;
   on_nodes (AddDListTail (Some (header p)) node);;
   st_modify (add_owner 1);;
   mret 0) p.

(** The [while] loop of [ReleaseResourceOwner]; [fuel] bounds the number of
    nodes visited. *)
Fixpoint Release_loop (fuel : nat) (cur : loc) (buffer type : Z) : ST ResourceOnwerPool Z := fun p =>
  match fuel with
  | O => None
  | S fuel =>
      if decide (cur = header p) then Some (0, p)
      else
        (nx ← on_nodes (get_next cur);
         r ← read_payload cur;
         if decide (res_buffer r = buffer /\ res_type r = type) then
           on_nodes (DelDListNode (Some (header p)) cur);;
           st_modify (add_owner (-1));;
           AddResourceOwnerNodeToFreeList cur;;
           mret 1
         else Release_loop fuel nx buffer type) p
  end.

Definition ReleaseResourceOwner (fuel : nat) (buffer type : Z) : ST ResourceOnwerPool Z := fun p =>
  (cur ← on_nodes (get_next (header p));
   if onwerResourceNum p =? 0 then mret 0
   else Release_loop fuel cur buffer type) p.

(** Returns the C return value and, when it is 1, the buffer written through
    the out parameter. *)
Definition PopResourceOwner : ST ResourceOnwerPool (Z * option Z) := fun p =>
  (cur ← on_nodes (get_next (header p));
   if onwerResourceNum p =? 0 then mret (0, None)
   else if decide (cur = header p) then mret (0, None)
   else
     r ← read_payload cur;
     on_nodes (DelDListNode (Some (header p)) cur);;
     st_modify (add_owner (-1));;
     AddResourceOwnerNodeToFreeList cur;;
     mret (1, Some (res_buffer r))) p.

(** ** The abstract pool: a queue of resources *)

(** The two circular lists, disjoint, with their counters. *)
Definition pool_shape (p : ResourceOnwerPool) (owned frees : list loc) : Prop :=
  circ (nodes p) (header p :: owned) /\ circ (nodes p) (freeList p :: frees) /\
  (forall a, a ∈ header p :: owned -> a ∉ freeList p :: frees) /\
  freeNodeNum p = Z.of_nat (length frees) /\
  onwerResourceNum p = Z.of_nat (length owned).

Definition pool_queue (p : ResourceOnwerPool) (l : list Resource) : Prop :=
  exists owned frees, pool_shape p owned frees /\
    Forall2 (fun a r => payload p !! a = Some r) owned l.

(** Removes the first resource equal to [r]. *)
Fixpoint remove_first (r : Resource) (l : list Resource) : list Resource :=
  match l with
  | [] => []
  | x :: l => if decide (x = r) then l else x :: remove_first r l
  end.

(** ** Node movements *)

Lemma on_nodes_run {A} (m : ST dstore A) p a s :
  m (nodes p) = Some (a, s) -> on_nodes m p = Some (a, set_nodes s p).
Proof. intros H. unfold on_nodes. by rewrite H. Qed.

Lemma circ_frame_disjoint s s' l l' :
  circ s l' -> frame l s s' -> (forall a, a ∈ l' -> a ∉ l) -> circ s' l'.
Proof. intros Hc Hf Hd. eapply circ_frame; [|done]. intros a Ha. by apply Hf, Hd. Qed.

(** Moving an owned node to the free list, as both removals do. *)
Lemma unlink_owned p l1 x l2 frees :
  pool_shape p (l1 ++ x :: l2) frees ->
  exists p', (on_nodes (DelDListNode (Some (header p)) x);; st_modify (add_owner (-1));;
              AddResourceOwnerNodeToFreeList x) p = Some (tt, p') /\
    pool_shape p' (l1 ++ l2) (frees ++ [x]) /\ payload p' = payload p /\
    header p' = header p /\ freeList p' = freeList p.
Proof.
  intros (Hh & Hf & Hd & Hfn & Hon).
  destruct (DelDListNode_some (nodes p) (header p) (header p :: l1) x l2)
    as (s1 & E1 & Hh1 & Hx1 & Hfr1); [done|done|].
  assert (Hf1 : circ s1 (freeList p :: frees)).
  { eapply circ_frame_disjoint; [done|exact Hfr1|]. intros a Ha Ha'. by eapply Hd. }
  assert (Hx_free : x ∉ freeList p :: frees) by (apply Hd; set_solver).
  destruct (AddDListTail_some s1 (freeList p) frees x) as (s2 & E2 & Hf2 & Hfr2);
    [done|done|apply (circ_mapped s1 [x]); [done|set_solver]|].
  assert (Hx_own : x ∉ header p :: l1 ++ l2).
  { destruct Hh as [Hnd _]. change (NoDup ((header p :: l1) ++ x :: l2)) in Hnd.
    rewrite <- Permutation_middle in Hnd. by apply NoDup_cons in Hnd as [? _]. }
  assert (Hdis : forall a, a ∈ header p :: l1 ++ l2 -> a ∉ freeList p :: frees ++ [x]).
  { intros a Ha. assert (a <> x) by (intros ->; done).
    assert (a ∉ freeList p :: frees) by (apply Hd; set_solver). set_solver. }
  unfold AddResourceOwnerNodeToFreeList.
  eexists. split; [|split].
  - rewrite (st_bind_some _ _ _ _ _ (on_nodes_run _ _ _ _ E1)).
    erewrite st_bind_some by reflexivity.
    rewrite (st_bind_some (on_nodes _) _ _ _ _ (on_nodes_run _ (add_owner (-1) (set_nodes s1 p)) _ _ E2)).
    reflexivity.
  - unfold pool_shape; simpl. split_and!.
    + eapply circ_frame_disjoint; [exact Hh1|exact Hfr2|].
      intros a Ha. specialize (Hdis a Ha). set_solver.
    + done.
    + done.
    + rewrite length_app. simpl. lia.
    + rewrite length_app in *. simpl in *. lia.
  - done.
Qed.

(** A node obtained from the pool: unlinked, mapped, and outside both lists. *)
Lemma obtain_node p owned frees :
  pool_shape p owned frees ->
  exists p' a frees', GetResourceOwnerNode p = Some (a, p') /\
    pool_shape p' owned frees' /\ is_Some (nodes p' !! a) /\
    a ∉ header p :: owned /\ a ∉ freeList p :: frees' /\
    (forall b, b <> a -> payload p' !! b = payload p !! b) /\
    header p' = header p /\ freeList p' = freeList p.
Proof.
  intros (Hh & Hf & Hd & Hfn & Hon). unfold GetResourceOwnerNode.
  destruct (Z.ltb_spec 0 (freeNodeNum p)) as [Hpos|Hz].
  - destruct frees as [|z fr _] using rev_ind; [simpl in *; lia|].
    change (freeList p :: fr ++ [z]) with ((freeList p :: fr) ++ [z]) in *.
    destruct (PopDListTailNode_some (nodes p) (freeList p :: fr) z Hf)
      as (s1 & E1 & Hf1 & Hz1 & Hfr1).
    assert (Hz_own : z ∉ header p :: owned).
    { intros Hin. eapply Hd; [exact Hin|]. set_solver. }
    rewrite (st_bind_some (on_nodes _) _ _ _ _ (on_nodes_run _ _ _ _ E1)).
    eexists _, z, fr. split; [reflexivity|]. unfold pool_shape; simpl. split_and!.
    + eapply circ_frame_disjoint; [exact Hh|exact Hfr1|]. intros a Ha Ha'. by eapply Hd.
    + done.
    + intros a Ha Ha'. eapply Hd; [exact Ha|]. set_solver.
    + rewrite length_app in *. simpl in *. lia.
    + done.
    + apply (circ_mapped s1 [z]); [done|set_solver].
    + done.
    + destruct Hf as [Hnd _]. apply NoDup_app in Hnd as (_ & Hnd & _).
      intros Hin. apply (Hnd z Hin). set_solver.
    + done.
    + done.
    + done.
  - unfold AllocNode. set (a := fresh (dom (nodes p))).
    assert (Ha : nodes p !! a = None) by (apply not_elem_of_dom, is_fresh).
    assert (Hout : forall l, circ (nodes p) l -> a ∉ l).
    { intros l Hl Hin. destruct (circ_mapped _ _ _ Hl Hin). congruence. }
    assert (Hkeep : forall l, circ (nodes p) l -> circ (<[a := mkDL a a]> (nodes p)) l).
    { intros l Hl. apply (circ_frame (nodes p)); [|done]. intros b Hb.
      rewrite lookup_insert_ne; [done|]. intros ->. by apply (Hout l). }
    eexists _, a, frees. split; [reflexivity|]. unfold pool_shape; simpl. split_and!; auto.
    + rewrite lookup_insert_eq. eauto.
    + intros b Hb. by rewrite lookup_insert_ne.
Qed.

Lemma Forall2_payload_frame (m m' : gmap loc Resource) owned l :
  (forall b, b ∈ owned -> m' !! b = m !! b) ->
  Forall2 (fun a r => m !! a = Some r) owned l -> Forall2 (fun a r => m' !! a = Some r) owned l.
Proof.
  intros Heq H. induction H as [|a r owned l Ha _ IH]; constructor.
  - rewrite Heq; [done|set_solver].
  - apply IH. set_solver.
Qed.

Lemma INIT_DLIST_NODE_run s a :
  is_Some (s !! a) -> INIT_DLIST_NODE a s = Some (tt, <[a := mkDL a a]> s).
Proof.
  intros [[p n] Ha]. unfold INIT_DLIST_NODE, set_prev, set_next, mbind, ST_bind.
  rewrite Ha. simpl. rewrite lookup_insert_eq. simpl. by rewrite insert_insert_eq.
Qed.

Lemma PushResourceOwner_queue p l b ty :
  pool_queue p l ->
  exists p', PushResourceOwner b ty p = Some (0, p') /\ pool_queue p' (l ++ [mkRes ty b]).
Proof.
  intros (owned & frees & Hshape & Hl).
  destruct (obtain_node p owned frees Hshape)
    as (p1 & a & frees' & E1 & (Hh & Hf & Hd & Hfn & Hon) & Hmap & Hao & Haf & Hpl & Ehd & Efl).
  rewrite Ehd, Efl in *.
  set (s1 := <[a := mkDL a a]> (nodes p1)).
  assert (Hkeep : forall l', circ (nodes p1) l' -> a ∉ l' -> circ s1 l').
  { intros l' Hc Ha. apply (circ_frame (nodes p1)); [|done]. intros x Hx.
    unfold s1. rewrite lookup_insert_ne; [done|]. by intros ->. }
  destruct (AddDListTail_some s1 (header p) owned a) as (s2 & E2 & Hh2 & Hfr2);
    [by apply Hkeep|done|unfold s1; rewrite lookup_insert_eq; eauto|].
  unfold PushResourceOwner. rewrite (st_bind_some _ _ _ _ _ E1).
  erewrite st_bind_some by reflexivity.
  rewrite (st_bind_some (on_nodes _) _ _ _ _
    (on_nodes_run _ (set_payload a (mkRes ty b) p1) _ _ (INIT_DLIST_NODE_run _ a Hmap))).
  rewrite (st_bind_some (on_nodes _) _ _ _ _
    (on_nodes_run _ (set_nodes s1 (set_payload a (mkRes ty b) p1)) _ _ E2)).
  eexists. split; [reflexivity|].
  exists (owned ++ [a]), frees'. unfold pool_shape; simpl. rewrite Ehd, Efl. split_and!.
  - done.
  - eapply circ_frame_disjoint; [by apply Hkeep; [exact Hf|]|exact Hfr2|].
    intros x Hx Hx'. apply elem_of_cons in Hx' as [->|Hx']; [done|]. by apply (Hd x).
  - intros x Hx. assert (x = a \/ x ∈ header p :: owned) as [->|?] by set_solver; [done|].
    by apply Hd.
  - done.
  - rewrite length_app. simpl. lia.
  - apply Forall2_app.
    + eapply Forall2_payload_frame; [|exact Hl]. intros x Hx.
      assert (x <> a) by (intros ->; set_solver).
      rewrite lookup_insert_ne by done. by apply Hpl.
    + constructor; [|constructor]. apply lookup_insert_eq.
Qed.

Lemma owned_next p owned frees l1 x l2 :
  pool_shape p owned frees -> header p :: owned = l1 ++ x :: l2 ->
  get_next x (nodes p) = Some (hd (header p) l2, nodes p).
Proof.
  intros ([_ Hc] & _) E.
  assert (H : chain (nodes p) (lastd (header p) owned) (header p :: owned) (header p)) by done.
  rewrite E in H. apply chain_app in H as [_ [Hx _]]. unfold get_next. by rewrite Hx.
Qed.

Lemma Release_loop_queue fuel p owned frees l1 rest r1 rs b ty :
  pool_shape p owned frees -> owned = l1 ++ rest ->
  Forall2 (fun a r => payload p !! a = Some r) l1 r1 ->
  Forall2 (fun a r => payload p !! a = Some r) rest rs ->
  (length rest < fuel)%nat ->
  exists p', Release_loop fuel (hd (header p) rest) b ty p =
      Some (if decide (mkRes ty b ∈ rs) then 1 else 0, p') /\
    pool_queue p' (r1 ++ remove_first (mkRes ty b) rs).
Proof.
  revert l1 rest r1 rs. induction fuel as [|fuel IH]; intros l1 rest r1 rs Hsh Eo H1 Hr Hf; [lia|].
  simpl. inversion Hr as [|x r rest' rs' Hx Hr' E1 E2]; subst rest rs.
  - simpl. rewrite decide_True by done. exists p. split; [done|].
    exists owned, frees. split; [done|]. by rewrite Eo, !app_nil_r.
  - simpl. assert (Hxne : x <> header p).
    { destruct Hsh as ([Hnd _] & _). rewrite Eo in Hnd. apply NoDup_cons in Hnd as [Hnd _].
      intros ->. apply Hnd. set_solver. }
    rewrite decide_False by done.
    assert (En : on_nodes (get_next x) p = Some (hd (header p) rest', p)).
    { unfold on_nodes. rewrite (owned_next p owned frees (header p :: l1) x rest' Hsh)
        by (by rewrite Eo). simpl. by destruct p. }
    rewrite (st_bind_some _ _ _ _ _ En).
    assert (Er : read_payload x p = Some (r, p)) by (unfold read_payload; by rewrite Hx).
    rewrite (st_bind_some _ _ _ _ _ Er).
    destruct (decide (res_buffer r = b /\ res_type r = ty)) as [Heq|Hne].
    + assert (r = mkRes ty b) as -> by (destruct r; simpl in *; destruct Heq; congruence).
      rewrite !decide_True by (done || set_solver).
      subst owned. destruct (unlink_owned p l1 x rest' frees Hsh) as (p' & Hrun & Hsh' & Hpl & _).
      exists p'. split.
      * apply st_bind_inv in Hrun as (d & q1 & R1 & Hrun).
        apply st_bind_inv in Hrun as ([] & q2 & R2 & R3).
        rewrite (st_bind_some _ _ _ _ _ R1), (st_bind_some _ _ _ _ _ R2).
        by rewrite (st_bind_some _ _ _ _ _ R3).
      * exists (l1 ++ rest'), (frees ++ [x]). split; [done|]. rewrite Hpl. by apply Forall2_app.
    + assert (r <> mkRes ty b) by (intros ->; by apply Hne).
      destruct (IH (l1 ++ [x]) rest' (r1 ++ [r]) rs') as (p' & Hrun & Hq);
        [done|by rewrite <- app_assoc|by apply Forall2_app; [|constructor]|done|simpl in Hf; lia|].
      exists p'. split.
      * rewrite Hrun. do 2 f_equal. apply decide_ext. set_solver.
      * rewrite decide_False by done. by rewrite <- app_assoc in Hq.
Qed.

Lemma pool_first p owned frees :
  pool_shape p owned frees -> on_nodes (get_next (header p)) p = Some (hd (header p) owned, p).
Proof.
  intros Hsh. unfold on_nodes. rewrite (owned_next p owned frees [] (header p) owned Hsh) by done.
  simpl. by destruct p.
Qed.

Lemma ReleaseResourceOwner_queue fuel p l b ty :
  pool_queue p l -> (length l < fuel)%nat ->
  exists p', ReleaseResourceOwner fuel b ty p =
      Some (if decide (mkRes ty b ∈ l) then 1 else 0, p') /\
    pool_queue p' (remove_first (mkRes ty b) l).
Proof.
  intros (owned & frees & Hsh & Hl) Hf. unfold ReleaseResourceOwner.
  rewrite (st_bind_some _ _ _ _ _ (pool_first _ _ _ Hsh)).
  pose proof (Forall2_length _ _ _ Hl) as Hlen.
  destruct (Z.eqb_spec (onwerResourceNum p) 0) as [E|E].
  - assert (owned = []) as -> by (destruct Hsh as (_ & _ & _ & _ & Ho), owned; [done|simpl in *; lia]).
    apply Forall2_nil_inv_l in Hl as ->. exists p. split; [done|]. exists [], frees. by split.
  - destruct (Release_loop_queue fuel p owned frees [] owned [] l b ty) as (p' & ? & ?);
      try done; [lia|]. eauto.
Qed.

Lemma PopResourceOwner_queue p l :
  pool_queue p l ->
  exists p', PopResourceOwner p =
      Some (match l with [] => (0, None) | r :: _ => (1, Some (res_buffer r)) end, p') /\
    pool_queue p' (tail l).
Proof.
  intros (owned & frees & Hsh & Hl). unfold PopResourceOwner.
  rewrite (st_bind_some _ _ _ _ _ (pool_first _ _ _ Hsh)).
  destruct Hl as [|x r owned l Hx Hl].
  - assert (onwerResourceNum p = 0) as -> by (destruct Hsh as (_ & _ & _ & _ & Ho); done).
    exists p. split; [done|]. exists [], frees. by split.
  - assert (x <> header p).
    { destruct Hsh as ([Hnd _] & _). apply NoDup_cons in Hnd as [Hnd _].
      intros ->. apply Hnd. set_solver. }
    destruct (Z.eqb_spec (onwerResourceNum p) 0) as [E|_];
      [destruct Hsh as (_ & _ & _ & _ & Ho); simpl in Ho; lia|]. simpl.
    rewrite decide_False by done.
    assert (Er : read_payload x p = Some (r, p)) by (unfold read_payload; by rewrite Hx).
    rewrite (st_bind_some _ _ _ _ _ Er).
    destruct (unlink_owned p [] x owned frees Hsh) as (p' & Hrun & Hsh' & Hpl & _).
    exists p'. split.
    + apply st_bind_inv in Hrun as (d & q1 & R1 & Hrun).
      apply st_bind_inv in Hrun as ([] & q2 & R2 & R3).
      rewrite (st_bind_some _ _ _ _ _ R1), (st_bind_some _ _ _ _ _ R2).
      by rewrite (st_bind_some _ _ _ _ _ R3).
    + exists owned, (frees ++ [x]). split; [done|]. by rewrite Hpl.
Qed.

Lemma CreateResourceOwnerPool_queue fl hd :
  fl <> hd -> pool_queue (CreateResourceOwnerPool fl hd) [].
Proof.
  intros Hne. exists [], []. split; [|constructor]. unfold pool_shape; simpl. split_and!; try done.
  - split; [apply NoDup_singleton|]. simpl. by rewrite lookup_insert_ne, lookup_insert_eq.
  - split; [apply NoDup_singleton|]. simpl. by rewrite lookup_insert_eq.
  - intros a. rewrite !list_elem_of_singleton. congruence.
Qed.

(** ** Properties *)

(** The resource owner pool implements a queue: from a pool that holds the
    queue [l], pushing appends, popping returns the oldest buffer (or 0 on the
    empty queue), releasing removes the first resource with the given buffer
    and type and reports whether there was one; no list access faults and the
    two counters stay right. *)
Theorem resource_pool_refines_queue p l b ty fuel :
  pool_queue p l -> (length l < fuel)%nat ->
  (exists p', PushResourceOwner b ty p = Some (0, p') /\ pool_queue p' (l ++ [mkRes ty b])) /\
  (exists p', PopResourceOwner p =
      Some (match l with [] => (0, None) | r :: _ => (1, Some (res_buffer r)) end, p') /\
    pool_queue p' (tail l)) /\
  (exists p', ReleaseResourceOwner fuel b ty p =
      Some (if decide (mkRes ty b ∈ l) then 1 else 0, p') /\
    pool_queue p' (remove_first (mkRes ty b) l)).
Proof.
  intros Hq Hf. split_and!.
  - by apply PushResourceOwner_queue.
  - by apply PopResourceOwner_queue.
  - by apply ReleaseResourceOwner_queue.
Qed.

Lemma resource_pool_refines_queue_witness :
  exists p', PushResourceOwner 7 1 (CreateResourceOwnerPool 1 2) = Some (0, p') /\
    pool_queue p' [mkRes 1 7].
Proof.
  apply (resource_pool_refines_queue (CreateResourceOwnerPool 1 2) [] 7 1 1).
  - by apply CreateResourceOwnerPool_queue.
  - simpl. lia.
Defined.
