(* ===== verification/MemPool.v ===== *)
(** * The memory pool and the memory contexts

    Models [src/src/util/mem/memPool.c], [memPool.h], [memstack.c] and
    [memStack.h] in the build of the server's Makefile ([MEM_MANAGER] on,
    [MEM_DEBUG] and [MEM_MANAGER_VALID_CHECK] off, 64-bit x86).

    Memory is addressed by byte: every block [malloc] returned and [free] has
    not taken back is in [blocks], a scalar field is a cell at its address,
    the links of a [DList] node live in [links] at the node's address. A load or
    store that is not inside one block is a fault. Fields of different
    structures that share an address share the cell. [malloc] is a parameter
    that returns a region outside the live blocks. *)

From S2P Require Import Prelude DList.

Record Heap := mkHeap {
  cells : gmap Z Z;
  links : dstore;
  blocks : gmap Z Z;
  g_CurrentContext : Z;
  g_memPoolMangerContext : Z;
  g_headMemList : Z }.

Definition set_cells c (h : Heap) : Heap :=
  mkHeap c (links h) (blocks h) (g_CurrentContext h) (g_memPoolMangerContext h) (g_headMemList h).
Definition set_links l (h : Heap) : Heap :=
  mkHeap (cells h) l (blocks h) (g_CurrentContext h) (g_memPoolMangerContext h) (g_headMemList h).
Definition set_blocks b (h : Heap) : Heap :=
  mkHeap (cells h) (links h) b (g_CurrentContext h) (g_memPoolMangerContext h) (g_headMemList h).
Definition set_current c (h : Heap) : Heap :=
  mkHeap (cells h) (links h) (blocks h) c (g_memPoolMangerContext h) (g_headMemList h).
Definition set_manager m (h : Heap) : Heap :=
  mkHeap (cells h) (links h) (blocks h) (g_CurrentContext h) m (g_headMemList h).

(** ** Addresses and access *)

Abbreviation lc := Z.to_pos.

(** [n] bytes at [a] lie inside the block at [base]. *)
Definition within (a n base size : Z) : Prop := base <= a /\ a + n <= base + size.

#[export] Instance within_dec a n base size : Decision (within a n base size).
Proof. unfold within. apply _. Defined.

Definition valid (bs : gmap Z Z) (a n : Z) : Prop := map_Exists (within a n) bs.

#[export] Instance valid_dec bs a n : Decision (valid bs a n).
Proof. unfold valid. apply _. Defined.

Definition cell (h : Heap) (a : Z) : Z := default 0 (cells h !! a).

Definition load (a n : Z) : ST Heap Z := fun h =>
  if decide (valid (blocks h) a n) then Some (cell h a, h) else None.

Definition store (a n v : Z) : ST Heap unit := fun h =>
  if decide (valid (blocks h) a n) then Some (tt, set_cells (<[a := v]> (cells h)) h) else None.

(** A write of [n] bytes whose content the model does not keep. *)
Definition touch (a n : Z) : ST Heap unit := fun h =>
  if decide (valid (blocks h) a n) then Some (tt, h) else None.

Definition outside (a n k : Z) : Prop := ~ (a <= k < a + n).

#[export] Instance outside_dec a n k : Decision (outside a n k).
Proof. unfold outside. apply _. Defined.

Definition memset0 (a n : Z) : ST Heap unit := fun h =>
  if decide (valid (blocks h) a n)
  then Some (tt, set_cells (filter (fun kv => outside a n kv.1) (cells h)) h) else None.

(** [list.c] at the node addresses. *)
Definition on_links {A} (m : ST dstore A) : ST Heap A := fun h =>
  match m (links h) with Some (x, l) => Some (x, set_links l h) | None => None end.

Definition INIT_DLIST_NODE (a : Z) : ST Heap unit := fun h =>
  if decide (valid (blocks h) a 16)
  then Some (tt, set_links (<[lc a := mkDL (lc a) (lc a)]> (links h)) h) else None.

Definition list_prev (a : Z) : ST Heap Z := on_links (p ← get_prev (lc a); mret (Zpos p)).
Definition list_next (a : Z) : ST Heap Z := on_links (p ← get_next (lc a); mret (Zpos p)).

(** ** Layout *)

(** [MemPageInfo] *)
Definition MEMPAGE_INFO_LEN : Z := 40.
Definition memHead (p : Z) : Z := p + 16.
Definition memPageSize (p : Z) : Z := p + 24.
Definition useOffset (p : Z) : Z := p + 28.
Definition freeSize (p : Z) : Z := p + 32.
Definition releaseSize (p : Z) : Z := p + 36.

(** [MemBlock], packed *)
Definition MEMORY_POOL_BLOCK_HEADER_SIZE : Z := 12.
Definition blk_size (b : Z) : Z := b.
Definition memPage (b : Z) : Z := b + 4.
Definition ptr (b : Z) : Z := b + 12.
Definition GetMemBlockHeader (mem : Z) : Z := mem - 12.

(** [MemContextNode], first member of [MemPoolContextInfo] *)
Definition ctx_type (c : Z) : Z := c + 16.
Definition subList (c : Z) : Z := c + 24.
Definition contextName (c : Z) : Z := c + 40.
Definition MEM_CONTEXT_NAME_LEN : Z := 64.
(** [MemPageListInfo] at [memPageNode] *)
Definition memPageNode (c : Z) : Z := c + 104.
Definition memTotalSize (l : Z) : Z := l + 16.
Definition currUsePage (l : Z) : Z := l + 24.
Definition MEMPOOL_CONTEXTINFO_SIZE : Z := 136.

(** [MemPoolManagerContext], packed *)
Definition version (m : Z) : Z := m + 16.
Definition totalSize (m : Z) : Z := m + 20.
Definition mlock (m : Z) : Z := m + 28.

Definition MEMORY_POOL_MANAGER_VERSION : Z := 0x0B10.
Definition MEMORY_POOL_PAGE_SIZE : Z := 4096.
Definition MEMORY_POOL_PAGE_ALIG : Z := 0xFFFFE000.
Definition MEMORY_POOL_FREE_PAGE_SIZE : Z := MEMORY_POOL_PAGE_SIZE.
Definition MEMORY_POOL_MIN_ALLOC_SIZE : Z := MEMORY_POOL_PAGE_SIZE - MEMPAGE_INFO_LEN.
Definition T_MemContextNode : Z := 44.
Definition T_MemNode : Z := 45.

(** ** [malloc] and [free] *)

(** A region a correct [malloc] may return: above the null page and apart from
    every live block. *)
Definition fresh_region (bs : gmap Z Z) (p n : Z) : Prop :=
  0 < p /\ map_Forall (fun base size => p + n <= base \/ base + size <= p) bs.

#[export] Instance fresh_region_dec bs p n : Decision (fresh_region bs p n).
Proof. unfold fresh_region. apply _. Defined.

Section pool.
Context (malloc_at : gmap Z Z -> Z -> Z).

(** [malloc] that fails ends the process ([exit]); the model's never does. *)
Definition MM_AllocMem (size : Z) : ST Heap Z := fun h =>
  let p := malloc_at (blocks h) size in
  Some (p, set_blocks (<[p := size]> (blocks h)) h).

(** [free]: only the base of a live block; its list nodes are gone with it. *)
Definition MM_FreeMem (p : Z) : ST Heap Z := fun h =>
  if decide (p = 0) then Some (0, h)
  else match blocks h !! p with
       | Some size =>
           Some (0, set_links (filter (fun kv => outside p size (Zpos kv.1)) (links h))
                      (set_blocks (delete p (blocks h)) h))
       | None => None
       end.

(** ** The pool manager *)

Definition InitializeMemPool : ST Heap Z :=
  m ← MM_AllocMem 32;
  st_modify (set_manager m);;
  store (version m) 4 MEMORY_POOL_MANAGER_VERSION;;
  store (totalSize m) 8 0;;
  INIT_DLIST_NODE m;;
  store (mlock m) 4 0;;
  mret 0.

(** The result of the wait is ignored, so with the lock held by another worker
    that never releases it the caller goes on without it
    ([Locks.SpinLockAquire_bounded]). *)
Definition LockMemPoolContext : ST Heap unit :=
  m ← st_gets g_memPoolMangerContext; store (mlock m) 4 1.
Definition UnLockMemPoolContext : ST Heap unit :=
  m ← st_gets g_memPoolMangerContext; store (mlock m) 4 0.

Definition GetFreeMemPage : ST Heap Z :=
  m ← st_gets g_memPoolMangerContext;
  if decide (m = 0) then mret 0 else
  t ← load (totalSize m) 8;
  if decide (t <= 0) then mret 0 else
  LockMemPoolContext;;
  t ← load (totalSize m) 8;
  if decide (t <= 0) then UnLockMemPoolContext;; mret 0 else
  r ← on_links (PopDListTailNode (Some (lc m)));
  match r.1 with
  | None => st_fault
  | Some pg =>
      sz ← load (memPageSize (Zpos pg)) 4;
      t ← load (totalSize m) 8;
      store (totalSize m) 8 (u64 (t - sz));;
      UnLockMemPoolContext;;
      mret (Zpos pg)
  end.

(** What follows the first [return] in the source is unreachable. *)
Definition AddPoolFreeList (mPage : Z) : ST Heap Z :=
  m ← st_gets g_memPoolMangerContext;
  if decide (m = 0) then MM_FreeMem mPage;; mret (-1)
  else MM_FreeMem mPage;; mret 0.

(** The [do]-loop frees the nodes from the tail; [headNode] is its own
    predecessor when the list is empty, and then the manager itself is freed. *)
Fixpoint DestroyMemPool_loop (fuel : nat) (head : Z) : ST Heap unit :=
  match fuel with
  | O => st_fault
  | S fuel =>
      tmp ← list_prev head;
      pp ← list_prev tmp;
      on_links (DelDListNode (Some (lc head)) (lc tmp));;
      MM_FreeMem tmp;;
      if decide (pp = head) then mret () else DestroyMemPool_loop fuel head
  end.

Definition DestroyMemPool (fuel : nat) : ST Heap Z :=
  m ← st_gets g_memPoolMangerContext;
  if decide (m = 0) then mret 0 else
  DestroyMemPool_loop fuel m;;
  st_modify (set_manager 0);;
  mret 0.

(** ** Pages *)

Definition NewMemPage (size : Z) : ST Heap Z := MM_AllocMem (u32 size).

Definition InitMemPage (newPage size : Z) : ST Heap Z :=
  memset0 newPage (u64 size);;
  store (memHead newPage) 8 0;;
  store (memPageSize newPage) 4 size;;
  store (useOffset newPage) 4 MEMPAGE_INFO_LEN;;
  store (freeSize newPage) 4 (i32 (size - MEMPAGE_INFO_LEN));;
  store (releaseSize newPage) 4 MEMPAGE_INFO_LEN;;
  INIT_DLIST_NODE newPage;;
  mret newPage.

Definition AllocFromMemPage (mPage size : Z) : ST Heap Z :=
  f ← load (freeSize mPage) 4;
  store (freeSize mPage) 4 (i32 (f - size));;
  off ← load (useOffset mPage) 4;
  let memb := mPage + off in
  u ← load (useOffset mPage) 4;
  store (useOffset mPage) 4 (i32 (u + size));;
  store (memPage memb) 8 mPage;;
  store (blk_size memb) 4 size;;
  mret (ptr memb).

Definition ReleaseMemPage (mPage : Z) : ST Heap Z :=
  sz ← load (memPageSize mPage) 4;
  if decide (sz > MEMORY_POOL_FREE_PAGE_SIZE) then MM_FreeMem mPage;; mret 1
  else AddPoolFreeList mPage;; mret 0.

Definition ReleaseToMemPage (memb : Z) : ST Heap Z :=
  p ← load (memPage memb) 8;
  if decide (p = 0) then mret (-1) else
  r ← load (releaseSize p) 4;
  s ← load (blk_size memb) 4;
  store (releaseSize p) 4 (i32 (r + s));;
  r ← load (releaseSize p) 4;
  sz ← load (memPageSize p) 4;
  if decide (r = sz) then
    l ← load (memHead p) 8;
    on_links (DelDListNode (Some (lc l)) (lc p));;
    ReleaseMemPage p
  else mret 0.

Definition ReleaseToMemPool (mem : Z) : ST Heap Z := ReleaseToMemPage (GetMemBlockHeader mem).

(** ** Contexts *)

Definition InitializePoolContext (mContext : Z) : ST Heap Z :=
  INIT_DLIST_NODE (memPageNode mContext);;
  store (memTotalSize (memPageNode mContext)) 4 0;;
  store (currUsePage (memPageNode mContext)) 8 0;;
  mret 0.

Definition AddMemPageToContext (pg context : Z) (isSwitchCurrent : bool) : ST Heap Z :=
  let l := memPageNode context in
  t ← load (memTotalSize l) 4;
  sz ← load (memPageSize pg) 4;
  store (memTotalSize l) 4 (u32 (t + sz));;
  on_links (AddDListTail (Some (lc l)) (lc pg));;
  (if isSwitchCurrent then store (currUsePage l) 8 pg else mret ());;
  store (memHead pg) 8 l;;
  mret 0.

(** A recycled page, else a new one. *)
Definition obtain_page : ST Heap Z :=
  pg ← GetFreeMemPage;
  if decide (pg = 0) then NewMemPage MEMORY_POOL_PAGE_SIZE else mret pg.

Definition AddNewPageToContext (poolContext : Z) : ST Heap Z :=
  pg ← obtain_page;
  cur ← InitMemPage pg MEMORY_POOL_PAGE_SIZE;
  AddMemPageToContext cur poolContext true;;
  mret 0.

Definition NewPoolMemContext : ST Heap Z :=
  pg ← obtain_page;
  cur ← InitMemPage pg MEMORY_POOL_PAGE_SIZE;
  mContext ← AllocFromMemPage cur MEMPOOL_CONTEXTINFO_SIZE;
  InitializePoolContext mContext;;
  AddMemPageToContext cur mContext true;;
  mret mContext.

Definition AllocFromMemContext (size mpContextInfo : Z) : ST Heap Z :=
  if decide (size <= 0 \/ mpContextInfo = 0) then mret 0 else
  cur ← load (currUsePage (memPageNode mpContextInfo)) 8;
  sz ← load (memPageSize cur) 4;
  off ← load (useOffset cur) 4;
  if decide (size <= i32 (sz - off)) then AllocFromMemPage cur size else mret 0.

Fixpoint AllocFromMemPool_loop (fuel : nat) (size ctx : Z) : ST Heap Z :=
  match fuel with
  | O => st_fault
  | S fuel =>
      mem ← AllocFromMemContext size ctx;
      if decide (mem = 0) then AddNewPageToContext ctx;; AllocFromMemPool_loop fuel size ctx
      else mret mem
  end.

(** [align_size]: an [unsigned int]; the sum is taken in 64 bits. *)
Definition align_size (size : Z) : Z :=
  Z.land (size + MEMPAGE_INFO_LEN + (u32 (Z.lnot MEMORY_POOL_PAGE_ALIG)) - 1) MEMORY_POOL_PAGE_ALIG.

Definition AllocFromMemPool (fuel : nat) (size : Z) : ST Heap Z :=
  ctx ← st_gets g_CurrentContext;
  if decide (ctx = 0) then mret 0 else
  let size := u32 (size + MEMORY_POOL_BLOCK_HEADER_SIZE) in
  if decide (size >= MEMORY_POOL_MIN_ALLOC_SIZE) then
    newPage ← NewMemPage (i32 (align_size size));
    cur ← InitMemPage newPage (i32 (align_size size));
    AddMemPageToContext cur ctx false;;
    AllocFromMemPage cur (i32 size)
  else AllocFromMemPool_loop fuel (i32 size) ctx.

(** A [NULL] result ends the process. *)
Definition AllocMemWithPool (fuel : nat) (size : Z) : ST Heap Z :=
  p ← AllocFromMemPool fuel (u32 (i32 size));
  if decide (p = 0) then st_fault else mret p.

Definition FreeMemWithPool (pMem : Z) : ST Heap Z :=
  if decide (pMem = 0) then mret (-1) else ReleaseToMemPool pMem.

(** [owner] is the node after the head when the walk starts; the other pages
    go first, from the tail. *)
Fixpoint ReleaseMemContext_loop (fuel : nat) (head owner pre : Z) : ST Heap unit :=
  match fuel with
  | O => st_fault
  | S fuel =>
      if decide (pre <> 0 /\ pre <> owner) then
        pre' ← list_prev pre;
        on_links (DelDListNode (Some (lc head)) (lc pre));;
        ReleaseMemPage pre;;
        ReleaseMemContext_loop fuel head owner pre'
      else mret ()
  end.

Definition ReleaseMemContext (fuel : nat) (mpContextInfo : Z) : ST Heap Z :=
  let head := memPageNode mpContextInfo in
  tail ← list_prev head;
  owner ← list_next head;
  ReleaseMemContext_loop fuel head owner tail;;
  ReleaseMemPage owner;;
  mret 0.

(** ** The context tree *)

Definition InitMMContextNode (context : Z) : ST Heap unit :=
  touch (contextName context) MEM_CONTEXT_NAME_LEN;;
  store (ctx_type context) 4 T_MemContextNode;;
  INIT_DLIST_NODE context;;
  INIT_DLIST_NODE (subList context).

Definition NewMMContext : ST Heap Z :=
  c ← NewPoolMemContext; InitMMContextNode c;; mret c.

Definition MemMangerInit : ST Heap unit :=
  head ← st_gets g_headMemList;
  st_modify (fun h => set_links (<[lc head := mkDL (lc head) (lc head)]> (links h)) h);;
  InitializeMemPool;;
  main ← NewMMContext;
  st_modify (set_current main);;
  on_links (AddDListTail (Some (lc head)) (lc main));;
  mret ().

Definition MemMangerSwitchContext (oldContext : Z) : ST Heap Z :=
  old ← st_gets g_CurrentContext;
  if decide (oldContext = old) then mret old
  else st_modify (set_current oldContext);; mret old.

Definition MemMangerGetCurrentContext : ST Heap Z := st_gets g_CurrentContext.

Definition MemMangerSetCurrentContext (context : Z) : ST Heap unit :=
  if decide (context = 0) then mret () else st_modify (set_current context).

Definition MemMangerNewContext : ST Heap Z :=
  old ← st_gets g_CurrentContext;
  c ← NewMMContext;
  on_links (AddDListTail (Some (lc (subList old))) (lc c));;
  st_modify (set_current c);;
  mret old.

(** The walk over the children; [destroy] is the recursive call. *)
Fixpoint children_loop (destroy : Z -> ST Heap unit) (fuel : nat) (head pre : Z) : ST Heap unit :=
  match fuel with
  | O => st_fault
  | S fuel =>
      if decide (pre <> 0 /\ pre <> head) then
        pre' ← list_prev pre;
        ty ← load (ctx_type pre) 4;
        (if decide (ty = T_MemContextNode) then destroy pre else mret ());;
        children_loop destroy fuel head pre'
      else mret ()
  end.

Fixpoint MemDestroyContextNode (fuel : nat) (context : Z) : ST Heap unit :=
  match fuel with
  | O => st_fault
  | S fuel =>
      if decide (context = 0) then mret () else
      tail ← list_prev (subList context);
      children_loop (MemDestroyContextNode fuel) fuel (subList context) tail;;
      ReleaseMemContext fuel context;;
      mret ()
  end.

Definition MemMangerDeleteContext (fuel : nat) (preContext delContext : Z) : ST Heap unit :=
  on_links (DelDListNode (Some (lc (subList preContext))) (lc delContext));;
  MemDestroyContextNode fuel delContext.

Fixpoint MemMangerDestroy_loop (fuel : nat) (head pre : Z) : ST Heap unit :=
  match fuel with
  | O => st_fault
  | S fuel' =>
      if decide (pre <> 0 /\ pre <> head) then
        pre' ← list_prev pre;
        ty ← load (ctx_type pre) 4;
        (if decide (T_MemContextNode = ty) then
           on_links (DelDListNode (Some (lc head)) (lc pre));;
           MemDestroyContextNode fuel' pre
         else mret ());;
        MemMangerDestroy_loop fuel' head pre'
      else mret ()
  end.

Definition MemMangerDestroy (fuel : nat) : ST Heap unit :=
  head ← st_gets g_headMemList;
  tail ← list_prev head;
  MemMangerDestroy_loop fuel head tail;;
  st_modify (fun h => set_links (<[lc head := mkDL (lc head) (lc head)]> (links h)) h);;
  DestroyMemPool fuel;;
  mret ().

End pool.

(** A simple [malloc]: above every block it has seen live. *)
Definition bump (bs : gmap Z Z) (n : Z) : Z :=
  map_fold (fun base size acc => Z.max acc (base + size)) 65536 bs.

Definition heap0 : Heap := mkHeap ∅ ∅ ∅ 0 0 16.

(** ** Cells and validity *)

Lemma cell_upd h c a v b :
  cell (set_cells (<[a := v]> c) h) b = if decide (b = a) then v else cell (set_cells c h) b.
Proof.
  unfold cell. cbn. case_decide; [subst; by rewrite lookup_insert_eq|].
  by rewrite lookup_insert_ne.
Qed.

Lemma cell_clear h a n b :
  cell (set_cells (filter (fun kv => outside a n kv.1) (cells h)) h) b =
  if decide (outside a n b) then cell h b else 0.
Proof.
  unfold cell. cbn. case_decide as Ho.
  - f_equal. destruct (cells h !! b) as [v|] eqn:E.
    + by apply map_lookup_filter_Some.
    + apply map_lookup_filter_None. by left.
  - assert (filter (fun kv : Z * Z => outside a n kv.1) (cells h) !! b = None) as ->; [|done].
    apply map_lookup_filter_None. right. by intros.
Qed.

Lemma set_cells_id h : set_cells (cells h) h = h.
Proof. by destruct h. Qed.

Lemma valid_in bs base size a n :
  bs !! base = Some size -> base <= a -> a + n <= base + size -> valid bs a n.
Proof. intros. exists base, size. split; [done|]. split; lia. Qed.

Lemma valid_sub bs a n a' n' : valid bs a n -> a <= a' -> a' + n' <= a + n -> valid bs a' n'.
Proof. intros (b & s & Hb & H1 & H2) ? ?. exists b, s. split; [done|]. split; lia. Qed.


Lemma load_run h a n : valid (blocks h) a n -> load a n h = Some (cell h a, h).
Proof. intros. unfold load. by rewrite decide_True. Qed.

Lemma store_run h a n v : valid (blocks h) a n ->
  store a n v h = Some (tt, set_cells (<[a := v]> (cells h)) h).
Proof. intros. unfold store. by rewrite decide_True. Qed.

Lemma on_links_run {A} (m : ST dstore A) h x l :
  m (links h) = Some (x, l) -> on_links m h = Some (x, set_links l h).
Proof. intros H. unfold on_links. by rewrite H. Qed.

(** ** Effects

    [eff h h' bs l f]: [h'] has blocks [bs], links [l] and the cell contents
    [f], and the globals of [h]. *)

Record eff (h h' : Heap) (bs : gmap Z Z) (l : dstore) (f : Z -> Z) : Prop := {
  eff_blocks : blocks h' = bs;
  eff_links : links h' = l;
  eff_cell : forall a, cell h' a = f a;
  eff_current : g_CurrentContext h' = g_CurrentContext h;
  eff_manager : g_memPoolMangerContext h' = g_memPoolMangerContext h }.

(** Updating a function at an address. *)
Definition upd (a v : Z) (f : Z -> Z) : Z -> Z := fun b => if decide (b = a) then v else f b.

Lemma eff_refl h : eff h h (blocks h) (links h) (cell h).
Proof. done. Qed.

Lemma store_eff h0 h bs l f a n v : eff h0 h bs l f -> valid bs a n ->
  exists h', store a n v h = Some (tt, h') /\ eff h0 h' bs l (upd a v f).
Proof.
  intros [Hb Hl Hc Hg Hm] Hv. eexists. split; [apply store_run; by rewrite Hb|].
  split; try done. intros b. rewrite cell_upd, set_cells_id. unfold upd. by rewrite Hc.
Qed.

Lemma load_eff h0 h bs l f a n : eff h0 h bs l f -> valid bs a n ->
  load a n h = Some (f a, h).
Proof. intros [Hb _ Hc _ _] Hv. rewrite load_run by by rewrite Hb. by rewrite Hc. Qed.

Lemma memset0_eff h0 h bs l f a n : eff h0 h bs l f -> valid bs a n ->
  exists h', memset0 a n h = Some (tt, h') /\
    eff h0 h' bs l (fun b => if decide (outside a n b) then f b else 0).
Proof.
  intros [Hb Hl Hc Hg Hm] Hv. eexists. split.
  - unfold memset0. rewrite decide_True by by rewrite Hb. done.
  - split; try done. intros b. rewrite cell_clear. by rewrite Hc.
Qed.

Lemma INIT_eff h0 h bs l f a : eff h0 h bs l f -> valid bs a 16 ->
  exists h', INIT_DLIST_NODE a h = Some (tt, h') /\
    eff h0 h' bs (<[lc a := mkDL (lc a) (lc a)]> l) f.
Proof.
  intros [Hb Hl Hc Hg Hm] Hv. eexists. split.
  - unfold INIT_DLIST_NODE. rewrite decide_True by by rewrite Hb. done.
  - split; try done. simpl. by rewrite Hl.
Qed.

Lemma links_eff {A} h0 h bs l f (m : ST dstore A) x l' : eff h0 h bs l f -> m l = Some (x, l') ->
  exists h', on_links m h = Some (x, h') /\ eff h0 h' bs l' f.
Proof.
  intros [Hb Hl Hc Hg Hm] E. exists (set_links l' h). split; [|done].
  unfold on_links. by rewrite Hl, E.
Qed.

(** Runs the first command of the goal by its effect lemma; the new heap
    replaces the old one. *)
Ltac ev L :=
  match goal with He0 : eff _ _ _ _ _ |- _ =>
    let h' := fresh "h" in let E := fresh "E" in let He := fresh "He" in
    edestruct L as (h' & E & He);
    [exact He0 | .. | clear He0; rewrite (st_bind_some _ _ _ _ _ E); cbv beta iota; clear E]
  end.
Ltac ev_load := erewrite st_bind_some by (eapply load_eff; [eassumption|]; shelve); cbv beta iota.

(** ** Live blocks *)

Definition heap_ok (bs : gmap Z Z) : Prop :=
  forall b s, bs !! b = Some s -> 0 < b /\ 0 < s /\
    forall b' s', bs !! b' = Some s' -> b <> b' -> b + s <= b' \/ b' + s' <= b.

Lemma fresh_no_block bs p n : heap_ok bs -> 0 < n -> fresh_region bs p n -> bs !! p = None.
Proof.
  intros Hok Hn [_ Hf]. destruct (bs !! p) as [s|] eqn:E; [|done].
  pose proof (Hf _ _ E). cbn in *. destruct (Hok _ _ E) as (_ & ? & _). lia.
Qed.

Lemma heap_ok_insert bs p n : heap_ok bs -> 0 < n -> fresh_region bs p n -> heap_ok (<[p := n]> bs).
Proof.
  intros Hok Hn Hf b s. pose proof (fresh_no_block _ _ _ Hok Hn Hf) as Hnone.
  destruct Hf as [Hp Hf]. intros Hb.
  destruct (decide (b = p)) as [->|Hbp].
  - rewrite lookup_insert_eq in Hb. injection Hb as <-. split_and!; [done|done|].
    intros b' s' Hb' Hne. rewrite lookup_insert_ne in Hb' by done.
    pose proof (Hf _ _ Hb'). cbn in *. lia.
  - rewrite lookup_insert_ne in Hb by done. destruct (Hok _ _ Hb) as (? & ? & Hd).
    split_and!; [done|done|]. intros b' s' Hb' Hne.
    destruct (decide (b' = p)) as [->|].
    + rewrite lookup_insert_eq in Hb'. injection Hb' as <-. pose proof (Hf _ _ Hb). cbn in *. lia.
    + rewrite lookup_insert_ne in Hb' by done. by apply (Hd b').
Qed.

Lemma heap_ok_delete bs p : heap_ok bs -> heap_ok (delete p bs).
Proof.
  intros Hok b s [? Hb]%lookup_delete_Some. destruct (Hok _ _ Hb) as (? & ? & Hd).
  split_and!; [done|done|]. intros b' s' [? Hb']%lookup_delete_Some. by apply Hd.
Qed.

Lemma valid_insert bs p n a k : bs !! p = None -> valid bs a k -> valid (<[p := n]> bs) a k.
Proof.
  intros Hp (b & s & Hb & Hw). exists b, s. split; [|done].
  rewrite lookup_insert_ne; [done|congruence].
Qed.

(** A byte of a live block is outside a fresh region. *)
Lemma valid_fresh bs p n a k : fresh_region bs p n -> valid bs a k -> a + k <= p \/ p + n <= a.
Proof. intros [_ Hf] (b & s & Hb & H1 & H2). pose proof (Hf _ _ Hb). cbn in *. lia. Qed.

Section pool_proofs.
Context (malloc_at : gmap Z Z -> Z -> Z).
Context (malloc_fresh : forall bs n, 0 < n -> fresh_region bs (malloc_at bs n) n).
Set Default Proof Using "Type".

(** ** Effects of the page operations *)

(** The header of a page [InitMemPage] leaves. *)
Definition init_cells (p size : Z) (f : Z -> Z) : Z -> Z :=
  upd (releaseSize p) 40 (upd (freeSize p) (size - 40) (upd (useOffset p) 40
    (upd (memPageSize p) size (upd (memHead p) 0
      (fun b => if decide (outside p size b) then f b else 0))))).

Ltac in_block p s := apply (valid_in _ p s); [done|unfold memHead, memPageSize, useOffset, freeSize, releaseSize, memPage, blk_size; lia ..].

Lemma InitMemPage_eff h0 h bs l f p size :
  eff h0 h bs l f -> bs !! p = Some size -> 40 <= size < 2 ^ 31 ->
  exists h', InitMemPage p size h = Some (p, h') /\
    eff h0 h' bs (<[lc p := mkDL (lc p) (lc p)]> l) (init_cells p size f).
Proof.
  intros He Hp Hs. unfold InitMemPage. rewrite u64_small by (unfold in_u64; lia).
  rewrite i32_small by (unfold in_i32, MEMPAGE_INFO_LEN; lia). unfold MEMPAGE_INFO_LEN.
  ev @memset0_eff; [in_block p size|].
  do 5 (ev @store_eff; [in_block p size|]).
  ev @INIT_eff; [in_block p size|].
  eexists. split; [reflexivity|]. eassumption.
Qed.

Definition alloc_cells (p off size : Z) (f : Z -> Z) : Z -> Z :=
  upd (p + off) size (upd (p + off + 4) p (upd (useOffset p) (off + size)
    (upd (freeSize p) (f (freeSize p) - size) f))).

Lemma AllocFromMemPage_eff h0 h bs l f p off size :
  eff h0 h bs l f -> f (useOffset p) = off -> valid bs p 40 -> valid bs (p + off) 12 ->
  in_i32 (off + size) -> in_i32 (f (freeSize p) - size) ->
  exists h', AllocFromMemPage p size h = Some (p + off + 12, h') /\ eff h0 h' bs l (alloc_cells p off size f).
Proof.
  intros He Hoff Hp Hb H1 H2. unfold AllocFromMemPage.
  assert (Hv : forall a, p <= a -> a + 4 <= p + 40 -> valid bs a 4) by (intros; eapply valid_sub; [exact Hp|lia..]).
  assert (valid bs (useOffset p) 4 /\ valid bs (freeSize p) 4) as [Hu Hfs]
    by (split; apply Hv; unfold useOffset, freeSize; lia).
  run (load_eff _ _ _ _ _ _ 4 He Hfs). ev @store_eff; [done|].
  assert (Ho : upd (freeSize p) (i32 (f (freeSize p) - size)) f (useOffset p) = off).
  { unfold upd. rewrite decide_False; [done|unfold useOffset, freeSize; lia]. }
  run (load_eff _ _ _ _ _ _ 4 He0 Hu). run (load_eff _ _ _ _ _ _ 4 He0 Hu). rewrite Ho.
  ev @store_eff; [done|]. unfold memPage, blk_size.
  do 2 (ev @store_eff; [eapply valid_sub; [exact Hb|lia..]|]).
  eexists. split; [reflexivity|]. rewrite !i32_small in * by done. done.
Qed.

Definition add_cells (pg ctx : Z) (sw : bool) (f : Z -> Z) : Z -> Z :=
  upd (memHead pg) (memPageNode ctx)
    (let g := upd (ctx + 120) (u32 (f (ctx + 120) + f (memPageSize pg))) f in
     if sw then upd (ctx + 128) pg g else g).

Lemma AddMemPageToContext_eff h0 h bs l f pg ctx sw r l' :
  eff h0 h bs l f -> valid bs ctx 136 -> valid bs pg 40 ->
  AddDListTail (Some (lc (memPageNode ctx))) (lc pg) l = Some (r, l') ->
  exists h', AddMemPageToContext pg ctx sw h = Some (0, h') /\ eff h0 h' bs l' (add_cells pg ctx sw f).
Proof.
  intros He Hc Hp El. unfold AddMemPageToContext, memPageNode, memTotalSize, currUsePage in *.
  replace (ctx + 104 + 16) with (ctx + 120) by lia. replace (ctx + 104 + 24) with (ctx + 128) by lia.
  assert (valid bs (ctx + 120) 4 /\ valid bs (ctx + 128) 8) as [Ht Hu]
    by (split; eapply valid_sub; try exact Hc; lia).
  assert (valid bs (memPageSize pg) 4 /\ valid bs (memHead pg) 8) as [Hz Hh]
    by (split; eapply valid_sub; try exact Hp; unfold memPageSize, memHead; lia).
  run (load_eff _ _ _ _ _ _ 4 He Ht). run (load_eff _ _ _ _ _ _ 4 He Hz).
  ev @store_eff; [done|]. ev @links_eff; [exact El|].
  destruct sw.
  - ev @store_eff; [done|]. ev @store_eff; [done|].
    eexists. split; [reflexivity|]. done.
  - run_refl. ev @store_eff; [done|]. eexists. split; [reflexivity|]. done.
Qed.

(** The manager never holds a page back: its size counter stays zero. *)
Definition manager_ok (h : Heap) : Prop :=
  g_memPoolMangerContext h = 0 \/
  (blocks h !! g_memPoolMangerContext h = Some 32 /\ cell h (totalSize (g_memPoolMangerContext h)) = 0).

Lemma GetFreeMemPage_none h : manager_ok h -> GetFreeMemPage h = Some (0, h).
Proof.
  intros Hm. unfold GetFreeMemPage. run_refl. destruct Hm as [->|[Hb Hz]]; [done|].
  case_decide; [done|].
  assert (valid (blocks h) (totalSize (g_memPoolMangerContext h)) 8) as Hv.
  { apply (valid_in _ _ _ _ _ Hb); unfold totalSize; lia. }
  run (load_run h _ 8 Hv). rewrite Hz. by rewrite decide_True by lia.
Qed.

Lemma obtain_page_eff h : manager_ok h ->
  let p := malloc_at (blocks h) 4096 in
  exists h', obtain_page malloc_at h = Some (p, h') /\
    eff h h' (<[p := 4096]> (blocks h)) (links h) (cell h).
Proof.
  intros Hm p. unfold obtain_page. run (GetFreeMemPage_none h Hm).
  rewrite decide_True by done. eexists. split; [reflexivity|done].
Qed.

(** ** The current page of a context

    [u] is the page's [useOffset], [r] its [releaseSize]. The context structure
    is apart from the page, or in the page's used part - except that its last
    twelve bytes may be the next block's header. *)

Record pool_cur (h : Heap) (ctx : Z) (pages : list Z) (p u r : Z) : Prop := {
  pc_heap : heap_ok (blocks h);
  pc_manager : manager_ok h;
  pc_current : g_CurrentContext h = ctx;
  pc_ctx : 0 < ctx /\ valid (blocks h) ctx 136;
  pc_cur : cell h (ctx + 128) = p;
  pc_list : circ (links h) (lc (memPageNode ctx) :: map lc pages);
  pc_pages : Forall (fun q => is_Some (blocks h !! q)) pages;
  pc_in : p ∈ pages;
  pc_block : blocks h !! p = Some 4096;
  pc_size : cell h (memPageSize p) = 4096;
  pc_use : cell h (useOffset p) = u;
  pc_free : cell h (freeSize p) = 4096 - u;
  pc_release : cell h (releaseSize p) = r;
  pc_head : cell h (memHead p) = memPageNode ctx;
  pc_bound : 40 <= u <= 4096;
  pc_apart : ctx + 136 <= p \/ p + 4096 <= ctx \/
    (p + 40 <= ctx /\ (ctx + 136 <= p + u \/ p + u = ctx + 124));
  pc_zero : forall a, p + u + 12 <= a < p + 4096 -> cell h a = 0 }.

Ltac offsets := unfold memPageNode, memTotalSize, currUsePage, memHead, memPageSize, useOffset,
  freeSize, releaseSize, memPage, blk_size, ptr, totalSize in *.
Ltac cellt := unfold alloc_cells, init_cells, add_cells, upd; unfold outside; offsets;
  repeat first [rewrite decide_True by lia | rewrite decide_False by lia];
  try done; try lia.

(** The manager's block is apart from a context and from a page. *)
Lemma manager_apart h a n : heap_ok (blocks h) -> manager_ok h ->
  g_memPoolMangerContext h <> 0 -> valid (blocks h) a n -> 32 < n ->
  g_memPoolMangerContext h + 32 <= a \/ a + n <= g_memPoolMangerContext h.
Proof.
  intros Hok [?|[Hb _]] Hne (b & s & Hs & Hw1 & Hw2) Hn; [done|].
  destruct (Hok _ _ Hb) as (_ & _ & Hd). destruct (decide (g_memPoolMangerContext h = b)) as [E|E].
  - rewrite E in Hb. assert (s = 32) by congruence. lia.
  - specialize (Hd _ _ Hs E). lia.
Qed.

Lemma AllocFromMemContext_fits h ctx pages p u r size :
  pool_cur h ctx pages p u r -> 12 <= size -> size <= 4096 - u ->
  exists h', AllocFromMemContext size ctx h = Some (p + u + 12, h') /\
    eff h h' (blocks h) (links h) (alloc_cells p u size (cell h)).
Proof.
  intros [] Hs Hfit. destruct pc_ctx0 as [Hc0 Hcv]. unfold AllocFromMemContext.
  rewrite decide_False by lia. offsets.
  assert (Hp40 : valid (blocks h) p 40) by (by apply (valid_in _ p 4096); [|lia..]).
  assert (Hcu : valid (blocks h) (ctx + 104 + 24) 8) by (eapply valid_sub; [exact Hcv|lia..]).
  assert (Hsz : valid (blocks h) (p + 24) 4) by (eapply valid_sub; [exact Hp40|lia..]).
  assert (Hus : valid (blocks h) (p + 28) 4) by (eapply valid_sub; [exact Hp40|lia..]).
  run (load_run h _ 8 Hcu). replace (ctx + 104 + 24) with (ctx + 128) by lia. rewrite pc_cur0.
  run (load_run h _ 4 Hsz). run (load_run h _ 4 Hus).
  rewrite pc_size0, pc_use0, i32_small by (unfold in_i32; lia). rewrite decide_True by lia.
  apply (AllocFromMemPage_eff h h); offsets; rewrite ?pc_free0; unfold in_i32; try lia; try done.
  apply (valid_in _ p 4096); [done|lia..].
Qed.

Lemma AllocFromMemContext_full h ctx pages p u r size :
  pool_cur h ctx pages p u r -> 12 <= size -> 4096 - u < size ->
  AllocFromMemContext size ctx h = Some (0, h).
Proof.
  intros [] Hs Hfit. destruct pc_ctx0 as [Hc0 Hcv]. unfold AllocFromMemContext.
  rewrite decide_False by lia. offsets.
  assert (Hcu : valid (blocks h) (ctx + 104 + 24) 8) by (eapply valid_sub; [exact Hcv|lia..]).
  assert (Hsz : valid (blocks h) (p + 24) 4) by (apply (valid_in _ p 4096); [done|lia..]).
  assert (Hus : valid (blocks h) (p + 28) 4) by (apply (valid_in _ p 4096); [done|lia..]).
  run (load_run h _ 8 Hcu). replace (ctx + 104 + 24) with (ctx + 128) by lia. rewrite pc_cur0.
  run (load_run h _ 4 Hsz). run (load_run h _ 4 Hus).
  rewrite pc_size0, pc_use0, i32_small by (unfold in_i32; lia). by rewrite decide_False by lia.
Qed.

Lemma pool_cur_alloc h h' ctx pages p u r size :
  pool_cur h ctx pages p u r -> 12 <= size -> size <= 4096 - u ->
  eff h h' (blocks h) (links h) (alloc_cells p u size (cell h)) ->
  pool_cur h' ctx pages p (u + size) r.
Proof.
  intros Hpc Hs Hfit [Eb El Ec Eg Em].
  assert (Hma : g_memPoolMangerContext h <> 0 ->
    g_memPoolMangerContext h + 32 <= p \/ p + 4096 <= g_memPoolMangerContext h).
  { intros. destruct Hpc. apply manager_apart; try done. apply (valid_in _ p 4096); [done|lia..]. }
  destruct Hpc. split; rewrite ?Eb, ?El, ?Eg, ?Ec; try done; try cellt.
  - unfold manager_ok in *. rewrite Em, Eb, Ec. destruct pc_manager0 as [?|[Hb Hz]]; [by left|].
    destruct (decide (g_memPoolMangerContext h = 0)); [by left|]. right. split; [done|].
    specialize (Hma n). cellt.
  - unfold alloc_cells, upd; offsets. repeat case_decide; try lia; try done.
  - intros a Ha. rewrite Ec. cellt. apply pc_zero0. lia.
Qed.

Lemma lc_inj a b : 0 < a -> 0 < b -> lc a = lc b -> a = b.
Proof. intros. by apply Z2Pos.inj. Qed.

Lemma not_listed bs ctx pages p n :
  heap_ok bs -> 0 < ctx -> valid bs ctx 136 -> Forall (fun q => is_Some (bs !! q)) pages ->
  fresh_region bs p n -> 0 < n -> lc p ∉ lc (memPageNode ctx) :: map lc pages.
Proof.
  intros Hok Hc0 Hc Hp Hf Hn Hin. pose proof (fresh_no_block _ _ _ Hok Hn Hf) as Hnone.
  pose proof (proj1 Hf) as Hp0. apply elem_of_cons in Hin as [E|(q & E & Hq)%list_elem_of_In%in_map_iff].
  - assert (p = memPageNode ctx) by (apply lc_inj; [done|unfold memPageNode; lia|done]).
    destruct (valid_fresh _ _ _ _ _ Hf Hc); unfold memPageNode in *; lia.
  - apply list_elem_of_In in Hq. rewrite Forall_forall in Hp. destruct (Hp _ Hq) as [s Hs].
    destruct (Hok _ _ Hs) as [? _]. assert (q = p) by by apply lc_inj. congruence.
Qed.

(** No live byte but the context's size counter and current page changes. *)
Definition keeps_bytes (h h' : Heap) (ctx : Z) : Prop :=
  forall a, valid (blocks h) a 1 -> a <> ctx + 120 -> a <> ctx + 128 -> cell h' a = cell h a.

Lemma AddNewPageToContext_run h ctx pages p u r :
  pool_cur h ctx pages p u r ->
  let p' := malloc_at (blocks h) 4096 in
  exists h', AddNewPageToContext malloc_at ctx h = Some (0, h') /\
    pool_cur h' ctx (pages ++ [p']) p' 40 40 /\
    blocks h' = <[p' := 4096]> (blocks h) /\ keeps_bytes h h' ctx.
Proof using malloc_fresh.
  intros Hpc p'. assert (fresh_region (blocks h) p' 4096) as Hf by (apply malloc_fresh; lia).
  pose proof Hpc as Hpc'. destruct Hpc' as [Hok Hm Hcur [Hc0 Hcv] _ Hl Hps _ _ _ _ _ _ _ _ _ _].
  pose proof (fresh_no_block (blocks h) p' 4096 Hok ltac:(lia) Hf) as Hnone.
  pose proof (not_listed (blocks h) ctx pages p' 4096 Hok Hc0 Hcv Hps Hf ltac:(lia)) as Hnl.
  unfold AddNewPageToContext. destruct (obtain_page_eff h Hm) as (h1 & E1 & He1). fold p' in E1, He1.
  run E1. unfold MEMORY_POOL_PAGE_SIZE.
  ev (InitMemPage_eff h h1 (<[p' := 4096]> (blocks h))); [apply lookup_insert_eq|lia|].
  set (l1 := <[lc p' := mkDL (lc p') (lc p')]> (links h)) in *.
  assert (circ l1 (lc (memPageNode ctx) :: map lc pages)) as Hl1.
  { eapply circ_frame; [|exact Hl]. intros a Ha. unfold l1. rewrite lookup_insert_ne; [done|].
    intros <-. done. }
  destruct (AddDListTail_some l1 _ _ _ Hl1 Hnl) as (l2 & E2 & Hl2 & _).
  { unfold l1. rewrite lookup_insert_eq. eauto. }
  ev (AddMemPageToContext_eff h h0 (<[p' := 4096]> (blocks h)) l1 (init_cells p' 4096 (cell h)) p' ctx true);
    [by apply valid_insert|eapply (valid_in _ p' 4096); [apply lookup_insert_eq|lia..]|exact E2|].
  pose proof (valid_fresh _ _ _ _ _ Hf Hcv) as Hap. pose proof (proj1 Hf) as Hp0.
  eexists. split; [reflexivity|]. match goal with H : eff _ _ _ _ _ |- _ => destruct H as [Eb El Ec Eg Em] end. split_and!; [|done|].
  - split; rewrite ?Eb, ?El, ?Eg, ?Ec; try done; try cellt.
    + by apply heap_ok_insert.
    + unfold manager_ok in *. rewrite Em, Eb, Ec. destruct Hm as [?|[Hb Hz]]; [by left|].
      destruct (decide (g_memPoolMangerContext h = 0)); [by left|]. right.
      assert (p' <> g_memPoolMangerContext h) by congruence.
      split; [by rewrite lookup_insert_ne|].
      pose proof (manager_apart _ ctx 136 Hok (or_intror (conj Hb Hz)) n Hcv).
      assert (valid (blocks h) (g_memPoolMangerContext h) 32) as Hmv
        by (apply (valid_in _ _ _ _ _ Hb); lia).
      pose proof (valid_fresh _ _ _ _ _ Hf Hmv). cellt.
    + split; [done|]. by apply valid_insert.
    + by rewrite map_app.
    + apply Forall_app. split; [|repeat constructor; rewrite lookup_insert_eq; eauto].
      eapply Forall_impl; [exact Hps|]. intros q [s Hs]. rewrite lookup_insert_ne by congruence. eauto.
    + set_solver.
    + apply lookup_insert_eq.
    + intros a Ha. rewrite Ec. cellt.
  - intros a Ha H1 H2. rewrite Ec. pose proof (valid_fresh _ _ _ _ _ Hf Ha). cellt.
Qed.

Lemma AllocFromMemPool_run fuel h ctx pages p u r n :
  pool_cur h ctx pages p u r -> 0 <= n -> n + 12 < 4056 -> (2 <= fuel)%nat ->
  exists h' pages' p' u' r',
    AllocFromMemPool malloc_at fuel n h = Some (p' + u' + 12, h') /\
    pool_cur h' ctx pages' p' (u' + (n + 12)) r' /\
    ((n + 12 <= 4096 - u /\ pages' = pages /\ p' = p /\ u' = u /\ r' = r /\ blocks h' = blocks h) \/
     (4096 - u < n + 12 /\ pages' = pages ++ [p'] /\ u' = 40 /\ r' = 40 /\
      fresh_region (blocks h) p' 4096 /\ blocks h' = <[p' := 4096]> (blocks h))) /\
    cell h' (p' + u') = n + 12 /\ cell h' (p' + u' + 4) = p' /\
    (forall a, p' + u' + 12 <= a < p' + u' + 12 + n -> cell h' a = 0) /\
    (forall a, valid (blocks h) a 1 -> a <> ctx + 120 -> a <> ctx + 128 ->
       outside p 40 a -> outside (p' + u') 12 a -> cell h' a = cell h a).
Proof using malloc_fresh.
  intros Hpc Hn Hlt Hfuel. destruct fuel as [|[|fuel]]; [lia|lia|].
  unfold AllocFromMemPool. run_refl. pose proof Hpc as [].
  rewrite pc_current0. rewrite decide_False by lia.
  unfold MEMORY_POOL_BLOCK_HEADER_SIZE, MEMORY_POOL_MIN_ALLOC_SIZE, MEMORY_POOL_PAGE_SIZE, MEMPAGE_INFO_LEN.
  rewrite u32_small by (unfold in_u32; lia). rewrite decide_False by lia.
  rewrite i32_small by (unfold in_i32; lia). cbn [AllocFromMemPool_loop].
  destruct (decide (n + 12 <= 4096 - u)) as [Hfit|Hfull].
  - destruct (AllocFromMemContext_fits h ctx pages p u r (n + 12) Hpc) as (h1 & E1 & He1); [lia|lia|].
    run E1. destruct pc_ctx0, (pc_heap0 _ _ pc_block0) as [? _]. rewrite decide_False by lia.
    pose proof (pool_cur_alloc h h1 ctx pages p u r (n + 12) Hpc ltac:(lia) Hfit He1) as Hpc1.
    destruct He1 as [Eb El Ec _ _].
    exists h1, pages, p, u, r. split_and!; try done; [left; by split_and!|rewrite Ec; cellt..| |].
    + intros a Ha. rewrite Ec. cellt. apply pc_zero0. lia.
    + intros a Ha Ha1 Ha2 Ha3 Ha4. rewrite Ec. unfold outside in *. cellt.
  - run (AllocFromMemContext_full h ctx pages p u r (n + 12) Hpc ltac:(lia) ltac:(lia)).
    rewrite decide_True by done.
    destruct (AddNewPageToContext_run h ctx pages p u r Hpc) as (h1 & E1 & Hpc1 & Eb1 & Hk1).
    run E1. set (p' := malloc_at (blocks h) 4096) in *.
    assert (fresh_region (blocks h) p' 4096) as Hf by (apply malloc_fresh; lia).
    destruct (AllocFromMemContext_fits h1 ctx (pages ++ [p']) p' 40 40 (n + 12) Hpc1) as (h2 & E2 & He2); [lia|lia|].
    run E2. pose proof (proj1 Hf). rewrite decide_False by lia.
    pose proof (pool_cur_alloc h1 h2 ctx (pages ++ [p']) p' 40 40 (n + 12) Hpc1 ltac:(lia) ltac:(lia) He2) as Hpc2.
    destruct He2 as [Eb2 El2 Ec2 _ _].
    exists h2, (pages ++ [p']), p', 40, 40.
    split_and!; try done; [right; split_and!; try done; [lia|by rewrite Eb2]|rewrite Ec2; cellt..| |].
    + intros a Ha. rewrite Ec2. cellt. apply (pc_zero _ _ _ _ _ _ Hpc1). lia.
    + intros a Ha Ha1 Ha2 Ha3 Ha4. rewrite Ec2. pose proof (valid_fresh _ _ _ _ _ Hf Ha).
      unfold outside in *. cellt. by apply Hk1.
Qed.

(** ** Release *)

Lemma MM_FreeMem_eff h0 h bs l f p s :
  eff h0 h bs l f -> p <> 0 -> bs !! p = Some s ->
  exists h', MM_FreeMem p h = Some (0, h') /\
    eff h0 h' (delete p bs) (filter (fun kv => outside p s (Zpos kv.1)) l) f.
Proof.
  intros [Eb El Ec Eg Em] Hp Hs. eexists. split.
  - unfold MM_FreeMem. rewrite decide_False, Eb, Hs by done. reflexivity.
  - split; simpl; rewrite ?Eb, ?El; done.
Qed.

Lemma ReleaseMemPage_eff h0 h bs l f p s :
  eff h0 h bs l f -> p <> 0 -> bs !! p = Some s -> 28 <= s ->
  exists ret h', ReleaseMemPage p h = Some (ret, h') /\
    eff h0 h' (delete p bs) (filter (fun kv => outside p s (Zpos kv.1)) l) f.
Proof.
  intros He Hp Hs Hs28. unfold ReleaseMemPage.
  assert (valid bs (memPageSize p) 4) as Hv by (apply (valid_in _ p s); [done|offsets; lia..]).
  run (load_eff _ _ _ _ _ _ 4 He Hv).
  destruct (MM_FreeMem_eff _ _ _ _ _ _ _ He Hp Hs) as (h' & E & He').
  case_decide; [run E; by exists 1, h'|].
  assert (exists x, AddPoolFreeList p h = Some (x, h')) as [x Ex].
  { unfold AddPoolFreeList. run_refl. case_decide; run E; eexists; reflexivity. }
  run Ex. by exists 0, h'.
Qed.

(** Freeing a block charges its size to the page its header names. *)
Lemma ReleaseToMemPage_keeps h b q r s size :
  valid (blocks h) b 12 -> cell h (b + 4) = q -> cell h b = s -> q <> 0 ->
  blocks h !! q = Some size -> 40 <= size ->
  cell h (releaseSize q) = r -> in_i32 (r + s) -> r + s <> cell h (memPageSize q) ->
  exists h', ReleaseToMemPage b h = Some (0, h') /\
    eff h h' (blocks h) (links h) (upd (releaseSize q) (r + s) (cell h)).
Proof.
  intros Hb Hq Hs Hq0 Hblk H40 Hr Hi Hne. unfold ReleaseToMemPage. offsets.
  assert (valid (blocks h) (b + 4) 8 /\ valid (blocks h) b 4) as [Hb1 Hb2]
    by (split; eapply valid_sub; try exact Hb; lia).
  assert (valid (blocks h) (q + 36) 4 /\ valid (blocks h) (q + 24) 4) as [Hq1 Hq2]
    by (split; apply (valid_in _ q size); try done; lia).
  pose proof (eff_refl h) as He.
  run (load_eff _ _ _ _ _ _ 8 He Hb1). rewrite Hq, decide_False by done.
  run (load_eff _ _ _ _ _ _ 4 He Hq1). run (load_eff _ _ _ _ _ _ 4 He Hb2).
  rewrite Hr, Hs, i32_small by done. ev @store_eff; [done|].
  run (load_eff _ _ _ _ _ _ 4 He0 Hq1). run (load_eff _ _ _ _ _ _ 4 He0 Hq2).
  assert (upd (q + 36) (r + s) (cell h) (q + 36) = r + s) as -> by cellt.
  assert (upd (q + 36) (r + s) (cell h) (q + 24) = cell h (q + 24)) as -> by cellt.
  rewrite decide_False by done. eexists. split; [reflexivity|done].
Qed.

(** Unlinking a page of a list and giving it back; the other nodes lie outside
    its block. *)
Lemma unlink_free h head pre q post s :
  circ (links h) (lc head :: map lc (pre ++ q :: post)) ->
  blocks h !! q = Some s -> 28 <= s -> 0 < q ->
  Forall (fun a => 0 < a /\ outside q s a) (head :: pre ++ post) ->
  exists h' ret h'' l'', on_links (DelDListNode (Some (lc head)) (lc q)) h = Some (1, h') /\
    ReleaseMemPage q h' = Some (ret, h'') /\
    eff h h'' (delete q (blocks h)) l'' (cell h) /\
    circ l'' (lc head :: map lc (pre ++ post)).
Proof.
  intros Hc Hq Hs Hq0 Hout. rewrite map_app in Hc. cbn [map] in Hc.
  change (circ (links h) ((lc head :: map lc pre) ++ lc q :: map lc post)) in Hc.
  destruct (DelDListNode_some _ (lc head) _ _ _ Hc) as (l1 & E1 & Hc1 & _ & Hfr); [done|].
  destruct (links_eff h h _ _ _ _ _ _ (eff_refl h) E1) as (h1 & Eh1 & He1).
  destruct (ReleaseMemPage_eff h h1 (blocks h) l1 (cell h) q s He1 ltac:(lia) Hq Hs) as (ret & h2 & E2 & He2).
  eexists h1, ret, h2, _. split_and!; [done|done|done|].
  change (lc head :: map lc (pre ++ post)) with (map lc (head :: pre ++ post)).
  replace ((lc head :: map lc pre) ++ map lc post) with (map lc (head :: pre ++ post)) in Hc1
    by (cbn; by rewrite map_app).
  eapply circ_frame; [|exact Hc1]. intros a Ha.
  apply list_elem_of_In, in_map_iff in Ha as (z & <- & Hz). apply list_elem_of_In in Hz.
  rewrite Forall_forall in Hout. destruct (Hout _ Hz) as [Hz0 Hzo].
  destruct (l1 !! lc z) as [v|] eqn:Ev.
  - apply map_lookup_filter_Some. split; [done|]. cbn. by rewrite Z2Pos.id.
  - apply map_lookup_filter_None. by left.
Qed.

Lemma list_prev_run h a t : circ (links h) (lc a :: t) ->
  list_prev a h = Some (Zpos (lastd (lc a) t), h).
Proof.
  intros [_ [Ha _]]. unfold list_prev.
  rewrite (on_links_run _ h (Zpos (lastd (lc a) t)) (links h)); [by destruct h|].
  unfold mbind, ST_bind, get_prev. rewrite Ha. reflexivity.
Qed.

Lemma list_next_run h a t : circ (links h) (lc a :: t) ->
  list_next a h = Some (Zpos (hd (lc a) t), h).
Proof.
  intros [_ [Ha _]]. unfold list_next.
  rewrite (on_links_run _ h (Zpos (hd (lc a) t)) (links h)); [by destruct h|].
  unfold mbind, ST_bind, get_next. rewrite Ha. reflexivity.
Qed.

(** The pages of a context whose structure lies in its first page. *)
Record context_pages (h : Heap) (ctx owner : Z) (rest : list Z) : Prop := {
  cp_heap : heap_ok (blocks h);
  cp_ctx : exists s, blocks h !! owner = Some s /\ within (memPageNode ctx) 16 owner s;
  cp_blocks : Forall (fun q => exists s, blocks h !! q = Some s /\ 28 <= s) (owner :: rest);
  cp_list : circ (links h) (lc (memPageNode ctx) :: map lc (owner :: rest)) }.

Lemma context_pages_pos h ctx owner rest : context_pages h ctx owner rest ->
  Forall (fun q => 0 < q) (owner :: rest).
Proof.
  intros [Hok _ Hb _]. eapply Forall_impl; [exact Hb|]. intros q (s & Hs & _). by destruct (Hok _ _ Hs).
Qed.

(** The last page goes: everything else of the context is outside it. *)
Lemma context_pages_outside h ctx owner rest q s :
  context_pages h ctx owner (rest ++ [q]) -> blocks h !! q = Some s ->
  Forall (fun a => 0 < a /\ outside q s a) (memPageNode ctx :: owner :: rest).
Proof.
  clear malloc_fresh malloc_at.
  intros Hcp Hs. pose proof (context_pages_pos _ _ _ _ Hcp) as Hpos.
  destruct Hcp as [Hok (so & Ho & Hw1 & Hw2) Hb [Hnd _]].
  assert (Hap : forall x, x ∈ owner :: rest -> 0 < x /\ x <> q /\ exists sx, blocks h !! x = Some sx /\ 0 < sx).
  { intros x Hx. rewrite Forall_forall in Hpos, Hb.
    assert (x ∈ owner :: rest ++ [q]) as Hx' by set_solver. split_and!; [by apply Hpos| |].
    - intros ->. apply NoDup_cons in Hnd as [_ Hnd].
      change (owner :: rest ++ [q]) with ((owner :: rest) ++ [q]) in Hnd. rewrite map_app in Hnd.
      apply NoDup_app in Hnd as (_ & Hd & _). apply (Hd (lc q)); [|by left].
      apply list_elem_of_In, in_map, list_elem_of_In. done.
    - destruct (Hb _ Hx') as (sx & ? & ?). exists sx. split; [done|lia]. }
  destruct (Hok _ _ Hs) as (Hq0 & Hs0 & Hd).
  apply Forall_cons. split.
  - destruct (Hap owner) as (? & ? & _); [by left|]. specialize (Hd _ _ Ho ltac:(done)).
    unfold outside. lia.
  - apply Forall_forall. intros x Hx. destruct (Hap x Hx) as (? & ? & sx & Hsx & ?).
    specialize (Hd _ _ Hsx ltac:(done)). unfold outside. lia.
Qed.

(** The predecessor of the head in a context's list. *)
Definition tail_of (owner : Z) (rest : list Z) : Z := Zpos (lastd (lc owner) (map lc rest)).

Lemma tail_of_snoc owner rest q : 0 < q -> tail_of owner (rest ++ [q]) = q.
Proof. intros. unfold tail_of. rewrite map_app, lastd_app. cbn. by apply Z2Pos.id. Qed.

Lemma circ_prev_last s h l q : circ s (h :: l ++ [q]) -> circ s (q :: h :: l).
Proof. change (h :: l ++ [q]) with ((h :: l) ++ [q]). apply circ_rotate. Qed.

Lemma context_pages_step h h' ctx owner rest q l' :
  context_pages h ctx owner (rest ++ [q]) -> eff h h' (delete q (blocks h)) l' (cell h) ->
  circ l' (lc (memPageNode ctx) :: map lc (owner :: rest)) -> context_pages h' ctx owner rest.
Proof.
  clear malloc_fresh malloc_at.
  intros Hcp [Eb El _ _ _] Hl. pose proof (context_pages_pos _ _ _ _ Hcp) as Hpos.
  destruct Hcp as [Hok (so & Ho & Hw) Hb [Hnd _]].
  assert (Hne : forall x, x ∈ owner :: rest -> x <> q).
  { intros x Hx ->. apply NoDup_cons in Hnd as [_ Hnd].
    change (owner :: rest ++ [q]) with ((owner :: rest) ++ [q]) in Hnd. rewrite map_app in Hnd.
    apply NoDup_app in Hnd as (_ & Hd & _). apply (Hd (lc q)); [|by left].
    by apply list_elem_of_In, in_map, list_elem_of_In. }
  split; rewrite ?Eb, ?El.
  - by apply heap_ok_delete.
  - exists so. rewrite lookup_delete_ne; [done|]. intros ->. by apply (Hne owner); [left|].
  - apply Forall_forall. intros x Hx. rewrite Forall_forall in Hb.
    destruct (Hb x) as (sx & ? & ?); [set_solver|]. exists sx.
    rewrite lookup_delete_ne; [done|]. intros ->. by apply (Hne x).
  - done.
Qed.

(** [bs'] is [bs] without the blocks at [l]. *)
Definition without (l : list Z) (bs bs' : gmap Z Z) : Prop :=
  forall b, bs' !! b = if decide (b ∈ l) then None else bs !! b.

Lemma ReleaseMemContext_loop_run rest : forall fuel h ctx owner,
  context_pages h ctx owner rest -> (length rest < fuel)%nat ->
  exists h', ReleaseMemContext_loop fuel (memPageNode ctx) owner (tail_of owner rest) h = Some (tt, h') /\ context_pages h' ctx owner [] /\ without rest (blocks h) (blocks h') /\ (forall a, cell h' a = cell h a).
Proof.
  clear malloc_fresh malloc_at.
  induction rest as [|q rest IH] using rev_ind; intros fuel h ctx owner Hcp Hf;
    (destruct fuel as [|fuel]; [simpl in Hf; lia|]); cbn [ReleaseMemContext_loop].
  - pose proof (context_pages_pos _ _ _ _ Hcp) as Hpos. apply Forall_cons in Hpos as [Ho _].
    unfold tail_of. cbn [map lastd]. rewrite Z2Pos.id by done.
    rewrite decide_False by tauto. exists h. split_and!; try done.
  - rewrite length_app in Hf. simpl in Hf.
    pose proof (context_pages_pos _ _ _ _ Hcp) as Hpos.
    assert (0 < q) as Hq by (rewrite Forall_forall in Hpos; apply Hpos; set_solver).
    rewrite tail_of_snoc by done.
    assert (exists s, blocks h !! q = Some s /\ 28 <= s) as (s & Hs & Hs28)
      by (pose proof (cp_blocks _ _ _ _ Hcp) as Hb; rewrite Forall_forall in Hb; apply Hb; set_solver).
    assert (q <> owner) as Hqo.
    { destruct (cp_list _ _ _ _ Hcp) as [Hnd _]. intros ->. cbn [map] in Hnd. rewrite map_app in Hnd.
      apply NoDup_cons in Hnd as [_ Hnd]. apply NoDup_cons in Hnd as [Hni _].
      apply Hni, elem_of_app. right. by left. }
    rewrite decide_True by lia.
    pose proof (cp_list _ _ _ _ Hcp) as Hl. cbn [map] in Hl. rewrite map_app in Hl.
    pose proof (circ_prev_last _ _ (lc owner :: map lc rest) (lc q) Hl) as Hl'.
    run (list_prev_run h q _ Hl'). cbn [lastd]. fold (tail_of owner rest).
    destruct (unlink_free h (memPageNode ctx) (owner :: rest) q [] s) as
      (h1 & ret & h2 & l2 & E1 & E2 & He2 & Hl2); try done.
    { cbn. by rewrite map_app. }
    { rewrite app_nil_r. by eapply context_pages_outside. }
    run E1. run E2. rewrite app_nil_r in Hl2.
    destruct (IH fuel h2 ctx owner) as (h3 & E3 & Hcp3 & Hw3 & Hc3); [|lia|].
    { by eapply context_pages_step. }
    exists h3. split_and!; [done|done| |].
    + intros b. rewrite Hw3. destruct He2 as [-> _ _ _ _].
      destruct (decide (b = q)) as [->|Hbq].
      * rewrite lookup_delete_eq. rewrite (decide_True (P := q ∈ rest ++ [q])) by set_solver.
        by case_decide.
      * rewrite lookup_delete_ne by done. destruct (decide (b ∈ rest)).
        -- by rewrite decide_True by set_solver.
        -- by rewrite decide_False by set_solver.
    + intros a. rewrite Hc3. apply He2.
Qed.

Lemma ReleaseMemContext_run fuel h ctx owner rest :
  context_pages h ctx owner rest -> (length rest < fuel)%nat ->
  exists h', ReleaseMemContext fuel ctx h = Some (0, h') /\ without (owner :: rest) (blocks h) (blocks h') /\ (forall a, cell h' a = cell h a).
Proof.
  clear malloc_fresh malloc_at.
  intros Hcp Hf. unfold ReleaseMemContext. pose proof (cp_list _ _ _ _ Hcp) as Hl.
  run (list_prev_run _ _ _ Hl). run (list_next_run _ _ _ Hl). cbn [map lastd hd]. fold (tail_of owner rest).
  pose proof (context_pages_pos _ _ _ _ Hcp) as Hpos. apply Forall_cons in Hpos as [Ho _].
  rewrite Z2Pos.id by done.
  destruct (ReleaseMemContext_loop_run rest fuel h ctx owner Hcp Hf) as (h1 & E1 & Hcp1 & Hw1 & Hc1).
  run E1. pose proof (cp_blocks _ _ _ _ Hcp1) as Hb. apply Forall_cons in Hb as [(s & Hs & Hs28) _].
  destruct (ReleaseMemPage_eff h1 h1 _ _ _ owner s (eff_refl h1) ltac:(lia) Hs Hs28) as (ret & h2 & E2 & He2).
  run E2. exists h2. split_and!; [reflexivity| |].
  - intros b. destruct He2 as [-> _ _ _ _]. destruct (decide (b = owner)) as [->|Hbo].
    + rewrite lookup_delete_eq. by rewrite decide_True by set_solver.
    + rewrite lookup_delete_ne by done. rewrite Hw1. destruct (decide (b ∈ rest)).
      * by rewrite decide_True by set_solver.
      * by rewrite decide_False by set_solver.
  - intros a. rewrite <- Hc1. apply He2.
Qed.

Lemma ReleaseToMemPage_frees h b q r s ctx pre post :
  valid (blocks h) b 12 -> cell h (b + 4) = q -> cell h b = s -> 0 < q ->
  blocks h !! q = Some 4096 -> cell h (releaseSize q) = r -> cell h (memPageSize q) = 4096 ->
  r + s = 4096 -> cell h (memHead q) = memPageNode ctx ->
  circ (links h) (lc (memPageNode ctx) :: map lc (pre ++ q :: post)) ->
  Forall (fun a => 0 < a /\ outside q 4096 a) (memPageNode ctx :: pre ++ post) ->
  exists ret h' l', ReleaseToMemPage b h = Some (ret, h') /\
    eff h h' (delete q (blocks h)) l' (upd (releaseSize q) 4096 (cell h)) /\
    circ l' (lc (memPageNode ctx) :: map lc (pre ++ post)).
Proof.
  intros Hb Hq Hs Hq0 Hblk Hr Hsz Hrs Hh Hl Hout. unfold ReleaseToMemPage.
  assert (valid (blocks h) (memPage b) 8 /\ valid (blocks h) (blk_size b) 4) as [Hb1 Hb2]
    by (split; eapply valid_sub; try exact Hb; offsets; lia).
  assert (valid (blocks h) (releaseSize q) 4 /\ valid (blocks h) (memPageSize q) 4 /\
    valid (blocks h) (memHead q) 8) as (Hq1 & Hq2 & Hq3)
    by (split_and!; apply (valid_in _ q 4096); try done; offsets; lia).
  pose proof (eff_refl h) as He.
  run (load_eff _ _ _ _ _ _ 8 He Hb1). assert (cell h (memPage b) = q) as -> by done. rewrite decide_False by lia.
  run (load_eff _ _ _ _ _ _ 4 He Hq1). run (load_eff _ _ _ _ _ _ 4 He Hb2).
  assert (cell h (blk_size b) = s) as -> by done. rewrite Hr, Hrs, i32_small by done. ev @store_eff; [done|].
  run (load_eff _ _ _ _ _ _ 4 He0 Hq1). run (load_eff _ _ _ _ _ _ 4 He0 Hq2).
  assert (upd (releaseSize q) 4096 (cell h) (releaseSize q) = 4096) as -> by cellt.
  assert (upd (releaseSize q) 4096 (cell h) (memPageSize q) = 4096) as -> by (rewrite <- Hsz; cellt).
  rewrite decide_True by done. run (load_eff _ _ _ _ _ _ 8 He0 Hq3).
  assert (upd (releaseSize q) 4096 (cell h) (memHead q) = memPageNode ctx) as -> by (rewrite <- Hh; cellt).
  destruct He0 as [Eb El Ec Eg Em].
  destruct (unlink_free h0 (memPageNode ctx) pre q post 4096) as (h1 & ret & h2 & l2 & E1 & E2 & He2 & Hl2);
    rewrite ?Eb, ?El; try done.
  run E1. exists ret, h2, l2. split_and!; [done| |done].
  destruct He2 as [Eb2 El2 Ec2 Eg2 Em2].
  split; [by rewrite Eb2, Eb|done|intros a; by rewrite Ec2, Ec|congruence|congruence].
Qed.

(** A page of a list is apart from the list's other nodes. *)
Lemma pages_outside bs ctx p l :
  heap_ok bs -> bs !! p = Some 4096 -> NoDup (map lc (l ++ [p])) ->
  Forall (fun q => is_Some (bs !! q)) l -> 0 < ctx -> (ctx + 136 <= p \/ p + 4096 <= ctx) ->
  Forall (fun a => 0 < a /\ outside p 4096 a) (memPageNode ctx :: l).
Proof.
  intros Hok Hp Hnd Hl Hc0 Hc. destruct (Hok _ _ Hp) as (Hp0 & _ & Hd). apply Forall_cons. split.
  - unfold outside, memPageNode. lia.
  - apply Forall_forall. intros q Hq. rewrite Forall_forall in Hl. destruct (Hl q Hq) as [s Hs].
    destruct (Hok _ _ Hs) as (? & ? & _). split; [done|].
    assert (p <> q) as Hne.
    { intros ->. rewrite map_app in Hnd. apply NoDup_app in Hnd as (_ & Hdj & _).
      apply (Hdj (lc q)); [|by left]. by apply list_elem_of_In, in_map, list_elem_of_In. }
    specialize (Hd _ _ Hs Hne). unfold outside. lia.
Qed.

Lemma FreeMem_run b ret h h' : ptr b <> 0 -> ReleaseToMemPage b h = Some (ret, h') ->
  FreeMemWithPool (ptr b) h = Some (ret, h').
Proof.
  intros Hb E. unfold FreeMemWithPool, ReleaseToMemPool, GetMemBlockHeader. rewrite decide_False by done.
  by replace (ptr b - 12) with b by (unfold ptr; lia).
Qed.

(** ** Properties *)

(** *** The blocks a context has handed out

    A block is its address and the bytes asked for; its area is those and the header.
    In use it lies in a live [malloc] block, below the free part of the current page
    when it is there, and the caller's bytes are outside the context's structure. The
    header of the first block is not: it overlaps [currUsePage]. *)
Definition apart (x y : Z * Z) : Prop := x.1 + x.2 + 12 <= y.1 \/ y.1 + y.2 + 12 <= x.1.

Record in_use (h : Heap) (ctx p u : Z) (x : Z * Z) : Prop := {
  iu_size : 0 <= x.2;
  iu_valid : valid (blocks h) x.1 (x.2 + 12);
  iu_page : x.1 + x.2 + 12 <= p \/ (p + 40 <= x.1 /\ x.1 + x.2 + 12 <= p + u) \/ p + 4096 <= x.1;
  iu_context : ptr x.1 = ctx + 136 \/ ctx + 136 <= x.1 \/ x.1 + x.2 + 12 <= ctx }.

Record handed_out (h : Heap) (ctx p u : Z) (l : list (Z * Z)) : Prop := {
  ho_blocks : Forall (in_use h ctx p u) l;
  ho_apart i j x y : l !! i = Some x -> l !! j = Some y -> i <> j -> apart x y }.

(** What a caller wrote in its block, and the size in the header. *)
Definition kept_bytes (h h' : Heap) (x : Z * Z) : Prop :=
  (forall a, ptr x.1 <= a < ptr x.1 + x.2 -> cell h' a = cell h a) /\ cell h' (blk_size x.1) = cell h (blk_size x.1).

Lemma handed_out_snoc h ctx p u l x : Forall (in_use h ctx p u) l ->
  (forall i j x y, l !! i = Some x -> l !! j = Some y -> i <> j -> apart x y) -> in_use h ctx p u x -> Forall (apart x) l ->
  handed_out h ctx p u (l ++ [x]).
Proof using Type.
  intros Hl Ha Hx Hap. split; [apply Forall_app; split; [done|by apply Forall_singleton]|].
  assert (forall i y, l !! i = Some y -> apart x y) as Hxy by (intros i y Hi; by apply (Forall_lookup_1 _ _ _ _ Hap Hi)).
  intros i j y z Hi Hj Hij. apply lookup_app_Some in Hi as [Hi|[Hi1 Hi2]], Hj as [Hj|[Hj1 Hj2]].
  - by apply (Ha i j).
  - apply list_lookup_singleton_Some in Hj2 as [_ Heq]. pose proof (Hxy i y Hi). subst. unfold apart in *. lia.
  - apply list_lookup_singleton_Some in Hi2 as [_ Heq]. pose proof (Hxy j z Hj). by subst.
  - apply list_lookup_singleton_Some in Hi2 as [? _], Hj2 as [? _]. lia.
Qed.

(** One request: the block is served, it is apart from every block in use, and these
    keep their bytes. *)
Lemma AllocFromMemPool_one fuel h ctx pages p u r l n : pool_cur h ctx pages p u r -> handed_out h ctx p u l ->
  0 <= n -> n + 12 < 4056 -> (2 <= fuel)%nat ->
  exists b h' pages' p' u' r', AllocFromMemPool malloc_at fuel n h = Some (ptr b, h') /\
    pool_cur h' ctx pages' p' u' r' /\ handed_out h' ctx p' u' (l ++ [(b, n)]) /\ Forall (kept_bytes h h') l /\
    cell h' (blk_size b) = n + 12 /\ (forall a, ptr b <= a < ptr b + n -> cell h' a = 0).
Proof using malloc_fresh.
  intros Hpc [Hl Hap] Hn Hlt Hf. destruct (AllocFromMemPool_run fuel h ctx pages p u r n Hpc Hn Hlt Hf)
    as (h' & pages' & p' & u' & r' & E & Hpc' & Hcase & Hs & _ & Hz & Hk).
  exists (p' + u'), h', pages', p', (u' + (n + 12)), r'. split; [exact E|]. split; [exact Hpc'|].
  pose proof (pc_bound _ _ _ _ _ _ Hpc) as Hb. pose proof (pc_bound _ _ _ _ _ _ Hpc') as Hb'.
  destruct (pc_ctx _ _ _ _ _ _ Hpc) as [Hc0 Hcv].
  assert (forall a k, valid (blocks h) a k -> valid (blocks h') a k) as Hmono.
  { intros a k Hv. destruct Hcase as [(_ & _ & _ & _ & _ & ->)|(_ & _ & _ & _ & Hfr & ->)]; [done|].
    apply valid_insert; [|done]. apply (fresh_no_block _ _ 4096); [apply (pc_heap _ _ _ _ _ _ Hpc)|lia|done]. }
  assert (40 <= u') as Hu by (destruct Hcase as [(_ & _ & _ & -> & _)|(_ & _ & -> & _)]; lia).
  assert (forall x, x ∈ l -> apart (p' + u', n) x /\ in_use h' ctx p' (u' + (n + 12)) x /\ kept_bytes h h' x) as Hold.
  { intros x Hx. rewrite Forall_forall in Hl. destruct (Hl x Hx) as [H0 Hv Hp Hc].
    assert ((x.1 + x.2 + 12 <= p' \/ (p' + 40 <= x.1 /\ x.1 + x.2 + 12 <= p' + u') \/ p' + 4096 <= x.1)) as Hp'.
    { destruct Hcase as [(_ & _ & -> & -> & _)|(_ & _ & _ & _ & Hfr & _)]; [lia|]. pose proof (valid_fresh _ _ _ _ _ Hfr Hv). lia. }
    split; [unfold apart; simpl; lia|]. split; [split; [done|by apply Hmono|lia|done]|].
    assert (forall a k, x.1 <= a -> 0 <= k -> a + 1 <= x.1 + x.2 + 12 -> a <> ctx + 120 -> a <> ctx + 128 -> cell h' a = cell h a) as Hsame.
    { intros a k H1 _ H2 H3 H4. apply Hk; [by apply (valid_sub _ _ _ _ _ Hv); lia|done|done| |unfold outside; lia].
      destruct Hcase as [(_ & _ & -> & -> & _)|(_ & _ & _ & _ & Hfr & _)]; unfold outside; lia. }
    unfold kept_bytes, ptr, blk_size in *. split; [intros a Ha; apply (Hsame a 0); lia|apply (Hsame _ 0); lia]. }
  split; [|split; [|split; [exact Hs|intros a Ha; apply Hz; unfold ptr in *; lia]]].
  - apply handed_out_snoc; [apply Forall_forall; intros x Hx; by apply Hold|done| |apply Forall_forall; intros x Hx; by apply Hold].
    split; simpl; [done| |lia|].
    + apply (valid_in _ p' 4096); [apply (pc_block _ _ _ _ _ _ Hpc')|lia|lia].
    + unfold ptr. destruct Hcase as [(_ & _ & -> & -> & _)|(_ & _ & _ & _ & Hfr & _)].
      * destruct (pc_apart _ _ _ _ _ _ Hpc) as [?|[?|?]]; lia.
      * pose proof (valid_fresh _ _ _ _ _ Hfr Hcv). lia.
  - apply Forall_forall. intros x Hx. by apply Hold.
Qed.

(** Requests of the current context, one after the other. *)
Fixpoint requests (fuel : nat) (ns : list Z) : ST Heap (list Z) :=
  match ns with
  | [] => mret []
  | n :: ns => m ← AllocFromMemPool malloc_at fuel n; ms ← requests fuel ns; mret (m :: ms)
  end.

Lemma kept_bytes_trans h1 h2 h3 x : kept_bytes h1 h2 x -> kept_bytes h2 h3 x -> kept_bytes h1 h3 x.
Proof. intros [A1 A2] [B1 B2]. split; [intros a Ha; by rewrite B1, A1|congruence]. Qed.

(** C35: the blocks of a context do not overlap. Requests that fit a standard page (of
    0 to 4043 bytes) are each served, in at most two rounds of the loop: whatever
    blocks the context has handed out, the new ones lie in the unused part of its
    current page or in pages [malloc] has just given; the areas of all of them, old and
    new, with their headers, are pairwise disjoint and inside live [malloc] blocks, the
    callers' bytes are outside the context's structure, the new bytes are zero, each
    new header has its block's size, and the bytes of the old blocks have not changed.
    (The page in the header of the first block is not kept: it is the context's
    [currUsePage], see [ReleaseToMemPool_premature_free].) The invariant of the context
    and its current page is kept. *)
Theorem AllocFromMemPool_serves fuel ctx : (2 <= fuel)%nat -> forall ns h pages p u r l,
  pool_cur h ctx pages p u r -> handed_out h ctx p u l -> Forall (fun n => 0 <= n < 4044) ns ->
  exists bs h' pages' p' u' r', requests fuel ns h = Some (ptr <$> bs, h') /\ length bs = length ns /\
    pool_cur h' ctx pages' p' u' r' /\ handed_out h' ctx p' u' (l ++ zip bs ns) /\ Forall (kept_bytes h h') l /\
    Forall2 (fun b n => cell h' (blk_size b) = n + 12 /\ forall a, ptr b <= a < ptr b + n -> cell h' a = 0) bs ns.
Proof using malloc_fresh.
  intros Hf. induction ns as [|n ns IH]; intros h pages p u r l Hpc Hl Hns.
  - exists [], h, pages, p, u, r. split; [done|]. split; [done|]. split; [done|]. simpl. rewrite app_nil_r. split; [done|].
    split; [|constructor]. apply Forall_forall. intros x _. by split.
  - apply Forall_cons in Hns as [Hn Hns].
    destruct (AllocFromMemPool_one fuel h ctx pages p u r l n Hpc Hl) as (b & h1 & pages1 & p1 & u1 & r1 & E1 & Hpc1 & Hl1 & Hk1 & Hs1 & Hz1);
      [lia|lia|done|].
    destruct (IH h1 pages1 p1 u1 r1 (l ++ [(b, n)]) Hpc1 Hl1 Hns) as (bs & h2 & pages2 & p2 & u2 & r2 & E2 & Hlen & Hpc2 & Hl2 & Hk2 & Hz2).
    apply Forall_app in Hk2 as [Hk2 [Hkb1 Hkb2]%Forall_singleton]. cbn [fst snd] in Hkb1, Hkb2.
    exists (b :: bs), h2, pages2, p2, u2, r2. split; [cbn [requests]; run E1; by run E2|]. split; [simpl; by rewrite Hlen|].
    split; [done|]. split; [cbn [zip zip_with]; by rewrite <- app_assoc in Hl2|]. split.
    + apply Forall_forall. intros x Hx. rewrite Forall_forall in Hk1, Hk2. eapply kept_bytes_trans; [by apply Hk1|by apply Hk2].
    + constructor; [|done]. split; [by rewrite Hkb2|]. intros a Ha. by rewrite Hkb1, Hz1.
Qed.

(** The context structure sits at the start of its first page without room
    for its block's header, so the header of the first block allocated after
    it is the context's current-page pointer. Once the context has gone on to a
    new page, freeing that first block counts against the new page: with fitting
    sizes the new page goes back to [malloc] while a block the caller still
    holds lies in it. *)
Theorem ReleaseToMemPool_premature_free fuel h ctx pages p u r n1 n2 n3 :
  pool_cur h ctx pages p u r -> p + u = ctx + 124 -> (2 <= fuel)%nat ->
  0 <= n1 -> 0 <= n2 -> 0 <= n3 -> n1 + 12 <= 4096 - u ->
  4096 - u - (n1 + 12) < n2 + 12 -> n1 + 12 + (n3 + 12) = 4056 -> n2 + 12 + (n3 + 12) <= 4056 ->
  exists b1 b2 b3 ret h' q,
    (b1 ← AllocFromMemPool malloc_at fuel n1; b2 ← AllocFromMemPool malloc_at fuel n2;
     b3 ← AllocFromMemPool malloc_at fuel n3;
     FreeMemWithPool b1;; ret ← FreeMemWithPool b3; mret (b1, b2, b3, ret)) h =
      Some ((b1, b2, b3, ret), h') /\
    fresh_region (blocks h) q 4096 /\ q <= b2 /\ b2 + n2 <= q + 4096 /\ blocks h' = blocks h /\
    ~ valid (blocks h') b2 1.
Proof using malloc_fresh.
  intros Hpc Hu Hf Hn1 Hn2 Hn3 Hfit1 Hnofit Hsum Hfit3.
  destruct (AllocFromMemPool_run fuel h ctx pages p u r n1) as
    (h1 & pages1 & p1 & u1 & r1 & E1 & Hpc1 & Hcase1 & Hs1 & Hp1 & _ & Hk1); [done|lia|lia|done|].
  destruct Hcase1 as [(_ & -> & -> & -> & -> & Eb1)|(? & _)]; [|lia].
  destruct (AllocFromMemPool_run fuel h1 ctx pages p (u + (n1 + 12)) r n2) as
    (h2 & pages2 & q & u2 & r2 & E2 & Hpc2 & Hcase2 & Hs2 & Hp2 & _ & Hk2); [done|lia|lia|done|].
  destruct Hcase2 as [(? & _)|(_ & -> & -> & -> & Hfr & Eb2)]; [lia|].
  destruct (AllocFromMemPool_run fuel h2 ctx (pages ++ [q]) q (40 + (n2 + 12)) 40 n3) as
    (h3 & pages3 & q3 & u3 & r3 & E3 & Hpc3 & Hcase3 & Hs3 & Hp3 & _ & Hk3); [done|lia|lia|done|].
  destruct Hcase3 as [(_ & -> & -> & -> & -> & Eb3)|(? & _)]; [|lia].
  rewrite Eb1 in Hfr. pose proof (pc_ctx _ _ _ _ _ _ Hpc) as [Hc0 Hcv].
  pose proof (valid_fresh _ _ _ _ _ Hfr Hcv) as Hap. pose proof (proj1 Hfr) as Hq0.
  pose proof (pc_block _ _ _ _ _ _ Hpc) as Hblk. pose proof (valid_fresh (blocks h) q 4096 p 4096 Hfr) as Hpq.
  assert (p + 4096 <= q \/ q + 4096 <= p) as Hpq' by (apply Hpq; apply (valid_in _ p 4096); [done|lia..]).
  assert (Hv1 : forall a, p <= a < p + 4096 -> valid (blocks h2) a 1).
  { intros. rewrite Eb2, Eb1. apply valid_insert; [apply fresh_no_block with 4096; [apply Hpc|lia|done]|].
    apply (valid_in _ p 4096); [done|lia..]. }
  pose proof (pc_bound _ _ _ _ _ _ Hpc) as Hub.
  assert (Hvh : valid (blocks h3) (p + u) 12).
  { rewrite Eb3, Eb2, Eb1. apply valid_insert; [apply fresh_no_block with 4096; [apply Hpc|lia|done]|].
    apply (valid_in _ p 4096); [done|lia..]. }
  assert (Hcu : cell h3 (p + u + 4) = q).
  { replace (p + u + 4) with (ctx + 128) by lia. apply Hpc3. }
  assert (Hsz : cell h3 (p + u) = n1 + 12).
  { rewrite Hk3, Hk2; [done|..]; try (unfold outside; lia); try (apply Hv1; lia).
    rewrite Eb1. apply (valid_in _ p 4096); [done|lia..]. }
  pose proof Hpc3 as [Hok3 _ _ _ _ Hl3 Hps3 _ Hblk3 Hqs3 _ _ Hr3 Hh3 _ _ _].
  destruct (ReleaseToMemPage_keeps h3 (p + u) q 40 (n1 + 12) 4096) as (h4 & E4 & He4);
    try done; try lia; try (unfold in_i32; lia).
  destruct He4 as [Eb4 El4 Ec4 Eg4 Em4]. pose proof (proj1 Hl3) as Hnd3. apply NoDup_cons in Hnd3 as [_ Hnd3].
  destruct (ReleaseToMemPage_frees h4 (q + (40 + (n2 + 12))) q (4096 - (n3 + 12)) (n3 + 12) ctx pages [])
    as (ret & h5 & l5 & E5 & He5 & _); rewrite ?Eb4, ?El4, ?Ec4; try done; try lia.
  { apply (valid_in _ q 4096); [done|lia..]. }
  { cellt. } { cellt. } { cellt. } { cellt. } { cellt. }
  { rewrite app_nil_r. apply (pages_outside (blocks h3)); try done. apply Forall_app in Hps3. tauto. }
  exists (ptr (p + u)), (ptr (q + 40)), (ptr (q + (40 + (n2 + 12)))), ret, h5, q. split_and!.
  - change (p + u + 12) with (ptr (p + u)) in E1. change (q + 40 + 12) with (ptr (q + 40)) in E2.
    change (q + (40 + (n2 + 12)) + 12) with (ptr (q + (40 + (n2 + 12)))) in E3.
    run E1. run E2. run E3. destruct (pc_heap _ _ _ _ _ _ Hpc _ _ Hblk) as [? _].
    run (FreeMem_run (p + u) 0 h3 h4 ltac:(unfold ptr; lia) E4).
    run (FreeMem_run (q + (40 + (n2 + 12))) ret h4 h5 ltac:(unfold ptr; lia) E5). reflexivity.
  - done.
  - unfold ptr. lia.
  - unfold ptr. lia.
  - destruct He5 as [-> _ _ _ _]. rewrite Eb4, Eb3, Eb2, Eb1. apply delete_insert_id.
    apply fresh_no_block with 4096; [apply Hpc|lia|done].
  - destruct He5 as [-> _ _ _ _]. rewrite Eb4. intros (b & s & [Hbq Hs]%lookup_delete_Some & Hw1 & Hw2).
    destruct (Hok3 _ _ Hblk3) as (_ & _ & Hd). specialize (Hd _ _ Hs Hbq). unfold ptr in *. lia.
Qed.

Lemma align_size_eq s : 0 <= s < 2 ^ 31 -> align_size s = (s + 8230) / 8192 * 8192.
Proof.
  intros Hs. unfold align_size, MEMPAGE_INFO_LEN.
  assert (u32 (Z.lnot MEMORY_POOL_PAGE_ALIG) = 8191) as -> by reflexivity.
  replace (s + 40 + 8191 - 1) with (s + 8230) by lia.
  change MEMORY_POOL_PAGE_ALIG with (Z.shiftl (Z.ones 19) 13).
  assert (Z.land (s + 8230) (Z.shiftl (Z.ones 19) 13) =
    Z.shiftl (Z.land (Z.shiftr (s + 8230) 13) (Z.ones 19)) 13) as ->.
  { apply Z.bits_inj'. intros i Hi. rewrite Z.land_spec, !Z.shiftl_spec by lia.
    destruct (decide (i < 13)).
    - rewrite !(Z.testbit_neg_r _ (i - 13)) by lia. by rewrite andb_false_r.
    - rewrite Z.land_spec, Z.shiftr_spec by lia. by replace (i - 13 + 13) with i by lia. }
  rewrite Z.land_ones, Z.shiftl_mul_pow2, Z.shiftr_div_pow2 by lia.
  change (2 ^ 13) with 8192. rewrite Z.mod_small; [done|].
  split; [apply Z.div_pos; lia|]. apply Z.div_lt_upper_bound; lia.
Qed.

Lemma AllocFromMemPool_big fuel h ctx pages p u r n :
  pool_cur h ctx pages p u r -> 4056 <= n + 12 < 2 ^ 30 ->
  let sz := align_size (n + 12) in let q := malloc_at (blocks h) sz in
  exists h' l', AllocFromMemPool malloc_at fuel n h = Some (q + 52, h') /\
    fresh_region (blocks h) q sz /\ n + 51 <= sz < 2 ^ 31 /\
    eff h h' (<[q := sz]> (blocks h)) l'
      (alloc_cells q 40 (n + 12) (add_cells q ctx false (init_cells q sz (cell h)))).
Proof using malloc_fresh.
  intros Hpc Hn sz q. pose proof Hpc as [Hok _ Hcur [Hc0 Hcv] _ Hl Hps _ _ _ _ _ _ _ _ _ _].
  pose proof (align_size_eq (n + 12) ltac:(lia)) as Esz. fold sz in Esz.
  pose proof (Z.div_mod (n + 12 + 8230) 8192 ltac:(lia)) as Hdm.
  pose proof (Z.mod_pos_bound (n + 12 + 8230) 8192 ltac:(lia)) as Hmb.
  assert (Hsz : n + 51 <= sz < 2 ^ 31) by lia.
  assert (fresh_region (blocks h) q sz) as Hf by (apply malloc_fresh; lia).
  pose proof (fresh_no_block (blocks h) q sz Hok ltac:(lia) Hf) as Hnone.
  pose proof (not_listed (blocks h) ctx pages q sz Hok Hc0 Hcv Hps Hf ltac:(lia)) as Hnl.
  unfold AllocFromMemPool. run_refl. rewrite Hcur, decide_False by lia.
  unfold MEMORY_POOL_BLOCK_HEADER_SIZE, MEMORY_POOL_MIN_ALLOC_SIZE, MEMORY_POOL_PAGE_SIZE, MEMPAGE_INFO_LEN.
  rewrite u32_small by (unfold in_u32; lia). rewrite decide_True by lia. fold sz.
  rewrite (i32_small sz) by (unfold in_i32; lia). rewrite (i32_small (n + 12)) by (unfold in_i32; lia).
  unfold NewMemPage, MM_AllocMem. rewrite u32_small by (unfold in_u32; lia). run_refl. fold q.
  set (h1 := set_blocks _ h). set (bs1 := <[q := sz]> (blocks h)).
  assert (He : eff h h1 bs1 (links h) (cell h)) by done.
  ev (InitMemPage_eff h h1 bs1); [apply lookup_insert_eq|lia|].
  set (l1 := <[lc q := mkDL (lc q) (lc q)]> (links h)) in *.
  assert (circ l1 (lc (memPageNode ctx) :: map lc pages)) as Hl1.
  { eapply circ_frame; [|exact Hl]. intros a Ha. unfold l1. rewrite lookup_insert_ne; [done|].
    intros <-. done. }
  destruct (AddDListTail_some l1 _ _ _ Hl1 Hnl) as (l2 & E2 & Hl2 & _).
  { unfold l1. rewrite lookup_insert_eq. eauto. }
  ev (AddMemPageToContext_eff h h0 bs1 l1 (init_cells q sz (cell h)) q ctx false);
    [by apply valid_insert|eapply (valid_in _ q sz); [apply lookup_insert_eq|lia..]|exact E2|].
  pose proof (valid_fresh _ _ _ _ _ Hf Hcv) as Hap. pose proof (proj1 Hf) as Hq0.
  destruct (AllocFromMemPage_eff h h2 bs1 l2 (add_cells q ctx false (init_cells q sz (cell h))) q 40 (n + 12))
    as (h3 & E3 & He3); try done; try (unfold in_i32; lia).
  - cellt.
  - apply (valid_in _ q sz); [apply lookup_insert_eq|lia..].
  - apply (valid_in _ q sz); [apply lookup_insert_eq|lia..].
  - assert (add_cells q ctx false (init_cells q sz (cell h)) (freeSize q) = sz - 40) as -> by cellt.
    unfold in_i32. lia.
  - exists h3, l2. split_and!; try done; try lia. rewrite E3. do 2 f_equal. lia.
Qed.

(** A request that does not fit a standard page gets a page of its own, which
    does not become the current one. Its size is a multiple of 8192 that holds
    the block, except when header, page header and request are one byte over a
    multiple of 8192: then the last byte of the block lies behind the page,
    outside every live block. Freeing the block gives the page back only when it
    fills the page exactly; otherwise the page stays until its context goes. *)
Theorem AllocFromMemPool_oversize fuel h ctx pages p u r n :
  pool_cur h ctx pages p u r -> 4056 <= n + 12 < 2 ^ 30 ->
  let sz := align_size (n + 12) in let q := malloc_at (blocks h) sz in
  exists h', AllocFromMemPool malloc_at fuel n h = Some (q + 52, h') /\
    sz mod 8192 = 0 /\ fresh_region (blocks h) q sz /\ blocks h' = <[q := sz]> (blocks h) /\
    cell h' (currUsePage (memPageNode ctx)) = p /\
    ((n + 52) mod 8192 <> 1 -> valid (blocks h') (q + 52) n) /\
    ((n + 52) mod 8192 = 1 -> ~ valid (blocks h') (q + 52) n) /\
    (n + 52 <> sz -> exists h'', FreeMemWithPool (q + 52) h' = Some (0, h'') /\ blocks h'' = blocks h').
Proof using malloc_fresh.
  intros Hpc Hn sz q.
  destruct (AllocFromMemPool_big fuel h ctx pages p u r n Hpc Hn) as (h' & l' & E & Hf & Hsz & [Eb El Ec Eg Em]).
  fold sz q in E, Hf, Hsz, Eb, El, Ec.
  pose proof (align_size_eq (n + 12) ltac:(lia)) as Esz. fold sz in Esz.
  pose proof (Z.div_mod (n + 12 + 8230) 8192 ltac:(lia)) as Hdm.
  pose proof (Z.mod_pos_bound (n + 12 + 8230) 8192 ltac:(lia)) as Hmb.
  assert (Hmod : (n + 52) mod 8192 = (n + 12 + 8230 + 2) mod 8192).
  { replace (n + 12 + 8230 + 2) with (n + 52 + 1 * 8192 + 0) by lia. 
    rewrite Z.add_0_r, Z_mod_plus_full. done. }
  pose proof (pc_ctx _ _ _ _ _ _ Hpc) as [Hc0 Hcv]. pose proof (valid_fresh _ _ _ _ _ Hf Hcv) as Hap.
  pose proof (proj1 Hf) as Hq0. exists h'. split_and!; try done.
  - rewrite Esz. apply Z_mod_mult.
  - rewrite Ec. replace (currUsePage (memPageNode ctx)) with (ctx + 128) by (offsets; lia).
    rewrite <- (pc_cur _ _ _ _ _ _ Hpc). cellt.
  - intros Hne. rewrite Eb. apply (valid_in _ q sz); [apply lookup_insert_eq|lia|].
    destruct (decide ((n + 12 + 8230) mod 8192 = 8191)) as [E1|E1]; [|lia].
    exfalso. apply Hne. rewrite Hmod, <- Zplus_mod_idemp_l, E1. done.
  - intros H1. rewrite Eb. intros (b & s & Hb & Hw1 & Hw2).
    assert ((n + 12 + 8230) mod 8192 = 8191) as E1.
    { rewrite Hmod in H1. destruct (decide ((n + 12 + 8230) mod 8192 = 8191)) as [|E1]; [done|].
      rewrite <- Zplus_mod_idemp_l in H1. exfalso. 
      destruct (decide ((n + 12 + 8230) mod 8192 = 8190)) as [E2|E2]; [by rewrite E2 in H1|].
      rewrite Z.mod_small in H1; lia. }
    destruct (decide (b = q)) as [->|Hbq].
    + rewrite lookup_insert_eq in Hb. injection Hb as <-. lia.
    + rewrite lookup_insert_ne in Hb by done.
      destruct (valid_fresh _ _ _ _ _ Hf (valid_in _ b s b s Hb ltac:(lia) ltac:(lia))); lia.
  - intros Hne. destruct (ReleaseToMemPage_keeps h' (q + 40) q 40 (n + 12) sz) as (h2 & E2 & He2);
      rewrite ?Eb, ?Ec; try done; try lia; try (unfold in_i32; lia);
      try apply lookup_insert_eq; try cellt.
    + apply (valid_in _ q sz); [apply lookup_insert_eq|lia..].
    + exists h2. split; [|by rewrite (eff_blocks _ _ _ _ _ He2), Eb].
      replace (q + 52) with (ptr (q + 40)) by (offsets; lia). apply FreeMem_run; [offsets; lia|done].
Qed.

(** Deleting a context gives every page of its list back to [malloc], each
    exactly once, and no other block; the walk reads no list node of a page it
    has already freed, the page that holds the context itself going last. *)
Theorem ReleaseMemContext_frees_all fuel h ctx owner rest :
  context_pages h ctx owner rest -> (length rest < fuel)%nat ->
  exists h', ReleaseMemContext fuel ctx h = Some (0, h') /\
    (forall b, blocks h' !! b = if decide (b ∈ owner :: rest) then None else blocks h !! b) /\
    (forall a, cell h' a = cell h a).
Proof. apply ReleaseMemContext_run. Qed.

(** ** A new context *)

Definition new_cells (p : Z) (f : Z -> Z) : Z -> Z :=
  add_cells p (p + 52) true (upd (p + 180) 0 (upd (p + 172) 0 (alloc_cells p 40 136 (init_cells p 4096 f)))).

Lemma NewPoolMemContext_eff h : heap_ok (blocks h) -> manager_ok h ->
  let p := malloc_at (blocks h) 4096 in
  exists h' l', NewPoolMemContext malloc_at h = Some (p + 52, h') /\
    eff h h' (<[p := 4096]> (blocks h)) l' (new_cells p (cell h)) /\ circ l' [lc (p + 156); lc p].
Proof using malloc_fresh.
  intros Hok Hm p. assert (fresh_region (blocks h) p 4096) as Hf by (apply malloc_fresh; lia).
  pose proof (proj1 Hf) as Hp0. set (bs1 := <[p := 4096]> (blocks h)).
  assert (Hv : forall a n, p <= a -> a + n <= p + 4096 -> valid bs1 a n)
    by (intros; by apply (valid_in _ p 4096); [apply lookup_insert_eq|..]).
  unfold NewPoolMemContext. destruct (obtain_page_eff h Hm) as (h1 & E1 & He1). fold p in E1, He1.
  run E1. unfold MEMORY_POOL_PAGE_SIZE, MEMPOOL_CONTEXTINFO_SIZE.
  ev (InitMemPage_eff h h1 bs1); [apply lookup_insert_eq|lia|].
  ev (AllocFromMemPage_eff h h0 bs1 (<[lc p := mkDL (lc p) (lc p)]> (links h)) (init_cells p 4096 (cell h)) p 40 136);
    [cellt|apply Hv; lia..|unfold in_i32; lia| |].
  { assert (init_cells p 4096 (cell h) (freeSize p) = 4056) as -> by cellt. unfold in_i32. lia. }
  replace (p + 40 + 12) with (p + 52) by lia. unfold InitializePoolContext.
  assert (currUsePage (memPageNode (p + 52)) = p + 180) as -> by (offsets; lia).
  assert (memTotalSize (memPageNode (p + 52)) = p + 172) as -> by (offsets; lia).
  assert (memPageNode (p + 52) = p + 156) as Emn by (offsets; lia). rewrite Emn.
  match goal with H : eff h ?hh bs1 ?ll _ |- _ => destruct (INIT_eff h hh bs1 ll _ (p + 156) H) as (h3 & E3 & He3);
    [apply Hv; lia|] end.
  destruct (store_eff h h3 bs1 _ _ (p + 172) 4 0 He3 ltac:(apply Hv; lia)) as (h4 & E4 & He4).
  destruct (store_eff h h4 bs1 _ _ (p + 180) 8 0 He4 ltac:(apply Hv; lia)) as (h5 & E5 & He5).
  erewrite st_bind_some by (run E3; run E4; run E5; reflexivity). cbv beta.
  set (l3 := <[lc (p + 156) := _]> _) in *.
  assert (lc (p + 156) <> lc p) as Hne by (intros ?%lc_inj; lia).
  destruct (AddDListTail_some l3 (lc (p + 156)) [] (lc p)) as (l4 & El4 & Hl4 & _).
  - split; [apply NoDup_singleton|]. cbn. unfold l3. by rewrite lookup_insert_eq.
  - intros [?|?%not_elem_of_nil]%elem_of_cons; done.
  - unfold l3. rewrite lookup_insert_ne, lookup_insert_eq by done. eauto.
  - destruct (AddMemPageToContext_eff h h5 bs1 l3 _ p (p + 52) true (0, Some (lc (p + 156))) l4 He5)
      as (h6 & E6 & He6); [apply Hv; lia..|by rewrite Emn|].
    run E6. exists h6, l4. split_and!; [reflexivity|exact He6|done].
Qed.

Lemma NewMMContext_fresh h : heap_ok (blocks h) -> manager_ok h ->
  let p := malloc_at (blocks h) 4096 in
  exists h', NewMMContext malloc_at h = Some (p + 52, h') /\
    pool_cur (set_current (p + 52) h') (p + 52) [p] p 176 40.
Proof using malloc_fresh.
  intros Hok Hm p. assert (fresh_region (blocks h) p 4096) as Hf by (apply malloc_fresh; lia).
  pose proof (proj1 Hf) as Hp0. set (bs1 := <[p := 4096]> (blocks h)).
  assert (Hv : forall a n, p <= a -> a + n <= p + 4096 -> valid bs1 a n)
    by (intros; by apply (valid_in _ p 4096); [apply lookup_insert_eq|..]).
  destruct (NewPoolMemContext_eff h Hok Hm) as (h1 & l1 & E1 & He1 & Hl1). fold p bs1 in E1, He1, Hl1.
  unfold NewMMContext. run E1. unfold InitMMContextNode, MEM_CONTEXT_NAME_LEN.
  assert (touch (contextName (p + 52)) 64 h1 = Some (tt, h1)) as Et.
  { unfold touch. rewrite decide_True; [done|]. rewrite (eff_blocks _ _ _ _ _ He1).
    apply Hv; unfold contextName; lia. }
  destruct (store_eff h h1 bs1 _ _ (ctx_type (p + 52)) 4 T_MemContextNode He1) as (h2 & E2 & He2);
    [apply Hv; unfold ctx_type; lia|].
  destruct (INIT_eff h h2 bs1 _ _ (p + 52) He2 ltac:(apply Hv; lia)) as (h3 & E3 & He3).
  destruct (INIT_eff h h3 bs1 _ _ (subList (p + 52)) He3) as (h4 & E4 & He4);
    [apply Hv; unfold subList; lia|].
  erewrite st_bind_some by (run Et; run E2; run E3; exact E4). cbv beta.
  exists h4. split; [reflexivity|]. destruct He4 as [Eb El Ec Eg Em].
  assert (Hcell : forall a, cell (set_current (p + 52) h4) a = cell h4 a) by done.
  split; cbn [blocks links g_CurrentContext set_current]; rewrite ?Hcell, ?Eb, ?El, ?Ec; try done;
    try (unfold ctx_type, new_cells; cellt; done).
  - apply heap_ok_insert; [done|lia|done].
  - unfold manager_ok. cbn [g_memPoolMangerContext blocks set_current]. rewrite Hcell, Em, Eb, Ec.
    destruct Hm as [?|[Hb Hz]]; [by left|].
    destruct (decide (g_memPoolMangerContext h = 0)); [by left|]. right.
    pose proof (fresh_no_block (blocks h) p 4096 Hok ltac:(lia) Hf) as Hnone.
    split; [unfold bs1; rewrite lookup_insert_ne; [done|congruence]|].
    assert (valid (blocks h) (g_memPoolMangerContext h) 32) as Hmv
      by (apply (valid_in _ _ _ _ _ Hb); lia).
    pose proof (valid_fresh _ _ _ _ _ Hf Hmv). unfold ctx_type, new_cells. cellt.
  - split; [lia|]. apply Hv; lia.
  - replace (memPageNode (p + 52)) with (p + 156) by (offsets; lia).
    eapply circ_frame; [|exact Hl1].
    assert (lc (subList (p + 52)) <> lc (p + 156) /\ lc (subList (p + 52)) <> lc p /\
      lc (p + 52) <> lc (p + 156) /\ lc (p + 52) <> lc p) as (? & ? & ? & ?)
      by (unfold subList; split_and!; intros ?%lc_inj; lia).
    intros a [->|[->|?%not_elem_of_nil]%elem_of_cons]%elem_of_cons; [| |done];
      by rewrite !lookup_insert_ne.
  - repeat constructor. unfold bs1. rewrite lookup_insert_eq. eauto.
  - set_solver.
  - apply lookup_insert_eq.
  - intros a Ha. rewrite Hcell, Ec. unfold ctx_type, new_cells. cellt.
Qed.

(** What a new context and a run of standard requests leave is what deleting the
    context needs. *)
Lemma pool_cur_context_pages h ctx owner rest p u r :
  pool_cur h ctx (owner :: rest) p u r ->
  (exists s, blocks h !! owner = Some s /\ within (memPageNode ctx) 16 owner s) ->
  Forall (fun q => exists s, blocks h !! q = Some s /\ 28 <= s) (owner :: rest) ->
  context_pages h ctx owner rest.
Proof. intros [] ? ?. by split. Qed.

End pool_proofs.

(** ** Concrete runs *)

Lemma bump_above bs b s : bs !! b = Some s -> b + s <= bump bs 0.
Proof.
  unfold bump. revert b s.
  apply (map_fold_weak_ind (fun acc m => forall b s, m !! b = Some s -> b + s <= acc)).
  - intros b s. by rewrite lookup_empty.
  - intros i x m r Hi IH b s. rewrite lookup_insert_Some. intros [[-> ->]|[_ Hb]]; [lia|].
    specialize (IH _ _ Hb). lia.
Qed.

Lemma bump_pos bs n : 0 < bump bs n.
Proof.
  unfold bump. apply (map_fold_weak_ind (fun acc _ => 0 < acc)); [lia|]. intros. lia.
Qed.

Lemma bump_fresh bs n : 0 < n -> fresh_region bs (bump bs n) n.
Proof.
  intros Hn. split; [apply bump_pos|]. intros b s Hb. right. by apply (bump_above bs b s).
Qed.

(** A heap with one new, current context. *)
Definition pool0 : Heap :=
  match NewMMContext bump heap0 with Some (c, h) => set_current c h | None => heap0 end.

Lemma pool0_cur : pool_cur pool0 65588 [65536] 65536 176 40.
Proof.
  destruct (NewMMContext_fresh bump bump_fresh heap0) as (h' & E & Hpc).
  - intros b s H. change ((∅ : gmap Z Z) !! b = Some s) in H. by rewrite lookup_empty in H.
  - by left.
  - unfold pool0. rewrite E. exact Hpc.
Qed.

(** Three requests of a new context, of which the third needs a new page. *)
Lemma AllocFromMemPool_serves_witness :
  exists bs h' pages' p' u' r', requests bump 2 [100; 2000; 3000] pool0 = Some (ptr <$> bs, h') /\
    pool_cur h' 65588 pages' p' u' r' /\ handed_out h' 65588 p' u' (zip bs [100; 2000; 3000]).
Proof.
  destruct (AllocFromMemPool_serves bump bump_fresh 2 65588 (le_n _) [100; 2000; 3000] pool0 [65536] 65536 176 40 [] pool0_cur)
    as (bs & h' & pages' & p' & u' & r' & E & _ & Hpc & Ho & _).
  - split; [constructor|]. by intros i j x y Hi.
  - repeat constructor; lia.
  - exists bs, h', pages', p', u', r'. split; [exact E|]. split; [exact Hpc|exact Ho].
Defined.

Lemma ReleaseToMemPool_premature_free_witness :
  exists b2 h' q, q <= b2 /\ b2 + 1988 <= q + 4096 /\ ~ valid (blocks h') b2 1.
Proof.
  destruct (ReleaseToMemPool_premature_free bump bump_fresh 2 pool0 65588 [65536] 65536 176 40 2044 1988 1988 pool0_cur)
    as (b1 & b2 & b3 & ret & h' & q & _ & _ & H1 & H2 & _ & H3); [lia..|]. exists b2, h', q. split; [exact H1|split; [exact H2|exact H3]].
Defined.

Lemma AllocFromMemPool_oversize_witness :
  exists h', AllocFromMemPool bump 0 8141 pool0 = Some (69632 + 52, h') /\
    ~ valid (blocks h') (69632 + 52) 8141.
Proof.
  destruct (AllocFromMemPool_oversize bump bump_fresh 0 pool0 65588 [65536] 65536 176 40 8141 pool0_cur)
    as (h' & E & _ & _ & _ & _ & _ & H & _); [lia|].
  exists h'. split; [exact E|]. apply H. reflexivity.
Defined.

Lemma ReleaseMemContext_frees_all_witness :
  exists h', ReleaseMemContext 1 65588 pool0 = Some (0, h') /\ blocks h' !! 65536 = None.
Proof.
  destruct (ReleaseMemContext_frees_all 1 pool0 65588 65536 []) as (h' & E & Hb & _).
  - apply (pool_cur_context_pages pool0 65588 65536 [] 65536 176 40 pool0_cur).
    + exists 4096. split; [exact (pc_block pool0 65588 [65536] 65536 176 40 pool0_cur)|]. unfold within, memPageNode. lia.
    + repeat constructor. exists 4096. split; [exact (pc_block pool0 65588 [65536] 65536 176 40 pool0_cur)|lia].
  - simpl. lia.
  - exists h'. split; [exact E|]. rewrite Hb. rewrite decide_True; [reflexivity|by left].
Defined.
