(* ===== verification/HashTable.v ===== *)
(** * The partitioned hash table

    Models [src/src/util/hashtable/hashtab.c]. Elements live at byte offsets
    inside the table's allocation and are linked through [link]; a bucket cell
    and the free list head hold the offset of the first element or [NULL].
    Keys arrive already hashed ([spooky_hash64] is not modelled): every
    operation takes the 64-bit key as an argument. *)

From S2P Require Import Prelude.

(** ** Data: hashtab.h *)

Inductive HashOp := HASH_FIND | HASH_INSERT | HASH_DELETE | HASH_NULL.

Definition HASH_BITS : Z := 64.
Definition HASH_SEGMENT_SIZE : Z := 32.

(** Sizes of the C structures on x86-64. *)
Definition HASH_ELEMENT_SIZE : Z := 16.
Definition sizeof_HashSegment : Z := 16.
Definition sizeof_HashTableInfo : Z := 160.
Definition sizeof_pointer : Z := 8.

Record HashElement := mkEl { link : option Z; hashKey : Z; value : list Z }.

Record HashTableInfo := mkHT {
  maxNum : Z;
  partitionNum : Z;
  valueSize : Z;
  keyValueSize : nat;
  partitionMask : Z;
  bucketMask : Z;
  partitionShift : Z;
  bucketShift : Z;
  hashSegmentSize : Z;
  elements : gmap Z HashElement;
  freeHashElementList : option Z;
  freeListLock : Z;
  freeNum : Z;
  segBuckets : gmap (Z * Z) (option Z);
  segLock : gmap Z Z;
  usedNum : Z
}.

(** ** Sizes and masks *)

(** [unsigned int] argument, 64-bit result. *)
Definition getAlignNum (num : Z) : Z :=
  let mask := u32 (num - 1) in
  let mask := Z.lor mask (Z.shiftr mask 1) in
  let mask := Z.lor mask (Z.shiftr mask 2) in
  let mask := Z.lor mask (Z.shiftr mask 4) in
  let mask := Z.lor mask (Z.shiftr mask 8) in
  let mask := Z.lor mask (Z.shiftr mask 16) in
  u64 (mask + 1).

Fixpoint getShiftNum_loop (fuel : nat) (key shift : Z) : option Z :=
  match fuel with
  | O => None
  | S fuel =>
      let key := Z.shiftr key 1 in
      if key =? 0 then Some shift else getShiftNum_loop fuel key (shift + 1)
  end.

(** A 64-bit key is 0 after at most 64 shifts. *)
Definition getShiftNum (key : Z) : option Z := getShiftNum_loop 64 key 0.

(** The arithmetic is done in [unsigned long] and cut to [int]. *)
Definition GetHashTableSize (partNum maxNum valueSize : Z) : Z :=
  let len := i32 (getAlignNum maxNum * (valueSize + HASH_ELEMENT_SIZE)) in
  let len := i32 (len + getAlignNum partNum * (sizeof_HashSegment + len)) in
  i32 (len + sizeof_HashTableInfo).

(** ** InitHashTable: where things are put *)

Definition elem_size (valueSize : Z) : Z := valueSize + HASH_ELEMENT_SIZE.
Definition elem_addr (valueSize : Z) (i : nat) : Z :=
  sizeof_HashTableInfo + Z.of_nat i * elem_size valueSize.

(** The offsets after the elements and the segments, where the bucket arrays start,
    of a bucket cell, and after the bucket arrays. *)
Definition segments_end (partNum maxNum valueSize : Z) : Z :=
  sizeof_HashTableInfo + maxNum * elem_size valueSize + partNum * sizeof_HashSegment.
Definition bucket_addr (partNum maxNum valueSize : Z) (i : Z * Z) : Z :=
  segments_end partNum maxNum valueSize + (i.1 * HASH_SEGMENT_SIZE + i.2) * sizeof_pointer.
Definition layout_end (partNum maxNum valueSize : Z) : Z :=
  segments_end partNum maxNum valueSize + partNum * (HASH_SEGMENT_SIZE * sizeof_pointer).

(** The bytes [HashTableCreate] asks for: the table and its name. *)
Definition hashtableLen (partNum maxNum valueSize nameLen : Z) : Z :=
  i32 (GetHashTableSize partNum maxNum valueSize + nameLen).

(** Links elements [i, i+1, ..., i+n] into one list. *)
Fixpoint init_elements (valueSize : Z) (i n : nat) (m : gmap Z HashElement) : gmap Z HashElement :=
  match n with
  | O => <[elem_addr valueSize i := mkEl None 0 (replicate (Z.to_nat valueSize) 0)]> m
  | S n =>
      <[elem_addr valueSize i :=
          mkEl (Some (elem_addr valueSize (S i))) 0 (replicate (Z.to_nat valueSize) 0)]>
        (init_elements valueSize (S i) n m)
  end.

Definition zrange (n : Z) : list Z := Z.of_nat <$> seq 0 (Z.to_nat n).

(** The cells of the bucket arrays that lie in the [len] bytes allocated. *)
Definition init_segBuckets (partNum maxNum valueSize len : Z) : gmap (Z * Z) (option Z) :=
  list_to_map ((fun i => (i, None)) <$>
    filter (fun i => bucket_addr partNum maxNum valueSize i + sizeof_pointer <= len)
      (p ← zrange partNum; b ← zrange HASH_SEGMENT_SIZE; [(p, b)])).

Definition init_segLock (partNum : Z) : gmap Z Z :=
  list_to_map ((fun p => (p, 0)) <$> zrange partNum).

(** [HashTableCreate] with [InitHashTable]; the memory is zeroed and is there.
    [None] is the undefined shift by the full width, which a single partition would
    need, or a write of [InitHashTable] past the allocation: it writes the elements
    and the segments, and only places the bucket arrays. *)
Definition HashTableCreate (partNum maxSize valueSize : Z) (keyValueSize : nat) (nameLen : Z)
    : option HashTableInfo :=
  let len := hashtableLen partNum maxSize valueSize nameLen in
  let bucketAlign := getAlignNum maxSize in
  bShift ← getShiftNum bucketAlign;
  let partAlign := getAlignNum partNum in
  pBits ← getShiftNum partAlign;
  let pShift := HASH_BITS - pBits in
  if HASH_BITS <=? pShift then None
  else if len <? segments_end partNum maxSize valueSize then None
  else
    Some (mkHT maxSize partNum valueSize keyValueSize
      (u64 (Z.lnot (u64 (Z.shiftl 1 pShift - 1))))
      (u64 (Z.lnot (u64 (bucketAlign - 1))))
      pShift bShift HASH_SEGMENT_SIZE
      (init_elements valueSize 0 (Z.to_nat (maxSize - 1)) ∅)
      (Some (elem_addr valueSize 0)) 0 maxSize
      (init_segBuckets partNum maxSize valueSize len) (init_segLock partNum) 0).

(** ** Field updates *)

Definition set_elements (m : gmap Z HashElement) (h : HashTableInfo) : HashTableInfo :=
  mkHT (maxNum h) (partitionNum h) (valueSize h) (keyValueSize h) (partitionMask h) (bucketMask h)
    (partitionShift h) (bucketShift h) (hashSegmentSize h) m (freeHashElementList h)
    (freeListLock h) (freeNum h) (segBuckets h) (segLock h) (usedNum h).
Definition set_freelist (f : option Z) (n : Z) (h : HashTableInfo) : HashTableInfo :=
  mkHT (maxNum h) (partitionNum h) (valueSize h) (keyValueSize h) (partitionMask h) (bucketMask h)
    (partitionShift h) (bucketShift h) (hashSegmentSize h) (elements h) f
    (freeListLock h) n (segBuckets h) (segLock h) (usedNum h).
Definition set_freelock (l : Z) (h : HashTableInfo) : HashTableInfo :=
  mkHT (maxNum h) (partitionNum h) (valueSize h) (keyValueSize h) (partitionMask h) (bucketMask h)
    (partitionShift h) (bucketShift h) (hashSegmentSize h) (elements h) (freeHashElementList h)
    l (freeNum h) (segBuckets h) (segLock h) (usedNum h).
Definition set_bucket (i : Z * Z) (o : option Z) (h : HashTableInfo) : HashTableInfo :=
  mkHT (maxNum h) (partitionNum h) (valueSize h) (keyValueSize h) (partitionMask h) (bucketMask h)
    (partitionShift h) (bucketShift h) (hashSegmentSize h) (elements h) (freeHashElementList h)
    (freeListLock h) (freeNum h) (<[i := o]> (segBuckets h)) (segLock h) (usedNum h).
Definition set_seglock (p l : Z) (h : HashTableInfo) : HashTableInfo :=
  mkHT (maxNum h) (partitionNum h) (valueSize h) (keyValueSize h) (partitionMask h) (bucketMask h)
    (partitionShift h) (bucketShift h) (hashSegmentSize h) (elements h) (freeHashElementList h)
    (freeListLock h) (freeNum h) (segBuckets h) (<[p := l]> (segLock h)) (usedNum h).
Definition add_used (d : Z) (h : HashTableInfo) : HashTableInfo :=
  mkHT (maxNum h) (partitionNum h) (valueSize h) (keyValueSize h) (partitionMask h) (bucketMask h)
    (partitionShift h) (bucketShift h) (hashSegmentSize h) (elements h) (freeHashElementList h)
    (freeListLock h) (freeNum h) (segBuckets h) (segLock h) (usedNum h + d).

Definition get_elem (e : Z) : ST HashTableInfo HashElement := fun h =>
  el ← elements h !! e; Some (el, h).
Definition put_elem (e : Z) (el : HashElement) : ST HashTableInfo unit := fun h =>
  _ ← elements h !! e; Some (tt, set_elements (<[e := el]> (elements h)) h).
Definition set_link (e : Z) (l : option Z) : ST HashTableInfo unit :=
  el ← get_elem e; put_elem e (mkEl l (hashKey el) (value el)).

Definition get_bucket (i : Z * Z) : ST HashTableInfo (option Z) := fun h =>
  o ← segBuckets h !! i; Some (o, h).
Definition put_bucket (i : Z * Z) (o : option Z) : ST HashTableInfo unit := fun h =>
  _ ← segBuckets h !! i; Some (tt, set_bucket i o h).

(** ** Locks

    [SpinLockAquire] leaves the word at 1 whether or not it got the lock (see
    SpinLock); [SpinLockRelease] stores 0. *)

Definition HashLockPartition (p : Z) : ST HashTableInfo unit := fun h =>
  _ ← segLock h !! p; Some (tt, set_seglock p 1 h).
Definition HashLockPartitionRelease (p : Z) : ST HashTableInfo unit := fun h =>
  _ ← segLock h !! p; Some (tt, set_seglock p 0 h).
Definition HashLockFreeList : ST HashTableInfo unit := st_modify (set_freelock 1).
Definition HashLockReleaseFreeList : ST HashTableInfo unit := st_modify (set_freelock 0).

(** ** Indexing *)

(** C precedence: the shift and the remainder bind tighter than [&]. *)
Definition GetPartitionIndex (key : Z) (h : HashTableInfo) : Z :=
  Z.land key (Z.shiftr (partitionMask h) (partitionShift h)).
Definition GetBucketIndex (key : Z) (h : HashTableInfo) : Z :=
  Z.land key (u64 (Z.lnot (partitionMask h)) mod hashSegmentSize h).

(** ** The operations *)

(** [hashCompare]: [memcmp] of the first [keyValueSize] bytes. *)
Definition same_key (n : nat) (v1 v2 : list Z) : bool := bool_decide (take n v1 = take n v2).

Definition GetFromFreeList : ST HashTableInfo (option Z) :=
  HashLockFreeList;;
  head ← st_gets freeHashElementList;
  r ← match head with
      | None => mret None
      | Some entry =>
          el ← get_elem entry;
          st_modify (fun h => set_freelist (link el) (freeNum h) h);;
          set_link entry None;;
          st_modify (fun h => set_freelist (freeHashElementList h) (freeNum h - 1) h);;
          mret (Some entry)
      end;
  HashLockReleaseFreeList;; mret r.

Definition PutFreeList (entry : option Z) : ST HashTableInfo unit :=
  match entry with
  | None => mret tt
  | Some e =>
      HashLockFreeList;;
      head ← st_gets freeHashElementList; set_link e head;;
      st_modify (fun h => set_freelist (Some e) (freeNum h) h);;
      st_modify (fun h => set_freelist (freeHashElementList h) (freeNum h + 1) h);;
      HashLockReleaseFreeList
  end.

Fixpoint GetHashEntryFromBucket (fuel : nat) (element : option Z) (key : Z) (v : list Z)
    : ST HashTableInfo (option Z) := fun h =>
  match fuel, element with
  | _, None => Some (None, h)
  | O, Some _ => None
  | S fuel, Some e =>
      (el ← get_elem e;
       if (hashKey el =? key) && same_key (keyValueSize h) (value el) v then mret (Some e)
       else GetHashEntryFromBucket fuel (link el) key v) h
  end.

(** [pre] and [element] walk the bucket cell [i]; [pre = element] at its
    head. *)
Fixpoint Delete_loop (fuel : nat) (i : Z * Z) (pre element : option Z) (key : Z) (v : list Z)
    : ST HashTableInfo (option Z) := fun h =>
  match fuel, element with
  | _, None => Some (None, h)
  | O, Some _ => None
  | S fuel, Some e =>
      (el ← get_elem e;
       if (hashKey el =? key) && same_key (keyValueSize h) (value el) v then
         (if decide (pre = element) then put_bucket i (link el) else mret tt);;
         (match pre with Some p => set_link p (link el) | None => st_fault end);;
         st_modify (add_used (-1));;
         mret element
       else Delete_loop fuel i element (link el) key v) h
  end.

Definition chain_fuel (h : HashTableInfo) : nat := S (size (elements h)).

Definition DeleteHashEntryFromBucket (i : Z * Z) (key : Z) (v : list Z)
    : ST HashTableInfo (option Z) := fun h =>
  (element ← get_bucket i; Delete_loop (chain_fuel h) i element element key v) h.

Definition HashFindEntry (key : Z) (v : list Z) (partition : Z) : ST HashTableInfo (option Z) :=
  fun h =>
  let bucket := GetBucketIndex key h in
  (o ← get_bucket (partition, bucket); GetHashEntryFromBucket (chain_fuel h) o key v) h.

Definition HashDeleteEntry (key : Z) (v : list Z) : ST HashTableInfo Z := fun h =>
  let partIndex := GetPartitionIndex key h in
  let bucket := GetBucketIndex key h in
  (HashLockPartition partIndex;;
   entry ← DeleteHashEntryFromBucket (partIndex, bucket) key v;
   HashLockPartitionRelease partIndex;;
   match entry with
   | Some _ => PutFreeList entry;; mret 0
   | None => mret (-1)
   end) h.

(** Returns the entry and the value stored through [flag]. *)
Definition HashGetFreeEntry (key : Z) (v : list Z) : ST HashTableInfo (option Z * HashOp) := fun h =>
  let partIndex := GetPartitionIndex key h in
  let bucket := GetBucketIndex key h in
  let i := (partIndex, bucket) in
  (HashLockPartition partIndex;;
   o ← get_bucket i;
   entry ← GetHashEntryFromBucket (chain_fuel h) o key v;
   match entry with
   | Some _ => HashLockPartitionRelease partIndex;; mret (entry, HASH_FIND)
   | None =>
       entry ← GetFromFreeList;
       match entry with
       | None => HashLockPartitionRelease partIndex;; mret (None, HASH_NULL)
       | Some e =>
           o ← get_bucket i; set_link e o;;
           put_bucket i (Some e);;
           st_modify (add_used 1);;
           el ← get_elem e;
           put_elem e (mkEl (link el) key (take (Z.to_nat (valueSize h)) v));;
           HashLockPartitionRelease partIndex;;
           mret (entry, HASH_INSERT)
       end
   end) h.

Definition GetEntryValue (e : Z) : ST HashTableInfo (list Z) :=
  el ← get_elem e; mret (value el).

(** ** Rounding up to a power of two *)

(** After a smearing step of width [w] the top [w] bits below and including
    [L] are all ones. *)
Definition smeared (L w m : Z) : Prop :=
  0 <= m /\ (forall i, L < i -> Z.testbit m i = false) /\
  (forall i, 0 <= i -> L - w < i <= L -> Z.testbit m i = true).

Lemma smear_step L w m :
  0 < w -> smeared L w m -> smeared L (2 * w) (Z.lor m (Z.shiftr m w)).
Proof.
  intros Hw (H0 & Hhi & Hlo). split_and!.
  - apply Z.lor_nonneg. split; [done|]. by apply Z.shiftr_nonneg.
  - intros i Hi. rewrite Z.lor_spec, (Hhi i Hi). simpl.
    destruct (Z.ltb_spec i 0).
    + by apply Z.testbit_neg_r.
    + rewrite Z.shiftr_spec by lia. apply Hhi. lia.
  - intros i Hi Hr. rewrite Z.lor_spec, Z.shiftr_spec by lia.
    destruct (Z.ltb_spec (L - w) i).
    + rewrite (Hlo i); done || lia.
    + rewrite (Hlo (i + w)); [apply orb_true_r|lia|lia].
Qed.

Lemma smear_start n : 0 < n -> smeared (Z.log2 n) 1 n.
Proof.
  intros Hn. split_and!; [lia| |].
  - intros i Hi. apply Z.bits_above_log2; lia.
  - intros i Hi Hr. assert (i = Z.log2 n) as -> by lia. by apply Z.bit_log2.
Qed.

Lemma smear_ones L w m : 0 <= L < w -> smeared L w m -> m = Z.ones (L + 1).
Proof.
  intros HL (H0 & Hhi & Hlo). apply Z.bits_inj'. intros i Hi.
  destruct (Z.leb_spec i L).
  - rewrite Z.ones_spec_low by lia. apply Hlo; lia.
  - rewrite Z.ones_spec_high by lia. apply Hhi; lia.
Qed.

Lemma getAlignNum_pow2 n : 1 < n < 2 ^ 32 -> getAlignNum n = 2 ^ (Z.log2 (n - 1) + 1).
Proof.
  intros Hn. unfold getAlignNum.
  rewrite u32_small by (unfold in_u32; lia).
  assert (Z.log2 (n - 1) < 32) by (apply Z.log2_lt_pow2; lia).
  pose proof (Z.log2_nonneg (n - 1)).
  pose proof (smear_step _ 16 _ ltac:(lia) (smear_step _ 8 _ ltac:(lia)
    (smear_step _ 4 _ ltac:(lia) (smear_step _ 2 _ ltac:(lia)
    (smear_step _ 1 _ ltac:(lia) (smear_start (n - 1) ltac:(lia))))))) as Hs.
  apply smear_ones in Hs; [|lia]. cbv zeta. rewrite Hs, Z.ones_equiv.
  rewrite u64_small; [lia|]. unfold in_u64.
  assert (2 ^ (Z.log2 (n - 1) + 1) <= 2 ^ 32) by (apply Z.pow_le_mono_r; lia).
  assert (0 < 2 ^ (Z.log2 (n - 1) + 1)) by (apply Z.pow_pos_nonneg; lia). lia.
Qed.

Lemma getAlignNum_one : getAlignNum 1 = 1.
Proof. reflexivity. Qed.

Lemma getAlignNum_spec n :
  1 <= n <= 2 ^ 31 ->
  exists b, 0 <= b <= 31 /\ getAlignNum n = 2 ^ b /\ n <= getAlignNum n < 2 * n.
Proof.
  intros Hn. destruct (decide (n = 1)) as [->|].
  { exists 0. rewrite getAlignNum_one. simpl. lia. }
  pose proof (Z.log2_spec (n - 1) ltac:(lia)) as [Hl Hu].
  pose proof (Z.log2_nonneg (n - 1)) as H0.
  assert (Z.log2 (n - 1) < 31) by (apply Z.log2_lt_pow2; lia).
  exists (Z.log2 (n - 1) + 1). rewrite getAlignNum_pow2 by lia.
  unfold Z.succ in Hu. split_and!; [lia|lia|done|lia|].
  rewrite Z.pow_add_r by lia. lia.
Qed.

(** [getAlignNum] returns the least power of two that is not below its
    argument. *)
Theorem getAlignNum_least n :
  1 <= n <= 2 ^ 31 ->
  n <= getAlignNum n /\ exists b, getAlignNum n = 2 ^ b /\
    forall k, 0 <= k -> n <= 2 ^ k -> getAlignNum n <= 2 ^ k.
Proof.
  intros Hn. destruct (getAlignNum_spec n Hn) as (b & Hb & Ha & Hle & Hlt).
  split; [done|]. exists b. split; [done|]. intros k Hk Hnk. rewrite Ha in *.
  apply Z.pow_le_mono_r; [lia|]. apply Z.lt_succ_r, (Z.pow_lt_mono_r_iff 2); [lia|lia|].
  rewrite Z.pow_succ_r by lia. lia.
Qed.

Lemma getAlignNum_least_witness :
  10000 <= getAlignNum 10000 /\ exists b, getAlignNum 10000 = 2 ^ b /\
    forall k, 0 <= k -> 10000 <= 2 ^ k -> getAlignNum 10000 <= 2 ^ k.
Proof. apply (getAlignNum_least 10000). lia. Defined.

Lemma getShiftNum_loop_pow2 fuel b s :
  0 <= b < Z.of_nat fuel -> getShiftNum_loop fuel (2 ^ b) s = Some (s + b).
Proof.
  revert b s. induction fuel as [|fuel IH]; intros b s Hb; [lia|]. simpl.
  destruct (decide (b = 0)) as [->|].
  - simpl. f_equal. lia.
  - replace b with ((b - 1) + 1) by lia. rewrite Z.pow_add_r by lia.
    rewrite Z.shiftr_div_pow2 by lia. rewrite Z.div_mul by lia.
    assert (0 < 2 ^ (b - 1)) by (apply Z.pow_pos_nonneg; lia).
    destruct (Z.eqb_spec (2 ^ (b - 1)) 0); [lia|].
    rewrite IH by lia. f_equal. lia.
Qed.

(** ** Chains *)

Fixpoint chain (m : gmap Z HashElement) (o : option Z) (l : list Z) : Prop :=
  match l with
  | [] => o = None
  | e :: l => o = Some e /\ exists el, m !! e = Some el /\ chain m (link el) l
  end.

Lemma hash_chain_frame m m' o l :
  (forall e, e ∈ l -> m' !! e = m !! e) -> chain m o l -> chain m' o l.
Proof.
  revert o. induction l as [|e l IH]; simpl; [done|].
  intros o Hf (-> & el & He & Hc). split; [done|]. exists el.
  rewrite Hf by (rewrite elem_of_cons; by left). split; [done|].
  apply IH; [|done]. intros x Hx. apply Hf. rewrite elem_of_cons. by right.
Qed.

Lemma chain_elem m o l e : chain m o l -> e ∈ l -> exists el, m !! e = Some el.
Proof.
  revert o. induction l as [|x l IH]; simpl; intros o Hc He.
  - by apply elem_of_nil in He.
  - destruct Hc as (_ & el & Hx & Hc).
    apply elem_of_cons in He as [->|He]; [eauto|by eapply IH].
Qed.

Lemma chain_length m o l : chain m o l -> NoDup l -> (length l <= size m)%nat.
Proof.
  intros Hc Hnd. rewrite <- (size_list_to_set (C := gset Z) l) by done.
  rewrite <- (size_dom (D := gset Z)). apply subseteq_size.
  intros x Hx. apply elem_of_list_to_set in Hx.
  destruct (chain_elem _ _ _ _ Hc Hx) as [el Hel]. by apply elem_of_dom_2 in Hel.
Qed.

(** Does the entry at [e] carry this key? *)
Definition hit (h : HashTableInfo) (key : Z) (v : list Z) (e : Z) : bool :=
  match elements h !! e with
  | Some el => (hashKey el =? key) && same_key (keyValueSize h) (value el) v
  | None => false
  end.

Fixpoint first_hit (h : HashTableInfo) (key : Z) (v : list Z) (l : list Z) : option Z :=
  match l with
  | [] => None
  | e :: l => if hit h key v e then Some e else first_hit h key v l
  end.

Lemma first_hit_some h key v l e :
  first_hit h key v l = Some e ->
  hit h key v e = true /\ exists l1 l2, l = l1 ++ e :: l2 /\ first_hit h key v l1 = None.
Proof.
  induction l as [|x l IH]; simpl; [done|]. destruct (hit h key v x) eqn:Hx; intros H.
  - simplify_eq. split; [done|]. by exists [], l.
  - destruct (IH H) as (He & l1 & l2 & -> & Hn). split; [done|].
    exists (x :: l1), l2. simpl. by rewrite Hx.
Qed.

Lemma first_hit_none h key v l e : first_hit h key v l = None -> e ∈ l -> hit h key v e = false.
Proof.
  induction l as [|x l IH]; simpl; [by intros _ ?%elem_of_nil|].
  destruct (hit h key v x) eqn:Hx; [done|].
  intros Hn [->|He]%elem_of_cons; [done|by apply IH].
Qed.

Lemma hit_inv h key v e :
  hit h key v e = true ->
  exists el, elements h !! e = Some el /\ hashKey el = key /\
    take (keyValueSize h) (value el) = take (keyValueSize h) v.
Proof.
  unfold hit, same_key. destruct (elements h !! e) as [el|]; [|done].
  rewrite andb_true_iff, Z.eqb_eq, bool_decide_eq_true. eauto.
Qed.

Lemma hit_intro h e el v :
  elements h !! e = Some el -> take (keyValueSize h) (value el) = take (keyValueSize h) v ->
  hit h (hashKey el) v e = true.
Proof.
  intros He Hv. unfold hit, same_key. rewrite He, Z.eqb_refl, Hv. by apply bool_decide_eq_true.
Qed.

Lemma GetHashEntryFromBucket_chain fuel o key v h l :
  chain (elements h) o l -> (length l < fuel)%nat ->
  GetHashEntryFromBucket fuel o key v h = Some (first_hit h key v l, h).
Proof.
  revert o l. induction fuel as [|fuel IH]; intros o l Hc Hl; [lia|].
  destruct l as [|e l]; simpl in *; [by subst|].
  destruct Hc as (-> & el & He & Hc).
  unfold mbind, ST_bind, get_elem, mbind, option_bind. unfold hit. rewrite He.
  destruct (_ && _); [done|]. apply IH; [done|lia].
Qed.

(** The chain without the entry [e] in front of which [l1] stands: [l1]'s last
    link skips it, everything else stays. *)
Definition unlinked (m m' : gmap Z HashElement) (l1 : list Z) : Prop :=
  (forall x, x ∉ l1 -> m' !! x = m !! x) /\
  (forall x el, m !! x = Some el ->
     exists el', m' !! x = Some el' /\ hashKey el' = hashKey el /\ value el' = value el).

Lemma unlinked_refl m l1 : unlinked m m l1.
Proof. split; [done|eauto]. Qed.

Lemma chain_skip m l1 p elp e el l2 o :
  chain m o (l1 ++ p :: e :: l2) -> NoDup (l1 ++ p :: e :: l2) ->
  m !! p = Some elp -> m !! e = Some el ->
  let m' := <[p := mkEl (link el) (hashKey elp) (value elp)]> m in
  chain m' o (l1 ++ p :: l2) /\ unlinked m m' (l1 ++ [p]).
Proof.
  intros Hc Hnd Hp He m'. split.
  - revert o Hc Hnd. induction l1 as [|x l1 IH]; intros o; simpl.
    + intros (-> & elp' & Hp' & Hsome & el' & He' & Hc) Hnd. simplify_eq.
      apply NoDup_cons in Hnd as [Hpe _].
      split; [done|]. eexists. unfold m'. rewrite lookup_insert_eq. split; [done|]. simpl.
      eapply hash_chain_frame; [|exact Hc]. intros x Hx.
      rewrite lookup_insert_ne; [done|]. intros ->. apply Hpe. rewrite elem_of_cons. by right.
    + intros (-> & elx & Hx & Hc) [Hxn Hnd]%NoDup_cons.
      split; [done|]. exists elx. split.
      * unfold m'. rewrite lookup_insert_ne; [done|]. intros ->. apply Hxn.
        rewrite elem_of_app, elem_of_cons. tauto.
      * by apply IH.
  - unfold m'. split.
    + intros x Hx. rewrite lookup_insert_ne; [done|]. intros ->. apply Hx.
      rewrite elem_of_app, list_elem_of_singleton. tauto.
    + intros x elx Hx. destruct (decide (x = p)) as [->|].
      * rewrite lookup_insert_eq. eexists. split; [done|]. by simplify_eq.
      * rewrite lookup_insert_ne by done. eauto.
Qed.

Lemma Delete_loop_none fuel i pre o key v h l :
  chain (elements h) o l -> (length l < fuel)%nat -> first_hit h key v l = None ->
  Delete_loop fuel i pre o key v h = Some (None, h).
Proof.
  revert o pre l. induction fuel as [|fuel IH]; intros o pre l Hc Hl Hn; [lia|].
  destruct l as [|e l]; simpl in *; [by subst|].
  destruct Hc as (-> & el & He & Hc). unfold hit in Hn. rewrite He in Hn.
  unfold mbind at 1, ST_bind, get_elem, mbind, option_bind. rewrite He.
  destruct (_ && _); [done|]. apply (IH _ _ l); [done|lia|done].
Qed.

Lemma Delete_loop_tail fuel i p elp o key v h l1 e l2 :
  chain (elements h) o (l1 ++ e :: l2) -> (length (l1 ++ e :: l2) < fuel)%nat ->
  NoDup (p :: l1 ++ e :: l2) -> elements h !! p = Some elp ->
  first_hit h key v l1 = None -> hit h key v e = true ->
  exists r q elq el,
    p :: l1 = r ++ [q] /\ elements h !! q = Some elq /\ elements h !! e = Some el /\
    Delete_loop fuel i (Some p) o key v h =
      Some (Some e, add_used (-1)
        (set_elements (<[q := mkEl (link el) (hashKey elq) (value elq)]> (elements h)) h)).
Proof.
  revert p elp o l1. induction fuel as [|fuel IH];
    intros p elp o l1 Hc Hl [Hp Hnd]%NoDup_cons Help Hn Hh; [lia|].
  destruct l1 as [|x l1]; simpl in Hc, Hl, Hn.
  - destruct Hc as (-> & el & He & Hc).
    exists [], p, elp, el. split_and!; [done..|].
    unfold hit in Hh. rewrite He in Hh. simpl.
    unfold mbind at 1, ST_bind, get_elem at 1, mbind at 1, option_bind. rewrite He, Hh.
    rewrite decide_False.
    2: { intros [= ->]. apply Hp. simpl. rewrite elem_of_cons. by left. }
    unfold mbind, ST_bind, set_link, get_elem, put_elem, mbind, ST_bind, option_bind,
      mret, ST_ret, st_modify. by rewrite !Help.
  - destruct Hc as (-> & elx & Hx & Hc). unfold hit in Hn at 1. rewrite Hx in Hn.
    destruct ((hashKey elx =? key) && _) eqn:Hxh; [done|].
    destruct (IH x elx (link elx) l1) as (r & q & elq & el & Hr & Hq & He & Hrun); try done.
    { lia. }
    exists (p :: r), q, elq, el. split_and!; [simpl; by rewrite Hr|done..|].
    simpl. unfold mbind at 1, ST_bind, get_elem at 1, mbind at 1, option_bind.
    by rewrite Hx, Hxh.
Qed.

Lemma set_bucket_id i o h : segBuckets h !! i = Some o -> set_bucket i o h = h.
Proof. destruct h; simpl. intros H. unfold set_bucket; simpl. by rewrite insert_id. Qed.

Lemma DeleteHashEntryFromBucket_none i o key v h l :
  segBuckets h !! i = Some o -> chain (elements h) o l -> NoDup l ->
  first_hit h key v l = None ->
  DeleteHashEntryFromBucket i key v h = Some (None, h).
Proof.
  intros Ho Hc Hnd Hn. unfold DeleteHashEntryFromBucket, mbind, ST_bind, get_bucket, mbind,
    option_bind. rewrite Ho. eapply Delete_loop_none; [done| |done].
  pose proof (chain_length _ _ _ Hc Hnd). unfold chain_fuel. lia.
Qed.

Lemma DeleteHashEntryFromBucket_hit i o key v h l1 e l2 :
  segBuckets h !! i = Some o -> chain (elements h) o (l1 ++ e :: l2) ->
  NoDup (l1 ++ e :: l2) -> first_hit h key v l1 = None -> hit h key v e = true ->
  exists o' m',
    DeleteHashEntryFromBucket i key v h =
      Some (Some e, add_used (-1) (set_bucket i o' (set_elements m' h))) /\
    chain m' o' (l1 ++ l2) /\ unlinked (elements h) m' l1.
Proof.
  intros Ho Hc Hnd Hn Hh. pose proof (chain_length _ _ _ Hc Hnd) as Hlen.
  unfold DeleteHashEntryFromBucket.
  unfold mbind at 1, ST_bind at 1, get_bucket at 1, mbind at 1, option_bind. rewrite Ho.
  destruct l1 as [|x l1]; simpl in Hc.
  - destruct Hc as (-> & el & He & Hc). exists (link el), (elements h).
    unfold hit in Hh. rewrite He in Hh. split_and!; [|done|apply unlinked_refl].
    unfold chain_fuel. simpl.
    unfold mbind at 1, ST_bind at 1, get_elem at 1, mbind at 1, option_bind. rewrite He, Hh.
    rewrite decide_True by done.
    unfold mbind, ST_bind, put_bucket, set_link, get_elem, put_elem, mbind, ST_bind, option_bind,
      mret, ST_ret, st_modify. rewrite Ho. simpl. rewrite !He.
    do 2 f_equal. unfold set_elements, set_bucket; simpl. rewrite (insert_id (elements h)); [by rewrite He|].
    by destruct el.
  - destruct Hc as (-> & elx & Hx & Hc). simpl in Hn.
    destruct (hit h key v x) eqn:Hxh; [done|].
    destruct (Delete_loop_tail (size (elements h)) i x elx (link elx) key v h l1 e l2)
      as (r & q & elq & el & Hr & Hq & He & Hrun); try done.
    assert (Hl : chain (elements h) (Some x) (r ++ q :: e :: l2)).
    { replace (r ++ q :: e :: l2) with (x :: l1 ++ e :: l2).
      - simpl. eauto.
      - change (x :: l1 ++ e :: l2) with ((x :: l1) ++ e :: l2).
        rewrite Hr, <- app_assoc. done. }
    destruct (chain_skip (elements h) r q elq e el l2 (Some x)) as [Hc' Hu]; try done.
    { replace (r ++ q :: e :: l2) with (x :: l1 ++ e :: l2); [done|].
      change (x :: l1 ++ e :: l2) with ((x :: l1) ++ e :: l2).
      rewrite Hr, <- app_assoc. done. }
    exists (Some x), (<[q := mkEl (link el) (hashKey elq) (value elq)]> (elements h)).
    split_and!.
    + unfold chain_fuel. simpl.
      unfold mbind at 1, ST_bind at 1, get_elem at 1, mbind at 1, option_bind. rewrite Hx.
      unfold hit in Hxh. rewrite Hx in Hxh. rewrite Hxh, Hrun.
      by rewrite set_bucket_id.
    + rewrite Hr, <- app_assoc. done.
    + by rewrite Hr.
Qed.

(** ** The table as a finite map

    [slot] is where the entries of a key are kept; [table_rep h M] says that
    the chains of [h] hold exactly the entries of [M], whose keys pair the hash
    with the first [keyValueSize] bytes of the value, and that no lock is
    held. *)

Definition slot (h : HashTableInfo) (key : Z) : Z * Z :=
  (GetPartitionIndex key h, GetBucketIndex key h).

Definition key_of (h : HashTableInfo) (key : Z) (v : list Z) : Z * list Z :=
  (key, take (keyValueSize h) v).

#[local] Arguments key_of : simpl never.
#[local] Arguments slot : simpl never.

Record geometry (h : HashTableInfo) : Prop := {
  geo_slot key : in_u64 key -> is_Some (segBuckets h !! slot h key);
  geo_lock key : in_u64 key -> segLock h !! GetPartitionIndex key h = Some 0;
  geo_free : freeListLock h = 0;
  geo_key : Z.of_nat (keyValueSize h) <= valueSize h
}.

Record rep (h : HashTableInfo) (fl : list Z) (ch : Z * Z -> list Z)
    (M : gmap (Z * list Z) (list Z)) : Prop := {
  rep_geo : geometry h;
  rep_fl : chain (elements h) (freeHashElementList h) fl;
  rep_ch i o : segBuckets h !! i = Some o -> chain (elements h) o (ch i);
  rep_nil i : segBuckets h !! i = None -> ch i = [];
  rep_nd_fl : NoDup fl;
  rep_nd i : NoDup (ch i);
  rep_sep i e : e ∈ ch i -> e ∉ fl;
  rep_place i e el : e ∈ ch i -> elements h !! e = Some el -> i = slot h (hashKey el);
  rep_uniq i e1 e2 el1 el2 :
    e1 ∈ ch i -> e2 ∈ ch i -> elements h !! e1 = Some el1 -> elements h !! e2 = Some el2 ->
    key_of h (hashKey el1) (value el1) = key_of h (hashKey el2) (value el2) -> e1 = e2;
  rep_val k v : M !! k = Some v <->
    exists e el, e ∈ ch (slot h k.1) /\ elements h !! e = Some el /\
      key_of h (hashKey el) (value el) = k /\ value el = v;
  rep_free : freeNum h = Z.of_nat (length fl);
  rep_used : usedNum h = Z.of_nat (size M);
  rep_max : freeNum h + usedNum h = maxNum h
}.

Definition table_rep (h : HashTableInfo) (M : gmap (Z * list Z) (list Z)) : Prop :=
  exists fl ch, rep h fl ch M.

(** A search of the key's chain finds the map's entry. *)
Lemma rep_search_some h fl ch M key v e :
  rep h fl ch M -> first_hit h key v (ch (slot h key)) = Some e ->
  exists el, elements h !! e = Some el /\ e ∈ ch (slot h key) /\ hashKey el = key /\
    key_of h key (value el) = key_of h key v /\ M !! key_of h key v = Some (value el).
Proof.
  intros R (Hh & l1 & l2 & Hl & _)%first_hit_some.
  destruct (hit_inv _ _ _ _ Hh) as (el & He & Hk & Hv). exists el.
  assert (e ∈ ch (slot h key)) as Hin
    by (rewrite Hl, elem_of_app, elem_of_cons; tauto).
  unfold key_of at 1 2. rewrite Hv. split_and!; [done..|].
  apply (rep_val _ _ _ _ R). exists e, el. split_and!; try done.
  unfold key_of. by rewrite Hv, Hk.
Qed.

Lemma rep_search_none h fl ch M key v :
  rep h fl ch M -> first_hit h key v (ch (slot h key)) = None -> M !! key_of h key v = None.
Proof.
  intros R Hn. destruct (M !! _) as [w|] eqn:HM; [|done].
  apply (rep_val _ _ _ _ R) in HM as (e & el & Hin & He & Hk & _). simpl in Hin.
  pose proof (first_hit_none _ _ _ _ _ Hn Hin) as Hf.
  injection Hk as Hkey Hbytes. subst key.
  by rewrite (hit_intro h e el v He Hbytes) in Hf.
Qed.

Lemma rep_bucket h fl ch M key :
  rep h fl ch M -> in_u64 key ->
  exists o, segBuckets h !! slot h key = Some o /\ chain (elements h) o (ch (slot h key)) /\
    (length (ch (slot h key)) < chain_fuel h)%nat.
Proof.
  intros R Hk. destruct (geo_slot _ (rep_geo _ _ _ _ R) key Hk) as [o Ho].
  exists o. pose proof (rep_ch _ _ _ _ R _ _ Ho) as Hc. split_and!; [done..|].
  pose proof (chain_length _ _ _ Hc (rep_nd _ _ _ _ R _)). unfold chain_fuel. lia.
Qed.

(** [HashFindEntry] on the key's own partition. *)
Lemma HashFindEntry_run h fl ch M key v :
  rep h fl ch M -> in_u64 key ->
  HashFindEntry key v (GetPartitionIndex key h) h =
    Some (first_hit h key v (ch (slot h key)), h).
Proof.
  intros R Hk. destruct (rep_bucket _ _ _ _ _ R Hk) as (o & Ho & Hc & Hl).
  unfold HashFindEntry.
  unfold mbind, ST_bind, get_bucket, mbind, option_bind. fold (slot h key). rewrite Ho.
  by apply GetHashEntryFromBucket_chain.
Qed.

Lemma table_ext h1 h2 :
  maxNum h1 = maxNum h2 -> partitionNum h1 = partitionNum h2 -> valueSize h1 = valueSize h2 ->
  keyValueSize h1 = keyValueSize h2 -> partitionMask h1 = partitionMask h2 ->
  bucketMask h1 = bucketMask h2 -> partitionShift h1 = partitionShift h2 ->
  bucketShift h1 = bucketShift h2 -> hashSegmentSize h1 = hashSegmentSize h2 ->
  elements h1 = elements h2 -> freeHashElementList h1 = freeHashElementList h2 ->
  freeListLock h1 = freeListLock h2 -> freeNum h1 = freeNum h2 -> segBuckets h1 = segBuckets h2 ->
  segLock h1 = segLock h2 -> usedNum h1 = usedNum h2 -> h1 = h2.
Proof. destruct h1, h2. simpl. intros. by subst. Qed.

(** [HashGetFreeEntry]'s three outcomes as explicit states. *)
Lemma set_seglock_back h p : segLock h !! p = Some 0 -> set_seglock p 0 (set_seglock p 1 h) = h.
Proof.
  destruct h; simpl. intros H. unfold set_seglock; simpl.
  rewrite insert_insert_eq. by rewrite insert_id.
Qed.

Lemma lock_run h p : segLock h !! p = Some 0 -> HashLockPartition p h = Some (tt, set_seglock p 1 h).
Proof. intros H. unfold HashLockPartition, mbind, option_bind. by rewrite H. Qed.

Lemma release_run h p l :
  segLock h !! p = Some l -> HashLockPartitionRelease p h = Some (tt, set_seglock p 0 h).
Proof. intros H. unfold HashLockPartitionRelease, mbind, option_bind. by rewrite H. Qed.

Lemma unlock_run h p : segLock h !! p = Some 0 ->
  HashLockPartitionRelease p (set_seglock p 1 h) = Some (tt, h).
Proof.
  intros H. rewrite (release_run _ _ 1) by apply lookup_insert_eq. by rewrite set_seglock_back.
Qed.

Lemma get_bucket_run h i o : segBuckets h !! i = Some o -> get_bucket i h = Some (o, h).
Proof. intros H. unfold get_bucket, mbind, option_bind. by rewrite H. Qed.

Lemma put_bucket_run h i o o' :
  segBuckets h !! i = Some o -> put_bucket i o' h = Some (tt, set_bucket i o' h).
Proof. intros H. unfold put_bucket, mbind, option_bind. by rewrite H. Qed.

Lemma get_elem_run h e el : elements h !! e = Some el -> get_elem e h = Some (el, h).
Proof. intros H. unfold get_elem, mbind, option_bind. by rewrite H. Qed.

Lemma put_elem_run h e el el' :
  elements h !! e = Some el ->
  put_elem e el' h = Some (tt, set_elements (<[e := el']> (elements h)) h).
Proof. intros H. unfold put_elem, mbind, option_bind. by rewrite H. Qed.

Lemma set_link_run h e el l :
  elements h !! e = Some el ->
  set_link e l h =
    Some (tt, set_elements (<[e := mkEl l (hashKey el) (value el)]> (elements h)) h).
Proof.
  intros H. unfold set_link. rewrite (st_bind_some _ _ _ _ _ (get_elem_run _ _ _ H)).
  by eapply put_elem_run.
Qed.

(** One step of a monadic computation by an equation of its first command. *)
Ltac step L :=
  erewrite st_bind_some by (eapply L; first [done | eassumption | apply lookup_insert_eq]);
  cbv beta iota.

Lemma GetFromFreeList_empty h :
  freeListLock h = 0 -> freeHashElementList h = None -> GetFromFreeList h = Some (None, h).
Proof. destruct h; simpl. by intros -> ->. Qed.

Lemma GetFromFreeList_some h e el :
  freeListLock h = 0 -> freeHashElementList h = Some e -> elements h !! e = Some el ->
  GetFromFreeList h =
    Some (Some e, set_elements (<[e := mkEl None (hashKey el) (value el)]> (elements h))
                    (set_freelist (link el) (freeNum h - 1) h)).
Proof.
  intros Hl Hf He. unfold GetFromFreeList.
  erewrite st_bind_some by reflexivity. erewrite st_bind_some by reflexivity. simpl. rewrite Hf.
  erewrite st_bind_some.
  2: { cbv beta iota. step get_elem_run. erewrite st_bind_some by reflexivity.
    step set_link_run. erewrite st_bind_some by reflexivity. reflexivity. }
  destruct h; simpl in *. by subst.
Qed.

Lemma PutFreeList_run h e el :
  freeListLock h = 0 -> elements h !! e = Some el ->
  PutFreeList (Some e) h =
    Some (tt, set_elements (<[e := mkEl (freeHashElementList h) (hashKey el) (value el)]> (elements h))
                (set_freelist (Some e) (freeNum h + 1) h)).
Proof.
  intros Hl He. unfold PutFreeList. do 2 (erewrite st_bind_some by reflexivity).
  step set_link_run. do 2 (erewrite st_bind_some by reflexivity).
  destruct h; simpl in *. by subst.
Qed.

Lemma first_hit_lock h p l key v c :
  first_hit (set_seglock p l h) key v c = first_hit h key v c.
Proof. induction c as [|e c IH]; simpl; [done|]. by rewrite IH. Qed.

Lemma HashGetFreeEntry_find h fl ch M key v e :
  rep h fl ch M -> in_u64 key -> first_hit h key v (ch (slot h key)) = Some e ->
  HashGetFreeEntry key v h = Some ((Some e, HASH_FIND), h).
Proof.
  intros R Hk Hf. destruct (rep_bucket _ _ _ _ _ R Hk) as (o & Ho & Hc & Hl).
  pose proof (geo_lock _ (rep_geo _ _ _ _ R) _ Hk) as Hlk.
  unfold HashGetFreeEntry.
  rewrite (st_bind_some _ _ _ _ _ (lock_run _ _ Hlk)).
  fold (slot h key).
  step (get_bucket_run (set_seglock (GetPartitionIndex key h) 1 h)).
  step GetHashEntryFromBucket_chain.
  rewrite (first_hit_lock h), Hf.
  by rewrite (st_bind_some _ _ _ _ _ (unlock_run _ _ Hlk)).
Qed.

Lemma HashGetFreeEntry_full h fl ch M key v :
  rep h fl ch M -> in_u64 key -> first_hit h key v (ch (slot h key)) = None ->
  freeHashElementList h = None ->
  HashGetFreeEntry key v h = Some ((None, HASH_NULL), h).
Proof.
  intros R Hk Hf Hfree. destruct (rep_bucket _ _ _ _ _ R Hk) as (o & Ho & Hc & Hl).
  pose proof (geo_lock _ (rep_geo _ _ _ _ R) _ Hk) as Hlk.
  pose proof (geo_free _ (rep_geo _ _ _ _ R)) as Hfl.
  unfold HashGetFreeEntry.
  rewrite (st_bind_some _ _ _ _ _ (lock_run _ _ Hlk)).
  fold (slot h key).
  step (get_bucket_run (set_seglock (GetPartitionIndex key h) 1 h)).
  step GetHashEntryFromBucket_chain.
  rewrite (first_hit_lock h), Hf.
  step GetFromFreeList_empty.
  by rewrite (st_bind_some _ _ _ _ _ (unlock_run _ _ Hlk)).
Qed.

Definition inserted (h : HashTableInfo) (i : Z * Z) (o : option Z) (e : Z) (l : option Z)
    (el : HashElement) : HashTableInfo :=
  add_used 1 (set_bucket i (Some e) (set_elements (<[e := el]> (elements h))
    (set_freelist l (freeNum h - 1) h))).

Lemma HashGetFreeEntry_insert h fl ch M key v o e el :
  rep h fl ch M -> in_u64 key -> first_hit h key v (ch (slot h key)) = None ->
  freeHashElementList h = Some e -> elements h !! e = Some el ->
  segBuckets h !! slot h key = Some o ->
  HashGetFreeEntry key v h =
    Some ((Some e, HASH_INSERT),
          inserted h (slot h key) o e (link el) (mkEl o key (take (Z.to_nat (valueSize h)) v))).
Proof.
  intros R Hk Hf Hfree He Ho. destruct (rep_bucket _ _ _ _ _ R Hk) as (o' & Ho' & Hc & Hl).
  rewrite Ho in Ho'. simplify_eq.
  pose proof (geo_lock _ (rep_geo _ _ _ _ R) _ Hk) as Hlk.
  pose proof (geo_free _ (rep_geo _ _ _ _ R)) as Hfl.
  unfold HashGetFreeEntry.
  rewrite (st_bind_some _ _ _ _ _ (lock_run _ _ Hlk)).
  fold (slot h key).
  step (get_bucket_run (set_seglock (GetPartitionIndex key h) 1 h)).
  step GetHashEntryFromBucket_chain.
  rewrite (first_hit_lock h), Hf.
  step (GetFromFreeList_some (set_seglock (GetPartitionIndex key h) 1 h) e el).
  step get_bucket_run.
  step set_link_run.
  step put_bucket_run.
  erewrite st_bind_some by reflexivity.
  step get_elem_run.
  step put_elem_run.
  step release_run.
  apply st_ret_eq; [done|]. apply table_ext; simpl;
    first [done | by rewrite ?insert_insert_eq | by rewrite insert_insert_eq, insert_id].
Qed.

Lemma HashDeleteEntry_absent h fl ch M key v :
  rep h fl ch M -> in_u64 key -> first_hit h key v (ch (slot h key)) = None ->
  HashDeleteEntry key v h = Some (-1, h).
Proof.
  intros R Hk Hf. destruct (rep_bucket _ _ _ _ _ R Hk) as (o & Ho & Hc & Hl).
  pose proof (geo_lock _ (rep_geo _ _ _ _ R) _ Hk) as Hlk.
  unfold HashDeleteEntry. rewrite (st_bind_some _ _ _ _ _ (lock_run _ _ Hlk)).
  fold (slot h key). rewrite <- (first_hit_lock h (GetPartitionIndex key h) 1) in Hf.
  rewrite (st_bind_some _ _ _ _ _ (DeleteHashEntryFromBucket_none (slot h key) o key v
    (set_seglock (GetPartitionIndex key h) 1 h) _ Ho Hc (rep_nd _ _ _ _ R _) Hf)).
  by rewrite (st_bind_some _ _ _ _ _ (unlock_run _ _ Hlk)).
Qed.

Definition deleted (h : HashTableInfo) (i : Z * Z) (o : option Z) (m : gmap Z HashElement) (e : Z)
    (el : HashElement) : HashTableInfo :=
  set_freelist (Some e) (freeNum h + 1)
    (add_used (-1) (set_bucket i o
      (set_elements (<[e := mkEl (freeHashElementList h) (hashKey el) (value el)]> m) h))).

Lemma HashDeleteEntry_hit h fl ch M key v l1 e l2 :
  rep h fl ch M -> in_u64 key -> ch (slot h key) = l1 ++ e :: l2 ->
  first_hit h key v l1 = None -> hit h key v e = true ->
  exists o m el,
    HashDeleteEntry key v h = Some (0, deleted h (slot h key) o m e el) /\
    m !! e = Some el /\ chain m o (l1 ++ l2) /\ unlinked (elements h) m l1.
Proof.
  intros R Hk Hch Hf Hh. destruct (rep_bucket _ _ _ _ _ R Hk) as (o & Ho & Hc & Hl).
  pose proof (geo_lock _ (rep_geo _ _ _ _ R) _ Hk) as Hlk.
  pose proof (geo_free _ (rep_geo _ _ _ _ R)) as Hfl.
  pose proof (rep_nd _ _ _ _ R (slot h key)) as Hnd. rewrite Hch in Hc, Hnd.
  destruct (DeleteHashEntryFromBucket_hit (slot h key) o key v
    (set_seglock (GetPartitionIndex key h) 1 h) l1 e l2 Ho Hc Hnd)
    as (o' & m & Hrun & Hc' & Hu); [by rewrite first_hit_lock|done|].
  destruct (hit_inv _ _ _ _ Hh) as (el0 & He0 & _ & _).
  destruct (proj2 Hu e el0 He0) as (el & He & _ & _).
  exists o', m, el. split_and!; try done.
  unfold HashDeleteEntry. rewrite (st_bind_some _ _ _ _ _ (lock_run _ _ Hlk)).
  fold (slot h key). rewrite (st_bind_some _ _ _ _ _ Hrun).
  step release_run. step PutFreeList_run.
  apply st_ret_eq; [done|]. apply table_ext; simpl;
    first [done | by rewrite ?insert_insert_eq | by rewrite insert_insert_eq, insert_id].
Qed.

(** ** The operations keep the representation *)

Definition upd (ch : Z * Z -> list Z) (i : Z * Z) (l : list Z) (j : Z * Z) : list Z :=
  if decide (j = i) then l else ch j.

Lemma upd_eq ch i l : upd ch i l i = l.
Proof. unfold upd. by rewrite decide_True. Qed.

Lemma upd_ne ch i l j : j <> i -> upd ch i l j = ch j.
Proof. intros. unfold upd. by rewrite decide_False. Qed.

Lemma key_of_stored h key v :
  geometry h -> key_of h key (take (Z.to_nat (valueSize h)) v) = key_of h key v.
Proof.
  intros G. pose proof (geo_key _ G). unfold key_of. rewrite take_take. do 2 f_equal. lia.
Qed.

Lemma rep_not_chained h fl ch M e i : rep h fl ch M -> e ∈ fl -> e ∉ ch i.
Proof. intros R Hf Hc. by eapply rep_sep. Qed.

Lemma geometry_same h h' :
  geometry h -> segBuckets h' = segBuckets h -> segLock h' = segLock h ->
  partitionMask h' = partitionMask h -> partitionShift h' = partitionShift h ->
  hashSegmentSize h' = hashSegmentSize h -> freeListLock h' = freeListLock h ->
  keyValueSize h' = keyValueSize h -> valueSize h' = valueSize h -> geometry h'.
Proof.
  intros [G1 G2 G3 G4] E1 E2 E3 E4 E5 E6 E7 E8.
  unfold slot, GetPartitionIndex, GetBucketIndex in *.
  split; unfold slot, GetPartitionIndex, GetBucketIndex; intros;
    rewrite ?E1, ?E2, ?E3, ?E4, ?E5, ?E6, ?E7, ?E8; eauto.
Qed.

Lemma geometry_bucket h i o : geometry h -> geometry (set_bucket i o h).
Proof.
  intros [G1 G2 G3 G4]. split; try done. intros key Hk. simpl.
  destruct (G1 key Hk) as [o' Ho']. change (slot (set_bucket i o h) key) with (slot h key).
  destruct (decide (slot h key = i)) as [->|].
  - rewrite lookup_insert_eq. eauto.
  - rewrite lookup_insert_ne by done. eauto.
Qed.

Section insert.
  Context (h : HashTableInfo) (e : Z) (fl : list Z) (ch : Z * Z -> list Z)
    (M : gmap (Z * list Z) (list Z)) (key : Z) (v : list Z) (el : HashElement) (o : option Z).
  Hypothesis R : rep h (e :: fl) ch M.
  Hypothesis Hk : in_u64 key.
  Hypothesis Hnew : M !! key_of h key v = None.
  Hypothesis He : elements h !! e = Some el.
  Hypothesis Ho : segBuckets h !! slot h key = Some o.

Let st : list Z := take (Z.to_nat (valueSize h)) v.
Let h' : HashTableInfo := inserted h (slot h key) o e (link el) (mkEl o key st).
Let ch' : Z * Z -> list Z := upd ch (slot h key) (e :: ch (slot h key)).

Lemma ins_fresh i : e ∉ ch i.
Proof. eapply rep_not_chained; [exact R|]. rewrite elem_of_cons. by left. Qed.

Lemma ins_old x : x <> e -> elements h' !! x = elements h !! x.
Proof. intros. simpl. by rewrite lookup_insert_ne. Qed.

Lemma ins_new : elements h' !! e = Some (mkEl o key st).
Proof. simpl. apply lookup_insert_eq. Qed.

Lemma ins_stored : key_of h key st = key_of h key v.
Proof. apply key_of_stored, R. Qed.

Lemma ins_mem i x :
  x ∈ ch' i <-> (x = e /\ i = slot h key) \/ (x <> e /\ x ∈ ch i).
Proof.
  unfold ch', upd. pose proof (ins_fresh i).
  case_decide as Hi; [subst i; rewrite elem_of_cons|];
    destruct (decide (x = e)) as [->|]; tauto.
Qed.

Lemma ins_key x elx : elements h' !! x = Some elx -> x <> e -> elements h !! x = Some elx.
Proof. intros H1 H2. by rewrite ins_old in H1. Qed.

Lemma ins_chains i b : segBuckets h' !! i = Some b -> chain (elements h') b (ch' i).
Proof.
  simpl. destruct (decide (i = slot h key)) as [->|Hi].
  - rewrite lookup_insert_eq. intros [= <-]. unfold ch'. rewrite upd_eq.
    split; [done|]. eexists. split; [apply lookup_insert_eq|]. simpl.
    eapply hash_chain_frame; [|exact (rep_ch _ _ _ _ R _ _ Ho)].
    intros x Hx. rewrite lookup_insert_ne; [done|]. intros <-. by eapply ins_fresh.
  - rewrite lookup_insert_ne by done. intros Hb. unfold ch'. rewrite upd_ne by done.
    eapply hash_chain_frame; [|exact (rep_ch _ _ _ _ R _ _ Hb)].
    intros x Hx. rewrite lookup_insert_ne; [done|]. intros <-. by eapply ins_fresh.
Qed.

(** No chained entry has the new key. *)
Lemma ins_unseen i x elx :
  x ∈ ch i -> elements h !! x = Some elx ->
  key_of h (hashKey elx) (value elx) <> key_of h key v.
Proof.
  intros Hx Hel Heq. pose proof (rep_place _ _ _ _ R _ _ _ Hx Hel) as ->.
  assert (M !! key_of h (hashKey elx) (value elx) = Some (value elx)) as HM.
  { apply (rep_val _ _ _ _ R). exists x, elx. by split_and!. }
  rewrite Heq in HM. congruence.
Qed.

Lemma ins_val k w :
  <[key_of h key v := st]> M !! k = Some w <->
  exists x elx, x ∈ ch' (slot h' k.1) /\ elements h' !! x = Some elx /\
    key_of h' (hashKey elx) (value elx) = k /\ value elx = w.
Proof.
  change (slot h' k.1) with (slot h k.1). change (key_of h') with (key_of h).
  setoid_rewrite ins_mem. rewrite lookup_insert_Some, (rep_val _ _ _ _ R k w). split.
  - intros [[<- <-]|[Hne (x & elx & Hx & Hel & Hkx & Hv)]].
    + exists e, (mkEl o key st). rewrite ins_new. simpl. split_and!; [by left|done|apply ins_stored|done].
    + exists x, elx. assert (x <> e) by (intros ->; by eapply ins_fresh).
      rewrite ins_old by done. split_and!; try done. by right.
  - intros (x & elx & [[-> Hs]|[Hne Hx]] & Hel & Hkx & Hv).
    + rewrite ins_new in Hel. injection Hel as <-. subst k w. left. simpl. by rewrite ins_stored.
    + rewrite ins_old in Hel by done. right. split; [|by exists x, elx].
      rewrite <- Hkx. intros Heq. by eapply ins_unseen.
Qed.

Lemma rep_inserted : rep h' fl ch' (<[key_of h key v := st]> M).
Proof.
  pose proof (rep_nd_fl _ _ _ _ R) as [Hef Hnd]%NoDup_cons.
  pose proof (rep_fl _ _ _ _ R) as (Hhead & el' & He' & Hfl).
  rewrite He in He'. injection He' as <-.
  split.
  - apply (geometry_same (set_bucket (slot h key) (Some e) h)); [|done..].
    apply geometry_bucket, R.
  - simpl. eapply hash_chain_frame; [|exact Hfl]. intros x Hx. rewrite lookup_insert_ne; [done|].
    by intros <-.
  - apply ins_chains.
  - intros i. simpl. rewrite lookup_insert_None. intros [Hi Hne]. unfold ch'.
    rewrite upd_ne by done. by eapply rep_nil.
  - done.
  - intros i. unfold ch', upd. case_decide as Hi; [|by eapply rep_nd].
    apply NoDup_cons. split; [apply ins_fresh|by eapply rep_nd].
  - intros i x [[-> _]|[_ Hx]]%ins_mem; [done|].
    intros Hf. eapply rep_sep; [exact R|exact Hx|]. rewrite elem_of_cons. by right.
  - intros i x elx Hx Hel. change (slot h' (hashKey elx)) with (slot h (hashKey elx)).
    apply ins_mem in Hx as [[-> ->]|[Hne Hx]].
    + rewrite ins_new in Hel. by simplify_eq.
    + rewrite ins_old in Hel by done. by eapply rep_place.
  - intros i x1 x2 el1 el2 H1 H2 Hl1 Hl2 Heq. change (key_of h') with (key_of h) in Heq.
    apply ins_mem in H1 as [[-> Hi1]|[Hn1 H1]], H2 as [[-> Hi2]|[Hn2 H2]]; [done| | |].
    + rewrite ins_new in Hl1. rewrite ins_old in Hl2 by done. injection Hl1 as <-. simpl in Heq. rewrite ins_stored in Heq. exfalso. by eapply ins_unseen.
    + rewrite ins_new in Hl2. rewrite ins_old in Hl1 by done. injection Hl2 as <-. simpl in Heq. rewrite ins_stored in Heq. exfalso. by eapply ins_unseen.
    + rewrite ins_old in Hl1, Hl2 by done. by eapply (rep_uniq _ _ _ _ R i).
  - apply ins_val.
  - simpl. rewrite (rep_free _ _ _ _ R). simpl. lia.
  - simpl. rewrite (rep_used _ _ _ _ R), map_size_insert_None by done. lia.
  - simpl. pose proof (rep_max _ _ _ _ R). lia.
Qed.
End insert.

Section delete.
  Context (h : HashTableInfo) (e : Z) (fl : list Z) (ch : Z * Z -> list Z)
    (M : gmap (Z * list Z) (list Z)) (key : Z) (v : list Z) (l1 l2 : list Z)
    (o : option Z) (m : gmap Z HashElement) (el : HashElement).
  Hypothesis R : rep h fl ch M.
  Hypothesis Hk : in_u64 key.
  Hypothesis Hch : ch (slot h key) = l1 ++ e :: l2.
  Hypothesis Hh : hit h key v e = true.
  Hypothesis He : m !! e = Some el.
  Hypothesis Hc : chain m o (l1 ++ l2).
  Hypothesis Hu : unlinked (elements h) m l1.

Let h' : HashTableInfo := deleted h (slot h key) o m e el.
Let ch' : Z * Z -> list Z := upd ch (slot h key) (l1 ++ l2).

Lemma del_nodup : e ∉ l1 ++ l2 /\ NoDup (l1 ++ l2).
Proof.
  pose proof (rep_nd _ _ _ _ R (slot h key)) as Hnd. rewrite Hch in Hnd.
  rewrite <- Permutation_middle in Hnd. by apply NoDup_cons in Hnd.
Qed.

Lemma del_in_slot : e ∈ ch (slot h key).
Proof. rewrite Hch, elem_of_app, elem_of_cons. tauto. Qed.

Lemma del_data x elx :
  elements h' !! x = Some elx ->
  exists el0, elements h !! x = Some el0 /\ hashKey elx = hashKey el0 /\ value elx = value el0.
Proof.
  destruct Hu as [_ Hd].
  assert (forall y ely, m !! y = Some ely -> y ∈ ch (slot h key) \/ y ∉ l1 ->
    exists el0, elements h !! y = Some el0 /\ hashKey ely = hashKey el0 /\ value ely = value el0)
    as Hback.
  { intros y ely Hy Hor. assert (is_Some (elements h !! y)) as [el0 H0].
    { destruct Hor as [Hin|Hout].
      - destruct (rep_bucket _ _ _ _ _ R Hk) as (b & _ & Hcb & _).
        destruct (chain_elem _ _ _ _ Hcb Hin) as [? ?]. eauto.
      - rewrite <- (proj1 Hu y Hout). eauto. }
    destruct (Hd _ _ H0) as (el1 & H1 & H2 & H3). simplify_eq. eauto. }
  simpl. destruct (decide (x = e)) as [->|Hx].
  - rewrite lookup_insert_eq. intros [= <-]. simpl. apply (Hback e el He). left. apply del_in_slot.
  - rewrite lookup_insert_ne by done. intros Hm. apply (Hback x elx Hm).
    destruct (decide (x ∈ l1)); [|by right]. left. rewrite Hch, elem_of_app. by left.
Qed.

Lemma del_kept x elx :
  elements h !! x = Some elx ->
  exists el', elements h' !! x = Some el' /\ hashKey el' = hashKey elx /\ value el' = value elx.
Proof.
  intros Hx. destruct (proj2 Hu _ _ Hx) as (el' & H1 & H2 & H3). simpl.
  destruct (decide (x = e)) as [->|Hne].
  - rewrite lookup_insert_eq. simplify_eq. eauto.
  - rewrite lookup_insert_ne by done. eauto.
Qed.

Lemma del_mem i x : x ∈ ch' i <-> x ∈ ch i /\ x <> e.
Proof.
  unfold ch', upd. destruct del_nodup as [Hn _]. case_decide as Hi.
  - subst i. rewrite Hch, !elem_of_app, elem_of_cons. rewrite elem_of_app in Hn.
    destruct (decide (x = e)) as [->|]; tauto.
  - split; [|tauto]. intros Hx. split; [done|]. intros ->. apply Hi.
    destruct (hit_inv _ _ _ _ Hh) as (el0 & H0 & _ & _).
    rewrite (rep_place _ _ _ _ R _ _ _ Hx H0).
    by rewrite (rep_place _ _ _ _ R _ _ _ del_in_slot H0).
Qed.

(** Whoever is not on the shortened chain keeps its link. *)
Lemma del_frame x : x ∉ l1 -> x <> e -> elements h' !! x = elements h !! x.
Proof. intros H1 H2. simpl. rewrite lookup_insert_ne by done. by apply Hu. Qed.

Lemma del_chains i b : segBuckets h' !! i = Some b -> chain (elements h') b (ch' i).
Proof.
  simpl. destruct (decide (i = slot h key)) as [->|Hi].
  - rewrite lookup_insert_eq. intros [= <-]. unfold ch'. rewrite upd_eq.
    eapply hash_chain_frame; [|exact Hc]. intros x Hx. rewrite lookup_insert_ne; [done|].
    intros <-. by destruct del_nodup.
  - rewrite lookup_insert_ne by done. intros Hb. unfold ch'. rewrite upd_ne by done.
    eapply hash_chain_frame; [|exact (rep_ch _ _ _ _ R _ _ Hb)]. intros x Hx.
    destruct (chain_elem _ _ _ _ (rep_ch _ _ _ _ R _ _ Hb) Hx) as [elx Hel].
    assert (x ∉ ch (slot h key)) as Hout.
    { intros Hs. apply Hi. rewrite (rep_place _ _ _ _ R _ _ _ Hx Hel).
      by rewrite (rep_place _ _ _ _ R _ _ _ Hs Hel). }
    rewrite Hch, elem_of_app, elem_of_cons in Hout. apply del_frame; tauto.
Qed.

Lemma del_val k w :
  delete (key_of h key v) M !! k = Some w <->
  exists x elx, x ∈ ch' (slot h' k.1) /\ elements h' !! x = Some elx /\
    key_of h' (hashKey elx) (value elx) = k /\ value elx = w.
Proof.
  change (slot h' k.1) with (slot h k.1). change (key_of h') with (key_of h).
  setoid_rewrite del_mem. rewrite lookup_delete_Some, (rep_val _ _ _ _ R k w).
  destruct (hit_inv _ _ _ _ Hh) as (el0 & H0 & Hk0 & Hv0).
  assert (key_of h (hashKey el0) (value el0) = key_of h key v) as Hkey
    by (unfold key_of; by rewrite Hk0, Hv0).
  split.
  - intros (Hne & x & elx & Hx & Hel & Hkx & Hv).
    destruct (del_kept _ _ Hel) as (el' & H1 & H2 & H3). exists x, el'.
    rewrite H2, H3. split_and!; try done. intros ->. apply Hne. rewrite <- Hkey, <- Hkx.
    by replace el0 with elx by congruence.
  - intros (x & elx & [Hx Hne] & Hel & Hkx & Hv).
    destruct (del_data _ _ Hel) as (el' & H1 & H2 & H3). rewrite H2, H3 in Hkx. rewrite H3 in Hv.
    split; [|by exists x, el'].
    intros Heq. apply Hne. eapply (rep_uniq _ _ _ _ R (slot h k.1)); [done| |done|done|].
    + rewrite <- Heq. simpl. apply del_in_slot.
    + by rewrite Hkx, Hkey.
Qed.

Lemma rep_deleted : rep h' (e :: fl) ch' (delete (key_of h key v) M).
Proof.
  assert (e ∉ fl) as Hef by (eapply rep_sep; [exact R|apply del_in_slot]).
  destruct (hit_inv _ _ _ _ Hh) as (el0 & H0 & Hk0 & Hv0).
  assert (M !! key_of h key v = Some (value el0)) as HM.
  { apply (rep_val _ _ _ _ R). exists e, el0. split_and!; try done; [apply del_in_slot|].
    unfold key_of. by rewrite Hk0, Hv0. }
  assert (size M = S (size (delete (key_of h key v) M))) as Hsz.
  { rewrite <- (insert_delete_id M _ _ HM) at 1.
    rewrite map_size_insert_None by apply lookup_delete_eq. done. }
  split.
  - apply (geometry_same (set_bucket (slot h key) o h)); [|done..].
    apply geometry_bucket, R.
  - split; [done|]. eexists. split; [simpl; apply lookup_insert_eq|]. simpl.
    eapply hash_chain_frame; [|exact (rep_fl _ _ _ _ R)]. intros x Hx.
    assert (x <> e) by (by intros ->). change (elements h' !! x = elements h !! x).
    apply del_frame; [|done]. intros Hl. apply (rep_sep _ _ _ _ R (slot h key) x); [|done].
    rewrite Hch, elem_of_app. by left.
  - apply del_chains.
  - intros i. simpl. rewrite lookup_insert_None. intros [Hi Hne]. unfold ch'.
    rewrite upd_ne by done. by eapply rep_nil.
  - apply NoDup_cons. split; [done|apply R].
  - intros i. unfold ch', upd. case_decide; [apply del_nodup|apply R].
  - intros i x [Hx Hne]%del_mem [->|Hf]%elem_of_cons; [done|]. by eapply rep_sep.
  - intros i x elx [Hx Hne]%del_mem Hel. destruct (del_data _ _ Hel) as (el' & H1 & H2 & _).
    rewrite H2. change (i = slot h (hashKey el')). by eapply rep_place.
  - intros i x1 x2 el1 el2 [Hx1 _]%del_mem [Hx2 _]%del_mem Hl1 Hl2 Heq.
    destruct (del_data _ _ Hl1) as (a1 & A1 & A2 & A3), (del_data _ _ Hl2) as (b1 & B1 & B2 & B3).
    rewrite A2, A3, B2, B3 in Heq. by eapply (rep_uniq _ _ _ _ R i).
  - apply del_val.
  - simpl. rewrite (rep_free _ _ _ _ R). lia.
  - simpl. rewrite (rep_used _ _ _ _ R), Hsz. lia.
  - simpl. pose proof (rep_max _ _ _ _ R). lia.
Qed.
End delete.

(** ** The abstract table: a finite map of bounded size *)

Inductive hop := OpFind (key : Z) (v : list Z) | OpGet (key : Z) (v : list Z) | OpDel (key : Z) (v : list Z).
Inductive hres := RFind (r : option (list Z)) | RGet (flag : HashOp) (r : option (list Z)) | RDel (r : Z).

Definition op_key (op : hop) : Z :=
  match op with OpFind k _ | OpGet k _ | OpDel k _ => k end.

Definition entry_value (o : option Z) : ST HashTableInfo (option (list Z)) :=
  match o with
  | None => mret None
  | Some e => w ← GetEntryValue e; mret (Some w)
  end.

(** One call, with the value of the entry it returns. *)
Definition run_op (op : hop) : ST HashTableInfo hres := fun h =>
  match op with
  | OpFind k v => (o ← HashFindEntry k v (GetPartitionIndex k h); w ← entry_value o; mret (RFind w)) h
  | OpGet k v => (r ← HashGetFreeEntry k v; w ← entry_value (fst r); mret (RGet (snd r) w)) h
  | OpDel k v => (r ← HashDeleteEntry k v; mret (RDel r)) h
  end.

Definition spec_op (cap : Z) (vs n : nat) (op : hop) (M : gmap (Z * list Z) (list Z))
    : hres * gmap (Z * list Z) (list Z) :=
  match op with
  | OpFind k v => (RFind (M !! (k, take n v)), M)
  | OpGet k v =>
      match M !! (k, take n v) with
      | Some w => (RGet HASH_FIND (Some w), M)
      | None =>
          if Z.of_nat (size M) <? cap
          then (RGet HASH_INSERT (Some (take vs v)), <[(k, take n v) := take vs v]> M)
          else (RGet HASH_NULL None, M)
      end
  | OpDel k v =>
      match M !! (k, take n v) with
      | Some _ => (RDel 0, delete (k, take n v) M)
      | None => (RDel (-1), M)
      end
  end.

Fixpoint run_ops (ops : list hop) : ST HashTableInfo (list hres) :=
  match ops with
  | [] => mret []
  | op :: ops => r ← run_op op; rs ← run_ops ops; mret (r :: rs)
  end.

Fixpoint spec_ops (cap : Z) (vs n : nat) (ops : list hop) (M : gmap (Z * list Z) (list Z))
    : list hres * gmap (Z * list Z) (list Z) :=
  match ops with
  | [] => ([], M)
  | op :: ops =>
      let '(r, M) := spec_op cap vs n op M in
      let '(rs, M) := spec_ops cap vs n ops M in (r :: rs, M)
  end.

Lemma GetEntryValue_run h e el : elements h !! e = Some el -> GetEntryValue e h = Some (value el, h).
Proof.
  intros He. unfold GetEntryValue. by rewrite (st_bind_some _ _ _ _ _ (get_elem_run _ _ _ He)).
Qed.

Lemma entry_value_some h e el :
  elements h !! e = Some el -> entry_value (Some e) h = Some (Some (value el), h).
Proof.
  intros He. simpl. by rewrite (st_bind_some _ _ _ _ _ (GetEntryValue_run _ _ _ He)).
Qed.

(** The sizes never change. *)
Definition same_shape (h h' : HashTableInfo) : Prop :=
  maxNum h' = maxNum h /\ valueSize h' = valueSize h /\ keyValueSize h' = keyValueSize h.

Lemma same_shape_refl h : same_shape h h.
Proof. done. Qed.

Lemma run_op_get h M key v :
  table_rep h M -> in_u64 key ->
  exists h', run_op (OpGet key v) h =
    Some ((spec_op (maxNum h) (Z.to_nat (valueSize h)) (keyValueSize h) (OpGet key v) M).1, h') /\
    table_rep h' (spec_op (maxNum h) (Z.to_nat (valueSize h)) (keyValueSize h) (OpGet key v) M).2 /\
    same_shape h h'.
Proof.
  intros (fl & ch & R) Hk. simpl. fold (key_of h key v).
  destruct (first_hit h key v (ch (slot h key))) as [e|] eqn:Hf.
  - destruct (rep_search_some _ _ _ _ _ _ _ R Hf) as (el & He & _ & _ & _ & HM). rewrite HM.
    exists h. erewrite st_bind_some by by eapply HashGetFreeEntry_find. simpl fst.
    erewrite st_bind_some by by apply entry_value_some. split_and!; [done|by exists fl, ch|done].
  - pose proof (rep_search_none _ _ _ _ _ _ R Hf) as HM. rewrite HM.
    pose proof (rep_free _ _ _ _ R) as Hfr. pose proof (rep_used _ _ _ _ R) as Hus.
    pose proof (rep_max _ _ _ _ R) as Hmx.
    destruct fl as [|e fl].
    + exists h. rewrite (proj2 (Z.ltb_ge _ _)) by (simpl in *; lia).
      pose proof (rep_fl _ _ _ _ R) as Hnil. simpl in Hnil.
      erewrite st_bind_some by by eapply HashGetFreeEntry_full. by split_and!; try eexists _, ch.
    + rewrite (proj2 (Z.ltb_lt _ _)) by (simpl in *; lia).
      pose proof (rep_fl _ _ _ _ R) as (Hhead & el & He & _).
      destruct (rep_bucket _ _ _ _ _ R Hk) as (o & Ho & _ & _).
      eexists. erewrite st_bind_some by by eapply HashGetFreeEntry_insert. simpl fst.
      erewrite st_bind_some by (apply entry_value_some; simpl; apply lookup_insert_eq).
      split_and!; [done| |done]. eexists _, _. by eapply rep_inserted.
Qed.

Lemma run_op_del h M key v :
  table_rep h M -> in_u64 key ->
  exists h', run_op (OpDel key v) h =
    Some ((spec_op (maxNum h) (Z.to_nat (valueSize h)) (keyValueSize h) (OpDel key v) M).1, h') /\
    table_rep h' (spec_op (maxNum h) (Z.to_nat (valueSize h)) (keyValueSize h) (OpDel key v) M).2 /\
    same_shape h h'.
Proof.
  intros (fl & ch & R) Hk. simpl. fold (key_of h key v).
  destruct (first_hit h key v (ch (slot h key))) as [e|] eqn:Hf.
  - destruct (rep_search_some _ _ _ _ _ _ _ R Hf) as (el & He & _ & _ & _ & HM). rewrite HM.
    destruct (first_hit_some _ _ _ _ _ Hf) as (Hh & l1 & l2 & Hch & Hn).
    destruct (HashDeleteEntry_hit _ _ _ _ _ _ _ _ _ R Hk Hch Hn Hh) as (o & m & el' & Hrun & Hm & Hc & Hu).
    eexists. rewrite (st_bind_some _ _ _ _ _ Hrun). split_and!; [done| |done].
    eexists _, _. by eapply rep_deleted.
  - rewrite (rep_search_none _ _ _ _ _ _ R Hf). exists h.
    erewrite st_bind_some by by eapply HashDeleteEntry_absent.
    split_and!; [done|by exists fl, ch|done].
Qed.

Lemma run_op_find h M key v :
  table_rep h M -> in_u64 key ->
  run_op (OpFind key v) h = Some (RFind (M !! key_of h key v), h).
Proof.
  intros (fl & ch & R) Hk. simpl.
  erewrite st_bind_some by by eapply HashFindEntry_run.
  destruct (first_hit h key v (ch (slot h key))) as [e|] eqn:Hf.
  - destruct (rep_search_some _ _ _ _ _ _ _ R Hf) as (el & He & _ & _ & _ & HM). rewrite HM.
    by erewrite st_bind_some by by apply entry_value_some.
  - by rewrite (rep_search_none _ _ _ _ _ _ R Hf).
Qed.

Lemma run_op_spec h M op :
  table_rep h M -> in_u64 (op_key op) ->
  exists h', run_op op h =
    Some ((spec_op (maxNum h) (Z.to_nat (valueSize h)) (keyValueSize h) op M).1, h') /\
    table_rep h' (spec_op (maxNum h) (Z.to_nat (valueSize h)) (keyValueSize h) op M).2 /\
    same_shape h h'.
Proof.
  intros R Hk. destruct op as [key v|key v|key v]; simpl in Hk.
  - exists h. rewrite (run_op_find h M) by done. done.
  - by apply run_op_get.
  - by apply run_op_del.
Qed.

Lemma run_ops_spec ops h M :
  table_rep h M -> Forall (fun op => in_u64 (op_key op)) ops ->
  exists h', run_ops ops h =
    Some ((spec_ops (maxNum h) (Z.to_nat (valueSize h)) (keyValueSize h) ops M).1, h') /\
    table_rep h' (spec_ops (maxNum h) (Z.to_nat (valueSize h)) (keyValueSize h) ops M).2.
Proof.
  revert h M. induction ops as [|op ops IH]; intros h M R Hok; [by exists h|].
  apply Forall_cons in Hok as [Hk Hok].
  destruct (run_op_spec h M op R Hk) as (h1 & Hrun & R1 & Hs1 & Hs2 & Hs3).
  destruct (IH h1 _ R1 Hok) as (h2 & Hruns & R2). rewrite Hs1, Hs2, Hs3 in Hruns, R2.
  simpl. destruct (spec_op _ _ _ op M) as [r M1]. simpl in *.
  destruct (spec_ops _ _ _ ops M1) as [rs M2]. simpl in *.
  exists h2. rewrite (st_bind_some _ _ _ _ _ Hrun), (st_bind_some _ _ _ _ _ Hruns). done.
Qed.

(** ** Creation *)

Lemma lookup_const_map `{Countable K} {A} (l : list K) (c : A) (k : K) :
  (list_to_map ((fun i => (i, c)) <$> l) : gmap K A) !! k = if decide (k ∈ l) then Some c else None.
Proof.
  induction l as [|x l IH].
  - rewrite decide_False by apply not_elem_of_nil. apply lookup_empty.
  - rewrite fmap_cons, list_to_map_cons. destruct (decide (k = x)) as [->|Hne].
    + rewrite lookup_insert_eq, decide_True; [done|]. rewrite elem_of_cons. by left.
    + rewrite lookup_insert_ne, IH by done. repeat case_decide; try done;
        rewrite elem_of_cons in *; tauto.
Qed.

Lemma elem_of_zrange n x : x ∈ zrange n <-> 0 <= x < n.
Proof.
  unfold zrange. rewrite list_elem_of_fmap. split.
  - intros (k & -> & Hk%elem_of_seq). lia.
  - intros Hx. exists (Z.to_nat x). rewrite elem_of_seq. lia.
Qed.

Lemma init_segBuckets_lookup partNum maxNum vs len p b :
  init_segBuckets partNum maxNum vs len !! (p, b) =
    if decide ((0 <= p < partNum /\ 0 <= b < HASH_SEGMENT_SIZE) /\ bucket_addr partNum maxNum vs (p, b) + sizeof_pointer <= len)
    then Some None else None.
Proof.
  unfold init_segBuckets. rewrite lookup_const_map.
  assert ((p, b) ∈ (p ← zrange partNum; b ← zrange HASH_SEGMENT_SIZE; [(p, b)]) <->
          0 <= p < partNum /\ 0 <= b < HASH_SEGMENT_SIZE) as Hiff.
  { rewrite list_elem_of_bind. split.
    - intros (x & Hx & Hp). apply list_elem_of_bind in Hx as (y & Hy & Hb).
      apply list_elem_of_singleton in Hy. simplify_eq. by rewrite elem_of_zrange in Hp, Hb.
    - intros [Hp Hb]. exists p. rewrite list_elem_of_bind, elem_of_zrange. split; [|done].
      exists b. by rewrite list_elem_of_singleton, elem_of_zrange. }
  destruct (decide _) as [H1|H1]; rewrite list_elem_of_filter, Hiff in H1; case_decide; tauto.
Qed.

(** A cell of the layout is in an allocation that holds the layout. *)
Lemma bucket_addr_fits partNum maxNum vs len p b : layout_end partNum maxNum vs <= len ->
  0 <= p < partNum -> 0 <= b < HASH_SEGMENT_SIZE -> bucket_addr partNum maxNum vs (p, b) + sizeof_pointer <= len.
Proof. unfold layout_end, bucket_addr, HASH_SEGMENT_SIZE, sizeof_pointer. simpl. lia. Qed.

Lemma segments_fit partNum maxNum vs len : 0 <= partNum -> layout_end partNum maxNum vs <= len -> segments_end partNum maxNum vs <= len.
Proof. unfold layout_end, HASH_SEGMENT_SIZE, sizeof_pointer. lia. Qed.

Lemma elem_addr_inj vs i j : 0 <= vs -> elem_addr vs i = elem_addr vs j -> i = j.
Proof.
  unfold elem_addr, elem_size, HASH_ELEMENT_SIZE. intros Hv He.
  assert (Z.of_nat i * (vs + 16) = Z.of_nat j * (vs + 16)) as Hm by lia.
  apply Z.mul_cancel_r in Hm; lia.
Qed.

Lemma init_elements_lookup vs i n m k :
  0 <= vs -> (i <= k <= i + n)%nat ->
  exists el, init_elements vs i n m !! elem_addr vs k = Some el /\
    link el = (if decide (k = i + n)%nat then None else Some (elem_addr vs (S k))).
Proof.
  intros Hv. revert i. induction n as [|n IH]; intros i Hk; simpl.
  - assert (k = i) as -> by lia. rewrite lookup_insert_eq. eexists. split; [done|].
    by rewrite decide_True by lia.
  - destruct (decide (k = i)) as [->|Hne].
    + rewrite lookup_insert_eq. eexists. split; [done|]. by rewrite decide_False by lia.
    + rewrite lookup_insert_ne.
      * destruct (IH (S i)) as (el & H1 & H2); [lia|]. exists el. split; [done|].
        rewrite H2. repeat case_decide; done || lia.
      * intros Heq. by apply elem_addr_inj in Heq.
Qed.

Lemma init_elements_chain vs n d i :
  0 <= vs -> (i + d = n)%nat ->
  chain (init_elements vs 0 n ∅) (Some (elem_addr vs i)) (elem_addr vs <$> seq i (S d)).
Proof.
  intros Hv. revert i. induction d as [|d IH]; intros i Hi; rewrite <- cons_seq, fmap_cons;
    (split; [done|]); destruct (init_elements_lookup vs 0 n ∅ i Hv) as (el & H1 & H2); try lia;
    exists el; (split; [done|]); rewrite H2.
  - by rewrite decide_True by lia.
  - rewrite decide_False by lia. apply IH. lia.
Qed.

Lemma partition_mask b :
  1 <= b <= 31 ->
  u64 (Z.lnot (u64 (Z.shiftl 1 (64 - b) - 1))) = 2 ^ 64 - 2 ^ (64 - b) /\
  Z.shiftr (2 ^ 64 - 2 ^ (64 - b)) (64 - b) = Z.ones b /\
  u64 (Z.lnot (2 ^ 64 - 2 ^ (64 - b))) mod HASH_SEGMENT_SIZE = Z.ones 5.
Proof.
  intros Hb. rewrite Z.shiftl_1_l.
  assert (2 ^ 33 <= 2 ^ (64 - b)) by (apply Z.pow_le_mono_r; lia).
  assert (2 ^ (64 - b) <= 2 ^ 63) by (apply Z.pow_le_mono_r; lia).
  assert (2 ^ 64 = 2 ^ b * 2 ^ (64 - b)) as Hs by (rewrite <- Z.pow_add_r by lia; f_equal; lia).
  assert (2 ^ (64 - b) = 2 ^ (64 - b - 5) * 32) as H5.
  { change 32 with (2 ^ 5). rewrite <- Z.pow_add_r by lia. f_equal. lia. }
  split_and!.
  - rewrite (u64_small (2 ^ (64 - b) - 1)) by (unfold in_u64; lia).
    replace (Z.lnot (2 ^ (64 - b) - 1)) with (2 ^ 64 - 2 ^ (64 - b) + (-1) * 2 ^ 64)
      by (unfold Z.lnot; lia).
    unfold u64. rewrite Z_mod_plus_full. apply Z.mod_small. lia.
  - rewrite Z.shiftr_div_pow2 by lia. rewrite Z.ones_equiv, Hs.
    replace (2 ^ b * 2 ^ (64 - b) - 2 ^ (64 - b)) with ((2 ^ b - 1) * 2 ^ (64 - b)) by lia.
    rewrite Z.div_mul; lia.
  - replace (Z.lnot (2 ^ 64 - 2 ^ (64 - b))) with (2 ^ (64 - b) - 1 + (-1) * 2 ^ 64)
      by (unfold Z.lnot; lia).
    unfold u64. rewrite Z_mod_plus_full, (Z.mod_small _ (2 ^ 64)) by lia.
    rewrite H5. unfold HASH_SEGMENT_SIZE.
    replace (2 ^ (64 - b - 5) * 32 - 1) with (31 + (2 ^ (64 - b - 5) - 1) * 32) by lia.
    by rewrite Z_mod_plus_full.
Qed.

(** A table over [2^b] partitions, aligned from [partNum]. *)
Lemma HashTableCreate_run partNum maxSize vs n nl b :
  1 <= maxSize <= 2 ^ 31 -> 1 <= b <= 31 -> getAlignNum partNum = 2 ^ b ->
  segments_end partNum maxSize vs <= hashtableLen partNum maxSize vs nl ->
  exists h, HashTableCreate partNum maxSize vs n nl = Some h /\
    partitionNum h = partNum /\ maxNum h = maxSize /\ valueSize h = vs /\ keyValueSize h = n /\
    (forall key, slot h key = (key mod 2 ^ b, key mod 32)) /\
    elements h = init_elements vs 0 (Z.to_nat (maxSize - 1)) ∅ /\
    freeHashElementList h = Some (elem_addr vs 0) /\ freeListLock h = 0 /\ freeNum h = maxSize /\
    segBuckets h = init_segBuckets partNum maxSize vs (hashtableLen partNum maxSize vs nl) /\ segLock h = init_segLock partNum /\ usedNum h = 0.
Proof.
  intros Hm Hb Ha Hlen. destruct (getAlignNum_spec maxSize Hm) as (bm & Hbm & Hpm & _).
  assert (forall c, 0 <= c <= 31 -> getShiftNum (2 ^ c) = Some c) as Hsh
    by (intros c Hc; unfold getShiftNum; by rewrite getShiftNum_loop_pow2 by lia).
  unfold HashTableCreate. rewrite Hpm, Ha.
  destruct (partition_mask b Hb) as (M1 & M2 & M3).
  unfold mbind, option_bind. rewrite !Hsh by lia.
  destruct (Z.leb_spec HASH_BITS (HASH_BITS - b)); [lia|]. rewrite (proj2 (Z.ltb_ge _ _)) by done.
  eexists. split; [done|]. split_and!; try done.
  intros key. unfold slot, GetPartitionIndex, GetBucketIndex. simpl. unfold HASH_BITS.
  rewrite M1, M2, M3, !Z.land_ones by lia. done.
Qed.

Lemma getAlignNum_pow2_id b : 1 <= b <= 31 -> getAlignNum (2 ^ b) = 2 ^ b.
Proof.
  intros Hb. assert (2 ^ 1 <= 2 ^ b) by (apply Z.pow_le_mono_r; lia).
  assert (2 ^ b <= 2 ^ 31) by (apply Z.pow_le_mono_r; lia).
  rewrite getAlignNum_pow2 by lia. f_equal. replace (2 ^ b - 1) with (Z.pred (2 ^ b)) by lia.
  rewrite Z.log2_pred_pow2; lia.
Qed.

Lemma HashTableCreate_rep partNum maxSize vs n nl b :
  1 <= maxSize <= 2 ^ 31 -> 1 <= b <= 31 -> partNum = 2 ^ b -> Z.of_nat n <= vs ->
  layout_end partNum maxSize vs <= hashtableLen partNum maxSize vs nl ->
  exists h, HashTableCreate partNum maxSize vs n nl = Some h /\ table_rep h ∅ /\
    maxNum h = maxSize /\ valueSize h = vs /\ keyValueSize h = n.
Proof.
  intros Hm Hb -> Hn Hfit.
  pose proof (getAlignNum_pow2_id b Hb) as Ha.
  assert (0 < 2 ^ b) by (apply Z.pow_pos_nonneg; lia).
  pose proof (segments_fit (2 ^ b) maxSize vs _ ltac:(lia) Hfit) as Hseg.
  destruct (HashTableCreate_run (2 ^ b) maxSize vs n nl b Hm Hb Ha Hseg)
    as (h & Hrun & _ & H1 & H2 & H3 & Hslot & He & Hf & Hl & Hnum & Hsb & Hsl & Hu).
  exists h. split_and!; try done.
  exists (elem_addr vs <$> seq 0 (Z.to_nat maxSize)), (fun _ => []). split; try done.
  - split.
    + intros key Hk. rewrite Hslot, Hsb, init_segBuckets_lookup.
      pose proof (Z.mod_pos_bound key (2 ^ b)). pose proof (Z.mod_pos_bound key 32).
      assert (0 <= key mod 2 ^ b < 2 ^ b /\ 0 <= key mod 32 < HASH_SEGMENT_SIZE) as [? ?] by (unfold HASH_SEGMENT_SIZE; lia).
      rewrite decide_True by (split; [done|by apply bucket_addr_fits]). eauto.
    + intros key Hk. change (GetPartitionIndex key h) with (slot h key).1.
      rewrite Hslot, Hsl. unfold init_segLock. rewrite lookup_const_map.
      pose proof (Z.mod_pos_bound key (2 ^ b)). simpl.
      rewrite decide_True; [done|]. apply elem_of_zrange. lia.
    + done.
    + by rewrite H2, H3.
  - rewrite He, Hf.
    replace (Z.to_nat maxSize) with (S (Z.to_nat (maxSize - 1)))%nat by lia.
    apply init_elements_chain; lia.
  - intros [p c] o. rewrite Hsb, init_segBuckets_lookup. case_decide; [|done]. by intros [= <-].
  - apply NoDup_fmap_2_strong; [|apply NoDup_seq].
    intros i j _ _ Heq. apply elem_addr_inj in Heq; [done|lia].
  - intros. apply NoDup_nil_2.
  - intros i e. by rewrite elem_of_nil.
  - intros i e el. by rewrite elem_of_nil.
  - intros i e1 e2 el1 el2. by rewrite elem_of_nil.
  - intros k v. rewrite lookup_empty. split; [done|].
    intros (e & el & Hin & _). by apply elem_of_nil in Hin.
  - rewrite Hnum, length_fmap, length_seq. lia.
  - rewrite Hnum, Hu, H1. lia.
Qed.

(** C38: a table over a power-of-two number of at least two partitions, whose layout
    fits the bytes allocated for it and its name, behaves, for
    every sequence of finds, find-or-insert and deletes, as a finite map of at
    most [maxSize] entries keyed by the hash and the key bytes: no call follows
    a bad pointer, every call returns what the map gives (found, inserted,
    table full, deleted, absent), and when the sequence ends the free and used
    counters add up and every lock is released. *)
Theorem hashtable_refines_map partNum maxSize vs n nl b ops :
  1 <= maxSize <= 2 ^ 31 -> 1 <= b <= 31 -> partNum = 2 ^ b -> Z.of_nat n <= vs ->
  layout_end partNum maxSize vs <= hashtableLen partNum maxSize vs nl ->
  Forall (fun op => in_u64 (op_key op)) ops ->
  exists h h', HashTableCreate partNum maxSize vs n nl = Some h /\
    run_ops ops h = Some ((spec_ops maxSize (Z.to_nat vs) n ops ∅).1, h') /\
    table_rep h' (spec_ops maxSize (Z.to_nat vs) n ops ∅).2.
Proof.
  intros Hm Hb Hp Hn Hfit Hops.
  destruct (HashTableCreate_rep _ _ _ _ _ _ Hm Hb Hp Hn Hfit) as (h & Hc & R & <- & <- & <-).
  destruct (run_ops_spec ops h ∅ R Hops) as (h' & Hrun & R'). by exists h, h'.
Qed.

Lemma hashtable_refines_map_witness :
  let ops := [OpGet 5 [5; 1; 9]; OpGet 5 [5; 1; 7]; OpGet 37 [3; 7; 0]; OpGet 1 [1; 1; 1];
              OpDel 5 [5; 1; 0]; OpFind 37 [3; 7; 0]; OpFind 5 [5; 1; 0]] in
  exists h h', HashTableCreate 4 2 112 2 9 = Some h /\
    run_ops ops h =
      Some ([RGet HASH_INSERT (Some [5; 1; 9]); RGet HASH_FIND (Some [5; 1; 9]);
             RGet HASH_INSERT (Some [3; 7; 0]); RGet HASH_NULL None; RDel 0;
             RFind (Some [3; 7; 0]); RFind None], h') /\
    table_rep h' (spec_ops 2 112 2 ops ∅).2.
Proof.
  intros ops.
  refine (hashtable_refines_map 4 2 112 2 9 2 ops _ _ eq_refl _ _ _); [lia|lia|lia|by vm_compute|].
  repeat (apply Forall_cons; split; [unfold in_u64; simpl; lia|]). by apply Forall_nil.
Defined.

(** [GetHashTableSize] counts an area of elements for each partition where
    [InitHashTable] lays out 32 bucket pointers: with few small elements the bucket
    arrays run past the allocation, and the insertion of a key of the last bucket is
    outside it. *)
Theorem bucket_arrays_overrun partNum maxSize vs n nl b v :
  1 <= maxSize <= 2 ^ 31 -> 1 <= b <= 31 -> partNum = 2 ^ b ->
  segments_end partNum maxSize vs <= hashtableLen partNum maxSize vs nl < layout_end partNum maxSize vs ->
  exists h, HashTableCreate partNum maxSize vs n nl = Some h /\ HashGetFreeEntry (2 ^ 64 - 1) v h = None.
Proof.
  intros Hm Hb -> [Hs He]. pose proof (getAlignNum_pow2_id b Hb) as Ha.
  destruct (HashTableCreate_run (2 ^ b) maxSize vs n nl b Hm Hb Ha Hs)
    as (h & Hrun & _ & _ & _ & _ & Hslot & _ & _ & _ & _ & Hsb & Hsl & _).
  exists h. split; [done|]. assert (slot h (2 ^ 64 - 1) = (2 ^ b - 1, 31)) as Hi.
  { rewrite Hslot. f_equal. replace (2 ^ 64 - 1) with (2 ^ b - 1 + (2 ^ (64 - b) - 1) * 2 ^ b).
    - rewrite Z_mod_plus_full, Z.mod_small; [done|]. pose proof (Z.pow_pos_nonneg 2 b). lia.
    - assert (2 ^ 64 = 2 ^ (64 - b) * 2 ^ b) as Hx by (rewrite <- Z.pow_add_r by lia; f_equal; lia). lia. }
  unfold HashGetFreeEntry. unfold slot in Hi. injection Hi as -> ->.
  unfold mbind at 1, ST_bind at 1. destruct (HashLockPartition (2 ^ b - 1) h) as [[u h1]|] eqn:El; [|done].
  assert (segBuckets h1 = segBuckets h) as Hb1.
  { unfold HashLockPartition, mbind, option_bind in El. destruct (segLock h !! (2 ^ b - 1)); [by injection El as _ <-|done]. }
  unfold mbind at 1, ST_bind at 1, get_bucket. rewrite Hb1, Hsb, init_segBuckets_lookup, decide_False; [done|].
  intros [_ Hfit]. unfold bucket_addr, layout_end, HASH_SEGMENT_SIZE, sizeof_pointer in *. simpl in Hfit. lia.
Qed.

Lemma bucket_arrays_overrun_witness :
  exists h, HashTableCreate 4 2 3 2 9 = Some h /\ HashGetFreeEntry (2 ^ 64 - 1) [1; 2; 3] h = None.
Proof. apply (bucket_arrays_overrun 4 2 3 2 9 2 [1; 2; 3]); [lia|lia|done|]. split; by vm_compute. Defined.

(** When the number of partitions is not a power of two the partition index
    runs past the segment array: the key [align - 1] indexes a segment that was
    never laid out, so its insertion stores through an unmapped pointer. *)
Theorem partition_index_overruns partNum maxSize vs n nl v :
  1 <= maxSize <= 2 ^ 31 -> 2 <= partNum <= 2 ^ 31 -> getAlignNum partNum <> partNum ->
  segments_end partNum maxSize vs <= hashtableLen partNum maxSize vs nl ->
  exists h, HashTableCreate partNum maxSize vs n nl = Some h /\
    GetPartitionIndex (getAlignNum partNum - 1) h >= partitionNum h /\
    HashGetFreeEntry (getAlignNum partNum - 1) v h = None.
Proof.
  intros Hm Hp Hne Hfit. destruct (getAlignNum_spec partNum) as (b & Hb & Ha & Hle & _); [lia|].
  assert (1 <= b).
  { destruct (decide (b = 0)) as [->|]; [|lia]. rewrite Ha in Hle. lia. }
  destruct (HashTableCreate_run partNum maxSize vs n nl b Hm ltac:(lia) Ha Hfit)
    as (h & Hrun & H0 & H1 & H2 & H3 & Hslot & He & Hf & Hl & Hnum & Hsb & Hsl & Hu).
  assert (GetPartitionIndex (getAlignNum partNum - 1) h = getAlignNum partNum - 1) as Hi.
  { change (GetPartitionIndex (getAlignNum partNum - 1) h)
      with (slot h (getAlignNum partNum - 1)).1.
    rewrite Hslot, Ha. simpl. apply Z.mod_small. lia. }
  exists h. split_and!; [done|rewrite Hi, H0; lia|].
  unfold HashGetFreeEntry. rewrite Hi.
  assert (segLock h !! (getAlignNum partNum - 1) = None) as Hnone.
  { rewrite Hsl. unfold init_segLock. rewrite lookup_const_map, decide_False; [done|].
    rewrite elem_of_zrange. lia. }
  unfold mbind at 1, ST_bind at 1, HashLockPartition, mbind, option_bind. by rewrite Hnone.
Qed.

Lemma partition_index_overruns_witness :
  exists h, HashTableCreate 3 8 24 20 15 = Some h /\
    GetPartitionIndex (getAlignNum 3 - 1) h >= partitionNum h /\
    HashGetFreeEntry (getAlignNum 3 - 1) [] h = None.
Proof. apply partition_index_overruns; [lia|lia|by vm_compute|by vm_compute]. Defined.

(** Every structure [InitHashTable] places lies inside the block
    HashTableCreate allocates: the end of the layout is within
    GetHashTableSize, provided the size does not overflow an int and the table
    is large enough for one bucket array (256 bytes) to fit in an element
    area. *)
Theorem layout_within_allocation partNum maxSize vs :
  1 <= partNum <= 2 ^ 31 -> 1 <= maxSize <= 2 ^ 31 -> 0 <= vs ->
  256 <= getAlignNum maxSize * elem_size vs ->
  getAlignNum maxSize * elem_size vs * (getAlignNum partNum + 1) +
    16 * getAlignNum partNum + 160 < 2 ^ 31 ->
  layout_end partNum maxSize vs <= GetHashTableSize partNum maxSize vs.
Proof.
  unfold GetHashTableSize, layout_end, segments_end. intros Hp Hm Hv Hbig Hfit.
  destruct (getAlignNum_spec partNum Hp) as (b & _ & _ & Hp1 & _).
  destruct (getAlignNum_spec maxSize Hm) as (b' & _ & _ & Hm1 & _).
  unfold elem_size in *.
  set (E := getAlignNum maxSize * (vs + HASH_ELEMENT_SIZE)) in *.
  set (P := getAlignNum partNum) in *.
  assert (maxSize * (vs + HASH_ELEMENT_SIZE) <= E)
    by (unfold E, HASH_ELEMENT_SIZE; apply Z.mul_le_mono_nonneg_r; lia).
  assert (E * (P + 1) = E + P * E) by lia.
  assert (partNum * 256 <= P * E) by (apply Z.mul_le_mono_nonneg; lia).
  assert (E <= E * (P + 1)) by nia.
  unfold sizeof_HashSegment, sizeof_HashTableInfo, HASH_SEGMENT_SIZE, sizeof_pointer in *.
  rewrite (i32_small E) by (unfold in_i32; lia).
  rewrite (i32_small (E + P * (16 + E))) by (unfold in_i32; lia).
  rewrite i32_small by (unfold in_i32; lia). lia.
Qed.

Lemma layout_within_allocation_witness :
  layout_end 4 10000 24 <= GetHashTableSize 4 10000 24.
Proof. apply layout_within_allocation; by vm_compute. Defined.
