(* ===== verification/Locks.v ===== *)
(** * Spin locks, read-write locks and the table of held locks

    Models [src/src/util/ipc/lock]: [spinlock.c] (the bounded busy wait),
    [rwlock.c] (the wrapper that records mode and reader count) and
    [locallock.c] (the per-thread table of eight held locks that makes the
    read-write locks re-entrant). The pthread read-write lock is a parameter: a
    class of operations with the behaviour POSIX documents. *)

From S2P Require Import Prelude.

(** ** Spin lock: spinlock.c *)

Section spin.
  (** [SPIN_DELAY_MAX], 10000 in the code. *)
  Context (SPIN_DELAY_MAX : Z).
  (** The lock word as the [n]-th attempt meets it: at the plain read and at
      the exchange; other workers may change it in between. *)
  Context (word : nat -> Z * Z).

(** [TAS_SPIN]: no exchange when the plain read already sees the lock taken. *)
Definition TAS_SPIN (n : nat) : bool :=
  let (seen, old) := word n in
  if seen =? 0 then negb (old =? 0) else true.

(** Returns the delay count and whether the exchange took the lock. *)
Fixpoint SpinLockAquire_loop (fuel n : nat) (delays cur_delays : Z) : option (Z * bool) :=
  match fuel with
  | O => None
  | S fuel =>
      if TAS_SPIN n then
        let cur_delays := cur_delays + 1 in
        if SPIN_DELAY_MAX <? cur_delays then
          let delays := delays + 1 in
          if SPIN_DELAY_MAX <? delays then Some (delays, false)
          else SpinLockAquire_loop fuel (S n) delays 0
        else SpinLockAquire_loop fuel (S n) delays cur_delays
      else Some (delays, true)
  end.

(** The wait gives up after [(SPIN_DELAY_MAX + 1)^2] busy attempts. *)
Definition spin_bound : nat := Z.to_nat ((SPIN_DELAY_MAX + 1) * (SPIN_DELAY_MAX + 1)).

Definition SpinLockAquire : option (Z * bool) := SpinLockAquire_loop (S spin_bound) 0 0 0.
End spin.

(** ** The pthread read-write lock

    [None] of a locking call means that the caller blocks. *)

Definition EBUSY : Z := 16.
Definition EAGAIN : Z := 11.

Class PthreadRW (P : Type) := {
  pthread_rwlock_init : P;
  pthread_rwlock_tryrdlock : P -> Z * P;
  pthread_rwlock_trywrlock : P -> Z * P;
  pthread_rwlock_rdlock : P -> option (Z * P);
  pthread_rwlock_wrlock : P -> option (Z * P);
  pthread_rwlock_unlock : P -> Z * P;
  rw_readers : P -> nat;
  rw_writer : P -> bool
}.

Definition rw_free `{PthreadRW P} (p : P) : Prop := rw_readers p = O /\ rw_writer p = false.

(** The behaviour POSIX documents, without reader limits and with no writer
    waiting. *)
Class PthreadRWLaws (P : Type) `{PthreadRW P} := {
  init_free : rw_free pthread_rwlock_init;
  rdlock_ok p : rw_writer p = false ->
    exists p', pthread_rwlock_rdlock p = Some (0, p') /\ rw_readers p' = S (rw_readers p) /\
      rw_writer p' = false;
  rdlock_block p : rw_writer p = true -> pthread_rwlock_rdlock p = None;
  wrlock_ok p : rw_free p ->
    exists p', pthread_rwlock_wrlock p = Some (0, p') /\ rw_readers p' = O /\ rw_writer p' = true;
  wrlock_block p : ~ rw_free p -> pthread_rwlock_wrlock p = None;
  tryrdlock_ok p : rw_writer p = false ->
    exists p', pthread_rwlock_tryrdlock p = (0, p') /\ rw_readers p' = S (rw_readers p) /\
      rw_writer p' = false;
  tryrdlock_busy p : rw_writer p = true -> pthread_rwlock_tryrdlock p = (EBUSY, p);
  trywrlock_ok p : rw_free p ->
    exists p', pthread_rwlock_trywrlock p = (0, p') /\ rw_readers p' = O /\ rw_writer p' = true;
  trywrlock_busy p : ~ rw_free p -> pthread_rwlock_trywrlock p = (EBUSY, p);
  unlock_writer p : rw_writer p = true ->
    exists p', pthread_rwlock_unlock p = (0, p') /\ rw_free p';
  unlock_reader p n : rw_writer p = false -> rw_readers p = S n ->
    exists p', pthread_rwlock_unlock p = (0, p') /\ rw_readers p' = n /\ rw_writer p' = false
}.

(** A lock as a reader count and a writer flag. *)
#[export] Instance simple_rw : PthreadRW (nat * bool) := {
  pthread_rwlock_init := (O, false);
  pthread_rwlock_tryrdlock p := if p.2 then (EBUSY, p) else (0, (S p.1, false));
  pthread_rwlock_trywrlock p :=
    if p.2 || negb (Nat.eqb p.1 0) then (EBUSY, p) else (0, (O, true));
  pthread_rwlock_rdlock p := if p.2 then None else Some (0, (S p.1, false));
  pthread_rwlock_wrlock p :=
    if p.2 || negb (Nat.eqb p.1 0) then None else Some (0, (O, true));
  pthread_rwlock_unlock p := if p.2 then (0, (O, false)) else (0, (pred p.1, false));
  rw_readers := fst;
  rw_writer := snd
}.

(** ** rwlock.c *)

Inductive RWLockMode := RWLock_NULL | RWLock_READ | RWLock_WRITE.

#[export] Instance RWLockMode_eq_dec : EqDecision RWLockMode.
Proof. solve_decision. Defined.

Record RWLockInfo (P : Type) := mkRW { rwlock : P; lockMode : RWLockMode; rlockCnt : Z }.
Arguments mkRW {P}.
Arguments rwlock {P}.
Arguments lockMode {P}.
Arguments rlockCnt {P}.

Record LocalLockInfo := mkLocal { ll_lock : Z; ll_mode : RWLockMode; ll_cnt : Z }.

(** The locks of the process by address and one thread's table. *)
Record LockState (P : Type) := mkLS {
  rwlocks : gmap Z (RWLockInfo P);
  localRWlockTableInfo : list LocalLockInfo;
  localRWlockUsedPos : Z
}.
Arguments mkLS {P}.
Arguments rwlocks {P}.
Arguments localRWlockTableInfo {P}.
Arguments localRWlockUsedPos {P}.

Definition MAX_LOCAL_LOCK_NUM : Z := 8.
Definition NULL : Z := 0.

Section rw.
  Context {P : Type} `{!PthreadRW P}.

Definition get_rw (lock : Z) : ST (LockState P) (RWLockInfo P) := fun s =>
  r ← rwlocks s !! lock; Some (r, s).
Definition put_rw (lock : Z) (r : RWLockInfo P) : ST (LockState P) unit :=
  st_modify (fun s => mkLS (<[lock := r]> (rwlocks s)) (localRWlockTableInfo s) (localRWlockUsedPos s)).

(** The bookkeeping both acquisitions end with. *)
Definition note_mode (mode : RWLockMode) (r : RWLockInfo P) : RWLockInfo P :=
  let r := if decide (lockMode r = mode) then r else mkRW (rwlock r) mode (rlockCnt r) in
  if decide (lockMode r = RWLock_READ) then mkRW (rwlock r) (lockMode r) (i32 (rlockCnt r + 1)) else r.

Definition InitRWLock (lock : Z) : ST (LockState P) Z :=
  if lock =? NULL then mret (-1) else
  put_rw lock (mkRW pthread_rwlock_init RWLock_NULL 0);; mret 0.

(** Records the mode before it looks whether the attempt succeeded. *)
Definition TryAcquireRWLock (lock : Z) (mode : RWLockMode) : ST (LockState P) Z :=
  if lock =? NULL then mret (-1) else
  match mode with
  | RWLock_NULL => mret (-1)
  | _ =>
      r ← get_rw lock;
      let '(ret, p) := match mode with
                       | RWLock_READ => pthread_rwlock_tryrdlock (rwlock r)
                       | _ => pthread_rwlock_trywrlock (rwlock r)
                       end in
      put_rw lock (note_mode mode (mkRW p (lockMode r) (rlockCnt r)));;
      mret (if ret =? 0 then 1 else if ret =? EBUSY then 0 else -1)
  end.

(** [fuel] bounds the retries on [EAGAIN]. *)
Fixpoint AcquireRWLock (fuel : nat) (lock : Z) (mode : RWLockMode) : ST (LockState P) Z :=
  if lock =? NULL then mret (-1) else
  match mode with
  | RWLock_NULL => mret (-1)
  | _ =>
      r ← get_rw lock;
      match (match mode with
             | RWLock_READ => pthread_rwlock_rdlock (rwlock r)
             | _ => pthread_rwlock_wrlock (rwlock r)
             end), fuel with
      | None, _ | _, O => st_fault
      | Some (ret, p), S fuel =>
          if negb (ret =? 0) then
            put_rw lock (mkRW p (lockMode r) (rlockCnt r));;
            if ret =? EAGAIN then AcquireRWLock fuel lock mode else mret (-1)
          else
            put_rw lock (note_mode mode (mkRW p (lockMode r) (rlockCnt r)));; mret 0
      end
  end.

(** No lock operation of the code retries more than once under the documented
    behaviour. *)
Definition retry_fuel : nat := 16.

Definition ReleaseRWLock (lock : Z) (mode : RWLockMode) : ST (LockState P) Z :=
  if lock =? NULL then mret (-1) else
  r ← get_rw lock;
  let r := match lockMode r with
           | RWLock_WRITE => mkRW (rwlock r) RWLock_NULL (rlockCnt r)
           | _ => mkRW (rwlock r) (if rlockCnt r =? 0 then RWLock_NULL else lockMode r)
                    (i32 (rlockCnt r - 1))
           end in
  let '(ret, p) := pthread_rwlock_unlock (rwlock r) in
  put_rw lock (mkRW p (lockMode r) (rlockCnt r));;
  mret (if ret =? 0 then 0 else -1).

(** ** locallock.c *)

Definition set_table (t : list LocalLockInfo) (n : Z) : ST (LockState P) unit :=
  st_modify (fun s => mkLS (rwlocks s) t n).

(** The first entry below the used position that names the lock. *)
Fixpoint search_from (lock : Z) (t : list LocalLockInfo) (n : nat) (pos : Z) : Z :=
  match n, t with
  | S n, e :: t => if lock =? ll_lock e then pos else search_from lock t n (pos + 1)
  | _, _ => -1
  end.

Definition SearchLocalLockTable (lock : Z) : ST (LockState P) Z :=
  st_gets (fun s => search_from lock (localRWlockTableInfo s) (Z.to_nat (localRWlockUsedPos s)) 0).

Definition add_cnt (d : Z) (e : LocalLockInfo) : LocalLockInfo :=
  mkLocal (ll_lock e) (ll_mode e) (ll_cnt e + d).

(** Entries after [rmIndex] move down by one; the last used cell keeps its
    content. *)
Definition remove_at (t : list LocalLockInfo) (i used : nat) : list LocalLockInfo :=
  take i t ++ drop (S i) (take used t) ++ drop (used - 1) t.

Definition RemoveLocalLock (rmIndex : Z) : ST (LockState P) unit :=
  t ← st_gets localRWlockTableInfo; n ← st_gets localRWlockUsedPos;
  set_table (remove_at t (Z.to_nat rmIndex) (Z.to_nat n)) (n - 1).

(** The held path both acquisitions share: [held] is what a re-entrance
    returns. *)
Definition reenter (i : Z) (mode : RWLockMode) (held : Z) : ST (LockState P) Z :=
  t ← st_gets localRWlockTableInfo; n ← st_gets localRWlockUsedPos;
  e ← st_lift (t !! Z.to_nat i);
  if decide (ll_mode e = mode) then
    set_table (<[Z.to_nat i := add_cnt 1 e]> t) n;; mret held
  else mret (-2).

Definition record_lock (lock : Z) (mode : RWLockMode) : ST (LockState P) unit :=
  t ← st_gets localRWlockTableInfo; n ← st_gets localRWlockUsedPos;
  set_table (<[Z.to_nat n := mkLocal lock mode 1]> t) (n + 1).

Definition AcquireRWLockLocal (lock : Z) (mode : RWLockMode) : ST (LockState P) Z :=
  if lock =? NULL then mret (-1) else
  n ← st_gets localRWlockUsedPos;
  if MAX_LOCAL_LOCK_NUM <=? n then mret (-1) else
  i ← SearchLocalLockTable lock;
  if 0 <=? i then reenter i mode 0 else
  ret ← AcquireRWLock retry_fuel lock mode;
  (if ret =? 0 then record_lock lock mode else mret tt);;
  mret ret.

Definition TryAcquireRWLockLocal (lock : Z) (mode : RWLockMode) : ST (LockState P) Z :=
  if lock =? NULL then mret (-1) else
  n ← st_gets localRWlockUsedPos;
  if MAX_LOCAL_LOCK_NUM <=? n then mret (-1) else
  i ← SearchLocalLockTable lock;
  if 0 <=? i then reenter i mode 1 else
  ret ← TryAcquireRWLock lock mode;
  (if 0 <? ret then record_lock lock mode else mret tt);;
  mret ret.

Definition ReleaseRWLockLocal (lock : Z) (mode : RWLockMode) : ST (LockState P) Z :=
  if lock =? NULL then mret (-1) else
  n ← st_gets localRWlockUsedPos;
  if n <=? 0 then mret (-1) else
  i ← SearchLocalLockTable lock;
  t ← st_gets localRWlockTableInfo;
  match (if 0 <=? i then t !! Z.to_nat i else None) with
  | Some e =>
      if 1 <? ll_cnt e then set_table (<[Z.to_nat i := add_cnt (-1) e]> t) n;; mret 0
      else
        ret ← ReleaseRWLock lock mode;
        (if ret =? 0 then RemoveLocalLock i else mret tt);; mret ret
  | None => ReleaseRWLock lock mode
  end.

(** The loop re-reads the used position, which [RemoveLocalLock] lowers, and
    clears the entry that has meanwhile moved into [pos]. *)
Fixpoint Initialize_loop (fuel : nat) (pos : nat) : ST (LockState P) unit :=
  match fuel with
  | O => st_fault
  | S fuel =>
      n ← st_gets localRWlockUsedPos;
      if n <=? Z.of_nat pos then mret tt else
      t ← st_gets localRWlockTableInfo;
      e ← st_lift (t !! pos);
      (if ll_lock e =? NULL then mret tt else
       ReleaseRWLockLocal (ll_lock e) RWLock_NULL;;
       t ← st_gets localRWlockTableInfo; n ← st_gets localRWlockUsedPos;
       set_table (<[pos := mkLocal NULL RWLock_NULL 0]> t) n);;
      Initialize_loop fuel (S pos)
  end.

(** At most eight entries are visited. *)
Definition InitializeLocalLock : ST (LockState P) Z :=
  Initialize_loop 9 0;;
  t ← st_gets localRWlockTableInfo; set_table t 0;; mret 0.

Definition ReleaseLocalLock : ST (LockState P) unit := InitializeLocalLock;; mret tt.
End rw.

(** ** The spin lock's bounded wait *)

Section spin_facts.
  Context (M : Z) (word : nat -> Z * Z).
  Hypothesis HM : 0 <= M.

Lemma spin_step (n : nat) :
  Z.of_nat n mod (M + 1) + 1 <= M ->
  (Z.of_nat (S n)) / (M + 1) = Z.of_nat n / (M + 1) /\
  (Z.of_nat (S n)) mod (M + 1) = Z.of_nat n mod (M + 1) + 1.
Proof.
  intros Hle. pose proof (Z.div_mod (Z.of_nat n) (M + 1) ltac:(lia)).
  pose proof (Z.mod_pos_bound (Z.of_nat n) (M + 1) ltac:(lia)).
  split; symmetry;
    [apply (Z.div_unique _ _ _ (Z.of_nat n mod (M + 1) + 1))
    |apply (Z.mod_unique _ _ (Z.of_nat n / (M + 1)))]; lia.
Qed.

Lemma spin_carry (n : nat) :
  M < Z.of_nat n mod (M + 1) + 1 ->
  (Z.of_nat (S n)) / (M + 1) = Z.of_nat n / (M + 1) + 1 /\ (Z.of_nat (S n)) mod (M + 1) = 0.
Proof.
  intros Hlt. pose proof (Z.div_mod (Z.of_nat n) (M + 1) ltac:(lia)).
  pose proof (Z.mod_pos_bound (Z.of_nat n) (M + 1) ltac:(lia)).
  split; symmetry;
    [apply (Z.div_unique _ _ _ 0)
    |apply (Z.mod_unique _ _ (Z.of_nat n / (M + 1) + 1))]; lia.
Qed.

Lemma quotient_last q r n :
  0 <= r < M + 1 -> n = (M + 1) * q + r -> n + 1 = (M + 1) * (M + 1) -> q = M /\ r = M.
Proof.
  intros Hr Hn He. assert (q = M); [|nia].
  destruct (Z.lt_trichotomy q M) as [|[|]]; [exfalso|done|exfalso].
  - assert ((M + 1) * (q + 1) <= (M + 1) * M) by (apply Z.mul_le_mono_nonneg_l; lia). lia.
  - assert ((M + 1) * (M + 1) <= (M + 1) * q) by (apply Z.mul_le_mono_nonneg_l; lia). lia.
Qed.

Lemma quotient_before q r n :
  0 <= r < M + 1 -> n = (M + 1) * q + r -> n + 1 < (M + 1) * (M + 1) -> M < r + 1 -> q < M.
Proof.
  intros Hr Hn He Hc. destruct (Z.lt_ge_cases q M) as [|Hge]; [done|exfalso].
  assert ((M + 1) * M <= (M + 1) * q) by (apply Z.mul_le_mono_nonneg_l; lia). lia.
Qed.

Lemma spin_unfold fuel n delays cur :
  SpinLockAquire_loop M word (S fuel) n delays cur =
    (if TAS_SPIN word n then
       if M <? cur + 1 then
         if M <? delays + 1 then Some (delays + 1, false)
         else SpinLockAquire_loop M word fuel (S n) (delays + 1) 0
       else SpinLockAquire_loop M word fuel (S n) delays (cur + 1)
     else Some (delays, true)).
Proof. done. Qed.

(** Delay counter and inner counter are quotient and remainder of the number of
    busy attempts so far. *)
Lemma spin_busy n d :
  (S n + d = spin_bound M)%nat ->
  (forall j, (n <= j < spin_bound M)%nat -> TAS_SPIN word j = true) ->
  SpinLockAquire_loop M word (S (S d)) n (Z.of_nat n / (M + 1)) (Z.of_nat n mod (M + 1)) =
    Some (M + 1, false).
Proof.
  revert n. induction d as [|d IH]; intros n Hd Hbusy;
    rewrite spin_unfold, Hbusy by lia;
    pose proof (Z.div_mod (Z.of_nat n) (M + 1) ltac:(lia)) as Hdm;
    pose proof (Z.mod_pos_bound (Z.of_nat n) (M + 1) ltac:(lia)) as Hmb;
    assert (Z.of_nat (spin_bound M) = (M + 1) * (M + 1)) as Hb by (unfold spin_bound; lia);
    (destruct (Z.ltb_spec M (Z.of_nat n mod (M + 1) + 1)) as [Hc|Hc];
      [destruct (spin_carry n Hc) as [E1 E2]|destruct (spin_step n Hc) as [E1 E2]]).
  - assert (Z.of_nat n / (M + 1) = M) by (apply (quotient_last _ _ _ Hmb Hdm); lia).
    destruct (Z.ltb_spec M (Z.of_nat n / (M + 1) + 1)); [|lia]. do 2 f_equal. lia.
  - destruct (quotient_last _ _ _ Hmb Hdm); lia.
  - assert (Z.of_nat n / (M + 1) < M) by (apply (quotient_before _ _ _ Hmb Hdm); lia).
    destruct (Z.ltb_spec M (Z.of_nat n / (M + 1) + 1)); [lia|].
    rewrite <- E1, <- E2. apply IH; [lia|]. intros j Hj. apply Hbusy. lia.
  - rewrite <- E1, <- E2. apply IH; [lia|]. intros j Hj. apply Hbusy. lia.
Qed.

Lemma spin_free n d k :
  (n + d = k)%nat -> (k < spin_bound M)%nat -> TAS_SPIN word k = false ->
  (forall j, (n <= j < k)%nat -> TAS_SPIN word j = true) ->
  forall fuel, (d < fuel)%nat ->
  SpinLockAquire_loop M word fuel n (Z.of_nat n / (M + 1)) (Z.of_nat n mod (M + 1)) =
    Some (Z.of_nat k / (M + 1), true).
Proof.
  revert n. induction d as [|d IH]; intros n Hd Hk Hfree Hbusy fuel Hfuel;
    (destruct fuel as [|fuel]; [lia|]); rewrite spin_unfold.
  - assert (n = k) as -> by lia. by rewrite Hfree.
  - rewrite Hbusy by lia.
    pose proof (Z.div_mod (Z.of_nat n) (M + 1) ltac:(lia)) as Hdm.
    pose proof (Z.mod_pos_bound (Z.of_nat n) (M + 1) ltac:(lia)) as Hmb.
    assert (Z.of_nat (spin_bound M) = (M + 1) * (M + 1)) as Hb by (unfold spin_bound; lia).
    destruct (Z.ltb_spec M (Z.of_nat n mod (M + 1) + 1)) as [Hc|Hc];
      [destruct (spin_carry n Hc) as [E1 E2]|destruct (spin_step n Hc) as [E1 E2]].
    + assert (Z.of_nat n / (M + 1) < M) by (apply (quotient_before _ _ _ Hmb Hdm); lia).
      destruct (Z.ltb_spec M (Z.of_nat n / (M + 1) + 1)); [lia|].
      rewrite <- E1, <- E2. apply IH; [lia|lia|done| |lia]. intros j Hj. apply Hbusy. lia.
    + rewrite <- E1, <- E2. apply IH; [lia|lia|done| |lia]. intros j Hj. apply Hbusy. lia.
Qed.
End spin_facts.

(** SpinLockAquire always returns: it takes the lock at the first attempt
    that finds it free, and when none of the (SPIN_DELAY_MAX+1)^2 attempts does
    it returns SPIN_DELAY_MAX+1 without owning the lock - its callers go on as
    if they did. *)
Theorem SpinLockAquire_bounded M word :
  0 <= M ->
  (forall k, (k < spin_bound M)%nat -> TAS_SPIN word k = false ->
     (forall j, (j < k)%nat -> TAS_SPIN word j = true) ->
     SpinLockAquire M word = Some (Z.of_nat k / (M + 1), true)) /\
  ((forall j, (j < spin_bound M)%nat -> TAS_SPIN word j = true) ->
     SpinLockAquire M word = Some (M + 1, false)).
Proof.
  intros HM.
  assert (0 < (M + 1) * (M + 1)) by (apply Z.mul_pos_pos; lia).
  assert (1 <= Z.of_nat (spin_bound M)) as Hpos by (unfold spin_bound; lia).
  assert (0 / (M + 1) = 0 /\ 0 mod (M + 1) = 0) as [E1 E2] by (split; [apply Z.div_0_l|apply Z.mod_0_l]; lia).
  unfold SpinLockAquire. split.
  - intros k Hk Hfree Hbusy.
    pose proof (spin_free M word HM 0 k k eq_refl Hk Hfree ltac:(intros; apply Hbusy; lia)
      (S (spin_bound M)) ltac:(lia)) as Hs.
    change (Z.of_nat 0) with 0 in Hs. rewrite E1, E2 in Hs. exact Hs.
  - intros Hbusy.
    pose proof (spin_busy M word HM 0 (spin_bound M - 1) ltac:(lia)
      ltac:(intros; apply Hbusy; lia)) as Hs.
    replace (S (S (spin_bound M - 1))) with (S (spin_bound M)) in Hs by lia.
    change (Z.of_nat 0) with 0 in Hs. rewrite E1, E2 in Hs. exact Hs.
Qed.

Lemma SpinLockAquire_bounded_witness :
  SpinLockAquire 2 (fun n => if Nat.eqb n 4 then (0, 0) else (1, 1)) = Some (1, true) /\
  SpinLockAquire 2 (fun _ => (0, 1)) = Some (3, false).
Proof.
  split.
  - apply (proj1 (SpinLockAquire_bounded 2 (fun n => if Nat.eqb n 4 then (0, 0) else (1, 1))
      ltac:(lia)) 4%nat); [unfold spin_bound; simpl; lia|done|].
    intros j Hj. do 4 (destruct j as [|j]; [done|]). lia.
  - by apply (proj2 (SpinLockAquire_bounded 2 (fun _ => (0, 1)) ltac:(lia))).
Defined.

(** ** What the table promises

    [hs] lists the locks this thread holds, [ids] the initialised locks and
    [busy] those another thread holds for writing. [lock_rep] ties them to the
    concrete state: the table's used prefix is [hs], each of its locks is taken
    exactly once in the underlying lock, however often it was re-entered. *)

Section table.
  Context {P : Type} `{!PthreadRW P, !PthreadRWLaws P}.
  Context (ids busy : gset Z).

Definition holds (m : RWLockMode) (p : P) : Prop :=
  match m with
  | RWLock_READ => rw_readers p = 1%nat /\ rw_writer p = false
  | RWLock_WRITE => rw_writer p = true
  | RWLock_NULL => False
  end.

Record lock_rep (hs : list LocalLockInfo) (s : LockState P) : Prop := {
  lr_used : localRWlockUsedPos s = Z.of_nat (length hs);
  lr_len : length (localRWlockTableInfo s) = 8%nat;
  lr_bound : (length hs <= 8)%nat;
  lr_table : take (length hs) (localRWlockTableInfo s) = hs;
  lr_nodup : NoDup (ll_lock <$> hs);
  lr_entry e : e ∈ hs -> 1 <= ll_cnt e /\ ll_lock e ∈ ids /\ ll_lock e ∉ busy /\
    exists r, rwlocks s !! ll_lock e = Some r /\ holds (ll_mode e) (rwlock r);
  lr_free id : id ∈ ids -> id ∉ busy -> id ∉ ll_lock <$> hs ->
    exists r, rwlocks s !! id = Some r /\ rw_free (rwlock r);
  lr_busy id : id ∈ busy -> exists r, rwlocks s !! id = Some r /\ rw_writer (rwlock r) = true
}.

Definition find_lock (id : Z) (hs : list LocalLockInfo) : option (nat * LocalLockInfo) :=
  list_find (fun e => ll_lock e = id) hs.

(** The abstract operations; [None] is blocking (acquire) or the undefined
    unlock of a lock that is not held (release). *)
Definition spec_enter (held : Z) (id : Z) (m : RWLockMode) (hs : list LocalLockInfo)
    (absent : option (Z * list LocalLockInfo)) : option (Z * list LocalLockInfo) :=
  if 8 <=? Z.of_nat (length hs) then Some (-1, hs) else
  match find_lock id hs with
  | Some (i, e) =>
      if decide (ll_mode e = m) then Some (held, <[i := add_cnt 1 e]> hs) else Some (-2, hs)
  | None => absent
  end.

Definition spec_acquire (id : Z) (m : RWLockMode) (hs : list LocalLockInfo) :=
  spec_enter 0 id m hs (if decide (id ∈ busy) then None else Some (0, hs ++ [mkLocal id m 1])).
Definition spec_try (id : Z) (m : RWLockMode) (hs : list LocalLockInfo) :=
  spec_enter 1 id m hs (Some (if decide (id ∈ busy) then (0, hs) else (1, hs ++ [mkLocal id m 1]))).
Definition spec_release (id : Z) (hs : list LocalLockInfo) : option (Z * list LocalLockInfo) :=
  match find_lock id hs with
  | Some (i, e) =>
      Some (0, if 1 <? ll_cnt e then <[i := add_cnt (-1) e]> hs else delete i hs)
  | None => None
  end.

Lemma search_from_find id t hs pos :
  take (length hs) t = hs ->
  search_from id t (length hs) pos =
    match find_lock id hs with Some (i, _) => pos + Z.of_nat i | None => -1 end.
Proof.
  revert t pos. induction hs as [|h hs IH]; intros t pos Ht; [by destruct t|].
  destruct t as [|e t]; simpl in Ht; [discriminate|]. injection Ht as -> Ht. simpl.
  unfold find_lock. simpl. case_decide as Hd.
  - rewrite (proj2 (Z.eqb_eq _ _)) by done. lia.
  - rewrite (proj2 (Z.eqb_neq _ _)) by congruence. rewrite IH by done.
    fold (find_lock id hs). destruct (find_lock id hs) as [[i x]|]; simpl; [lia|done].
Qed.

Lemma find_lock_some id hs i e :
  find_lock id hs = Some (i, e) -> hs !! i = Some e /\ ll_lock e = id /\ e ∈ hs.
Proof.
  intros (H1 & H2 & _)%list_find_Some. split_and!; [done..|]. by eapply list_elem_of_lookup_2.
Qed.

Lemma find_lock_none id hs : find_lock id hs = None -> id ∉ ll_lock <$> hs.
Proof.
  intros H%list_find_None. intros (e & -> & He)%list_elem_of_fmap.
  rewrite Forall_forall in H. by apply (H e He).
Qed.

Lemma rep_search hs s id :
  lock_rep hs s ->
  SearchLocalLockTable id s =
    Some (match find_lock id hs with Some (i, _) => Z.of_nat i | None => -1 end, s).
Proof.
  intros R. unfold SearchLocalLockTable, st_gets.
  rewrite (lr_used _ _ R), Nat2Z.id, search_from_find by apply R.
  destruct (find_lock id hs) as [[i e]|]; done.
Qed.

Lemma rep_lookup hs s i e :
  lock_rep hs s -> hs !! i = Some e -> localRWlockTableInfo s !! i = Some e.
Proof.
  intros R Hi. rewrite <- (lr_table _ _ R) in Hi. rewrite lookup_take in Hi.
  by destruct (decide (i < length hs)%nat).
Qed.

(** Recounting an entry leaves every lock as it is. *)
Lemma rep_recount hs s i e d :
  lock_rep hs s -> hs !! i = Some e -> 1 <= ll_cnt e + d ->
  lock_rep (<[i := add_cnt d e]> hs)
    (mkLS (rwlocks s) (<[i := add_cnt d e]> (localRWlockTableInfo s)) (localRWlockUsedPos s)).
Proof.
  intros R Hi Hd. pose proof (lookup_lt_Some _ _ _ Hi) as Hlt.
  assert (ll_lock <$> <[i := add_cnt d e]> hs = ll_lock <$> hs) as Hmap.
  { rewrite list_fmap_insert. simpl. apply list_insert_id. by rewrite list_lookup_fmap, Hi. }
  split; simpl; rewrite ?length_insert, ?Hmap; try apply R.
  - rewrite take_insert_lt by done. by rewrite (lr_table _ _ R).
  - intros x Hx. apply list_elem_of_lookup in Hx as [j Hj].
    apply list_lookup_insert_Some in Hj as [(-> & <- & _)|[Hne Hj]].
    + simpl. destruct (lr_entry _ _ R e) as (H1 & H2 & H3); [by eapply list_elem_of_lookup_2|].
      split_and!; [done|done|apply H3|apply H3].
    + apply (lr_entry _ _ R). by eapply list_elem_of_lookup_2.
Qed.

(** Writing one lock word: the other locks keep their state. *)
Lemma rep_add hs s id m r :
  lock_rep hs s -> (length hs < 8)%nat -> id ∈ ids -> id ∉ busy -> id ∉ ll_lock <$> hs ->
  holds m (rwlock r) ->
  lock_rep (hs ++ [mkLocal id m 1])
    (mkLS (<[id := r]> (rwlocks s))
       (<[length hs := mkLocal id m 1]> (localRWlockTableInfo s)) (localRWlockUsedPos s + 1)).
Proof.
  intros R Hlt Hid Hb Hn Hh. split; simpl; rewrite ?length_app, ?length_insert; simpl.
  - rewrite (lr_used _ _ R). lia.
  - apply R.
  - lia.
  - replace (length hs + 1)%nat with (S (length hs)) by lia.
    rewrite (take_S_r _ _ (mkLocal id m 1)).
    + rewrite take_insert_ge, (lr_table _ _ R); done || lia.
    + apply list_lookup_insert_eq. rewrite (lr_len _ _ R). lia.
  - rewrite fmap_app. apply NoDup_app. split_and!; [apply R| |apply NoDup_singleton].
    intros x Hx Hs%list_elem_of_singleton. by subst x.
  - intros e [He|He%list_elem_of_singleton]%elem_of_app.
    + destruct (lr_entry _ _ R e He) as (H1 & H2 & H3 & r' & H4 & H5).
      split_and!; [done..|]. exists r'. split; [|done].
      rewrite lookup_insert_ne; [done|]. intros Heq. apply Hn. rewrite Heq.
      by apply list_elem_of_fmap_2.
    + subst e. simpl. split_and!; [lia|done..|]. exists r. by rewrite lookup_insert_eq.
  - intros x Hx Hxb Hxn. rewrite fmap_app, elem_of_app in Hxn. simpl in Hxn.
    rewrite list_elem_of_singleton in Hxn. rewrite lookup_insert_ne by (intros <-; tauto).
    apply (lr_free _ _ R); tauto.
  - intros x Hx. rewrite lookup_insert_ne by (by intros ->). by apply (lr_busy _ _ R).
Qed.

Lemma rep_remove hs s i e r :
  lock_rep hs s -> hs !! i = Some e -> rw_free (rwlock r) ->
  lock_rep (delete i hs)
    (mkLS (<[ll_lock e := r]> (rwlocks s))
       (remove_at (localRWlockTableInfo s) i (length hs)) (localRWlockUsedPos s - 1)).
Proof.
  intros R Hi Hf. pose proof (lookup_lt_Some _ _ _ Hi) as Hlt.
  pose proof (lr_bound _ _ R) as Hb8. pose proof (lr_len _ _ R) as Hlen.
  assert (length (delete i hs) = (length hs - 1)%nat) as Hdl by (rewrite length_delete; done).
  assert (remove_at (localRWlockTableInfo s) i (length hs) =
          delete i hs ++ drop (length hs - 1) (localRWlockTableInfo s)) as Hrm.
  { assert (take i hs = take i (localRWlockTableInfo s)) as Htk
      by (rewrite <- (lr_table _ _ R) at 1; rewrite take_take; f_equal; lia).
    unfold remove_at. by rewrite (lr_table _ _ R), delete_take_drop, <- app_assoc, Htk. }
  pose proof (lr_nodup _ _ R) as Hnd.
  assert (forall x, x ∈ delete i hs -> x ∈ hs /\ ll_lock x <> ll_lock e) as Hin.
  { intros x Hx. apply list_elem_of_lookup in Hx as [j Hj].
    assert (exists k, hs !! k = Some x /\ k <> i) as (k & Hk & Hne).
    { destruct (decide (j < i)%nat).
      - rewrite list_lookup_delete_lt in Hj by done. exists j. split; [done|lia].
      - rewrite list_lookup_delete_ge in Hj by lia. exists (S j). split; [done|lia]. }
    split; [by eapply list_elem_of_lookup_2|]. intros Heq. apply Hne.
    eapply (NoDup_lookup (ll_lock <$> hs) _ _ (ll_lock e)); [done| |];
      by rewrite list_lookup_fmap, ?Hk, ?Hi; simpl; rewrite ?Heq. }
  split; simpl.
  - rewrite (lr_used _ _ R), Hdl. lia.
  - rewrite Hrm, length_app, length_drop, Hdl. lia.
  - lia.
  - rewrite Hrm. by rewrite take_app_length.
  - eapply sublist_NoDup; [exact Hnd|]. apply fmap_sublist. apply sublist_delete.
  - intros x Hx. destruct (Hin x Hx) as [Hx1 Hne].
    destruct (lr_entry _ _ R x Hx1) as (H1 & H2 & H3 & r' & H4 & H5).
    split_and!; [done..|]. exists r'. by rewrite lookup_insert_ne.
  - intros id Hid Hib Hn. destruct (decide (id = ll_lock e)) as [->|Hne].
    + exists r. by rewrite lookup_insert_eq.
    + rewrite lookup_insert_ne by done. apply (lr_free _ _ R); [done..|].
      intros (x & -> & Hx)%list_elem_of_fmap. apply Hn. apply list_elem_of_fmap_2.
      apply list_elem_of_lookup in Hx as [j Hj].
      destruct (decide (j < i)%nat).
      * apply list_elem_of_lookup_2 with j. by rewrite list_lookup_delete_lt.
      * assert (j <> i) by (intros ->; congruence).
        apply list_elem_of_lookup_2 with (j - 1)%nat. rewrite list_lookup_delete_ge by lia.
        by replace (S (j - 1)) with j by lia.
  - intros id Hid. destruct (lr_entry _ _ R e) as (_ & _ & Hnb & _);
      [by eapply list_elem_of_lookup_2|].
    rewrite lookup_insert_ne by (intros <-; done). by apply (lr_busy _ _ R).
Qed.

Hypothesis null_not_lock : NULL ∉ ids.

Lemma not_null id : id ∈ ids -> (id =? NULL) = false.
Proof. intros Hid. apply Z.eqb_neq. by intros ->. Qed.

Lemma rwlock_note_mode m (r : RWLockInfo P) : rwlock (note_mode m r) = rwlock r.
Proof. unfold note_mode. by repeat case_decide. Qed.

Lemma get_rw_run id (s : LockState P) r : rwlocks s !! id = Some r -> get_rw id s = Some (r, s).
Proof. intros H. unfold get_rw, mbind, option_bind. by rewrite H. Qed.

Definition with_rw (id : Z) (r : RWLockInfo P) (s : LockState P) : LockState P :=
  mkLS (<[id := r]> (rwlocks s)) (localRWlockTableInfo s) (localRWlockUsedPos s).

(** The underlying acquisition of a lock nobody holds. *)
Lemma AcquireRWLock_free id m s r :
  id ∈ ids -> m <> RWLock_NULL -> rwlocks s !! id = Some r -> rw_free (rwlock r) ->
  exists r', AcquireRWLock retry_fuel id m s = Some (0, with_rw id r' s) /\ holds m (rwlock r').
Proof.
  intros Hid Hm Hr Hf. change retry_fuel with (S 15). generalize 15%nat. intros fuel. simpl. rewrite (not_null _ Hid).
  destruct m; [done| |]; rewrite (st_bind_some _ _ _ _ _ (get_rw_run _ _ _ Hr)).
  - destruct (rdlock_ok (rwlock r)) as (p' & E & H1 & H2); [apply Hf|]. rewrite E.
    eexists. split; [reflexivity|]. rewrite rwlock_note_mode. simpl.
    split; [|done]. by rewrite H1, (proj1 Hf).
  - destruct (wrlock_ok (rwlock r) Hf) as (p' & E & H1 & H2). rewrite E.
    eexists. split; [reflexivity|]. by rewrite rwlock_note_mode.
Qed.

Lemma AcquireRWLock_busy id m s r :
  id ∈ ids -> m <> RWLock_NULL -> rwlocks s !! id = Some r -> rw_writer (rwlock r) = true ->
  AcquireRWLock retry_fuel id m s = None.
Proof.
  intros Hid Hm Hr Hw. change retry_fuel with (S 15). generalize 15%nat. intros fuel. simpl. rewrite (not_null _ Hid).
  destruct m; [done| |]; rewrite (st_bind_some _ _ _ _ _ (get_rw_run _ _ _ Hr)).
  - by rewrite (rdlock_block _ Hw).
  - rewrite wrlock_block; [done|]. intros [_ Hn]. congruence.
Qed.

#[local] Opaque retry_fuel.

Lemma TryAcquireRWLock_free id m s r :
  id ∈ ids -> m <> RWLock_NULL -> rwlocks s !! id = Some r -> rw_free (rwlock r) ->
  exists r', TryAcquireRWLock id m s = Some (1, with_rw id r' s) /\ holds m (rwlock r').
Proof.
  intros Hid Hm Hr Hf. unfold TryAcquireRWLock. rewrite (not_null _ Hid).
  destruct m; [done| |]; rewrite (st_bind_some _ _ _ _ _ (get_rw_run _ _ _ Hr)).
  - destruct (tryrdlock_ok (rwlock r)) as (p' & E & H1 & H2); [apply Hf|]. rewrite E.
    eexists. split; [reflexivity|]. rewrite rwlock_note_mode. simpl.
    split; [|done]. by rewrite H1, (proj1 Hf).
  - destruct (trywrlock_ok (rwlock r) Hf) as (p' & E & H1 & H2). rewrite E.
    eexists. split; [reflexivity|]. by rewrite rwlock_note_mode.
Qed.

Lemma TryAcquireRWLock_busy id m s r :
  id ∈ ids -> m <> RWLock_NULL -> rwlocks s !! id = Some r -> rw_writer (rwlock r) = true ->
  exists r', TryAcquireRWLock id m s = Some (0, with_rw id r' s) /\ rw_writer (rwlock r') = true.
Proof.
  intros Hid Hm Hr Hw. unfold TryAcquireRWLock. rewrite (not_null _ Hid).
  destruct m; [done| |]; rewrite (st_bind_some _ _ _ _ _ (get_rw_run _ _ _ Hr)).
  - rewrite (tryrdlock_busy _ Hw). eexists. split; [reflexivity|]. by rewrite rwlock_note_mode.
  - rewrite trywrlock_busy; [|intros [_ Hn]; congruence].
    eexists. split; [reflexivity|]. by rewrite rwlock_note_mode.
Qed.

Lemma ReleaseRWLock_held id m m' s r :
  id ∈ ids -> rwlocks s !! id = Some r -> holds m' (rwlock r) ->
  exists r', ReleaseRWLock id m s = Some (0, with_rw id r' s) /\ rw_free (rwlock r').
Proof.
  intros Hid Hr Hh. unfold ReleaseRWLock. rewrite (not_null _ Hid).
  rewrite (st_bind_some _ _ _ _ _ (get_rw_run _ _ _ Hr)).
  assert (exists p', pthread_rwlock_unlock (rwlock r) = (0, p') /\ rw_free p') as (p' & E & Hf).
  { destruct m'; simpl in Hh; [done| |by apply unlock_writer].
    destruct Hh as [H1 H2]. destruct (unlock_reader _ _ H2 H1) as (p' & E & H3 & H4).
    by exists p'. }
  destruct (lockMode r); simpl; rewrite E; (eexists; split; [reflexivity|done]).
Qed.

(** A failed try only disturbs the bookkeeping of the busy lock. *)
Lemma rep_touch_busy hs s id r :
  lock_rep hs s -> id ∈ busy -> rw_writer (rwlock r) = true -> lock_rep hs (with_rw id r s).
Proof.
  intros R Hb Hw. split; simpl; try apply R.
  - intros e He. destruct (lr_entry _ _ R e He) as (H1 & H2 & H3 & r' & H4).
    split_and!; [done..|]. exists r'. by rewrite lookup_insert_ne by (by intros ->).
  - intros x Hx Hxb Hn. rewrite lookup_insert_ne by (by intros ->). by apply (lr_free _ _ R).
  - intros x Hx. destruct (decide (x = id)) as [->|].
    + rewrite lookup_insert_eq. eauto.
    + rewrite lookup_insert_ne by done. by apply (lr_busy _ _ R).
Qed.

(** ** The operations against the specification *)

Inductive lop := LAcquire (id : Z) (m : RWLockMode) | LTry (id : Z) (m : RWLockMode)
  | LRelease (id : Z) (m : RWLockMode).

Definition run_lop (op : lop) : ST (LockState P) Z :=
  match op with
  | LAcquire id m => AcquireRWLockLocal id m
  | LTry id m => TryAcquireRWLockLocal id m
  | LRelease id m => ReleaseRWLockLocal id m
  end.

Definition spec_lop (op : lop) (hs : list LocalLockInfo) : option (Z * list LocalLockInfo) :=
  match op with
  | LAcquire id m => spec_acquire id m hs
  | LTry id m => spec_try id m hs
  | LRelease id _ => spec_release id hs
  end.

Definition lop_ok (op : lop) : Prop :=
  match op with
  | LAcquire id m | LTry id m => id ∈ ids /\ m <> RWLock_NULL
  | LRelease id _ => id ∈ ids
  end.

Lemma table_full hs s :
  lock_rep hs s -> (MAX_LOCAL_LOCK_NUM <=? localRWlockUsedPos s) = (8 <=? Z.of_nat (length hs)).
Proof. intros R. by rewrite (lr_used _ _ R). Qed.

Lemma reenter_run hs s id i e m held :
  lock_rep hs s -> find_lock id hs = Some (i, e) ->
  exists s', reenter (Z.of_nat i) m held s =
    Some (if decide (ll_mode e = m) then held else -2, s') /\
    lock_rep (if decide (ll_mode e = m) then <[i := add_cnt 1 e]> hs else hs) s'.
Proof.
  intros R (Hi & _ & Hin)%find_lock_some. unfold reenter.
  do 2 (rewrite (st_bind_some _ _ _ _ _ eq_refl)). rewrite Nat2Z.id.
  rewrite (st_bind_some (st_lift _) _ s e s)
    by (unfold st_lift; by rewrite (rep_lookup _ _ _ _ R Hi)).
  case_decide; eexists; (split; [reflexivity|]); [|done].
  apply rep_recount; [done..|]. pose proof (proj1 (lr_entry _ _ R e Hin)). lia.
Qed.

Lemma record_run hs s id m r :
  lock_rep hs s -> (length hs < 8)%nat -> id ∈ ids -> id ∉ busy -> id ∉ ll_lock <$> hs ->
  holds m (rwlock r) ->
  exists s', record_lock id m (with_rw id r s) = Some (tt, s') /\
    lock_rep (hs ++ [mkLocal id m 1]) s'.
Proof.
  intros R Hlt Hid Hb Hn Hh. eexists. split; [reflexivity|]. simpl.
  pose proof (rep_add hs s id m r R Hlt Hid Hb Hn Hh) as R'.
  by rewrite (lr_used _ _ R), Nat2Z.id in *.
Qed.

Lemma lop_acquire hs s id m :
  lock_rep hs s -> id ∈ ids -> m <> RWLock_NULL ->
  match spec_acquire id m hs with
  | Some (r, hs') => exists s', AcquireRWLockLocal id m s = Some (r, s') /\ lock_rep hs' s'
  | None => AcquireRWLockLocal id m s = None
  end.
Proof.
  intros R Hid Hm. unfold spec_acquire, spec_enter, AcquireRWLockLocal. rewrite (not_null _ Hid).
  rewrite (st_bind_some _ _ _ _ _ eq_refl), (table_full _ _ R).
  destruct (Z.leb_spec 8 (Z.of_nat (length hs))); [by exists s|].
  rewrite (st_bind_some _ _ _ _ _ (rep_search _ _ id R)).
  destruct (find_lock id hs) as [[i e]|] eqn:Hf.
  - destruct (reenter_run _ _ _ _ _ m 0 R Hf) as (s' & Hrun & R').
    rewrite (proj2 (Z.leb_le _ _)), Hrun by lia. by case_decide; exists s'.
  - simpl. pose proof (find_lock_none _ _ Hf) as Hn. case_decide as Hb.
    + destruct (lr_busy _ _ R id Hb) as (r & Hr & Hw).
      unfold mbind, ST_bind. by rewrite (AcquireRWLock_busy _ _ _ _ Hid Hm Hr Hw).
    + destruct (lr_free _ _ R id Hid Hb Hn) as (r & Hr & Hfr).
      destruct (AcquireRWLock_free _ _ _ _ Hid Hm Hr Hfr) as (r' & Hrun & Hh).
      destruct (record_run hs s id m r' R) as (s' & Hrec & R'); try done; [lia|].
      rewrite (st_bind_some _ _ _ _ _ Hrun). simpl.
      rewrite (st_bind_some _ _ _ _ _ Hrec). by exists s'.
Qed.

Lemma lop_try hs s id m :
  lock_rep hs s -> id ∈ ids -> m <> RWLock_NULL ->
  match spec_try id m hs with
  | Some (r, hs') => exists s', TryAcquireRWLockLocal id m s = Some (r, s') /\ lock_rep hs' s'
  | None => False
  end.
Proof.
  intros R Hid Hm. unfold spec_try, spec_enter, TryAcquireRWLockLocal. rewrite (not_null _ Hid).
  rewrite (st_bind_some _ _ _ _ _ eq_refl), (table_full _ _ R).
  destruct (Z.leb_spec 8 (Z.of_nat (length hs))); [by exists s|].
  rewrite (st_bind_some _ _ _ _ _ (rep_search _ _ id R)).
  destruct (find_lock id hs) as [[i e]|] eqn:Hf.
  - destruct (reenter_run _ _ _ _ _ m 1 R Hf) as (s' & Hrun & R').
    rewrite (proj2 (Z.leb_le _ _)), Hrun by lia. by case_decide; exists s'.
  - simpl. pose proof (find_lock_none _ _ Hf) as Hn. case_decide as Hb.
    + destruct (lr_busy _ _ R id Hb) as (r & Hr & Hw).
      destruct (TryAcquireRWLock_busy _ _ _ _ Hid Hm Hr Hw) as (r' & Hrun & Hw').
      rewrite (st_bind_some _ _ _ _ _ Hrun). eexists. split; [reflexivity|].
      by apply rep_touch_busy.
    + destruct (lr_free _ _ R id Hid Hb Hn) as (r & Hr & Hfr).
      destruct (TryAcquireRWLock_free _ _ _ _ Hid Hm Hr Hfr) as (r' & Hrun & Hh).
      destruct (record_run hs s id m r' R) as (s' & Hrec & R'); try done; [lia|].
      rewrite (st_bind_some _ _ _ _ _ Hrun). simpl.
      rewrite (st_bind_some _ _ _ _ _ Hrec). by exists s'.
Qed.

Lemma lop_release hs s id m r hs' :
  lock_rep hs s -> id ∈ ids -> spec_release id hs = Some (r, hs') ->
  exists s', ReleaseRWLockLocal id m s = Some (r, s') /\ lock_rep hs' s'.
Proof.
  intros R Hid. unfold spec_release. destruct (find_lock id hs) as [[i e]|] eqn:Hf; [|done].
  intros [= <- <-]. destruct (find_lock_some _ _ _ _ Hf) as (Hi & He & Hin).
  pose proof (lookup_lt_Some _ _ _ Hi).
  unfold ReleaseRWLockLocal. rewrite (not_null _ Hid).
  rewrite (st_bind_some _ _ _ _ _ eq_refl), (lr_used _ _ R).
  rewrite (proj2 (Z.leb_gt _ _)) by lia.
  rewrite (st_bind_some _ _ _ _ _ (rep_search _ _ id R)), Hf.
  rewrite (st_bind_some _ _ _ _ _ eq_refl).
  rewrite (proj2 (Z.leb_le _ _)), Nat2Z.id, (rep_lookup _ _ _ _ R Hi) by lia.
  destruct (lr_entry _ _ R e Hin) as (H1 & H2 & H3 & rl & Hr & Hh).
  destruct (Z.ltb_spec 1 (ll_cnt e)).
  - eexists. split; [reflexivity|]. rewrite <- (lr_used _ _ R).
    apply rep_recount; [done..|lia].
  - rewrite He in Hr. destruct (ReleaseRWLock_held _ m _ _ _ Hid Hr Hh) as (r' & Hrun & Hfr).
    rewrite (st_bind_some _ _ _ _ _ Hrun). eexists. split; [reflexivity|]. simpl.
    pose proof (rep_remove hs s i e r' R Hi Hfr) as R'.
    by rewrite He, (lr_used _ _ R), !Nat2Z.id in *.
Qed.

Fixpoint run_lops (ops : list lop) : ST (LockState P) (list Z) :=
  match ops with
  | [] => mret []
  | op :: ops => r ← run_lop op; rs ← run_lops ops; mret (r :: rs)
  end.

Fixpoint spec_lops (ops : list lop) (hs : list LocalLockInfo)
    : option (list Z * list LocalLockInfo) :=
  match ops with
  | [] => Some ([], hs)
  | op :: ops =>
      '(r, hs) ← spec_lop op hs;
      '(rs, hs) ← spec_lops ops hs; Some (r :: rs, hs)
  end.

Lemma run_lops_spec ops hs s rs hs' :
  lock_rep hs s -> Forall lop_ok ops -> spec_lops ops hs = Some (rs, hs') ->
  exists s', run_lops ops s = Some (rs, s') /\ lock_rep hs' s'.
Proof.
  revert hs s rs. induction ops as [|op ops IH]; simpl; intros hs s rs R Hok Hspec.
  { injection Hspec as <- <-. by exists s. }
  apply Forall_cons in Hok as [Hop Hok].
  destruct (spec_lop op hs) as [[r hs1]|] eqn:H1; simpl in Hspec; [|done].
  destruct (spec_lops ops hs1) as [[rs1 hs2]|] eqn:H2; simpl in Hspec; simplify_eq.
  assert (exists s1, run_lop op s = Some (r, s1) /\ lock_rep hs1 s1) as (s1 & Hrun & R1).
  { destruct op as [id m|id m|id m]; simpl in *.
    - pose proof (lop_acquire hs s id m R (proj1 Hop) (proj2 Hop)) as H. by rewrite H1 in H.
    - pose proof (lop_try hs s id m R (proj1 Hop) (proj2 Hop)) as H. by rewrite H1 in H.
    - by eapply lop_release. }
  destruct (IH _ _ _ R1 Hok H2) as (s2 & Hruns & R2).
  exists s2. rewrite (st_bind_some _ _ _ _ _ Hrun), (st_bind_some _ _ _ _ _ Hruns). done.
Qed.
End table.

#[export] Instance simple_rw_laws : PthreadRWLaws (nat * bool).
Proof.
  split; unfold rw_free; simpl.
  - done.
  - intros [n w] Hw. simpl in *. rewrite Hw. by eexists.
  - intros [n w] Hw. simpl in *. by rewrite Hw.
  - intros [n w] [H1 H2]. simpl in *. subst. by eexists.
  - intros [n w] Hn. simpl in *. destruct w; [done|]. destruct n; [|done]. by destruct Hn.
  - intros [n w] Hw. simpl in *. rewrite Hw. by eexists.
  - intros [n w] Hw. simpl in *. by rewrite Hw.
  - intros [n w] [H1 H2]. simpl in *. subst. by eexists.
  - intros [n w] Hn. simpl in *. destruct w; [done|]. destruct n; [|done]. by destruct Hn.
  - intros [n w] Hw. simpl in *. rewrite Hw. by eexists.
  - intros [n w] m Hw Hn. simpl in *. subst. by eexists.
Qed.

(** C40: for every sequence of acquisitions, tries and releases the thread's
    lock table does what its abstract table does: the first acquisition takes
    the underlying lock once, later ones of the same mode only count, a
    different mode is refused with -2, a ninth distinct lock (and even a
    re-entrance of a full table) with -1, a try of a busy lock returns 0, and
    the last release gives the lock back and closes the gap in the table. *)
Theorem lock_table_refines `{!PthreadRW P, !PthreadRWLaws P} ids busy ops (s : LockState P) rs hs :
  NULL ∉ ids -> lock_rep ids busy [] s -> Forall (lop_ok ids) ops ->
  spec_lops busy ops [] = Some (rs, hs) ->
  exists s', run_lops ops s = Some (rs, s') /\ lock_rep ids busy hs s'.
Proof. intros. by eapply run_lops_spec. Qed.

(** Three initialised locks of which another thread has written-locked the
    third. *)
Definition three_locks : LockState (nat * bool) :=
  mkLS {[ 1 := mkRW (O, false) RWLock_NULL 0; 2 := mkRW (O, false) RWLock_NULL 0;
          3 := mkRW (O, true) RWLock_WRITE 0 ]} (replicate 8 (mkLocal NULL RWLock_NULL 0)) 0.

Lemma three_locks_rep : lock_rep {[1; 2; 3]} {[3]} [] three_locks.
Proof.
  split; try done.
  - simpl. lia.
  - apply NoDup_nil_2.
  - intros e He. by apply elem_of_nil in He.
  - intros id Hid Hb _. rewrite !elem_of_union, !elem_of_singleton in Hid.
    rewrite elem_of_singleton in Hb. destruct Hid as [[->| ->]| ->]; [| |done].
    + by exists (mkRW (O, false) RWLock_NULL 0).
    + by exists (mkRW (O, false) RWLock_NULL 0).
  - intros id ->%elem_of_singleton. by exists (mkRW (O, true) RWLock_WRITE 0).
Qed.

Lemma lock_table_refines_witness :
  exists s', run_lops [LAcquire 1 RWLock_READ; LAcquire 2 RWLock_WRITE; LAcquire 1 RWLock_READ;
                       LAcquire 1 RWLock_WRITE; LTry 3 RWLock_READ; LRelease 1 RWLock_READ;
                       LRelease 2 RWLock_WRITE] three_locks
      = Some ([0; 0; 0; -2; 0; 0; 0], s') /\
    lock_rep {[1; 2; 3]} {[3]} [mkLocal 1 RWLock_READ 1] s'.
Proof.
  apply (lock_table_refines {[1; 2; 3]} {[3]}).
  - by vm_compute.
  - apply three_locks_rep.
  - repeat (apply Forall_cons; split; [by vm_compute|]). by apply Forall_nil.
  - by vm_compute.
Defined.

(** The clean-up of a worker releases the first lock of the table and clears
    the cell the next one has moved into. *)
Lemma InitializeLocalLock_first `{!PthreadRW P, !PthreadRWLaws P} ids busy a rest (s : LockState P)
    r hs1 :
  NULL ∉ ids -> lock_rep ids busy (a :: rest) s ->
  spec_release (ll_lock a) (a :: rest) = Some (r, hs1) -> (length hs1 <= 1)%nat ->
  exists s1 s', lock_rep ids busy hs1 s1 /\ ReleaseLocalLock s = Some (tt, s') /\
    localRWlockUsedPos s' = 0 /\ rwlocks s' = rwlocks s1.
Proof.
  intros Hnull R Hrel Hlen.
  destruct (lr_entry _ _ _ _ R a) as (_ & Hid & _); [rewrite elem_of_cons; by left|].
  destruct (lop_release ids busy Hnull _ _ _ RWLock_NULL _ _ R Hid Hrel) as (s1 & Hrun & R1).
  pose proof (rep_lookup ids busy _ _ 0%nat a R eq_refl) as H0.
  exists s1. eexists. split; [done|].
  unfold ReleaseLocalLock, InitializeLocalLock.
  change (Initialize_loop 9 0) with (Initialize_loop (P := P) (S (S 7)) 0).
  generalize 7%nat. intros fuel. simpl.
  erewrite st_bind_some.
  2: { erewrite st_bind_some.
    2: { rewrite (st_bind_some _ _ _ _ _ eq_refl), (lr_used _ _ _ _ R).
      rewrite (proj2 (Z.leb_gt _ _)) by (simpl; lia).
      rewrite (st_bind_some _ _ _ _ _ eq_refl).
      rewrite (st_bind_some (st_lift _) _ s a s) by (unfold st_lift; by rewrite H0).
      rewrite (not_null ids Hnull _ Hid).
      erewrite st_bind_some.
      2: { rewrite (st_bind_some _ _ _ _ _ Hrun).
        do 2 (rewrite (st_bind_some _ _ _ _ _ eq_refl)). reflexivity. }
      rewrite (st_bind_some _ _ _ _ _ eq_refl). simpl. rewrite (lr_used _ _ _ _ R1).
      rewrite (proj2 (Z.leb_le _ _)) by lia. reflexivity. }
    do 2 (rewrite (st_bind_some _ _ _ _ _ eq_refl)). reflexivity. }
  simpl. split_and!; [reflexivity|done|done].
Qed.

(** The clean-up at the end of a statement leaks locks. It gives back a
    single lock held once; but of two held locks the second stays locked while
    the table forgets it, and a lock that was re-entered stays locked too. *)
Theorem ReleaseLocalLock_leaks `{!PthreadRW P, !PthreadRWLaws P} ids busy a b (s : LockState P) :
  NULL ∉ ids ->
  (lock_rep ids busy [a] s -> ll_cnt a = 1 ->
    exists s' r, ReleaseLocalLock s = Some (tt, s') /\ rwlocks s' !! ll_lock a = Some r /\
      rw_free (rwlock r)) /\
  (lock_rep ids busy [a; b] s -> ll_cnt a = 1 ->
    exists s' r, ReleaseLocalLock s = Some (tt, s') /\ localRWlockUsedPos s' = 0 /\
      rwlocks s' !! ll_lock b = Some r /\ holds (ll_mode b) (rwlock r)) /\
  (lock_rep ids busy [a] s -> 1 < ll_cnt a ->
    exists s' r, ReleaseLocalLock s = Some (tt, s') /\ localRWlockUsedPos s' = 0 /\
      rwlocks s' !! ll_lock a = Some r /\ holds (ll_mode a) (rwlock r)).
Proof.
  intros Hnull.
  assert (forall rest, spec_release (ll_lock a) (a :: rest) =
    Some (0, if 1 <? ll_cnt a then add_cnt (-1) a :: rest else rest)) as Hspec.
  { intros rest. unfold spec_release, find_lock. simpl. by rewrite decide_True by done. }
  split_and!; intros R Hc.
  - destruct (lr_entry _ _ _ _ R a) as (_ & Hid & Hb & _); [rewrite elem_of_cons; by left|].
    pose proof (Hspec []) as E. rewrite (proj2 (Z.ltb_ge _ _)) in E by lia.
    destruct (InitializeLocalLock_first _ _ _ _ _ _ _ Hnull R E) as (s1 & s' & R1 & Hrun & _ & Heq);
      [simpl; lia|].
    destruct (lr_free _ _ _ _ R1 (ll_lock a) Hid Hb) as (r & Hr & Hf); [apply not_elem_of_nil|].
    exists s', r. by rewrite Heq.
  - pose proof (Hspec [b]) as E. rewrite (proj2 (Z.ltb_ge _ _)) in E by lia.
    destruct (InitializeLocalLock_first _ _ _ _ _ _ _ Hnull R E)
      as (s1 & s' & R1 & Hrun & Hu & Heq); [simpl; lia|].
    destruct (lr_entry _ _ _ _ R1 b) as (_ & _ & _ & r & Hr & Hh); [rewrite elem_of_cons; by left|].
    exists s', r. by rewrite Heq.
  - pose proof (Hspec []) as E. rewrite (proj2 (Z.ltb_lt _ _)) in E by lia.
    destruct (InitializeLocalLock_first _ _ _ _ _ _ _ Hnull R E)
      as (s1 & s' & R1 & Hrun & Hu & Heq); [simpl; lia|].
    destruct (lr_entry _ _ _ _ R1 (add_cnt (-1) a)) as (_ & _ & _ & r & Hr & Hh);
      [rewrite elem_of_cons; by left|].
    exists s', r. by rewrite Heq.
Qed.

Lemma ReleaseLocalLock_leaks_witness :
  exists s s' r, lock_rep {[1; 2; 3]} {[3]} [mkLocal 1 RWLock_READ 1; mkLocal 2 RWLock_WRITE 1] s /\
    ReleaseLocalLock s = Some (tt, s') /\ localRWlockUsedPos s' = 0 /\
    rwlocks s' !! 2 = Some r /\ holds RWLock_WRITE (rwlock (P := nat * bool) r).
Proof.
  assert (NULL ∉ ({[1; 2; 3]} : gset Z)) as Hn by by vm_compute.
  destruct (run_lops_spec {[1; 2; 3]} {[3]} Hn
    [LAcquire 1 RWLock_READ; LAcquire 2 RWLock_WRITE] [] three_locks [0; 0]
    [mkLocal 1 RWLock_READ 1; mkLocal 2 RWLock_WRITE 1]) as (s & _ & R).
  - apply three_locks_rep.
  - repeat (apply Forall_cons; split; [by vm_compute|]). by apply Forall_nil.
  - by vm_compute.
  - destruct (proj1 (proj2 (ReleaseLocalLock_leaks {[1; 2; 3]} {[3]}
      (mkLocal 1 RWLock_READ 1) (mkLocal 2 RWLock_WRITE 1) s Hn)) R eq_refl)
      as (s' & r & H).
    exists s, s', r. split; [exact R|exact H].
Defined.
