(* ===== verification/Bytes.v ===== *)
(** * Bytes and memory blocks

    A block of memory is the list of its bytes, each a [Z] below 256. Loads and
    stores outside the block are faults ([None]); integers are little-endian. *)

From S2P Require Import Prelude.

(** ** Little-endian integers *)

Fixpoint le (n : nat) (z : Z) : list Z :=
  match n with
  | O => []
  | S n => z mod 256 :: le n (z / 256)
  end.

Fixpoint unle (bs : list Z) : Z :=
  match bs with
  | [] => 0
  | b :: bs => b + 256 * unle bs
  end.

Lemma length_le n z : length (le n z) = n.
Proof. revert z. induction n as [|n IH]; intros z; simpl; [done|by rewrite IH]. Qed.

Lemma unle_le n z : unle (le n z) = z mod 256 ^ Z.of_nat n.
Proof.
  revert z. induction n as [|n IH]; intros z; [simpl; by rewrite Z.mod_1_r|].
  rewrite Nat2Z.inj_succ, Z.pow_succ_r by lia. simpl. rewrite IH.
  rewrite Z.rem_mul_r by (try apply Z.pow_pos_nonneg; lia). done.
Qed.

Lemma unle_le4 z : unle (le 4 z) = u32 z.
Proof. apply (unle_le 4). Qed.

Lemma unle_le8 z : unle (le 8 z) = u64 z.
Proof. apply (unle_le 8). Qed.

Lemma unle_le4_i32 z : in_i32 z -> i32 (unle (le 4 z)) = z.
Proof. intros Hz. rewrite unle_le4, i32_u32. by apply i32_small. Qed.

(** ** Loads and stores *)

Definition load (p : list Z) (off n : Z) : option (list Z) :=
  if (0 <=? off) && (0 <=? n) && (off + n <=? Z.of_nat (length p))
  then Some (take (Z.to_nat n) (drop (Z.to_nat off) p)) else None.

Definition store (p : list Z) (off : Z) (bs : list Z) : option (list Z) :=
  if (0 <=? off) && (off + Z.of_nat (length bs) <=? Z.of_nat (length p))
  then Some (take (Z.to_nat off) p ++ bs ++ drop (Z.to_nat off + length bs) p) else None.

Definition load_u32 (p : list Z) (off : Z) : option Z := unle <$> load p off 4.
Definition load_i32 (p : list Z) (off : Z) : option Z := i32 <$> load_u32 p off.
Definition load_u64 (p : list Z) (off : Z) : option Z := unle <$> load p off 8.
Definition store32 (p : list Z) (off z : Z) : option (list Z) := store p off (le 4 z).

Lemma load_some p off n :
  0 <= off -> 0 <= n -> off + n <= Z.of_nat (length p) ->
  load p off n = Some (take (Z.to_nat n) (drop (Z.to_nat off) p)).
Proof.
  intros. unfold load. rewrite !(proj2 (Z.leb_le _ _)) by lia. done.
Qed.

Lemma load_inv p off n bs :
  load p off n = Some bs ->
  0 <= off /\ 0 <= n /\ off + n <= Z.of_nat (length p) /\
  bs = take (Z.to_nat n) (drop (Z.to_nat off) p) /\ Z.of_nat (length bs) = n.
Proof.
  unfold load. destruct (Z.leb_spec 0 off), (Z.leb_spec 0 n),
    (Z.leb_spec (off + n) (Z.of_nat (length p))); try done. simpl. intros [= <-].
  split_and!; try lia; [done|]. rewrite length_take, length_drop. lia.
Qed.

Lemma load_all p : load p 0 (Z.of_nat (length p)) = Some p.
Proof. rewrite load_some by lia. rewrite Nat2Z.id. simpl. by rewrite firstn_all. Qed.

Lemma drop_load c n : (n <= length c)%nat -> load c (Z.of_nat n) (Z.of_nat (length c) - Z.of_nat n) = Some (drop n c).
Proof.
  intros Hn. rewrite load_some by lia. f_equal. rewrite take_ge; [by rewrite Nat2Z.id|]. rewrite length_drop. lia.
Qed.

Lemma store_some p off bs :
  0 <= off -> off + Z.of_nat (length bs) <= Z.of_nat (length p) ->
  exists p', store p off bs = Some p' /\ length p' = length p.
Proof.
  intros. unfold store. rewrite !(proj2 (Z.leb_le _ _)) by lia. eexists. split; [done|].
  rewrite !length_app, length_take, length_drop. lia.
Qed.

Lemma store_inv p off bs p' :
  store p off bs = Some p' ->
  0 <= off /\ off + Z.of_nat (length bs) <= Z.of_nat (length p) /\
  p' = take (Z.to_nat off) p ++ bs ++ drop (Z.to_nat off + length bs) p /\ length p' = length p.
Proof.
  unfold store. destruct (Z.leb_spec 0 off),
    (Z.leb_spec (off + Z.of_nat (length bs)) (Z.of_nat (length p))); try done.
  simpl. intros [= <-]. split_and!; [done|done|done|].
  rewrite !length_app, length_take, length_drop. lia.
Qed.

Lemma store_length p off bs p' : store p off bs = Some p' -> length p' = length p.
Proof. intros H. by apply store_inv in H as (_ & _ & _ & H). Qed.

(** A load away from a store sees the old bytes. *)
Lemma load_store_ne p off bs p' o n :
  store p off bs = Some p' -> o + n <= off \/ off + Z.of_nat (length bs) <= o ->
  load p' o n = load p o n.
Proof.
  intros (H0 & H1 & Hp & Hlen)%store_inv Hor. unfold load. rewrite Hlen.
  destruct (Z.leb_spec 0 o), (Z.leb_spec 0 n), (Z.leb_spec (o + n) (Z.of_nat (length p)));
    try done. simpl. f_equal. subst p'. apply list_eq. intros i.
  rewrite !lookup_take. case_decide as Hi; [|done]. rewrite !lookup_drop.
  destruct Hor as [Hor|Hor].
  - rewrite lookup_app_l by (rewrite length_take; lia).
    rewrite lookup_take. by rewrite decide_True by lia.
  - rewrite lookup_app_r by (rewrite length_take; lia).
    rewrite lookup_app_r by (rewrite length_take; lia).
    rewrite lookup_drop, length_take. f_equal. lia.
Qed.

(** A load inside a store sees the stored bytes. *)
Lemma load_store_in p off bs p' k n :
  store p off bs = Some p' -> 0 <= k -> 0 <= n -> k + n <= Z.of_nat (length bs) ->
  load p' (off + k) n = load bs k n.
Proof.
  intros (H0 & H1 & Hp & Hlen)%store_inv Hk Hn Hkn.
  rewrite !load_some by lia. f_equal. subst p'. apply list_eq. intros i.
  rewrite !lookup_take. case_decide as Hi; [|done]. rewrite !lookup_drop.
  rewrite lookup_app_r by (rewrite length_take; lia). rewrite length_take.
  rewrite lookup_app_l by lia. f_equal. lia.
Qed.

Lemma load_store_eq p off bs p' n :
  store p off bs = Some p' -> n = Z.of_nat (length bs) -> load p' off n = Some bs.
Proof.
  intros H ->. rewrite <- (Z.add_0_r off) at 1.
  rewrite (load_store_in _ _ _ _ _ _ H) by lia. apply load_all.
Qed.

(** Two loads in a row. *)
Lemma load_load p off n bs k m :
  load p off n = Some bs -> 0 <= k -> 0 <= m -> k + m <= n -> load p (off + k) m = load bs k m.
Proof.
  intros (H0 & H1 & H2 & -> & Hl)%load_inv Hk Hm Hkm.
  rewrite !load_some by lia. f_equal. apply list_eq. intros i.
  rewrite !lookup_take. case_decide; [|done]. rewrite !lookup_drop, lookup_take, lookup_drop.
  rewrite decide_True by lia. f_equal. lia.
Qed.

Lemma store32_some p off z :
  0 <= off -> off + 4 <= Z.of_nat (length p) ->
  exists p', store32 p off z = Some p' /\ length p' = length p.
Proof. intros. apply store_some; rewrite ?length_le; lia. Qed.

Lemma load_u32_store p off z p' : store32 p off z = Some p' -> load_u32 p' off = Some (u32 z).
Proof.
  intros H. unfold load_u32. rewrite (load_store_eq _ _ _ _ 4 H) by by rewrite length_le.
  cbn [fmap option_fmap option_map]. by rewrite unle_le4.
Qed.

Lemma load_i32_store p off z p' :
  store32 p off z = Some p' -> in_i32 z -> load_i32 p' off = Some z.
Proof.
  intros H Hz. unfold load_i32. rewrite (load_u32_store _ _ _ _ H). cbn [fmap option_fmap option_map].
  by rewrite i32_u32, i32_small.
Qed.

Lemma load_u32_store_ne p off bs p' o :
  store p off bs = Some p' -> o + 4 <= off \/ off + Z.of_nat (length bs) <= o ->
  load_u32 p' o = load_u32 p o.
Proof. intros H Ho. unfold load_u32. by rewrite (load_store_ne _ _ _ _ _ _ H Ho). Qed.

Lemma load_i32_store_ne p off bs p' o :
  store p off bs = Some p' -> o + 4 <= off \/ off + Z.of_nat (length bs) <= o ->
  load_i32 p' o = load_i32 p o.
Proof. intros H Ho. unfold load_i32. by rewrite (load_u32_store_ne _ _ _ _ _ H Ho). Qed.

Lemma load_u32_bytes p off bs k :
  load p off (Z.of_nat (length bs)) = Some bs -> 0 <= k -> k + 4 <= Z.of_nat (length bs) ->
  load_u32 p (off + k) = load_u32 bs k.
Proof. intros H Hk Hl. unfold load_u32. by rewrite (load_load _ _ _ _ _ _ H). Qed.

(** Loads from a concatenation. *)
Lemma load_app_l bs1 bs2 k n :
  k + n <= Z.of_nat (length bs1) -> load (bs1 ++ bs2) k n = load bs1 k n.
Proof.
  intros Hl. unfold load. rewrite length_app.
  destruct (Z.leb_spec 0 k), (Z.leb_spec 0 n); try done. simpl.
  rewrite !(proj2 (Z.leb_le _ _)) by lia.
  f_equal. rewrite drop_app_le by lia. rewrite take_app_le; [done|]. rewrite length_drop. lia.
Qed.

Lemma load_app_r bs1 bs2 k n :
  Z.of_nat (length bs1) <= k -> load (bs1 ++ bs2) k n = load bs2 (k - Z.of_nat (length bs1)) n.
Proof.
  intros Hl. unfold load. rewrite length_app.
  destruct (Z.leb_spec 0 k), (Z.leb_spec 0 (k - Z.of_nat (length bs1))), (Z.leb_spec 0 n);
    try done; try lia. simpl.
  destruct (Z.leb_spec (k + n) (Z.of_nat (length bs1 + length bs2))),
    (Z.leb_spec (k - Z.of_nat (length bs1) + n) (Z.of_nat (length bs2))); try done; try lia.
  f_equal. rewrite drop_app_ge by lia. do 2 f_equal. lia.
Qed.

Lemma load_i32_bound p off z :
  load_i32 p off = Some z -> 0 <= off /\ off + 4 <= Z.of_nat (length p).
Proof.
  unfold load_i32, load_u32. destruct (load p off 4) as [bs|] eqn:H; [|done].
  apply load_inv in H. intros _. lia.
Qed.
