(* ===== verification/DataTypes.v ===== *)
(** * Data types and their operators

    Models [src/src/sqlcore/dictionary]: [dataTypes/dataTypes.c],
    [dataTypes/dataTypeProc.c], the five operator tables under
    [dataTypes/datatypes] and [express/expreCompute.c]. A [Data] union is its
    eight bytes as an unsigned number; pointers lead to byte blocks in a string
    memory, and a read through a pointer that leads nowhere, or past the end of
    a block, is a fault ([None]), as are the integer operations C leaves
    undefined. Floats are decoded from their bits and computed with the
    Standard Library's [SpecFloat]. *)

From Stdlib Require Import SpecFloat.
From stdpp Require Import strings.
From S2P Require Import Prelude Bytes.

(** ** Value types *)

Inductive valueType :=
  | VT_UNKNOWN | VT_POINTER | VT_INT | VT_INTEGER | VT_VARCHAR | VT_STRING
  | VT_CHAR | VT_DOUBLE | VT_FLOAT | VT_BOOL | VT_MAX.

#[export] Instance valueType_eq_dec : EqDecision valueType.
Proof. solve_decision. Defined.

Definition HAT_FALSE : Z := 0.
Definition HAT_TRUE : Z := 1.

(** [char] values of the bytes of a string. *)
Abbreviation bytes := (list Z).

(** [ColumnType], indexed by the type. *)
Definition ColumnType : list string :=
  ["UNKNOWN"; "pointer"; "int"; "integer"; "varchar"; "string"; "char"; "double"; "float"; "bool"]%string.

(** The scan does not stop at the first match. *)
Fixpoint GetColumnType_loop (names : list string) (i index : Z) (typename : string) : Z :=
  match names with
  | [] => index
  | n :: names => GetColumnType_loop names (i + 1) (if decide (typename = n) then i else index) typename
  end.

Definition GetColumnType (typename : string) : Z := GetColumnType_loop ColumnType 0 (-1) typename.

(** ** [Data] and [ExprDataInfo] *)

Definition pData (d : Z) : Z := d.
Definition iData (d : Z) : Z := i32 d.
Definition cData (d : Z) : Z := (d + 128) mod 256 - 128.
Definition fData (d : Z) : Z := d mod 2 ^ 32.
Definition dData (d : Z) : Z := d.

(** A store to a member leaves the other bytes of the union. *)
Definition set_low (w d v : Z) : Z := d - d mod 2 ^ w + v mod 2 ^ w.
Definition set_iData : Z -> Z -> Z := set_low 32.
Definition set_cData : Z -> Z -> Z := set_low 8.
Definition set_fData : Z -> Z -> Z := set_low 32.

Record ExprDataInfo := mkExpr { type : valueType; size : Z; data : Z }.

#[export] Instance ExprDataInfo_eq_dec : EqDecision ExprDataInfo.
Proof. solve_decision. Defined.

Definition set_size (n : Z) (e : ExprDataInfo) : ExprDataInfo := mkExpr (type e) n (data e).

(** ** C strings *)

Abbreviation strmem := (gmap Z (list Z)).

(** The index of the terminator. *)
Fixpoint cstrlen (bs : bytes) : option Z :=
  match bs with
  | [] => None
  | b :: bs => if decide (b = 0) then Some 0 else n ← cstrlen bs; Some (n + 1)
  end.

Definition hat_strlen (m : strmem) (p : Z) : option Z := bs ← m !! p; cstrlen bs.

Fixpoint strncmp_loop (n : nat) (s1 s2 : bytes) : option Z :=
  match n, s1, s2 with
  | O, _, _ => Some 0
  | S n, a :: s1, b :: s2 =>
      if decide (a = b) then if decide (a = 0) then Some 0 else strncmp_loop n s1 s2
      else Some (a - b)
  | _, _, _ => None
  end.

(** Nothing is read when [len] is zero. *)
Definition hat_strncmp (m : strmem) (p q len : Z) : option Z :=
  if decide (len = 0) then Some 0 else
  s1 ← m !! p; s2 ← m !! q; strncmp_loop (Z.to_nat len) s1 s2.

(** ** Floats *)

(** An IEEE number of [mw] mantissa and [ew] exponent bits. *)
Definition of_bits (mw ew bits : Z) : spec_float :=
  let m := bits mod 2 ^ mw in
  let e := (bits / 2 ^ mw) mod 2 ^ ew in
  let s := Z.odd (bits / 2 ^ (mw + ew)) in
  let emin := 3 - 2 ^ (ew - 1) - (mw + 1) in
  if decide (e = 2 ^ ew - 1) then
    if decide (m = 0) then S754_infinity s else S754_nan
  else
    let full := if decide (e = 0) then m else m + 2 ^ mw in
    match full with
    | Zpos p => S754_finite s p (if decide (e = 0) then emin else e - 1 + emin)
    | _ => S754_zero s
    end.

Definition float_of (bits : Z) : spec_float := of_bits 23 8 (bits mod 2 ^ 32).
Definition double_of (bits : Z) : spec_float := of_bits 52 11 (bits mod 2 ^ 64).

(** The exact value of a float as a double. *)
Definition widen (f : spec_float) : spec_float :=
  match f with
  | S754_finite s m e => binary_normalize 53 1024 (cond_Zopp s (Zpos m)) e s
  | _ => f
  end.

(** [1e-6] as a double, [0x3EB0C6F7A0B5ED8D]. *)
Definition FLOAT_EPSILON : spec_float := double_of 0x3EB0C6F7A0B5ED8D.

Definition float_sub (a b : spec_float) : spec_float := SFsub 24 128 a b.

(** ** [dataTypes.c] *)

(** What [pval] points to: its address and the bytes there. *)
Record pval := mkPval { pv_addr : Z; pv_bytes : bytes }.

Definition getDataTypeSize (v : pval) (type : valueType) : option Z :=
  match type with
  | VT_POINTER => Some 8
  | VT_INT | VT_INTEGER => Some 4
  | VT_VARCHAR | VT_STRING => cstrlen (pv_bytes v)
  | VT_CHAR => Some 1
  | VT_DOUBLE => Some 8
  | VT_FLOAT => Some 4
  | VT_BOOL => Some 1
  | _ => Some 0
  end.

(** The outer [option] is the fault, the inner one the [NULL] result. *)
Definition getDataInfo (v : option pval) (ty : valueType) (res : option ExprDataInfo)
    : option (option ExprDataInfo) :=
  match v, res with
  | Some v, Some r =>
      let with_data (f : option Z) : option (option ExprDataInfo) :=
        n ← getDataTypeSize v ty; d ← f; Some (Some (mkExpr ty n d)) in
      match ty with
      | VT_POINTER | VT_VARCHAR | VT_STRING => with_data (Some (pv_addr v))
      | VT_INT | VT_INTEGER => with_data (i ← load_i32 (pv_bytes v) 0; Some (set_iData (data r) i))
      | VT_CHAR => with_data (b ← pv_bytes v !! 0%nat; Some (set_cData (data r) b))
      | VT_DOUBLE => with_data (load_u64 (pv_bytes v) 0)
      | VT_FLOAT => with_data (i ← load_u32 (pv_bytes v) 0; Some (set_fData (data r) i))
      | VT_BOOL => with_data (b ← pv_bytes v !! 0%nat; Some (set_iData (data r) (cData b)))
      | _ => Some (Some (mkExpr ty (size r) (data r)))
      end
  | _, _ => Some None
  end.

(** A [NULL] expression counts as true. *)
Definition getDataBool (dataInfo : option ExprDataInfo) : bool :=
  match dataInfo with
  | None => true
  | Some e =>
      match type e with
      | VT_POINTER => bool_decide (pData (data e) <> 0)
      | VT_INT | VT_INTEGER => bool_decide (iData (data e) <> 0)
      | VT_VARCHAR | VT_STRING => bool_decide (pData (data e) <> 0 /\ size e > 0)
      | VT_CHAR => bool_decide (cData (data e) <> 0)
      | VT_DOUBLE => SFltb FLOAT_EPSILON (SFabs (double_of (dData (data e))))
      | VT_FLOAT => SFltb FLOAT_EPSILON (SFabs (widen (float_of (fData (data e)))))
      | VT_BOOL => bool_decide (iData (data e) <> 0)
      | _ => false
      end
  end.

(** [getDataInfo(&result, VT_INT, resExprData)] for a local [int]. *)
Definition int_result (v : Z) (res : ExprDataInfo) : option ExprDataInfo :=
  r ← getDataInfo (Some (mkPval 0 (le 4 v))) VT_INT (Some res); r.

Definition bool_result (b : bool) (res : ExprDataInfo) : option ExprDataInfo :=
  int_result (if b then HAT_TRUE else HAT_FALSE) res.

(** ** The operators

    An operator reads its two operands and fills [res]; the sizes the string
    operators store in their operands are not read again. *)

Definition Operator : Type := strmem -> ExprDataInfo -> ExprDataInfo -> ExprDataInfo -> option ExprDataInfo.

#[export] Instance in_i32_dec z : Decision (in_i32 z).
Proof. unfold in_i32. apply _. Defined.

(** [int] arithmetic is undefined where the result does not fit. *)
Definition checked (z : Z) : option Z := if decide (in_i32 z) then Some z else None.

Definition int_op (f : Z -> Z -> option Z) : Operator := fun _ l r res =>
  v ← f (iData (data l)) (iData (data r)); int_result v res.

Definition int_cmp (f : Z -> Z -> bool) : Operator :=
  int_op (fun a b => Some (if f a b then HAT_TRUE else HAT_FALSE)).

Definition int32GreaterOperator : Operator := int_cmp (fun a b => b <? a).
Definition int32GreaterEqualOperator : Operator := int_cmp (fun a b => b <=? a).
Definition int32EqualOperator : Operator := int_cmp (fun a b => a =? b).
Definition int32LessEqualOperator : Operator := int_cmp (fun a b => a <=? b).
Definition int32LessOperator : Operator := int_cmp (fun a b => a <? b).
Definition int32NotEqualOperator : Operator := int_cmp (fun a b => negb (a =? b)).
Definition int32PositiveOperator : Operator :=
  int_op (fun a _ => if 0 <=? a then Some a else checked (a * -1)).
Definition int32NegtiveOperator : Operator :=
  int_op (fun a _ => if 0 <? a then checked (a * -1) else Some a).
Definition int32PlusOperator : Operator := int_op (fun a b => checked (a + b)).
Definition int32MinusOperator : Operator := int_op (fun a b => checked (a - b)).
Definition int32MultiOperator : Operator := int_op (fun a b => checked (a * b)).

(** Division truncates; by zero it traps. *)
Definition int32DivisionOperator : Operator :=
  int_op (fun a b => if b =? 0 then None else checked (Z.quot a b)).
Definition int32ModOperator : Operator :=
  int_op (fun a b => if b =? 0 then None else c ← checked (Z.quot a b); Some (Z.rem a b)).

Definition getIntSize (value : option ExprDataInfo) : Z * option ExprDataInfo :=
  match value with None => (-1, None) | Some e => (4, Some (set_size 4 e)) end.

(** [bool] compares the integer member. *)
Definition boolEqualOperator : Operator := int_cmp (fun a b => a =? b).
Definition boolNotEqualOperator : Operator := int_cmp (fun a b => negb (a =? b)).
Definition getboolSize := getIntSize.

(** *** Strings *)

Definition stringGetSize (m : strmem) (value : option ExprDataInfo) : option (Z * option ExprDataInfo) :=
  match value with
  | None => Some (-1, None)
  | Some e =>
      if decide (pData (data e) = 0) then Some (-1, Some e)
      else n ← hat_strlen m (pData (data e)); Some (n, Some (set_size n e))
  end.

(** The length decides first; [longer], [shorter] and [same] are the outcomes. *)
Definition string_op (longer shorter : bool) (same : Z -> bool) : Operator := fun m l r res =>
  '(_, l') ← stringGetSize m (Some l);
  '(_, r') ← stringGetSize m (Some r);
  l' ← l'; r' ← r';
  if decide (size l' > size r') then bool_result longer res
  else if decide (size l' < size r') then bool_result shorter res
  else c ← hat_strncmp m (pData (data l)) (pData (data r)) (size l');
       bool_result (same c) res.

Definition stringGreaterOperator : Operator := string_op true false (fun c => 0 <? c).
Definition stringGreaterEqualOperator : Operator := string_op true false (fun c => 0 <=? c).
Definition stringEqualOperator : Operator := string_op false false (fun c => c =? 0).
Definition stringLessEqualOperator : Operator := string_op false true (fun c => c <=? 0).
Definition stringLessOperator : Operator := string_op false true (fun c => c <? 0).

(** *** Characters *)

Definition charGetSize (value : option ExprDataInfo) : Z * option ExprDataInfo :=
  match value with None => (-1, None) | Some e => (1, Some (set_size 1 e)) end.

Definition char_op (f : Z -> bool) : Operator := fun m l r res =>
  c ← hat_strncmp m (pData (data l)) (pData (data r)) 1; bool_result (f c) res.

Definition charGreaterOperator : Operator := char_op (fun c => 0 <? c).
Definition charGreaterEqualOperator : Operator := char_op (fun c => 0 <=? c).
Definition charEqualOperator : Operator := char_op (fun c => c =? 0).
Definition charLessEqualOperator : Operator := char_op (fun c => c <=? 0).
Definition charLessOperator : Operator := char_op (fun c => c <? 0).

(** *** Floats *)

Definition getfloatSize := getIntSize.

(** The difference is a [float]; the comparisons are made in [double]. *)
Definition float_op (f : spec_float -> bool) : Operator := fun _ l r res =>
  bool_result (f (widen (float_sub (float_of (fData (data l))) (float_of (fData (data r)))))) res.

Definition above (d : spec_float) : bool := SFltb FLOAT_EPSILON d.
Definition below (d : spec_float) : bool := SFltb d (SFopp FLOAT_EPSILON).
Definition near (d : spec_float) : bool := SFltb (SFabs d) FLOAT_EPSILON.

Definition floatGreaterOperator : Operator := float_op above.
Definition floatGreaterEqualOperator : Operator := float_op (fun d => above d || near d).
Definition floatEqualOperator : Operator := float_op near.
Definition floatLessEqualOperator : Operator := float_op (fun d => below d || near d).
Definition floatLessOperator : Operator := float_op below.

(** ** The tables *)

Inductive Op :=
  | LESS | LESS_EQUAL | EQUAL | GREATER_EQUAL | GREATER | NOT_EQUAL | POSITIVE | NEGATIVE
  | PLUS | MINUS | MULTIPLE | DIVISIION | MOD | BOOLVALUE | Op_Type_MAX.

#[export] Instance Op_eq_dec : EqDecision Op.
Proof. solve_decision. Defined.

Abbreviation optable := (Op -> option Operator).

Definition integer_opf : optable := fun op =>
  match op with
  | LESS => Some int32LessEqualOperator
  | LESS_EQUAL => Some int32LessEqualOperator
  | EQUAL => Some int32EqualOperator
  | GREATER_EQUAL => Some int32GreaterEqualOperator
  | GREATER => Some int32GreaterOperator
  | NOT_EQUAL => Some int32NotEqualOperator
  | POSITIVE => Some int32PositiveOperator
  | NEGATIVE => Some int32NegtiveOperator
  | PLUS => Some int32PlusOperator
  | MINUS => Some int32MinusOperator
  | MULTIPLE => Some int32MultiOperator
  | DIVISIION => Some int32DivisionOperator
  | MOD => Some int32ModOperator
  | _ => None
  end.

Definition string_opf : optable := fun op =>
  match op with
  | LESS => Some stringLessEqualOperator
  | LESS_EQUAL => Some stringLessEqualOperator
  | EQUAL => Some stringEqualOperator
  | GREATER_EQUAL => Some stringGreaterEqualOperator
  | GREATER => Some stringGreaterOperator
  | _ => None
  end.

Definition char_opf : optable := fun op =>
  match op with
  | LESS => Some charLessEqualOperator
  | LESS_EQUAL => Some charLessEqualOperator
  | EQUAL => Some charEqualOperator
  | GREATER_EQUAL => Some charGreaterEqualOperator
  | GREATER => Some charGreaterOperator
  | _ => None
  end.

Definition float_opf : optable := fun op =>
  match op with
  | LESS => Some floatLessEqualOperator
  | LESS_EQUAL => Some floatLessEqualOperator
  | EQUAL => Some floatEqualOperator
  | GREATER_EQUAL => Some floatGreaterEqualOperator
  | GREATER => Some floatGreaterOperator
  | _ => None
  end.

Definition bool_opf : optable := fun op =>
  match op with
  | EQUAL => Some boolEqualOperator
  | NOT_EQUAL => Some boolNotEqualOperator
  | _ => None
  end.

Definition DATATYPEPROC_VERSION : Z := 0x3A01.

Record DataTypeProcs := mkProcs { dtp_version : Z; dataType : valueType; opf : optable }.

Definition dataProcsEntry (t : valueType) : option DataTypeProcs :=
  match t with
  | VT_INT => Some (mkProcs DATATYPEPROC_VERSION VT_INT integer_opf)
  | VT_INTEGER => Some (mkProcs DATATYPEPROC_VERSION VT_INTEGER integer_opf)
  | VT_VARCHAR => Some (mkProcs DATATYPEPROC_VERSION VT_VARCHAR string_opf)
  | VT_STRING => Some (mkProcs DATATYPEPROC_VERSION VT_STRING string_opf)
  | VT_CHAR => Some (mkProcs DATATYPEPROC_VERSION VT_CHAR char_opf)
  | VT_DOUBLE | VT_FLOAT => Some (mkProcs DATATYPEPROC_VERSION VT_CHAR float_opf)
  | VT_BOOL => Some (mkProcs DATATYPEPROC_VERSION VT_BOOL bool_opf)
  | _ => None
  end.

Definition getDataTypeProcs (t : valueType) : option DataTypeProcs :=
  if decide (t <> VT_MAX /\ t <> VT_UNKNOWN) then dataProcsEntry t else None.

(** The inner [None] is the [NULL] result: [res] is then left as it was. *)
Definition ComputeExpr (m : strmem) (left right : option ExprDataInfo) (res : ExprDataInfo) (op : Op)
    : option (option ExprDataInfo) :=
  match left, right with
  | Some l, Some r =>
      match getDataTypeProcs (type l) with
      | None => Some None
      | Some typeprocs =>
          if decide (dtp_version typeprocs <> DATATYPEPROC_VERSION) then Some None
          else if decide (op <> Op_Type_MAX) then
            match opf typeprocs op with
            | Some f => e ← f m l r res; Some (Some e)
            | None => Some None
            end
          else Some None
      end
  | _, _ => Some None
  end.

(** ** Integer results *)

Lemma set_low_range w d v : 0 < w -> set_low w d v mod 2 ^ w = v mod 2 ^ w.
Proof.
  intros Hw. unfold set_low. pose proof (Z.pow_pos_nonneg 2 w ltac:(lia) ltac:(lia)) as Hp.
  pose proof (Z.div_mod d (2 ^ w) ltac:(lia)) as E.
  replace (d - d mod 2 ^ w + v mod 2 ^ w) with (v mod 2 ^ w + d / 2 ^ w * 2 ^ w) by lia.
  rewrite Z_mod_plus_full. by rewrite Zmod_mod.
Qed.

Lemma i32_mod d : i32 (d mod 2 ^ 32) = i32 d.
Proof. apply (i32_u32 d). Qed.

Lemma iData_set d v : in_i32 v -> iData (set_iData d v) = v.
Proof.
  intros Hv. unfold iData, set_iData. rewrite <- i32_mod, set_low_range, i32_mod by lia.
  by apply i32_small.
Qed.

(** The expression an operator leaves for the integer [v]. *)
Definition int_expr (v : Z) (res : ExprDataInfo) : ExprDataInfo :=
  mkExpr VT_INT 4 (set_iData (data res) v).

Lemma int_result_eq v res : in_i32 v -> int_result v res = Some (int_expr v res).
Proof.
  intros Hv. unfold int_result, getDataInfo, getDataTypeSize, load_i32, load_u32. cbn [pv_bytes].
  change 4 with (Z.of_nat (length (le 4 v))) at 1. rewrite load_all. cbn [fmap option_fmap option_map mbind option_bind].
  by rewrite unle_le4_i32.
Qed.

Lemma bool_result_eq b res : bool_result b res = Some (int_expr (Z.b2z b) res).
Proof. unfold bool_result. destruct b; by apply int_result_eq. Qed.

(** ** The meaning of the operators on integers

    [int_sem] is what each operator means; [as_coded] is the operator whose
    code stands in the slot the parser's operator selects. *)

Definition int_sem (op : Op) (a b : Z) : option Z :=
  match op with
  | LESS => Some (Z.b2z (a <? b))
  | LESS_EQUAL => Some (Z.b2z (a <=? b))
  | EQUAL => Some (Z.b2z (a =? b))
  | GREATER_EQUAL => Some (Z.b2z (b <=? a))
  | GREATER => Some (Z.b2z (b <? a))
  | NOT_EQUAL => Some (Z.b2z (negb (a =? b)))
  | POSITIVE => checked (Z.abs a)
  | NEGATIVE => checked (- Z.abs a)
  | PLUS => checked (a + b)
  | MINUS => checked (a - b)
  | MULTIPLE => checked (a * b)
  | DIVISIION => if b =? 0 then None else checked (Z.quot a b)
  | MOD => if b =? 0 then None else c ← checked (Z.quot a b); Some (Z.rem a b)
  | BOOLVALUE | Op_Type_MAX => None
  end.

Definition as_coded (op : Op) : Op := match op with LESS => LESS_EQUAL | _ => op end.

Definition int_type (t : valueType) : bool := bool_decide (t = VT_INT \/ t = VT_INTEGER).
Definition string_type (t : valueType) : bool := bool_decide (t = VT_VARCHAR \/ t = VT_STRING).

Lemma checked_range z v : checked z = Some v -> v = z /\ in_i32 v.
Proof. unfold checked. case_decide; [|done]. intros [= <-]. done. Qed.

Lemma int_sem_range op a b v : in_i32 a -> in_i32 b -> int_sem op a b = Some v -> in_i32 v.
Proof.
  intros Ha Hb. assert (Hc : forall z, checked z = Some v -> in_i32 v) by (intros z H; apply checked_range in H; tauto).
  assert (Hz : forall c : bool, Some (Z.b2z c) = Some v -> in_i32 v)
    by (intros c [= <-]; unfold in_i32; destruct c; simpl; lia).
  destruct op; simpl; try done; try apply Hz; try apply Hc; (destruct (b =? 0) eqn:E; [done|]); [apply Hc|].
  apply Z.eqb_neq in E. destruct (checked (Z.quot a b)); [|done]. intros [= <-].
  pose proof (Z.rem_bound_abs a b E). unfold in_i32 in *. lia.
Qed.

(** The code's operator tables compute [int_sem] of the coded operator; an
    operator without a result faults. *)
Lemma ComputeExpr_int m l r res op :
  int_type (type l) = true -> in_i32 (iData (data l)) -> in_i32 (iData (data r)) ->
  op <> BOOLVALUE -> op <> Op_Type_MAX ->
  ComputeExpr m (Some l) (Some r) res op =
    v ← int_sem (as_coded op) (iData (data l)) (iData (data r)); Some (Some (int_expr v res)).
Proof.
  intros Ht Ha Hb H1 H2. unfold int_type in Ht. apply bool_decide_eq_true in Ht.
  set (a := iData (data l)) in *. set (b := iData (data r)) in *.
  assert (exists f, integer_opf op = Some (int_op f) /\ f a b = int_sem (as_coded op) a b) as (f & Ef & Hf).
  { destruct op; try done; eexists; (split; [reflexivity|]); cbn [as_coded int_sem]; cbv beta; try done;
      unfold checked, in_i32 in *.
    - destruct (Z.leb_spec 0 a); [rewrite Z.abs_eq by lia; by rewrite decide_True by lia|].
      rewrite Z.abs_neq by lia. by replace (a * -1) with (- a) by lia.
    - destruct (Z.ltb_spec 0 a); [rewrite Z.abs_eq by lia; by replace (a * -1) with (- a) by lia|].
      rewrite Z.abs_neq, Z.opp_involutive by lia. by rewrite decide_True by lia. }
  assert (ComputeExpr m (Some l) (Some r) res op = e ← int_op f m l r res; Some (Some e)) as ->.
  { unfold ComputeExpr, getDataTypeProcs. destruct Ht as [-> | ->]; simpl;
      rewrite Ef; by rewrite (decide_True (P := op <> Op_Type_MAX)). }
  unfold int_op. fold a b. rewrite Hf.
  destruct (int_sem (as_coded op) a b) as [v|] eqn:E; [|done].
  cbn [mbind option_bind]. rewrite int_result_eq; [done|]. by eapply int_sem_range in E.
Qed.

(** ** The order of strings

    Shorter strings come first; strings of one length compare byte by byte. *)

Fixpoint lex (s1 s2 : bytes) : comparison :=
  match s1, s2 with
  | [], [] => Eq
  | [], _ => Lt
  | _, [] => Gt
  | a :: s1, b :: s2 => match a ?= b with Eq => lex s1 s2 | c => c end
  end.

Definition shortlex (s1 s2 : bytes) : comparison :=
  match (length s1 ?= length s2)%nat with Eq => lex s1 s2 | c => c end.

(** A string at [p]: its bytes, the terminator, and whatever follows. *)
Definition cstr (m : strmem) (p : Z) (s : bytes) : Prop :=
  p <> 0 /\ Forall (fun b => b <> 0) s /\ exists junk, m !! p = Some (s ++ 0 :: junk).

Lemma cstrlen_app s junk : Forall (fun b => b <> 0) s -> cstrlen (s ++ 0 :: junk) = Some (Z.of_nat (length s)).
Proof.
  induction 1 as [|b s Hb Hs IH]; [done|]. cbn [app cstrlen]. rewrite decide_False, IH by done.
  cbn. f_equal. lia.
Qed.

Lemma strncmp_lex s1 : forall s2 j1 j2, Forall (fun b => b <> 0) s1 -> length s1 = length s2 ->
  exists c, strncmp_loop (length s1) (s1 ++ j1) (s2 ++ j2) = Some c /\ (c ?= 0) = lex s1 s2.
Proof.
  induction s1 as [|a s1 IH]; intros [|b s2] j1 j2 Hs Hl; try done; [by exists 0|].
  apply Forall_cons in Hs as [Ha Hs]. cbn [length app strncmp_loop lex].
  destruct (decide (a = b)) as [->|Hab].
  - rewrite decide_False, Z.compare_refl by done. apply IH; [done|]. simpl in Hl. lia.
  - exists (a - b). split; [done|]. destruct (Z.compare_spec a b); [lia|by apply Z.compare_lt_iff; lia|].
    by apply Z.compare_gt_iff; lia.
Qed.

Lemma lex_eq s1 : forall s2, lex s1 s2 = Eq <-> s1 = s2.
Proof.
  induction s1 as [|a s1 IH]; intros [|b s2]; simpl; try done.
  destruct (Z.compare_spec a b) as [->|H|H].
  - rewrite IH. split; [by intros ->|by intros [= ->]].
  - split; [done|]. intros [= ->]. lia.
  - split; [done|]. intros [= ->]. lia.
Qed.

Lemma shortlex_eq s1 s2 : shortlex s1 s2 = Eq <-> s1 = s2.
Proof.
  unfold shortlex. destruct (Nat.compare_spec (length s1) (length s2)) as [H|H|H].
  - apply lex_eq.
  - split; [done|]. intros ->. lia.
  - split; [done|]. intros ->. lia.
Qed.

Definition str_sem (op : Op) (s1 s2 : bytes) : option bool :=
  match op with
  | LESS => Some (bool_decide (shortlex s1 s2 = Lt))
  | LESS_EQUAL => Some (bool_decide (shortlex s1 s2 <> Gt))
  | EQUAL => Some (bool_decide (s1 = s2))
  | GREATER_EQUAL => Some (bool_decide (shortlex s1 s2 <> Lt))
  | GREATER => Some (bool_decide (shortlex s1 s2 = Gt))
  | _ => None
  end.

Lemma stringGetSize_cstr m e s : cstr m (data e) s ->
  stringGetSize m (Some e) = Some (Z.of_nat (length s), Some (set_size (Z.of_nat (length s)) e)).
Proof.
  intros (Hp & Hs & junk & Hm). unfold stringGetSize, hat_strlen, pData. rewrite decide_False by done.
  rewrite Hm. cbn [mbind option_bind]. by rewrite cstrlen_app.
Qed.

Lemma string_op_eq longer shorter same m l r res s1 s2 f :
  cstr m (data l) s1 -> cstr m (data r) s2 ->
  f Gt = longer -> f Lt = shorter -> (forall c, same c = f (c ?= 0)) ->
  string_op longer shorter same m l r res = bool_result (f (shortlex s1 s2)) res.
Proof.
  intros H1 H2 Hg Hl Hsame.
  unfold string_op. rewrite (stringGetSize_cstr m l s1), (stringGetSize_cstr m r s2) by done.
  cbn [mbind option_bind size set_size]. unfold shortlex.
  destruct (Nat.compare_spec (length s1) (length s2)) as [E|E|E].
  - rewrite !decide_False by lia. unfold hat_strncmp, pData.
    destruct H1 as (_ & Hs1 & j1 & Hm1), H2 as (_ & _ & j2 & Hm2).
    destruct (strncmp_lex s1 s2 (0 :: j1) (0 :: j2) Hs1 E) as (c & Ec & Hc).
    destruct (decide (Z.of_nat (length s1) = 0)) as [Hz|Hz].
    + cbn [mbind option_bind]. rewrite Hsame. destruct s1, s2; try done; simpl in *; lia.
    + rewrite Hm1, Hm2. cbn [mbind option_bind]. rewrite Nat2Z.id, Ec. cbn [mbind option_bind].
      by rewrite Hsame, Hc.
  - rewrite decide_False, decide_True by lia. by rewrite Hl.
  - rewrite decide_True by lia. by rewrite Hg.
Qed.

(** The string operators decide [str_sem] of the coded operator; operators the
    table has no entry for give [NULL]. *)
Lemma ComputeExpr_string m l r res op s1 s2 :
  string_type (type l) = true -> cstr m (data l) s1 -> cstr m (data r) s2 ->
  ComputeExpr m (Some l) (Some r) res op =
    Some (match str_sem (as_coded op) s1 s2 with
          | Some b => Some (int_expr (Z.b2z b) res)
          | None => None
          end).
Proof.
  intros Ht H1 H2. unfold string_type in Ht. apply bool_decide_eq_true in Ht.
  assert (ComputeExpr m (Some l) (Some r) res op =
    match string_opf op with Some f => e ← f m l r res; Some (Some e) | None => Some None end) as ->.
  { unfold ComputeExpr, getDataTypeProcs. destruct Ht as [-> | ->]; simpl; by destruct op. }
  assert (Hop : forall longer shorter same f b, f (shortlex s1 s2) = b ->
    f Gt = longer -> f Lt = shorter -> (forall c, same c = f (c ?= 0)) ->
    (e ← string_op longer shorter same m l r res; Some (Some e)) = Some (Some (int_expr (Z.b2z b) res))).
  { intros longer shorter same f b <- Hg Hl Hs. rewrite (string_op_eq _ _ _ m l r res s1 s2 f) by done.
    by rewrite bool_result_eq. }
  destruct op; cbn [string_opf as_coded str_sem]; try done.
  - apply (Hop _ _ _ (fun c => bool_decide (c <> Gt))); try done. intros c. by destruct c.
  - apply (Hop _ _ _ (fun c => bool_decide (c <> Gt))); try done. intros c. by destruct c.
  - apply (Hop _ _ _ (fun c => bool_decide (c = Eq))); try done; [|intros c; by destruct c].
    apply bool_decide_ext, shortlex_eq.
  - apply (Hop _ _ _ (fun c => bool_decide (c <> Lt))); try done. intros c. by destruct c.
  - apply (Hop _ _ _ (fun c => bool_decide (c = Gt))); try done. intros c. by destruct c.
Qed.

(** ** Types *)

Definition comparison_op (op : Op) : bool :=
  match op with LESS | LESS_EQUAL | EQUAL | GREATER_EQUAL | GREATER | NOT_EQUAL => true | _ => false end.

(** The operators a type's table has an entry for. *)
Definition supports (t : valueType) (op : Op) : bool :=
  match t with
  | VT_INT | VT_INTEGER => negb (bool_decide (op = BOOLVALUE \/ op = Op_Type_MAX))
  | VT_VARCHAR | VT_STRING | VT_CHAR | VT_DOUBLE | VT_FLOAT => comparison_op op && negb (bool_decide (op = NOT_EQUAL))
  | VT_BOOL => bool_decide (op = EQUAL \/ op = NOT_EQUAL)
  | _ => false
  end.

(** An operand an operator of type [t] can read. *)
Definition readable (m : strmem) (t : valueType) (e : ExprDataInfo) : Prop :=
  match t with
  | VT_VARCHAR | VT_STRING => exists s, cstr m (data e) s
  | VT_CHAR => exists b bs, m !! data e = Some (b :: bs)
  | _ => True
  end.

Lemma strncmp_one a s1 b s2 : exists c, strncmp_loop 1 (a :: s1) (b :: s2) = Some c.
Proof. simpl. repeat case_decide; eauto. Qed.

Lemma ComputeExpr_supported m l r res op f :
  (p ← getDataTypeProcs (type l); opf p op) = Some f -> op <> Op_Type_MAX ->
  ComputeExpr m (Some l) (Some r) res op = e ← f m l r res; Some (Some e).
Proof.
  unfold ComputeExpr. destruct (getDataTypeProcs (type l)) as [p|] eqn:E; [|done]. simpl. intros Ef Hop.
  assert (dtp_version p = DATATYPEPROC_VERSION) as ->.
  { unfold getDataTypeProcs in E. case_decide; [|done]. destruct (type l); simpl in E; by simplify_eq. }
  rewrite decide_False by tauto. rewrite decide_True by done. by rewrite Ef.
Qed.

Lemma iData_range d : in_i32 (iData d).
Proof. apply i32_range. Qed.

Lemma float_op_bool m f l r res : exists b : bool, float_op f m l r res = Some (int_expr (Z.b2z b) res).
Proof. unfold float_op. eexists. apply bool_result_eq. Qed.

Lemma char_op_bool m f l r res a s1 b s2 : m !! data l = Some (a :: s1) -> m !! data r = Some (b :: s2) ->
  exists x : bool, char_op f m l r res = Some (int_expr (Z.b2z x) res).
Proof.
  intros H1 H2. unfold char_op, hat_strncmp, pData. rewrite decide_False by done. rewrite H1, H2.
  cbn [mbind option_bind]. change (Z.to_nat 1) with 1%nat. destruct (strncmp_one a s1 b s2) as [c ->].
  cbn [mbind option_bind]. eexists. apply bool_result_eq.
Qed.

Lemma ComputeExpr_unsupported m l r res op :
  supports (type l) op = false -> ComputeExpr m (Some l) (Some r) res op = Some None.
Proof.
  unfold ComputeExpr, getDataTypeProcs. intros H.
  destruct (type l), op; simpl in *; try done; discriminate.
Qed.

(** C27: the operators are typed. On operands its type can read, an operator the
    left operand's type has gives an integer expression of four bytes - a
    comparison always, and always 0 or 1; arithmetic exactly when the value
    fits an [int] and no divisor is zero, a fault otherwise. An operator the
    type does not have gives [NULL] and leaves the result as it was. *)
Theorem ComputeExpr_typed m l r res op :
  readable m (type l) l -> readable m (type l) r ->
  let out := ComputeExpr m (Some l) (Some r) res op in
  (supports (type l) op = false -> out = Some None) /\
  (supports (type l) op = true -> comparison_op op = true ->
     exists b : bool, out = Some (Some (int_expr (Z.b2z b) res))) /\
  (supports (type l) op = true -> comparison_op op = false ->
     match int_sem op (iData (data l)) (iData (data r)) with
     | Some v => in_i32 v /\ out = Some (Some (int_expr v res))
     | None => out = None
     end).
Proof.
  intros Hl Hr out. split_and!; [apply ComputeExpr_unsupported| |].
  - intros Hs Hc. unfold out.
    destruct (int_type (type l)) eqn:Ei.
    { rewrite ComputeExpr_int by (done || apply iData_range || (intros ->; done)).
      destruct op; try done; eexists; reflexivity. }
    destruct (string_type (type l)) eqn:Est.
    { assert (exists s1 s2, cstr m (data l) s1 /\ cstr m (data r) s2) as (s1 & s2 & H1 & H2).
      { unfold string_type in Est. apply bool_decide_eq_true in Est.
        destruct Est as [E|E]; rewrite E in Hl, Hr; destruct Hl, Hr; eauto. }
      rewrite (ComputeExpr_string m l r res op s1 s2) by done.
      unfold string_type in Est. apply bool_decide_eq_true in Est.
      destruct op; try done; try (by eexists). destruct Est as [E|E]; rewrite E in Hs; done. }
    destruct (type l) eqn:Et; try done.
    + destruct Hl as (a & s1 & H1), Hr as (b & s2 & H2).
      destruct op; try done; erewrite ComputeExpr_supported by (rewrite ?Et; done);
        unfold charLessEqualOperator, charEqualOperator, charGreaterEqualOperator, charGreaterOperator;
        (edestruct char_op_bool as [y Ey]; [exact H1|exact H2|rewrite Ey; by exists y]).
    + destruct op; try done; erewrite ComputeExpr_supported by (rewrite ?Et; done);
        unfold floatLessEqualOperator, floatEqualOperator, floatGreaterEqualOperator, floatGreaterOperator;
        edestruct (float_op_bool m) as [y Ey]; rewrite Ey; by exists y.
    + destruct op; try done; erewrite ComputeExpr_supported by (rewrite ?Et; done);
        unfold floatLessEqualOperator, floatEqualOperator, floatGreaterEqualOperator, floatGreaterOperator;
        edestruct (float_op_bool m) as [y Ey]; rewrite Ey; by exists y.
    + destruct op; try done; erewrite ComputeExpr_supported by (rewrite ?Et; done);
        unfold boolEqualOperator, boolNotEqualOperator, int_cmp, int_op; cbn [mbind option_bind].
      * fold (bool_result (iData (data l) =? iData (data r)) res). rewrite bool_result_eq. by eexists.
      * fold (bool_result (negb (iData (data l) =? iData (data r))) res). rewrite bool_result_eq. by eexists.
  - intros Hs Hc. assert (Ei : int_type (type l) = true).
    { destruct (type l), op; simpl in *; try done. }
    unfold out. rewrite ComputeExpr_int by (done || apply iData_range || (intros ->; by destruct (type l))).
    assert (as_coded op = op) as -> by by destruct op.
    destruct (int_sem op _ _) as [v|] eqn:E; [|done]. split; [|done].
    eapply int_sem_range; [| |exact E]; apply iData_range.
Qed.

Definition int_operand (v : Z) : ExprDataInfo := mkExpr VT_INT 4 (set_iData 0 v).

Lemma ComputeExpr_typed_witness :
  ComputeExpr ∅ (Some (int_operand 7)) (Some (int_operand (-2))) (int_operand 0) DIVISIION =
    Some (Some (int_expr (-3) (int_operand 0))) /\
  ComputeExpr ∅ (Some (int_operand 7)) (Some (int_operand 0)) (int_operand 0) DIVISIION = None.
Proof.
  split.
  - apply (proj2 (proj2 (proj2 (ComputeExpr_typed ∅ (int_operand 7) (int_operand (-2)) (int_operand 0) DIVISIION I I))
      eq_refl eq_refl)).
  - apply (proj2 (proj2 (ComputeExpr_typed ∅ (int_operand 7) (int_operand 0) (int_operand 0) DIVISIION I I))
      eq_refl eq_refl).
Defined.
