(* ===== verification/Net.v ===== *)
(** * Messages between client and server

    Models the message layer of [src/src/portal/netclient.c] ([ParserMsg]), the
    sending and receiving of [util/sock/tcpsock.c], the reading loop of the server
    ([processor/dispatch/servprocess.c]) and that of the client
    ([tools/tsql/tsqlclient.c], whose copy is [interface/cinterface/toadInterface.c]).
    A message is its type, the size of its body and the body; the stream of a socket
    arrives in pieces of any size, and [ParserMsg] keeps what is left of a piece in
    [restMsg]. A block of memory is the list of its bytes, a [memcpy] outside a block
    or of a negative size is a fault. *)

From S2P Require Import Prelude Bytes DataTypes.

(** ** portal.h, netclient.h: data *)

Definition PORT_BUFFER_SIZE : Z := 2048.
Definition MAX_COMMAND_LENGTH : Z := 2048.
Definition SOCKET_BUFFER_LEN : Z := 2048.
Definition MSG_HEADER_LEN : Z := 8.

(** [msgType] *)
Definition PORT_MSG_START : Z := 0.
Definition PORT_MSG_REQUEST : Z := 1.
Definition PORT_MSG_BEGIN : Z := 2.
Definition PORT_MSG_CONTINUE : Z := 3.
Definition PORT_MSG_FINISH : Z := 4.

(** [ClientStatus] and the flags above it *)
Definition CS_IDLE : Z := 0.
Definition CS_SENDCOMMD : Z := 1.
Definition CS_FINISH : Z := 3.
Definition CS_CLIENT_STATE_MASK : Z := 0x0000FFFF.
Definition CS_BLOCK : Z := 0x01000000.

Definition TS_BLOCK_READ : Z := 1.

Record MsgHeader := mkMsg { msg_type : Z; msg_size : Z; msg_body : list Z }.

Record ClientContext := mkClient { clientStatus : Z; restLen : Z; restMsg : list Z; cc_msg : MsgHeader }.

Definition set_status (f : Z -> Z) (c : ClientContext) : ClientContext :=
  mkClient (f (clientStatus c)) (restLen c) (restMsg c) (cc_msg c).
Definition set_restLen (n : Z) (c : ClientContext) : ClientContext :=
  mkClient (clientStatus c) n (restMsg c) (cc_msg c).
Definition set_restMsg (b : list Z) (c : ClientContext) : ClientContext :=
  mkClient (clientStatus c) (restLen c) b (cc_msg c).
Definition set_msg (m : MsgHeader) (c : ClientContext) : ClientContext :=
  mkClient (clientStatus c) (restLen c) (restMsg c) m.

(** [memset] of a message *)
Definition zero_msg : MsgHeader := mkMsg 0 0 (replicate 2048 0).

(** ** [memcpy]

    C leaves open what it does when the areas overlap: such a copy is a fault. *)

Definition memcpy (dst : list Z) (doff : Z) (src : list Z) (soff n : Z) : option (list Z) :=
  bs ← load src soff n; store dst doff bs.

(** What waits for the network ends, or waits when nothing arrives any more. *)
Inductive Wait A := Done (a : A) | Waiting (a : A).
Arguments Done {A}. Arguments Waiting {A}.

(** [memcpy(buf, buf + from, n)]: the areas are apart when [n <= from]. *)
Definition memcpy_down (buf : list Z) (from n : Z) : option (list Z) :=
  if n <=? from then memcpy buf 0 buf from n else None.

(** ** netclient.c: ParserMsg *)

Definition GetMsgIntValue (buf : list Z) (off : Z) : option (Z * Z) :=
  v ← load_i32 buf off; Some (v, 4).

(** The missing part of a header is taken from the new piece; with the bytes taken. *)
Definition fill_header (msg : list Z) (c : ClientContext) : option (ClientContext * Z) :=
  if restLen c <? MSG_HEADER_LEN then
    let tmpLen := MSG_HEADER_LEN - restLen c in
    r ← memcpy (restMsg c) (restLen c) msg 0 tmpLen;
    Some (set_restLen (restLen c + tmpLen) (set_restMsg r c), tmpLen)
  else Some (c, 0).

(** The missing part of a body, or [None] when it has not arrived. *)
Definition fill_body (msg : list Z) (msgOffset : Z) (c : ClientContext) : option (option (ClientContext * Z)) :=
  let len := Z.of_nat (length msg) in let size := msg_size (cc_msg c) in
  if restLen c + len - msgOffset <? size then Some None
  else if restLen c - MSG_HEADER_LEN <? size then
    let tmpLen := size - restLen c + MSG_HEADER_LEN in
    if tmpLen <=? len - msgOffset then
      r ← memcpy (restMsg c) (restLen c) msg msgOffset tmpLen;
      Some (Some (set_restLen (restLen c + tmpLen) (set_restMsg r c), msgOffset + tmpLen))
    else Some None
  else Some (Some (c, msgOffset)).

(** The whole message is copied out; with the offset behind it. *)
Definition take_msg (c : ClientContext) : option (ClientContext * Z) :=
  let m := cc_msg c in
  body ← memcpy (msg_body m) 0 (restMsg c) MSG_HEADER_LEN (msg_size m);
  let restOffset := MSG_HEADER_LEN + msg_size m in
  Some (set_restLen (restLen c - restOffset) (set_msg (mkMsg (msg_type m) (msg_size m) body) c), restOffset).

(** What is behind the message moves to the front, and the rest of the piece after it. *)
Definition save_rest (msg : list Z) (msgOffset restOffset : Z) (c : ClientContext) : option ClientContext :=
  r ← (if (0 <? restOffset) && (0 <? restLen c) then memcpy_down (restMsg c) restOffset (restLen c) else Some (restMsg c));
  let tmpLen := Z.of_nat (length msg) - msgOffset in
  let c := set_restMsg r c in
  if 0 <? tmpLen then
    let c := set_status (fun s => if PORT_BUFFER_SIZE - restLen c <? tmpLen then Z.lor s CS_BLOCK else Z.land s (Z.lnot CS_BLOCK)) c in
    r ← memcpy (restMsg c) (restLen c) msg msgOffset tmpLen;
    Some (set_restLen (restLen c + tmpLen) (set_restMsg r c))
  else Some c.

Definition ParserMsg (msg : list Z) (c : ClientContext) : option (Z * ClientContext) :=
  if Z.of_nat (length msg) + restLen c <? MSG_HEADER_LEN then Some (0, c)
  else
    '(c, msgOffset) ← fill_header msg c;
    '(ty, o) ← GetMsgIntValue (restMsg c) 0;
    '(sz, _) ← GetMsgIntValue (restMsg c) o;
    let c := set_msg (mkMsg ty sz (msg_body (cc_msg c))) c in
    if PORT_BUFFER_SIZE <=? sz then Some (-1, c)
    else
      filled ← fill_body msg msgOffset c;
      match filled with
      | Some (c, msgOffset) =>
          '(c, restOffset) ← take_msg c;
          c ← save_rest msg msgOffset restOffset c;
          Some (msg_size (cc_msg c), c)
      | None =>
          c ← save_rest msg msgOffset 0 (set_msg (mkMsg 0 0 (msg_body (cc_msg c))) c);
          Some (msg_size (cc_msg c), c)
      end.

(** ** tcpsock.c: sending and receiving

    [send n data] is what the [n]-th call of the socket accepts. The bytes that arrive
    are the pieces of [incoming]: [recv] takes at most its buffer of the first one, an
    empty piece is the end of the connection. *)

Inductive SendResult := Sent (n : Z) | Interrupted | SendFailed.

Record Sock := mkSock { sk_calls : nat; sk_out : list Z }.

Definition WriteData_send (send : nat -> list Z -> SendResult) (data : list Z) : ST Sock SendResult := fun k =>
  let r := send (sk_calls k) data in
  Some (r, mkSock (S (sk_calls k)) (sk_out k ++ match r with Sent n => take (Z.to_nat n) data | _ => [] end)).

(** The loop of [RETSEND]: its result is that of the last call. *)
Fixpoint WriteData_loop (send : nat -> list Z -> SendResult) (fuel : nat) (buf : list Z) (offset bufLen : Z) : ST Sock Z :=
  match fuel with
  | O => st_fault
  | S fuel =>
      data ← st_lift (load buf offset bufLen);
      r ← WriteData_send send data;
      match r with
      | Sent ret => if ret =? bufLen then mret ret else WriteData_loop send fuel buf (offset + ret) (bufLen - ret)
      | Interrupted => WriteData_loop send fuel buf offset bufLen
      | SendFailed => mret (-1)
      end
  end.

Definition WriteData (send : nat -> list Z -> SendResult) (fuel : nat) (buf : list Z) (bufLen : Z) : ST Sock Z :=
  WriteData_loop send fuel buf 0 bufLen.

(** The structure of a message in memory. *)
Definition msg_bytes (m : MsgHeader) : list Z := le 4 (msg_type m) ++ le 4 (msg_size m) ++ msg_body m.

(** A message is written from the start of its structure, header and body. *)
Definition write_msg (send : nat -> list Z -> SendResult) (fuel : nat) (m : MsgHeader) : ST Sock Z :=
  WriteData send fuel (msg_bytes m) (msg_size m + MSG_HEADER_LEN).

(** [None]: nothing arrives any more. *)
Definition ReadData (bufLen : Z) (incoming : list (list Z)) : option (Z * list Z * list (list Z)) :=
  match incoming with
  | [] => None
  | [] :: more => Some (-1, [], [] :: more)
  | piece :: more =>
      let rest := drop (Z.to_nat bufLen) piece in
      Some (Z.of_nat (length (take (Z.to_nat bufLen) piece)), take (Z.to_nat bufLen) piece,
        match rest with [] => more | _ => rest :: more end)
  end.

(** ** servprocess.c: the server reads a command

    The loop ends with a command, with the end of the connection, or it waits. *)

Fixpoint ReadMsg_loop (fuel : nat) (incoming : list (list Z)) (client : ClientContext) :
    option (Wait (Z * ClientContext * list (list Z))) :=
  match fuel with
  | O => None
  | S fuel =>
      match ReadData MAX_COMMAND_LENGTH incoming with
      | None => Some (Waiting (0, client, incoming))
      | Some (len, command, incoming) =>
          if len <=? 0 then Some (Done (len, client, incoming))
          else
            '(len, client) ← ParserMsg command client;
            if len <=? 0 then ReadMsg_loop fuel incoming client else Some (Done (len, client, incoming))
      end
  end.

Definition ReadMsg (fuel : nat) (incoming : list (list Z)) (client : ClientContext) :=
  ReadMsg_loop fuel incoming (set_msg zero_msg client).

(** ** tsqlclient.c: the client reads the answer

    [shown] are the lines [ShowResult] prints: [printf] stops at the first zero byte. *)

Definition c_string (bs : list Z) : option (list Z) := n ← cstrlen bs; Some (take (Z.to_nat n) bs).

Record Client := mkCl { cl_ctx : ClientContext; info_message : Z; incoming : list (list Z); shown : list (list Z) }.

Definition ShowResult (message : list Z) (len : Z) (shown : list (list Z)) : option (list (list Z)) :=
  if len <=? 0 then Some shown else s ← c_string message; Some (shown ++ [s]).

Fixpoint ReadMessage_loop (fuel : nat) (message : list Z) (client : ClientContext) (shown : list (list Z)) :
    option (ClientContext * list (list Z)) :=
  match fuel with
  | O => None
  | S fuel =>
      '(ret, client) ← ParserMsg message client;
      let m := cc_msg client in
      if msg_type m =? PORT_MSG_FINISH then Some (set_status (fun s => Z.lor s CS_FINISH) client, shown)
      else
        shown ← ShowResult (msg_body m) (msg_size m) shown;
        let client := set_msg zero_msg client in
        if 0 <? ret then ReadMessage_loop fuel [] client shown else Some (client, shown)
  end.

(** Every turn but the last takes a header from [restMsg]. *)
Definition ReadMessage_fuel : nat := 514.

Definition ReadMessage (len : Z) (buffer : list Z) (s : Client) : option (Z * Client) :=
  let reading := Z.land (info_message s) TS_BLOCK_READ =? 0 in
  if reading && (len <=? 0) then Some (-1, s)
  else
    '(client, shown) ← ReadMessage_loop ReadMessage_fuel (if reading then buffer else []) (cl_ctx s) (shown s);
    let message := if Z.land (clientStatus client) CS_BLOCK =? 0 then Z.land (info_message s) (Z.lnot TS_BLOCK_READ)
                   else Z.lor (info_message s) TS_BLOCK_READ in
    Some (0, mkCl client message (incoming s) shown).

(** One event of the socket: [epoll_wait] returns when bytes have arrived or the
    connection has ended. *)
Definition EpollProcess (s : Client) : option (Wait (Z * Client)) :=
  match incoming s with
  | [] => Some (Waiting (0, s))
  | _ =>
      if Z.land (info_message s) TS_BLOCK_READ =? 0 then
        match ReadData SOCKET_BUFFER_LEN (incoming s) with
        | Some (len, buffer, more) => r ← ReadMessage len buffer (mkCl (cl_ctx s) (info_message s) more (shown s)); Some (Done r)
        | None => Some (Waiting (0, s))
        end
      else r ← ReadMessage 0 [] s; Some (Done r)
  end.

Fixpoint ProcessClient_loop (fuel : nat) (s : Client) : option (Wait (Z * Client)) :=
  match fuel with
  | O => None
  | S fuel =>
      w ← EpollProcess s;
      match w with
      | Waiting r => Some (Waiting r)
      | Done (ret, s) =>
          if (0 <=? ret) && negb (Z.land (clientStatus (cl_ctx s)) CS_CLIENT_STATE_MASK =? CS_FINISH)
          then ProcessClient_loop fuel s else Some (Done (ret, s))
      end
  end.

Definition with_status (f : Z -> Z) (s : Client) : Client :=
  mkCl (set_status f (cl_ctx s)) (info_message s) (incoming s) (shown s).

(** The waiting part of [ProcessClient], after the command is sent. *)
Definition ProcessClient (fuel : nat) (s : Client) : option (Wait (Z * Client)) :=
  let s := with_status (fun st => Z.lor st CS_SENDCOMMD) s in
  w ← ProcessClient_loop fuel (mkCl (cl_ctx s) 0 (incoming s) (shown s));
  Some match w with Done (ret, s) => Done (ret, with_status (fun _ => CS_IDLE) s) | Waiting r => Waiting r end.
(** ** Bytes in the buffer *)

Abbreviation zlen l := (Z.of_nat (length l)).

Lemma store_app (r j bs : list Z) : (length bs <= length j)%nat ->
  store (r ++ j) (zlen r) bs = Some (r ++ bs ++ drop (length bs) j).
Proof.
  intros. unfold store. rewrite length_app, !(proj2 (Z.leb_le _ _)) by lia. cbn [andb]. rewrite Nat2Z.id.
  by rewrite take_app_length, drop_app_add.
Qed.

Lemma load_mid (a b z : list Z) : load (a ++ b ++ z) (zlen a) (zlen b) = Some b.
Proof.
  rewrite load_some by (rewrite ?length_app; lia). rewrite !Nat2Z.id. by rewrite drop_app_length, take_app_length.
Qed.

Lemma memcpy_app (r j a b z : list Z) : (length b <= length j)%nat ->
  memcpy (r ++ j) (zlen r) (a ++ b ++ z) (zlen a) (zlen b) = Some (r ++ b ++ drop (length b) j).
Proof. intros. unfold memcpy. rewrite load_mid. cbn [mbind option_bind]. by apply store_app. Qed.

(** The two numbers at the start of a message. *)
Definition headed (ty sz : Z) (b : list Z) : Prop := load_i32 b 0 = Some ty /\ load_i32 b 4 = Some sz.

Lemma headed_app ty sz b z : (8 <= length b)%nat -> headed ty sz (b ++ z) <-> headed ty sz b.
Proof.
  intros. unfold headed, load_i32, load_u32. by rewrite !load_app_l by lia.
Qed.

(** What a context keeps of the stream. *)
Definition holds (r : list Z) (c : ClientContext) : Prop :=
  restLen c = zlen r /\ length (restMsg c) = 4096%nat /\ exists junk, restMsg c = r ++ junk.

Lemma holds_le r c : holds r c -> (length r <= 4096)%nat.
Proof. intros (_ & L & j & E). rewrite E in L. rewrite length_app in L. lia. Qed.

(** Appending a part of a piece to it. *)
Lemma holds_append r c (a b z : list Z) n : holds r c -> (length r + length b <= 4096)%nat -> n = zlen b ->
  exists m, memcpy (restMsg c) (restLen c) (a ++ b ++ z) (zlen a) n = Some m /\
    holds (r ++ b) (set_restLen (restLen c + n) (set_restMsg m c)).
Proof.
  intros (Hl & L & j & E) Hb ->. rewrite E, length_app in L. rewrite E, Hl.
  eexists. split; [apply memcpy_app; lia|]. split_and!; cbn [restLen set_restLen restMsg set_restMsg].
  - rewrite length_app. lia.
  - rewrite !length_app, length_drop. lia.
  - eexists. by rewrite <- app_assoc.
Qed.

Lemma fill_header_run r msg c : holds r c -> (8 <= length r + length msg)%nat ->
  let k := (8 - length r)%nat in
  exists c', fill_header msg c = Some (c', Z.of_nat k) /\ holds (r ++ take k msg) c' /\
    clientStatus c' = clientStatus c /\ cc_msg c' = cc_msg c.
Proof.
  intros Hh H8 k. unfold fill_header, MSG_HEADER_LEN. pose proof Hh as (Hl & _). pose proof (holds_le _ _ Hh).
  destruct (Z.ltb_spec (restLen c) 8) as [Hlt|Hge].
  - assert (length (take k msg) = k) as Hk by (rewrite length_take; lia).
    destruct (holds_append r c [] (take k msg) (drop k msg) (8 - restLen c)) as (m & E & Hm); [done|lia|lia|].
    cbn [app length] in E. rewrite take_drop in E. change (Z.of_nat 0) with 0 in E. rewrite E. cbn [mbind option_bind].
    eexists. split; [repeat f_equal; lia|]. by split_and!.
  - assert (k = 0%nat) as -> by lia. rewrite take_0, app_nil_r. by exists c.
Qed.

Lemma take_msg_run r c : holds r c -> length (msg_body (cc_msg c)) = 2048%nat ->
  let sz := msg_size (cc_msg c) in 0 <= sz <= 2048 -> 8 + sz <= zlen r ->
  exists c', take_msg c = Some (c', 8 + sz) /\
    restMsg c' = restMsg c /\ restLen c' = zlen r - (8 + sz) /\ clientStatus c' = clientStatus c /\
    cc_msg c' = mkMsg (msg_type (cc_msg c)) sz (take (Z.to_nat sz) (drop 8 r) ++ drop (Z.to_nat sz) (msg_body (cc_msg c))).
Proof.
  intros (Hl & L & j & E) Lb sz Hsz Hr. unfold take_msg, MSG_HEADER_LEN. fold sz.
  set (bd := take (Z.to_nat sz) (drop 8 r)).
  assert (length bd = Z.to_nat sz) as Lbd by (unfold bd; rewrite length_take, length_drop; lia).
  assert (restMsg c = take 8 r ++ bd ++ (drop (Z.to_nat sz) (drop 8 r) ++ j)) as E'.
  { rewrite E. unfold bd. rewrite (app_assoc (take (Z.to_nat sz) _)), take_drop, app_assoc, take_drop. done. }
  assert (memcpy (msg_body (cc_msg c)) 0 (restMsg c) 8 sz = Some (bd ++ drop (Z.to_nat sz) (msg_body (cc_msg c)))) as ->.
  { rewrite E'. replace 8 with (zlen (take 8 r)) at 1 by (rewrite length_take; lia). replace sz with (zlen bd) at 2 by lia.
    rewrite <- Lbd. change 0 with (zlen (@nil Z)). rewrite <- (app_nil_l (msg_body (cc_msg c))) at 1. by rewrite memcpy_app by lia. }
  cbn [mbind option_bind]. eexists. split; [done|]. by split_and!; cbn; try lia.
Qed.

(** ** One step of the parser *)


(** The flags after [tail] bytes have been put behind others, [n] in all. *)
Definition flags_after (tail n : nat) (s : Z) : Z :=
  if decide (0 < tail)%nat then if decide (2048 < n)%nat then Z.lor s CS_BLOCK else Z.land s (Z.lnot CS_BLOCK) else s.

Lemma memcpy_down_run (a r j : list Z) : (length r <= length a)%nat ->
  memcpy_down (a ++ r ++ j) (zlen a) (zlen r) = Some (r ++ drop (length r) (a ++ r ++ j)).
Proof.
  intros Hle. unfold memcpy_down. rewrite (proj2 (Z.leb_le _ _)) by lia.
  unfold memcpy. rewrite load_mid. cbn [mbind option_bind].
  pose proof (store_app [] (a ++ r ++ j) r) as Hs. cbn [app] in Hs. apply Hs. rewrite !length_app. lia.
Qed.

Lemma save_rest_run (a r j msg : list Z) o c :
  restMsg c = a ++ r ++ j -> length (restMsg c) = 4096%nat -> restLen c = zlen r -> (o <= length msg)%nat ->
  (length r + (length msg - o) <= 4096)%nat -> a = [] \/ (length r <= length a)%nat ->
  exists c', save_rest msg (Z.of_nat o) (zlen a) c = Some c' /\ holds (r ++ drop o msg) c' /\
    cc_msg c' = cc_msg c /\ clientStatus c' = flags_after (length msg - o) (length r + (length msg - o)) (clientStatus c).
Proof.
  intros E L Hl Ho Hcap Hover. unfold save_rest.
  assert (exists m, (if (0 <? zlen a) && (0 <? restLen c) then memcpy_down (restMsg c) (zlen a) (restLen c) else Some (restMsg c)) = Some m /\
    holds r (set_restMsg m c)) as (m & -> & Hm).
  { rewrite Hl. destruct (_ && _) eqn:Hc.
    - apply andb_true_iff in Hc as [Ha Hr]. apply Z.ltb_lt in Ha, Hr. destruct Hover as [->|Hle]; [simpl in Ha; lia|].
      rewrite E, memcpy_down_run by done. eexists. split; [done|]. split_and!; [done| |by eexists].
      cbn [restMsg set_restMsg]. rewrite length_app, length_drop, <- E, L. rewrite E, !length_app in L. lia.
    - eexists. split; [done|]. split_and!; [done|done|]. cbn [restMsg set_restMsg]. rewrite E.
      apply andb_false_iff in Hc as [Hc|Hc]; apply Z.ltb_ge in Hc.
      + assert (a = []) as -> by (apply length_zero_iff_nil; lia). by eexists.
      + assert (r = []) as -> by (apply length_zero_iff_nil; lia). by eexists. }
  cbn [mbind option_bind]. unfold flags_after.
  destruct (Z.ltb_spec 0 (zlen msg - Z.of_nat o)) as [Ht|Ht].
  - rewrite decide_True by lia. set (st := fun _ : Z => _).
    assert (holds r (set_status st (set_restMsg m c))) as Hm' by (destruct Hm as (? & ? & ?); by split_and!).
    assert (length (take o msg) = o) as Lo by (rewrite length_take; lia).
    destruct (holds_append r _ (take o msg) (drop o msg) [] (zlen msg - Z.of_nat o) Hm') as (m2 & E2 & Hm2); [rewrite length_drop; lia..|].
    rewrite app_nil_r, take_drop, Lo in E2. rewrite E2. cbn [mbind option_bind]. eexists. split; [done|]. split; [exact Hm2|]. split; [done|].
    cbn. unfold st, PORT_BUFFER_SIZE. cbn. rewrite Hl. destruct (Z.ltb_spec (2048 - zlen r) (zlen msg - Z.of_nat o)); [by rewrite decide_True by lia|by rewrite decide_False by lia].
  - rewrite decide_False by lia. rewrite drop_ge, app_nil_r by lia. by eexists.
Qed.

(** A message that has arrived is taken out and what is behind it is kept; of one
    that has not everything is kept and nothing is reported. *)
Definition parsed (r msg : list Z) (ty sz : Z) (c c' : ClientContext) : Prop :=
  let b := r ++ msg in
  if decide (8 + sz <= zlen b) then
    holds (drop (8 + Z.to_nat sz) b) c' /\
    cc_msg c' = mkMsg ty sz (take (Z.to_nat sz) (drop 8 b) ++ drop (Z.to_nat sz) (msg_body (cc_msg c))) /\
    clientStatus c' = flags_after (length msg - (8 + Z.to_nat sz - length r)) (length b - (8 + Z.to_nat sz)) (clientStatus c)
  else
    holds b c' /\ cc_msg c' = mkMsg 0 0 (msg_body (cc_msg c)) /\
    clientStatus c' = flags_after (length msg - (8 - length r)) (length b) (clientStatus c).

Lemma fill_body_run r msg k c : holds r c -> (8 <= length r)%nat -> (k <= length msg)%nat ->
  let sz := msg_size (cc_msg c) in 0 <= sz < 2048 -> (length r + (length msg - k) <= 4096)%nat ->
  let k2 := (8 + Z.to_nat sz - length r)%nat in
  if decide (8 + sz <= zlen r + (zlen msg - Z.of_nat k)) then
    exists c', fill_body msg (Z.of_nat k) c = Some (Some (c', Z.of_nat (k + k2))) /\
      holds (r ++ take k2 (drop k msg)) c' /\ clientStatus c' = clientStatus c /\ cc_msg c' = cc_msg c
  else fill_body msg (Z.of_nat k) c = Some None.
Proof.
  intros Hh H8 Hk sz Hsz Hcap k2. unfold fill_body, MSG_HEADER_LEN. fold sz. pose proof Hh as (Hl & _). rewrite Hl.
  destruct (decide _) as [Hc|Hc].
  - rewrite (proj2 (Z.ltb_ge _ _)) by lia. destruct (Z.ltb_spec (zlen r - 8) sz) as [Hlt|Hge].
    + rewrite (proj2 (Z.leb_le _ _)) by lia.
      assert (length (take k msg) = k) as Lk by (rewrite length_take; lia).
      assert (length (take k2 (drop k msg)) = k2) as Lk2 by (rewrite length_take, length_drop; lia).
      destruct (holds_append r c (take k msg) (take k2 (drop k msg)) (drop k2 (drop k msg)) (sz - zlen r + 8))
        as (m & E & Hm); [done|lia|lia|].
      rewrite !take_drop, Lk, Hl in E. rewrite E. cbn [mbind option_bind]. replace (Z.of_nat (k + k2)) with (Z.of_nat k + (sz - zlen r + 8)) by lia.
      eexists. split; [done|]. rewrite Hl in Hm. by split_and!.
    + assert (k2 = 0%nat) as -> by lia. rewrite take_0, app_nil_r, Nat.add_0_r. by exists c.
  - destruct (Z.ltb_spec (zlen r + zlen msg - Z.of_nat k) sz); [done|].
    rewrite (proj2 (Z.ltb_lt _ _)) by lia. by rewrite (proj2 (Z.leb_gt _ _)) by lia.
Qed.

Lemma ParserMsg_run r msg ty sz c : holds r c -> length (msg_body (cc_msg c)) = 2048%nat ->
  (8 <= length (r ++ msg) <= 4096)%nat -> headed ty sz (r ++ msg) -> 0 <= sz < 2048 -> zlen r <= 2 * (8 + sz) ->
  exists c', ParserMsg msg c = Some (if decide (8 + sz <= zlen (r ++ msg)) then sz else 0, c') /\ parsed r msg ty sz c c'.
Proof.
  intros Hh Lb Hlen Hd Hsz Hover. rewrite length_app in Hlen. unfold ParserMsg. pose proof Hh as (Hl & _).
  rewrite (proj2 (Z.ltb_ge _ _)) by (unfold MSG_HEADER_LEN; lia).
  destruct (fill_header_run r msg c Hh) as (c1 & E1 & H1 & Hst1 & Hm1); [lia|]. set (k := (8 - length r)%nat) in *.
  rewrite E1. cbn [mbind option_bind]. set (r1 := r ++ take k msg) in *.
  assert (length r1 = (length r + k)%nat) as Lr1 by (unfold r1; rewrite length_app, length_take; lia).
  assert (r ++ msg = r1 ++ drop k msg) as Hb by (unfold r1; by rewrite <- app_assoc, take_drop).
  assert (headed ty sz (restMsg c1)) as [Hty Hz].
  { destruct H1 as (_ & _ & j & ->). apply headed_app; [lia|]. rewrite Hb in Hd. by apply headed_app in Hd; [|lia]. }
  unfold GetMsgIntValue. rewrite Hty. cbn [mbind option_bind]. rewrite Hz. cbn [mbind option_bind].
  rewrite (proj2 (Z.leb_gt _ _)) by (unfold PORT_BUFFER_SIZE; lia). set (c2 := set_msg _ c1).
  assert (holds r1 c2) as H2 by (destruct H1 as (? & ? & ?); by split_and!).
  pose proof (fill_body_run r1 msg k c2 H2 ltac:(lia) ltac:(lia)) as Hf. cbv zeta in Hf. change (msg_size (cc_msg c2)) with sz in Hf.
  specialize (Hf Hsz ltac:(lia)). unfold parsed. cbv zeta. rewrite !length_app.
  assert (8 + sz <= zlen r1 + (zlen msg - Z.of_nat k) <-> 8 + sz <= Z.of_nat (length r + length msg)) as Hiff by lia.
  destruct (decide (8 + sz <= Z.of_nat (length r + length msg))) as [Hc|Hc].
  - rewrite decide_True in Hf by (by apply Hiff). destruct Hf as (c3 & E3 & H3 & Hst3 & Hm3). rewrite E3. cbn [mbind option_bind].
    set (k2 := (8 + Z.to_nat sz - length r1)%nat) in *. set (r2 := r1 ++ take k2 (drop k msg)) in *.
    assert (r ++ msg = r2 ++ drop (k + k2) msg) as Hb2.
    { unfold r2. by rewrite <- app_assoc, <- drop_drop, take_drop. }
    assert (length r2 = (length r1 + k2)%nat) as Lr2 by (unfold r2; rewrite length_app, length_take, length_drop; lia).
    assert (msg_body (cc_msg c3) = msg_body (cc_msg c)) as Hbody by (rewrite Hm3; unfold c2; cbn; by rewrite Hm1).
    assert (msg_size (cc_msg c3) = sz) as Hsz3 by by rewrite Hm3.
    destruct (take_msg_run r2 c3 H3) as (c4 & E4 & Hr4 & Hl4 & Hst4 & Hm4); [by rewrite Hbody|rewrite Hsz3; lia|rewrite Hsz3; lia|].
    rewrite Hsz3 in E4, Hl4, Hm4. rewrite E4. cbn [mbind option_bind].
    destruct H3 as (_ & L3 & j & Ej).
    assert (zlen (take (8 + Z.to_nat sz) r2) = 8 + sz) as La by (rewrite length_take; lia). rewrite <- La.
    destruct (save_rest_run (take (8 + Z.to_nat sz) r2) (drop (8 + Z.to_nat sz) r2) j msg (k + k2) c4) as (c5 & E5 & H5 & Hm5 & Hst5).
    + rewrite Hr4, Ej, app_assoc, take_drop. done.
    + by rewrite Hr4.
    + rewrite Hl4, length_drop. lia.
    + lia.
    + rewrite length_drop. lia.
    + right. rewrite length_drop, length_take. lia.
    + rewrite E5. cbn [mbind option_bind]. rewrite Hm5, Hm4. eexists. split; [done|]. split_and!.
      * rewrite Hb2, drop_app_le by lia. exact H5.
      * rewrite Hm5, Hm4, Hbody, Hb2, Hm3. do 2 f_equal. rewrite drop_app_le by lia. rewrite take_app_le by (rewrite length_drop; lia). done.
      * rewrite Hst5, Hst4, Hst3, length_drop. unfold c2. cbn. rewrite Hst1. f_equal; lia.
  - rewrite decide_False in Hf by (by rewrite Hiff). rewrite Hf. cbn [mbind option_bind].
    destruct H2 as (Hl2 & L2 & j & Ej).
    destruct (save_rest_run [] r1 j msg k (set_msg (mkMsg 0 0 (msg_body (cc_msg c2))) c2)) as (c5 & E5 & H5 & Hm5 & Hst5); [done|done|done|lia|lia|by left|].
    change (zlen []) with 0 in E5. rewrite E5. cbn [mbind option_bind]. rewrite Hm5. eexists. split; [done|]. split_and!.
    + by rewrite Hb.
    + rewrite Hm5. unfold c2. cbn. by rewrite Hm1.
    + rewrite Hst5. unfold c2. cbn. rewrite Hst1. f_equal; lia.
Qed.

Lemma ParserMsg_short r msg c : holds r c -> (length r + length msg < 8)%nat -> ParserMsg msg c = Some (0, c).
Proof. intros (Hl & _) H. unfold ParserMsg. by rewrite (proj2 (Z.ltb_lt _ _)) by (unfold MSG_HEADER_LEN; lia). Qed.

(** ** Streams of messages *)

Record Message := mkMessage { g_type : Z; g_body : list Z }.

Definition wire (g : Message) : list Z := le 4 (g_type g) ++ le 4 (zlen (g_body g)) ++ g_body g.

Definition stream (gs : list Message) : list Z := concat (wire <$> gs).

(** A message the parser takes. *)
Definition well_sized (g : Message) : Prop := in_i32 (g_type g) /\ (1 <= length (g_body g) < 2048)%nat.

Lemma wire_length g : length (wire g) = (8 + length (g_body g))%nat.
Proof. unfold wire. rewrite !length_app, !length_le. done. Qed.

Lemma le_headed ty sz t : in_i32 ty -> in_i32 sz -> headed ty sz (le 4 ty ++ le 4 sz ++ t).
Proof.
  intros Ht Hs. unfold headed, load_i32, load_u32. split.
  - rewrite load_app_l by (rewrite length_le; lia). change 4 with (zlen (le 4 ty)). rewrite load_all.
    cbn [fmap option_fmap option_map]. f_equal. by apply unle_le4_i32.
  - rewrite load_app_r by (rewrite length_le; lia). rewrite length_le. change (4 - Z.of_nat 4) with 0.
    rewrite load_app_l by (rewrite length_le; lia). change 4 with (zlen (le 4 sz)). rewrite load_all.
    cbn [fmap option_fmap option_map]. f_equal. by apply unle_le4_i32.
Qed.

Lemma wire_headed g t : well_sized g -> headed (g_type g) (zlen (g_body g)) (wire g ++ t).
Proof.
  intros [Ht Hb]. unfold wire. rewrite <- !app_assoc. apply le_headed; [done|]. unfold in_i32. lia.
Qed.

(** A part of a message, long enough for its header. *)
Lemma part_headed g t1 t2 b b' : b ++ b' = wire g ++ t1 -> (8 <= length b)%nat -> well_sized g ->
  headed (g_type g) (zlen (g_body g)) (b ++ t2).
Proof.
  intros E H Hg. apply headed_app; [done|]. apply (headed_app _ _ b b'); [done|]. rewrite E. by apply wire_headed.
Qed.

(** Where a piece ends: behind some messages and in the next one. *)
Lemma stream_split gs : forall b t, b ++ t = stream gs ->
  exists g1 g2 p, gs = g1 ++ g2 /\ b = stream g1 ++ p /\ p ++ t = stream g2 /\
    match g2 with [] => p = [] | g :: _ => (length p < length (wire g))%nat end.
Proof.
  induction gs as [|g gs IH]; intros b t E.
  - apply app_nil in E as [-> ->]. by exists [], [], [].
  - destruct (decide (length b < length (wire g))%nat) as [Hlt|Hge].
    + by exists [], (g :: gs), b.
    + unfold stream in E. cbn [fmap list_fmap concat] in E. fold (stream gs) in E.
      assert (b = wire g ++ drop (length (wire g)) b) as Eb.
      { rewrite <- (take_drop (length (wire g)) b) at 1. f_equal.
        rewrite <- (take_app_le b t) by lia. rewrite E. by rewrite take_app_length. }
      rewrite Eb, <- app_assoc in E. apply app_inv_head in E. destruct (IH _ _ E) as (g1 & g2 & p & -> & Ed & Ep & Hm).
      exists (g :: g1), g2, p. split_and!; [done| |done|done]. rewrite Eb, Ed. unfold stream. cbn [fmap list_fmap concat]. by rewrite app_assoc.
Qed.

(** ** The client shows the messages *)

Fixpoint until_zero (bs : list Z) : list Z :=
  match bs with [] => [] | b :: bs => if decide (b = 0) then [] else b :: until_zero bs end.

Lemma cstrlen_until_zero bs n : cstrlen (bs ++ replicate (S n) 0) = Some (zlen (until_zero bs)).
Proof.
  induction bs as [|b bs IH]; [done|]. cbn [app cstrlen until_zero]. case_decide; [done|]. rewrite IH.
  cbn [length mbind option_bind]. f_equal. lia.
Qed.

Lemma until_zero_prefix bs : exists t, bs = until_zero bs ++ t.
Proof.
  induction bs as [|b bs [t E]]; [by exists []|]. cbn [until_zero]. case_decide; [by eexists|]. exists t. cbn [app]. by rewrite <- E.
Qed.

Lemma c_string_padded bs n : c_string (bs ++ replicate (S n) 0) = Some (until_zero bs).
Proof.
  unfold c_string. rewrite cstrlen_until_zero. cbn [mbind option_bind]. rewrite Nat2Z.id. f_equal.
  destruct (until_zero_prefix bs) as [t E]. rewrite E at 2. rewrite <- app_assoc. by rewrite take_app_length.
Qed.

(** The line [ShowResult] prints for a message. *)
Definition line_of (g : Message) : list Z := until_zero (g_body g).

(** A context between two messages: what it holds, a cleared message, no flag. *)
Definition unblocked (s : Z) : Prop := Z.land s (Z.lnot CS_BLOCK) = s.

Record between (r : list Z) (st : Z) (c : ClientContext) : Prop := {
  bt_holds : holds r c; bt_body : msg_body (cc_msg c) = replicate 2048 0; bt_status : clientStatus c = st }.

(** A piece that is put behind what is kept: the parser's buffer has room for it. *)
Definition fits (first : nat) (r m : list Z) : Prop := m = [] \/ (length m <= 2048 /\ length r <= first)%nat.

Lemma flags_unblocked tail n s : unblocked s -> (tail = 0 \/ n <= 2048)%nat -> flags_after tail n s = s.
Proof.
  intros Hs H. unfold flags_after. case_decide; [|done]. rewrite decide_False by lia. done.
Qed.

Lemma ParserMsg_whole r m g t st c : between r st c -> unblocked st -> r ++ m = wire g ++ t -> well_sized g ->
  (length (r ++ m) <= 4096)%nat -> fits (length (wire g)) r m -> (length r <= 2 * length (wire g))%nat ->
  exists c', ParserMsg m c = Some (zlen (g_body g), c') /\ holds t c' /\ clientStatus c' = st /\
    cc_msg c' = mkMsg (g_type g) (zlen (g_body g)) (g_body g ++ replicate (2048 - length (g_body g)) 0).
Proof.
  intros [Hh Hb Hst] Hub E Hg Hcap Hfit Hover. pose proof (wire_length g) as Lw. pose proof Hg as [_ Hsz].
  assert (length (r ++ m) = (8 + length (g_body g) + length t)%nat) as Lrm by (rewrite E, length_app, Lw; lia).
  pose proof (wire_headed g t Hg) as Hd. rewrite <- E in Hd.
  destruct (ParserMsg_run r m (g_type g) (zlen (g_body g)) c Hh) as (c' & Ec & Hp); [by rewrite Hb, length_replicate|lia|exact Hd|lia|lia|].
  unfold parsed in Hp. cbv zeta in Hp. rewrite decide_True in Ec by lia. rewrite decide_True in Hp by lia. destruct Hp as (Hh' & Hm & Hst').
  exists c'. rewrite Nat2Z.id in *. split_and!; [done| | |].
  - rewrite E in Hh'. rewrite <- Lw in Hh'. by rewrite drop_app_length in Hh'.
  - rewrite Hst', Hst. apply flags_unblocked; [done|]. rewrite length_app in *. destruct Hfit as [->|[H1 H2]]; [left; simpl; lia|right; lia].
  - rewrite Hm, Hb, E. f_equal. assert (drop 8 (wire g ++ t) = g_body g ++ t) as ->.
    { unfold wire. rewrite <- !app_assoc. rewrite (app_assoc (le 4 _)). by rewrite drop_app_length' by (rewrite length_app, !length_le; done). }
    rewrite take_app_length, drop_replicate. done.
Qed.

(** The messages the parser takes out of [restMsg], with [t] bytes behind the last:
    each is at least as long as all that is behind it, so that moving that to the
    front is a copy between areas that do not overlap. *)
Fixpoint spaced (gs : list Message) (t : nat) : Prop :=
  match gs with
  | [] => True
  | g :: gs => (length (stream gs) + t <= length (wire g))%nat /\ spaced gs t
  end.

(** The messages of a piece are shown one after the other; the first is taken out of
    the piece, the others out of [restMsg]. *)
Lemma ReadMessage_messages gs : forall fuel r m t st c sh, between r st c -> unblocked st -> gs <> [] ->
  r ++ m = stream gs ++ t -> Forall (fun g => well_sized g /\ g_type g <> PORT_MSG_FINISH) gs ->
  (length (r ++ m) <= 4096)%nat -> (exists g, gs !! 0%nat = Some g /\ fits (length (wire g)) r m) ->
  spaced (tail gs) (length t) -> (m = [] -> spaced gs (length t)) ->
  exists c', ReadMessage_loop (length gs + fuel) m c sh = ReadMessage_loop fuel [] c' (sh ++ (line_of <$> gs)) /\
    between t st c' /\ cc_msg c' = zero_msg.
Proof.
  induction gs as [|g gs IH]; intros fuel r m t st c sh Hbt Hub Hne E HF Hcap (g' & Hg' & Hfit) Hsp Hsp0; [done|]. injection Hg' as <-.
  apply Forall_cons in HF as [[Hg Hnf] HF]. unfold stream in E. cbn [fmap list_fmap concat] in E. fold (stream gs) in E. rewrite <- app_assoc in E.
  assert (length r <= 2 * length (wire g))%nat as Hover.
  { destruct Hfit as [Hm|[_ ?]]; [|lia]. destruct (Hsp0 Hm) as [? _]. rewrite Hm, app_nil_r in E.
    rewrite E, !length_app. lia. }
  destruct (ParserMsg_whole r m g (stream gs ++ t) st c Hbt Hub E Hg Hcap Hfit Hover) as (c1 & E1 & Hh1 & Hst1 & Hm1).
  assert (between (stream gs ++ t) st (set_msg zero_msg c1)) as Hbt1 by (destruct Hh1 as (? & ? & ?); by split).
  assert (forall fuel, ReadMessage_loop (S fuel) m c sh = ReadMessage_loop fuel [] (set_msg zero_msg c1) (sh ++ [line_of g])) as Estep.
  { intros n. cbn [ReadMessage_loop]. rewrite E1. cbn [mbind option_bind]. rewrite Hm1. cbn [msg_type msg_size msg_body].
    rewrite (proj2 (Z.eqb_neq _ _) Hnf). unfold ShowResult. destruct Hg as [_ Hg]. rewrite (proj2 (Z.leb_gt _ _)) by lia.
    replace (2048 - length (g_body g))%nat with (S (2047 - length (g_body g))) by lia. rewrite c_string_padded. cbn [mbind option_bind].
    by assert (0 <? zlen (g_body g) = true) as -> by (apply Z.ltb_lt; lia). }
  cbn [length]. rewrite Nat.add_succ_l, Estep. destruct gs as [|g2 gs].
  - exists (set_msg zero_msg c1). by split_and!.
  - apply (f_equal length) in E. rewrite (length_app (wire g)), (length_app (stream _)), length_app in E. rewrite length_app in Hcap.
    destruct (IH fuel (stream (g2 :: gs) ++ t) [] t st _ (sh ++ [line_of g]) Hbt1 Hub) as (c' & E' & Hbt' & Hz'); [done|by rewrite app_nil_r|done| | |by apply Hsp|done|].
    + rewrite app_nil_r. rewrite length_app. lia.
    + exists g2. split; [done|by left].
    + exists c'. rewrite E'. rewrite <- app_assoc. by split_and!.
Qed.

(** The loop ends when less than a message is left. *)
Lemma ReadMessage_partial fuel r m g t st c sh : between r st c -> unblocked st -> well_sized g ->
  (r ++ m) ++ t = wire g -> (length (r ++ m) < length (wire g))%nat -> (length (r ++ m) <= 2048)%nat ->
  m = [] /\ cc_msg c = zero_msg \/ (8 <= length (r ++ m))%nat ->
  exists c', ReadMessage_loop (S fuel) m c sh = Some (c', sh) /\ between (r ++ m) st c' /\ cc_msg c' = zero_msg.
Proof.
  intros [Hh Hb Hst] Hub Hg E Hlt Hmax Hm. cbn [ReadMessage_loop]. destruct (decide (length (r ++ m) < 8)%nat) as [H8|H8].
  - destruct Hm as [[-> Hz]|]; [|lia]. rewrite app_nil_r in *.
    rewrite (ParserMsg_short r) by (done || simpl; lia). cbn [mbind option_bind]. rewrite Hz. cbn. eexists. split; [done|]. split; [|done]. destruct Hh as (? & ? & ?). by split.
  - pose proof (part_headed g [] [] (r ++ m) t) as Hd. rewrite !app_nil_r in Hd. specialize (Hd E ltac:(lia) Hg). pose proof Hg as [_ Hsz].
    rewrite wire_length in Hlt. rewrite length_app in Hlt.
    destruct (ParserMsg_run r m (g_type g) (zlen (g_body g)) c Hh) as (c' & Ec & Hp); [by rewrite Hb, length_replicate|lia|exact Hd|lia|lia|].
    rewrite <- length_app in Hlt.
    unfold parsed in Hp. cbv zeta in Hp. rewrite decide_False in Ec by lia. rewrite decide_False in Hp by lia. destruct Hp as (Hh' & Hm' & Hst').
    rewrite Ec. cbn [mbind option_bind]. rewrite Hm'. cbn. eexists. split; [done|]. split; [|done].
    assert (clientStatus c' = st) as Hs' by (rewrite Hst', Hst; apply flags_unblocked; [done|lia]).
    destruct Hh' as (? & ? & ?). by split.
Qed.

(** It ends with the message that ends the answer. *)
Lemma ReadMessage_finish fuel r m g st c sh : between r st c -> unblocked st -> well_sized g -> g_type g = PORT_MSG_FINISH ->
  r ++ m = wire g -> fits (length (wire g)) r m ->
  exists c', ReadMessage_loop (S fuel) m c sh = Some (c', sh) /\ holds [] c' /\ clientStatus c' = Z.lor st CS_FINISH /\
    msg_body (cc_msg c') = g_body g ++ replicate (2048 - length (g_body g)) 0.
Proof.
  intros Hbt Hub Hg Hty E Hfit. cbn [ReadMessage_loop]. pose proof Hg as [_ Hsz].
  destruct (ParserMsg_whole r m g [] st c Hbt Hub) as (c1 & E1 & Hh1 & Hst1 & Hm1);
    [by rewrite app_nil_r|done|rewrite E, wire_length; lia|done|rewrite <- E, length_app; lia|].
  rewrite E1. cbn [mbind option_bind]. rewrite Hm1. cbn [msg_type]. rewrite Hty. rewrite (proj2 (Z.eqb_eq _ _)) by done.
  eexists. split; [done|]. destruct Hh1 as (? & ? & ?). split_and!; [done|cbn; by rewrite Hst1|cbn; by rewrite Hm1].
Qed.

(** ** The client reads an answer *)

(** A message of an answer: small enough for the client never to stop reading. *)
Definition answerable (g : Message) : Prop := well_sized g /\ (length (g_body g) <= 2041)%nat.

(** The message [EndPort] ends an answer with. *)
Definition finish_msg : Message := mkMessage PORT_MSG_FINISH [0].

Lemma finish_msg_sized : well_sized finish_msg.
Proof. by split; [|simpl; lia]. Qed.

Lemma stream_app g1 g2 : stream (g1 ++ g2) = stream g1 ++ stream g2.
Proof. unfold stream. by rewrite fmap_app, concat_app. Qed.

Lemma stream_one g : stream [g] = wire g.
Proof. unfold stream. cbn. by rewrite app_nil_r. Qed.

Lemma stream_count gs : Forall well_sized gs -> (9 * length gs <= length (stream gs))%nat.
Proof.
  induction 1 as [|g gs [_ Hg] _ IH]; [done|]. unfold stream in *. cbn [fmap list_fmap concat length]. rewrite length_app, wire_length. lia.
Qed.

(** The messages of a piece and then the part of the next one. *)
Lemma ReadMessage_piece r m g1 p g t c sh inc : between r CS_SENDCOMMD c -> r ++ m = stream g1 ++ p -> p ++ t = wire g ->
  (length p < length (wire g))%nat -> Forall (fun g => answerable g /\ g_type g <> PORT_MSG_FINISH) g1 -> well_sized g -> (length p <= 2048)%nat ->
  (8 <= length (r ++ m) <= 4096)%nat -> (1 <= length m <= 2048)%nat ->
  (exists g', (g1 ++ [g]) !! 0%nat = Some g' /\ (length r <= length (wire g'))%nat) -> spaced (tail g1) (length p) ->
  exists c', ReadMessage (zlen m) m (mkCl c 0 inc sh) = Some (0, mkCl c' 0 inc (sh ++ (line_of <$> g1))) /\
    between p CS_SENDCOMMD c' /\ cc_msg c' = zero_msg.
Proof.
  intros Hbt E Ep Hlt HF Hg Hp Hlen Hm (g' & Hg' & Hr) Hsp. pose proof (wire_length g) as Lw.
  assert (exists c', ReadMessage_loop ReadMessage_fuel m c sh = Some (c', sh ++ (line_of <$> g1)) /\
    between p CS_SENDCOMMD c' /\ cc_msg c' = zero_msg) as (c' & E' & Hbt' & Hz).
  { destruct g1 as [|x g1].
    - cbn in E. subst p. destruct (ReadMessage_partial 513 r m g t CS_SENDCOMMD c sh Hbt) as (c' & E' & Hbt' & Hz'); [done..|by right; lia|].
      exists c'. rewrite app_nil_r. by split_and!.
    - assert (9 * length (x :: g1) <= 4096)%nat as Hc.
      { transitivity (length (r ++ m)); [|lia]. rewrite E, length_app. etransitivity; [apply stream_count|lia].
        eapply Forall_impl; [exact HF|]. by intros ? [[? ?] ?]. }
      injection Hg' as <-.
      destruct (ReadMessage_messages (x :: g1) (514 - length (x :: g1)) r m p CS_SENDCOMMD c sh Hbt) as (c1 & E1 & Hbt1 & Hz1);
        [done|done|done| |lia|exists x; split; [done|right; lia]|done|by intros ->; simpl in Hm; lia|].
      { eapply Forall_impl; [exact HF|]. by intros ? [[? ?] ?]. }
      replace (length (x :: g1) + (514 - length (x :: g1)))%nat with ReadMessage_fuel in E1 by (unfold ReadMessage_fuel; lia). rewrite E1.
      replace (514 - length (x :: g1))%nat with (S (513 - length (x :: g1))) by lia.
      destruct (ReadMessage_partial (513 - length (x :: g1)) p [] g t CS_SENDCOMMD c1 (sh ++ (line_of <$> x :: g1)) Hbt1) as (c' & E' & Hbt' & Hz');
        rewrite ?app_nil_r in *; [done..|by left|]. exists c'. by split_and!. }
  exists c'. unfold ReadMessage. cbn [info_message cl_ctx incoming shown]. rewrite (proj2 (Z.leb_gt (zlen m) 0)) by lia.
  change (Z.land 0 TS_BLOCK_READ =? 0) with true. cbn [andb]. rewrite E'. cbn [mbind option_bind]. rewrite (bt_status _ _ _ Hbt').
  split; [done|]. by split.
Qed.

(** The messages of a piece and the one that ends the answer. *)
Lemma ReadMessage_last r m gs c sh inc : between r CS_SENDCOMMD c -> r ++ m = stream gs ++ wire finish_msg ->
  Forall (fun g => answerable g /\ g_type g <> PORT_MSG_FINISH) gs -> (length (r ++ m) <= 4096)%nat -> (1 <= length m <= 2048)%nat ->
  (exists g', (gs ++ [finish_msg]) !! 0%nat = Some g' /\ (length r <= length (wire g'))%nat) ->
  spaced (tail gs) (length (wire finish_msg)) ->
  exists c', ReadMessage (zlen m) m (mkCl c 0 inc sh) = Some (0, mkCl c' 0 inc (sh ++ (line_of <$> gs))) /\ between [] CS_FINISH c'.
Proof.
  intros Hbt E HF Hlen Hm (g' & Hg' & Hr) Hsp.
  pose proof finish_msg_sized as Hfin.
  assert (exists c', ReadMessage_loop ReadMessage_fuel m c sh = Some (c', sh ++ (line_of <$> gs)) /\ between [] CS_FINISH c') as (c' & E' & Hbt').
  { assert (forall c', holds [] c' -> clientStatus c' = Z.lor CS_SENDCOMMD CS_FINISH ->
      msg_body (cc_msg c') = g_body finish_msg ++ replicate (2048 - length (g_body finish_msg)) 0 -> between [] CS_FINISH c') as Hend
      by (intros; by split).
    destruct gs as [|x gs].
    - injection Hg' as <-. destruct (ReadMessage_finish 513 r m finish_msg CS_SENDCOMMD c sh Hbt) as (c' & E' & H1 & H2 & H3); try done; [right; lia|].
      exists c'. rewrite app_nil_r. split; [done|]. by apply Hend.
    - injection Hg' as <-.
      assert (9 * length (x :: gs) <= 4096)%nat as Hc.
      { transitivity (length (r ++ m)); [|lia]. rewrite E, length_app. etransitivity; [apply stream_count|lia].
        eapply Forall_impl; [exact HF|]. by intros ? [[? ?] ?]. }
      destruct (ReadMessage_messages (x :: gs) (514 - length (x :: gs)) r m (wire finish_msg) CS_SENDCOMMD c sh Hbt) as (c1 & E1 & Hbt1 & Hz1);
        [done|done|done| |lia|exists x; split; [done|right; lia]|done|by intros ->; simpl in Hm; lia|].
      { eapply Forall_impl; [exact HF|]. by intros ? [[? ?] ?]. }
      replace (length (x :: gs) + (514 - length (x :: gs)))%nat with ReadMessage_fuel in E1 by (unfold ReadMessage_fuel; lia). rewrite E1.
      replace (514 - length (x :: gs))%nat with (S (513 - length (x :: gs))) by lia.
      destruct (ReadMessage_finish (513 - length (x :: gs)) (wire finish_msg) [] finish_msg CS_SENDCOMMD c1 (sh ++ (line_of <$> x :: gs)) Hbt1)
        as (c' & E' & H1 & H2 & H3); [done|done|done|by rewrite app_nil_r|by left|].
      exists c'. split; [done|]. by apply Hend. }
  exists c'. unfold ReadMessage. cbn [info_message cl_ctx incoming shown]. rewrite (proj2 (Z.leb_gt (zlen m) 0)) by lia.
  change (Z.land 0 TS_BLOCK_READ =? 0) with true. cbn [andb]. rewrite E'. cbn [mbind option_bind]. rewrite (bt_status _ _ _ Hbt').
  by split.
Qed.

(** The pieces a stream may arrive in. *)
Definition piece_ok (m : list Z) : Prop := (8 <= length m <= 2048)%nat.

Lemma ReadData_piece len m more : piece_ok m -> len = 2048 -> ReadData len (m :: more) = Some (zlen m, m, more).
Proof.
  intros H ->. destruct m as [|x m]; [destruct H; simpl in *; lia|]. cbn [ReadData]. unfold piece_ok in H.
  rewrite take_ge, drop_ge by (change (Z.to_nat 2048) with 2048%nat; lia). done.
Qed.

Lemma EpollProcess_piece c m more sh : piece_ok m ->
  EpollProcess (mkCl c 0 (m :: more) sh) = (fun r => Done r) <$> ReadMessage (zlen m) m (mkCl c 0 more sh).
Proof.
  intros H. unfold EpollProcess. cbn [incoming info_message cl_ctx shown]. rewrite ReadData_piece by done.
  change (Z.land 0 TS_BLOCK_READ =? 0) with true. cbv iota. by destruct (ReadMessage _ _ _).
Qed.

(** The pieces never make the client move bytes within its buffer that overlap: a
    message that lies in one piece, behind the end of another, is followed there by at
    most as many bytes as it has itself. Before the first piece [k] bytes have come. *)
Definition apart (k : nat) (pieces : list (list Z)) (gs : list Message) : Prop :=
  forall p1 m p2 a g b, pieces = p1 ++ m :: p2 -> gs = a ++ g :: b ->
  let here := (k + length (concat p1))%nat in
  (here < length (stream a))%nat -> (length (stream (a ++ [g])) <= here + length m)%nat ->
  (here + length m <= length (stream (a ++ [g])) + length (wire g))%nat.

Lemma apart_next k m more g1 g2 : apart k (m :: more) (g1 ++ g2) -> (length (stream g1) <= k + length m)%nat ->
  apart (k + length m - length (stream g1)) more g2.
Proof.
  intros H Hk p1 m' p2 a g b -> ->. pose proof (H (m :: p1) m' p2 (g1 ++ a) g b eq_refl) as Hx.
  rewrite app_assoc in Hx. specialize (Hx eq_refl). cbn [concat] in Hx. rewrite <- app_assoc in Hx.
  rewrite !(stream_app g1), !length_app in Hx. cbv zeta in *. lia.
Qed.

Lemma apart_spaced k m more x g1 g2 n : apart k (m :: more) (x :: g1 ++ g2) -> (k < length (wire x))%nat ->
  (length (stream (x :: g1)) + n = k + length m)%nat -> spaced g1 n.
Proof.
  intros H Hk Hlen. assert (forall d c, g1 = c ++ d -> spaced d n) as Hall; [|by apply (Hall g1 [])].
  induction d as [|g d IH]; intros c E; [done|]. split; [|apply (IH (c ++ [g])); by rewrite <- app_assoc].
  subst g1. specialize (H [] m more (x :: c) g (d ++ g2) eq_refl). cbn [app concat length] in H.
  rewrite <- app_assoc in H. specialize (H eq_refl). cbv zeta in H. rewrite Nat.add_0_r in H.
  change (x :: c ++ g :: d) with ((x :: c) ++ g :: d) in Hlen.
  rewrite (stream_app (x :: c) (g :: d)), length_app in Hlen.
  change (x :: c ++ [g]) with ((x :: c) ++ [g]) in H. rewrite (stream_app (x :: c) [g]), stream_one, length_app in H.
  assert (length (stream (g :: d)) = length (wire g) + length (stream d))%nat as Eg
    by (unfold stream; cbn [fmap list_fmap concat]; by rewrite length_app).
  assert (length (wire x) <= length (stream (x :: c)))%nat
    by (unfold stream; cbn [fmap list_fmap concat]; rewrite length_app; lia).
  lia.
Qed.

Lemma spaced_snoc gs g : spaced (gs ++ [g]) 0 -> spaced gs (length (wire g)).
Proof.
  induction gs as [|x gs IH]; [done|]. cbn [app spaced]. intros [H1 H2]. split; [|by apply IH].
  rewrite stream_app, stream_one, length_app in H1. lia.
Qed.

Lemma ProcessClient_loop_run pieces : forall fuel gs r c sh, between r CS_SENDCOMMD c ->
  r ++ concat pieces = stream (gs ++ [finish_msg]) -> (exists g, (gs ++ [finish_msg]) !! 0%nat = Some g /\ (length r < length (wire g))%nat) ->
  Forall piece_ok pieces -> Forall (fun g => answerable g /\ g_type g <> PORT_MSG_FINISH) gs -> apart (length r) pieces (gs ++ [finish_msg]) -> (length pieces < fuel)%nat ->
  exists c', ProcessClient_loop fuel (mkCl c 0 pieces sh) = Some (Done (0, mkCl c' 0 [] (sh ++ (line_of <$> gs)))) /\ between [] CS_FINISH c'.
Proof.
  induction pieces as [|m more IH]; intros fuel gs r c sh Hbt E (g0 & Hg0 & Hr) Hp HF Hap Hfuel; destruct fuel as [|fuel]; try lia.
  { exfalso. apply (f_equal length) in E. cbn [concat] in E. rewrite app_nil_r in E. rewrite E in Hr.
    destruct (gs ++ [finish_msg]) as [|x l]; [done|]. injection Hg0 as ->. unfold stream in Hr. cbn [fmap list_fmap concat] in Hr. rewrite length_app in Hr. lia. }
  apply Forall_cons in Hp as [Hm Hp]. cbn [concat] in E. rewrite app_assoc in E.
  assert (Forall answerable (gs ++ [finish_msg])) as HA.
  { apply Forall_app. split; [eapply Forall_impl; [exact HF|]; by intros ? [? ?]|]. repeat constructor; simpl; try lia; done. }
  assert (length (wire g0) <= 2049)%nat as Lg0.
  { rewrite Forall_lookup in HA. destruct (HA _ _ Hg0) as [_ ?]. rewrite wire_length. lia. }
  destruct (stream_split _ _ _ E) as (g1 & g2 & p & Eg & Eb & Ep & Hnext). unfold piece_ok in Hm. cbn [ProcessClient_loop].
  rewrite EpollProcess_piece by done. destruct g2 as [|g g2].
  - subst p. rewrite app_nil_r in Eg, Eb. subst g1.
    assert (spaced (tail gs) (length (wire finish_msg))) as Hsp.
    { destruct gs as [|x gs]; [done|]. cbn [tail]. injection Hg0 as <-. apply spaced_snoc.
      apply (apart_spaced (length r) m more x _ []); [by rewrite app_nil_r|done|].
      change (x :: gs ++ [finish_msg]) with ((x :: gs) ++ [finish_msg]). rewrite <- Eb, length_app. lia. }
    cbn in Ep. destruct more as [|m2 more].
    2:{ exfalso. apply Forall_cons in Hp as [Hm2 _]. unfold piece_ok in Hm2. apply (f_equal length) in Ep. cbn [concat] in Ep. rewrite length_app in Ep. simpl in Ep. lia. }
    rewrite stream_app, stream_one in Eb.
    destruct (ReadMessage_last r m gs c sh [] Hbt Eb HF) as (c' & E' & Hbt'); [rewrite length_app; lia|lia|exists g0; split; [done|lia]|done|].
    rewrite E'. cbn [fmap option_fmap option_map mbind option_bind cl_ctx]. rewrite (bt_status _ _ _ Hbt'). by exists c'.
  - assert (exists g2', g :: g2 = g2' ++ [finish_msg] /\ gs = g1 ++ g2') as (g2' & Eg2 & ->).
    { destruct (exists_last (l := g :: g2)) as (g2' & z & Ez); [done|]. exists g2'. rewrite Ez, app_assoc in Eg. apply app_inj_tail in Eg as [-> <-]. by split. }
    apply Forall_app in HF as [HF1 HF2]. rewrite Eg in HA, Hg0. apply Forall_app in HA as [_ HA]. apply Forall_cons in HA as [[Hg Hg2] _].
    pose proof (wire_length g) as Lwg.
    destruct (ReadMessage_piece r m g1 p g (drop (length p) (wire g)) c sh more Hbt Eb) as (c' & E' & Hbt' & _); try done; try lia.
    + rewrite <- (take_drop (length p) (wire g)) at 2. f_equal.
      assert (p ++ concat more = wire g ++ stream g2) as Ep' by (rewrite Ep; unfold stream; done).
      rewrite <- (take_app_le (wire g) (stream g2)) by lia. rewrite <- Ep'. by rewrite take_app_length.
    + rewrite length_app. lia.
    + exists g0. split; [|lia]. destruct g1 as [|x g1]; exact Hg0.
    + destruct g1 as [|x g1]; [done|]. injection Hg0 as <-. cbn [tail]. rewrite Eg in Hap.
      apply (apart_spaced (length r) m more x g1 (g :: g2)); [exact Hap|done|]. by rewrite <- length_app, <- Eb, length_app.
    + rewrite E'. cbn [fmap option_fmap option_map mbind option_bind cl_ctx]. rewrite (bt_status _ _ _ Hbt'). change (_ && _) with true. cbv iota.
      destruct (IH fuel g2' p c' (sh ++ (line_of <$> g1)) Hbt') as (c2 & E2 & Hbt2); [by rewrite <- Eg2|exists g; by rewrite <- Eg2|done|done| |simpl in Hfuel; lia|].
      { rewrite <- Eg2. assert (length p = length r + length m - length (stream g1))%nat as ->.
        { apply (f_equal length) in Eb. rewrite !length_app in Eb. lia. }
        apply apart_next; [by rewrite <- Eg|]. apply (f_equal length) in Eb. rewrite !length_app in Eb. lia. }
      exists c2. rewrite E2, fmap_app, app_assoc. by split.
Qed.

(** A client that waits for no answer. *)
Definition at_rest (s : Client) : Prop := between [] CS_IDLE (cl_ctx s).

Lemma ProcessClient_run fuel s gs : at_rest s -> concat (incoming s) = stream (gs ++ [finish_msg]) ->
  Forall piece_ok (incoming s) -> Forall (fun g => answerable g /\ g_type g <> PORT_MSG_FINISH) gs -> apart 0 (incoming s) (gs ++ [finish_msg]) -> (length (incoming s) < fuel)%nat ->
  exists s', ProcessClient fuel s = Some (Done (0, s')) /\ shown s' = shown s ++ (line_of <$> gs) /\ incoming s' = [] /\ at_rest s'.
Proof.
  intros [Hh Hb Hst] E Hp HF Hap Hfuel. unfold ProcessClient. cbn [with_status cl_ctx incoming shown].
  assert (between [] CS_SENDCOMMD (set_status (fun st => Z.lor st CS_SENDCOMMD) (cl_ctx s))) as Hbt.
  { destruct Hh as (? & ? & ?). split; [by split_and!|done|cbn; by rewrite Hst]. }
  destruct (ProcessClient_loop_run (incoming s) fuel gs [] _ (shown s) Hbt) as (c' & E' & [H1 H2 H3]); try done.
  { destruct gs as [|g gs]; eexists; (split; [reflexivity|]); rewrite wire_length; simpl; lia. }
  rewrite E'. cbn [mbind option_bind]. eexists. split; [done|]. split_and!; [done|done|].
  destruct H1 as (? & ? & ?). by split.
Qed.

(** ** Writing messages *)

Section writing.
Context (send : nat -> list Z -> SendResult).

(** A socket that takes a part of what it is given, of any size. *)
Definition accepting : Prop := forall n data, data <> [] -> exists k, send n data = Sent k /\ 1 <= k <= zlen data.

(** The structure a message is written from. *)
Definition in_memory (g : Message) : MsgHeader :=
  mkMsg (g_type g) (zlen (g_body g)) (g_body g ++ replicate (2048 - length (g_body g)) 0).

Lemma WriteData_loop_run (a b z : list Z) : accepting -> forall fuel pre k, b <> [] -> (length b <= fuel)%nat ->
  pre ++ b ++ z = a -> exists ret k', WriteData_loop send fuel a (zlen pre) (zlen b) k = Some (ret, k') /\ 1 <= ret <= zlen b /\
    sk_out k' = sk_out k ++ b.
Proof using.
  intros Hacc fuel. revert b. induction fuel as [|fuel IH]; intros b pre k Hb Hf E; [destruct b; simpl in *; [done|lia]|].
  cbn [WriteData_loop]. assert (load a (zlen pre) (zlen b) = Some b) as El by (rewrite <- E; apply load_mid).
  run (st_lift_run (load a (zlen pre) (zlen b)) b k El). destruct (Hacc (sk_calls k) b Hb) as (n & En & Hn).
  assert (WriteData_send send b k = Some (Sent n, mkSock (S (sk_calls k)) (sk_out k ++ take (Z.to_nat n) b))) as Ew
    by (unfold WriteData_send; by rewrite En).
  run Ew. destruct (Z.eqb_spec n (zlen b)) as [->|Hne].
  - eexists _, _. split; [reflexivity|]. split; [lia|]. cbn. by rewrite take_ge by lia.
  - assert (length (take (Z.to_nat n) b) = Z.to_nat n) as Lt by (rewrite length_take; lia).
    destruct (IH (drop (Z.to_nat n) b) (pre ++ take (Z.to_nat n) b) (mkSock (S (sk_calls k)) (sk_out k ++ take (Z.to_nat n) b)))
      as (ret & k' & E' & Hr & Ho).
    + intros H0. apply (f_equal length) in H0. rewrite length_drop in H0. simpl in H0. lia.
    + rewrite length_drop. lia.
    + by rewrite <- app_assoc, (app_assoc (take _ b)), take_drop.
    + rewrite length_app, Lt, length_drop in E'. exists ret, k'. split; [|split].
      * replace (zlen pre + n) with (Z.of_nat (length pre + Z.to_nat n)) by lia.
        replace (zlen b - n) with (Z.of_nat (length b - Z.to_nat n)) by lia. exact E'.
      * rewrite length_drop in Hr. lia.
      * rewrite Ho. cbn [sk_out]. rewrite <- (app_assoc (sk_out k)). by rewrite take_drop.
Qed.

Lemma write_msg_run fuel g k : accepting -> well_sized g -> (2056 <= fuel)%nat ->
  exists ret k', write_msg send fuel (in_memory g) k = Some (ret, k') /\ 1 <= ret /\ sk_out k' = sk_out k ++ wire g.
Proof using.
  intros Hacc [Ht Hb] Hf. destruct (WriteData_loop_run (msg_bytes (in_memory g)) (wire g) (replicate (2048 - length (g_body g)) 0) Hacc fuel [] k)
    as (ret & k' & E & Hr & Ho).
  - intros H0. apply (f_equal length) in H0. rewrite wire_length in H0. simpl in H0. lia.
  - rewrite wire_length. lia.
  - cbn [app]. unfold wire, msg_bytes, in_memory. by rewrite <- !app_assoc.
  - exists ret, k'. split; [|split; [lia|done]]. unfold write_msg, WriteData. rewrite <- E. f_equal. rewrite wire_length. cbn [in_memory msg_size]. unfold MSG_HEADER_LEN. lia.
Qed.

(** Messages written one after the other. *)
Fixpoint write_msgs (fuel : nat) (gs : list Message) : ST Sock unit :=
  match gs with
  | [] => mret tt
  | g :: gs => write_msg send fuel (in_memory g);; write_msgs fuel gs
  end.

Lemma write_msgs_run fuel gs : accepting -> Forall well_sized gs -> (2056 <= fuel)%nat ->
  forall k, exists k', write_msgs fuel gs k = Some (tt, k') /\ sk_out k' = sk_out k ++ stream gs.
Proof using.
  intros Hacc HF Hf. induction HF as [|g gs Hg _ IH]; intros k.
  - exists k. split; [done|]. unfold stream. cbn. by rewrite app_nil_r.
  - destruct (write_msg_run fuel g k Hacc Hg Hf) as (ret & k1 & E1 & _ & Ho1). destruct (IH k1) as (k' & E & Ho).
    exists k'. cbn [write_msgs]. run E1. split; [done|]. rewrite Ho, Ho1. unfold stream. cbn [fmap list_fmap concat]. by rewrite app_assoc.
Qed.
End writing.

(** ** What arrives *)


(** C15: An answer of messages of 1 to 2041 bytes, the last one the end of the
    answer, comes out of the client as it went into the server: whatever parts of a
    message the server's socket takes at a time, if the stream arrives in pieces of 8
    to 2048 bytes that never make the client copy between overlapping areas ([apart]:
    a message that lies in one piece, behind the end of another, is followed there by
    at most as many bytes as it has itself), the client prints the messages, each once
    and in order, and waits for no more. No copy of the run overlaps or leaves the
    buffers. *)
Theorem answer_roundtrip send fuel gs k s :
  accepting send -> (2056 <= fuel)%nat -> Forall (fun g => answerable g /\ g_type g <> PORT_MSG_FINISH) gs -> at_rest s ->
  exists k', write_msgs send fuel (gs ++ [finish_msg]) k = Some (tt, k') /\
    forall turns pieces, sk_out k' = sk_out k ++ concat pieces -> Forall piece_ok pieces ->
    apart 0 pieces (gs ++ [finish_msg]) -> (length pieces < turns)%nat -> incoming s = pieces ->
    exists s', ProcessClient turns s = Some (Done (0, s')) /\
      shown s' = shown s ++ (line_of <$> gs) /\ incoming s' = [] /\ at_rest s'.
Proof.
  intros Hacc Hf HF Hs. destruct (write_msgs_run send fuel (gs ++ [finish_msg]) Hacc) with (k := k) as (k' & E & Ho); [|done|].
  { apply Forall_app. split; [eapply Forall_impl; [exact HF|]; by intros ? [[? _] _]|]. constructor; [apply finish_msg_sized|done]. }
  exists k'. split; [done|]. intros turns pieces Eo Hp Hap Ht Ein. rewrite Ho in Eo. apply app_inv_head in Eo.
  apply (ProcessClient_run); rewrite ?Ein; done.
Qed.

(** The server takes a request out of its pieces. *)
Lemma ReadMsg_loop_run g pieces : well_sized g -> forall fuel r c, holds r c -> msg_body (cc_msg c) = replicate 2048 0 ->
  (length r < length (wire g))%nat -> r ++ concat pieces = wire g -> Forall piece_ok pieces -> (length pieces < fuel)%nat ->
  exists c', ReadMsg_loop fuel pieces c = Some (Done (zlen (g_body g), c', [])) /\ holds [] c' /\
    msg_body (cc_msg c') = g_body g ++ replicate (2048 - length (g_body g)) 0.
Proof.
  intros Hg. induction pieces as [|m more IH]; intros fuel r c Hh Hb Hr E Hp Hf; destruct fuel as [|fuel]; try lia.
  { exfalso. cbn [concat] in E. rewrite app_nil_r in E. subst r. lia. }
  apply Forall_cons in Hp as [Hm Hp]. cbn [concat] in E. rewrite app_assoc in E. pose proof (wire_length g) as Lw. pose proof Hg as [_ Hsz].
  cbn [ReadMsg_loop]. rewrite ReadData_piece by done. unfold piece_ok in Hm. rewrite (proj2 (Z.leb_gt (zlen m) 0)) by lia.
  pose proof (part_headed g [] [] (r ++ m) (concat more)) as Hd. rewrite !app_nil_r in Hd.
  assert (length (r ++ m) + length (concat more) = length (wire g))%nat as Lall by (by rewrite <- length_app, E).
  rewrite length_app in Lall, Hd. specialize (Hd E ltac:(lia) Hg).
  destruct (ParserMsg_run r m (g_type g) (zlen (g_body g)) c Hh) as (c' & Ec & Hpar);
    [by rewrite Hb, length_replicate|rewrite length_app; lia|exact Hd|lia|lia|].
  unfold parsed in Hpar. cbv zeta in Hpar. rewrite Ec. cbn [mbind option_bind]. rewrite length_app in *. simpl in Hf.
  destruct (decide (8 + zlen (g_body g) <= Z.of_nat (length r + length m))) as [Hc|Hc]; destruct Hpar as (Hh' & Hm' & _).
  - rewrite (proj2 (Z.leb_gt _ _)) by lia. destruct more as [|m2 more].
    2:{ exfalso. apply Forall_cons in Hp as [Hm2 _]. unfold piece_ok in Hm2. cbn [concat] in Lall. rewrite length_app in Lall. lia. }
    cbn [concat] in E. rewrite app_nil_r in E. exists c'. split_and!; [done| |].
    + rewrite drop_ge in Hh' by (rewrite length_app; lia). done.
    + rewrite Hm', Hb, E, Nat2Z.id, drop_replicate. cbn [msg_body]. f_equal.
      unfold wire. rewrite (app_assoc (le 4 _)), drop_app_length' by (rewrite length_app, !length_le; done). by rewrite take_ge by lia.
  - rewrite (proj2 (Z.leb_le 0 0)) by lia. apply (IH fuel (r ++ m)); try done; [by rewrite Hm'|rewrite length_app; lia|lia].
Qed.

(** C16: A command of 1 to 2047 bytes that the client writes is the command the server
    reads, whatever parts of it the client's socket takes at a time and however it is
    cut into arriving pieces of 8 to 2048 bytes; nothing is left over for the next
    one. [ParserMsg_short] shows that a first piece of less than 8 bytes is lost. *)
Theorem request_roundtrip send fuel text k c :
  accepting send -> (2056 <= fuel)%nat -> (1 <= length text < 2048)%nat -> holds [] c ->
  exists ret k', write_msg send fuel (in_memory (mkMessage PORT_MSG_REQUEST text)) k = Some (ret, k') /\
    forall turns pieces, sk_out k' = sk_out k ++ concat pieces -> Forall piece_ok pieces -> (length pieces < turns)%nat ->
    exists c', ReadMsg turns pieces c = Some (Done (zlen text, c', [])) /\
      c_string (msg_body (cc_msg c')) = Some (until_zero text) /\ holds [] c'.
Proof.
  intros Hacc Hf Ht Hh. set (g := mkMessage PORT_MSG_REQUEST text). assert (well_sized g) as Hg by done.
  destruct (write_msg_run send fuel g k Hacc Hg Hf) as (ret & k' & E & _ & Ho). exists ret, k'. split; [done|].
  intros turns pieces Eo Hp Hn. rewrite Ho in Eo. apply app_inv_head in Eo.
  destruct (ReadMsg_loop_run g pieces Hg turns [] (set_msg zero_msg c)) as (c' & E' & Hh' & Hb'); try done.
  { rewrite wire_length. simpl. lia. }
  exists c'. split; [exact E'|]. split; [|done]. rewrite Hb'. cbn [g g_body].
  replace (2048 - length text)%nat with (S (2047 - length text)) by lia. apply c_string_padded.
Qed.

(** ** What does not arrive *)

(** Nothing new for a message that is not complete: the context stays. *)
Lemma ParserMsg_nothing r ty sz c : holds r c -> (8 <= length r)%nat -> headed ty sz r -> zlen r < 8 + sz -> sz < 2048 ->
  ParserMsg [] c = Some (0, set_msg (mkMsg 0 0 (msg_body (cc_msg c))) c).
Proof.
  intros Hh H8 Hd Hr Hsz. pose proof Hh as (Hl & L & j & E). unfold ParserMsg.
  rewrite Hl, (proj2 (Z.ltb_ge _ _)) by (unfold MSG_HEADER_LEN; simpl; lia).
  assert (fill_header [] c = Some (c, 0)) as -> by (unfold fill_header; rewrite Hl, (proj2 (Z.ltb_ge _ _)) by (unfold MSG_HEADER_LEN; lia); done).
  assert (headed ty sz (restMsg c)) as [H0 H4] by (rewrite E; by apply headed_app).
  unfold GetMsgIntValue. cbn [mbind option_bind]. rewrite H0. cbn [mbind option_bind]. rewrite H4. cbn [mbind option_bind].
  rewrite (proj2 (Z.leb_gt _ _)) by (unfold PORT_BUFFER_SIZE; lia).
  assert (length r + (length (@nil Z) - 0) <= 4096)%nat as Hcap by (pose proof (holds_le _ _ Hh); simpl; lia).
  pose proof (fill_body_run r [] 0 (set_msg (mkMsg ty sz (msg_body (cc_msg c))) c)) as Hf. cbv zeta in Hf. cbn [set_msg cc_msg msg_size] in Hf.
  rewrite decide_False in Hf by (simpl; lia). change (Z.of_nat 0) with 0 in Hf. unfold set_msg at 1. rewrite Hf; [|done|done|simpl; lia|lia|done].
  cbn. by destruct c.
Qed.


(** A client that has set [CS_BLOCK] does nothing at any event and reads nothing. *)
Lemma EpollProcess_blocked r ty sz c more sh : holds r c -> (8 <= length r)%nat -> headed ty sz r -> zlen r < 8 + sz -> sz < 2048 ->
  cc_msg c = zero_msg -> clientStatus c = Z.lor CS_SENDCOMMD CS_BLOCK -> more <> [] ->
  EpollProcess (mkCl c TS_BLOCK_READ more sh) = Some (Done (0, mkCl c TS_BLOCK_READ more sh)).
Proof.
  intros Hh H8 Hd Hr Hsz Hm Hst Hmore. unfold EpollProcess. cbn [incoming info_message]. destruct more as [|m more]; [done|].
  change (Z.land TS_BLOCK_READ TS_BLOCK_READ =? 0) with false. cbv iota. unfold ReadMessage. cbn [info_message cl_ctx incoming shown].
  change (Z.land TS_BLOCK_READ TS_BLOCK_READ =? 0) with false. cbn [andb]. unfold ReadMessage_fuel. cbn [ReadMessage_loop].
  rewrite (ParserMsg_nothing r ty sz c) by done. cbn [mbind option_bind]. rewrite Hm. cbn.
  destruct c as [st n b m']. cbn in Hm, Hst. subst m' st. done.
Qed.

Lemma ProcessClient_loop_spins fuel s : EpollProcess s = Some (Done (0, s)) ->
  Z.land (clientStatus (cl_ctx s)) CS_CLIENT_STATE_MASK <> CS_FINISH -> ProcessClient_loop fuel s = None.
Proof.
  intros E H. induction fuel as [|fuel IH]; [done|]. cbn [ProcessClient_loop]. rewrite E. cbn [mbind option_bind].
  rewrite (proj2 (Z.eqb_neq _ _) H). exact IH.
Qed.

(** C33: When more than 2048 bytes of a message have arrived but not its end, the client
    sets [CS_BLOCK] and never reads again: with bytes waiting on the socket it turns in
    its loop for ever in the same state. *)
Theorem client_stops_reading g m1 m2 t c more sh :
  well_sized g -> between [] CS_SENDCOMMD c -> m1 ++ m2 ++ t = wire g -> t <> [] -> piece_ok m1 -> (1 <= length m2)%nat ->
  (2048 < length (m1 ++ m2))%nat -> more <> [] ->
  exists s, (forall fuel, ProcessClient_loop (2 + fuel) (mkCl c 0 (m1 :: m2 :: more) sh) = ProcessClient_loop fuel s) /\
    EpollProcess s = Some (Done (0, s)) /\ incoming s = more /\ shown s = sh /\
    forall fuel, ProcessClient_loop fuel s = None.
Proof.
  intros Hg Hbt E Ht H1 H2 H12 Hmore. pose proof Hg as [_ Hsz]. pose proof (wire_length g) as Lw.
  assert (length m1 + length m2 + length t = length (wire g))%nat as Lall by (rewrite <- E, !length_app; lia).
  assert (1 <= length t)%nat as Lt by (destruct t; [done|simpl; lia]). unfold piece_ok in H1. rewrite length_app in H12.
  destruct (ReadMessage_piece [] m1 [] m1 g (m2 ++ t) c sh (m2 :: more) Hbt) as (c1 & E1 & Hbt1 & Hz1);
    [done|exact E|lia|done|done|lia|simpl; lia|lia|exists g; split; [done|simpl; lia]|done|].
  assert (forall fuel, ProcessClient_loop (S fuel) (mkCl c 0 (m1 :: m2 :: more) sh) =
    ProcessClient_loop fuel (mkCl c1 0 (m2 :: more) sh)) as S1.
  { intros fuel. cbn [ProcessClient_loop]. rewrite EpollProcess_piece, E1 by done.
    cbn [mbind option_bind fmap option_fmap option_map cl_ctx list_fmap]. by rewrite app_nil_r, (bt_status _ _ _ Hbt1). }
  destruct Hbt1 as [Hh1 Hb1 Hst1].
  pose proof (part_headed g [] [] (m1 ++ m2) t) as Hd. rewrite !app_nil_r, <- app_assoc, length_app in Hd. specialize (Hd E ltac:(lia) Hg).
  destruct (ParserMsg_run m1 m2 (g_type g) (zlen (g_body g)) c1 Hh1) as (c2 & E2 & Hp);
    [by rewrite Hb1, length_replicate|rewrite length_app; lia|exact Hd|lia|lia|].
  unfold parsed in Hp. cbv zeta in Hp. rewrite decide_False in E2 by (rewrite length_app; lia). rewrite decide_False in Hp by (rewrite length_app; lia).
  destruct Hp as (Hh2 & Hm2 & Hst2).
  assert (clientStatus c2 = Z.lor CS_SENDCOMMD CS_BLOCK) as Hs2.
  { rewrite Hst2, Hst1. unfold flags_after. by rewrite !decide_True by (rewrite ?length_app; lia). }
  set (c3 := set_msg zero_msg c2). set (s := mkCl c3 TS_BLOCK_READ more sh). exists s.
  assert (EpollProcess s = Some (Done (0, s))) as Es.
  { apply (EpollProcess_blocked (m1 ++ m2) (g_type g) (zlen (g_body g))); [by destruct Hh2 as (? & ? & ?)|rewrite length_app; lia|exact Hd|rewrite length_app; lia|lia|done|done|done]. }
  split_and!; [|exact Es|done|done|intros; apply ProcessClient_loop_spins; [exact Es|cbn; by rewrite Hs2]].
  intros fuel. change (2 + fuel)%nat with (S (S fuel)). rewrite S1. cbn [ProcessClient_loop].
  assert (EpollProcess (mkCl c1 0 (m2 :: more) sh) = Some (Done (0, s))) as ->; [|cbn [mbind option_bind s cl_ctx]; change (clientStatus c3) with (clientStatus c2); by rewrite Hs2].
  unfold EpollProcess. cbn [incoming info_message cl_ctx shown]. change (Z.land 0 TS_BLOCK_READ =? 0) with true. cbv iota.
  assert (ReadData SOCKET_BUFFER_LEN (m2 :: more) = Some (zlen m2, m2, more)) as ->.
  { destruct m2 as [|x m2]; [simpl in H2; lia|]. cbn [ReadData]. rewrite take_ge, drop_ge by (change (Z.to_nat SOCKET_BUFFER_LEN) with 2048%nat; lia). done. }
  unfold ReadMessage. cbn [info_message cl_ctx incoming shown]. rewrite (proj2 (Z.leb_gt (zlen m2) 0)) by lia.
  change (Z.land 0 TS_BLOCK_READ =? 0) with true. cbn [andb]. change ReadMessage_fuel with (S 513). cbn [ReadMessage_loop].
  rewrite E2. cbn [mbind option_bind]. rewrite Hm2. cbn. by rewrite Hs2.
Qed.

(** A header the parser refuses stays in front of everything that arrives later. *)
Definition stuck (c : ClientContext) : Prop :=
  exists r ty sz, holds r c /\ (8 <= length r)%nat /\ headed ty sz r /\ 2048 <= sz.

Lemma ParserMsg_header r msg ty sz c : holds r c -> (8 <= length (r ++ msg))%nat -> headed ty sz (r ++ msg) ->
  exists c1 r1 k, fill_header msg c = Some (c1, k) /\ holds r1 c1 /\ (8 <= length r1)%nat /\ headed ty sz r1 /\ headed ty sz (restMsg c1) /\
    k <= zlen msg /\ (Z.of_nat (length msg) + restLen c <? MSG_HEADER_LEN) = false.
Proof.
  intros Hh H8 Hd. rewrite length_app in H8. pose proof Hh as (Hl & _).
  destruct (fill_header_run r msg c Hh) as (c1 & E1 & H1 & _); [lia|]. set (k := (8 - length r)%nat) in *.
  assert (r ++ msg = (r ++ take k msg) ++ drop k msg) as Hb by (by rewrite <- app_assoc, take_drop).
  assert (8 <= length (r ++ take k msg))%nat as L by (rewrite length_app, length_take; lia).
  rewrite Hb in Hd. apply headed_app in Hd; [|done]. exists c1, (r ++ take k msg), (Z.of_nat k). split_and!; try done; [|lia|].
  - destruct H1 as (_ & _ & j & ->). by apply headed_app.
  - apply Z.ltb_ge. unfold MSG_HEADER_LEN. lia.
Qed.

Lemma ParserMsg_oversized r msg ty sz c : holds r c -> (8 <= length (r ++ msg))%nat -> headed ty sz (r ++ msg) -> 2048 <= sz ->
  exists c', ParserMsg msg c = Some (-1, c') /\ stuck c'.
Proof.
  intros Hh H8 Hd Hsz. destruct (ParserMsg_header r msg ty sz c Hh H8 Hd) as (c1 & r1 & k & E1 & H1 & L1 & Hd1 & [H0 H4] & _ & Hl).
  unfold ParserMsg, GetMsgIntValue. rewrite Hl, E1. cbn [mbind option_bind]. rewrite H0. cbn [mbind option_bind]. rewrite H4. cbn [mbind option_bind].
  rewrite (proj2 (Z.leb_le _ _)) by (unfold PORT_BUFFER_SIZE; lia). eexists. split; [done|]. exists r1, ty, sz. split; [|done].
  destruct H1 as (? & ? & ?). by split_and!.
Qed.

Lemma ReadMsg_stuck ms more : Forall (fun m => (1 <= length m <= 2048)%nat) ms -> forall c, stuck c ->
  exists c', stuck c' /\ forall fuel, ReadMsg_loop (length ms + fuel) (ms ++ more) c = ReadMsg_loop fuel more c'.
Proof.
  induction 1 as [|m ms Hm _ IH]; intros c Hc; [by exists c|]. destruct Hc as (r & ty & sz & Hh & H8 & Hd & Hsz).
  destruct (ParserMsg_oversized r m ty sz c Hh) as (c1 & E & Hc1); [rewrite length_app; lia|by apply headed_app|done|].
  destruct (IH c1 Hc1) as (c' & Hc' & E'). exists c'. split; [done|]. intros fuel. cbn [length Nat.add app ReadMsg_loop].
  assert (ReadData MAX_COMMAND_LENGTH (m :: ms ++ more) = Some (zlen m, m, ms ++ more)) as ->.
  { destruct m as [|x m]; [simpl in Hm; lia|]. cbn [ReadData]. by rewrite take_ge, drop_ge by (change (Z.to_nat MAX_COMMAND_LENGTH) with 2048%nat; lia). }
  rewrite (proj2 (Z.leb_gt (zlen m) 0)) by lia. rewrite E. cbn [mbind option_bind]. apply E'.
Qed.

(** A negative size is the length of a copy. *)
Lemma ParserMsg_negative r msg ty sz c : holds r c -> (8 <= length (r ++ msg))%nat -> headed ty sz (r ++ msg) -> sz < 0 ->
  ParserMsg msg c = None.
Proof.
  intros Hh H8 Hd Hsz. destruct (ParserMsg_header r msg ty sz c Hh H8 Hd) as (c1 & r1 & k & E1 & (Hl1 & _) & L1 & _ & [H0 H4] & Hk & Hl).
  unfold ParserMsg, GetMsgIntValue. rewrite Hl, E1. cbn [mbind option_bind]. rewrite H0. cbn [mbind option_bind]. rewrite H4. cbn [mbind option_bind].
  rewrite (proj2 (Z.leb_gt _ _)) by (unfold PORT_BUFFER_SIZE; lia).
  assert (fill_body msg (k) (set_msg (mkMsg ty sz (msg_body (cc_msg c1))) c1) =
    Some (Some (set_msg (mkMsg ty sz (msg_body (cc_msg c1))) c1, k))) as ->.
  { unfold fill_body, MSG_HEADER_LEN. cbn [set_msg restLen cc_msg msg_size]. rewrite Hl1, !(proj2 (Z.ltb_ge _ _)) by lia. done. }
  cbn [mbind option_bind]. unfold take_msg, memcpy, load. cbn [set_msg cc_msg msg_size].
  by rewrite (proj2 (Z.leb_gt 0 sz)), andb_false_r by lia.
Qed.

(** Eight bytes end a session: with a negative size in its header a message makes the
    server copy with that size, a fault; with a size of 2048 or more the header is
    never dropped, everything that arrives later is lost and the server reads no
    command any more. *)
Theorem hostile_header ty sz body c m ms more :
  in_i32 ty -> in_i32 sz -> holds [] c -> m = le 4 ty ++ le 4 sz ++ body -> (length m <= 2048)%nat ->
  Forall (fun m => (1 <= length m <= 2048)%nat) ms ->
  (sz < 0 -> forall fuel, ReadMsg (S fuel) (m :: ms ++ more) c = None) /\
  (2048 <= sz -> exists c', stuck c' /\
    forall fuel, ReadMsg (S (length ms) + fuel) (m :: ms ++ more) c = ReadMsg_loop fuel more c').
Proof.
  intros Hty Hsz Hh -> Hm Hms. set (m := le 4 ty ++ le 4 sz ++ body) in *.
  assert (8 <= length m)%nat as H8 by (unfold m; rewrite !length_app, !length_le; lia).
  assert (headed ty sz m) as Hd by (by apply le_headed).
  assert (holds [] (set_msg zero_msg c)) as Hh0 by (destruct Hh as (? & ? & ?); by split_and!).
  assert (forall l, ReadData MAX_COMMAND_LENGTH (m :: l) = Some (zlen m, m, l)) as Er.
  { intros l. apply ReadData_piece; [split; lia|done]. }
  split; intros Hs.
  - intros fuel. unfold ReadMsg. cbn [ReadMsg_loop]. rewrite Er, (proj2 (Z.leb_gt (zlen m) 0)) by lia.
    by rewrite (ParserMsg_negative [] m ty sz _ Hh0).
  - destruct (ParserMsg_oversized [] m ty sz _ Hh0 H8 Hd Hs) as (c1 & E1 & Hc1).
    destruct (ReadMsg_stuck ms more Hms c1 Hc1) as (c' & Hc' & E').
    exists c'. split; [done|]. intros fuel. unfold ReadMsg. cbn [Nat.add ReadMsg_loop]. rewrite Er, (proj2 (Z.leb_gt (zlen m) 0)) by lia.
    rewrite E1. cbn [mbind option_bind]. apply E'.
Qed.

(** A message in [restMsg] with more bytes behind it than it has itself: moving them
    to the front is a copy between overlapping areas. *)
Lemma ParserMsg_overlaps r m g t c : holds r c -> length (msg_body (cc_msg c)) = 2048%nat -> well_sized g -> r = wire g ++ t ->
  (length (wire g) < length t)%nat -> ParserMsg m c = None.
Proof.
  intros Hh Lb Hg Hr Hover. pose proof Hg as [_ Hsz]. pose proof (wire_length g) as Lw. pose proof Hh as (Hl & L & j & E).
  assert (length r = (length (wire g) + length t)%nat) as Lr by (by rewrite Hr, length_app).
  unfold ParserMsg. rewrite Hl, (proj2 (Z.ltb_ge _ _)) by (unfold MSG_HEADER_LEN; lia).
  assert (fill_header m c = Some (c, 0)) as -> by (unfold fill_header; rewrite Hl, (proj2 (Z.ltb_ge _ _)) by (unfold MSG_HEADER_LEN; lia); done).
  assert (headed (g_type g) (zlen (g_body g)) (restMsg c)) as [H0 H4] by (rewrite E, Hr, <- app_assoc; by apply wire_headed).
  unfold GetMsgIntValue. cbn [mbind option_bind]. rewrite H0. cbn [mbind option_bind]. rewrite H4. cbn [mbind option_bind].
  rewrite (proj2 (Z.leb_gt _ _)) by (unfold PORT_BUFFER_SIZE; lia). set (c2 := set_msg _ c).
  assert (fill_body m 0 c2 = Some (Some (c2, 0))) as ->.
  { unfold fill_body, MSG_HEADER_LEN, c2. cbn [set_msg restLen cc_msg msg_size]. rewrite Hl, !(proj2 (Z.ltb_ge _ _)) by lia. done. }
  cbn [mbind option_bind].
  destruct (take_msg_run r c2) as (c4 & E4 & Hr4 & Hl4 & _); [by split_and!; [| |exists j]|exact Lb|unfold c2; cbn; lia|unfold c2; cbn; lia|].
  rewrite E4. cbn [mbind option_bind]. change (msg_size (cc_msg c2)) with (zlen (g_body g)). change (msg_size (cc_msg c2)) with (zlen (g_body g)) in Hl4.
  unfold save_rest, memcpy_down. rewrite Hl4, (proj2 (Z.ltb_lt 0 (8 + zlen (g_body g)))), (proj2 (Z.ltb_lt 0 (zlen r - (8 + zlen (g_body g))))) by lia.
  cbn [andb]. by rewrite (proj2 (Z.leb_gt (zlen r - (8 + zlen (g_body g))) _)) by lia.
Qed.

(** One command per piece: what follows it waits for the next piece. *)
Lemma ReadMsg_first r m g t c more fuel : holds r c -> length (msg_body (cc_msg c)) = 2048%nat -> (length (r ++ m) <= 4096)%nat ->
  (1 <= length m <= 2048)%nat -> well_sized g -> r ++ m = wire g ++ t -> (length r <= 2 * length (wire g))%nat ->
  exists c', ReadMsg (S fuel) (m :: more) c = Some (Done (zlen (g_body g), c', more)) /\ holds t c' /\ length (msg_body (cc_msg c')) = 2048%nat.
Proof.
  intros Hh Lb Hcap Hm Hg E Hover. pose proof (wire_length g) as Lw. pose proof Hg as [_ Hsz].
  assert (length (r ++ m) = (length (wire g) + length t)%nat) as Lall by (by rewrite E, length_app).
  pose proof (wire_headed g t Hg) as Hd. rewrite <- E in Hd.
  assert (holds r (set_msg zero_msg c)) as Hh0 by (destruct Hh as (? & ? & ?); by split_and!).
  destruct (ParserMsg_run r m (g_type g) (zlen (g_body g)) _ Hh0) as (c' & Ec & Hp); [done|lia|done|lia|lia|].
  unfold parsed in Hp. cbv zeta in Hp. rewrite decide_True in Ec by lia. rewrite decide_True in Hp by lia. destruct Hp as (Hh' & Hm' & _).
  exists c'. unfold ReadMsg. cbn [ReadMsg_loop].
  assert (ReadData MAX_COMMAND_LENGTH (m :: more) = Some (zlen m, m, more)) as ->.
  { destruct m as [|x m]; [simpl in Hm; lia|]. cbn [ReadData]. by rewrite take_ge, drop_ge by (change (Z.to_nat MAX_COMMAND_LENGTH) with 2048%nat; lia). }
  rewrite (proj2 (Z.leb_gt (zlen m) 0)) by lia. rewrite Ec. cbn [mbind option_bind]. rewrite (proj2 (Z.leb_gt (zlen (g_body g)) 0)) by lia.
  split; [done|]. split.
  - rewrite E, Nat2Z.id, <- Lw in Hh'. by rewrite drop_app_length in Hh'.
  - rewrite Hm'. cbn [msg_body set_msg cc_msg zero_msg]. rewrite length_app, length_take, length_drop, length_drop, length_replicate. lia.
Qed.

Lemma front_split (a b w z : list Z) : a ++ b = w ++ z -> (length w <= length a)%nat -> exists x, a = w ++ x /\ x ++ b = z.
Proof.
  intros E Hl. exists (drop (length w) a). assert (a = w ++ drop (length w) a) as Ea.
  { rewrite <- (take_drop (length w) a) at 1. f_equal. rewrite <- (take_app_le a b) by done. by rewrite E, take_app_length. }
  split; [done|]. rewrite Ea, <- app_assoc in E. by apply app_inv_head in E.
Qed.

(** A client that sends commands without waiting for their answers makes the server
    copy between overlapping areas: the server takes one command out of a piece, and
    the next event finds the second in [restMsg] with more bytes behind it than it has
    itself. *)
Theorem requests_overlap g1 g2 t m1 m2 more c :
  well_sized g1 -> well_sized g2 -> holds [] c -> length (msg_body (cc_msg c)) = 2048%nat ->
  m1 = wire g1 ++ wire g2 ++ t -> (length m1 <= 2048)%nat -> piece_ok m2 -> (length (wire g2) < length t)%nat ->
  exists c1, ReadMsg 1 (m1 :: m2 :: more) c = Some (Done (zlen (g_body g1), c1, m2 :: more)) /\
    ReadMsg 1 (m2 :: more) c1 = None.
Proof.
  intros H1 H2 Hh Lb E Lm1 Hm2 Hlt. assert (length m1 = length (wire g1) + (length (wire g2) + length t))%nat as L
    by (by rewrite E, !length_app). pose proof (wire_length g1).
  destruct (ReadMsg_first [] m1 g1 (wire g2 ++ t) c (m2 :: more) 0 Hh Lb) as (c1 & R1 & Hh1 & Lb1); [cbn [app]; lia|lia|done|done|cbn [length]; lia|].
  exists c1. split; [done|]. unfold ReadMsg. cbn [ReadMsg_loop]. unfold piece_ok in Hm2.
  rewrite (ReadData_piece _ m2) by (done || split; lia). rewrite (proj2 (Z.leb_gt (zlen m2) 0)) by lia.
  by rewrite (ParserMsg_overlaps (wire g2 ++ t) m2 g2 t) by (done || by destruct Hh1 as (? & ? & ?)).
Qed.

(** ** Concrete streams *)

(** A socket that takes at most five bytes at a time. *)
Definition send0 (n : nat) (data : list Z) : SendResult := Sent (Z.min 5 (zlen data)).

Lemma send0_accepting : accepting send0.
Proof. intros n [|x data] H; [done|]. eexists. split; [reflexivity|]. simpl. lia. Qed.

Definition client0 : ClientContext := mkClient 0 0 (replicate 4096 0) zero_msg.

Lemma client0_holds : holds [] client0.
Proof. split_and!; [done|vm_compute; reflexivity|by eexists]. Qed.

(** [|a|] and [|1|] with their zero bytes *)
Definition small_answer : list Message := [mkMessage PORT_MSG_BEGIN [124; 97; 124; 0]; mkMessage PORT_MSG_CONTINUE [124; 49; 124; 0]].

Definition small_pieces : list (list Z) :=
  let b := stream (small_answer ++ [finish_msg]) in [take 8 b; take 12 (drop 8 b); drop 20 b].

Lemma small_apart : apart 0 small_pieces (small_answer ++ [finish_msg]).
Proof.
  intros p1 m p2 a g b E1 E2.
  destruct p1 as [|q1 [|q2 [|q3 [|]]]]; try discriminate E1; injection E1; intros; subst;
    destruct a as [|x1 [|x2 [|x3 [|]]]]; try discriminate E2; injection E2; intros; subst; vm_compute in *; lia.
Qed.

Lemma answer_roundtrip_witness :
  exists k' s', write_msgs send0 2056 (small_answer ++ [finish_msg]) (mkSock 0 []) = Some (tt, k') /\
    ProcessClient 4 (mkCl client0 0 small_pieces []) = Some (Done (0, s')) /\
    shown s' = [[124; 97; 124]; [124; 49; 124]].
Proof.
  destruct (answer_roundtrip send0 2056 small_answer (mkSock 0 [])
    (mkCl client0 0 small_pieces []) send0_accepting (le_n _)) as (k' & E & H).
  - repeat (apply Forall_cons_2 || apply Forall_nil_2); (split; [split; [split; [vm_compute; split; congruence|simpl; lia]|simpl; lia]|done]).
  - split; [apply client0_holds|vm_compute; reflexivity|reflexivity].
  - destruct (H 4%nat small_pieces) as (s' & E' & Hs & _).
    + vm_compute in E. injection E as <-. vm_compute. reflexivity.
    + repeat (apply Forall_cons_2 || apply Forall_nil_2); vm_compute; lia.
    + apply small_apart.
    + simpl. lia.
    + reflexivity.
    + exists k', s'. split; [exact E|]. split; [exact E'|]. exact Hs.
Defined.

(** [quit] in two pieces *)
Lemma request_roundtrip_witness :
  exists c', ReadMsg 2 [wire (mkMessage PORT_MSG_REQUEST [113; 117; 105; 116])] client0 = Some (Done (4, c', [])) /\
    c_string (msg_body (cc_msg c')) = Some [113; 117; 105; 116].
Proof.
  destruct (request_roundtrip send0 2056 [113; 117; 105; 116] (mkSock 0 []) client0 send0_accepting (le_n _))
    as (ret & k' & E & H); [simpl; lia|apply client0_holds|].
  destruct (H 2%nat [wire (mkMessage PORT_MSG_REQUEST [113; 117; 105; 116])]) as (c' & E' & Hc & _).
  - vm_compute in E. injection E as _ <-. vm_compute. reflexivity.
  - repeat (apply Forall_cons_2 || apply Forall_nil_2); vm_compute; lia.
  - simpl. lia.
  - exists c'. split; [exact E'|exact Hc].
Defined.

(** A message of 2047 bytes, of which 2049 bytes with its header arrive first. *)
Definition long_msg : Message := mkMessage PORT_MSG_CONTINUE (replicate 2047 65).
Definition sending0 : ClientContext := set_status (fun _ => CS_SENDCOMMD) client0.

Lemma client_stops_reading_witness :
  let b := wire long_msg in
  exists s, (forall fuel, ProcessClient_loop (2 + fuel) (mkCl sending0 0 [take 2048 b; take 1 (drop 2048 b); drop 2049 b] []) =
      ProcessClient_loop fuel s) /\
    EpollProcess s = Some (Done (0, s)) /\ incoming s = [drop 2049 b].
Proof.
  intros b. destruct (client_stops_reading long_msg (take 2048 b) (take 1 (drop 2048 b)) (drop 2049 b)
    sending0 [drop 2049 b] []) as (s & Hs & E & Hi & _).
  - split; [vm_compute; split; congruence|]. vm_compute. lia.
  - split; [|vm_compute; reflexivity|reflexivity]. split_and!; [reflexivity|vm_compute; reflexivity|by eexists].
  - vm_compute. reflexivity.
  - vm_compute. discriminate.
  - vm_compute. lia.
  - vm_compute. lia.
  - vm_compute. lia.
  - done.
  - exists s. split; [exact Hs|]. by split.
Defined.

Lemma hostile_header_witness :
  ReadMsg 1 [le 4 1 ++ le 4 (-1)] client0 = None /\
  exists c', stuck c' /\ ReadMsg 3 [le 4 1 ++ le 4 2048; wire (mkMessage 1 [65]); []] client0 = ReadMsg_loop 1 [[]] c'.
Proof.
  split.
  - destruct (hostile_header 1 (-1) [] client0 (le 4 1 ++ le 4 (-1)) [] []) as [H _];
      [by split|by split|apply client0_holds|reflexivity|vm_compute; lia|constructor|]. by apply (H eq_refl 0%nat).
  - destruct (hostile_header 1 2048 [] client0 (le 4 1 ++ le 4 2048) [wire (mkMessage 1 [65])] [[]]) as [_ H];
      [by split|by split|apply client0_holds|reflexivity|vm_compute; lia|repeat constructor; vm_compute; lia|].
    destruct H as (c' & Hc & E); [lia|]. exists c'. split; [exact Hc|]. exact (E 1%nat).
Defined.

(** Four commands of one byte in a piece, and one more *)
Definition short_msg : Message := mkMessage PORT_MSG_REQUEST [65].

Lemma requests_overlap_witness :
  exists c1, ReadMsg 1 [stream [short_msg; short_msg; short_msg; short_msg]; wire short_msg] client0 =
      Some (Done (1, c1, [wire short_msg])) /\
    ReadMsg 1 [wire short_msg] c1 = None.
Proof.
  assert (well_sized short_msg) as Hw by (split; [by split|simpl; lia]).
  apply (requests_overlap short_msg short_msg (stream [short_msg; short_msg])); try done.
  - apply client0_holds.
  - vm_compute. lia.
  - split; vm_compute; lia.
  - vm_compute. lia.
Defined.
