(* ===== verification/Page.v ===== *)
(** * Data pages

    Models the page format of [src/src/sqlcore/storage/tables/tablecom.h], the
    row and item writers of [tables.c] and the page readers of [buffer.c], on
    the bytes of the page. A page is a block of 4096 bytes: a 40-byte header,
    the items growing up from offset 40, the row data growing down from the
    end. An in-memory column ([RowColumnData]) is the block of its bytes, whose
    first four hold its size. *)

From S2P Require Import Prelude Bytes.

(** ** tablecom.h: sizes, offsets, item flags *)

Definition PAGE_MAX_SIZE : Z := 4096.
Definition PAGE_VERSION : Z := 0x2B3C.
Definition PAGE_HEADER : Z := 1.
Definition PAGE_DATA : Z := 2.
Definition PAGE_EXTDATA : Z := 4.
Definition PAGE_TYPE_MASK : Z := 15.
Definition PAGE_DATA_HEADER_SIZE : Z := 40.
Definition ITEM_SIZE : Z := 16.
Definition ITEM_DATA_START_OFFSET : Z := PAGE_DATA_HEADER_SIZE.
Definition PAGE_DATA_MAX_OFFSET : Z := PAGE_MAX_SIZE.
Definition MAX_ROW_DATA_SIZE : Z := PAGE_MAX_SIZE - (PAGE_DATA_HEADER_SIZE + ITEM_SIZE).
Definition sizeof_TableRowData : Z := 8.
Definition sizeof_RowColumnData : Z := 48.

(** Field offsets of the packed [PageDataHeader]. *)
Definition off_pageVersion : Z := 0.
Definition off_pageType : Z := 4.
Definition off_pageNum : Z := 8.
Definition off_dataOffset : Z := 12.
Definition off_dataEndOffset : Z := 16.
Definition off_undoPage : Z := 24.
Definition off_extPage : Z := 32.
Definition off_item : Z := 40.

Definition dataOffset (p : list Z) : option Z := load_i32 p off_dataOffset.
Definition dataEndOffset (p : list Z) : option Z := load_i32 p off_dataEndOffset.
Definition pageNum (p : list Z) : option Z := load_i32 p off_pageNum.
Definition pageType (p : list Z) : option Z := load_u32 p off_pageType.

(** [len] is the 32-bit pattern of the field. *)
Record ItemData := mkItem { it_offset : Z; it_len : Z; it_rowid : Z }.

Definition ITEM_FLAG_MASK : Z := 0xF0000000.
Definition ITEM_SIZE_MASK : Z := 0x0FFFFFFF.
Definition ITEM_VALID_MASK : Z := 0x80000000.
Definition ITEM_REDIRECT_MASK : Z := 0x40000000.

Definition GetItemValid (data : Z) : bool := negb (Z.land data ITEM_VALID_MASK =? 0).
Definition GetItemRedirect (data : Z) : bool := negb (Z.land data ITEM_REDIRECT_MASK =? 0).
Definition GetItemSize (data : Z) : Z := Z.land data ITEM_SIZE_MASK.
Definition SetItemSize (old data : Z) : Z :=
  Z.lor (Z.land old ITEM_FLAG_MASK) (Z.land (u32 data) ITEM_SIZE_MASK).

Definition item_bytes (it : ItemData) : list Z :=
  le 4 (it_offset it) ++ le 4 (it_len it) ++ le 8 (it_rowid it).

Definition GET_ITEM (off : Z) (p : list Z) : option ItemData :=
  o ← load_i32 p off; l ← load_u32 p (off + 4); r ← load_u64 p (off + 8);
  Some (mkItem o l r).

Definition GET_ITEM_BY_INDEX (index : Z) (p : list Z) : option ItemData :=
  GET_ITEM (off_item + index * ITEM_SIZE) p.
Definition GET_ITEM_OFFSET_BY_INDEX (index : Z) : Z := index * ITEM_SIZE.
(** The index of the last item plus one. *)
Definition GET_ITEM_INDEX (p : list Z) : option Z :=
  d ← dataOffset p; Some ((d - PAGE_DATA_HEADER_SIZE) / ITEM_SIZE).
(** Items are addressed by their offset in the page. *)
Definition GET_CUR_ITEM_INDEX (off : Z) : Z := (off - PAGE_DATA_HEADER_SIZE) / ITEM_SIZE.
Definition ITEM_END_CHECK (off : Z) (p : list Z) : option bool :=
  d ← dataOffset p; Some (d <=? off).

(** ** buffer.h, buffer.c: free space and a fresh page *)

Definition HasFreeSpace (p : list Z) (size : Z) : option bool :=
  e ← dataEndOffset p; d ← dataOffset p; Some (size <? e - d).

(** [memset] of the whole page, then the header; the page number is the
    caller's. *)
Definition InitPage : option (list Z) :=
  p ← Some (replicate (Z.to_nat PAGE_MAX_SIZE) 0);
  p ← store32 p off_pageVersion PAGE_VERSION;
  p ← store32 p off_pageType PAGE_DATA;
  p ← store p off_undoPage (le 4 0 ++ le 4 0);
  p ← store p off_extPage (le 4 0 ++ le 4 0);
  p ← store32 p off_dataOffset PAGE_DATA_HEADER_SIZE;
  store32 p off_dataEndOffset PAGE_DATA_MAX_OFFSET.

(** ** tables.c: writing rows and items *)

Definition col_size (c : list Z) : option Z := load_i32 c 0.

(** One [memcpy] of [columnData[i]->size] bytes per column. *)
Fixpoint copy_columns (p : list Z) (pos : Z) (cols : list (list Z)) : option (list Z) :=
  match cols with
  | [] => Some p
  | c :: cols =>
      size ← col_size c; bs ← load c 0 size; p ← store p pos bs;
      copy_columns p (pos + size) cols
  end.

Definition ReplaceRowData (p : list Z) (cols : list (list Z)) (it : ItemData) : option (list Z) :=
  copy_columns p (it_offset it) cols.

(** [size] is [rowsData.size]; also returns the item it fills in. *)
Definition InsertRowData (p : list Z) (size : Z) (cols : list (list Z)) (it : ItemData)
    : option (list Z * ItemData) :=
  e ← dataEndOffset p;
  let it := mkItem (e - size) (SetItemSize (it_len it) size) (it_rowid it) in
  p ← ReplaceRowData p cols it; Some (p, it).

Definition InsertItemData (p : list Z) (it : ItemData) : option (list Z) :=
  d ← dataOffset p; p ← store p d (item_bytes it);
  p ← store32 p off_dataOffset (d + ITEM_SIZE);
  store32 p off_dataEndOffset (it_offset it).

(** [WriteRowOnePage] without the write to the file: the page, the item and its
    index. *)
Definition write_row (p : list Z) (size : Z) (cols : list (list Z)) (it : ItemData)
    : option (list Z * ItemData * Z) :=
  '(p, it) ← InsertRowData p size cols it;
  let it := mkItem (it_offset it) (Z.lor (it_len it) ITEM_VALID_MASK) (it_rowid it) in
  p ← InsertItemData p it;
  i ← GET_ITEM_INDEX p; Some (p, it, i - 1).

(** ** Reading rows *)

(** [Some None] is the [NULL] returned for an impossible size. *)
Definition ReadRowData (p : list Z) (off : Z) : option (option (list Z)) :=
  size ← load_i32 p off;
  if MAX_ROW_DATA_SIZE <? size then Some None
  else bs ← load p off size; Some (Some bs).

Definition DeFormRowDatEx2 := ReadRowData.

(** The item and its offset within the item array are reported through the
    second component. *)
Definition GetRowDataFromExtPageEx (p : list Z) (itemIndex : Z)
    : option (option (list Z) * option (ItemData * Z)) :=
  t ← pageType p;
  if negb (Z.land t PAGE_TYPE_MASK =? PAGE_EXTDATA) then Some (None, None) else
  let off := off_item + itemIndex * ITEM_SIZE in
  ended ← ITEM_END_CHECK off p;
  if (ended : bool) then Some (None, None) else
  it ← GET_ITEM off p;
  if GetItemValid (it_len it) then
    c ← DeFormRowDatEx2 p (it_offset it);
    Some (c, Some (it, GET_ITEM_OFFSET_BY_INDEX itemIndex))
  else Some (None, None).

(** The search loop of [GetRowDataFromPageEx]: the row found and its item's
    offset. *)
Fixpoint search_items (fuel : nat) (p : list Z) (off : Z) : option (option (option (list Z) * Z)) :=
  match fuel with
  | O => None
  | S fuel =>
      ended ← ITEM_END_CHECK off p;
      if (ended : bool) then Some None else
      it ← GET_ITEM off p;
      if GetItemValid (it_len it) then
        c ← (if GetItemRedirect (it_len it)
             then r ← GetRowDataFromExtPageEx p (GET_CUR_ITEM_INDEX off); Some (fst r)
             else DeFormRowDatEx2 p (it_offset it));
        Some (Some (c, off))
      else search_items fuel p (off + ITEM_SIZE)
  end.

(** A page has room for fewer than 256 items. *)
Definition item_fuel : nat := 257.

Definition next_item (item_offset : Z) : Z :=
  if 0 <? item_offset then item_offset + ITEM_SIZE else off_item.

Definition next_row (p : list Z) (item_offset : Z) : option (option (option (list Z) * Z)) :=
  search_items item_fuel p (next_item item_offset).

(** The rows whose item is valid; the name is the code's. *)
Fixpoint count_invalid (p : list Z) (off : Z) (n : nat) (total : Z) : option Z :=
  match n with
  | O => Some total
  | S n =>
      it ← GET_ITEM off p;
      count_invalid p (off + ITEM_SIZE) n (if GetItemValid (it_len it) then total else total - 1)
  end.

Definition GetInvlidRowCount (p : list Z) : option Z :=
  d ← dataOffset p;
  let rowNum := (d - ITEM_DATA_START_OFFSET) / ITEM_SIZE in
  count_invalid p off_item (Z.to_nat rowNum) rowNum.

(** ** Items: flags and layout *)

Lemma size_mask_ones : ITEM_SIZE_MASK = Z.ones 28.
Proof. reflexivity. Qed.

Lemma GetItemSize_set old d : 0 <= d < 2 ^ 28 -> GetItemSize (SetItemSize old d) = d.
Proof.
  intros Hd. unfold GetItemSize, SetItemSize. rewrite u32_small by (unfold in_u32; lia).
  rewrite Z.land_lor_distr_l, <- !Z.land_assoc.
  change (Z.land ITEM_FLAG_MASK ITEM_SIZE_MASK) with 0. rewrite Z.land_0_r, Z.lor_0_l.
  rewrite Z.land_diag, size_mask_ones, Z.land_ones by lia. by apply Z.mod_small.
Qed.

Lemma GetItemSize_valid l : GetItemSize (Z.lor l ITEM_VALID_MASK) = GetItemSize l.
Proof.
  unfold GetItemSize. rewrite Z.land_lor_distr_l.
  change (Z.land ITEM_VALID_MASK ITEM_SIZE_MASK) with 0. apply Z.lor_0_r.
Qed.

Lemma GetItemValid_set l : GetItemValid (Z.lor l ITEM_VALID_MASK) = true.
Proof.
  unfold GetItemValid. destruct (Z.eqb_spec (Z.land (Z.lor l ITEM_VALID_MASK) ITEM_VALID_MASK) 0)
    as [H|]; [|done].
  apply (f_equal (fun z => Z.testbit z 31)) in H.
  rewrite Z.land_spec, Z.lor_spec in H. change (Z.testbit ITEM_VALID_MASK 31) with true in H.
  rewrite orb_true_r in H. done.
Qed.

Lemma SetItemSize_range old d : 0 <= old -> in_u32 (SetItemSize old d).
Proof.
  intros Ho. unfold SetItemSize.
  assert (0 <= u32 d) by (apply u32_range).
  assert (0 <= Z.lor (Z.land old ITEM_FLAG_MASK) (Z.land (u32 d) ITEM_SIZE_MASK)).
  { apply Z.lor_nonneg. split; apply Z.land_nonneg; by left. }
  split; [done|].
  destruct (decide (Z.lor (Z.land old ITEM_FLAG_MASK) (Z.land (u32 d) ITEM_SIZE_MASK) = 0)) as [->|];
    [lia|].
  apply Z.log2_lt_pow2; [lia|]. rewrite Z.log2_lor by (apply Z.land_nonneg; by left).
  assert (forall a m, 0 <= a -> 0 <= m -> Z.log2 (Z.land a m) <= Z.log2 m) as Hlog.
  { intros a m Ha Hm. pose proof (Z.log2_land a m Ha Hm). lia. }
  pose proof (Hlog old ITEM_FLAG_MASK ltac:(lia) ltac:(unfold ITEM_FLAG_MASK; lia)) as H1.
  pose proof (Hlog (u32 d) ITEM_SIZE_MASK ltac:(lia) ltac:(unfold ITEM_SIZE_MASK; lia)) as H2.
  change (Z.log2 ITEM_FLAG_MASK) with 31 in H1. change (Z.log2 ITEM_SIZE_MASK) with 27 in H2. lia.
Qed.

Lemma valid_range l : in_u32 l -> in_u32 (Z.lor l ITEM_VALID_MASK).
Proof.
  intros [H0 H1]. assert (0 <= Z.lor l ITEM_VALID_MASK)
    by (apply Z.lor_nonneg; split; [lia|unfold ITEM_VALID_MASK; lia]).
  split; [done|]. destruct (decide (Z.lor l ITEM_VALID_MASK = 0)) as [->|]; [lia|].
  apply Z.log2_lt_pow2; [lia|]. rewrite Z.log2_lor by (unfold ITEM_VALID_MASK; lia).
  change (Z.log2 ITEM_VALID_MASK) with 31.
  destruct (decide (l = 0)) as [->|]; [simpl; lia|].
  assert (Z.log2 l < 32) by (apply Z.log2_lt_pow2; lia). lia.
Qed.

Lemma length_item_bytes it : length (item_bytes it) = 16%nat.
Proof. unfold item_bytes. by rewrite !length_app, !length_le. Qed.

Definition item_ok (it : ItemData) : Prop :=
  in_i32 (it_offset it) /\ in_u32 (it_len it) /\ in_u64 (it_rowid it).

Lemma GET_ITEM_bytes p off it :
  item_ok it -> load p off 16 = Some (item_bytes it) -> GET_ITEM off p = Some it.
Proof.
  intros (H1 & H2 & H3) Hl. pose proof (length_item_bytes it) as Hlen.
  unfold GET_ITEM, load_i32, load_u32, load_u64.
  rewrite <- (Z.add_0_r off) at 1.
  rewrite !(load_load _ _ _ _ _ _ Hl) by lia. unfold item_bytes.
  assert (load (le 4 (it_offset it) ++ le 4 (it_len it) ++ le 8 (it_rowid it)) 0 4 =
          Some (le 4 (it_offset it))) as ->.
  { rewrite load_app_l by (rewrite length_le; lia).
    rewrite <- (load_all (le 4 (it_offset it))). by rewrite length_le. }
  assert (load (le 4 (it_offset it) ++ le 4 (it_len it) ++ le 8 (it_rowid it)) 4 4 =
          Some (le 4 (it_len it))) as ->.
  { rewrite load_app_r by (rewrite length_le; lia). rewrite length_le.
    rewrite load_app_l by (rewrite length_le; lia).
    rewrite <- (load_all (le 4 (it_len it))). by rewrite length_le. }
  assert (load (le 4 (it_offset it) ++ le 4 (it_len it) ++ le 8 (it_rowid it)) 8 8 =
          Some (le 8 (it_rowid it))) as ->.
  { rewrite load_app_r by (rewrite length_le; lia). rewrite length_le.
    rewrite load_app_r by (rewrite length_le; lia). rewrite length_le.
    rewrite <- (load_all (le 8 (it_rowid it))). by rewrite length_le. }
  cbn [fmap option_fmap option_map mbind option_bind].
  rewrite unle_le4_i32, unle_le4, unle_le8, u32_small, u64_small by done. by destruct it.
Qed.

(** ** The page as a list of rows *)

Record row := mkRow { r_len : Z; r_id : Z; r_bytes : list Z }.

Definition bytes_of (rows : list row) : Z :=
  foldr (fun r a => Z.of_nat (length (r_bytes r)) + a) 0 rows.

(** Row [i]'s data ends where row [i - 1]'s begins. *)
Definition row_off (rows : list row) (i : nat) : Z := PAGE_MAX_SIZE - bytes_of (take (S i) rows).
Definition item_off (i : nat) : Z := off_item + Z.of_nat i * ITEM_SIZE.

Definition row_ok (r : row) : Prop :=
  GetItemSize (r_len r) = Z.of_nat (length (r_bytes r)) /\ GetItemValid (r_len r) = true.

Record page_rep (p : list Z) (rows : list row) : Prop := {
  pr_len : length p = 4096%nat;
  pr_do : dataOffset p = Some (item_off (length rows));
  pr_de : dataEndOffset p = Some (PAGE_MAX_SIZE - bytes_of rows);
  pr_fit : item_off (length rows) <= PAGE_MAX_SIZE - bytes_of rows;
  pr_item i r : rows !! i = Some r ->
    GET_ITEM (item_off i) p = Some (mkItem (row_off rows i) (r_len r) (r_id r));
  pr_row i r : rows !! i = Some r ->
    load p (row_off rows i) (Z.of_nat (length (r_bytes r))) = Some (r_bytes r);
  pr_ok r : r ∈ rows -> row_ok r
}.

Lemma bytes_of_app rows1 rows2 : bytes_of (rows1 ++ rows2) = bytes_of rows1 + bytes_of rows2.
Proof. induction rows1 as [|r rows1 IH]; simpl; [done|]. rewrite IH. lia. Qed.

Lemma bytes_of_nonneg rows : 0 <= bytes_of rows.
Proof. induction rows as [|r rows IH]; simpl; lia. Qed.

Lemma bytes_of_take rows i : bytes_of (take i rows) <= bytes_of rows.
Proof.
  rewrite <- (take_drop i rows) at 2. rewrite bytes_of_app.
  pose proof (bytes_of_nonneg (drop i rows)). lia.
Qed.

Lemma row_off_app rows r i : (i < length rows)%nat -> row_off (rows ++ [r]) i = row_off rows i.
Proof. intros Hi. unfold row_off. by rewrite take_app_le by lia. Qed.

Lemma row_off_last rows r :
  row_off (rows ++ [r]) (length rows) = PAGE_MAX_SIZE - bytes_of rows - Z.of_nat (length (r_bytes r)).
Proof.
  unfold row_off. rewrite firstn_all2 by (rewrite length_app; simpl; lia).
  rewrite bytes_of_app. simpl. lia.
Qed.

Lemma row_off_bounds rows i r :
  rows !! i = Some r ->
  PAGE_MAX_SIZE - bytes_of rows <= row_off rows i /\
  row_off rows i + Z.of_nat (length (r_bytes r)) <= PAGE_MAX_SIZE.
Proof.
  intros Hi. unfold row_off. pose proof (bytes_of_take rows (S i)).
  rewrite (take_S_r _ _ _ Hi), bytes_of_app in *. simpl in *.
  pose proof (bytes_of_nonneg (take i rows)). lia.
Qed.

Definition col_ok (c : list Z) : Prop := col_size c = Some (Z.of_nat (length c)).

Lemma store_nil p pos : 0 <= pos <= Z.of_nat (length p) -> store p pos [] = Some p.
Proof.
  intros. unfold store. rewrite !(proj2 (Z.leb_le _ _)) by (simpl; lia).
  simpl. by rewrite Nat.add_0_r, take_drop.
Qed.

Lemma store_store_adjacent p pos a b p1 :
  store p pos a = Some p1 -> store p1 (pos + Z.of_nat (length a)) b = store p pos (a ++ b).
Proof.
  intros (H0 & H1 & -> & Hlen)%store_inv. unfold store. rewrite Hlen, length_app.
  rewrite (proj2 (Z.leb_le 0 pos)), (proj2 (Z.leb_le 0 _)) by lia.
  replace (pos + Z.of_nat (length a + length b)) with (pos + Z.of_nat (length a) + Z.of_nat (length b))
    by lia.
  destruct (Z.leb_spec (pos + Z.of_nat (length a) + Z.of_nat (length b)) (Z.of_nat (length p)));
    [|done]. simpl. f_equal.
  replace (Z.to_nat (pos + Z.of_nat (length a))) with (Z.to_nat pos + length a)%nat by lia.
  assert (length (take (Z.to_nat pos) p) = Z.to_nat pos) as Ht by (rewrite length_take; lia).
  rewrite (app_assoc (take _ p) a), take_app_ge by (rewrite length_app; lia).
  rewrite length_app, Ht, Nat.sub_diag. simpl. rewrite app_nil_r, <- !app_assoc. do 3 f_equal.
  rewrite app_assoc, drop_app_ge by (rewrite length_app; lia).
  rewrite length_app, Ht, drop_drop. f_equal. lia.
Qed.

Lemma copy_columns_store cols p pos :
  Forall col_ok cols -> 0 <= pos -> pos + Z.of_nat (length (concat cols)) <= Z.of_nat (length p) ->
  copy_columns p pos cols = store p pos (concat cols).
Proof.
  intros Hok. revert p pos. induction Hok as [|c cols Hc Hok IH]; intros p pos H0 H1; simpl.
  - by rewrite store_nil by (simpl in *; lia).
  - simpl in H1. rewrite length_app in H1. rewrite Hc. cbn [mbind option_bind].
    rewrite load_all. destruct (store_some p pos c) as (p1 & Hp1 & Hl1); [lia|lia|].
    cbn [mbind option_bind]. rewrite Hp1. cbn [mbind option_bind].
    rewrite IH by lia. by apply store_store_adjacent.
Qed.

(** ** Writing a row *)

Definition new_len (old size : Z) : Z := Z.lor (SetItemSize old size) ITEM_VALID_MASK.

(** What a page looks like after its four stores: header, item and data are
    there, every other byte is the old one. *)
Record appended (p p' : list Z) (d e size : Z) (it : ItemData) (data : list Z) : Prop := {
  ap_len : length p' = length p;
  ap_do : dataOffset p' = Some (d + ITEM_SIZE);
  ap_de : dataEndOffset p' = Some (e - size);
  ap_keep o n : 20 <= o -> o + n <= d \/ d + ITEM_SIZE <= o -> o + n <= e - size \/ e <= o ->
    load p' o n = load p o n;
  ap_head o : 0 <= o <= 8 -> load p' o 4 = load p o 4;
  ap_item : load p' d ITEM_SIZE = Some (item_bytes it);
  ap_data : load p' (e - size) size = Some data
}.

Ltac off := unfold off_dataOffset, off_dataEndOffset, off_pageNum, off_pageType, ITEM_SIZE in *;
  rewrite ?length_le, ?length_item_bytes; lia.

Lemma four_stores p p1 p2 p3 p4 d e size it data :
  length p = 4096%nat -> 40 <= d -> d + 16 <= e - size -> e <= 4096 ->
  size = Z.of_nat (length data) ->
  store p (e - size) data = Some p1 -> store p1 d (item_bytes it) = Some p2 ->
  store32 p2 off_dataOffset (d + ITEM_SIZE) = Some p3 ->
  store32 p3 off_dataEndOffset (e - size) = Some p4 ->
  appended p p4 d e size it data.
Proof.
  intros Hp Hd He He2 Hsz S1 S2 S3 S4.
  assert (forall o n, o + n <= 12 \/ 20 <= o -> load p4 o n = load p2 o n) as K2.
  { intros o n Ho. rewrite (load_store_ne _ _ _ _ _ _ S4), (load_store_ne _ _ _ _ _ _ S3);
      [done|off|off]. }
  split.
  - by rewrite (store_length _ _ _ _ S4), (store_length _ _ _ _ S3), (store_length _ _ _ _ S2),
      (store_length _ _ _ _ S1).
  - unfold dataOffset. rewrite (load_i32_store_ne _ _ _ _ _ S4) by off.
    apply (load_i32_store _ _ _ _ S3). unfold in_i32. off.
  - unfold dataEndOffset. rewrite (load_i32_store _ _ _ _ S4); [done|]. unfold in_i32. off.
  - intros o n Ho Hor1 Hor2. rewrite K2 by lia.
    by rewrite (load_store_ne _ _ _ _ _ _ S2), (load_store_ne _ _ _ _ _ _ S1) by off.
  - intros o Ho. rewrite K2 by lia.
    by rewrite (load_store_ne _ _ _ _ _ _ S2), (load_store_ne _ _ _ _ _ _ S1) by off.
  - rewrite K2 by lia. by apply (load_store_eq _ _ _ _ _ S2).
  - rewrite K2 by lia. rewrite (load_store_ne _ _ _ _ _ _ S2) by off.
    by apply (load_store_eq _ _ _ _ _ S1).
Qed.

Lemma write_row_appended p size cols it d e :
  length p = 4096%nat -> dataOffset p = Some d -> dataEndOffset p = Some e ->
  40 <= d -> d + 16 <= e - size -> e <= 4096 ->
  Forall col_ok cols -> size = Z.of_nat (length (concat cols)) ->
  let it' := mkItem (e - size) (new_len (it_len it) size) (it_rowid it) in
  exists p', write_row p size cols it = Some (p', it', (d + 16 - 40) / 16 - 1) /\
    appended p p' d e size it' (concat cols).
Proof.
  intros Hp Hdo Hde Hd He He2 Hok Hsz it'.
  destruct (store_some p (e - size) (concat cols)) as (p1 & S1 & L1); [lia|lia|].
  destruct (store_some p1 d (item_bytes it')) as (p2 & S2 & L2); [lia|off|].
  destruct (store32_some p2 off_dataOffset (d + ITEM_SIZE)) as (p3 & S3 & L3); [off|off|].
  destruct (store32_some p3 off_dataEndOffset (e - size)) as (p4 & S4 & L4); [off|off|].
  assert (appended p p4 d e size it' (concat cols)) as A by by eapply four_stores.
  assert (dataOffset p1 = Some d) as Hd1.
  { unfold dataOffset in *. by rewrite (load_i32_store_ne _ _ _ _ _ S1) by off. }
  exists p4. split; [|done]. unfold write_row, InsertRowData, ReplaceRowData. rewrite Hde.
  cbn [mbind option_bind it_offset it_len it_rowid].
  rewrite copy_columns_store, S1 by (done || lia). cbn [mbind option_bind it_offset it_len it_rowid].
  unfold InsertItemData. rewrite Hd1. cbn [mbind option_bind]. fold (new_len (it_len it) size).
  fold it'. rewrite S2. cbn [mbind option_bind]. rewrite S3. cbn [mbind option_bind].
  change (it_offset it') with (e - size). rewrite S4. cbn [mbind option_bind].
  unfold GET_ITEM_INDEX. rewrite (ap_do _ _ _ _ _ _ _ A). done.
Qed.

(** A page after an append represents one row more. *)
Lemma page_rep_append p p' rows size it data :
  page_rep p rows -> size = Z.of_nat (length data) -> item_ok it ->
  it_offset it = PAGE_MAX_SIZE - bytes_of rows - size ->
  item_off (length rows) + ITEM_SIZE <= PAGE_MAX_SIZE - bytes_of rows - size ->
  row_ok (mkRow (it_len it) (it_rowid it) data) ->
  appended p p' (item_off (length rows)) (PAGE_MAX_SIZE - bytes_of rows) size it data ->
  page_rep p' (rows ++ [mkRow (it_len it) (it_rowid it) data]).
Proof.
  intros R Hsz Hit Hoff Hroom Hrow A. pose proof (bytes_of_nonneg rows).
  destruct A as [A1 A2 A3 A4 A5 A6 A7].
  split; rewrite ?length_app, ?bytes_of_app; simpl; rewrite <- ?Hsz.
  - by rewrite A1, (pr_len _ _ R).
  - rewrite A2. f_equal. unfold item_off, ITEM_SIZE. lia.
  - rewrite A3. f_equal. lia.
  - unfold item_off, ITEM_SIZE in *. lia.
  - intros i r [Hi|[Hge Hi]]%lookup_app_Some.
    + pose proof (lookup_lt_Some _ _ _ Hi). rewrite row_off_app, <- (pr_item _ _ R i r Hi) by done.
      unfold GET_ITEM, load_i32, load_u32, load_u64, item_off, off_item, ITEM_SIZE, PAGE_MAX_SIZE in *.
      by rewrite !A4 by lia.
    + apply list_lookup_singleton_Some in Hi as [Hi <-].
      assert (i = length rows) as -> by lia. rewrite row_off_last. simpl.
      apply GET_ITEM_bytes in A6; [|done]. rewrite A6, <- Hsz, <- Hoff. by destruct it.
  - intros i r [Hi|[Hge Hi]]%lookup_app_Some.
    + pose proof (lookup_lt_Some _ _ _ Hi). rewrite row_off_app, <- (pr_row _ _ R i r Hi) by done.
      pose proof (row_off_bounds _ _ _ Hi).
      unfold item_off, off_item, ITEM_SIZE, PAGE_MAX_SIZE in *. apply A4; lia.
    + apply list_lookup_singleton_Some in Hi as [Hi <-].
      assert (i = length rows) as -> by lia. rewrite row_off_last. simpl. by rewrite <- Hsz.
  - intros r [Hr|Hr%list_elem_of_singleton]%elem_of_app; [by apply (pr_ok _ _ R)|by subst].
Qed.

Lemma write_row_spec p rows size cols it :
  page_rep p rows -> Forall col_ok cols -> size = Z.of_nat (length (concat cols)) ->
  in_u32 (it_len it) -> in_u64 (it_rowid it) ->
  item_off (length rows) + ITEM_SIZE <= PAGE_MAX_SIZE - bytes_of rows - size ->
  let r := mkRow (new_len (it_len it) size) (it_rowid it) (concat cols) in
  exists p', write_row p size cols it =
      Some (p', mkItem (PAGE_MAX_SIZE - bytes_of rows - size) (r_len r) (r_id r),
            Z.of_nat (length rows)) /\
    page_rep p' (rows ++ [r]) /\ pageNum p' = pageNum p /\ pageType p' = pageType p.
Proof.
  intros R Hok Hsz Hlen Hid Hroom r. pose proof (bytes_of_nonneg rows).
  unfold item_off, off_item, ITEM_SIZE, PAGE_MAX_SIZE in Hroom.
  destruct (write_row_appended p size cols it _ _ (pr_len _ _ R) (pr_do _ _ R) (pr_de _ _ R))
    as (p' & Hrun & A); unfold item_off, off_item, ITEM_SIZE, PAGE_MAX_SIZE in *; try done; try lia.
  exists p'. rewrite Hrun. split_and!.
  - do 2 f_equal. replace (40 + Z.of_nat (length rows) * 16 + 16 - 40)
      with ((Z.of_nat (length rows) + 1) * 16) by lia. rewrite Z.div_mul by lia. lia.
  - eapply (page_rep_append _ _ _ _ (mkItem (4096 - bytes_of rows - size) (r_len r) (r_id r))); try done;
      unfold item_off, off_item, ITEM_SIZE, PAGE_MAX_SIZE; try lia.
    + split_and!; simpl; [unfold in_i32; lia| |done]. apply valid_range, SetItemSize_range, Hlen.
    + split; simpl; [|apply GetItemValid_set]. unfold new_len.
      by rewrite GetItemSize_valid, GetItemSize_set by lia.
  - unfold pageNum, load_i32, load_u32. by rewrite (ap_head _ _ _ _ _ _ _ A) by off.
  - unfold pageType, load_u32. by rewrite (ap_head _ _ _ _ _ _ _ A) by off.
Qed.

(** ** A fresh page *)

Definition fresh_page : list Z := default [] InitPage.

Lemma fresh_page_facts :
  InitPage = Some fresh_page /\ length fresh_page = 4096%nat /\
  dataOffset fresh_page = Some 40 /\ dataEndOffset fresh_page = Some 4096 /\
  pageType fresh_page = Some PAGE_DATA.
Proof. vm_compute. repeat split. Qed.

#[local] Opaque fresh_page InitPage.

Lemma InitPage_rep : exists p, InitPage = Some p /\ page_rep p [] /\ pageType p = Some PAGE_DATA.
Proof.
  destruct fresh_page_facts as (H1 & H2 & H3 & H4 & H5). exists fresh_page.
  split; [exact H1|split; [|exact H5]].
  split; [exact H2|exact H3|exact H4|unfold item_off, off_item, ITEM_SIZE, PAGE_MAX_SIZE; simpl; lia| | |].
  - intros i r Hi. rewrite lookup_nil in Hi. discriminate.
  - intros i r Hi. rewrite lookup_nil in Hi. discriminate.
  - intros r Hr. exfalso. exact (not_elem_of_nil _ Hr).
Qed.

(** ** Reading back *)

Lemma item_redirect_new old size :
  GetItemRedirect old = false -> GetItemRedirect (new_len old size) = false.
Proof.
  unfold GetItemRedirect, new_len, SetItemSize. intros H.
  rewrite !Z.land_lor_distr_l, <- !Z.land_assoc.
  change (Z.land ITEM_FLAG_MASK ITEM_REDIRECT_MASK) with ITEM_REDIRECT_MASK.
  change (Z.land ITEM_SIZE_MASK ITEM_REDIRECT_MASK) with 0.
  change (Z.land ITEM_VALID_MASK ITEM_REDIRECT_MASK) with 0.
  by rewrite Z.land_0_r, !Z.lor_0_r.
Qed.

(** A row that is one whole column. *)
Definition readable (r : row) : Prop :=
  col_ok (r_bytes r) /\ Z.of_nat (length (r_bytes r)) <= MAX_ROW_DATA_SIZE /\
  GetItemRedirect (r_len r) = false.

Lemma ReadRowData_row p rows i r :
  page_rep p rows -> rows !! i = Some r -> readable r ->
  ReadRowData p (row_off rows i) = Some (Some (r_bytes r)).
Proof.
  intros R Hi (Hc & Hmax & _). pose proof (pr_row _ _ R i r Hi) as Hl.
  unfold col_ok, col_size in Hc. unfold ReadRowData.
  assert (load_i32 p (row_off rows i) = Some (Z.of_nat (length (r_bytes r)))) as ->.
  { rewrite <- Hc. unfold load_i32. f_equal. rewrite <- (Z.add_0_r (row_off rows i)).
    apply load_u32_bytes; [done|lia|]. apply load_i32_bound in Hc. lia. }
  cbn [mbind option_bind]. rewrite (proj2 (Z.ltb_ge _ _)) by lia. by rewrite Hl.
Qed.

Lemma item_end p rows i :
  page_rep p rows -> ITEM_END_CHECK (item_off i) p = Some (length rows <=? i)%nat.
Proof.
  intros R. unfold ITEM_END_CHECK. rewrite (pr_do _ _ R). cbn [mbind option_bind]. f_equal.
  unfold item_off, ITEM_SIZE.
  destruct (Z.leb_spec (off_item + Z.of_nat (length rows) * 16) (off_item + Z.of_nat i * 16)),
    (Nat.leb_spec (length rows) i); done || lia.
Qed.

Lemma search_items_row p rows i r fuel :
  page_rep p rows -> rows !! i = Some r -> readable r ->
  search_items (S fuel) p (item_off i) = Some (Some (Some (r_bytes r), item_off i)).
Proof.
  intros R Hi Hr. simpl. rewrite (item_end _ _ _ R). pose proof (lookup_lt_Some _ _ _ Hi).
  rewrite (proj2 (Nat.leb_gt _ _)) by lia. cbn [mbind option_bind].
  rewrite (pr_item _ _ R i r Hi). cbn [mbind option_bind it_len it_offset].
  destruct (pr_ok _ _ R r) as [_ ->]; [by eapply list_elem_of_lookup_2|].
  destruct Hr as (H1 & H2 & H3). rewrite H3. unfold DeFormRowDatEx2.
  by rewrite (ReadRowData_row _ _ _ _ R Hi) by by split_and!.
Qed.

Lemma search_items_end p rows fuel :
  page_rep p rows -> search_items (S fuel) p (item_off (length rows)) = Some None.
Proof.
  intros R. simpl. rewrite (item_end _ _ _ R). by rewrite (proj2 (Nat.leb_le _ _)) by lia.
Qed.

Lemma next_item_S i : next_item (item_off i) = item_off (S i).
Proof.
  unfold next_item, item_off, off_item, ITEM_SIZE. rewrite (proj2 (Z.ltb_lt _ _)) by lia. lia.
Qed.

(** The rows a scan returns, from the row after [off] on. *)
Fixpoint scan_rows (fuel : nat) (p : list Z) (off : Z) : option (list (option (list Z))) :=
  match fuel with
  | O => None
  | S fuel =>
      r ← next_row p off;
      match r with
      | None => Some []
      | Some (c, off) => rs ← scan_rows fuel p off; Some (c :: rs)
      end
  end.

Lemma scan_rows_from p rows i off fuel :
  page_rep p rows -> Forall readable rows -> next_item off = item_off i ->
  (i <= length rows)%nat -> (length rows - i < fuel)%nat ->
  scan_rows fuel p off = Some ((fun r => Some (r_bytes r)) <$> drop i rows).
Proof.
  intros R Hr. revert i off. induction fuel as [|fuel IH]; intros i off Hoff Hi Hf; [lia|].
  simpl. unfold next_row. change item_fuel with (S 256). rewrite Hoff.
  destruct (rows !! i) as [r|] eqn:Hl.
  - pose proof (lookup_lt_Some _ _ _ Hl).
    rewrite (search_items_row _ _ _ r) by (done || by eapply Forall_lookup_1).
    cbn [mbind option_bind]. rewrite (IH (S i)) by (try apply next_item_S; lia).
    cbn [mbind option_bind]. by rewrite (drop_S _ _ _ Hl).
  - apply lookup_ge_None in Hl. assert (i = length rows) as -> by lia.
    by rewrite (search_items_end _ _ _ R), drop_all.
Qed.

Lemma scan_rows_all p rows :
  page_rep p rows -> Forall readable rows ->
  scan_rows item_fuel p 0 = Some ((fun r => Some (r_bytes r)) <$> rows).
Proof.
  intros R Hr. apply (scan_rows_from _ _ 0); [done|done|done|lia|].
  change item_fuel with 257%nat. pose proof (pr_fit _ _ R). pose proof (bytes_of_nonneg rows).
  unfold item_off, off_item, ITEM_SIZE, PAGE_MAX_SIZE in *. lia.
Qed.

Lemma count_invalid_rep p rows i n total :
  page_rep p rows -> (i + n <= length rows)%nat -> count_invalid p (item_off i) n total = Some total.
Proof.
  intros R. revert i. induction n as [|n IH]; intros i Hi; simpl; [done|].
  destruct (lookup_lt_is_Some_2 rows i) as [r Hr]; [lia|].
  rewrite (pr_item _ _ R i r Hr). cbn [mbind option_bind it_len].
  destruct (pr_ok _ _ R r) as [_ ->]; [by eapply list_elem_of_lookup_2|].
  replace (item_off i + ITEM_SIZE) with (item_off (S i)) by (unfold item_off, ITEM_SIZE; lia).
  apply IH. lia.
Qed.

(** ** Filling a page

    [FreeSpaceCheck] and [WriteRowOnePage] for one column after the other, the
    [RowData]'s item being reused from call to call; returns the columns that
    did not fit. *)

Definition row_need (c : list Z) : Z := Z.of_nat (length c) + sizeof_TableRowData + ITEM_SIZE.

Fixpoint fill_page (p : list Z) (it : ItemData) (cols : list (list Z))
    : option (list Z * list (list Z)) :=
  match cols with
  | [] => Some (p, [])
  | c :: cols' =>
      free ← HasFreeSpace p (row_need c);
      if (free : bool) then
        '(p, it, _) ← write_row p (Z.of_nat (length c)) [c] it; fill_page p it cols'
      else Some (p, cols)
  end.

Definition free_space (rows : list row) : Z :=
  PAGE_MAX_SIZE - bytes_of rows - item_off (length rows).

Lemma HasFreeSpace_rep p rows size :
  page_rep p rows -> HasFreeSpace p size = Some (size <? free_space rows).
Proof. intros R. unfold HasFreeSpace. by rewrite (pr_de _ _ R), (pr_do _ _ R). Qed.

Lemma fill_page_rep cols p it rows :
  page_rep p rows -> Forall readable rows -> Forall col_ok cols ->
  in_u32 (it_len it) -> in_u64 (it_rowid it) -> GetItemRedirect (it_len it) = false ->
  exists p' rows' done rest, fill_page p it cols = Some (p', rest) /\ cols = done ++ rest /\
    page_rep p' (rows ++ rows') /\ Forall readable (rows ++ rows') /\ r_bytes <$> rows' = done /\
    match rest with [] => True | c :: _ => free_space (rows ++ rows') <= row_need c end.
Proof.
  revert p it rows. induction cols as [|c cols IH]; intros p it rows R Hr Hok Hl Hid Hred.
  { exists p, [], [], []. rewrite !app_nil_r. by split_and!. }
  apply Forall_cons in Hok as [Hc Hok]. simpl. rewrite (HasFreeSpace_rep _ _ _ R).
  cbn [mbind option_bind]. destruct (Z.ltb_spec (row_need c) (free_space rows)) as [Hfit|Hno].
  2: { exists p, [], [], (c :: cols). rewrite !app_nil_r. by split_and!. }
  unfold row_need, free_space, sizeof_TableRowData in *.
  pose proof (write_row_spec p rows (Z.of_nat (length c)) [c] it R) as W. cbv zeta in W.
  assert (concat [c] = c) as Hcc by apply app_nil_r. rewrite Hcc in W.
  destruct W as (p1 & Hrun & R1 & _); try done; [by apply Forall_singleton|lia|].
  rewrite Hrun. cbn [mbind option_bind].
  set (r := mkRow (new_len (it_len it) (Z.of_nat (length c))) (it_rowid it) c) in *.
  pose proof (bytes_of_nonneg rows).
  assert (readable r) as Hrr.
  { split_and!; unfold r; simpl; [done| |by apply item_redirect_new].
    unfold MAX_ROW_DATA_SIZE, item_off, off_item, ITEM_SIZE, PAGE_MAX_SIZE,
      PAGE_DATA_HEADER_SIZE in *. lia. }
  set (it1 := mkItem (PAGE_MAX_SIZE - bytes_of rows - Z.of_nat (length c)) (r_len r) (r_id r)) in *.
  destruct (IH p1 it1 (rows ++ [r])) as (p' & rows' & done' & rest & Hf & Hcols & R' & Hr' & Hb & Hstop);
    try done.
  - apply Forall_app. split; [done|by apply Forall_singleton].
  - apply valid_range, SetItemSize_range, Hl.
  - by apply item_redirect_new.
  - exists p', (r :: rows'), (c :: done'), rest. rewrite <- app_assoc in R', Hr', Hstop.
    split_and!; try done; [by rewrite Hcols|by rewrite fmap_cons, Hb].
Qed.

(** C11: filling a fresh page column by column never faults, stores a prefix of
    the columns, and a scan with GetRowDataFromPageEx returns exactly those
    columns, byte for byte and in the order they were written; the row count is
    right; when columns are left over the first of them did not fit. *)
Theorem page_fill_scan_roundtrip cols rowid flags :
  Forall col_ok cols -> in_u64 rowid -> in_u32 flags -> GetItemRedirect flags = false ->
  exists p0 p stored rest, InitPage = Some p0 /\
    fill_page p0 (mkItem 0 flags rowid) cols = Some (p, rest) /\ cols = stored ++ rest /\
    scan_rows item_fuel p 0 = Some (Some <$> stored) /\
    GetInvlidRowCount p = Some (Z.of_nat (length stored)) /\
    match rest with [] => True | c :: _ => HasFreeSpace p (row_need c) = Some false end.
Proof.
  intros Hok Hid Hfl Hred. destruct InitPage_rep as (p0 & Hinit & R0 & _).
  destruct (fill_page_rep cols p0 (mkItem 0 flags rowid) [] R0) as
    (p & rows & stored & rest & Hf & Hcols & R & Hr & Hb & Hstop); [by apply Forall_nil|done..|].
  change ([] ++ rows) with rows in *.
  exists p0, p, stored, rest. split_and!; [exact Hinit|exact Hf|exact Hcols| | |].
  - rewrite (scan_rows_all _ _ R Hr), <- Hb. by rewrite <- list_fmap_compose.
  - unfold GetInvlidRowCount. rewrite (pr_do _ _ R). cbn [mbind option_bind].
    unfold item_off, off_item, ITEM_DATA_START_OFFSET, PAGE_DATA_HEADER_SIZE.
    replace (40 + Z.of_nat (length rows) * ITEM_SIZE - 40)
      with (Z.of_nat (length rows) * ITEM_SIZE) by lia.
    rewrite Z.div_mul, Nat2Z.id by done. change 40 with (item_off 0).
    rewrite (count_invalid_rep _ _ _ _ _ R) by lia. by rewrite <- Hb, length_fmap.
  - destruct rest as [|c rest]; [done|]. rewrite (HasFreeSpace_rep _ _ _ R). f_equal.
    by apply Z.ltb_ge.
Qed.

(** A column of [n] data bytes. *)
Definition sample_col (n : nat) (b : Z) : list Z :=
  le 4 (48 + Z.of_nat n) ++ le 4 0 ++ replicate 40 0 ++ replicate n b.

Lemma page_fill_scan_roundtrip_witness :
  exists p0 p stored rest, InitPage = Some p0 /\
    fill_page p0 (mkItem 0 0 7) [sample_col 4 1; sample_col 3000 2; sample_col 2000 3] =
      Some (p, rest) /\
    [sample_col 4 1; sample_col 3000 2; sample_col 2000 3] = stored ++ rest /\
    scan_rows item_fuel p 0 = Some (Some <$> stored) /\
    GetInvlidRowCount p = Some (Z.of_nat (length stored)) /\
    match rest with [] => True | c :: _ => HasFreeSpace p (row_need c) = Some false end.
Proof.
  apply page_fill_scan_roundtrip; [|unfold in_u64; lia|unfold in_u32; lia|done].
  repeat (apply Forall_cons; split; [by vm_compute|]). by apply Forall_nil.
Defined.

(** ** Updating a row in place *)

Lemma bytes_of_take_mono rows i j : (i <= j)%nat -> bytes_of (take i rows) <= bytes_of (take j rows).
Proof.
  intros Hij. replace (take i rows) with (take i (take j rows)) by (rewrite take_take; f_equal; lia).
  apply bytes_of_take.
Qed.

Lemma row_off_before rows i j r :
  rows !! j = Some r -> (i < j)%nat ->
  row_off rows j + Z.of_nat (length (r_bytes r)) <= row_off rows i.
Proof.
  intros Hj Hij. unfold row_off. pose proof (bytes_of_take_mono rows (S i) j ltac:(lia)).
  rewrite (take_S_r _ _ _ Hj), bytes_of_app. simpl. lia.
Qed.

(** Replacing a row by one of the same length moves nothing. *)
Lemma bytes_of_insert rows i r r' :
  rows !! i = Some r -> length (r_bytes r') = length (r_bytes r) ->
  bytes_of (<[i := r']> rows) = bytes_of rows.
Proof.
  revert i. induction rows as [|x rows IH]; intros [|i] Hi Hl; simpl in *; simplify_eq; [by rewrite Hl|].
  by rewrite IH.
Qed.

Lemma row_off_insert rows i r r' j :
  rows !! i = Some r -> length (r_bytes r') = length (r_bytes r) ->
  row_off (<[i := r']> rows) j = row_off rows j.
Proof.
  intros Hi Hl. unfold row_off. f_equal. destruct (decide (i < S j)%nat).
  - rewrite take_insert_lt by done. apply bytes_of_insert with r; [|done].
    rewrite lookup_take. by rewrite decide_True.
  - by rewrite take_insert_ge by lia.
Qed.

Definition replaced (r : row) (data : list Z) : row :=
  mkRow (r_len r) (r_id r) (data ++ drop (length data) (r_bytes r)).

Lemma length_replaced r data :
  (length data <= length (r_bytes r))%nat -> length (r_bytes (replaced r data)) = length (r_bytes r).
Proof. intros Hl. simpl. rewrite length_app, length_drop. lia. Qed.

(** Bytes of a block after its prefix was overwritten. *)
Lemma load_overwritten p off bs data p' :
  load p off (Z.of_nat (length bs)) = Some bs -> (length data <= length bs)%nat ->
  store p off data = Some p' ->
  load p' off (Z.of_nat (length bs)) = Some (data ++ drop (length data) bs).
Proof.
  intros (H0 & _ & H2 & Hbs & _)%load_inv Hl (_ & _ & -> & Hlen)%store_inv.
  rewrite load_some by lia. f_equal. rewrite Nat2Z.id in *.
  rewrite drop_app_ge by (rewrite length_take; lia). rewrite length_take.
  replace (Z.to_nat off - Z.to_nat off `min` length p)%nat with O by lia. rewrite drop_0.
  rewrite take_app_ge by done. f_equal. rewrite Hbs at 2.
  rewrite skipn_firstn_comm, drop_drop. done.
Qed.

(** Writing a row over a stored row that is at least as long
    (ReplaceRowData, as WriteRowDataOnly does) replaces the front of that row's
    bytes and leaves its item, every other row and the page's free space as
    they were. *)
Theorem ReplaceRowData_in_place p rows i r cols it :
  page_rep p rows -> rows !! i = Some r -> GET_ITEM_BY_INDEX (Z.of_nat i) p = Some it ->
  Forall col_ok cols -> (length (concat cols) <= length (r_bytes r))%nat ->
  exists p', ReplaceRowData p cols it = Some p' /\
    page_rep p' (<[i := replaced r (concat cols)]> rows).
Proof.
  intros R Hi Hit Hok Hl. unfold GET_ITEM_BY_INDEX in Hit. fold (item_off i) in Hit.
  rewrite (pr_item _ _ R i r Hi) in Hit. injection Hit as <-. unfold ReplaceRowData. simpl.
  pose proof (row_off_bounds _ _ _ Hi) as [Hb1 Hb2]. pose proof (pr_len _ _ R) as Hp.
  pose proof (pr_fit _ _ R) as Hfit. pose proof (length_replaced r _ Hl) as Hrl.
  set (r' := replaced r (concat cols)) in *.
  assert (forall k, (k <= length rows)%nat -> 40 <= item_off k <= item_off (length rows)) as Hio
    by (intros k Hk; unfold item_off, off_item, ITEM_SIZE; lia).
  pose proof (Hio (length rows) ltac:(lia)). unfold PAGE_MAX_SIZE in *.
  destruct (store_some p (row_off rows i) (concat cols)) as (p' & Hst & Hlen); [lia|lia|].
  rewrite copy_columns_store by (done || lia). exists p'. split; [done|].
  assert (forall o n, o + n <= item_off (length rows) -> load p' o n = load p o n) as Hlow
    by (intros o n Ho; apply (load_store_ne _ _ _ _ _ _ Hst); lia).
  split; rewrite ?length_insert, ?(bytes_of_insert _ _ _ _ Hi Hrl).
  - lia.
  - rewrite <- (pr_do _ _ R). unfold dataOffset, load_i32, load_u32.
    by rewrite Hlow by (unfold off_dataOffset; lia).
  - rewrite <- (pr_de _ _ R). unfold dataEndOffset, load_i32, load_u32.
    by rewrite Hlow by (unfold off_dataEndOffset; lia).
  - done.
  - intros j rj Hj. rewrite (row_off_insert _ _ _ _ _ Hi Hrl).
    assert (exists rj', rows !! j = Some rj' /\ r_len rj = r_len rj' /\ r_id rj = r_id rj')
      as (rj' & Hj' & -> & ->).
    { apply list_lookup_insert_Some in Hj as [(-> & <- & _)|[_ Hj]]; [by exists r|by exists rj]. }
    pose proof (lookup_lt_Some _ _ _ Hj'). rewrite <- (pr_item _ _ R j rj' Hj').
    unfold GET_ITEM, load_i32, load_u32, load_u64.
    by rewrite !Hlow by (unfold item_off, off_item, ITEM_SIZE; lia).
  - intros j rj Hj. rewrite (row_off_insert _ _ _ _ _ Hi Hrl).
    apply list_lookup_insert_Some in Hj as [(-> & <- & _)|[Hne Hj]].
    + rewrite Hrl. apply (load_overwritten p); [by apply (pr_row _ _ R)|done|done].
    + rewrite <- (pr_row _ _ R j rj Hj). apply (load_store_ne _ _ _ _ _ _ Hst).
      destruct (decide (i < j)%nat).
      * pose proof (row_off_before _ _ _ _ Hj l). lia.
      * assert (j < i)%nat as Hji by lia. pose proof (row_off_before _ _ _ _ Hi Hji). lia.
  - intros x Hx. apply list_elem_of_lookup in Hx as [j Hj].
    apply list_lookup_insert_Some in Hj as [(-> & <- & _)|[Hne Hj]].
    + destruct (pr_ok _ _ R r) as [H1 H2]; [by eapply list_elem_of_lookup_2|].
      split; [|done]. by rewrite Hrl.
    + apply (pr_ok _ _ R). by eapply list_elem_of_lookup_2.
Qed.

Lemma ReplaceRowData_in_place_witness :
  exists p r it p', page_rep p [r] /\ GET_ITEM_BY_INDEX 0 p = Some it /\
    ReplaceRowData p [sample_col 3 9] it = Some p' /\ page_rep p' [replaced r (sample_col 3 9)].
Proof.
  destruct InitPage_rep as (p0 & _ & R0 & _).
  destruct (write_row_spec p0 [] 56 [sample_col 8 1] (mkItem 0 0 7) R0) as (p & _ & R & _);
    [by apply Forall_singleton; vm_compute|done|by vm_compute|by vm_compute|by vm_compute|].
  change (concat [sample_col 8 1]) with (sample_col 8 1 ++ []) in R. rewrite app_nil_r in R.
  set (r := mkRow (new_len 0 56) 7 (sample_col 8 1)) in *. change ([] ++ [r]) with [r] in R.
  pose proof (pr_item _ _ R 0%nat r eq_refl) as Hit.
  destruct (ReplaceRowData_in_place p [r] 0 r [sample_col 3 9] _ R eq_refl Hit) as (p' & H1 & H2).
  - by apply Forall_singleton; vm_compute.
  - vm_compute. lia.
  - exists p, r, (mkItem (row_off [r] 0) (r_len r) (r_id r)), p'.
    split; [exact R|split; [exact Hit|split; [exact H1|]]].
    change (concat [sample_col 3 9]) with (sample_col 3 9 ++ []) in H2.
    rewrite app_nil_r in H2. exact H2.
Defined.
