(* ===== verification/PageStore.v ===== *)
(** * Pages of a table: access, locks, writing rows, finding space

    Models the page-level half of [src/src/sqlcore/storage/buffer/buffer.c] and
    [undopage.c] over a store of pages by fork and page number. A page pointer is
    the page's fork and number; the pool that caches pages is BufferPool's
    concern. Pins, page locks and the resource owner's entries are recorded in a
    trace, so that every path can be checked for balance. *)

From S2P Require Import Prelude Bytes Locks Transaction Snapshot Page.

(** ** State *)

Inductive ForkType := MAIN_FORK | GROUP_FORK.

#[export] Instance ForkType_eq_dec : EqDecision ForkType.
Proof. solve_decision. Defined.
#[export] Instance ForkType_countable : Countable ForkType.
Proof.
  refine (inj_countable' (fun f => match f with MAIN_FORK => true | GROUP_FORK => false end)
            (fun b : bool => if b then MAIN_FORK else GROUP_FORK) _).
  by intros [].
Defined.

Notation ptr := (ForkType * Z)%type.

Inductive pev :=
  | EvPin (p : ptr) | EvUnpin (p : ptr)
  | EvLock (p : ptr) (m : RWLockMode) | EvUnlock (p : ptr) (m : RWLockMode)
  | EvExtStart | EvExtEnd.

(** [pages] is what a page pointer leads to, [disk] what is in the table's files;
    the two counters and the group id belong to the in-memory [TableList]. *)
Record PageState := mkPS {
  pages : gmap ptr (list Z);
  disk : gmap ptr (list Z);
  trace : list pev;
  pageCnt : Z;
  groupPageCnt : Z;
  group_id : Z
}.

Definition set_pages (m : gmap ptr (list Z)) (s : PageState) : PageState :=
  mkPS m (disk s) (trace s) (pageCnt s) (groupPageCnt s) (group_id s).
Definition set_disk (m : gmap ptr (list Z)) (s : PageState) : PageState :=
  mkPS (pages s) m (trace s) (pageCnt s) (groupPageCnt s) (group_id s).
Definition emit (e : pev) (s : PageState) : PageState :=
  mkPS (pages s) (disk s) (trace s ++ [e]) (pageCnt s) (groupPageCnt s) (group_id s).
Definition set_pageCnt (n : Z) (s : PageState) : PageState :=
  mkPS (pages s) (disk s) (trace s) n (groupPageCnt s) (group_id s).
Definition set_groupPageCnt (n : Z) (s : PageState) : PageState :=
  mkPS (pages s) (disk s) (trace s) (pageCnt s) n (group_id s).
Definition set_group_id (n : Z) (s : PageState) : PageState :=
  mkPS (pages s) (disk s) (trace s) (pageCnt s) (groupPageCnt s) n.

Notation PM := (ST PageState).

Definition get_page (p : ptr) : PM (list Z) := fun s => b ← pages s !! p; Some (b, s).
Definition put_page (p : ptr) (b : list Z) : PM unit := st_modify (fun s => set_pages (<[p := b]> (pages s)) s).

(** ** Page access *)

(** [LockBufferEx]/[UnLockBufferEx]: a [NULL] page is skipped. *)
Definition LockPage (p : option ptr) (m : RWLockMode) : PM unit :=
  match p with Some p => st_modify (emit (EvLock p m)) | None => mret tt end.
Definition UnLockPage (p : option ptr) (m : RWLockMode) : PM unit :=
  match p with Some p => st_modify (emit (EvUnlock p m)) | None => mret tt end.

(** [smgr_read] fills the buffer when the page is in the file. *)
Definition ReadPage (index : Z) (fork : ForkType) : PM (option ptr) := fun s =>
  if index <=? 0 then Some (None, s) else
  match pages s !! (fork, index) with
  | Some _ => Some (Some (fork, index), emit (EvPin (fork, index)) s)
  | None =>
      match disk s !! (fork, index) with
      | Some b =>
          Some (Some (fork, index),
                emit (EvPin (fork, index)) (set_pages (<[(fork, index) := b]> (pages s)) s))
      | None => Some (None, s)
      end
  end.

(** The entry [PushResourceOwner] adds lasts as long as the pin. *)
Definition GetPageByIndex (index : Z) (fork : ForkType) : PM (option ptr) :=
  if index =? 0 then mret None else ReadPage index fork.

Definition ReleasePage (p : option ptr) : PM unit :=
  match p with Some p => st_modify (emit (EvUnpin p)) | None => mret tt end.

(** [TableWrite] writes the page at the number its own header holds. *)
Definition TableWrite (b : list Z) (fork : ForkType) : PM unit := fun s =>
  n ← pageNum b; Some (tt, set_disk (<[(fork, n) := b]> (disk s)) s).

Definition WritePage (p : ptr) (fork : ForkType) : PM unit :=
  b ← get_page p; TableWrite b fork.

(** Stops at the first [NULL] or after [num] pages. *)
Fixpoint ReleasePageList_loop (pagelist : list (option ptr)) (i : nat) (num : Z) (fuel : nat)
    : PM (list (option ptr) * Z) :=
  match fuel with
  | O => st_fault
  | S fuel =>
      o ← st_lift (pagelist !! i);
      match o with
      | None => mret (pagelist, Z.of_nat i)
      | Some p =>
          ReleasePage (Some p);;
          let pagelist := <[i := None]> pagelist in
          if num <=? Z.of_nat (S i) then mret (pagelist, Z.of_nat (S i))
          else ReleasePageList_loop pagelist (S i) num fuel
      end
  end.

Definition ReleasePageList (pagelist : list (option ptr)) (num : Z) : PM (list (option ptr) * Z) :=
  ReleasePageList_loop pagelist 0 num (S (length pagelist)).

(** ** Writing rows *)

(** The tuple header as it lies in a column, behind size and attribute index. *)
Definition header_bytes (h : TupleHeader) : list Z :=
  le 8 (tmin h) ++ le 8 (tmax h) ++ le 8 (tinfo h) ++ le 4 (cid h) ++
  le 4 (rp_segno (undo h)) ++ le 4 (rp_pageno (undo h)) ++ le 4 (rp_itemIndex (undo h)).

Definition off_headerData : Z := 8.
Definition set_header (c : list Z) (h : TupleHeader) : option (list Z) :=
  store c off_headerData (header_bytes h).

Definition get_header (c : list Z) : option TupleHeader :=
  a ← load_u64 c 8; b ← load_u64 c 16; i ← load_u64 c 24; d ← load_u32 c 32;
  sg ← load_i32 c 36; pg ← load_i32 c 40; ix ← load_i32 c 44;
  Some (mkTuple a b i d (mkRowPos sg pg ix)).

Record RowData := mkRowData {
  rowPos : RowPosition;
  item : ItemData;
  rd_size : Z;
  columnData : list (list Z)
}.

Definition WriteRowOnePage (page : ptr) (row : RowData) : PM RowData :=
  b ← get_page page;
  '(b, it, i) ← st_lift (write_row b (rd_size row) (columnData row) (item row));
  put_page page b;; WritePage page MAIN_FORK;;
  n ← st_lift (pageNum b);
  mret (mkRowData (mkRowPos (rp_segno (rowPos row)) n i) it (rd_size row) (columnData row)).

Definition WriteRowItemDataWithHeader := WriteRowOnePage.

Definition WriteRowDataOnly (page : ptr) (row : RowData) (oldItem : ItemData) : PM unit :=
  b ← get_page page;
  b ← st_lift (ReplaceRowData b (columnData row) oldItem);
  put_page page b;; WritePage page MAIN_FORK.

(** ** One row over the pages of a group *)

Fixpoint LockGroupPages (pageList : list (option ptr)) (num : nat) : PM unit :=
  match num, pageList with
  | O, _ => mret tt
  | S num, p :: pageList => LockPage p RWLock_WRITE;; LockGroupPages pageList num
  | S _, [] => st_fault
  end.

Fixpoint UnLockGroupPages (pageList : list (option ptr)) (num : nat) : PM unit :=
  match num, pageList with
  | O, _ => mret tt
  | S num, p :: pageList => UnLockPage p RWLock_WRITE;; UnLockGroupPages pageList num
  | S _, [] => st_fault
  end.

(** [true] when every page has room for its column. *)
Fixpoint FreeSpaceCheck (pageList : list (option ptr)) (insertdata : list (list Z)) : PM bool :=
  match insertdata, pageList with
  | [], _ => mret true
  | c :: insertdata, Some p :: pageList =>
      size ← st_lift (col_size c);
      b ← get_page p;
      free ← st_lift (HasFreeSpace b (size + (sizeof_TableRowData + ITEM_SIZE)));
      if (free : bool) then FreeSpaceCheck pageList insertdata else mret false
  | _, _ => st_fault
  end.

Inductive EStat_RET := ESTAT_ERORR | ESTAT_SUCESS | ESTAT_NO_SPACE | ESTAT_UNKNOW.

Fixpoint insert_columns (pageList : list (option ptr)) (insertdata : list (list Z)) (h : TupleHeader)
    (row : RowData) : PM RowData :=
  match insertdata, pageList with
  | [], _ => mret row
  | c :: insertdata, Some p :: pageList =>
      c ← st_lift (set_header c h); size ← st_lift (col_size c);
      row ← WriteRowOnePage p (mkRowData (rowPos row) (item row) size [c]);
      insert_columns pageList insertdata h row
  | _, _ => st_fault
  end.

Definition zero_header : TupleHeader := mkTuple 0 0 0 0 (mkRowPos 0 0 0).

(** [curr] is the current transaction's id. *)
Definition InsertRowDataWithGroup (curr : Z) (insertdata : list (list Z)) (pageList : list (option ptr))
    (row : RowData) : PM (EStat_RET * RowData) :=
  let num := length insertdata in
  LockGroupPages pageList num;;
  free ← FreeSpaceCheck pageList insertdata;
  r ← (if (free : bool) then
         row ← insert_columns pageList insertdata (ComputeXminTupleHeader curr zero_header) row;
         mret (ESTAT_SUCESS, row)
       else mret (ESTAT_NO_SPACE, row));
  UnLockGroupPages pageList num;;
  mret r.

(** ** Reading rows under the page lock *)

Definition GetRowDataFromPageEx (page : option ptr) (item_offset : Z)
    : PM (option (option (list Z) * Z)) :=
  match page with
  | None => mret None
  | Some p =>
      LockPage page RWLock_READ;;
      b ← get_page p; r ← st_lift (next_row b item_offset);
      UnLockPage page RWLock_READ;; mret r
  end.

(** The row at an item offset, the item itself and where it was found. *)
Definition GetRowDataFromPageByIndexEx (pageIndex pageOffset : Z)
    : PM (option (list Z) * option (ItemData * Z * Z)) :=
  page ← GetPageByIndex pageIndex MAIN_FORK;
  match page with
  | None => mret (None, None)
  | Some p =>
      LockPage page RWLock_READ;;
      b ← get_page p;
      r ← (if pageOffset <=? 0 then mret (None, None) else
           ended ← st_lift (ITEM_END_CHECK pageOffset b);
           if (ended : bool) then mret (None, None) else
           it ← st_lift (GET_ITEM pageOffset b);
           if negb (GetItemValid (it_len it)) then mret (None, None) else
           if GetItemRedirect (it_len it) then
             x ← st_lift (GetRowDataFromExtPageEx b (GET_CUR_ITEM_INDEX pageOffset));
             n ← st_lift (pageNum b);
             mret (fst x, (fun y => (fst y, n, snd y)) <$> snd x)
           else
             c ← st_lift (DeFormRowDatEx2 b (it_offset it));
             mret (c, Some (it, pageIndex, pageOffset)));
      UnLockPage page RWLock_READ;;
      ReleasePage page;; mret r
  end.

(** ** undopage.c: the older versions of a row

    Follows the undo positions to the first version the snapshot sees. The page
    is read, not released, and the walk leaves by [break] with the page still
    locked when the item is past the end or not valid. *)

Fixpoint version_loop (fuel : nat) (curr : Z) (snap : option SnapShotInfo) (older : RowPosition)
    : PM (option (list Z)) :=
  match fuel with
  | O => st_fault
  | S fuel =>
      if rp_pageno older =? 0 then mret None else
      page ← ReadPage (rp_pageno older) MAIN_FORK;
      match page with
      | None => mret None
      | Some p =>
          LockPage page RWLock_READ;;
          b ← get_page p;
          let off := off_item + rp_itemIndex older * ITEM_SIZE in
          ended ← st_lift (ITEM_END_CHECK off b);
          if (ended : bool) then mret None else
          it ← st_lift (GET_ITEM off b);
          if negb (GetItemValid (it_len it)) then mret None else
          c ← st_lift (DeFormRowDatEx2 b (it_offset it));
          UnLockPage page RWLock_READ;;
          match c with
          | None => mret None
          | Some c =>
              h ← st_lift (get_header c);
              v ← st_lift (TupleVisibilitySatisfy curr h snap);
              if decide (v = TUPLE_VISIBLE) then mret (Some c)
              else version_loop fuel curr snap (undo h)
          end
      end
  end.

Definition CurrentReadVersion (fuel : nat) (curr : Z) (snap : option SnapShotInfo)
    (headRowData : option (list Z)) : PM (option (list Z)) :=
  match headRowData with
  | None => mret None
  | Some c => h ← st_lift (get_header c); version_loop fuel curr snap (undo h)
  end.

(** ** Tuple headers *)

Definition pos_ok (r : RowPosition) : Prop :=
  in_i32 (rp_segno r) /\ in_i32 (rp_pageno r) /\ in_i32 (rp_itemIndex r).
Definition header_ok (h : TupleHeader) : Prop :=
  in_u64 (tmin h) /\ in_u64 (tmax h) /\ in_u64 (tinfo h) /\ in_u32 (cid h) /\ pos_ok (undo h).

Lemma length_header_bytes h : length (header_bytes h) = 40%nat.
Proof. unfold header_bytes. by rewrite !length_app, !length_le. Qed.

(** A load at a field boundary of a concatenation of fields. *)
Lemma load_field n z rest : load (le n z ++ rest) 0 (Z.of_nat n) = Some (le n z).
Proof.
  rewrite load_app_l by (rewrite length_le; lia).
  pose proof (load_all (le n z)) as H. by rewrite length_le in H.
Qed.

Lemma load_skip n z rest k m :
  Z.of_nat n <= k -> load (le n z ++ rest) k m = load rest (k - Z.of_nat n) m.
Proof. intros. by rewrite load_app_r, length_le by (rewrite length_le; lia). Qed.

Lemma load_field_last n z : load (le n z) 0 (Z.of_nat n) = Some (le n z).
Proof. pose proof (load_all (le n z)) as H. by rewrite length_le in H. Qed.

(** One field of a header. *)
Ltac field_of :=
  unfold header_bytes; repeat (rewrite load_skip by lia; simpl Z.sub);
  first [apply (load_field 8) | apply (load_field 4) | apply (load_field_last 4)].

Lemma get_header_bytes c h :
  header_ok h -> load c 8 40 = Some (header_bytes h) -> get_header c = Some h.
Proof.
  intros (H1 & H2 & H3 & H4 & H5 & H6 & H7) Hl.
  assert (forall k n, 0 <= k -> 0 <= n -> k + n <= 40 -> load c (8 + k) n = load (header_bytes h) k n)
    as Hin by (intros; by apply (load_load _ _ _ _ _ _ Hl)).
  unfold get_header, load_i32, load_u32, load_u64.
  assert (load c 8 8 = Some (le 8 (tmin h))) as ->
    by (rewrite <- (Z.add_0_r 8) at 1; rewrite (Hin 0 8) by lia; field_of).
  assert (load c 16 8 = Some (le 8 (tmax h))) as ->
    by (change 16 with (8 + 8); rewrite (Hin 8 8) by lia; field_of).
  assert (load c 24 8 = Some (le 8 (tinfo h))) as ->
    by (change 24 with (8 + 16); rewrite (Hin 16 8) by lia; field_of).
  assert (load c 32 4 = Some (le 4 (cid h))) as ->
    by (change 32 with (8 + 24); rewrite (Hin 24 4) by lia; field_of).
  assert (load c 36 4 = Some (le 4 (rp_segno (undo h)))) as ->
    by (change 36 with (8 + 28); rewrite (Hin 28 4) by lia; field_of).
  assert (load c 40 4 = Some (le 4 (rp_pageno (undo h)))) as ->
    by (change 40 with (8 + 32); rewrite (Hin 32 4) by lia; field_of).
  assert (load c 44 4 = Some (le 4 (rp_itemIndex (undo h)))) as ->
    by (change 44 with (8 + 36); rewrite (Hin 36 4) by lia; field_of).
  cbn [fmap option_fmap option_map mbind option_bind].
  rewrite !unle_le8, !u64_small, !unle_le4_i32, unle_le4, u32_small by done.
  destruct h as [? ? ? ? []]. done.
Qed.

(** Stamping a header keeps the column's size and data. *)
Lemma set_header_spec c h :
  col_ok c -> 48 <= Z.of_nat (length c) ->
  exists c', set_header c h = Some c' /\ length c' = length c /\ col_ok c' /\
    load c' 8 40 = Some (header_bytes h) /\
    (forall o n, 48 <= o -> load c' o n = load c o n).
Proof.
  intros Hc Hl. unfold set_header, off_headerData.
  destruct (store_some c 8 (header_bytes h)) as (c' & Hs & Hlen);
    [lia|rewrite length_header_bytes; lia|].
  pose proof (length_header_bytes h) as Hh.
  exists c'. split_and!; [done|done| | |].
  - unfold col_ok, col_size in *. rewrite (load_i32_store_ne _ _ _ _ _ Hs) by lia.
    by rewrite Hlen.
  - by apply (load_store_eq _ _ _ _ _ Hs).
  - intros o n Ho. apply (load_store_ne _ _ _ _ _ _ Hs). lia.
Qed.

(** ** Inserting one row over a group *)

(** The member pages [ps] hold the rows [rss], each page under its own
    number. *)
Definition member_rep (s : PageState) (p : ptr) (rows : list row) : Prop :=
  exists b, pages s !! p = Some b /\ page_rep b rows /\ p.1 = MAIN_FORK /\ pageNum b = Some p.2.

Definition group_rep (s : PageState) (ps : list ptr) (rss : list (list row)) : Prop :=
  Forall2 (member_rep s) ps rss.

Fixpoint all_fit (rss : list (list row)) (cols : list (list Z)) : bool :=
  match rss, cols with
  | rows :: rss, c :: cols => (row_need c <? free_space rows) && all_fit rss cols
  | _, _ => true
  end.

(** [rows'] is [rows] and one row more: the column [c] with header [h]. *)
Definition one_more (h : TupleHeader) (rows : list row) (c : list Z) (rows' : list row) : Prop :=
  exists r, rows' = rows ++ [r] /\ readable r /\ set_header c h = Some (r_bytes r).

Definition column_ok (c : list Z) : Prop := col_ok c /\ sizeof_RowColumnData <= Z.of_nat (length c).

Definition item_clean (it : ItemData) : Prop :=
  in_u32 (it_len it) /\ in_u64 (it_rowid it) /\ GetItemRedirect (it_len it) = false.

Definition same_counts (s s' : PageState) : Prop :=
  pageCnt s' = pageCnt s /\ groupPageCnt s' = groupPageCnt s /\ group_id s' = group_id s.

(** The state after the member pages of [ps] were rewritten and written
    through. *)
Record rewritten (ps : list ptr) (s s' : PageState) : Prop := {
  rw_other q : q ∉ ps -> pages s' !! q = pages s !! q;
  rw_disk_other q : q ∉ ps -> disk s' !! q = disk s !! q;
  rw_disk p : p ∈ ps -> is_Some (pages s' !! p) /\ disk s' !! p = pages s' !! p;
  rw_trace : trace s' = trace s;
  rw_counts : same_counts s s'
}.

Lemma get_page_run p b s : pages s !! p = Some b -> get_page p s = Some (b, s).
Proof. intros H. unfold get_page, mbind, option_bind. by rewrite H. Qed.

Lemma FreeSpaceCheck_run s ps rss cols :
  group_rep s ps rss -> length ps = length cols -> Forall col_ok cols ->
  FreeSpaceCheck (Some <$> ps) cols s = Some (all_fit rss cols, s).
Proof.
  intros G. revert cols. induction G as [|p rows ps rss Hm G IH]; intros cols Hl Hok;
    destruct cols as [|c cols]; try done. simpl.
  apply Forall_cons in Hok as [Hc Hok].
  destruct Hm as (b & Hb & R & _). run (st_lift_run _ _ s Hc). run (get_page_run _ _ _ Hb).
  run (st_lift_run _ _ s (HasFreeSpace_rep _ _ (Z.of_nat (length c) + (sizeof_TableRowData + ITEM_SIZE)) R)).
  replace (Z.of_nat (length c) + (sizeof_TableRowData + ITEM_SIZE)) with (row_need c)
    by (unfold row_need; lia).
  destruct (row_need c <? free_space rows); simpl; [|done]. apply IH; [by simplify_eq/=|done].
Qed.

(** [WriteRowOnePage] on a member page with room. *)
Lemma WriteRowOnePage_run s p rows c row0 :
  member_rep s p rows -> col_ok c -> item_clean (item row0) -> rd_size row0 = Z.of_nat (length c) ->
  columnData row0 = [c] -> ITEM_SIZE + Z.of_nat (length c) <= free_space rows ->
  exists s' row' r, WriteRowOnePage p row0 s = Some (row', s') /\
    member_rep s' p (rows ++ [r]) /\ readable r /\ r_bytes r = c /\ item_clean (item row') /\
    rewritten [p] s s' /\ rowPos row' = mkRowPos (rp_segno (rowPos row0)) p.2 (Z.of_nat (length rows)).
Proof.
  intros (b & Hb & R & Hp1 & Hp2) Hc (I1 & I2 & I3) Hsz Hcols Hfit.
  pose proof (bytes_of_nonneg rows).
  assert (concat [c] = c) as Hcc by apply app_nil_r.
  pose proof (write_row_spec b rows (Z.of_nat (length c)) [c] (item row0) R) as W. cbv zeta in W.
  rewrite Hcc in W. unfold free_space in Hfit.
  destruct W as (b' & Hrun & R' & Hn & _); try done; [by apply Forall_singleton|lia|].
  rewrite <- Hsz, <- Hcols in Hrun.
  set (r := mkRow (new_len (it_len (item row0)) (Z.of_nat (length c))) (it_rowid (item row0)) c) in *.
  set (s1 := set_pages (<[p := b']> (pages s)) s).
  set (s2 := set_disk (<[p := b']> (disk s1)) s1).
  assert (pages s2 !! p = Some b') as Hp by apply lookup_insert_eq.
  rewrite Hp2 in Hn. exists s2. eexists. exists r. split_and!.
  - unfold WriteRowOnePage. run (get_page_run _ _ _ Hb). run (st_lift_run _ _ s Hrun).
    run_refl. fold s1.
    assert (WritePage p MAIN_FORK s1 = Some (tt, s2)) as Hw.
    { unfold WritePage. run (get_page_run p b' s1 Hp). unfold TableWrite, mbind, option_bind.
      rewrite Hn, <- Hp1. by destruct p. }
    run Hw. by run (st_lift_run _ _ s2 Hn).
  - exists b'. by split_and!.
  - split_and!; [done| |by apply item_redirect_new].
    unfold r, MAX_ROW_DATA_SIZE, item_off, off_item, ITEM_SIZE, PAGE_MAX_SIZE,
      PAGE_DATA_HEADER_SIZE in *. simpl. lia.
  - done.
  - split_and!; simpl; [|done|by apply item_redirect_new].
    apply valid_range, SetItemSize_range, I1.
  - split; simpl.
    + intros q Hq. rewrite lookup_insert_ne; [done|]. intros ->. apply Hq. by apply list_elem_of_singleton.
    + intros q Hq. rewrite lookup_insert_ne; [done|]. intros ->. apply Hq. by apply list_elem_of_singleton.
    + intros q ->%list_elem_of_singleton. rewrite !lookup_insert_eq. eauto.
    + done.
    + done.
  - done.
Qed.

Lemma member_rep_frame s s' p ps rows :
  rewritten ps s s' -> p ∉ ps -> member_rep s p rows -> member_rep s' p rows.
Proof. intros W Hp (b & Hb & H). exists b. by rewrite (rw_other _ _ _ W). Qed.

Lemma group_rep_frame s s' ps qs rss :
  rewritten qs s s' -> (forall p, p ∈ ps -> p ∉ qs) -> group_rep s ps rss -> group_rep s' ps rss.
Proof.
  intros W Hd G. induction G as [|p rows ps rss Hm G IH]; constructor.
  - eapply member_rep_frame; [done| |done]. apply Hd. rewrite elem_of_cons. by left.
  - apply IH. intros q Hq. apply Hd. rewrite elem_of_cons. by right.
Qed.

Lemma rewritten_cons p ps s s1 s2 :
  rewritten [p] s s1 -> rewritten ps s1 s2 -> p ∉ ps -> rewritten (p :: ps) s s2.
Proof.
  intros W1 W2 Hp. split.
  - intros q Hq. rewrite elem_of_cons in Hq.
    rewrite (rw_other _ _ _ W2), (rw_other _ _ _ W1) by (rewrite ?list_elem_of_singleton; tauto). done.
  - intros q Hq. rewrite elem_of_cons in Hq.
    rewrite (rw_disk_other _ _ _ W2), (rw_disk_other _ _ _ W1)
      by (rewrite ?list_elem_of_singleton; tauto). done.
  - intros q [->|Hq]%elem_of_cons; [|by apply (rw_disk _ _ _ W2)].
    rewrite (rw_other _ _ _ W2), (rw_disk_other _ _ _ W2) by done.
    apply (rw_disk _ _ _ W1). by apply list_elem_of_singleton.
  - by rewrite (rw_trace _ _ _ W2), (rw_trace _ _ _ W1).
  - destruct (rw_counts _ _ _ W1) as (A1 & A2 & A3), (rw_counts _ _ _ W2) as (B1 & B2 & B3).
    split_and!; congruence.
Qed.

Lemma insert_columns_run h cols s ps rss row0 :
  group_rep s ps rss -> NoDup ps -> length ps = length cols -> Forall column_ok cols ->
  item_clean (item row0) -> all_fit rss cols = true ->
  exists s' row' rss', insert_columns (Some <$> ps) cols h row0 s = Some (row', s') /\
    group_rep s' ps rss' /\ Forall3 (one_more h) rss cols rss' /\ rewritten ps s s' /\ item_clean (item row').
Proof.
  revert rss cols s row0. induction ps as [|p ps IH];
    intros rss [|c cols] s row0 G Hnd Hl Hok Hit Hfit; try done.
  { apply Forall2_nil_inv_l in G as ->. exists s, row0, [].
    split; [done|]. split; [constructor|]. split; [constructor|]. split; [|done].
    split; [done|done| |done|done]. intros q Hq. by apply elem_of_nil in Hq. }
  destruct rss as [|rows rss]; [by apply Forall2_nil_inv_r in G|].
  apply Forall2_cons in G as [Hm G]. apply NoDup_cons in Hnd as [Hp Hnd].
  apply Forall_cons in Hok as [[Hc Hlen] Hok].
  simpl in Hfit. apply andb_true_iff in Hfit as [Hf1 Hfit]. apply Z.ltb_lt in Hf1.
  destruct (set_header_spec c h Hc Hlen) as (c' & Hset & Hl' & Hc' & _).
  destruct (WriteRowOnePage_run s p rows c'
    (mkRowData (rowPos row0) (item row0) (Z.of_nat (length c')) [c'])) as
    (s1 & row1 & r & Hrun & Hm1 & Hr & Hb & Hit1 & W1 & _); try done.
  { unfold row_need, sizeof_TableRowData in *. rewrite Hl'. lia. }
  destruct (IH rss cols s1 row1) as (s2 & row2 & rss' & Hruns & G2 & F & W2 & Hit2); try done.
  { eapply group_rep_frame; [exact W1| |exact G]. intros q Hq ->%list_elem_of_singleton. done. }
  { by injection Hl. }
  exists s2, row2, ((rows ++ [r]) :: rss'). split_and!.
  - simpl. run (st_lift_run _ _ s Hset). run (st_lift_run _ _ s Hc'). by run Hrun.
  - constructor; [|done]. by eapply member_rep_frame.
  - constructor; [|done]. exists r. split_and!; [done..|]. by rewrite Hb.
  - by eapply rewritten_cons.
  - done.
Qed.

Lemma LockGroupPages_run ps num s :
  length ps = num ->
  LockGroupPages (Some <$> ps) num s =
    Some (tt, mkPS (pages s) (disk s) (trace s ++ ((fun p => EvLock p RWLock_WRITE) <$> ps))
                (pageCnt s) (groupPageCnt s) (group_id s)).
Proof.
  intros <-. revert s. induction ps as [|p ps IH]; intros s; simpl.
  - rewrite app_nil_r. by destruct s.
  - run_refl. rewrite IH. simpl. by rewrite <- app_assoc.
Qed.

Lemma UnLockGroupPages_run ps num s :
  length ps = num ->
  UnLockGroupPages (Some <$> ps) num s =
    Some (tt, mkPS (pages s) (disk s) (trace s ++ ((fun p => EvUnlock p RWLock_WRITE) <$> ps))
                (pageCnt s) (groupPageCnt s) (group_id s)).
Proof.
  intros <-. revert s. induction ps as [|p ps IH]; intros s; simpl.
  - rewrite app_nil_r. by destruct s.
  - run_refl. rewrite IH. simpl. by rewrite <- app_assoc.
Qed.

Lemma InsertRowDataWithGroup_run curr cols s ps rss row0 :
  group_rep s ps rss -> NoDup ps -> length ps = length cols -> Forall column_ok cols ->
  item_clean (item row0) ->
  exists r row' s', InsertRowDataWithGroup curr cols (Some <$> ps) row0 s = Some ((r, row'), s') /\
    trace s' = trace s ++ ((fun p => EvLock p RWLock_WRITE) <$> ps)
                 ++ ((fun p => EvUnlock p RWLock_WRITE) <$> ps) /\
    if all_fit rss cols then
      r = ESTAT_SUCESS /\ exists rss', group_rep s' ps rss' /\
        Forall3 (one_more (ComputeXminTupleHeader curr zero_header)) rss cols rss' /\
        (forall q, q ∉ ps -> pages s' !! q = pages s !! q /\ disk s' !! q = disk s !! q) /\
        (forall p, p ∈ ps -> is_Some (pages s' !! p) /\ disk s' !! p = pages s' !! p) /\
        same_counts s s' /\ item_clean (item row')
    else r = ESTAT_NO_SPACE /\ pages s' = pages s /\ disk s' = disk s.
Proof.
  intros G Hnd Hl Hok Hit. unfold InsertRowDataWithGroup.
  run (LockGroupPages_run ps (length cols) s Hl).
  set (s1 := mkPS (pages s) (disk s) _ _ _ _).
  assert (group_rep s1 ps rss) as G1 by exact G.
  assert (Forall col_ok cols) as Hok' by (eapply Forall_impl; [exact Hok|by intros ? []]).
  run (FreeSpaceCheck_run s1 ps rss cols G1 Hl Hok').
  destruct (all_fit rss cols) eqn:Hfit.
  - destruct (insert_columns_run (ComputeXminTupleHeader curr zero_header) cols s1 ps rss row0)
      as (s2 & row' & rss' & Hrun & G2 & F & W & Hit'); try done.
    exists ESTAT_SUCESS, row'. eexists. split_and!.
    + erewrite st_bind_some by (run Hrun; reflexivity). cbv beta.
      run (UnLockGroupPages_run ps (length cols) s2 Hl). reflexivity.
    + simpl. rewrite (rw_trace _ _ _ W). simpl. by rewrite <- app_assoc.
    + done.
    + exists rss'. split_and!; [exact G2|exact F| |exact (rw_disk _ _ _ W)|exact (rw_counts _ _ _ W)|exact Hit'].
      intros q Hq. split; [by apply (rw_other _ _ _ W)|by apply (rw_disk_other _ _ _ W)].
  - exists ESTAT_NO_SPACE, row0. eexists. split_and!.
    + run_refl. run (UnLockGroupPages_run ps (length cols) s1 Hl). reflexivity.
    + simpl. by rewrite <- app_assoc.
    + done.
    + done.
    + done.
Qed.

(** C12: inserting a row over the member pages of a group is all or nothing. When
    every page has room each page gets exactly one row more - its column with
    the inserting transaction's header - and is written through to its place in
    the file; when one page has no room nothing changes. Either way no page
    outside the group is touched and every page lock taken is released. *)
Theorem InsertRowDataWithGroup_all_or_nothing curr cols s ps rss row0 :
  group_rep s ps rss -> NoDup ps -> length ps = length cols -> Forall column_ok cols ->
  item_clean (item row0) ->
  exists r row' s', InsertRowDataWithGroup curr cols (Some <$> ps) row0 s = Some ((r, row'), s') /\
    trace s' = trace s ++ ((fun p => EvLock p RWLock_WRITE) <$> ps)
                 ++ ((fun p => EvUnlock p RWLock_WRITE) <$> ps) /\
    if all_fit rss cols then
      r = ESTAT_SUCESS /\ exists rss', group_rep s' ps rss' /\
        Forall3 (one_more (ComputeXminTupleHeader curr zero_header)) rss cols rss' /\
        (forall q, q ∉ ps -> pages s' !! q = pages s !! q /\ disk s' !! q = disk s !! q) /\
        (forall p, p ∈ ps -> is_Some (pages s' !! p) /\ disk s' !! p = pages s' !! p)
    else r = ESTAT_NO_SPACE /\ pages s' = pages s /\ disk s' = disk s.
Proof.
  intros G Hnd Hl Hok Hit. destruct (InsertRowDataWithGroup_run curr cols s ps rss row0) as (r & row' & s' & E & Ht & Hr); try done.
  exists r, row', s'. split; [done|]. split; [done|]. destruct (all_fit rss cols); [|done].
  destruct Hr as (Hr & rss' & G' & F & Ho & Hp & _). by eauto 10.
Qed.

(** Two fresh member pages and a row of two columns. *)
Definition page_no (n : Z) : list Z := default [] (store32 fresh_page off_pageNum n).

Lemma page_no_rep n :
  in_i32 n -> page_rep (page_no n) [] /\ pageNum (page_no n) = Some n.
Proof.
  intros Hn. destruct fresh_page_facts as (_ & Hl & Hd & He & _).
  destruct (store32_some fresh_page off_pageNum n) as (p & Hp & Hlp);
    [unfold off_pageNum; lia|unfold off_pageNum; lia|].
  unfold page_no. rewrite Hp. simpl. split; [|by apply (load_i32_store _ _ _ _ Hp)].
  split.
  - by rewrite Hlp.
  - unfold dataOffset in *. rewrite (load_i32_store_ne _ _ _ _ _ Hp); [exact Hd|].
    rewrite length_le. unfold off_pageNum, off_dataOffset. lia.
  - unfold dataEndOffset in *. rewrite (load_i32_store_ne _ _ _ _ _ Hp); [exact He|].
    rewrite length_le. unfold off_pageNum, off_dataEndOffset. lia.
  - unfold item_off, off_item, ITEM_SIZE, PAGE_MAX_SIZE. simpl. lia.
  - intros i r Hi. rewrite lookup_nil in Hi. discriminate.
  - intros i r Hi. rewrite lookup_nil in Hi. discriminate.
  - intros r Hr. exfalso. exact (not_elem_of_nil _ Hr).
Qed.

#[local] Opaque page_no.

Lemma member_rep_page_no s n :
  in_i32 n -> pages s !! (MAIN_FORK, n) = Some (page_no n) -> member_rep s (MAIN_FORK, n) [].
Proof.
  intros Hn Hp. destruct (page_no_rep n Hn) as [R Hno]. exists (page_no n).
  split; [exact Hp|]. split; [exact R|]. split; [reflexivity|exact Hno].
Qed.

Definition two_pages : PageState :=
  mkPS {[ (MAIN_FORK, 2) := page_no 2; (MAIN_FORK, 3) := page_no 3 ]} ∅ [] 3 2 1.

Lemma InsertRowDataWithGroup_all_or_nothing_witness :
  let ps := [(MAIN_FORK, 2); (MAIN_FORK, 3)] in
  let cols := [sample_col 4 1; sample_col 9 2] in
  exists r row' s',
    InsertRowDataWithGroup 7 cols (Some <$> ps) (mkRowData (mkRowPos 0 0 0) (mkItem 0 0 0) 0 [])
      two_pages = Some ((r, row'), s') /\
    trace s' = [EvLock (MAIN_FORK, 2) RWLock_WRITE; EvLock (MAIN_FORK, 3) RWLock_WRITE;
                EvUnlock (MAIN_FORK, 2) RWLock_WRITE; EvUnlock (MAIN_FORK, 3) RWLock_WRITE] /\
    r = ESTAT_SUCESS /\ exists rss', group_rep s' ps rss' /\
      Forall3 (one_more (ComputeXminTupleHeader 7 zero_header)) [[]; []] cols rss' /\
      (forall q, q ∉ ps -> pages s' !! q = pages two_pages !! q /\ disk s' !! q = disk two_pages !! q) /\
      (forall p, p ∈ ps -> is_Some (pages s' !! p) /\ disk s' !! p = pages s' !! p).
Proof.
  intros ps cols.
  destruct (InsertRowDataWithGroup_all_or_nothing 7 cols two_pages ps [[]; []]
    (mkRowData (mkRowPos 0 0 0) (mkItem 0 0 0) 0 [])) as (r & row' & s' & H1 & H2 & H3).
  - repeat constructor; (apply member_rep_page_no; [unfold in_i32; lia|reflexivity]).
  - unfold ps. apply NoDup_cons. rewrite list_elem_of_singleton. split; [congruence|].
    apply NoDup_singleton.
  - reflexivity.
  - repeat (apply Forall_cons; split; [split; [by vm_compute|by vm_compute]|]). by apply Forall_nil.
  - split_and!; by vm_compute.
  - exists r, row', s'. split; [exact H1|]. split; [exact H2|exact H3].
Defined.

(** ** Older versions

    [vchain s older l]: following the undo positions from [older] meets the
    versions [l], each a valid item of a page of the table. *)

Inductive vchain (s : PageState) : RowPosition -> list (ptr * list Z * TupleHeader) -> Prop :=
  | vchain_end older : rp_pageno older = 0 -> vchain s older []
  | vchain_cons older b it c h l :
      0 < rp_pageno older ->
      pages s !! (MAIN_FORK, rp_pageno older) = Some b ->
      ITEM_END_CHECK (off_item + rp_itemIndex older * ITEM_SIZE) b = Some false ->
      GET_ITEM (off_item + rp_itemIndex older * ITEM_SIZE) b = Some it ->
      GetItemValid (it_len it) = true ->
      ReadRowData b (it_offset it) = Some (Some c) ->
      get_header c = Some h -> vchain s (undo h) l ->
      vchain s older (((MAIN_FORK, rp_pageno older), c, h) :: l).

Definition sees (curr : Z) (snap : option SnapShotInfo) (h : TupleHeader) : bool :=
  bool_decide (TupleVisibilitySatisfy curr h snap = Some TUPLE_VISIBLE).

(** The first visible version and the pages read on the way to it. *)
Fixpoint first_visible (curr : Z) (snap : option SnapShotInfo) (l : list (ptr * list Z * TupleHeader))
    : option (list Z) * list ptr :=
  match l with
  | [] => (None, [])
  | (p, c, h) :: l =>
      if sees curr snap h then (Some c, [p])
      else let (r, ps) := first_visible curr snap l in (r, p :: ps)
  end.

Definition read_events (p : ptr) : list pev :=
  [EvPin p; EvLock p RWLock_READ; EvUnlock p RWLock_READ].

Definition with_trace (s : PageState) (t : list pev) : PageState :=
  mkPS (pages s) (disk s) (trace s ++ t) (pageCnt s) (groupPageCnt s) (group_id s).

Lemma vchain_trace s t older l : vchain s older l -> vchain (with_trace s t) older l.
Proof. induction 1; by econstructor. Qed.

Lemma with_trace_app s t1 t2 : with_trace (with_trace s t1) t2 = with_trace s (t1 ++ t2).
Proof. unfold with_trace. simpl. by rewrite <- app_assoc. Qed.

Lemma ReadPage_cached s n fork b :
  0 < n -> pages s !! (fork, n) = Some b ->
  ReadPage n fork s = Some (Some (fork, n), with_trace s [EvPin (fork, n)]).
Proof. intros Hn Hb. unfold ReadPage. rewrite (proj2 (Z.leb_gt _ _)) by lia. by rewrite Hb. Qed.

Lemma version_loop_run curr snap l fuel s older :
  vchain s older l -> (length l < fuel)%nat ->
  (forall p c h, (p, c, h) ∈ l -> is_Some (TupleVisibilitySatisfy curr h snap)) ->
  version_loop fuel curr snap older s =
    Some ((first_visible curr snap l).1,
          with_trace s ((first_visible curr snap l).2 ≫= read_events)).
Proof.
  revert fuel s older. induction l as [|[[p c] h] l IH]; intros fuel s older V Hf Hv;
    (destruct fuel as [|fuel]; [simpl in Hf; lia|]);
    inversion V as [? Hend|? b it ? ? ? Hpos Hb He Hi Hvd Hr Hg V']; subst; clear V;
    cbn [version_loop].
  - rewrite (proj2 (Z.eqb_eq _ _)) by done. simpl. unfold with_trace. rewrite app_nil_r.
    by destruct s.
  - rewrite (proj2 (Z.eqb_neq _ _)) by lia. run (ReadPage_cached s _ _ _ Hpos Hb).
    run_refl. set (s1 := emit _ _).
    assert (pages s1 !! (MAIN_FORK, rp_pageno older) = Some b) as Hb1 by done.
    run (get_page_run _ _ s1 Hb1). run (st_lift_run _ _ s1 He). run (st_lift_run _ _ s1 Hi).
    rewrite Hvd. cbn [negb].
    assert (DeFormRowDatEx2 b (it_offset it) = Some (Some c)) as Hc by done.
    run (st_lift_run _ _ s1 Hc). run_refl. set (s2 := emit _ s1). run (st_lift_run _ _ s2 Hg).
    destruct (Hv (MAIN_FORK, rp_pageno older) c h) as [v Hvis]; [rewrite elem_of_cons; by left|].
    run (st_lift_run _ _ s2 Hvis).
    assert (s2 = with_trace s (read_events (MAIN_FORK, rp_pageno older))) as Hs2.
    { unfold s2, s1, emit, with_trace. simpl. by rewrite <- !app_assoc. }
    cbn [first_visible]. unfold sees. rewrite Hvis. case_decide as Hd.
    + subst v. rewrite bool_decide_true by done. simpl. by rewrite Hs2.
    + rewrite bool_decide_false by congruence.
      rewrite Hs2, (IH fuel) by (first [by apply vchain_trace | simpl in Hf; lia |
        intros; eapply Hv; rewrite elem_of_cons; by right]).
      destruct (first_visible curr snap l) as [r ps]. simpl. by rewrite with_trace_app.
Qed.

(** Reading an older version walks the undo chain to the first version the
    snapshot sees and returns it, or NULL when the chain ends without one. Each
    page's read lock is released before the next version is looked at, but every
    page read on the way stays pinned: nothing unpins it. *)
Theorem CurrentReadVersion_walk curr snap s head h0 l fuel :
  get_header head = Some h0 -> vchain s (undo h0) l -> (length l < fuel)%nat ->
  (forall p c h, (p, c, h) ∈ l -> is_Some (TupleVisibilitySatisfy curr h snap)) ->
  exists r ps, first_visible curr snap l = (r, ps) /\
    CurrentReadVersion fuel curr snap (Some head) s =
      Some (r, with_trace s (ps ≫= (fun p => [EvPin p; EvLock p RWLock_READ; EvUnlock p RWLock_READ]))).
Proof.
  intros Hh V Hf Hv. exists (first_visible curr snap l).1, (first_visible curr snap l).2.
  split; [by destruct (first_visible curr snap l)|].
  unfold CurrentReadVersion. run (st_lift_run _ _ s Hh). by apply version_loop_run.
Qed.

(** When the undo position names an item past the end of its page, or one
    that is not valid, the walk returns NULL with the page's read lock (and its
    pin) still held. *)
Theorem CurrentReadVersion_leaves_lock curr snap s head h0 b fuel :
  get_header head = Some h0 -> 0 < rp_pageno (undo h0) ->
  pages s !! (MAIN_FORK, rp_pageno (undo h0)) = Some b ->
  (ITEM_END_CHECK (off_item + rp_itemIndex (undo h0) * ITEM_SIZE) b = Some true \/
   exists it, ITEM_END_CHECK (off_item + rp_itemIndex (undo h0) * ITEM_SIZE) b = Some false /\
     GET_ITEM (off_item + rp_itemIndex (undo h0) * ITEM_SIZE) b = Some it /\
     GetItemValid (it_len it) = false) ->
  CurrentReadVersion (S fuel) curr snap (Some head) s =
    Some (None, with_trace s [EvPin (MAIN_FORK, rp_pageno (undo h0));
                              EvLock (MAIN_FORK, rp_pageno (undo h0)) RWLock_READ]).
Proof.
  intros Hh Hp Hb Hbad. unfold CurrentReadVersion. run (st_lift_run _ _ s Hh). cbn [version_loop].
  rewrite (proj2 (Z.eqb_neq _ _)) by lia. run (ReadPage_cached s _ _ _ Hp Hb). run_refl.
  set (s1 := emit _ _).
  assert (s1 = with_trace s [EvPin (MAIN_FORK, rp_pageno (undo h0));
                             EvLock (MAIN_FORK, rp_pageno (undo h0)) RWLock_READ]) as Hs1.
  { unfold s1, emit, with_trace. simpl. by rewrite <- app_assoc. }
  assert (pages s1 !! (MAIN_FORK, rp_pageno (undo h0)) = Some b) as Hb1 by done.
  run (get_page_run _ _ s1 Hb1). destruct Hbad as [He|(it & He & Hi & Hv)].
  - run (st_lift_run _ _ s1 He). by rewrite Hs1.
  - run (st_lift_run _ _ s1 He). run (st_lift_run _ _ s1 Hi). rewrite Hv. by rewrite Hs1.
Qed.

(** A stored row is a version. *)
Lemma vchain_row s sg n i b rows r h l :
  0 < n -> pages s !! (MAIN_FORK, n) = Some b -> page_rep b rows -> rows !! i = Some r ->
  readable r -> get_header (r_bytes r) = Some h -> vchain s (undo h) l ->
  vchain s (mkRowPos sg n (Z.of_nat i)) (((MAIN_FORK, n), r_bytes r, h) :: l).
Proof.
  intros Hn Hb R Hi Hr Hh V. pose proof (lookup_lt_Some _ _ _ Hi).
  destruct (pr_ok _ _ R r) as [_ Hv]; [by eapply list_elem_of_lookup_2|].
  apply (vchain_cons s (mkRowPos sg n (Z.of_nat i)) b
    (mkItem (row_off rows i) (r_len r) (r_id r))); simpl; try done.
  - fold (item_off i). rewrite (item_end _ _ _ R). by rewrite (proj2 (Nat.leb_gt _ _)) by lia.
  - apply (pr_item _ _ R i r Hi).
  - by apply (ReadRowData_row _ _ _ _ R Hi).
Qed.

(** A column of four data bytes with the given header. *)
Definition stamped (h : TupleHeader) : list Z := default [] (set_header (sample_col 4 1) h).

Definition old_header : TupleHeader := mkTuple 3 0 1 0 (mkRowPos 0 0 0).
Definition new_header (i : Z) : TupleHeader := mkTuple 5 0 1 0 (mkRowPos 0 2 i).

Lemma CurrentReadVersion_walk_witness :
  exists s, CurrentReadVersion 2 9 None (Some (stamped (new_header 0))) s =
    Some (Some (stamped old_header),
          with_trace s [EvPin (MAIN_FORK, 2); EvLock (MAIN_FORK, 2) RWLock_READ;
                        EvUnlock (MAIN_FORK, 2) RWLock_READ]).
Proof.
  destruct (page_no_rep 2) as [R0 _]; [unfold in_i32; lia|].
  destruct (write_row_spec (page_no 2) [] 52 [stamped old_header] (mkItem 0 0 0) R0)
    as (b & _ & R & _);
    [by apply Forall_singleton; vm_compute|by vm_compute|by vm_compute|by vm_compute|by vm_compute|].
  set (r := mkRow _ _ _) in R. change ([] ++ [r]) with [r] in R.
  set (s := mkPS {[ (MAIN_FORK, 2) := b ]} ∅ [] 0 0 0). exists s.
  assert (r_bytes r = stamped old_header) as Hr by by vm_compute.
  assert (vchain s (mkRowPos 0 2 0) [((MAIN_FORK, 2), r_bytes r, old_header)]) as V.
  { apply (vchain_row s 0 2 0 b [r] r old_header []); [lia|reflexivity|exact R|reflexivity| | |].
    - split_and!; by vm_compute.
    - by vm_compute.
    - by apply vchain_end. }
  destruct (CurrentReadVersion_walk 9 None s (stamped (new_header 0)) (new_header 0) _ 2
    ltac:(by vm_compute) V ltac:(simpl; lia)) as (r' & ps & Hf & Hrun).
  { intros p c h _. by exists TUPLE_VISIBLE. }
  rewrite Hr in Hf. simpl in Hf. injection Hf as <- <-. exact Hrun.
Defined.

Lemma CurrentReadVersion_leaves_lock_witness :
  CurrentReadVersion 1 9 None (Some (stamped (new_header 5))) two_pages =
    Some (None, with_trace two_pages [EvPin (MAIN_FORK, 2); EvLock (MAIN_FORK, 2) RWLock_READ]).
Proof.
  destruct (page_no_rep 2) as [R0 _]; [unfold in_i32; lia|].
  apply (CurrentReadVersion_leaves_lock 9 None two_pages (stamped (new_header 5)) (new_header 5)
    (page_no 2) 0); [by vm_compute|simpl; lia|reflexivity|].
  left. exact (item_end _ _ 5 R0).
Defined.
