(* ===== verification/Space.v ===== *)
(** * Finding and making space

    Models the space management of [src/src/sqlcore/storage/buffer/buffer.c]:
    extending a table's file, the first-fit search over its pages, the search
    along an extension chain, and the group file - its items and the member
    pages they name. *)

From S2P Require Import Prelude Bytes Locks Transaction Page PageStore.

(** ** Extending the file *)

Definition PAGE_HEAD_PAGE_NUM : Z := 1.
Definition PAGE_EXTENSION_MAX_NUM : Z := 512.
Definition off_pageCnt : Z := 20.
(** [groupInfo.group_id] of the group file's first page. *)
Definition off_group_id : Z := 40.

Inductive PageOp := PAGE_NEW | PAGE_EXIST.
#[export] Instance PageOp_eq_dec : EqDecision PageOp.
Proof. solve_decision. Defined.

(** [atomic_fetch_add] of the fork's page counter; returns the old value. *)
Definition next_pageCnt (fork : ForkType) : PM Z :=
  match fork with
  | MAIN_FORK => n ← st_gets pageCnt; st_modify (set_pageCnt (u32 (n + 1)));; mret n
  | GROUP_FORK => n ← st_gets groupPageCnt; st_modify (set_groupPageCnt (u32 (n + 1)));; mret n
  end.

Definition UpdateTableMetaData (b : list Z) : PM (list Z) :=
  n ← st_gets pageCnt; st_lift (store32 b off_pageCnt n).

Definition UpdateGroupMetaData (b : list Z) : PM (list Z) :=
  g ← st_gets group_id; b ← st_lift (store32 b off_group_id g);
  n ← st_gets groupPageCnt; st_lift (store32 b off_pageCnt n).

Definition UpdateMetaData (fork : ForkType) : PM unit :=
  page ← GetPageByIndex PAGE_HEAD_PAGE_NUM fork;
  LockPage page RWLock_WRITE;;
  p ← st_lift page;
  b ← get_page p;
  b ← (match fork with MAIN_FORK => UpdateTableMetaData b | GROUP_FORK => UpdateGroupMetaData b end);
  put_page p b;;
  WritePage p fork;;
  UnLockPage page RWLock_WRITE;;
  ReleasePage page.

(** Writes [num] fresh pages; returns the last one's number. *)
Fixpoint extend_pages (num : nat) (fork : ForkType) (b : list Z) (last : Z) : PM Z :=
  match num with
  | O => mret last
  | S num =>
      n ← next_pageCnt fork;
      b ← st_lift (store32 b off_pageNum (n + 1));
      TableWrite b fork;;
      extend_pages num fork b (i32 (n + 1))
  end.

Definition ExtensionTbl (num : Z) (fork : ForkType) : PM (option ptr) :=
  if (num <=? 0) || (PAGE_EXTENSION_MAX_NUM <? num) then mret None else
  b ← st_lift InitPage;
  n ← extend_pages (Z.to_nat num) fork b 0;
  UpdateMetaData fork;;
  GetPageByIndex n fork.

(** ** First fit: GetSpacePage *)

Fixpoint space_loop (fuel : nat) (size : Z) (fork : ForkType) (pageIndex : Z) : PM (option ptr) :=
  match fuel with
  | O => st_fault
  | S fuel =>
      page ← GetPageByIndex pageIndex fork;
      match page with
      | None => mret None
      | Some p =>
          LockPage page RWLock_READ;;
          b ← get_page p;
          free ← st_lift (HasFreeSpace b size);
          UnLockPage page RWLock_READ;;
          if (free : bool) then mret page
          else ReleasePage page;; space_loop fuel size fork (pageIndex + 1)
      end
  end.

(** [fuel] bounds the number of pages of the file. *)
Definition GetSpacePage (fuel : nat) (size : Z) (op : PageOp) (fork : ForkType) : PM (option ptr) :=
  if PAGE_MAX_SIZE <=? size + PAGE_DATA_HEADER_SIZE then mret None else
  page ← space_loop fuel size fork (PAGE_HEAD_PAGE_NUM + 1);
  match page with
  | Some _ => mret page
  | None => if decide (op = PAGE_NEW) then ExtensionTbl 1 fork else mret None
  end.

(** ** Along the extension chain: GetSpaceSpecifyPage *)

Definition PAGE_UNDO : Z := 8.
Definition off_undo_pageno : Z := 28.
Definition off_ext_pageno : Z := 36.

Definition GET_PAGE_TYPE (t : Z) : Z := Z.land t PAGE_TYPE_MASK.
Definition SET_PAGE_TYPE (t type : Z) : Z :=
  Z.lor (Z.land t (Z.lnot PAGE_TYPE_MASK mod 2 ^ 32)) (Z.land type PAGE_TYPE_MASK).

(** How the chain walk ends: a page with room, the error of a page of the wrong
    type, or no room, with the first page (still locked) and the type to
    extend with. *)
Inductive chain_result :=
  | ChainFound (p : ptr)
  | ChainError
  | ChainNone (firstpage : option ptr) (pageType : Z).

Definition unlock_release (p : option ptr) : PM unit :=
  match p with None => mret tt | Some _ => UnLockPage p RWLock_WRITE;; ReleasePage p end.

Fixpoint chain_loop (fuel : nat) (size : Z) (fork : ForkType) (firstpage : option ptr)
    (startPageIndex pageType pageIndex : Z) : PM chain_result :=
  match fuel with
  | O => st_fault
  | S fuel =>
      let again first start type index :=
        if negb (start =? 0) && (index <? 2)
        then chain_loop fuel size fork first start type index
        else mret (ChainNone first type) in
      page ← GetPageByIndex startPageIndex fork;
      match page with
      | None => mret (ChainNone firstpage pageType)
      | Some p =>
          LockPage page RWLock_WRITE;;
          b ← get_page p;
          if bool_decide (firstpage = None) && (pageType =? PAGE_UNDO) then
            n ← st_lift (load_i32 b off_undo_pageno);
            again page n pageType pageIndex
          else
            t ← st_lift (Page.pageType b);
            if negb (GET_PAGE_TYPE t =? pageType) then
              UnLockPage page RWLock_WRITE;; ReleasePage page;;
              unlock_release firstpage;; mret ChainError
            else
              free ← st_lift (HasFreeSpace b size);
              if (free : bool) then
                UnLockPage page RWLock_WRITE;; unlock_release firstpage;; mret (ChainFound p)
              else
                ext ← st_lift (load_i32 b off_ext_pageno);
                let '(type, start, index) :=
                  if pageType =? PAGE_DATA then (PAGE_EXTDATA, ext, pageIndex)
                  else (pageType, startPageIndex, pageIndex + 1) in
                match firstpage with
                | None => again page start type (index + 1)
                | Some f =>
                    (if decide (p = f) then mret tt else unlock_release page);;
                    again firstpage start type (index + 1)
                end
      end
  end.

(** The undo case passes through the loop twice before the counter moves. *)
Definition chain_fuel_max : nat := 4.

Definition set_type (p : ptr) (type : Z) : PM unit :=
  b ← get_page p; t ← st_lift (Page.pageType b);
  b ← st_lift (store32 b off_pageType (SET_PAGE_TYPE t type)); put_page p b.

(** Head insertion of [ext] into the chain field [off] of [first]. *)
Definition link_page (off : Z) (first ext : ptr) : PM unit :=
  fb ← get_page first; old ← st_lift (load_i32 fb off);
  eb ← get_page ext; eb ← st_lift (store32 eb off old); put_page ext eb;;
  fb ← get_page first; eb ← get_page ext; n ← st_lift (pageNum eb);
  fb ← st_lift (store32 fb off n); put_page first fb.

Definition GetSpaceSpecifyPage (size : Z) (op : PageOp) (fork : ForkType) (startPageIndex type : Z)
    : PM (option ptr) :=
  if PAGE_MAX_SIZE <=? size + PAGE_DATA_HEADER_SIZE then mret None else
  r ← chain_loop chain_fuel_max size fork None startPageIndex type 0;
  match r with
  | ChainFound p => mret (Some p)
  | ChainError => mret None
  | ChainNone firstpage type =>
      if decide (op = PAGE_NEW) then
        st_modify (emit EvExtStart);;
        extpage ← ExtensionTbl 1 fork;
        match extpage with
        | None => st_modify (emit EvExtEnd);; mret None
        | Some e =>
            LockPage extpage RWLock_WRITE;;
            set_type e type;;
            match firstpage with
            | None => mret extpage
            | Some f =>
                set_type e type;;
                link_page (if type =? PAGE_EXTDATA then off_ext_pageno else off_undo_pageno) f e;;
                WritePage f fork;;
                UnLockPage extpage RWLock_WRITE;;
                st_modify (emit EvExtEnd);;
                UnLockPage firstpage RWLock_WRITE;;
                ReleasePage firstpage;;
                mret extpage
            end
        end
      else unlock_release firstpage;; mret None
  end.

(** ** Group items: one entry per group, naming a page per column

    A group item has the layout of a row item, with the group's id in place of
    the row id; a member entry is 16 bytes. *)

Definition sizeof_Member : Z := 16.

Definition member_bytes (colIndex pageno : Z) : list Z :=
  le 4 colIndex ++ le 4 1 ++ le 4 0 ++ le 4 pageno.

Fixpoint member_data (num : nat) (i pageno : Z) : list Z :=
  match num with
  | O => []
  | S num => member_bytes i pageno ++ member_data num (i + 1) (pageno + 1)
  end.

(** [memDataPos] is the block the member entries start at. *)
Definition GetGroupMemberPageNo (memDataPos : list Z) (index : Z) : option Z :=
  load_i32 memDataPos (index * sizeof_Member + 12).

(** The page update of [InsertGroupItem]. *)
Definition write_group_item (b : list Z) (groupid len : Z) (data : list Z) : option (list Z) :=
  let size := GetItemSize len in
  e ← dataEndOffset b;
  b ← store32 b off_dataEndOffset (e - size);
  bs ← load data 0 size;
  b ← store b (e - size) bs;
  d ← dataOffset b;
  b ← store b d (item_bytes (mkItem (e - size) len groupid));
  store32 b off_dataOffset (d + ITEM_SIZE).

Definition InsertGroupItem (fuel : nat) (lastpage : option ptr) (num : Z) : PM Z :=
  LockPage lastpage RWLock_READ;;
  p ← st_lift lastpage; b ← get_page p; n ← st_lift (pageNum b);
  let pageno := n - num + 1 in
  UnLockPage lastpage RWLock_READ;;
  if pageno <=? PAGE_HEAD_PAGE_NUM then mret (-1) else
  g ← st_gets group_id; st_modify (set_group_id (u32 (g + 1)));;
  let len := Z.lor (u32 (num * sizeof_Member)) ITEM_VALID_MASK in
  page ← GetSpacePage fuel (ITEM_SIZE + GetItemSize len) PAGE_NEW GROUP_FORK;
  LockPage page RWLock_WRITE;;
  q ← st_lift page; b ← get_page q;
  b ← st_lift (write_group_item b (u32 (g + 1)) len (member_data (Z.to_nat num) 0 pageno));
  put_page q b;;
  WritePage q GROUP_FORK;;
  UnLockPage page RWLock_WRITE;;
  ReleasePage page;;
  UpdateMetaData GROUP_FORK;;
  mret 0.

(** [SearchPageInfo] of the group scan. *)
Record SearchPageInfo := mkSearch {
  sp_page : option ptr;
  sp_item_offset : Z;
  sp_group_id : Z;
  sp_pageNum : Z
}.

(** The group found: its page, item and member entries. *)
Record GroupItemData := mkGroup { gi_pagePos : Z; gi_item : ItemData; gi_members : list Z }.

(** [off] is [None] when the item position starts anew on a page. *)
Fixpoint group_loop (fuel : nat) (page : option ptr) (off : option Z) (si : SearchPageInfo)
    : PM (option GroupItemData * SearchPageInfo) :=
  match fuel with
  | O => st_fault
  | S fuel =>
      match page with
      | None => mret (None, si)
      | Some p =>
          b ← get_page p;
          let o := default off_item off in
          ended ← st_lift (ITEM_END_CHECK o b);
          if (ended : bool) then
            let n := sp_pageNum si + 1 in
            UnLockPage page RWLock_READ;; ReleasePage page;;
            page ← GetPageByIndex n GROUP_FORK;
            LockPage page RWLock_READ;;
            group_loop fuel page None
              (mkSearch page (sp_item_offset si) (sp_group_id si)
                 (match page with Some _ => n | None => sp_pageNum si end))
          else
            it ← st_lift (GET_ITEM o b);
            if GetItemValid (it_len it) then
              m ← st_lift (load b (it_offset it) (GetItemSize (it_len it)));
              n ← st_lift (pageNum b);
              UnLockPage page RWLock_READ;;
              mret (Some (mkGroup n it m), mkSearch page o (i32 (it_rowid it)) (sp_pageNum si))
            else group_loop fuel page (Some (o + ITEM_SIZE)) si
      end
  end.

Definition GetGroupInfo (fuel : nat) (si : SearchPageInfo)
    : PM (Z * option GroupItemData * SearchPageInfo) :=
  match sp_page si with
  | None =>
      page ← GetPageByIndex (sp_pageNum si) GROUP_FORK;
      let si := mkSearch page (sp_item_offset si) (sp_group_id si) (sp_pageNum si) in
      match page with
      | None => mret (-1, None, si)
      | Some _ =>
          LockPage page RWLock_READ;;
          '(g, si) ← group_loop fuel page None si;
          mret ((match g with Some _ => 1 | None => 0 end), g, si)
      end
  | Some p =>
      LockPage (Some p) RWLock_READ;;
      b ← get_page p; n ← st_lift (pageNum b);
      let si := mkSearch (Some p) (sp_item_offset si) (sp_group_id si) n in
      '(g, si) ← group_loop fuel (Some p) (Some (sp_item_offset si + ITEM_SIZE)) si;
      mret ((match g with Some _ => 1 | None => 0 end), g, si)
  end.

Definition GetPageNoFromGroupInfo (si : SearchPageInfo) (AttrIndex : Z) : PM Z :=
  match sp_page si with
  | None => mret (-1)
  | Some p =>
      b ← get_page p;
      ended ← st_lift (ITEM_END_CHECK (sp_item_offset si) b);
      if (ended : bool) then mret (-1) else
      it ← st_lift (GET_ITEM (sp_item_offset si) b);
      if GetItemValid (it_len it) then
        st_lift (load_i32 b (it_offset it + AttrIndex * sizeof_Member + 12))
      else mret (-1)
  end.

(** ** Contents and the effect of reading *)

(** What a reader of the page sees: the cached page, else the file's. *)
Definition content (s : PageState) (p : ptr) : option (list Z) :=
  match pages s !! p with Some b => Some b | None => disk s !! p end.

Definition counter (fork : ForkType) (s : PageState) : Z :=
  match fork with MAIN_FORK => pageCnt s | GROUP_FORK => groupPageCnt s end.

(** Only the cache's extent and the trace may differ. *)
Record same_contents (s s' : PageState) : Prop := {
  sc_content p : content s' p = content s p;
  sc_disk : disk s' = disk s;
  sc_counter f : counter f s' = counter f s;
  sc_group : group_id s' = group_id s
}.

Lemma same_contents_refl s : same_contents s s.
Proof. done. Qed.

Lemma same_contents_trans s1 s2 s3 :
  same_contents s1 s2 -> same_contents s2 s3 -> same_contents s1 s3.
Proof.
  intros [A1 A2 A3 A4] [B1 B2 B3 B4]. split; intros; congruence.
Qed.

Lemma same_contents_emit s e : same_contents s (emit e s).
Proof. by split. Qed.

Lemma ReadPage_some s f n b :
  0 < n -> content s (f, n) = Some b ->
  exists s', ReadPage n f s = Some (Some (f, n), s') /\ same_contents s s' /\
    pages s' !! (f, n) = Some b /\ trace s' = trace s ++ [EvPin (f, n)].
Proof.
  intros Hn Hb. unfold ReadPage, content in *. rewrite (proj2 (Z.leb_gt _ _)) by lia.
  destruct (pages s !! (f, n)) as [b'|] eqn:Hp.
  - simplify_eq. eexists. split; [done|]. split; [apply same_contents_emit|done].
  - rewrite Hb. eexists. split; [done|]. split_and!; [|apply lookup_insert_eq|done].
    split; try done. intros p. unfold content. simpl.
    destruct (decide (p = (f, n))) as [->|].
    + rewrite lookup_insert_eq. by rewrite Hp.
    + by rewrite lookup_insert_ne.
Qed.

Lemma GetPageByIndex_some s f n b :
  0 < n -> content s (f, n) = Some b ->
  exists s', GetPageByIndex n f s = Some (Some (f, n), s') /\ same_contents s s' /\
    pages s' !! (f, n) = Some b /\ trace s' = trace s ++ [EvPin (f, n)].
Proof.
  intros Hn Hb. unfold GetPageByIndex. rewrite (proj2 (Z.eqb_neq _ _)) by lia.
  by apply ReadPage_some.
Qed.

Lemma GetPageByIndex_none s f n :
  0 < n -> content s (f, n) = None -> GetPageByIndex n f s = Some (None, s).
Proof.
  intros Hn Hb. unfold GetPageByIndex, ReadPage, content in *.
  rewrite (proj2 (Z.eqb_neq _ _)), (proj2 (Z.leb_gt _ _)) by lia.
  destruct (pages s !! (f, n)); [done|]. by rewrite Hb.
Qed.

(** ** First fit *)

Definition room (b : list Z) : option Z :=
  e ← dataEndOffset b; d ← dataOffset b; Some (e - d).

Lemma HasFreeSpace_room b size r : room b = Some r -> HasFreeSpace b size = Some (size <? r).
Proof.
  unfold room, HasFreeSpace. destruct (dataEndOffset b), (dataOffset b); simpl; try done.
  by intros [= <-].
Qed.

(** The file's pages are 1 to [n], each whole, readable and under its own
    number, and [n] is what the table's counter says. *)
Record file_of (f : ForkType) (n : Z) (s : PageState) : Prop := {
  fo_page k : 1 <= k <= n -> exists b r, content s (f, k) = Some b /\ room b = Some r /\
    pageNum b = Some k /\ Z.of_nat (length b) = PAGE_MAX_SIZE;
  fo_end k : n < k -> content s (f, k) = None;
  fo_count : counter f s = n;
  fo_pos : 1 <= n < 2 ^ 31
}.

Definition has_room (s : PageState) (f : ForkType) (k size : Z) : Prop :=
  exists b r, content s (f, k) = Some b /\ room b = Some r /\ size < r.

Definition full (s : PageState) (f : ForkType) (k size : Z) : Prop :=
  exists b r, content s (f, k) = Some b /\ room b = Some r /\ r <= size.

Definition visit (p : ptr) : list pev :=
  [EvPin p; EvLock p RWLock_READ; EvUnlock p RWLock_READ; EvUnpin p].

(** Pages [k, k+1, ..., k+m-1] visited in turn. *)
Definition visits (f : ForkType) (k : Z) (m : nat) : list pev :=
  concat (map (fun i => visit (f, k + Z.of_nat i)) (seq 0 m)).

Lemma visits_S f k m : visits f k (S m) = visit (f, k) ++ visits f (k + 1) m.
Proof.
  unfold visits. rewrite <- cons_seq. cbn [map concat]. rewrite Z.add_0_r. f_equal.
  rewrite <- seq_shift, map_map. f_equal. apply map_ext. intros i.
  by replace (k + Z.of_nat (S i)) with (k + 1 + Z.of_nat i) by lia.
Qed.

Lemma file_of_same f n s s' : same_contents s s' -> file_of f n s -> file_of f n s'.
Proof.
  intros [Hc _ Hn _] [H1 H2 H3 H4]. split; [|by intros; rewrite Hc; apply H2|by rewrite Hn|done].
  intros k Hk. rewrite Hc. by apply H1.
Qed.

Lemma space_loop_run size f n d fuel k s :
  file_of f n s -> 1 < k -> k + Z.of_nat d = n + 1 -> (d < fuel)%nat ->
  exists r s', space_loop fuel size f k s = Some (r, s') /\ same_contents s s' /\
    match r with
    | Some p => exists m : nat, p = (f, k + Z.of_nat m) /\ k + Z.of_nat m <= n /\
        has_room s f (k + Z.of_nat m) size /\
        (forall i, k <= i < k + Z.of_nat m -> full s f i size) /\
        trace s' = trace s ++ visits f k m ++
          [EvPin p; EvLock p RWLock_READ; EvUnlock p RWLock_READ] /\ pages s' !! p = content s p
    | None => (forall i, k <= i <= n -> full s f i size) /\ trace s' = trace s ++ visits f k d
    end.
Proof.
  revert fuel k s. induction d as [|d IH]; intros fuel k s F Hk Hd Hf;
    (destruct fuel as [|fuel]; [lia|]); cbn [space_loop].
  - assert (k = n + 1) as -> by lia. assert (0 < n + 1) as Hn by lia.
    assert (content s (f, n + 1) = None) as Hnone by (apply (fo_end _ _ _ F); lia).
    run (GetPageByIndex_none _ _ _ Hn Hnone). exists None, s.
    split; [done|]. split; [done|]. split; [intros; lia|by rewrite app_nil_r].
  - destruct (fo_page _ _ _ F k ltac:(lia)) as (b & r & Hb & Hr & _).
    destruct (GetPageByIndex_some s f k b ltac:(lia) Hb) as (s1 & Hrun & Hs1 & Hp1 & Ht1).
    run Hrun. run_refl. set (s2 := emit _ s1).
    assert (pages s2 !! (f, k) = Some b) as Hp2 by done. run (get_page_run _ _ s2 Hp2).
    run (st_lift_run _ _ s2 (HasFreeSpace_room b size r Hr)). run_refl. set (s3 := emit _ s2).
    assert (same_contents s s3) as Hs3.
    { eapply same_contents_trans; [exact Hs1|].
      eapply same_contents_trans; apply same_contents_emit. }
    assert (trace s3 = trace s ++ [EvPin (f, k); EvLock (f, k) RWLock_READ; EvUnlock (f, k) RWLock_READ])
      as Ht3 by (simpl; rewrite Ht1, <- !app_assoc; done).
    destruct (Z.ltb_spec size r).
    + exists (Some (f, k)), s3. split; [done|]. split; [done|]. exists O.
      rewrite Z.add_0_r. split_and!; [done|lia|by exists b, r|intros; lia|done|].
      by rewrite Hb.
    + run_refl. set (s4 := emit _ s3).
      assert (same_contents s s4) as Hs4
        by (eapply same_contents_trans; [exact Hs3|apply same_contents_emit]).
      destruct (IH fuel (k + 1) s4) as (ret & s' & Hloop & Hsame & Hres);
        [by eapply file_of_same|lia|lia|lia|].
      exists ret, s'. split; [done|]. split; [by eapply same_contents_trans|].
      assert (full s f k size) as Hfull by by exists b, r.
      assert (trace s4 = trace s ++ visit (f, k)) as Ht4
        by (simpl; rewrite Ht1, <- !app_assoc; done).
      assert (forall i, full s4 f i size -> full s f i size) as Hback.
      { intros i. unfold full. by setoid_rewrite (sc_content _ _ Hs4). }
      destruct ret as [p|].
      * destruct Hres as (m & -> & Hle & Hroom & Hbef & Htr & Hpg). exists (S m).
        replace (k + Z.of_nat (S m)) with (k + 1 + Z.of_nat m) by lia.
        split_and!; [done|done| | | |].
        -- revert Hroom. unfold has_room. by setoid_rewrite (sc_content _ _ Hs4).
        -- intros i Hi. destruct (decide (i = k)) as [->|]; [done|]. apply Hback, Hbef. lia.
        -- rewrite Htr, Ht4, visits_S. by rewrite <- !app_assoc.
        -- by rewrite Hpg, (sc_content _ _ Hs4).
      * destruct Hres as [Hall Htr]. split.
        -- intros i Hi. destruct (decide (i = k)) as [->|]; [done|]. apply Hback, Hall. lia.
        -- by rewrite Htr, Ht4, visits_S, <- app_assoc.
Qed.

(** ** Extending *)

(** Header fields apart from the two offsets do not affect the room. *)
Lemma room_store b off z b' :
  store32 b off z = Some b' -> off + 4 <= off_dataOffset \/ off_dataEndOffset + 4 <= off ->
  room b' = room b /\ length b' = length b.
Proof.
  unfold off_dataOffset, off_dataEndOffset. intros H Hoff. split; [|by eapply store_length].
  unfold room, dataEndOffset, dataOffset.
  rewrite !(load_i32_store_ne _ _ _ _ _ H); [done| |];
    rewrite length_le; unfold off_dataOffset, off_dataEndOffset; lia.
Qed.

Lemma pageNum_store b off z b' :
  store32 b off z = Some b' -> off_pageNum + 4 <= off -> pageNum b' = pageNum b.
Proof.
  intros H Hoff. unfold pageNum. apply (load_i32_store_ne _ _ _ _ _ H).
  rewrite length_le. lia.
Qed.

Lemma blank_no b n :
  page_rep b [] -> in_i32 n ->
  exists p, store32 b off_pageNum n = Some p /\ page_rep p [] /\ pageNum p = Some n.
Proof.
  intros R Hn. pose proof (pr_len _ _ R) as Hlen.
  destruct (store32_some b off_pageNum n) as (p & Hp & Hlp);
    [unfold off_pageNum; lia|unfold off_pageNum; lia|].
  exists p. split; [done|]. split; [|by apply (load_i32_store _ _ _ _ Hp)].
  pose proof (pr_do _ _ R) as Hd. pose proof (pr_de _ _ R) as He.
  unfold dataOffset, dataEndOffset in *.
  split; [lia| | |exact (pr_fit _ _ R)| | |].
  - unfold dataOffset. rewrite (load_i32_store_ne _ _ _ _ _ Hp); [exact Hd|].
    rewrite length_le. unfold off_pageNum, off_dataOffset. lia.
  - unfold dataEndOffset. rewrite (load_i32_store_ne _ _ _ _ _ Hp); [exact He|].
    rewrite length_le. unfold off_pageNum, off_dataEndOffset. lia.
  - intros i r Hi. rewrite lookup_nil in Hi. discriminate.
  - intros i r Hi. rewrite lookup_nil in Hi. discriminate.
  - intros r Hr. exfalso. exact (not_elem_of_nil _ Hr).
Qed.

Lemma blank_room b : page_rep b [] -> room b = Some (PAGE_MAX_SIZE - 40).
Proof.
  intros R. unfold room. rewrite (pr_de _ _ R), (pr_do _ _ R). simpl.
  unfold item_off, off_item, ITEM_SIZE, PAGE_MAX_SIZE. f_equal.
Qed.

Definition set_counter (fork : ForkType) (n : Z) (s : PageState) : PageState :=
  match fork with MAIN_FORK => set_pageCnt n s | GROUP_FORK => set_groupPageCnt n s end.

Lemma next_pageCnt_run fork s n :
  counter fork s = n -> 0 <= n < 2 ^ 31 ->
  next_pageCnt fork s = Some (n, set_counter fork (n + 1) s).
Proof.
  intros <- Hn.
  assert (u32 (counter fork s + 1) = counter fork s + 1) as Hu
    by (apply u32_small; unfold in_u32; lia).
  destruct fork; unfold counter in Hu; unfold next_pageCnt; run_refl; rewrite Hu; by run_refl.
Qed.

(** The pages above [n] after [num] blank pages were written behind them. *)
Lemma extend_pages_run fork num : forall b last n s,
  page_rep b [] -> counter fork s = n -> 0 < n -> n + Z.of_nat num < 2 ^ 31 ->
  exists s', extend_pages num fork b last s =
      Some ((if decide (num = O) then last else n + Z.of_nat num), s') /\
    pages s' = pages s /\ trace s' = trace s /\ group_id s' = group_id s /\
    counter fork s' = n + Z.of_nat num /\
    (forall f, f <> fork -> counter f s' = counter f s) /\
    (forall k, n < k <= n + Z.of_nat num -> exists p, disk s' !! (fork, k) = Some p /\
       page_rep p [] /\ pageNum p = Some k) /\
    (forall q, (forall k, n < k <= n + Z.of_nat num -> q <> (fork, k)) -> disk s' !! q = disk s !! q).
Proof.
  induction num as [|num IH]; intros b last n s R Hc Hn Hb; cbn [extend_pages].
  - exists s. rewrite Z.add_0_r. split; [done|]. split_and!; try done. intros; lia.
  - assert (0 <= n < 2 ^ 31) as Hn' by lia.
    run (next_pageCnt_run fork s n Hc Hn').
    destruct (blank_no b (n + 1) R) as (p & Hp & Rp & Hno); [unfold in_i32; lia|].
    set (s1 := set_counter fork (n + 1) s). run (st_lift_run _ _ s1 Hp).
    set (s2 := set_disk (<[(fork, n + 1) := p]> (disk s)) s1).
    assert (TableWrite p fork s1 = Some (tt, s2)) as Hw.
    { unfold TableWrite. rewrite Hno. simpl. unfold s2, s1. by destruct fork. }
    run Hw.
    destruct (IH p (i32 (n + 1)) (n + 1) s2 Rp) as (s' & Hrun & Hpg & Htr & Hg & Hcnt & Hoth & Hnew & Hold);
      [by destruct fork|lia|lia|].
    exists s'. rewrite Hrun. split.
    { f_equal. f_equal. destruct num; simpl; [apply i32_small; unfold in_i32; lia|lia]. }
    split; [by rewrite Hpg; destruct fork|]. split; [by rewrite Htr; destruct fork|].
    split; [by rewrite Hg; destruct fork|]. split; [rewrite Hcnt; lia|].
    split; [intros f Hf; rewrite Hoth by done; by destruct f, fork|].
    assert (disk s2 !! (fork, n + 1) = Some p) as Hd2 by apply lookup_insert_eq.
    split.
    + intros k Hk. destruct (decide (k = n + 1)) as [->|]; [|apply Hnew; lia].
      exists p. split; [|done]. rewrite Hold; [done|]. intros k Hk' [= <-]. lia.
    + intros q Hq. rewrite Hold by (intros; apply Hq; lia). simpl.
      apply lookup_insert_ne. intros <-. apply (Hq (n + 1)); [lia|done].
Qed.

(** Both forks' headers record the page counter; the group file's also the next
    group's id. *)
Lemma update_header f b s :
  Z.of_nat (length b) = PAGE_MAX_SIZE -> 0 <= counter f s < 2 ^ 31 ->
  exists b', (match f with MAIN_FORK => UpdateTableMetaData b | GROUP_FORK => UpdateGroupMetaData b end) s
      = Some (b', s) /\
    length b' = length b /\ room b' = room b /\ pageNum b' = pageNum b /\
    load_u32 b' off_pageCnt = Some (counter f s) /\
    (f = GROUP_FORK -> load_u32 b' off_group_id = Some (u32 (group_id s))).
Proof.
  unfold PAGE_MAX_SIZE. intros Hl Hc. destruct f.
  - destruct (store32_some b off_pageCnt (pageCnt s)) as (b' & Hb & Hl');
      [unfold off_pageCnt; lia|unfold off_pageCnt; lia|].
    exists b'. split; [unfold UpdateTableMetaData; run_refl; by apply st_lift_run|].
    destruct (room_store _ _ _ _ Hb) as [-> _]; [unfold off_dataEndOffset, off_pageCnt; lia|].
    rewrite (pageNum_store _ _ _ _ Hb) by (unfold off_pageNum, off_pageCnt; lia).
    rewrite (load_u32_store _ _ _ _ Hb), u32_small by (unfold in_u32; simpl in Hc; lia).
    by split_and!.
  - destruct (store32_some b off_group_id (group_id s)) as (b1 & Hb1 & Hl1);
      [unfold off_group_id; lia|unfold off_group_id; lia|].
    destruct (store32_some b1 off_pageCnt (groupPageCnt s)) as (b' & Hb & Hl');
      [unfold off_pageCnt; lia|unfold off_pageCnt; lia|].
    exists b'. split.
    { unfold UpdateGroupMetaData. run_refl. run (st_lift_run _ _ s Hb1). run_refl. by apply st_lift_run. }
    destruct (room_store _ _ _ _ Hb) as [-> _]; [unfold off_dataEndOffset, off_pageCnt; lia|].
    destruct (room_store _ _ _ _ Hb1) as [-> _]; [unfold off_dataEndOffset, off_group_id; lia|].
    rewrite (pageNum_store _ _ _ _ Hb) by (unfold off_pageNum, off_pageCnt; lia).
    rewrite (pageNum_store _ _ _ _ Hb1) by (unfold off_pageNum, off_group_id; lia).
    rewrite (load_u32_store _ _ _ _ Hb), u32_small by (unfold in_u32; simpl in Hc; lia).
    split_and!; [lia|done|done|done|]. intros _.
    rewrite (load_u32_store_ne _ _ _ _ _ Hb)
      by (rewrite length_le; unfold off_group_id, off_pageCnt; lia).
    by apply (load_u32_store _ _ _ _ Hb1).
Qed.

Definition meta_events (f : ForkType) : list pev :=
  [EvPin (f, 1); EvLock (f, 1) RWLock_WRITE; EvUnlock (f, 1) RWLock_WRITE; EvUnpin (f, 1)].

Lemma UpdateMetaData_run f b s :
  content s (f, 1) = Some b -> Z.of_nat (length b) = PAGE_MAX_SIZE -> pageNum b = Some 1 ->
  0 <= counter f s < 2 ^ 31 ->
  exists b' s', UpdateMetaData f s = Some (tt, s') /\
    pages s' = <[(f, 1) := b']> (pages s) /\ disk s' = <[(f, 1) := b']> (disk s) /\
    trace s' = trace s ++ meta_events f /\ group_id s' = group_id s /\
    (forall g, counter g s' = counter g s) /\
    length b' = length b /\ room b' = room b /\ pageNum b' = Some 1 /\
    load_u32 b' off_pageCnt = Some (counter f s).
Proof.
  intros Hb Hl Hno Hc. unfold UpdateMetaData, PAGE_HEAD_PAGE_NUM, GetPageByIndex, ReadPage.
  cbn [Z.eqb Z.leb]. unfold content in Hb.
  assert (exists s1, (match pages s !! (f, 1) with
     | Some _ => Some (Some (f, 1), emit (EvPin (f, 1)) s)
     | None => match disk s !! (f, 1) with
               | Some b => Some (Some (f, 1), emit (EvPin (f, 1)) (set_pages (<[(f, 1) := b]> (pages s)) s))
               | None => Some (None, s) end end) = Some (Some (f, 1), s1) /\
     pages s1 = <[(f, 1) := b]> (pages s) /\ disk s1 = disk s /\
     trace s1 = trace s ++ [EvPin (f, 1)] /\ group_id s1 = group_id s /\
     (forall g, counter g s1 = counter g s)) as (s1 & Hr & Hp1 & Hd1 & Ht1 & Hg1 & Hc1).
  { destruct (pages s !! (f, 1)) as [b0|] eqn:Hp.
    - simplify_eq. eexists. split; [done|]. split_and!; try done. simpl. by rewrite insert_id.
    - rewrite Hb. eexists. split; [done|]. by split_and!. }
  erewrite st_bind_some by exact Hr. cbv beta.
  run_refl. set (s2 := emit _ s1). run_refl.
  assert (pages s2 !! (f, 1) = Some b) as Hb2 by (simpl; by rewrite Hp1, lookup_insert_eq).
  run (get_page_run _ _ s2 Hb2).
  assert (forall g, counter g s2 = counter g s) as Hc2 by (intros g; by rewrite <- Hc1; destruct g).
  destruct (update_header f b s2 Hl) as (b' & Hup & Hlen & Hroom & Hpn & Hcnt & _); [by rewrite Hc2|].
  run Hup. run_refl. set (s3 := set_pages _ s2).
  assert (pages s3 !! (f, 1) = Some b') as Hb3 by apply lookup_insert_eq.
  set (s4 := set_disk (<[(f, 1) := b']> (disk s3)) s3).
  assert (WritePage (f, 1) f s3 = Some (tt, s4)) as Hw.
  { unfold WritePage. run (get_page_run _ _ s3 Hb3). unfold TableWrite.
    rewrite Hpn, Hno. done. }
  run Hw. exists b'. eexists. split; [reflexivity|].
  split_and!; simpl; try done.
  - rewrite Hp1. by rewrite insert_insert_eq.
  - by rewrite Hd1.
  - rewrite Ht1, <- !app_assoc. done.
  - by rewrite Hpn, Hno.
  - by rewrite Hcnt, Hc2.
Qed.

(** What extending by [num] pages does to a file of [n] pages. *)
Record extended (f : ForkType) (n num : Z) (s s' : PageState) : Prop := {
  ex_file : file_of f (n + num) s';
  ex_blank k : n < k <= n + num -> exists p, content s' (f, k) = Some p /\ page_rep p [];
  ex_header : exists h, content s' (f, 1) = Some h /\ disk s' !! (f, 1) = Some h /\
    load_u32 h off_pageCnt = Some (n + num);
  ex_other q : q <> (f, 1) -> (forall k, n < k <= n + num -> q <> (f, k)) -> content s' q = content s q;
  ex_group : group_id s' = group_id s;
  ex_counter f' : f' <> f -> counter f' s' = counter f' s
}.

Lemma ReadPage_end f k s b :
  0 < k -> content s (f, k) = Some b ->
  exists s', GetPageByIndex k f s = Some (Some (f, k), s') /\ same_contents s s' /\
    trace s' = trace s ++ [EvPin (f, k)] /\ is_Some (pages s' !! (f, k)).
Proof.
  intros Hk Hb. destruct (GetPageByIndex_some s f k b Hk Hb) as (s' & H1 & H2 & H4 & H3).
  exists s'. split_and!; [done..|by rewrite H4].
Qed.

Lemma extended_same f n num s s1 s2 :
  extended f n num s s1 -> same_contents s1 s2 -> extended f n num s s2.
Proof.
  intros [E1 E2 E3 E4 E5 E6] S. pose proof (sc_content _ _ S) as Hc.
  split; [by eapply file_of_same| | | | |].
  - intros k Hk. rewrite Hc. by apply E2.
  - destruct E3 as (h & Hh & Hd & Hl). exists h. by rewrite Hc, (sc_disk _ _ S).
  - intros q H1 H2. rewrite Hc. by apply E4.
  - by rewrite (sc_group _ _ S).
  - intros f' Hf. rewrite (sc_counter _ _ S). by apply E6.
Qed.

Lemma extend_state f n num s s1 s2 h b :
  file_of f n s -> 0 < num -> n + num < 2 ^ 31 ->
  pages s1 = pages s -> group_id s1 = group_id s -> counter f s1 = n + num ->
  (forall k, n < k <= n + num -> exists p, disk s1 !! (f, k) = Some p /\ page_rep p [] /\ pageNum p = Some k) ->
  (forall q, (forall k, n < k <= n + num -> q <> (f, k)) -> disk s1 !! q = disk s !! q) ->
  content s (f, 1) = Some h -> length b = length h -> room b = room h -> pageNum b = Some 1 ->
  load_u32 b off_pageCnt = Some (n + num) ->
  pages s2 = <[(f, 1) := b]> (pages s1) -> disk s2 = <[(f, 1) := b]> (disk s1) ->
  group_id s2 = group_id s1 -> (forall g, counter g s2 = counter g s1) ->
  (forall g, g <> f -> counter g s1 = counter g s) ->
  extended f n num s s2.
Proof.
  intros F Hnum Hmax P1 G1 C1 New Old Hh Hlen Hroom Hno Hcnt P2 D2 G2 C2 C3.
  destruct (fo_pos _ _ _ F) as [Hn _].
  assert (forall k, n < k -> pages s !! (f, k) = None /\ disk s !! (f, k) = None) as Hend.
  { intros k Hk. pose proof (fo_end _ _ _ F k Hk) as He. unfold content in He.
    by destruct (pages s !! (f, k)). }
  assert (content s2 (f, 1) = Some b) as Hc1 by (unfold content; by rewrite P2, lookup_insert_eq).
  assert (forall q, q <> (f, 1) -> (forall k, n < k <= n + num -> q <> (f, k)) ->
    content s2 q = content s q) as Hoth.
  { intros q Hq Hk. unfold content. rewrite P2, D2, !lookup_insert_ne, P1, Old by done. done. }
  assert (forall k, n < k <= n + num -> exists p, content s2 (f, k) = Some p /\ page_rep p [] /\
    pageNum p = Some k) as Hnew.
  { intros k Hk. destruct (New k Hk) as (p & Hp & R & Hpn). exists p. split; [|done].
    unfold content. rewrite P2, D2, !lookup_insert_ne, P1 by (intros [= ?]; lia).
    by rewrite (proj1 (Hend k ltac:(lia))). }
  split; [split| | | | |].
  - intros k Hk. destruct (decide (k = 1)) as [->|Hk1].
    + destruct (fo_page _ _ _ F 1 ltac:(lia)) as (h' & r & Hh' & Hr & _ & Hl). simplify_eq.
      exists b, r. rewrite Hroom, Hlen. by split_and!.
    + destruct (decide (k <= n)).
      * rewrite Hoth by (intros; congruence || (intros [= ->]; lia)). apply (fo_page _ _ _ F). lia.
      * destruct (Hnew k ltac:(lia)) as (p & Hp & R & Hpn). exists p, (PAGE_MAX_SIZE - 40).
        split_and!; [done|by apply blank_room|done|]. by rewrite (pr_len _ _ R).
  - intros k Hk. rewrite Hoth; [apply (fo_end _ _ _ F); lia|intros [= ->]; lia|intros j Hj [= ->]; lia].
  - by rewrite C2.
  - lia.
  - intros k Hk. destruct (Hnew k Hk) as (p & ? & ? & _). eauto.
  - exists b. rewrite D2, lookup_insert_eq. by split_and!.
  - exact Hoth.
  - by rewrite G2.
  - intros g Hg. rewrite C2. by apply C3.
Qed.

Lemma ExtensionTbl_run num f n s :
  file_of f n s -> 0 < num <= PAGE_EXTENSION_MAX_NUM -> n + num < 2 ^ 31 ->
  exists s', ExtensionTbl num f s = Some (Some (f, n + num), s') /\ extended f n num s s' /\
    trace s' = trace s ++ meta_events f ++ [EvPin (f, n + num)] /\ is_Some (pages s' !! (f, n + num)).
Proof.
  intros F Hnum Hmax. destruct (fo_pos _ _ _ F) as [Hn1 _]. unfold ExtensionTbl.
  rewrite (proj2 (Z.leb_gt num 0)), (proj2 (Z.ltb_ge PAGE_EXTENSION_MAX_NUM num)) by lia. cbn [orb].
  destruct InitPage_rep as (b0 & Hb0 & R0 & _). run (st_lift_run _ _ s Hb0).
  destruct (extend_pages_run f (Z.to_nat num) b0 0 n s R0 (fo_count _ _ _ F)) as
    (s1 & Hrun & P1 & T1 & G1 & C1 & C3 & New & Old); [lia|lia|].
  rewrite decide_False in Hrun by lia. rewrite Z2Nat.id in * by lia. run Hrun.
  destruct (fo_page _ _ _ F 1 ltac:(lia)) as (h & r & Hh & Hr & Hpn & Hl).
  assert (content s1 (f, 1) = Some h) as Hh1.
  { unfold content in *. rewrite P1, Old; [done|]. intros k Hk [= <-]. lia. }
  destruct (UpdateMetaData_run f h s1 Hh1 Hl Hpn) as (b & s2 & Hup & P2 & D2 & T2 & G2 & C2 & Hbl & Hbr & Hbn & Hbc);
    [lia|].
  run Hup. rewrite C1 in Hbc.
  pose proof (extend_state f n num s s1 s2 h b F (proj1 Hnum) Hmax P1 G1 C1 New Old Hh Hbl Hbr Hbn Hbc
    P2 D2 G2 C2 C3) as E.
  destruct (ex_blank _ _ _ _ _ E (n + num)) as (p & Hp & _); [lia|].
  destruct (ReadPage_end f (n + num) s2 p ltac:(lia) Hp) as (s3 & Hget & Hsame & T3 & Hin).
  exists s3. split; [exact Hget|]. split; [by eapply extended_same|].
  split; [|done]. rewrite T3, T2, T1. by rewrite <- app_assoc.
Qed.

Lemma GetSpacePage_run fuel size op f n s :
  file_of f n s -> (Z.to_nat n < fuel)%nat -> n + 1 < 2 ^ 31 ->
  size + PAGE_DATA_HEADER_SIZE < PAGE_MAX_SIZE ->
  exists r s', GetSpacePage fuel size op f s = Some (r, s') /\ (forall p, r = Some p -> is_Some (pages s' !! p)) /\
    ((exists k, r = Some (f, k) /\ 1 < k <= n /\ has_room s f k size /\
        (forall i, 1 < i < k -> full s f i size) /\ same_contents s s' /\
        trace s' = trace s ++ visits f 2 (Z.to_nat (k - 2)) ++
          [EvPin (f, k); EvLock (f, k) RWLock_READ; EvUnlock (f, k) RWLock_READ]) \/
     ((forall i, 1 < i <= n -> full s f i size) /\
        match op with
        | PAGE_EXIST => r = None /\ same_contents s s' /\
            trace s' = trace s ++ visits f 2 (Z.to_nat (n - 1))
        | PAGE_NEW => r = Some (f, n + 1) /\ extended f n 1 s s' /\
            trace s' = trace s ++ visits f 2 (Z.to_nat (n - 1)) ++
              meta_events f ++ [EvPin (f, n + 1)]
        end)).
Proof.
  intros F Hf Hmax Hsize. destruct (fo_pos _ _ _ F) as [Hn1 _].
  unfold GetSpacePage. rewrite (proj2 (Z.leb_gt _ _)) by lia.
  destruct (space_loop_run size f n (Z.to_nat (n - 1)) fuel 2 s F) as (r & s1 & Hrun & S1 & Hr);
    [lia|lia|lia|].
  change (PAGE_HEAD_PAGE_NUM + 1) with 2. run Hrun. destruct r as [p|].
  - destruct Hr as (m & -> & Hle & Hroom & Hbef & Htr & Hpg).
    exists (Some (f, 2 + Z.of_nat m)), s1. split; [done|].
    split; [intros p [= <-]; rewrite Hpg; destruct Hroom as (b & ? & Hb & _); by rewrite Hb|]. left. exists (2 + Z.of_nat m).
    replace (Z.to_nat (2 + Z.of_nat m - 2)) with m by lia.
    split_and!; try done; [lia|]. intros i Hi. apply Hbef. lia.
  - destruct Hr as [Hall Htr]. destruct op; cbn [decide].
    + destruct (ExtensionTbl_run 1 f n s1) as (s2 & Hext & E & T2 & Hin);
        [by eapply file_of_same|unfold PAGE_EXTENSION_MAX_NUM; lia|lia|].
      exists (Some (f, n + 1)), s2. split; [exact Hext|].
      split; [by intros p [= <-]|]. right. split; [intros; apply Hall; lia|].
      split_and!; [done| |by rewrite T2, Htr, <- app_assoc].
      destruct E as [E1 E2 E3 E4 E5 E6].
      split; [done|done|done| |by rewrite E5, (sc_group _ _ S1)|intros g Hg; rewrite E6 by done; apply (sc_counter _ _ S1)].
      intros q H1 H2. by rewrite E4, (sc_content _ _ S1).
    + exists None, s1. split; [done|]. split; [done|]. right. split; [intros; apply Hall; lia|done].
Qed.

(** C18: finding a page for [size] bytes is a first fit over the data pages of the
    file. The page returned has room, every page before it lacks room, the pages
    passed over are unlocked and released and only the result stays pinned,
    and no page's contents change. When no page has room a caller that asks for
    a new page gets a blank page behind the last one, the file's header records
    the new count in memory and on disk, and every other page is unchanged;
    other callers get [NULL]. *)
Theorem GetSpacePage_first_fit fuel size op f n s :
  file_of f n s -> (Z.to_nat n < fuel)%nat -> n + 1 < 2 ^ 31 ->
  size + PAGE_DATA_HEADER_SIZE < PAGE_MAX_SIZE ->
  exists r s', GetSpacePage fuel size op f s = Some (r, s') /\
    ((exists k, r = Some (f, k) /\ 1 < k <= n /\ has_room s f k size /\
        (forall i, 1 < i < k -> full s f i size) /\ same_contents s s' /\
        trace s' = trace s ++ visits f 2 (Z.to_nat (k - 2)) ++
          [EvPin (f, k); EvLock (f, k) RWLock_READ; EvUnlock (f, k) RWLock_READ]) \/
     ((forall i, 1 < i <= n -> full s f i size) /\
        match op with
        | PAGE_EXIST => r = None /\ same_contents s s' /\
            trace s' = trace s ++ visits f 2 (Z.to_nat (n - 1))
        | PAGE_NEW => r = Some (f, n + 1) /\ extended f n 1 s s' /\
            trace s' = trace s ++ visits f 2 (Z.to_nat (n - 1)) ++
              meta_events f ++ [EvPin (f, n + 1)]
        end)).
Proof.
  intros F Hf Hmax Hsize. destruct (GetSpacePage_run fuel size op f n s F Hf Hmax Hsize) as
    (r & s' & Hrun & _ & H). eauto.
Qed.

(** A file with only its header page: the first insertion extends it. *)
Definition header_only : PageState := mkPS ∅ {[ (MAIN_FORK, 1) := page_no 1 ]} [] 1 1 0.

Lemma header_only_file : file_of MAIN_FORK 1 header_only.
Proof.
  destruct (page_no_rep 1) as [R Hn]; [unfold in_i32; lia|].
  assert (content header_only (MAIN_FORK, 1) = Some (page_no 1)) as Hc by reflexivity.
  split; [| |reflexivity|lia].
  - intros k Hk. assert (k = 1) as -> by lia. exists (page_no 1), (PAGE_MAX_SIZE - 40).
    split_and!; [exact Hc|by apply blank_room|exact Hn|]. by rewrite (pr_len _ _ R).
  - intros k Hk. unfold content. change (pages header_only !! (MAIN_FORK, k)) with (@None (list Z)).
    apply lookup_singleton_ne. intros [= <-]. lia.
Qed.

Lemma GetSpacePage_first_fit_witness :
  exists s', GetSpacePage 2 100 PAGE_NEW MAIN_FORK header_only = Some (Some (MAIN_FORK, 2), s') /\
    extended MAIN_FORK 1 1 header_only s'.
Proof.
  destruct (GetSpacePage_first_fit 2 100 PAGE_NEW MAIN_FORK 1 header_only header_only_file)
    as (r & s' & Hrun & [(k & _ & Hk & _)|(_ & -> & E & _)]);
    [lia|lia|unfold PAGE_DATA_HEADER_SIZE, PAGE_MAX_SIZE; lia|lia|].
  exists s'. split; [exact Hrun|exact E].
Defined.

(** ** Group items *)

(** The same four stores in the order of [InsertGroupItem]. *)
Lemma group_stores p p1 p2 p3 p4 d e size it data :
  length p = 4096%nat -> 40 <= d -> d + 16 <= e - size -> e <= 4096 ->
  size = Z.of_nat (length data) ->
  store32 p off_dataEndOffset (e - size) = Some p1 ->
  store p1 (e - size) data = Some p2 -> store p2 d (item_bytes it) = Some p3 ->
  store32 p3 off_dataOffset (d + ITEM_SIZE) = Some p4 ->
  appended p p4 d e size it data.
Proof.
  intros Hp Hd He He2 Hsz S1 S2 S3 S4.
  split.
  - by rewrite (store_length _ _ _ _ S4), (store_length _ _ _ _ S3), (store_length _ _ _ _ S2),
      (store_length _ _ _ _ S1).
  - unfold dataOffset. rewrite (load_i32_store _ _ _ _ S4); [done|]. unfold in_i32. off.
  - unfold dataEndOffset. rewrite (load_i32_store_ne _ _ _ _ _ S4) by off.
    rewrite (load_i32_store_ne _ _ _ _ _ S3), (load_i32_store_ne _ _ _ _ _ S2) by off.
    apply (load_i32_store _ _ _ _ S1). unfold in_i32. off.
  - intros o n Ho Hor1 Hor2.
    by rewrite (load_store_ne _ _ _ _ _ _ S4), (load_store_ne _ _ _ _ _ _ S3),
      (load_store_ne _ _ _ _ _ _ S2), (load_store_ne _ _ _ _ _ _ S1) by off.
  - intros o Ho.
    by rewrite (load_store_ne _ _ _ _ _ _ S4), (load_store_ne _ _ _ _ _ _ S3),
      (load_store_ne _ _ _ _ _ _ S2), (load_store_ne _ _ _ _ _ _ S1) by off.
  - rewrite (load_store_ne _ _ _ _ _ _ S4) by off. by apply (load_store_eq _ _ _ _ _ S3).
  - rewrite (load_store_ne _ _ _ _ _ _ S4), (load_store_ne _ _ _ _ _ _ S3) by off.
    by apply (load_store_eq _ _ _ _ _ S2).
Qed.

Lemma length_member_data num i pageno : length (member_data num i pageno) = (num * 16)%nat.
Proof.
  revert i pageno. induction num as [|num IH]; intros i pageno; [done|]. cbn [member_data].
  rewrite length_app, IH. unfold member_bytes. rewrite !length_app, !length_le. lia.
Qed.

Lemma member_data_pageno num : forall i0 pageno i,
  0 <= i < Z.of_nat num -> in_i32 (pageno + i) ->
  GetGroupMemberPageNo (member_data num i0 pageno) i = Some (pageno + i).
Proof.
  induction num as [|num IH]; intros i0 pageno i Hi Hb; [lia|]. cbn [member_data].
  unfold GetGroupMemberPageNo, sizeof_Member, load_i32, load_u32 in *.
  assert (length (member_bytes i0 pageno) = 16%nat) as Hl
    by (unfold member_bytes; by rewrite !length_app, !length_le).
  destruct (decide (i = 0)) as [->|].
  - rewrite load_app_l by (rewrite Hl; lia). unfold member_bytes.
    rewrite !load_app_r by (rewrite !length_le; lia). rewrite !length_le. simpl Z.sub.
    rewrite (load_field_last 4). cbn [fmap option_fmap option_map].
    rewrite Z.add_0_r in *. by rewrite unle_le4_i32.
  - rewrite load_app_r, Hl by (rewrite Hl; lia).
    replace (i * 16 + 12 - Z.of_nat 16) with ((i - 1) * 16 + 12) by lia.
    rewrite (IH (i0 + 1) (pageno + 1) (i - 1)); [f_equal; lia|lia|].
    by replace (pageno + 1 + (i - 1)) with (pageno + i) by lia.
Qed.

Definition group_len (num : Z) : Z := Z.lor (u32 (num * sizeof_Member)) ITEM_VALID_MASK.

Lemma group_len_size num : 0 <= num <= 252 ->
  GetItemSize (group_len num) = num * sizeof_Member /\ GetItemValid (group_len num) = true /\
  in_u32 (group_len num).
Proof.
  unfold group_len, sizeof_Member. intros Hn.
  assert (in_u32 (num * 16)) as Hu by (unfold in_u32; lia).
  split_and!; [|apply GetItemValid_set|by apply valid_range, u32_range].
  rewrite GetItemSize_valid, u32_small by done. unfold GetItemSize.
  rewrite size_mask_ones, Z.land_ones, Z.mod_small by lia. done.
Qed.

Lemma write_group_item_spec p rows g num pageno :
  page_rep p rows -> in_u64 g -> 0 <= num <= 252 -> ITEM_SIZE + num * sizeof_Member <= free_space rows ->
  exists p', write_group_item p g (group_len num) (member_data (Z.to_nat num) 0 pageno) = Some p' /\
    page_rep p' (rows ++ [mkRow (group_len num) g (member_data (Z.to_nat num) 0 pageno)]) /\
    pageNum p' = pageNum p.
Proof.
  intros R Hg Hn Hfit. destruct (group_len_size num Hn) as (Hsize & Hvalid & Hu).
  set (data := member_data (Z.to_nat num) 0 pageno).
  assert (num * sizeof_Member = Z.of_nat (length data)) as Hlen
    by (unfold data; rewrite length_member_data; unfold sizeof_Member; lia).
  pose proof (bytes_of_nonneg rows). pose proof (pr_len _ _ R) as Hpl.
  unfold free_space, sizeof_Member, item_off, off_item, ITEM_SIZE, PAGE_MAX_SIZE in *.
  set (e := 4096 - bytes_of rows) in *. set (d := 40 + Z.of_nat (length rows) * 16) in *.
  set (size := num * 16) in *. set (it := mkItem (e - size) (group_len num) g).
  destruct (store32_some p off_dataEndOffset (e - size)) as (p1 & S1 & L1); [off|off|].
  destruct (store_some p1 (e - size) data) as (p2 & S2 & L2); [lia|lia|].
  destruct (store_some p2 d (item_bytes it)) as (p3 & S3 & L3); [lia|off|].
  destruct (store32_some p3 off_dataOffset (d + ITEM_SIZE)) as (p4 & S4 & L4); [off|off|].
  assert (appended p p4 d e size it data) as A by (eapply group_stores; eauto; lia).
  exists p4. split_and!.
  - unfold write_group_item. rewrite Hsize. fold size. rewrite (pr_de _ _ R).
    cbn [mbind option_bind]. fold e. unfold PAGE_MAX_SIZE. fold e. rewrite S1. cbn [mbind option_bind].
    rewrite Hlen, load_all. cbn [mbind option_bind]. rewrite <- Hlen, S2. cbn [mbind option_bind].
    assert (dataOffset p2 = Some d) as ->.
    { unfold dataOffset. rewrite (load_i32_store_ne _ _ _ _ _ S2), (load_i32_store_ne _ _ _ _ _ S1) by off.
      pose proof (pr_do _ _ R) as Hd. exact Hd. }
    cbn [mbind option_bind]. fold it. rewrite S3. cbn [mbind option_bind]. exact S4.
  - apply (page_rep_append _ _ _ size it data R Hlen); try done.
    + split_and!; simpl; [unfold in_i32; lia|done|done].
    + unfold item_off, off_item, ITEM_SIZE, PAGE_MAX_SIZE. lia.
    + split; simpl; [by rewrite Hsize|done].
  - unfold pageNum, load_i32, load_u32. by rewrite (ap_head _ _ _ _ _ _ _ A) by off.
Qed.

(** Data pages of a group file hold group items. *)
Definition group_pages (n : Z) (s : PageState) : Prop :=
  forall k, 1 < k <= n -> exists b rows, content s (GROUP_FORK, k) = Some b /\ page_rep b rows.

Lemma page_rep_room b rows r : page_rep b rows -> room b = Some r -> r = free_space rows.
Proof. intros R. unfold room. rewrite (pr_de _ _ R), (pr_do _ _ R). by intros [= <-]. Qed.

Lemma cached_content s p b : content s p = Some b -> is_Some (pages s !! p) -> pages s !! p = Some b.
Proof. unfold content. intros H [b' Hb]. rewrite Hb in *. done. Qed.

Lemma file_of_group f n s g : file_of f n s -> file_of f n (set_group_id g s).
Proof. intros [H1 H2 H3 H4]. split; [exact H1|exact H2| |exact H4]. by destruct f. Qed.

(** A page for a group item: it is in the cache, has room, holds [rows], and is
    either an old page or a blank one behind the last. *)
Lemma group_space fuel size n s :
  file_of GROUP_FORK n s -> group_pages n s -> (Z.to_nat n < fuel)%nat -> n + 1 < 2 ^ 31 ->
  size + PAGE_DATA_HEADER_SIZE < PAGE_MAX_SIZE ->
  exists k n' b rows s', GetSpacePage fuel size PAGE_NEW GROUP_FORK s = Some (Some (GROUP_FORK, k), s') /\
    pages s' !! (GROUP_FORK, k) = Some b /\ page_rep b rows /\ pageNum b = Some k /\
    size < free_space rows /\ file_of GROUP_FORK n' s' /\ 1 < k <= n' /\
    (content s (GROUP_FORK, k) = Some b \/ k = n + 1 /\ rows = [] /\ forall i, 1 < i <= n -> full s GROUP_FORK i size) /\
    group_id s' = group_id s /\ pageCnt s' = pageCnt s /\
    (forall q, q <> (GROUP_FORK, 1) -> q <> (GROUP_FORK, k) -> content s' q = content s q).
Proof.
  intros F G Hf Hn Hsz.
  destruct (GetSpacePage_run fuel size PAGE_NEW GROUP_FORK n s F Hf Hn Hsz) as
    (r & s' & Hrun & Hin & [(k & -> & Hk & Hroom & _ & S & _)|(Hfull & -> & E & _)]).
  - destruct (G k Hk) as (b & rows & Hb & R). destruct Hroom as (b' & rm & Hb' & Hrm & Hlt).
    assert (b' = b) as -> by congruence. rewrite (page_rep_room _ _ _ R Hrm) in Hlt.
    destruct (fo_page _ _ _ F k ltac:(lia)) as (b2 & _ & Hb2 & _ & Hno & _).
    assert (b2 = b) as -> by congruence.
    exists k, n, b, rows, s'. split; [done|]. split.
    { apply cached_content; [by rewrite (sc_content _ _ S)|by apply Hin]. }
    split_and!; try done; [by eapply file_of_same|lia|lia|by left|by apply (sc_group _ _ S)|by apply (sc_counter _ _ S MAIN_FORK)|].
    intros. apply (sc_content _ _ S).
  - destruct (fo_pos _ _ _ F) as [Hn1 _].
    destruct (ex_blank _ _ _ _ _ E (n + 1)) as (b & Hb & R); [lia|].
    destruct (fo_page _ _ _ (ex_file _ _ _ _ _ E) (n + 1) ltac:(lia)) as (b2 & _ & Hb2 & _ & Hno & _).
    assert (b2 = b) as -> by congruence. exists (n + 1), (n + 1), b, [], s'. split; [done|]. split.
    { apply cached_content; [done|by apply Hin]. }
    split_and!; try done; [|exact (ex_file _ _ _ _ _ E)|lia|by right|exact (ex_group _ _ _ _ _ E)|by apply (ex_counter _ _ _ _ _ E MAIN_FORK)|].
    { unfold PAGE_DATA_HEADER_SIZE, free_space, item_off, off_item, ITEM_SIZE, PAGE_MAX_SIZE in *.
      simpl. lia. }
    intros q H1 H2. apply (ex_other _ _ _ _ _ E); [done|].
    intros j Hj ->. apply H2. f_equal. lia.
Qed.

(** Changing a page of the file, keeping number and length, and writing it. *)
Lemma file_of_put f n s s' k b b' rows :
  file_of f n s -> 1 <= k <= n -> pages s !! (f, k) = Some b -> page_rep b' rows ->
  pageNum b' = pageNum b ->
  pages s' = <[(f, k) := b']> (pages s) -> disk s' = <[(f, k) := b']> (disk s) ->
  counter f s' = counter f s -> file_of f n s'.
Proof.
  intros F Hk Hb R Hno P D C. destruct F as [F1 F2 F3 F4].
  assert (forall q, q <> (f, k) -> content s' q = content s q) as Ho
    by (intros q Hq; unfold content; by rewrite P, D, !lookup_insert_ne).
  split; [| |by rewrite C|done].
  - intros j Hj. destruct (decide (j = k)) as [->|].
    + destruct (F1 k Hk) as (b0 & _ & Hb0 & _ & Hn0 & _).
      assert (b0 = b) as -> by (unfold content in Hb0; rewrite Hb in Hb0; congruence).
      exists b', (free_space rows). split_and!.
      * unfold content. by rewrite P, lookup_insert_eq.
      * unfold room. by rewrite (pr_de _ _ R), (pr_do _ _ R).
      * by rewrite Hno.
      * by rewrite (pr_len _ _ R).
    + rewrite Ho by congruence. by apply F1.
  - intros j Hj. rewrite Ho by (intros [= ->]; lia). by apply F2.
Qed.

(** The member page numbers as [GetPageNoFromGroupInfo] reads them. *)
Lemma GetPageNoFromGroupInfo_item s p b items k g num pageno si i :
  pages s !! p = Some b -> page_rep b items -> items !! k = Some (mkRow (group_len num) g (member_data (Z.to_nat num) 0 pageno)) ->
  0 <= num <= 252 -> 0 <= i < num -> in_i32 (pageno + i) ->
  sp_page si = Some p -> sp_item_offset si = item_off k ->
  GetPageNoFromGroupInfo si i s = Some (pageno + i, s).
Proof.
  set (r := mkRow _ _ _). intros Hb R Hr Hnum Hi Hp Hsp Hoff. unfold GetPageNoFromGroupInfo.
  rewrite Hsp, Hoff. run (get_page_run _ _ _ Hb). pose proof (lookup_lt_Some _ _ _ Hr).
  run (st_lift_run _ _ s (item_end _ _ k R)). rewrite (proj2 (Nat.leb_gt _ _)) by lia.
  run (st_lift_run _ _ s (pr_item _ _ R _ _ Hr)). cbn [it_len it_offset r_len r].
  destruct (group_len_size num Hnum) as (_ & -> & _). apply st_lift_run.
  pose proof (pr_row _ _ R _ _ Hr) as Hrow. cbn [r_bytes r] in Hrow.
  assert (length (member_data (Z.to_nat num) 0 pageno) = (Z.to_nat num * 16)%nat) as Hl
    by apply length_member_data.
  unfold load_i32.
  rewrite <- Z.add_assoc, (load_u32_bytes _ _ _ _ Hrow) by (rewrite ?Hl; unfold sizeof_Member; lia).
  apply member_data_pageno; [lia|done].
Qed.

Lemma GetPageNoFromGroupInfo_run s p b rows g num pageno si i :
  pages s !! p = Some b ->
  page_rep b (rows ++ [mkRow (group_len num) g (member_data (Z.to_nat num) 0 pageno)]) ->
  0 <= num <= 252 -> 0 <= i < num -> in_i32 (pageno + i) ->
  sp_page si = Some p -> sp_item_offset si = item_off (length rows) ->
  GetPageNoFromGroupInfo si i s = Some (pageno + i, s).
Proof. intros Hb R. apply (GetPageNoFromGroupInfo_item s p b _ (length rows) g num pageno si i Hb R). by apply list_lookup_middle. Qed.

Lemma InsertGroupItem_run fuel last lb m num n s :
  file_of GROUP_FORK n s -> group_pages n s -> (Z.to_nat n < fuel)%nat -> n + 1 < 2 ^ 31 ->
  pages s !! last = Some lb -> pageNum lb = Some m -> 0 < num <= 252 -> PAGE_HEAD_PAGE_NUM <= m - num ->
  m < 2 ^ 31 -> 0 <= group_id s < 2 ^ 32 - 1 ->
  exists k n' b b' rows s', InsertGroupItem fuel (Some last) num s = Some (0, s') /\
    page_rep b rows /\ (content s (GROUP_FORK, k) = Some b \/
      k = n + 1 /\ rows = [] /\ forall i, 1 < i <= n -> full s GROUP_FORK i (ITEM_SIZE + num * sizeof_Member)) /\
    content s' (GROUP_FORK, k) = Some b' /\ disk s' !! (GROUP_FORK, k) = Some b' /\
    page_rep b' (rows ++ [mkRow (group_len num) (group_id s + 1)
                            (member_data (Z.to_nat num) 0 (m - num + 1))]) /\
    group_id s' = group_id s + 1 /\ pageCnt s' = pageCnt s /\ file_of GROUP_FORK n' s' /\ 1 < k <= n' /\
    (forall q, q <> (GROUP_FORK, 1) -> q <> (GROUP_FORK, k) -> content s' q = content s q) /\
    (forall i si, 0 <= i < num -> sp_page si = Some (GROUP_FORK, k) ->
       sp_item_offset si = item_off (length rows) ->
       GetPageNoFromGroupInfo si i s' = Some (m - num + 1 + i, s')).
Proof.
  intros F G Hf Hn Hlast Hm Hnum Hhead Hmax Hg. unfold PAGE_HEAD_PAGE_NUM in Hhead.
  unfold InsertGroupItem. run_refl. set (s1 := emit _ s). run_refl.
  assert (pages s1 !! last = Some lb) as Hl1 by done. run (get_page_run _ _ s1 Hl1).
  run (st_lift_run _ _ s1 Hm). run_refl. set (s2 := emit _ s1).
  rewrite (proj2 (Z.leb_gt _ _)) by (unfold PAGE_HEAD_PAGE_NUM; lia). run_refl. run_refl.
  change (group_id s2) with (group_id s). rewrite u32_small by (unfold in_u32; lia).
  set (s3 := set_group_id (group_id s + 1) s2).
  assert (same_contents s s2) as S12
    by (eapply same_contents_trans; apply same_contents_emit).
  assert (file_of GROUP_FORK n s3) as F3 by (apply file_of_group; by eapply file_of_same).
  assert (group_pages n s3) as G3 by exact G.
  destruct (group_len_size num ltac:(lia)) as (Hsz & _ & _). fold (group_len num). rewrite Hsz.
  destruct (group_space fuel (ITEM_SIZE + num * sizeof_Member) n s3 F3 G3 Hf Hn) as
    (k & n' & b & rows & s4 & Hrun & Hb4 & R & Hno & Hfit & F4 & Hk & Hwhere & Hg4 & Hm4 & Ho4).
  { unfold ITEM_SIZE, sizeof_Member, PAGE_DATA_HEADER_SIZE, PAGE_MAX_SIZE. lia. }
  run Hrun. run_refl. set (s5 := emit _ s4). run_refl.
  assert (pages s5 !! (GROUP_FORK, k) = Some b) as Hb5 by done. run (get_page_run _ _ s5 Hb5).
  destruct (write_group_item_spec b rows (group_id s + 1) num (m - num + 1) R) as (b' & Hw & R' & Hno');
    [unfold in_u64; lia|lia|lia|].
  run (st_lift_run _ _ s5 Hw). run_refl. set (s6 := set_pages _ s5).
  assert (pages s6 !! (GROUP_FORK, k) = Some b') as Hb6 by apply lookup_insert_eq.
  set (s7 := set_disk (<[(GROUP_FORK, k) := b']> (disk s6)) s6).
  assert (WritePage (GROUP_FORK, k) GROUP_FORK s6 = Some (tt, s7)) as Hwp.
  { unfold WritePage. run (get_page_run _ _ s6 Hb6). unfold TableWrite. by rewrite Hno', Hno. }
  run Hwp. run_refl. run_refl. set (s9 := emit _ (emit _ s7)).
  assert (file_of GROUP_FORK n' s9) as F9
    by (apply (file_of_put GROUP_FORK n' s4 s9 k b b' _ F4 ltac:(lia) Hb4 R' Hno'); done).
  destruct (fo_page _ _ _ F9 1 ltac:(lia)) as (h & rh & Hh & Hrh & Hnh & Hlh).
  destruct (UpdateMetaData_run GROUP_FORK h s9 Hh Hlh Hnh) as
    (h' & s' & Hup & P & D & _ & Hg' & Hc' & Hlh' & Hrh' & Hnh' & _).
  { rewrite (fo_count _ _ _ F9). pose proof (fo_pos _ _ _ F9). lia. }
  run Hup.
  assert (forall q, q <> (GROUP_FORK, 1) -> content s' q = content s9 q) as Hs'
    by (intros q Hq; unfold content; by rewrite P, D, !lookup_insert_ne).
  assert (content s9 (GROUP_FORK, k) = Some b') as Hb9
    by (unfold content; change (pages s9) with (pages s6); by rewrite Hb6).
  assert ((GROUP_FORK, k) <> (GROUP_FORK, 1)) as Hk1 by (intros [= ->]; lia).
  exists k, n', b, b', rows, s'. split; [reflexivity|]. split; [done|]. split; [exact Hwhere|].
  split; [by rewrite Hs'|]. split; [by rewrite D, lookup_insert_ne; [apply lookup_insert_eq|]|].
  split; [done|]. split; [by rewrite Hg'|]. split; [rewrite (Hc' MAIN_FORK : pageCnt s' = _); exact Hm4|]. split_and!; try lia.
  - destruct F9 as [A1 A2 A3 A4]. split; [| |by rewrite Hc'|done].
    + intros j Hj. destruct (decide (j = 1)) as [->|].
      * exists h', rh. unfold content. rewrite P, lookup_insert_eq, Hrh', Hlh'. by split_and!.
      * rewrite Hs' by congruence. by apply A1.
    + intros j Hj. rewrite Hs' by (intros [= ->]; lia). by apply A2.
  - intros q H1 H2. rewrite Hs' by done. change (content s q) with (content s3 q).
    rewrite <- (Ho4 q H1 H2). unfold content. simpl. by rewrite !lookup_insert_ne.
  - intros i si Hi Hsp Hoff.
    apply (GetPageNoFromGroupInfo_run s' (GROUP_FORK, k) b' rows (group_id s + 1) num); try done; [|lia|unfold in_i32; lia].
    by rewrite P, lookup_insert_ne.
Qed.

(** C23: a new group names the last [num] pages before [lastpage] as its member
    pages, one per column. The item goes to a page of the group file with room -
    an existing one or a blank one the file was extended by -, behind the items
    already there and in memory as on disk; the group gets the next id; other
    pages keep their contents; and looking the group's member [i] up afterwards
    returns the [i]-th of the named pages. *)
Theorem InsertGroupItem_names_members fuel last lb m num n s :
  file_of GROUP_FORK n s -> group_pages n s -> (Z.to_nat n < fuel)%nat -> n + 1 < 2 ^ 31 ->
  pages s !! last = Some lb -> pageNum lb = Some m -> 0 < num <= 252 -> PAGE_HEAD_PAGE_NUM <= m - num ->
  m < 2 ^ 31 -> 0 <= group_id s < 2 ^ 32 - 1 ->
  exists k n' b b' rows s', InsertGroupItem fuel (Some last) num s = Some (0, s') /\
    page_rep b rows /\ (content s (GROUP_FORK, k) = Some b \/ k = n + 1 /\ rows = []) /\
    content s' (GROUP_FORK, k) = Some b' /\ disk s' !! (GROUP_FORK, k) = Some b' /\
    page_rep b' (rows ++ [mkRow (group_len num) (group_id s + 1)
                            (member_data (Z.to_nat num) 0 (m - num + 1))]) /\
    group_id s' = group_id s + 1 /\ file_of GROUP_FORK n' s' /\ 1 < k <= n' /\
    (forall q, q <> (GROUP_FORK, 1) -> q <> (GROUP_FORK, k) -> content s' q = content s q) /\
    (forall i si, 0 <= i < num -> sp_page si = Some (GROUP_FORK, k) ->
       sp_item_offset si = item_off (length rows) ->
       GetPageNoFromGroupInfo si i s' = Some (m - num + 1 + i, s')).
Proof.
  intros F G Hf Hn Hlast Hm Hnum Hhead Hmax Hg.
  destruct (InsertGroupItem_run fuel last lb m num n s F G Hf Hn Hlast Hm Hnum Hhead Hmax Hg)
    as (k & n' & b & b' & rows & s' & E & R & Hw & Hc & Hd & R' & Hid & _ & H).
  exists k, n', b, b', rows, s'. split_and!; try done; try apply H. destruct Hw as [Hw|(Hk & Hr & _)]; [by left|by right].
Qed.

Definition two_forks : PageState :=
  mkPS {[ (MAIN_FORK, 4) := page_no 4 ]} {[ (GROUP_FORK, 1) := page_no 1 ]} [] 4 1 0.

Lemma two_forks_file : file_of GROUP_FORK 1 two_forks.
Proof.
  destruct (page_no_rep 1) as [R Hn]; [unfold in_i32; lia|].
  assert (content two_forks (GROUP_FORK, 1) = Some (page_no 1)) as Hc by reflexivity.
  split; [| |reflexivity|lia].
  - intros k Hk. assert (k = 1) as -> by lia. exists (page_no 1), (PAGE_MAX_SIZE - 40).
    split_and!; [exact Hc|by apply blank_room|exact Hn|]. by rewrite (pr_len _ _ R).
  - intros k Hk. unfold content, two_forks. simpl pages. simpl disk.
    rewrite lookup_singleton_ne by congruence. apply lookup_singleton_ne. intros [= <-]. lia.
Qed.

(** Three columns, pages 2 to 4 of the table. *)
Lemma InsertGroupItem_names_members_witness :
  exists k s' rows, InsertGroupItem 2 (Some (MAIN_FORK, 4)) 3 two_forks = Some (0, s') /\
    group_id s' = 1 /\
    GetPageNoFromGroupInfo (mkSearch (Some (GROUP_FORK, k)) (item_off rows) 1 k) 2 s' = Some (4, s').
Proof.
  destruct (page_no_rep 4) as [_ Hn]; [unfold in_i32; lia|].
  destruct (InsertGroupItem_names_members 2 (MAIN_FORK, 4) (page_no 4) 4 3 1 two_forks two_forks_file)
    as (k & n' & b & b' & rows & s' & Hrun & _ & _ & _ & _ & _ & Hg & _ & _ & _ & Hget);
    [by intros k Hk; lia|lia|lia|reflexivity|exact Hn|lia|unfold PAGE_HEAD_PAGE_NUM; lia|lia|simpl; lia|].
  exists k, s', (length rows). split; [exact Hrun|]. split; [exact Hg|].
  apply (Hget 2); [lia|reflexivity|reflexivity].
Defined.

(** ** Along the extension chain *)

(** With an unreadable start page and a caller that asks for a new page,
    [GetSpaceSpecifyPage] returns the page the file was extended by, but with
    that page's write lock and the table's extension lock still held: nothing
    after these events releases them. *)
Theorem GetSpaceSpecifyPage_keeps_locks size f n k type s :
  file_of f n s -> n < k -> n + 1 < 2 ^ 31 -> size + PAGE_DATA_HEADER_SIZE < PAGE_MAX_SIZE ->
  exists s', GetSpaceSpecifyPage size PAGE_NEW f k type s = Some (Some (f, n + 1), s') /\
    trace s' = trace s ++ [EvExtStart] ++ meta_events f ++
      [EvPin (f, n + 1); EvLock (f, n + 1) RWLock_WRITE].
Proof.
  intros F Hk Hn Hsz. destruct (fo_pos _ _ _ F) as [Hn1 _]. unfold GetSpaceSpecifyPage.
  rewrite (proj2 (Z.leb_gt _ _)) by lia.
  assert (chain_loop chain_fuel_max size f None k type 0 s = Some (ChainNone None type, s)) as Hc.
  { unfold chain_fuel_max. cbn [chain_loop].
    assert (0 < k) as Hk0 by lia. by run (GetPageByIndex_none s f k Hk0 (fo_end _ _ _ F k Hk)). }
  run Hc. rewrite decide_True by done. run_refl. set (s1 := emit _ s).
  destruct (ExtensionTbl_run 1 f n s1) as (s2 & Hext & E & T2 & Hin);
    [by eapply file_of_same; [apply same_contents_emit|]|unfold PAGE_EXTENSION_MAX_NUM; lia|lia|].
  run Hext. run_refl. set (s3 := emit _ s2).
  destruct (ex_blank _ _ _ _ _ E (n + 1)) as (p & Hp & R); [lia|].
  pose proof (cached_content _ _ _ Hp Hin) as Hb.
  assert (pages s3 !! (f, n + 1) = Some p) as Hb3 by done.
  pose proof (pr_len _ _ R) as Hl.
  assert (exists t, pageType p = Some t) as [t Ht].
  { unfold pageType, load_u32. rewrite load_some by (unfold off_pageType; lia). eexists. reflexivity. }
  destruct (store32_some p off_pageType (SET_PAGE_TYPE t type)) as (p' & Hp' & _);
    [unfold off_pageType; lia|unfold off_pageType; lia|].
  assert (set_type (f, n + 1) type s3 =
    Some (tt, set_pages (<[(f, n + 1) := p']> (pages s3)) s3)) as Hset.
  { unfold set_type. run (get_page_run _ _ s3 Hb3). run (st_lift_run _ _ s3 Ht).
    by run (st_lift_run _ _ s3 Hp'). }
  run Hset. eexists. split; [reflexivity|]. simpl. rewrite T2. simpl. by rewrite <- !app_assoc.
Qed.

Lemma GetSpaceSpecifyPage_keeps_locks_witness :
  exists s', GetSpaceSpecifyPage 100 PAGE_NEW MAIN_FORK 2 PAGE_UNDO header_only =
      Some (Some (MAIN_FORK, 2), s') /\
    trace s' = [EvExtStart] ++ meta_events MAIN_FORK ++
      [EvPin (MAIN_FORK, 2); EvLock (MAIN_FORK, 2) RWLock_WRITE].
Proof.
  destruct (GetSpaceSpecifyPage_keeps_locks 100 MAIN_FORK 1 2 PAGE_UNDO header_only header_only_file)
    as (s' & Hrun & Ht); [lia|lia|unfold PAGE_DATA_HEADER_SIZE, PAGE_MAX_SIZE; lia|].
  exists s'. split; [exact Hrun|exact Ht].
Defined.
