(* ===== verification/TFile.v ===== *)
(** * Files of pages

    Models the Linux half of [src/src/sqlcore/storage/file/tfile.c] over the system
    calls it makes: a directory of inodes, descriptors with a position, and a device
    with so many bytes left. Files grow by whole writes; a gap a write leaves reads
    as zeros. *)

From S2P Require Import Prelude Bytes DataTypes Page.

(** ** The system calls

    [dir] names inodes, [inodes] holds their bytes, [fds] the open descriptors with
    their inode and position, [room] what the device still takes. An inode stays
    after its name is gone, as long as anything may read it. *)

Record OS := mkOS {
  dir : gmap bytes positive;
  inodes : gmap positive bytes;
  fds : gmap Z (positive * Z);
  room : Z
}.

Definition set_dir d (o : OS) : OS := mkOS d (inodes o) (fds o) (room o).
Definition set_inodes i (o : OS) : OS := mkOS (dir o) i (fds o) (room o).
Definition set_fds f (o : OS) : OS := mkOS (dir o) (inodes o) f (room o).
Definition set_room r (o : OS) : OS := mkOS (dir o) (inodes o) (fds o) r.

(** The lowest number behind the standard streams that is not open. *)
Definition lowest_fd (m : gmap Z (positive * Z)) : Z :=
  match list_find (fun fd => m !! fd = None) (seqZ 3 (Z.of_nat (S (base.size m)))) with
  | Some (_, fd) => fd
  | None => -1
  end.

(** [access(path, F_OK)] *)
Definition os_access (path : bytes) (o : OS) : Z := if decide (is_Some (dir o !! path)) then 0 else -1.

(** [open] with [O_RDWR], and with [O_CREAT] when [creat]. *)
Definition os_open (path : bytes) (creat : bool) (o : OS) : Z * OS :=
  let fd := lowest_fd (fds o) in
  match dir o !! path with
  | Some ino => (fd, set_fds (<[fd := (ino, 0)]> (fds o)) o)
  | None =>
      if creat then
        let ino := fresh (dom (inodes o)) in
        (fd, set_fds (<[fd := (ino, 0)]> (fds o))
               (set_inodes (<[ino := []]> (inodes o)) (set_dir (<[path := ino]> (dir o)) o)))
      else (-1, o)
  end.

Definition os_close (fd : Z) (o : OS) : OS := set_fds (delete fd (fds o)) o.

(** [lseek64] with [SEEK_SET]: a negative offset is refused. *)
Definition os_lseek (fd off : Z) (o : OS) : Z * OS :=
  match fds o !! fd with
  | Some (ino, _) => if off <? 0 then (-1, o) else (off, set_fds (<[fd := (ino, off)]> (fds o)) o)
  | None => (-1, o)
  end.

Definition os_read (fd size : Z) (o : OS) : Z * bytes * OS :=
  match fds o !! fd with
  | Some (ino, pos) =>
      let bs := take (Z.to_nat size) (drop (Z.to_nat pos) (default [] (inodes o !! ino))) in
      let n := Z.of_nat (length bs) in
      (n, bs, set_fds (<[fd := (ino, pos + n)]> (fds o)) o)
  | None => (-1, [], o)
  end.

(** The bytes [bs] at [off]; a gap in front of them is filled with zeros. *)
Definition overwrite (c : bytes) (off : nat) (bs : bytes) : bytes :=
  take off (c ++ replicate (off - length c) 0) ++ bs ++ drop (off + length bs) c.

(** [write] takes what the device has room for; a write of nothing is an error. *)
Definition os_write (fd : Z) (bs : bytes) (o : OS) : Z * OS :=
  match fds o !! fd with
  | Some (ino, pos) =>
      let c := default [] (inodes o !! ino) in
      let n := Z.min (Z.of_nat (length bs)) (Z.max 0 (Z.of_nat (length c) + room o - pos)) in
      if (n =? 0) && (0 <? Z.of_nat (length bs)) then (-1, o)
      else
        let c' := overwrite c (Z.to_nat pos) (take (Z.to_nat n) bs) in
        (n, set_room (room o - (Z.of_nat (length c') - Z.of_nat (length c)))
              (set_fds (<[fd := (ino, pos + n)]> (fds o)) (set_inodes (<[ino := c']> (inodes o)) o)))
  | None => (-1, o)
  end.

Definition os_unlink (path : bytes) (o : OS) : Z * OS :=
  match dir o !! path with
  | Some _ => (0, set_dir (delete path (dir o)) o)
  | None => (-1, o)
  end.

(** ** tfile.c

    A [PFileHandle] is the address of the allocated [FileHandle], which holds the
    descriptor. *)

Record Files := mkFiles { os : OS; handles : gmap positive Z; next_handle : positive }.

Definition set_os (o : OS) (s : Files) : Files := mkFiles o (handles s) (next_handle s).

Definition on_os {A} (f : OS -> A * OS) : ST Files A := fun s =>
  let '(a, o) := f (os s) in Some (a, set_os o s).

Definition alloc_handle (fd : Z) : ST Files positive := fun s =>
  let h := next_handle s in
  Some (h, mkFiles (os s) (<[h := fd]> (handles s)) (Pos.succ h)).
Definition free_handle (h : positive) : ST Files unit := fun s =>
  _ ← handles s !! h; Some (tt, mkFiles (os s) (delete h (handles s)) (next_handle s)).
Definition handle_fd (h : positive) : ST Files Z := fun s => fd ← handles s !! h; Some (fd, s).

Definition FILE_PATH_MAX_LEN : Z := 1024.

(** [snprintf] into a buffer of [FILE_PATH_MAX_LEN]. *)
Definition snprintf_path (text : bytes) : bytes := take (Z.to_nat (FILE_PATH_MAX_LEN - 1)) text.

Section TFile.

Context (DataDir : bytes).

Definition file_path (filename : bytes) : bytes := snprintf_path (DataDir ++ 47 :: filename).

Definition CreateFile (filename : bytes) : ST Files (option positive) :=
  let filepath := file_path filename in
  a ← st_gets (os_access filepath ∘ os);
  if a =? 0 then mret None
  else
    fd ← on_os (os_open filepath true);
    if fd =? -1 then mret None else h ← alloc_handle fd; mret (Some h).

Definition OpenFile (filename : bytes) : ST Files (option positive) :=
  let filepath := file_path filename in
  a ← st_gets (os_access filepath ∘ os);
  if negb (a =? 0) then mret None
  else
    fd ← on_os (os_open filepath false);
    if fd =? -1 then mret None else h ← alloc_handle fd; mret (Some h).

Definition DeleteTableFile (filename : bytes) : ST Files Z :=
  let filepath := file_path filename in
  a ← st_gets (os_access filepath ∘ os);
  if negb (a =? 0) then mret (-1)
  else ret ← on_os (os_unlink filepath); if negb (ret =? 0) then mret (-1) else mret ret.

(** Returns the number of bytes and the bytes that went to the front of [page]. *)
Definition FileReadPage (pfh : option positive) (offset size : Z) : ST Files (Z * bytes) :=
  match pfh with
  | None => mret (-1, [])
  | Some h =>
      fd ← handle_fd h;
      if fd <? 0 then mret (-1, [])
      else
        realLen ← on_os (os_lseek fd offset);
        if realLen <? 0 then mret (-1, []) else on_os (os_read fd size)
  end.

(** The result of [lseek64] is not looked at. *)
Definition FileWritePage (pfh : option positive) (offset size : Z) (pageBuf : bytes) : ST Files Z :=
  match pfh with
  | None => mret (-1)
  | Some h =>
      fd ← handle_fd h;
      if fd <? 0 then mret (-1)
      else
        on_os (os_lseek fd offset);;
        bs ← st_lift (load pageBuf 0 size);
        writeSize ← on_os (os_write fd bs);
        if negb (writeSize =? size) then mret (-1) else mret writeSize
  end.

(** [fsync] changes nothing a program can read. *)
Definition FileSync (pfh : option positive) : ST Files Z :=
  match pfh with
  | None => mret 0
  | Some h => handle_fd h;; mret 0
  end.

Definition FileClose (pfh : option positive) : ST Files Z :=
  match pfh with
  | None => mret 0
  | Some h =>
      fd ← handle_fd h;
      if 0 <? fd then on_os (fun o => (tt, os_close fd o));; free_handle h;; mret 0
      else mret 0
  end.

End TFile.

(** ** The pages of a file *)

Notation PAGE := (Z.to_nat PAGE_MAX_SIZE).

Definition page_off (n : Z) : nat := Z.to_nat ((n - 1) * PAGE_MAX_SIZE).

(** What lies at page [n]; less than a page at the end of the file. *)
Definition page_bytes (c : bytes) (n : Z) : bytes := take PAGE (drop (page_off n) c).

Definition page_at (c : bytes) (n : Z) : option bytes :=
  if decide (length (page_bytes c n) = PAGE) then Some (page_bytes c n) else None.

(** A page of which the file has only a part, or nothing, filled up with zeros. *)
Definition zero_filled (p : bytes) : bytes := p ++ replicate (PAGE - length p) 0.

Lemma zero_filled_full p : length p = PAGE -> zero_filled p = p.
Proof. intros H. unfold zero_filled. rewrite H, Nat.sub_diag. simpl. by rewrite app_nil_r. Qed.

Lemma lowest_fd_free m : 3 <= lowest_fd m /\ m !! lowest_fd m = None.
Proof.
  unfold lowest_fd. destruct (list_find _ _) as [[i fd]|] eqn:H.
  - apply list_find_Some in H as (Hi & Hf & _). split; [|done].
    apply list_elem_of_lookup_2 in Hi. apply elem_of_seqZ in Hi. lia.
  - exfalso. apply list_find_None in H. rewrite Forall_forall in H.
    set (l := seqZ 3 (Z.of_nat (S (base.size m)))) in *.
    assert (list_to_set l ⊆ dom m) as Hs.
    { intros fd Hfd. apply elem_of_list_to_set in Hfd. apply H in Hfd.
      apply elem_of_dom. destruct (m !! fd); [done|]. by destruct Hfd. }
    apply subseteq_size in Hs. rewrite size_list_to_set in Hs by apply NoDup_seqZ.
    rewrite size_dom in Hs. unfold l in Hs. rewrite length_seqZ in Hs. lia.
Qed.

Lemma length_overwrite c off bs :
  length (overwrite c off bs) = Nat.max (length c) (off + length bs).
Proof. unfold overwrite. len. Qed.

Lemma overwrite_lookup c off bs i :
  overwrite c off bs !! i =
  if decide (i < off)%nat then (if decide (i < length c)%nat then c !! i else Some 0)
  else if decide (i < off + length bs)%nat then bs !! (i - off)%nat else c !! i.
Proof.
  unfold overwrite. repeat case_decide.
  - rewrite lookup_app_l, lookup_take, decide_True, lookup_app_l by len. done.
  - rewrite lookup_app_l, lookup_take, decide_True, lookup_app_r by len.
    apply lookup_replicate. lia.
  - rewrite lookup_app_r by len. rewrite lookup_app_l by len. f_equal. len.
  - rewrite lookup_app_r by len. rewrite lookup_app_r by len.
    rewrite lookup_drop. f_equal. len.
Qed.

Lemma page_bytes_lookup c n i :
  page_bytes c n !! i = if decide (i < PAGE)%nat then c !! (page_off n + i)%nat else None.
Proof. unfold page_bytes. rewrite lookup_take. case_decide; [by rewrite lookup_drop|done]. Qed.

Lemma page_off_lt n m : 1 <= n -> n < m -> (page_off n + PAGE <= page_off m)%nat.
Proof. unfold page_off, PAGE_MAX_SIZE. lia. Qed.

Lemma page_at_full p c n : page_bytes c n = p -> length p = PAGE -> page_at c n = Some p.
Proof. intros <- H. unfold page_at. by rewrite decide_True. Qed.

(** Writing page [n] of a file. *)
Definition write_page (c : bytes) (n : Z) (b : bytes) : bytes := overwrite c (page_off n) b.

Lemma page_at_write c n b m : 1 <= n -> 1 <= m -> length b = PAGE ->
  page_at (write_page c n b) m =
  if decide (m = n) then Some b
  else if decide (m < n) then Some (zero_filled (page_bytes c m)) else page_at c m.
Proof.
  intros Hn Hm Hb. repeat case_decide.
  - subst m. apply page_at_full; [|done]. apply list_eq. intros i. rewrite page_bytes_lookup.
    unfold write_page. rewrite overwrite_lookup, Hb.
    case_decide.
    + rewrite decide_False, decide_True by lia. f_equal. lia.
    + symmetry. apply lookup_ge_None. lia.
  - pose proof (page_off_lt m n Hm ltac:(lia)) as Hlt.
    assert (length (page_bytes c m) <= PAGE)%nat by (unfold page_bytes; len).
    apply page_at_full; [|unfold zero_filled; len]. apply list_eq. intros i.
    rewrite page_bytes_lookup. unfold write_page. rewrite overwrite_lookup, Hb.
    unfold zero_filled. case_decide.
    + rewrite decide_True by lia. case_decide.
      * rewrite lookup_app_l; [by rewrite page_bytes_lookup, decide_True|].
        apply lookup_lt_is_Some_1. rewrite page_bytes_lookup, decide_True by done.
        by apply lookup_lt_is_Some.
      * assert (length (page_bytes c m) <= i)%nat.
        { apply lookup_ge_None. rewrite page_bytes_lookup, decide_True by done. apply lookup_ge_None. lia. }
        rewrite lookup_app_r by done. symmetry. apply lookup_replicate. lia.
    + symmetry. apply lookup_ge_None. len.
  - pose proof (page_off_lt n m Hn ltac:(lia)) as Hlt. unfold page_at.
    assert (page_bytes (write_page c n b) m = page_bytes c m) as ->; [|done].
    apply list_eq. intros i. rewrite !page_bytes_lookup. case_decide; [|done].
    unfold write_page. rewrite overwrite_lookup, Hb. by rewrite !decide_False by lia.
Qed.

(** ** Running the file operations *)

(** [h] is a handle on the inode [ino]. *)
Definition handle_on (s : Files) (h : positive) (ino : positive) : Prop :=
  exists fd pos, handles s !! h = Some fd /\ 3 <= fd /\ fds (os s) !! fd = Some (ino, pos) /\
    is_Some (inodes (os s) !! ino).

Definition content (s : Files) (ino : positive) : bytes := default [] (inodes (os s) !! ino).

(** [s'] differs from [s] at most in the positions of descriptors. *)
Definition same_files (s s' : Files) : Prop :=
  handles s' = handles s /\ next_handle s' = next_handle s /\ dir (os s') = dir (os s) /\
  inodes (os s') = inodes (os s) /\ room (os s') = room (os s) /\
  fst <$> fds (os s') = fst <$> fds (os s).

Lemma same_files_handle s s' h ino : same_files s s' -> handle_on s h ino -> handle_on s' h ino.
Proof.
  intros (H1 & _ & _ & H4 & _ & H6) (fd & pos & Hh & Hfd & Hf & Hi).
  assert ((fst <$> fds (os s')) !! fd = Some ino) as Hf' by (by rewrite H6, lookup_fmap, Hf).
  rewrite lookup_fmap in Hf'. destruct (fds (os s') !! fd) as [[i p]|] eqn:E; simplify_eq/=.
  exists fd, p. by rewrite H1, H4.
Qed.

Lemma FileReadPage_run s h ino n : handle_on s h ino -> 1 <= n ->
  exists s', FileReadPage (Some h) ((n - 1) * PAGE_MAX_SIZE) PAGE_MAX_SIZE s =
    Some ((Z.of_nat (length (page_bytes (content s ino) n)), page_bytes (content s ino) n), s') /\ same_files s s'.
Proof.
  intros (fd & pos & Hh & Hfd & Hf & Hi) Hn. eexists. unfold FileReadPage, handle_fd. split.
  - unfold mbind at 1, ST_bind. rewrite Hh. cbn [mbind option_bind].
    rewrite (proj2 (Z.ltb_ge fd 0)) by lia.
    unfold mbind, ST_bind, on_os, os_lseek. rewrite Hf.
    assert (0 <= (n - 1) * PAGE_MAX_SIZE) by (unfold PAGE_MAX_SIZE; lia).
    rewrite (proj2 (Z.ltb_ge ((n - 1) * PAGE_MAX_SIZE) 0)) by done. cbn [os set_os].
    rewrite (proj2 (Z.ltb_ge ((n - 1) * PAGE_MAX_SIZE) 0)) by done.
    unfold os_read. cbn [fds set_fds os inodes set_os]. rewrite lookup_insert_eq.
    cbn beta iota. reflexivity.
  - unfold same_files. cbn. split_and!; try done. rewrite insert_insert_eq, fmap_insert. cbn.
    apply map_eq. intros k. destruct (decide (k = fd)) as [->|Hk].
    + by rewrite lookup_insert_eq, lookup_fmap, Hf.
    + by rewrite lookup_insert_ne.
Qed.

Lemma FileWritePage_run s h ino n b : handle_on s h ino -> 1 <= n -> length b = PAGE ->
  Z.of_nat (page_off n + PAGE) <= Z.of_nat (length (content s ino)) + room (os s) ->
  exists s', FileWritePage (Some h) ((n - 1) * PAGE_MAX_SIZE) PAGE_MAX_SIZE b s = Some (PAGE_MAX_SIZE, s') /\
    handles s' = handles s /\ next_handle s' = next_handle s /\ dir (os s') = dir (os s) /\
    inodes (os s') = <[ino := write_page (content s ino) n b]> (inodes (os s)) /\
    fst <$> fds (os s') = fst <$> fds (os s) /\
    room (os s') = room (os s) - (Z.max 0 (Z.of_nat (page_off n + PAGE) - Z.of_nat (length (content s ino)))).
Proof.
  intros (fd & pos & Hh & Hfd & Hf & Hi) Hn Hb Hroom. eexists. unfold FileWritePage, handle_fd. split.
  - unfold mbind at 1, ST_bind. rewrite Hh. cbn [mbind option_bind].
    rewrite (proj2 (Z.ltb_ge fd 0)) by lia.
    assert (0 <= (n - 1) * PAGE_MAX_SIZE) by (unfold PAGE_MAX_SIZE; lia).
    assert (load b 0 PAGE_MAX_SIZE = Some b) as Hload.
    { assert (PAGE_MAX_SIZE = Z.of_nat (length b)) as -> by (rewrite Hb; done). apply load_all. }
    unfold mbind, ST_bind, on_os, os_lseek, st_lift. rewrite Hf.
    rewrite (proj2 (Z.ltb_ge ((n - 1) * PAGE_MAX_SIZE) 0)) by done. rewrite Hload.
    cbn [fmap option_fmap option_map os set_os].
    unfold os_write. cbn [fds set_fds os inodes set_os room]. rewrite lookup_insert_eq.
    assert (Z.min (Z.of_nat (length b))
      (Z.max 0 (Z.of_nat (length (content s ino)) + room (os s) - (n - 1) * PAGE_MAX_SIZE)) = PAGE_MAX_SIZE) as Emin.
    { rewrite Hb. unfold page_off in Hroom. unfold PAGE_MAX_SIZE in *. lia. }
    unfold content in Emin. rewrite Emin. cbn [andb Z.eqb PAGE_MAX_SIZE]. 
    rewrite (take_ge b) by (rewrite Hb; done). cbn. reflexivity.
  - cbn. split_and!; try done.
    + rewrite insert_insert_eq, fmap_insert. cbn.
      apply map_eq. intros k. destruct (decide (k = fd)) as [->|Hk].
      * by rewrite lookup_insert_eq, lookup_fmap, Hf.
      * by rewrite lookup_insert_ne.
    + rewrite length_overwrite, Hb. unfold content, page_off. lia.
Qed.

(** ** Opening and creating *)

(** Handles not yet handed out are free; a handle's descriptor is open on an inode and
    belongs to no other handle. *)
Record files_wf (s : Files) : Prop := {
  wf_next : forall h, (next_handle s <= h)%positive -> handles s !! h = None;
  wf_open : forall h fd, handles s !! h = Some fd -> exists ino, handle_on s h ino;
  wf_own : forall h h' fd, handles s !! h = Some fd -> handles s !! h' = Some fd -> h' = h
}.

(** What was open stays open on the same inode. *)
Definition handles_grow (s s' : Files) : Prop := files_wf s ->
  files_wf s' /\ (forall h fd, handles s !! h = Some fd -> handles s' !! h = Some fd) /\
  (forall h ino, handle_on s h ino -> handle_on s' h ino).

Definition same_disk (s s' : Files) : Prop :=
  dir (os s') = dir (os s) /\ inodes (os s') = inodes (os s) /\ room (os s') = room (os s).

Lemma handles_grow_refl s : handles_grow s s.
Proof. intros H. auto. Qed.

Lemma handles_grow_trans s1 s2 s3 : handles_grow s1 s2 -> handles_grow s2 s3 -> handles_grow s1 s3.
Proof.
  intros A B H1. destruct (A H1) as (H2 & A1 & A2). destruct (B H2) as (H3 & B1 & B2). split_and!; auto.
Qed.

Lemma same_disk_trans s1 s2 s3 : same_disk s1 s2 -> same_disk s2 s3 -> same_disk s1 s3.
Proof. unfold same_disk. intuition congruence. Qed.

Lemma handle_below s h fd : files_wf s -> handles s !! h = Some fd -> (h < next_handle s)%positive.
Proof.
  intros Ho Hh. destruct (decide (h < next_handle s)%positive) as [|Hn]; [done|].
  rewrite (wf_next _ Ho) in Hh by lia. done.
Qed.

Lemma handles_grow_fds s s' : handles s' = handles s -> next_handle s' = next_handle s ->
  fst <$> fds (os s') = fst <$> fds (os s) -> (forall ino, is_Some (inodes (os s) !! ino) -> is_Some (inodes (os s') !! ino)) ->
  handles_grow s s'.
Proof.
  intros H1 H2 H3 H4 Hwf.
  assert (forall h ino, handle_on s h ino -> handle_on s' h ino) as Hon.
  { intros h ino (fd & pos & Hh & Hfd & Hf & Hi).
    assert ((fst <$> fds (os s')) !! fd = Some ino) as Hf' by (by rewrite H3, lookup_fmap, Hf).
    rewrite lookup_fmap in Hf'. destruct (fds (os s') !! fd) as [[j p]|] eqn:E; simplify_eq/=.
    exists fd, p. rewrite H1. auto. }
  split_and!; [split|by rewrite H1|done].
  - intros h. rewrite H1, H2. apply Hwf.
  - intros h fd. rewrite H1. intros Hh. destruct (wf_open _ Hwf h fd Hh) as (ino & H). eauto.
  - intros h h' fd. rewrite H1. apply Hwf.
Qed.

Lemma same_files_grow s s' : same_files s s' -> handles_grow s s' /\ same_disk s s'.
Proof.
  intros (H1 & H2 & H3 & H4 & H5 & H6). split; [|done]. apply handles_grow_fds; try done. intros ino. by rewrite H4.
Qed.

(** A handle allocated for a descriptor just opened. *)
Lemma handles_grow_alloc s d i r fd ino : fds (os s) !! fd = None -> 3 <= fd ->
  (forall j, is_Some (inodes (os s) !! j) -> is_Some (i !! j)) -> is_Some (i !! ino) ->
  let s' := mkFiles (mkOS d i (<[fd := (ino, 0)]> (fds (os s))) r) (<[next_handle s := fd]> (handles s)) (Pos.succ (next_handle s)) in
  handles_grow s s' /\ handle_on s' (next_handle s) ino.
Proof.
  intros Hfree Hfd Hi Hino s'.
  assert (handle_on s' (next_handle s) ino) as Hnew by (exists fd, 0; cbn; by rewrite !lookup_insert_eq).
  split; [|done]. intros Hwf.
  assert (forall h fd', handles s !! h = Some fd' -> handles s' !! h = Some fd') as Hkeep.
  { intros h fd' Hh. pose proof (handle_below _ _ _ Hwf Hh). cbn. rewrite lookup_insert_ne by lia. done. }
  assert (forall h j, handle_on s h j -> handle_on s' h j) as Hon.
  { intros h j (fd' & pos & Hh & Hfd' & Hf & Hj). exists fd', pos. split_and!; [by apply Hkeep|done| |by apply Hi].
    cbn. rewrite lookup_insert_ne by congruence. done. }
  assert (forall h, handles s !! h <> Some fd) as Hnot.
  { intros h Hh. destruct (wf_open _ Hwf h fd Hh) as (j & fd' & pos & Hh' & _ & Hf & _). congruence. }
  split_and!; [split|done|done].
  - intros h Hh. cbn in Hh |- *. rewrite lookup_insert_ne by lia. apply Hwf. lia.
  - intros h fd'. cbn. intros [[<- <-]|[Hne Hh]]%lookup_insert_Some; [eauto|].
    destruct (wf_open _ Hwf h fd' Hh) as (j & Hj). eauto.
  - intros h h' fd'. cbn. intros [[<- <-]|[Hne Hh]]%lookup_insert_Some [[<- ?]|[Hne' Hh']]%lookup_insert_Some; try done.
    + by apply Hnot in Hh'.
    + subst fd'. by apply Hnot in Hh.
    + by eapply (wf_own _ Hwf).
Qed.

Section Open.

Context (DataDir : bytes).

Lemma os_access_present path o ino : dir o !! path = Some ino -> os_access path o = 0.
Proof. intros H. unfold os_access. by rewrite decide_True by (by rewrite H). Qed.

Lemma os_access_absent path o : dir o !! path = None -> os_access path o = -1.
Proof. intros H. unfold os_access. rewrite decide_False; [done|]. rewrite H. by intros [? ?]. Qed.

Lemma OpenFile_missing name s : dir (os s) !! file_path DataDir name = None -> OpenFile DataDir name s = Some (None, s).
Proof.
  intros H. unfold OpenFile, mbind, ST_bind, st_gets. cbn [compose]. by rewrite (os_access_absent _ _ H).
Qed.

Lemma OpenFile_present name s ino : dir (os s) !! file_path DataDir name = Some ino -> is_Some (inodes (os s) !! ino) ->
  exists s', OpenFile DataDir name s = Some (Some (next_handle s), s') /\ same_disk s s' /\ handles_grow s s' /\
    handle_on s' (next_handle s) ino.
Proof.
  intros H Hi. destruct (lowest_fd_free (fds (os s))) as [Hfd Hfree]. eexists. unfold OpenFile, mbind, ST_bind, st_gets.
  cbn [compose]. rewrite (os_access_present _ _ _ H). cbn [negb Z.eqb]. unfold on_os, os_open. rewrite H.
  rewrite (proj2 (Z.eqb_neq _ _)) by lia.
  destruct (handles_grow_alloc s (dir (os s)) (inodes (os s)) (room (os s)) _ ino Hfree Hfd ltac:(auto) Hi) as [Hg Hon].
  split_and!; [unfold alloc_handle; cbn; reflexivity|done|exact Hg|exact Hon].
Qed.

Lemma CreateFile_exists name s ino : dir (os s) !! file_path DataDir name = Some ino ->
  CreateFile DataDir name s = Some (None, s).
Proof.
  intros H. unfold CreateFile, mbind, ST_bind, st_gets. cbn [compose]. by rewrite (os_access_present _ _ _ H).
Qed.

Lemma CreateFile_new name s : dir (os s) !! file_path DataDir name = None ->
  exists s' ino, CreateFile DataDir name s = Some (Some (next_handle s), s') /\ handles_grow s s' /\
    inodes (os s) !! ino = None /\ handle_on s' (next_handle s) ino /\
    dir (os s') = <[file_path DataDir name := ino]> (dir (os s)) /\
    inodes (os s') = <[ino := []]> (inodes (os s)) /\ room (os s') = room (os s).
Proof.
  intros H. destruct (lowest_fd_free (fds (os s))) as [Hfd Hfree].
  pose proof (is_fresh (dom (inodes (os s)))) as Hino. apply not_elem_of_dom in Hino.
  eexists _, _. unfold CreateFile, mbind, ST_bind, st_gets.
  cbn [compose]. rewrite (os_access_absent _ _ H). cbn [Z.eqb]. unfold on_os, os_open. rewrite H.
  rewrite (proj2 (Z.eqb_neq _ _)) by lia. set (ino := fresh (dom (inodes (os s)))) in *.
  destruct (handles_grow_alloc s (<[file_path DataDir name := ino]> (dir (os s))) (<[ino := []]> (inodes (os s))) (room (os s)) _ ino
    Hfree Hfd) as [Hg Hon].
  { intros j Hj. rewrite lookup_insert_is_Some'. auto. }
  { by rewrite lookup_insert_eq. }
  split_and!; [unfold alloc_handle; cbn; reflexivity|exact Hg|exact Hino|exact Hon|done..].
Qed.

End Open.

(** A page written through a handle. *)
Lemma FileWritePage_grow s h ino n b : handle_on s h ino -> 1 <= n -> length b = PAGE ->
  Z.of_nat (page_off n + PAGE) <= Z.of_nat (length (content s ino)) + room (os s) ->
  exists s', FileWritePage (Some h) ((n - 1) * PAGE_MAX_SIZE) PAGE_MAX_SIZE b s = Some (PAGE_MAX_SIZE, s') /\
    handles_grow s s' /\ dir (os s') = dir (os s) /\
    inodes (os s') = <[ino := write_page (content s ino) n b]> (inodes (os s)) /\
    room (os s') = room (os s) - Z.max 0 (Z.of_nat (page_off n + PAGE) - Z.of_nat (length (content s ino))).
Proof.
  intros Hon Hn Hb Hr. destruct (FileWritePage_run s h ino n b Hon Hn Hb Hr) as (s' & Hrun & A1 & A2 & A3 & A4 & A5 & A6).
  exists s'. split_and!; try done. apply handles_grow_fds; try done.
  intros j Hj. rewrite A4, lookup_insert_is_Some'. auto.
Qed.

(** Closing a handle. *)
Lemma FileClose_run s h ino : files_wf s -> handle_on s h ino ->
  exists s', FileClose (Some h) s = Some (0, s') /\ files_wf s' /\ same_disk s s' /\
    handles s' = delete h (handles s) /\ next_handle s' = next_handle s /\
    (forall h' j, h' <> h -> handle_on s h' j -> handle_on s' h' j).
Proof.
  intros Hwf (fd & pos & Hh & Hfd & Hf & Hi).
  exists (mkFiles (os_close fd (os s)) (delete h (handles s)) (next_handle s)).
  assert (forall h' j, h' <> h -> handle_on s h' j ->
    handle_on (mkFiles (os_close fd (os s)) (delete h (handles s)) (next_handle s)) h' j) as Hother.
  { intros h' j Hne (fd' & pos' & Hh' & Hfd' & Hf' & Hj). exists fd', pos'. cbn.
    rewrite lookup_delete_ne by done. split_and!; [done|done| |done].
    rewrite lookup_delete_ne; [done|]. intros ->. apply Hne. by eapply (wf_own _ Hwf). }
  split_and!; try done.
  - unfold FileClose, handle_fd, mbind, ST_bind. rewrite Hh. cbn [mbind option_bind].
    rewrite (proj2 (Z.ltb_lt 0 fd)) by lia. unfold on_os, free_handle. cbn. by rewrite Hh.
  - split.
    + intros h' Hh'. cbn in *. rewrite lookup_delete_None. right. by apply Hwf.
    + intros h' fd'. cbn. intros [Hne Hh']%lookup_delete_Some.
      destruct (wf_open _ Hwf h' fd' Hh') as (j & Hj). exists j. by apply Hother.
    + intros h' h2 fd'. cbn. intros [_ H1]%lookup_delete_Some [_ H2]%lookup_delete_Some. by eapply (wf_own _ Hwf).
Qed.
