(* ===== verification/Smgr.v ===== *)
(** * Storage manager

    Models [src/src/sqlcore/storage/smgr/smgr.c]: the virtual files of the open
    tables. A [VFVec] lies on one circular list with those of all tables, whose
    head the manager keeps; a table knows its first and its last. Memory that was
    freed is gone from the state, so that a later access through a kept pointer is a
    fault; addresses are not handed out twice. *)

From S2P Require Import Prelude Bytes DList Locks DataTypes Page PageStore TFile.

(** ** State *)

Definition FILE_MAX_OPENED_PER_PROCESS : Z := 1000.
Definition MAX_FORK : nat := 2.
Definition SMGR_VERSION : Z := 0x0678.
Definition config_fsync : Z := 0.

Record VFVec := mkVF { forkNum : ForkType; pfh : option positive }.
Record sgmrInfo := mkSI { version : Z; storageType : Z; vfhead : option loc; vfend : option loc }.
Record StorageMangeContext := mkSC {
  sc_vfhead : option loc;
  fileMaxNum : Z;
  fileOpenedNum : Z;
  vFileNum : Z
}.

Inductive lock := LB_SMGR_INFO | LB_VFS_INFO (v : loc) | LB_DICTIONARY_INFO.

#[export] Instance lock_eq_dec : EqDecision lock.
Proof. solve_decision. Defined.

(** [links] has the list nodes at the front of the allocated [VFVec]s, [vfs] the
    rest of them; [held] are the locks this worker holds, the latest first. *)
Record SmgrState := mkSS {
  files : Files;
  links : dstore;
  vfs : gmap loc VFVec;
  smgrs : gmap loc sgmrInfo;
  smgrContext : option StorageMangeContext;
  held : list (lock * RWLockMode);
  brk : loc
}.

Notation FM := (ST SmgrState).

Definition set_files f (s : SmgrState) : SmgrState :=
  mkSS f (links s) (vfs s) (smgrs s) (smgrContext s) (held s) (brk s).
Definition set_links l (s : SmgrState) : SmgrState :=
  mkSS (files s) l (vfs s) (smgrs s) (smgrContext s) (held s) (brk s).
Definition set_vfs v (s : SmgrState) : SmgrState :=
  mkSS (files s) (links s) v (smgrs s) (smgrContext s) (held s) (brk s).
Definition set_smgrs m (s : SmgrState) : SmgrState :=
  mkSS (files s) (links s) (vfs s) m (smgrContext s) (held s) (brk s).
Definition set_smgrContext c (s : SmgrState) : SmgrState :=
  mkSS (files s) (links s) (vfs s) (smgrs s) c (held s) (brk s).
Definition set_held h (s : SmgrState) : SmgrState :=
  mkSS (files s) (links s) (vfs s) (smgrs s) (smgrContext s) h (brk s).
Definition set_brk b (s : SmgrState) : SmgrState :=
  mkSS (files s) (links s) (vfs s) (smgrs s) (smgrContext s) (held s) b.

Definition on_files {A} (m : ST Files A) : FM A := fun s =>
  '(a, f) ← m (files s); Some (a, set_files f s).
Definition on_links {A} (m : ST dstore A) : FM A := fun s =>
  '(a, l) ← m (links s); Some (a, set_links l s).

Definition get_vf (v : loc) : FM VFVec := fun s => x ← vfs s !! v; Some (x, s).
Definition put_vf (v : loc) (x : VFVec) : FM unit := fun s =>
  _ ← vfs s !! v; Some (tt, set_vfs (<[v := x]> (vfs s)) s).
Definition get_smgr (i : loc) : FM sgmrInfo := fun s => x ← smgrs s !! i; Some (x, s).
Definition put_smgr (i : loc) (x : sgmrInfo) : FM unit := fun s =>
  _ ← smgrs s !! i; Some (tt, set_smgrs (<[i := x]> (smgrs s)) s).
Definition get_ctx : FM StorageMangeContext := fun s => c ← smgrContext s; Some (c, s).
Definition put_ctx (c : StorageMangeContext) : FM unit := st_modify (set_smgrContext (Some c)).

Definition set_pfh (h : option positive) (x : VFVec) : VFVec := mkVF (forkNum x) h.
Definition set_vfhead (v : option loc) (x : sgmrInfo) : sgmrInfo := mkSI (version x) (storageType x) v (vfend x).
Definition set_vfend (v : option loc) (x : sgmrInfo) : sgmrInfo := mkSI (version x) (storageType x) (vfhead x) v.
Definition set_sc_vfhead (v : option loc) (c : StorageMangeContext) : StorageMangeContext :=
  mkSC v (fileMaxNum c) (fileOpenedNum c) (vFileNum c).
Definition add_opened (n : Z) (c : StorageMangeContext) : StorageMangeContext :=
  mkSC (sc_vfhead c) (fileMaxNum c) (fileOpenedNum c + n) (vFileNum c).
Definition add_vfiles (n : Z) (c : StorageMangeContext) : StorageMangeContext :=
  mkSC (sc_vfhead c) (fileMaxNum c) (fileOpenedNum c) (vFileNum c + n).

Definition alloc_vf (x : VFVec) : FM loc := fun s =>
  let v := brk s in
  Some (v, set_brk (Pos.succ v) (set_vfs (<[v := x]> (vfs s)) (set_links (<[v := mkDL v v]> (links s)) s))).
Definition free_vf (v : loc) : FM unit := fun s =>
  _ ← vfs s !! v; Some (tt, set_vfs (delete v (vfs s)) (set_links (delete v (links s)) s)).
Definition alloc_smgr (x : sgmrInfo) : FM loc := fun s =>
  let i := brk s in Some (i, set_brk (Pos.succ i) (set_smgrs (<[i := x]> (smgrs s)) s)).
Definition free_smgr (i : loc) : FM unit := fun s =>
  _ ← smgrs s !! i; Some (tt, set_smgrs (delete i (smgrs s)) s).

(** ** Locks

    A worker that asks for a lock it holds waits for itself, unless both are shared. *)

Definition AcquireRWLockLocal (l : lock) (m : RWLockMode) : FM unit := fun s =>
  if existsb (fun e => bool_decide (fst e = l) &&
                negb (bool_decide (m = RWLock_READ) && bool_decide (snd e = RWLock_READ))) (held s)
  then None else Some (tt, set_held ((l, m) :: held s) s).

Fixpoint remove_lock (l : lock) (h : list (lock * RWLockMode)) : list (lock * RWLockMode) :=
  match h with
  | [] => []
  | e :: h => if decide (fst e = l) then h else e :: remove_lock l h
  end.

Definition ReleaseRWLockLocal (l : lock) : FM unit := st_modify (fun s => set_held (remove_lock l (held s)) s).

Inductive LockState := LOCK_NULL | LOCK_EXCLUSIVE | LOCK_SHARED | RELEASE_LOCK.

Definition LockVF (vfInfo : loc) (state : LockState) : FM unit :=
  get_vf vfInfo;;
  match state with
  | LOCK_EXCLUSIVE => AcquireRWLockLocal (LB_VFS_INFO vfInfo) RWLock_WRITE
  | RELEASE_LOCK => ReleaseRWLockLocal (LB_VFS_INFO vfInfo)
  | _ => mret tt
  end.

Definition LockSmgr (state : LockState) : FM unit :=
  get_ctx;;
  match state with
  | LOCK_SHARED => AcquireRWLockLocal LB_SMGR_INFO RWLock_READ
  | RELEASE_LOCK => ReleaseRWLockLocal LB_SMGR_INFO
  | LOCK_EXCLUSIVE => AcquireRWLockLocal LB_SMGR_INFO RWLock_WRITE
  | LOCK_NULL => mret tt
  end.

(** ** Operations *)

Definition InitSmgr : FM Z := fun s =>
  match smgrContext s with
  | Some _ => Some (0, s)
  | None => (put_ctx (mkSC None FILE_MAX_OPENED_PER_PROCESS 0 0);; mret 0) s
  end.

Definition smgr_close (vfInfo : option loc) : FM Z :=
  match vfInfo with
  | None => mret (-1)
  | Some v =>
      vf ← get_vf v;
      match pfh vf with
      | None => mret 0
      | Some h =>
          ret ← (if negb (config_fsync =? 0) then on_files (FileSync (Some h)) else mret 0);
          LockVF v LOCK_EXCLUSIVE;;
          on_files (FileClose (Some h));;
          put_vf v (set_pfh None vf);;
          LockVF v RELEASE_LOCK;;
          c ← get_ctx; put_ctx (add_opened (-1) c);;
          mret ret
      end
  end.

Fixpoint CloseFile_loop (fuel : nat) (tpos head : option loc) : FM (option loc) :=
  match fuel, tpos with
  | O, _ => st_fault
  | _, None => mret None
  | S fuel, Some t =>
      vf ← get_vf t;
      match pfh vf with
      | Some _ => mret (Some t)
      | None =>
          n ← on_links (get_next t);
          if decide (Some n = head) then mret None else CloseFile_loop fuel (Some n) head
      end
  end.

(** One turn for every virtual file there is, and one to come back to the head. *)
Definition CloseFileSmgrContext : FM Z := fun s =>
  (c ← get_ctx;
   vpos ← CloseFile_loop (S (base.size (vfs s))) (sc_vfhead c) (sc_vfhead c);
   match vpos with Some v => smgr_close (Some v);; mret 0 | None => mret 0 end) s.

Definition AddFileInfoToSmgrContext (smgrInfo vpos : loc) : FM Z := fun s =>
  match smgrContext s with
  | None => Some (-1, s)
  | Some c =>
      (i ← get_smgr smgrInfo;
       match sc_vfhead c, vfhead i with
       | None, _ =>
           put_smgr smgrInfo (set_vfhead (Some vpos) i);; put_ctx (set_sc_vfhead (Some vpos) c)
       | Some h, None =>
           put_smgr smgrInfo (set_vfhead (Some vpos) i);; on_links (AddDListTail (Some h) vpos);; mret tt
       | Some _, Some h => on_links (AddDListNext (Some h) vpos);; mret tt
       end;;
       i ← get_smgr smgrInfo; put_smgr smgrInfo (set_vfend (Some vpos) i);;
       c ← get_ctx; put_ctx (add_vfiles 1 c);;
       c ← get_ctx;
       (if fileMaxNum c - 1 <? fileOpenedNum c then CloseFileSmgrContext;; mret tt else mret tt);;
       mret 0) s
  end.

Definition AddFileToSmgrContext (vf : loc) (fileHandle : option positive) : FM unit :=
  LockVF vf LOCK_EXCLUSIVE;;
  x ← get_vf vf; put_vf vf (set_pfh fileHandle x);;
  c ← get_ctx; put_ctx (add_opened 1 c);;
  LockVF vf RELEASE_LOCK.

Definition CreateVFVec (forkNum : ForkType) (fhd : option positive) : FM loc := alloc_vf (mkVF forkNum fhd).

Fixpoint FindVF_loop (searchCnt : nat) (tpos head : option loc) (forknum : ForkType) : FM (option loc) :=
  match searchCnt, tpos with
  | O, _ | _, None => mret None
  | S searchCnt, Some t =>
      vf ← get_vf t;
      if decide (forkNum vf = forknum) then mret (Some t)
      else
        n ← on_links (get_next t);
        if decide (Some n = head) then mret None else FindVF_loop searchCnt (Some n) head forknum
  end.

Definition FindVF (head : option loc) (forknum : ForkType) : FM (option loc) :=
  FindVF_loop MAX_FORK head head forknum.

Definition AddVFec (smgrInfo : loc) (forkNum : ForkType) : FM loc :=
  LockSmgr LOCK_EXCLUSIVE;;
  i ← get_smgr smgrInfo;
  vpos ← FindVF (vfhead i) forkNum;
  match vpos with
  | Some v => LockSmgr RELEASE_LOCK;; mret v
  | None =>
      v ← CreateVFVec forkNum None;
      on_links (INIT_DLIST_NODE v);;
      AddFileInfoToSmgrContext smgrInfo v;;
      LockSmgr RELEASE_LOCK;; mret v
  end.

Definition GetVFec (smgrInfo : loc) (forkNum : ForkType) : FM loc :=
  LockSmgr LOCK_SHARED;;
  i ← get_smgr smgrInfo;
  LockSmgr RELEASE_LOCK;;
  match vfhead i with
  | None => AddVFec smgrInfo forkNum
  | Some h =>
      vpos ← FindVF (Some h) forkNum;
      match vpos with Some v => mret v | None => AddVFec smgrInfo forkNum end
  end.

Definition SearchVF (head : option loc) (forknum : ForkType) : FM (option loc) :=
  LockSmgr LOCK_SHARED;;
  vpos ← FindVF head forknum;
  LockSmgr RELEASE_LOCK;; mret vpos.

(** [head] is the caller's copy: what [DelDListNode] may store there is lost. *)
Definition DeleteVF (head node : option loc) : FM unit :=
  match node with
  | None => st_fault
  | Some n =>
      c ← get_ctx;
      (if decide (head <> node) then on_links (DelDListNode head n);; mret tt
       else if decide (head <> sc_vfhead c) then on_links (DelDListNode (sc_vfhead c) n);; mret tt
       else put_ctx (set_sc_vfhead None c));;
      c ← get_ctx; put_ctx (add_vfiles (-1) c)
  end.

Definition GROUP_FILE_PRE : bytes := [103; 114; 112; 95].

Section Smgr.

Context (DataDir : bytes).

Definition fork_name (fileName : bytes) (forkNum : ForkType) : bytes :=
  match forkNum with
  | MAIN_FORK => snprintf_path fileName
  | GROUP_FORK => snprintf_path (GROUP_FILE_PRE ++ fileName)
  end.

(** [fd < 0] compares a pointer: it never holds. *)
Definition smgr_create (smgrInfo : option loc) (fileName : bytes) (forkNum : ForkType) : FM (option loc) :=
  match smgrInfo with
  | None => mret None
  | Some i =>
      vpos ← GetVFec i forkNum;
      vf ← get_vf vpos;
      match pfh vf with
      | Some _ => mret None
      | None =>
          fd ← on_files (CreateFile DataDir (fork_name fileName forkNum));
          AddFileToSmgrContext vpos fd;; mret (Some vpos)
      end
  end.

Definition smgr_open (smgrInfo : option loc) (fileName : bytes) (forkNum : ForkType) : FM (option loc) :=
  match smgrInfo with
  | None => mret None
  | Some i =>
      vpos ← GetVFec i forkNum;
      vf ← get_vf vpos;
      match pfh vf with
      | Some _ => mret (Some vpos)
      | None =>
          fd ← on_files (OpenFile DataDir (fork_name fileName forkNum));
          match fd with
          | None => free_vf vpos;; mret None
          | Some h => AddFileToSmgrContext vpos (Some h);; mret (Some vpos)
          end
      end
  end.

(** Returns the result and the bytes that went to the front of [page]. *)
Definition smgr_read (vfInfo : loc) (pageno : Z) : FM (Z * bytes) :=
  LockVF vfInfo LOCK_EXCLUSIVE;;
  vf ← get_vf vfInfo;
  '(readlen, bs) ← on_files (FileReadPage (pfh vf) ((pageno - 1) * PAGE_MAX_SIZE) PAGE_MAX_SIZE);
  LockVF vfInfo RELEASE_LOCK;;
  mret (if negb (PAGE_MAX_SIZE =? readlen) then -1 else readlen, bs).

Definition smgr_write (vfInfo : loc) (pageno : Z) (page : bytes) : FM Z :=
  LockVF vfInfo LOCK_EXCLUSIVE;;
  vf ← get_vf vfInfo;
  ret ← on_files (FileWritePage (pfh vf) ((pageno - 1) * PAGE_MAX_SIZE) PAGE_MAX_SIZE page);
  LockVF vfInfo RELEASE_LOCK;;
  if ret <? PAGE_MAX_SIZE then mret (-1)
  else
    (if negb (config_fsync =? 0)
     then vf ← get_vf vfInfo; r ← on_files (FileSync (pfh vf)); mret (Z.lor ret r)
     else mret ret).

End Smgr.

(** Frees the node [tpos] unless it is [head], then goes on with the one before. *)
Fixpoint smgrRelease_loop (fuel : nat) (head tpos tpos_prev : option loc) : FM (option loc) :=
  match fuel, tpos with
  | O, _ => st_fault
  | _, None => mret None
  | S fuel, Some t =>
      if decide (tpos = head) then mret tpos
      else
        DeleteVF head tpos;;
        smgr_close tpos;;
        free_vf t;;
        match tpos_prev with
        | None => st_fault
        | Some p => pp ← on_links (get_prev p); smgrRelease_loop fuel head tpos_prev (Some pp)
        end
  end.

Definition smgrRelease (i : loc) : FM Z := fun s =>
  (LockSmgr LOCK_EXCLUSIVE;;
   x ← get_smgr i;
   match vfend x with
   | None => st_fault
   | Some e =>
       p ← on_links (get_prev e);
       tpos ← smgrRelease_loop (S (base.size (vfs s))) (vfhead x) (Some e) (Some p);
       match tpos with
       | None => mret tt
       | Some t => DeleteVF (vfhead x) tpos;; smgr_close tpos;; free_vf t
       end;;
       LockSmgr RELEASE_LOCK;;
       free_smgr i;; mret 0
   end) s.

(** One step of a computation, its equation proved by a tactic. *)
Tactic Notation "next_by" tactic3(tac) := erewrite st_bind_some; [|tac]; cbv beta iota.

(** ** The invariant

    [Seg]: the virtual files of a table, the main file in front. The circle holds the
    segments in the order the tables were opened; between operations this worker
    holds none of the locks of this module. *)

Record Seg := mkSeg { sg_smgr : loc; sg_main : loc; sg_group : option loc }.

Definition nodes (g : Seg) : list loc := sg_main g :: option_list (sg_group g).
Definition all_nodes (segs : list Seg) : list loc := flat_map nodes segs.

Record seg_ok (s : SmgrState) (g : Seg) : Prop := {
  so_smgr : exists x, smgrs s !! sg_smgr g = Some x /\ vfhead x = Some (sg_main g) /\
    vfend x = Some (default (sg_main g) (sg_group g));
  so_main : exists h, vfs s !! sg_main g = Some (mkVF MAIN_FORK h);
  so_group : forall v, sg_group g = Some v -> exists h, vfs s !! v = Some (mkVF GROUP_FORK h)
}.

Definition no_smgr_lock (h : list (lock * RWLockMode)) : Prop :=
  Forall (fun e => fst e = LB_DICTIONARY_INFO) h.

Definition fresh_from (b : loc) (s : SmgrState) : Prop :=
  forall a, (b <= a)%positive -> links s !! a = None /\ vfs s !! a = None /\ smgrs s !! a = None.

Record smgr_ok (s : SmgrState) (segs : list Seg) : Prop := {
  ok_ctx : exists c, smgrContext s = Some c /\ sc_vfhead c = head (all_nodes segs);
  ok_circ : circ (links s) (all_nodes segs);
  ok_segs : Forall (seg_ok s) segs;
  ok_ids : NoDup (sg_smgr <$> segs);
  ok_held : no_smgr_lock (held s);
  ok_brk : fresh_from (brk s) s
}.

(** The next new virtual file makes [CloseFileSmgrContext] close nothing. *)
Definition below_limit (s : SmgrState) : Prop :=
  exists c, smgrContext s = Some c /\ fileOpenedNum c <= fileMaxNum c - 1.

Lemma all_nodes_app l1 l2 : all_nodes (l1 ++ l2) = all_nodes l1 ++ all_nodes l2.
Proof. apply flat_map_app. Qed.

Lemma elem_of_all_nodes segs v : v ∈ all_nodes segs <-> exists g, g ∈ segs /\ v ∈ nodes g.
Proof.
  unfold all_nodes. rewrite list_elem_of_In, in_flat_map. setoid_rewrite list_elem_of_In. done.
Qed.

Lemma hd_all_nodes segs d : hd d (all_nodes segs) = match segs with [] => d | g :: _ => sg_main g end.
Proof. by destruct segs. Qed.

(** ** Locks and lenses *)

Lemma acquire_run l m s : no_smgr_lock (held s) -> l <> LB_DICTIONARY_INFO ->
  AcquireRWLockLocal l m s = Some (tt, set_held ((l, m) :: held s) s).
Proof.
  intros H Hl. unfold AcquireRWLockLocal.
  assert (existsb (fun e => bool_decide (fst e = l) &&
    negb (bool_decide (m = RWLock_READ) && bool_decide (snd e = RWLock_READ))) (held s) = false) as ->; [|done].
  induction H as [|e h He Hh IH]; [done|]. simpl. rewrite He, bool_decide_eq_false_2 by congruence. done.
Qed.

Lemma LockSmgr_acquire st s : no_smgr_lock (held s) -> is_Some (smgrContext s) ->
  st = LOCK_SHARED \/ st = LOCK_EXCLUSIVE ->
  exists m, LockSmgr st s = Some (tt, set_held ((LB_SMGR_INFO, m) :: held s) s).
Proof.
  intros H [c Hc] Hst. unfold LockSmgr, get_ctx, mbind, ST_bind. rewrite Hc. cbn [mbind option_bind].
  destruct Hst as [-> | ->]; eexists; by apply acquire_run.
Qed.

Lemma LockSmgr_release s m h : is_Some (smgrContext s) -> held s = (LB_SMGR_INFO, m) :: h ->
  LockSmgr RELEASE_LOCK s = Some (tt, set_held h s).
Proof.
  intros [c Hc] Hh. unfold LockSmgr, get_ctx, mbind, ST_bind. rewrite Hc. cbn [mbind option_bind].
  unfold ReleaseRWLockLocal, st_modify. rewrite Hh. done.
Qed.

(** A worker takes a virtual file's lock with or without the manager's. *)
Definition no_vf_lock (h : list (lock * RWLockMode)) : Prop :=
  Forall (fun e => forall v, fst e <> LB_VFS_INFO v) h.

Lemma no_smgr_vf_lock h : no_smgr_lock h -> no_vf_lock h.
Proof. intros H. eapply Forall_impl; [exact H|]. simpl. intros e He v. by rewrite He. Qed.

Lemma LockVF_acquire v s : no_vf_lock (held s) -> is_Some (vfs s !! v) ->
  LockVF v LOCK_EXCLUSIVE s = Some (tt, set_held ((LB_VFS_INFO v, RWLock_WRITE) :: held s) s).
Proof.
  intros H [x Hx]. unfold LockVF, get_vf, mbind, ST_bind. rewrite Hx. cbn [mbind option_bind].
  unfold AcquireRWLockLocal.
  assert (existsb (fun e => bool_decide (fst e = LB_VFS_INFO v) &&
    negb (bool_decide (RWLock_WRITE = RWLock_READ) && bool_decide (snd e = RWLock_READ))) (held s) = false) as ->; [|done].
  induction H as [|e h He Hh IH]; [done|]. simpl. by rewrite bool_decide_eq_false_2.
Qed.

Lemma LockVF_release v s m h : is_Some (vfs s !! v) -> held s = (LB_VFS_INFO v, m) :: h ->
  LockVF v RELEASE_LOCK s = Some (tt, set_held h s).
Proof.
  intros [x Hx] Hh. unfold LockVF, get_vf, mbind, ST_bind. rewrite Hx. cbn [mbind option_bind].
  unfold ReleaseRWLockLocal, st_modify. rewrite Hh. simpl. by rewrite decide_True.
Qed.

Lemma links_op_run {A} (m : ST dstore A) s a l :
  m (links s) = Some (a, l) -> on_links m s = Some (a, set_links l s).
Proof. intros H. unfold on_links. by rewrite H. Qed.

Lemma on_files_run {A} (m : ST Files A) s a f :
  m (files s) = Some (a, f) -> on_files m s = Some (a, set_files f s).
Proof. intros H. unfold on_files. by rewrite H. Qed.

Lemma get_next_run v s n : links s !! v = Some n -> on_links (get_next v) s = Some (next n, s).
Proof. intros H. unfold on_links, get_next. rewrite H. by destruct s. Qed.

Lemma get_prev_run v s n : links s !! v = Some n -> on_links (get_prev v) s = Some (prev n, s).
Proof. intros H. unfold on_links, get_prev. rewrite H. by destruct s. Qed.

Lemma get_vf_run v s x : vfs s !! v = Some x -> get_vf v s = Some (x, s).
Proof. intros H. unfold get_vf. by rewrite H. Qed.

Lemma get_smgr_run i s x : smgrs s !! i = Some x -> get_smgr i s = Some (x, s).
Proof. intros H. unfold get_smgr. by rewrite H. Qed.

Lemma put_smgr_run i s x y : smgrs s !! i = Some y -> put_smgr i x s = Some (tt, set_smgrs (<[i := x]> (smgrs s)) s).
Proof. intros H. unfold put_smgr. by rewrite H. Qed.

Lemma put_vf_run v s x y : vfs s !! v = Some y -> put_vf v x s = Some (tt, set_vfs (<[v := x]> (vfs s)) s).
Proof. intros H. unfold put_vf. by rewrite H. Qed.

Lemma get_ctx_run s c : smgrContext s = Some c -> get_ctx s = Some (c, s).
Proof. intros H. unfold get_ctx. by rewrite H. Qed.

(** ** The links of a segment *)

Lemma circ_around s l1 g l2 : circ s (all_nodes (l1 ++ g :: l2)) -> circ s (nodes g ++ all_nodes (l2 ++ l1)).
Proof.
  rewrite !all_nodes_app. intros H. apply circ_rotate in H. cbn [all_nodes flat_map] in H. by rewrite <- app_assoc in H.
Qed.

Lemma circ_head s h t : circ s (h :: t) -> s !! h = Some (mkDL (lastd h t) (hd h t)).
Proof. by intros [_ [H _]]. Qed.

Lemma node_forks s segs l1 g l2 v : segs = l1 ++ g :: l2 -> Forall (seg_ok s) segs ->
  v = hd (sg_main g) (all_nodes (l2 ++ l1)) -> exists h, vfs s !! v = Some (mkVF MAIN_FORK h).
Proof.
  intros -> H ->. rewrite hd_all_nodes. apply Forall_app in H as [H1 H2]. inversion H2 as [|? ? Hg H2']; subst.
  assert (Forall (seg_ok s) (l2 ++ l1)) as H3 by (by apply Forall_app).
  destruct (l2 ++ l1) as [|g' l]; [by apply so_main|]. inversion H3; subst. by apply so_main.
Qed.

(** A segment keeps its shape when its table's entry and its files' forks stay. *)
Lemma seg_ok_same s s' g : seg_ok s g -> smgrs s' !! sg_smgr g = smgrs s !! sg_smgr g ->
  (forall v f h, v ∈ nodes g -> vfs s !! v = Some (mkVF f h) -> exists h', vfs s' !! v = Some (mkVF f h')) -> seg_ok s' g.
Proof.
  intros [H1 [h2 H2] H3] Hs Hv. split.
  - by rewrite Hs.
  - apply (Hv (sg_main g) _ h2); [unfold nodes; set_solver|done].
  - intros v E. destruct (H3 v E) as [h Hh]. apply (Hv v _ h); [|done]. unfold nodes. rewrite E. set_solver.
Qed.

(** A table's search finds its own file of the fork, or none. *)
Lemma FindVF_segs s segs g f : circ (links s) (all_nodes segs) -> Forall (seg_ok s) segs -> g ∈ segs ->
  FindVF (Some (sg_main g)) f s = Some (match f with MAIN_FORK => Some (sg_main g) | GROUP_FORK => sg_group g end, s).
Proof.
  intros Hc Hs Hg. apply list_elem_of_split in Hg as (l1 & l2 & E). rewrite E in Hc.
  apply circ_around in Hc.
  assert (seg_ok s g) as Hsg by (rewrite E in Hs; apply Forall_app in Hs as [_ Hs]; by inversion Hs).
  destruct (so_main _ _ Hsg) as [h Hm]. unfold FindVF, MAX_FORK. cbn [FindVF_loop].
  run (get_vf_run _ _ _ Hm). cbn [forkNum]. destruct f.
  - by rewrite decide_True.
  - rewrite decide_False by done. pose proof (circ_head _ _ _ Hc) as Hl. run (get_next_run _ _ _ Hl). cbn [next].
    destruct (sg_group g) as [v|] eqn:Hgr; cbn [option_list app hd].
    + destruct (so_group _ _ Hsg v Hgr) as [h' Hv].
      assert (v <> sg_main g). { destruct Hc as [Hnd _]. unfold nodes in Hnd. rewrite Hgr in Hnd. apply NoDup_cons in Hnd as [Hnd _]. set_solver. }
      simpl. rewrite decide_False by congruence. run (get_vf_run _ _ _ Hv). cbn [forkNum]. by rewrite decide_True.
    + destruct (decide _) as [_|Hne]; [done|].
      destruct (node_forks s segs l1 g l2 _ E Hs eq_refl) as [h' Hv].
      run (get_vf_run _ _ _ Hv). cbn [forkNum]. rewrite decide_False by done.
      assert (is_Some (links s !! hd (sg_main g) (all_nodes (l2 ++ l1)))) as [n Hn].
      { apply (circ_mapped _ (nodes g ++ all_nodes (l2 ++ l1))); [done|].
        destruct (all_nodes (l2 ++ l1)); simpl; unfold nodes; set_solver. }
      run (get_next_run _ _ _ Hn). by destruct (decide _).
Qed.

Lemma FindVF_run s segs g f h : smgr_ok s segs -> g ∈ segs ->
  FindVF (Some (sg_main g)) f (set_held h s) =
    Some (match f with MAIN_FORK => Some (sg_main g) | GROUP_FORK => sg_group g end, set_held h s).
Proof.
  intros Hok Hg. apply (FindVF_segs _ segs); [apply Hok| |done].
  eapply Forall_impl; [apply Hok|]. intros g' Hg'. apply (seg_ok_same s); [done|done|eauto].
Qed.

(** ** Adding a virtual file *)

(** What [AddFileInfoToSmgrContext] does last. *)
Definition close_at_limit (c : StorageMangeContext) : FM Z :=
  (if fileMaxNum c - 1 <? fileOpenedNum c then CloseFileSmgrContext;; mret tt else mret tt);; mret 0.

Lemma close_below_limit c s : fileOpenedNum c <= fileMaxNum c - 1 -> close_at_limit c s = Some (0, s).
Proof. intros H. unfold close_at_limit. by rewrite (proj2 (Z.ltb_ge _ _)) by lia. Qed.

Lemma add_file_info_tail i x v c s : smgrContext s = Some c -> smgrs s !! i = Some x ->
  (u ← get_smgr i; put_smgr i (set_vfend (Some v) u);;
   c ← get_ctx; put_ctx (add_vfiles 1 c);;
   c ← get_ctx;
   (if fileMaxNum c - 1 <? fileOpenedNum c then CloseFileSmgrContext;; mret tt else mret tt);;
   mret 0) s =
  close_at_limit c (set_smgrContext (Some (add_vfiles 1 c)) (set_smgrs (<[i := set_vfend (Some v) x]> (smgrs s)) s)).
Proof.
  intros Hc Hi. run (get_smgr_run _ _ _ Hi). run (put_smgr_run _ _ (set_vfend (Some v) x) _ Hi).
  run (get_ctx_run (set_smgrs (<[i := set_vfend (Some v) x]> (smgrs s)) s) c Hc). run_refl.
  run (get_ctx_run (set_smgrContext (Some (add_vfiles 1 c)) (set_smgrs (<[i := set_vfend (Some v) x]> (smgrs s)) s)) _ eq_refl).
  done.
Qed.

Lemma AddFileInfo_first i x v c ns s : smgrContext s = Some c ->
  smgrs s !! i = Some x -> vfhead x = None -> sc_vfhead c = head ns -> circ (links s) ns ->
  v ∉ ns -> links s !! v = Some (mkDL v v) ->
  exists l', (forall hl, AddFileInfoToSmgrContext i v (set_held hl s) =
    close_at_limit c (mkSS (files s) l' (vfs s) (<[i := mkSI (version x) (storageType x) (Some v) (Some v)]> (smgrs s))
      (Some (mkSC (Some (hd v ns)) (fileMaxNum c) (fileOpenedNum c) (vFileNum c + 1))) hl (brk s))) /\
    circ l' (ns ++ [v]) /\ frame (v :: ns) (links s) l'.
Proof.
  intros Hc Hi Hx Hh Hcirc Hv Hl. destruct ns as [|h t]; cbn [head].
  - exists (links s). split_and!.
    + intros hl. unfold AddFileInfoToSmgrContext. cbn [smgrContext set_held]. rewrite Hc.
    run (get_smgr_run i (set_held hl s) x Hi). rewrite Hx, Hh. cbn [head]. unfold mbind at 1, ST_bind. run (put_smgr_run i (set_held hl s) (set_vfhead (Some v) x) x Hi). cbn [put_ctx st_modify].
      erewrite add_file_info_tail; [|done|apply lookup_insert_eq].
      unfold set_smgrContext, set_smgrs, set_vfend, set_vfhead, add_vfiles, set_sc_vfhead. cbn.
      by rewrite insert_insert_eq.
    + split; [apply NoDup_singleton|]. simpl. by rewrite Hl.
    + apply frame_refl.
  - destruct (AddDListTail_some (links s) h t v Hcirc Hv ltac:(by rewrite Hl)) as (l' & Hrun & Hc' & Hf).
    exists l'. split_and!; [|done|done].
    intros hl. unfold AddFileInfoToSmgrContext. cbn [smgrContext set_held]. rewrite Hc.
    run (get_smgr_run i (set_held hl s) x Hi). rewrite Hx, Hh. cbn [head]. unfold mbind at 1, ST_bind. run (put_smgr_run i (set_held hl s) (set_vfhead (Some v) x) x Hi).
    run (links_op_run _ (set_smgrs (<[i := set_vfhead (Some v) x]> (smgrs s)) (set_held hl s)) _ _ Hrun).
    cbn [mret ST_ret]. erewrite add_file_info_tail; [|exact Hc|apply lookup_insert_eq].
    unfold set_smgrContext, set_smgrs, set_vfend, set_vfhead, add_vfiles. cbn.
    by rewrite insert_insert_eq, Hh.
Qed.

Lemma AddFileInfo_next i x v c h0 h t s : smgrContext s = Some c ->
  smgrs s !! i = Some x -> vfhead x = Some h -> sc_vfhead c = Some h0 -> circ (links s) (h :: t) ->
  v ∉ h :: t -> is_Some (links s !! v) ->
  exists l', (forall hl, AddFileInfoToSmgrContext i v (set_held hl s) =
    close_at_limit c (mkSS (files s) l' (vfs s) (<[i := mkSI (version x) (storageType x) (Some h) (Some v)]> (smgrs s))
      (Some (mkSC (Some h0) (fileMaxNum c) (fileOpenedNum c) (vFileNum c + 1))) hl (brk s))) /\
    circ l' (h :: v :: t) /\ frame (v :: h :: t) (links s) l'.
Proof.
  intros Hc Hi Hx Hh Hcirc Hv Hl. 
  destruct (AddDListNext_some (links s) h t v Hcirc Hv Hl) as (l' & Hrun & Hc' & Hf).
  exists l'. split_and!; [|done|done].
  intros hl. unfold AddFileInfoToSmgrContext. cbn [smgrContext set_held]. rewrite Hc.
    run (get_smgr_run i (set_held hl s) x Hi). rewrite Hx, Hh. cbn [head]. unfold mbind at 1, ST_bind. run (links_op_run _ (set_held hl s) _ _ Hrun). cbn [mret ST_ret].
  erewrite add_file_info_tail; [|exact Hc|exact Hi].
  unfold set_smgrContext, set_smgrs, set_vfend, add_vfiles. cbn. by rewrite Hh, Hx.
Qed.

(** What [AddVFec] leaves of a state: the new file [v], the links [l], the table's
    first and last file. *)
Definition vf_added (s : SmgrState) (i v : loc) (f : ForkType) (l : dstore) (x : sgmrInfo)
    (vfhd vfend : loc) (c : StorageMangeContext) (hd : loc) : SmgrState :=
  mkSS (files s) l (<[v := mkVF f None]> (vfs s))
    (<[i := mkSI (version x) (storageType x) (Some vfhd) (Some vfend)]> (smgrs s))
    (Some (mkSC (Some hd) (fileMaxNum c) (fileOpenedNum c) (vFileNum c + 1))) (held s) (Pos.succ (brk s)).

Lemma INIT_run v s : is_Some (s !! v) -> INIT_DLIST_NODE v s = Some (tt, <[v := mkDL v v]> s).
Proof.
  intros [n Hn]. unfold INIT_DLIST_NODE, set_prev, set_next, mbind, ST_bind. rewrite Hn. cbn [mbind option_bind].
  rewrite lookup_insert_eq. cbn [mbind option_bind prev]. by rewrite insert_insert_eq.
Qed.

(** A state with an allocated node [v] that is on no list. *)
Definition vf_alloc (s : SmgrState) (v : loc) (f : ForkType) : SmgrState :=
  set_brk (Pos.succ v) (set_vfs (<[v := mkVF f None]> (vfs s)) (set_links (<[v := mkDL v v]> (links s)) s)).

Definition with_smgr_lock (s : SmgrState) : SmgrState := set_held ((LB_SMGR_INFO, RWLock_WRITE) :: held s) s.

Lemma AddVFec_run i x f s r :
  is_Some (smgrContext s) -> no_smgr_lock (held s) -> smgrs s !! i = Some x ->
  (forall h, FindVF (vfhead x) f (set_held h s) = Some (None, set_held h s)) ->
  AddFileInfoToSmgrContext i (brk s) (with_smgr_lock (vf_alloc s (brk s) f)) = Some (0, r) ->
  held r = (LB_SMGR_INFO, RWLock_WRITE) :: held s -> is_Some (smgrContext r) ->
  AddVFec i f s = Some (brk s, set_held (held s) r).
Proof.
  intros Hc Hh Hi Hfind Hadd Hheld Hcr. unfold AddVFec.
  assert (LockSmgr LOCK_EXCLUSIVE s = Some (tt, with_smgr_lock s)) as Hl.
  { destruct Hc as [c Hc]. unfold LockSmgr. run (get_ctx_run _ _ Hc). by apply acquire_run. }
  run Hl. run (get_smgr_run i (with_smgr_lock s) x Hi). run (Hfind ((LB_SMGR_INFO, RWLock_WRITE) :: held s)).
  unfold CreateVFVec, alloc_vf. run_refl. cbn [held brk set_held with_smgr_lock links vfs].
  next_by (apply links_op_run, INIT_run; cbn; rewrite lookup_insert_eq; done).
  cbn [links set_brk set_vfs set_links]. rewrite insert_insert_eq. next_by (exact Hadd).
  run (LockSmgr_release r RWLock_WRITE (held s) Hcr Hheld). done.
Qed.

Lemma fresh_not_node s segs : smgr_ok s segs -> brk s ∉ all_nodes segs.
Proof.
  intros Hok Hin. destruct (circ_mapped _ _ _ (ok_circ _ _ Hok) Hin) as [n Hn].
  destruct (ok_brk _ _ Hok (brk s) ltac:(lia)) as [H _]. congruence.
Qed.


Lemma seg_ids_apart s segs i x : smgr_ok s segs -> smgrs s !! i = Some x -> vfhead x = None -> i ∉ sg_smgr <$> segs.
Proof.
  intros Hok Hi Hx Hin. apply list_elem_of_fmap in Hin as (g & -> & Hg).
  pose proof (ok_segs _ _ Hok) as Hs. rewrite Forall_forall in Hs.
  destruct (so_smgr _ _ (Hs g Hg)) as (y & Hy & Hh & _). congruence.
Qed.

Lemma fresh_from_added s i v f l' x a b c h : fresh_from (brk s) s -> v = brk s -> is_Some (smgrs s !! i) ->
  (forall k, k <> brk s -> links s !! k = None -> l' !! k = None) ->
  fresh_from (brk (vf_added s i v f l' x a b c h)) (vf_added s i v f l' x a b c h).
Proof.
  intros Hf -> [y Hi] Hl k Hk. cbn in Hk |- *. destruct (Hf k ltac:(lia)) as (H1 & H2 & H3).
  assert (k <> brk s) by lia. assert (i <> k) by congruence.
  rewrite !lookup_insert_ne by congruence. auto.
Qed.

Lemma frame_none (ns : list loc) s l' k v : frame (v :: ns) s l' -> (forall a, a ∈ ns -> is_Some (s !! a)) ->
  k <> v -> s !! k = None -> l' !! k = None.
Proof.
  intros Hf Hm Hk Hn. rewrite Hf; [done|]. intros [->|Hin]%elem_of_cons; [done|].
  destruct (Hm k Hin). congruence.
Qed.


(** The segments of other tables stay as they are. *)
Lemma segs_added_sub s segs sub i f l' x a b c h : smgr_ok s segs -> sub ⊆ segs -> i ∉ sg_smgr <$> sub ->
  Forall (seg_ok (vf_added s i (brk s) f l' x a b c h)) sub.
Proof.
  intros Hok Hsub Hi. pose proof (ok_segs _ _ Hok) as Hs. rewrite Forall_forall in Hs |- *. intros g Hg.
  apply (seg_ok_same s); [by apply Hs, Hsub| |].
  - cbn. apply lookup_insert_ne. intros ->. apply Hi. by apply list_elem_of_fmap_2.
  - intros v f' h' Hv E. exists h'. cbn. rewrite lookup_insert_ne; [done|]. intros <-.
    apply (fresh_not_node _ _ Hok). apply elem_of_all_nodes. eauto.
Qed.

(** A table without files gets its main file, at the end of the circle. *)
Lemma added_first s segs i x : smgr_ok s segs -> smgrs s !! i = Some x -> vfhead x = None ->
  exists l' c, smgrContext s = Some c /\
    let s' := vf_added s i (brk s) MAIN_FORK l' x (brk s) (brk s) c (hd (brk s) (all_nodes segs)) in
    (forall hl, AddFileInfoToSmgrContext i (brk s) (set_held hl (vf_alloc s (brk s) MAIN_FORK)) = close_at_limit c (set_held hl s')) /\
    smgr_ok s' (segs ++ [mkSeg i (brk s) None]).
Proof.
  intros Hok Hi Hx. pose proof (fresh_not_node _ _ Hok) as Hv.
  destruct (ok_ctx _ _ Hok) as (c & Hc & Hh).
  assert (circ (<[brk s := mkDL (brk s) (brk s)]> (links s)) (all_nodes segs)) as Hcirc.
  { apply (circ_frame (links s)); [|apply Hok]. intros a Ha. apply lookup_insert_ne. intros E. apply Hv. by rewrite E. }
  destruct (AddFileInfo_first i x (brk s) c (all_nodes segs) (vf_alloc s (brk s) MAIN_FORK) Hc Hi Hx Hh Hcirc Hv
    ltac:(cbn; apply lookup_insert_eq)) as (l' & Hrun & Hc1 & Hf1).
  exists l', c. split; [done|]. intros s'. split; [exact Hrun|]. split.
  - eexists. split; [reflexivity|]. cbn. rewrite all_nodes_app. by destruct (all_nodes segs).
  - cbn. rewrite all_nodes_app. exact Hc1.
  - apply Forall_app. split; [apply (segs_added_sub _ segs); [done|done|by eapply seg_ids_apart]|].
    apply Forall_singleton. split; cbn.
    + eexists. by rewrite lookup_insert_eq.
    + eexists. by rewrite lookup_insert_eq.
    + done.
  - rewrite fmap_app. apply NoDup_app. split_and!; [apply Hok| |apply NoDup_singleton].
    intros j Hj Hj'. apply list_elem_of_singleton in Hj' as ->. by eapply seg_ids_apart.
  - apply Hok.
  - apply fresh_from_added; [apply Hok|done|by rewrite Hi|]. intros k Hk Hn.
    apply (frame_none _ _ _ _ _ Hf1); [|done|cbn; by rewrite lookup_insert_ne].
    intros a Ha. by apply (circ_mapped _ _ _ Hcirc).
Qed.

Lemma AddVFec_first s segs i x : smgr_ok s segs -> below_limit s -> smgrs s !! i = Some x -> vfhead x = None ->
  exists l' c, smgrContext s = Some c /\
    let s' := vf_added s i (brk s) MAIN_FORK l' x (brk s) (brk s) c (hd (brk s) (all_nodes segs)) in
    AddVFec i MAIN_FORK s = Some (brk s, s') /\ smgr_ok s' (segs ++ [mkSeg i (brk s) None]).
Proof.
  intros Hok (c & Hc & Hlim) Hi Hx. destruct (added_first s segs i x Hok Hi Hx) as (l' & c' & Hc' & Hrun & Hok').
  assert (c' = c) as -> by congruence. exists l', c. split; [done|]. intros s'. split; [|exact Hok'].
  specialize (Hrun ((LB_SMGR_INFO, RWLock_WRITE) :: held s)). rewrite close_below_limit in Hrun by done.
  apply (AddVFec_run _ x _ _ _ ltac:(by rewrite Hc) (ok_held _ _ Hok) Hi ltac:(by rewrite Hx) Hrun eq_refl). done.
Qed.

(** A table with its main file gets the group's, right behind it. *)
Lemma AddVFec_group s l1 l2 i m : smgr_ok s (l1 ++ mkSeg i m None :: l2) -> below_limit s ->
  exists l' x c, smgrs s !! i = Some x /\ smgrContext s = Some c /\
    let s' := vf_added s i (brk s) GROUP_FORK l' x m (brk s) c (hd m (all_nodes l1)) in
    AddVFec i GROUP_FORK s = Some (brk s, s') /\ smgr_ok s' (l1 ++ mkSeg i m (Some (brk s)) :: l2).
Proof.
  intros Hok (c & Hc & Hlim). pose proof (fresh_not_node _ _ Hok) as Hv.
  destruct (ok_ctx _ _ Hok) as (c' & Hc' & Hh). assert (c' = c) as -> by congruence.
  pose proof (ok_circ _ _ Hok) as Hcirc. pose proof Hcirc as Hcirc0. apply circ_around in Hcirc.
  pose proof (ok_segs _ _ Hok) as Hs. apply Forall_app in Hs as [Hs1 Hs2]. inversion Hs2 as [|? ? Hsg Hs3]; subst.
  destruct (so_smgr _ _ Hsg) as (x & Hx & Hxh & Hxe). cbn in Hx, Hxh, Hxe.
  assert (circ (<[brk s := mkDL (brk s) (brk s)]> (links s)) (m :: all_nodes (l2 ++ l1))) as Hcirc'.
  { apply (circ_frame (links s)); [|done]. intros a Ha. apply lookup_insert_ne. intros E. apply Hv. rewrite E.
    rewrite all_nodes_app in *. simpl in *. set_solver. }
  assert (brk s ∉ m :: all_nodes (l2 ++ l1)) as Hv'.
  { intros Ha. apply Hv. rewrite all_nodes_app in *. simpl in *. set_solver. }
  assert (sc_vfhead c = Some (hd m (all_nodes l1))) as Hh'.
  { rewrite Hh, all_nodes_app. by destruct (all_nodes l1). }
  destruct (AddFileInfo_next i x (brk s) c _ m _ (vf_alloc s (brk s) GROUP_FORK) Hc Hx Hxh Hh' Hcirc' Hv'
    ltac:(cbn; by rewrite lookup_insert_eq)) as (l' & Hrun & Hc1 & Hf1).
  exists l', x, c. split; [done|]. split; [done|]. intros s'. split.
  - specialize (Hrun ((LB_SMGR_INFO, RWLock_WRITE) :: held s)). rewrite close_below_limit in Hrun by done.
    apply (AddVFec_run _ x _ _ _ ltac:(by rewrite Hc) (ok_held _ _ Hok) Hx) with (2 := Hrun);
      [|done|done]. intros h. rewrite Hxh.
    by apply (FindVF_run s _ (mkSeg i m None) GROUP_FORK h Hok ltac:(set_solver)).
  - assert (i ∉ sg_smgr <$> l1 ++ l2) as Hi.
    { pose proof (ok_ids _ _ Hok) as Hn. rewrite fmap_app, fmap_cons in Hn. cbn in Hn.
      rewrite fmap_app. apply NoDup_app in Hn as (_ & Hn1 & Hn2). apply NoDup_cons in Hn2 as [Hn2 _]. set_solver. }
    split.
    + eexists. split; [reflexivity|]. cbn. rewrite all_nodes_app. by destruct (all_nodes l1).
    + cbn. rewrite all_nodes_app in *. simpl in *.
      assert (circ l' ((m :: brk s :: all_nodes l2) ++ all_nodes l1)) as Hc2 by exact Hc1.
      by apply circ_rotate in Hc2.
    + assert (Forall (seg_ok (vf_added s i (brk s) GROUP_FORK l' x m (brk s) c (hd m (all_nodes l1)))) (l1 ++ l2)) as Hs12.
      { eapply segs_added_sub; [exact Hok|set_solver|done]. }
      apply Forall_app in Hs12 as [Hs1' Hs2']. apply Forall_app. split; [done|]. constructor; [|done].
      destruct (so_main _ _ Hsg) as [h Hm]. cbn in Hm. split; cbn.
      * eexists. by rewrite lookup_insert_eq.
      * exists h. rewrite lookup_insert_ne; [done|]. intros E. apply Hv'. rewrite E. set_solver.
      * intros v [= <-]. eexists. by rewrite lookup_insert_eq.
    + pose proof (ok_ids _ _ Hok) as Hn. by rewrite !fmap_app in *.
    + apply Hok.
    + apply fresh_from_added; [apply Hok|done|by rewrite Hx|]. intros k Hk Hn.
      apply (frame_none _ _ _ _ _ Hf1); [|done|cbn; by rewrite lookup_insert_ne].
      intros a Ha. by apply (circ_mapped _ _ _ Hcirc').
Qed.

(** ** Opening a virtual file *)

(** [v] is open on the inode [ino]. *)
Definition vf_on (s : SmgrState) (v : loc) (ino : positive) : Prop :=
  exists f h, vfs s !! v = Some (mkVF f (Some h)) /\ handle_on (files s) h ino.

(** A handle belongs to one virtual file. *)
Record fwf (s : SmgrState) : Prop := {
  fw_files : files_wf (files s);
  fw_handle : forall v f h, vfs s !! v = Some (mkVF f (Some h)) -> is_Some (handles (files s) !! h);
  fw_own : forall v w f f' h, vfs s !! v = Some (mkVF f (Some h)) -> vfs s !! w = Some (mkVF f' (Some h)) -> w = v
}.

(** [s'] keeps what [s] has open, with [k] more open files. *)
Record grows (k : Z) (s s' : SmgrState) : Prop := {
  gr_wf : fwf s -> fwf s';
  gr_on : fwf s -> forall v ino, vf_on s v ino -> vf_on s' v ino;
  gr_ctx : forall c, smgrContext s = Some c -> exists c', smgrContext s' = Some c' /\
    fileMaxNum c' = fileMaxNum c /\ fileOpenedNum c' = fileOpenedNum c + k;
  gr_held : held s' = held s
}.

Definition opened_below (k : Z) (s : SmgrState) : Prop :=
  exists c, smgrContext s = Some c /\ fileOpenedNum c + k <= fileMaxNum c - 1.

Lemma opened_below_limit s k : 0 <= k -> opened_below k s -> below_limit s.
Proof. intros Hk (c & Hc & H). exists c. split; [done|lia]. Qed.

Lemma grows_trans k1 k2 s1 s2 s3 : grows k1 s1 s2 -> grows k2 s2 s3 -> grows (k1 + k2) s1 s3.
Proof.
  intros [A1 A2 A3 A4] [B1 B2 B3 B4]. split; [auto|auto| |congruence].
  intros c Hc. destruct (A3 c Hc) as (c2 & Hc2 & E1 & E2). destruct (B3 c2 Hc2) as (c3 & Hc3 & E3 & E4).
  exists c3. split_and!; [done|congruence|lia].
Qed.

Lemma grows_below k j s s' : grows k s s' -> opened_below (k + j) s -> opened_below j s'.
Proof.
  intros H (c & Hc & Hl). destruct (gr_ctx _ _ _ H c Hc) as (c' & Hc' & E1 & E2). exists c'. split; [done|lia].
Qed.

Lemma grows_added s segs i f l' x a b c h : smgr_ok s segs -> smgrContext s = Some c ->
  grows 0 s (vf_added s i (brk s) f l' x a b c h).
Proof.
  intros Hok Hc.
  assert (forall v f' h', vfs (vf_added s i (brk s) f l' x a b c h) !! v = Some (mkVF f' (Some h')) <->
    vfs s !! v = Some (mkVF f' (Some h'))) as Hv.
  { intros v f' h'. cbn. destruct (ok_brk _ _ Hok (brk s) ltac:(lia)) as (_ & Hb & _).
    destruct (decide (v = brk s)) as [->|Hne]; [rewrite lookup_insert_eq, Hb; naive_solver|by rewrite lookup_insert_ne]. }
  split; cbn.
  - intros [H1 H2 H3]. split; [done| |].
    + intros v f' h'. rewrite Hv. apply H2.
    + intros v w f' f2 h'. rewrite !Hv. apply H3.
  - intros _ v ino (f' & h' & Hvf & Hon). exists f', h'. by rewrite Hv.
  - intros c' Hc'. assert (c' = c) as -> by congruence. eexists. split_and!; [done|done|cbn; lia].
  - done.
Qed.

(** Taking the manager's lock to read a table's first file. *)
Lemma read_vfhead {A} (k : sgmrInfo -> FM A) s segs i x : smgr_ok s segs -> smgrs s !! i = Some x ->
  (LockSmgr LOCK_SHARED;; y ← get_smgr i; LockSmgr RELEASE_LOCK;; k y) s = k x s.
Proof.
  intros Hok Hi. destruct (ok_ctx _ _ Hok) as (c & Hc & _).
  destruct (LockSmgr_acquire LOCK_SHARED s (ok_held _ _ Hok) ltac:(by rewrite Hc) (or_introl eq_refl)) as [m Hl]. run Hl.
  run (get_smgr_run i (set_held ((LB_SMGR_INFO, m) :: held s) s) x Hi).
  erewrite st_bind_some; [|apply (LockSmgr_release _ m (held s)); [cbn; by rewrite Hc|done]]. by destruct s.
Qed.

Definition sg_file (g : Seg) (f : ForkType) : option loc :=
  match f with MAIN_FORK => Some (sg_main g) | GROUP_FORK => sg_group g end.

Lemma FindVF_self s segs g f : smgr_ok s segs -> g ∈ segs -> FindVF (Some (sg_main g)) f s = Some (sg_file g f, s).
Proof. intros Hok Hg. pose proof (FindVF_run s segs g f (held s) Hok Hg) as H. by destruct s. Qed.

Lemma SearchVF_run s segs g f : smgr_ok s segs -> g ∈ segs -> SearchVF (Some (sg_main g)) f s = Some (sg_file g f, s).
Proof.
  intros Hok Hg. unfold SearchVF. destruct (ok_ctx _ _ Hok) as (c & Hc & _).
  destruct (LockSmgr_acquire LOCK_SHARED s (ok_held _ _ Hok) ltac:(by rewrite Hc) (or_introl eq_refl)) as [m Hl]. run Hl.
  run (FindVF_run s segs g f ((LB_SMGR_INFO, m) :: held s) Hok Hg).
  erewrite st_bind_some; [|apply (LockSmgr_release _ m (held s)); [cbn; by rewrite Hc|done]]. by destruct s.
Qed.

Lemma seg_smgr s segs g : smgr_ok s segs -> g ∈ segs ->
  exists x, smgrs s !! sg_smgr g = Some x /\ vfhead x = Some (sg_main g) /\ vfend x = Some (default (sg_main g) (sg_group g)).
Proof. intros Hok Hg. pose proof (ok_segs _ _ Hok) as H. rewrite Forall_forall in H. apply (so_smgr _ _ (H g Hg)). Qed.

Lemma GetVFec_found s segs g f v : smgr_ok s segs -> g ∈ segs -> sg_file g f = Some v ->
  GetVFec (sg_smgr g) f s = Some (v, s).
Proof.
  intros Hok Hg Hv. destruct (seg_smgr _ _ _ Hok Hg) as (x & Hx & Hh & _). unfold GetVFec.
  rewrite (read_vfhead _ _ _ _ _ Hok Hx). rewrite Hh. run (FindVF_self _ _ _ f Hok Hg). by rewrite Hv.
Qed.

(** The first file of a table, then the second: [GetVFec] adds it. *)
Lemma GetVFec_main s segs i x : smgr_ok s segs -> below_limit s -> smgrs s !! i = Some x -> vfhead x = None ->
  exists s', GetVFec i MAIN_FORK s = Some (brk s, s') /\ smgr_ok s' (segs ++ [mkSeg i (brk s) None]) /\
    grows 0 s s' /\ files s' = files s /\ vfs s' !! brk s = Some (mkVF MAIN_FORK None).
Proof.
  intros Hok Hl Hi Hx. destruct (AddVFec_first s segs i x Hok Hl Hi Hx) as (l' & c & Hc & Hrun & Hok').
  eexists. split_and!; [|exact Hok'|by eapply grows_added|done|cbn; by rewrite lookup_insert_eq].
  unfold GetVFec. rewrite (read_vfhead _ _ _ _ _ Hok Hi). by rewrite Hx.
Qed.

Lemma GetVFec_group s l1 l2 i m : smgr_ok s (l1 ++ mkSeg i m None :: l2) -> below_limit s ->
  exists s', GetVFec i GROUP_FORK s = Some (brk s, s') /\ smgr_ok s' (l1 ++ mkSeg i m (Some (brk s)) :: l2) /\
    grows 0 s s' /\ files s' = files s /\ vfs s' !! brk s = Some (mkVF GROUP_FORK None).
Proof.
  intros Hok Hl. destruct (AddVFec_group s l1 l2 i m Hok Hl) as (l' & x & c & Hx & Hc & Hrun & Hok').
  assert (mkSeg i m None ∈ l1 ++ mkSeg i m None :: l2) as Hg by set_solver.
  eexists. split_and!; [|exact Hok'|by eapply grows_added|done|cbn; by rewrite lookup_insert_eq].
  unfold GetVFec. destruct (seg_smgr _ _ _ Hok Hg) as (x' & Hx' & Hh & _). cbn in Hx', Hh.
  rewrite (read_vfhead _ _ _ _ _ Hok Hx'). rewrite Hh. run (FindVF_self _ _ _ GROUP_FORK Hok Hg). exact Hrun.
Qed.

(** Attaching a handle to a virtual file without one. *)
Lemma AddFileToSmgrContext_run s segs v f fh : smgr_ok s segs -> vfs s !! v = Some (mkVF f None) ->
  (forall h, fh = Some h -> is_Some (handles (files s) !! h) /\ forall w f', vfs s !! w <> Some (mkVF f' (Some h))) ->
  exists s', AddFileToSmgrContext v fh s = Some (tt, s') /\ smgr_ok s' segs /\ grows 1 s s' /\
    files s' = files s /\ vfs s' = <[v := mkVF f fh]> (vfs s).
Proof.
  intros Hok Hv Hnew. destruct (ok_ctx _ _ Hok) as (c & Hc & Hh).
  exists (set_smgrContext (Some (add_opened 1 c)) (set_vfs (<[v := mkVF f fh]> (vfs s)) s)). split_and!.
  - unfold AddFileToSmgrContext.
    run (LockVF_acquire v s (no_smgr_vf_lock _ (ok_held _ _ Hok)) ltac:(by rewrite Hv)).
    run (get_vf_run v (set_held ((LB_VFS_INFO v, RWLock_WRITE) :: held s) s) _ Hv).
    run (put_vf_run v (set_held ((LB_VFS_INFO v, RWLock_WRITE) :: held s) s) (set_pfh fh (mkVF f None)) _ Hv).
    next_by (by apply get_ctx_run). run_refl.
    erewrite LockVF_release; [done|cbn; by rewrite lookup_insert_eq|done].
  - destruct Hok as [H1 H2 H3 H4 H5 H6]. split; try done.
    + eexists. split; [done|]. by cbn.
    + eapply Forall_impl; [exact H3|]. intros g Hg. apply (seg_ok_same s); [done|done|].
      intros w f' h Hw E. cbn. destruct (decide (w = v)) as [->|Hne].
      * rewrite lookup_insert_eq. simplify_eq. eauto.
      * rewrite lookup_insert_ne by done. eauto.
    + intros a Ha. destruct (H6 a Ha) as (A & B & C). split_and!; [done| |done]. cbn.
      rewrite lookup_insert_ne; [done|]. intros ->. congruence.
  - split; cbn; [| | |done].
    + intros [H1 H2 H3]. split; cbn; [done| |].
      * intros w f' h. intros [[<- [= _ Hf]]|[_ E]]%lookup_insert_Some; [by apply Hnew|by eapply H2].
      * intros w w' f' f2 h. intros [[<- [= _ Hf]]|[Hne E]]%lookup_insert_Some [[<- [= _ Hf']]|[Hne' E']]%lookup_insert_Some; try done.
        -- by apply (Hnew _ Hf) in E'.
        -- by apply (Hnew _ Hf') in E.
        -- by eapply H3.
    + intros _ w ino (f' & h' & Hw & Hon). exists f', h'. cbn. rewrite lookup_insert_ne; [done|]. intros ->. congruence.
    + intros c' Hc'. assert (c' = c) as -> by congruence. eexists. split_and!; done.
  - done.
  - done.
Qed.

Lemma smgr_ok_files s segs f : smgr_ok s segs -> smgr_ok (set_files f s) segs.
Proof.
  intros [H1 H2 H3 H4 H5 H6]. split; try done.
  eapply Forall_impl; [exact H3|]. intros g Hg. apply (seg_ok_same s); [done|done|eauto].
Qed.

Lemma grows_files s f : is_Some (smgrContext s) -> handles_grow (files s) f -> grows 0 s (set_files f s).
Proof.
  intros [c Hc] Hf. split; cbn; [| | |done].
  - intros [H1 H2 H3]. destruct (Hf H1) as (A & B & C). split; cbn; [done| |done].
    intros v f' h Hv. destruct (H2 v f' h Hv) as [fd Hh]. by rewrite (B _ _ Hh).
  - intros [H1 _ _] v ino (f' & h & Hv & Hon). exists f', h. split; [done|]. by apply (Hf H1).
  - intros c' Hc'. exists c'. split_and!; [done|done|lia].
Qed.

Lemma ctx_some s segs : smgr_ok s segs -> is_Some (smgrContext s).
Proof. intros Hok. destruct (ok_ctx _ _ Hok) as (c & -> & _). done. Qed.

(** The handle about to be handed out is nobody's. *)
Lemma fresh_handle s w f' : fwf s -> vfs s !! w <> Some (mkVF f' (Some (next_handle (files s)))).
Proof.
  intros Hw E. destruct (fw_handle _ Hw _ _ _ E) as [fd Hfd]. rewrite (wf_next _ (fw_files _ Hw)) in Hfd by lia. done.
Qed.

Section OpenFiles.

Context (DataDir : bytes).

Definition fork_path (name : bytes) (f : ForkType) : bytes := file_path DataDir (fork_name name f).

(** Opening, once [GetVFec] has found or made the virtual file. *)
Lemma smgr_open_attach s s1 segs i f name v ino : fwf s ->
  GetVFec i f s = Some (v, s1) -> smgr_ok s1 segs -> grows 0 s s1 -> files s1 = files s ->
  vfs s1 !! v = Some (mkVF f None) ->
  dir (os (files s)) !! fork_path name f = Some ino -> is_Some (inodes (os (files s)) !! ino) ->
  exists s', smgr_open DataDir (Some i) name f s = Some (Some v, s') /\ smgr_ok s' segs /\ grows 1 s s' /\
    same_disk (files s) (files s') /\ vf_on s' v ino.
Proof.
  intros Ho Hget Hok Hg Hf Hv Hdir Hino. unfold smgr_open. run Hget. run (get_vf_run _ _ _ Hv). cbn [pfh].
  destruct (OpenFile_present DataDir (fork_name name f) (files s1) ino) as (fs & Hrun & Hd & Hgr & Hon); [by rewrite Hf..|].
  run (on_files_run _ _ _ _ Hrun).
  destruct (AddFileToSmgrContext_run (set_files fs s1) segs v f (Some (next_handle (files s1)))) as (s' & Hadd & Hok' & Hg' & Hf' & Hv');
    [by apply smgr_ok_files|done| |].
  { intros h [= <-]. split; [|intros w f'; exact (fresh_handle s1 w f' (gr_wf _ _ _ Hg Ho))].
    destruct Hon as (fd & pos & Hh & _). cbn. by rewrite Hh. }
  run Hadd. exists s'. split_and!; [done|done| | |].
  - apply (grows_trans 0 1 _ (set_files fs s1)); [|done]. apply (grows_trans 0 0 _ s1); [done|].
    apply grows_files; [by eapply ctx_some|done].
  - rewrite Hf', <- Hf. done.
  - exists f, (next_handle (files s1)). rewrite Hv', Hf', lookup_insert_eq. done.
Qed.

(** Creating a file under a name that is free. *)
Lemma smgr_create_attach s s1 segs i f name v : fwf s ->
  GetVFec i f s = Some (v, s1) -> smgr_ok s1 segs -> grows 0 s s1 -> files s1 = files s ->
  vfs s1 !! v = Some (mkVF f None) -> dir (os (files s)) !! fork_path name f = None ->
  exists s' ino, smgr_create DataDir (Some i) name f s = Some (Some v, s') /\ smgr_ok s' segs /\ grows 1 s s' /\
    vf_on s' v ino /\ inodes (os (files s)) !! ino = None /\
    dir (os (files s')) = <[fork_path name f := ino]> (dir (os (files s))) /\
    inodes (os (files s')) = <[ino := []]> (inodes (os (files s))) /\ room (os (files s')) = room (os (files s)).
Proof.
  intros Ho Hget Hok Hg Hf Hv Hdir. unfold smgr_create. run Hget. run (get_vf_run _ _ _ Hv). cbn [pfh].
  destruct (CreateFile_new DataDir (fork_name name f) (files s1)) as (fs & ino & Hrun & Hgr & Hfr & Hon & Hd & Hi & Hr); [by rewrite Hf|].
  run (on_files_run _ _ _ _ Hrun).
  destruct (AddFileToSmgrContext_run (set_files fs s1) segs v f (Some (next_handle (files s1)))) as (s' & Hadd & Hok' & Hg' & Hf' & Hv');
    [by apply smgr_ok_files|done| |].
  { intros h [= <-]. split; [|intros w f'; exact (fresh_handle s1 w f' (gr_wf _ _ _ Hg Ho))].
    destruct Hon as (fd & pos & Hh & _). cbn. by rewrite Hh. }
  run Hadd. exists s', ino. rewrite Hf', <- Hf. split_and!; try done.
  - apply (grows_trans 0 1 _ (set_files fs s1)); [|done]. apply (grows_trans 0 0 _ s1); [done|].
    apply grows_files; [by eapply ctx_some|done].
  - exists f, (next_handle (files s1)). rewrite Hv', Hf', lookup_insert_eq. done.
Qed.

(** The file is not there: the node is freed and stays where it is linked. *)
Lemma smgr_open_absent s s1 i f name v : GetVFec i f s = Some (v, s1) -> files s1 = files s ->
  vfs s1 !! v = Some (mkVF f None) -> dir (os (files s)) !! fork_path name f = None ->
  smgr_open DataDir (Some i) name f s = Some (None, set_vfs (delete v (vfs s1)) (set_links (delete v (links s1)) s1)).
Proof.
  intros Hget Hf Hv Hdir. unfold smgr_open. run Hget. run (get_vf_run _ _ _ Hv). cbn [pfh].
  assert (OpenFile DataDir (fork_name name f) (files s1) = Some (None, files s1)) as Hrun.
  { apply OpenFile_missing. by rewrite Hf. }
  run (on_files_run _ _ _ _ Hrun). unfold free_vf, mbind, ST_bind. cbn [vfs set_files]. rewrite Hv.
  cbn [mbind option_bind]. by destruct s1.
Qed.

Lemma smgr_open_again s segs g f name v ino : smgr_ok s segs -> g ∈ segs -> sg_file g f = Some v -> vf_on s v ino ->
  smgr_open DataDir (Some (sg_smgr g)) name f s = Some (Some v, s).
Proof.
  intros Hok Hg Hv (f' & h & Hvf & _). unfold smgr_open. run (GetVFec_found _ _ _ _ _ Hok Hg Hv).
  run (get_vf_run _ _ _ Hvf). done.
Qed.

End OpenFiles.

(** ** Reading and writing pages *)

Lemma smgr_read_run s segs v ino n : smgr_ok s segs -> vf_on s v ino -> 1 <= n ->
  exists s', let p := page_bytes (content (files s) ino) n in
    smgr_read v n s = Some ((if decide (length p = PAGE) then PAGE_MAX_SIZE else -1, p), s') /\
    smgr_ok s' segs /\ grows 0 s s' /\ same_disk (files s) (files s') /\ smgrs s' = smgrs s.
Proof.
  intros Hok (f & h & Hv & Hh) Hn. destruct (FileReadPage_run (files s) h ino n Hh Hn) as (fs & Hrun & Hsame).
  apply same_files_grow in Hsame as [Hgr Hd].
  exists (set_files fs s). split_and!; [|by apply smgr_ok_files|by apply grows_files; [by eapply ctx_some|]|done|done].
  unfold smgr_read. run (LockVF_acquire v s (no_smgr_vf_lock _ (ok_held _ _ Hok)) ltac:(by rewrite Hv)).
  next_by (by apply get_vf_run). cbn [pfh].
  next_by (by apply on_files_run).
  next_by (by apply (LockVF_release v _ RWLock_WRITE (held s)); [cbn; rewrite Hv|]).
  apply st_ret_eq; [|by destruct s]. f_equal. generalize (page_bytes (content (files s) ino) n). intros p.
  destruct (decide _) as [E|Hne]; [by rewrite E|]. rewrite (proj2 (Z.eqb_neq _ _)); [done|]. unfold PAGE_MAX_SIZE in *. lia.
Qed.

Lemma smgr_write_run s segs v ino n b : smgr_ok s segs -> vf_on s v ino -> 1 <= n -> length b = PAGE ->
  Z.of_nat (page_off n + PAGE) <= Z.of_nat (length (content (files s) ino)) + room (os (files s)) ->
  exists s', smgr_write v n b s = Some (PAGE_MAX_SIZE, s') /\
    smgr_ok s' segs /\ grows 0 s s' /\ smgrs s' = smgrs s /\
    dir (os (files s')) = dir (os (files s)) /\
    inodes (os (files s')) = <[ino := write_page (content (files s) ino) n b]> (inodes (os (files s))) /\
    room (os (files s')) = room (os (files s)) - Z.max 0 (Z.of_nat (page_off n + PAGE) - Z.of_nat (length (content (files s) ino))).
Proof.
  intros Hok (f & h & Hv & Hh) Hn Hb Hr.
  destruct (FileWritePage_grow (files s) h ino n b Hh Hn Hb Hr) as (fs & Hrun & Hgr & Hd & Hi & Hr').
  exists (set_files fs s). split_and!; [|by apply smgr_ok_files|by apply grows_files; [by eapply ctx_some|]|done..].
  unfold smgr_write. run (LockVF_acquire v s (no_smgr_vf_lock _ (ok_held _ _ Hok)) ltac:(by rewrite Hv)).
  next_by (by apply get_vf_run). cbn [pfh].
  next_by (by apply on_files_run).
  next_by (by apply (LockVF_release v _ RWLock_WRITE (held s)); [cbn; rewrite Hv|]).
  rewrite Z.ltb_irrefl. apply st_ret_eq; [done|by destruct s].
Qed.

(** A table's own record: allocated, and its fields beside the two files set. *)
Lemma alloc_smgr_run s segs x : smgr_ok s segs ->
  exists s', alloc_smgr x s = Some (brk s, s') /\ smgr_ok s' segs /\ grows 0 s s' /\ files s' = files s /\
    smgrs s' !! brk s = Some x.
Proof.
  intros [(c & Hc & Hh) H2 H3 H4 H5 H6]. eexists. split; [done|]. cbn. split_and!.
  - split; try done.
    + by exists c.
    + eapply Forall_impl; [exact H3|]. intros g Hg. apply (seg_ok_same s); [done| |eauto]. cbn.
      destruct (so_smgr _ _ Hg) as (y & Hy & _). destruct (H6 (brk s) ltac:(lia)) as (_ & _ & Hb).
      apply lookup_insert_ne. intros E. rewrite E in Hb. congruence.
    + intros a Ha. cbn in Ha |- *. destruct (H6 a ltac:(lia)) as (A & B & C). split_and!; [done|done|].
      by rewrite lookup_insert_ne by lia.
  - split; cbn; [by intros []|done| |done]. intros c' Hc'. exists c'. split_and!; [done|done|lia].
  - done.
  - apply lookup_insert_eq.
Qed.

Lemma put_smgr_ok s segs i x y : smgr_ok s segs -> smgrs s !! i = Some x -> vfhead y = vfhead x -> vfend y = vfend x ->
  let s' := set_smgrs (<[i := y]> (smgrs s)) s in
  put_smgr i y s = Some (tt, s') /\ smgr_ok s' segs /\ grows 0 s s'.
Proof.
  intros [(c & Hc & Hh) H2 H3 H4 H5 H6] Hi Hyh Hye s'. split_and!.
  - by eapply put_smgr_run.
  - split; try done.
    + by exists c.
    + eapply Forall_impl; [exact H3|]. intros g [(z & Hz & Hzh & Hze) B C]. split; [|done|done]. cbn.
      destruct (decide (sg_smgr g = i)) as [E|Hne].
      * rewrite E in Hz |- *. rewrite lookup_insert_eq. exists y. assert (z = x) as -> by congruence. split_and!; [done|congruence|congruence].
      * rewrite lookup_insert_ne by done. eauto.
    + intros a Ha. destruct (H6 a Ha) as (A & B & C). split_and!; [done|done|]. cbn.
      rewrite lookup_insert_ne; [done|]. intros E. rewrite E in Hi. congruence.
  - split; cbn; [by intros []|done| |done]. intros c' Hc'. exists c'. split_and!; [done|done|lia].
Qed.

(** ** Closing and releasing *)

Lemma smgr_close_run s v f h0 c : fwf s -> no_vf_lock (held s) -> smgrContext s = Some c -> vfs s !! v = Some (mkVF f h0) ->
  exists fs n, let s' := mkSS fs (links s) (<[v := mkVF f None]> (vfs s)) (smgrs s)
      (Some (mkSC (sc_vfhead c) (fileMaxNum c) n (vFileNum c))) (held s) (brk s) in
    smgr_close (Some v) s = Some (0, s') /\ fwf s' /\ same_disk (files s) fs /\
    (forall w ino, w <> v -> vf_on s w ino -> vf_on s' w ino).
Proof.
  intros Hwf Hh Hc Hv. unfold smgr_close. destruct h0 as [h|].
  - destruct (fw_handle _ Hwf _ _ _ Hv) as [fd Hfd]. destruct (wf_open _ (fw_files _ Hwf) _ _ Hfd) as (ino & Hon).
    destruct (FileClose_run (files s) h ino (fw_files _ Hwf) Hon) as (fs & Hrun & Hwf' & Hd & Hhs & Hnx & Hother).
    exists fs, (fileOpenedNum c + -1). split_and!; [| |done|].
    + run (get_vf_run _ _ _ Hv). cbn [pfh]. change (negb (config_fsync =? 0)) with false. cbn beta iota. run_refl.
      run (LockVF_acquire v s Hh ltac:(by rewrite Hv)).
      next_by (by apply on_files_run).
      next_by (eapply put_vf_run; exact Hv).
      next_by (by apply (LockVF_release v _ RWLock_WRITE (held s)); [cbn; by rewrite lookup_insert_eq|]).
      next_by (by apply get_ctx_run). done.
    + destruct Hwf as [H1 H2 H3]. split; cbn; [done| |].
      * intros w f' h'. intros [[<- [=]]|[Hne E]]%lookup_insert_Some. rewrite Hhs, lookup_delete_ne; [by eapply H2|].
        intros <-. apply Hne. by eapply H3.
      * intros w w' f' f2 h'. intros [[<- [=]]|[Hne E]]%lookup_insert_Some [[<- [=]]|[Hne' E']]%lookup_insert_Some. by eapply H3.
    + intros w ino' Hne (f' & h' & Hw & Hon'). exists f', h'. cbn. rewrite lookup_insert_ne by done. split; [done|].
      apply Hother; [|done]. intros ->. apply Hne. by eapply (fw_own _ Hwf).
  - exists (files s), (fileOpenedNum c). destruct s as [fs l v' m sc hl b], c as [a1 a2 a3 a4]. cbn in *. subst sc. split_and!.
    + unfold get_vf, mbind, ST_bind. cbn [vfs]. rewrite Hv. cbn. by rewrite insert_id.
    + by rewrite insert_id.
    + done.
    + intros w ino _ H. by rewrite insert_id.
Qed.

(** A virtual file that is closed keeps its place. *)
Lemma smgr_ok_closed s segs v f h0 fs c c' : smgr_ok s segs -> vfs s !! v = Some (mkVF f h0) -> smgrContext s = Some c ->
  sc_vfhead c' = sc_vfhead c ->
  smgr_ok (mkSS fs (links s) (<[v := mkVF f None]> (vfs s)) (smgrs s) (Some c') (held s) (brk s)) segs.
Proof.
  intros [(c0 & Hc0 & Hh) H2 H3 H4 H5 H6] Hv Hc Hc'. split; try done.
  - exists c'. split; [done|]. rewrite Hc'. congruence.
  - eapply Forall_impl; [exact H3|]. intros g Hg. apply (seg_ok_same s); [done|done|].
    intros w f' h Hw E. cbn. destruct (decide (w = v)) as [->|Hne].
    + rewrite lookup_insert_eq. simplify_eq. eauto.
    + rewrite lookup_insert_ne by done. eauto.
  - intros a Ha. destruct (H6 a Ha) as (A & B & C). split_and!; [done| |done]. cbn.
    rewrite lookup_insert_ne; [done|]. intros ->. congruence.
Qed.

(** At the limit a new virtual file costs the first open table its file. *)
Lemma AddVFec_at_limit s g segs i x c ino : smgr_ok s (g :: segs) -> fwf s -> smgrContext s = Some c ->
  fileMaxNum c - 1 < fileOpenedNum c -> smgrs s !! i = Some x -> vfhead x = None -> vf_on s (sg_main g) ino ->
  exists s', AddVFec i MAIN_FORK s = Some (brk s, s') /\ smgr_ok s' (g :: segs ++ [mkSeg i (brk s) None]) /\ fwf s' /\
    vfs s' !! sg_main g = Some (mkVF MAIN_FORK None) /\ same_disk (files s) (files s') /\ held s' = held s.
Proof.
  intros Hok Hwf Hc Hlim Hi Hx (f & h & Hg & Hon).
  destruct (added_first s _ i x Hok Hi Hx) as (l' & c' & Hc' & Hrun & Hok'). assert (c' = c) as -> by congruence.
  set (s1 := vf_added _ _ _ _ _ _ _ _ _ _) in *. specialize (Hrun ((LB_SMGR_INFO, RWLock_WRITE) :: held s)).
  set (u := set_held ((LB_SMGR_INFO, RWLock_WRITE) :: held s) s1) in *.
  assert (fwf u) as Hwfu by (destruct (gr_wf _ _ _ (grows_added s _ i MAIN_FORK l' x (brk s) (brk s) c (hd (brk s) (all_nodes (g :: segs))) Hok Hc) Hwf); by split).
  assert (no_vf_lock (held u)) as Hvl by (constructor; [done|apply no_smgr_vf_lock, Hok]).
  assert (f = MAIN_FORK) as ->.
  { pose proof (ok_segs _ _ Hok) as Hs. inversion Hs as [|? ? Hsg _]; subst. destruct (so_main _ _ Hsg) as [h' Hm]. congruence. }
  assert (sg_main g <> brk s) as Hne.
  { intros E. apply (fresh_not_node _ _ Hok). rewrite <- E. cbn. set_solver. }
  assert (vfs u !! sg_main g = Some (mkVF MAIN_FORK (Some h))) as Hgu by (cbn; by rewrite lookup_insert_ne).
  destruct (smgr_close_run u (sg_main g) _ _ _ Hwfu Hvl eq_refl Hgu) as (fs & n & Hclose & Hwf2 & Hd & _).
  set (r := mkSS _ _ _ _ _ _ _) in *.
  assert (AddFileInfoToSmgrContext i (brk s) (with_smgr_lock (vf_alloc s (brk s) MAIN_FORK)) = Some (0, r)) as Hadd.
  { change (with_smgr_lock (vf_alloc s (brk s) MAIN_FORK)) with (set_held ((LB_SMGR_INFO, RWLock_WRITE) :: held s) (vf_alloc s (brk s) MAIN_FORK)).
    rewrite Hrun. unfold close_at_limit. rewrite (proj2 (Z.ltb_lt _ _)) by lia.
    assert ((CloseFileSmgrContext;; mret tt) u = Some (tt, r)) as E; [|by run E].
    assert (CloseFileSmgrContext u = Some (0, r)) as E; [|by run E].
    unfold CloseFileSmgrContext. next_by (by apply get_ctx_run). cbn [sc_vfhead all_nodes flat_map nodes app hd].
    assert (CloseFile_loop (S (base.size (vfs u))) (Some (sg_main g)) (Some (sg_main g)) u = Some (Some (sg_main g), u)) as El.
    { cbn [CloseFile_loop]. by run (get_vf_run _ _ _ Hgu). }
    run El. run Hclose. done. }
  exists (set_held (held s) r). split_and!; [| |by destruct Hwf2; split|cbn; by rewrite lookup_insert_eq|done|done].
  - apply (AddVFec_run i x MAIN_FORK s r); [by rewrite Hc|apply Hok|done|by rewrite Hx|exact Hadd|done|done].
  - cbn [app] in Hok'. apply (smgr_ok_closed s1 _ (sg_main g) MAIN_FORK (Some h) fs _ _ Hok' Hgu eq_refl). done.
Qed.

Lemma free_vf_run v s x : vfs s !! v = Some x ->
  free_vf v s = Some (tt, set_vfs (delete v (vfs s)) (set_links (delete v (links s)) s)).
Proof. intros H. unfold free_vf. by rewrite H. Qed.

(** [v] is closed and freed; [l] are the links with it gone. *)
Record released (v : loc) (l : dstore) (hd : option loc) (s s' : SmgrState) : Prop := {
  rl_links : links s' = delete v l;
  rl_vfs : vfs s' = delete v (vfs s);
  rl_smgrs : smgrs s' = smgrs s;
  rl_held : held s' = held s;
  rl_brk : brk s' = brk s;
  rl_ctx : exists c, smgrContext s' = Some c /\ sc_vfhead c = hd;
  rl_wf : fwf s';
  rl_disk : same_disk (files s) (files s');
  rl_on : forall w ino, w <> v -> vf_on s w ino -> vf_on s' w ino
}.

Lemma release_node s head v f h0 l c hd : fwf s -> no_vf_lock (held s) -> vfs s !! v = Some (mkVF f h0) ->
  DeleteVF head (Some v) s = Some (tt, set_smgrContext (Some (mkSC hd (fileMaxNum c) (fileOpenedNum c) (vFileNum c - 1))) (set_links l s)) ->
  exists s', (DeleteVF head (Some v);; smgr_close (Some v);; free_vf v) s = Some (tt, s') /\ released v l hd s s'.
Proof.
  intros Hwf Hh Hv Hdel. run Hdel.
  set (s1 := set_smgrContext _ _). assert (fwf s1) as Hwf1 by (destruct Hwf; by split).
  destruct (smgr_close_run s1 v f h0 _ Hwf1 Hh eq_refl Hv) as (fs & n & Hrun & Hwf2 & Hd & Hon). run Hrun.
  eexists. split; [eapply free_vf_run; cbn; apply lookup_insert_eq|].
  split; try done.
  - cbn. by rewrite delete_insert_eq.
  - eexists. split; [done|done].
  - destruct Hwf2 as [H1 H2 H3]. cbn in H2, H3. split; cbn; [done| |].
    + intros w f' h' [_ E]%lookup_delete_Some. by eapply H2.
    + intros w w' f' f2 h' [_ E]%lookup_delete_Some [_ E']%lookup_delete_Some. by eapply H3.
  - intros w ino Hne H. destruct (Hon w ino Hne H) as (f' & h' & Hw & Hon'). exists f', h'. split; [|done].
    cbn. by rewrite lookup_delete_ne.
Qed.

(** The three ways a node leaves the circle; the last does not unlink it. *)
Lemma DeleteVF_behind s a v ns1 ns2 c : smgrContext s = Some c -> a <> v ->
  circ (links s) (ns1 ++ v :: ns2) -> ns1 ++ ns2 <> [] ->
  exists l, DeleteVF (Some a) (Some v) s =
      Some (tt, set_smgrContext (Some (mkSC (sc_vfhead c) (fileMaxNum c) (fileOpenedNum c) (vFileNum c - 1))) (set_links l s)) /\
    circ l (ns1 ++ ns2) /\ frame (ns1 ++ v :: ns2) (links s) l.
Proof.
  intros Hc Hne Hcirc Hns. destruct (DelDListNode_some _ a _ _ _ Hcirc Hns) as (l & Hrun & Hc' & _ & Hf).
  exists l. split_and!; [|done|done]. unfold DeleteVF. run (get_ctx_run _ _ Hc). rewrite decide_True by congruence.
  unfold mbind at 1, ST_bind. run (links_op_run _ _ _ _ Hrun). cbn [mret ST_ret].
  run (get_ctx_run (set_links l s) c Hc). done.
Qed.

Lemma DeleteVF_head s a v ns1 ns2 c : smgrContext s = Some c -> sc_vfhead c = Some a -> a <> v ->
  circ (links s) (ns1 ++ v :: ns2) -> ns1 ++ ns2 <> [] ->
  exists l, DeleteVF (Some v) (Some v) s =
      Some (tt, set_smgrContext (Some (mkSC (sc_vfhead c) (fileMaxNum c) (fileOpenedNum c) (vFileNum c - 1))) (set_links l s)) /\
    circ l (ns1 ++ ns2) /\ frame (ns1 ++ v :: ns2) (links s) l.
Proof.
  intros Hc Hh Hne Hcirc Hns. destruct (DelDListNode_some _ a _ _ _ Hcirc Hns) as (l & Hrun & Hc' & _ & Hf).
  exists l. split_and!; [|done|done]. unfold DeleteVF. run (get_ctx_run _ _ Hc).
  rewrite decide_False by (intros H; by apply H). rewrite decide_True by (rewrite Hh; congruence).
  rewrite <- Hh in Hrun. unfold mbind at 1, ST_bind. run (links_op_run _ _ _ _ Hrun). cbn [mret ST_ret].
  run (get_ctx_run (set_links l s) c Hc). done.
Qed.

Lemma DeleteVF_first s v c : smgrContext s = Some c -> sc_vfhead c = Some v ->
  DeleteVF (Some v) (Some v) s =
    Some (tt, set_smgrContext (Some (mkSC None (fileMaxNum c) (fileOpenedNum c) (vFileNum c - 1))) (set_links (links s) s)).
Proof.
  intros Hc Hh. unfold DeleteVF. run (get_ctx_run _ _ Hc).
  rewrite decide_False by (intros H; by apply H). rewrite decide_False by (rewrite Hh; intros H; by apply H).
  unfold mbind at 1, ST_bind. cbn [put_ctx st_modify].
  run (get_ctx_run (set_smgrContext (Some (set_sc_vfhead None c)) s) _ eq_refl). done.
Qed.

Lemma circ_prev s ns1 a b ns2 : circ s (ns1 ++ a :: b :: ns2) -> exists n, s !! b = Some (mkDL a n).
Proof.
  intros H. assert (circ s ((ns1 ++ [a]) ++ b :: ns2)) as H' by (by rewrite <- app_assoc).
  apply circ_rotate in H'. simpl in H'. apply circ_head in H'. rewrite app_assoc, lastd_app in H'. eauto.
Qed.

(** What is left of the invariant when [v], no node of [segs], is released. *)
Lemma released_part v l hd s s' segs : released v l hd s s' -> v ∉ all_nodes segs ->
  (forall k, links s !! k = None -> l !! k = None) -> Forall (seg_ok s) segs -> fresh_from (brk s) s ->
  Forall (seg_ok s') segs /\ fresh_from (brk s') s'.
Proof.
  intros R Hv Hl Hs Hf. split.
  - rewrite Forall_forall in Hs |- *. intros g Hg. apply (seg_ok_same s); [by apply Hs|by rewrite (rl_smgrs _ _ _ _ _ R)|].
    intros w f h Hw E. rewrite (rl_vfs _ _ _ _ _ R), lookup_delete_ne; [eauto|].
    intros <-. apply Hv, elem_of_all_nodes. eauto.
  - intros k. rewrite (rl_brk _ _ _ _ _ R), (rl_links _ _ _ _ _ R), (rl_vfs _ _ _ _ _ R), (rl_smgrs _ _ _ _ _ R).
    intros Hk. destruct (Hf k Hk) as (A & B & C). rewrite !lookup_delete_None. auto.
Qed.

Lemma frame_keeps_none (ns : list loc) s l : frame ns s l -> (forall a, a ∈ ns -> is_Some (s !! a)) ->
  forall k, s !! k = None -> l !! k = None.
Proof. intros Hf Hm k Hk. rewrite Hf; [done|]. intros Hin. destruct (Hm k Hin). congruence. Qed.

Lemma nodup_middle {A} (l1 l2 : list A) v : NoDup (l1 ++ v :: l2) -> v ∉ l1 ++ l2.
Proof.
  intros H. apply NoDup_app in H as (_ & H1 & H2). apply NoDup_cons in H2 as [H2 _]. set_solver.
Qed.

(** Releasing a node behind another one of the circle. *)
Lemma release_behind s a v f h0 ns1 ns2 c segs : fwf s -> no_vf_lock (held s) -> smgrContext s = Some c ->
  vfs s !! v = Some (mkVF f h0) -> circ (links s) (ns1 ++ v :: ns2) -> ns1 ++ ns2 <> [] ->
  Forall (seg_ok s) segs -> all_nodes segs ⊆ ns1 ++ ns2 -> fresh_from (brk s) s ->
  (a = Some v /\ (exists b, sc_vfhead c = Some b /\ b <> v) \/ exists b, a = Some b /\ b <> v) ->
  exists s' l, (DeleteVF a (Some v);; smgr_close (Some v);; free_vf v) s = Some (tt, s') /\
    released v l (sc_vfhead c) s s' /\ circ (links s') (ns1 ++ ns2) /\ Forall (seg_ok s') segs /\ fresh_from (brk s') s'.
Proof.
  intros Hwf Hh Hc Hv Hcirc Hns Hs Hsub Hf Ha.
  assert (exists l, DeleteVF a (Some v) s =
      Some (tt, set_smgrContext (Some (mkSC (sc_vfhead c) (fileMaxNum c) (fileOpenedNum c) (vFileNum c - 1))) (set_links l s)) /\
    circ l (ns1 ++ ns2) /\ frame (ns1 ++ v :: ns2) (links s) l) as (l & Hrun & Hc' & Hfr).
  { destruct Ha as [[-> (b & Hb & Hne)]|(b & -> & Hne)]; [by eapply DeleteVF_head|by eapply DeleteVF_behind]. }
  destruct (release_node s a v f h0 l c _ Hwf Hh Hv Hrun) as (s' & Hrun' & R).
  pose proof (nodup_middle _ _ _ (proj1 Hcirc)) as Hnot.
  destruct (released_part _ _ _ _ _ segs R) as [Hs' Hf']; [set_solver| |done|done|].
  { apply (frame_keeps_none _ _ _ Hfr). intros b. by apply circ_mapped. }
  exists s', l. split_and!; try done. rewrite (rl_links _ _ _ _ _ R).
  apply (circ_frame l); [|done]. intros b Hb. apply lookup_delete_ne. intros ->. done.
Qed.

(** Releasing the first node of the manager's list. *)
Lemma release_first s v f h0 c : fwf s -> no_vf_lock (held s) -> smgrContext s = Some c -> sc_vfhead c = Some v ->
  vfs s !! v = Some (mkVF f h0) -> fresh_from (brk s) s ->
  exists s', (DeleteVF (Some v) (Some v);; smgr_close (Some v);; free_vf v) s = Some (tt, s') /\
    released v (links s) None s s' /\ fresh_from (brk s') s'.
Proof.
  intros Hwf Hh Hc Hhd Hv Hf.
  destruct (release_node s _ v f h0 _ c _ Hwf Hh Hv (DeleteVF_first _ _ _ Hc Hhd)) as (s' & Hrun & R).
  exists s'. split_and!; [done|done|].
  by destruct (released_part _ _ _ _ _ [] R ltac:(set_solver) ltac:(done) ltac:(done) Hf).
Qed.

Lemma st_seq3 {S A B C} (m1 : ST S A) (m2 : ST S B) (m3 : ST S unit) (k : ST S C) s s' :
  (m1;; m2;; m3) s = Some (tt, s') -> (m1;; m2;; m3;; k) s = k s'.
Proof.
  unfold mbind, ST_bind. destruct (m1 s) as [[? s1]|]; [|done]. destruct (m2 s1) as [[? s2]|]; [|done]. by intros ->.
Qed.

(** [s'] has the state's tables but those files of a segment that were released. *)
Record shrinks (gone : list loc) (s s' : SmgrState) : Prop := {
  sh_smgrs : smgrs s' = smgrs s;
  sh_held : held s' = held s;
  sh_wf : fwf s';
  sh_disk : same_disk (files s) (files s');
  sh_on : forall w ino, w ∉ gone -> vf_on s w ino -> vf_on s' w ino
}.

Lemma released_shrinks v l hd s s' : released v l hd s s' -> shrinks [v] s s'.
Proof. intros []. split; try done. intros w ino Hw. apply rl_on0. set_solver. Qed.

Lemma shrinks_trans g1 g2 s1 s2 s3 : shrinks g1 s1 s2 -> shrinks g2 s2 s3 -> shrinks (g1 ++ g2) s1 s3.
Proof.
  intros [A1 A2 A3 A4 A5] [B1 B2 B3 B4 B5]. split; try congruence; try done.
  - by eapply same_disk_trans.
  - intros w ino Hw H. apply B5; [set_solver|]. apply A5; [set_solver|done].
Qed.

Lemma smgrRelease_loop_run s l1 g l2 c : fwf s -> no_vf_lock (held s) -> smgrContext s = Some c ->
  circ (links s) (all_nodes (l1 ++ g :: l2)) -> Forall (seg_ok s) (l1 ++ g :: l2) -> fresh_from (brk s) s ->
  let m := sg_main g in let e := default m (sg_group g) in
  exists p u h c', on_links (get_prev e) s = Some (p, s) /\
    smgrRelease_loop (S (base.size (vfs s))) (Some m) (Some e) (Some p) s = Some (Some m, u) /\
    circ (links u) (all_nodes l1 ++ m :: all_nodes l2) /\ Forall (seg_ok u) (l1 ++ l2) /\ fresh_from (brk u) u /\
    vfs u !! m = Some (mkVF MAIN_FORK h) /\ smgrContext u = Some c' /\ sc_vfhead c' = sc_vfhead c /\
    shrinks (option_list (sg_group g)) s u.
Proof.
  intros Hwf Hh Hc Hcirc Hs Hf m e. rewrite all_nodes_app in Hcirc. simpl in Hcirc.
  apply Forall_app in Hs as [Hs1 Hs2]. inversion Hs2 as [|? ? Hsg Hs3]; subst.
  destruct (so_main _ _ Hsg) as [h Hm]. destruct (sg_group g) as [v|] eqn:Hg; simpl in Hcirc, e; unfold e.
  - destruct (so_group _ _ Hsg v Hg) as [hv Hv].
    destruct (circ_prev _ _ _ _ _ Hcirc) as [n Hn].
    assert (base.size (vfs s) <> 0%nat) as Hsz.
    { intros E. apply map_size_empty_inv in E. rewrite E in Hm. done. }
    destruct (base.size (vfs s)) as [|fuel]; [done|].
    assert (circ (links s) ((all_nodes l1 ++ [m]) ++ v :: all_nodes l2)) as Hcirc' by (by rewrite <- app_assoc).
    assert (m <> v) as Hmv.
    { pose proof (nodup_middle _ _ _ (proj1 Hcirc')). set_solver. }
    destruct (release_behind s (Some m) v _ hv _ _ c (l1 ++ l2) Hwf Hh Hc Hv Hcirc') as (u & l & Hrun & R & Hcu & Hsu & Hfu).
    { by destruct (all_nodes l1). }
    { by apply Forall_app. }
    { rewrite all_nodes_app. set_solver. }
    { done. }
    { right. eauto. }
    assert (vfs u !! m = Some (mkVF MAIN_FORK h)) as Hmu by (rewrite (rl_vfs _ _ _ _ _ R), lookup_delete_ne by done; done).
    rewrite <- app_assoc in Hcu. simpl in Hcu.
    destruct (circ_mapped _ _ m Hcu ltac:(set_solver)) as [nm Hnm].
    destruct (rl_ctx _ _ _ _ _ R) as (c' & Hc' & Hh').
    exists m, u, h, c'. split_and!; try done.
    + by apply (get_prev_run _ _ (mkDL m n)).
    + cbn [smgrRelease_loop]. rewrite decide_False by congruence.
      rewrite (st_seq3 _ _ _ _ _ _ Hrun). cbv beta. run (get_prev_run m u nm Hnm).
      by rewrite decide_True.
    + by eapply released_shrinks.
  - destruct (circ_mapped _ _ m Hcirc ltac:(set_solver)) as [nm Hnm].
    exists (prev nm), s, h, c. split_and!; try done.
    + by apply get_prev_run.
    + cbn [smgrRelease_loop]. by rewrite decide_True.
    + by apply Forall_app.
Qed.

(** Releasing a table closes and frees its files; those of the others stay as they
    are, but the manager loses them all when the table was the first it opened. *)
Lemma smgrRelease_run s l1 g l2 : smgr_ok s (l1 ++ g :: l2) -> fwf s ->
  exists s', smgrRelease (sg_smgr g) s = Some (0, s') /\
    smgr_ok s' (match l1 with [] => [] | _ => l1 ++ l2 end) /\ fwf s' /\ held s' = held s /\
    same_disk (files s) (files s') /\ smgrs s' = delete (sg_smgr g) (smgrs s) /\
    (forall w ino, w ∉ nodes g -> vf_on s w ino -> vf_on s' w ino).
Proof.
  intros Hok Hwf. destruct (ok_ctx _ _ Hok) as (c & Hc & Hhd).
  destruct (seg_smgr s _ g Hok ltac:(set_solver)) as (x & Hx & Hxh & Hxe).
  destruct (LockSmgr_acquire LOCK_EXCLUSIVE s (ok_held _ _ Hok) ltac:(by rewrite Hc) (or_intror eq_refl)) as [md Hl].
  set (s1 := set_held ((LB_SMGR_INFO, md) :: held s) s) in *.
  assert (no_vf_lock (held s1)) as Hvl by (constructor; [done|apply no_smgr_vf_lock, Hok]).
  assert (Forall (seg_ok s1) (l1 ++ g :: l2)) as Hs1.
  { eapply Forall_impl; [apply (ok_segs _ _ Hok)|]. intros g' Hg'. apply (seg_ok_same s); [done|done|eauto]. }
  assert (fwf s1) as Hwf1 by (by destruct Hwf).
  assert (fresh_from (brk s1) s1) as Hf1 by apply (ok_brk _ _ Hok).
  destruct (smgrRelease_loop_run s1 l1 g l2 c Hwf1 Hvl Hc (ok_circ _ _ Hok) Hs1 Hf1)
    as (p & u & h & c' & Hp & Hloop & Hcu & Hsu & Hfu & Hmu & Hc' & Hh' & [S1 S2 S3 S4 S5]).
  assert (held u = (LB_SMGR_INFO, md) :: held s) as Hheld by done.
  assert (exists w hd, (DeleteVF (Some (sg_main g)) (Some (sg_main g));; smgr_close (Some (sg_main g));; free_vf (sg_main g)) u = Some (tt, w) /\
    (exists l, released (sg_main g) l hd u w) /\ hd = match l1 with [] => None | _ => sc_vfhead c end /\
    circ (links w) (all_nodes (match l1 with [] => [] | _ => l1 ++ l2 end)) /\
    Forall (seg_ok w) (match l1 with [] => [] | _ => l1 ++ l2 end) /\ fresh_from (brk w) w) as (w & hd & Hrun & (l & R) & Hhdw & Hcw & Hsw & Hfw).
  { destruct l1 as [|g1 l1].
    - destruct (release_first u (sg_main g) _ h c' S3 ltac:(by rewrite Hheld) Hc' ltac:(by rewrite Hh', Hhd) Hmu Hfu)
        as (w & Hrun & R & Hfw). exists w, None. split_and!; eauto. split; [constructor|done].
    - assert (sg_main g1 <> sg_main g) as Hne.
      { pose proof (nodup_middle _ _ _ (proj1 Hcu)) as Hn. simpl in Hn. set_solver. }
      destruct (release_behind u (Some (sg_main g)) (sg_main g) _ h (all_nodes (g1 :: l1)) (all_nodes l2) c' ((g1 :: l1) ++ l2)
        S3 ltac:(by rewrite Hheld) Hc' Hmu Hcu) as (w & l & Hrun & R & Hcw & Hsw & Hfw); try done.
      { by rewrite all_nodes_app. }
      { left. split; [done|]. exists (sg_main g1). by rewrite Hh', Hhd. }
      exists w, (sc_vfhead c'). split_and!; try done; [by eexists|by rewrite all_nodes_app]. }
  pose proof (rl_held _ _ _ _ _ R) as Hheldw. rewrite Hheld in Hheldw.
  destruct (rl_ctx _ _ _ _ _ R) as (cw & Hcw' & Hhw).
  exists (set_smgrs (delete (sg_smgr g) (smgrs s)) (set_held (held s) w)). split_and!; try done.
  - unfold smgrRelease. run Hl. run (get_smgr_run _ s1 _ Hx). rewrite Hxe. run Hp. rewrite Hxh. run Hloop.
    assert (smgrs w !! sg_smgr g = Some x) as Hxw by (rewrite (rl_smgrs _ _ _ _ _ R), S1; done).
    run Hrun. run (LockSmgr_release w md (held s) ltac:(by rewrite Hcw') Hheldw).
    assert (free_smgr (sg_smgr g) (set_held (held s) w) = Some (tt, set_smgrs (delete (sg_smgr g) (smgrs s)) (set_held (held s) w))) as Hfree.
    { unfold free_smgr. cbn [smgrs set_held]. rewrite Hxw, (rl_smgrs _ _ _ _ _ R), S1. done. }
    run Hfree. done.
  - split.
    + exists cw. split; [done|]. rewrite Hhw, Hhdw. destruct l1; [done|]. by rewrite Hhd.
    + exact Hcw.
    + rewrite Forall_forall in Hsw |- *. intros g' Hg'. pose proof (Hsw g' Hg') as Hg0.
      apply (seg_ok_same w); [done| |eauto]. cbn. rewrite (rl_smgrs _ _ _ _ _ R), S1. cbn. apply lookup_delete_ne.
      intros E. pose proof (ok_ids _ _ Hok) as Hn. rewrite fmap_app, fmap_cons in Hn. apply nodup_middle in Hn.
      rewrite <- fmap_app in Hn. apply Hn. rewrite E. apply list_elem_of_fmap_2. by destruct l1; [apply not_elem_of_nil in Hg'|].
    + pose proof (ok_ids _ _ Hok) as Hn. destruct l1 as [|g1 l1]; [constructor|]. rewrite fmap_app, fmap_cons in Hn |- *.
      apply NoDup_app in Hn as (N1 & N2 & N3). apply NoDup_cons in N3 as [N3 N4]. apply NoDup_app. split_and!; [done| |done].
      intros k Hk Hk'. apply (N2 k Hk). set_solver.
    + apply Hok.
    + intros k Hk. destruct (Hfw k Hk) as (A & B & C). split_and!; [done|done|]. cbn.
      rewrite lookup_delete_None. right. rewrite (rl_smgrs _ _ _ _ _ R), S1 in C. exact C.
  - destruct (rl_wf _ _ _ _ _ R). by split.
  - eapply same_disk_trans; [exact S4|]. apply (rl_disk _ _ _ _ _ R).
  - intros v ino Hv Hon. unfold nodes in Hv. apply (rl_on _ _ _ _ _ R v ino); [set_solver|]. apply S5; [set_solver|done].
Qed.
