(* ===== verification/RelCache.v ===== *)
(** * Tables: their files and the cache of open tables

    Models the half of [src/src/sqlcore/storage/tables/tables.c] that deals with
    files, [storage/buffer/relCache.c] and [executor/exectable.c]: creating, opening,
    reading, writing and dropping a table, over [Smgr]. A table's description is the
    bytes of its [TableMetaInfo]. The cache is a list around the node [g_TblList];
    freed memory is gone from the state. *)

From stdpp Require Import strings.
From S2P Require Import Prelude Bytes DList Locks DataTypes Page PageStore TFile Smgr.

(** ** Layouts *)

Definition NAME_MAX_LEN : Z := 64.
Definition sizeof_TableMetaInfo : Z := 76.
Definition sizeof_ColumnDefInfo : Z := 76.
Definition GROUP_PAGE_HEADER_SIZE : Z := 48.
Definition PAGE_HEAD_PAGE_NUM : Z := 1.
Definition INVALID_GROUP_ID : Z := 0.
Definition ST_PAX : Z := 2.
Definition STORAGE_TYPE_SHIFT : Z := 4.

(** [TableMetaInfo] *)
Definition off_tableId : Z := 0.
Definition off_tableType : Z := 4.
Definition off_tableName : Z := 8.
Definition off_colNum : Z := 72.
Definition off_column (i : Z) : Z := 76 + i * sizeof_ColumnDefInfo.
(** [ColumnDefInfo] *)
Definition off_colType : Z := 64.
Definition off_attrIndex : Z := 68.
(** [PageDataHeader] and [GroupPageHeader] *)
Definition off_pageCnt : Z := 20.
Definition off_groupInfo_group_id : Z := 40.
Definition off_groupInfo_columnNum : Z := 44.

(** The characters in front of the terminator; reading on behind the memory faults. *)
Fixpoint c_str (p : bytes) : option bytes :=
  match p with
  | [] => None
  | c :: p => if c =? 0 then Some [] else t ← c_str p; Some (c :: t)
  end.

Definition tableName (def : bytes) : option bytes := c_str (drop (Z.to_nat off_tableName) def).

(** [sizeof(TableMetaInfo) + sizeof(ColumnDefInfo) * colNum] as an [int]. *)
Definition meta_size (colNum : Z) : Z := i32 (sizeof_TableMetaInfo + sizeof_ColumnDefInfo * colNum).

(** ** State *)

Record Relation := mkRel { databaseId : Z; relid : Z; relType : Z }.

Record TableList := mkTL {
  rel : option Relation;
  tableInfo : option bytes;
  tableDef : option bytes;
  groupInfo : option bytes;
  sgmr : option loc
}.

Definition with_rel v (t : TableList) := mkTL v (tableInfo t) (tableDef t) (groupInfo t) (sgmr t).
Definition with_tableInfo v (t : TableList) := mkTL (rel t) v (tableDef t) (groupInfo t) (sgmr t).
Definition with_tableDef v (t : TableList) := mkTL (rel t) (tableInfo t) v (groupInfo t) (sgmr t).
Definition with_groupInfo v (t : TableList) := mkTL (rel t) (tableInfo t) (tableDef t) v (sgmr t).
Definition with_sgmr v (t : TableList) := mkTL (rel t) (tableInfo t) (tableDef t) (groupInfo t) v.

(** [tlinks] has the list nodes of the linked tables and of [g_TblList]; a table in
    [tbls] without one has both links [NULL], as [AllocTblInfo] leaves them. The
    buffers of a table are values of its record. *)
Record DictState := mkDS {
  sm : SmgrState;
  tlinks : dstore;
  tbls : gmap loc TableList;
  g_TblList : option loc;
  dictionInfo : bool;
  objectId : Z;
  tbrk : loc
}.

Notation DM := (ST DictState).

Definition set_sm m (s : DictState) : DictState :=
  mkDS m (tlinks s) (tbls s) (g_TblList s) (dictionInfo s) (objectId s) (tbrk s).
Definition set_tlinks l (s : DictState) : DictState :=
  mkDS (sm s) l (tbls s) (g_TblList s) (dictionInfo s) (objectId s) (tbrk s).
Definition set_tbls t (s : DictState) : DictState :=
  mkDS (sm s) (tlinks s) t (g_TblList s) (dictionInfo s) (objectId s) (tbrk s).
Definition set_dict g i (s : DictState) : DictState :=
  mkDS (sm s) (tlinks s) (tbls s) g i (objectId s) (tbrk s).
Definition set_objectId o (s : DictState) : DictState :=
  mkDS (sm s) (tlinks s) (tbls s) (g_TblList s) (dictionInfo s) o (tbrk s).
Definition set_tbrk b (s : DictState) : DictState :=
  mkDS (sm s) (tlinks s) (tbls s) (g_TblList s) (dictionInfo s) (objectId s) b.

Definition on_sm {A} (m : FM A) : DM A := fun s =>
  '(a, x) ← m (sm s); Some (a, set_sm x s).
Definition on_tlinks {A} (m : ST dstore A) : DM A := fun s =>
  '(a, l) ← m (tlinks s); Some (a, set_tlinks l s).

Definition get_tbl (t : loc) : DM TableList := fun s => x ← tbls s !! t; Some (x, s).
Definition modify_tbl (t : loc) (f : TableList -> TableList) : DM unit := fun s =>
  x ← tbls s !! t; Some (tt, set_tbls (<[t := f x]> (tbls s)) s).
Definition alloc_tbl : DM loc := fun s =>
  let t := tbrk s in
  Some (t, set_tbrk (Pos.succ t) (set_tbls (<[t := mkTL None None None None None]> (tbls s)) s)).
Definition free_tbl (t : loc) : DM unit := fun s =>
  _ ← tbls s !! t; Some (tt, set_tbls (delete t (tbls s)) (set_tlinks (delete t (tlinks s)) s)).

Section RelCache.

(** [stale] is what [AllocMem] finds in the memory of a page it hands out. *)
Context (DataDir : bytes) (stale : bytes).

(** [n] bytes read to the front of memory that held [stale]. *)
Definition filled (bs : bytes) : bytes := bs ++ drop (length bs) stale.

Definition new_relation (relid relType : Z) : Relation := mkRel (default 0 (load_i32 stale 0)) relid relType.

Definition GetObjectId : DM Z := fun s =>
  Some (i32 (objectId s), set_objectId (u32 (objectId s + 1)) s).

(** ** tables.c *)

Definition get_tableName (t : loc) : DM bytes :=
  x ← get_tbl t; d ← st_lift (tableDef x); st_lift (tableName d).

Definition get_sgmr (t : loc) : DM loc := x ← get_tbl t; st_lift (sgmr x).

(** The result and the bytes that went to the front of the caller's page. *)
Definition TableRead (tblInfo : loc) (pageno : Z) (forkNum : ForkType) : DM (Z * bytes) :=
  i ← get_sgmr tblInfo;
  x ← on_sm (get_smgr i);
  vpos ← on_sm (SearchVF (vfhead x) forkNum);
  ready ← (match vpos with None => mret false | Some v => vf ← on_sm (get_vf v); mret (bool_decide (is_Some (pfh vf))) end);
  vpos ← (if ready : bool then mret vpos
          else name ← get_tableName tblInfo; on_sm (smgr_open DataDir (Some i) name forkNum));
  match vpos with
  | None => mret (-1, [])
  | Some v => on_sm (smgr_read v pageno)
  end.

Definition TableWrite (tblInfo : loc) (page : bytes) (forkNum : ForkType) : DM Z :=
  i ← get_sgmr tblInfo;
  x ← on_sm (get_smgr i);
  vpos ← on_sm (SearchVF (vfhead x) forkNum);
  vpos ← (match vpos with
          | Some _ => mret vpos
          | None => name ← get_tableName tblInfo; on_sm (smgr_open DataDir (Some i) name forkNum)
          end);
  match vpos with
  | None => mret (-1)
  | Some v => n ← st_lift (pageNum page); on_sm (smgr_write v n page)
  end.

Definition TableInfoInit (tblInfo : loc) : DM Z :=
  modify_tbl tblInfo (with_tableInfo (Some stale));;
  '(ret, bs) ← TableRead tblInfo PAGE_HEAD_PAGE_NUM MAIN_FORK;
  modify_tbl tblInfo (with_tableInfo (Some (filled bs)));;
  if ret <? 0 then mret (-1)
  else
    let page := filled bs in
    colNum ← st_lift (load_i32 page (PAGE_DATA_HEADER_SIZE + off_colNum));
    def ← st_lift (load page PAGE_DATA_HEADER_SIZE (meta_size colNum));
    modify_tbl tblInfo (with_tableDef (Some def));;
    id ← st_lift (load_i32 def off_tableId); type ← st_lift (load_i32 def off_tableType);
    modify_tbl tblInfo (with_rel (Some (new_relation id type)));;
    i ← get_sgmr tblInfo; x ← on_sm (get_smgr i);
    on_sm (put_smgr i (mkSI (version x) type (vfhead x) (vfend x)));;
    modify_tbl tblInfo (with_groupInfo (Some stale));;
    '(ret, bs) ← TableRead tblInfo PAGE_HEAD_PAGE_NUM GROUP_FORK;
    modify_tbl tblInfo (with_groupInfo (Some (filled bs)));;
    if ret <? 0 then get_tableName tblInfo;; mret (-1) else mret 0.

Definition TableOpen (tblInfo : loc) (name : bytes) (forkNum : ForkType) : DM Z :=
  x ← get_tbl tblInfo;
  (match sgmr x with
   | Some _ => mret tt
   | None =>
       let type := default 0 (load_i32 stale 4) in
       i ← on_sm (alloc_smgr (mkSI SMGR_VERSION type None None)); modify_tbl tblInfo (with_sgmr (Some i))
   end);;
  x ← get_tbl tblInfo;
  vfInfo ← on_sm (smgr_open DataDir (sgmr x) name forkNum);
  match vfInfo with
  | None => mret (-1)
  | Some _ => ret ← TableInfoInit tblInfo; if ret <? 0 then mret (-1) else mret 0
  end.

Definition TableCreate (tblInfo : loc) (forkNum : ForkType) : DM Z :=
  x ← get_tbl tblInfo;
  (match sgmr x with
   | Some _ => mret tt
   | None =>
       def ← st_lift (tableDef x);
       type ← st_lift (load_i32 def off_tableType);
       i ← on_sm (alloc_smgr (mkSI 1 type None None)); modify_tbl tblInfo (with_sgmr (Some i))
   end);;
  name ← get_tableName tblInfo;
  x ← get_tbl tblInfo;
  vfInfo ← on_sm (smgr_create DataDir (sgmr x) name forkNum);
  match vfInfo with
  | None =>
      i ← get_sgmr tblInfo;
      on_sm (smgrRelease i);; modify_tbl tblInfo (with_sgmr None);; mret (-1)
  | Some _ => mret 0
  end.

(** The page [TableFileMainInit] builds for the description [def] in a zeroed buffer. *)
Definition main_page (def : bytes) : option bytes :=
  let page := replicate PAGE 0 in
  tableType ← load_i32 def off_tableType; colNum ← load_i32 def off_colNum;
  page ← store32 page off_pageVersion PAGE_VERSION;
  page ← store32 page off_pageType (Z.lor PAGE_HEADER tableType);
  page ← store32 page off_pageNum PAGE_HEAD_PAGE_NUM;
  page ← store32 page off_pageCnt PAGE_HEAD_PAGE_NUM;
  let size := meta_size colNum in
  page ← store32 page off_dataOffset PAGE_DATA_HEADER_SIZE;
  page ← store32 page off_dataEndOffset (PAGE_DATA_HEADER_SIZE + size);
  bs ← load def 0 size;
  store page PAGE_DATA_HEADER_SIZE bs.

Definition TableFileMainInit (tblInfo : loc) : DM Z :=
  x ← get_tbl tblInfo;
  def ← st_lift (tableDef x);
  page ← st_lift (main_page def);
  ret ← TableWrite tblInfo page MAIN_FORK;
  x ← get_tbl tblInfo;
  (match tableInfo x with
   | Some _ => mret tt
   | None =>
       e ← st_lift (dataEndOffset page);
       bs ← st_lift (load page 0 (PAGE_DATA_HEADER_SIZE + e));
       info ← st_lift (store stale 0 bs);
       modify_tbl tblInfo (with_tableInfo (Some info))
   end);;
  mret ret.

(** The group file's first page: [gpage], a copy of the table's, is given the group
    information and, behind it, the description found in [page]. *)
Definition group_page (page gpage : bytes) : option bytes :=
  d ← dataOffset page; e ← dataEndOffset page;
  colNum ← load_i32 page (d + off_colNum);
  gpage ← store32 gpage off_groupInfo_group_id INVALID_GROUP_ID;
  gpage ← store32 gpage off_groupInfo_columnNum colNum;
  bs ← load page d (e - d);
  gpage ← store gpage GROUP_PAGE_HEADER_SIZE bs;
  gpage ← store32 gpage off_dataOffset GROUP_PAGE_HEADER_SIZE;
  store32 gpage off_dataEndOffset (GROUP_PAGE_HEADER_SIZE + (e - d)).

Definition TableFileGroupInit (tblInfo : loc) : DM Z :=
  i ← get_sgmr tblInfo;
  name ← get_tableName tblInfo;
  vf ← on_sm (smgr_open DataDir (Some i) name MAIN_FORK);
  match vf with
  | None => mret (-1)
  | Some _ =>
      '(ret, bs) ← TableRead tblInfo PAGE_HEAD_PAGE_NUM MAIN_FORK;
      if ret <? 0 then mret (-1)
      else
        x ← get_tbl tblInfo;
        page ← st_lift (tableInfo x);
        gpage ← st_lift (group_page page (filled bs));
        ret ← TableWrite tblInfo gpage GROUP_FORK;
        x ← get_tbl tblInfo;
        (match groupInfo x with
         | Some _ => mret tt
         | None => modify_tbl tblInfo (with_groupInfo (Some gpage))
         end);;
        mret ret
  end.

Definition TableFileInit (tblInfo : loc) : DM Z :=
  ret ← TableFileMainInit tblInfo;
  r ← TableFileGroupInit tblInfo;
  mret (Z.lor ret r).

Definition TableDrop (tblInfo : option loc) : DM Z :=
  match tblInfo with
  | None => mret (-1)
  | Some t =>
      name ← get_tableName t;
      ret ← on_sm (on_files (DeleteTableFile DataDir name));
      if negb (ret =? 0) then mret (-1)
      else on_sm (on_files (DeleteTableFile DataDir (snprintf_path (GROUP_FILE_PRE ++ name))))
  end.

(** ** relCache.c *)

Definition AllocTblInfo : DM loc := alloc_tbl.

Definition LockDictionary (m : RWLockMode) : DM unit :=
  i ← st_gets dictionInfo;
  if i : bool then on_sm (AcquireRWLockLocal LB_DICTIONARY_INFO m) else mret tt.
Definition ReleaseLockDictionary : DM unit :=
  i ← st_gets dictionInfo;
  if i : bool then on_sm (ReleaseRWLockLocal LB_DICTIONARY_INFO) else mret tt.

Definition InitTblInfo : DM Z :=
  i ← st_gets dictionInfo;
  (if i : bool then mret tt
   else fun s =>
     let g := tbrk s in
     Some (tt, set_tbrk (Pos.succ g) (set_dict (Some g) true (set_tlinks (<[g := mkDL g g]> (tlinks s)) s))));;
  on_sm InitSmgr;; mret 0.

Fixpoint FindTblInfo_loop (fuel : nat) (temp g : loc) (filename : bytes) : DM (option loc) :=
  match fuel with
  | O => st_fault
  | S fuel =>
      if decide (temp = g) then mret None
      else
        name ← get_tableName temp;
        if decide (filename = name) then mret (Some temp)
        else n ← on_tlinks (get_next temp); FindTblInfo_loop fuel n g filename
  end.

Definition FindTblInfo (filename : bytes) : DM (option loc) := fun s =>
  (g ← st_lift (g_TblList s);
   temp ← on_tlinks (get_next g);
   FindTblInfo_loop (S (base.size (tbls s))) temp g filename) s.

Definition SearchTblInfo (filename : bytes) : DM (option loc) :=
  LockDictionary RWLock_READ;;
  tbl ← FindTblInfo filename;
  ReleaseLockDictionary;; mret tbl.

(** The neighbours' links are not touched but for [g_TblList->next]. *)
Definition link_tbl (t : loc) : DM unit :=
  g ← st_gets g_TblList; g ← st_lift g;
  n ← on_tlinks (get_next g); p ← on_tlinks (get_prev n);
  n ← on_tlinks (get_next g);
  st_modify (fun s => set_tlinks (<[t := mkDL p n]> (tlinks s)) s);;
  on_tlinks (set_next g t).

(** The neighbours of a table whose links are not [NULL] are linked to each other. *)
Definition unlink_tbl (t : loc) : DM unit := fun s =>
  match tlinks s !! t with
  | Some _ =>
      (p ← on_tlinks (get_prev t); n ← on_tlinks (get_next t); on_tlinks (set_next p n);;
       n ← on_tlinks (get_next t); p ← on_tlinks (get_prev t); on_tlinks (set_prev n p)) s
  | None => Some (tt, s)
  end.

Definition ReleaseTblInfo (tblInfo : option loc) : DM Z :=
  match tblInfo with
  | None => mret (-1)
  | Some t =>
      LockDictionary RWLock_WRITE;;
      x ← get_tbl t;
      unlink_tbl t;;
      ReleaseLockDictionary;;
      (match sgmr x with Some i => on_sm (smgrRelease i);; mret tt | None => mret tt end);;
      free_tbl t;; mret 0
  end.

Definition LoadTblInfo (filename : bytes) : DM (option loc) :=
  LockDictionary RWLock_WRITE;;
  thisTbl ← FindTblInfo filename;
  match thisTbl with
  | Some t => ReleaseLockDictionary;; mret (Some t)
  | None =>
      t ← AllocTblInfo;
      ret ← TableOpen t filename MAIN_FORK;
      if ret <? 0 then ReleaseLockDictionary;; ReleaseTblInfo (Some t);; mret None
      else link_tbl t;; ReleaseLockDictionary;; mret (Some t)
  end.

Definition GetTableInfo (filename : option bytes) : DM (option loc) :=
  g ← st_gets g_TblList;
  match filename, g with
  | None, _ | _, None => mret None
  | Some filename, Some _ =>
      thisTbl ← SearchTblInfo filename;
      match thisTbl with Some t => mret (Some t) | None => LoadTblInfo filename end
  end.

Definition RelationCompare (rel1 rel2 : Relation) : bool :=
  (databaseId rel1 =? databaseId rel2) && (relid rel1 =? relid rel2).

Fixpoint GetTableInfoByRel_loop (fuel : nat) (temp g : loc) (r : Relation) : DM (option loc) :=
  match fuel with
  | O => st_fault
  | S fuel =>
      if decide (temp = g) then mret None
      else
        x ← get_tbl temp; tr ← st_lift (rel x);
        if RelationCompare r tr then mret (Some temp)
        else n ← on_tlinks (get_next temp); GetTableInfoByRel_loop fuel n g r
  end.

Definition GetTableInfoByRel (r : Relation) : DM (option loc) :=
  LockDictionary RWLock_READ;;
  tbl ← (fun s =>
    (g ← st_lift (g_TblList s);
     temp ← on_tlinks (get_next g);
     GetTableInfoByRel_loop (S (base.size (tbls s))) temp g r) s);
  ReleaseLockDictionary;; mret tbl.

(** The memory at [tblDef] begins with the description. *)
Definition CreateTblInfo (tblDef : option bytes) : DM (option loc) :=
  match tblDef with
  | None => mret None
  | Some tblDef =>
      name ← st_lift (tableName tblDef);
      thisTbl ← SearchTblInfo name;
      match thisTbl with
      | Some _ => mret None
      | None =>
          LockDictionary RWLock_WRITE;;
          thisTbl ← FindTblInfo name;
          match thisTbl with
          | Some _ => ReleaseLockDictionary;; mret None
          | None =>
              t ← AllocTblInfo;
              colNum ← st_lift (load_i32 tblDef off_colNum);
              def ← st_lift (load tblDef 0 (meta_size colNum));
              id ← GetObjectId;
              def ← st_lift (store32 def off_tableId id);
              modify_tbl t (with_tableDef (Some def));;
              let errret := ReleaseLockDictionary;; ReleaseTblInfo (Some t);; mret None in
              ret ← TableCreate t MAIN_FORK;
              if ret <? 0 then errret
              else
                ret ← TableCreate t GROUP_FORK;
                if ret <? 0 then errret
                else
                  type ← st_lift (load_i32 def off_tableType);
                  modify_tbl t (with_rel (Some (new_relation id type)));;
                  ret ← TableFileInit t;
                  if ret <? 0 then errret
                  else link_tbl t;; ReleaseLockDictionary;; mret (Some t)
          end
      end
  end.

Fixpoint ReleaseAll_loop (fuel : nat) (g : loc) : DM unit :=
  match fuel with
  | O => st_fault
  | S fuel =>
      n ← on_tlinks (get_next g);
      if decide (n = g) then mret tt else ReleaseTblInfo (Some n);; ReleaseAll_loop fuel g
  end.

Definition ReleaseAllTblInfoResource : DM Z := fun s =>
  match g_TblList s with
  | None => Some (-1, s)
  | Some g =>
      (ReleaseAll_loop (S (base.size (tbls s))) g;;
       st_modify (fun s => set_dict None false (set_tlinks (delete g (tlinks s)) s));; mret 0) s
  end.

(** ** exectable.c *)

Record ColumnDef := mkColumnDef { colName : bytes; colType : string }.
Record CreateStmt := mkCreateStmt { cs_tableName : bytes; ColList : list (option ColumnDef) }.

(** [snprintf] of a string into a buffer of [NAME_MAX_LEN]. *)
Definition print_name (p : bytes) (off : Z) (name : bytes) : option bytes :=
  store p off (take (Z.to_nat (NAME_MAX_LEN - 1)) name ++ [0]).

(** The type is an [enum] without negative members, an [unsigned int]: the test for a
    type that was not found compares that. [None] outside is a fault, inside a return. *)
Fixpoint create_columns (p : bytes) (i : Z) (l : list (option ColumnDef)) : option (option (bytes * Z)) :=
  match l with
  | [] => Some (Some (p, i))
  | None :: _ => Some None
  | Some column :: l =>
      let c := PAGE_DATA_HEADER_SIZE + off_column i in
      p ← print_name p c (colName column);
      let type := u32 (GetColumnType (colType column)) in
      p ← store32 p (c + off_colType) type;
      if type <? 0 then Some None
      else
        p ← store32 p (c + off_attrIndex) i;
        create_columns p (i + 1) l
  end.

(** The description [ExecCreateTable] makes in its page buffer. *)
Definition create_def (stmt : CreateStmt) : option (option bytes) :=
  p ← print_name stale (PAGE_DATA_HEADER_SIZE + off_tableName) (cs_tableName stmt);
  p ← store32 p (PAGE_DATA_HEADER_SIZE + off_tableType) (Z.shiftl ST_PAX STORAGE_TYPE_SHIFT);
  r ← create_columns p 0 (ColList stmt);
  match r with
  | None => Some None
  | Some (p, i) =>
      p ← store32 p (PAGE_DATA_HEADER_SIZE + off_colNum) i;
      Some (Some (drop (Z.to_nat PAGE_DATA_HEADER_SIZE) p))
  end.

Definition ExecCreateTable (stmt : option CreateStmt) : DM Z :=
  match stmt with
  | None => mret (-1)
  | Some stmt =>
      def ← st_lift (create_def stmt);
      match def with
      | None => mret (-1)
      | Some def =>
          tblInfo ← CreateTblInfo (Some def);
          match tblInfo with None => mret (-1) | Some _ => mret 0 end
      end
  end.

Definition ExecDropTable (stmt : option bytes) : DM Z :=
  match stmt with
  | None => mret (-1)
  | Some name =>
      tblInfo ← GetTableInfo (Some name);
      match tblInfo with
      | None => mret (-1)
      | Some _ => ret ← TableDrop tblInfo; ReleaseTblInfo tblInfo;; mret ret
      end
  end.

End RelCache.

(** ** The invariant

    [Entry]: a cached table, its name and its storage manager. The list from
    [g_TblList] holds the tables latest first; every one of them points back to
    [g_TblList] itself. *)

Record Entry := mkEntry { e_tbl : loc; e_name : bytes; e_smgr : loc }.

Fixpoint flist (s : dstore) (g : loc) (l : list loc) : Prop :=
  match l with
  | [] => True
  | t :: l => s !! t = Some (mkDL g (hd g l)) /\ flist s g l
  end.

Definition entry_ok (s : DictState) (e : Entry) : Prop :=
  exists x d r, tbls s !! e_tbl e = Some x /\ tableDef x = Some d /\ tableName d = Some (e_name e) /\
    rel x = Some r /\ sgmr x = Some (e_smgr e).

Record dict_ok (s : DictState) (g : loc) (ts : list Entry) (segs : list Seg) : Prop := {
  do_smgr : smgr_ok (sm s) segs;
  do_wf : fwf (sm s);
  do_head : g_TblList s = Some g /\ dictionInfo s = true;
  do_nodup : NoDup (g :: (e_tbl <$> ts));
  do_first : tlinks s !! g = Some (mkDL g (hd g (e_tbl <$> ts)));
  do_list : flist (tlinks s) g (e_tbl <$> ts);
  do_entries : Forall (entry_ok s) ts;
  do_order : reverse (e_smgr <$> ts) `sublist_of` (sg_smgr <$> segs);
  do_brk : forall t, (tbrk s <= t)%positive -> tbls s !! t = None /\ tlinks s !! t = None
}.

Definition find_entry (name : bytes) (ts : list Entry) : option Entry :=
  List.find (fun e => bool_decide (name = e_name e)) ts.

Lemma on_sm_run {A} (m : FM A) s a x : m (sm s) = Some (a, x) -> on_sm m s = Some (a, set_sm x s).
Proof. intros H. unfold on_sm. by rewrite H. Qed.

Lemma on_sm_same {A} (m : FM A) s a : m (sm s) = Some (a, sm s) -> on_sm m s = Some (a, s).
Proof. intros H. rewrite (on_sm_run _ _ _ _ H). by destruct s. Qed.

Lemma on_tlinks_next t s n : tlinks s !! t = Some n -> on_tlinks (get_next t) s = Some (next n, s).
Proof. intros H. unfold on_tlinks, get_next. rewrite H. by destruct s. Qed.

Lemma on_tlinks_prev t s n : tlinks s !! t = Some n -> on_tlinks (get_prev t) s = Some (prev n, s).
Proof. intros H. unfold on_tlinks, get_prev. rewrite H. by destruct s. Qed.

Lemma get_tbl_run t s x : tbls s !! t = Some x -> get_tbl t s = Some (x, s).
Proof. intros H. unfold get_tbl. by rewrite H. Qed.

Lemma modify_tbl_run t f s x : tbls s !! t = Some x ->
  modify_tbl t f s = Some (tt, set_tbls (<[t := f x]> (tbls s)) s).
Proof. intros H. unfold modify_tbl. by rewrite H. Qed.

Lemma get_tableName_run t s x d name : tbls s !! t = Some x -> tableDef x = Some d -> tableName d = Some name ->
  get_tableName t s = Some (name, s).
Proof.
  intros H1 H2 H3. unfold get_tableName. run (get_tbl_run _ _ _ H1). unfold st_lift, mbind, ST_bind. rewrite H2.
  cbn [fmap option_fmap option_map]. by rewrite H3.
Qed.

Lemma get_sgmr_run t s x i : tbls s !! t = Some x -> sgmr x = Some i -> get_sgmr t s = Some (i, s).
Proof. intros H1 H2. unfold get_sgmr. run (get_tbl_run _ _ _ H1). by rewrite H2. Qed.

(** The dictionary's lock. *)
Definition with_held h (s : DictState) : DictState := set_sm (set_held h (sm s)) s.

Lemma LockDictionary_run m s : dictionInfo s = true -> held (sm s) = [] ->
  LockDictionary m s = Some (tt, with_held [(LB_DICTIONARY_INFO, m)] s).
Proof.
  intros Hd Hh. unfold LockDictionary, st_gets, mbind, ST_bind. rewrite Hd. apply on_sm_run.
  unfold AcquireRWLockLocal. by rewrite Hh.
Qed.

Lemma ReleaseLockDictionary_run m s : dictionInfo s = true -> held (sm s) = [(LB_DICTIONARY_INFO, m)] ->
  ReleaseLockDictionary s = Some (tt, with_held [] s).
Proof.
  intros Hd Hh. unfold ReleaseLockDictionary, st_gets, mbind, ST_bind. rewrite Hd. apply on_sm_run.
  unfold ReleaseRWLockLocal, st_modify. by rewrite Hh.
Qed.

Lemma with_held_held h h' s : with_held h (with_held h' s) = with_held h s.
Proof. done. Qed.

Lemma with_held_id s : held (sm s) = [] -> with_held [] s = s.
Proof. intros H. destruct s as [[]]. cbn in *. by subst. Qed.

Lemma smgr_ok_held s segs h : smgr_ok s segs -> no_smgr_lock h -> smgr_ok (set_held h s) segs.
Proof.
  intros [H1 H2 H3 H4 H5 H6] Hh. split; try done.
  eapply Forall_impl; [exact H3|]. intros g Hg. apply (seg_ok_same s); [done|done|eauto].
Qed.

Lemma entry_ok_same s s' e : entry_ok s e -> tbls s' !! e_tbl e = tbls s !! e_tbl e -> entry_ok s' e.
Proof. unfold entry_ok. intros H ->. done. Qed.

Lemma dict_ok_held s g ts segs h : dict_ok s g ts segs -> no_smgr_lock h -> dict_ok (with_held h s) g ts segs.
Proof.
  intros [H1 H2 H3 H4 H5 H6 H7 H8 H9] Hh. split; try done.
  - by apply smgr_ok_held.
  - destruct H2. by split.
Qed.

(** ** Searching the cache *)

Lemma FindTblInfo_loop_run fuel s g ts name : (length ts < fuel)%nat -> flist (tlinks s) g (e_tbl <$> ts) ->
  Forall (entry_ok s) ts -> g ∉ e_tbl <$> ts ->
  FindTblInfo_loop fuel (hd g (e_tbl <$> ts)) g name s = Some (e_tbl <$> find_entry name ts, s).
Proof.
  revert ts. induction fuel as [|fuel IH]; intros ts Hf Hl He Hg; [lia|]. cbn [FindTblInfo_loop].
  destruct ts as [|e ts]; cbn [hd fmap list_fmap find_entry List.find]; [by rewrite decide_True|].
  cbn [fmap list_fmap] in Hg. rewrite decide_False by set_solver.
  inversion He as [|? ? (x & d & r & Hx & Hd & Hn & _) He']; subst.
  run (get_tableName_run _ _ _ _ _ Hx Hd Hn). destruct Hl as [Ht Hl]. fold (e_tbl <$> ts) in *.
  destruct (decide (name = e_name e)) as [Heq|Hne].
  - by rewrite bool_decide_eq_true_2.
  - rewrite bool_decide_eq_false_2 by done. run (on_tlinks_next _ _ _ Ht). cbn [next].
    apply IH; [simpl in Hf; lia|done|done|set_solver].
Qed.

Lemma entries_length s g ts segs : dict_ok s g ts segs -> (length ts <= base.size (tbls s))%nat.
Proof.
  intros Hok. rewrite <- size_dom, <- (length_fmap e_tbl).
  pose proof (do_nodup _ _ _ _ Hok) as Hn. apply NoDup_cons in Hn as [_ Hn].
  rewrite <- (size_list_to_set (C := gset loc) _ Hn). apply subseteq_size. intros t Ht.
  apply elem_of_list_to_set in Ht. apply list_elem_of_fmap in Ht as (e & -> & He).
  pose proof (do_entries _ _ _ _ Hok) as H. rewrite Forall_forall in H.
  destruct (H e He) as (x & d & r & Hx & _). apply elem_of_dom. by rewrite Hx.
Qed.

Lemma FindTblInfo_run s g ts segs name : dict_ok s g ts segs ->
  FindTblInfo name s = Some (e_tbl <$> find_entry name ts, s).
Proof.
  intros Hok. unfold FindTblInfo. destruct (do_head _ _ _ _ Hok) as [Hg _].
  run (st_lift_run (g_TblList s) g s Hg). run (on_tlinks_next _ _ _ (do_first _ _ _ _ Hok)). cbn [next].
  pose proof (do_nodup _ _ _ _ Hok) as Hn. apply NoDup_cons in Hn as [Hn _].
  apply FindTblInfo_loop_run; [|apply Hok..|done].
  pose proof (entries_length _ _ _ _ Hok). lia.
Qed.

Lemma SearchTblInfo_run s g ts segs name : dict_ok s g ts segs -> held (sm s) = [] ->
  SearchTblInfo name s = Some (e_tbl <$> find_entry name ts, s).
Proof.
  intros Hok Hh. unfold SearchTblInfo. destruct (do_head _ _ _ _ Hok) as [_ Hd].
  run (LockDictionary_run RWLock_READ s Hd Hh).
  assert (dict_ok (with_held [(LB_DICTIONARY_INFO, RWLock_READ)] s) g ts segs) as Hok'.
  { apply dict_ok_held; [done|]. by constructor. }
  run (FindTblInfo_run _ _ _ _ name Hok').
  run (ReleaseLockDictionary_run RWLock_READ (with_held [(LB_DICTIONARY_INFO, RWLock_READ)] s) Hd eq_refl).
  rewrite with_held_held, with_held_id by done. done.
Qed.

(** ** Reading and writing pages of a table *)

(** The table [t] has its file of the fork [f] open, on [ino]. *)
Definition fork_open (s : DictState) (segs : list Seg) (t : loc) (f : ForkType) (ino : positive) : Prop :=
  exists x sg v, tbls s !! t = Some x /\ sgmr x = Some (sg_smgr sg) /\ sg ∈ segs /\
    sg_file sg f = Some v /\ vf_on (sm s) v ino.

(** What changes between two states when only files are read or written. *)
Record same_dict (s s' : DictState) : Prop := {
  sd_tlinks : tlinks s' = tlinks s;
  sd_tbls : tbls s' = tbls s;
  sd_head : g_TblList s' = g_TblList s /\ dictionInfo s' = dictionInfo s;
  sd_brk : objectId s' = objectId s /\ tbrk s' = tbrk s
}.

Lemma same_dict_sm s x : same_dict s (set_sm x s).
Proof. by split. Qed.

Section Runs.

Context (DataDir stale : bytes).

Lemma SearchVF_fork s segs t f ino : smgr_ok (sm s) segs -> fork_open s segs t f ino ->
  exists x i y v, tbls s !! t = Some x /\ sgmr x = Some i /\ smgrs (sm s) !! i = Some y /\
    SearchVF (vfhead y) f (sm s) = Some (Some v, sm s) /\ vf_on (sm s) v ino.
Proof.
  intros Hok (x & sg & v & Hx & Hi & Hsg & Hv & Hon). destruct (seg_smgr _ _ _ Hok Hsg) as (y & Hy & Hh & _).
  exists x, (sg_smgr sg), y, v. rewrite Hh. split_and!; try done. rewrite (SearchVF_run _ _ _ f Hok Hsg). by rewrite Hv.
Qed.

Lemma TableRead_run s segs t f ino n : smgr_ok (sm s) segs -> fork_open s segs t f ino -> 1 <= n ->
  exists s', let p := page_bytes (content (files (sm s)) ino) n in
    TableRead DataDir t n f s = Some ((if decide (length p = PAGE) then PAGE_MAX_SIZE else -1, p), s') /\
    smgr_ok (sm s') segs /\ grows 0 (sm s) (sm s') /\ same_disk (files (sm s)) (files (sm s')) /\
    smgrs (sm s') = smgrs (sm s) /\ same_dict s s'.
Proof.
  intros Hok Hop Hn. destruct (SearchVF_fork _ _ _ _ _ Hok Hop) as (x & i & y & v & Hx & Hi & Hy & Hsv & Hon).
  destruct (smgr_read_run _ _ _ _ n Hok Hon Hn) as (m & Hrun & Hok' & Hg & Hd & Hsm).
  exists (set_sm m s). split_and!; try done. unfold TableRead.
  run (get_sgmr_run _ _ _ _ Hx Hi). run (on_sm_same _ _ _ (get_smgr_run _ _ _ Hy)). run (on_sm_same _ _ _ Hsv).
  destruct Hon as (f' & h & Hvf & Hh).
  assert ((vf ← on_sm (get_vf v); mret (bool_decide (is_Some (pfh vf)))) s = Some (true, s)) as E.
  { run (on_sm_same _ _ _ (get_vf_run _ _ _ Hvf)). cbn [pfh]. by rewrite bool_decide_eq_true_2. }
  run E. run_refl. by apply on_sm_run.
Qed.

Lemma TableWrite_run s segs t f ino n b : smgr_ok (sm s) segs -> fork_open s segs t f ino -> 1 <= n ->
  length b = PAGE -> pageNum b = Some n ->
  Z.of_nat (page_off n + PAGE) <= Z.of_nat (length (content (files (sm s)) ino)) + room (os (files (sm s))) ->
  exists s', TableWrite DataDir t b f s = Some (PAGE_MAX_SIZE, s') /\
    smgr_ok (sm s') segs /\ grows 0 (sm s) (sm s') /\ smgrs (sm s') = smgrs (sm s) /\
    dir (os (files (sm s'))) = dir (os (files (sm s))) /\
    inodes (os (files (sm s'))) = <[ino := write_page (content (files (sm s)) ino) n b]> (inodes (os (files (sm s)))) /\
    room (os (files (sm s'))) = room (os (files (sm s))) - Z.max 0 (Z.of_nat (page_off n + PAGE) - Z.of_nat (length (content (files (sm s)) ino))) /\
    same_dict s s'.
Proof.
  intros Hok Hop Hn Hb Hnum Hr. destruct (SearchVF_fork _ _ _ _ _ Hok Hop) as (x & i & y & v & Hx & Hi & Hy & Hsv & Hon).
  destruct (smgr_write_run _ _ _ _ n b Hok Hon Hn Hb Hr) as (m & Hrun & Hok' & Hg & Hsm & Hd & Hin & Hrm).
  exists (set_sm m s). split_and!; try done. unfold TableWrite.
  run (get_sgmr_run _ _ _ _ Hx Hi). run (on_sm_same _ _ _ (get_smgr_run _ _ _ Hy)). run (on_sm_same _ _ _ Hsv).
  run_refl. run (st_lift_run _ _ s Hnum). by apply on_sm_run.
Qed.

(** Open files stay open while others are added and used. *)
Lemma fork_open_grows k s s' segs segs' t f ino : fork_open s segs t f ino -> fwf (sm s) -> grows k (sm s) (sm s') ->
  (forall sg, sg ∈ segs -> exists sg', sg' ∈ segs' /\ sg_smgr sg' = sg_smgr sg /\ forall v, sg_file sg f = Some v -> sg_file sg' f = Some v) ->
  (forall x i, tbls s !! t = Some x -> sgmr x = Some i -> exists x', tbls s' !! t = Some x' /\ sgmr x' = Some i) ->
  fork_open s' segs' t f ino.
Proof.
  intros (x & sg & v & Hx & Hi & Hsg & Hv & Hon) Hwf Hg Hsegs Ht.
  destruct (Hsegs sg Hsg) as (sg' & Hsg' & Hid & Hf). destruct (Ht _ _ Hx Hi) as (x' & Hx' & Hi').
  exists x', sg', v. rewrite Hid. split_and!; [done|done|done|by apply Hf|by apply (gr_on _ _ _ Hg)].
Qed.

End Runs.

(** ** Opening a table *)

(** The file at [path] is the inode [ino]. *)
Definition file_at (s : SmgrState) (path : bytes) (ino : positive) : Prop :=
  dir (os (files s)) !! path = Some ino /\ is_Some (inodes (os (files s)) !! ino).

Lemma file_at_same s s' path ino : same_disk (files s) (files s') -> file_at s path ino -> file_at s' path ino.
Proof. intros (H1 & H2 & _). unfold file_at. by rewrite H1, H2. Qed.

Lemma content_same s s' ino : same_disk s s' -> content s' ino = content s ino.
Proof. intros (_ & H & _). unfold content. by rewrite H. Qed.

Lemma same_disk_refl s : same_disk s s.
Proof. done. Qed.

Lemma same_disk_eq (s s' : Files) : s' = s -> same_disk s s'.
Proof. intros ->. done. Qed.

(** What a table's first pages say: the description and the group file's header. *)
Record table_pages (s : SmgrState) (im ig : positive) (p gp def : bytes) (id type : Z) : Prop := {
  tp_main : page_bytes (content (files s) im) PAGE_HEAD_PAGE_NUM = p /\ length p = PAGE;
  tp_group : page_bytes (content (files s) ig) PAGE_HEAD_PAGE_NUM = gp /\ length gp = PAGE;
  tp_def : exists colNum, load_i32 p (PAGE_DATA_HEADER_SIZE + off_colNum) = Some colNum /\
    load p PAGE_DATA_HEADER_SIZE (meta_size colNum) = Some def;
  tp_id : load_i32 def off_tableId = Some id;
  tp_type : load_i32 def off_tableType = Some type
}.

Section Open.

Context (DataDir stale : bytes) (Hstale : length stale = PAGE).

Lemma filled_full bs : length bs = PAGE -> filled stale bs = bs.
Proof. intros H. unfold filled. rewrite drop_ge by lia. apply app_nil_r. Qed.

(** [TableRead] of a group file that is not open yet: it is opened first. *)
Lemma TableRead_group s l1 i m l2 t x d name im ino : smgr_ok (sm s) (l1 ++ mkSeg i m None :: l2) -> fwf (sm s) ->
  opened_below 0 (sm s) -> tbls s !! t = Some x -> sgmr x = Some i -> tableDef x = Some d -> tableName d = Some name ->
  file_at (sm s) (fork_path DataDir name GROUP_FORK) ino -> vf_on (sm s) m im ->
  exists s' v, let p := page_bytes (content (files (sm s)) ino) PAGE_HEAD_PAGE_NUM in
    TableRead DataDir t PAGE_HEAD_PAGE_NUM GROUP_FORK s = Some ((if decide (length p = PAGE) then PAGE_MAX_SIZE else -1, p), s') /\
    smgr_ok (sm s') (l1 ++ mkSeg i m (Some v) :: l2) /\ grows 1 (sm s) (sm s') /\
    same_disk (files (sm s)) (files (sm s')) /\ vf_on (sm s') v ino /\ same_dict s s'.
Proof.
  intros Hok Hwf Hlim Hx Hi Hd Hname [Hdir Hino] Hm.
  set (sg := mkSeg i m None). assert (sg ∈ l1 ++ sg :: l2) as Hsg by set_solver.
  destruct (seg_smgr _ _ _ Hok Hsg) as (y & Hy & Hh & _).
  destruct (GetVFec_group (sm s) l1 l2 i m Hok (opened_below_limit _ 0 ltac:(lia) Hlim)) as (s1 & Hget & Hok1 & Hg1 & Hf1 & Hv1).
  destruct (smgr_open_attach DataDir (sm s) s1 _ i GROUP_FORK name _ ino Hwf Hget Hok1 Hg1 Hf1 Hv1 Hdir Hino)
    as (s2 & Hopen & Hok2 & Hg2 & Hd2 & Hon2).
  destruct (smgr_read_run s2 _ _ _ PAGE_HEAD_PAGE_NUM Hok2 Hon2 ltac:(done)) as (s3 & Hread & Hok3 & Hg3 & Hd3 & _).
  rewrite (content_same _ _ _ Hd2) in Hread.
  exists (set_sm s3 s), (brk (sm s)). split_and!; try done.
  - unfold TableRead. run (get_sgmr_run _ _ _ _ Hx Hi). run (on_sm_same _ _ _ (get_smgr_run _ _ _ Hy)).
    pose proof (SearchVF_run _ _ sg GROUP_FORK Hok Hsg) as Hs.
    assert (vfhead y = Some m) as Hh' by exact Hh. cbn in Hs. rewrite <- Hh' in Hs.
    run (on_sm_same _ _ _ Hs). run_refl.
    assert ((name ← get_tableName t; on_sm (smgr_open DataDir (Some i) name GROUP_FORK)) s = Some (Some (brk (sm s)), set_sm s2 s)) as E.
    { run (get_tableName_run _ _ _ _ _ Hx Hd Hname). by apply on_sm_run. }
    run E. exact (on_sm_run _ (set_sm s2 s) _ _ Hread).
  - by apply (grows_trans 1 0 _ s2).
  - by eapply same_disk_trans.
  - by apply (gr_on _ _ _ Hg3 (gr_wf _ _ _ Hg2 Hwf)).
Qed.


(** The first file of a table opened by name. *)
Lemma smgr_open_main s segs i x name ino : smgr_ok s segs -> fwf s -> below_limit s ->
  smgrs s !! i = Some x -> vfhead x = None -> file_at s (fork_path DataDir name MAIN_FORK) ino ->
  exists s' v, smgr_open DataDir (Some i) name MAIN_FORK s = Some (Some v, s') /\
    smgr_ok s' (segs ++ [mkSeg i v None]) /\ grows 1 s s' /\ same_disk (files s) (files s') /\ vf_on s' v ino.
Proof.
  intros Hok Hwf Hlim Hi Hx [Hdir Hino].
  destruct (GetVFec_main s segs i x Hok Hlim Hi Hx) as (s1 & Hget & Hok1 & Hg1 & Hf1 & Hv1).
  destruct (smgr_open_attach DataDir s s1 _ i MAIN_FORK name _ ino Hwf Hget Hok1 Hg1 Hf1 Hv1 Hdir Hino) as (s2 & H). eauto.
Qed.

Lemma fork_open_last s segs t x i v w f ino : tbls s !! t = Some x -> sgmr x = Some i ->
  sg_file (mkSeg i v w) f = Some ino -> forall j, vf_on (sm s) ino j -> fork_open s (segs ++ [mkSeg i v w]) t f j.
Proof. intros Hx Hi Hf j Hj. exists x, (mkSeg i v w), ino. split_and!; try done. set_solver. Qed.

Definition opened_tbl (i : loc) (p gp def : bytes) (id type : Z) : TableList :=
  mkTL (Some (new_relation stale id type)) (Some p) (Some def) (Some gp) (Some i).

Lemma modify_tbl_ins t f x T u : modify_tbl t f (set_tbls (<[t := x]> T) u) = Some (tt, set_tbls (<[t := f x]> T) u).
Proof. unfold modify_tbl. cbn [tbls set_tbls]. rewrite lookup_insert_eq. cbn. by rewrite insert_insert_eq. Qed.

Lemma set_sm_tbls m T u : set_sm m (set_tbls T u) = set_tbls T (set_sm m u).
Proof. done. Qed.

Lemma same_dict_tbls s s' : same_dict s s' -> s' = set_tbls (tbls s) s'.
Proof. intros H. rewrite <- (sd_tbls _ _ H). by destruct s'. Qed.

Lemma TableInfoInit_run s l1 i m t im ig p gp def id type name :
  smgr_ok (sm s) (l1 ++ [mkSeg i m None]) -> fwf (sm s) -> opened_below 0 (sm s) ->
  tbls s !! t = Some (mkTL None None None None (Some i)) -> vf_on (sm s) m im ->
  file_at (sm s) (fork_path DataDir name GROUP_FORK) ig ->
  table_pages (sm s) im ig p gp def id type -> tableName def = Some name ->
  exists s' v, TableInfoInit DataDir stale t s = Some (0, s') /\ smgr_ok (sm s') (l1 ++ [mkSeg i m (Some v)]) /\
    grows 1 (sm s) (sm s') /\ same_disk (files (sm s)) (files (sm s')) /\ vf_on (sm s') v ig /\
    s' = set_tbls (<[t := opened_tbl i p gp def id type]> (tbls s)) (set_sm (sm s') s).
Proof.
  intros Hok Hwf Hlim Ht Hm Hg [[Hp Hlp] [Hgp Hlgp] (colNum & Hcn & Hdef) Hid Hty] Hname.
  set (u1 := set_tbls (<[t := mkTL None (Some stale) None None (Some i)]> (tbls s)) s).
  assert (tbls u1 !! t = Some (mkTL None (Some stale) None None (Some i))) as Hu1 by apply lookup_insert_eq.
  assert (fork_open u1 (l1 ++ [mkSeg i m None]) t MAIN_FORK im) as Hop by (eapply fork_open_last; done).
  destruct (TableRead_run DataDir u1 _ t _ _ PAGE_HEAD_PAGE_NUM Hok Hop ltac:(done)) as (u2 & Hread & Hok2 & Hg2 & Hd2 & Hsm2 & Hsd2).
  cbn [sm u1 set_tbls] in Hread, Hg2, Hd2. rewrite Hp, decide_True in Hread by done.
  destruct (seg_smgr _ _ (mkSeg i m None) Hok2 ltac:(set_solver)) as (y & Hy & Hyh & Hye). cbn in Hy.
  destruct (put_smgr_ok (sm u2) _ i y (mkSI (version y) type (vfhead y) (vfend y)) Hok2 Hy eq_refl eq_refl) as (Hput & Hok3 & Hg3).
  set (m3 := set_smgrs _ (sm u2)) in *.
  assert (grows 0 (sm s) m3) as Hg13 by (by apply (grows_trans 0 0 _ (sm u2))).
  assert (fwf m3) as Hwf3 by (by apply (gr_wf _ _ _ Hg13)).
  set (x4 := mkTL (Some (new_relation stale id type)) (Some p) (Some def) (Some stale) (Some i)).
  set (u4 := set_tbls (<[t := x4]> (tbls s)) (set_sm m3 u2)).
  assert (tbls u4 !! t = Some x4) as Hu4 by apply lookup_insert_eq.
  destruct (TableRead_group u4 l1 i m [] t x4 def name im ig Hok3 Hwf3) as (u5 & v & Hr5 & Hok5 & Hg5 & Hd5 & Hon5 & Hsd5); try done.
  { eapply grows_below; [exact Hg13|done]. }
  { by apply (file_at_same (sm s)). }
  { apply (gr_on _ _ _ Hg13); done. }
  rewrite (content_same (files (sm s))) in Hr5 by done. rewrite Hgp, decide_True in Hr5 by done.
  exists (set_tbls (<[t := opened_tbl i p gp def id type]> (tbls s)) u5), v. split_and!; [|done| | |done|].
  - unfold TableInfoInit. run (modify_tbl_run t (with_tableInfo (Some stale)) s _ Ht). fold u1. run Hread.
    assert (u2 = set_tbls (<[t := mkTL None (Some stale) None None (Some i)]> (tbls s)) u2) as Eu2
      by exact (same_dict_tbls _ _ Hsd2).
    assert (u5 = set_tbls (<[t := x4]> (tbls s)) u5) as Eu5 by exact (same_dict_tbls _ _ Hsd5).
    rewrite (filled_full _ Hlp). rewrite Eu2 at 1. next_by apply modify_tbl_ins. cbn [Z.ltb PAGE_MAX_SIZE Z.compare].
    next_by (by apply st_lift_run).
    next_by (by apply st_lift_run).
    next_by apply modify_tbl_ins.
    next_by (by apply st_lift_run).
    next_by (by apply st_lift_run).
    next_by apply modify_tbl_ins.
    next_by (eapply get_sgmr_run; [apply lookup_insert_eq|done]).
    next_by (by apply on_sm_same, get_smgr_run).
    next_by (by apply on_sm_run). rewrite set_sm_tbls.
    next_by apply modify_tbl_ins.
    next_by (exact Hr5).
    rewrite (filled_full _ Hlgp). rewrite Eu5 at 1. next_by apply modify_tbl_ins. done.
  - by apply (grows_trans 0 1 _ m3).
  - eapply same_disk_trans; [|exact Hd5]. done.
  - destruct Hsd5 as [T1 T2 [T3 T3'] [T4 T4']], Hsd2 as [S1 S2 [S3 S3'] [S4 S4']]. destruct s, u2, u5. cbn in *. subst. done.
Qed.


(** A dictionary state with the storage manager and the tables given. *)
Definition dict_with (m : SmgrState) (T : gmap loc TableList) (u : DictState) : DictState := set_tbls T (set_sm m u).

Lemma TableOpen_run s segs t name im ig p gp def id type :
  smgr_ok (sm s) segs -> fwf (sm s) -> opened_below 1 (sm s) -> tbls s !! t = Some (mkTL None None None None None) ->
  file_at (sm s) (fork_path DataDir name MAIN_FORK) im -> file_at (sm s) (fork_path DataDir name GROUP_FORK) ig ->
  table_pages (sm s) im ig p gp def id type -> tableName def = Some name ->
  exists m v w, TableOpen DataDir stale t name MAIN_FORK s =
      Some (0, dict_with m (<[t := opened_tbl (brk (sm s)) p gp def id type]> (tbls s)) s) /\
    smgr_ok m (segs ++ [mkSeg (brk (sm s)) v (Some w)]) /\ grows 2 (sm s) m /\
    same_disk (files (sm s)) (files m) /\ vf_on m v im /\ vf_on m w ig.
Proof.
  intros Hok Hwf Hlim Ht Hm Hg Hpages Hname. set (i := brk (sm s)).
  set (y := mkSI SMGR_VERSION (default 0 (load_i32 stale 4)) None None).
  destruct (alloc_smgr_run _ _ y Hok) as (s1 & Hal & Hok1 & Hg1 & Hf1 & Hi1).
  assert (same_disk (files (sm s)) (files s1)) as Hd1 by (by apply same_disk_eq).
  destruct (smgr_open_main s1 segs i y name im Hok1 (gr_wf _ _ _ Hg1 Hwf)) as (s2 & v & Hopen & Hok2 & Hg2 & Hd2 & Hon2); [|done|done| |].
  { apply (opened_below_limit _ 1); [lia|]. by eapply grows_below. }
  { by apply (file_at_same (sm s)). }
  assert (grows 1 (sm s) s2) as Hg12 by (by apply (grows_trans 0 1 _ s1)).
  assert (same_disk (files (sm s)) (files s2)) as Hd12 by (by eapply same_disk_trans).
  set (x := mkTL None None None None (Some i)).
  set (u := dict_with s2 (<[t := x]> (tbls s)) s).
  destruct (TableInfoInit_run u segs i v t im ig p gp def id type name) as (s3 & w & Hinit & Hok3 & Hg3 & Hd3 & Hon3 & Es3); try done.
  { by apply (gr_wf _ _ _ Hg12). }
  { by eapply grows_below. }
  { apply lookup_insert_eq. }
  { by apply (file_at_same (sm s)). }
  { destruct Hpages as [[A1 A2] [B1 B2] C D E]. split; [| |done..]; by rewrite (content_same _ _ _ Hd12). }
  exists (sm s3), v, w. split_and!; [|done| | | |done].
  - unfold TableOpen. run (get_tbl_run _ _ _ Ht).
    assert ((i ← on_sm (alloc_smgr y); modify_tbl t (with_sgmr (Some i))) s = Some (tt, dict_with s1 (<[t := x]> (tbls s)) s)) as E.
    { next_by (apply on_sm_run; exact Hal). erewrite modify_tbl_run by exact Ht. done. }
    run E. next_by (apply get_tbl_run, lookup_insert_eq). cbn [sgmr x].
    next_by (apply on_sm_run; exact Hopen). next_by (exact Hinit). rewrite Es3 at 1.
    unfold dict_with, u, dict_with. cbn [tbls set_tbls]. by rewrite insert_insert_eq.
  - by apply (grows_trans 1 1 _ s2).
  - by eapply same_disk_trans.
  - apply (gr_on _ _ _ Hg3); [by apply (gr_wf _ _ _ Hg12)|done].
Qed.

(** The same for a table without files: the node that was freed stays linked. *)
Lemma TableOpen_missing s segs t name : smgr_ok (sm s) segs -> below_limit (sm s) ->
  tbls s !! t = Some (mkTL None None None None None) ->
  dir (os (files (sm s))) !! fork_path DataDir name MAIN_FORK = None ->
  exists m i x v, TableOpen DataDir stale t name MAIN_FORK s =
      Some (-1, dict_with m (<[t := mkTL None None None None (Some i)]> (tbls s)) s) /\
    smgrs m !! i = Some x /\ vfend x = Some v /\ links m !! v = None /\ held m = held (sm s) /\ is_Some (smgrContext m).
Proof using Type.
  clear Hstale.
  intros Hok Hlim Ht Hdir. set (i := brk (sm s)).
  set (y := mkSI SMGR_VERSION (default 0 (load_i32 stale 4)) None None).
  destruct (alloc_smgr_run _ _ y Hok) as (s1 & Hal & Hok1 & Hg1 & Hf1 & Hi1).
  destruct (GetVFec_main s1 segs i y Hok1) as (s2 & Hget & Hok2 & Hg2 & Hf2 & Hv2); [|done|done|].
  { apply (opened_below_limit _ 0); [lia|]. eapply (grows_below 0); [exact Hg1|]. destruct Hlim as (c & Hc & Hl). exists c. split; [done|lia]. }
  destruct (seg_smgr _ _ (mkSeg i (brk s1) None) Hok2 ltac:(set_solver)) as (x & Hx & _ & Hxe).
  pose proof (smgr_open_absent DataDir s1 s2 i MAIN_FORK name _ Hget Hf2 Hv2 ltac:(by rewrite Hf1)) as Hopen.
  exists (set_vfs (delete (brk s1) (vfs s2)) (set_links (delete (brk s1) (links s2)) s2)), i, x, (brk s1).
  split_and!; [|exact Hx|exact Hxe|apply lookup_delete_eq| |by eapply (ctx_some s2)].
  - unfold TableOpen. run (get_tbl_run _ _ _ Ht).
    assert ((i ← on_sm (alloc_smgr y); modify_tbl t (with_sgmr (Some i))) s =
      Some (tt, dict_with s1 (<[t := mkTL None None None None (Some i)]> (tbls s)) s)) as E.
    { next_by (apply on_sm_run; exact Hal). erewrite modify_tbl_run by exact Ht. done. }
    run E. next_by (apply get_tbl_run, lookup_insert_eq). cbn [sgmr].
    next_by (apply on_sm_run; exact Hopen). done.
  - cbn. rewrite (gr_held _ _ _ Hg2). apply (gr_held _ _ _ Hg1).
Qed.

End Open.

(** ** Linking and loading *)

Lemma flist_insert s g l a v : a ∉ l -> flist s g l -> flist (<[a := v]> s) g l.
Proof.
  induction l as [|t l IH]; [done|]. intros Ha [H1 H2]. split; [|apply IH; [set_solver|done]].
  rewrite lookup_insert_ne by set_solver. done.
Qed.

Lemma hd_back s g ts segs : dict_ok s g ts segs ->
  exists n, tlinks s !! hd g (e_tbl <$> ts) = Some (mkDL g n).
Proof.
  intros Hok. pose proof (do_first _ _ _ _ Hok) as H1. pose proof (do_list _ _ _ _ Hok) as H2.
  destruct ts as [|e ts]; [eauto|]. destruct H2 as [H2 _]. eauto.
Qed.

Lemma entries_below s g ts segs e : dict_ok s g ts segs -> e ∈ ts -> e_tbl e <> tbrk s.
Proof.
  intros Hok He. pose proof (do_entries _ _ _ _ Hok) as H. rewrite Forall_forall in H.
  destruct (H e He) as (x & d & r & Hx & _). intros E. rewrite E in Hx.
  destruct (do_brk _ _ _ _ Hok (tbrk s) ltac:(lia)) as [Hn _]. congruence.
Qed.

Lemma link_tbl_run s u g ts segs sg e x d r : dict_ok s g ts segs ->
  tlinks u = tlinks s -> g_TblList u = g_TblList s -> dictionInfo u = dictionInfo s ->
  e_tbl e = tbrk s -> tbls u = <[tbrk s := x]> (tbls s) -> tbrk u = Pos.succ (tbrk s) ->
  smgr_ok (sm u) (segs ++ [sg]) -> fwf (sm u) ->
  tableDef x = Some d -> tableName d = Some (e_name e) -> rel x = Some r -> sgmr x = Some (e_smgr e) -> sg_smgr sg = e_smgr e ->
  exists u', link_tbl (e_tbl e) u = Some (tt, u') /\ dict_ok u' g (e :: ts) (segs ++ [sg]) /\
    sm u' = sm u /\ tbls u' = tbls u /\ objectId u' = objectId u.
Proof.
  intros Hok Hl Hg Hd Het Htb Hbr Hsm Hwf H1 H2 H3 H4 H5.
  destruct (do_head _ _ _ _ Hok) as [Hg' Hd']. destruct (hd_back _ _ _ _ Hok) as [n Hn].
  pose proof (do_first _ _ _ _ Hok) as Hfirst.
  destruct (do_brk _ _ _ _ Hok (tbrk s) ltac:(lia)) as [Hn1 Hn2].
  assert (g <> tbrk s) as Hgt by congruence.
  assert (tbrk s ∉ e_tbl <$> ts) as Hnt.
  { intros Hin. apply list_elem_of_fmap in Hin as (e' & E & He'). by apply (entries_below _ _ _ _ _ Hok He'). }
  assert (g ∉ e_tbl <$> ts) as Hgn by (pose proof (do_nodup _ _ _ _ Hok) as Hnd; by apply NoDup_cons in Hnd as [? _]).
  exists (set_tlinks (<[g := mkDL g (tbrk s)]> (<[tbrk s := mkDL g (hd g (e_tbl <$> ts))]> (tlinks s))) u).
  split_and!; [|split|done..]; cbn [sm set_tlinks g_TblList dictionInfo tlinks tbls tbrk e_tbl].
  - unfold link_tbl. rewrite Het. run_refl. next_by (apply st_lift_run; rewrite Hg; exact Hg').
    rewrite <- Hl in Hfirst, Hn. next_by (apply on_tlinks_next; exact Hfirst). cbn [next].
    next_by (apply on_tlinks_prev; exact Hn). cbn [prev]. next_by (apply on_tlinks_next; exact Hfirst). cbn [next]. run_refl.
    unfold on_tlinks, set_next. cbn [tlinks set_tlinks]. rewrite lookup_insert_ne by congruence. rewrite Hfirst. cbn. by rewrite Hl.
  - done.
  - done.
  - by rewrite Hg, Hd.
  - cbn. rewrite Het. pose proof (do_nodup _ _ _ _ Hok) as Hnd. apply NoDup_cons in Hnd as [? ?].
    apply NoDup_cons. split; [set_solver|]. by apply NoDup_cons.
  - cbn. by rewrite lookup_insert_eq, Het.
  - cbn. rewrite Het. split; [rewrite lookup_insert_ne by done; by rewrite lookup_insert_eq|].
    apply flist_insert; [done|]. apply flist_insert; [done|]. apply Hok.
  - constructor.
    + exists x, d, r. cbn. by rewrite Htb, Het, lookup_insert_eq.
    + pose proof (do_entries _ _ _ _ Hok) as He. rewrite Forall_forall in He |- *. intros e' He'.
      apply (entry_ok_same s); [by apply He|]. cbn. rewrite Htb. apply lookup_insert_ne.
      intros E. by apply (entries_below _ _ _ _ _ Hok He').
  - rewrite fmap_cons, reverse_cons, fmap_app, fmap_cons, H5. apply sublist_app; [apply Hok|done].
  - intros t. rewrite Hbr. intros Ht. destruct (do_brk _ _ _ _ Hok t ltac:(lia)) as [A B]. cbn. rewrite Htb.
    rewrite !lookup_insert_ne by (try lia; congruence). done.
Qed.

Section Load.

Context (DataDir stale : bytes) (Hstale : length stale = PAGE).

(** The steps of [LoadTblInfo] before the table is opened. *)
Lemma GetTableInfo_miss s g ts segs name : dict_ok s g ts segs -> held (sm s) = [] -> find_entry name ts = None ->
  let u := with_held [(LB_DICTIONARY_INFO, RWLock_WRITE)] s in
  let t := tbrk s in let u1 := set_tbrk (Pos.succ t) (set_tbls (<[t := mkTL None None None None None]> (tbls s)) u) in
  GetTableInfo DataDir stale (Some name) s =
    (ret ← TableOpen DataDir stale t name MAIN_FORK;
     if ret <? 0 then ReleaseLockDictionary;; ReleaseTblInfo (Some t);; mret None
     else link_tbl t;; ReleaseLockDictionary;; mret (Some t)) u1 /\
  smgr_ok (sm u1) segs /\ fwf (sm u1) /\ dictionInfo u1 = true.
Proof using Type.
  clear Hstale.
  intros Hok Hh Hf u t u1. destruct (do_head _ _ _ _ Hok) as [Hg Hd].
  assert (dict_ok u g ts segs) as Hok' by (apply dict_ok_held; [done|by constructor]).
  split_and!; [|apply (do_smgr _ _ _ _ Hok')|apply (do_wf _ _ _ _ Hok')|done].
  unfold GetTableInfo. run_refl. rewrite Hg. run (SearchTblInfo_run _ _ _ _ name Hok Hh). rewrite Hf. cbn [fmap option_fmap option_map].
  unfold LoadTblInfo. run (LockDictionary_run RWLock_WRITE s Hd Hh). fold u. run (FindTblInfo_run _ _ _ _ name Hok').
  rewrite Hf. cbn [fmap option_fmap option_map]. unfold AllocTblInfo, alloc_tbl. run_refl. done.
Qed.

Lemma set_held_files s h ino v : vf_on s v ino -> vf_on (set_held h s) v ino.
Proof. done. Qed.

(** A table that is in no cache but on the disk is opened and put in front. *)
Lemma GetTableInfo_load s g ts segs name im ig p gp def id type :
  dict_ok s g ts segs -> held (sm s) = [] -> find_entry name ts = None -> opened_below 1 (sm s) ->
  file_at (sm s) (fork_path DataDir name MAIN_FORK) im -> file_at (sm s) (fork_path DataDir name GROUP_FORK) ig ->
  table_pages (sm s) im ig p gp def id type -> tableName def = Some name ->
  exists s' i v w, GetTableInfo DataDir stale (Some name) s = Some (Some (tbrk s), s') /\
    dict_ok s' g (mkEntry (tbrk s) name i :: ts) (segs ++ [mkSeg i v (Some w)]) /\ held (sm s') = [] /\
    tbls s' !! tbrk s = Some (opened_tbl stale i p gp def id type) /\ same_disk (files (sm s)) (files (sm s')) /\
    vf_on (sm s') v im /\ vf_on (sm s') w ig.
Proof.
  intros Hok Hh Hf Hlim Hm Hg Hpages Hname.
  destruct (GetTableInfo_miss s g ts segs name Hok Hh Hf) as (Hrun & Hok1 & Hwf1 & Hd1).
  set (u1 := set_tbrk _ _) in *.
  destruct (TableOpen_run DataDir stale Hstale u1 segs (tbrk s) name im ig p gp def id type) as (m & v & w & Hopen & Hokm & Hgm & Hdm & Hv & Hw);
    try done.
  { apply lookup_insert_eq. }
  { destruct Hpages. by split. }
  set (u2 := dict_with _ _ _) in Hopen.
  destruct (link_tbl_run s u2 g ts segs (mkSeg (brk (sm s)) v (Some w)) (mkEntry (tbrk s) name (brk (sm s)))
    (opened_tbl stale (brk (sm s)) p gp def id type) def (new_relation stale id type) Hok) as (u3 & Hlink & Hok3 & Hsm3 & Htb3 & _); try done.
  { cbn. by rewrite insert_insert_eq. }
  { by apply (gr_wf _ _ _ Hgm). }
  assert (held m = [(LB_DICTIONARY_INFO, RWLock_WRITE)]) as Hhm by (by rewrite (gr_held _ _ _ Hgm)).
  exists (with_held [] u3), (brk (sm s)), v, w. split_and!.
  - rewrite Hrun. run Hopen. cbn [Z.ltb Z.compare]. cbn [e_tbl] in Hlink. run Hlink.
    next_by (apply (ReleaseLockDictionary_run RWLock_WRITE); [|rewrite Hsm3; exact Hhm]); [done|].
    destruct (do_head _ _ _ _ Hok3). done.
  - apply dict_ok_held; [done|constructor].
  - done.
  - cbn [tbls with_held set_sm]. rewrite Htb3. cbn. apply lookup_insert_eq.
  - cbn [sm with_held set_sm]. rewrite Hsm3. done.
  - cbn [sm with_held set_sm]. rewrite Hsm3. done.
  - cbn [sm with_held set_sm]. rewrite Hsm3. done.
Qed.

(** A table that is on no disk: [smgrRelease] follows the pointer to the freed node. *)
Lemma GetTableInfo_absent s g ts segs name : dict_ok s g ts segs -> held (sm s) = [] -> find_entry name ts = None ->
  below_limit (sm s) -> dir (os (files (sm s))) !! fork_path DataDir name MAIN_FORK = None ->
  GetTableInfo DataDir stale (Some name) s = None.
Proof using Type.
  clear Hstale.
  intros Hok Hh Hf Hlim Hdir.
  destruct (GetTableInfo_miss s g ts segs name Hok Hh Hf) as (Hrun & Hok1 & Hwf1 & Hd1). rewrite Hrun.
  set (u1 := set_tbrk _ _) in *.
  destruct (TableOpen_missing DataDir stale u1 segs (tbrk s) name Hok1 Hlim ltac:(apply lookup_insert_eq) Hdir)
    as (m & i & x & v & Hopen & Hi & Hxe & Hv & Hhm & Hc).
  run Hopen. cbn [Z.ltb Z.compare]. set (u2 := dict_with _ _ _).
  run (ReleaseLockDictionary_run RWLock_WRITE u2 Hd1 Hhm).
  apply st_bind_none. unfold ReleaseTblInfo.
  next_by (apply (LockDictionary_run RWLock_WRITE); done).
  next_by (apply get_tbl_run; cbn; apply lookup_insert_eq). cbn [sgmr].
  destruct (do_brk _ _ _ _ Hok (tbrk s) ltac:(lia)) as [_ Hn].
  next_by (unfold unlink_tbl; cbn; rewrite Hn; reflexivity).
  next_by (apply (ReleaseLockDictionary_run RWLock_WRITE); done).
  apply st_bind_none, st_bind_none. unfold on_sm.
  match goal with |- context [smgrRelease i ?m'] => assert (smgrRelease i m' = None) as ->; [|done] end.
  unfold smgrRelease. match goal with |- (_ ≫= _) ?m' = _ =>
    destruct (LockSmgr_acquire LOCK_EXCLUSIVE m') as [md Hl]; [constructor|done|by right|] end.
  run Hl. next_by (apply get_smgr_run; exact Hi). rewrite Hxe. apply st_bind_none.
  unfold on_links, get_prev. cbn. by rewrite Hv.
Qed.

End Load.

(** ** Releasing a table *)

Lemma split_unique {A} (l1 k1 l2 k2 : list A) x : x ∉ l1 -> x ∉ k1 -> l1 ++ x :: l2 = k1 ++ x :: k2 -> l1 = k1 /\ l2 = k2.
Proof.
  revert k1. induction l1 as [|a l1 IH]; intros [|b k1] H1 H2 E; simplify_eq/=; [done|set_solver|set_solver|].
  destruct (IH k1) as [-> ->]; [set_solver|set_solver|done|done].
Qed.

(** The tables opened before a table are those before it in the circle. *)
Lemma order_split {A} (l1 l2 s1 s2 : list A) x : NoDup (s1 ++ x :: s2) ->
  reverse (l1 ++ x :: l2) `sublist_of` s1 ++ x :: s2 -> reverse l2 `sublist_of` s1.
Proof.
  rewrite reverse_app, reverse_cons, <- app_assoc. intros Hnd (k1 & k2 & E & H1 & H2)%sublist_app_l.
  apply sublist_cons_l in H2 as (a & b & -> & H2). rewrite app_assoc in E. rewrite E in Hnd.
  assert (x ∉ k1 ++ a) as Hx by (apply nodup_middle in Hnd; set_solver).
  assert (x ∉ s1) as Hx' by (rewrite <- E in Hnd; apply nodup_middle in Hnd; set_solver).
  destruct (split_unique _ _ _ _ _ Hx' Hx E) as [-> _]. by apply sublist_inserts_r.
Qed.

Lemma flist_split s g l1 t l2 : flist s g (l1 ++ t :: l2) -> s !! t = Some (mkDL g (hd g l2)) /\ flist s g l2.
Proof. induction l1 as [|a l1 IH]; [done|]. intros [_ H]. by apply IH. Qed.

Lemma flist_same s s' g l : (forall t, t ∈ l -> s' !! t = s !! t) -> flist s g l -> flist s' g l.
Proof.
  induction l as [|t l IH]; [done|]. intros H [H1 H2]. split; [by rewrite H by set_solver|]. apply IH; [set_solver|done].
Qed.

Lemma unlink_tbl_run t g n f s : tlinks s !! t = Some (mkDL g n) -> tlinks s !! g = Some (mkDL g f) -> t <> g ->
  (n <> g -> exists m, tlinks s !! n = Some (mkDL g m)) ->
  unlink_tbl t s = Some (tt, set_tlinks (<[g := mkDL g n]> (tlinks s)) s).
Proof.
  intros Ht Hg Hne Hn. unfold unlink_tbl. rewrite Ht.
  run (on_tlinks_prev _ _ _ Ht). run (on_tlinks_next _ _ _ Ht). cbn [prev next].
  next_by (unfold on_tlinks, set_next; rewrite Hg; reflexivity). cbn [prev].
  assert (tlinks (set_tlinks (<[g := mkDL g n]> (tlinks s)) s) !! t = Some (mkDL g n)) as Ht' by (cbn; by rewrite lookup_insert_ne).
  run (on_tlinks_next _ _ _ Ht'). run (on_tlinks_prev _ _ _ Ht'). cbn [prev next].
  unfold on_tlinks, set_prev. cbn [tlinks set_tlinks]. destruct (decide (n = g)) as [->|Hng].
  - rewrite lookup_insert_eq. cbn. by rewrite insert_insert_eq.
  - rewrite lookup_insert_ne by done. destruct (Hn Hng) as [m Hm]. rewrite Hm. cbn.
    rewrite (insert_id (<[g := mkDL g n]> (tlinks s))) by (by rewrite lookup_insert_ne). done.
Qed.

Lemma free_tbl_run t s x : tbls s !! t = Some x ->
  free_tbl t s = Some (tt, set_tbls (delete t (tbls s)) (set_tlinks (delete t (tlinks s)) s)).
Proof. intros H. unfold free_tbl. by rewrite H. Qed.

(** What is cached after the table [e] is released: the tables opened before it. *)
Lemma ReleaseTblInfo_run s g l1 e l2 segs : dict_ok s g (l1 ++ e :: l2) segs -> held (sm s) = [] ->
  exists s' segs', ReleaseTblInfo (Some (e_tbl e)) s = Some (0, s') /\ dict_ok s' g l2 segs' /\ held (sm s') = [] /\
    same_disk (files (sm s)) (files (sm s')) /\ tbls s' = delete (e_tbl e) (tbls s).
Proof.
  intros Hok Hh. destruct (do_head _ _ _ _ Hok) as [Hg Hd].
  pose proof (do_entries _ _ _ _ Hok) as He. apply Forall_app in He as [_ He]. inversion He as [|? ? Hent He2]; subst.
  destruct Hent as (x & d & r & Hx & Hdef & Hname & Hrel & Hi).
  pose proof (do_order _ _ _ _ Hok) as Hord. rewrite fmap_app, fmap_cons in Hord.
  assert (e_smgr e ∈ sg_smgr <$> segs) as Hin.
  { eapply sublist_subseteq; [exact Hord|]. rewrite reverse_app, reverse_cons. set_solver. }
  apply list_elem_of_fmap in Hin as (sg & Esg & Hsg). apply list_elem_of_split in Hsg as (s1 & s2 & ->).
  rewrite fmap_app, fmap_cons, <- Esg in Hord.
  pose proof (ok_ids _ _ (do_smgr _ _ _ _ Hok)) as Hids. rewrite fmap_app, fmap_cons, <- Esg in Hids.
  apply order_split in Hord; [|done].
  pose proof (do_nodup _ _ _ _ Hok) as Hnd. rewrite fmap_app, fmap_cons in Hnd. apply NoDup_cons in Hnd as [Hgn Hnd].
  pose proof (nodup_middle _ _ _ Hnd) as Hen.
  pose proof (do_list _ _ _ _ Hok) as Hl. rewrite fmap_app, fmap_cons in Hl. apply flist_split in Hl as [Ht Hl2].
  destruct (smgrRelease_run (sm s) s1 sg s2 (do_smgr _ _ _ _ Hok) (do_wf _ _ _ _ Hok)) as (m & Hrel' & Hokm & Hwfm & Hhm & Hdm & Hsm & _).
  set (n := hd g (e_tbl <$> l2)) in *.
  set (u := set_tlinks (<[g := mkDL g n]> (tlinks s)) s).
  assert (n <> g -> exists k, tlinks s !! n = Some (mkDL g k)) as Hn.
  { intros Hne. unfold n in *. destruct l2 as [|e2 l2]; [done|]. destruct Hl2 as [Hl2 _]. eauto. }
  exists (set_tbls (delete (e_tbl e) (tbls s)) (set_tlinks (delete (e_tbl e) (tlinks u)) (set_sm m s))),
    (match s1 with [] => [] | _ => s1 ++ s2 end). split_and!; [|split| | |]; try done.
  - unfold ReleaseTblInfo. run (LockDictionary_run RWLock_WRITE s Hd Hh).
    next_by (apply get_tbl_run; exact Hx).
    next_by (apply (unlink_tbl_run _ g n (hd g (e_tbl <$> l1 ++ e :: l2))); [exact Ht|apply Hok|set_solver|exact Hn]).
    next_by (apply (ReleaseLockDictionary_run RWLock_WRITE); done).
    rewrite Hi, Esg. unfold u. clear u.
    match goal with |- context [(_ ≫= _) ?s0] => assert ((on_sm (smgrRelease (sg_smgr sg));; mret tt) s0 = Some (tt, set_sm m s0)) as E end.
    { assert (set_held [] (sm s) = sm s) as Esm by (destruct (sm s); cbn in *; by subst).
      rewrite <- Esm in Hrel' at 1. next_by (apply on_sm_run; exact Hrel'). done. }
    run E. next_by (eapply free_tbl_run; cbn; exact Hx). done.
  - apply NoDup_cons. split; [set_solver|]. apply NoDup_app in Hnd as (_ & _ & Hnd). by apply NoDup_cons in Hnd as [_ ?].
  - cbn. rewrite lookup_delete_ne by set_solver. by rewrite lookup_insert_eq.
  - cbn. apply (flist_same (tlinks s)); [|done]. intros t Ht'. rewrite lookup_delete_ne by set_solver.
    by rewrite lookup_insert_ne by set_solver.
  - rewrite Forall_forall in He2 |- *. intros e' He'. apply (entry_ok_same s); [by apply He2|]. cbn.
    apply lookup_delete_ne. intros E. apply Hen. rewrite E. set_solver.
  - destruct s1 as [|sg1 s1]; [by apply sublist_nil_r in Hord as ->|].
    rewrite fmap_app. by apply sublist_inserts_r.
  - intros t Htb. cbn in Htb. destruct (do_brk _ _ _ _ Hok t Htb) as [A B]. cbn. rewrite !lookup_delete_None. split; [by right|right].
    rewrite lookup_insert_ne; [done|]. intros <-. pose proof (do_first _ _ _ _ Hok). congruence.
  - cbn. by rewrite Hhm.
Qed.

(** ** Dropping a table *)

Lemma dict_ok_files s g ts segs f : dict_ok s g ts segs -> handles_grow (files (sm s)) f ->
  dict_ok (set_sm (set_files f (sm s)) s) g ts segs.
Proof.
  intros Hok Hf. pose proof (grows_files (sm s) f (ctx_some _ _ (do_smgr _ _ _ _ Hok)) Hf) as Hg.
  destruct Hok as [H1 H2 H3 H4 H5 H6 H7 H8 H9]. split; try done.
  - by apply smgr_ok_files.
  - by apply (gr_wf _ _ _ Hg).
Qed.

Lemma find_entry_split name ts e : find_entry name ts = Some e ->
  exists l1 l2, ts = l1 ++ e :: l2 /\ e_name e = name /\ Forall (fun e' => e_name e' <> name) l1.
Proof.
  induction ts as [|a ts IH]; [done|]. cbn. case_bool_decide as Ha.
  - intros [= <-]. exists [], ts. split_and!; [done|done|constructor].
  - intros H. destruct (IH H) as (l1 & l2 & -> & E & Hl). exists (a :: l1), l2. split_and!; [done|done|by constructor].
Qed.

Lemma find_entry_none name ts : name ∉ e_name <$> ts -> find_entry name ts = None.
Proof.
  induction ts as [|a ts IH]; [done|]. cbn. intros H. rewrite bool_decide_eq_false_2 by set_solver. apply IH. set_solver.
Qed.

Section Drop.

Context (DataDir stale : bytes).

Lemma DeleteTableFile_run name f ino : dir (os f) !! file_path DataDir name = Some ino ->
  let f' := set_os (set_dir (delete (file_path DataDir name) (dir (os f))) (os f)) f in
  DeleteTableFile DataDir name f = Some (0, f') /\ handles_grow f f'.
Proof.
  intros H f'. split; [|by apply handles_grow_fds; auto]. unfold DeleteTableFile. run_refl. cbn [compose].
  rewrite (os_access_present _ _ _ H). cbn [negb Z.eqb].
  next_by (unfold on_os, os_unlink; rewrite H; reflexivity). done.
Qed.

Lemma GetTableInfo_hit s g ts segs name e : dict_ok s g ts segs -> held (sm s) = [] -> find_entry name ts = Some e ->
  GetTableInfo DataDir stale (Some name) s = Some (Some (e_tbl e), s).
Proof.
  intros Hok Hh Hf. unfold GetTableInfo. run_refl. destruct (do_head _ _ _ _ Hok) as [-> _].
  run (SearchTblInfo_run _ _ _ _ name Hok Hh). by rewrite Hf.
Qed.

Lemma fork_name_short name f : (length name < 1000)%nat ->
  fork_name name f = match f with MAIN_FORK => name | GROUP_FORK => GROUP_FILE_PRE ++ name end.
Proof. intros H. unfold fork_name, snprintf_path, FILE_PATH_MAX_LEN. destruct f; apply take_ge; len. Qed.

Lemma ExecDropTable_run s g ts segs name e im ig : dict_ok s g ts segs -> held (sm s) = [] ->
  find_entry name ts = Some e -> (length name < 1000)%nat ->
  let pm := fork_path DataDir name MAIN_FORK in let pg := fork_path DataDir name GROUP_FORK in
  dir (os (files (sm s))) !! pm = Some im -> dir (os (files (sm s))) !! pg = Some ig -> pm <> pg ->
  exists l1 l2 s' segs', ts = l1 ++ e :: l2 /\
    ExecDropTable DataDir stale (Some name) s = Some (0, s') /\ dict_ok s' g l2 segs' /\ held (sm s') = [] /\
    dir (os (files (sm s'))) = delete pg (delete pm (dir (os (files (sm s))))) /\
    tbls s' = delete (e_tbl e) (tbls s).
Proof.
  intros Hok Hh Hf Hlen pm pg Hm Hg Hne. destruct (find_entry_split _ _ _ Hf) as (l1 & l2 & -> & Hn & _).
  pose proof (do_entries _ _ _ _ Hok) as He. rewrite Forall_forall in He.
  destruct (He e ltac:(set_solver)) as (x & d & r & Hx & Hd & Hname & _ & _). rewrite Hn in Hname.
  unfold pm, pg, fork_path in *. clear pm pg. rewrite (fork_name_short name MAIN_FORK Hlen) in Hm, Hne |- *.
  pose proof (fork_name_short name GROUP_FORK Hlen) as Eg. cbn in Eg.
  destruct (DeleteTableFile_run name (files (sm s)) im Hm) as [R1 G1]. set (f1 := set_os _ (files (sm s))) in R1, G1.
  pose proof (dict_ok_files s g _ segs f1 Hok G1) as Hok1. set (s1 := set_sm (set_files f1 (sm s)) s) in Hok1.
  assert (dir (os f1) !! file_path DataDir (fork_name name GROUP_FORK) = Some ig) as Hg1.
  { unfold f1. cbn [dir os set_os set_dir]. rewrite lookup_delete_ne by exact Hne. exact Hg. }
  destruct (DeleteTableFile_run (fork_name name GROUP_FORK) f1 ig Hg1) as [R2 G2]. set (f2 := set_os _ f1) in R2, G2.
  pose proof (dict_ok_files s1 g _ segs f2 Hok1 G2) as Hok2. set (s2 := set_sm (set_files f2 (sm s1)) s1) in Hok2.
  destruct (ReleaseTblInfo_run s2 g l1 e l2 segs Hok2 Hh) as (s3 & segs' & Hrel & Hok3 & Hh3 & (Hd3 & _) & Ht3).
  exists l1, l2, s3, segs'. split_and!; [done| |done|done|by rewrite Hd3|by rewrite Ht3].
  unfold ExecDropTable. run (GetTableInfo_hit _ _ _ _ _ _ Hok Hh Hf).
  assert (TableDrop DataDir (Some (e_tbl e)) s = Some (0, s2)) as Hdrop.
  { unfold TableDrop. run (get_tableName_run _ _ _ _ _ Hx Hd Hname).
    next_by (apply on_sm_run, on_files_run; exact R1). cbn [negb Z.eqb].
    apply on_sm_run, on_files_run. exact R2. }
  run Hdrop. run Hrel. done.
Qed.

End Drop.

(** ** Creating a table *)

(** [s'] has a new empty file at [path], the inode [ino]. *)
Definition file_added (path : bytes) (ino : positive) (s s' : SmgrState) : Prop :=
  inodes (os (files s)) !! ino = None /\ dir (os (files s')) = <[path := ino]> (dir (os (files s))) /\
  inodes (os (files s')) = <[ino := []]> (inodes (os (files s))) /\ room (os (files s')) = room (os (files s)).

(** Page one of the file [ino] is written. *)
Definition first_page_written (ino : positive) (b : bytes) (s s' : SmgrState) : Prop :=
  dir (os (files s')) = dir (os (files s)) /\
  inodes (os (files s')) = <[ino := b]> (inodes (os (files s))) /\
  room (os (files s')) = room (os (files s)) - PAGE_MAX_SIZE.

Section Create.

Context (DataDir stale : bytes).

Lemma TableCreate_first s segs t x d name type : smgr_ok (sm s) segs -> fwf (sm s) -> below_limit (sm s) ->
  tbls s !! t = Some x -> sgmr x = None -> tableDef x = Some d -> tableName d = Some name -> load_i32 d off_tableType = Some type ->
  dir (os (files (sm s))) !! fork_path DataDir name MAIN_FORK = None ->
  exists m v ino, TableCreate DataDir t MAIN_FORK s =
      Some (0, dict_with m (<[t := with_sgmr (Some (brk (sm s))) x]> (tbls s)) s) /\
    smgr_ok m (segs ++ [mkSeg (brk (sm s)) v None]) /\ grows 1 (sm s) m /\ vf_on m v ino /\
    file_added (fork_path DataDir name MAIN_FORK) ino (sm s) m.
Proof.
  intros Hok Hwf Hlim Hx Hs Hd Hname Hty Hdir. set (i := brk (sm s)). set (y := mkSI 1 type None None).
  destruct (alloc_smgr_run _ _ y Hok) as (s1 & Hal & Hok1 & Hg1 & Hf1 & Hi1).
  destruct (GetVFec_main s1 segs i y Hok1) as (s2 & Hget & Hok2 & Hg2 & Hf2 & Hv2); [|done|done|].
  { apply (opened_below_limit _ 0); [lia|]. eapply (grows_below 0); [exact Hg1|]. destruct Hlim as (c & Hc & Hl). exists c. split; [done|lia]. }
  destruct (smgr_create_attach DataDir s1 s2 _ i MAIN_FORK name _ (gr_wf _ _ _ Hg1 Hwf) Hget Hok2 Hg2 Hf2 Hv2 ltac:(by rewrite Hf1))
    as (s3 & ino & Hcr & Hok3 & Hg3 & Hon & Ha).
  exists s3, (brk s1), ino. rewrite Hf1 in Ha. split_and!; [|done| |done|exact Ha].
  - unfold TableCreate. run (get_tbl_run _ _ _ Hx). rewrite Hs.
    assert ((def ← st_lift (tableDef x); type ← st_lift (load_i32 def off_tableType);
      i ← on_sm (alloc_smgr (mkSI 1 type None None)); modify_tbl t (with_sgmr (Some i))) s =
      Some (tt, dict_with s1 (<[t := with_sgmr (Some i) x]> (tbls s)) s)) as E.
    { next_by (apply st_lift_run; exact Hd). next_by (apply st_lift_run; exact Hty).
      next_by (apply on_sm_run; exact Hal). erewrite modify_tbl_run by exact Hx. done. }
    run E. next_by (eapply get_tableName_run; [apply lookup_insert_eq|exact Hd|exact Hname]).
    next_by (apply get_tbl_run, lookup_insert_eq). cbn [sgmr with_sgmr].
    next_by (apply on_sm_run; exact Hcr). done.
  - by apply (grows_trans 0 1 _ s1).
Qed.

Lemma TableCreate_second s l1 i m t x d name ino1 : smgr_ok (sm s) (l1 ++ [mkSeg i m None]) -> fwf (sm s) -> below_limit (sm s) ->
  tbls s !! t = Some x -> sgmr x = Some i -> tableDef x = Some d -> tableName d = Some name ->
  vf_on (sm s) m ino1 -> dir (os (files (sm s))) !! fork_path DataDir name GROUP_FORK = None ->
  exists m' v ino, TableCreate DataDir t GROUP_FORK s = Some (0, set_sm m' s) /\
    smgr_ok m' (l1 ++ [mkSeg i m (Some v)]) /\ grows 1 (sm s) m' /\ vf_on m' v ino /\
    file_added (fork_path DataDir name GROUP_FORK) ino (sm s) m'.
Proof.
  intros Hok Hwf Hlim Hx Hs Hd Hname Hm Hdir.
  destruct (GetVFec_group (sm s) l1 [] i m Hok Hlim) as (s1 & Hget & Hok1 & Hg1 & Hf1 & Hv1).
  destruct (smgr_create_attach DataDir (sm s) s1 _ i GROUP_FORK name _ Hwf Hget Hok1 Hg1 Hf1 Hv1 Hdir)
    as (s3 & ino & Hcr & Hok3 & Hg3 & Hon & Ha).
  exists s3, (brk (sm s)), ino. split_and!; [|done|done|done|exact Ha].
  unfold TableCreate. run (get_tbl_run _ _ _ Hx). rewrite Hs. run_refl.
  run (get_tableName_run _ _ _ _ _ Hx Hd Hname). run (get_tbl_run _ _ _ Hx). rewrite Hs.
  next_by (apply on_sm_run; exact Hcr). done.
Qed.

(** The two first pages, from the description on. *)
Record first_pages (d page info gpage : bytes) : Prop := {
  fp_main : main_page d = Some page;
  fp_page : length page = PAGE /\ pageNum page = Some PAGE_HEAD_PAGE_NUM;
  fp_info : exists e bs, dataEndOffset page = Some e /\ load page 0 (PAGE_DATA_HEADER_SIZE + e) = Some bs /\ store stale 0 bs = Some info;
  fp_group : group_page info page = Some gpage;
  fp_gpage : length gpage = PAGE /\ pageNum gpage = Some PAGE_HEAD_PAGE_NUM
}.

Lemma write_first b : write_page [] PAGE_HEAD_PAGE_NUM b = b.
Proof. unfold write_page, overwrite, page_off, PAGE_HEAD_PAGE_NUM. simpl. by rewrite drop_nil, app_nil_r. Qed.

(** A page written to a file that was just made. *)
Lemma TableWrite_first s segs t f ino b : smgr_ok (sm s) segs -> fork_open s segs t f ino ->
  length b = PAGE -> pageNum b = Some PAGE_HEAD_PAGE_NUM -> content (files (sm s)) ino = [] ->
  PAGE_MAX_SIZE <= room (os (files (sm s))) ->
  exists m, TableWrite DataDir t b f s = Some (PAGE_MAX_SIZE, set_sm m s) /\
    smgr_ok m segs /\ grows 0 (sm s) m /\ first_page_written ino b (sm s) m.
Proof.
  intros Hok Hop Hb Hn Hc Hr.
  destruct (TableWrite_run DataDir s segs t f ino PAGE_HEAD_PAGE_NUM b Hok Hop ltac:(done) Hb Hn) as
    (s' & Hrun & Hok' & Hg & Hsm & Hd & Hi & Hrm & [T1 T2 [T3 T4] [T5 T6]]).
  { rewrite Hc. unfold page_off, PAGE_HEAD_PAGE_NUM, PAGE_MAX_SIZE in *. simpl length. lia. }
  rewrite Hc, write_first in Hi. exists (sm s'). split_and!; [|done|done|split_and!; [done|done|]].
  - rewrite Hrun. do 2 f_equal. destruct s, s'. cbn in *. by subst.
  - rewrite Hrm, Hc. unfold page_off, PAGE_HEAD_PAGE_NUM. simpl length. unfold PAGE_MAX_SIZE. lia.
Qed.

Lemma fork_open_seg s segs t x i v w f node ino : tbls s !! t = Some x -> sgmr x = Some i -> mkSeg i v w ∈ segs ->
  sg_file (mkSeg i v w) f = Some node -> vf_on (sm s) node ino -> fork_open s segs t f ino.
Proof. intros Hx Hi Hs Hf Ho. exists x, (mkSeg i v w), node. done. Qed.

(** The first page of the main file; [info] is what the table keeps of it, unless the
    copy does not fit. *)
Lemma TableFileMainInit_run s segs t x i v w im d page : smgr_ok (sm s) segs ->
  mkSeg i v (Some w) ∈ segs -> tbls s !! t = Some x -> sgmr x = Some i -> tableDef x = Some d -> tableInfo x = None ->
  vf_on (sm s) v im -> content (files (sm s)) im = [] -> PAGE_MAX_SIZE <= room (os (files (sm s))) ->
  main_page d = Some page -> length page = PAGE -> pageNum page = Some PAGE_HEAD_PAGE_NUM ->
  exists m, smgr_ok m segs /\ grows 0 (sm s) m /\ first_page_written im page (sm s) m /\
    TableFileMainInit DataDir stale t s =
      (info ← (e ← dataEndOffset page; bs ← load page 0 (PAGE_DATA_HEADER_SIZE + e); store stale 0 bs);
       Some (PAGE_MAX_SIZE, dict_with m (<[t := with_tableInfo (Some info) x]> (tbls s)) s)).
Proof.
  intros Hok Hsg Hx Hi Hd Hti Hv Hcm Hroom Hmain Hlp Hnp.
  assert (fork_open s segs t MAIN_FORK im) as Hop by (by eapply fork_open_seg).
  destruct (TableWrite_first s segs t MAIN_FORK im page Hok Hop Hlp Hnp Hcm Hroom) as (m & Hw & Hok1 & Hg1 & Hd1).
  exists m. split_and!; [done..|]. unfold TableFileMainInit. run (get_tbl_run _ _ _ Hx). next_by (apply st_lift_run; exact Hd).
  next_by (apply st_lift_run; exact Hmain). run Hw. next_by (apply get_tbl_run; exact Hx). rewrite Hti.
  unfold st_lift, mbind, ST_bind. destruct (dataEndOffset page) as [e|]; cbn; [|done].
  destruct (load page 0 _) as [bs|]; cbn; [|done].
  destruct (store stale 0 bs) as [info|]; cbn; [|done].
  unfold modify_tbl. cbn [tbls set_sm]. by rewrite Hx.
Qed.

(** The first page of the group file, from the table's description and main file. *)
Lemma TableFileGroupInit_run (Hstale : length stale = PAGE) s segs t x i v w im ig d name page info gpage : smgr_ok (sm s) segs -> fwf (sm s) ->
  mkSeg i v (Some w) ∈ segs -> tbls s !! t = Some x -> sgmr x = Some i -> tableDef x = Some d -> tableName d = Some name ->
  tableInfo x = Some info -> groupInfo x = None -> vf_on (sm s) v im -> vf_on (sm s) w ig ->
  inodes (os (files (sm s))) !! im = Some page -> length page = PAGE -> content (files (sm s)) ig = [] ->
  PAGE_MAX_SIZE <= room (os (files (sm s))) -> group_page info page = Some gpage -> length gpage = PAGE -> pageNum gpage = Some PAGE_HEAD_PAGE_NUM ->
  exists m, TableFileGroupInit DataDir stale t s = Some (PAGE_MAX_SIZE, dict_with m (<[t := with_groupInfo (Some gpage) x]> (tbls s)) s) /\
    smgr_ok m segs /\ grows 0 (sm s) m /\ first_page_written ig gpage (sm s) m.
Proof.
  intros Hok Hwf Hsg Hx Hi Hd Hname Hti Hgi Hv Hw Him Hlp Hcg Hroom Hgroup Hlg Hng.
  assert (fork_open s segs t MAIN_FORK im) as Hop by (by eapply fork_open_seg).
  pose proof (smgr_open_again DataDir (sm s) segs (mkSeg i v (Some w)) MAIN_FORK name v im Hok Hsg eq_refl Hv) as Hagain. cbn [sg_smgr] in Hagain.
  assert (page_bytes (content (files (sm s)) im) PAGE_HEAD_PAGE_NUM = page) as Hpb.
  { unfold content. rewrite Him. cbn [default]. unfold page_bytes. change (page_off PAGE_HEAD_PAGE_NUM) with 0%nat.
    rewrite drop_0. apply take_ge. by rewrite Hlp. }
  destruct (TableRead_run DataDir s segs t MAIN_FORK im PAGE_HEAD_PAGE_NUM Hok Hop ltac:(done))
    as (u & Hread & Hok2 & Hg2 & (Hdd & Hdi & Hdr) & Hsm2 & Hsd).
  rewrite Hpb, decide_True in Hread by done.
  assert (tbls u !! t = Some x) as Hu by (by rewrite (sd_tbls _ _ Hsd)).
  assert (fork_open u segs t GROUP_FORK ig) as Hop2 by (eapply fork_open_seg; [done..|by apply (gr_on _ _ _ Hg2)]).
  assert (content (files (sm u)) ig = []) as Hcg2 by (unfold content; rewrite Hdi; exact Hcg).
  destruct (TableWrite_first u segs t GROUP_FORK ig gpage Hok2 Hop2 Hlg Hng Hcg2) as (m & Hw3 & Hok3 & Hg3 & Hd3 & Hi3 & Hr3).
  { by rewrite Hdr. }
  exists m. split_and!; [|done|by apply (grows_trans 0 0 _ (sm u))|].
  - unfold TableFileGroupInit. run (get_sgmr_run _ _ _ _ Hx Hi). run (get_tableName_run _ _ _ _ _ Hx Hd Hname).
    next_by (apply on_sm_same; exact Hagain). run Hread. cbn [Z.ltb PAGE_MAX_SIZE Z.compare].
    run (get_tbl_run _ _ _ Hu). next_by (apply st_lift_run; exact Hti).
    rewrite (filled_full stale Hstale _ Hlp). next_by (apply st_lift_run; exact Hgroup).
    run Hw3. next_by (apply get_tbl_run; exact Hu). rewrite Hgi.
    next_by (apply modify_tbl_run; exact Hu). apply st_ret_eq; [done|].
    destruct Hsd as [T1 T2 [T3 T4] [T5 T6]]. unfold dict_with. destruct s, u. cbn in *. by subst.
  - split_and!; [by rewrite Hd3|by rewrite Hi3, Hdi|by rewrite Hr3, Hdr].
Qed.

Lemma TableFileInit_run (Hstale : length stale = PAGE) s segs t x i v w im ig d name page info gpage : smgr_ok (sm s) segs -> fwf (sm s) ->
  mkSeg i v (Some w) ∈ segs -> tbls s !! t = Some x -> sgmr x = Some i -> tableDef x = Some d -> tableName d = Some name ->
  tableInfo x = None -> groupInfo x = None ->
  vf_on (sm s) v im -> vf_on (sm s) w ig -> im <> ig ->
  content (files (sm s)) im = [] -> content (files (sm s)) ig = [] ->
  2 * PAGE_MAX_SIZE <= room (os (files (sm s))) -> first_pages d page info gpage ->
  exists m, TableFileInit DataDir stale t s =
      Some (PAGE_MAX_SIZE, dict_with m (<[t := with_groupInfo (Some gpage) (with_tableInfo (Some info) x)]> (tbls s)) s) /\
    smgr_ok m segs /\ grows 0 (sm s) m /\ dir (os (files m)) = dir (os (files (sm s))) /\
    inodes (os (files m)) = <[ig := gpage]> (<[im := page]> (inodes (os (files (sm s))))) /\
    room (os (files m)) = room (os (files (sm s))) - 2 * PAGE_MAX_SIZE.
Proof.
  intros Hok Hwf Hsg Hx Hi Hd Hname Hti Hgi Hv Hw Hne Hcm Hcg Hroom
    [Hmain [Hlp Hnp] (e & bs & He & Hbs & Hinfo) Hgroup [Hlg Hng]].
  destruct (TableFileMainInit_run s segs t x i v w im d page) as (m1 & Hok1 & Hg1 & (Hd1 & Hi1 & Hr1) & Hminit); try done;
    [unfold PAGE_MAX_SIZE in *; lia|].
  rewrite He in Hminit. cbn [mbind option_bind] in Hminit. rewrite Hbs in Hminit. cbn [mbind option_bind] in Hminit.
  rewrite Hinfo in Hminit. cbn [mbind option_bind] in Hminit.
  set (x1 := with_tableInfo (Some info) x) in *. set (u1 := dict_with m1 (<[t := x1]> (tbls s)) s) in *.
  destruct (TableFileGroupInit_run Hstale u1 segs t x1 i v w im ig d name page info gpage) as (m & Hginit & Hok2 & Hg2 & (Hd2 & Hi2 & Hr2)); try done.
  { by apply (gr_wf _ _ _ Hg1). }
  { apply lookup_insert_eq. }
  { by apply (gr_on _ _ _ Hg1). }
  { by apply (gr_on _ _ _ Hg1). }
  { cbn. by rewrite Hi1, lookup_insert_eq. }
  { unfold content in *. cbn. rewrite Hi1, lookup_insert_ne by done. exact Hcg. }
  { cbn. rewrite Hr1. unfold PAGE_MAX_SIZE in *. lia. }
  exists m. split_and!; [|done|by apply (grows_trans 0 0 _ m1)|by rewrite Hd2|by rewrite Hi2; cbn; rewrite Hi1|rewrite Hr2; cbn; rewrite Hr1; lia].
  unfold TableFileInit. run Hminit. run Hginit. apply st_ret_eq; [done|].
  unfold u1, dict_with. cbn [tbls set_tbls set_sm]. by rewrite insert_insert_eq.
Qed.

(** What is made of a description: [def] with the table's number, and the pages. *)
Record described (tblDef : bytes) (id : Z) (name def : bytes) (type : Z) (page info gpage : bytes) : Prop := {
  ds_name : tableName tblDef = Some name;
  ds_def : exists colNum def0, load_i32 tblDef off_colNum = Some colNum /\ load tblDef 0 (meta_size colNum) = Some def0 /\
    store32 def0 off_tableId id = Some def;
  ds_name' : tableName def = Some name;
  ds_type : load_i32 def off_tableType = Some type;
  ds_pages : first_pages def page info gpage
}.

Lemma created_inode (m : gmap positive bytes) k1 k2 p1 p2 : k1 <> k2 ->
  default [] ((<[k2 := p2]> (<[k1 := p1]> m)) !! k1) = p1 /\ default [] ((<[k2 := p2]> (<[k1 := p1]> m)) !! k2) = p2.
Proof. intros H. rewrite lookup_insert_eq, lookup_insert_ne, lookup_insert_eq by done. done. Qed.

(** What [CreateTblInfo] has when its two files are there: the new table, open on two
    empty inodes, under the dictionary's lock. *)
Record files_made (s u : DictState) (segs : list Seg) (name def : bytes) (type : Z) (i v w : loc) (im ig : positive) : Prop := {
  fm_ok : smgr_ok (sm u) (segs ++ [mkSeg i v (Some w)]) /\ fwf (sm u) /\ held (sm u) = [(LB_DICTIONARY_INFO, RWLock_WRITE)];
  fm_tbl : tbls u = <[tbrk s := mkTL (Some (new_relation stale (i32 (objectId s)) type)) None (Some def) None (Some i)]> (tbls s);
  fm_rest : tlinks u = tlinks s /\ g_TblList u = g_TblList s /\ dictionInfo u = dictionInfo s /\ tbrk u = Pos.succ (tbrk s);
  fm_on : vf_on (sm u) v im /\ vf_on (sm u) w ig /\ im <> ig;
  fm_dir : dir (os (files (sm u))) = <[fork_path DataDir name GROUP_FORK := ig]> (<[fork_path DataDir name MAIN_FORK := im]> (dir (os (files (sm s)))));
  fm_inodes : inodes (os (files (sm u))) = <[ig := []]> (<[im := []]> (inodes (os (files (sm s)))));
  fm_room : room (os (files (sm u))) = room (os (files (sm s)));
  fm_opened : forall k, opened_below (2 + k) (sm s) -> opened_below k (sm u)
}.

Lemma CreateTblInfo_files s g ts segs tblDef name def0 def type colNum :
  dict_ok s g ts segs -> held (sm s) = [] -> find_entry name ts = None -> opened_below 1 (sm s) ->
  let pm := fork_path DataDir name MAIN_FORK in let pg := fork_path DataDir name GROUP_FORK in
  dir (os (files (sm s))) !! pm = None -> dir (os (files (sm s))) !! pg = None -> pm <> pg ->
  tableName tblDef = Some name -> load_i32 tblDef off_colNum = Some colNum -> load tblDef 0 (meta_size colNum) = Some def0 ->
  store32 def0 off_tableId (i32 (objectId s)) = Some def -> tableName def = Some name -> load_i32 def off_tableType = Some type ->
  exists u i v w im ig, files_made s u segs name def type i v w im ig /\
    CreateTblInfo DataDir stale (Some tblDef) s =
      (ret ← TableFileInit DataDir stale (tbrk s);
       if ret <? 0 then ReleaseLockDictionary;; ReleaseTblInfo (Some (tbrk s));; mret None
       else link_tbl (tbrk s);; ReleaseLockDictionary;; mret (Some (tbrk s))) u.
Proof.
  intros Hok Hh Hf Hlim pm pg Hpm Hpg Hne Hn Hcn Hdef0 Hdef Hname Hty.
  destruct (do_head _ _ _ _ Hok) as [Hg Hd]. set (t := tbrk s).
  set (u := with_held [(LB_DICTIONARY_INFO, RWLock_WRITE)] s).
  assert (dict_ok u g ts segs) as Hok' by (apply dict_ok_held; [done|by constructor]).
  set (x := mkTL None None (Some def) None None).
  set (u1 := set_tbrk (Pos.succ t) (set_objectId (u32 (objectId s + 1)) (set_tbls (<[t := x]> (tbls s)) u))).
  assert (tbls u1 !! t = Some x) as Hx by apply lookup_insert_eq.
  destruct (TableCreate_first u1 segs t x def name type) as (m1 & v & im & Hc1 & Hok1 & Hg1 & Hv & Hi1 & Hd1 & Hin1 & Hr1); try done.
  { apply Hok'. }
  { apply Hok'. }
  { by apply (opened_below_limit _ 1); [lia|]. }
  set (i := brk (sm u1)) in *. set (x1 := with_sgmr (Some i) x) in *. set (u2 := dict_with m1 _ u1) in Hc1.
  assert (tbls u2 !! t = Some x1) as Hx1 by apply lookup_insert_eq.
  assert (fwf m1) as Hwf1 by (apply (gr_wf _ _ _ Hg1), Hok').
  destruct (TableCreate_second u2 segs i v t x1 def name im Hok1 Hwf1) as (m2 & w & ig & Hc2 & Hok2 & Hg2 & Hw & Hi2 & Hd2 & Hin2 & Hr2); try done.
  { eapply (opened_below_limit _ 0); [lia|]. by apply (grows_below 1 0 _ _ Hg1). }
  { cbn. rewrite Hd1. rewrite lookup_insert_ne by done. done. }
  assert (im <> ig) as Hig.
  { intros ->. cbn in Hi2. rewrite Hin1, lookup_insert_eq in Hi2. done. }
  set (x2 := with_rel (Some (new_relation stale (i32 (objectId s)) type)) x1).
  exists (dict_with m2 (<[t := x2]> (tbls s)) u1), i, v, w, im, ig. split; [split|].
  - split_and!; [done|by apply (gr_wf _ _ _ Hg2)|]. cbn. rewrite (gr_held _ _ _ Hg2). cbn. by rewrite (gr_held _ _ _ Hg1).
  - done.
  - done.
  - split_and!; [by apply (gr_on _ _ _ Hg2)|done|done].
  - cbn. rewrite Hd2. cbn. by rewrite Hd1.
  - cbn. rewrite Hin2. cbn. by rewrite Hin1.
  - cbn. rewrite Hr2. cbn. by rewrite Hr1.
  - intros k Hk. apply (grows_below _ _ _ _ Hg2), (grows_below _ _ _ _ Hg1). by rewrite Z.add_assoc.
  - unfold CreateTblInfo. next_by (apply st_lift_run; exact Hn). run (SearchTblInfo_run _ _ _ _ name Hok Hh). rewrite Hf.
    cbn [fmap option_fmap option_map]. run (LockDictionary_run RWLock_WRITE s Hd Hh). fold u. run (FindTblInfo_run _ _ _ _ name Hok').
    rewrite Hf. cbn [fmap option_fmap option_map]. unfold AllocTblInfo, alloc_tbl. run_refl.
    next_by (apply st_lift_run; exact Hcn). next_by (apply st_lift_run; exact Hdef0).
    unfold GetObjectId. run_refl. next_by (apply st_lift_run; exact Hdef).
    next_by (apply modify_tbl_run; apply lookup_insert_eq). cbn [tbls set_objectId set_tbrk set_tbls]. rewrite insert_insert_eq.
    next_by (exact Hc1). cbn [Z.ltb Z.compare]. next_by (exact Hc2). cbn [Z.ltb Z.compare].
    next_by (apply st_lift_run; exact Hty). next_by (apply modify_tbl_run; exact Hx1).
    match goal with |- _ ?st = _ ?st' => replace st with st' by (unfold u2, dict_with, u1; cbn; by rewrite !insert_insert_eq) end. done.
Qed.

Lemma CreateTblInfo_run (Hstale : length stale = PAGE) s g ts segs tblDef name def type page info gpage :
  dict_ok s g ts segs -> held (sm s) = [] -> find_entry name ts = None -> opened_below 1 (sm s) ->
  let pm := fork_path DataDir name MAIN_FORK in let pg := fork_path DataDir name GROUP_FORK in
  dir (os (files (sm s))) !! pm = None -> dir (os (files (sm s))) !! pg = None -> pm <> pg ->
  2 * PAGE_MAX_SIZE <= room (os (files (sm s))) ->
  described tblDef (i32 (objectId s)) name def type page info gpage ->
  exists s' i v w im ig, CreateTblInfo DataDir stale (Some tblDef) s = Some (Some (tbrk s), s') /\
    dict_ok s' g (mkEntry (tbrk s) name i :: ts) (segs ++ [mkSeg i v (Some w)]) /\ held (sm s') = [] /\
    dir (os (files (sm s'))) = <[pg := ig]> (<[pm := im]> (dir (os (files (sm s))))) /\
    inodes (os (files (sm s'))) !! im = Some page /\ inodes (os (files (sm s'))) !! ig = Some gpage /\
    room (os (files (sm s'))) = room (os (files (sm s))) - 2 * PAGE_MAX_SIZE /\
    (forall k, opened_below (2 + k) (sm s) -> opened_below k (sm s')).
Proof.
  intros Hok Hh Hf Hlim pm pg Hpm Hpg Hne Hroom [Hn (colNum & def0 & Hcn & Hdef0 & Hdef) Hname Hty Hpages].
  destruct (CreateTblInfo_files s g ts segs tblDef name def0 def type colNum) as
    (u & i & v & w & im & ig & [(Hok1 & Hwf1 & Hh1) Htb (Hl & Hgl & Hdi & Hbr) (Hv & Hw & Hig) Hdir Hin Hr Hob] & Hrun); try done.
  destruct (do_head _ _ _ _ Hok) as [Hg Hd]. set (t := tbrk s) in *. set (x := mkTL _ _ _ _ _) in *.
  destruct (TableFileInit_run Hstale u (segs ++ [mkSeg i v (Some w)]) t x i v w im ig def name page info gpage) as (m3 & Hinit & Hok3 & Hg3 & Hd3 & Hin3 & Hr3);
    try done; try (unfold content; rewrite Hin; by destruct (created_inode (inodes (os (files (sm s)))) im ig [] [] Hig)).
  { set_solver. }
  { rewrite Htb. apply lookup_insert_eq. }
  { by rewrite Hr. }
  set (x3 := with_groupInfo (Some gpage) (with_tableInfo (Some info) x)) in *. set (u4 := dict_with m3 _ u) in Hinit.
  destruct (link_tbl_run s u4 g ts segs (mkSeg i v (Some w)) (mkEntry t name i) x3 def (new_relation stale (i32 (objectId s)) type) Hok)
    as (u5 & Hlink & Hok5 & Hsm5 & Htb5 & _); try done.
  { cbn. by rewrite Htb, insert_insert_eq. }
  { by apply (gr_wf _ _ _ Hg3). }
  exists (with_held [] u5), i, v, w, im, ig. split_and!.
  - rewrite Hrun. next_by (exact Hinit). cbn [Z.ltb PAGE_MAX_SIZE Z.compare]. cbn [e_tbl] in Hlink. run Hlink.
    next_by (apply (ReleaseLockDictionary_run RWLock_WRITE); [|rewrite Hsm5; cbn; by rewrite (gr_held _ _ _ Hg3)]); [done|].
    destruct (do_head _ _ _ _ Hok5). done.
  - apply dict_ok_held; [done|constructor].
  - done.
  - cbn [sm with_held set_sm]. rewrite Hsm5. cbn. by rewrite Hd3.
  - cbn [sm with_held set_sm]. rewrite Hsm5. cbn. rewrite Hin3. by rewrite lookup_insert_ne, lookup_insert_eq.
  - cbn [sm with_held set_sm]. rewrite Hsm5. cbn. rewrite Hin3. by rewrite lookup_insert_eq.
  - cbn [sm with_held set_sm]. rewrite Hsm5. cbn. by rewrite Hr3, Hr.
  - intros k Hk. unfold opened_below. cbn [sm with_held set_sm]. rewrite Hsm5. cbn. apply (grows_below 0 k _ _ Hg3), Hob, Hk.
Qed.

End Create.

(** ** What a description says *)

Definition nonzero (s : bytes) : Prop := Forall (fun c => c <> 0) s.

(** [name] with its terminator lies at [off]. *)
Definition str_at (p : bytes) (off : Z) (name : bytes) : Prop :=
  load p off (Z.of_nat (length name) + 1) = Some (name ++ [0]).

Lemma c_str_prefix s t : nonzero s -> c_str (s ++ 0 :: t) = Some s.
Proof.
  induction 1 as [|c s Hc Hs IH]; [done|]. cbn. rewrite (proj2 (Z.eqb_neq _ _)) by done. by rewrite IH.
Qed.

Lemma c_str_at p off name : nonzero name -> str_at p off name -> c_str (drop (Z.to_nat off) p) = Some name.
Proof.
  intros Hn (H0 & H1 & H2 & E & Hl)%load_inv.
  rewrite <- (take_drop (Z.to_nat (Z.of_nat (length name) + 1)) (drop (Z.to_nat off) p)), <- E, <- app_assoc.
  by apply c_str_prefix.
Qed.

(** What [ExecCreateTable] says of a column, and of the table. *)
Record col_at (p : bytes) (base : Z) (k : Z) (c : ColumnDef) : Prop := {
  ca_name : str_at p (base + off_column k) (take (Z.to_nat (NAME_MAX_LEN - 1)) (colName c));
  ca_type : load_u32 p (base + off_column k + off_colType) = Some (u32 (GetColumnType (colType c)));
  ca_index : load_i32 p (base + off_column k + off_attrIndex) = Some k
}.

(** Loads below [m] are the same in both. *)
Definition same_below (m : Z) (p p' : bytes) : Prop := forall o n, o + n <= m -> load p' o n = load p o n.

Lemma same_below_trans m p1 p2 p3 : same_below m p1 p2 -> same_below m p2 p3 -> same_below m p1 p3.
Proof. intros H1 H2 o n Hn. rewrite H2 by done. by apply H1. Qed.

Lemma store_same_below p off bs p' m : store p off bs = Some p' -> m <= off -> same_below m p p'.
Proof. intros H Hm o n Hn. apply (load_store_ne _ _ _ _ _ _ H). lia. Qed.

Lemma same_below_weaken m m' p p' : m' <= m -> same_below m p p' -> same_below m' p p'.
Proof. intros Hm H o n Hn. apply H. lia. Qed.

Lemma load_u32_below p p' m o : same_below m p p' -> o + 4 <= m -> load_u32 p' o = load_u32 p o.
Proof. intros H Hm. unfold load_u32. by rewrite H by lia. Qed.

Lemma load_i32_below p p' m o : same_below m p p' -> o + 4 <= m -> load_i32 p' o = load_i32 p o.
Proof. intros H Hm. unfold load_i32. by rewrite (load_u32_below _ _ _ _ H Hm). Qed.

Lemma length_name (name : bytes) : (length (take (Z.to_nat (NAME_MAX_LEN - 1)) name) <= 63)%nat.
Proof. unfold NAME_MAX_LEN. len. Qed.

(** Between [lo] and [hi] behind [base'] lies in [p'] what lies in [p] behind [base]. *)
Definition moved (base base' lo hi : Z) (p p' : bytes) : Prop :=
  forall o n, lo <= o -> o + n <= hi -> load p' (base' + o) n = load p (base + o) n.

Lemma load_u32_moved b b' lo hi p p' o : moved b b' lo hi p p' -> lo <= o -> o + 4 <= hi -> load_u32 p' (b' + o) = load_u32 p (b + o).
Proof. intros H Hl Hh. unfold load_u32. by rewrite H by lia. Qed.

Lemma load_i32_moved b b' lo hi p p' o : moved b b' lo hi p p' -> lo <= o -> o + 4 <= hi -> load_i32 p' (b' + o) = load_i32 p (b + o).
Proof. intros H Hl Hh. unfold load_i32. by rewrite (load_u32_moved _ _ _ _ _ _ _ H). Qed.

Lemma str_at_moved b b' lo hi p p' o name : moved b b' lo hi p p' -> lo <= o -> o + Z.of_nat (length name) + 1 <= hi ->
  str_at p (b + o) name -> str_at p' (b' + o) name.
Proof. unfold str_at. intros H Hl Hh <-. apply H; lia. Qed.

Lemma col_at_moved b b' lo hi p p' k c : moved b b' lo hi p p' -> lo <= off_column k -> off_column (k + 1) <= hi ->
  col_at p b k c -> col_at p' b' k c.
Proof.
  intros H Hl Hh [H1 H2 H3]. pose proof (length_name (colName c)).
  assert (off_column (k + 1) = off_column k + 76) as E by (unfold off_column, sizeof_ColumnDefInfo; lia).
  split.
  - apply (str_at_moved b b' lo hi p); [done|done|lia|done].
  - rewrite <- Z.add_assoc, (load_u32_moved _ _ _ _ _ _ _ H) by (unfold off_colType; lia). by rewrite Z.add_assoc.
  - rewrite <- Z.add_assoc, (load_i32_moved _ _ _ _ _ _ _ H) by (unfold off_attrIndex; lia). by rewrite Z.add_assoc.
Qed.

Lemma same_below_moved m p p' b : same_below m p p' -> moved b b 0 (m - b) p p'.
Proof. intros H o n Ho Hn. apply H. lia. Qed.

Lemma str_at_same p p' off name m : 0 <= off -> same_below m p p' -> off + Z.of_nat (length name) + 1 <= m -> str_at p off name -> str_at p' off name.
Proof. intros H0 H Hm. apply (str_at_moved 0 0 0 m p p' off); [|done|done]. intros o n _ Hn. apply H. lia. Qed.

Lemma col_at_same p p' base k c m : 0 <= k -> same_below m p p' -> base + off_column (k + 1) <= m -> col_at p base k c -> col_at p' base k c.
Proof.
  intros Hk H Hm. apply (col_at_moved base base 0 (m - base)); [by apply same_below_moved| |lia].
  unfold off_column, sizeof_ColumnDefInfo. lia.
Qed.

Lemma print_name_run p off name : 0 <= off -> off + 64 <= Z.of_nat (length p) ->
  exists p', print_name p off name = Some p' /\ length p' = length p /\
    str_at p' off (take (Z.to_nat (NAME_MAX_LEN - 1)) name) /\ same_below off p p'.
Proof.
  intros H0 H1. pose proof (length_name name). unfold print_name.
  destruct (store_some p off (take (Z.to_nat (NAME_MAX_LEN - 1)) name ++ [0])) as (p' & Hs & Hl); [done|rewrite length_app; simpl length; lia|].
  exists p'. split_and!; [done|done| |by apply (store_same_below _ _ _ _ _ Hs)].
  unfold str_at. apply (load_store_eq _ _ _ _ _ Hs). rewrite length_app. simpl length. lia.
Qed.

Lemma create_columns_run l p i : 0 <= i -> Z.of_nat (length p) <= PAGE_MAX_SIZE -> PAGE_DATA_HEADER_SIZE + off_column (i + Z.of_nat (length l)) <= Z.of_nat (length p) ->
  exists p', create_columns p i (Some <$> l) = Some (Some (p', i + Z.of_nat (length l))) /\ length p' = length p /\
    same_below (PAGE_DATA_HEADER_SIZE + off_column i) p p' /\
    forall k c, l !! k = Some c -> col_at p' PAGE_DATA_HEADER_SIZE (i + Z.of_nat k) c.
Proof.
  revert p i. induction l as [|c l IH]; intros p i Hi Hp Hroom.
  - exists p. cbn. rewrite Z.add_0_r. split_and!; [done|done|done|]. intros k c Hk. by rewrite lookup_nil in Hk.
  - cbn [fmap list_fmap create_columns]. fold (Some <$> l). cbn [length] in Hroom. rewrite Nat2Z.inj_succ in Hroom.
    set (o := PAGE_DATA_HEADER_SIZE + off_column i).
    assert (0 <= o /\ o + 76 <= Z.of_nat (length p)) as [Ho1 Ho2]
      by (unfold o, off_column, PAGE_DATA_HEADER_SIZE, sizeof_ColumnDefInfo in *; lia).
    destruct (print_name_run p o (colName c)) as (p1 & H1 & L1 & S1 & B1); [lia|lia|].
    set (ty := u32 (GetColumnType (colType c))).
    destruct (store32_some p1 (o + off_colType) ty) as (p2 & H2 & L2); [unfold off_colType; lia|unfold off_colType; lia|].
    destruct (store32_some p2 (o + off_attrIndex) i) as (p3 & H3 & L3); [unfold off_attrIndex; lia|unfold off_attrIndex; lia|].
    destruct (IH p3 (i + 1)) as (p' & Hrun & L' & B' & C'); [lia|by rewrite L3, L2, L1|rewrite L3, L2, L1; replace (i + 1 + Z.of_nat (length l)) with (i + Z.succ (Z.of_nat (length l))) by lia; lia|].
    pose proof (store_same_below _ _ _ _ (o + off_colType) H2 ltac:(lia)) as B2.
    pose proof (store_same_below _ _ _ _ (o + off_attrIndex) H3 ltac:(lia)) as B3.
    exists p'. split_and!.
    + rewrite H1. cbn [mbind option_bind]. fold ty. rewrite H2. cbn [mbind option_bind].
      rewrite (proj2 (Z.ltb_ge ty 0)) by (pose proof (u32_range (GetColumnType (colType c))); unfold in_u32 in *; unfold ty; lia).
      rewrite H3. cbn [mbind option_bind]. rewrite Hrun. do 3 f_equal. cbn [length]. lia.
    + by rewrite L', L3, L2, L1.
    + apply (same_below_trans _ _ p1); [done|]. apply (same_below_trans _ _ p2); [|apply (same_below_trans _ _ p3)].
      * apply (same_below_weaken (o + off_colType)); [unfold off_colType; lia|done].
      * apply (same_below_weaken (o + off_attrIndex)); [unfold off_attrIndex; lia|done].
      * apply (same_below_weaken (PAGE_DATA_HEADER_SIZE + off_column (i + 1))); [|done]. unfold o, off_column, sizeof_ColumnDefInfo. lia.
    + intros [|k] c' Hk; cbn in Hk.
      * injection Hk as <-. rewrite Z.add_0_r. apply (col_at_same p3 _ _ _ _ _ Hi B'); [lia|].
        pose proof (length_name (colName c)) as Hln. split; fold o.
        -- apply (str_at_same p1 _ _ _ (o + off_colType)); [lia| |unfold off_colType; lia|done].
           apply (same_below_trans _ _ p2); [done|]. apply (same_below_weaken (o + off_attrIndex)); [unfold off_attrIndex, off_colType; lia|done].
        -- rewrite (load_u32_below _ _ _ _ B3) by (unfold off_attrIndex, off_colType; lia).
           rewrite (load_u32_store _ _ _ _ H2). f_equal. apply u32_small, u32_range.
        -- apply (load_i32_store _ _ _ _ H3). unfold o, off_column, PAGE_DATA_HEADER_SIZE, sizeof_ColumnDefInfo, in_i32, PAGE_MAX_SIZE in *. lia.
      * replace (i + Z.of_nat (S k)) with (i + 1 + Z.of_nat k) by lia. by apply C'.
Qed.

(** The description a [CREATE TABLE] makes, as it lies behind [base]. *)
Record described_at (p : bytes) (base : Z) (name : bytes) (cols : list ColumnDef) : Prop := {
  da_name : str_at p (base + off_tableName) (take (Z.to_nat (NAME_MAX_LEN - 1)) name);
  da_type : load_i32 p (base + off_tableType) = Some (Z.shiftl ST_PAX STORAGE_TYPE_SHIFT);
  da_num : load_i32 p (base + off_colNum) = Some (Z.of_nat (length cols));
  da_cols : forall k c, cols !! k = Some c -> col_at p base (Z.of_nat k) c
}.

Lemma described_at_moved b b' lo hi p p' name cols : moved b b' lo hi p p' -> lo <= 4 -> off_column (Z.of_nat (length cols)) <= hi ->
  described_at p b name cols -> described_at p' b' name cols.
Proof.
  intros H Hl Hh [H1 H2 H3 H4]. pose proof (length_name name).
  assert (76 <= hi) by (unfold off_column, sizeof_ColumnDefInfo in Hh; lia). split.
  - apply (str_at_moved b b' lo hi p); [done|unfold off_tableName; lia|unfold off_tableName; lia|done].
  - rewrite (load_i32_moved _ _ _ _ _ _ _ H) by (unfold off_tableType; lia). exact H2.
  - rewrite (load_i32_moved _ _ _ _ _ _ _ H) by (unfold off_colNum; lia). exact H3.
  - intros k c Hk. pose proof (lookup_lt_Some _ _ _ Hk). apply (col_at_moved b b' lo hi p p'); [done| | |by apply H4];
      unfold off_column, sizeof_ColumnDefInfo in *; lia.
Qed.

Lemma create_def_run stale name cols : length stale = PAGE -> PAGE_DATA_HEADER_SIZE + off_column (Z.of_nat (length cols)) <= PAGE_MAX_SIZE ->
  exists p, create_def stale (mkCreateStmt name (Some <$> cols)) = Some (Some (drop (Z.to_nat PAGE_DATA_HEADER_SIZE) p)) /\
    length p = PAGE /\ described_at p PAGE_DATA_HEADER_SIZE name cols.
Proof.
  intros Hst Hroom. unfold create_def. cbn [cs_tableName ColList].
  assert (Z.of_nat (length stale) = 4096) as Hl0 by (rewrite Hst; done).
  destruct (print_name_run stale (PAGE_DATA_HEADER_SIZE + off_tableName) name) as (p1 & H1 & L1 & S1 & _);
    [done|rewrite Hl0; done|].
  destruct (store32_some p1 (PAGE_DATA_HEADER_SIZE + off_tableType) (Z.shiftl ST_PAX STORAGE_TYPE_SHIFT)) as (p2 & H2 & L2);
    [done|rewrite L1, Hl0; done|].
  destruct (create_columns_run cols p2 0) as (p3 & H3 & L3 & B3 & C3); [done|rewrite L2, L1, Hl0; done| |].
  { rewrite L2, L1, Hl0. exact Hroom. }
  destruct (store32_some p3 (PAGE_DATA_HEADER_SIZE + off_colNum) (Z.of_nat (length cols))) as (p4 & H4 & L4);
    [done|rewrite L3, L2, L1, Hl0; done|].
  exists p4. rewrite H1. cbn [mbind option_bind]. rewrite H2. cbn [mbind option_bind]. rewrite H3. cbn [mbind option_bind].
  rewrite Z.add_0_l, H4. cbn [mbind option_bind]. split_and!; [done|congruence|].
  pose proof (length_name name).
  assert (moved PAGE_DATA_HEADER_SIZE PAGE_DATA_HEADER_SIZE 8 4056 p1 p2) as M2.
  { intros o n Ho Hn. apply (load_store_ne _ _ _ _ _ _ H2). rewrite length_le. unfold PAGE_DATA_HEADER_SIZE, off_tableType. lia. }
  assert (moved PAGE_DATA_HEADER_SIZE PAGE_DATA_HEADER_SIZE 0 76 p2 p3) as M3 by exact (same_below_moved _ _ _ PAGE_DATA_HEADER_SIZE B3).
  assert (moved PAGE_DATA_HEADER_SIZE PAGE_DATA_HEADER_SIZE 0 72 p3 p4) as M4.
  { intros o n Ho Hn. apply (load_store_ne _ _ _ _ _ _ H4). unfold PAGE_DATA_HEADER_SIZE, off_colNum. lia. }
  assert (moved PAGE_DATA_HEADER_SIZE PAGE_DATA_HEADER_SIZE 76 4056 p3 p4) as M5.
  { intros o n Ho Hn. apply (load_store_ne _ _ _ _ _ _ H4). rewrite length_le. unfold PAGE_DATA_HEADER_SIZE, off_colNum. lia. }
  split.
  - apply (str_at_moved _ _ _ _ _ _ _ _ M4); [done|unfold off_tableName; lia|].
    apply (str_at_moved _ _ _ _ _ _ _ _ M3); [done|unfold off_tableName; lia|].
    apply (str_at_moved _ _ _ _ _ _ _ _ M2); [done|unfold off_tableName; lia|done].
  - rewrite (load_i32_moved _ _ _ _ _ _ _ M4), (load_i32_moved _ _ _ _ _ _ _ M3) by done.
    by apply (load_i32_store _ _ _ _ H2).
  - apply (load_i32_store _ _ _ _ H4). unfold in_i32, off_column, PAGE_DATA_HEADER_SIZE, sizeof_ColumnDefInfo, PAGE_MAX_SIZE in *. lia.
  - intros k c Hk. pose proof (lookup_lt_Some _ _ _ Hk).
    apply (col_at_moved _ _ _ _ _ _ _ _ M5); unfold off_column, PAGE_DATA_HEADER_SIZE, sizeof_ColumnDefInfo, PAGE_MAX_SIZE in *; try lia.
    by apply C3.
Qed.

(** ** The first pages *)

Lemma load_drop p k o n : (k <= length p)%nat -> 0 <= o -> load (drop k p) o n = load p (Z.of_nat k + o) n.
Proof.
  intros Hk Ho. unfold load. rewrite length_drop.
  destruct (Z.leb_spec 0 o), (Z.leb_spec 0 (Z.of_nat k + o)), (Z.leb_spec 0 n), (Z.leb_spec (o + n) (Z.of_nat (length p - k))),
    (Z.leb_spec (Z.of_nat k + o + n) (Z.of_nat (length p))); try lia; try done. simpl. rewrite drop_drop. do 3 f_equal. lia.
Qed.

Lemma meta_size_small n : 0 <= n -> n <= 1000 -> meta_size n = off_column n.
Proof.
  intros H0 H1. unfold meta_size, off_column, sizeof_TableMetaInfo, sizeof_ColumnDefInfo. rewrite i32_small; [lia|]. unfold in_i32. lia.
Qed.

(** The description with its number, cut out of the statement's page. *)
Lemma described_def p name cols id : length p = PAGE -> described_at p PAGE_DATA_HEADER_SIZE name cols ->
  PAGE_DATA_HEADER_SIZE + off_column (Z.of_nat (length cols)) <= PAGE_MAX_SIZE -> in_i32 id ->
  let td := drop (Z.to_nat PAGE_DATA_HEADER_SIZE) p in let size := off_column (Z.of_nat (length cols)) in
  described_at td 0 name cols /\
  exists def0 def, load td 0 (meta_size (Z.of_nat (length cols))) = Some def0 /\ store32 def0 off_tableId id = Some def /\
    described_at def 0 name cols /\ load_i32 def off_tableId = Some id /\ Z.of_nat (length def) = size.
Proof.
  intros Hl Hd Hroom Hid td size.
  assert (0 <= size /\ size <= 4056 /\ Z.of_nat (length cols) <= 1000) as (Hs0 & Hs1 & Hn).
  { unfold size, off_column, PAGE_DATA_HEADER_SIZE, sizeof_ColumnDefInfo, PAGE_MAX_SIZE in *. lia. }
  assert (Z.of_nat (length td) = 4056) as Hltd by (unfold td; rewrite length_drop, Hl; done).
  assert (moved PAGE_DATA_HEADER_SIZE 0 0 4056 p td) as M1.
  { intros o n Ho Hn'. unfold td. rewrite load_drop; [done|rewrite Hl; unfold PAGE_DATA_HEADER_SIZE, PAGE_MAX_SIZE; lia|lia]. }
  assert (described_at td 0 name cols) as Hdtd by (by apply (described_at_moved _ _ _ _ _ _ _ _ M1)).
  split; [done|]. rewrite meta_size_small by lia. fold size.
  rewrite (load_some td 0 size) by lia. set (def0 := take _ _).
  assert (load td 0 size = Some def0) as Hload by (by apply load_some; lia).
  pose proof (load_inv _ _ _ _ Hload) as (_ & _ & _ & _ & Hl0).
  assert (76 <= size) as H76 by (unfold size, off_column, sizeof_ColumnDefInfo; lia).
  destruct (store32_some def0 off_tableId id) as (def & Hst & Hl1); [done|unfold off_tableId; lia|].
  exists def0, def. split_and!; [done|done| |by apply (load_i32_store _ _ _ _ Hst)|by rewrite Hl1].
  assert (moved 0 0 0 size td def0) as M2.
  { intros o n Ho Hn'. destruct (Z.leb_spec 0 n).
    - symmetry. apply (load_load td 0 size); [done|lia..].
    - unfold load. rewrite !(proj2 (Z.leb_gt 0 n)) by done. by rewrite !andb_false_r. }
  assert (moved 0 0 4 size def0 def) as M3.
  { intros o n Ho Hn'. apply (load_store_ne _ _ _ _ _ _ Hst). rewrite length_le. unfold off_tableId. lia. }
  apply (described_at_moved 0 0 4 size def0); [done|lia|done|]. by apply (described_at_moved 0 0 0 size td).
Qed.

(** [store32] as a step that keeps the length and the rest. *)
Lemma store32_step p off z : length p = PAGE -> 0 <= off -> off + 4 <= PAGE_MAX_SIZE ->
  exists p', store32 p off z = Some p' /\ length p' = PAGE /\ load_u32 p' off = Some (u32 z) /\
    forall o, o + 4 <= off \/ off + 4 <= o -> load_u32 p' o = load_u32 p o.
Proof.
  intros Hl H0 H1. destruct (store32_some p off z) as (p' & Hs & Hl'); [done|rewrite Hl; unfold PAGE_MAX_SIZE in *; lia|].
  exists p'. split_and!; [done|congruence|by eapply load_u32_store|].
  intros o Ho. apply (load_u32_store_ne _ _ _ _ _ Hs). by rewrite length_le.
Qed.

Lemma main_page_run def type n : load_i32 def off_tableType = Some type -> load_i32 def off_colNum = Some n ->
  0 <= n -> PAGE_DATA_HEADER_SIZE + off_column n <= PAGE_MAX_SIZE -> Z.of_nat (length def) = off_column n ->
  exists page, main_page def = Some page /\ length page = PAGE /\ pageNum page = Some PAGE_HEAD_PAGE_NUM /\
    dataOffset page = Some PAGE_DATA_HEADER_SIZE /\ dataEndOffset page = Some (PAGE_DATA_HEADER_SIZE + off_column n) /\
    load page PAGE_DATA_HEADER_SIZE (off_column n) = Some def.
Proof.
  intros Ht Hn H0 Hroom Hl. unfold main_page. rewrite Ht, Hn. cbn [mbind option_bind].
  assert (0 <= off_column n /\ n <= 1000) as [Hc0 Hc1]
    by (unfold off_column, PAGE_DATA_HEADER_SIZE, sizeof_ColumnDefInfo, PAGE_MAX_SIZE in *; lia).
  rewrite meta_size_small by lia.
  destruct (store32_step (replicate PAGE 0) off_pageVersion PAGE_VERSION) as (p1 & E1 & L1 & V1 & U1); [by rewrite length_replicate|done|done|].
  rewrite E1. cbn [mbind option_bind].
  destruct (store32_step p1 off_pageType (Z.lor PAGE_HEADER type)) as (p2 & E2 & L2 & V2 & U2); [done|done|done|]. rewrite E2. cbn [mbind option_bind].
  destruct (store32_step p2 off_pageNum PAGE_HEAD_PAGE_NUM) as (p3 & E3 & L3 & V3 & U3); [done|done|done|]. rewrite E3. cbn [mbind option_bind].
  destruct (store32_step p3 off_pageCnt PAGE_HEAD_PAGE_NUM) as (p4 & E4 & L4 & V4 & U4); [done|done|done|]. rewrite E4. cbn [mbind option_bind].
  destruct (store32_step p4 off_dataOffset PAGE_DATA_HEADER_SIZE) as (p5 & E5 & L5 & V5 & U5); [done|done|done|]. rewrite E5. cbn [mbind option_bind].
  destruct (store32_step p5 off_dataEndOffset (PAGE_DATA_HEADER_SIZE + off_column n)) as (p6 & E6 & L6 & V6 & U6); [done|done|done|].
  rewrite E6. cbn [mbind option_bind]. rewrite (eq_ind _ (fun z => load def 0 z = Some def) (load_all def) _ Hl). cbn [mbind option_bind].
  destruct (store_some p6 PAGE_DATA_HEADER_SIZE def) as (page & E7 & L7); [done|rewrite L6, Hl; unfold PAGE_MAX_SIZE in *; lia|].
  exists page. rewrite E7. split_and!; [done|congruence|..|by apply (load_store_eq _ _ _ _ _ E7)].
  - unfold pageNum, load_i32. rewrite (load_u32_store_ne _ _ _ _ _ E7) by (left; done).
    rewrite U6, U5, U4 by (first [by left|by right]). by rewrite V3.
  - unfold dataOffset, load_i32. rewrite (load_u32_store_ne _ _ _ _ _ E7) by (left; done).
    rewrite U6 by (by left). by rewrite V5.
  - unfold dataEndOffset, load_i32. rewrite (load_u32_store_ne _ _ _ _ _ E7) by (left; done).
    rewrite V6. cbn [fmap option_fmap option_map]. rewrite i32_u32, i32_small; [done|].
    unfold in_i32, PAGE_DATA_HEADER_SIZE, PAGE_MAX_SIZE in *. lia.
Qed.

(** The table keeps the page's header and as much behind it again as the header
    takes: one column less than the page has room for. *)
Lemma info_run stale page size : length stale = PAGE -> length page = PAGE ->
  dataEndOffset page = Some (PAGE_DATA_HEADER_SIZE + size) -> 0 <= size -> 2 * PAGE_DATA_HEADER_SIZE + size <= PAGE_MAX_SIZE ->
  exists bs info, load page 0 (PAGE_DATA_HEADER_SIZE + (PAGE_DATA_HEADER_SIZE + size)) = Some bs /\ store stale 0 bs = Some info /\
    length info = PAGE /\ moved 0 0 0 (2 * PAGE_DATA_HEADER_SIZE + size) page info.
Proof.
  intros Hst Hl He H0 Hroom. set (n := PAGE_DATA_HEADER_SIZE + (PAGE_DATA_HEADER_SIZE + size)).
  assert (0 <= n /\ n <= PAGE_MAX_SIZE /\ n = 2 * PAGE_DATA_HEADER_SIZE + size) as (Hn0 & Hn1 & Hn2) by (unfold n, PAGE_DATA_HEADER_SIZE, PAGE_MAX_SIZE in *; lia).
  assert (n <= Z.of_nat (length page)) as Hnp by (rewrite Hl; unfold PAGE_MAX_SIZE in *; lia).
  pose proof (load_some page 0 n ltac:(done) Hn0 ltac:(lia)) as Hload. set (bs := take _ _) in Hload.
  pose proof (load_inv _ _ _ _ Hload) as (_ & _ & _ & _ & Hlb).
  destruct (store_some stale 0 bs) as (info & Hs & Hli); [done|rewrite Hst; unfold PAGE_MAX_SIZE in *; lia|].
  exists bs, info. split_and!; [done|done|congruence|]. intros o k Ho Hk. destruct (Z.leb_spec 0 k).
  - rewrite !Z.add_0_l. pose proof (load_store_in _ _ _ _ o k Hs ltac:(lia) ltac:(done) ltac:(lia)) as E.
    rewrite Z.add_0_l in E. rewrite E. symmetry. apply (load_load page 0 n); [done|lia..].
  - unfold load. rewrite !(proj2 (Z.leb_gt 0 k)) by done. by rewrite !andb_false_r.
Qed.

Lemma group_page_run info page n def : length info = PAGE -> length page = PAGE -> pageNum page = Some PAGE_HEAD_PAGE_NUM ->
  dataOffset info = Some PAGE_DATA_HEADER_SIZE -> dataEndOffset info = Some (PAGE_DATA_HEADER_SIZE + off_column n) ->
  load_i32 info (PAGE_DATA_HEADER_SIZE + off_colNum) = Some n -> load info PAGE_DATA_HEADER_SIZE (off_column n) = Some def ->
  GROUP_PAGE_HEADER_SIZE + off_column n <= PAGE_MAX_SIZE ->
  exists gpage, group_page info page = Some gpage /\ length gpage = PAGE /\ pageNum gpage = Some PAGE_HEAD_PAGE_NUM.
Proof.
  intros Hi Hl Hnum Hd He Hn Hdef Hroom. unfold group_page. rewrite Hd, He. cbn [mbind option_bind]. rewrite Hn. cbn [mbind option_bind].
  destruct (store32_step page off_groupInfo_group_id INVALID_GROUP_ID) as (p1 & E1 & L1 & V1 & U1); [done|done|done|]. rewrite E1. cbn [mbind option_bind].
  destruct (store32_step p1 off_groupInfo_columnNum n) as (p2 & E2 & L2 & V2 & U2); [done|done|done|]. rewrite E2. cbn [mbind option_bind].
  replace (PAGE_DATA_HEADER_SIZE + off_column n - PAGE_DATA_HEADER_SIZE) with (off_column n) by lia. rewrite Hdef. cbn [mbind option_bind].
  pose proof (load_inv _ _ _ _ Hdef) as (_ & _ & _ & _ & Hld).
  destruct (store_some p2 GROUP_PAGE_HEADER_SIZE def) as (p3 & E3 & L3); [done|rewrite L2, Hld; unfold PAGE_MAX_SIZE in *; lia|].
  rewrite E3. cbn [mbind option_bind]. rewrite L2 in L3.
  destruct (store32_step p3 off_dataOffset GROUP_PAGE_HEADER_SIZE) as (p4 & E4 & L4 & V4 & U4); [done|done|done|]. rewrite E4. cbn [mbind option_bind].
  destruct (store32_step p4 off_dataEndOffset (GROUP_PAGE_HEADER_SIZE + off_column n)) as (p5 & E5 & L5 & V5 & U5); [done|done|done|].
  rewrite E5. exists p5. split_and!; [done|done|].
  unfold pageNum, load_i32 in *. rewrite U5, U4 by (by left). rewrite (load_u32_store_ne _ _ _ _ _ E3) by (by left).
  rewrite U2, U1 by (by left). exact Hnum.
Qed.

(** All a statement's description leads to, for at most 51 columns. *)
Lemma described_run stale p name cols id : length stale = PAGE -> length p = PAGE -> described_at p PAGE_DATA_HEADER_SIZE name cols ->
  nonzero name -> (length name < 64)%nat -> (length cols <= 51)%nat -> in_i32 id ->
  exists def page info gpage,
    described stale (drop (Z.to_nat PAGE_DATA_HEADER_SIZE) p) id name def (Z.shiftl ST_PAX STORAGE_TYPE_SHIFT) page info gpage /\
    described_at def 0 name cols /\ load_i32 def off_tableId = Some id /\
    load_i32 page (PAGE_DATA_HEADER_SIZE + off_colNum) = Some (Z.of_nat (length cols)) /\
    load page PAGE_DATA_HEADER_SIZE (meta_size (Z.of_nat (length cols))) = Some def.
Proof.
  intros Hst Hl Hd Hnz Hlen Hcols Hid. set (n := Z.of_nat (length cols)).
  assert (0 <= n <= 51) as Hn by lia.
  assert (0 <= off_column n <= 3952) as Hsz by (unfold off_column, sizeof_ColumnDefInfo; lia).
  destruct (described_def p name cols id Hl Hd) as (Htd & def0 & def & Hdef0 & Hdef & Hdd & Hdid & Hldef);
    [fold n; unfold PAGE_DATA_HEADER_SIZE, PAGE_MAX_SIZE; lia|done|]. fold n in Hdef0, Hldef.
  assert (take (Z.to_nat (NAME_MAX_LEN - 1)) name = name) as Etk by (apply take_ge; unfold NAME_MAX_LEN; lia).
  assert (forall q, described_at q 0 name cols -> tableName q = Some name) as Hname.
  { intros q [Hq _ _ _]. rewrite Etk, Z.add_0_l in Hq. by apply c_str_at. }
  pose proof (da_type _ _ _ _ Hdd) as Hty. pose proof (da_num _ _ _ _ Hdd) as Hnum. fold n in Hnum.
  destruct (main_page_run def _ n Hty Hnum) as (page & Hmain & Hlp & Hpn & Hdo & Hde & Hpd);
    [lia|unfold PAGE_DATA_HEADER_SIZE, PAGE_MAX_SIZE; lia|done|].
  destruct (info_run stale page (off_column n) Hst Hlp Hde) as (bs & info & Hbs & Hinfo & Hli & Hmv);
    [lia|unfold PAGE_DATA_HEADER_SIZE, PAGE_MAX_SIZE; lia|].
  assert (load_i32 page (PAGE_DATA_HEADER_SIZE + off_colNum) = Some n) as Hpnum.
  { unfold load_i32. rewrite (load_u32_bytes page PAGE_DATA_HEADER_SIZE def off_colNum); [exact Hnum|by rewrite Hldef|done|].
    rewrite Hldef. unfold off_column, off_colNum, sizeof_ColumnDefInfo. lia. }
  destruct (group_page_run info page n def Hli Hlp Hpn) as (gpage & Hgp & Hlg & Hgn).
  { unfold dataOffset. pose proof (load_i32_moved _ _ _ _ _ _ off_dataOffset Hmv) as E. rewrite !Z.add_0_l in E.
    rewrite E; [exact Hdo|done|unfold off_dataOffset, PAGE_DATA_HEADER_SIZE; lia]. }
  { unfold dataEndOffset. pose proof (load_i32_moved _ _ _ _ _ _ off_dataEndOffset Hmv) as E. rewrite !Z.add_0_l in E.
    rewrite E; [exact Hde|done|unfold off_dataEndOffset, PAGE_DATA_HEADER_SIZE; lia]. }
  { pose proof (load_i32_moved _ _ _ _ _ _ (PAGE_DATA_HEADER_SIZE + off_colNum) Hmv) as E. rewrite !Z.add_0_l in E.
    rewrite E; [exact Hpnum|done|]. unfold off_column, off_colNum, sizeof_ColumnDefInfo, PAGE_DATA_HEADER_SIZE. lia. }
  { pose proof (Hmv PAGE_DATA_HEADER_SIZE (off_column n)) as E. rewrite !Z.add_0_l in E. rewrite E; [exact Hpd|done|].
    unfold PAGE_DATA_HEADER_SIZE. lia. }
  { unfold GROUP_PAGE_HEADER_SIZE, PAGE_MAX_SIZE. lia. }
  exists def, page, info, gpage. split_and!; [|done|done|done|by rewrite meta_size_small by lia].
  split; [by apply Hname|exists n, def0; split_and!; [exact (da_num _ _ _ _ Htd)|exact Hdef0|exact Hdef]|by apply Hname|done|].
  split; [done|done| |done|done]. exists (PAGE_DATA_HEADER_SIZE + off_column n), bs. done.
Qed.
