(* ===== verification/Tables.v ===== *)
(** * Tables on the disk: what the file layer promises

    The theorems about [TFile], [Smgr] and [RelCache] together, and a server that was
    just started. *)

From stdpp Require Import strings.
From S2P Require Import Prelude Bytes DList Locks DataTypes Page PageStore TFile Smgr RelCache.

(** ** A server that starts

    Nothing is open; the disk is [o], the next table gets the number [id]. *)

Definition server (o : OS) (id : Z) : DictState :=
  mkDS (mkSS (mkFiles o ∅ 1) ∅ ∅ ∅ None [] 1) ∅ ∅ None false id 1.

Lemma InitTblInfo_run o id : exists s, InitTblInfo (server o id) = Some (0, s) /\
  dict_ok s 1%positive [] [] /\ held (sm s) = [] /\ files (sm s) = mkFiles o ∅ 1 /\
  opened_below 998 (sm s) /\ tbrk s = 2%positive /\ objectId s = id.
Proof.
  eexists. split; [reflexivity|]. split_and!; try done.
  - split; cbn; try done.
    + split; [by eexists|by split; [constructor|]|constructor|constructor|constructor|].
      intros a _. split_and!; apply lookup_empty.
    + constructor; [set_solver|constructor].
    + intros t Ht. rewrite lookup_empty. split; [done|]. rewrite lookup_insert_ne by lia. done.
  - by eexists.
Qed.

(** The two files of a table have different paths. *)
Lemma fork_paths_differ D name : (length D + length name < 1000)%nat -> fork_path D name MAIN_FORK <> fork_path D name GROUP_FORK.
Proof.
  intros H E. unfold fork_path in E. rewrite !fork_name_short in E by lia.
  assert (forall n, (length n < 1000 - length D + 4)%nat -> file_path D n = D ++ 47 :: n) as Hp.
  { intros n Hn. unfold file_path, snprintf_path, FILE_PATH_MAX_LEN. apply take_ge. rewrite length_app. cbn [length]. lia. }
  rewrite !Hp in E by (rewrite ?length_app; unfold GROUP_FILE_PRE; cbn [length]; lia).
  apply (f_equal length) in E. unfold GROUP_FILE_PRE in E. rewrite !length_app in E. cbn [length] in E. rewrite length_app in E. cbn [length] in E. lia.
Qed.

Section Tables.

Context (DataDir : bytes).

(** ** [CREATE TABLE] *)

Lemma ExecCreateTable_run stale s g ts segs name cols : length stale = PAGE ->
  dict_ok s g ts segs -> held (sm s) = [] -> find_entry name ts = None -> opened_below 1 (sm s) ->
  (forall f, dir (os (files (sm s))) !! fork_path DataDir name f = None) ->
  nonzero name -> (length name < 64)%nat -> (length DataDir < 900)%nat -> (length cols <= 51)%nat ->
  2 * PAGE_MAX_SIZE <= room (os (files (sm s))) ->
  exists s' i v w im ig p gp def,
    ExecCreateTable DataDir stale (Some (mkCreateStmt name (Some <$> cols))) s = Some (0, s') /\
    dict_ok s' g (mkEntry (tbrk s) name i :: ts) (segs ++ [mkSeg i v (Some w)]) /\ held (sm s') = [] /\
    dir (os (files (sm s'))) = <[fork_path DataDir name GROUP_FORK := ig]> (<[fork_path DataDir name MAIN_FORK := im]> (dir (os (files (sm s))))) /\
    file_at (sm s') (fork_path DataDir name MAIN_FORK) im /\ file_at (sm s') (fork_path DataDir name GROUP_FORK) ig /\
    table_pages (sm s') im ig p gp def (i32 (objectId s)) (Z.shiftl ST_PAX STORAGE_TYPE_SHIFT) /\
    tableName def = Some name /\ described_at def 0 name cols /\
    room (os (files (sm s'))) = room (os (files (sm s))) - 2 * PAGE_MAX_SIZE /\
    (forall k, opened_below (2 + k) (sm s) -> opened_below k (sm s')).
Proof.
  intros Hst Hok Hh Hf Hlim Hfree Hnz Hlen HD Hcols Hroom.
  destruct (create_def_run stale name cols Hst) as (p & Hdef & Hlp & Hd);
    [unfold PAGE_DATA_HEADER_SIZE, off_column, sizeof_ColumnDefInfo, PAGE_MAX_SIZE; lia|].
  destruct (described_run stale p name cols (i32 (objectId s)) Hst Hlp Hd) as (def & page & info & gpage & Hds & Hdd & Hid & Hn & Hload);
    [done..|apply i32_range|].
  pose proof (fork_paths_differ DataDir name ltac:(lia)) as Hne.
  destruct (CreateTblInfo_run DataDir stale Hst s g ts segs _ name def _ page info gpage Hok Hh Hf Hlim (Hfree _) (Hfree _) Hne Hroom Hds)
    as (s' & i & v & w & im & ig & Hrun & Hok' & Hh' & Hdir & Him & Hig & Hr & Hob).
  pose proof (fp_page _ _ _ _ _ (ds_pages _ _ _ _ _ _ _ _ _ Hds)) as [Hlpage _].
  pose proof (fp_gpage _ _ _ _ _ (ds_pages _ _ _ _ _ _ _ _ _ Hds)) as [Hlg _].
  assert (forall b, length b = PAGE -> page_bytes b PAGE_HEAD_PAGE_NUM = b) as Hpb.
  { intros b Hb. unfold page_bytes. change (page_off PAGE_HEAD_PAGE_NUM) with 0%nat. rewrite drop_0. apply take_ge. by rewrite Hb. }
  exists s', i, v, w, im, ig, page, gpage, def. split_and!; try done.
  - unfold ExecCreateTable. next_by (apply st_lift_run; exact Hdef). run Hrun. done.
  - split; [|by eexists]. by rewrite Hdir, lookup_insert_ne, lookup_insert_eq.
  - split; [|by eexists]. by rewrite Hdir, lookup_insert_eq.
  - split; [| |by eexists|done|apply Hds].
    + unfold content. by rewrite Him, Hpb.
    + unfold content. by rewrite Hig, Hpb.
  - apply Hds.
Qed.

(** C4: a table that [CREATE TABLE] made with up to 51 columns is in the cache and on
    the disk: a server that finds the same disk, whatever it has open, opens the table by
    its name and reads back the description the statement gave: the name, the number of
    columns, every column's name (cut at 63 bytes), type and position, and the table's
    number. *)
Theorem CREATE_TABLE_then_open stale s g ts segs name cols : length stale = PAGE ->
  dict_ok s g ts segs -> held (sm s) = [] -> find_entry name ts = None -> opened_below 1 (sm s) ->
  (forall f, dir (os (files (sm s))) !! fork_path DataDir name f = None) ->
  nonzero name -> (length name < 64)%nat -> (length DataDir < 900)%nat -> (length cols <= 51)%nat ->
  2 * PAGE_MAX_SIZE <= room (os (files (sm s))) ->
  exists s' e segs',
    ExecCreateTable DataDir stale (Some (mkCreateStmt name (Some <$> cols))) s = Some (0, s') /\
    dict_ok s' g (e :: ts) segs' /\ e_name e = name /\ SearchTblInfo name s' = Some (Some (e_tbl e), s') /\
    forall stale2 s2 g2 ts2 segs2, length stale2 = PAGE -> dict_ok s2 g2 ts2 segs2 -> held (sm s2) = [] ->
      find_entry name ts2 = None -> opened_below 1 (sm s2) -> same_disk (files (sm s')) (files (sm s2)) ->
      exists t s3 x def, GetTableInfo DataDir stale2 (Some name) s2 = Some (Some t, s3) /\
        tbls s3 !! t = Some x /\ tableDef x = Some def /\ described_at def 0 name cols /\
        (relid <$> rel x) = Some (i32 (objectId s)) /\ same_disk (files (sm s2)) (files (sm s3)).
Proof.
  intros Hst Hok Hh Hf Hlim Hfree Hnz Hlen HD Hcols Hroom.
  destruct (ExecCreateTable_run stale s g ts segs name cols Hst Hok Hh Hf Hlim Hfree Hnz Hlen HD Hcols Hroom)
    as (s' & i & v & w & im & ig & p & gp & def & Hrun & Hok' & Hh' & _ & Hm & Hg & Hp & Hname & Hd & _).
  exists s', (mkEntry (tbrk s) name i), (segs ++ [mkSeg i v (Some w)]). split_and!; [done|done|done| |].
  { rewrite (SearchTblInfo_run _ _ _ _ name Hok' Hh'). cbn [find_entry List.find e_name]. by rewrite bool_decide_eq_true_2. }
  intros stale2 s2 g2 ts2 segs2 Hst2 Hok2 Hh2 Hf2 Hlim2 Hd2.
  destruct (GetTableInfo_load DataDir stale2 Hst2 s2 g2 ts2 segs2 name im ig p gp def (i32 (objectId s)) (Z.shiftl ST_PAX STORAGE_TYPE_SHIFT) Hok2 Hh2 Hf2 Hlim2
    (file_at_same _ _ _ _ Hd2 Hm) (file_at_same _ _ _ _ Hd2 Hg)) as (s3 & i3 & v3 & w3 & Hget & _ & _ & Hx & Hd3 & _); [|done|].
  { destruct Hp as [[A1 A2] [B1 B2] C D E]. split; [| |done..]; by rewrite (content_same _ _ _ Hd2). }
  exists (tbrk s2), s3, (opened_tbl stale2 i3 p gp def (i32 (objectId s)) (Z.shiftl ST_PAX STORAGE_TYPE_SHIFT)), def.
  split_and!; try done.
Qed.

(** ** The number of columns *)

Lemma store_behind p off bs : Z.of_nat (length p) < off + Z.of_nat (length bs) -> store p off bs = None.
Proof.
  intros H. unfold store. destruct (Z.leb_spec 0 off), (Z.leb_spec (off + Z.of_nat (length bs)) (Z.of_nat (length p)));
    (lia || done).
Qed.

Lemma load_behind p off n : Z.of_nat (length p) < off + n -> load p off n = None.
Proof.
  intros H. unfold load. destruct (Z.leb_spec 0 off), (Z.leb_spec 0 n), (Z.leb_spec (off + n) (Z.of_nat (length p)));
    (lia || done).
Qed.

(** The type of the 53rd column lies behind the page. *)
Lemma create_columns_overflow l p i : length p = PAGE -> 0 <= i <= 52 -> 53 <= i + Z.of_nat (length l) ->
  create_columns p i (Some <$> l) = None.
Proof.
  revert p i. induction l as [|c l IH]; intros p i Hl Hi Hn; [simpl in Hn; lia|].
  cbn [fmap list_fmap create_columns]. fold (Some <$> l). set (o := PAGE_DATA_HEADER_SIZE + off_column i).
  destruct (print_name p o (colName c)) as [p1|] eqn:H1; [|done]. cbn [mbind option_bind].
  pose proof (store_length _ _ _ _ H1) as L1. rewrite Hl in L1.
  destruct (store32 p1 (o + off_colType) _) as [p2|] eqn:H2; [|done]. cbn [mbind option_bind].
  pose proof (store_length _ _ _ _ H2) as L2. rewrite L1 in L2.
  rewrite (proj2 (Z.ltb_ge _ 0)) by (pose proof (u32_range (GetColumnType (colType c))) as R; unfold in_u32 in R; lia).
  destruct (store32 p2 (o + off_attrIndex) i) as [p3|] eqn:H3; [|done]. cbn [mbind option_bind].
  pose proof (store_length _ _ _ _ H3) as L3. rewrite L2 in L3.
  destruct (decide (i = 52)) as [->|Hne].
  - unfold store32 in H2. rewrite store_behind in H2; [done|]. rewrite L1, length_le.
    unfold o, off_column, off_colType, PAGE_DATA_HEADER_SIZE, sizeof_ColumnDefInfo, PAGE_MAX_SIZE. lia.
  - apply IH; [done|lia|]. simpl in Hn. lia.
Qed.

(** With 52 columns the description fits its page; the copy the table keeps does not. *)
Lemma ExecCreateTable_52 stale s g ts segs name cols : length stale = PAGE ->
  dict_ok s g ts segs -> held (sm s) = [] -> find_entry name ts = None -> opened_below 1 (sm s) ->
  (forall f, dir (os (files (sm s))) !! fork_path DataDir name f = None) ->
  nonzero name -> (length name < 64)%nat -> (length DataDir < 900)%nat -> length cols = 52%nat ->
  PAGE_MAX_SIZE <= room (os (files (sm s))) ->
  ExecCreateTable DataDir stale (Some (mkCreateStmt name (Some <$> cols))) s = None.
Proof.
  intros Hst Hok Hh Hf Hlim Hfree Hnz Hlen HD Hcols Hroom.
  destruct (create_def_run stale name cols Hst) as (p & Hdef & Hlp & Hd); [by rewrite Hcols|].
  destruct (described_def p name cols (i32 (objectId s)) Hlp Hd) as (Htd & def0 & def & Hdef0 & Hst32 & Hdd & _ & Hldef);
    [by rewrite Hcols|apply i32_range|].
  assert (take (Z.to_nat (NAME_MAX_LEN - 1)) name = name) as Etk by (apply take_ge; unfold NAME_MAX_LEN; lia).
  assert (forall q, described_at q 0 name cols -> tableName q = Some name) as Hname.
  { intros q [Hq _ _ _]. rewrite Etk, Z.add_0_l in Hq. by apply c_str_at. }
  pose proof (fork_paths_differ DataDir name ltac:(lia)) as Hne.
  destruct (CreateTblInfo_files DataDir stale s g ts segs _ name def0 def _ _ Hok Hh Hf Hlim (Hfree _) (Hfree _) Hne (Hname _ Htd)
    (da_num _ _ _ _ Htd) Hdef0 Hst32 (Hname _ Hdd) (da_type _ _ _ _ Hdd))
    as (u & i & v & w & im & ig & [(Hok1 & Hwf1 & Hh1) Htb _ (Hv & Hw & Hig) _ Hin Hr _] & Hrun).
  destruct (main_page_run def _ 52 (da_type _ _ _ _ Hdd)) as (page & Hmain & Hlpage & Hnp & _ & He & _);
    [pose proof (da_num _ _ _ _ Hdd) as Hnum; by rewrite Hcols in Hnum|done|done|by rewrite Hldef, Hcols|].
  set (x := mkTL _ _ _ _ _) in Htb.
  destruct (TableFileMainInit_run DataDir stale u _ (tbrk s) x i v w im def page Hok1 ltac:(set_solver)) as (m & _ & _ & _ & Hminit);
    [by rewrite Htb, lookup_insert_eq|done|done|done|done| |by rewrite Hr|done|done|done|].
  { unfold content. rewrite Hin. by destruct (created_inode (inodes (os (files (sm s)))) im ig [] [] Hig). }
  unfold ExecCreateTable. next_by (apply st_lift_run; exact Hdef). apply st_bind_none. rewrite Hrun. apply st_bind_none.
  unfold TableFileInit. apply st_bind_none. rewrite Hminit, He. cbn [mbind option_bind].
  rewrite load_behind; [done|]. rewrite Hlpage. unfold PAGE_DATA_HEADER_SIZE, off_column, sizeof_ColumnDefInfo, PAGE_MAX_SIZE. lia.
Qed.

(** C29: [CREATE TABLE] does not check the number of columns: with 52 of them or more it
    reads or writes behind a page. *)
Theorem CREATE_TABLE_column_limit stale s g ts segs name cols : length stale = PAGE ->
  dict_ok s g ts segs -> held (sm s) = [] -> find_entry name ts = None -> opened_below 1 (sm s) ->
  (forall f, dir (os (files (sm s))) !! fork_path DataDir name f = None) ->
  nonzero name -> (length name < 64)%nat -> (length DataDir < 900)%nat -> (52 <= length cols)%nat ->
  PAGE_MAX_SIZE <= room (os (files (sm s))) ->
  ExecCreateTable DataDir stale (Some (mkCreateStmt name (Some <$> cols))) s = None.
Proof.
  intros Hst Hok Hh Hf Hlim Hfree Hnz Hlen HD Hcols Hroom.
  destruct (decide (length cols = 52%nat)) as [E|Hne]; [by eapply ExecCreateTable_52|].
  unfold ExecCreateTable. apply st_bind_none. unfold create_def. cbn [cs_tableName ColList].
  destruct (print_name stale _ name) as [p1|] eqn:H1; [|done]. cbn [mbind option_bind].
  destruct (store32 p1 _ _) as [p2|] eqn:H2; [|done]. cbn [mbind option_bind].
  rewrite create_columns_overflow; [done| |lia..]. rewrite (store_length _ _ _ _ H2), (store_length _ _ _ _ H1). exact Hst.
Qed.

(** ** A table that is not there, and [DROP TABLE] *)

(** C30: a table that has no file is not reported as missing: [GetTableInfo] frees what
    [smgr_open] freed already and follows a pointer out of it, for a [DROP TABLE] and for
    every other statement that names the table. *)
Theorem missing_table_faults stale s g ts segs name : dict_ok s g ts segs -> held (sm s) = [] -> find_entry name ts = None ->
  below_limit (sm s) -> dir (os (files (sm s))) !! fork_path DataDir name MAIN_FORK = None ->
  GetTableInfo DataDir stale (Some name) s = None /\ ExecDropTable DataDir stale (Some name) s = None.
Proof.
  intros Hok Hh Hf Hlim Hdir. pose proof (GetTableInfo_absent DataDir stale s g ts segs name Hok Hh Hf Hlim Hdir) as H.
  split; [done|]. unfold ExecDropTable. by apply st_bind_none.
Qed.

(** C21: [DROP TABLE] of a cached table removes its two files and no other and frees the
    table; the cache that is left holds the tables opened before it. Every table opened
    after it is still allocated but no longer found. *)
Theorem DROP_TABLE_forgets_newer stale s g ts segs name e im ig : dict_ok s g ts segs -> held (sm s) = [] ->
  find_entry name ts = Some e -> (length DataDir + length name < 1000)%nat ->
  dir (os (files (sm s))) !! fork_path DataDir name MAIN_FORK = Some im ->
  dir (os (files (sm s))) !! fork_path DataDir name GROUP_FORK = Some ig ->
  exists newer older s' segs', ts = newer ++ e :: older /\
    ExecDropTable DataDir stale (Some name) s = Some (0, s') /\ dict_ok s' g older segs' /\ held (sm s') = [] /\
    tbls s' !! e_tbl e = None /\
    (forall path, dir (os (files (sm s'))) !! path =
       if decide (path = fork_path DataDir name MAIN_FORK \/ path = fork_path DataDir name GROUP_FORK) then None
       else dir (os (files (sm s))) !! path) /\
    (forall n, SearchTblInfo n s' = Some (e_tbl <$> find_entry n older, s')) /\
    (forall e', e' ∈ newer -> e_name e' ∉ e_name <$> older ->
       SearchTblInfo (e_name e') s' = Some (None, s') /\ is_Some (tbls s' !! e_tbl e')).
Proof.
  intros Hok Hh Hf Hlen Hm Hg.
  destruct (ExecDropTable_run DataDir stale s g ts segs name e im ig Hok Hh Hf ltac:(lia) Hm Hg (fork_paths_differ _ _ Hlen))
    as (l1 & l2 & s' & segs' & -> & Hrun & Hok' & Hh' & Hdir & Htb).
  exists l1, l2, s', segs'. split_and!; try done.
  - rewrite Htb. apply lookup_delete_eq.
  - intros path. rewrite Hdir. case_decide as Hp.
    + rewrite !lookup_delete_None. destruct Hp; [right; by left|by left].
    + rewrite !lookup_delete_ne; [done|naive_solver..].
  - intros n. by apply (SearchTblInfo_run _ _ _ _ n Hok' Hh').
  - intros e' He' Hn. rewrite (SearchTblInfo_run _ _ _ _ _ Hok' Hh'), find_entry_none by done. split; [done|].
    pose proof (do_nodup _ _ _ _ Hok) as Hnd. rewrite fmap_app, fmap_cons in Hnd. apply NoDup_cons in Hnd as [_ Hnd].
    apply nodup_middle in Hnd. rewrite Htb, lookup_delete_ne by (intros E; apply Hnd; rewrite E; set_solver).
    pose proof (do_entries _ _ _ _ Hok) as He. rewrite Forall_forall in He.
    destruct (He e' ltac:(set_solver)) as (x & d & r & Hx & _). by rewrite Hx.
Qed.

(** ** Pages *)

(** What page [m] holds once page [n] of the file [c] has been written. *)
Definition page_after_write (c : bytes) (n : Z) (b : bytes) (m : Z) : option bytes :=
  if decide (m = n) then Some b
  else if decide (m < n) then Some (zero_filled (page_bytes c m)) else page_at c m.

(** C13: a table's file is an array of pages: [TableWrite] puts the page where its number
    says, leaves every other file as it was and the pages behind it too, and makes the
    pages in front of it, that the file did not have, pages of zeros; [TableRead] then
    returns exactly that, or -1 for a page behind the end. *)
Theorem table_files_hold_pages s segs t f ino n b : smgr_ok (sm s) segs -> fwf (sm s) -> fork_open s segs t f ino ->
  1 <= n -> length b = PAGE -> pageNum b = Some n ->
  let c := content (files (sm s)) ino in
  Z.of_nat (page_off n + PAGE) <= Z.of_nat (length c) + room (os (files (sm s))) ->
  exists s', TableWrite DataDir t b f s = Some (PAGE_MAX_SIZE, s') /\
    smgr_ok (sm s') segs /\ fork_open s' segs t f ino /\
    dir (os (files (sm s'))) = dir (os (files (sm s))) /\
    (forall j, j <> ino -> inodes (os (files (sm s'))) !! j = inodes (os (files (sm s))) !! j) /\
    forall m, 1 <= m -> exists r bs s'', TableRead DataDir t m f s' = Some ((r, bs), s'') /\
      same_disk (files (sm s')) (files (sm s'')) /\
      match page_after_write c n b m with Some p => r = PAGE_MAX_SIZE /\ bs = p | None => r = -1 end.
Proof.
  intros Hok Hwf Hop Hn Hb Hnum c Hroom.
  destruct (TableWrite_run DataDir s segs t f ino n b Hok Hop Hn Hb Hnum Hroom)
    as (s' & Hrun & Hok' & Hg & Hsm & Hdir & Hin & _ & Hsd).
  assert (fork_open s' segs t f ino) as Hop'.
  { apply (fork_open_grows 0 s s' segs segs t f ino Hop Hwf Hg); [eauto|]. intros x i Hx Hi. exists x. by rewrite (sd_tbls _ _ Hsd). }
  exists s'. split_and!; try done.
  { intros j Hj. by rewrite Hin, lookup_insert_ne. }
  intros m Hm. destruct (TableRead_run DataDir s' segs t f ino m Hok' Hop' Hm) as (s'' & Hread & _ & _ & Hd & _).
  eexists _, _, s''. split_and!; [exact Hread|done|].
  assert (content (files (sm s')) ino = write_page c n b) as -> by (unfold content; by rewrite Hin, lookup_insert_eq).
  pose proof (page_at_write c n b m Hn Hm Hb) as E. unfold page_after_write. rewrite <- E. unfold page_at.
  destruct (decide (length (page_bytes (write_page c n b) m) = PAGE)) as [El|El]; [done|]. by rewrite ?decide_False.
Qed.

(** ** The limit of open files *)

Lemma TableWrite_closed s segs sg t x b n : smgr_ok (sm s) segs -> sg ∈ segs -> tbls s !! t = Some x -> sgmr x = Some (sg_smgr sg) ->
  vfs (sm s) !! sg_main sg = Some (mkVF MAIN_FORK None) -> pageNum b = Some n ->
  exists s', TableWrite DataDir t b MAIN_FORK s = Some (-1, s') /\ same_disk (files (sm s)) (files (sm s')).
Proof.
  intros Hok Hsg Hx Hi Hv Hn. destruct (seg_smgr _ _ _ Hok Hsg) as (y & Hy & Hh & _).
  exists s. split; [|done]. unfold TableWrite.
  run (get_sgmr_run _ _ _ _ Hx Hi). run (on_sm_same _ _ _ (get_smgr_run _ _ _ Hy)).
  pose proof (SearchVF_run _ _ _ MAIN_FORK Hok Hsg) as Hs. cbn [sg_file] in Hs. rewrite <- Hh in Hs at 1. run (on_sm_same _ _ _ Hs). run_refl.
  run (st_lift_run _ _ s Hn). apply on_sm_same. unfold smgr_write.
  run (LockVF_acquire (sg_main sg) (sm s) (no_smgr_vf_lock _ (ok_held _ _ Hok)) ltac:(by rewrite Hv)).
  next_by (by apply get_vf_run). cbn [pfh]. next_by (by apply on_files_run).
  next_by (by apply (LockVF_release _ _ RWLock_WRITE (held (sm s))); [cbn; rewrite Hv|]).
  apply st_ret_eq; [done|by destruct (sm s)].
Qed.

Lemma grows_refl s : grows 0 s s.
Proof. split; auto. intros c Hc. exists c. split_and!; [done|done|lia]. Qed.

Lemma TableRead_closed s segs sg t x d name ino n : smgr_ok (sm s) segs -> fwf (sm s) -> sg ∈ segs ->
  tbls s !! t = Some x -> sgmr x = Some (sg_smgr sg) -> tableDef x = Some d -> tableName d = Some name ->
  vfs (sm s) !! sg_main sg = Some (mkVF MAIN_FORK None) -> file_at (sm s) (fork_path DataDir name MAIN_FORK) ino -> 1 <= n ->
  exists s', let p := page_bytes (content (files (sm s)) ino) n in
    TableRead DataDir t n MAIN_FORK s = Some ((if decide (length p = PAGE) then PAGE_MAX_SIZE else -1, p), s') /\
    same_disk (files (sm s)) (files (sm s')) /\ fork_open s' segs t MAIN_FORK ino.
Proof.
  intros Hok Hwf Hsg Hx Hi Hd Hname Hv [Hdir Hino] Hn. destruct (seg_smgr _ _ _ Hok Hsg) as (y & Hy & Hh & _).
  destruct (smgr_open_attach DataDir (sm s) (sm s) segs (sg_smgr sg) MAIN_FORK name (sg_main sg) ino Hwf
    (GetVFec_found _ _ _ MAIN_FORK _ Hok Hsg eq_refl) Hok (grows_refl _) eq_refl Hv Hdir Hino)
    as (m & Hopen & Hok1 & Hg1 & Hd1 & Hon1).
  destruct (smgr_read_run m segs _ ino n Hok1 Hon1 Hn) as (m2 & Hread & Hok2 & Hg2 & Hd2 & _).
  rewrite (content_same _ _ _ Hd1) in Hread.
  exists (set_sm m2 s). split_and!; [|by eapply same_disk_trans|].
  - unfold TableRead. run (get_sgmr_run _ _ _ _ Hx Hi). run (on_sm_same _ _ _ (get_smgr_run _ _ _ Hy)).
    pose proof (SearchVF_run _ _ _ MAIN_FORK Hok Hsg) as Hs. cbn [sg_file] in Hs. rewrite <- Hh in Hs at 1. run (on_sm_same _ _ _ Hs).
    assert ((vf ← on_sm (get_vf (sg_main sg)); mret (bool_decide (is_Some (pfh vf)))) s = Some (false, s)) as E.
    { run (on_sm_same _ _ _ (get_vf_run _ _ _ Hv)). done. }
    run E.
    assert ((name ← get_tableName t; on_sm (smgr_open DataDir (Some (sg_smgr sg)) name MAIN_FORK)) s = Some (Some (sg_main sg), set_sm m s)) as E2.
    { run (get_tableName_run _ _ _ _ _ Hx Hd Hname). by apply on_sm_run. }
    run E2. exact (on_sm_run _ (set_sm m s) _ _ Hread).
  - exists x, sg, (sg_main sg). split_and!; try done. apply (gr_on _ _ _ Hg2); [by apply (gr_wf _ _ _ Hg1)|done].
Qed.

(** C28: when as many files are open as the limit allows, opening the next one closes the
    main file of the table that was opened first. Writing a page of that table then fails
    with -1 and changes nothing on the disk; reading one opens the file again. *)
Theorem file_limit_loses_writes s sg segs i y c t x d name ino b n : smgr_ok (sm s) (sg :: segs) -> fwf (sm s) ->
  smgrContext (sm s) = Some c -> fileMaxNum c - 1 < fileOpenedNum c ->
  smgrs (sm s) !! i = Some y -> vfhead y = None ->
  tbls s !! t = Some x -> sgmr x = Some (sg_smgr sg) -> tableDef x = Some d -> tableName d = Some name ->
  vf_on (sm s) (sg_main sg) ino -> file_at (sm s) (fork_path DataDir name MAIN_FORK) ino -> 1 <= n -> pageNum b = Some n ->
  exists v s1 s2 s3, on_sm (AddVFec i MAIN_FORK) s = Some (v, s1) /\ same_disk (files (sm s)) (files (sm s1)) /\
    TableWrite DataDir t b MAIN_FORK s1 = Some (-1, s2) /\ same_disk (files (sm s)) (files (sm s2)) /\
    (let p := page_bytes (content (files (sm s)) ino) n in
     TableRead DataDir t n MAIN_FORK s1 = Some ((if decide (length p = PAGE) then PAGE_MAX_SIZE else -1, p), s3)) /\
    same_disk (files (sm s)) (files (sm s3)) /\ fork_open s3 (sg :: segs ++ [mkSeg i v None]) t MAIN_FORK ino.
Proof.
  intros Hok Hwf Hc Hlim Hi Hy Hx Hs Hd Hname Hon Hfile Hn Hnum.
  destruct (AddVFec_at_limit (sm s) sg segs i y c ino Hok Hwf Hc Hlim Hi Hy Hon) as (m & Hadd & Hok1 & Hwf1 & Hv1 & Hd1 & _).
  set (s1 := set_sm m s).
  destruct (TableWrite_closed s1 _ sg t x b n Hok1 ltac:(set_solver) Hx Hs Hv1 Hnum) as (s2 & Hw & Hd2).
  destruct (TableRead_closed s1 _ sg t x d name ino n Hok1 Hwf1 ltac:(set_solver) Hx Hs Hd Hname Hv1
    (file_at_same (sm s) _ _ _ Hd1 Hfile) Hn) as (s3 & Hr & Hd3 & Hop3).
  exists (brk (sm s)), s1, s2, s3. rewrite (content_same (files (sm s)) (files (sm s1)) ino Hd1) in Hr.
  split_and!; [by apply on_sm_run|done|done|by eapply same_disk_trans|done|by eapply same_disk_trans|done].
Qed.

End Tables.

(** ** Witnesses *)

Definition a_disk : OS := mkOS ∅ ∅ ∅ 1000000.
Definition a_dir : bytes := [100].
Definition a_stale : bytes := replicate PAGE 7.
Definition a_table : bytes := [65].
Definition b_table : bytes := [66].
Definition a_columns : list ColumnDef := [mkColumnDef [97] "int"; mkColumnDef [98] "varchar"].

Lemma opened_below_weaken j k s : j <= k -> opened_below k s -> opened_below j s.
Proof. intros H (c & Hc & Hl). exists c. split; [done|lia]. Qed.

(** A started server on [a_disk] with [a_table] made. *)
Lemma a_table_made : exists s s' i v w im ig, InitTblInfo (server a_disk 100) = Some (0, s) /\
  ExecCreateTable a_dir a_stale (Some (mkCreateStmt a_table (Some <$> a_columns))) s = Some (0, s') /\
  dict_ok s' 1%positive [mkEntry (tbrk s) a_table i] [mkSeg i v (Some w)] /\ held (sm s') = [] /\
  dir (os (files (sm s'))) = <[fork_path a_dir a_table GROUP_FORK := ig]> (<[fork_path a_dir a_table MAIN_FORK := im]> ∅) /\
  2 * PAGE_MAX_SIZE <= room (os (files (sm s'))) /\ opened_below 10 (sm s').
Proof.
  destruct (InitTblInfo_run a_disk 100) as (s & Hi & Hok & Hh & Hf & Hl & _).
  destruct (ExecCreateTable_run a_dir a_stale s 1%positive [] [] a_table a_columns eq_refl Hok Hh eq_refl) as
    (s' & i & v & w & im & ig & p & gp & def & Hrun & Hok' & Hh' & Hdir & _ & _ & _ & _ & _ & Hr & Hob).
  { eapply opened_below_weaken; [|eassumption]; lia. }
  { intros f. by rewrite Hf. }
  { repeat constructor; lia. }
  { simpl. lia. }
  { simpl. lia. }
  { simpl. lia. }
  { by rewrite Hf. }
  exists s, s', i, v, w, im, ig. split_and!; try assumption.
  - by rewrite Hdir, Hf.
  - by rewrite Hr, Hf.
  - apply Hob. eapply opened_below_weaken; [|eassumption]; lia.
Qed.

(** The server is stopped and started again on its disk. *)
Lemma CREATE_TABLE_then_open_witness : exists s s' s2 t s3 x def,
  InitTblInfo (server a_disk 100) = Some (0, s) /\
  ExecCreateTable a_dir a_stale (Some (mkCreateStmt a_table (Some <$> a_columns))) s = Some (0, s') /\
  InitTblInfo (server (os (files (sm s'))) 100) = Some (0, s2) /\
  GetTableInfo a_dir a_stale (Some a_table) s2 = Some (Some t, s3) /\
  tbls s3 !! t = Some x /\ tableDef x = Some def /\ described_at def 0 a_table a_columns.
Proof.
  destruct (InitTblInfo_run a_disk 100) as (s & Hi & Hok & Hh & Hf & Hl & _).
  destruct (CREATE_TABLE_then_open a_dir a_stale s 1%positive [] [] a_table a_columns eq_refl Hok Hh eq_refl) as
    (s' & e & segs' & Hrun & _ & _ & _ & Hthen).
  - eapply opened_below_weaken; [|eassumption]; lia.
  - intros f. by rewrite Hf.
  - repeat constructor; lia.
  - simpl. lia.
  - simpl. lia.
  - simpl. lia.
  - by rewrite Hf.
  - destruct (InitTblInfo_run (os (files (sm s'))) 100) as (s2 & Hi2 & Hok2 & Hh2 & Hf2 & Hl2 & _).
    destruct (Hthen a_stale s2 1%positive [] [] eq_refl Hok2 Hh2 eq_refl) as (t & s3 & x & def & Hget & Hx & Hd & Hdesc & _).
    + eapply opened_below_weaken; [|eassumption]; lia.
    + rewrite Hf2. exact (conj eq_refl (conj eq_refl eq_refl)).
    + exists s, s', s2, t, s3, x, def. split_and!; assumption.
Defined.

Lemma CREATE_TABLE_column_limit_witness : exists s, InitTblInfo (server a_disk 100) = Some (0, s) /\
  ExecCreateTable a_dir a_stale (Some (mkCreateStmt a_table (Some <$> replicate 52 (mkColumnDef [97] "int")))) s = None.
Proof.
  destruct (InitTblInfo_run a_disk 100) as (s & Hi & Hok & Hh & Hf & Hl & _). exists s. split; [done|].
  apply (CREATE_TABLE_column_limit a_dir a_stale s 1%positive [] [] _ _ eq_refl Hok Hh eq_refl).
  - eapply opened_below_weaken; [|eassumption]; lia.
  - intros f. by rewrite Hf.
  - repeat constructor; lia.
  - simpl. lia.
  - simpl. lia.
  - simpl. lia.
  - by rewrite Hf.
Defined.

Lemma missing_table_faults_witness : exists s, InitTblInfo (server a_disk 100) = Some (0, s) /\
  ExecDropTable a_dir a_stale (Some a_table) s = None.
Proof.
  destruct (InitTblInfo_run a_disk 100) as (s & Hi & Hok & Hh & Hf & Hl & _). exists s. split; [done|].
  apply (missing_table_faults a_dir a_stale s 1%positive [] [] a_table); try done.
  - eapply opened_below_limit; [|eassumption]; lia.
  - by rewrite Hf.
Defined.

(** Two tables are made; the first one's [DROP TABLE] loses the second one. *)
Lemma DROP_TABLE_forgets_newer_witness : exists s s1 s2 s3 t,
  InitTblInfo (server a_disk 100) = Some (0, s) /\
  ExecCreateTable a_dir a_stale (Some (mkCreateStmt a_table (Some <$> a_columns))) s = Some (0, s1) /\
  ExecCreateTable a_dir a_stale (Some (mkCreateStmt b_table (Some <$> a_columns))) s1 = Some (0, s2) /\
  ExecDropTable a_dir a_stale (Some a_table) s2 = Some (0, s3) /\
  SearchTblInfo b_table s2 = Some (Some t, s2) /\ SearchTblInfo b_table s3 = Some (None, s3) /\ is_Some (tbls s3 !! t).
Proof.
  destruct a_table_made as (s & s1 & i & v & w & im & ig & Hi & Hrun & Hok & Hh & Hdir & Hr & Hob).
  destruct (ExecCreateTable_run a_dir a_stale s1 1%positive _ _ b_table a_columns eq_refl Hok Hh eq_refl) as
    (s2 & i2 & v2 & w2 & im2 & ig2 & _ & _ & _ & Hrun2 & Hok2 & Hh2 & Hdir2 & _).
  - eapply opened_below_weaken; [|eassumption]; lia.
  - intros []; by rewrite Hdir, !lookup_insert_ne by (vm_compute; discriminate).
  - repeat constructor; lia.
  - simpl. lia.
  - simpl. lia.
  - simpl. lia.
  - exact Hr.
  - set (e := mkEntry (tbrk s) a_table i) in *. set (e2 := mkEntry (tbrk s1) b_table i2) in *.
    assert (find_entry a_table [e2; e] = Some e) as Hfind by reflexivity.
    destruct (DROP_TABLE_forgets_newer a_dir a_stale s2 1%positive [e2; e] _ a_table e im ig Hok2 Hh2 Hfind) as
      (newer & older & s3 & segs' & E & Hdrop & _ & _ & _ & _ & _ & Hforget).
    + simpl. lia.
    + rewrite Hdir2, !lookup_insert_ne, Hdir by (vm_compute; discriminate).
      rewrite lookup_insert_ne by (vm_compute; discriminate). apply lookup_insert_eq.
    + rewrite Hdir2, !lookup_insert_ne, Hdir by (vm_compute; discriminate). apply lookup_insert_eq.
    + assert (newer = [e2] /\ older = []) as [-> ->].
      { destruct newer as [|e1 [|e3 newer]]; [discriminate E|injection E as <- <-; by split|].
        apply (f_equal length) in E. cbn [length] in E. rewrite length_app in E. simpl in E. lia. }
      destruct (Hforget e2) as [H1 H2]; [constructor|apply not_elem_of_nil|].
      exists s, s1, s2, s3, (tbrk s1). split_and!; try assumption. exact (SearchTblInfo_run _ _ _ _ b_table Hok2 Hh2).
Defined.

(** A server that has one file open, of one page, and may open no more. *)
Definition a_page (n : Z) : bytes := replicate (Z.to_nat off_pageNum) 0 ++ n :: replicate (Z.to_nat (PAGE_MAX_SIZE - off_pageNum - 1)) 0.
Definition full_files : Files :=
  mkFiles (mkOS {[fork_path a_dir a_table MAIN_FORK := 1%positive]} {[1%positive := a_page 1]} {[3 := (1%positive, 0)]} 1000000) {[1%positive := 3]} 2.
Definition full_smgr : SmgrState :=
  mkSS full_files {[1%positive := mkDL 1 1]} {[1%positive := mkVF MAIN_FORK (Some 1%positive)]}
    (<[2%positive := mkSI 1 32 (Some 1%positive) (Some 1%positive)]> {[3%positive := mkSI 1 32 None None]})
    (Some (mkSC (Some 1%positive) 1000 1000 1)) [] 4.
Definition full_table : TableList := mkTL None None (Some (replicate 8 0 ++ [65; 0])) None (Some 2%positive).
Definition full_server : DictState :=
  mkDS full_smgr ∅ {[4%positive := full_table]} None false 100 5.
Definition full_seg : Seg := mkSeg 2 1 None.

Lemma full_ok : smgr_ok full_smgr [full_seg].
Proof.
  split.
  - by eexists.
  - split; [apply NoDup_singleton|done].
  - constructor; [|constructor]. split; [by eexists|by eexists|done].
  - apply NoDup_singleton.
  - constructor.
  - intros a Ha. cbn in Ha |- *. rewrite !lookup_insert_ne, !lookup_singleton_ne by lia. done.
Qed.

Lemma full_on : vf_on full_smgr 1 1.
Proof. exists MAIN_FORK, 1%positive. split; [done|]. exists 3, 0. split_and!; [done|done|done|by eexists]. Qed.

Lemma full_wf : fwf full_smgr.
Proof.
  split.
  - split; cbn.
    + intros h Hh. apply lookup_singleton_ne. lia.
    + intros h fd [<- <-]%lookup_singleton_Some. destruct full_on as (f & h & [= <- <-] & Hon). by exists 1%positive.
    + by intros h h' fd [<- <-]%lookup_singleton_Some [<- _]%lookup_singleton_Some.
  - cbn. intros v f h [<- [= <- <-]]%lookup_singleton_Some. by eexists.
  - cbn. by intros v w f f' h [<- _]%lookup_singleton_Some [<- _]%lookup_singleton_Some.
Qed.

Lemma table_files_hold_pages_witness : exists s', TableWrite a_dir 4 (a_page 3) MAIN_FORK full_server = Some (PAGE_MAX_SIZE, s') /\
  forall m, 1 <= m -> exists r bs s'', TableRead a_dir 4 m MAIN_FORK s' = Some ((r, bs), s'') /\
    match page_after_write (a_page 1) 3 (a_page 3) m with Some p => r = PAGE_MAX_SIZE /\ bs = p | None => r = -1 end.
Proof.
  destruct (table_files_hold_pages a_dir full_server [full_seg] 4 MAIN_FORK 1 3 (a_page 3) full_ok full_wf) as
    (s' & Hrun & _ & _ & _ & _ & Hread).
  - exists full_table, full_seg, 1%positive. split_and!; [reflexivity..|constructor|reflexivity|exact full_on].
  - lia.
  - vm_compute. reflexivity.
  - vm_compute. reflexivity.
  - vm_compute. discriminate.
  - exists s'. split; [exact Hrun|]. intros m Hm. destruct (Hread m Hm) as (r & bs & s'' & H1 & _ & H2).
    exists r, bs, s''. split; [exact H1|exact H2].
Defined.

Lemma file_limit_loses_writes_witness : exists v s1 s2, on_sm (AddVFec 3 MAIN_FORK) full_server = Some (v, s1) /\
  TableWrite a_dir 4 (a_page 1) MAIN_FORK s1 = Some (-1, s2).
Proof.
  destruct (file_limit_loses_writes a_dir full_server full_seg [] 3 (mkSI 1 32 None None) (mkSC (Some 1%positive) 1000 1000 1) 4
    full_table (replicate 8 0 ++ [65; 0]) a_table 1 (a_page 1) 1 full_ok full_wf eq_refl) as (v & s1 & s2 & s3 & H1 & _ & H2 & _).
  - reflexivity.
  - reflexivity.
  - reflexivity.
  - reflexivity.
  - reflexivity.
  - reflexivity.
  - reflexivity.
  - exact full_on.
  - split; [reflexivity|by eexists].
  - lia.
  - vm_compute. reflexivity.
  - exists v, s1, s2. split; [exact H1|exact H2].
Defined.
