(* ===== verification/Express.v ===== *)
(** * Expressions over a scanned row

    Models [src/src/sqlcore/executor/execExpre.c], the row access of
    [executor/scan/scan.c] ([GetTblRowDataPosition], [GetColRowDataEx],
    [TranslateRawColumnData]) and [GetCellValueByIndex] of [node/node.c]. The
    evaluator keeps its result in one shared cell, [resultExpreData], and the
    node it works on in [subPlanNode]; both are state here. Columns of the scan
    are the bytes of their [RowColumnData]; a column the scan does not hold is
    read from its page. *)

From S2P Require Import Prelude Bytes Locks Transaction Page PageStore Space DataTypes.

(** ** Nodes

    Nodes are compared by address; [lefttree] and [righttree] are [None] for
    [NULL]. [OtherNode] is any other node, with the words the code finds where an
    [ExprEntry] has its fields. *)

Inductive PNode :=
  | MergerEntry (addr rindex isJoin mergeType : Z) (lefttree righttree : option PNode)
  | ExprEntry (addr rindex rrindex : Z) (op : Op) (lefttree righttree : option PNode)
  | ColumnRef (addr : Z) (vt : valueType) (attrIndex : Z)
  | ConstValue (addr val : Z) (vt : valueType) (isnull : Z)
  | OtherNode (addr rindex rrindex lefttree : Z).

Definition AND_EXPR : Z := 0.
Definition OR_EXPR : Z := 1.
Definition NOT_EXPR : Z := 2.

Definition node_addr (n : PNode) : Z :=
  match n with
  | MergerEntry a _ _ _ _ _ | ExprEntry a _ _ _ _ _ | ColumnRef a _ _ | ConstValue a _ _ _ | OtherNode a _ _ _ => a
  end.

Definition opt_addr (n : option PNode) : Z := match n with Some n => node_addr n | None => 0 end.

(** The fields of a node read as an [ExprEntry]: [rindex], [rrindex] and
    [lefttree]. [MergerEntry] has [isJoin] where [rrindex] is. *)
Definition as_ExprEntry (n : PNode) : option (Z * Z * Z) :=
  match n with
  | MergerEntry _ rindex isJoin _ l _ => Some (rindex, isJoin, opt_addr l)
  | ExprEntry _ rindex rrindex _ l _ => Some (rindex, rrindex, opt_addr l)
  | OtherNode _ rindex rrindex l => Some (rindex, rrindex, l)
  | _ => None
  end.

(** ** Rows of a scan *)

(** [ScanPageInfo] of a row: the columns the scan reads and where they are. *)
Record ScanPageInfo := mkScan {
  colindexList : list Z;          (* the first [pageListNum] entries *)
  pageList : list (option ptr);
  searchPageList : list SearchPageInfo;
  groupPageInfo : SearchPageInfo }.

Record RowDataPosition := mkRowPosition { scanPostionInfo : ScanPageInfo; rowData : list (list Z) }.

Record TableRowDataPosition := mkTblRow {
  tr_tblInfo : Z; tr_rindex : Z; rowDataPosition : list RowDataPosition }.

(** The array of [ScanTableRowData]; [tableNum] is its length. *)
Abbreviation ScanTableRowData := (list (option TableRowDataPosition)).

Record RangTblEntry := mkRTE { rte_rindex : Z; rte_tblInfo : Z }.

(** Cells are counted from one. *)
Fixpoint GetCellValue_loop {A} (cells : list A) (count index : Z) : option A :=
  match cells with
  | [] => None
  | x :: cells => if decide (count + 1 = index) then Some x else GetCellValue_loop cells (count + 1) index
  end.

Definition GetCellValueByIndex {A} (l : option (list A)) (index : Z) : option A :=
  match l with
  | None => None
  | Some cells => if decide (Z.of_nat (length cells) < index) then None else GetCellValue_loop cells 0 index
  end.

(** Stops at a [NULL] entry. *)
Fixpoint GetTblRow_loop (rows : ScanTableRowData) (tblInfo rindex : Z) : option TableRowDataPosition :=
  match rows with
  | [] => None
  | None :: _ => None
  | Some t :: rows =>
      if decide (tblInfo = tr_tblInfo t /\ rindex = tr_rindex t) then Some t
      else GetTblRow_loop rows tblInfo rindex
  end.

Definition GetTblRowDataPosition (rows : option ScanTableRowData) (tblInfo rindex : Z)
    : option TableRowDataPosition :=
  match rows with
  | None => None
  | Some rows => if decide (tblInfo = 0) then None else GetTblRow_loop rows tblInfo rindex
  end.

(** The item a column comes from: the item, its page and its offset. *)
Abbreviation HeapItem := (ItemData * Z * Z)%type.

(** The first position of a column in the scan's list. *)
Fixpoint column_position (cols : list Z) (attrIndex : Z) (i : nat) : option nat :=
  match cols with
  | [] => None
  | c :: cols => if decide (attrIndex = c) then Some i else column_position cols attrIndex (S i)
  end.

(** Column, item and [found]; [want] says whether the caller asks for the item.
    No caller sets [setUsed]. *)
Definition GetColRowDataEx (t : TableRowDataPosition) (attrIndex : Z) (want : bool) (rowIndex : Z)
    : PM (option (list Z) * option HeapItem * bool) :=
  if decide (rowIndex < 0 \/ rowIndex >= Z.of_nat (length (rowDataPosition t))) then mret (None, None, false) else
  if decide (attrIndex < 0) then mret (None, None, false) else
  pos ← st_lift (rowDataPosition t !! Z.to_nat rowIndex);
  let info := scanPostionInfo pos in
  match column_position (colindexList info) attrIndex 0 with
  | Some i =>
      colData ← st_lift (rowData pos !! i);
      (if want then
         p ← st_lift (mjoin (pageList info !! i));
         b ← get_page p;
         n ← st_lift (pageNum b);
         search ← st_lift (searchPageList info !! 0%nat);
         it ← st_lift (GET_ITEM (sp_item_offset search) b);
         mret (Some colData, Some (it, n, sp_item_offset search), true)
       else mret (Some colData, None, true))
  | None =>
      pageOffset ← (if decide (0 < Z.of_nat (length (colindexList info)))
                    then search ← st_lift (searchPageList info !! 0%nat); mret (sp_item_offset search)
                    else mret (-1));
      pageno ← GetPageNoFromGroupInfo (groupPageInfo info) attrIndex;
      r ← GetRowDataFromPageByIndexEx pageno pageOffset;
      mret (fst r, snd r, false)
  end.

(** ** The evaluator's state *)

Record EvState := mkEv {
  pages_of : PageState;
  mem : strmem;
  brk : Z;
  resultExpreData : ExprDataInfo;
  subPlanNode : PNode }.

Abbreviation EV := (ST EvState).

Definition set_pages_of (p : PageState) (s : EvState) : EvState :=
  mkEv p (mem s) (brk s) (resultExpreData s) (subPlanNode s).
Definition set_result (e : ExprDataInfo) (s : EvState) : EvState :=
  mkEv (pages_of s) (mem s) (brk s) e (subPlanNode s).
Definition set_subPlanNode (n : PNode) (s : EvState) : EvState :=
  mkEv (pages_of s) (mem s) (brk s) (resultExpreData s) n.

Definition on_pages {A} (m : PM A) : EV A := fun s =>
  match m (pages_of s) with Some (a, p) => Some (a, set_pages_of p s) | None => None end.

(** [AllocMem] for a copy of [bs]. *)
Definition alloc_copy (bs : list Z) : EV Z := fun s =>
  Some (brk s, mkEv (pages_of s) (<[brk s := bs]> (mem s)) (brk s + Z.of_nat (length bs) + 1)
                 (resultExpreData s) (subPlanNode s)).

Section eval.
(** The rows of the select state, and the bytes that follow a column in memory:
    a string copy reads past its end. *)
Context (rtable : option (list RangTblEntry)) (resultRow : option ScanTableRowData) (behind : list Z).

Definition off_data : Z := sizeof_RowColumnData.

(** Fills the [data] of the result; a type it does not know leaves it. *)
Definition TranslateRawColumnData (colData : list Z) (vt : valueType) (dataValue : Z) : EV Z :=
  match vt with
  | VT_INT | VT_INTEGER => i ← st_lift (load_i32 colData off_data); mret (set_iData dataValue i)
  | VT_VARCHAR | VT_STRING =>
      len ← st_lift (col_size colData);
      bs ← st_lift (load (colData ++ behind) off_data len);
      alloc_copy bs
  | VT_CHAR => b ← st_lift (load colData off_data 1); alloc_copy (b ++ [0])
  | VT_DOUBLE | VT_FLOAT => i ← st_lift (load_u32 colData off_data); mret (set_fData dataValue i)
  | VT_BOOL =>
      b ← st_lift (load colData off_data 1);
      mret (set_iData dataValue (if decide (b = [84]) then 1 else 0))
  | _ => mret dataValue
  end.

(** The result of the evaluator's functions is [NULL] or the shared cell:
    [true] when it is the cell. *)
Definition GetExprDataColumnValue (addr : Z) (vt : valueType) (attrIndex : Z) : EV bool :=
  cur ← st_gets subPlanNode;
  '(rindex, rrindex, lft) ← st_lift (as_ExprEntry cur);
  match GetCellValueByIndex rtable (if decide (addr = lft) then rindex else rrindex) with
  | None => mret false
  | Some rte =>
      match GetTblRowDataPosition resultRow (rte_tblInfo rte) (rte_rindex rte) with
      | None => mret false
      | Some tblRowPosition =>
          r ← on_pages (GetColRowDataEx tblRowPosition attrIndex false 0);
          match r.1.1 with
          | None => mret false
          | Some colData =>
              exprValue ← st_gets resultExpreData;
              d ← TranslateRawColumnData colData vt (data exprValue);
              n ← st_lift (col_size colData);
              st_modify (set_result (mkExpr vt n d));;
              mret true
          end
      end
  end.

Definition GetExprDataConstValue (val : Z) (vt : valueType) (isnull : Z) : EV bool :=
  st_modify (set_result (mkExpr vt (if decide (isnull <> 0) then 0 else -1) val));; mret true.

Definition GetExpreOperatorValue (node : option PNode) : EV bool :=
  match node with
  | Some (ColumnRef a vt i) => GetExprDataColumnValue a vt i
  | Some (ConstValue _ v vt n) => GetExprDataConstValue v vt n
  | _ => mret false
  end.

(** [{0}] *)
Definition zero_expr : ExprDataInfo := mkExpr VT_UNKNOWN 0 0.

(** Evaluates a subtree and copies the shared cell; [{0}] without a subtree.
    What the evaluation returned is not looked at. *)
Definition operand (process : PNode -> EV bool) (node : option PNode) : EV ExprDataInfo :=
  match node with
  | None => mret zero_expr
  | Some n => process n;; st_gets resultExpreData
  end.

Definition ComputeBoolExprNode (process : PNode -> EV bool) (mergeType : Z) (l r : option PNode) : EV bool :=
  leftResult ← operand process l;
  rightResult ← operand process r;
  let left := getDataBool (Some leftResult) in
  let right := getDataBool (Some rightResult) in
  let result : bool :=
    if decide (mergeType = AND_EXPR) then left && right
    else if decide (mergeType = OR_EXPR) then left || right
    else if decide (mergeType = NOT_EXPR) then negb left
    else false in
  res ← st_gets resultExpreData;
  e ← st_lift (bool_result result res);
  st_modify (set_result e);;
  mret true.

Definition ComputeExpreNode (process : PNode -> EV bool) (op : Op) (l r : option PNode) : EV bool :=
  leftvalue ← operand process l;
  rightvalue ← operand process r;
  m ← st_gets mem;
  res ← st_gets resultExpreData;
  e ← st_lift (ComputeExpr m (Some leftvalue) (Some rightvalue) res op);
  match e with
  | Some e => st_modify (set_result e);; mret true
  | None => mret false
  end.

Fixpoint ProcessQualExprNode (node : PNode) : EV bool :=
  pnode ← st_gets subPlanNode;
  resultExprData ←
    match node with
    | MergerEntry _ _ _ mergeType l r =>
        st_modify (set_subPlanNode node);;
        ComputeBoolExprNode ProcessQualExprNode mergeType l r
    | ExprEntry _ _ _ op l r =>
        st_modify (set_subPlanNode node);;
        ComputeExpreNode ProcessQualExprNode op l r
    | ColumnRef _ _ _ | ConstValue _ _ _ _ => GetExpreOperatorValue (Some node)
    | OtherNode _ _ _ _ => mret false
    end;
  st_modify (set_subPlanNode pnode);;
  mret resultExprData.

(** The value [ExecSelectQual] returns: [NULL], or a pointer to the cell. *)
Definition ExecSelectQual (node : option PNode) : EV (option ExprDataInfo) :=
  match node with
  | None => mret None
  | Some n => b ← ProcessQualExprNode n; if (b : bool) then e ← st_gets resultExpreData; mret (Some e) else mret None
  end.

End eval.

(** ** The meaning of a condition

    A reference semantics: the value of a tree over the columns of the row,
    [None] when it has none (a division by zero or an overflow). [isem] and
    [ssem] give the operators their meaning on integers and strings. *)

Inductive value := VI (z : Z) | VS (s : bytes).

Inductive ty := TInt | TStr.

#[export] Instance ty_eq_dec : EqDecision ty.
Proof. solve_decision. Defined.

Definition ty_of (v : value) : ty := match v with VI _ => TInt | VS _ => TStr end.

(** The string at the start of a byte block. *)
Fixpoint cstring (bs : bytes) : option bytes :=
  match bs with
  | [] => None
  | b :: bs => if decide (b = 0) then Some [] else s ← cstring bs; Some (b :: s)
  end.

Definition column_value (c : list Z) (vt : valueType) : option value :=
  if int_type vt then VI <$> load_i32 c off_data
  else if string_type vt then
    n ← col_size c;
    if decide (n = Z.of_nat (length c)) then VS <$> cstring (drop (Z.to_nat off_data) c) else None
  else None.

(** What the operators mean in SQL. *)
Definition sql_int (op : Op) (a b : Z) : option Z :=
  match op with POSITIVE => Some a | NEGATIVE => checked (- a) | _ => int_sem op a b end.

Definition op_type (op : Op) (a b : ty) : option ty :=
  match a, b with
  | TInt, TInt => if supports VT_INT op then Some TInt else None
  | TStr, TStr => if supports VT_STRING op then Some TInt else None
  | _, _ => None
  end.

Section meaning.
Context (rtable : option (list RangTblEntry)) (resultRow : option ScanTableRowData) (strs : Z -> option bytes).
Context (isem : Op -> Z -> Z -> option Z) (ssem : Op -> bytes -> bytes -> option bool).

(** A column the scan reads, of the table at [ri]. *)
Definition column (ri : Z) (vt : valueType) (attrIndex : Z) : option value :=
  rte ← GetCellValueByIndex rtable ri;
  t ← GetTblRowDataPosition resultRow (rte_tblInfo rte) (rte_rindex rte);
  pos ← rowDataPosition t !! 0%nat;
  if decide (attrIndex < 0) then None else
  i ← column_position (colindexList (scanPostionInfo pos)) attrIndex 0;
  c ← rowData pos !! i;
  column_value c vt.

Definition constant (val : Z) (vt : valueType) : option value :=
  if int_type vt then Some (VI (iData val))
  else if string_type vt then VS <$> strs val else None.

Definition apply_op (op : Op) (a b : value) : option value :=
  match a, b with
  | VI a, VI b => VI <$> isem op a b
  | VS a, VS b => VI ∘ Z.b2z <$> ssem op a b
  | _, _ => None
  end.

Definition truth (v : value) : bool := match v with VI z => bool_decide (z <> 0) | VS _ => true end.

Definition bool_op (mergeType : Z) (a b : value) : bool :=
  if decide (mergeType = AND_EXPR) then truth a && truth b
  else if decide (mergeType = OR_EXPR) then truth a || truth b
  else if decide (mergeType = NOT_EXPR) then negb (truth a) else false.

(** [ri] is the range table entry a column at this place refers to. *)
Fixpoint denote (n : PNode) (ri : Z) : option value :=
  match n with
  | ColumnRef _ vt i => column ri vt i
  | ConstValue _ v vt _ => constant v vt
  | ExprEntry _ rindex rrindex op (Some l) r =>
      a ← denote l rindex;
      b ← match r with Some r => denote r rrindex | None => Some (VI 0) end;
      apply_op op a b
  | MergerEntry _ rindex isJoin mergeType (Some l) r =>
      a ← denote l rindex;
      b ← match r with Some r => denote r isJoin | None => Some (VI 0) end;
      Some (VI (Z.b2z (bool_op mergeType a b)))
  | _ => None
  end.

(** The type of a tree whose columns and constants are there; the children of
    an operator are different nodes. *)
Definition apart (l : PNode) (r : option PNode) : bool := bool_decide (node_addr l <> opt_addr r).

Fixpoint typeof (n : PNode) (ri : Z) : option ty :=
  match n with
  | ColumnRef _ vt i => ty_of <$> column ri vt i
  | ConstValue _ v vt _ => ty_of <$> constant v vt
  | ExprEntry _ rindex rrindex op (Some l) r =>
      if apart l r then
        a ← typeof l rindex;
        b ← match r with Some r => typeof r rrindex | None => Some TInt end;
        op_type op a b
      else None
  | MergerEntry _ rindex isJoin mergeType (Some l) r =>
      if apart l r then
        a ← typeof l rindex;
        b ← match r with Some r => typeof r isJoin | None => Some TInt end;
        match a, b with TInt, TInt => Some TInt | _, _ => None end
      else None
  | _ => None
  end.

End meaning.

(** The meaning the code gives the operators. *)
Definition coded_int (op : Op) (a b : Z) : option Z := int_sem (as_coded op) a b.
Definition coded_str (op : Op) (a b : bytes) : option bool := str_sem (as_coded op) a b.

(** A tree without the operators whose slot holds another operator's code, or
    whose code has another meaning. *)
Fixpoint plain (n : PNode) : bool :=
  match n with
  | ExprEntry _ _ _ op l r =>
      negb (bool_decide (op = LESS \/ op = POSITIVE \/ op = NEGATIVE)) &&
      match l with Some l => plain l | None => true end && match r with Some r => plain r | None => true end
  | MergerEntry _ _ _ _ l r =>
      match l with Some l => plain l | None => true end && match r with Some r => plain r | None => true end
  | _ => true
  end.

(** ** The evaluator computes the meaning *)

Lemma PNode_ind' (P : PNode -> Prop) :
  (forall a ri ij mt l r, (forall x, l = Some x -> P x) -> (forall x, r = Some x -> P x) ->
     P (MergerEntry a ri ij mt l r)) ->
  (forall a ri rri op l r, (forall x, l = Some x -> P x) -> (forall x, r = Some x -> P x) ->
     P (ExprEntry a ri rri op l r)) ->
  (forall a vt i, P (ColumnRef a vt i)) -> (forall a v vt n, P (ConstValue a v vt n)) ->
  (forall a ri rri l, P (OtherNode a ri rri l)) -> forall n, P n.
Proof.
  intros Hm He Hc Hk Ho. fix IH 1. intros [a ri ij mt l r|a ri rri op l r|a vt i|a v vt n|a ri rri l].
  - apply Hm; intros x Hx; [destruct l|destruct r]; try discriminate; injection Hx as <-; apply IH.
  - apply He; intros x Hx; [destruct l|destruct r]; try discriminate; injection Hx as <-; apply IH.
  - apply Hc.
  - apply Hk.
  - apply Ho.
Qed.

Lemma cstring_split bs s : cstring bs = Some s ->
  Forall (fun b => b <> 0) s /\ exists junk, bs = s ++ 0 :: junk.
Proof.
  revert s. induction bs as [|b bs IH]; intros s; simpl; [done|].
  case_decide as Hb; [intros [= <-]; subst; split; [done|by exists bs]|].
  destruct (cstring bs) as [s'|]; [|done]. intros [= <-]. destruct (IH s' eq_refl) as (Hs & junk & ->).
  split; [by constructor|]. by exists junk.
Qed.

Lemma cstr_mono m m' p s : m ⊆ m' -> cstr m p s -> cstr m' p s.
Proof.
  intros Hm (Hp & Hs & junk & H). split_and!; [done|done|]. exists junk.
  by eapply lookup_weaken.
Qed.

Section correct.
Context (rtable : option (list RangTblEntry)) (resultRow : option ScanTableRowData) (behind : list Z).
Context (strs : Z -> option bytes).
Context (behind_ok : (48 <= length behind)%nat).

(** The expression [e] stands for the value [v]. *)
Definition stands (m : strmem) (v : value) (e : ExprDataInfo) : Prop :=
  match v with
  | VI z => int_type (type e) = true /\ iData (data e) = z
  | VS s => string_type (type e) = true /\ cstr m (data e) s
  end.

Record ev_ok (s : EvState) : Prop := {
  ev_brk : 0 < brk s;
  ev_mem : forall p, is_Some (mem s !! p) -> p < brk s;
  ev_strs : forall p x, strs p = Some x -> cstr (mem s) p x }.

Record ev_step (s s' : EvState) : Prop := {
  es_ok : ev_ok s';
  es_pages : pages_of s' = pages_of s;
  es_node : subPlanNode s' = subPlanNode s;
  es_mem : mem s ⊆ mem s' }.

Lemma stands_mono m m' v e : m ⊆ m' -> stands m v e -> stands m' v e.
Proof. intros Hm. destruct v; [done|]. intros [H1 H2]. split; [done|by eapply cstr_mono]. Qed.

Lemma ev_step_refl s : ev_ok s -> ev_step s s.
Proof. by split. Qed.

Lemma ev_step_trans s1 s2 s3 : ev_step s1 s2 -> ev_step s2 s3 -> ev_step s1 s3.
Proof. intros [] []. split; [done|congruence|congruence|by etrans]. Qed.

Lemma ev_step_result s s' e : ev_step s s' -> ev_step s (set_result e s').
Proof. intros [[] ? ? ?]. by split; [split|..]. Qed.

Lemma ev_step_node s s' n : ev_step (set_subPlanNode n s) s' -> ev_step s (set_subPlanNode (subPlanNode s) s').
Proof. intros [[] ? ? ?]. by split; [split|..]. Qed.

(** [AllocMem] gives a string that was not there. *)
Lemma alloc_copy_run s bs : ev_ok s ->
  exists s', alloc_copy bs s = Some (brk s, s') /\ ev_step s s' /\ mem s' !! brk s = Some bs /\
    resultExpreData s' = resultExpreData s.
Proof.
  intros Hok. eexists. split; [reflexivity|].
  assert (mem s !! brk s = None) as Hn.
  { destruct (mem s !! brk s) eqn:E; [|done]. destruct Hok. specialize (ev_mem0 (brk s) (ltac:(eauto))). lia. }
  assert (mem s ⊆ <[brk s := bs]> (mem s)) as Hm by by apply insert_subseteq.
  split_and!; [|simpl; by rewrite lookup_insert_eq|done].
  destruct Hok. split; [|done|done|done]. split; simpl.
  - lia.
  - intros p [x Hp]. destruct (decide (p = brk s)) as [->|]; [lia|].
    rewrite lookup_insert_ne in Hp by done. specialize (ev_mem0 p ltac:(eauto)). lia.
  - intros p x Hx. eapply cstr_mono; [exact Hm|by apply ev_strs0].
Qed.

Lemma Translate_run c vt v d s : ev_ok s -> column_value c vt = Some v ->
  exists d' s', TranslateRawColumnData behind c vt d s = Some (d', s') /\ ev_step s s' /\
    resultExpreData s' = resultExpreData s /\ forall n, stands (mem s') v (mkExpr vt n d').
Proof.
  intros Hok Hv. unfold column_value in Hv. destruct (int_type vt) eqn:Ei.
  - destruct (load_i32 c off_data) as [z|] eqn:Ez; [|done]. injection Hv as <-.
    exists (set_iData d z), s. split_and!; [|by apply ev_step_refl|done|].
    + unfold TranslateRawColumnData. unfold int_type in Ei. apply bool_decide_eq_true in Ei.
      destruct Ei as [-> | ->]; by run (st_lift_run _ _ s Ez).
    + intros n. split; [done|]. apply iData_set.
      unfold load_i32 in Ez. destruct (load_u32 c off_data); [|done]. injection Ez as <-. apply i32_range.
  - destruct (string_type vt) eqn:Est; [|done].
    destruct (col_size c) as [n|] eqn:En; [|done]. simpl in Hv. case_decide as Hn; [|done].
    destruct (cstring (drop (Z.to_nat off_data) c)) as [x|] eqn:Ex; [|done]. injection Hv as <-.
    destruct (cstring_split _ _ Ex) as (Hnz & junk & Hd).
    assert (48 < length c)%nat as Hlc.
    { destruct (le_lt_dec (length c) 48) as [Hle|]; [|done].
      rewrite drop_ge in Hd by (unfold off_data, sizeof_RowColumnData; lia). by destruct x. }
    assert (load (c ++ behind) off_data n = Some (drop (Z.to_nat off_data) c ++ take 48 behind)) as El.
    { rewrite load_some; [|unfold off_data, sizeof_RowColumnData; rewrite ?length_app; lia..].
      unfold off_data, sizeof_RowColumnData. rewrite drop_app_le by lia.
      rewrite take_app, length_drop, Hn, Nat2Z.id, take_ge by (rewrite length_drop; lia).
      do 3 f_equal. lia. }
    destruct (alloc_copy_run s (drop (Z.to_nat off_data) c ++ take 48 behind) Hok) as (s' & E & Hs & Hm & Hr).
    exists (brk s), s'. split_and!; [|done|done|].
    + unfold TranslateRawColumnData. unfold string_type in Est. apply bool_decide_eq_true in Est.
      destruct Est as [-> | ->]; run (st_lift_run _ _ s En); by run (st_lift_run _ _ s El).
    + intros k. split; [done|]. destruct Hok. split; [simpl; lia|]. split; [done|].
      exists (junk ++ take 48 behind). simpl. rewrite Hm, Hd. by rewrite <- app_assoc.
Qed.

(** The parent of a column tells it the table. *)
Definition selects (parent : PNode) (addr ri : Z) : Prop :=
  exists a b l, as_ExprEntry parent = Some (a, b, l) /\ ri = if decide (addr = l) then a else b.

Lemma GetColRowDataEx_listed t i pos k c p :
  rowDataPosition t !! 0%nat = Some pos -> 0 <= i ->
  column_position (colindexList (scanPostionInfo pos)) i 0 = Some k -> rowData pos !! k = Some c ->
  GetColRowDataEx t i false 0 p = Some (Some c, None, true, p).
Proof using Type.
  clear behind_ok.
  intros Hp Hi Hk Hc. unfold GetColRowDataEx.
  assert (0 < length (rowDataPosition t))%nat by (apply lookup_lt_Some in Hp; lia).
  rewrite !decide_False by lia. run (st_lift_run _ _ p Hp). rewrite Hk.
  by run (st_lift_run _ _ p Hc).
Qed.

Lemma Column_run a vt i ri s v :
  ev_ok s -> selects (subPlanNode s) a ri -> column rtable resultRow ri vt i = Some v ->
  exists s', GetExprDataColumnValue rtable resultRow behind a vt i s = Some (true, s') /\
    ev_step s s' /\ stands (mem s') v (resultExpreData s').
Proof.
  intros Hok (x & y & l & Hn & ->) Hc. unfold column in Hc.
  unfold GetExprDataColumnValue. run_refl. run (st_lift_run _ _ s Hn).
  destruct (GetCellValueByIndex rtable _) as [rte|]; [|done]. cbn [mbind option_bind] in Hc.
  destruct (GetTblRowDataPosition resultRow _ _) as [t|]; [|done]. cbn [mbind option_bind] in Hc.
  destruct (rowDataPosition t !! 0%nat) as [pos|] eqn:Hpos; [|done]. cbn [mbind option_bind] in Hc.
  case_decide as Hi; [done|].
  destruct (column_position _ _ _) as [k|] eqn:Hk; [|done]. cbn [mbind option_bind] in Hc.
  destruct (rowData pos !! k) as [c|] eqn:Hck; [|done]. cbn [mbind option_bind] in Hc.
  assert (on_pages (GetColRowDataEx t i false 0) s = Some ((Some c, None, true), s)) as Eg.
  { unfold on_pages. rewrite (GetColRowDataEx_listed t i pos k c) by (done || lia). by destruct s. }
  run Eg. cbn [fst snd]. run_refl.
  destruct (Translate_run c vt v (data (resultExpreData s)) s Hok Hc) as (d & s1 & E1 & Hs1 & Hr1 & Hst).
  run E1. assert (exists n, col_size c = Some n) as [n En].
  { unfold column_value in Hc. destruct (int_type vt).
    - destruct (load_i32 c off_data) as [z|] eqn:Ez; [|done].
      unfold load_i32, load_u32 in Ez. destruct (load c off_data 4) as [b|] eqn:El; [|done].
      apply load_inv in El. unfold col_size, load_i32, load_u32. rewrite load_some; [eauto|lia..|].
      unfold off_data, sizeof_RowColumnData in El. lia.
    - destruct (string_type vt); [|done]. destruct (col_size c); [eauto|done]. }
  run (st_lift_run _ _ s1 En). run_refl. eexists. split; [reflexivity|].
  split; [by apply ev_step_result|]. apply Hst.
Qed.

Definition is_column (n : PNode) : Prop := match n with ColumnRef _ _ _ => True | _ => False end.

Abbreviation meaning := (denote rtable resultRow strs coded_int coded_str).
Abbreviation process := (ProcessQualExprNode rtable resultRow behind).

(** What is shown of a node: it evaluates to its meaning, or faults when it has
    none. *)
Definition evaluates (n : PNode) : Prop := forall ri t s,
  typeof rtable resultRow strs n ri = Some t -> ev_ok s ->
  (is_column n -> selects (subPlanNode s) (node_addr n) ri) ->
  match meaning n ri with
  | Some v => ty_of v = t /\ exists s', process n s = Some (true, s') /\ ev_step s s' /\
      stands (mem s') v (resultExpreData s')
  | None => process n s = None
  end.

Lemma ComputeExpr_value m l r res op a b (Hr : match b with VI z => iData (data r) = z | VS x => cstr m (data r) x end) t :
  stands m a l -> op_type op (ty_of a) (ty_of b) = Some t ->
  match apply_op coded_int coded_str op a b with
  | Some v => ty_of v = t /\ exists e, ComputeExpr m (Some l) (Some r) res op = Some (Some e) /\ stands m v e
  | None => ComputeExpr m (Some l) (Some r) res op = None
  end.
Proof.
  intros Hl Ht. destruct a as [a|x], b as [b|y]; simpl in Ht; try done.
  - destruct (_ : bool) eqn:Hs in Ht; [|done]. injection Ht as <-. destruct Hl as [Hi Ha].
    apply negb_true_iff, bool_decide_eq_false in Hs. cbn [apply_op]. unfold coded_int.
    rewrite (ComputeExpr_int m l r res op Hi) by (apply iData_range || tauto). rewrite Ha, Hr.
    destruct (int_sem (as_coded op) a b) as [v|] eqn:Ev; [|done]. cbn [fmap option_fmap option_map].
    split; [done|]. eexists. split; [reflexivity|]. split; [done|]. apply iData_set.
    eapply int_sem_range; [| |exact Ev]; subst; apply iData_range.
  - destruct (_ : bool) eqn:Hs in Ht; [|done]. injection Ht as <-. destruct Hl as [Hi Ha].
    cbn [apply_op]. unfold coded_str. rewrite (ComputeExpr_string m l r res op x y Hi Ha Hr).
    destruct (str_sem (as_coded op) x y) as [v|] eqn:Ev; [|by destruct op].
    cbn [fmap option_fmap option_map]. split; [done|]. eexists. split; [reflexivity|].
    split; [done|]. apply iData_set. destruct v; unfold in_i32; simpl; lia.
Qed.

Lemma truth_stands m z e : stands m (VI z) e -> getDataBool (Some e) = bool_decide (z <> 0).
Proof.
  intros [Ht <-]. unfold int_type in Ht. apply bool_decide_eq_true in Ht. unfold getDataBool.
  by destruct Ht as [-> | ->].
Qed.

(** What an operator needs of its second operand; [{0}] stands for 0. *)
Definition second (m : strmem) (v : value) (e : ExprDataInfo) : Prop :=
  match v with
  | VI z => iData (data e) = z /\ getDataBool (Some e) = bool_decide (z <> 0)
  | VS x => cstr m (data e) x
  end.

Lemma stands_second m v e : stands m v e -> second m v e.
Proof. destruct v; [|by intros [_ ?]]. intros H. split; [apply H|by eapply truth_stands]. Qed.

Lemma operand_run n ri t s : evaluates n -> typeof rtable resultRow strs n ri = Some t -> ev_ok s ->
  (is_column n -> selects (subPlanNode s) (node_addr n) ri) ->
  match meaning n ri with
  | Some v => ty_of v = t /\ exists e s', operand process (Some n) s = Some (e, s') /\ ev_step s s' /\
      stands (mem s') v e
  | None => operand process (Some n) s = None
  end.
Proof.
  intros Hn Ht Hok Hsel. specialize (Hn ri t s Ht Hok Hsel). unfold operand.
  destruct (meaning n ri) as [v|].
  - destruct Hn as (Hty & s' & E & Hs & Hst). split; [done|]. exists (resultExpreData s'), s'.
    run E. done.
  - by apply st_bind_none.
Qed.

Lemma operands_run ri rri l r tl tr s :
  evaluates l -> (forall x, r = Some x -> evaluates x) ->
  typeof rtable resultRow strs l ri = Some tl ->
  match r with Some r => typeof rtable resultRow strs r rri | None => Some TInt end = Some tr ->
  apart l r = true -> as_ExprEntry (subPlanNode s) = Some (ri, rri, node_addr l) -> ev_ok s ->
  match (a ← meaning l ri; b ← match r with Some r => meaning r rri | None => Some (VI 0) end; Some (a, b)) with
  | Some (a, b) => ty_of a = tl /\ ty_of b = tr /\ exists el er s', ev_step s s' /\
      stands (mem s') a el /\ second (mem s') b er /\
      forall B (k : ExprDataInfo -> ExprDataInfo -> EV B),
        (x ← operand process (Some l); y ← operand process r; k x y) s = k el er s'
  | None => forall B (k : ExprDataInfo -> ExprDataInfo -> EV B),
      (x ← operand process (Some l); y ← operand process r; k x y) s = None
  end.
Proof.
  intros Hl Hr Htl Htr Hap Hn Hok. unfold apart in Hap. apply bool_decide_eq_true in Hap.
  pose proof (operand_run l ri tl s Hl Htl Hok) as HL.
  destruct (meaning l ri) as [a|].
  2:{ cbn [mbind option_bind]. intros. apply st_bind_none, HL. intros _. exists ri, rri, (node_addr l). split; [done|]. by rewrite decide_True. }
  destruct HL as (Hta & el & s1 & E1 & Hs1 & Hst1).
  { intros _. exists ri, rri, (node_addr l). split; [done|]. by rewrite decide_True. }
  cbn [mbind option_bind]. destruct r as [r|].
  - pose proof (operand_run r rri tr s1 (Hr r eq_refl) Htr (es_ok _ _ Hs1)) as HR.
    assert (is_column r -> selects (subPlanNode s1) (node_addr r) rri) as Hsel.
    { intros _. exists ri, rri, (node_addr l). rewrite (es_node _ _ Hs1). split; [done|].
      rewrite decide_False; [done|]. intros E. by apply Hap. }
    destruct (meaning r rri) as [b|].
    + destruct (HR Hsel) as (Htb & er & s2 & E2 & Hs2 & Hst2). split_and!; [done|done|].
      exists el, er, s2. split_and!; [by eapply ev_step_trans|by eapply stands_mono; [apply (es_mem _ _ Hs2)|]
        |by apply stands_second|]. intros. run E1. by run E2.
    + cbn [mbind option_bind]. intros. run E1. by apply st_bind_none, HR.
  - injection Htr as <-. cbn. split_and!; [done|done|]. exists el, zero_expr, s1.
    split_and!; [done|done|done|done|]. intros. by run E1.
Qed.

Lemma evaluates_all n : evaluates n.
Proof.
  induction n as [a ri ij mt l r IHl IHr|a ri rri op l r IHl IHr|a vt i|a v vt k|a ri rri l] using PNode_ind';
    intros rx t s Ht Hok Hsel; cbn [typeof denote ProcessQualExprNode] in *.
  - destruct l as [l|]; [|done]. destruct (apart l r) eqn:Hap; [|done].
    destruct (typeof _ _ _ l ri) as [tl|] eqn:Htl; [|done]. cbn [mbind option_bind] in Ht.
    destruct (match r with Some r => typeof _ _ _ r ij | None => _ end) as [tr|] eqn:Htr; [|done].
    cbn [mbind option_bind] in Ht. destruct tl, tr; try done. injection Ht as <-.
    set (n := MergerEntry a ri ij mt (Some l) r) in *. set (s0 := set_subPlanNode n s).
    assert (Hok0 : ev_ok s0) by by destruct Hok.
    pose proof (operands_run ri ij l r TInt TInt s0 (IHl l eq_refl) IHr Htl Htr Hap eq_refl Hok0) as HO.
    destruct (meaning l ri) as [va|]; cbn [mbind option_bind] in *.
    2:{ run_refl. apply st_bind_none. erewrite (st_bind_some (st_modify _)) by reflexivity. apply HO. }
    destruct (match r with Some r => meaning r ij | None => _ end) as [vb|]; cbn [mbind option_bind] in *.
    2:{ run_refl. apply st_bind_none. erewrite (st_bind_some (st_modify _)) by reflexivity. apply HO. }
    destruct HO as (Hta & Htb & el & er & s1 & Hs1 & Hst1 & Hsec & Hrun).
    destruct va as [za|], vb as [zb|]; try done. destruct Hsec as [_ Hsec].
    split; [done|]. run_refl.
    assert (bool_op mt (VI za) (VI zb) =
      (if decide (mt = AND_EXPR) then getDataBool (Some el) && getDataBool (Some er)
       else if decide (mt = OR_EXPR) then getDataBool (Some el) || getDataBool (Some er)
       else if decide (mt = NOT_EXPR) then negb (getDataBool (Some el)) else false)) as Eb.
    { unfold bool_op, truth. rewrite Hsec, (truth_stands _ _ _ Hst1). done. }
    set (b := bool_op mt (VI za) (VI zb)) in *.
    exists (set_subPlanNode (subPlanNode s) (set_result (int_expr (Z.b2z b) (resultExpreData s1)) s1)).
    split_and!.
    + erewrite st_bind_some; [reflexivity|]. erewrite (st_bind_some (st_modify _)) by reflexivity. fold s0.
      unfold ComputeBoolExprNode. rewrite Hrun, <- Eb. run_refl.
      run (st_lift_run _ _ s1 (bool_result_eq b (resultExpreData s1))). reflexivity.
    + apply (ev_step_node s _ n). by apply ev_step_result.
    + split; [done|]. apply iData_set. destruct b; unfold in_i32; simpl; lia.
  - destruct l as [l|]; [|done]. destruct (apart l r) eqn:Hap; [|done].
    destruct (typeof _ _ _ l ri) as [tl|] eqn:Htl; [|done]. cbn [mbind option_bind] in Ht.
    destruct (match r with Some r => typeof _ _ _ r rri | None => _ end) as [tr|] eqn:Htr; [|done].
    cbn [mbind option_bind] in Ht.
    set (n := ExprEntry a ri rri op (Some l) r) in *. set (s0 := set_subPlanNode n s).
    assert (Hok0 : ev_ok s0) by by destruct Hok.
    pose proof (operands_run ri rri l r tl tr s0 (IHl l eq_refl) IHr Htl Htr Hap eq_refl Hok0) as HO.
    destruct (meaning l ri) as [va|]; cbn [mbind option_bind] in *.
    2:{ run_refl. apply st_bind_none. erewrite (st_bind_some (st_modify _)) by reflexivity. apply HO. }
    destruct (match r with Some r => meaning r rri | None => _ end) as [vb|]; cbn [mbind option_bind] in *.
    2:{ run_refl. apply st_bind_none. erewrite (st_bind_some (st_modify _)) by reflexivity. apply HO. }
    destruct HO as (<- & <- & el & er & s1 & Hs1 & Hst1 & Hsec & Hrun).
    pose proof (ComputeExpr_value (mem s1) el er (resultExpreData s1) op va vb) as HC.
    assert (match vb with VI z => iData (data er) = z | VS x => cstr (mem s1) (data er) x end) as Hr2
      by (destruct vb; [apply Hsec|done]).
    specialize (HC Hr2 t Hst1 Ht).
    destruct (apply_op coded_int coded_str op va vb) as [v|].
    + destruct HC as (Hty & e & Ee & Hst). split; [done|].
      exists (set_subPlanNode (subPlanNode s) (set_result e s1)). split_and!.
      * run_refl. erewrite st_bind_some; [reflexivity|].
        erewrite (st_bind_some (st_modify _)) by reflexivity. fold s0.
        unfold ComputeExpreNode. rewrite Hrun. run_refl. run_refl. run (st_lift_run _ _ s1 Ee). reflexivity.
      * apply (ev_step_node s _ n). by apply ev_step_result.
      * done.
    + run_refl. apply st_bind_none. erewrite (st_bind_some (st_modify _)) by reflexivity. fold s0.
      unfold ComputeExpreNode. rewrite Hrun. run_refl. run_refl. apply st_bind_none. unfold st_lift.
      by rewrite HC.
  - destruct (column rtable resultRow rx vt i) as [v|] eqn:Ev; [|done]. injection Ht as <-. split; [done|].
    destruct (Column_run a vt i rx s v Hok (Hsel I) Ev) as (s1 & E1 & Hs1 & Hst).
    exists (set_subPlanNode (subPlanNode s) s1). split_and!.
    + run_refl. erewrite st_bind_some by exact E1. reflexivity.
    + apply (ev_step_node s _ (subPlanNode s)). replace (set_subPlanNode (subPlanNode s) s) with s by by destruct s. done.
    + done.
  - destruct (constant strs v vt) as [x|] eqn:Ex; [|done]. injection Ht as <-. split; [done|].
    eexists. split; [reflexivity|]. split.
    + apply (ev_step_node s _ (subPlanNode s)), ev_step_result.
      replace (set_subPlanNode (subPlanNode s) s) with s by by destruct s. by apply ev_step_refl.
    + unfold constant in Ex. destruct (int_type vt) eqn:Ei; [injection Ex as <-; by split|].
      destruct (string_type vt) eqn:Es; [|done]. destruct (strs v) as [y|] eqn:Ey; [|done]. injection Ex as <-.
      split; [done|]. destruct Hok. by apply ev_strs0.
  - done.
Qed.

Definition is_operation (n : PNode) : Prop :=
  match n with ExprEntry _ _ _ _ _ _ | MergerEntry _ _ _ _ _ _ => True | _ => False end.

Lemma operation_int n ri t : is_operation n -> typeof rtable resultRow strs n ri = Some t -> t = TInt.
Proof.
  destruct n as [? ? ? ? l r|? ? ? op l r|?|?|?]; simpl; try done; intros _;
    (destruct l; [|done]); (destruct (apart _ _); [|done]);
    (destruct (typeof _ _ _ _ _) as [tl|]; [|done]);
    (destruct (match r with Some r => typeof _ _ _ r _ | None => _ end) as [tr|]; [|done]);
    simpl; destruct tl, tr; simpl; try done; repeat case_match; congruence.
Qed.

Lemma plain_meaning n : plain n = true -> forall ri,
  meaning n ri = denote rtable resultRow strs sql_int str_sem n ri.
Proof.
  induction n as [a ri ij mt l r IHl IHr|a ri rri op l r IHl IHr|a vt i|a v vt k|a ri rri l] using PNode_ind';
    intros Hp rx; cbn [plain denote] in *; try done.
  - destruct l as [l|]; [|done]. apply andb_true_iff in Hp as [Hl Hr].
    rewrite (IHl l eq_refl Hl). destruct (denote _ _ _ sql_int str_sem l ri); [|done]. cbn [mbind option_bind].
    destruct r as [r|]; [|done]. by rewrite (IHr r eq_refl Hr).
  - destruct l as [l|]; [|done]. apply andb_true_iff in Hp as [Hop Hr]. apply andb_true_iff in Hop as [Hop Hl].
    apply negb_true_iff, bool_decide_eq_false in Hop.
    assert (forall x y, apply_op coded_int coded_str op x y = apply_op sql_int str_sem op x y) as Eop.
    { intros [x|x] [y|y]; try done; simpl; [|by destruct op; tauto].
      unfold coded_int, sql_int. destruct op; try done; tauto. }
    rewrite (IHl l eq_refl Hl). destruct (denote _ _ _ sql_int str_sem l ri); [|done]. cbn [mbind option_bind].
    destruct r as [r|].
    + rewrite (IHr r eq_refl Hr). destruct (denote _ _ _ sql_int str_sem r rri); [|done].
      cbn [mbind option_bind]. apply Eop.
    + cbn [mbind option_bind]. apply Eop.
Qed.

Lemma ExecSelectQual_run n b s s' : process n s = Some (b, s') ->
  ExecSelectQual rtable resultRow behind (Some n) s =
    Some (if b then Some (resultExpreData s') else None, s').
Proof. intros E. unfold ExecSelectQual. run E. destruct b; [run_refl|]; done. Qed.

(** C22: evaluating a condition over the columns of a row gives its meaning. For
    every well-typed tree of operations whose columns the scan holds - any
    nesting of arithmetic and comparisons of integers and strings under and, or
    and not, without [<] and the unary signs - the code returns the integer the
    reference semantics gives, true exactly when that is not zero, whatever the
    shared result cell held before; it faults exactly when the meaning has an
    overflow or a division by zero, and leaves the pages, the plan node and
    every string it did not allocate as they were. *)
Theorem ExecSelectQual_means n ri t s :
  typeof rtable resultRow strs n ri = Some t -> is_operation n -> plain n = true -> ev_ok s ->
  match denote rtable resultRow strs sql_int str_sem n ri with
  | Some v => exists e s', ExecSelectQual rtable resultRow behind (Some n) s = Some (Some e, s') /\
      t = TInt /\ stands (mem s') v e /\ getDataBool (Some e) = truth v /\
      pages_of s' = pages_of s /\ subPlanNode s' = subPlanNode s /\ mem s ⊆ mem s'
  | None => ExecSelectQual rtable resultRow behind (Some n) s = None
  end.
Proof.
  intros Ht Hop Hp Hok. rewrite <- (plain_meaning n Hp ri).
  assert (is_column n -> selects (subPlanNode s) (node_addr n) ri) as Hsel by by destruct n.
  pose proof (evaluates_all n ri t s Ht Hok Hsel) as HE. pose proof (operation_int n ri t Hop Ht) as ->.
  destruct (meaning n ri) as [v|]; [|by apply st_bind_none].
  destruct HE as (Hty & s' & E & [Hok' Hpg Hnd Hm] & Hst).
  exists (resultExpreData s'), s'. split_and!; try done.
  - by apply (ExecSelectQual_run n true).
  - destruct v; [|done]. by eapply truth_stands.
Qed.

(** Conditions the code gets wrong. On strings [<>] has no operator: the
    evaluation returns [NULL], which counts as true, so the row is selected
    whatever the strings are. On integers [<] runs the code of [<=]: a row whose
    two sides are equal is selected. *)
Theorem ExecSelectQual_selects_wrongly a ri rri l r s :
  apart l (Some r) = true -> ev_ok s ->
  (typeof rtable resultRow strs l ri = Some TStr -> typeof rtable resultRow strs r rri = Some TStr ->
   (exists x y, meaning l ri = Some (VS x) /\ meaning r rri = Some (VS y)) ->
   exists s', ExecSelectQual rtable resultRow behind (Some (ExprEntry a ri rri NOT_EQUAL (Some l) (Some r))) s =
     Some (None, s') /\ getDataBool None = true) /\
  (typeof rtable resultRow strs l ri = Some TInt -> typeof rtable resultRow strs r rri = Some TInt ->
   (exists z, meaning l ri = Some (VI z) /\ meaning r rri = Some (VI z)) ->
   exists e s', ExecSelectQual rtable resultRow behind (Some (ExprEntry a ri rri LESS (Some l) (Some r))) s =
     Some (Some e, s') /\ getDataBool (Some e) = true).
Proof.
  intros Hap Hok. split; intros Hl Hr Hm.
  - destruct Hm as (x & y & Mx & My).
    set (n := ExprEntry a ri rri NOT_EQUAL (Some l) (Some r)). set (s0 := set_subPlanNode n s).
    assert (Hok0 : ev_ok s0) by by destruct Hok.
    pose proof (operands_run ri rri l (Some r) TStr TStr s0 (evaluates_all l) (fun x _ => evaluates_all x)
      Hl Hr Hap eq_refl Hok0) as HO.
    rewrite Mx, My in HO. cbn [mbind option_bind] in HO.
    destruct HO as (_ & _ & el & er & s1 & _ & [Hst Hc] & Hsec & Hrun).
    exists (set_subPlanNode (subPlanNode s) s1). split; [|done].
    apply (ExecSelectQual_run n false). cbn [ProcessQualExprNode n]. run_refl. erewrite st_bind_some; [reflexivity|].
    erewrite (st_bind_some (st_modify _)) by reflexivity. fold n s0.
    unfold ComputeExpreNode. rewrite Hrun. run_refl. run_refl.
    rewrite (ComputeExpr_string (mem s1) el er _ NOT_EQUAL x y Hst Hc Hsec). reflexivity.
  - destruct Hm as (z & Ml & Mr).
    assert (typeof rtable resultRow strs (ExprEntry a ri rri LESS (Some l) (Some r)) ri = Some TInt) as Ht.
    { cbn [typeof]. by rewrite Hap, Hl, Hr. }
    pose proof (evaluates_all _ ri TInt s Ht Hok) as HE. cbn [denote] in HE. rewrite Ml, Mr in HE.
    cbn [mbind option_bind apply_op coded_int as_coded int_sem fmap option_fmap option_map] in HE.
    rewrite Z.leb_refl in HE. destruct HE as (_ & s' & E & _ & Hst); [done|].
    exists (resultExpreData s'), s'. split; [by apply (ExecSelectQual_run _ true)|].
    by rewrite (truth_stands _ _ _ Hst).
Qed.

End correct.

(** ** A concrete row

    One table, one scanned row with an integer column and a string column. *)

Definition int_column (v : Z) : list Z := le 4 52 ++ le 4 0 ++ replicate 40 0 ++ le 4 v.
Definition str_column (s : bytes) : list Z :=
  le 4 (48 + Z.of_nat (length s) + 1) ++ le 4 1 ++ replicate 40 0 ++ s ++ [0].

Definition one_rtable : option (list RangTblEntry) := Some [mkRTE 1 77].
Definition one_row (v : Z) (s : bytes) : option ScanTableRowData :=
  Some [Some (mkTblRow 77 1 [mkRowPosition (mkScan [0; 1] [None; None] [] (mkSearch None 0 0 0))
                               [int_column v; str_column s]])].

Definition eval0 : EvState :=
  mkEv (mkPS ∅ ∅ [] 0 0 0) {[ 8 := [97; 98; 0] ]} 100 zero_expr (OtherNode 1 0 0 0).

Definition strs0 (p : Z) : option bytes := if decide (p = 8) then Some [97; 98] else None.

Lemma eval0_ok : ev_ok strs0 eval0.
Proof.
  split; [done| |].
  - intros p [x Hp]. cbn in Hp. apply lookup_singleton_Some in Hp as [<- _]. done.
  - intros p x. unfold strs0. case_decide as E; [|done]. intros [= <-]. subst p.
    split; [done|]. split; [by repeat constructor|]. exists []. done.
Qed.

(** [a + 2 = 7 and b = 'ab'] *)
Definition sample_qual : PNode :=
  MergerEntry 10 1 0 AND_EXPR
    (Some (ExprEntry 11 1 0 EQUAL
             (Some (ExprEntry 12 1 0 PLUS (Some (ColumnRef 13 VT_INT 0)) (Some (ConstValue 14 2 VT_INT 0))))
             (Some (ConstValue 15 7 VT_INT 0))))
    (Some (ExprEntry 16 1 0 EQUAL (Some (ColumnRef 17 VT_VARCHAR 1)) (Some (ConstValue 18 8 VT_VARCHAR 0)))).

Lemma ExecSelectQual_means_witness :
  exists e s', ExecSelectQual one_rtable (one_row 5 [97; 98]) (replicate 48 0) (Some sample_qual) eval0 =
    Some (Some e, s') /\ getDataBool (Some e) = true.
Proof.
  pose proof (ExecSelectQual_means one_rtable (one_row 5 [97; 98]) (replicate 48 0) strs0
    ltac:(rewrite length_replicate; lia) sample_qual 0 TInt eval0 eq_refl I eq_refl eval0_ok) as (e & s' & E & _ & _ & H & _).
  exists e, s'. split; [exact E|exact H].
Defined.

Lemma ExecSelectQual_selects_wrongly_witness :
  exists s', ExecSelectQual None None (replicate 48 0)
    (Some (ExprEntry 1 0 0 NOT_EQUAL (Some (ConstValue 2 8 VT_VARCHAR 0)) (Some (ConstValue 3 8 VT_VARCHAR 0)))) eval0 =
    Some (None, s').
Proof.
  destruct (proj1 (ExecSelectQual_selects_wrongly None None (replicate 48 0) strs0
    ltac:(rewrite length_replicate; lia) 1 0 0 (ConstValue 2 8 VT_VARCHAR 0) (ConstValue 3 8 VT_VARCHAR 0) eval0
    eq_refl eval0_ok) eq_refl eq_refl) as (s' & E & _).
  - exists [97; 98], [97; 98]. split; reflexivity.
  - exists s'. exact E.
Defined.
