(* ===== verification/Plan.v ===== *)
(** * Query plans

    Models the tree of tables a query joins ([AddJoinTblNode] of
    [src/src/sqlcore/plan/query.c]) and the planner of
    [src/src/sqlcore/plan/plan.c] for [SELECT]: the scan and nested-loop nodes of
    the tables, the selection above them, the projection and the query node on
    top. Plans are trees; a scan keeps the address of the entry it was made from,
    which tells it from the other scans. *)

From S2P Require Import Prelude Page PageStore DataTypes Express.

(** ** Data: queryNode.h, planNode.h *)

(** [te_attrIndex] and [te_rindex] place the column; its type and name are those of
    its [ColumnRef], the label and the new value ([SET column = value]) those of its
    [ResTarget]. *)
Record TargetEntry := mkTE {
  te_attrIndex : Z; te_rindex : Z; te_vt : valueType; te_name : bytes; te_label : bytes; te_setValue : option PNode }.

Abbreviation RangTable := (option (list RangTblEntry)).

(** A node of the join tree: [T_MergerEntry], [T_JoinEntry], [T_ExprEntry] with the
    table it scans, or another node. *)
Inductive RtNode :=
  | MergerRt (rtNum : Z) (lefttree righttree : option RtNode)
  | JoinEntry (rtNum : Z) (lefttree righttree : option RtNode)
  | ExprRt (addr rindex rtNum : Z) (targetList : list TargetEntry)
  | OtherRt.

Inductive CmdType := CMD_UNKNOWN | CMD_INSERT | CMD_UPDATE | CMD_DELETE | CMD_SELECT | CMD_UTILITY.

#[export] Instance CmdType_eq_dec : EqDecision CmdType.
Proof. solve_decision. Defined.

Inductive Plan :=
  | SeqScan (addr : Z) (rangTbl : option RangTblEntry) (targetList : list TargetEntry)
  | NestLoop (rtNum : Z) (leftplan rightplan : option Plan)
  | SelectResult (self : PNode) (qual : option (list PNode)) (rtable : RangTable) (subplan : option Plan)
  | ProjectTbl (targetList : option (list TargetEntry)) (rtable : RangTable) (subplan : option Plan)
  | QueryTbl (targetList : option (list TargetEntry)) (rtable : RangTable) (subplan : option Plan)
  | TopPlan (commandType : CmdType) (leftplan : option Plan).

Record Query := mkQuery {
  q_commandType : CmdType;
  q_rtable : RangTable;
  q_rtjoinTree : option (list RtNode);
  q_joinTree : option (list PNode);
  q_targetList : option (list TargetEntry) }.

(** ** query.c: the tree of the tables *)

Definition GetNodeRtNum (n : option RtNode) : Z :=
  match n with
  | Some (ExprRt _ _ k _) | Some (JoinEntry k _ _) | Some (MergerRt k _ _) => k
  | _ => 0
  end.

(** A table to join: the address of the entry [NewNode] makes, the table's index
    and the columns it needs. *)
Definition AddNormalTblNode (addr rindex : Z) (targetList : list TargetEntry) : RtNode :=
  ExprRt addr rindex 1 targetList.

(** The list's first node is the tree built so far; [[]] is [NULL]. *)
Definition AddJoinTblNode (left : list RtNode) (addr rindex : Z) (targetList : list TargetEntry) : list RtNode :=
  match left with
  | [] => [AddNormalTblNode addr rindex targetList]
  | JoinEntry k l None :: rest => JoinEntry k l (Some (AddNormalTblNode addr rindex targetList)) :: rest
  | node :: _ =>
      let r := AddNormalTblNode addr rindex targetList in
      [JoinEntry (GetNodeRtNum (Some node) + GetNodeRtNum (Some r)) (Some node) (Some r)]
  end.

(** The loop of [CommonQueryTransform] that adds the tables. *)
Definition AddJoinTblNodes (tables : list (Z * Z * list TargetEntry)) : list RtNode :=
  foldl (fun t x => AddJoinTblNode t x.1.1 x.1.2 x.2) [] tables.

(** ** plan.c *)

Section plan.
Context (rtable : RangTable).

Definition ProcessScanNode (addr rindex : Z) (targetList : list TargetEntry) : Plan :=
  SeqScan addr (GetCellValueByIndex rtable rindex) targetList.

(** [ProcessMergerNode] and [ProcessJoinNode] build the same node. *)
Fixpoint ProcessJoinTree (currentNode : RtNode) : option Plan :=
  let sub n := match n with Some n => ProcessJoinTree n | None => None end in
  match currentNode with
  | MergerRt k l r | JoinEntry k l r => Some (NestLoop k (sub l) (sub r))
  | ExprRt addr rindex _ targets => Some (ProcessScanNode addr rindex targets)
  | OtherRt => None
  end.

(** The plan of the last node; [NULL] when more than one node has a plan. *)
Definition ProcessQual (joinTreeList : option (list RtNode)) : option Plan :=
  match joinTreeList with
  | None => None
  | Some l =>
      let plans := ProcessJoinTree <$> l in
      if decide (1 < Z.of_nat (length (omap id plans))) then None else mjoin (last plans)
  end.

End plan.

Definition ProcessTableScan (q : Query) : option Plan := ProcessQual (q_rtable q) (q_rtjoinTree q).

(** [self] is the node as the expression evaluator reads it. *)
Definition ProcessSelectQual (self : PNode) (q : Query) (rootNode : option Plan) : option Plan :=
  Some (SelectResult self (q_joinTree q) (q_rtable q) rootNode).

Definition ProcessTopNode (q : Query) (rootNode : option Plan) : option Plan :=
  match q_commandType q with
  | CMD_SELECT | CMD_UPDATE | CMD_DELETE => Some (ProjectTbl (q_targetList q) (q_rtable q) rootNode)
  | _ => rootNode
  end.

Definition subPlanSelectStmt (self : PNode) (q : Query) : Plan :=
  let sub := ProcessTableScan q in
  let sub := match q_joinTree q with None => sub | Some _ => ProcessSelectQual self q sub end in
  let sub := ProcessTopNode q sub in
  TopPlan (q_commandType q) (Some (QueryTbl (q_targetList q) (q_rtable q) sub)).

(** ** The shape of the plans of a join *)

(** The scans from left to right, with the table entry and the columns of each. *)
Fixpoint seqscans (p : Plan) : list (Z * option RangTblEntry * list TargetEntry) :=
  match p with
  | SeqScan a rt ts => [(a, rt, ts)]
  | NestLoop _ l r =>
      match l with Some l => seqscans l | None => [] end ++ match r with Some r => seqscans r | None => [] end
  | SelectResult _ _ _ s | ProjectTbl _ _ s | QueryTbl _ _ s | TopPlan _ s =>
      match s with Some s => seqscans s | None => [] end
  end.

(** A scan, or a nested loop whose right side is a scan and whose row array has
    room for the tables of both sides. *)
Fixpoint table_count (p : Plan) : Z :=
  match p with
  | SeqScan _ _ _ => 1
  | NestLoop _ (Some l) (Some r) => table_count l + table_count r
  | _ => 0
  end.

Fixpoint left_deep (p : Plan) : Prop :=
  match p with
  | SeqScan _ _ _ => True
  | NestLoop n (Some l) (Some (SeqScan _ _ _)) => left_deep l /\ n = table_count l + 1
  | _ => False
  end.

(** Their addresses. *)
Fixpoint scans (p : Plan) : list Z :=
  match p with
  | SeqScan a _ _ => [a]
  | NestLoop _ l r =>
      match l with Some l => scans l | None => [] end ++ match r with Some r => scans r | None => [] end
  | SelectResult _ _ _ s | ProjectTbl _ _ s | QueryTbl _ _ s | TopPlan _ s =>
      match s with Some s => scans s | None => [] end
  end.

Lemma AddJoinTblNode_shape rtable n a i t p :
  ProcessJoinTree rtable n = Some p -> left_deep p -> GetNodeRtNum (Some n) = table_count p ->
  match n with JoinEntry _ _ None | OtherRt => False | _ => True end ->
  exists n' p', AddJoinTblNode [n] a i t = [n'] /\ ProcessJoinTree rtable n' = Some p' /\ left_deep p' /\
    GetNodeRtNum (Some n') = table_count p' /\ scans p' = scans p ++ [a] /\
    seqscans p' = seqscans p ++ [(a, GetCellValueByIndex rtable i, t)] /\
    match n' with JoinEntry _ _ None | OtherRt => False | _ => True end.
Proof.
  intros Hp Hl Hn Hs.
  exists (JoinEntry (GetNodeRtNum (Some n) + 1) (Some n) (Some (AddNormalTblNode a i t))),
    (NestLoop (GetNodeRtNum (Some n) + 1) (Some p) (Some (ProcessScanNode rtable a i t))).
  split_and!; try done.
  - by destruct n as [| ? ? []| |].
  - cbn [ProcessJoinTree]. by rewrite Hp.
  - by rewrite Hn.
  - change (GetNodeRtNum (Some n) + 1 = table_count p + 1). by rewrite Hn.
Qed.

Lemma AddJoinTblNodes_snoc tables x :
  AddJoinTblNodes (tables ++ [x]) = AddJoinTblNode (AddJoinTblNodes tables) x.1.1 x.1.2 x.2.
Proof. unfold AddJoinTblNodes. by rewrite foldl_app. Qed.

(** Any list of tables gets a left-deep plan that scans them in their order. *)
Lemma tables_left_deep rtable tables : tables <> [] ->
  exists n p, AddJoinTblNodes tables = [n] /\ ProcessQual rtable (Some [n]) = Some p /\ left_deep p /\
    scans p = (fun x => x.1.1) <$> tables /\
    seqscans p = (fun x => (x.1.1, GetCellValueByIndex rtable x.1.2, x.2)) <$> tables.
Proof.
  intros Hne.
  enough (exists n p, AddJoinTblNodes tables = [n] /\ ProcessJoinTree rtable n = Some p /\ left_deep p /\
    GetNodeRtNum (Some n) = table_count p /\ scans p = (fun x => x.1.1) <$> tables /\
    seqscans p = (fun x => (x.1.1, GetCellValueByIndex rtable x.1.2, x.2)) <$> tables /\
    match n with JoinEntry _ _ None | OtherRt => False | _ => True end) as (n & p & H1 & H2 & H3 & _ & H4 & H5 & _).
  { exists n, p. split_and!; try done. unfold ProcessQual. simpl. by rewrite H2. }
  induction tables as [|x tables IH] using rev_ind; [done|]. rewrite AddJoinTblNodes_snoc.
  destruct (decide (tables = [])) as [->|Hn].
  - exists (AddNormalTblNode x.1.1 x.1.2 x.2), (ProcessScanNode rtable x.1.1 x.1.2 x.2). by split_and!.
  - destruct (IH Hn) as (n & p & -> & Hp & Hl & Hk & Hs & Hq & Hsh).
    destruct (AddJoinTblNode_shape rtable n x.1.1 x.1.2 x.2 p Hp Hl Hk Hsh) as (n' & p' & -> & Hp' & Hl' & Hk' & Hs' & Hq' & Hsh').
    exists n', p'. split_and!; try done; [by rewrite Hs', Hs, fmap_app|by rewrite Hq', Hq, fmap_app].
Qed.
