(* ===== verification/Executor.v ===== *)
(** * The executor

    Models the nodes that run a [SELECT]: [ExecNodeProc] and [ExecNodeReScan] of
    [src/src/sqlcore/executor/executor.c], the nested loop of [execNestLoop.c], the
    selection of [execSelect.c], the projection and query nodes of [execProject.c],
    the dispatch of [execNodeProc.c] and the construction of the node states of
    [execInitNode.c]. The sequential scan and the portal are used through the
    classes [Scanner] and [Port].

    A scanned row is not a value: a scan returns a pointer to its own row
    structure, which its next call overwrites, and a nested loop returns an array of
    such pointers. Rows are lists of scan addresses here, read through the scans'
    current state. *)

From S2P Require Import Prelude Bytes Transaction Page PageStore Space DataTypes Express Plan.

(** ** Interfaces *)

(** The scan of one table: [ScanNext] is [SeqscanNext], which says whether the
    scan's row structure holds a row; [ScanReset] is [ExecReSeqScan]; [ScanInit]
    the state [InitExecNodeSeqScan] makes. *)
Class Scanner (C : Type) := {
  ScanInit : option RangTblEntry -> list TargetEntry -> option C;
  ScanNext : C -> PM (bool * C);
  ScanReset : C -> PM C;
  scan_row : C -> TableRowDataPosition }.

(** The portal that takes the rows of a query: a column pointer can be [NULL]. *)
Class Port (P : Type) := {
  InitSelectPortal : option (list TargetEntry) -> ST P Z;
  SendToPort : list (option (list Z)) -> ST P Z;
  FinishSend : ST P Z }.

(** ** Data: execNode.h *)

(** What an [ExecNodeProc] call returns behind a [PTableRowData]: a
    [ScanTableRowData], the addresses of the scans whose row structures it points
    to, or the [RowData] of a projection, which is out of date ([fresh] false)
    when the projection failed and left the columns of an earlier row in it. *)
Inductive RowPtr :=
  | ScanRow (tables : list Z)
  | ProjRow (fresh : bool) (cols : list (option (list Z))).

(** [outResultRow] and the array of [scanTableRow]: [NULL] entries until written. *)
Record NestLoopData := mkNestLoop {
  outerNeedNew : bool; outerIsEnd : bool; innerNeedNew : bool; innerIsEnd : bool;
  outResultRow : option RowPtr; nl_scanTableRow : list (option Z) }.

Inductive PlanState :=
  | SeqScanState (addr : Z)
  | NestLoopState (d : NestLoopData) (left right : option PlanState)
  | SelectState (subplanState : option PlanState)
  | ProjectTblState (prjData : list (option (list Z))) (subplanState : option PlanState)
  | QueryTblState (subplanState : option PlanState)
  | TopPlanState (left : option PlanState).

Definition ExecRetCode_ERR : Z := -1.

Section executor.
Context {C P : Type} `{Scanner C} `{Port P}.

(** [ev] holds the pages and the evaluator's cells; [scanning] the scan states by
    the address of their node. *)
Record EState := mkES {
  ev : EvState;
  scanning : gmap Z C;
  portal : P;
  scanRowDataLeft : option RowPtr;
  scanRowDataRight : option RowPtr;
  retCode : Z }.

Abbreviation XM := (ST EState).

Definition set_ev (e : EvState) (s : EState) : EState :=
  mkES e (scanning s) (portal s) (scanRowDataLeft s) (scanRowDataRight s) (retCode s).
Definition set_scanning (m : gmap Z C) (s : EState) : EState :=
  mkES (ev s) m (portal s) (scanRowDataLeft s) (scanRowDataRight s) (retCode s).
Definition set_portal (p : P) (s : EState) : EState :=
  mkES (ev s) (scanning s) p (scanRowDataLeft s) (scanRowDataRight s) (retCode s).
Definition set_sides (l r : option RowPtr) (s : EState) : EState :=
  mkES (ev s) (scanning s) (portal s) l r (retCode s).
Definition set_retCode (z : Z) (s : EState) : EState :=
  mkES (ev s) (scanning s) (portal s) (scanRowDataLeft s) (scanRowDataRight s) z.

Definition on_ev {A} (m : EV A) : XM A := fun s =>
  match m (ev s) with Some (a, e) => Some (a, set_ev e s) | None => None end.
Definition on_portal {A} (m : ST P A) : XM A := fun s =>
  match m (portal s) with Some (a, p) => Some (a, set_portal p s) | None => None end.

(** The bytes behind a column in memory. *)
Context (behind : list Z).

(** ** execInitNode.c *)

(** A child without a plan has no state. *)
Definition InitChild (init : Plan -> XM (option PlanState)) (p : option Plan) : XM (option PlanState) :=
  match p with None => mret None | Some p => init p end.

Definition InitExecNodeSeqScan (addr : Z) (rte : option RangTblEntry) (targets : list TargetEntry)
    : XM (option PlanState) :=
  c ← st_lift (ScanInit rte targets);
  st_modify (fun s => set_scanning (<[addr := c]> (scanning s)) s);;
  mret (Some (SeqScanState addr)).

(** [ExecInitNestLoopNode] *)
Definition first_round (rtNum : Z) : NestLoopData :=
  mkNestLoop true false true false None (replicate (Z.to_nat rtNum) None).

Definition InitExecNodeNestLoop (init : Plan -> XM (option PlanState)) (rtNum : Z) (l r : option Plan)
    : XM (option PlanState) :=
  ls ← InitChild init l;
  rs ← InitChild init r;
  mret (Some (NestLoopState (first_round rtNum) ls rs)).

Definition InitExecSelect (init : Plan -> XM (option PlanState)) (sub : option Plan) : XM (option PlanState) :=
  s ← InitChild init sub; mret (Some (SelectState s)).

Definition InitExecNodeProjectTbl (init : Plan -> XM (option PlanState)) (sub : option Plan) : XM (option PlanState) :=
  s ← InitChild init sub; mret (Some (ProjectTblState [] s)).

Definition InitExecNodeQuerybl (init : Plan -> XM (option PlanState)) (targets : option (list TargetEntry))
    (sub : option Plan) : XM (option PlanState) :=
  ret ← on_portal (InitSelectPortal targets);
  if decide (ret < 0) then mret None else
  s ← InitChild init sub; mret (Some (QueryTblState s)).

Definition InitExecNodePlan (init : Plan -> XM (option PlanState)) (l : option Plan) : XM (option PlanState) :=
  ls ← InitChild init l; mret (Some (TopPlanState ls)).

Fixpoint InitExecNode (plan : Plan) : XM (option PlanState) :=
  match plan with
  | SeqScan addr rte targets => InitExecNodeSeqScan addr rte targets
  | NestLoop rtNum l r => InitExecNodeNestLoop InitExecNode rtNum l r
  | SelectResult _ _ _ sub => InitExecSelect InitExecNode sub
  | ProjectTbl _ _ sub => InitExecNodeProjectTbl InitExecNode sub
  | QueryTbl targets _ sub => InitExecNodeQuerybl InitExecNode targets sub
  | TopPlan _ l => InitExecNodePlan InitExecNode l
  end.

(** ** executor.c: calling a node *)

(** [ExecNodeProc] without a state returns [NULL]. *)
Definition ExecChild (proc : Plan -> PlanState -> XM (option RowPtr * PlanState)) (plan : option Plan)
    (st : option PlanState) : XM (option RowPtr * option PlanState) :=
  match st with
  | None => mret (None, None)
  | Some st =>
      match plan with
      | None => st_fault
      | Some plan => '(row, st) ← proc plan st; mret (row, Some st)
      end
  end.

(** Only the scan and the nested loop have a rescan function, and the nested
    loop's does nothing. *)
Definition ExecNodeReScan (st : option PlanState) : XM unit :=
  match st with
  | Some (SeqScanState addr) => fun s =>
      c ← scanning s !! addr;
      match on_pages (ScanReset c) (ev s) with
      | Some (c, e) => Some (tt, set_scanning (<[addr := c]> (scanning s)) (set_ev e s))
      | None => None
      end
  | _ => mret tt
  end.

Definition ExecSeqscanNode (addr : Z) : XM (option RowPtr) := fun s =>
  c ← scanning s !! addr;
  match on_pages (ScanNext c) (ev s) with
  | Some ((found, c), e) =>
      Some (if (found : bool) then Some (ScanRow [addr]) else None,
            set_scanning (<[addr := c]> (scanning s)) (set_ev e s))
  | None => None
  end.

(** ** execNestLoop.c *)

(** The array cells from [index] on take the pointers. *)
Fixpoint write_row_ptrs (array : list (option Z)) (index : nat) (row : list Z) : option (list (option Z)) :=
  match row with
  | [] => Some array
  | x :: row =>
      if decide (index < length array)%nat then write_row_ptrs (<[index := Some x]> array) (S index) row else None
  end.

Definition as_scan_row (r : option RowPtr) : option (option (list Z)) :=
  match r with None => Some None | Some (ScanRow l) => Some (Some l) | Some (ProjRow _ _) => None end.

(** The row array after the merge, [None] where the code reads or writes outside
    it, and the merged row: the first [tableNum] pointers. Without a left row
    nothing is copied. *)
Definition ExecMergeRowData (array : list (option Z)) (leftRow rightRow : option (list Z))
    : option (option (list Z) * list (option Z)) :=
  let tableNum := (length (default [] leftRow) + length (default [] rightRow))%nat in
  if decide (tableNum = 0)%nat then Some (None, array) else
  array ← match leftRow with
          | None => Some array
          | Some l =>
              array ← write_row_ptrs array 0 l;
              if decide (length l = tableNum) then Some array else write_row_ptrs array (length l) (default [] rightRow)
          end;
  row ← mapM id (take tableNum array);
  if decide (length row = tableNum) then Some (Some row, array) else None.

Definition with_flags (d : NestLoopData) (a b c e : bool) (row : option RowPtr) : NestLoopData :=
  mkNestLoop a b c e row (nl_scanTableRow d).

Section nestloop.
Context (nextl nextr : option PlanState -> XM (option RowPtr * option PlanState)).

(** The part of a round that gets the next row of the left side: [true] at its end. *)
Definition OuterRow (d : NestLoopData) (l r : option PlanState) : XM (bool * (NestLoopData * option PlanState)) :=
  if outerNeedNew d then
    '(row, l) ← nextl l;
    match row with
    | None => mret (true, (with_flags d false true (innerNeedNew d) (innerIsEnd d) (outResultRow d), l))
    | Some row =>
        ExecNodeReScan r;;
        mret (false, (with_flags d false (outerIsEnd d) true (innerIsEnd d) (Some row), l))
    end
  else mret (false, (d, l)).

Abbreviation NLState := (NestLoopData * option PlanState * option PlanState)%type.

(** The inner [for], which is left in its first round; [again] is the next round
    of the outer one. *)
Definition InnerRow (again : NestLoopData -> option PlanState -> option PlanState -> XM (option RowPtr * NLState))
    (d : NestLoopData) (l r : option PlanState) : XM (option RowPtr * NLState) :=
  '(row, r) ← nextr r;
  match row with
  | None => again (with_flags d true (outerIsEnd d) false true (outResultRow d)) l r
  | Some _ =>
      st_modify (set_sides (outResultRow d) row);;
      leftRow ← st_lift (as_scan_row (outResultRow d));
      rightRow ← st_lift (as_scan_row row);
      '(merged, array) ← st_lift (ExecMergeRowData (nl_scanTableRow d) leftRow rightRow);
      mret (ScanRow <$> merged,
            (mkNestLoop (outerNeedNew d) (outerIsEnd d) (innerNeedNew d) (innerIsEnd d) (outResultRow d) array, l, r))
  end.

(** The outer [for] of [ExecNestLoopScan]. *)
Fixpoint NestLoop_loop (fuel : nat) (d : NestLoopData) (l r : option PlanState) : XM (option RowPtr * NLState) :=
  match fuel with
  | O => st_fault
  | S fuel =>
      if outerIsEnd d then mret (None, (d, l, r)) else
      '(stop, (d, l)) ← OuterRow d l r;
      if (stop : bool) then mret (None, (d, l, r))
      else if innerNeedNew d then InnerRow (NestLoop_loop fuel) d l r
      else NestLoop_loop fuel d l r
  end.

End nestloop.

(** ** execSelect.c *)

(** The row structures a row points to, now. *)
Definition deref_row (row : RowPtr) : XM ScanTableRowData := fun s =>
  match row with
  | ScanRow l => ts ← mapM (fun a => Some ∘ scan_row <$> scanning s !! a) l; Some (ts, s)
  | ProjRow _ _ => None
  end.

(** Whether one of the conditions holds; those after it are not evaluated. *)
Fixpoint exec_quals (rtable : RangTable) (row : ScanTableRowData) (qual : list PNode) : XM bool :=
  match qual with
  | [] => mret false
  | q :: qual =>
      resultExpr ← on_ev (ExecSelectQual rtable (Some row) behind (Some q));
      if getDataBool resultExpr then mret true else exec_quals rtable row qual
  end.

Section select.
Context (self : PNode) (qual : option (list PNode)) (rtable : RangTable).
Context (next : option PlanState -> XM (option RowPtr * option PlanState)).

Fixpoint ExecSelect_loop (fuel : nat) (st : option PlanState) : XM (option RowPtr * option PlanState) :=
  match fuel with
  | O => st_fault
  | S fuel =>
      '(row, st) ← next st;
      match row, qual with
      | None, _ | _, None => mret (row, st)
      | Some rowData, Some qual =>
          on_ev (st_modify (set_subPlanNode self));;
          ts ← deref_row rowData;
          ok ← exec_quals rtable ts qual;
          if (ok : bool) then mret (row, st) else ExecSelect_loop fuel st
      end
  end.

End select.

(** ** execProject.c *)

(** The columns of the target list, up to the first that is not found. *)
Fixpoint fetch_columns (rangTbl : RangTable) (row : ScanTableRowData) (targets : list TargetEntry)
    : EV (list (list Z)) :=
  match targets with
  | [] => mret []
  | t :: targets =>
      match GetCellValueByIndex rangTbl (te_rindex t) with
      | None => mret []
      | Some rte =>
          match GetTblRowDataPosition (Some row) (rte_tblInfo rte) (rte_rindex rte) with
          | None => mret []
          | Some pos =>
              r ← on_pages (GetColRowDataEx pos (te_attrIndex t) false 0);
              match r.1.1 with
              | None => mret []
              | Some c => cols ← fetch_columns rangTbl row targets; mret (c :: cols)
              end
          end
      end
  end.

(** [FormCol2RowDataEx]: the columns of size zero become [NULL]; nothing is done
    without a first column. *)
Definition form_column (c : list Z) : option (option (list Z)) :=
  n ← col_size c; Some (if decide (0 < n) then Some c else None).

Definition FormCol2RowDataEx (cols : list (list Z)) (rowsData : list (option (list Z)))
    : option (list (option (list Z))) :=
  match cols with [] => Some rowsData | _ => mapM form_column cols end.

Definition FetchTargetColumns (row : ScanTableRowData) (targetList : option (list TargetEntry))
    (rangTbl : RangTable) (prjData : list (option (list Z)))
    : XM (option RowPtr * list (option (list Z))) :=
  match targetList, rangTbl with
  | Some targets, Some _ =>
      cols ← on_ev (fetch_columns rangTbl row targets);
      if decide (length cols = length targets) then
        rowData ← st_lift (FormCol2RowDataEx cols prjData);
        mret (Some (ProjRow true rowData), rowData)
      else mret (Some (ProjRow (bool_decide (prjData = [])) prjData), prjData)
  | _, _ => mret (None, prjData)
  end.

(** The columns of a [RowData] that was not formed for this row have been freed. *)
Definition row_data (row : RowPtr) : XM (list (option (list Z))) :=
  match row with ProjRow true cols => mret cols | _ => st_fault end.

Section query.
Context (next : option PlanState -> XM (option RowPtr * option PlanState)).

(** The loop of [ExecTableQuery]: the rows sent, or [None] when sending failed. *)
Fixpoint TableQuery_loop (fuel : nat) (rowNum : Z) (st : option PlanState) : XM (option Z * option PlanState) :=
  match fuel with
  | O => st_fault
  | S fuel =>
      '(row, st) ← next st;
      match row with
      | None => mret (Some rowNum, st)
      | Some row =>
          cols ← row_data row;
          ret ← on_portal (SendToPort cols);
          if decide (ret < 0) then mret (None, st) else TableQuery_loop fuel (rowNum + 1) st
      end
  end.

End query.

(** ** ExecNodeProc *)

Definition exec_error : XM unit := st_modify (set_retCode ExecRetCode_ERR).

Section handlers.
Context (proc : Plan -> PlanState -> XM (option RowPtr * PlanState)) (fuel : nat).

Definition ExecNestLoopNode (l r : option Plan) (d : NestLoopData) (ls rs : option PlanState)
    : XM (option RowPtr * PlanState) :=
  match l with
  | None => exec_error;; mret (None, NestLoopState d ls rs)
  | Some _ =>
      '(row, (d, ls, rs)) ← NestLoop_loop (ExecChild proc l) (ExecChild proc r) fuel d ls rs;
      mret (row, NestLoopState d ls rs)
  end.

Definition ExecSelect (self : PNode) (qual : option (list PNode)) (rtable : RangTable) (sub : option Plan)
    (s : option PlanState) : XM (option RowPtr * PlanState) :=
  '(row, s) ← ExecSelect_loop self qual rtable (ExecChild proc sub) fuel s;
  mret (row, SelectState s).

Definition ExecTableProject (targets : option (list TargetEntry)) (rtable : RangTable) (sub : option Plan)
    (prj : list (option (list Z))) (s : option PlanState) : XM (option RowPtr * PlanState) :=
  '(row, s) ← ExecChild proc sub s;
  match row with
  | None => mret (None, ProjectTblState prj s)
  | Some row =>
      rightRow ← st_gets scanRowDataRight;
      st_modify (set_sides (Some row) rightRow);;
      ts ← deref_row row;
      '(row, prj) ← FetchTargetColumns ts targets rtable prj;
      mret (row, ProjectTblState prj s)
  end.

Definition ExecTableQuery (sub : option Plan) (s : option PlanState) : XM (option RowPtr * PlanState) :=
  match sub with
  | None => exec_error;; mret (None, QueryTblState s)
  | Some _ =>
      '(n, s) ← TableQuery_loop (ExecChild proc sub) fuel 0 s;
      match n with
      | None => mret (None, QueryTblState s)
      | Some n => on_portal FinishSend;; st_modify (set_retCode n);; mret (None, QueryTblState s)
      end
  end.

Definition ExecProcPlan (l : option Plan) (ls : option PlanState) : XM (option RowPtr * PlanState) :=
  match l with
  | None => exec_error;; mret (None, TopPlanState ls)
  | Some _ => '(row, ls) ← ExecChild proc l ls; mret (row, TopPlanState ls)
  end.

End handlers.

(** One call of the node's function. [fuel] bounds the rounds of each loop. *)
Fixpoint ExecNodeProc (fuel : nat) (plan : Plan) (st : PlanState) : XM (option RowPtr * PlanState) :=
  match plan, st with
  | SeqScan _ _ _, SeqScanState addr => row ← ExecSeqscanNode addr; mret (row, SeqScanState addr)
  | NestLoop _ l r, NestLoopState d ls rs => ExecNestLoopNode (ExecNodeProc fuel) fuel l r d ls rs
  | SelectResult self qual rtable sub, SelectState s => ExecSelect (ExecNodeProc fuel) fuel self qual rtable sub s
  | ProjectTbl targets rtable sub, ProjectTblState prj s => ExecTableProject (ExecNodeProc fuel) targets rtable sub prj s
  | QueryTbl _ _ sub, QueryTblState s => ExecTableQuery (ExecNodeProc fuel) fuel sub s
  | TopPlan _ l, TopPlanState ls => ExecProcPlan (ExecNodeProc fuel) l ls
  | _, _ => st_fault
  end.

(** [ExecutorStart] and [ExecutorPlan] for a plan that is not a utility command:
    the states are made, then the top node runs once. *)
Definition ExecutorPlan (fuel : nat) (plan : Plan) : XM (option RowPtr) :=
  st ← InitExecNode plan;
  '(row, _) ← ExecChild (ExecNodeProc fuel) (Some plan) st;
  mret row.

End executor.

Arguments EState : clear implicits.

(** One step into a node's handler. *)
Ltac unfold_handlers :=
  unfold ExecNestLoopNode, ExecSelect, ExecTableProject, ExecTableQuery, ExecProcPlan.
Ltac unfold_init :=
  cbn [InitExecNode];
  unfold InitExecNodeSeqScan, InitExecNodeNestLoop, InitExecSelect, InitExecNodeProjectTbl, InitExecNodeQuerybl,
    InitExecNodePlan, InitChild.

(** ** What rows mean *)

(** The row of one table as the executor's clients see it: the table, its index,
    the columns the scan reads and their values. *)
Record TblRow := mkRowOf { row_tbl : Z; row_rindex : Z; row_cols : list Z; row_vals : list (list Z) }.

Definition shows (t : TableRowDataPosition) : option TblRow :=
  pos ← rowDataPosition t !! 0%nat;
  Some (mkRowOf (tr_tblInfo t) (tr_rindex t) (colindexList (scanPostionInfo pos)) (rowData pos)).

(** A scan promises: from where it is it delivers the rows of its table one by
    one, then none; reset, it delivers all of them again, after its end only when it
    is one that [rescans]. [valid] is what it needs
    of the pages and keeps; where a scan stands stays true while the pages change
    by [keeps]. *)
Class ScannerLaws (C : Type) `{Scanner C} (valid : PageState -> Prop) (keeps : relation PageState) := {
  keeps_refl p : keeps p p;
  keeps_trans p1 p2 p3 : keeps p1 p2 -> keeps p2 p3 -> keeps p1 p3;
  scan_at : PageState -> C -> list TblRow -> nat -> Prop;
  scan_over : C -> list TblRow -> Prop;
  rescans : Prop;
  scan_at_keeps c rows n p p' : keeps p p' -> scan_at p c rows n -> scan_at p' c rows n;
  scan_next_row c rows n r p : scan_at p c rows n -> rows !! n = Some r -> valid p ->
    exists c' p', ScanNext c p = Some ((true, c'), p') /\ scan_at p' c' rows (S n) /\
      shows (scan_row c') = Some r /\ valid p' /\ keeps p p';
  scan_next_end c rows p : scan_at p c rows (length rows) -> valid p ->
    exists c' p', ScanNext c p = Some ((false, c'), p') /\ (rescans -> scan_over c' rows) /\ valid p' /\ keeps p p';
  scan_reset c rows p : scan_over c rows \/ (exists n, scan_at p c rows n) -> valid p ->
    exists c' p', ScanReset c p = Some (c', p') /\ scan_at p' c' rows 0 /\ valid p' /\ keeps p p' }.

(** A portal promises to take every row it can send: [port_open p ts rows p'] holds
    when the portal, once opened for the targets [ts] in the state [p], has taken the
    rows and is in the state [p'], [port_shown] when it has been told that they were
    all. What the rows become is its own affair. *)
Class PortLaws (P : Type) `{Port P} := {
  port_idle : P -> Prop;
  sendable : list TargetEntry -> list (option (list Z)) -> Prop;
  port_open : P -> list TargetEntry -> list (list (option (list Z))) -> P -> Prop;
  port_shown : P -> list TargetEntry -> list (list (option (list Z))) -> P -> Prop;
  port_init t targets p : port_idle p -> exists n p', InitSelectPortal (Some (t :: targets)) p = Some (n, p') /\ 0 <= n /\
    port_open p (t :: targets) [] p';
  port_send p targets rows p1 cols : port_open p targets rows p1 -> sendable targets cols ->
    exists n p', SendToPort cols p1 = Some (n, p') /\ 0 <= n /\ port_open p targets (rows ++ [cols]) p';
  port_finish p targets rows p1 : port_open p targets rows p1 ->
    exists n p', FinishSend p1 = Some (n, p') /\ port_shown p targets rows p' }.

(** The rows of a join: every row of the left side with every row of the right. *)
Definition cross (l r : list (list TblRow)) : list (list TblRow) := x ← l; y ← r; [x ++ y].

Section nested.
Context {C P : Type} `{Scanner C} `{Port P} (valid : PageState -> Prop) (keeps : relation PageState) `{!ScannerLaws C valid keeps}.
Context (behind : list Z) (strs : Z -> option bytes).
(** The rows of the table each scan reads. *)
Context (tables : Z -> list TblRow).

Abbreviation state := (EState C P).
Abbreviation Proc := (ExecNodeProc behind).

Definition single (r : TblRow) : list TblRow := [r].

Fixpoint join_rows (p : Plan) : list (list TblRow) :=
  match p with
  | SeqScan a _ _ => single <$> tables a
  | NestLoop _ (Some l) (Some r) => cross (join_rows l) (join_rows r)
  | _ => []
  end.

(** What the row structures of the scans [ids] hold. *)
Definition current (ids : list Z) (m : gmap Z C) : option (list TblRow) :=
  mapM (fun a => c ← m !! a; shows (scan_row c)) ids.

(** The rows a plan still has to deliver. *)
Fixpoint pending (p : Plan) (st : PlanState) (m : gmap Z C) (pg : PageState) (rows : list (list TblRow)) : Prop :=
  match p, st with
  | SeqScan a _ _, SeqScanState a' =>
      a' = a /\ exists c n, m !! a = Some c /\ scan_at pg c (tables a) n /\ (n <= length (tables a))%nat /\
        rows = single <$> drop n (tables a)
  | NestLoop _ (Some l) (Some (SeqScan ra _ _)), NestLoopState d (Some ls) (Some rs) =>
      rs = SeqScanState ra /\ outerIsEnd d = false /\
      Z.of_nat (length (nl_scanTableRow d)) = table_count l + 1 /\
      exists c lrows, m !! ra = Some c /\ pending l ls m pg lrows /\ (length lrows <= length (join_rows l))%nat /\
        ((outerNeedNew d = true /\ (scan_over c (tables ra) \/ exists n, scan_at pg c (tables ra) n) /\
          rows = cross lrows (single <$> tables ra)) \/
         (outerNeedNew d = false /\ innerNeedNew d = true /\ outResultRow d = Some (ScanRow (scans l)) /\
          exists lrow n, current (scans l) m = Some lrow /\ scan_at pg c (tables ra) n /\ (n <= length (tables ra))%nat /\
            rows = ((fun y => lrow ++ [y]) <$> drop n (tables ra)) ++ cross lrows (single <$> tables ra)))
  | _, _ => False
  end.

(** ** Rows and structures *)

Lemma left_deep_ind (Q : Plan -> Prop) :
  (forall a rt ts, Q (SeqScan a rt ts)) ->
  (forall l a rt ts, left_deep l -> Q l -> Q (NestLoop (table_count l + 1) (Some l) (Some (SeqScan a rt ts)))) ->
  forall p, left_deep p -> Q p.
Proof.
  intros Hs Hn. fix IH 1.
  intros [a rt ts|k [l|] [[a rt ts|? ? ?|? ? ? ?|? ? ?|? ? ?|? ?]|]|? ? ? ?|? ? ?|? ? ?|? ?] Hp;
    try (exfalso; exact Hp); [apply Hs|].
  destruct Hp as [Hl ->]. apply Hn; [exact Hl|]. exact (IH l Hl).
Qed.

Lemma table_count_scans p : left_deep p -> table_count p = Z.of_nat (length (scans p)).
Proof.
  revert p. apply left_deep_ind; [done|]. intros l a rt ts Hl IH. simpl. rewrite length_app, IH. simpl. lia.
Qed.

Lemma current_agree ids m m' : (forall a, a ∈ ids -> m !! a = m' !! a) -> current ids m = current ids m'.
Proof.
  intros Hm. unfold current. induction ids as [|a ids IH]; [done|]. simpl.
  rewrite (Hm a), IH; [done| |]; [intros; apply Hm|]; set_solver.
Qed.

Lemma current_app ids ids' m r r' : current ids m = Some r -> current ids' m = Some r' ->
  current (ids ++ ids') m = Some (r ++ r').
Proof.
  intros H1 H2. unfold current in *. apply mapM_Some in H1, H2. apply mapM_Some. by apply Forall2_app.
Qed.

Lemma pending_agree p st m m' pg pg' rows : left_deep p -> (forall a, a ∈ scans p -> m !! a = m' !! a) ->
  keeps pg pg' -> pending p st m pg rows -> pending p st m' pg' rows.
Proof.
  intros Hp Hm Hk. revert p Hp st rows Hm. refine (left_deep_ind _ _ _).
  - intros a rt ts [a'| | | | |] rows Hm Hpd; try done. destruct Hpd as (-> & c & n & Hc & Hat & Hpd).
    split; [done|]. exists c, n. rewrite <- Hm by set_solver. split_and!; [done|by eapply scan_at_keeps|apply Hpd..].
  - intros l a rt ts Hl IH [|d [ls|] [rs|]| | | |] rows Hm Hpd; try done. cbn [pending scans] in *.
    destruct Hpd as (-> & He & Hlen & c & lrows & Hc & Hpl & Hlt & Hcase).
    split_and!; [done..|]. exists c, lrows. split_and!; [|apply IH; [|done]| done|].
    + rewrite <- Hm by set_solver. done.
    + intros x Hx. apply Hm. set_solver.
    + destruct Hcase as [(H1 & [Ho|[n Hat]] & Hr)|(H1 & H2 & H3 & lrow & n & Hcur & Hat & Hb)].
      { left. split_and!; [done|by left|done]. }
      { left. split_and!; [done| |done]. right. exists n. by eapply scan_at_keeps. }
      right.
      split_and!; [done..|]. exists lrow, n. split_and!; [|by eapply scan_at_keeps|apply Hb..].
      rewrite <- Hcur. symmetry. apply current_agree. intros x Hx. apply Hm. set_solver.
Qed.

(** ** The merged row *)

Lemma write_row_ptrs_run row array i : (i + length row <= length array)%nat ->
  write_row_ptrs array i row = Some (take i array ++ (Some <$> row) ++ drop (i + length row) array).
Proof.
  revert array i. induction row as [|x row IH]; intros array i Hlen; simpl in *.
  - by rewrite Nat.add_0_r, take_drop.
  - rewrite decide_True by lia. rewrite IH by (rewrite length_insert; lia).
    rewrite drop_insert_lt by lia. f_equal. rewrite (take_S_r (<[i:=Some x]> array) i (Some x)) by (apply list_lookup_insert_eq; lia).
    rewrite take_insert_ge by lia. rewrite <- app_assoc. simpl. do 3 f_equal. f_equal. lia.
Qed.

Lemma ExecMergeRowData_run array l a : length array = (length l + 1)%nat ->
  ExecMergeRowData array (Some l) (Some [a]) = Some (Some (l ++ [a]), Some <$> (l ++ [a])).
Proof.
  intros Hlen. unfold ExecMergeRowData. simpl. rewrite decide_False by lia.
  rewrite write_row_ptrs_run by lia. cbn [mbind option_bind]. rewrite decide_False by lia. simpl.
  set (arr := (Some <$> l) ++ drop (length l) array).
  assert (length arr = (length l + 1)%nat) as Ha.
  { unfold arr. rewrite length_app, length_fmap, length_drop. lia. }
  rewrite decide_True by lia. cbn [mbind option_bind].
  assert (<[length l := Some a]> arr = Some <$> (l ++ [a])) as ->.
  { unfold arr. rewrite fmap_app. assert (length (drop (length l) array) = 1%nat) as Hd by (rewrite length_drop; lia).
    destruct (drop (length l) array) as [|y [|]]; try done.
    rewrite insert_app_r_alt by (rewrite length_fmap; lia). by rewrite length_fmap, Nat.sub_diag. }
  rewrite take_ge by (rewrite length_fmap, length_app; simpl; lia).
  assert (mapM id (Some <$> (l ++ [a])) = Some (l ++ [a])) as ->.
  { apply mapM_Some. apply Forall2_fmap_l. by apply Forall_Forall2_diag, Forall_true. }
  cbn [mbind option_bind]. rewrite decide_True by (rewrite length_app; simpl; lia). done.
Qed.

(** ** A node delivers its rows *)

(** What the nodes below the projection keep: they only touch the scans [ids] and
    the pages. *)
Definition good (s : state) : Prop := valid (pages_of (ev s)) /\ ev_ok strs (ev s).

Record step_ok (ids : list Z) (s s' : state) : Prop := {
  so_good : good s';
  so_portal : portal s' = portal s;
  so_retCode : retCode s' = retCode s;
  so_keeps : keeps (pages_of (ev s)) (pages_of (ev s'));
  so_scans a : a ∉ ids -> scanning s' !! a = scanning s !! a }.

Lemma step_ok_trans ids1 ids2 s1 s2 s3 : step_ok ids1 s1 s2 -> step_ok ids2 s2 s3 -> step_ok (ids1 ++ ids2) s1 s3.
Proof.
  intros [] []. split; [done|congruence|congruence|by eapply keeps_trans|]. intros a Ha.
  apply not_elem_of_app in Ha as [? ?]. by rewrite so_scans1, so_scans0.
Qed.

Lemma step_ok_sub ids ids' s s' : (forall a, a ∈ ids -> a ∈ ids') -> step_ok ids s s' -> step_ok ids' s s'.
Proof. intros Hs []. split; try done. intros a Ha. apply so_scans0. set_solver. Qed.

Lemma step_ok_scan a c p' s : valid p' -> keeps (pages_of (ev s)) p' -> good s ->
  step_ok [a] s (set_scanning (<[a := c]> (scanning s)) (set_ev (set_pages_of p' (ev s)) s)).
Proof.
  intros Hv Hk [_ []]. split; [split; [done|by split]|done|done|done|]. intros x Hx. simpl.
  apply lookup_insert_ne. set_solver.
Qed.

(** What a call that had [rows] to deliver did; [next st m rest] says the rest is
    still to come. *)
Definition delivers {S : Type} (ids : list Z) (next : S -> gmap Z C -> PageState -> list (list TblRow) -> Prop)
    (row : option RowPtr) (st : S) (m : gmap Z C) (pg : PageState) (rows : list (list TblRow)) : Prop :=
  match rows with
  | [] => row = None
  | r :: rest => row = Some (ScanRow ids) /\ current ids m = Some r /\ next st m pg rest
  end.

(** The scan. *)
Lemma ExecSeqscanNode_run a c n s : scanning s !! a = Some c -> scan_at (pages_of (ev s)) c (tables a) n -> (n <= length (tables a))%nat ->
  good s -> exists row c' s', ExecSeqscanNode a s = Some (row, s') /\ step_ok [a] s s' /\ scanning s' !! a = Some c' /\
    match drop n (tables a) with
    | [] => row = None /\ (rescans -> scan_over c' (tables a))
    | r :: _ => row = Some (ScanRow [a]) /\ shows (scan_row c') = Some r /\ scan_at (pages_of (ev s')) c' (tables a) (S n) /\
        (S n <= length (tables a))%nat
    end.
Proof.
  intros Hc Hat Hn Hg. destruct (tables a !! n) as [r|] eqn:Hr.
  - destruct (scan_next_row c (tables a) n r (pages_of (ev s)) Hat Hr (proj1 Hg)) as (c' & p' & E & Hat' & Hsh & Hv & Hk).
    eexists _, c', _. split_and!.
    + unfold ExecSeqscanNode. rewrite Hc. cbn [mbind option_bind]. unfold on_pages. rewrite E. reflexivity.
    + by apply step_ok_scan.
    + apply lookup_insert_eq.
    + rewrite (drop_S _ r n Hr). split_and!; try done. by apply lookup_lt_Some in Hr.
  - apply lookup_ge_None in Hr. assert (n = length (tables a)) as -> by lia.
    destruct (scan_next_end c (tables a) (pages_of (ev s)) Hat (proj1 Hg)) as (c' & p' & E & Ho & Hv & Hk).
    eexists _, c', _. split_and!.
    + unfold ExecSeqscanNode. rewrite Hc. cbn [mbind option_bind]. unfold on_pages. rewrite E. reflexivity.
    + by apply step_ok_scan.
    + apply lookup_insert_eq.
    + by rewrite drop_all.
Qed.

Lemma ExecNodeReScan_run a c s : scanning s !! a = Some c ->
  scan_over c (tables a) \/ (exists n, scan_at (pages_of (ev s)) c (tables a) n) -> good s ->
  exists c' s', ExecNodeReScan (Some (SeqScanState a)) s = Some (tt, s') /\ step_ok [a] s s' /\
    scanning s' !! a = Some c' /\ scan_at (pages_of (ev s')) c' (tables a) 0.
Proof.
  intros Hc Hat Hg. destruct (scan_reset c (tables a) (pages_of (ev s)) Hat (proj1 Hg)) as (c' & p' & E & Hat' & Hv & Hk).
  eexists c', _. split_and!.
  - simpl. rewrite Hc. cbn [mbind option_bind]. unfold on_pages. rewrite E. reflexivity.
  - by apply step_ok_scan.
  - apply lookup_insert_eq.
  - done.
Qed.

(** The nested loop of a left side that delivers its rows and a scan. *)
Section loop.
Context (fuel : nat) (l : Plan) (ra : Z) (rrt : option RangTblEntry) (rts : list TargetEntry).
Abbreviation nl := (NestLoop (table_count l + 1) (Some l) (Some (SeqScan ra rrt rts))).
Abbreviation nextl := (ExecChild (Proc fuel) (Some l)).
Abbreviation nextr := (ExecChild (Proc fuel) (Some (SeqScan ra rrt rts))).
Abbreviation right_rows := (single <$> tables ra).
Context (Hl : left_deep l) (Hnd : NoDup (scans l ++ [ra])) (Hre : rescans (keeps := keeps)).
Context (IHl : forall st s rows, pending l st (scanning s) (pages_of (ev s)) rows -> good s ->
  exists row st' s', Proc fuel l st s = Some ((row, st'), s') /\ step_ok (scans l) s s' /\
    delivers (scans l) (pending l) row st' (scanning s') (pages_of (ev s')) rows).

Lemma ra_fresh a : a ∈ scans l -> a <> ra.
Proof. intros Ha ->. apply NoDup_app in Hnd as (_ & Hd & _). apply (Hd ra Ha). set_solver. Qed.

Definition nl_done (x : option (option RowPtr * (NestLoopData * option PlanState * option PlanState) * state))
    (s : state) (rows : list (list TblRow)) : Prop :=
  exists row d' ls' rs' s', x = Some ((row, (d', Some ls', Some rs')), s') /\ step_ok (scans nl) s s' /\
    delivers (scans nl) (pending nl) row (NestLoopState d' (Some ls') (Some rs')) (scanning s') (pages_of (ev s')) rows.

Lemma nl_done_step x s s1 rows : step_ok (scans nl) s s1 -> nl_done x s1 rows -> nl_done x s rows.
Proof.
  intros H1 (row & d' & ls' & rs' & s' & E & Hs & Hd). exists row, d', ls', rs', s'. split_and!; [done| |done].
  eapply step_ok_sub; [|by eapply step_ok_trans]. set_solver.
Qed.

(** A row of the right side is wanted. *)
Lemma InnerRow_run again d ls s c n lrow lrows :
  outerIsEnd d = false -> outerNeedNew d = false -> innerNeedNew d = true ->
  Z.of_nat (length (nl_scanTableRow d)) = table_count l + 1 ->
  outResultRow d = Some (ScanRow (scans l)) -> current (scans l) (scanning s) = Some lrow ->
  scanning s !! ra = Some c -> scan_at (pages_of (ev s)) c (tables ra) n -> (n <= length (tables ra))%nat ->
  pending l ls (scanning s) (pages_of (ev s)) lrows -> (length lrows <= length (join_rows l))%nat -> good s ->
  (forall d s c, outerIsEnd d = false -> outerNeedNew d = true ->
     Z.of_nat (length (nl_scanTableRow d)) = table_count l + 1 ->
     scanning s !! ra = Some c -> scan_over c (tables ra) -> pending l ls (scanning s) (pages_of (ev s)) lrows -> good s ->
     nl_done (again d (Some ls) (Some (SeqScanState ra)) s) s (cross lrows right_rows)) ->
  nl_done (InnerRow nextr again d (Some ls) (Some (SeqScanState ra)) s) s
    (((fun y => lrow ++ [y]) <$> drop n (tables ra)) ++ cross lrows right_rows).
Proof.
  intros Hend Hout Hin Hlen Hres Hcur Hc Hat Hn Hpl Hlt Hg Hagain.
  destruct (ExecSeqscanNode_run ra c n s Hc Hat Hn Hg) as (row & c' & s1 & E & Hs1 & Hc' & Hrow).
  assert (nextr (Some (SeqScanState ra)) s = Some ((row, Some (SeqScanState ra)), s1)) as En.
  { unfold ExecChild. simpl. unfold mbind at 1, ST_bind at 1. by run E. }
  assert (step_ok (scans nl) s s1) as Hs1' by (eapply step_ok_sub; [|exact Hs1]; set_solver).
  assert (forall a, a ∈ scans l -> scanning s !! a = scanning s1 !! a) as Hagree.
  { intros a Ha. symmetry. apply (so_scans _ _ _ Hs1). apply ra_fresh in Ha. set_solver. }
  unfold InnerRow. run En. destruct (drop n (tables ra)) as [|r rest] eqn:Hd.
  - destruct Hrow as [-> Hover%(fun H => H Hre)]. cbn [fmap list_fmap app].
    apply (nl_done_step _ _ s1); [done|]. apply (Hagain _ _ c'); try done; [|apply (so_good _ _ _ Hs1)].
    by apply (pending_agree l ls (scanning s) _ (pages_of (ev s))); try apply (so_keeps _ _ _ Hs1).
  - destruct Hrow as (-> & Hsh & Hat' & Hn'). run_refl.
    assert (Hlen' : length (nl_scanTableRow d) = (length (scans l) + 1)%nat)
      by (rewrite table_count_scans in Hlen by done; lia).
    rewrite Hres. run_refl. run_refl.
    run (st_lift_run _ _ (set_sides (Some (ScanRow (scans l))) (Some (ScanRow [ra])) s1)
           (ExecMergeRowData_run (nl_scanTableRow d) (scans l) ra Hlen')).
    eexists _, _, ls, (SeqScanState ra), _. split_and!; [reflexivity| |].
    + destruct Hs1'. by split.
    + split_and!; [done| |].
      * apply current_app; [by rewrite <- (current_agree (scans l) (scanning s))|].
        unfold current. simpl. rewrite Hc'. cbn [mbind option_bind]. by rewrite Hsh.
      * cbn [pending scanning set_sides]. split_and!; try done.
        -- cbn [nl_scanTableRow]. rewrite length_fmap, length_app, table_count_scans by done. simpl. lia.
        -- exists c', lrows. split_and!; [done|by apply (pending_agree l ls (scanning s) _ (pages_of (ev s))); try apply (so_keeps _ _ _ Hs1)|done|].
           right. split_and!; try done. exists lrow, (S n). split_and!; try done.
           ++ by rewrite <- (current_agree (scans l) (scanning s)).
           ++ rewrite <- Nat.add_1_r, <- drop_drop, Hd. done.
Qed.
(** A row of the left side is wanted. *)
Lemma NestLoop_outer_run lrows : forall rounds d ls s c,
  (length lrows + 1 <= rounds)%nat -> outerIsEnd d = false -> outerNeedNew d = true ->
  Z.of_nat (length (nl_scanTableRow d)) = table_count l + 1 ->
  scanning s !! ra = Some c -> (scan_over c (tables ra) \/ exists n, scan_at (pages_of (ev s)) c (tables ra) n) ->
  pending l ls (scanning s) (pages_of (ev s)) lrows -> (length lrows <= length (join_rows l))%nat -> good s ->
  nl_done (NestLoop_loop nextl nextr rounds d (Some ls) (Some (SeqScanState ra)) s) s (cross lrows right_rows).
Proof.
  induction lrows as [|lrow lrows IH]; intros rounds d ls s c Hf He Ho Hlen Hc Hat Hpl Hlt Hg;
    (destruct rounds as [|rounds]; [simpl in Hf; lia|]);
    destruct (IHl _ _ _ Hpl Hg) as (row & ls1 & s1 & E & Hs1 & Hdel);
    (assert (nextl (Some ls) s = Some ((row, Some ls1), s1)) as En
      by (unfold ExecChild, mbind, ST_bind; by rewrite E));
    (assert (step_ok (scans nl) s s1) as Hs1' by (eapply step_ok_sub; [|exact Hs1]; set_solver));
    cbn [NestLoop_loop]; rewrite He; unfold OuterRow; rewrite Ho.
  - cbn [delivers] in Hdel. subst row. unfold mbind at 1, ST_bind at 1. unfold mbind at 1, ST_bind at 1.
    rewrite En. eexists _, _, ls1, (SeqScanState ra), s1. by split_and!.
  - destruct Hdel as (-> & Hcur & Hpl1).
    assert (scanning s1 !! ra = Some c) as Hc1.
    { rewrite (so_scans _ _ _ Hs1); [done|]. intros Hin. by apply ra_fresh in Hin. }
    assert (scan_over c (tables ra) \/ exists n, scan_at (pages_of (ev s1)) c (tables ra) n) as Hat1.
    { destruct Hat as [Ho'|[n Hat]]; [by left|right; exists n; eapply scan_at_keeps; [apply (so_keeps _ _ _ Hs1)|done]]. }
    destruct (ExecNodeReScan_run ra c s1 Hc1 Hat1 (so_good _ _ _ Hs1)) as (c2 & s2 & E2 & Hs2 & Hc2 & Hat2).
    assert (forall a, a ∈ scans l -> scanning s1 !! a = scanning s2 !! a) as Hagree.
    { intros a Ha. symmetry. apply (so_scans _ _ _ Hs2). apply ra_fresh in Ha. set_solver. }
    set (d' := with_flags d false false true (innerIsEnd d) (Some (ScanRow (scans l)))).
    erewrite st_bind_some.
    2:{ run En. run E2. rewrite He. reflexivity. }
    cbn beta iota. fold d'. change (innerNeedNew d') with true. cbn iota.
    apply (nl_done_step _ _ s2).
    { eapply step_ok_sub; [|eapply step_ok_trans; [exact Hs1'|exact Hs2]]. set_solver. }
    assert (cross (lrow :: lrows) right_rows = ((fun y => lrow ++ [y]) <$> drop 0 (tables ra)) ++ cross lrows right_rows) as ->.
    { unfold cross. rewrite bind_cons. f_equal. rewrite drop_0. unfold single. generalize (tables ra) as t.
      induction t as [|y t IHt]; [done|]. exact (f_equal (cons (lrow ++ [y])) IHt). }
    simpl in Hf, Hlt. apply (InnerRow_run _ d' ls1 s2 c2 0 lrow lrows); try done.
    + by rewrite <- (current_agree (scans l) (scanning s1)).
    + lia.
    + by apply (pending_agree l ls1 (scanning s1) _ (pages_of (ev s1))); try apply (so_keeps _ _ _ Hs2).
    + lia.
    + apply (so_good _ _ _ Hs2).
    + intros d3 s3 c3 He3 Ho3 Hlen3 Hc3 Hov3 Hpl3 Hg3. apply (IH rounds d3 ls1 s3 c3); try done; [lia|by left|lia].
Qed.

Lemma NestLoop_loop_run rounds d ls rs s rows : (length (join_rows l) + 2 <= rounds)%nat ->
  pending nl (NestLoopState d (Some ls) (Some rs)) (scanning s) (pages_of (ev s)) rows -> good s ->
  nl_done (NestLoop_loop nextl nextr rounds d (Some ls) (Some rs) s) s rows.
Proof.
  intros Hf Hp Hg. cbn [pending] in Hp.
  destruct Hp as (-> & He & Hlen & c & lrows & Hc & Hpl & Hlt & [(Ho & Hat & ->)|Hin]).
  - apply (NestLoop_outer_run lrows rounds d ls s c); try done. lia.
  - destruct Hin as (Ho & Hi & Hres & lrow & n & Hcur & Hat & Hn & ->).
    destruct rounds as [|rounds]; [lia|]. cbn [NestLoop_loop]. rewrite He. unfold OuterRow. rewrite Ho.
    erewrite st_bind_some by reflexivity. cbn beta iota. rewrite Hi.
    apply (InnerRow_run _ d ls s c n lrow lrows); try done.
    intros d3 s3 c3 He3 Ho3 Hlen3 Hc3 Hov3 Hpl3 Hg3. apply (NestLoop_outer_run lrows rounds d3 ls s3 c3); try done; [lia|by left].
Qed.
End loop.

(** Rounds enough for every nested loop of the tree. *)
Fixpoint enough (fuel : nat) (p : Plan) : Prop :=
  match p with NestLoop _ (Some l) _ => (length (join_rows l) + 2 <= fuel)%nat /\ enough fuel l | _ => True end.

(** A join asks its right scan to start again after its end; a single scan does not. *)
Definition rescannable (n : nat) : Prop := (n <= 1)%nat \/ rescans (keeps := keeps).

Lemma left_deep_scans p : left_deep p -> (1 <= length (scans p))%nat.
Proof.
  revert p. apply left_deep_ind; [simpl; lia|]. intros l a rt ts _ IH. simpl. rewrite length_app. simpl. lia.
Qed.

Lemma ExecNodeProc_join fuel p : left_deep p -> NoDup (scans p) -> rescannable (length (scans p)) -> enough fuel p ->
  forall st s rows,
  pending p st (scanning s) (pages_of (ev s)) rows -> good s ->
  exists row st' s', Proc fuel p st s = Some ((row, st'), s') /\ step_ok (scans p) s s' /\
    delivers (scans p) (pending p) row st' (scanning s') (pages_of (ev s')) rows.
Proof.
  intros Hp. revert p Hp. refine (left_deep_ind _ _ _).
  - intros a rt ts _ _ _ [a'| | | | |] s rows Hpd Hg; try (exfalso; exact Hpd).
    destruct Hpd as (-> & c & n & Hc & Hat & Hn & ->).
    destruct (ExecSeqscanNode_run a c n s Hc Hat Hn Hg) as (row & c' & s' & E & Hs & Hc' & Hrow).
    exists row, (SeqScanState a), s'. split_and!; [cbn [ExecNodeProc]; unfold_handlers; by run E|done|].
    destruct (drop n (tables a)) as [|r rest] eqn:Hd; [by destruct Hrow as [-> _]|].
    destruct Hrow as (-> & Hsh & Hat' & Hn'). split_and!; [done| |].
    + unfold current. simpl. rewrite Hc'. cbn [mbind option_bind]. by rewrite Hsh.
    + split; [done|]. exists c', (S n). split_and!; try done. by rewrite <- Nat.add_1_r, <- drop_drop, Hd.
  - intros l a rt ts Hl IH Hnd Hre [Hf Henough] [|d [ls|] [rs|]| | | |] s rows Hpd Hg; try (exfalso; exact Hpd).
    assert (NoDup (scans l)) as Hndl by (by apply NoDup_app in Hnd as [? _]).
    assert (rescans (keeps := keeps)) as Hre'.
    { destruct Hre as [Hle|]; [|done]. pose proof (left_deep_scans l Hl). cbn [scans] in Hle. rewrite length_app in Hle. simpl in Hle. lia. }
    destruct (NestLoop_loop_run fuel l a rt ts Hl Hnd Hre' (IH Hndl (or_intror Hre') Henough) fuel d ls rs s rows Hf Hpd Hg)
      as (row & d' & ls' & rs' & s' & E & Hs & Hd).
    exists row, (NestLoopState d' (Some ls') (Some rs')), s'. split_and!; [|done|done].
    cbn [ExecNodeProc]; unfold_handlers. by run E.
Qed.

(** ** Conditions and columns of a row *)

(** A row as the evaluator gets it. *)
Definition struct_of (r : TblRow) : TableRowDataPosition :=
  mkTblRow (row_tbl r) (row_rindex r) [mkRowPosition (mkScan (row_cols r) [] [] (mkSearch None 0 0 0)) (row_vals r)].
Definition structs (row : list TblRow) : ScanTableRowData := Some ∘ struct_of <$> row.

(** The bytes of a column of a row. *)
Definition raw_column (rtable : RangTable) (row : ScanTableRowData) (ri attrIndex : Z) : option (list Z) :=
  rte ← GetCellValueByIndex rtable ri;
  t ← GetTblRowDataPosition (Some row) (rte_tblInfo rte) (rte_rindex rte);
  pos ← rowDataPosition t !! 0%nat;
  if decide (attrIndex < 0) then None else
  i ← column_position (colindexList (scanPostionInfo pos)) attrIndex 0;
  rowData pos !! i.

Lemma column_raw rtable row ri vt i :
  column rtable (Some row) ri vt i = c ← raw_column rtable row ri i; column_value c vt.
Proof.
  unfold column, raw_column. destruct (GetCellValueByIndex rtable ri) as [rte|]; [|done]. cbn [mbind option_bind].
  destruct (GetTblRowDataPosition _ _ _) as [t|]; [|done]. cbn [mbind option_bind].
  destruct (rowDataPosition t !! 0%nat) as [pos|]; [|done]. cbn [mbind option_bind].
  case_decide; [done|]. by destruct (column_position _ _ _).
Qed.

(** The structures [ts] show the row. *)
Definition show_row (ts : ScanTableRowData) (row : list TblRow) : Prop :=
  Forall2 (fun t r => exists t', t = Some t' /\ shows t' = Some r) ts row.

Lemma raw_column_shown ts row rtable ri i : show_row ts row ->
  raw_column rtable ts ri i = raw_column rtable (structs row) ri i.
Proof.
  intros Hs. unfold raw_column. destruct (GetCellValueByIndex rtable ri) as [rte|]; [|done]. cbn [mbind option_bind].
  unfold GetTblRowDataPosition. destruct (decide (rte_tblInfo rte = 0)); [done|].
  induction Hs as [|t r ts row (t' & -> & Ht) _ IH]; [done|].
  unfold shows in Ht. destruct (rowDataPosition t' !! 0%nat) as [pos|] eqn:Hpos; [|done]. injection Ht as <-.
  cbn [GetTblRow_loop structs fmap list_fmap compose struct_of tr_tblInfo tr_rindex row_tbl row_rindex].
  destruct (decide (rte_tblInfo rte = tr_tblInfo t' /\ _)); [|exact IH]. cbn [mbind option_bind]. by rewrite Hpos.
Qed.

Section ext.
Context (rtable : RangTable) (row row' : ScanTableRowData).
Context (Hcol : forall ri i, raw_column rtable row ri i = raw_column rtable row' ri i).

Lemma denote_ext isem ssem n ri :
  denote rtable (Some row) strs isem ssem n ri = denote rtable (Some row') strs isem ssem n ri.
Proof.
  revert ri. induction n as [a ri ij mt l r IHl IHr|a ri rri op l r IHl IHr|a vt i|a v vt k|a ri rri l]
    using PNode_ind'; intros rx; cbn [denote]; try done.
  - destruct l as [l|]; [|done]. rewrite (IHl l) by done. destruct r as [r|]; [|done]. by rewrite (IHr r).
  - destruct l as [l|]; [|done]. rewrite (IHl l) by done. destruct r as [r|]; [|done]. by rewrite (IHr r).
  - by rewrite !column_raw, Hcol.
Qed.

Lemma typeof_ext n ri : typeof rtable (Some row) strs n ri = typeof rtable (Some row') strs n ri.
Proof.
  revert ri. induction n as [a ri ij mt l r IHl IHr|a ri rri op l r IHl IHr|a vt i|a v vt k|a ri rri l]
    using PNode_ind'; intros rx; cbn [typeof]; try done.
  - destruct l as [l|]; [|done]. rewrite (IHl l) by done. destruct r as [r|]; [|done]. by rewrite (IHr r).
  - destruct l as [l|]; [|done]. rewrite (IHl l) by done. destruct r as [r|]; [|done]. by rewrite (IHr r).
  - by rewrite !column_raw, Hcol.
Qed.
End ext.

Section clauses.
Context (rtable : RangTable).

(** A condition the reference semantics gives a value for this row. *)
Definition judged (row : list TblRow) (q : PNode) : Prop :=
  is_operation q /\ plain q = true /\ is_Some (typeof rtable (Some (structs row)) strs q 0) /\
  is_Some (denote rtable (Some (structs row)) strs sql_int str_sem q 0).

Definition holds (row : list TblRow) (q : PNode) : bool :=
  match denote rtable (Some (structs row)) strs sql_int str_sem q 0 with Some v => truth v | None => false end.

(** The [WHERE] clause: its conditions are joined by or. *)
Definition selected (quals : list PNode) (row : list TblRow) : bool := existsb (holds row) quals.

Definition column_of (row : list TblRow) (t : TargetEntry) : option (list Z) :=
  raw_column rtable (structs row) (te_rindex t) (te_attrIndex t).

(** The columns a row is sent with, when it has them all. *)
Definition project (targets : list TargetEntry) (row : list TblRow) : list (option (list Z)) :=
  column_of row <$> targets.

Definition projectable (targets : list TargetEntry) (row : list TblRow) : Prop :=
  Forall (fun t => exists c n, column_of row t = Some c /\ col_size c = Some n /\ 0 < n) targets.

Context (behind_ok : (48 <= length behind)%nat).

Lemma qual_run ts row q e : show_row ts row -> judged row q -> ev_ok strs e ->
  exists x e', ExecSelectQual rtable (Some ts) behind (Some q) e = Some (x, e') /\ getDataBool x = holds row q /\
    ev_ok strs e' /\ pages_of e' = pages_of e.
Proof.
  intros Hs (Hop & Hp & [t Ht] & [v Hv]) Hok.
  assert (forall ri i, raw_column rtable ts ri i = raw_column rtable (structs row) ri i) as Hcol
    by (intros; by apply raw_column_shown).
  pose proof (evaluates_all rtable (Some ts) behind strs behind_ok q 0 t e) as HE.
  rewrite (typeof_ext rtable ts (structs row) Hcol), (plain_meaning rtable (Some ts) strs q Hp),
    (denote_ext rtable ts (structs row) Hcol), Hv in HE.
  assert (is_column q -> selects (subPlanNode e) (node_addr q) 0) as Hsel by by destruct q.
  destruct (HE Ht Hok Hsel) as (Hty & e' & E & [Hok' Hpg _ _] & Hst).
  exists (Some (resultExpreData e')), e'. split_and!; [|unfold holds; rewrite Hv|done..].
  - by rewrite (ExecSelectQual_run rtable (Some ts) behind q true e e').
  - rewrite (operation_int rtable (Some (structs row)) strs q 0 t Hop Ht) in Hty.
    destruct v; [|done]. by eapply truth_stands.
Qed.

Lemma exec_quals_run quals ts row s : show_row ts row -> Forall (judged row) quals -> good s ->
  exists e, exec_quals behind rtable ts quals s = Some (selected quals row, set_ev e s) /\
    ev_ok strs e /\ pages_of e = pages_of (ev s).
Proof.
  intros Hs Hq. revert s. induction Hq as [|q quals Hq _ IH]; intros s Hg.
  - exists (ev s). split_and!; [by destruct s|apply Hg|done].
  - destruct (qual_run ts row q (ev s) Hs Hq (proj2 Hg)) as (x & e & E & Hb & Hok & Hpg).
    assert (on_ev (ExecSelectQual rtable (Some ts) behind (Some q)) s = Some (x, set_ev e s)) as Ee
      by (unfold on_ev; by rewrite E).
    cbn [exec_quals]. run Ee. unfold selected. cbn [existsb]. rewrite Hb.
    destruct (holds row q); [by exists e|].
    destruct (IH (set_ev e s)) as (e2 & E2 & Hok2 & Hpg2); [split; [simpl; rewrite Hpg; apply Hg|done]|].
    exists e2. split_and!; [by rewrite E2|done|]. rewrite Hpg2. exact Hpg.
Qed.

(** ** The selection *)

(** A plan that delivers what [src] says is still to come. *)
Definition serves (fuel : nat) (p : Plan) (src : PlanState -> gmap Z C -> PageState -> list (list TblRow) -> Prop) : Prop :=
  forall st s rows, src st (scanning s) (pages_of (ev s)) rows -> good s ->
  exists row st' s', Proc fuel p st s = Some ((row, st'), s') /\ step_ok (scans p) s s' /\
    delivers (scans p) src row st' (scanning s') (pages_of (ev s')) rows.

Lemma ExecChild_some (proc : Plan -> PlanState -> ST state (option RowPtr * PlanState)) p st s row st' s' :
  proc p st s = Some ((row, st'), s') -> ExecChild proc (Some p) (Some st) s = Some ((row, Some st'), s').
Proof. intros E. unfold ExecChild, mbind, ST_bind. by rewrite E. Qed.

Lemma ExecChild_run fuel p src st s rows : serves fuel p src -> src st (scanning s) (pages_of (ev s)) rows -> good s ->
  exists row st' s', ExecChild (Proc fuel) (Some p) (Some st) s = Some ((row, Some st'), s') /\ step_ok (scans p) s s' /\
    delivers (scans p) src row st' (scanning s') (pages_of (ev s')) rows.
Proof.
  intros Hsv Hsrc Hg. destruct (Hsv st s rows Hsrc Hg) as (row & st' & s' & E & Hs & Hd).
  exists row, st', s'. split_and!; [by apply ExecChild_some|done|done].
Qed.

Lemma deref_row_run ids (s : state) row : current ids (scanning s) = Some row ->
  exists ts, deref_row (ScanRow ids) s = Some (ts, s) /\ show_row ts row.
Proof.
  intros Hc. apply mapM_Some in Hc. unfold deref_row.
  enough (exists ts, mapM (fun a => Some ∘ scan_row <$> scanning s !! a) ids = Some ts /\ show_row ts row)
    as (ts & -> & Hs) by (exists ts; by split).
  induction Hc as [|a r ids row Ha _ (ts & IH & Hs)]; [exists []; split; [done|constructor]|].
  destruct (scanning s !! a) as [c|] eqn:Hsc; [|done]. cbn [mbind option_bind] in Ha.
  exists (Some (scan_row c) :: ts). split.
  - simpl. rewrite Hsc. cbn [fmap option_fmap option_map mbind option_bind]. by rewrite IH.
  - constructor; [by eexists|done].
Qed.

Section where_clause.
Context (fuel : nat) (self : PNode) (quals : list PNode) (p : Plan).
Context (src : PlanState -> gmap Z C -> PageState -> list (list TblRow) -> Prop) (Hsrc : serves fuel p src).

Definition keep (rows : list (list TblRow)) : list (list TblRow) := List.filter (selected quals) rows.

Definition sel_src (st : PlanState) (m : gmap Z C) (pg : PageState) (rows' : list (list TblRow)) : Prop :=
  match st with
  | SelectState (Some st) => exists rows, src st m pg rows /\ rows' = keep rows /\ (length rows < fuel)%nat /\
      Forall (fun row => Forall (judged row) quals) rows
  | _ => False
  end.

Lemma ExecSelect_run rows : forall rounds st s, (length rows < rounds)%nat -> (length rows < fuel)%nat ->
  src st (scanning s) (pages_of (ev s)) rows -> good s -> Forall (fun row => Forall (judged row) quals) rows ->
  exists row st' s', ExecSelect_loop behind self (Some quals) rtable (ExecChild (Proc fuel) (Some p)) rounds (Some st) s =
    Some ((row, Some st'), s') /\ step_ok (scans p) s s' /\
    delivers (scans p) sel_src row (SelectState (Some st')) (scanning s') (pages_of (ev s')) (keep rows).
Proof.
  induction rows as [|r rows IH]; intros rounds st s Hr Hfu Hst Hg HF; (destruct rounds as [|rounds]; [simpl in Hr; lia|]);
    destruct (ExecChild_run fuel p src st s _ Hsrc Hst Hg) as (row & st1 & s1 & E & Hs1 & Hd);
    cbn [ExecSelect_loop]; run E.
  - simpl in Hd. subst row. exists None, st1, s1. by split_and!.
  - destruct Hd as (-> & Hcur & Hst1). apply Forall_cons in HF as [Hj HF]. simpl in Hr, Hfu.
    set (s2 := set_ev (set_subPlanNode self (ev s1)) s1).
    assert (step_ok (scans p) s s2) as Hs2.
    { destruct Hs1 as [[Hv []] ? ? ? ?]. split; [split; [done|by split]|done..]. }
    erewrite (st_bind_some (on_ev _)) by reflexivity. fold s2.
    destruct (deref_row_run (scans p) s2 r Hcur) as (ts & Ed & Hsh). run Ed.
    destruct (exec_quals_run quals ts r s2 Hsh Hj (so_good _ _ _ Hs2)) as (e & Eq & Hok & Hpg). run Eq.
    assert (step_ok (scans p) s (set_ev e s2)) as Hs3.
    { destruct Hs2 as [[Hv ?] ? ? Hk ?]. split; [split; [simpl; by rewrite Hpg|done]|done..|simpl; by rewrite Hpg|done]. }
    assert (src st1 (scanning (set_ev e s2)) (pages_of (ev (set_ev e s2))) rows) as Hst2 by (simpl; by rewrite Hpg).
    unfold keep. cbn [List.filter]. destruct (selected quals r).
    + eexists _, st1, _. split_and!; [reflexivity|done|]. split_and!; [done|done|]. exists rows. split_and!; try done. lia.
    + destruct (IH rounds st1 (set_ev e s2)) as (row & st2 & s4 & E4 & Hs4 & Hd4); try done; [lia|lia|apply (so_good _ _ _ Hs3)|].
      exists row, st2, s4. split_and!; [exact E4| |exact Hd4].
      eapply step_ok_sub; [|by eapply step_ok_trans]. set_solver.
Qed.

Lemma ExecNodeProc_select : serves fuel (SelectResult self (Some quals) rtable (Some p)) sel_src.
Proof.
  intros [| |[st|]| | |] s rows Hst Hg; try (exfalso; exact Hst). destruct Hst as (all & Hst & -> & Hlen & HF).
  destruct (ExecSelect_run all fuel st s Hlen Hlen Hst Hg HF) as (row & st' & s' & E & Hs & Hd).
  exists row, (SelectState (Some st')), s'. split_and!; [|done|done]. cbn [ExecNodeProc]; unfold_handlers. by run E.
Qed.
End where_clause.

(** ** The projection and the query node *)

Section query_node.
Context `{!PortLaws P}.
Context (fuel : nat) (targets : list TargetEntry) (p : Plan).
Context (src : PlanState -> gmap Z C -> PageState -> list (list TblRow) -> Prop) (Hsrc : serves fuel p src).
Context (Htargets : targets <> []) (Hrt : is_Some rtable).

Lemma GetColRow_raw ts i t e rte :
  GetCellValueByIndex rtable (te_rindex t) = Some rte -> i = te_attrIndex t ->
  forall pos, GetTblRowDataPosition (Some ts) (rte_tblInfo rte) (rte_rindex rte) = Some pos ->
  forall c, raw_column rtable ts (te_rindex t) i = Some c ->
  on_pages (GetColRowDataEx pos i false 0) e = Some ((Some c, None, true), e).
Proof.
  intros Hrte -> pos Hpos c Hc. unfold raw_column in Hc. rewrite Hrte in Hc. cbn [mbind option_bind] in Hc.
  rewrite Hpos in Hc. cbn [mbind option_bind] in Hc.
  destruct (rowDataPosition pos !! 0%nat) as [x|] eqn:Hx; [|done]. cbn [mbind option_bind] in Hc.
  case_decide; [done|]. destruct (column_position _ _ _) as [k|] eqn:Hk; [|done]. cbn [mbind option_bind] in Hc.
  unfold on_pages. rewrite (GetColRowDataEx_listed pos (te_attrIndex t) x k c) by (done || lia). by destruct e.
Qed.

Lemma fetch_columns_run ts row e : show_row ts row -> projectable targets row ->
  exists cols, fetch_columns rtable ts targets e = Some (cols, e) /\ Some <$> cols = project targets row /\
    Forall (fun c => exists n, col_size c = Some n /\ 0 < n) cols.
Proof.
  intros Hs. clear Htargets. unfold projectable, project. induction targets as [|t tl IH]; intros Hp.
  - exists []. by split_and!.
  - apply Forall_cons in Hp as [(c & n & Hc & Hn & Hpos) Hp]. destruct (IH Hp) as (cols & E & Heq & HF).
    assert (raw_column rtable ts (te_rindex t) (te_attrIndex t) = Some c) as Hraw
      by (by rewrite (raw_column_shown ts row)).
    exists (c :: cols). split_and!; [|cbn [fmap list_fmap]; by rewrite Hc, <- Heq|constructor; [eauto|done]].
    cbn [fetch_columns]. pose proof Hraw as Hr. unfold raw_column in Hr.
    destruct (GetCellValueByIndex rtable (te_rindex t)) as [rte|] eqn:Hrte; [|done]. cbn [mbind option_bind] in Hr.
    destruct (GetTblRowDataPosition _ _ _) as [pos|] eqn:Hpp; [|done].
    run (GetColRow_raw ts _ t e rte Hrte eq_refl pos Hpp c Hraw). cbn [fst snd]. by run E.
Qed.

Lemma FormCol2_run cols prj : cols <> [] -> Forall (fun c => exists n, col_size c = Some n /\ 0 < n) cols ->
  FormCol2RowDataEx cols prj = Some (Some <$> cols).
Proof.
  intros Hne HF. assert (mapM form_column cols = Some (Some <$> cols)) as E.
  { apply mapM_Some. clear Hne. induction HF as [|c cols (n & Hn & Hpos) _ IH]; [constructor|].
    constructor; [|done]. unfold form_column. rewrite Hn. cbn [mbind option_bind]. by rewrite decide_True. }
  by destruct cols.
Qed.

(** Sending the rows a plan delivers. *)
Lemma TableQuery_run p0 rows : forall rounds n prj st s acc, (length rows < rounds)%nat ->
  src st (scanning s) (pages_of (ev s)) rows -> good s -> port_open p0 targets acc (portal s) ->
  Forall (fun row => projectable targets row /\ sendable targets (project targets row)) rows ->
  exists st' s', TableQuery_loop (ExecChild (Proc fuel) (Some (ProjectTbl (Some targets) rtable (Some p)))) rounds n
      (Some (ProjectTblState prj (Some st))) s = Some ((Some (n + Z.of_nat (length rows)), Some st'), s') /\
    good s' /\ retCode s' = retCode s /\ port_open p0 targets (acc ++ (project targets <$> rows)) (portal s').
Proof.
  induction rows as [|r rows IH]; intros rounds n prj st s acc Hr Hst Hg Hport HF; (destruct rounds as [|rounds]; [simpl in Hr; lia|]);
    destruct (ExecChild_run fuel p src st s _ Hsrc Hst Hg) as (row & st1 & s1 & E & Hs1 & Hd); cbn [TableQuery_loop].
  - simpl in Hd. subst row. eexists (ProjectTblState prj (Some st1)), s1. split_and!.
    + assert (Proc fuel (ProjectTbl (Some targets) rtable (Some p)) (ProjectTblState prj (Some st)) s =
        Some ((None, ProjectTblState prj (Some st1)), s1)) as Ep by (cbn [ExecNodeProc]; unfold_handlers; by run E).
      run (ExecChild_some _ _ _ _ _ _ _ Ep). by rewrite Z.add_0_r.
    + apply (so_good _ _ _ Hs1).
    + apply (so_retCode _ _ _ Hs1).
    + rewrite (so_portal _ _ _ Hs1). cbn [fmap list_fmap]. by rewrite app_nil_r.
  - destruct Hd as (-> & Hcur & Hst1). apply Forall_cons in HF as [[Hp Hsend] HF]. simpl in Hr.
    set (s2 := set_sides (Some (ScanRow (scans p))) (scanRowDataRight s1) s1).
    destruct (deref_row_run (scans p) s2 r Hcur) as (ts & Ed & Hsh).
    destruct (fetch_columns_run ts r (ev s2) Hsh Hp) as (cols & Ef & Heq & Hpos).
    assert (length cols = length targets) as Hlen.
    { apply (f_equal length) in Heq. unfold project in Heq. by rewrite !length_fmap in Heq. }
    assert (cols <> []) as Hne by (intros ->; by destruct targets).
    assert (FetchTargetColumns ts (Some targets) rtable prj s2 =
      Some ((Some (ProjRow true (Some <$> cols)), Some <$> cols), s2)) as Eft.
    { assert (on_ev (fetch_columns rtable ts targets) s2 = Some (cols, s2)) as Ef'
        by (unfold on_ev; rewrite Ef; by destruct s2).
      unfold FetchTargetColumns. destruct rtable as [rt|]; [|by destruct Hrt]. run Ef'. rewrite decide_True by done.
      run (st_lift_run _ _ s2 (FormCol2_run cols prj Hne Hpos)). reflexivity. }
    assert (Proc fuel (ProjectTbl (Some targets) rtable (Some p)) (ProjectTblState prj (Some st)) s =
      Some ((Some (ProjRow true (Some <$> cols)), ProjectTblState (Some <$> cols) (Some st1)), s2)) as Ep.
    { cbn [ExecNodeProc]; unfold_handlers. run E. run_refl. run_refl. fold s2. run Ed. by run Eft. }
    apply ExecChild_some in Ep.
    destruct (port_send p0 targets acc (portal s2) (project targets r)) as (k & pt & Es & Hk & Hsent); [simpl; by rewrite (so_portal _ _ _ Hs1)|done|].
    set (s3 := set_portal pt s2).
    assert (on_portal (SendToPort (project targets r)) s2 = Some (k, s3)) as Es' by (unfold on_portal; by rewrite Es).
    destruct (IH rounds (n + 1) (Some <$> cols) st1 s3 (acc ++ [project targets r])) as (st' & s' & E' & Hg' & Hrc & Hse); try done; [lia|apply (so_good _ _ _ Hs1)|].
    exists st', s'. split_and!; [|done| |].
    + run Ep. unfold row_data at 1. run_refl. rewrite Heq. run Es'. rewrite decide_False by lia.
      rewrite Heq in E'. rewrite E'. do 4 f_equal. simpl. lia.
    + rewrite Hrc. apply (so_retCode _ _ _ Hs1).
    + by rewrite <- app_assoc in Hse.
Qed.

(** The query node from its first state. *)
Lemma ExecNodeProc_query p0 prj st s rows : src st (scanning s) (pages_of (ev s)) rows -> (length rows < fuel)%nat -> good s ->
  port_open p0 targets [] (portal s) -> Forall (fun row => projectable targets row /\ sendable targets (project targets row)) rows ->
  exists st' s', Proc fuel (QueryTbl (Some targets) rtable (Some (ProjectTbl (Some targets) rtable (Some p))))
      (QueryTblState (Some (ProjectTblState prj (Some st)))) s = Some ((None, st'), s') /\
    retCode s' = Z.of_nat (length rows) /\ port_shown p0 targets (project targets <$> rows) (portal s').
Proof.
  intros Hst Hlen Hg Hport HF.
  destruct (TableQuery_run p0 rows fuel 0 prj st s [] Hlen Hst Hg Hport HF) as (st' & s' & E & Hg' & Hrc & Hse).
  destruct (port_finish _ _ _ _ Hse) as (k & pt & Ef & Hsf).
  exists (QueryTblState (Some st')), (set_retCode (Z.of_nat (length rows)) (set_portal pt s')). split_and!.
  - cbn [ExecNodeProc]; unfold_handlers. erewrite st_bind_some; [|exact E]. cbn beta iota.
    assert (on_portal FinishSend s' = Some (k, set_portal pt s')) as Ef' by (unfold on_portal; by rewrite Ef).
    run Ef'. by run_refl.
  - done.
  - exact Hsf.
Qed.
End query_node.

(** ** A query *)

(** The rows of the tables, combined from left to right. *)
Definition product (ids : list Z) : list (list TblRow) :=
  foldl (fun acc a => cross acc (single <$> tables a)) [[]] ids.

(** A bound for the rows of every prefix of the tables. *)
Definition product_bound (ids : list Z) : nat :=
  foldl (fun n a => n * Nat.max 1 (length (tables a)))%nat 1%nat ids.

Lemma length_cross l r : length (cross l r) = (length l * length r)%nat.
Proof.
  unfold cross. induction l as [|x l IH]; [done|]. rewrite bind_cons, length_app, IH. simpl. f_equal.
  clear. induction r as [|y r IHr]; [done|]. exact (f_equal S IHr).
Qed.

Lemma join_rows_product p : left_deep p -> join_rows p = product (scans p).
Proof.
  revert p. apply left_deep_ind.
  - intros a rt ts. change (single <$> tables a = cross [[]] (single <$> tables a)).
    unfold cross. rewrite bind_cons, app_nil_r.
    induction (single <$> tables a) as [|y r IH]; [done|]. exact (f_equal (cons y) IH).
  - intros l a rt ts Hl IH. cbn [join_rows scans]. unfold product. rewrite foldl_app. simpl. by rewrite IH.
Qed.

Lemma product_bounded ids : (length (product ids) <= product_bound ids /\ 1 <= product_bound ids)%nat.
Proof.
  induction ids as [|a ids IH] using rev_ind; [split; apply le_n|].
  unfold product, product_bound in *. rewrite !foldl_app. cbn [foldl].
  rewrite length_cross, length_fmap. split; nia.
Qed.

Lemma enough_bound p fuel : left_deep p -> (product_bound (scans p) + 2 <= fuel)%nat -> enough fuel p.
Proof.
  intros Hp. revert p Hp. refine (left_deep_ind _ _ _); [done|]. intros l a rt ts Hl IH Hf. cbn [enough scans] in *.
  assert (product_bound (scans l) <= product_bound (scans l ++ [a]))%nat.
  { unfold product_bound. rewrite foldl_app. cbn [foldl]. pose proof (proj2 (product_bounded (scans l))) as Hb.
    unfold product_bound in Hb. nia. }
  rewrite join_rows_product by done. pose proof (proj1 (product_bounded (scans l))). split; [lia|]. apply IH. lia.
Qed.

(** The scan of a table can be made and starts at its first row. *)
Definition scannable (x : Z * option RangTblEntry * list TargetEntry) : Prop :=
  exists c, ScanInit x.1.2 x.2 = Some c /\ forall pg, scan_at pg c (tables x.1.1) 0.

Lemma InitExecNode_join p : left_deep p -> NoDup (scans p) -> Forall scannable (seqscans p) -> forall s : state,
  exists st s', InitExecNode p s = Some (Some st, s') /\ ev s' = ev s /\ portal s' = portal s /\
    (forall a, a ∉ scans p -> scanning s' !! a = scanning s !! a) /\ pending p st (scanning s') (pages_of (ev s')) (join_rows p).
Proof.
  intros Hp. revert p Hp. refine (left_deep_ind _ _ _).
  - intros a rt ts _ Hi s. apply Forall_cons in Hi as [(c & Hc & Hat) _]. cbn [fst snd] in *.
    eexists _, _. split_and!.
    + unfold_init. run (st_lift_run _ _ s Hc). run_refl. reflexivity.
    + done.
    + done.
    + intros x Hx. simpl. apply lookup_insert_ne. set_solver.
    + split; [done|]. exists c, 0%nat. split_and!; [apply lookup_insert_eq|done|lia|by rewrite drop_0].
  - intros l a rt ts Hl IH Hnd Hi s. cbn [scans seqscans] in *.
    apply Forall_app in Hi as [Hil Hia]. apply Forall_cons in Hia as [(c & Hc & Hat) _]. cbn [fst snd] in *.
    apply NoDup_app in Hnd as (Hndl & Hd & _).
    destruct (IH Hndl Hil s) as (st & s1 & E & Hev & Hpo & Hsc & Hpd).
    set (s2 := set_scanning (<[a := c]> (scanning s1)) s1).
    assert (InitExecNode (SeqScan a rt ts) s1 = Some (Some (SeqScanState a), s2)) as E2.
    { unfold_init. run (st_lift_run _ _ s1 Hc). run_refl. reflexivity. }
    eexists _, s2. split_and!.
    + unfold_init. run E. fold (@InitExecNode C P _ _). run E2. reflexivity.
    + done.
    + done.
    + intros x Hx. unfold s2. simpl. rewrite lookup_insert_ne by set_solver. apply Hsc. set_solver.
    + cbn [pending]. split_and!; [done|done|unfold first_round; cbn [nl_scanTableRow]; rewrite length_replicate; rewrite table_count_scans by done; lia|].
      exists c, (join_rows l). split_and!; [apply lookup_insert_eq| |done|].
      * apply (pending_agree l st (scanning s1) _ (pages_of (ev s1))); [done| |apply keeps_refl|done]. intros x Hx. unfold s2. simpl.
        rewrite lookup_insert_ne; [done|]. intros ->. apply (Hd x Hx). set_solver.
      * left. split_and!; [done|right; exists 0%nat; apply Hat|done].
Qed.

Section select_statement.
Context `{!PortLaws P}.
Context (self : PNode) (targets : list TargetEntry) (quals : option (list PNode)).

(** Whether the [WHERE] clause, if there is one, selects the row. *)
Definition clause (row : list TblRow) : bool :=
  match quals with Some qs => selected qs row | None => true end.

Definition clause_judged (row : list TblRow) : Prop :=
  match quals with Some qs => Forall (judged row) qs | None => True end.

Definition select_query (from : list (Z * Z * list TargetEntry)) : Query :=
  mkQuery CMD_SELECT rtable (Some (AddJoinTblNodes from)) quals (Some targets).

(** The rows a [SELECT] has, in their order. *)
Definition result_rows (ids : list Z) : list (list TblRow) := List.filter clause (product ids).

Lemma filter_all_true {A} (l : list A) : List.filter (fun _ => true) l = l.
Proof. induction l as [|x l IH]; [done|]. simpl. by rewrite IH. Qed.

(** Running a query node and its projection above a plan whose state is made. *)
Lemma ExecutorPlan_run fuel p src (s : state) rows :
  targets <> [] -> is_Some rtable -> serves fuel p src ->
  (forall pt, exists st s1, InitExecNode p (set_portal pt s) = Some (Some st, s1) /\
     good s1 /\ portal s1 = pt /\ src st (scanning s1) (pages_of (ev s1)) rows) ->
  (length rows < fuel)%nat -> port_idle (portal s) ->
  Forall (fun row => projectable targets row /\ sendable targets (project targets row)) rows ->
  exists s', ExecutorPlan behind fuel
      (TopPlan CMD_SELECT (Some (QueryTbl (Some targets) rtable (Some (ProjectTbl (Some targets) rtable (Some p)))))) s =
        Some (None, s') /\
    retCode s' = Z.of_nat (length rows) /\ port_shown (portal s) targets (project targets <$> rows) (portal s').
Proof.
  intros Htargets Hrt Hserve Hinit Hlen Hidle Hproj.
  destruct targets as [|t0 tl] eqn:Et; [done|]. rewrite <- Et in *.
  destruct (port_init t0 tl (portal s) Hidle) as (k & pt & Ei & Hk & Hready). rewrite <- Et in Ei, Hready.
  destruct (Hinit pt) as (st & s1 & Einit & Hg & Hpo & Hsrc).
  assert (on_portal (InitSelectPortal (Some targets)) s = Some (k, set_portal pt s)) as Ei'
    by (unfold on_portal; by rewrite Ei).
  destruct (ExecNodeProc_query fuel targets p src Hserve Htargets Hrt (portal s) [] st s1 rows)
    as (st2 & s3 & E3 & Hrc & Hse); try done; [by rewrite Hpo|].
  exists s3. split_and!; [|done|done].
  assert (InitExecNode (ProjectTbl (Some targets) rtable (Some p)) (set_portal pt s) =
    Some (Some (ProjectTblState [] (Some st)), s1)) as E1
    by (unfold_init; by run Einit).
  assert (InitExecNode (QueryTbl (Some targets) rtable (Some (ProjectTbl (Some targets) rtable (Some p)))) s =
    Some (Some (QueryTblState (Some (ProjectTblState [] (Some st)))), s1)) as E2.
  { unfold_init. run Ei'. rewrite decide_False by lia. cbn [InitChild].
    run E1. reflexivity. }
  unfold ExecutorPlan. erewrite st_bind_some.
  2:{ unfold_init. erewrite st_bind_some; [|exact E2]. reflexivity. }
  apply ExecChild_some in E3. erewrite st_bind_some; [|apply ExecChild_some; cbn [ExecNodeProc]; unfold_handlers; by run E3].
  reflexivity.
Qed.

(** Executing the plan of a [SELECT] gives the rows SQL says: for any number of
    tables (several only with scans that can be rescanned after their end), any conditions the reference semantics judges on every combination of
    their rows and any target columns, the planned and initialised query sends to
    the portal exactly the target columns of the combinations that satisfy the
    [WHERE] clause - all of them, once each, in the order of the nested loops - and
    its return code is their number. *)
Lemma select_rows_sent fuel from (s : state) :
  from <> [] -> targets <> [] -> is_Some rtable ->
  let ids := (fun x => x.1.1) <$> from in
  NoDup ids -> rescannable (length ids) ->
  Forall scannable ((fun x => (x.1.1, GetCellValueByIndex rtable x.1.2, x.2)) <$> from) ->
  (product_bound ids + 2 <= fuel)%nat -> good s -> port_idle (portal s) ->
  Forall clause_judged (product ids) ->
  Forall (fun row => projectable targets row /\ sendable targets (project targets row)) (result_rows ids) ->
  exists s', ExecutorPlan behind fuel (subPlanSelectStmt self (select_query from)) s = Some (None, s') /\
    retCode s' = Z.of_nat (length (result_rows ids)) /\
    port_shown (portal s) targets (project targets <$> result_rows ids) (portal s').
Proof.
  intros Hfrom Htargets Hrt ids Hnd Hre Hscan Hfuel Hg Hidle Hj Hproj.
  destruct (tables_left_deep rtable from Hfrom) as (n & p & Hn & Hp & Hl & Hids & Hseq).
  fold ids in Hids. rewrite <- Hseq in Hscan. rewrite <- Hids in *.
  pose proof (product_bounded (scans p)) as [Hb _].
  pose proof (ExecNodeProc_join fuel p Hl Hnd Hre (enough_bound p fuel Hl Hfuel)) as Hserve.
  assert (length (result_rows (scans p)) < fuel)%nat as Hlen.
  { unfold result_rows. pose proof (List.filter_length_le clause (product (scans p))). lia. }
  unfold subPlanSelectStmt, ProcessTableScan, select_query, ProcessTopNode, ProcessSelectQual.
  cbn [q_rtable q_rtjoinTree q_joinTree q_commandType q_targetList]. rewrite Hn, Hp.
  pose proof (InitExecNode_join p Hl Hnd Hscan) as Hinit.
  unfold result_rows, clause in *. unfold clause_judged in Hj. destruct quals as [qs|].
  - apply (ExecutorPlan_run fuel _ (sel_src fuel qs (pending p))); try done; [by apply ExecNodeProc_select|].
    intros pt. destruct (Hinit (set_portal pt s)) as (st & s1 & E & Hev & Hpo & _ & Hpd).
    exists (SelectState (Some st)), s1. split_and!; [|unfold good; by rewrite Hev|done|].
    + unfold_init. by run E.
    + exists (product (scans p)). rewrite <- join_rows_product by done. split_and!; try done.
      * rewrite join_rows_product by done. lia.
      * by rewrite join_rows_product.
  - apply (ExecutorPlan_run fuel _ (pending p)); try done.
    intros pt. destruct (Hinit (set_portal pt s)) as (st & s1 & E & Hev & Hpo & _ & Hpd).
    exists st, s1. split_and!; [done|unfold good; by rewrite Hev|done|].
    rewrite join_rows_product in Hpd by done. by rewrite filter_all_true.
Qed.

End select_statement.

End clauses.
End nested.

(** ** A concrete query

    Tables held in memory and a portal that keeps the rows, for a join of two
    tables. *)

Record MemScan := mkMem { ms_rows : list TblRow; ms_next : nat; ms_row : TableRowDataPosition }.

Definition int_row (tbl rindex v : Z) : TblRow := mkRowOf tbl rindex [0] [int_column v].

Definition mem_table (tbl : Z) : list TblRow :=
  if decide (tbl = 77) then [int_row 77 1 3; int_row 77 1 5; int_row 77 1 8] else [int_row 78 2 5; int_row 78 2 3].

#[export] Instance mem_scanner : Scanner MemScan := {|
  ScanInit rte _ := (fun r => mkMem (mem_table (rte_tblInfo r)) 0 (struct_of (int_row 0 0 0))) <$> rte;
  ScanNext c := match ms_rows c !! ms_next c with
                | Some r => mret (true, mkMem (ms_rows c) (S (ms_next c)) (struct_of r))
                | None => mret (false, c)
                end;
  ScanReset c := mret (mkMem (ms_rows c) 0 (ms_row c));
  scan_row := ms_row |}.

#[export] Instance mem_scanner_laws : ScannerLaws MemScan (fun _ => True) (fun _ _ => True).
Proof.
  refine {| scan_at _ c rows n := ms_rows c = rows /\ ms_next c = n; scan_over c rows := ms_rows c = rows; rescans := True |}; try done.
  - intros c rows n r p [<- <-] Hr _. eexists _, p. split; [simpl; by rewrite Hr|]. split_and!; try done. by destruct r.
  - intros c rows p [<- Hn] _. exists c, p. split_and!; try done.
    simpl. assert (ms_rows c !! ms_next c = None) as -> by (apply lookup_ge_None; lia). done.
  - intros c rows p Hc _. eexists _, p. split; [reflexivity|]. destruct Hc as [Hc|[n [Hc _]]]; by split_and!.
Defined.

Definition MemPort : Type := list (list (option (list Z))).

#[export] Instance mem_port : Port MemPort := {|
  InitSelectPortal _ p := Some (0, p);
  SendToPort row p := Some (1, p ++ [row]);
  FinishSend p := Some (0, p) |}.

#[export] Instance mem_port_laws : PortLaws MemPort.
Proof.
  refine {| port_idle _ := True; sendable _ _ := True; port_open p _ rows p' := p' = p ++ rows; port_shown p _ rows p' := p' = p ++ rows |}.
  - intros t targets p _. exists 0, p. by rewrite app_nil_r.
  - intros p targets rows p1 cols -> _. exists 1, ((p ++ rows) ++ [cols]). by rewrite app_assoc.
  - intros p targets rows p1 ->. by exists 0, (p ++ rows).
Defined.

Definition two_rtable : RangTable := Some [mkRTE 1 77; mkRTE 2 78].
Definition two_tables (a : Z) : list TblRow := if decide (a = 101) then mem_table 77 else mem_table 78.
Definition two_state : EState MemScan MemPort := mkES eval0 ∅ [] None None 0.

Lemma two_product : product two_tables [101; 102] =
  [[int_row 77 1 3; int_row 78 2 5]; [int_row 77 1 3; int_row 78 2 3];
   [int_row 77 1 5; int_row 78 2 5]; [int_row 77 1 5; int_row 78 2 3];
   [int_row 77 1 8; int_row 78 2 5]; [int_row 77 1 8; int_row 78 2 3]].
Proof. reflexivity. Qed.
