(* ===== verification/SeqScan.v ===== *)
(** * The sequential scan

    Models [src/src/sqlcore/executor/scan/seqscan.c], [GetGroupMemberPagesOpt] of
    [src/src/sqlcore/storage/buffer/buffer.c] and [GetAttrIndex] of [relCache.c]:
    the scan of a table's groups, row by row, with the versions the snapshot sees.
    The scan is the executor's [Scanner]. *)

From S2P Require Import Prelude Locks Bytes Transaction Snapshot Page PageStore Space DataTypes Express Plan Executor.

(** ** Data: scan.h *)

(** A cell of [rowData->columnData]: [NULL], a column, or a column that was freed
    and whose pointer is still there. *)
Inductive RawCol := NoCol | Col (c : list Z) | Freed (c : list Z).

(** [ScanPageInfo]: [si_groupItem] is the memory of [groupItem->memberData]; the
    arrays have an entry for each column of the table, of which the first
    [si_pageListNum] are used. *)
Record ScanInfo := mkInfo {
  si_groupPageInfo : SearchPageInfo;
  si_groupItem : list Z;
  si_searchPageList : list SearchPageInfo;
  si_pageList : list (option ptr);
  si_columnData : list RawCol;
  si_colindexList : list Z;
  si_pageListNum : nat;
  si_pageReset : Z }.

Record ScanState := mkScanState { ss_tblInfo : Z; ss_rindex : Z; ss_scanPostionInfo : option ScanInfo }.

Definition with_group (g : SearchPageInfo) (item : list Z) (i : ScanInfo) : ScanInfo :=
  mkInfo g item (si_searchPageList i) (si_pageList i) (si_columnData i) (si_colindexList i) (si_pageListNum i)
    (si_pageReset i).
Definition with_pages (l : list (option ptr)) (i : ScanInfo) : ScanInfo :=
  mkInfo (si_groupPageInfo i) (si_groupItem i) (si_searchPageList i) l (si_columnData i) (si_colindexList i)
    (si_pageListNum i) (si_pageReset i).
Definition with_reset (z : Z) (i : ScanInfo) : ScanInfo :=
  mkInfo (si_groupPageInfo i) (si_groupItem i) (si_searchPageList i) (si_pageList i) (si_columnData i)
    (si_colindexList i) (si_pageListNum i) z.
Definition with_search (k : nat) (x : SearchPageInfo) (i : ScanInfo) : ScanInfo :=
  mkInfo (si_groupPageInfo i) (si_groupItem i) (<[k := x]> (si_searchPageList i)) (si_pageList i) (si_columnData i)
    (si_colindexList i) (si_pageListNum i) (si_pageReset i).
Definition with_column (k : nat) (c : RawCol) (i : ScanInfo) : ScanInfo :=
  mkInfo (si_groupPageInfo i) (si_groupItem i) (si_searchPageList i) (si_pageList i) (<[k := c]> (si_columnData i))
    (si_colindexList i) (si_pageListNum i) (si_pageReset i).
Definition with_columns (l : list RawCol) (i : ScanInfo) : ScanInfo :=
  mkInfo (si_groupPageInfo i) (si_groupItem i) (si_searchPageList i) (si_pageList i) l (si_colindexList i)
    (si_pageListNum i) (si_pageReset i).

(** ** InitScanPositionInfo *)

(** Where the column of that name is in the table's definition, or -1. *)
Fixpoint GetAttrIndex_loop (columns : list bytes) (attrName : bytes) (col : Z) : Z :=
  match columns with
  | [] => -1
  | c :: columns => if decide (attrName = c) then col else GetAttrIndex_loop columns attrName (col + 1)
  end.

Definition GetAttrIndex (columns : list bytes) (attrName : bytes) : Z := GetAttrIndex_loop columns attrName 0.

(** The columns of the table [rindex] among the targets, by their names. *)
Definition scan_columns (columns : list bytes) (rindex : Z) (targets : list TargetEntry) : list Z :=
  (fun t => GetAttrIndex columns (te_name t)) <$> filter (fun t => te_rindex t = rindex) targets.

Definition no_page : SearchPageInfo := mkSearch None 0 0 0.

(** The allocation is filled with zeros. *)
Definition InitScanPositionInfo (columns : list bytes) (rindex : Z) (targets : list TargetEntry) : option ScanInfo :=
  match targets with
  | [] => None
  | _ =>
      let colNum := length columns in
      let cols := scan_columns columns rindex targets in
      if decide (colNum < length cols)%nat then None else
      Some (mkInfo (mkSearch None 0 0 (PAGE_HEAD_PAGE_NUM + 1)) (replicate (colNum * 16) 0) (replicate colNum no_page)
              (replicate colNum None) (replicate colNum NoCol) (cols ++ replicate (colNum - length cols) 0)
              (length cols) 1)
  end.

(** [InitExecNodeSeqScan]: [tables] gives the column names of a table; 0 is
    [NULL]. *)
Definition InitSeqScan (tables : Z -> list bytes) (rte : option RangTblEntry) (targets : list TargetEntry)
    : option ScanState :=
  r ← rte;
  Some (mkScanState (rte_tblInfo r) (rte_rindex r)
          (if decide (rte_tblInfo r = 0) then None
           else InitScanPositionInfo (tables (rte_tblInfo r)) (rte_rindex r) targets)).

(** ** Releasing columns *)

(** [FreeMem] of a cell: [NULL] is left alone, a column that was freed before must
    not be freed again. *)
Definition free_column (c : RawCol) : option RawCol :=
  match c with NoCol => Some NoCol | Col b => Some (Freed b) | Freed _ => None end.

(** The used flags are never set, so every column is freed; its pointer stays. *)
Definition ResetColumnInUsed (i : ScanInfo) : option ScanInfo :=
  let n := si_pageListNum i in
  freed ← mapM free_column (take n (si_columnData i));
  Some (with_columns (freed ++ drop n (si_columnData i)) i).

(** ** buffer.c: the pages of the next group *)

Section members.
Context (item : list Z) (colindexList : list Z) (num : nat).

(** Walks the members, looking for the columns of the list in its order. The
    result: the page list, how many pages it has, the last [memNum]. *)
Fixpoint member_loop (fuel : nat) (pagelist : list (option ptr)) (colPageIndex : Z) (subPageNum : nat)
    (pageIndex offset memNum : Z) : PM (list (option ptr) * nat * Z) :=
  match fuel with
  | O => st_fault
  | S fuel =>
      if decide (pageIndex = 0) then mret (pagelist, subPageNum, memNum) else
      col ← st_lift (colindexList !! subPageNum);
      '(stop, (pagelist, subPageNum)) ←
        (if decide (colPageIndex = col) then
           page ← GetPageByIndex pageIndex MAIN_FORK;
           match page with
           | None => mret (true, (pagelist, subPageNum))
           | Some p => mret (bool_decide (num <= S subPageNum)%nat, (<[subPageNum := Some p]> pagelist, S subPageNum))
           end
         else mret (false, (pagelist, subPageNum)));
      if (stop : bool) then mret (pagelist, subPageNum, memNum) else
      memNum ← st_lift (load_i32 item (offset + 4));
      pageIndex ← st_lift (load_i32 item (offset + 12));
      member_loop fuel pagelist (colPageIndex + 1) subPageNum pageIndex (offset + 8 + memNum * 8) memNum
  end.
End members.

(** The members are copied over the start of the item's memory. *)
Definition GetGroupMemberPagesOpt (fuel : nat) (i : ScanInfo) : PM (Z * ScanInfo) :=
  '(found, g, si) ← GetGroupInfo fuel (si_groupPageInfo i);
  match g with
  | None => mret (found, with_group si (si_groupItem i) i)
  | Some g =>
      item ← st_lift (store (si_groupItem i) 0 (gi_members g));
      let i := with_group si item i in
      memNum ← st_lift (load_i32 item 4);
      pageIndex ← st_lift (load_i32 item 12);
      '(pagelist, sub, memNum) ←
        member_loop item (si_colindexList i) (si_pageListNum i) fuel (si_pageList i) 0 0 pageIndex (8 + memNum * 8) memNum;
      if decide (sub <> si_pageListNum i) then
        '(pagelist, _) ← ReleasePageList pagelist memNum;
        mret (0, with_pages pagelist i)
      else mret (found, with_pages pagelist i)
  end.

(** ** The rows of the group *)

Inductive ScanFlag := SCAN_NEXT_ROW | SCAN_END_OF_FILE | IGNORE_INVISIBILITY_COLUMNS.

Definition raw_of (c : option (list Z)) : RawCol := match c with Some c => Col c | None => NoCol end.

Section scan.
(** The current transaction and the snapshot of the statement. *)
Context (curr : Z) (snapshot : option SnapShotInfo) (fuel : nat).

(** The column of the current row from page [k]: [None] at the end of the page. *)
Definition next_column (k : nat) (i : ScanInfo) : PM (option (list Z) * ScanInfo) :=
  page ← st_lift (si_pageList i !! k);
  search ← st_lift (si_searchPageList i !! k);
  let off := if decide (si_pageReset i = 1) then 0 else sp_item_offset search in
  r ← GetRowDataFromPageEx page off;
  match r with
  | None => mret (None, with_column k NoCol (with_search k (mkSearch page off (sp_group_id search) (sp_pageNum search)) i))
  | Some (c, off) =>
      p ← st_lift page; b ← get_page p; n ← st_lift (pageNum b);
      mret (c, with_column k (raw_of c) (with_search k (mkSearch page off (sp_group_id search) n) i))
  end.

(** The version of the column the snapshot sees. *)
Definition visible_column (c : list Z) : PM (option (list Z)) :=
  h ← st_lift (get_header c);
  v ← st_lift (TupleVisibilitySatisfy curr h snapshot);
  if decide (v = TUPLE_VISIBLE) then mret (Some c) else CurrentReadVersion fuel curr snapshot (Some c).

(** The [for] over the pages; after an invisible column the rest are only read. *)
Fixpoint column_loop (n : nat) (k : nat) (flag : ScanFlag) (i : ScanInfo) : PM (ScanFlag * ScanInfo) :=
  match n with
  | O => mret (flag, i)
  | S n =>
      '(c, i) ← next_column k i;
      match c with
      | None => mret (SCAN_END_OF_FILE, i)
      | Some c =>
          match flag with
          | IGNORE_INVISIBILITY_COLUMNS => column_loop n (S k) flag i
          | _ =>
              r ← visible_column c;
              match r with
              | Some c => column_loop n (S k) flag (with_column k (Col c) i)
              | None => column_loop n (S k) IGNORE_INVISIBILITY_COLUMNS (with_column k NoCol i)
              end
          end
      end
  end.

(** The first row was read. *)
Definition cleared (i : ScanInfo) : ScanInfo := if decide (si_pageReset i = 1) then with_reset 0 i else i.

(** [rounds] bounds the jumps to [NEXT]. *)
Fixpoint SeqScanNextColumnOpt (rounds : nat) (i : ScanInfo) : PM (bool * ScanInfo) :=
  match rounds with
  | O => st_fault
  | S rounds =>
      '(flag, i) ← column_loop (si_pageListNum i) 0 SCAN_NEXT_ROW i;
      let i := cleared i in
      match flag with
      | SCAN_END_OF_FILE => mret (false, i)
      | IGNORE_INVISIBILITY_COLUMNS => i ← st_lift (ResetColumnInUsed i); SeqScanNextColumnOpt rounds i
      | SCAN_NEXT_ROW => mret (true, i)
      end
  end.

(** The loop of [SeqscanNext] over the groups. *)
Fixpoint next_loop (rounds : nat) (found : Z) (i : ScanInfo) : PM (bool * ScanInfo) :=
  match rounds with
  | O => st_fault
  | S rounds =>
      '(found, i) ← (if decide (found <= 0) then
                       '(found, i) ← GetGroupMemberPagesOpt fuel i;
                       mret (found, if decide (found <= 0) then i else with_reset found i)
                     else mret (found, i));
      if decide (found <= 0) then mret (false, i) else
      '(row, i) ← SeqScanNextColumnOpt fuel i;
      if (row : bool) then mret (true, i) else
      '(pagelist, _) ← ReleasePageList (si_pageList i) (Z.of_nat (si_pageListNum i));
      next_loop rounds 0 (with_pages pagelist i)
  end.

Definition SeqscanNext (s : ScanState) : PM (bool * ScanState) :=
  match ss_scanPostionInfo s with
  | None => mret (false, s)
  | Some i =>
      i ← st_lift (ResetColumnInUsed i);
      '(row, i) ← next_loop fuel (1 - si_pageReset i) i;
      mret (row, mkScanState (ss_tblInfo s) (ss_rindex s) (Some i))
  end.

Definition ExecReSeqScan (s : ScanState) : PM ScanState :=
  i ← st_lift (ss_scanPostionInfo s);
  i ← (match sp_page (si_groupPageInfo i) with
       | None => mret i
       | Some p =>
           ReleasePage (Some p);;
           mret (with_group (mkSearch None 0 0 (PAGE_HEAD_PAGE_NUM + 1)) (si_groupItem i) i)
       end);
  '(pagelist, _) ← ReleasePageList (si_pageList i) (Z.of_nat (si_pageListNum i));
  mret (mkScanState (ss_tblInfo s) (ss_rindex s) (Some (with_reset 1 (with_pages pagelist i)))).

End scan.

(** The row structure of the scan. *)
Definition raw_bytes (c : RawCol) : list Z := match c with Col b | Freed b => b | NoCol => [] end.

Definition scan_position (i : ScanInfo) : ScanPageInfo :=
  mkScan (take (si_pageListNum i) (si_colindexList i)) (si_pageList i) (si_searchPageList i) (si_groupPageInfo i).

Definition scanTableRow (s : ScanState) : TableRowDataPosition :=
  mkTblRow (ss_tblInfo s) (ss_rindex s)
    match ss_scanPostionInfo s with
    | None => []
    | Some i => [mkRowPosition (scan_position i) (raw_bytes <$> take (si_pageListNum i) (si_columnData i))]
    end.

#[export] Instance seqscan_scanner (tables : Z -> list bytes) (curr : Z) (snapshot : option SnapShotInfo) (fuel : nat)
  : Scanner ScanState := {|
  ScanInit := InitSeqScan tables;
  ScanNext := SeqscanNext curr snapshot fuel;
  ScanReset := ExecReSeqScan;
  scan_row := scanTableRow |}.

(** ** Reading keeps the pages *)

Definition cached_more (s s' : PageState) : Prop := forall q b, pages s !! q = Some b -> pages s' !! q = Some b.

Record reads_to (s s' : PageState) : Prop := { rt_same : same_contents s s'; rt_cached : cached_more s s' }.

Lemma reads_to_refl s : reads_to s s.
Proof. split; [apply same_contents_refl|by intros ? ?]. Qed.

Lemma reads_to_trans s1 s2 s3 : reads_to s1 s2 -> reads_to s2 s3 -> reads_to s1 s3.
Proof. intros [A1 A2] [B1 B2]. split; [by eapply same_contents_trans|]. intros q b Hq. by apply B2, A2. Qed.

Lemma reads_to_emit s e : reads_to s (emit e s).
Proof. split; [apply same_contents_emit|by intros ? ?]. Qed.

Lemma reads_to_emit_r s s' e : reads_to s s' -> reads_to s (emit e s').
Proof. intros Hs. eapply reads_to_trans; [done|apply reads_to_emit]. Qed.

#[export] Hint Resolve reads_to_refl reads_to_emit reads_to_emit_r : toad.

Lemma GetPageByIndex_reads s f n b : 0 < n -> content s (f, n) = Some b ->
  exists s', GetPageByIndex n f s = Some (Some (f, n), s') /\ reads_to s s' /\ pages s' !! (f, n) = Some b.
Proof.
  intros Hn Hb. unfold GetPageByIndex, ReadPage, content in *.
  rewrite (proj2 (Z.eqb_neq _ _)), (proj2 (Z.leb_gt _ _)) by lia.
  destruct (pages s !! (f, n)) as [b'|] eqn:Hp.
  - injection Hb as ->. eexists. split; [done|]. split; [auto with toad|done].
  - rewrite Hb. eexists. split; [done|]. split; [|apply lookup_insert_eq]. apply reads_to_emit_r. split.
    + split; try done. intros p. unfold content. simpl. destruct (decide (p = (f, n))) as [->|].
      * by rewrite lookup_insert_eq, Hp.
      * by rewrite lookup_insert_ne.
    + intros q b' Hq. simpl. rewrite lookup_insert_ne; [done|congruence].
Qed.

Lemma LockPage_reads p m s : exists s', LockPage p m s = Some (tt, s') /\ reads_to s s'.
Proof. destruct p as [p|]; eexists; (split; [reflexivity|auto with toad]). Qed.

Lemma UnLockPage_reads p m s : exists s', UnLockPage p m s = Some (tt, s') /\ reads_to s s'.
Proof. destruct p as [p|]; eexists; (split; [reflexivity|auto with toad]). Qed.

Lemma ReleasePage_reads p s : exists s', ReleasePage p s = Some (tt, s') /\ reads_to s s'.
Proof. destruct p as [p|]; eexists; (split; [reflexivity|auto with toad]). Qed.

(** Releasing a page list never fails within the array. *)
Lemma ReleasePageList_loop_reads fuel : forall l i num s, (i < length l)%nat -> (num <= length l)%nat ->
  (length l - i < fuel)%nat ->
  exists l' k s', ReleasePageList_loop l i (Z.of_nat num) fuel s = Some ((l', k), s') /\ length l' = length l /\ reads_to s s'.
Proof.
  induction fuel as [|fuel IH]; intros l i num s Hi Hn Hf; [lia|]. cbn [ReleasePageList_loop].
  destruct (lookup_lt_is_Some_2 l i Hi) as [o Ho]. run (st_lift_run _ _ s Ho).
  destruct o as [p|]; [|eexists _, _, s; split_and!; [reflexivity|done|auto with toad]].
  destruct (ReleasePage_reads (Some p) s) as (s1 & E1 & Hs1). run E1.
  case_match eqn:Hc; [eexists _, _, s1; split_and!; [reflexivity|by rewrite length_insert|done]|].
  apply Z.leb_gt in Hc.
  destruct (IH (<[i:=None]> l) (S i) num s1) as (l' & k & s' & E & Hl & Hs'); rewrite ?length_insert; try lia.
  exists l', k, s'. split_and!; [done|by rewrite Hl, length_insert|by eapply reads_to_trans].
Qed.

Lemma ReleasePageList_reads l num s : (0 < length l)%nat -> (num <= length l)%nat ->
  exists l' k s', ReleasePageList l (Z.of_nat num) s = Some ((l', k), s') /\ length l' = length l /\ reads_to s s'.
Proof. intros Hl Hn. apply ReleasePageList_loop_reads; [done|done|lia]. Qed.

Lemma store_whole p bs : length p = length bs -> store p 0 bs = Some bs.
Proof.
  intros Hl. unfold store. rewrite (proj2 (Z.leb_le 0 _)), (proj2 (Z.leb_le _ _)) by lia. simpl.
  rewrite drop_ge by lia. by rewrite app_nil_r.
Qed.

(** ** The group file

    One page of group items, read item by item. *)

Section group_file.
Context (gb : list Z) (items : list row) (gb_rep : page_rep gb items) (gb_num : pageNum gb = Some 2).

Abbreviation gpage := (GROUP_FORK, 2).

Lemma group_loop_item f i r o si s : pages s !! gpage = Some gb -> items !! i = Some r ->
  default off_item o = item_off i ->
  exists it rid s', group_loop (S f) (Some gpage) o si s =
      Some ((Some (mkGroup 2 it (r_bytes r)), mkSearch (Some gpage) (item_off i) rid (sp_pageNum si)), s') /\
    reads_to s s'.
Proof.
  intros Hp Hit Ho. cbn [group_loop]. run (get_page_run _ _ _ Hp). rewrite Ho.
  pose proof (lookup_lt_Some _ _ _ Hit) as Hlt.
  run (st_lift_run _ _ s (item_end _ _ i gb_rep)). rewrite (proj2 (Nat.leb_gt _ _)) by lia.
  run (st_lift_run _ _ s (pr_item _ _ gb_rep i _ Hit)). cbn [it_len it_offset it_rowid].
  destruct (pr_ok _ _ gb_rep r) as [Hsz Hval]; [by eapply list_elem_of_lookup_2|]. rewrite Hval, Hsz.
  run (st_lift_run _ _ s (pr_row _ _ gb_rep i _ Hit)). run (st_lift_run _ _ s gb_num).
  destruct (UnLockPage_reads (Some gpage) RWLock_READ s) as (s1 & E1 & Hs1). run E1.
  eexists _, _, s1. by split.
Qed.

Lemma group_loop_end f o si s : pages s !! gpage = Some gb -> default off_item o = item_off (length items) ->
  sp_pageNum si = 2 -> content s (GROUP_FORK, 3) = None ->
  exists off rid s', group_loop (S (S f)) (Some gpage) o si s = Some ((None, mkSearch None off rid 2), s') /\ reads_to s s'.
Proof.
  intros Hp Ho Hn Hlast. cbn [group_loop]. run (get_page_run _ _ _ Hp). rewrite Ho.
  pose proof (item_end _ _ (length items) gb_rep) as He. rewrite Nat.leb_refl in He.
  run (st_lift_run _ _ s He). rewrite Hn.
  destruct (UnLockPage_reads (Some gpage) RWLock_READ s) as (s1 & E1 & Hs1). run E1.
  destruct (ReleasePage_reads (Some gpage) s1) as (s2 & E2 & Hs2). run E2.
  assert (reads_to s s2) as H2 by (by eapply reads_to_trans).
  assert (GetPageByIndex (2 + 1) GROUP_FORK s2 = Some (None, s2)) as E3.
  { apply GetPageByIndex_none; [lia|]. by rewrite (sc_content _ _ (rt_same _ _ H2)). }
  run E3. run_refl. eexists _, _, s2. by split.
Qed.

(** The next item is [i]: at the start, or behind the last one read. *)
Definition at_group (si : SearchPageInfo) (i : nat) (s : PageState) : Prop :=
  (sp_page si = None /\ sp_pageNum si = 2 /\ i = 0%nat) \/
  (sp_page si = Some gpage /\ pages s !! gpage = Some gb /\ exists j, i = S j /\ sp_item_offset si = item_off j).

Context (fuel : nat) (fuel_ok : (2 <= fuel)%nat).

Lemma GetGroupInfo_item si i s : at_group si i s -> content s gpage = Some gb -> content s (GROUP_FORK, 3) = None ->
  (i <= length items)%nat ->
  match items !! i with
  | Some r => exists it rid s', GetGroupInfo fuel si s =
        Some ((1, Some (mkGroup 2 it (r_bytes r)), mkSearch (Some gpage) (item_off i) rid 2), s') /\
      reads_to s s' /\ pages s' !! gpage = Some gb
  | None => exists off rid s', GetGroupInfo fuel si s = Some ((0, None, mkSearch None off rid 2), s') /\ reads_to s s'
  end.
Proof.
  intros Hb Hgb Hlast Hi.
  assert (exists o si1 s1, sp_pageNum si1 = 2 /\ pages s1 !! gpage = Some gb /\ default off_item o = item_off i /\
    reads_to s s1 /\ forall r s2, group_loop fuel (Some gpage) o si1 s1 = Some (r, s2) ->
      GetGroupInfo fuel si s = Some ((match fst r with Some _ => 1 | None => 0 end, fst r, snd r), s2))
    as (o & si1 & s1 & Hn1 & Hp1 & Ho & Hs1 & Hrun).
  { destruct Hb as [(Hpg & Hn & ->)|(Hpg & Hc & j & -> & Hoff)].
    - destruct (GetPageByIndex_reads s GROUP_FORK 2 gb) as (s1 & E1 & Hs1 & Hc1); [lia|done|].
      destruct (LockPage_reads (Some gpage) RWLock_READ s1) as (s2 & E2 & Hs2).
      exists None, (mkSearch (Some gpage) (sp_item_offset si) (sp_group_id si) 2), s2.
      split_and!; [done|by apply (rt_cached _ _ Hs2)|done|by eapply reads_to_trans|]. intros [g si'] s3 E3.
      unfold GetGroupInfo. rewrite Hpg, Hn. run E1. run E2. run E3. done.
    - destruct (LockPage_reads (Some gpage) RWLock_READ s) as (s1 & E1 & Hs1).
      exists (Some (sp_item_offset si + ITEM_SIZE)), (mkSearch (Some gpage) (sp_item_offset si) (sp_group_id si) 2), s1.
      assert (pages s1 !! gpage = Some gb) as Hc1 by (by apply (rt_cached _ _ Hs1)).
      split_and!; [done|done| |done|].
      + simpl. rewrite Hoff. unfold item_off, ITEM_SIZE. lia.
      + intros [g si'] s3 E3. unfold GetGroupInfo. rewrite Hpg. run E1. run (get_page_run _ _ _ Hc1).
        run (st_lift_run _ _ s1 gb_num). run E3. done. }
  assert (exists f, fuel = S (S f)) as [f Hf] by (exists (fuel - 2)%nat; lia).
  destruct (items !! i) as [r|] eqn:Hr.
  - destruct (group_loop_item (S f) i r o si1 s1 Hp1 Hr Ho) as (it & rid & s2 & E2 & Hs2).
    rewrite <- Hf in E2.
    exists it, rid, s2. rewrite (Hrun _ _ E2). cbn [fst snd]. rewrite Hn1.
    split_and!; [done|by eapply reads_to_trans|by apply (rt_cached _ _ Hs2)].
  - apply lookup_ge_None in Hr. assert (i = length items) as -> by lia.
    assert (content s1 (GROUP_FORK, 3) = None) as Hl1 by (by rewrite (sc_content _ _ (rt_same _ _ Hs1))).
    destruct (group_loop_end f o si1 s1 Hp1 Ho Hn1 Hl1) as (off & rid & s2 & E2 & Hs2).
    rewrite <- Hf in E2.
    exists off, rid, s2. rewrite (Hrun _ _ E2). split_and!; [done|by eapply reads_to_trans].
Qed.
End group_file.

(** ** A stored table *)

(** A group: its item in the group file and, for each column scanned, the page,
    its bytes and its rows. *)
Record GroupData := mkGD { gd_item : row; gd_pages : list (Z * list Z * list row); gd_len : nat }.

Section table.
Context (curr : Z) (snapshot : option SnapShotInfo) (fuel : nat) (fuel_ok : (300 <= fuel)%nat).
(** What the table's files hold, and the columns scanned among its columns. *)
Context (contents : ptr -> option (list Z)) (colNum : nat) (cols : list Z).
Context (cols_ne : cols <> []) (cols_range : Forall (fun c => 0 <= c < Z.of_nat colNum) cols).
Context (cols_up : forall k c c', cols !! k = Some c -> cols !! S k = Some c' -> c < c') (colNum_small : (colNum <= 250)%nat).
(** The version of a column the snapshot sees. *)
Context (version : list Z -> option (list Z)).

Definition valid (s : PageState) : Prop := forall p, content s p = contents p.

Lemma valid_reads s s' : valid s -> reads_to s s' -> valid s'.
Proof. intros Hv [H _] p. rewrite (sc_content _ _ H). apply Hv. Qed.

Abbreviation num := (length cols).

Record group_ok (g : GroupData) : Prop := {
  go_bytes : length (r_bytes (gd_item g)) = (colNum * 16)%nat;
  go_memNum c : 0 <= c < Z.of_nat colNum -> load_i32 (r_bytes (gd_item g)) (c * 16 + 4) = Some 1;
  go_page c : 0 <= c < Z.of_nat colNum -> exists n, load_i32 (r_bytes (gd_item g)) (c * 16 + 12) = Some n /\ n <> 0;
  go_len : length (gd_pages g) = num;
  go_col k c : cols !! k = Some c -> exists n b rows, gd_pages g !! k = Some (n, b, rows) /\
    load_i32 (r_bytes (gd_item g)) (c * 16 + 12) = Some n /\ 0 < n /\ contents (MAIN_FORK, n) = Some b /\
    page_rep b rows /\ is_Some (pageNum b) /\ Forall Page.readable rows /\ length rows = gd_len g /\
    Forall (fun r => forall s, valid s -> exists s', visible_column curr snapshot fuel (r_bytes r) s = Some (version (r_bytes r), s') /\
                       reads_to s s') rows }.

(** The row [j] of a group, when every column has a visible version. *)
Definition row_at (g : GroupData) (j : nat) : option (list (list Z)) :=
  mapM (fun x : Z * list Z * list row => r ← x.2 !! j; version (r_bytes r)) (gd_pages g).

Definition rows_from (g : GroupData) (j : nat) : list (list (list Z)) := omap (row_at g) (seq j (gd_len g - j)).

(** The entries of the page list for a group. *)
Definition group_ptrs (g : GroupData) : list (option ptr) := (fun x => Some (MAIN_FORK, x.1.1)) <$> gd_pages g.

Definition group_cached (g : GroupData) (s : PageState) : Prop :=
  forall k n b rows, gd_pages g !! k = Some (n, b, rows) -> pages s !! (MAIN_FORK, n) = Some b.

(** ** The pages of a group *)

Lemma colindex_lookup k c rest : cols !! k = Some c -> (cols ++ rest) !! k = Some c.
Proof. intros Hk. rewrite lookup_app_l; [done|]. by eapply lookup_lt_Some. Qed.

Lemma member_loop_run g rest : group_ok g -> forall f c k pl n s,
  (k < num)%nat -> 0 <= c < Z.of_nat colNum -> (forall ck, cols !! k = Some ck -> c <= ck) ->
  load_i32 (r_bytes (gd_item g)) (c * 16 + 12) = Some n ->
  Z.of_nat colNum - c < Z.of_nat f -> (num <= length pl)%nat -> valid s ->
  (forall k' n b rows, (k' < k)%nat -> gd_pages g !! k' = Some (n, b, rows) -> pages s !! (MAIN_FORK, n) = Some b) ->
  exists s', member_loop (r_bytes (gd_item g)) (cols ++ rest) num f pl c k n ((c + 1) * 16) 1 s =
      Some ((take k pl ++ drop k (group_ptrs g) ++ drop num pl, num, 1), s') /\ reads_to s s' /\ group_cached g s'.
Proof.
  intros Hg. induction f as [|f IH]; intros c k pl n s Hk Hc Hle Hn Hf Hpl Hv Hcached; [lia|]. cbn [member_loop].
  destruct (go_page g Hg c Hc) as (n' & Hn' & Hne). rewrite Hn in Hn'. injection Hn' as <-. rewrite decide_False by done.
  destruct (lookup_lt_is_Some_2 cols k Hk) as [ck Hck]. run (st_lift_run _ _ s (colindex_lookup k ck rest Hck)).
  pose proof (Hle ck Hck) as Hcck. destruct (decide (c = ck)) as [->|Hneq].
  - destruct (go_col g Hg k ck Hck) as (m & b & rows & Hgd & Hm & Hm0 & Hb & R & _).
    rewrite Hn in Hm. injection Hm as <-.
    destruct (GetPageByIndex_reads s MAIN_FORK n b Hm0) as (s1 & E1 & Hs1 & Hc1); [by rewrite Hv|].
    assert (Hcached' : forall k' n b rows, (k' < S k)%nat -> gd_pages g !! k' = Some (n, b, rows) -> pages s1 !! (MAIN_FORK, n) = Some b).
    { intros k' n2 b2 rows2 Hk' Hg2. destruct (decide (k' = k)) as [->|].
      - rewrite Hgd in Hg2. by injection Hg2 as <- <- <-.
      - apply (rt_cached _ _ Hs1). apply (Hcached k' n2 b2 rows2); [lia|done]. }
    assert (group_ptrs g !! k = Some (Some (MAIN_FORK, n))) as Hptr by (unfold group_ptrs; by rewrite list_lookup_fmap, Hgd).
    erewrite st_bind_some; [|run E1; reflexivity]. cbv beta iota.
    case_bool_decide as Hlast.
    + exists s1. split_and!; [|done|].
      * assert (num = S k) as -> by lia. unfold mret, ST_ret. do 4 f_equal.
        rewrite (drop_S _ _ _ Hptr), drop_ge by (unfold group_ptrs; rewrite length_fmap, (go_len g Hg); lia).
        apply insert_take_drop. lia.
      * intros k' n2 b2 rows2 Hg2. apply (Hcached' k' n2 b2 rows2); [|done].
        apply lookup_lt_Some in Hg2. rewrite (go_len g Hg) in Hg2. lia.
    + destruct (lookup_lt_is_Some_2 cols (S k)) as [cn Hcn]; [lia|]. pose proof (cols_up k ck cn Hck Hcn).
      assert (0 <= cn < Z.of_nat colNum) as Hcnr by (eapply (Forall_lookup_1 _ _ _ _ cols_range Hcn)).
      destruct (go_page g Hg (ck + 1)) as (n2 & Hn2 & _); [lia|].
      run (st_lift_run _ _ s1 (go_memNum g Hg (ck + 1) ltac:(lia))). run (st_lift_run _ _ s1 Hn2).
      destruct (IH (ck + 1) (S k) (<[k:=Some (MAIN_FORK, n)]> pl) n2 s1) as (s' & E' & Hs' & Hc');
        [lia|lia|intros x Hx; rewrite Hcn in Hx; injection Hx as <-; lia|done|lia|rewrite length_insert; lia
        |by eapply valid_reads|done|].
      exists s'. split_and!; [|by eapply reads_to_trans|done].
      replace ((ck + 1) * 16 + 8 + 1 * 8) with ((ck + 1 + 1) * 16) by lia. rewrite E'. do 4 f_equal.
      rewrite (drop_S _ _ _ Hptr), drop_insert_lt by lia.
      rewrite (take_S_r _ _ (Some (MAIN_FORK, n))) by (apply list_lookup_insert_eq; lia).
      rewrite take_insert_ge by lia. by rewrite <- app_assoc.
  - run_refl. cbv beta iota.
    assert (0 <= ck < Z.of_nat colNum) as Hckr by (eapply (Forall_lookup_1 _ _ _ _ cols_range Hck)).
    destruct (go_page g Hg (c + 1)) as (n2 & Hn2 & _); [lia|].
    run (st_lift_run _ _ s (go_memNum g Hg (c + 1) ltac:(lia))). run (st_lift_run _ _ s Hn2).
    destruct (IH (c + 1) k pl n2 s) as (s' & E' & Hs' & Hc'); try done; [lia|intros x Hx; rewrite Hck in Hx; injection Hx as <-; lia|lia|].
    exists s'. split_and!; [|done|done]. by replace ((c + 1) * 16 + 8 + 1 * 8) with ((c + 1 + 1) * 16) by lia.
Qed.

(** The group file: one page of groups. *)
Context (gb : list Z) (groups : list GroupData).
Context (gb_here : contents (GROUP_FORK, 2) = Some gb) (gb_last : contents (GROUP_FORK, 3) = None).
Context (gb_rep : page_rep gb (gd_item <$> groups)) (gb_num : pageNum gb = Some 2).
Context (groups_ok : Forall group_ok groups) (cols_len : (length cols <= colNum)%nat).

Abbreviation gpage := (GROUP_FORK, 2).
Abbreviation before_group := (at_group gb).

Lemma GetGroupInfo_run si i s : before_group si i s -> valid s -> (i <= length groups)%nat ->
  match groups !! i with
  | Some g => exists it rid s', GetGroupInfo fuel si s =
        Some ((1, Some (mkGroup 2 it (r_bytes (gd_item g))), mkSearch (Some gpage) (item_off i) rid 2), s') /\
      reads_to s s' /\ pages s' !! gpage = Some gb
  | None => exists off rid s', GetGroupInfo fuel si s = Some ((0, None, mkSearch None off rid 2), s') /\ reads_to s s'
  end.
Proof.
  intros Hb Hv Hi. assert (2 <= fuel)%nat as Hf by lia.
  pose proof (GetGroupInfo_item gb (gd_item <$> groups) gb_rep gb_num fuel Hf si i s Hb) as HG.
  rewrite !Hv, length_fmap, list_lookup_fmap in HG. specialize (HG gb_here gb_last Hi). by destruct (groups !! i).
Qed.

(** What stays true of the scan's arrays. *)
Record info_ok (i : ScanInfo) : Prop := {
  io_num : si_pageListNum i = num;
  io_cols : si_colindexList i = cols ++ replicate (colNum - num) 0;
  io_item : length (si_groupItem i) = (colNum * 16)%nat;
  io_pages : length (si_pageList i) = colNum;
  io_search : length (si_searchPageList i) = colNum;
  io_columns : length (si_columnData i) = colNum }.

Lemma num_pos : (0 < num)%nat.
Proof. destruct cols; [done|simpl; lia]. Qed.

Lemma GetGroupMemberPagesOpt_run i k s : info_ok i -> before_group (si_groupPageInfo i) k s -> valid s ->
  (k <= length groups)%nat ->
  match groups !! k with
  | Some g => exists rid s', GetGroupMemberPagesOpt fuel i s =
        Some ((1, with_pages (group_ptrs g ++ drop num (si_pageList i))
                    (with_group (mkSearch (Some gpage) (item_off k) rid 2) (r_bytes (gd_item g)) i)), s') /\
      reads_to s s' /\ group_cached g s' /\ pages s' !! gpage = Some gb
  | None => exists off rid s', GetGroupMemberPagesOpt fuel i s =
        Some ((0, with_group (mkSearch None off rid 2) (si_groupItem i) i), s') /\ reads_to s s'
  end.
Proof.
  intros Hi Hb Hv Hk. pose proof (GetGroupInfo_run _ k s Hb Hv Hk) as HG. unfold GetGroupMemberPagesOpt.
  destruct (groups !! k) as [g|] eqn:Hg.
  - destruct HG as (it & rid & s1 & E1 & Hs1 & Hgp). run E1. cbn [gi_members].
    pose proof (Forall_lookup_1 _ _ _ _ groups_ok Hg) as Hgo.
    assert (store (si_groupItem i) 0 (r_bytes (gd_item g)) = Some (r_bytes (gd_item g))) as Est
      by (apply store_whole; rewrite (io_item _ Hi), (go_bytes g Hgo); done).
    run (st_lift_run _ _ s1 Est). pose proof num_pos.
    run (st_lift_run _ _ s1 (go_memNum g Hgo 0 ltac:(lia))).
    destruct (go_page g Hgo 0 ltac:(lia)) as (n & Hn & _). run (st_lift_run _ _ s1 Hn).
    assert (si_colindexList (with_group (mkSearch (Some gpage) (item_off k) rid 2) (r_bytes (gd_item g)) i) =
      cols ++ replicate (colNum - num) 0) as -> by apply (io_cols _ Hi).
    assert (si_pageListNum (with_group (mkSearch (Some gpage) (item_off k) rid 2) (r_bytes (gd_item g)) i) = num) as ->
      by apply (io_num _ Hi).
    destruct (member_loop_run g (replicate (colNum - num) 0) Hgo fuel 0 0 (si_pageList i) n s1) as (s2 & E2 & Hs2 & Hc2).
    + lia.
    + lia.
    + intros ck Hck. pose proof (Forall_lookup_1 _ _ _ _ cols_range Hck). simpl in *. lia.
    + done.
    + lia.
    + rewrite (io_pages _ Hi). lia.
    + by eapply valid_reads.
    + intros; lia.
    + change (8 + 1 * 8) with ((0 + 1) * 16). run E2. rewrite decide_False by (intros Hx; by apply Hx).
      exists rid, s2. split_and!; [done|by eapply reads_to_trans|done|by apply (rt_cached _ _ Hs2)].
  - destruct HG as (off & rid & s1 & E1 & Hs1). run E1. by exists off, rid, s1.
Qed.

(** ** The columns of a row *)

(** A step of the scan touches neither the group nor the page list. *)
Record same_frame (i i' : ScanInfo) : Prop := {
  sf_group : si_groupPageInfo i' = si_groupPageInfo i;
  sf_item : si_groupItem i' = si_groupItem i;
  sf_pages : si_pageList i' = si_pageList i;
  sf_cols : si_colindexList i' = si_colindexList i;
  sf_num : si_pageListNum i' = si_pageListNum i;
  sf_search : length (si_searchPageList i') = length (si_searchPageList i);
  sf_columns : length (si_columnData i') = length (si_columnData i) }.

Lemma same_frame_refl i : same_frame i i.
Proof. by split. Qed.

Lemma same_frame_trans i1 i2 i3 : same_frame i1 i2 -> same_frame i2 i3 -> same_frame i1 i3.
Proof. intros [] []. split; congruence. Qed.

Lemma same_frame_ok i i' : same_frame i i' -> info_ok i -> info_ok i'.
Proof. intros [] []. split; congruence. Qed.

Lemma same_frame_search k x i : same_frame i (with_search k x i).
Proof. split; try done. apply length_insert. Qed.

Lemma same_frame_column k c i : same_frame i (with_column k c i).
Proof. split; try done. apply length_insert. Qed.

#[local] Hint Resolve same_frame_refl same_frame_search same_frame_column : toad.

(** Column [k] of the scan is before row [j]. *)
Definition before_row (i : ScanInfo) (k j : nat) : Prop :=
  exists x, si_searchPageList i !! k = Some x /\
    next_item (if decide (si_pageReset i = 1) then 0 else sp_item_offset x) = item_off j.

Definition row_part (g : GroupData) (j k : nat) : option (list (list Z)) :=
  mapM (fun x : Z * list Z * list row => r ← x.2 !! j; version (r_bytes r)) (drop k (gd_pages g)).

Lemma GetRowDataFromPageEx_run p b off r s : pages s !! p = Some b -> next_row b off = Some r ->
  exists s', GetRowDataFromPageEx (Some p) off s = Some (r, s') /\ reads_to s s'.
Proof using Type.
  intros Hb Hr. destruct (LockPage_reads (Some p) RWLock_READ s) as (s1 & E1 & Hs1).
  destruct (UnLockPage_reads (Some p) RWLock_READ s1) as (s2 & E2 & Hs2).
  exists s2. split; [|by eapply reads_to_trans]. unfold GetRowDataFromPageEx. run E1.
  run (get_page_run _ _ _ (rt_cached _ _ Hs1 _ _ Hb)). run (st_lift_run _ _ s1 Hr). run E2. done.
Qed.

Lemma next_column_run g i k j s : group_ok g -> info_ok i -> (k < num)%nat ->
  take num (si_pageList i) = group_ptrs g -> group_cached g s -> before_row i k j -> (j <= gd_len g)%nat ->
  exists s' n b rows, gd_pages g !! k = Some (n, b, rows) /\ length rows = gd_len g /\ reads_to s s' /\
  match rows !! j with
  | Some r => exists gid m, next_column k i s = Some ((Some (r_bytes r), with_column k (Col (r_bytes r))
                 (with_search k (mkSearch (Some (MAIN_FORK, n)) (item_off j) gid m) i)), s')
  | None => exists x, next_column k i s = Some ((None, with_column k NoCol (with_search k x i)), s')
  end.
Proof.
  intros Hg Hi Hk Hpl Hc (x & Hx & Hoff) Hj.
  destruct (lookup_lt_is_Some_2 cols k Hk) as [ck Hck].
  destruct (go_col g Hg k ck Hck) as (n & b & rows & Hgd & _ & _ & _ & R & [m Hm] & Hread & Hlen & _).
  assert (si_pageList i !! k = Some (Some (MAIN_FORK, n))) as Hp.
  { rewrite <- (lookup_take_lt _ num k Hk), Hpl. unfold group_ptrs. by rewrite list_lookup_fmap, Hgd. }
  pose proof (Hc k n b rows Hgd) as Hcb.
  set (off := if decide (si_pageReset i = 1) then 0 else sp_item_offset x) in *.
  assert (next_row b off = Some match rows !! j with Some r => Some (Some (r_bytes r), item_off j) | None => None end) as Hn.
  { unfold next_row. rewrite Hoff. destruct (rows !! j) as [r|] eqn:Hr.
    - apply (search_items_row b rows j r 256 R Hr). by apply (Forall_lookup_1 _ _ _ _ Hread Hr).
    - apply lookup_ge_None in Hr. assert (j = length rows) as -> by lia. apply (search_items_end b rows 256 R). }
  destruct (GetRowDataFromPageEx_run _ _ _ _ s Hcb Hn) as (s2 & E2 & Hs2).
  exists s2, n, b, rows. split_and!; [done|done|done|].
  unfold next_column. destruct (rows !! j) as [r|] eqn:Hr.
  - exists (sp_group_id x), m. run (st_lift_run _ _ s Hp). run (st_lift_run _ _ s Hx). fold off. run E2. run_refl.
    run (get_page_run _ _ _ (rt_cached _ _ Hs2 _ _ Hcb)). run (st_lift_run _ _ s2 Hm). done.
  - eexists. run (st_lift_run _ _ s Hp). run (st_lift_run _ _ s Hx). fold off. run E2. done.
Qed.

(** What the columns are after the loop from [k], when a row was built. *)
Definition columns_from (i : ScanInfo) (k : nat) (vs : list (list Z)) : Prop :=
  forall m v, vs !! m = Some v -> si_columnData i !! (k + m)%nat = Some (Col v).

Definition loop_result (g : GroupData) (j k : nat) (flag : ScanFlag) : ScanFlag :=
  match flag, row_part g j k with SCAN_NEXT_ROW, Some _ => SCAN_NEXT_ROW | _, _ => IGNORE_INVISIBILITY_COLUMNS end.

(** A cell [FreeMem] may be called with. *)
Definition unfreed (c : RawCol) : Prop := match c with Freed _ => False | _ => True end.

Definition fresh (i : ScanInfo) : Prop := forall m, (m < num)%nat -> exists c, si_columnData i !! m = Some c /\ unfreed c.

Record loop_done (g : GroupData) (j k : nat) (i i' : ScanInfo) : Prop := {
  ld_frame : same_frame i i';
  ld_reset : si_pageReset i' = si_pageReset i;
  ld_low m : (m < k)%nat -> si_columnData i' !! m = si_columnData i !! m /\ si_searchPageList i' !! m = si_searchPageList i !! m;
  ld_high m : (k <= m < num)%nat -> exists x, si_searchPageList i' !! m = Some x /\ sp_item_offset x = item_off j;
  ld_unfreed m : (k <= m < num)%nat -> exists c, si_columnData i' !! m = Some c /\ unfreed c }.

Lemma row_part_S g j k n b rows r : gd_pages g !! k = Some (n, b, rows) -> rows !! j = Some r ->
  row_part g j k = (v ← version (r_bytes r); vs ← row_part g j (S k); Some (v :: vs)).
Proof using Type. intros Hg Hr. unfold row_part. rewrite (drop_S _ _ _ Hg). cbn. by rewrite Hr. Qed.

Lemma row_part_end g j k : (length (gd_pages g) <= k)%nat -> row_part g j k = Some [].
Proof using Type. intros Hk. unfold row_part. by rewrite drop_ge. Qed.

(** The state of column [k] is set and the loop goes on. *)
Lemma loop_done_step g j k c x i i2 : loop_done g j (S k) (with_column k c (with_search k x i)) i2 ->
  info_ok i -> (k < num)%nat -> sp_item_offset x = item_off j -> unfreed c ->
  loop_done g j k i i2 /\ si_columnData i2 !! k = Some c.
Proof.
  intros [Hf Hr Hlo Hhi Hun] Hi Hk Hx Hc. pose proof (io_columns _ Hi). pose proof (io_search _ Hi). split; [split|].
  - eapply same_frame_trans; [|done]. eapply same_frame_trans; [apply same_frame_search|apply same_frame_column].
  - done.
  - intros m Hm. destruct (Hlo m) as [-> ->]; [lia|]. simpl. by rewrite !list_lookup_insert_ne by lia.
  - intros m Hm. destruct (decide (m = k)) as [->|]; [|apply Hhi; lia].
    destruct (Hlo k) as [_ ->]; [lia|]. simpl. exists x. split; [|done]. apply list_lookup_insert_eq. lia.
  - intros m Hm. destruct (decide (m = k)) as [->|]; [|apply Hun; lia].
    destruct (Hlo k) as [-> _]; [lia|]. simpl. exists c. split; [|done]. apply list_lookup_insert_eq. lia.
  - destruct (Hlo k) as [-> _]; [lia|]. simpl. apply list_lookup_insert_eq. lia.
Qed.

Lemma before_row_step k m j c x i : m <> k -> before_row i m j -> before_row (with_column k c (with_search k x i)) m j.
Proof using Type. intros Hm (y & Hy & Hoff). exists y. simpl. by rewrite list_lookup_insert_ne. Qed.

(** Only the column of index [k] is written again. *)
Lemma with_column_twice k c c' i : with_column k c (with_column k c' i) = with_column k c i.
Proof using Type. unfold with_column. simpl. by rewrite list_insert_insert_eq. Qed.

Lemma column_loop_run g j : group_ok g -> (j < gd_len g)%nat -> forall n k flag i s,
  (k + n = num)%nat -> flag <> SCAN_END_OF_FILE -> info_ok i -> take num (si_pageList i) = group_ptrs g ->
  group_cached g s -> valid s -> (forall m, (k <= m < num)%nat -> before_row i m j) ->
  exists i' s', column_loop curr snapshot fuel n k flag i s = Some ((loop_result g j k flag, i'), s') /\ reads_to s s' /\
    loop_done g j k i i' /\
    (flag = SCAN_NEXT_ROW -> forall vs, row_part g j k = Some vs -> columns_from i' k vs).
Proof.
  intros Hg Hj. induction n as [|n IH]; intros k flag i s Hn Hflag Hi Hpl Hc Hv Hb; cbn [column_loop].
  - assert (row_part g j k = Some []) as Hrp by (apply row_part_end; rewrite (go_len g Hg); lia).
    exists i, s. unfold loop_result. rewrite Hrp. split_and!.
    + destruct flag; done.
    + auto with toad.
    + split; [auto with toad|done|done|lia|lia].
    + intros _ vs [= <-] m v Hm. done.
  - assert (k < num)%nat as Hk by lia.
    destruct (next_column_run g i k j s Hg Hi Hk Hpl Hc (Hb k ltac:(lia)) ltac:(lia))
      as (s1 & pn & b & rows & Hgd & Hlen & Hs1 & Hrun).
    destruct (lookup_lt_is_Some_2 rows j) as [r Hr]; [lia|]. rewrite Hr in Hrun.
    destruct Hrun as (gid & m & E1). rewrite (st_bind_some _ _ _ _ _ E1). cbv beta iota.
    set (x := mkSearch (Some (MAIN_FORK, pn)) (item_off j) gid m) in *.
    assert (forall c, info_ok (with_column k c (with_search k x i))) as Hi1.
    { intros c. eapply same_frame_ok; [|done]. eapply same_frame_trans; [apply same_frame_search|apply same_frame_column]. }
    assert (forall c m, (S k <= m < num)%nat -> before_row (with_column k c (with_search k x i)) m j) as Hb1.
    { intros c m' Hm'. apply before_row_step; [lia|]. apply Hb. lia. }
    assert (group_cached g s1) as Hc1 by (intros k' n2 b2 rows2 Hk'; apply (rt_cached _ _ Hs1); by eapply Hc).
    pose proof (valid_reads _ _ Hv Hs1) as Hv1. pose proof (row_part_S g j k pn b rows r Hgd Hr) as Hrp.
    destruct (lookup_lt_is_Some_2 cols k Hk) as [ck Hck].
    assert (exists s2, visible_column curr snapshot fuel (r_bytes r) s1 = Some (version (r_bytes r), s2) /\ reads_to s1 s2)
      as (s2 & E2 & Hs2).
    { destruct (go_col g Hg k ck Hck) as (n2 & b2 & rows2 & Hgd2 & _ & _ & _ & _ & _ & _ & _ & Hver).
      rewrite Hgd in Hgd2. injection Hgd2 as <- <- <-. by apply (Forall_lookup_1 _ _ _ _ Hver Hr). }
    assert (group_cached g s2) as Hc2 by (intros k' n2 b2 rows2 Hk'; apply (rt_cached _ _ Hs2); by eapply Hc1).
    pose proof (valid_reads _ _ Hv1 Hs2) as Hv2.
    assert (forall flag' c s3, flag' <> SCAN_END_OF_FILE -> unfreed c -> group_cached g s3 -> valid s3 ->
      exists i' s', column_loop curr snapshot fuel n (S k) flag' (with_column k c (with_search k x i)) s3 =
        Some ((loop_result g j (S k) flag', i'), s') /\ reads_to s3 s' /\
        loop_done g j k i i' /\ si_columnData i' !! k = Some c /\
        (flag' = SCAN_NEXT_ROW -> forall vs, row_part g j (S k) = Some vs -> columns_from i' (S k) vs)) as Hnext.
    { intros flag' c s3 Hf' Hun Hc3 Hv3. destruct (IH (S k) flag' (with_column k c (with_search k x i)) s3)
        as (i' & s' & E' & Hr' & Hd' & Hcols'); [lia|done|done|done|done|done|by apply Hb1|].
      destruct (loop_done_step g j k c x i i' Hd' Hi Hk eq_refl Hun). by exists i', s'. }
    destruct flag as [| |]; [|done|].
    + rewrite (st_bind_some _ _ _ _ _ E2). cbv beta iota. destruct (version (r_bytes r)) as [v|] eqn:Hver.
      * rewrite with_column_twice. destruct (Hnext SCAN_NEXT_ROW (Col v) s2) as (i' & s' & E' & Hr' & Hd & Hck' & Hcols'); try done.
        exists i', s'. rewrite E'. split_and!; [|by eapply reads_to_trans, reads_to_trans|done|].
        -- unfold loop_result. rewrite Hrp. cbn. by destruct (row_part g j (S k)).
        -- intros _ vs. rewrite Hrp. cbn. destruct (row_part g j (S k)) as [vs'|] eqn:Hrp'; [|done].
           intros [= <-] [|m'] v' Hm'; [rewrite Nat.add_0_r; by injection Hm' as <-|].
           rewrite <- Nat.add_succ_comm. by apply (Hcols' eq_refl vs').
      * rewrite with_column_twice. destruct (Hnext IGNORE_INVISIBILITY_COLUMNS NoCol s2) as (i' & s' & E' & Hr' & Hd & Hck' & _); try done.
        exists i', s'. rewrite E'. split_and!; [|by eapply reads_to_trans, reads_to_trans|done|].
        -- unfold loop_result. by rewrite Hrp.
        -- intros _ vs. by rewrite Hrp.
    + destruct (Hnext IGNORE_INVISIBILITY_COLUMNS (Col (r_bytes r)) s1) as (i' & s' & E' & Hr' & Hd & Hck' & _); try done.
      exists i', s'. rewrite E'. split_and!; [done|by eapply reads_to_trans|done|done].
Qed.

(** ** The rows of a group *)

(** The scan is in group [g], before its row [j]. *)
Definition in_group (i : ScanInfo) (g : GroupData) (j : nat) : Prop :=
  take num (si_pageList i) = group_ptrs g /\ (forall m, (m < num)%nat -> before_row i m j).

Lemma same_frame_reset z i : same_frame i (with_reset z i).
Proof. by split. Qed.

Lemma free_columns_run l : Forall unfreed l -> exists l', mapM free_column l = Some l' /\ length l' = length l.
Proof using Type.
  induction 1 as [|c l Hc _ (l' & E & Hl)]; [by exists []|].
  destruct c as [|b|b]; [| |done]; (eexists; split; [cbn; by rewrite E|simpl; by rewrite Hl]).
Qed.

(** Cells that were not freed are freed once; nothing else changes. *)
Lemma ResetColumnInUsed_run i : info_ok i -> fresh i ->
  exists l, ResetColumnInUsed i = Some (with_columns l i) /\ length l = colNum.
Proof.
  intros Hi Hf. unfold ResetColumnInUsed. rewrite (io_num i Hi).
  destruct (free_columns_run (take num (si_columnData i))) as (l' & -> & Hl).
  { apply Forall_lookup_2. intros m c Hm. apply lookup_take_Some in Hm as [Hm Hlt].
    destruct (Hf m Hlt) as (c' & Hc' & ?). rewrite Hm in Hc'. by injection Hc' as ->. }
  eexists. split; [reflexivity|]. rewrite length_app, Hl, length_take, length_drop, (io_columns i Hi). lia.
Qed.

Lemma same_frame_free l i : info_ok i -> length l = colNum -> same_frame i (with_columns l i).
Proof. intros Hi Hl. split; try done. simpl. by rewrite Hl, (io_columns i Hi). Qed.

(** A cell that was freed before makes the next call for a row a double free. *)
Lemma SeqscanNext_freed c i m b s : ss_scanPostionInfo c = Some i -> (m < si_pageListNum i)%nat ->
  si_columnData i !! m = Some (Freed b) -> SeqscanNext curr snapshot fuel c s = None.
Proof using Type.
  intros Hc Hm Hb. unfold SeqscanNext. rewrite Hc. apply st_bind_none.
  assert (ResetColumnInUsed i = None) as E; [|unfold st_lift; by rewrite E].
  unfold ResetColumnInUsed. assert (mapM free_column (take (si_pageListNum i) (si_columnData i)) = None) as E; [|by rewrite E].
  apply mapM_None. apply Exists_exists. exists (Freed b). split; [|done].
  apply list_elem_of_lookup. exists m. by apply lookup_take_Some.
Qed.

Lemma fresh_built i vs : length vs = num -> columns_from i 0 vs -> fresh i.
Proof.
  intros Hl Hc m Hm. destruct (lookup_lt_is_Some_2 vs m) as [v Hv]; [lia|]. exists (Col v). split; [|done]. by apply (Hc m v).
Qed.

(** After a row of the group, the scan is before the next one. *)
Lemma in_group_next i i' g j z : loop_done g j 0 i i' -> in_group i g j -> z <> 1 -> in_group (with_reset z i') g (S j).
Proof.
  intros Hd [Hp Hb] Hz. split; [simpl; by rewrite (sf_pages _ _ (ld_frame _ _ _ _ _ Hd))|].
  intros m Hm. destruct (ld_high _ _ _ _ _ Hd m) as (x & Hx & Hoff); [lia|].
  exists x. split; [done|]. simpl. rewrite decide_False by done. by rewrite Hoff, next_item_S.
Qed.

Lemma rows_from_S g j : (j < gd_len g)%nat ->
  rows_from g j = match row_at g j with Some vs => vs :: rows_from g (S j) | None => rows_from g (S j) end.
Proof.
  intros Hj. unfold rows_from. replace (gd_len g - j)%nat with (S (gd_len g - S j)) by lia. cbn [seq omap list_omap].
  by destruct (row_at g j).
Qed.

Lemma rows_from_end g j : (gd_len g <= j)%nat -> rows_from g j = [].
Proof. intros Hj. unfold rows_from. by replace (gd_len g - j)%nat with 0%nat by lia. Qed.

Lemma row_part_0 g j : row_part g j 0 = row_at g j.
Proof. done. Qed.

Lemma length_row_at g j vs : group_ok g -> row_at g j = Some vs -> length vs = num.
Proof. intros Hg Hr. unfold row_at in Hr. apply length_mapM in Hr. by rewrite <- (go_len g Hg), Hr. Qed.

(** The row of columns the scan has built. *)
Definition built (i : ScanInfo) (vs : list (list Z)) : Prop := length vs = num /\ columns_from i 0 vs.

Lemma cleared_spec i : exists z, z <> 1 /\ (0 <= si_pageReset i <= 1 -> z = 0) /\ cleared i = with_reset z i.
Proof.
  unfold cleared. destruct (decide (si_pageReset i = 1)) as [H|H]; [by exists 0|].
  exists (si_pageReset i). split_and!; [done|lia|]. by destruct i.
Qed.

Lemma SeqScanNextColumnOpt_run g : group_ok g -> forall rounds j i s,
  (j <= gd_len g)%nat -> (gd_len g - j < rounds)%nat -> info_ok i -> 0 <= si_pageReset i <= 1 ->
  in_group i g j -> group_cached g s -> valid s ->
  exists i' s', SeqScanNextColumnOpt curr snapshot fuel rounds i s =
      Some ((match rows_from g j with [] => false | _ :: _ => true end, i'), s') /\
    reads_to s s' /\ same_frame i i' /\ si_pageReset i' = 0 /\
    match rows_from g j with
    | [] => num = 1%nat -> fresh i'
    | vs :: rest => exists j', (j' < gd_len g)%nat /\ row_at g j' = Some vs /\ rows_from g (S j') = rest /\ in_group i' g (S j') /\ built i' vs
    end.
Proof.
  intros Hg. induction rounds as [|rounds IH]; intros j i s Hj Hf Hi Hrs Hin Hc Hv; [lia|]. cbn [SeqScanNextColumnOpt].
  rewrite (io_num i Hi). destruct (decide (j = gd_len g)) as [->|Hne].
  - rewrite (rows_from_end g (gd_len g)) by lia. pose proof num_pos as Hn.
    destruct (next_column_run g i 0 (gd_len g) s Hg Hi Hn (proj1 Hin) Hc (proj2 Hin 0%nat Hn) ltac:(lia))
      as (s1 & pn & b & rows & _ & Hlen & Hs1 & Hrun). rewrite (lookup_ge_None_2 rows) in Hrun by lia.
    destruct Hrun as (x & E1).
    assert (column_loop curr snapshot fuel num 0 SCAN_NEXT_ROW i s =
      Some ((SCAN_END_OF_FILE, with_column 0 NoCol (with_search 0 x i)), s1)) as E.
    { destruct num as [|n]; [lia|]. cbn [column_loop]. by run E1. }
    run E. cbv beta iota zeta.
    destruct (cleared_spec (with_column 0 NoCol (with_search 0 x i))) as (z & Hz & Hz0 & ->).
    eexists _, s1. split_and!; [reflexivity|done| |simpl; by apply Hz0|].
    + eapply same_frame_trans; [|apply same_frame_reset]. eapply same_frame_trans; [apply same_frame_search|apply same_frame_column].
    + intros H1 m Hm. assert (m = 0%nat) as -> by lia. exists NoCol. split; [|done]. simpl.
      apply list_lookup_insert_eq. rewrite (io_columns i Hi). lia.
  - destruct (column_loop_run g j Hg ltac:(lia) num 0 SCAN_NEXT_ROW i s) as (i1 & s1 & E & Hs1 & Hd & Hcols);
      [lia|done|done|apply Hin|done|done|intros m Hm; apply Hin; lia|].
    run E. cbv beta iota zeta. unfold loop_result. rewrite row_part_0 in *.
    destruct (cleared_spec i1) as (z & Hz & Hz0 & Hcl). rewrite Hcl. rewrite (ld_reset _ _ _ _ _ Hd) in Hz0.
    pose proof (in_group_next i i1 g j z Hd Hin Hz) as Hin1. rewrite (rows_from_S g j) by lia.
    assert (same_frame i (with_reset z i1)) as Hfr by (eapply same_frame_trans; [apply (ld_frame _ _ _ _ _ Hd)|apply same_frame_reset]).
    destruct (row_at g j) as [vs|] eqn:Hrow.
    + eexists _, s1. split_and!; [reflexivity|done|done|simpl; by apply Hz0|].
      exists j. split_and!; [lia|done|done|done|]. split; [by eapply length_row_at|]. by apply Hcols.
    + assert (info_ok (with_reset z i1)) as Hi1 by (by eapply same_frame_ok).
      destruct (ResetColumnInUsed_run (with_reset z i1) Hi1) as (l & El & Hl).
      { intros m Hm. apply (ld_unfreed _ _ _ _ _ Hd). lia. }
      run (st_lift_run _ _ s1 El).
      destruct (IH (S j) (with_columns l (with_reset z i1)) s1) as (i' & s' & E' & Hs' & Hf' & Hr' & Hres);
        [lia|lia| |simpl; rewrite Hz0 by done; lia|done| |by eapply valid_reads|].
      * eapply same_frame_ok; [by apply same_frame_free|done].
      * intros k' n2 b2 rows2 Hk'. apply (rt_cached _ _ Hs1). by eapply Hc.
      * exists i', s'. split_and!; [done|by eapply reads_to_trans| |done|done].
        eapply same_frame_trans; [done|]. eapply same_frame_trans; [by apply same_frame_free|done].
Qed.

(** ** The rows of the table *)

Definition rows_of (gs : list GroupData) : list (list (list Z)) := g ← gs; rows_from g 0.

Lemma rows_of_drop k g : groups !! k = Some g -> rows_of (drop k groups) = rows_from g 0 ++ rows_of (drop (S k) groups).
Proof. intros Hg. by rewrite (drop_S _ _ _ Hg). Qed.

(** The rows the scan still has to deliver: at its start, and in a group. *)
Inductive ahead (i : ScanInfo) (s : PageState) : list (list (list Z)) -> Prop :=
| ahead_start k : before_group (si_groupPageInfo i) k s -> (k < length groups)%nat \/ k = 0%nat -> si_pageReset i = 1 ->
    ahead i s (rows_of (drop k groups))
| ahead_in k g j : groups !! k = Some g -> before_group (si_groupPageInfo i) (S k) s -> si_pageReset i = 0 ->
    in_group i g j -> (j <= gd_len g)%nat -> group_cached g s -> ahead i s (rows_from g j ++ rows_of (drop (S k) groups)).

Definition over (i : ScanInfo) : Prop := sp_page (si_groupPageInfo i) = None /\ sp_pageNum (si_groupPageInfo i) = 2.

(** The scan has just read the row [vs], and [rest] is ahead. *)
Definition just_read (i : ScanInfo) (s : PageState) (vs : list (list Z)) (rest : list (list (list Z))) : Prop :=
  exists k g j, groups !! k = Some g /\ before_group (si_groupPageInfo i) (S k) s /\ si_pageReset i = 0 /\
    in_group i g (S j) /\ (j < gd_len g)%nat /\ group_cached g s /\ row_at g j = Some vs /\
    rest = rows_from g (S j) ++ rows_of (drop (S k) groups) /\ built i vs.

Lemma just_read_ahead i s vs rest : just_read i s vs rest -> ahead i s rest /\ built i vs.
Proof. intros (k & g & j & Hg & Hb & Hr & Hin & Hj & Hc & _ & -> & Hbu). split; [|done]. by apply (ahead_in _ _ k g (S j)). Qed.

(** At its end the scan of one column has no freed column left; with more columns
    the pointers of the others stay. *)
Definition one_column : Prop := num = 1%nat /\ groups <> [].

(** What a call for the next row gives when the rows [rest] are ahead. *)
Definition outcome (rest : list (list (list Z))) (s : PageState) (o : option (bool * ScanInfo * PageState)) : Prop :=
  exists i' s', o = Some ((match rest with [] => false | _ :: _ => true end, i'), s') /\ reads_to s s' /\ info_ok i' /\
    match rest with [] => over i' /\ (one_column -> fresh i') | vs :: rest => just_read i' s' vs rest end.

Lemma outcome_reads rest s s1 o : reads_to s s1 -> outcome rest s1 o -> outcome rest s o.
Proof. intros H (i' & s' & ? & ? & ?). exists i', s'. split; [done|]. by split; [eapply reads_to_trans|]. Qed.

Lemma before_group_reads si k s s' : reads_to s s' -> before_group si k s -> before_group si k s'.
Proof. intros [_ H] [?|(? & Hp & ?)]; [by left|right]. split_and!; [done|by apply H|done]. Qed.

Lemma group_cached_reads g s s' : reads_to s s' -> group_cached g s -> group_cached g s'.
Proof. intros [_ H] Hc k n b rows Hk. apply H. by eapply Hc. Qed.

Lemma gd_len_bound g : group_ok g -> (gd_len g < 256)%nat.
Proof.
  intros Hg. pose proof num_pos. destruct (lookup_lt_is_Some_2 cols 0) as [c Hc]; [done|].
  destruct (go_col g Hg 0 c Hc) as (n & b & rows & _ & _ & _ & _ & R & _ & _ & <- & _).
  pose proof (pr_fit _ _ R). pose proof (bytes_of_nonneg rows). unfold item_off, off_item, ITEM_SIZE, PAGE_MAX_SIZE in *. lia.
Qed.

Definition group_rest (rounds : nat) (i : ScanInfo) : PM (bool * ScanInfo) :=
  '(row, i) ← SeqScanNextColumnOpt curr snapshot fuel fuel i;
  if (row : bool) then mret (true, i) else
  '(pagelist, _) ← ReleasePageList (si_pageList i) (Z.of_nat (si_pageListNum i));
  next_loop curr snapshot fuel rounds 0 (with_pages pagelist i).

(** A row of the group, or what the groups behind it give. *)
Lemma group_rest_run rounds k g j i s : groups !! k = Some g -> before_group (si_groupPageInfo i) (S k) s ->
  0 <= si_pageReset i <= 1 -> in_group i g j -> (j <= gd_len g)%nat -> group_cached g s -> info_ok i -> valid s ->
  (forall i' s', before_group (si_groupPageInfo i') (S k) s' -> info_ok i' -> (num = 1%nat -> fresh i') -> valid s' ->
     outcome (rows_of (drop (S k) groups)) s' (next_loop curr snapshot fuel rounds 0 i' s')) ->
  outcome (rows_from g j ++ rows_of (drop (S k) groups)) s (group_rest rounds i s).
Proof.
  intros Hg Hb Hr Hin Hj Hc Hi Hv Hnext. pose proof (Forall_lookup_1 _ _ _ _ groups_ok Hg) as Hgo.
  pose proof (gd_len_bound g Hgo).
  destruct (SeqScanNextColumnOpt_run g Hgo fuel j i s) as (i1 & s1 & E1 & Hs1 & Hfr & Hr1 & Hres); try done; [lia|].
  assert (before_group (si_groupPageInfo i1) (S k) s1) as Hb1.
  { rewrite (sf_group _ _ Hfr). by eapply before_group_reads. }
  pose proof (same_frame_ok _ _ Hfr Hi) as Hi1. unfold group_rest. run E1. cbv beta iota zeta.
  destruct (rows_from g j) as [|vs rest].
  - simpl. destruct (ReleasePageList_reads (si_pageList i1) (si_pageListNum i1) s1) as (l' & n & s2 & E2 & Hl & Hs2);
      [rewrite (io_pages _ Hi1); pose proof num_pos; lia|rewrite (io_num _ Hi1), (io_pages _ Hi1); lia|].
    run E2. cbv beta iota. eapply outcome_reads; [by eapply reads_to_trans|]. apply Hnext.
    + by eapply before_group_reads.
    + destruct Hi1. split; try done. simpl. by rewrite Hl.
    + exact Hres.
    + by eapply valid_reads; [eapply valid_reads|].
  - destruct Hres as (j' & Hj' & Hrow & <- & Hin' & Hbu). exists i1, s1. split_and!; [done|done|done|].
    exists k, g, j'. split_and!; try done. by eapply group_cached_reads.
Qed.

Lemma info_ok_group_pages i g k rid : info_ok i -> group_ok g ->
  info_ok (with_reset 1 (with_pages (group_ptrs g ++ drop num (si_pageList i))
    (with_group (mkSearch (Some gpage) (item_off k) rid 2) (r_bytes (gd_item g)) i))).
Proof.
  intros [] Hg. split; try done; simpl.
  - apply (go_bytes g Hg).
  - rewrite length_app, length_drop. unfold group_ptrs. rewrite length_fmap, (go_len g Hg). lia.
Qed.

(** The first row of a group is next. *)
Lemma in_group_first i g k rid : info_ok i -> group_ok g ->
  in_group (with_reset 1 (with_pages (group_ptrs g ++ drop num (si_pageList i))
    (with_group (mkSearch (Some gpage) (item_off k) rid 2) (r_bytes (gd_item g)) i))) g 0.
Proof.
  intros [] Hg. split.
  - simpl. apply take_app_length'. unfold group_ptrs. by rewrite length_fmap, (go_len g Hg).
  - intros m Hm. destruct (lookup_lt_is_Some_2 (si_searchPageList i) m) as [x Hx]; [lia|].
    by exists x.
Qed.

Lemma next_loop_groups : forall rounds k i s, (length groups - k < rounds)%nat -> (k <= length groups)%nat ->
  before_group (si_groupPageInfo i) k s -> info_ok i -> (one_column -> (k < length groups)%nat \/ fresh i) -> valid s ->
  outcome (rows_of (drop k groups)) s (next_loop curr snapshot fuel rounds 0 i s).
Proof.
  induction rounds as [|rounds IH]; intros k i s Hf Hk Hb Hi Hfr Hv; [lia|]. cbn [next_loop].
  rewrite decide_True by lia. pose proof (GetGroupMemberPagesOpt_run i k s Hi Hb Hv Hk) as HG.
  destruct (groups !! k) as [g|] eqn:Hg.
  - destruct HG as (rid & s1 & E1 & Hs1 & Hc & Hgp). erewrite st_bind_some; [|run E1; reflexivity]. cbv beta iota.
    rewrite !decide_False by lia. rewrite (rows_of_drop k g Hg).
    pose proof (Forall_lookup_1 _ _ _ _ groups_ok Hg) as Hgo. eapply outcome_reads; [done|].
    eapply (group_rest_run rounds k g 0); try done.
    + right. split_and!; [done|done|]. by exists k.
    + by apply in_group_first.
    + lia.
    + by apply info_ok_group_pages.
    + by eapply valid_reads.
    + pose proof (lookup_lt_Some _ _ _ Hg). intros i' s' Hb' Hi' Hfr' Hv'. apply IH; [lia|lia|done|done| |done]. intros [? _]. right. by apply Hfr'.
  - apply lookup_ge_None in Hg. rewrite drop_ge by done.
    destruct HG as (off & rid & s1 & E1 & Hs1). erewrite st_bind_some; [|run E1; reflexivity]. cbv beta iota.
    rewrite !decide_True by lia. eexists _, s1. split_and!; [reflexivity|done| |cbn; split; [done|]].
    + destruct Hi. by split.
    + intros H1. destruct (Hfr H1); [lia|done].
Qed.

(** The next call of a scan with [rest] ahead, its columns freed. *)
Lemma next_loop_ahead rest i l s : ahead i s rest -> info_ok i -> length l = colNum -> valid s -> (length groups < fuel - 1)%nat ->
  outcome rest s (next_loop curr snapshot fuel fuel (1 - si_pageReset i) (with_columns l i) s).
Proof.
  intros Ha Hi Hl Hv Hf. assert (info_ok (with_columns l i)) as Hi' by (eapply same_frame_ok; [by apply same_frame_free|done]).
  destruct Ha as [k Hb Hk Hr|k g j Hg Hb Hr Hin Hj Hc]; rewrite Hr.
  - apply next_loop_groups; try done; [lia|lia|]. intros [_ Hne]. left. destruct groups; [done|simpl in *; lia].
  - assert (exists f, fuel = S f) as [f Hf'] by (exists (fuel - 1)%nat; lia).
    assert (next_loop curr snapshot fuel fuel 1 (with_columns l i) s = group_rest f (with_columns l i) s) as E.
    { rewrite Hf' at 2. cbn [next_loop]. rewrite decide_False by lia. erewrite st_bind_some; [|reflexivity].
      cbv beta iota. by rewrite decide_False by lia. }
    change (1 - 0) with 1. rewrite E. pose proof (lookup_lt_Some _ _ _ Hg).
    apply (group_rest_run f k g j); try done.
    + simpl. lia.
    + intros i2 s2 Hb2 Hi2 Hfr2 Hv2. apply next_loop_groups; [lia|lia|done|done| |done]. intros [? _]. right. by apply Hfr2.
Qed.

(** ** The scan of the table *)

Context (tbl rindex : Z).

Definition stored_rows : list TblRow := mkRowOf tbl rindex cols <$> rows_of groups.

Definition scan_stands (s : PageState) (c : ScanState) (n : nat) : Prop :=
  ss_tblInfo c = tbl /\ ss_rindex c = rindex /\ exists i, ss_scanPostionInfo c = Some i /\ info_ok i /\ fresh i /\
    ahead i s (drop n (rows_of groups)).

Definition scan_ended (c : ScanState) : Prop :=
  ss_tblInfo c = tbl /\ ss_rindex c = rindex /\ exists i, ss_scanPostionInfo c = Some i /\ info_ok i /\
    (one_column -> fresh i) /\ over i.

Lemma groups_bound : (length groups < 256)%nat.
Proof.
  pose proof (pr_fit _ _ gb_rep) as H. pose proof (bytes_of_nonneg (gd_item <$> groups)). rewrite length_fmap in H.
  unfold item_off, off_item, ITEM_SIZE, PAGE_MAX_SIZE in *. lia.
Qed.

Lemma ahead_reads i s s' rest : reads_to s s' -> ahead i s rest -> ahead i s' rest.
Proof.
  intros H [k Hb Hk Hr|k g j Hg Hb Hr Hin Hj Hc].
  - apply ahead_start; try done. by eapply before_group_reads.
  - eapply ahead_in; try done; [by eapply before_group_reads|by eapply group_cached_reads].
Qed.

Lemma built_shows c i vs : info_ok i -> built i vs -> ss_tblInfo c = tbl -> ss_rindex c = rindex ->
  ss_scanPostionInfo c = Some i -> shows (scanTableRow c) = Some (mkRowOf tbl rindex cols vs).
Proof.
  intros Hi [Hlen Hcol] Ht Hr Hc. unfold shows, scanTableRow. rewrite Hc. cbn. rewrite Ht, Hr. do 2 f_equal.
  - rewrite (io_num _ Hi), (io_cols _ Hi). by apply take_app_length'.
  - rewrite (io_num _ Hi). apply list_eq. intros m. rewrite list_lookup_fmap. destruct (decide (m < num)%nat) as [Hm|Hm].
    + rewrite lookup_take_lt by done. destruct (lookup_lt_is_Some_2 vs m) as [v Hv]; [lia|].
      pose proof (Hcol m v Hv) as Hm'. simpl in Hm'. by rewrite Hm', Hv.
    + rewrite lookup_take_ge by lia. symmetry. apply lookup_ge_None. lia.
Qed.

(** The scan before the rows [rest], and right behind [vs]. *)
Definition scan_ahead (s : PageState) (c : ScanState) (rest : list (list (list Z))) : Prop :=
  ss_tblInfo c = tbl /\ ss_rindex c = rindex /\ exists i, ss_scanPostionInfo c = Some i /\ info_ok i /\ fresh i /\ ahead i s rest.

Definition scan_read (s : PageState) (c : ScanState) (vs : list (list Z)) (rest : list (list (list Z))) : Prop :=
  ss_tblInfo c = tbl /\ ss_rindex c = rindex /\ exists i, ss_scanPostionInfo c = Some i /\ info_ok i /\ just_read i s vs rest.

Lemma SeqscanNext_ahead c rest s : scan_ahead s c rest -> valid s ->
  match rest with
  | vs :: rest => exists c' s', SeqscanNext curr snapshot fuel c s = Some ((true, c'), s') /\ reads_to s s' /\
      scan_read s' c' vs rest /\ shows (scanTableRow c') = Some (mkRowOf tbl rindex cols vs)
  | [] => exists c' s', SeqscanNext curr snapshot fuel c s = Some ((false, c'), s') /\ reads_to s s' /\ scan_ended c'
  end.
Proof.
  intros (Ht & Hr & i & Hc & Hi & Hfr & Ha) Hv. pose proof groups_bound.
  destruct (ResetColumnInUsed_run i Hi Hfr) as (l & El & Hl).
  destruct (next_loop_ahead _ i l s Ha Hi Hl Hv ltac:(lia)) as (i' & s' & E & Hs & Hi' & Hrest).
  unfold SeqscanNext. rewrite Hc. destruct rest as [|vs rest].
  - destruct Hrest as [Ho Hfr']. eexists _, s'. split; [run (st_lift_run _ _ s El); by run E|]. split; [done|]. split_and!; [done|done|]. by exists i'.
  - destruct (just_read_ahead _ _ _ _ Hrest) as [_ Hbu]. eexists _, s'. split; [run (st_lift_run _ _ s El); by run E|]. split_and!; [done| |].
    + split_and!; [done|done|]. by exists i'.
    + by eapply built_shows.
Qed.

(** Rescanned, the scan is before its first row; rescanned after its end it can be
    used only when it reads one column. *)
Lemma ExecReSeqScan_run c s : (scan_ended c /\ one_column) \/ (exists n, scan_stands s c n) ->
  exists c' s', ExecReSeqScan c s = Some (c', s') /\ reads_to s s' /\ scan_stands s' c' 0.
Proof.
  intros Hc. assert (ss_tblInfo c = tbl /\ ss_rindex c = rindex /\ exists i, ss_scanPostionInfo c = Some i /\ info_ok i /\ fresh i /\
    (over i \/ sp_page (si_groupPageInfo i) = Some gpage)) as (Ht & Hr & i & Hi & Hok & Hfr & Hgp).
  { destruct Hc as [[(Ht & Hr & i & Hi & Hok & Hfr & Ho) H1]|[n (Ht & Hr & i & Hi & Hok & Hfr & Ha)]].
    - split_and!; [done|done|]. exists i. split_and!; [done|done|by apply Hfr|by left].
    - split_and!; [done|done|]. exists i. split_and!; [done|done|done|].
      destruct Ha as [k Hb _ _|k g j _ Hb _ _ _ _]; (destruct Hb as [(? & ? & _)|(? & _)]; [by left|by right]). }
  assert (exists i' s1, (match sp_page (si_groupPageInfo i) with
       | None => mret i
       | Some p => ReleasePage (Some p);; mret (with_group (mkSearch None 0 0 (PAGE_HEAD_PAGE_NUM + 1)) (si_groupItem i) i)
       end) s = Some (i', s1) /\ reads_to s s1 /\ info_ok i' /\ fresh i' /\ over i') as (i' & s1 & E1 & Hs1 & Hi' & Hfr' & Ho).
  { destruct Hgp as [Ho|Hp].
    - rewrite (proj1 Ho). exists i, s. split; [done|]. split; [auto with toad|done].
    - rewrite Hp. destruct (ReleasePage_reads (Some gpage) s) as (s1 & E1 & Hs1). eexists _, s1. split; [by run E1|].
      split; [done|]. split; [destruct Hok; by split|done]. }
  destruct (ReleasePageList_reads (si_pageList i') (si_pageListNum i') s1) as (l' & n & s2 & E2 & Hl & Hs2);
    [rewrite (io_pages _ Hi'); pose proof num_pos; lia|rewrite (io_num _ Hi'), (io_pages _ Hi'); lia|].
  eexists _, s2. split; [unfold ExecReSeqScan; run (st_lift_run _ _ s Hi); run E1; run E2; done|].
  split; [by eapply reads_to_trans|]. split_and!; [done|done|]. eexists. split; [done|].
  split; [destruct Hi'; split; try done; simpl; by rewrite Hl|]. split; [exact Hfr'|].
  rewrite drop_0. apply (ahead_start _ _ 0); [|by right|done]. left. by destruct Ho.
Qed.

(** A new scan. *)
Lemma InitSeqScan_run tables rte targets s : rte_tblInfo rte = tbl -> rte_rindex rte = rindex -> tbl <> 0 -> targets <> [] ->
  length (tables tbl) = colNum -> scan_columns (tables tbl) rindex targets = cols ->
  exists c, InitSeqScan tables (Some rte) targets = Some c /\ scan_stands s c 0.
Proof.
  intros Ht Hr H0 Htg Hl Hcols. unfold InitSeqScan. cbn. rewrite Ht, Hr, decide_False by done.
  unfold InitScanPositionInfo. destruct targets as [|t targets]; [done|]. rewrite Hcols, Hl. rewrite decide_False by lia.
  eexists. split; [done|]. split_and!; [done|done|]. eexists. split; [done|]. split; [|split].
  - split; simpl; rewrite ?length_replicate; done.
  - intros m Hm. exists NoCol. split; [|done]. simpl. apply lookup_replicate. split; [done|lia].
  - rewrite drop_0. apply (ahead_start _ _ 0); [|by right|done]. by left.
Qed.

(** ** The scan keeps the executor's contract *)

Context (columns : Z -> list bytes).

#[local] Instance the_scanner : Scanner ScanState := seqscan_scanner columns curr snapshot fuel.

Lemma just_read_reads i s s' vs rest : reads_to s s' -> just_read i s vs rest -> just_read i s' vs rest.
Proof.
  intros H (k & g & j & Hg & Hb & Hr & Hin & Hj & Hc & Hrest). exists k, g, j. split; [done|]. split; [by eapply before_group_reads|].
  split; [done|]. split; [done|]. split; [done|]. split; [by eapply group_cached_reads|done].
Qed.

(** Where the scan stands after [n] rows; it has the last of them. *)
Definition scan_place (p : PageState) (c : ScanState) (n : nat) : Prop :=
  scan_stands p c n /\ forall m vs, n = S m -> rows_of groups !! m = Some vs -> scan_read p c vs (drop n (rows_of groups)).

Lemma scan_place_reads c n p p' : reads_to p p' -> scan_place p c n -> scan_place p' c n.
Proof.
  intros H [(Ht & Hr & i & Hi & Hok & Hfr & Ha) Hrd]. split.
  - split_and!; [done|done|]. exists i. split_and!; [done|done|done|by eapply ahead_reads].
  - intros m vs Hm Hvs. destruct (Hrd m vs Hm Hvs) as (_ & _ & i' & Hi' & Hok' & Hj). split_and!; [done|done|].
    exists i'. split_and!; [done|done|by eapply just_read_reads].
Qed.

Lemma SeqscanNext_place c n s : scan_stands s c n -> valid s ->
  match rows_of groups !! n with
  | Some vs => exists c' s', SeqscanNext curr snapshot fuel c s = Some ((true, c'), s') /\ reads_to s s' /\
      scan_place s' c' (S n) /\ shows (scanTableRow c') = Some (mkRowOf tbl rindex cols vs)
  | None => exists c' s', SeqscanNext curr snapshot fuel c s = Some ((false, c'), s') /\ reads_to s s' /\ scan_ended c'
  end.
Proof.
  intros Hst Hv. pose proof (SeqscanNext_ahead c _ s Hst Hv) as H. destruct (rows_of groups !! n) as [vs|] eqn:Hn.
  - rewrite (drop_S _ _ _ Hn) in H. destruct H as (c' & s' & E & Hs & Hrd & Hsh). exists c', s'.
    split_and!; try done. split; [|intros m vs' [= <-] Hvs'; congruence].
    destruct Hrd as (Ht & Hr & i & Hi & Hok & Hj). split_and!; [done|done|]. exists i. split_and!; [done|done| |by eapply just_read_ahead].
    destruct (just_read_ahead _ _ _ _ Hj) as [_ [Hl Hcol]]. by eapply fresh_built.
  - apply lookup_ge_None in Hn. by rewrite drop_ge in H.
Qed.

Lemma SeqscanNext_run c n s : scan_stands s c n -> valid s ->
  match rows_of groups !! n with
  | Some vs => exists c' s', SeqscanNext curr snapshot fuel c s = Some ((true, c'), s') /\ reads_to s s' /\
      scan_stands s' c' (S n) /\ shows (scanTableRow c') = Some (mkRowOf tbl rindex cols vs)
  | None => exists c' s', SeqscanNext curr snapshot fuel c s = Some ((false, c'), s') /\ reads_to s s' /\ scan_ended c'
  end.
Proof.
  intros Hc Hv. pose proof (SeqscanNext_place c n s Hc Hv) as HS. destruct (rows_of groups !! n); [|done].
  destruct HS as (c' & s' & E & Hs & [Hc' _] & Hsh). by exists c', s'.
Qed.

Definition seqscan_laws : ScannerLaws ScanState valid reads_to.
Proof.
  refine {| keeps_refl := reads_to_refl; keeps_trans := reads_to_trans;
            scan_at := fun p c rows n => rows = stored_rows /\ scan_place p c n;
            scan_over := fun c rows => rows = stored_rows /\ scan_ended c /\ one_column; rescans := one_column |}.
  - intros c rows n p p' H [-> Hc]. split; [done|]. by eapply scan_place_reads.
  - intros c rows n r p [-> [Hc _]] Hn Hv. unfold stored_rows in Hn. rewrite list_lookup_fmap in Hn.
    pose proof (SeqscanNext_place c n p Hc Hv) as HS. destruct (rows_of groups !! n) as [vs|]; [|done]. injection Hn as <-.
    destruct HS as (c' & p' & E & Hs & Hc' & Hsh). exists c', p'. split_and!; try done. by eapply valid_reads.
  - intros c rows p [-> [Hc _]] Hv. pose proof (SeqscanNext_place c _ p Hc Hv) as HS.
    rewrite (lookup_ge_None_2 (rows_of groups)) in HS by (unfold stored_rows; by rewrite length_fmap).
    destruct HS as (c' & p' & E & Hs & Hc'). exists c', p'. split_and!; try done. by eapply valid_reads.
  - intros c rows p Hc Hv. assert (rows = stored_rows /\ ((scan_ended c /\ one_column) \/ exists n, scan_stands p c n)) as [-> Hc'].
    { destruct Hc as [[-> Hc]|[n [-> [Hc _]]]]; (split; [done|]); [by left|by right; exists n]. }
    destruct (ExecReSeqScan_run c p Hc') as (c' & p' & E & Hs & Hc2). exists c', p'. split; [done|].
    split; [by split; [|split; [exact Hc2|]]|]. split; [by eapply valid_reads|done].
Defined.

(** The columns of a scan are those of its targets. *)
Context (rte : RangTblEntry) (scan_targets : list TargetEntry).
Context (rte_tbl : rte_tblInfo rte = tbl) (rte_index : rte_rindex rte = rindex) (tbl_here : tbl <> 0)
  (targets_here : scan_targets <> []) (tbl_columns : length (columns tbl) = colNum)
  (targets_cols : scan_columns (columns tbl) rindex scan_targets = cols).

Lemma ScanInit_run : exists c, ScanInit (Some rte) scan_targets = Some c /\ forall s, scan_stands s c 0.
Proof.
  destruct (InitSeqScan_run columns rte scan_targets (mkPS ∅ ∅ [] 0 0 0)) as (c & E & Hc); try done.
  exists c. split; [exact E|]. intros s. destruct (InitSeqScan_run columns rte scan_targets s) as (c' & E' & Hc'); try done.
  rewrite E in E'. injection E' as <-. exact Hc'.
Qed.

(** All the rows of a scan, until there is none. *)
Fixpoint scan_all (n : nat) (c : ScanState) : PM (list TblRow * ScanState) :=
  match n with
  | O => st_fault
  | S n =>
      '(row, c) ← ScanNext c;
      if (row : bool) then r ← st_lift (shows (scan_row c)); '(rs, c) ← scan_all n c; mret (r :: rs, c) else mret ([], c)
  end.

Lemma scan_all_from k : forall n c s, (length (rows_of groups) - k < n)%nat -> (k <= length (rows_of groups))%nat ->
  scan_stands s c k -> valid s ->
  exists c' s', scan_all n c s = Some ((drop k stored_rows, c'), s') /\ reads_to s s' /\ scan_ended c'.
Proof.
  intros n. revert k. induction n as [|n IH]; intros k c s Hf Hk Hc Hv; [lia|]. cbn [scan_all].
  pose proof (SeqscanNext_run c k s Hc Hv) as HS. destruct (rows_of groups !! k) as [vs|] eqn:Hn.
  - destruct HS as (c1 & s1 & E1 & Hs1 & Hc1 & Hsh).
    assert (ScanNext c s = Some ((true, c1), s1)) as E1' by exact E1. run E1'.
    assert (shows (scan_row c1) = Some (mkRowOf tbl rindex cols vs)) as Hsh' by exact Hsh. run (st_lift_run _ _ s1 Hsh').
    pose proof (lookup_lt_Some _ _ _ Hn).
    destruct (IH (S k) c1 s1) as (c2 & s2 & E2 & Hs2 & Hc2); [lia|lia|done|by eapply valid_reads|].
    run E2. exists c2, s2. split; [|split; [by eapply reads_to_trans|exact Hc2]].
    unfold stored_rows. rewrite <- !fmap_drop, (drop_S _ _ _ Hn). done.
  - apply lookup_ge_None in Hn. destruct HS as (c1 & s1 & E1 & Hs1 & Hc1).
    assert (ScanNext c s = Some ((false, c1), s1)) as E1' by exact E1. run E1'.
    exists c1, s1. split; [|split; [done|exact Hc1]]. rewrite drop_ge by (unfold stored_rows; by rewrite length_fmap). done.
Qed.

(** C9: a sequential scan delivers its table. The table has one group page; each of
    its groups has one page per column, with the rows of the group in order; the
    columns are scanned in the order of the table. Whatever the groups, the pages and
    the versions of the rows are then, a new scan delivers the visible rows of all
    groups - group by group, in page order, each with the version of every column the
    snapshot sees, a row with an invisible column left out - and then ends, without
    freeing a column twice. A scan of one column, rescanned after its end, delivers
    all of them again ([rescan_double_free]: with two columns the next call frees a
    column for the second time). The table's files are only read. *)
Theorem SeqScan_delivers_table n s : valid s -> (length stored_rows < n)%nat ->
  exists c c1 s1, ScanInit (Some rte) scan_targets = Some c /\
    scan_all n c s = Some ((stored_rows, c1), s1) /\ same_contents s s1 /\
    (length cols = 1%nat -> groups <> [] ->
      exists c2 s2 c3 s3, ScanReset c1 s1 = Some (c2, s2) /\
        scan_all n c2 s2 = Some ((stored_rows, c3), s3) /\ same_contents s s3).
Proof.
  intros Hv Hn. unfold stored_rows in Hn. rewrite length_fmap in Hn.
  destruct ScanInit_run as (c & E & Hc).
  destruct (scan_all_from 0 n c s) as (c1 & s1 & E1 & Hs1 & Hc1); [lia|lia|apply Hc|done|].
  pose proof (valid_reads _ _ Hv Hs1) as Hv1.
  exists c, c1, s1. split_and!; [done|exact E1|apply Hs1|]. intros H1 Hg.
  destruct (ExecReSeqScan_run c1 s1 (or_introl (conj Hc1 (conj H1 Hg)))) as (c2 & s2 & E2 & Hs2 & Hc2).
  destruct (scan_all_from 0 n c2 s2) as (c3 & s3 & E3 & Hs3 & Hc3); [lia|lia|done|by eapply valid_reads|].
  exists c2, s2, c3, s3. split_and!; [exact E2|exact E3|].
  eapply same_contents_trans; [apply Hs1|]. eapply same_contents_trans; [apply Hs2|apply Hs3].
Qed.

(** ** SELECT from the table *)

Section select_table.
Context {P : Type} `{Port P} `{!PortLaws P}.
Context (behind : list Z) (strs : Z -> option bytes) (behind_ok : (48 <= length behind)%nat).
Context (self : PNode) (rtable : RangTable) (targets : list TargetEntry) (quals : option (list PNode)).

Definition table_result : list (list TblRow) := List.filter (clause strs rtable quals) (single <$> stored_rows).

(** C8: a [SELECT] of one table, from the plan to the pages. The table has one page of
    groups, with one page per column in each; the scan reads columns in the order of the
    table, and the result columns are among them; the conditions of the [WHERE] clause are
    without [<] and unary signs and evaluate on every visible row ([clause_judged]); the
    portal takes the rows. Planned, initialised and executed over the sequential scan, the
    query sends to the portal the target columns of exactly the visible rows that satisfy
    the planned clause, in the order the groups and pages hold them, and counts them.
    (A scan of columns in another order walks past the members of the group:
    [GetGroupMemberPagesOpt_unordered].) *)
Theorem SELECT_from_table a i n (s : EState ScanState P) :
  targets <> [] -> is_Some rtable -> GetCellValueByIndex rtable i = Some rte ->
  (Nat.max 1 (length stored_rows) + 2 <= n)%nat -> valid (pages_of (ev s)) -> ev_ok strs (ev s) -> port_idle (portal s) ->
  Forall (clause_judged strs rtable quals) (single <$> stored_rows) ->
  Forall (fun row => projectable rtable targets row /\ sendable targets (project rtable targets row)) table_result ->
  exists s', ExecutorPlan behind n (subPlanSelectStmt self (select_query rtable targets quals [(a, i, scan_targets)])) s =
      Some (None, s') /\
    retCode s' = Z.of_nat (length table_result) /\
    port_shown (portal s) targets (project rtable targets <$> table_result) (portal s').
Proof.
  intros Htg Hrt Hi Hn Hv Hev Hidle Hj Hp.
  assert (product (fun _ => stored_rows) [a] = single <$> stored_rows) as Hprod.
  { unfold product, cross. simpl. rewrite app_nil_r. clear. induction stored_rows as [|r l IH]; [done|]. exact (f_equal (cons [r]) IH). }
  pose proof (select_rows_sent valid reads_to (ScannerLaws0 := seqscan_laws) behind strs (fun _ => stored_rows) rtable behind_ok self targets quals
    n [(a, i, scan_targets)] s) as HS.
  cbv zeta in HS. unfold result_rows in HS. cbn [fmap list_fmap fst snd] in HS. rewrite Hprod in HS. apply HS; try done.
  - apply NoDup_singleton.
  - left. simpl. lia.
  - apply Forall_singleton. destruct ScanInit_run as (c & E & Hc). exists c. rewrite Hi. split; [exact E|].
    intros pg. split; [done|]. split; [apply Hc|done].
  - unfold product_bound. simpl. lia.
Qed.
End select_table.
End table.

(** ** A concrete table

    Two columns in one group, three rows: the second was inserted by a transaction
    the snapshot does not see. *)

Definition stamp (xid : Z) (v : Z) : list Z := default [] (set_header (int_column v) (mkTuple xid INVALID_XTID CLEAN_XTID 0 (mkRowPos 0 0 0))).

Definition small_snapshot : option SnapShotInfo := Some (mkSnap 8 8 0 16 []).

Definition small_version (c : list Z) : option (list Z) :=
  h ← get_header c; if tmin h <? 8 then Some c else None.

(** Writes rows to a page that is empty. *)
Definition page_with (n : Z) (rows : list row) : list Z :=
  foldl (fun p r => match write_row p (Z.of_nat (length (r_bytes r))) [r_bytes r] (mkItem 0 0 (r_id r)) with
                    | Some (p, _, _) => p | None => p end) (page_no n) rows.

Definition row_with (id : Z) (bs : list Z) : row := mkRow (new_len 0 (Z.of_nat (length bs))) id bs.

Definition rows_a : list row := [row_with 1 (stamp 3 10); row_with 2 (stamp 8 11); row_with 3 (stamp 5 12)].
Definition rows_b : list row := [row_with 1 (stamp 3 20); row_with 2 (stamp 8 21); row_with 3 (stamp 5 22)].

Definition page_a : list Z := page_with 2 rows_a.
Definition page_b : list Z := page_with 3 rows_b.

(** The size of the item comes first where [WriteRowOnePage] reads it. *)
Definition group_bytes : list Z :=
  le 4 32 ++ le 4 1 ++ le 4 0 ++ le 4 2 ++ le 4 0 ++ le 4 1 ++ le 4 0 ++ le 4 3.
Definition group_item : row := row_with 1 group_bytes.
Definition page_g : list Z := page_with 2 [group_item].

Definition small_group : GroupData := mkGD group_item [(2, page_a, rows_a); (3, page_b, rows_b)] 3.

Definition small_contents (p : ptr) : option (list Z) :=
  if decide (p = (GROUP_FORK, 2)) then Some page_g else
  if decide (p = (MAIN_FORK, 2)) then Some page_a else
  if decide (p = (MAIN_FORK, 3)) then Some page_b else None.

Definition small_pages : gmap ptr (list Z) :=
  {[ (GROUP_FORK, 2) := page_g; (MAIN_FORK, 2) := page_a; (MAIN_FORK, 3) := page_b ]}.

Definition small_state : PageState := mkPS ∅ small_pages [] 0 0 0.

Ltac concrete_rep :=
  split; [by vm_compute|by vm_compute|by vm_compute|by vm_compute|..];
  [intros [|[|[|i]]] r Hr; try done; injection Hr as <-; by vm_compute
  |intros [|[|[|i]]] r Hr; try done; injection Hr as <-; by vm_compute
  |intros r Hr; repeat (apply elem_of_cons in Hr as [->|Hr]; [split; by vm_compute|]); by apply not_elem_of_nil in Hr].

Lemma page_a_rep : page_rep page_a rows_a.
Proof. concrete_rep. Qed.

Lemma page_b_rep : page_rep page_b rows_b.
Proof. concrete_rep. Qed.

Lemma page_g_rep : page_rep page_g [group_item].
Proof. concrete_rep. Qed.

Lemma small_valid : valid small_contents small_state.
Proof.
  intros p. unfold content, small_state, small_contents, small_pages. simpl. rewrite lookup_empty.
  destruct (decide (p = (GROUP_FORK, 2))) as [->|H1]; [by vm_compute|].
  destruct (decide (p = (MAIN_FORK, 2))) as [->|H2]; [by vm_compute|].
  destruct (decide (p = (MAIN_FORK, 3))) as [->|H3]; [by vm_compute|].
  by rewrite lookup_insert_ne, lookup_insert_ne, lookup_singleton_ne by congruence.
Qed.

Lemma small_visible r s : r ∈ rows_a ++ rows_b ->
  exists s', visible_column 9 small_snapshot 300 (r_bytes r) s = Some (small_version (r_bytes r), s') /\ reads_to s s'.
Proof.
  intros Hr. exists s. split; [|apply reads_to_refl].
  unfold rows_a, rows_b in Hr. cbn [app] in Hr.
  repeat (apply elem_of_cons in Hr as [->|Hr]; [by vm_compute|]). by apply not_elem_of_nil in Hr.
Qed.

Lemma small_readable r : r ∈ rows_a ++ rows_b -> Page.readable r.
Proof.
  intros Hr. unfold rows_a, rows_b in Hr. cbn [app] in Hr.
  repeat (apply elem_of_cons in Hr as [->|Hr]; [by split_and!; vm_compute|]). by apply not_elem_of_nil in Hr.
Qed.

Lemma small_group_ok : group_ok 9 small_snapshot 300 small_contents 2 [0; 1] small_version small_group.
Proof.
  split; [done| | |done|].
  - intros c Hc. assert (c = 0 \/ c = 1) as [->| ->] by lia; by vm_compute.
  - intros c Hc. assert (c = 0 \/ c = 1) as [->| ->] by lia; eexists; by split; [by vm_compute|].
  - intros [|[|k]] c Hc; try done; injection Hc as <-.
    + exists 2, page_a, rows_a. split; [done|]. split; [by vm_compute|]. split; [lia|]. split; [reflexivity|].
      split; [apply page_a_rep|]. split; [by eexists; vm_compute|]. split; [|split; [done|]].
      * apply Forall_forall. intros r Hr. apply small_readable. apply elem_of_app. by left.
      * apply Forall_forall. intros r Hr s _. apply small_visible. apply elem_of_app. by left.
    + exists 3, page_b, rows_b. split; [done|]. split; [by vm_compute|]. split; [lia|]. split; [reflexivity|].
      split; [apply page_b_rep|]. split; [by eexists; vm_compute|]. split; [|split; [done|]].
      * apply Forall_forall. intros r Hr. apply small_readable. apply elem_of_app. by right.
      * apply Forall_forall. intros r Hr s _. apply small_visible. apply elem_of_app. by right.
Qed.

Definition small_columns (tbl : Z) : list bytes := [[97]; [98]].
Definition small_targets : list TargetEntry := [mkTE 0 1 VT_INT [97] [97] None; mkTE 1 1 VT_INT [98] [98] None].
Definition small_rows : list TblRow :=
  [mkRowOf 77 1 [0; 1] [stamp 3 10; stamp 3 20]; mkRowOf 77 1 [0; 1] [stamp 5 12; stamp 5 22]].

Lemma small_stored : stored_rows [0; 1] small_version [small_group] 77 1 = small_rows.
Proof. by vm_compute. Qed.

Lemma small_up k c c' : [0; 1] !! k = Some c -> [0; 1] !! S k = Some c' -> c < c'.
Proof. destruct k as [|[|k]]; try done. intros [= <-] [= <-]. lia. Qed.

Lemma small_range : Forall (fun c => 0 <= c < Z.of_nat 2) [0; 1].
Proof. repeat (apply Forall_cons_2; [lia|]). apply Forall_nil_2. Qed.

Lemma small_groups_ok : Forall (group_ok 9 small_snapshot 300 small_contents 2 [0; 1] small_version) [small_group].
Proof. apply Forall_singleton, small_group_ok. Qed.

(** The scan of the first column alone. *)
Definition a_group : GroupData := mkGD group_item [(2, page_a, rows_a)] 3.
Definition a_target : list TargetEntry := [mkTE 0 1 VT_INT [97] [97] None].
Definition a_rows : list TblRow := [mkRowOf 77 1 [0] [stamp 3 10]; mkRowOf 77 1 [0] [stamp 5 12]].

Lemma a_groups_ok : Forall (group_ok 9 small_snapshot 300 small_contents 2 [0] small_version) [a_group].
Proof.
  apply Forall_singleton. destruct small_group_ok as [Hb Hm Hp _ Hc]. split; [exact Hb|exact Hm|exact Hp|done|].
  intros [|k] c Hk; [|done]. exact (Hc 0%nat c Hk).
Qed.

Lemma a_stored : stored_rows [0] small_version [a_group] 77 1 = a_rows.
Proof. by vm_compute. Qed.

Lemma a_up k c c' : [0] !! k = Some c -> [0] !! S k = Some c' -> c < c'.
Proof. by destruct k. Qed.

Lemma a_range : Forall (fun c => 0 <= c < Z.of_nat 2) [0].
Proof. by repeat constructor. Qed.

(** Two of the three rows are delivered, and of one column again after a rescan. *)
Lemma SeqScan_delivers_table_witness :
  (exists c c1 s1, InitSeqScan small_columns (Some (mkRTE 1 77)) small_targets = Some c /\
    scan_all 9 small_snapshot 300 small_columns 5 c small_state = Some ((small_rows, c1), s1)) /\
  (exists c c1 s1 c2 s2 c3 s3, InitSeqScan small_columns (Some (mkRTE 1 77)) a_target = Some c /\
    scan_all 9 small_snapshot 300 small_columns 5 c small_state = Some ((a_rows, c1), s1) /\
    ExecReSeqScan c1 s1 = Some (c2, s2) /\
    scan_all 9 small_snapshot 300 small_columns 5 c2 s2 = Some ((a_rows, c3), s3) /\ same_contents small_state s3).
Proof.
  split.
  - rewrite <- small_stored.
    destruct (SeqScan_delivers_table 9 small_snapshot 300 ltac:(lia) small_contents 2 [0; 1] ltac:(done) small_range small_up ltac:(lia)
      small_version page_g [small_group] ltac:(reflexivity) ltac:(reflexivity) page_g_rep ltac:(by vm_compute) small_groups_ok
      ltac:(simpl; lia) 77 1 small_columns (mkRTE 1 77) small_targets eq_refl eq_refl ltac:(lia) ltac:(done) eq_refl eq_refl
      5%nat small_state) as (c & c1 & s1 & Ei & Es & _); [apply small_valid|rewrite small_stored; simpl; lia|].
    exists c, c1, s1. split; [exact Ei|exact Es].
  - rewrite <- a_stored.
    destruct (SeqScan_delivers_table 9 small_snapshot 300 ltac:(lia) small_contents 2 [0] ltac:(done) a_range a_up ltac:(lia)
      small_version page_g [a_group] ltac:(reflexivity) ltac:(reflexivity) page_g_rep ltac:(by vm_compute) a_groups_ok
      ltac:(simpl; lia) 77 1 small_columns (mkRTE 1 77) a_target eq_refl eq_refl ltac:(lia) ltac:(done) eq_refl eq_refl
      5%nat small_state) as (c & c1 & s1 & Ei & Es & _ & Hre); [apply small_valid|rewrite a_stored; simpl; lia|].
    destruct Hre as (c2 & s2 & c3 & s3 & E2 & E3 & Hs); [reflexivity|done|].
    exists c, c1, s1, c2, s2, c3, s3. split; [exact Ei|]. split; [exact Es|]. split; [exact E2|]. split; [exact E3|exact Hs].
Defined.

(** The scan of both columns, rescanned after its end: the cell of the second column
    still points to the column that was freed before the last call, and the next call
    frees it again. *)
Lemma rescan_double_free :
  exists c c1 s1 c2 s2, InitSeqScan small_columns (Some (mkRTE 1 77)) small_targets = Some c /\
    scan_all 9 small_snapshot 300 small_columns 5 c small_state = Some ((small_rows, c1), s1) /\
    ExecReSeqScan c1 s1 = Some (c2, s2) /\ SeqscanNext 9 small_snapshot 300 c2 s2 = None.
Proof.
  do 5 eexists. split; [reflexivity|]. split; [vm_compute; reflexivity|]. split; [vm_compute; reflexivity|].
  eapply (SeqscanNext_freed 9 small_snapshot 300); [reflexivity| |].
  - apply (Nat.lt_succ_diag_r 1).
  - vm_compute. reflexivity.
Qed.

Definition small_eval : EvState := mkEv small_state {[ 8 := [97; 98; 0] ]} 100 zero_expr (OtherNode 1 0 0 0).

Lemma small_eval_ok : ev_ok strs0 small_eval.
Proof. destruct eval0_ok. by split. Qed.

Definition small_rtable : RangTable := Some [mkRTE 1 77].
Definition small_select : EState ScanState MemPort := mkES small_eval ∅ [] None None 0.

(** [SELECT a, b FROM t] *)
Lemma SELECT_from_table_witness :
  exists s', @ExecutorPlan _ _ (seqscan_scanner small_columns 9 small_snapshot 300) _ (replicate 48 0) 10
      (subPlanSelectStmt (OtherNode 1 0 0 0) (select_query small_rtable small_targets None [(101, 1, small_targets)]))
      small_select = Some (None, s') /\ retCode s' = 2 /\
    portal s' = [[Some (stamp 3 10); Some (stamp 3 20)]; [Some (stamp 5 12); Some (stamp 5 22)]].
Proof.
  destruct (SELECT_from_table 9 small_snapshot 300 ltac:(lia) small_contents 2 [0; 1] ltac:(done) small_range small_up ltac:(lia)
    small_version page_g [small_group] ltac:(reflexivity) ltac:(reflexivity) page_g_rep ltac:(by vm_compute) small_groups_ok
    ltac:(simpl; lia) 77 1 small_columns (mkRTE 1 77) small_targets eq_refl eq_refl ltac:(lia) ltac:(done) eq_refl eq_refl
    (replicate 48 0) strs0 ltac:(rewrite length_replicate; lia) (OtherNode 1 0 0 0) small_rtable
    small_targets None 101 1 10 small_select) as (s' & E & Hrc & Hse).
  - done.
  - by eexists.
  - done.
  - rewrite small_stored. simpl. lia.
  - apply small_valid.
  - apply small_eval_ok.
  - done.
  - by apply Forall_true.
  - assert (table_result [0; 1] small_version [small_group] 77 1 strs0 small_rtable None = single <$> small_rows) as ->
      by (unfold table_result; rewrite small_stored; reflexivity).
    unfold small_rows. cbn [fmap list_fmap]. repeat (apply Forall_cons_2 || apply Forall_nil_2); (split; [|exact I]);
      repeat (apply Forall_cons_2 || apply Forall_nil_2); eexists _, 52;
      (split; [vm_compute; reflexivity|split; [vm_compute; reflexivity|reflexivity]]).
  - exists s'. split; [exact E|]. unfold table_result in *. rewrite small_stored in *. split; [exact Hrc|exact Hse].
Defined.

(** ** Columns out of order

    The walk over the members looks for the columns in the order of the list and
    never goes back. *)

Section unordered.
Context (bs : list Z) (colNum : nat) (bs_len : length bs = (colNum * 16)%nat).
(** Each column has one page in the group. *)
Context (one_page : forall c, 0 <= c < Z.of_nat colNum ->
  load_i32 bs (c * 16 + 4) = Some 1 /\ exists n, load_i32 bs (c * 16 + 12) = Some n /\ n <> 0).

Lemma load_i32_past off : Z.of_nat (length bs) <= off -> load_i32 bs off = None.
Proof.
  intros Ho. unfold load_i32, load_u32, load. rewrite (proj2 (Z.leb_gt (off + 4) _)) by lia. by rewrite andb_false_r.
Qed.

(** Past the column it waits for, the walk leaves the members. *)
Lemma member_loop_leaves cols num sub ck : cols !! sub = Some ck -> forall f pl c n memNum s, ck < c -> 0 <= c < Z.of_nat colNum ->
  n <> 0 -> member_loop bs cols num f pl c sub n ((c + 1) * 16) memNum s = None.
Proof.
  intros Hck. induction f as [|f IH]; intros pl c n memNum s Hlt Hc Hn; [done|]. cbn [member_loop].
  rewrite decide_False by done. run (st_lift_run _ _ s Hck). rewrite decide_False by lia. run_refl. cbv beta iota.
  destruct (decide (c + 1 < Z.of_nat colNum)) as [Hc1|Hc1].
  - destruct (one_page (c + 1)) as (Hm & n2 & Hn2 & Hne); [lia|]. run (st_lift_run _ _ s Hm). run (st_lift_run _ _ s Hn2).
    replace ((c + 1) * 16 + 8 + 1 * 8) with ((c + 1 + 1) * 16) by lia. apply IH; [lia|lia|done].
  - unfold mbind at 1, ST_bind, st_lift. by rewrite load_i32_past by lia.
Qed.

(** The columns of a scan must be in the order of the table. When the target
    list names a column before or equal to the one it follows - [SELECT b, a] -
    the walk over the group's members has already passed that column: it goes on
    behind the last member and reads outside the group item. *)
Theorem GetGroupMemberPagesOpt_unordered fuel i c c' rest s g si s1 :
  GetGroupInfo fuel (si_groupPageInfo i) s = Some ((1, Some g, si), s1) -> gi_members g = bs ->
  length (si_groupItem i) = (colNum * 16)%nat ->
  si_colindexList i = c :: c' :: rest -> (2 <= si_pageListNum i)%nat -> 0 <= c < Z.of_nat colNum -> c' <= c ->
  (forall n, load_i32 bs (c * 16 + 12) = Some n -> exists p s2, GetPageByIndex n MAIN_FORK s1 = Some (Some p, s2)) ->
  GetGroupMemberPagesOpt fuel i s = None.
Proof.
  intros Eg Hbs Hitem Hcols Hnum Hc Hle Hpage. unfold GetGroupMemberPagesOpt. run Eg. rewrite Hbs.
  assert (store (si_groupItem i) 0 bs = Some bs) as Est by (apply store_whole; congruence).
  run (st_lift_run _ _ s1 Est). destruct (one_page 0) as (Hm & n & Hn & Hne); [lia|].
  run (st_lift_run _ _ s1 Hm). run (st_lift_run _ _ s1 Hn).
  change (8 + 1 * 8) with ((0 + 1) * 16). unfold with_group. cbn [si_colindexList si_pageListNum si_pageList].
  rewrite Hcols. unfold mbind at 1, ST_bind.
  enough (forall f pl d n memNum, 0 <= d <= c -> load_i32 bs (d * 16 + 12) = Some n ->
    member_loop bs (c :: c' :: rest) (si_pageListNum i) f pl d 0 n ((d + 1) * 16) memNum s1 = None) as -> by (done || lia).
  clear n Hn Hne Hm. intros f. induction f as [|f IH]; intros pl d n memNum Hd Hn; [done|]. cbn [member_loop].
  destruct (one_page d) as (_ & n' & Hn' & Hne); [lia|]. rewrite Hn in Hn'. injection Hn' as <-. rewrite decide_False by done.
  assert ((c :: c' :: rest) !! 0%nat = Some c) as H0 by done. run (st_lift_run _ _ s1 H0).
  destruct (decide (d = c)) as [->|Hdc].
  - destruct (Hpage n Hn) as (p & s2 & E2). erewrite st_bind_some; [|run E2; reflexivity]. cbv beta iota.
    rewrite bool_decide_eq_false_2 by lia. destruct (decide (c + 1 < Z.of_nat colNum)) as [Hc1|Hc1].
    + destruct (one_page (c + 1)) as (Hm & n2 & Hn2 & Hne2); [lia|]. run (st_lift_run _ _ s2 Hm). run (st_lift_run _ _ s2 Hn2).
      replace ((c + 1) * 16 + 8 + 1 * 8) with ((c + 1 + 1) * 16) by lia.
      apply (member_loop_leaves _ _ 1 c'); [done|lia|lia|done].
    + unfold mbind at 1, ST_bind, st_lift. by rewrite load_i32_past by lia.
  - run_refl. cbv beta iota. destruct (one_page (d + 1)) as (Hm & n2 & Hn2 & Hne2); [lia|].
    run (st_lift_run _ _ s1 Hm). run (st_lift_run _ _ s1 Hn2).
    replace ((d + 1) * 16 + 8 + 1 * 8) with ((d + 1 + 1) * 16) by lia. apply IH; [lia|done].
Qed.
End unordered.

Definition swapped_targets : list TargetEntry := reverse small_targets.
Definition swapped_info : ScanInfo :=
  default (mkInfo no_page [] [] [] [] [] 0 1) (InitScanPositionInfo (small_columns 77) 1 swapped_targets).

(** [SELECT b, a FROM t] without a condition scans [b, a]. *)
Lemma GetGroupMemberPagesOpt_unordered_witness :
  InitScanPositionInfo (small_columns 77) 1 swapped_targets = Some swapped_info /\
  GetGroupMemberPagesOpt 300 swapped_info small_state = None.
Proof.
  split; [reflexivity|].
  destruct (GetGroupInfo_run 300 ltac:(lia) small_contents 2 [0; 1] ltac:(lia) page_g [small_group] ltac:(reflexivity)
    ltac:(reflexivity) page_g_rep ltac:(by vm_compute) ltac:(simpl; lia) (si_groupPageInfo swapped_info) 0 small_state) as (it & rid & s1 & E1 & Hs1 & Hg1).
  - left. by vm_compute.
  - apply small_valid.
  - simpl. lia.
  - destruct (GetPageByIndex_reads s1 MAIN_FORK 3 page_b) as (s2 & E2 & _); [lia|by rewrite (valid_reads small_contents _ _ small_valid Hs1)|].
    assert (forall c, 0 <= c < Z.of_nat 2 -> load_i32 group_bytes (c * 16 + 4) = Some 1 /\
      exists n, load_i32 group_bytes (c * 16 + 12) = Some n /\ n <> 0) as Hone.
    { intros c Hc. assert (c = 0 \/ c = 1) as [->| ->] by lia; (split; [by vm_compute|eexists; by split; [vm_compute|]]). }
    refine (GetGroupMemberPagesOpt_unordered group_bytes 2 eq_refl Hone 300 swapped_info 1 0 [] small_state
      (mkGroup 2 it group_bytes) (mkSearch (Some (GROUP_FORK, 2)) (item_off 0) rid 2) s1 E1 eq_refl eq_refl eq_refl _ _ _ _);
      [simpl; lia|lia|lia|].
    intros n Hn. vm_compute in Hn. injection Hn as <-. by exists (MAIN_FORK, 3), s2.
Defined.

(** After the end of a scan its group page is [NULL] and its page number the last
    group page's: a rescan starts there, not at the first group page. *)
Lemma ExecReSeqScan_last_page c i s c' s' : ss_scanPostionInfo c = Some i -> sp_page (si_groupPageInfo i) = None ->
  ExecReSeqScan c s = Some (c', s') ->
  exists i', ss_scanPostionInfo c' = Some i' /\ si_groupPageInfo i' = si_groupPageInfo i.
Proof.
  intros Hi Hp. unfold ExecReSeqScan. run (st_lift_run _ _ s Hi). rewrite Hp. run_refl.
  unfold mbind, ST_bind. destruct (ReleasePageList _ _ _) as [[[l n] s1]|]; [|done].
  intros [= <- <-]. by eexists.
Qed.
