(* ===== verification/Query.v ===== *)
(** * Query analysis

    Models [src/src/sqlcore/plan/query.c]: the transformation of a parsed statement
    into a query tree - the range table of the [FROM] clause, the targets and the
    columns they name, the conditions of the [WHERE] clause as the trees the
    executor evaluates, and the tree of the tables to join. Lists are values here:
    [MergeList] shares the cells of its arguments, but the lists it extends that
    way are walked by their length or not again. The memory contexts and the log
    are left out; [NewNode] hands out addresses, as nodes are told apart by them. *)

From S2P Require Import Prelude Bytes Page PageStore DataTypes Express Plan.

(** ** Data: parserNode.h, tablecom.h *)

Record ColumnDefInfo := mkColDef { colName : bytes; cd_type : valueType; cd_attrIndex : Z }.

(** A parsed expression. [None] stands for the [NULL] the grammar leaves where it
    does not support something. *)
Inductive Node :=
  | N_ColumnRef (addr : Z) (field : bytes) (tableName : option bytes)
  | N_ConstValue (addr val : Z) (vt : valueType) (isnull : Z)
  | N_A_Expr (exprOpType : Op) (lexpr rexpr : option Node)
  | N_BoolExpr (boolop : Z) (args : list (option Node))
  | N_FunctionClause (addr : Z).

Record ResTarget := mkRes { res_name : option bytes; res_val : option Node; res_all : bool; res_setValue : option Node }.

Record RangeVar := mkRangeVar { relname : bytes; alias : option bytes }.

(** [NULL] lists are [None] where the code tells them from empty ones. *)
Record SelectStmt := mkSelect {
  ss_targetlist : option (list ResTarget); ss_fromList : option (list RangeVar); ss_whereList : option (list (option Node)) }.
Record InsertStmt := mkInsert {
  is_tableName : bytes; is_attrNameList : option (list bytes); is_valuesList : list (list Node) }.
Record UpdateStmt := mkUpdate {
  us_relation : RangeVar; us_targetlist : option (list ResTarget); us_fromList : option (list RangeVar);
  us_whereList : option (list (option Node)) }.
Record DeleteStmt := mkDelete {
  ds_relation : RangeVar; ds_fromList : option (list RangeVar); ds_whereList : option (list (option Node)) }.

Inductive Stmt :=
  | T_SelectStmt (s : SelectStmt) | T_InsertStmt (s : InsertStmt) | T_UpdateStmt (s : UpdateStmt)
  | T_DeleteStmt (s : DeleteStmt) | T_CreateStmt | T_DropStmt | T_TransactionStmt | T_Other.

(** ** Data: queryNode.h, query.h *)

Inductive RelationKind := RELKIND_COMMON | RELKIND_VALUES.

(** A [RangTblEntry] with the fields the analysis uses; [qr_relname] is the name in
    its [rangVar], the alias when there is one. *)
Record RTE := mkRTEntry {
  qr_relkind : RelationKind; qr_rindex : Z; qr_tblInfo : Z; qr_relname : option bytes;
  qr_targetList : list TargetEntry; qr_ValueList : option (list (list Node)); qr_isScaned : bool; qr_isNeeded : bool }.

Record QueryTree := mkQT {
  qt_commandType : CmdType;
  qt_queryId : Z;
  qt_targetList : list TargetEntry;
  qt_rtable : list RTE;
  qt_joinTree : list PNode;
  qt_qualTargetList : list TargetEntry;
  qt_rtjoinTree : list RtNode }.

(** [processState] is not 0 after an error. [next] is the address of the next node,
    [g_queryId] the counter of the queries. *)
Record QueryState := mkQS {
  querylevel : Z; isJoin : Z; rindex : Z; rtable : list RTE; parentTargetList : list TargetEntry;
  qualTargetList : list TargetEntry; processState : Z; next : Z; g_queryId : Z }.

Definition set_level (l : Z) (s : QueryState) := mkQS l (isJoin s) (rindex s) (rtable s) (parentTargetList s) (qualTargetList s) (processState s) (next s) (g_queryId s).
Definition set_rindex (r : Z) (s : QueryState) := mkQS (querylevel s) (isJoin s) r (rtable s) (parentTargetList s) (qualTargetList s) (processState s) (next s) (g_queryId s).
Definition set_rtable (l : list RTE) (s : QueryState) := mkQS (querylevel s) (isJoin s) (rindex s) l (parentTargetList s) (qualTargetList s) (processState s) (next s) (g_queryId s).
Definition set_parent (l : list TargetEntry) (s : QueryState) := mkQS (querylevel s) (isJoin s) (rindex s) (rtable s) l (qualTargetList s) (processState s) (next s) (g_queryId s).
Definition set_qual (l : list TargetEntry) (s : QueryState) := mkQS (querylevel s) (isJoin s) (rindex s) (rtable s) (parentTargetList s) l (processState s) (next s) (g_queryId s).
Definition set_failed (s : QueryState) := mkQS (querylevel s) (isJoin s) (rindex s) (rtable s) (parentTargetList s) (qualTargetList s) (-1) (next s) (g_queryId s).
Definition set_next (n : Z) (s : QueryState) := mkQS (querylevel s) (isJoin s) (rindex s) (rtable s) (parentTargetList s) (qualTargetList s) (processState s) n (g_queryId s).

Abbreviation QM := (ST QueryState).

Definition NewNode : QM Z := n ← st_gets next; st_modify (set_next (n + 1));; mret n.

(** [atomic_fetch_add] *)
Definition GetQueryId : QM Z := fun s =>
  Some (g_queryId s, mkQS (querylevel s) (isJoin s) (rindex s) (rtable s) (parentTargetList s) (qualTargetList s) (processState s) (next s)
                       (i32 (g_queryId s + 1))).

(** Equal to [strncmp] being 0 with [NAME_MAX_LEN]: names hold no zero byte. *)
Definition NAME_MAX_LEN : nat := 64.
Definition same_name (a b : bytes) : bool := bool_decide (take NAME_MAX_LEN a = take NAME_MAX_LEN b).

Section query.
(** The tables: what [GetTableInfo] finds under a name, and the columns of a table's
    definition. *)
Context (GetTableInfo : bytes -> option Z) (tableDef : Z -> list ColumnDefInfo).

(** [GetAttrDef]; the parser's names end with a zero byte, so [strcmp] is equality. *)
Definition GetAttrDef (tblInfo : Z) (attrName : bytes) : option ColumnDefInfo :=
  List.find (fun c => bool_decide (attrName = colName c)) (tableDef tblInfo).

Definition GetAttrIndexOf (tblInfo : Z) (attrName : bytes) : Z :=
  match list_find (fun c => attrName = colName c) (tableDef tblInfo) with Some (i, _) => Z.of_nat i | None => -1 end.

(** ** Lists of targets *)

Definition QueryRangTblTarget (targetList : list TargetEntry) (name : bytes) : option TargetEntry :=
  List.find (fun te => same_name name (te_label te)) targetList.

(** The first entry of that name decides. *)
Definition in_targets (targetList : list TargetEntry) (te : TargetEntry) : bool :=
  match QueryRangTblTarget targetList (te_label te) with Some r => bool_decide (te_rindex r = te_rindex te) | None => false end.

Definition MergetTargetList (target1 target2 : list TargetEntry) : list TargetEntry :=
  foldl (fun result te => if in_targets result te then result else result ++ [te]) target1 target2.

Definition GetTblTargetList (targetList : list TargetEntry) (r : Z) : list TargetEntry :=
  filter (fun te => r = te_rindex te) targetList.

Definition column_target (r : Z) (c : ColumnDefInfo) : TargetEntry :=
  mkTE (cd_attrIndex c) r (cd_type c) (colName c) (colName c) None.

(** [tblInfo] 0 is [NULL]. *)
Definition TargetRewriteAllColumnsOneRte (targetList : list TargetEntry) (rte : RTE) : list TargetEntry :=
  if decide (qr_tblInfo rte = 0) then targetList
  else targetList ++ (column_target (qr_rindex rte) <$> tableDef (qr_tblInfo rte)).

Definition mark (level : Z) (rte : RTE) : RTE :=
  mkRTEntry (qr_relkind rte) (qr_rindex rte) (qr_tblInfo rte) (qr_relname rte) (qr_targetList rte) (qr_ValueList rte)
    (if 1 <? level then true else qr_isScaned rte) (if 1 <? level then qr_isNeeded rte else true).

Definition with_targets (l : list TargetEntry) (rte : RTE) : RTE :=
  mkRTEntry (qr_relkind rte) (qr_rindex rte) (qr_tblInfo rte) (qr_relname rte) l (qr_ValueList rte) (qr_isScaned rte) (qr_isNeeded rte).

Definition TargetRewriteAllColumns (targetList : list TargetEntry) : QM (list TargetEntry) :=
  rt ← st_gets rtable;
  level ← st_gets querylevel;
  st_modify (set_rtable (mark level <$> rt));;
  mret (foldl TargetRewriteAllColumnsOneRte targetList rt).

(** ** Columns *)

(** Where in the range table the column is found, and its definition; none when it
    is found twice. *)
Fixpoint SearchColumDef_loop (rt : list RTE) (i : nat) (field : bytes) (tableName : option bytes)
    (first : option (nat * ColumnDefInfo)) : option (nat * ColumnDefInfo) :=
  match rt with
  | [] => first
  | rte :: rt =>
      if match tableName with
         | None => true
         | Some t => match qr_relname rte with Some n => same_name n t | None => false end
         end
      then match GetAttrDef (qr_tblInfo rte) field, first with
           | Some _, Some _ => None
           | Some col, None => SearchColumDef_loop rt (S i) field tableName (Some (i, col))
           | None, _ => SearchColumDef_loop rt (S i) field tableName first
           end
      else SearchColumDef_loop rt (S i) field tableName first
  end.

Definition SearchColumDef (rt : list RTE) (field : bytes) (tableName : option bytes) : option (nat * ColumnDefInfo) :=
  SearchColumDef_loop rt 0 field tableName None.

Definition AddRangTblTargetEntry (te : TargetEntry) (rte : RTE) : RTE :=
  if in_targets (qr_targetList rte) te then rte else with_targets (qr_targetList rte ++ [te]) rte.

(** A column reference or a target of one: [label] is the target's name. Nothing
    for a column that is not found, which is an error. *)
Definition TargetNodeProcess (field : bytes) (tableName label : option bytes) : QM (option TargetEntry) :=
  rt ← st_gets rtable;
  match SearchColumDef rt field tableName with
  | None => st_modify set_failed;; mret None
  | Some (i, col) =>
      rte ← st_lift (rt !! i);
      level ← st_gets querylevel;
      let te := mkTE (cd_attrIndex col) (qr_rindex rte) (cd_type col) field (default field label) None in
      st_modify (fun s => set_rindex (te_rindex te) (set_rtable (<[i := mark level (AddRangTblTargetEntry te rte)]> rt) s));;
      mret (Some te)
  end.

(** ** Conditions *)

(** A child of an operator before its columns are looked up. *)
Inductive Child := C_Column (addr : Z) (field : bytes) (tableName : option bytes) | C_Node (n : PNode).

(** The targets a child needs, and the child with its column found. A column that
    is not found keeps the zeros of its allocation. *)
Definition SubExprNodeTargetProcess (n : option Child) : QM (list TargetEntry * option PNode) :=
  match n with
  | Some (C_Column addr field tableName) =>
      te ← TargetNodeProcess field tableName None;
      match te with
      | Some te => mret ([te], Some (ColumnRef addr (te_vt te) (te_attrIndex te)))
      | None => mret ([], Some (ColumnRef addr VT_UNKNOWN 0))
      end
  | Some (C_Node p) => mret ([], Some p)
  | None => mret ([], None)
  end.

Definition SimpleExprNodeProcess (addr : Z) (op : Op) (l r : option Child) : QM PNode :=
  oriTargetList ← st_gets qualTargetList;
  st_modify (set_qual []);;
  '(ltargets, l) ← SubExprNodeTargetProcess l;
  lrindex ← (match ltargets with [] => mret (-1) | _ => st_gets rindex end);
  st_modify (set_qual []);;
  '(rtargets, r) ← SubExprNodeTargetProcess r;
  rrindex ← (match rtargets with [] => mret (-1) | _ => st_gets rindex end);
  let targets := match rtargets with [] => ltargets | _ => MergetTargetList ltargets rtargets end in
  st_modify (set_qual (MergetTargetList oriTargetList targets));;
  mret (if decide (lrindex < 0 /\ rrindex < 0) then ExprEntry addr 0 0 op l r
        else if decide (lrindex < 0) then ExprEntry addr rrindex 0 op r l
        else if decide (rrindex < 0 \/ lrindex = rrindex) then ExprEntry addr lrindex 0 op l r
        else ExprEntry addr lrindex rrindex op l r).

(** The arguments of the functions below are the calls of [QualNodeProcess] on the
    children. There must be two under [AND], [OR] and [NOT]. *)
Definition MergerNodeProcess (boolop : Z) (args : list (QM (option PNode))) : QM PNode :=
  qual ← st_gets qualTargetList;
  st_modify (set_qual []);;
  addr ← NewNode;
  first ← st_lift (args !! 0%nat);
  l ← first;
  second ← st_lift (args !! 1%nat);
  r ← second;
  j ← st_gets isJoin;
  st_modify (fun s => set_qual (qual ++ qualTargetList s) s);;
  mret (MergerEntry addr (-1) j boolop l r).

(** A column or a constant is left to [SimpleExprNodeProcess]. *)
Definition ExprChild (processed : QM (option PNode)) (n : Node) : QM (option Child) :=
  match n with
  | N_ColumnRef addr field tableName => mret (Some (C_Column addr field tableName))
  | N_ConstValue addr v vt k => mret (Some (C_Node (ConstValue addr v vt k)))
  | _ => p ← processed; mret (C_Node <$> p)
  end.

Definition ExprNodeProcess (op : Op) (l r : option (Node * QM (option PNode))) : QM (option PNode) :=
  match l, r with
  | Some (l, pl), Some (r, pr) =>
      l ← ExprChild pl l;
      r ← ExprChild pr r;
      addr ← NewNode;
      p ← SimpleExprNodeProcess addr op l r;
      mret (Some p)
  | _, _ => mret None
  end.

(** Other nodes are taken as they are. *)
Fixpoint process_node (n : Node) : QM (option PNode) :=
  match n with
  | N_BoolExpr boolop args =>
      p ← MergerNodeProcess boolop (List.map (fun o => match o with Some n => process_node n | None => mret None end) args);
      mret (Some p)
  | N_A_Expr op l r =>
      ExprNodeProcess op (match l with Some n => Some (n, process_node n) | None => None end)
        (match r with Some n => Some (n, process_node n) | None => None end)
  | N_ColumnRef addr _ _ => mret (Some (ColumnRef addr VT_UNKNOWN 0))
  | N_ConstValue addr v vt k => mret (Some (ConstValue addr v vt k))
  | N_FunctionClause addr => mret (Some (OtherNode addr 0 0 0))
  end.

Definition QualNodeProcess (n : option Node) : QM (option PNode) :=
  match n with Some n => process_node n | None => mret None end.

Fixpoint QueryJoinTransform (qual : list (option Node)) : QM (list PNode) :=
  match qual with
  | [] => mret []
  | n :: qual =>
      p ← QualNodeProcess n;
      joinTree ← QueryJoinTransform qual;
      mret (option_list p ++ joinTree)
  end.

(** ** The target list *)

Definition with_setValue (v : option PNode) (te : TargetEntry) : TargetEntry :=
  mkTE (te_attrIndex te) (te_rindex te) (te_vt te) (te_name te) (te_label te) v.

(** Stops at a target that is not a column. The new value of a target is processed
    after it is added; [*] has none. *)
Fixpoint ProcessCheckTargetList (targets : list ResTarget) (done : list TargetEntry) : QM (list TargetEntry) :=
  match targets with
  | [] => mret done
  | t :: targets =>
      match res_val t with
      | Some (N_ColumnRef _ field tableName) =>
          te ← TargetNodeProcess field tableName (res_name t);
          match te with
          | None => mret done
          | Some te =>
              v ← (match res_setValue t with Some v => QualNodeProcess (Some v) | None => mret None end);
              ProcessCheckTargetList targets (done ++ [with_setValue v te])
          end
      | Some _ => mret done
      | None =>
          if res_all t then
            done ← TargetRewriteAllColumns done;
            (match res_setValue t with Some v => QualNodeProcess (Some v) | None => mret None end);;
            ProcessCheckTargetList targets done
          else mret []
      end
  end.

(** [NULL] for an empty name list: all columns. Stops at an unknown column. *)
Definition insert_target (name : bytes) : TargetEntry := mkTE 0 1 VT_UNKNOWN name [] None.

Fixpoint ProcessAttrList_loop (tblInfo : Z) (attrs : list bytes) : list TargetEntry :=
  match attrs with
  | [] => []
  | a :: attrs => if decide (GetAttrIndexOf tblInfo a < 0) then [] else insert_target a :: ProcessAttrList_loop tblInfo attrs
  end.

Definition ProcessAttrList (tblInfo : Z) (attrList : option (list bytes)) : list TargetEntry :=
  match attrList with
  | None => insert_target ∘ colName <$> tableDef tblInfo
  | Some attrs => ProcessAttrList_loop tblInfo attrs
  end.

(** ** The range table *)

Definition GetRangTblNode (tableName : bytes) : option RTE :=
  t ← GetTableInfo tableName;
  if decide (t = 0) then None else Some (mkRTEntry RELKIND_COMMON 0 t None [] None false false).

(** The entry of a table of that index, under its alias. *)
Definition named (r : Z) (v : RangeVar) (rte : RTE) : RTE :=
  mkRTEntry (qr_relkind rte) r (qr_tblInfo rte) (Some (default (relname v) (alias v))) (qr_targetList rte) (qr_ValueList rte)
    (qr_isScaned rte) (qr_isNeeded rte).

(** [None] when a table is not found: the index is not moved then. *)
Fixpoint RangTbl_loop (fromList : list RangeVar) (r : Z) : option (list RTE * Z) :=
  match fromList with
  | [] => Some ([], r)
  | v :: fromList =>
      rte ← GetRangTblNode (relname v);
      '(rest, r') ← RangTbl_loop fromList (i32 (r + 1));
      Some (named r v rte :: rest, r')
  end.

Definition RangTblRewriteFromClause (fromList : list RangeVar) : QM (option (list RTE)) :=
  r ← st_gets rindex;
  match RangTbl_loop fromList r with
  | None => mret None
  | Some (rt, r) => st_modify (set_rindex r);; mret (Some rt)
  end.

Definition RangTblRewriteValuseClause (valuesList : list (list Node)) : QM unit :=
  st_modify (fun s => set_rindex (rindex s + 1) s);;
  st_modify (fun s =>
    set_rtable (rtable s ++ [mkRTEntry RELKIND_VALUES (rindex s) 0 None (parentTargetList s) (Some valuesList) false false]) s).

(** The columns of a table to scan: those of the conditions first, else those of
    the target list, else all. *)
Definition scan_targets (qualtargets targets : list TargetEntry) (rte : RTE) : list TargetEntry :=
  if qr_isScaned rte then GetTblTargetList qualtargets (qr_rindex rte)
  else if qr_isNeeded rte then GetTblTargetList targets (qr_rindex rte)
  else TargetRewriteAllColumnsOneRte (qr_targetList rte) rte.

Fixpoint CommonQueryTransform_loop (rt : list RTE) (joinTree : list RtNode) : QM (list RTE * list RtNode) :=
  match rt with
  | [] => mret ([], joinTree)
  | rte :: rt =>
      targets ← st_gets parentTargetList;
      qualtargets ← st_gets qualTargetList;
      let rte := with_targets (scan_targets qualtargets targets rte) rte in
      addr ← NewNode;
      '(rt, joinTree) ← CommonQueryTransform_loop rt (AddJoinTblNode joinTree addr (qr_rindex rte) (qr_targetList rte));
      mret (rte :: rt, joinTree)
  end.

Definition CommonQueryTransform : QM (list RtNode) :=
  rt ← st_gets rtable;
  targets ← st_gets parentTargetList;
  match targets with
  | [] => mret []
  | _ =>
      '(rt, joinTree) ← CommonQueryTransform_loop rt [];
      st_modify (set_rtable rt);; mret joinTree
  end.

(** ** Statements *)

(** [AllocMem] of the query state; the addresses and the counter go on. *)
Definition FIRST_RANGTABLE_INDEX : Z := 1.
Definition new_state : QM unit := st_modify (fun s => mkQS 1 0 FIRST_RANGTABLE_INDEX [] [] [] 0 (next s) (g_queryId s)).

(** The conditions, the tree of the tables and the query; [NULL] after an error. *)
Definition transform_rest (cmd : CmdType) (id : Z) (whereList : option (list (option Node))) : QM (option QueryTree) :=
  st_modify (set_level 2);;
  st_modify (set_qual []);;
  joinTree ← (match whereList with Some w => QueryJoinTransform w | None => mret [] end);
  rtjoinTree ← CommonQueryTransform;
  s ← st_get;
  mret (if decide (processState s = 0) then
          Some (mkQT cmd id (parentTargetList s) (rtable s) joinTree
                  (match whereList with Some _ => qualTargetList s | None => [] end) rtjoinTree)
        else None).

Definition transformSelectStmt (stmt : SelectStmt) : QM (option QueryTree) :=
  id ← GetQueryId;
  new_state;;
  rt ← (match ss_fromList stmt with Some l => RangTblRewriteFromClause l | None => mret None end);
  match rt with
  | None => mret None
  | Some rt =>
      st_modify (set_rtable rt);;
      targets ← (match ss_targetlist stmt with Some l => ProcessCheckTargetList l [] | None => mret [] end);
      st_modify (set_parent targets);;
      transform_rest CMD_SELECT id (ss_whereList stmt)
  end.

Definition transformInsertStmt (stmt : InsertStmt) : QM (option QueryTree) :=
  id ← GetQueryId;
  new_state;;
  match GetRangTblNode (is_tableName stmt) with
  | None => mret None
  | Some rte =>
      r ← st_gets rindex;
      st_modify (set_rindex (r + 1));;
      let targets := ProcessAttrList (qr_tblInfo rte) (is_attrNameList stmt) in
      let rte := mkRTEntry RELKIND_COMMON r (qr_tblInfo rte) None targets None false false in
      st_modify (set_parent targets);;
      st_modify (set_rtable [rte]);;
      RangTblRewriteValuseClause (is_valuesList stmt);;
      rt ← st_gets rtable;
      mret (Some (mkQT CMD_INSERT id targets rt [] [] []))
  end.

(** The table that is changed comes first in the range table, after the tables of
    the [FROM] clause in the numbering. *)
Definition main_entry (relation : RangeVar) : QM (option RTE) :=
  match GetRangTblNode (relname relation) with
  | None => mret None
  | Some rte => r ← st_gets rindex; st_modify (set_rindex (i32 (r + 1)));; mret (Some (named r relation rte))
  end.

Definition from_entries (fromList : option (list RangeVar)) : QM (list RTE) :=
  match fromList with Some l => rt ← RangTblRewriteFromClause l; mret (default [] rt) | None => mret [] end.

Definition transformUpdateStmt (stmt : UpdateStmt) : QM (option QueryTree) :=
  id ← GetQueryId;
  new_state;;
  from ← from_entries (us_fromList stmt);
  main ← main_entry (us_relation stmt);
  match main with
  | None => mret None
  | Some rte =>
      st_modify (set_rtable (rte :: from));;
      targets ← (match us_targetlist stmt with Some l => ProcessCheckTargetList l [] | None => mret [] end);
      st_modify (set_parent targets);;
      transform_rest CMD_UPDATE id (us_whereList stmt)
  end.

Definition transformDeleteStmt (stmt : DeleteStmt) : QM (option QueryTree) :=
  id ← GetQueryId;
  new_state;;
  from ← from_entries (ds_fromList stmt);
  main ← main_entry (ds_relation stmt);
  match main with
  | None => mret None
  | Some rte =>
      st_modify (set_rtable [rte]);;
      targets ← TargetRewriteAllColumns [];
      st_modify (set_parent targets);;
      st_modify (fun s => set_rtable (rtable s ++ from) s);;
      transform_rest CMD_DELETE id (ds_whereList stmt)
  end.

(** [transformUtilityStmt] makes a query without lists. *)
Definition transformUtilityStmt : QM (option QueryTree) :=
  id ← GetQueryId; mret (Some (mkQT CMD_UTILITY id [] [] [] [] [])).

Definition transformStmt (stmt : Stmt) : QM (option QueryTree) :=
  match stmt with
  | T_SelectStmt s => transformSelectStmt s
  | T_InsertStmt s => transformInsertStmt s
  | T_UpdateStmt s => transformUpdateStmt s
  | T_DeleteStmt s => transformDeleteStmt s
  | T_CreateStmt | T_DropStmt | T_TransactionStmt => transformUtilityStmt
  | T_Other => mret None
  end.

(** [NULL] when one statement has no query. *)
Fixpoint QueryAnalyzeAndRewrite (parserTree : list Stmt) : QM (option (list QueryTree)) :=
  match parserTree with
  | [] => mret (Some [])
  | stmt :: parserTree =>
      q ← transformStmt stmt;
      match q with
      | None => mret None
      | Some q => qs ← QueryAnalyzeAndRewrite parserTree; mret (cons q <$> qs)
      end
  end.

End query.

(** The query as the planner reads it. *)
Definition plan_query (q : QueryTree) : Plan.Query :=
  let list_or_null {A} (l : list A) := match l with [] => None | _ => Some l end in
  mkQuery (qt_commandType q) (list_or_null ((fun e => mkRTE (qr_rindex e) (qr_tblInfo e)) <$> qt_rtable q))
    (list_or_null (qt_rtjoinTree q)) (list_or_null (qt_joinTree q)) (list_or_null (qt_targetList q)).

(** ** What the analysis leaves alone

    The tables of the range table keep their place, index and name; only their
    target lists and marks change. *)

Definition rte_core (e : RTE) : RelationKind * Z * Z * option bytes := (qr_relkind e, qr_rindex e, qr_tblInfo e, qr_relname e).

Definition same_tables (rt rt' : list RTE) : Prop := rte_core <$> rt = rte_core <$> rt'.

#[export] Instance same_tables_equiv : Equivalence same_tables.
Proof. unfold same_tables. split; intros ?; congruence. Qed.

Lemma same_tables_lookup rt rt' i e : same_tables rt rt' -> rt !! i = Some e -> exists e', rt' !! i = Some e' /\ rte_core e' = rte_core e.
Proof.
  intros H Hi. assert ((rte_core <$> rt) !! i = Some (rte_core e)) as H1 by (by rewrite list_lookup_fmap, Hi).
  rewrite H, list_lookup_fmap in H1. destruct (rt' !! i) as [e'|]; [|done]. exists e'. split; [done|]. by apply (inj Some).
Qed.

Lemma same_tables_insert rt i e e' : rt !! i = Some e -> rte_core e' = rte_core e -> same_tables rt (<[i := e']> rt).
Proof.
  intros Hi He. unfold same_tables. rewrite list_fmap_insert, He, <- (list_insert_id (rte_core <$> rt) i (rte_core e)) at 1; [done|].
  by rewrite list_lookup_fmap, Hi.
Qed.

Lemma core_mark l e : rte_core (mark l e) = rte_core e.
Proof. done. Qed.

Lemma core_add te e : rte_core (AddRangTblTargetEntry te e) = rte_core e.
Proof. unfold AddRangTblTargetEntry. by destruct (in_targets _ _). Qed.

Lemma core_with_targets l e : rte_core (with_targets l e) = rte_core e.
Proof. done. Qed.

(** ** Finding columns *)

Section analysis.
Context (GetTableInfo : bytes -> option Z) (tableDef : Z -> list ColumnDefInfo).

Abbreviation process := (process_node tableDef).

Lemma SearchColumDef_loop_same rt rt' i f t first : same_tables rt rt' ->
  SearchColumDef_loop tableDef rt i f t first = SearchColumDef_loop tableDef rt' i f t first.
Proof.
  unfold same_tables. revert rt' i first. induction rt as [|e rt IH]; intros [|e' rt'] i first H; try done.
  injection H as Hk Hr Hn Hl Hrt. simpl. rewrite Hn, Hl.
  destruct (match t with None => true | Some _ => _ end); [|by apply IH].
  destruct (GetAttrDef tableDef (qr_tblInfo e') f), first; (done || by apply IH).
Qed.

Lemma SearchColumDef_same rt rt' f t : same_tables rt rt' -> SearchColumDef tableDef rt f t = SearchColumDef tableDef rt' f t.
Proof. apply SearchColumDef_loop_same. Qed.

Lemma SearchColumDef_loop_found rt i f t first j c : SearchColumDef_loop tableDef rt i f t first = Some (j, c) ->
  first = Some (j, c) \/ exists k e, j = (i + k)%nat /\ rt !! k = Some e /\ GetAttrDef tableDef (qr_tblInfo e) f = Some c.
Proof.
  revert i first. induction rt as [|e rt IH]; intros i first; simpl; [by left|].
  assert (forall first', (first' = first \/ exists c', first' = Some (i, c') /\ GetAttrDef tableDef (qr_tblInfo e) f = Some c') ->
    SearchColumDef_loop tableDef rt (S i) f t first' = Some (j, c) ->
    first = Some (j, c) \/ exists k e0, j = (i + k)%nat /\ (e :: rt) !! k = Some e0 /\ GetAttrDef tableDef (qr_tblInfo e0) f = Some c) as Hgo.
  { intros first' Hf Hs. destruct (IH _ _ Hs) as [Hj|(k & e0 & -> & Hk & Hc)].
    - destruct Hf as [->|(c' & -> & Hc')]; [by left|]. injection Hj as <- <-. right. exists 0%nat, e. split_and!; [lia|done|done].
    - right. exists (S k), e0. split_and!; [lia|done|done]. }
  destruct (match t with None => true | Some _ => _ end); [|apply Hgo; by left].
  destruct (GetAttrDef tableDef (qr_tblInfo e) f) as [c'|] eqn:Hc; [|apply Hgo; by left].
  destruct first as [x|]; [done|]. apply Hgo. right. by exists c'.
Qed.

Lemma SearchColumDef_found rt f t i c : SearchColumDef tableDef rt f t = Some (i, c) ->
  exists e, rt !! i = Some e /\ GetAttrDef tableDef (qr_tblInfo e) f = Some c.
Proof. intros H. apply SearchColumDef_loop_found in H as [H|(k & e & -> & Hk & Hc)]; [done|]. by exists e. Qed.

(** The target entry of a column. *)
Definition column_te (rt : list RTE) (f : bytes) (t label : option bytes) : option TargetEntry :=
  '(i, c) ← SearchColumDef tableDef rt f t; e ← rt !! i;
  Some (mkTE (cd_attrIndex c) (qr_rindex e) (cd_type c) f (default f label) None).

Lemma column_te_same rt rt' f t label : same_tables rt rt' -> column_te rt f t label = column_te rt' f t label.
Proof.
  intros H. unfold column_te. rewrite (SearchColumDef_same rt rt') by done.
  destruct (SearchColumDef tableDef rt' f t) as [[i c]|]; [|done]. cbn [mbind option_bind].
  destruct (rt !! i) as [e|] eqn:Hi.
  - destruct (same_tables_lookup _ _ _ _ H Hi) as (e' & -> & He). injection He as _ Hr _ _. cbn. by rewrite Hr.
  - destruct (rt' !! i) as [e'|] eqn:Hi'; [|done].
    destruct (same_tables_lookup _ _ _ _ (symmetry H) Hi') as (e & Hi2 & _). congruence.
Qed.

(** A step of the analysis: what it needs of the state stays. *)
Record step (s s' : QueryState) : Prop := {
  st_tables : same_tables (rtable s) (rtable s');
  st_state : processState s' = processState s;
  st_level : querylevel s' = querylevel s;
  st_join : isJoin s' = isJoin s;
  st_parent : parentTargetList s' = parentTargetList s;
  st_next : next s <= next s' }.

Lemma step_refl s : step s s.
Proof. split; done || (simpl; lia). Qed.

Lemma step_trans s1 s2 s3 : step s1 s2 -> step s2 s3 -> step s1 s3.
Proof. intros [] []. split; first [congruence|by etrans|lia]. Qed.

Lemma step_qual s l : step s (set_qual l s).
Proof. split; done || (simpl; lia). Qed.

Lemma NewNode_run s : exists s', NewNode s = Some (next s, s') /\ step s s' /\ qualTargetList s' = qualTargetList s /\ next s' = next s + 1.
Proof. eexists. split; [reflexivity|]. split_and!; try done. split; done || (simpl; lia). Qed.

Lemma TargetNodeProcess_run f t label te s : column_te (rtable s) f t label = Some te ->
  exists s', TargetNodeProcess tableDef f t label s = Some (Some te, s') /\ step s s' /\ rindex s' = te_rindex te /\
    qualTargetList s' = qualTargetList s.
Proof.
  unfold column_te. destruct (SearchColumDef tableDef (rtable s) f t) as [[i c]|] eqn:Hs; [|done]. cbn [mbind option_bind].
  destruct (rtable s !! i) as [e|] eqn:Hi; [|done]. intros [= <-].
  unfold TargetNodeProcess. run_refl. rewrite Hs. run (st_lift_run _ _ s Hi). run_refl. eexists. split; [reflexivity|].
  split; [|done]. split; first [done|simpl; lia|idtac]. simpl. eapply same_tables_insert; [done|]. by rewrite core_mark, core_add.
Qed.

(** A column that is not found fails the query. *)
Lemma TargetNodeProcess_missing f t label s : SearchColumDef tableDef (rtable s) f t = None ->
  TargetNodeProcess tableDef f t label s = Some (None, set_failed s).
Proof. intros H. unfold TargetNodeProcess. run_refl. by rewrite H. Qed.

(** ** The meaning of a parsed condition *)

Definition symmetric (op : Op) : bool := bool_decide (op = EQUAL \/ op = NOT_EQUAL \/ op = PLUS \/ op = MULTIPLE).

Lemma Node_ind' (P : Node -> Prop) :
  (forall a f t, P (N_ColumnRef a f t)) -> (forall a v vt k, P (N_ConstValue a v vt k)) ->
  (forall op l r, (forall x, l = Some x -> P x) -> (forall x, r = Some x -> P x) -> P (N_A_Expr op l r)) ->
  (forall b args, Forall (fun o => forall x, o = Some x -> P x) args -> P (N_BoolExpr b args)) ->
  (forall a, P (N_FunctionClause a)) -> forall n, P n.
Proof.
  intros Hc Hk He Hb Hf. fix IH 1. intros [a f t|a v vt k|op l r|b args|a]; [apply Hc|apply Hk| | |apply Hf].
  - apply He; intros x Hx; [destruct l|destruct r]; try discriminate; injection Hx as <-; apply IH.
  - apply Hb. induction args as [|o args IHl]; [apply Forall_nil_2|]. apply Forall_cons_2; [|exact IHl].
    intros x Hx. destruct o; [|discriminate]. injection Hx as <-. apply IH.
Qed.

Section sem.
(** The range table, the rows it is evaluated on and the meaning of operators. *)
Context (rt : list RTE) (rtb : RangTable) (row : option ScanTableRowData) (strs : Z -> option bytes).
Context (isem : Op -> Z -> Z -> option Z) (ssem : Op -> bytes -> bytes -> option bool).
Context (isem_sym : forall op a b, symmetric op = true -> isem op a b = isem op b a)
  (ssem_sym : forall op a b, symmetric op = true -> ssem op a b = ssem op b a).
Context (index_ok : Forall (fun e => 0 <= qr_rindex e) rt).

(** The value of a column is that of the table its name is found in. *)
Fixpoint sem (n : Node) : option value :=
  match n with
  | N_ColumnRef _ f t => te ← column_te rt f t None; column rtb row (te_rindex te) (te_vt te) (te_attrIndex te)
  | N_ConstValue _ v vt _ => constant strs v vt
  | N_A_Expr op (Some l) (Some r) => a ← sem l; b ← sem r; apply_op isem ssem op a b
  | N_BoolExpr boolop (Some l :: Some r :: _) => a ← sem l; b ← sem r; Some (VI (Z.b2z (bool_op boolop a b)))
  | _ => None
  end.

Definition node_te (n : Node) : option TargetEntry :=
  match n with N_ColumnRef _ f t => column_te rt f t None | _ => None end.

Definition is_column (n : Node) : bool := match n with N_ColumnRef _ _ _ => true | _ => false end.

(** Which sides of an operator the analysis keeps the meaning of: columns of two
    tables, a column on the left, no column, or a column on the right of an
    operator that does not tell its sides apart. *)
Definition sides_ok (op : Op) (l r : Node) : bool :=
  match node_te l, node_te r with
  | Some a, Some b => negb (bool_decide (te_rindex a = te_rindex b))
  | None, Some _ => symmetric op
  | _, None => true
  end.

Fixpoint well_placed (n : Node) : bool :=
  let child (n : Node) := if is_column n then bool_decide (is_Some (node_te n)) else well_placed n in
  match n with
  | N_ConstValue _ _ _ _ => true
  | N_A_Expr op (Some l) (Some r) => sides_ok op l r && child l && child r
  | N_BoolExpr _ (Some l :: Some r :: _) => well_placed l && well_placed r
  | _ => false
  end.

Definition child_placed (n : Node) : bool := if is_column n then bool_decide (is_Some (node_te n)) else well_placed n.

Abbreviation den := (denote rtb row strs isem ssem).

Lemma apply_op_sym op a b : symmetric op = true -> apply_op isem ssem op a b = apply_op isem ssem op b a.
Proof. intros H. destruct a, b; simpl; try done; [by rewrite isem_sym|by rewrite ssem_sym]. Qed.

(** [n] is processed to a tree of its meaning. *)
Definition processed (n : Node) : Prop := well_placed n = true -> forall s, same_tables rt (rtable s) ->
  exists p s', process n s = Some (Some p, s') /\ step s s' /\ forall ri, den p ri = sem n.

Definition child_is (n : Node) (c : Child) : Prop :=
  match n with N_ColumnRef a f t => c = C_Column a f t | _ => exists p, c = C_Node p /\ forall ri, den p ri = sem n end.

Lemma ExprChild_run n s : processed n -> child_placed n = true -> same_tables rt (rtable s) ->
  exists c s', ExprChild (process n) n s = Some (Some c, s') /\ step s s' /\ child_is n c.
Proof.
  intros IH Hp Ht. unfold child_placed in Hp.
  destruct n as [a f t|a v vt k|op l r|b args|a]; cbn [is_column] in Hp; try done.
  - eexists _, s. split; [reflexivity|]. split; [apply step_refl|done].
  - eexists _, s. split; [reflexivity|]. split; [apply step_refl|]. by eexists.
  - destruct (IH Hp s Ht) as (p & s' & E & Hs & Hd). exists (C_Node p), s'. cbn [ExprChild]. run E. split_and!; [done|done|by exists p].
  - destruct (IH Hp s Ht) as (p & s' & E & Hs & Hd). exists (C_Node p), s'. cbn [ExprChild]. run E. split_and!; [done|done|by exists p].
Qed.

Lemma SubExpr_run n c s : child_is n c -> child_placed n = true -> same_tables rt (rtable s) ->
  exists p s', SubExprNodeTargetProcess tableDef (Some c) s = Some ((option_list (node_te n), Some p), s') /\ step s s' /\
    qualTargetList s' = qualTargetList s /\
    match node_te n with Some te => rindex s' = te_rindex te /\ den p (te_rindex te) = sem n | None => forall ri, den p ri = sem n end.
Proof.
  intros Hc Hp Ht. destruct n as [a f t|a v vt k|op l r|b args|a]; try done.
  2-4: destruct Hc as (p & -> & Hd); exists p, s; split_and!; [done|apply step_refl|done|exact Hd].
  simpl in Hc. subst c. unfold child_placed in Hp. cbn [is_column node_te] in *. apply bool_decide_eq_true in Hp as [te Hte].
  destruct (TargetNodeProcess_run f t None te s) as (s' & E & Hs & Hr & Hq); [by rewrite <- (column_te_same rt)|].
  exists (ColumnRef a (te_vt te) (te_attrIndex te)), s'. cbn [SubExprNodeTargetProcess]. run E. rewrite Hte.
  split_and!; [done|done|done|done|]. cbn [denote sem]. by rewrite Hte.
Qed.

Lemma node_te_index n te : node_te n = Some te -> 0 <= te_rindex te.
Proof.
  destruct n as [a f t|a v vt k|op l r|b args|a]; try done. cbn [node_te]. unfold column_te.
  destruct (SearchColumDef tableDef rt f t) as [[i c]|]; [|done]. cbn [mbind option_bind].
  destruct (rt !! i) as [e|] eqn:Hi; [|done]. intros [= <-]. simpl. by apply (Forall_lookup_1 _ _ _ _ index_ok Hi).
Qed.

(** The targets of the two sides of an operator. *)
Definition side_targets (l r : Node) : list TargetEntry :=
  match node_te r with Some te => MergetTargetList (option_list (node_te l)) [te] | None => option_list (node_te l) end.

Lemma SimpleExprNodeProcess_run addr op l r cl cr s : child_is l cl -> child_is r cr ->
  child_placed l = true -> child_placed r = true -> sides_ok op l r = true -> same_tables rt (rtable s) ->
  exists p s', SimpleExprNodeProcess tableDef addr op (Some cl) (Some cr) s = Some (p, s') /\ step s s' /\
    qualTargetList s' = MergetTargetList (qualTargetList s) (side_targets l r) /\
    forall ri, den p ri = a ← sem l; b ← sem r; apply_op isem ssem op a b.
Proof.
  intros Hl Hr Hpl Hpr Hs Ht. unfold SimpleExprNodeProcess. run_refl. run_refl.
  destruct (SubExpr_run l cl (set_qual [] s) Hl Hpl) as (pl & s1 & E1 & Hs1 & Hq1 & Hd1); [done|]. run E1.
  assert (same_tables rt (rtable s1)) as Ht1 by (etrans; [exact Ht|apply (st_tables _ _ Hs1)]).
  set (li := match node_te l with Some te => te_rindex te | None => -1 end).
  assert ((match option_list (node_te l) with [] => mret (-1) | _ => st_gets rindex end) s1 = Some (li, s1)) as E2
    by (unfold li; destruct (node_te l) as [te|]; [by rewrite <- (proj1 Hd1)|done]).
  run E2. run_refl.
  destruct (SubExpr_run r cr (set_qual [] s1) Hr Hpr Ht1) as (pr & s3 & E3 & Hs3 & Hq3 & Hd3). run E3.
  set (ri := match node_te r with Some te => te_rindex te | None => -1 end).
  assert ((match option_list (node_te r) with [] => mret (-1) | _ => st_gets rindex end) s3 = Some (ri, s3)) as E4
    by (unfold ri; destruct (node_te r) as [te|]; [by rewrite <- (proj1 Hd3)|done]).
  run E4. run_refl. eexists _, _. split; [reflexivity|]. split_and!.
  - eapply step_trans; [apply (step_qual s [])|]. eapply step_trans; [exact Hs1|]. eapply step_trans; [apply (step_qual s1 [])|].
    eapply step_trans; [exact Hs3|]. apply step_qual.
  - simpl. unfold side_targets. by destruct (node_te r), (node_te l).
  - intros x. pose proof (node_te_index l) as Hil. pose proof (node_te_index r) as Hir.
    unfold sides_ok in Hs. unfold li, ri. destruct (node_te l) as [tl|], (node_te r) as [tr|].
    + pose proof (Hil tl eq_refl). pose proof (Hir tr eq_refl). apply negb_true_iff, bool_decide_eq_false in Hs.
      rewrite !decide_False by lia. cbn [denote]. by rewrite (proj2 Hd1), (proj2 Hd3).
    + pose proof (Hil tl eq_refl). rewrite (decide_False (P := _ /\ _)), decide_False, decide_True by lia.
      cbn [denote]. by rewrite (proj2 Hd1), Hd3.
    + pose proof (Hir tr eq_refl). rewrite (decide_False (P := _ /\ _)), decide_True by lia.
      cbn [denote]. rewrite (proj2 Hd3), Hd1. destruct (sem l) as [a|], (sem r) as [b|]; try done. by apply apply_op_sym.
    + rewrite decide_True by lia. cbn [denote]. by rewrite Hd1, Hd3.
Qed.

(** Processing a condition keeps its meaning. *)
Lemma process_denotes n : processed n.
Proof.
  induction n as [a f t|a v vt k|op l r IHl IHr|b args IH|a] using Node_ind'; intros Hp s Ht; try done.
  - eexists _, s. split; [reflexivity|]. split; [apply step_refl|done].
  - destruct l as [l|]; [|done]. destruct r as [r|]; [|done].
    assert (sides_ok op l r = true /\ child_placed l = true /\ child_placed r = true) as (Hs & Hl & Hr).
    { cbn [well_placed] in Hp. apply andb_true_iff in Hp as [Hp Hr]. apply andb_true_iff in Hp as [Hs Hl]. done. }
    cbn [process_node]. unfold ExprNodeProcess.
    destruct (ExprChild_run l s (IHl l eq_refl) Hl Ht) as (cl & s1 & E1 & Hs1 & Hcl).
    assert (same_tables rt (rtable s1)) as Ht1 by (etrans; [exact Ht|apply (st_tables _ _ Hs1)]).
    destruct (ExprChild_run r s1 (IHr r eq_refl) Hr Ht1) as (cr & s2 & E2 & Hs2 & Hcr).
    destruct (NewNode_run s2) as (s3 & E3 & Hs3 & _).
    assert (same_tables rt (rtable s3)) as Ht3 by (etrans; [exact Ht1|]; etrans; [apply (st_tables _ _ Hs2)|apply (st_tables _ _ Hs3)]).
    destruct (SimpleExprNodeProcess_run (next s2) op l r cl cr s3 Hcl Hcr Hl Hr Hs Ht3) as (p & s4 & E4 & Hs4 & _ & Hd).
    exists p, s4. run E1. run E2. run E3. run E4. split; [done|]. split; [|exact Hd].
    eapply step_trans; [exact Hs1|]. eapply step_trans; [exact Hs2|]. by eapply step_trans.
  - destruct args as [|[l|] [|[r|] args]]; try done. cbn [well_placed] in Hp. apply andb_true_iff in Hp as [Hl Hr].
    apply Forall_cons in IH as [IHl IH]. apply Forall_cons in IH as [IHr _].
    cbn [process_node List.map]. unfold MergerNodeProcess.
    destruct (NewNode_run (set_qual [] s)) as (s1 & E1 & Hs1 & _).
    assert (step s s1) as Hs01 by (eapply step_trans; [apply (step_qual s [])|done]).
    destruct (IHl l eq_refl Hl s1) as (pl & s2 & E2 & Hs2 & Hd2); [etrans; [exact Ht|apply (st_tables _ _ Hs01)]|].
    assert (step s s2) as Hs02 by (by eapply step_trans).
    destruct (IHr r eq_refl Hr s2) as (pr & s3 & E3 & Hs3 & Hd3); [etrans; [exact Ht|apply (st_tables _ _ Hs02)]|].
    eexists _, _. split.
    + erewrite st_bind_some; [reflexivity|]. run_refl. run_refl. run E1. run_refl. run E2. run_refl. run E3. run_refl. run_refl. reflexivity.
    + split; [eapply step_trans; [exact Hs02|]; eapply step_trans; [exact Hs3|apply step_qual]|].
      intros ri. cbn [denote sem]. by rewrite Hd2, Hd3.
Qed.

(** ** Statements whose names are found *)

Lemma QueryJoinTransform_run conds s : Forall (fun n => well_placed n = true) conds -> same_tables rt (rtable s) ->
  exists ps s', QueryJoinTransform tableDef (Some <$> conds) s = Some (ps, s') /\ step s s' /\
    Forall2 (fun p n => forall ri, den p ri = sem n) ps conds.
Proof.
  revert s. induction conds as [|n conds IH]; intros s Hc Ht.
  - exists [], s. split; [reflexivity|]. split; [apply step_refl|done].
  - apply Forall_cons in Hc as [Hn Hc]. destruct (process_denotes n Hn s Ht) as (p & s1 & E1 & Hs1 & Hd).
    destruct (IH s1 Hc) as (ps & s2 & E2 & Hs2 & Hds); [etrans; [exact Ht|apply (st_tables _ _ Hs1)]|].
    exists (p :: ps), s2. cbn [fmap list_fmap QueryJoinTransform]. split; [|split; [by eapply step_trans|by constructor]].
    erewrite st_bind_some; [|exact E1]. cbv beta. erewrite st_bind_some; [|exact E2]. reflexivity.
Qed.

(** A new value that is a constant is kept as it is. *)
Definition set_of (t : ResTarget) : option PNode :=
  match res_setValue t with Some (N_ConstValue a v vt k) => Some (ConstValue a v vt k) | _ => None end.

Definition plain_set (t : ResTarget) : Prop :=
  match res_setValue t with None | Some (N_ConstValue _ _ _ _) => True | _ => False end.

(** The targets of a list of columns and [*]; none when a column is not found. *)
Fixpoint targets_of (l : list ResTarget) : option (list TargetEntry) :=
  match l with
  | [] => Some []
  | t :: l =>
      ts ← match res_val t with
           | Some (N_ColumnRef _ f tn) => te ← column_te rt f tn (res_name t); Some [with_setValue (set_of t) te]
           | Some _ => None
           | None => if res_all t then Some (foldl (TargetRewriteAllColumnsOneRte tableDef) [] rt) else None
           end;
      rest ← targets_of l; Some (ts ++ rest)
  end.

Lemma all_columns_app l l' r : foldl (TargetRewriteAllColumnsOneRte tableDef) (l ++ l') r = l ++ foldl (TargetRewriteAllColumnsOneRte tableDef) l' r.
Proof using Type.
  revert l'. induction r as [|e r IH]; intros l'; [done|]. simpl. rewrite <- IH. f_equal.
  unfold TargetRewriteAllColumnsOneRte. case_decide; [done|]. by rewrite app_assoc.
Qed.

Lemma all_columns_same r r' l : same_tables r r' ->
  foldl (TargetRewriteAllColumnsOneRte tableDef) l r = foldl (TargetRewriteAllColumnsOneRte tableDef) l r'.
Proof using Type.
  unfold same_tables. revert r' l. induction r as [|e r IH]; intros [|e' r'] l H; try done.
  injection H as _ Hi Ht _ Hr. simpl. rewrite (IH r') by done. f_equal.
  unfold TargetRewriteAllColumnsOneRte. by rewrite Hi, Ht.
Qed.

Lemma ProcessCheckTargetList_run l : forall ts done s, targets_of l = Some ts -> Forall plain_set l ->
  same_tables rt (rtable s) ->
  exists s', ProcessCheckTargetList tableDef l done s = Some (done ++ ts, s') /\ step s s'.
Proof.
  induction l as [|t l IH]; intros ts done s Hts Hv Ht.
  - injection Hts as <-. exists s. split; [by rewrite app_nil_r|apply step_refl].
  - apply Forall_cons in Hv as [Hv1 Hv]. cbn [targets_of] in Hts. cbn [ProcessCheckTargetList].
    assert (forall s, (match res_setValue t with Some v => QualNodeProcess tableDef (Some v) | None => mret None end) s = Some (set_of t, s)) as Hset
      by (intros s0; unfold plain_set, set_of in *; by destruct (res_setValue t) as [[| | | |]|]).
    destruct (res_val t) as [[a f tn| | | |]|]; try done.
    + destruct (column_te rt f tn (res_name t)) as [te|] eqn:Hte; [|done]. cbn [mbind option_bind] in Hts.
      destruct (targets_of l) as [rest|] eqn:Hrest; [|done]. injection Hts as <-.
      destruct (TargetNodeProcess_run f tn (res_name t) te s) as (s1 & E1 & Hs1 & _); [by rewrite <- (column_te_same rt)|].
      run E1. run (Hset s1).
      destruct (IH rest (done ++ [with_setValue (set_of t) te]) s1 eq_refl Hv) as (s2 & E2 & Hs2); [etrans; [exact Ht|apply (st_tables _ _ Hs1)]|].
      exists s2. rewrite E2, <- app_assoc. split; [reflexivity|by eapply step_trans].
    + destruct (res_all t); [|done]. cbn [mbind option_bind] in Hts. destruct (targets_of l) as [rest|] eqn:Hrest; [|done]. injection Hts as <-.
      set (s1 := set_rtable (mark (querylevel s) <$> rtable s) s).
      assert (TargetRewriteAllColumns tableDef done s = Some (done ++ foldl (TargetRewriteAllColumnsOneRte tableDef) [] rt, s1)) as E1.
      { rewrite (all_columns_same rt (rtable s)) by exact Ht. rewrite <- all_columns_app, app_nil_r. reflexivity. }
      assert (step s s1) as Hs1.
      { split; first [reflexivity|simpl; lia|idtac]. unfold same_tables. simpl. rewrite <- list_fmap_compose. reflexivity. }
      run E1. run (Hset s1).
      destruct (IH rest (done ++ foldl (TargetRewriteAllColumnsOneRte tableDef) [] rt) s1 eq_refl Hv) as (s2 & E2 & Hs2);
        [etrans; [exact Ht|apply (st_tables _ _ Hs1)]|].
      exists s2. rewrite E2, <- app_assoc. split; [reflexivity|by eapply step_trans].
Qed.

(** The tables to join: an address, the table's index and its columns. *)
Definition joined (r : list RTE) (targets qualtargets : list TargetEntry) (a : Z) : list (Z * Z * list TargetEntry) :=
  imap (fun i e => (a + Z.of_nat i, qr_rindex e, scan_targets tableDef qualtargets targets e)) r.

Lemma CommonQueryTransform_loop_run r : forall t s,
  exists s', CommonQueryTransform_loop tableDef r t s =
      Some (((fun e => with_targets (scan_targets tableDef (qualTargetList s) (parentTargetList s) e) e) <$> r,
             foldl (fun t x => AddJoinTblNode t x.1.1 x.1.2 x.2) t (joined r (parentTargetList s) (qualTargetList s) (next s))), s') /\
    step s s' /\ qualTargetList s' = qualTargetList s /\ rtable s' = rtable s.
Proof using Type.
  induction r as [|e r IH]; intros t s; [exists s; split; [reflexivity|by split; [apply step_refl|]]|].
  cbn [CommonQueryTransform_loop]. run_refl. run_refl. destruct (NewNode_run s) as (s1 & E1 & Hs1 & Hq1 & Hn1). 
  assert (rtable s1 = rtable s) as Hrt by (unfold NewNode in E1; by injection E1 as <-).
  run E1. destruct (IH (AddJoinTblNode t (next s) (qr_rindex e) (scan_targets tableDef (qualTargetList s) (parentTargetList s) e)) s1)
    as (s2 & E2 & Hs2 & Hq2 & Hr2).
  exists s2. split; [|split; [by eapply step_trans|by rewrite Hq2, Hq1, Hr2]].
  cbn [qr_rindex qr_targetList with_targets]. run E2. unfold joined. rewrite imap_cons, Hq1, (st_parent _ _ Hs1), Hn1. cbn [fmap list_fmap foldl fst snd].
  rewrite Z.add_0_r. unfold mret, ST_ret. do 4 f_equal. apply imap_ext. intros i x _. simpl. f_equal. f_equal. lia.
Qed.
End sem.

(** The range table of a [FROM] clause: the tables in order, numbered from [r]. *)
Lemma RangTbl_loop_spec fl : forall r rt r', RangTbl_loop GetTableInfo fl r = Some (rt, r') -> 0 <= r ->
  r + Z.of_nat (length fl) < 2 ^ 31 ->
  length rt = length fl /\ forall i e, rt !! i = Some e -> exists v, fl !! i = Some v /\
    GetTableInfo (relname v) = Some (qr_tblInfo e) /\ qr_tblInfo e <> 0 /\ qr_rindex e = r + Z.of_nat i /\
    qr_relname e = Some (default (relname v) (alias v)) /\ qr_isScaned e = false /\ qr_isNeeded e = false.
Proof.
  induction fl as [|v fl IH]; intros r rt r' H Hr Hl; [injection H as <- _; by split|].
  cbn [RangTbl_loop length] in *. unfold GetRangTblNode in H.
  destruct (GetTableInfo (relname v)) as [t|] eqn:Ht; [|done]. cbn [mbind option_bind] in H.
  destruct (decide (t = 0)) as [|Hne]; [done|]. cbn [mbind option_bind] in H.
  assert (i32 (r + 1) = r + 1) as Hi by (apply i32_small; unfold in_i32; lia). rewrite Hi in H.
  destruct (RangTbl_loop GetTableInfo fl (r + 1)) as [[rest r2]|] eqn:Hrest; [|done]. injection H as <- <-.
  destruct (IH _ _ _ Hrest ltac:(lia) ltac:(lia)) as [Hlen Hspec]. split; [simpl; by rewrite Hlen|].
  intros [|i] e He.
  - injection He as <-. exists v. simpl. split_and!; try done. lia.
  - destruct (Hspec i e He) as (v' & Hv' & ? & ? & ? & ?). exists v'. split_and!; try done; [lia|tauto..].
Qed.

Lemma RangTbl_loop_next fl : forall r rt r', RangTbl_loop GetTableInfo fl r = Some (rt, r') -> 0 <= r ->
  r + Z.of_nat (length fl) < 2 ^ 31 -> r' = r + Z.of_nat (length fl).
Proof.
  induction fl as [|v fl IH]; intros r rt r' H Hr Hl; [injection H as _ <-; simpl; lia|].
  cbn [RangTbl_loop length] in *. destruct (GetRangTblNode GetTableInfo (relname v)) as [e|]; [|done]. cbn [mbind option_bind] in H.
  rewrite i32_small in H by (unfold in_i32; lia).
  destruct (RangTbl_loop GetTableInfo fl (r + 1)) as [[rest r2]|] eqn:Hrest; [|done]. injection H as _ <-.
  rewrite (IH _ _ _ Hrest) by lia. lia.
Qed.

Lemma GetCellValue_loop_nth {A} (l : list A) i x count : l !! i = Some x ->
  GetCellValue_loop l count (count + 1 + Z.of_nat i) = Some x.
Proof using Type.
  revert i count. induction l as [|y l IH]; intros i count Hi; [done|]. simpl. destruct i as [|i].
  - injection Hi as <-. by rewrite decide_True by lia.
  - rewrite decide_False by lia. rewrite <- (IH i (count + 1) Hi). f_equal. lia.
Qed.

Lemma GetCellValueByIndex_nth {A} (l : list A) i x : l !! i = Some x -> GetCellValueByIndex (Some l) (1 + Z.of_nat i) = Some x.
Proof using Type.
  intros Hi. unfold GetCellValueByIndex. pose proof (lookup_lt_Some _ _ _ Hi). rewrite decide_False by lia.
  exact (GetCellValue_loop_nth l i x 0 Hi).
Qed.

Lemma joined_addresses r ts qs a : NoDup ((fun x => x.1.1) <$> joined r ts qs a).
Proof using Type.
  unfold joined. apply NoDup_alt. intros i j x Hi Hj.
  rewrite list_lookup_fmap, list_lookup_imap in Hi, Hj.
  destruct (r !! i) as [e|]; [|done]. destruct (r !! j) as [e'|]; [|done].
  cbn in Hi, Hj. injection Hi as <-. injection Hj as Hj. lia.
Qed.

(** The statement of a query over tables that exist, whose targets are found and
    whose conditions keep their meaning. *)
Record resolved (stmt : SelectStmt) (rt : list RTE) (ts : list TargetEntry) (conds : list Node) : Prop := {
  rs_from : exists fl r', ss_fromList stmt = Some fl /\ fl <> [] /\ Z.of_nat (length fl) < 2 ^ 31 - 1 /\ RangTbl_loop GetTableInfo fl 1 = Some (rt, r');
  rs_targets : exists tl, ss_targetlist stmt = Some tl /\ targets_of rt tl = Some ts /\ Forall plain_set tl;
  rs_some : ts <> [];
  rs_where : ss_whereList stmt = match conds with [] => None | _ => Some (Some <$> conds) end;
  rs_placed : Forall (fun n => well_placed rt n = true) conds }.

Lemma resolved_index stmt rt ts conds : resolved stmt rt ts conds -> forall i e, rt !! i = Some e -> qr_rindex e = 1 + Z.of_nat i.
Proof.
  intros [(fl & r' & _ & _ & Hl & Hr) _ _ _ _] i e Hi.
  destruct (RangTbl_loop_spec fl 1 rt r' Hr ltac:(lia) ltac:(lia)) as [_ Hs]. by destruct (Hs i e Hi) as (v & _ & _ & _ & ? & _).
Qed.

(** What the analysis makes of it. *)
Record analysed (rt : list RTE) (ts : list TargetEntry) (conds : list Node) (q : QueryTree) : Prop := {
  an_command : qt_commandType q = CMD_SELECT;
  an_targets : qt_targetList q = ts;
  an_tables : same_tables rt (qt_rtable q);
  an_entry i e : rt !! i = Some e -> GetCellValueByIndex (q_rtable (plan_query q)) (qr_rindex e) = Some (mkRTE (qr_rindex e) (qr_tblInfo e));
  an_conds : forall row strs isem ssem, (forall op a b, symmetric op = true -> isem op a b = isem op b a) ->
    (forall op a b, symmetric op = true -> ssem op a b = ssem op b a) ->
    Forall2 (fun p n => forall ri, denote (q_rtable (plan_query q)) row strs isem ssem p ri =
      sem rt (q_rtable (plan_query q)) row strs isem ssem n) (qt_joinTree q) conds;
  an_join : exists from, qt_rtjoinTree q = AddJoinTblNodes from /\ NoDup ((fun x => x.1.1) <$> from) /\
    Forall2 (fun e x => x.1.2 = qr_rindex e /\ x.2 = qr_targetList e) (qt_rtable q) from }.

(** Processing conditions that keep their meaning, in any rows. *)
Lemma QueryJoinTransform_all rt rtb conds s : Forall (fun e => 0 <= qr_rindex e) rt ->
  Forall (fun n => well_placed rt n = true) conds -> same_tables rt (rtable s) ->
  exists ps s', QueryJoinTransform tableDef (Some <$> conds) s = Some (ps, s') /\ step s s' /\
    forall row strs isem ssem, (forall op a b, symmetric op = true -> isem op a b = isem op b a) ->
      (forall op a b, symmetric op = true -> ssem op a b = ssem op b a) ->
      Forall2 (fun p n => forall ri, denote rtb row strs isem ssem p ri = sem rt rtb row strs isem ssem n) ps conds.
Proof.
  intros Hi Hc Ht.
  destruct (QueryJoinTransform_run rt rtb None (fun _ => None) (fun _ _ _ => None) (fun _ _ _ => None) ltac:(done) ltac:(done) Hi conds s Hc Ht)
    as (ps & s' & E & Hs & _).
  exists ps, s'. split_and!; [done|done|]. intros row strs isem ssem Hisym Hssym.
  destruct (QueryJoinTransform_run rt rtb row strs isem ssem Hisym Hssym Hi conds s Hc Ht) as (ps2 & s2 & E2 & _ & Hd).
  rewrite E in E2. by injection E2 as <- <-.
Qed.

Lemma CommonQueryTransform_run s : parentTargetList s <> [] ->
  exists s', CommonQueryTransform tableDef s =
      Some (AddJoinTblNodes (joined (rtable s) (parentTargetList s) (qualTargetList s) (next s)), s') /\
    rtable s' = (fun e => with_targets (scan_targets tableDef (qualTargetList s) (parentTargetList s) e) e) <$> rtable s /\
    processState s' = processState s /\ parentTargetList s' = parentTargetList s.
Proof using Type.
  intros Hne. unfold CommonQueryTransform. run_refl. run_refl. destruct (parentTargetList s) as [|t ts] eqn:Hp; [done|].
  destruct (CommonQueryTransform_loop_run (rtable s) [] s) as (s1 & E1 & Hs1 & _ & _). rewrite Hp in E1. run E1. run_refl.
  eexists. split; [reflexivity|]. split_and!; [done|apply (st_state _ _ Hs1)|].
  simpl. by rewrite (st_parent _ _ Hs1).
Qed.

(** The rest of a statement, from its range table and targets on. *)
Lemma transform_rest_run cmd id rt ts conds s : Forall (fun e => 0 <= qr_rindex e) rt ->
  Forall (fun n => well_placed rt n = true) conds -> same_tables rt (rtable s) -> parentTargetList s = ts -> ts <> [] ->
  processState s = 0 ->
  exists q s', transform_rest tableDef cmd id (match conds with [] => None | _ => Some (Some <$> conds) end) s = Some (Some q, s') /\
    qt_commandType q = cmd /\ qt_targetList q = ts /\ same_tables rt (qt_rtable q) /\
    (forall rtb row strs isem ssem, (forall op a b, symmetric op = true -> isem op a b = isem op b a) ->
      (forall op a b, symmetric op = true -> ssem op a b = ssem op b a) ->
      Forall2 (fun p n => forall ri, denote rtb row strs isem ssem p ri = sem rt rtb row strs isem ssem n) (qt_joinTree q) conds) /\
    exists from, qt_rtjoinTree q = AddJoinTblNodes from /\ NoDup ((fun x => x.1.1) <$> from) /\
      Forall2 (fun e x => x.1.2 = qr_rindex e /\ x.2 = qr_targetList e) (qt_rtable q) from.
Proof.
  intros Hi Hc Ht Hp Hne H0. unfold transform_rest. run_refl. run_refl.
  set (s1 := set_qual [] (set_level 2 s)).
  assert (exists ps s2, (match match conds with [] => None | _ => Some (Some <$> conds) end with
      Some w => QueryJoinTransform tableDef w | None => mret [] end) s1 = Some (ps, s2) /\ step s1 s2 /\
    forall rtb row strs isem ssem, (forall op a b, symmetric op = true -> isem op a b = isem op b a) ->
      (forall op a b, symmetric op = true -> ssem op a b = ssem op b a) ->
      Forall2 (fun p n => forall ri, denote rtb row strs isem ssem p ri = sem rt rtb row strs isem ssem n) ps conds)
    as (ps & s2 & E2 & Hs2 & Hd).
  { destruct conds as [|c conds]; [exists [], s1; split; [reflexivity|split; [apply step_refl|by constructor]]|].
    destruct (QueryJoinTransform_all rt None (c :: conds) s1 Hi Hc Ht) as (ps & s2 & E2 & Hs2 & _).
    exists ps, s2. split_and!; [exact E2|done|]. intros rtb.
    destruct (QueryJoinTransform_all rt rtb (c :: conds) s1 Hi Hc Ht) as (ps2 & s3 & E3 & _ & Hd). 
    rewrite E2 in E3. injection E3 as <- <-. exact Hd. }
  assert (parentTargetList s2 = ts) as Hp2 by (rewrite (st_parent _ _ Hs2); exact Hp).
  assert (processState s2 = 0) as H2 by (rewrite (st_state _ _ Hs2); exact H0).
  run E2. destruct (CommonQueryTransform_run s2) as (s3 & E3 & Hr3 & Hp3 & Hpar3); [by rewrite Hp2|].
  run E3. run_refl. rewrite decide_True by (by rewrite Hp3).
  eexists _, s3. split; [reflexivity|]. cbn [qt_commandType qt_targetList qt_rtable qt_joinTree qt_rtjoinTree].
  split_and!; [done|by rewrite Hpar3| |exact Hd|].
  - rewrite Hr3. etrans; [exact Ht|]. etrans; [apply (st_tables _ _ Hs2)|]. unfold same_tables. by rewrite <- list_fmap_compose.
  - eexists. split_and!; [reflexivity|apply joined_addresses|]. rewrite Hr3. unfold joined.
    apply Forall2_fmap_l. apply Forall2_same_length_lookup. split; [by rewrite length_imap|].
    intros i e x He Hx. rewrite list_lookup_imap, He in Hx. injection Hx as <-. done.
Qed.

Lemma RangTblRewriteFromClause_run fl rt r' s : RangTbl_loop GetTableInfo fl (rindex s) = Some (rt, r') ->
  RangTblRewriteFromClause GetTableInfo fl s = Some (Some rt, set_rindex r' s).
Proof. intros H. unfold RangTblRewriteFromClause. run_refl. by rewrite H. Qed.

Lemma transformSelectStmt_run stmt rt ts conds s : resolved stmt rt ts conds ->
  exists q s', transformSelectStmt GetTableInfo tableDef stmt s = Some (Some q, s') /\ analysed rt ts conds q.
Proof.
  intros Hres. pose proof (resolved_index _ _ _ _ Hres) as Hidx.
  destruct Hres as [(fl & r' & Hfl & Hne & Hlen & Hloop) (tl & Htl & Hts & Hsv) Hts0 Hw Hplaced].
  assert (Forall (fun e => 0 <= qr_rindex e) rt) as Hi by (apply Forall_lookup_2; intros i e He; rewrite (Hidx i e He); lia).
  unfold transformSelectStmt. run_refl. run_refl. rewrite Hfl, Htl, Hw.
  match goal with |- context [(RangTblRewriteFromClause GetTableInfo fl ≫= _) ?s0] =>
    pose proof (RangTblRewriteFromClause_run fl rt r' s0 Hloop) as E0 end.
  run E0. run_refl.
  match goal with |- context [(ProcessCheckTargetList tableDef tl [] ≫= _) ?s0] =>
    destruct (ProcessCheckTargetList_run rt tl ts [] s0 Hts Hsv ltac:(reflexivity)) as (s1 & E1 & Hs1) end.
  run E1. run_refl.
  destruct (transform_rest_run CMD_SELECT (g_queryId s) rt ts conds (set_parent ts s1) Hi Hplaced)
    as (q & s2 & E2 & Hcmd & Htarg & Htab & Hd & Hj); [apply (st_tables _ _ Hs1)|done|done|by apply (st_state _ _ Hs1)|].
  exists q, s2. split; [exact E2|]. split; try done; [|intros; by apply Hd].
  intros i e He. destruct (same_tables_lookup _ _ _ _ Htab He) as (e' & He' & Hcore). injection Hcore as _ Hr Ht _.
  unfold plan_query. cbn [q_rtable]. destruct (qt_rtable q) as [|e0 l] eqn:Hq; [done|]. rewrite <- Hq in *.
  assert ((match (fun e => mkRTE (qr_rindex e) (qr_tblInfo e)) <$> qt_rtable q with [] => None | _ :: _ => Some ((fun e => mkRTE (qr_rindex e) (qr_tblInfo e)) <$> qt_rtable q) end)
    = Some ((fun e => mkRTE (qr_rindex e) (qr_tblInfo e)) <$> qt_rtable q)) as Hsome by (by rewrite Hq).
  etrans; [rewrite (Hidx i e He); exact (f_equal (fun l => GetCellValueByIndex l _) Hsome)|].
  apply GetCellValueByIndex_nth. rewrite list_lookup_fmap, He'. cbn. by rewrite Hr, Ht, (Hidx i e He).
Qed.

(** A [DELETE] from one table: all its columns are targets, the conditions keep their
    values, and the scan has the columns the analysis leaves its entry. *)
Definition delete_entry (rel : RangeVar) (tbl : Z) : RTE := named 1 rel (mkRTEntry RELKIND_COMMON 0 tbl None [] None false false).

Lemma transformDeleteStmt_run rel tbl conds s : GetTableInfo (relname rel) = Some tbl -> tbl <> 0 -> tableDef tbl <> [] ->
  Forall (fun n => well_placed [delete_entry rel tbl] n = true) conds ->
  exists q s' addr scan, transformDeleteStmt GetTableInfo tableDef
      (mkDelete rel None (match conds with [] => None | _ => Some (Some <$> conds) end)) s = Some (Some q, s') /\
    plan_query q = mkQuery CMD_DELETE (Some [mkRTE 1 tbl]) (Some (AddJoinTblNodes [(addr, 1, scan)]))
      (match qt_joinTree q with [] => None | ps => Some ps end) (Some (column_target 1 <$> tableDef tbl)) /\
    forall rtb row strs isem ssem, (forall op a b, symmetric op = true -> isem op a b = isem op b a) ->
      (forall op a b, symmetric op = true -> ssem op a b = ssem op b a) ->
      Forall2 (fun p n => forall ri, denote rtb row strs isem ssem p ri = sem [delete_entry rel tbl] rtb row strs isem ssem n) (qt_joinTree q) conds.
Proof.
  intros Ht H0 Hcols Hw. unfold transformDeleteStmt. run_refl. run_refl. cbn [ds_relation ds_whereList ds_fromList from_entries]. run_refl.
  match goal with |- context [(main_entry GetTableInfo rel ≫= _) ?s0] => set (s1 := s0) end. set (e := delete_entry rel tbl) in *.
  assert (main_entry GetTableInfo rel s1 = Some (Some e, set_rindex (i32 2) s1)) as E1.
  { unfold main_entry, GetRangTblNode. rewrite Ht. cbn [mbind option_bind]. by rewrite decide_False by done. }
  run E1. run_refl.
  match goal with |- context [(TargetRewriteAllColumns tableDef [] ≫= _) ?s0] => set (s2 := s0) end.
  set (ts := column_target 1 <$> tableDef tbl).
  assert (ts <> []) as Hts by (unfold ts; by destruct (tableDef tbl)).
  assert (TargetRewriteAllColumns tableDef [] s2 = Some (ts, set_rtable [mark 1 e] s2)) as E2.
  { unfold TargetRewriteAllColumns. run_refl. run_refl. run_refl. unfold TargetRewriteAllColumnsOneRte. simpl.
    by rewrite decide_False by done. }
  run E2. run_refl. run_refl.
  match goal with |- context [transform_rest _ _ _ _ ?s0] => set (s3 := s0) end.
  destruct (transform_rest_run CMD_DELETE (g_queryId s) [e] ts conds s3) as (q & s4 & E4 & Hcmd & Htg & Htab & Hd & from & Hj & _ & Hf);
    [by apply Forall_singleton|done|done|done|done|done|].
  destruct (qt_rtable q) as [|e' [|]] eqn:Hq; [by apply Forall2_nil_inv_l in Hf as ->|..]; [|done].
  injection Htab as _ Hi Htb _. apply Forall2_cons_inv_l in Hf as ([[addr i] scan] & from' & [Hx1 Hx2] & Hf & ->).
  apply Forall2_nil_inv_l in Hf as ->. exists q, s4, addr, scan. split; [exact E4|]. split; [|exact Hd].
  unfold plan_query. rewrite Hcmd, Htg, Hq, Hj. cbn [fmap list_fmap]. rewrite <- Hi, <- Htb. cbn in Hx1. rewrite Hx1, <- Hi.
  destruct ts; [done|]. by destruct (qt_joinTree q).
Qed.

(** C10: the analysis of a [SELECT] keeps its meaning. When the tables of the
    [FROM] clause exist, the targets are columns or [*] that are found and the
    conditions keep a column on the left of an operator that tells its sides apart
    and do not compare two columns of one table, the query tree has: the range
    table in order, each entry at the index its targets name; the targets, each
    with the table and place of its column; condition trees with the values of the
    parsed conditions on every row; and one scan per table, in order, told apart
    by their addresses. *)
Theorem transformSelectStmt_analysed stmt rt ts conds s : resolved stmt rt ts conds ->
  exists q s', transformSelectStmt GetTableInfo tableDef stmt s = Some (Some q, s') /\ analysed rt ts conds q.
Proof. apply transformSelectStmt_run. Qed.

(** ** Conditions that change their meaning *)

(** A condition in parentheses is [NULL] in the parse tree, and so is an operand in
    parentheses; the node above it is dropped. *)
Definition parenthesised (n : option Node) : Prop :=
  n = None \/ exists op l r, n = Some (N_A_Expr op l r) /\ (l = None \/ r = None).

Lemma parenthesised_dropped n s : parenthesised n -> QualNodeProcess tableDef n s = Some (None, s).
Proof using Type.
  intros [->|(op & l & r & -> & Hlr)]; [done|]. simpl. unfold ExprNodeProcess.
  destruct l as [l|], r as [r|]; try done. by destruct Hlr.
Qed.

(** A [DELETE] whose condition is in parentheses deletes every row. The
    grammar gives [NULL] for a parenthesised expression and the analysis skips
    [NULL] conditions: the query tree has no condition and scans the whole table. *)
Theorem transformDeleteStmt_parenthesised rel tbl n s : parenthesised n ->
  GetTableInfo (relname rel) = Some tbl -> tbl <> 0 -> tableDef tbl <> [] ->
  exists q s', transformDeleteStmt GetTableInfo tableDef (mkDelete rel None (Some [n])) s = Some (Some q, s') /\
    qt_joinTree q = [] /\ q_joinTree (plan_query q) = None /\
    exists addr, qt_rtjoinTree q = AddJoinTblNodes [(addr, 1, column_target 1 <$> tableDef tbl)].
Proof.
  intros Hn Ht H0 Hcols. unfold transformDeleteStmt. run_refl. run_refl. cbn [ds_relation ds_whereList ds_fromList from_entries]. run_refl.
  match goal with |- context [(main_entry GetTableInfo rel ≫= _) ?s0] =>
    set (s1 := s0); set (e := named 1 rel (mkRTEntry RELKIND_COMMON 0 tbl None [] None false false)) end.
  assert (main_entry GetTableInfo rel s1 = Some (Some e, set_rindex (i32 2) s1)) as E1.
  { unfold main_entry, GetRangTblNode. rewrite Ht. cbn [mbind option_bind]. by rewrite decide_False by done. }
  run E1. run_refl.
  match goal with |- context [(TargetRewriteAllColumns tableDef [] ≫= _) ?s0] => set (s2 := s0) end.
  set (ts := column_target 1 <$> tableDef tbl).
  assert (TargetRewriteAllColumns tableDef [] s2 = Some (ts, set_rtable [mark 1 e] s2)) as E2.
  { unfold TargetRewriteAllColumns. run_refl. run_refl. run_refl. unfold TargetRewriteAllColumnsOneRte. simpl.
    by rewrite decide_False by done. }
  run E2. run_refl. run_refl. unfold transform_rest. run_refl. run_refl.
  match goal with |- context [(QueryJoinTransform tableDef [n] ≫= _) ?s0] => set (s3 := s0) end.
  assert (QueryJoinTransform tableDef [n] s3 = Some ([], s3)) as E3.
  { cbn [QueryJoinTransform]. erewrite st_bind_some; [|apply parenthesised_dropped, Hn]. reflexivity. }
  run E3. assert (parentTargetList s3 = ts) as Hp3 by done.
  destruct (CommonQueryTransform_run s3) as (s4 & E4 & Hr4 & Hp4 & Hpar4).
  { rewrite Hp3. unfold ts. by destruct (tableDef tbl). }
  run E4. run_refl. rewrite decide_True by (by rewrite Hp4).
  eexists _, s4. split; [reflexivity|]. split_and!; [done|done|]. cbn [qt_rtjoinTree].
  exists (next s3 + 0). unfold joined. rewrite Hp3. simpl. unfold scan_targets. simpl. do 3 f_equal.
  unfold ts, GetTblTargetList. clear. induction (tableDef tbl) as [|c l IH]; [done|]. simpl. 
  rewrite filter_cons_True by done. by f_equal.
Qed.

(** A constant and a column change places. *)
Lemma SimpleExpr_const_column addr op c ca f t te s : column_te (rtable s) f t None = Some te -> 0 <= te_rindex te ->
  exists s', SimpleExprNodeProcess tableDef addr op (Some (C_Node c)) (Some (C_Column ca f t)) s =
    Some (ExprEntry addr (te_rindex te) 0 op (Some (ColumnRef ca (te_vt te) (te_attrIndex te))) (Some c), s').
Proof using Type.
  intros Hte Hi. unfold SimpleExprNodeProcess. do 5 run_refl.
  match goal with |- context [(SubExprNodeTargetProcess _ _ ≫= _) ?x] => set (s2 := x) end.
  destruct (TargetNodeProcess_run f t None te s2 Hte) as (s3 & E3 & Hs3 & Hr3 & _).
  assert (SubExprNodeTargetProcess tableDef (Some (C_Column ca f t)) s2 =
    Some (([te], Some (ColumnRef ca (te_vt te) (te_attrIndex te))), s3)) as E by (cbn [SubExprNodeTargetProcess]; by run E3).
  run E. run_refl. run_refl. rewrite Hr3, (decide_False (P := _ /\ _)), decide_True by lia. by eexists.
Qed.

Lemma SimpleExpr_same_table addr op ca f t cb g u ta tb s : column_te (rtable s) f t None = Some ta -> column_te (rtable s) g u None = Some tb ->
  te_rindex ta = te_rindex tb -> 0 <= te_rindex ta ->
  exists s', SimpleExprNodeProcess tableDef addr op (Some (C_Column ca f t)) (Some (C_Column cb g u)) s =
    Some (ExprEntry addr (te_rindex ta) 0 op (Some (ColumnRef ca (te_vt ta) (te_attrIndex ta)))
            (Some (ColumnRef cb (te_vt tb) (te_attrIndex tb))), s').
Proof using Type.
  intros Ha Hb Hab Hi. unfold SimpleExprNodeProcess. do 2 run_refl.
  destruct (TargetNodeProcess_run f t None ta (set_qual [] s) Ha) as (s1 & E1 & Hs1 & Hr1 & _).
  assert (SubExprNodeTargetProcess tableDef (Some (C_Column ca f t)) (set_qual [] s) =
    Some (([ta], Some (ColumnRef ca (te_vt ta) (te_attrIndex ta))), s1)) as Ea by (cbn [SubExprNodeTargetProcess]; by run E1).
  run Ea. do 2 run_refl.
  destruct (TargetNodeProcess_run g u None tb (set_qual [] s1)) as (s3 & E3 & Hs3 & Hr3 & _).
  { rewrite <- (column_te_same (rtable s)); [done|]. apply (st_tables _ _ Hs1). }
  assert (SubExprNodeTargetProcess tableDef (Some (C_Column cb g u)) (set_qual [] s1) =
    Some (([tb], Some (ColumnRef cb (te_vt tb) (te_attrIndex tb))), s3)) as Eb by (cbn [SubExprNodeTargetProcess]; by run E3).
  run Eb. run_refl. run_refl. rewrite Hr1, Hr3, (decide_False (P := _ /\ _)), decide_False, decide_True by lia. by eexists.
Qed.

(** A condition with a constant on the left and a column on the right is
    turned round without its operator: [5 < a] is analysed as [a < 5]. *)
Theorem SimpleExpr_turned_round rt rtb op a v vt k ca f t te s :
  column_te rt f t None = Some te -> same_tables rt (rtable s) -> 0 <= te_rindex te ->
  exists p s', process (N_A_Expr op (Some (N_ConstValue a v vt k)) (Some (N_ColumnRef ca f t))) s = Some (Some p, s') /\
    forall row strs isem ssem ri, denote rtb row strs isem ssem p ri =
      x ← column rtb row (te_rindex te) (te_vt te) (te_attrIndex te); y ← constant strs v vt; apply_op isem ssem op x y.
Proof.
  intros Hte Ht Hi. cbn [process_node]. unfold ExprNodeProcess, ExprChild. run_refl. run_refl.
  destruct (NewNode_run s) as (s1 & E1 & Hs1 & _). run E1.
  assert (column_te (rtable s1) f t None = Some te) as Hte1
    by (rewrite <- (column_te_same rt); [done|]; etrans; [exact Ht|apply (st_tables _ _ Hs1)]).
  destruct (SimpleExpr_const_column (next s) op (ConstValue a v vt k) ca f t te s1 Hte1 Hi) as (s2 & E2). run E2.
  eexists _, s2. split; [reflexivity|]. done.
Qed.

(** Two columns of one table: the right one is looked up at index 0, where there
    is no table. *)
Lemma SimpleExpr_one_table rt rtb op ca f t cb g u ta tb s : column_te rt f t None = Some ta -> column_te rt g u None = Some tb ->
  te_rindex ta = te_rindex tb -> 0 <= te_rindex ta -> same_tables rt (rtable s) ->
  exists p s', process (N_A_Expr op (Some (N_ColumnRef ca f t)) (Some (N_ColumnRef cb g u))) s = Some (Some p, s') /\
    forall row strs isem ssem ri, denote (Some rtb) row strs isem ssem p ri = None.
Proof.
  intros Ha Hb Hab Hi Ht. cbn [process_node]. unfold ExprNodeProcess, ExprChild. run_refl. run_refl.
  destruct (NewNode_run s) as (s1 & E1 & Hs1 & _). run E1.
  assert (same_tables rt (rtable s1)) as Ht1 by (etrans; [exact Ht|apply (st_tables _ _ Hs1)]).
  destruct (SimpleExpr_same_table (next s) op ca f t cb g u ta tb s1) as (s2 & E2);
    [by rewrite <- (column_te_same rt)|by rewrite <- (column_te_same rt)|done|done|].
  run E2. eexists _, s2. split; [reflexivity|]. intros row strs isem ssem ri. cbn [denote].
  assert (column (Some rtb) row 0 (te_vt tb) (te_attrIndex tb) = None) as ->; [|by destruct (column _ _ _ _ _)].
  unfold column, GetCellValueByIndex. rewrite decide_False by lia.
  assert (GetCellValue_loop rtb 0 0 = None) as ->; [|done].
  enough (forall count, 0 <= count -> GetCellValue_loop rtb count 0 = None) as H by (by apply H).
  clear. induction rtb as [|x l IH]; intros count Hc; [done|]. simpl. rewrite decide_False by lia. apply IH. lia.
Qed.

(** [NOT] has one argument, and the analysis reads a second. *)
Lemma NOT_faults n s : process (N_BoolExpr NOT_EXPR [n]) s = None.
Proof.
  cbn [process_node List.map]. unfold MergerNodeProcess, mbind, ST_bind, st_gets, st_modify, NewNode, st_lift. simpl.
  destruct n as [n|]; [|done]. by destruct (process n _) as [[p s']|].
Qed.

(** An [UPDATE] with a [FROM] clause reads the columns of the changed table
    from another table. The tables of the clause are numbered first, but the
    changed table comes first in the range table; as an index is a position there,
    the index of the changed table names the last table of the clause. *)
Theorem transformUpdateStmt_from_misplaced rel tbl v fl from r' tl ts s :
  GetTableInfo (relname rel) = Some tbl -> tbl <> 0 ->
  Z.of_nat (length (v :: fl)) < 2 ^ 31 - 2 -> RangTbl_loop GetTableInfo (v :: fl) 1 = Some (from, r') ->
  let main := named (1 + Z.of_nat (length (v :: fl))) rel (mkRTEntry RELKIND_COMMON 0 tbl None [] None false false) in
  targets_of (main :: from) tl = Some ts -> ts <> [] -> Forall plain_set tl ->
  exists q s' e, transformUpdateStmt GetTableInfo tableDef (mkUpdate rel (Some tl) (Some (v :: fl)) None) s = Some (Some q, s') /\
    qt_targetList q = ts /\ same_tables (main :: from) (qt_rtable q) /\ last from = Some e /\
    GetCellValueByIndex (q_rtable (plan_query q)) (qr_rindex main) = Some (mkRTE (qr_rindex e) (qr_tblInfo e)) /\
    qr_rindex e <> qr_rindex main.
Proof.
  intros Ht H0 Hlen Hloop main Hts Hne Hset.
  destruct (RangTbl_loop_spec (v :: fl) 1 from r' Hloop ltac:(lia) ltac:(lia)) as [Hfl Hspec].
  assert (r' = 1 + Z.of_nat (length (v :: fl))) as Hr' by (by apply (RangTbl_loop_next _ _ _ _ Hloop); lia).
  assert (Forall (fun e => 0 <= qr_rindex e) (main :: from)) as Hi.
  { apply Forall_cons_2; [simpl; lia|]. apply Forall_lookup_2. intros i e He. destruct (Hspec i e He) as (? & _ & _ & _ & -> & _). lia. }
  unfold transformUpdateStmt. run_refl. run_refl. cbn [us_fromList us_relation us_targetlist us_whereList from_entries].
  match goal with |- context [((RangTblRewriteFromClause GetTableInfo _ ≫= _) ≫= _) ?x] =>
    pose proof (RangTblRewriteFromClause_run (v :: fl) from r' x Hloop) as E0 end.
  erewrite st_bind_some; [|run E0; reflexivity]. cbv beta iota. cbn [default].
  match goal with |- context [(main_entry GetTableInfo rel ≫= _) ?x] => set (s1 := x) end.
  assert (main_entry GetTableInfo rel s1 = Some (Some main, set_rindex (i32 (r' + 1)) s1)) as E1.
  { unfold main_entry, GetRangTblNode. rewrite Ht. cbn [mbind option_bind]. rewrite decide_False by done.
    unfold main. by rewrite <- Hr'. }
  run E1. run_refl.
  match goal with |- context [(ProcessCheckTargetList tableDef tl [] ≫= _) ?x] =>
    destruct (ProcessCheckTargetList_run (main :: from) tl ts [] x Hts Hset ltac:(reflexivity)) as (s2 & E2 & Hs2) end.
  run E2. run_refl.
  destruct (transform_rest_run CMD_UPDATE (g_queryId s) (main :: from) ts [] (set_parent ts s2) Hi (Forall_nil_2 _))
    as (q & s3 & E3 & _ & Htarg & Htab & _); [apply (st_tables _ _ Hs2)|done|done|by apply (st_state _ _ Hs2)|].
  destruct (last from) as [e|] eqn:Hlast; [|apply last_None in Hlast; by subst from].
  assert (from !! length fl = Some e) as He by (rewrite <- Hlast, last_lookup, Hfl; done).
  exists q, s3, e. split_and!; [exact E3|done|done|done| |].
  - destruct (same_tables_lookup _ _ (S (length fl)) e Htab He) as (e' & He' & Hcore). injection Hcore as _ Hr Htb _.
    change (qr_rindex main) with (1 + Z.of_nat (S (length fl))). unfold plan_query. cbn [q_rtable].
    destruct (qt_rtable q) as [|e0 l] eqn:Hq; [done|]. rewrite <- Hr, <- Htb.
    apply GetCellValueByIndex_nth. change (((fun e => mkRTE (qr_rindex e) (qr_tblInfo e)) <$> (e0 :: l)) !! S (length fl) = Some (mkRTE (qr_rindex e') (qr_tblInfo e'))).
    by rewrite list_lookup_fmap, He'.
  - destruct (Hspec _ e He) as (? & _ & _ & _ & -> & _). simpl. lia.
Qed.
End analysis.

(** ** Concrete statements *)

Definition two_catalog (name : bytes) : option Z :=
  if decide (name = [116]) then Some 77 else if decide (name = [117]) then Some 78 else None.
Definition two_defs (t : Z) : list ColumnDefInfo :=
  if decide (t = 77) then [mkColDef [97] VT_INT 0; mkColDef [98] VT_INT 1] else [mkColDef [97] VT_INT 0; mkColDef [99] VT_INT 1].

(** [SELECT t.a, c FROM t, u x WHERE t.a = x.a] *)
Definition two_select : SelectStmt :=
  mkSelect (Some [mkRes None (Some (N_ColumnRef 1 [97] (Some [116]))) false None; mkRes None (Some (N_ColumnRef 2 [99] None)) false None])
    (Some [mkRangeVar [116] None; mkRangeVar [117] (Some [120])])
    (Some [Some (N_A_Expr EQUAL (Some (N_ColumnRef 3 [97] (Some [116]))) (Some (N_ColumnRef 4 [97] (Some [120]))))]).

Definition two_cond : Node := N_A_Expr EQUAL (Some (N_ColumnRef 3 [97] (Some [116]))) (Some (N_ColumnRef 4 [97] (Some [120]))).

Definition two_entries : list RTE :=
  [mkRTEntry RELKIND_COMMON 1 77 (Some [116]) [] None false false; mkRTEntry RELKIND_COMMON 2 78 (Some [120]) [] None false false].

Definition two_tes : list TargetEntry := [mkTE 0 1 VT_INT [97] [97] None; mkTE 1 2 VT_INT [99] [99] None].

Definition start_query : QueryState := mkQS 0 0 0 [] [] [] 0 100 0.

Lemma two_select_resolved : resolved two_catalog two_defs two_select two_entries two_tes [two_cond].
Proof.
  split.
  - eexists _, 3. split; [reflexivity|]. split; [done|]. split; [simpl; lia|]. reflexivity.
  - eexists. split; [reflexivity|]. split; [reflexivity|]. repeat (apply Forall_cons_2; [exact I|]). apply Forall_nil_2.
  - done.
  - done.
  - apply Forall_cons_2; [reflexivity|apply Forall_nil_2].
Qed.

Lemma transformSelectStmt_analysed_witness :
  exists q s', transformSelectStmt two_catalog two_defs two_select start_query = Some (Some q, s') /\
    analysed two_defs two_entries two_tes [two_cond] q.
Proof. apply transformSelectStmt_analysed, two_select_resolved. Defined.

(** [DELETE FROM t WHERE (...)] *)
Lemma transformDeleteStmt_parenthesised_witness :
  exists q s', transformDeleteStmt two_catalog two_defs (mkDelete (mkRangeVar [116] None) None (Some [None])) start_query = Some (Some q, s') /\
    qt_joinTree q = [] /\ q_joinTree (plan_query q) = None /\
    exists addr, qt_rtjoinTree q = AddJoinTblNodes [(addr, 1, column_target 1 <$> two_defs 77)].
Proof. apply (transformDeleteStmt_parenthesised two_catalog two_defs (mkRangeVar [116] None) 77 None start_query); [by left|done|lia|done]. Defined.

(** [5 < a] *)
Lemma SimpleExpr_turned_round_witness :
  exists p s', process_node two_defs (N_A_Expr LESS (Some (N_ConstValue 5 5 VT_INT 0)) (Some (N_ColumnRef 6 [98] None)))
      (set_rtable two_entries start_query) = Some (Some p, s') /\
    forall row strs isem ssem ri, denote (Some [mkRTE 1 77]) row strs isem ssem p ri =
      x ← column (Some [mkRTE 1 77]) row 1 VT_INT 1; y ← constant strs 5 VT_INT; apply_op isem ssem LESS x y.
Proof.
  apply (SimpleExpr_turned_round two_defs two_entries (Some [mkRTE 1 77]) LESS 5 5 VT_INT 0 6 [98] None
    (mkTE 1 1 VT_INT [98] [98] None) (set_rtable two_entries start_query)); [reflexivity|reflexivity|simpl; lia].
Defined.

(** [UPDATE t SET b = 5 FROM u] *)
Lemma transformUpdateStmt_from_misplaced_witness :
  exists q s' e, transformUpdateStmt two_catalog two_defs
      (mkUpdate (mkRangeVar [116] None) (Some [mkRes None (Some (N_ColumnRef 1 [98] None)) false (Some (N_ConstValue 2 5 VT_INT 0))])
         (Some [mkRangeVar [117] None]) None) start_query = Some (Some q, s') /\
    qt_targetList q = [mkTE 1 2 VT_INT [98] [98] (Some (ConstValue 2 5 VT_INT 0))] /\
    same_tables [named 2 (mkRangeVar [116] None) (mkRTEntry RELKIND_COMMON 0 77 None [] None false false);
                 named 1 (mkRangeVar [117] None) (mkRTEntry RELKIND_COMMON 0 78 None [] None false false)] (qt_rtable q) /\
    Some (named 1 (mkRangeVar [117] None) (mkRTEntry RELKIND_COMMON 0 78 None [] None false false)) = Some e /\
    GetCellValueByIndex (q_rtable (plan_query q)) 2 = Some (mkRTE (qr_rindex e) (qr_tblInfo e)) /\ qr_rindex e <> 2.
Proof.
  apply (transformUpdateStmt_from_misplaced two_catalog two_defs (mkRangeVar [116] None) 77 (mkRangeVar [117] None) []
    [named 1 (mkRangeVar [117] None) (mkRTEntry RELKIND_COMMON 0 78 None [] None false false)] 2
    [mkRes None (Some (N_ColumnRef 1 [98] None)) false (Some (N_ConstValue 2 5 VT_INT 0))]
    [mkTE 1 2 VT_INT [98] [98] (Some (ConstValue 2 5 VT_INT 0))] start_query); try reflexivity; try done.
  apply Forall_cons_2; [exact I|apply Forall_nil_2].
Defined.
