(* ===== verification/Statement.v ===== *)
(** * From a statement to its rows

    Composes the analysis ([Query]), the planner ([Plan]) and the executor
    ([Executor]): what executing a parsed [SELECT] sends to the portal. *)

From S2P Require Import Prelude Bytes Page PageStore DataTypes Express Plan Executor Query.

(** ** The operators the analysis may turn round *)

Lemma sql_int_symmetric op a b : symmetric op = true -> sql_int op a b = sql_int op b a.
Proof.
  unfold symmetric. intros Hop%bool_decide_eq_true. destruct op; try (by destruct Hop as [|[|[|]]]); unfold sql_int; cbn [int_sem].
  - by rewrite Z.eqb_sym.
  - by rewrite Z.eqb_sym.
  - by rewrite Z.add_comm.
  - by rewrite Z.mul_comm.
Qed.

Lemma str_sem_symmetric op a b : symmetric op = true -> str_sem op a b = str_sem op b a.
Proof.
  unfold symmetric. intros Hop%bool_decide_eq_true. destruct op; try (by destruct Hop as [|[|[|]]]); cbn [str_sem]; try done.
  f_equal. by apply bool_decide_ext.
Qed.

Lemma same_tables_rindex {A} (g : A -> Z) rt rt' l : same_tables rt rt' ->
  Forall2 (fun e x => g x = qr_rindex e) rt' l -> Forall2 (fun e x => g x = qr_rindex e) rt l.
Proof.
  intros Ht Hl. assert (qr_rindex <$> rt = qr_rindex <$> rt') as Hr.
  { pose proof (f_equal (fmap (fun c : RelationKind * Z * Z * option bytes => c.1.1.2)) Ht) as H'. by rewrite <- !list_fmap_compose in H'. }
  apply (proj1 (Forall2_fmap_l qr_rindex (fun z x => g x = z) rt l)). rewrite Hr. by apply Forall2_fmap_l.
Qed.

Section statement.
Context {C P : Type} `{Scanner C} `{Port P} (valid : PageState -> Prop) (keeps : relation PageState) `{!ScannerLaws C valid keeps}.
Context (behind : list Z) (strs : Z -> option bytes) (behind_ok : (48 <= length behind)%nat).
(** The rows the scan of an address delivers, and the tables of the dictionary. *)
Context (tables : Z -> list TblRow) (GetTableInfo : bytes -> option Z) (tableDef : Z -> list ColumnDefInfo).
Context `{!PortLaws P}.

(** A condition holds on a row, as it was written. *)
Definition cond_holds (rt : list RTE) (rtb : RangTable) (row : list TblRow) (n : Node) : bool :=
  match sem tableDef rt rtb (Some (structs row)) strs sql_int str_sem n with Some v => truth v | None => false end.

(** A row satisfies the [WHERE] clause. *)
Definition satisfies (rt : list RTE) (rtb : RangTable) (conds : list Node) (row : list TblRow) : bool :=
  match conds with [] => true | _ => existsb (cond_holds rt rtb row) conds end.

Lemma existsb_holds rt rtb row ps ns :
  Forall2 (fun p n => forall ri, denote rtb (Some (structs row)) strs sql_int str_sem p ri =
    sem tableDef rt rtb (Some (structs row)) strs sql_int str_sem n) ps ns ->
  existsb (holds strs rtb row) ps = existsb (cond_holds rt rtb row) ns.
Proof.
  intros H'. induction H' as [|p n ps ns Hpn _ IH]; [done|]. simpl. rewrite IH. unfold holds, cond_holds. by rewrite Hpn.
Qed.

(** Conditions that keep their values choose the same rows as a clause. *)
Lemma satisfies_conds rt rtb ps conds row : (forall isem ssem, (forall op a b, symmetric op = true -> isem op a b = isem op b a) ->
    (forall op a b, symmetric op = true -> ssem op a b = ssem op b a) ->
    Forall2 (fun p n => forall ri, denote rtb (Some (structs row)) strs isem ssem p ri =
      sem tableDef rt rtb (Some (structs row)) strs isem ssem n) ps conds) ->
  clause strs rtb (match ps with [] => None | _ => Some ps end) row = satisfies rt rtb conds row.
Proof.
  intros Hall. pose proof (Hall sql_int str_sem sql_int_symmetric str_sem_symmetric) as Hd.
  pose proof (existsb_holds _ _ _ _ _ Hd) as Hex. unfold clause, satisfies. destruct ps as [|p ps].
  - by apply Forall2_nil_inv_l in Hd as ->.
  - destruct conds as [|n ns]; [by apply Forall2_nil_inv_r in Hd|]. exact Hex.
Qed.

Lemma satisfies_clause rt ts conds q row : analysed tableDef rt ts conds q ->
  clause strs (q_rtable (plan_query q)) (q_joinTree (plan_query q)) row = satisfies rt (q_rtable (plan_query q)) conds row.
Proof. intros An. apply satisfies_conds. intros. by apply (an_conds _ _ _ _ _ An). Qed.

(** The rows of a statement: the combinations of the rows of its tables that satisfy
    its [WHERE] clause. *)
Definition statement_rows (rt : list RTE) (rtb : RangTable) (conds : list Node) (ids : list Z) : list (list TblRow) :=
  List.filter (satisfies rt rtb conds) (product tables ids).

(** What a statement sends. *)
Lemma statement_sends stmt rt ts conds qs : resolved GetTableInfo tableDef stmt rt ts conds ->
  exists q qs' from, transformSelectStmt GetTableInfo tableDef stmt qs = Some (Some q, qs') /\
    qt_rtjoinTree q = AddJoinTblNodes from /\ Forall2 (fun e x => x.1.2 = qr_rindex e) rt from /\
    let rtb := q_rtable (plan_query q) in let ids := (fun x => x.1.1) <$> from in
    rescannable valid keeps (length from) -> forall self n (s : EState C P),
      Forall (scannable valid keeps tables) ((fun x => (x.1.1, GetCellValueByIndex rtb x.1.2, x.2)) <$> from) ->
      (product_bound tables ids + 2 <= n)%nat -> good valid strs s -> port_idle (portal s) ->
      Forall (clause_judged strs rtb (q_joinTree (plan_query q))) (product tables ids) ->
      Forall (fun row => projectable rtb ts row /\ sendable ts (project rtb ts row)) (statement_rows rt rtb conds ids) ->
      exists s', ExecutorPlan behind n (subPlanSelectStmt self (plan_query q)) s = Some (None, s') /\
        retCode s' = Z.of_nat (length (statement_rows rt rtb conds ids)) /\
        port_shown (portal s) ts (project rtb ts <$> statement_rows rt rtb conds ids) (portal s').
Proof.
  intros Hres. destruct (transformSelectStmt_run GetTableInfo tableDef stmt rt ts conds qs Hres) as (q & qs' & E & An).
  destruct (an_join _ _ _ _ _ An) as (from & Hjoin & Hnd & Hfrom).
  exists q, qs', from. split; [exact E|].
  assert (Forall2 (fun e x => x.1.2 = qr_rindex e) rt from) as Hrt.
  { eapply (same_tables_rindex (fun x => x.1.2)); [apply (an_tables _ _ _ _ _ An)|].
    eapply Forall2_impl; [exact Hfrom|]. by intros e x [He _]. }
  split; [exact Hjoin|]. split; [exact Hrt|]. intros rtb ids Hre self n s Hscan Hn Hg Hidle Hj Hp.
  destruct Hres as [(fl & r' & _ & Hfl & Hlen & Hloop) _ Hts _ _].
  assert (from <> []) as Hne.
  { intros ->. apply Forall2_nil_inv_r in Hrt as ->. destruct (RangTbl_loop_spec GetTableInfo tableDef fl 1 [] r' Hloop) as [Hl _]; [lia|lia|].
    by destruct fl. }
  assert (is_Some rtb) as Hrtb.
  { destruct rt as [|e rt']; [by apply Forall2_nil_inv_l in Hrt|]. pose proof (an_entry _ _ _ _ _ An 0%nat e eq_refl) as He.
    fold rtb in He. by destruct rtb. }
  assert (plan_query q = select_query rtb ts (q_joinTree (plan_query q)) from) as Hq.
  { destruct (tables_left_deep rtb from Hne) as (nd & _ & Hnd' & _). unfold select_query, plan_query, rtb. cbn [q_joinTree q_rtable].
    rewrite Hjoin, Hnd', (an_command _ _ _ _ _ An), (an_targets _ _ _ _ _ An). by destruct ts. }
  assert (result_rows strs tables rtb (q_joinTree (plan_query q)) ids = statement_rows rt rtb conds ids) as Hrows.
  { unfold result_rows, statement_rows. apply List.filter_ext. intros row. by apply (satisfies_clause rt ts). }
  rewrite Hq. rewrite <- Hrows in Hp |- *.
  apply (select_rows_sent valid keeps behind strs tables rtb behind_ok); try done. by rewrite length_fmap.
Qed.

(** C2: a [SELECT] statement returns the rows it asks for. The statement: its tables
    and targets are found, and its [WHERE] conditions (of several, one must hold) are
    built by [AND], [OR], arithmetic and comparison from constants and columns, with a
    column on the left of an operator that tells its sides apart and no two columns of
    one table compared ([well_placed] in [resolved]). Its run: the scans hold the
    columns asked for and, of several tables, can be rescanned after their end; the
    conditions are without [<] and unary signs and evaluate on every combination of
    rows ([clause_judged]); the portal takes the rows. Analysed, planned, initialised
    and executed, it sends to the portal the target columns of exactly the
    combinations of its tables' rows that satisfy the clause as it was written, in
    the order of the [FROM] clause, and counts them. *)
Theorem SELECT_statement stmt rt ts conds qs : resolved GetTableInfo tableDef stmt rt ts conds ->
  exists q qs' from, transformSelectStmt GetTableInfo tableDef stmt qs = Some (Some q, qs') /\
    qt_rtjoinTree q = AddJoinTblNodes from /\ Forall2 (fun e x => x.1.2 = qr_rindex e) rt from /\
    let rtb := q_rtable (plan_query q) in let ids := (fun x => x.1.1) <$> from in
    rescannable valid keeps (length from) -> forall self n (s : EState C P),
      Forall (scannable valid keeps tables) ((fun x => (x.1.1, GetCellValueByIndex rtb x.1.2, x.2)) <$> from) ->
      (product_bound tables ids + 2 <= n)%nat -> good valid strs s -> port_idle (portal s) ->
      Forall (clause_judged strs rtb (q_joinTree (plan_query q))) (product tables ids) ->
      Forall (fun row => projectable rtb ts row /\ sendable ts (project rtb ts row)) (statement_rows rt rtb conds ids) ->
      exists s', ExecutorPlan behind n (subPlanSelectStmt self (plan_query q)) s = Some (None, s') /\
        retCode s' = Z.of_nat (length (statement_rows rt rtb conds ids)) /\
        port_shown (portal s) ts (project rtb ts <$> statement_rows rt rtb conds ids) (portal s').
Proof. apply statement_sends. Qed.
End statement.

(** ** A concrete statement *)

(** [SELECT t.a, x.a FROM t, u x WHERE t.a = x.a] over tables in memory. *)
Definition join_select : SelectStmt :=
  mkSelect (Some [mkRes None (Some (N_ColumnRef 1 [97] (Some [116]))) false None;
                  mkRes None (Some (N_ColumnRef 2 [97] (Some [120]))) false None])
    (ss_fromList two_select) (Some [Some two_cond]).

Definition join_tes : list TargetEntry := [mkTE 0 1 VT_INT [97] [97] None; mkTE 0 2 VT_INT [97] [97] None].

Lemma join_select_resolved : resolved two_catalog two_defs join_select two_entries join_tes [two_cond].
Proof.
  destruct two_select_resolved as [Hf _ _ _ Hp]. split; [exact Hf| |done|done|exact Hp].
  eexists. split; [reflexivity|]. split; [reflexivity|]. repeat (apply Forall_cons_2; [exact I|]). apply Forall_nil_2.
Qed.

(** The tables have rows 3, 5, 8 and 5, 3: two combinations are equal. *)
Lemma SELECT_statement_witness :
  exists q qs' s', transformSelectStmt two_catalog two_defs join_select start_query = Some (Some q, qs') /\
    ExecutorPlan (replicate 48 0) 10 (subPlanSelectStmt (OtherNode 1 0 0 0) (plan_query q)) two_state = Some (None, s') /\
    retCode s' = 2 /\
    portal s' = [[Some (int_column 3); Some (int_column 3)]; [Some (int_column 5); Some (int_column 5)]].
Proof.
  destruct (SELECT_statement (fun _ => True) (fun _ _ => True) (replicate 48 0) strs0 ltac:(rewrite length_replicate; lia)
    two_tables two_catalog two_defs join_select two_entries join_tes [two_cond] start_query join_select_resolved)
    as (q & qs' & from & E & Hjoin & Hrt & Hrun).
  exists q, qs'. vm_compute in E. injection E as <- <-.
  destruct from as [|[[a1 i1] t1] [|[[a2 i2] t2] [|]]]; try (exfalso; by inversion Hrt as [|? ? ? ? _ Hr]; try inversion Hr as [|? ? ? ? _ Hr2]; inversion Hr2).
  vm_compute in Hjoin. injection Hjoin as <- <- <- <- <- <-.
  destruct (Hrun (or_intror I) (OtherNode 1 0 0 0) 10%nat two_state) as (s' & Ex & Hrc & Hse); clear Hrun.
  - repeat (apply Forall_cons_2 || apply Forall_nil_2); eexists; split; try reflexivity; by split.
  - vm_compute. lia.
  - split; [exact I|apply eval0_ok].
  - exact I.
  - change (Forall (clause_judged strs0 two_rtable (Some [ExprEntry 100 1 2 EQUAL (Some (ColumnRef 3 VT_INT 0)) (Some (ColumnRef 4 VT_INT 0))]))
      (product two_tables [101; 102])).
    rewrite two_product. repeat (apply Forall_cons_2 || apply Forall_nil_2);
      (split; [exact I|split; [reflexivity|split; eexists; vm_compute; reflexivity]]).
  - change (Forall (fun row => projectable two_rtable join_tes row /\ True)
      (statement_rows strs0 two_tables two_defs two_entries two_rtable [two_cond] [101; 102])).
    assert (statement_rows strs0 two_tables two_defs two_entries two_rtable [two_cond] [101; 102] =
      [[int_row 77 1 3; int_row 78 2 3]; [int_row 77 1 5; int_row 78 2 5]]) as -> by (vm_compute; reflexivity).
    repeat (apply Forall_cons_2 || apply Forall_nil_2); (split; [|exact I]);
      repeat (apply Forall_cons_2 || apply Forall_nil_2); eexists _, 52; (split; [vm_compute; reflexivity|split; [vm_compute; reflexivity|reflexivity]]).
  - exists s'. split; [reflexivity|]. split; [exact Ex|]. split; [exact Hrc|exact Hse].
Defined.
