(* ===== verification/Tuple.v ===== *)
(** * Tuples: values of a statement and columns of a row

    Models [src/src/sqlcore/storage/tuple/tuples.c] and the list searches it uses
    of [node/parserNode.c]: a row of a [VALUES] clause becomes the columns of the
    table ([ValuesFormRowData], [TransformConstValueRowData]), a constant becomes an
    operand of the evaluator ([TransformConstExprValue]) and a computed value
    becomes a column again ([transFormExpr2RowColumnData]). Memory that is
    allocated and not written keeps what it held, which is a parameter here. *)

From Stdlib Require Import SpecFloat.
From S2P Require Import Prelude Bytes Transaction Page PageStore DataTypes Express Plan Query.

(** ** parserNode.c: searches in lists

    Positions count from one; [strcmp] is equality of names that end with a zero
    byte. *)

Fixpoint GetColumnRefIndex_loop (list : list TargetEntry) (index : Z) (attrName : bytes) : Z :=
  match list with
  | [] => -1
  | te :: list => if decide (attrName = te_name te) then index else GetColumnRefIndex_loop list (index + 1) attrName
  end.

Definition GetColumnRefIndexByName (attrName : bytes) (list : option (list TargetEntry)) : Z :=
  match list with Some l => GetColumnRefIndex_loop l 1 attrName | None => -1 end.

Fixpoint GetData_loop {A} (list : list A) (count index : Z) : option A :=
  match list with
  | [] => None
  | x :: list => if decide (count + 1 = index) then Some x else GetData_loop list (count + 1) index
  end.

Definition GetDataByIndex {A} (index : Z) (list : option (list A)) : option A :=
  match list with Some l => GetData_loop l 0 index | None => None end.

(** ** Floats *)

(** The bits of a float. *)
Definition float_bits (f : spec_float) : Z :=
  match f with
  | S754_zero s => Z.b2z s * 2 ^ 31
  | S754_infinity s => Z.b2z s * 2 ^ 31 + 255 * 2 ^ 23
  | S754_nan => 255 * 2 ^ 23 + 2 ^ 22
  | S754_finite s m e =>
      Z.b2z s * 2 ^ 31 + (if decide (Zpos m < 2 ^ 23) then Zpos m else (e + 150) * 2 ^ 23 + (Zpos m - 2 ^ 23))
  end.

(** The conversion of an [int] to a [float]. *)
Definition float_of_int (z : Z) : Z := float_bits (binary_normalize 24 128 z 0 false).

(** ** Columns *)

Definition off_attrindex : Z := 4.
Definition char_T : Z := 84.
Definition char_F : Z := 70.

(** The value of a constant node; [None] for a node of another kind, which the
    grammar does not put in a [VALUES] clause. *)
Definition as_ConstValue (n : Node) : option (valueType * Z) :=
  match n with N_ConstValue _ val vt _ => Some (vt, val) | _ => None end.

Section tuples.
(** What the memory of a new column holds, by the column's index; the first word of
    a new row; the eight bytes of a new operand's data; what lies behind a string. *)
Context (fresh : Z -> list Z) (fresh_size fresh_data : Z) (behind : list Z).

Definition AllocMem (attrIndex size : Z) : list Z :=
  take (Z.to_nat size) (fresh attrIndex ++ replicate (Z.to_nat size) 0).

(** A new column with its size and index. *)
Definition new_column (attrIndex size : Z) : option (list Z) :=
  c ← store32 (AllocMem attrIndex size) 0 size; store32 c off_attrindex attrIndex.

(** [None] is a fault, [Some None] the [NULL] of an unknown type. *)
Definition TransformConstValueRowData (m : strmem) (vt : valueType) (val : Z) (colDef : ColumnDefInfo) (attrIndex : Z)
    : option (option (list Z)) :=
  match cd_type colDef with
  | VT_INT | VT_INTEGER =>
      c ← new_column attrIndex (sizeof_RowColumnData + 4);
      c ← store32 c off_data (iData val); Some (Some c)
  | VT_VARCHAR | VT_STRING =>
      n ← hat_strlen m (pData val);
      let len := n + 1 in
      c ← new_column attrIndex (sizeof_RowColumnData + len);
      s ← m !! pData val; bs ← load s 0 len; c ← store c off_data bs; Some (Some c)
  | VT_CHAR =>
      len ← hat_strlen m (pData val);
      c ← new_column attrIndex (sizeof_RowColumnData + if 0 <? len then 1 else 0);
      if 0 <? len then s ← m !! pData val; bs ← load s 0 1; c ← store c off_data bs; Some (Some c)
      else Some (Some c)
  | VT_DOUBLE | VT_FLOAT =>
      c ← new_column attrIndex (sizeof_RowColumnData + 4);
      if decide (vt = VT_FLOAT) then c ← store32 c off_data (fData val); Some (Some c)
      else if decide (vt = VT_INT) then c ← store32 c off_data (float_of_int (iData val)); Some (Some c)
      else Some (Some c)
  | VT_BOOL =>
      c ← new_column attrIndex (sizeof_RowColumnData + 1);
      c ← store c off_data [if decide (iData val = 0) then char_F else char_T]; Some (Some c)
  | _ => Some None
  end.

(** [TableRowData]: its size and its columns. *)
Record TableRowData := mkTableRow { tr_size : Z; tr_columns : list (list Z) }.

Inductive row_result := RowFault | RowNull | RowOk (row : TableRowData).

(** The loop over the columns of the table. A column that is not listed is a header
    without data, with its size and index set; [index] counts the columns. *)
Fixpoint form_columns (m : strmem) (colDefs : list ColumnDefInfo) (index : Z) (targetList : option (list TargetEntry))
    (valueList : option (list Node)) (row : TableRowData) : row_result :=
  match colDefs with
  | [] => RowOk row
  | colDef :: colDefs =>
      let attrIndex := GetColumnRefIndexByName (colName colDef) targetList in
      let next c := match col_size c with
                    | Some n => form_columns m colDefs (index + 1) targetList valueList (mkTableRow (i32 (tr_size row + n)) (tr_columns row ++ [c]))
                    | None => RowFault
                    end in
      if attrIndex <? 0 then
        match new_column index sizeof_RowColumnData with Some c => next c | None => RowFault end
      else
        match GetDataByIndex attrIndex valueList with
        | None => RowNull
        | Some attrValue =>
            match as_ConstValue attrValue with
            | None => RowFault
            | Some (vt, val) =>
                match TransformConstValueRowData m vt val colDef index with
                | Some (Some c) => next c
                | _ => RowFault
                end
            end
        end
  end.

(** [tblMeta] is the table's definition. When a value is missing the row is given up;
    releasing its parts is left out. *)
Definition ValuesFormRowData (m : strmem) (tblMeta : list ColumnDefInfo) (targetList : option (list TargetEntry))
    (valueList : option (list Node)) : row_result :=
  let size := Z.of_nat (length tblMeta) * 8 + sizeof_TableRowData in
  form_columns m tblMeta 0 targetList valueList (mkTableRow (i32 (fresh_size + size)) []).

(** ** Operands *)

(** [NULL] for a type it does not know. A boolean has the type of a float. *)
Definition TransformConstExprValue (vt : valueType) (val : Z) : EV (option ExprDataInfo) :=
  match vt with
  | VT_INT | VT_INTEGER => mret (Some (mkExpr VT_INTEGER 4 (set_iData fresh_data (iData val))))
  | VT_VARCHAR | VT_STRING =>
      m ← st_gets mem;
      n ← st_lift (hat_strlen m (pData val));
      s ← st_lift (m !! pData val); bs ← st_lift (load s 0 (n + 1));
      p ← alloc_copy bs;
      mret (Some (mkExpr VT_STRING (n + 1) p))
  | VT_CHAR =>
      m ← st_gets mem;
      n ← st_lift (hat_strlen m (pData val));
      s ← st_lift (m !! pData val); c ← st_lift (s !! 0%nat);
      mret (Some (mkExpr VT_CHAR n (set_cData fresh_data c)))
  | VT_DOUBLE | VT_FLOAT =>
      mret (Some (mkExpr VT_FLOAT 4
        (if decide (vt = VT_FLOAT) then set_fData fresh_data (fData val) else fresh_data)))
  | VT_BOOL => mret (Some (mkExpr VT_FLOAT 1 (set_cData fresh_data (if decide (iData val = 0) then char_F else char_T))))
  | _ => mret None
  end.

(** A column of [dataSize] bytes with its size; the index is set at the end. *)
Definition sized_column (attrIndex dataSize : Z) : option (list Z) := store32 (AllocMem attrIndex dataSize) 0 dataSize.

(** Column and what is written behind its block. The copy of a string has the size of
    the whole column: it reads behind the string and writes behind the column. A
    float is written through a pointer computed before the column is allocated. *)
Definition transFormExpr2RowColumnData (m : strmem) (exprData : option ExprDataInfo) (attrIndex : Z)
    : option (option (list Z) * list Z) :=
  match exprData with
  | None => Some (None, [])
  | Some e =>
      let named (c : list Z) := store32 c off_attrindex attrIndex in
      match type e with
      | VT_INT | VT_INTEGER =>
          c ← sized_column attrIndex (4 + sizeof_RowColumnData);
          c ← store32 c off_data (iData (data e)); c ← named c; Some (Some c, [])
      | VT_VARCHAR | VT_STRING =>
          n ← hat_strlen m (pData (data e));
          let dataSize := n + 1 + sizeof_RowColumnData in
          c ← sized_column attrIndex dataSize;
          s ← m !! pData (data e); bs ← load (s ++ behind) 0 dataSize;
          c ← store c off_data (take (Z.to_nat (n + 1)) bs);
          c ← named c; Some (Some c, drop (Z.to_nat (n + 1)) bs)
      | VT_CHAR =>
          c ← sized_column attrIndex (1 + sizeof_RowColumnData);
          s ← m !! pData (data e); b ← s !! 0%nat;
          c ← store c off_data [b]; c ← named c; Some (Some c, [])
      | VT_DOUBLE | VT_FLOAT => None
      | VT_BOOL =>
          c ← sized_column attrIndex (4 + sizeof_RowColumnData);
          c ← store c off_data [if decide (iData (data e) = 1) then char_T else char_F]; c ← named c; Some (Some c, [])
      | _ => Some (None, [])
      end
  end.
End tuples.

(** ** Searching *)

Lemma GetColumnRefIndex_loop_find name list : forall index,
  GetColumnRefIndex_loop list index name =
    match list_find (fun te => name = te_name te) list with Some (i, _) => index + Z.of_nat i | None => -1 end.
Proof.
  induction list as [|te list IH]; intros index; [done|]. simpl. case_decide as Hte; simpl; [lia|].
  rewrite IH. destruct (list_find _ list) as [[i x]|]; simpl; [lia|done].
Qed.

Lemma GetData_loop_lookup {A} (list : list A) : forall count k,
  GetData_loop list count (count + 1 + Z.of_nat k) = list !! k.
Proof.
  induction list as [|x list IH]; intros count k; [done|]. simpl. case_decide as Hk.
  - by assert (k = 0%nat) as -> by lia.
  - destruct k as [|k]; [lia|]. change ((x :: list) !! S k) with (list !! k). rewrite <- (IH (count + 1)). f_equal. lia.
Qed.

(** The value the statement gives for a column of that name: the one at the place of
    the first target of the name. *)
Inductive given := NotListed | Missing | Given (n : Node).

Definition value_of (name : bytes) (targets : list TargetEntry) (values : list Node) : given :=
  match list_find (fun te => name = te_name te) targets with
  | None => NotListed
  | Some (k, _) => match values !! k with Some v => Given v | None => Missing end
  end.

(** ** Columns *)

(** A column whose header changed holds the same value. *)
Lemma column_value_same c c' t : col_ok c -> col_ok c' -> length c' = length c -> sizeof_RowColumnData <= Z.of_nat (length c) ->
  (forall o n, 48 <= o -> load c' o n = load c o n) -> column_value c' t = column_value c t.
Proof.
  intros Hc Hc' Hlen Hl Hd. unfold sizeof_RowColumnData in Hl. unfold column_value. destruct (int_type t).
  { unfold load_i32, load_u32. by rewrite Hd by (unfold off_data, sizeof_RowColumnData; lia). }
  destruct (string_type t); [|done]. rewrite Hc, Hc'. cbn [mbind option_bind]. rewrite Hlen. destruct (decide _); [|done].
  do 2 f_equal. change (Z.to_nat off_data) with 48%nat. pose proof (drop_load c 48 ltac:(lia)) as H1.
  pose proof (drop_load c' 48 ltac:(lia)) as H2. rewrite Hlen, Hd, H1 in H2 by lia. by injection H2.
Qed.

Section columns.
Context (fresh : Z -> list Z) (fresh_size : Z).

Lemma length_AllocMem i size : length (AllocMem fresh i size) = Z.to_nat size.
Proof. unfold AllocMem. rewrite length_take, length_app, length_replicate. lia. Qed.

Lemma sized_column_spec i size : 48 <= size -> in_i32 size ->
  exists c, sized_column fresh i size = Some c /\ Z.of_nat (length c) = size /\ col_size c = Some size.
Proof.
  intros Hs Hr. destruct (store32_some (AllocMem fresh i size) 0 size) as (c & E & Hl);
    [lia|rewrite length_AllocMem; lia|].
  exists c. split_and!; [exact E|rewrite Hl, length_AllocMem; lia|by apply (load_i32_store _ _ _ _ E)].
Qed.

Lemma named_column c i : col_ok c -> 48 <= Z.of_nat (length c) -> in_i32 i ->
  exists c', store32 c off_attrindex i = Some c' /\ length c' = length c /\ col_ok c' /\ load_i32 c' off_attrindex = Some i /\
    forall o n, 48 <= o -> load c' o n = load c o n.
Proof.
  intros Hc Hl Hi. unfold off_attrindex. destruct (store32_some c 4 i) as (c' & E & Hl'); [lia|lia|].
  exists c'. split_and!; [exact E|exact Hl'| |by apply (load_i32_store _ _ _ _ E)|].
  - unfold col_ok, col_size in *. rewrite (load_i32_store_ne _ _ _ _ _ E) by lia. by rewrite Hl'.
  - intros o n Ho. apply (load_store_ne _ _ _ _ _ _ E). rewrite length_le. lia.
Qed.

Lemma new_column_spec i size : 48 <= size -> in_i32 size -> in_i32 i ->
  exists c, new_column fresh i size = Some c /\ Z.of_nat (length c) = size /\ col_ok c /\ load_i32 c off_attrindex = Some i.
Proof.
  intros Hs Hr Hi. destruct (sized_column_spec i size Hs Hr) as (c & E & Hl & Hc).
  destruct (named_column c i) as (c' & E' & Hl' & Hc' & Hi' & _); [unfold col_ok; by rewrite Hl|lia|done|].
  exists c'. split_and!; [|lia|done|done]. unfold new_column, sized_column in *. by rewrite E.
Qed.

(** The data of a column written at its place. *)
Lemma store_data c i bs : col_ok c -> load_i32 c off_attrindex = Some i ->
  48 + Z.of_nat (length bs) <= Z.of_nat (length c) ->
  exists c', store c off_data bs = Some c' /\ length c' = length c /\ col_ok c' /\ load_i32 c' off_attrindex = Some i /\
    load c' off_data (Z.of_nat (length bs)) = Some bs.
Proof.
  unfold off_data, sizeof_RowColumnData, off_attrindex. intros Hc Hi Hl. destruct (store_some c 48 bs) as (c' & E & Hl'); [lia|lia|].
  exists c'. split_and!; [exact E|exact Hl'| |by rewrite (load_i32_store_ne _ _ _ _ _ E) by lia|by apply (load_store_eq _ _ _ _ _ E)].
  unfold col_ok, col_size in *. rewrite (load_i32_store_ne _ _ _ _ _ E) by lia. by rewrite Hl'.
Qed.

Lemma int_type_cases t : int_type t = true -> t = VT_INT \/ t = VT_INTEGER.
Proof. apply bool_decide_eq_true. Qed.

Lemma string_type_cases t : string_type t = true -> t = VT_VARCHAR \/ t = VT_STRING.
Proof. apply bool_decide_eq_true. Qed.

Lemma column_value_int c t z : int_type t = true -> load c off_data 4 = Some (le 4 z) -> in_i32 z -> column_value c t = Some (VI z).
Proof.
  intros Ht Hl Hz. unfold column_value. rewrite Ht. unfold load_i32, load_u32. rewrite Hl. cbn [fmap option_fmap option_map].
  by rewrite unle_le4_i32.
Qed.

Lemma cstring_end s : Forall (fun b => b <> 0) s -> cstring (s ++ [0]) = Some s.
Proof. induction 1 as [|b s Hb Hs IH]; [done|]. cbn [app cstring]. by rewrite decide_False, IH. Qed.

Lemma column_value_string c t s : string_type t = true -> col_ok c -> Forall (fun b => b <> 0) s ->
  Z.of_nat (length c) = 48 + Z.of_nat (length (s ++ [0])) -> load c off_data (Z.of_nat (length (s ++ [0]))) = Some (s ++ [0]) ->
  column_value c t = Some (VS s).
Proof.
  intros Ht Hc Hs Hl Hd. unfold column_value. rewrite Ht.
  assert (int_type t = false) as -> by (destruct (string_type_cases t Ht) as [-> | ->]; reflexivity).
  rewrite Hc. cbn [mbind option_bind]. rewrite decide_True by done.
  apply load_inv in Hd as (_ & _ & _ & Hd & _). rewrite take_ge in Hd by (rewrite length_drop; unfold off_data, sizeof_RowColumnData; lia).
  rewrite <- Hd, cstring_end by done. done.
Qed.

Lemma hat_strlen_cstr m p s : cstr m p s -> hat_strlen m p = Some (Z.of_nat (length s)).
Proof. intros (_ & Hs & junk & Hm). unfold hat_strlen. rewrite Hm. by apply cstrlen_app. Qed.

Lemma load_cstr s junk : load (s ++ 0 :: junk) 0 (Z.of_nat (length s) + 1) = Some (s ++ [0]).
Proof.
  change (0 :: junk) with ([0] ++ junk). rewrite app_assoc, load_app_l by (rewrite length_app; simpl; lia).
  pose proof (load_all (s ++ [0])) as H. rewrite length_app in H. simpl in H. rewrite <- H. f_equal. lia.
Qed.

(** A constant of the statement has the value [v] for a column of type [t]. *)
Definition means (m : strmem) (t : valueType) (val : Z) (v : value) : Prop :=
  match v with
  | VI z => int_type t = true /\ iData val = z
  | VS s => string_type t = true /\ cstr m val s
  end.

Definition value_size (v : value) : Z := match v with VI _ => 4 | VS s => Z.of_nat (length s) + 1 end.

(** A column that shows [v]: complete, numbered [i], as long as [v] needs, and read as
    [v]. *)
Definition shows_value (c : list Z) (t : valueType) (i : Z) (v : value) : Prop :=
  column_ok c /\ load_i32 c off_attrindex = Some i /\ Z.of_nat (length c) = sizeof_RowColumnData + value_size v /\
  column_value c t = Some v.

(** Strings that fit the size of a column. *)
Definition sizable (v : value) : Prop := match v with VI _ => True | VS s => in_i32 (48 + Z.of_nat (length s) + 1) end.

Lemma TransformConstValue_run m vt val c i v : means m (cd_type c) val v -> sizable v -> in_i32 i ->
  exists col, TransformConstValueRowData fresh m vt val c i = Some (Some col) /\ shows_value col (cd_type c) i v.
Proof.
  intros Hv Hs Hi. destruct v as [z|s].
  - destruct Hv as [Ht <-].
    destruct (new_column_spec i (48 + 4)) as (c1 & E1 & Hl1 & Hc1 & Hi1); [lia|done|done|].
    destruct (store_data c1 i (le 4 (iData val)) Hc1 Hi1) as (c2 & E2 & Hl2 & Hc2 & Hi2 & Hd2); [rewrite length_le; lia|].
    exists c2. split.
    + unfold TransformConstValueRowData, store32. destruct (int_type_cases _ Ht) as [-> | ->];
        change (sizeof_RowColumnData + 4) with (48 + 4); rewrite E1; cbn [mbind option_bind]; by rewrite E2.
    + split; [split; [done|unfold sizeof_RowColumnData; lia]|]. split; [done|].
      split; [unfold sizeof_RowColumnData; simpl; lia|].
      apply column_value_int; [done|exact Hd2|apply iData_range].
  - destruct Hv as [Ht Hc]. pose proof (hat_strlen_cstr _ _ _ Hc) as Hlen. destruct Hc as (_ & Hnz & junk & Hm).
    cbn [sizable] in Hs.
    destruct (new_column_spec i (48 + (Z.of_nat (length s) + 1))) as (c1 & E1 & Hl1 & Hc1 & Hi1); [lia|by rewrite Z.add_assoc|done|].
    destruct (store_data c1 i (s ++ [0]) Hc1 Hi1) as (c2 & E2 & Hl2 & Hc2 & Hi2 & Hd2); [rewrite length_app; simpl; lia|].
    exists c2. split.
    + unfold TransformConstValueRowData, pData. pose proof (load_cstr s junk) as Hld.
      destruct (string_type_cases _ Ht) as [-> | ->]; rewrite Hlen; cbn [mbind option_bind];
        change sizeof_RowColumnData with 48; rewrite E1; cbn [mbind option_bind]; rewrite Hm; cbn [mbind option_bind];
        rewrite Hld; cbn [mbind option_bind]; by rewrite E2.
    + split; [split; [done|unfold sizeof_RowColumnData; lia]|]. split; [done|].
      split; [unfold sizeof_RowColumnData; simpl; lia|].
      apply column_value_string; [done|done|done|rewrite length_app; simpl; lia|exact Hd2].
Qed.

(** A string constant in an integer column: the low half of its address; an integer
    in a string column: a read at the integer as an address. *)
Lemma TransformConstValue_string_in_int m val c i s : int_type (cd_type c) = true -> in_i32 i -> cstr m val s ->
  exists col, TransformConstValueRowData fresh m VT_VARCHAR val c i = Some (Some col) /\
    shows_value col (cd_type c) i (VI (iData val)).
Proof. intros Ht Hi _. by apply TransformConstValue_run. Qed.

Lemma TransformConstValue_int_in_string m val c i : string_type (cd_type c) = true -> m !! val = None ->
  TransformConstValueRowData fresh m VT_INT val c i = None.
Proof.
  intros Ht Hm. unfold TransformConstValueRowData, hat_strlen, pData.
  destruct (string_type_cases _ Ht) as [-> | ->]; by rewrite Hm.
Qed.

(** ** A row of values *)

Definition column_given (m : strmem) (targets : list TargetEntry) (values : list Node) (c : ColumnDefInfo) (v : option value) : Prop :=
  match value_of (colName c) targets values with
  | NotListed => v = None
  | Missing => False
  | Given n => exists vt val w, as_ConstValue n = Some (vt, val) /\ v = Some w /\ means m (cd_type c) val w /\ sizable w
  end.

(** The column [col] at place [i] holds what was given. *)
Definition column_holds (i : Z) (c : ColumnDefInfo) (v : option value) (col : list Z) : Prop :=
  match v with
  | Some w => shows_value col (cd_type c) i w
  | None => column_ok col /\ load_i32 col off_attrindex = Some i /\ Z.of_nat (length col) = sizeof_RowColumnData
  end.

Lemma GetColumnRefIndexByName_value name targetList valueList :
  let i := GetColumnRefIndexByName name targetList in
  match value_of name (default [] targetList) (default [] valueList) with
  | NotListed => i = -1
  | Missing => 0 <= i /\ GetDataByIndex i valueList = None
  | Given n => 0 <= i /\ GetDataByIndex i valueList = Some n
  end.
Proof.
  unfold value_of, GetColumnRefIndexByName. destruct targetList as [targets|]; [|done]. cbv zeta. change (default [] (Some targets)) with targets.
  rewrite GetColumnRefIndex_loop_find. destruct (list_find _ targets) as [[k te]|]; [|done].
  assert (GetDataByIndex (1 + Z.of_nat k) valueList = default [] valueList !! k) as ->.
  { destruct valueList as [l|]; [|done]. exact (GetData_loop_lookup l 0 k). }
  destruct (default [] valueList !! k); split; try done; lia.
Qed.

(** One column of the loop: the next column is added, or the row is given up. *)
Lemma form_column_step m c cs i targetList valueList row v :
  column_given m (default [] targetList) (default [] valueList) c v -> in_i32 i ->
  exists col n, column_holds i c v col /\ col_size col = Some n /\
    form_columns fresh m (c :: cs) i targetList valueList row =
    form_columns fresh m cs (i + 1) targetList valueList (mkTableRow (i32 (tr_size row + n)) (tr_columns row ++ [col])).
Proof.
  intros Hg Hi. pose proof (GetColumnRefIndexByName_value (colName c) targetList valueList) as Hv. cbv zeta in Hv.
  unfold column_given in Hg. cbn [form_columns].
  destruct (value_of (colName c) (default [] targetList) (default [] valueList)) as [| |n].
  - subst v. rewrite Hv. change (-1 <? 0) with true. cbv iota.
    destruct (new_column_spec i sizeof_RowColumnData) as (col & E & Hl & Hc & Hi'); [by vm_compute|by vm_compute|done|].
    rewrite E, Hc. exists col, (Z.of_nat (length col)). split; [|by split].
    split; [|by split]. split; [done|by rewrite Hl].
  - done.
  - destruct Hg as (vt & val & w & Ha & -> & Hw & Hs). destruct Hv as [H0 Hd].
    rewrite (proj2 (Z.ltb_ge _ _)) by lia. rewrite Hd, Ha.
    destruct (TransformConstValue_run m vt val c i w Hw Hs Hi) as (col & E & Hsh). rewrite E.
    pose proof Hsh as ((Hc & _) & _). rewrite Hc. exists col, (Z.of_nat (length col)). by split_and!.
Qed.

Lemma form_columns_run m targetList valueList cs vs :
  Forall2 (column_given m (default [] targetList) (default [] valueList)) cs vs -> forall i row,
  0 <= i -> i + Z.of_nat (length cs) <= 2 ^ 31 ->
  exists row', form_columns fresh m cs i targetList valueList row = RowOk row' /\
    exists cols, tr_columns row' = tr_columns row ++ cols /\ length cols = length cs /\
      forall k c v, cs !! k = Some c -> vs !! k = Some v -> exists col, cols !! k = Some col /\ column_holds (i + Z.of_nat k) c v col.
Proof.
  induction 1 as [|c v cs vs Hcv Hrest IH]; intros i row Hi Hl.
  - exists row. split; [done|]. exists []. rewrite app_nil_r. split_and!; try done.
  - simpl in Hl. destruct (form_column_step m c cs i targetList valueList row v Hcv) as (col & n & Hh & _ & ->); [unfold in_i32; lia|].
    destruct (IH (i + 1) (mkTableRow (i32 (tr_size row + n)) (tr_columns row ++ [col]))) as (row' & -> & cols & Hc & Hlen & Hk); [lia|lia|].
    exists row'. split; [done|]. exists (col :: cols). cbn [tr_columns] in Hc. split_and!; [by rewrite Hc, <- app_assoc|simpl; by rewrite Hlen|].
    intros [|k] c' v' Hc' Hv'.
    + injection Hc' as <-. injection Hv' as <-. exists col. rewrite Z.add_0_r. done.
    + destruct (Hk k c' v' Hc' Hv') as (col' & Hcol & Hh'). exists col'. split; [done|].
      by replace (i + Z.of_nat (S k)) with (i + 1 + Z.of_nat k) by lia.
Qed.

Lemma form_columns_missing m targetList valueList cs vs c rest :
  Forall2 (column_given m (default [] targetList) (default [] valueList)) cs vs ->
  value_of (colName c) (default [] targetList) (default [] valueList) = Missing -> forall i row,
  0 <= i -> i + Z.of_nat (length cs) <= 2 ^ 31 ->
  form_columns fresh m (cs ++ c :: rest) i targetList valueList row = RowNull.
Proof.
  intros Hvs Hm. induction Hvs as [|c' v cs vs Hcv Hrest IH]; intros i row Hi Hl.
  - pose proof (GetColumnRefIndexByName_value (colName c) targetList valueList) as Hv. cbv zeta in Hv. rewrite Hm in Hv.
    destruct Hv as [H0 Hd]. cbn [app form_columns]. rewrite (proj2 (Z.ltb_ge _ _)) by lia. by rewrite Hd.
  - simpl in Hl. destruct (form_column_step m c' (cs ++ c :: rest) i targetList valueList row v Hcv) as (col & n & _ & _ & E); [unfold in_i32; lia|].
    change ((c' :: cs) ++ c :: rest) with (c' :: (cs ++ c :: rest)). rewrite E. apply IH; lia.
Qed.

(** C14: a [VALUES] row becomes the row of the table. Column by column in the order of
    the table, a listed column holds the value at its place in the list, with its
    size and number set and readable as that value; a column that is not listed is
    an empty column. When a listed column has no value the whole row is given up. *)
Theorem ValuesFormRowData_row m tblMeta targetList valueList vs k :
  Forall2 (column_given m (default [] targetList) (default [] valueList)) (take k tblMeta) vs ->
  Z.of_nat (length tblMeta) <= 2 ^ 31 ->
  ((length tblMeta <= k)%nat ->
     exists row, ValuesFormRowData fresh fresh_size m tblMeta targetList valueList = RowOk row /\
       length (tr_columns row) = length tblMeta /\
       forall i c v, tblMeta !! i = Some c -> vs !! i = Some v ->
         exists col, tr_columns row !! i = Some col /\ column_holds (Z.of_nat i) c v col) /\
  (forall c, tblMeta !! k = Some c -> value_of (colName c) (default [] targetList) (default [] valueList) = Missing ->
     ValuesFormRowData fresh fresh_size m tblMeta targetList valueList = RowNull).
Proof.
  intros Hvs Hl. unfold ValuesFormRowData. set (row0 := mkTableRow _ []). split.
  - intros Hk. rewrite take_ge in Hvs by done.
    destruct (form_columns_run m targetList valueList _ _ Hvs 0 row0) as (row & -> & cols & Hc & Hlen & Hcols); [lia|lia|].
    exists row. cbn in Hc. subst cols. split_and!; [done|done|].
    intros i c v Hi Hv. destruct (Hcols i c v Hi Hv) as (col & Hcol & Hh). exists col. by split.
  - intros c Hc Hm. rewrite <- (take_drop_middle tblMeta k c Hc) at 1.
    apply (form_columns_missing m targetList valueList _ vs); [done|done|lia|]. rewrite length_take. lia.
Qed.

(** ** New values *)

Section operands.
Context (fresh_data : Z) (behind : list Z) (behind_ok : (48 <= length behind)%nat) (strs : Z -> option bytes).

Lemma TransformConstExpr_run vt val v s : means (mem s) vt val v -> ev_ok strs s ->
  exists e s', TransformConstExprValue fresh_data vt val s = Some (Some e, s') /\ ev_step strs s s' /\ stands (mem s') v e.
Proof.
  intros Hv Hok. destruct v as [z|b].
  - destruct Hv as [Ht <-]. exists (mkExpr VT_INTEGER 4 (set_iData fresh_data (iData val))), s.
    split; [by destruct (int_type_cases _ Ht) as [-> | ->]|]. split; [by apply ev_step_refl|].
    split; [done|]. apply iData_set, iData_range.
  - destruct Hv as [Ht Hc]. pose proof (hat_strlen_cstr _ _ _ Hc) as Hlen. destruct Hc as (_ & Hnz & junk & Hm).
    destruct (alloc_copy_run behind strs behind_ok s (b ++ [0]) Hok) as (s' & E & Hst & Hm' & _).
    exists (mkExpr VT_STRING (Z.of_nat (length b) + 1) (brk s)), s'. split_and!.
    + assert (TransformConstExprValue fresh_data VT_VARCHAR val s =
        Some (Some (mkExpr VT_STRING (Z.of_nat (length b) + 1) (brk s)), s')) as Hrun.
      { unfold TransformConstExprValue, pData. run_refl. run (st_lift_run _ _ s Hlen). run (st_lift_run _ _ s Hm).
        run (st_lift_run _ _ s (load_cstr b junk)). by run E. }
      by destruct (string_type_cases _ Ht) as [-> | ->].
    + done.
    + split; [done|]. split; [simpl; destruct Hok; lia|]. split; [done|]. exists []. done.
Qed.

Lemma transForm_int m e i z : stands m (VI z) e -> in_i32 i ->
  exists col, transFormExpr2RowColumnData fresh behind m (Some e) i = Some (Some col, []) /\
    forall t, int_type t = true -> shows_value col t i (VI z).
Proof.
  intros [Ht <-] Hi.
  destruct (sized_column_spec i (4 + 48)) as (c1 & E1 & Hl1 & Hc1); [lia|done|].
  assert (col_ok c1) as Hok by (unfold col_ok; by rewrite Hl1).
  unfold store32 in *.
  destruct (store_some c1 48 (le 4 (iData (data e)))) as (c2 & E2 & Hl2); [lia|rewrite length_le; lia|].
  assert (col_ok c2) as Hok2.
  { unfold col_ok, col_size in *. rewrite (load_i32_store_ne _ _ _ _ _ E2) by lia. by rewrite Hl2. }
  destruct (named_column c2 i) as (c3 & E3 & Hl3 & Hc3 & Hi3 & Hd3); [done|lia|done|].
  exists c3. split.
  - unfold transFormExpr2RowColumnData. change sizeof_RowColumnData with 48. unfold store32, off_data in *. change sizeof_RowColumnData with 48 in *.
    destruct (int_type_cases _ Ht) as [-> | ->]; rewrite E1; cbn [mbind option_bind]; rewrite E2; cbn [mbind option_bind];
      rewrite E3; reflexivity.
  - intros t Ht'. split; [split; [done|unfold sizeof_RowColumnData; lia]|]. split; [done|].
    split; [unfold sizeof_RowColumnData; simpl; lia|].
    apply column_value_int; [done| |apply iData_range]. unfold off_data, sizeof_RowColumnData. rewrite Hd3 by lia.
    rewrite (load_store_eq _ _ _ _ 4 E2); [done|by rewrite length_le].
Qed.

Lemma transForm_string m e i s : stands m (VS s) e -> in_i32 i -> in_i32 (48 + Z.of_nat (length s) + 1) ->
  exists col spill, transFormExpr2RowColumnData fresh behind m (Some e) i = Some (Some col, spill) /\ length spill = 48%nat /\
    forall t, string_type t = true -> shows_value col t i (VS s).
Proof.
  intros [Ht Hc] Hi Hs. pose proof (hat_strlen_cstr _ _ _ Hc) as Hlen. destruct Hc as (_ & Hnz & junk & Hm).
  set (n := Z.of_nat (length s)) in *.
  destruct (sized_column_spec i (n + 1 + 48)) as (c1 & E1 & Hl1 & Hc1); [lia|unfold in_i32 in *; lia|].
  assert (col_ok c1) as Hok by (unfold col_ok; by rewrite Hl1).
  set (src := (s ++ 0 :: junk) ++ behind).
  assert (load src 0 (n + 1 + 48) = Some (take (Z.to_nat (n + 1 + 48)) src)) as Eld.
  { rewrite load_some; [done|lia|lia|]. unfold src. rewrite !length_app. simpl. lia. }
  assert (take (Z.to_nat (n + 1)) (take (Z.to_nat (n + 1 + 48)) src) = s ++ [0]) as Etk.
  { rewrite take_take, Nat.min_l by lia. unfold src. change (0 :: junk) with ([0] ++ junk). rewrite !app_assoc.
    rewrite <- app_assoc. apply take_app_length'. rewrite length_app. simpl. lia. }
  destruct (store_some c1 48 (s ++ [0])) as (c2 & E2 & Hl2); [lia|rewrite length_app; simpl; lia|].
  assert (col_ok c2) as Hok2.
  { unfold col_ok, col_size in *. rewrite (load_i32_store_ne _ _ _ _ _ E2) by lia. by rewrite Hl2. }
  destruct (named_column c2 i) as (c3 & E3 & Hl3 & Hc3 & Hi3 & Hd3); [done|lia|done|].
  exists c3, (drop (Z.to_nat (n + 1)) (take (Z.to_nat (n + 1 + 48)) src)). split_and!.
  - unfold transFormExpr2RowColumnData, pData. change sizeof_RowColumnData with 48. change off_data with 48.
    destruct (string_type_cases _ Ht) as [-> | ->]; rewrite Hlen; cbn [mbind option_bind]; rewrite E1; cbn [mbind option_bind];
      rewrite Hm; cbn [mbind option_bind]; fold src; rewrite Eld; cbn [mbind option_bind]; rewrite Etk, E2; cbn [mbind option_bind];
      rewrite E3; reflexivity.
  - rewrite length_drop, length_take. unfold src. rewrite !length_app. simpl. lia.
  - intros t Ht'. split; [split; [done|unfold sizeof_RowColumnData; lia]|]. split; [done|].
    split; [unfold sizeof_RowColumnData; simpl; lia|].
    apply column_value_string; [done|done|done|rewrite length_app; simpl; lia|]. unfold off_data, sizeof_RowColumnData. rewrite Hd3 by lia.
    by apply (load_store_eq _ _ _ _ _ E2).
Qed.

(** C17: the value of [SET column = constant] survives its two conversions. The
    constant becomes an operand, the operand a new column numbered for its place,
    and the column reads back as the constant, for integers and strings. For a
    string 48 bytes more than the column holds are copied, behind its memory. *)
Theorem SetValue_column_roundtrip vt val v i s : means (mem s) vt val v -> sizable v -> in_i32 i -> ev_ok strs s ->
  exists e s' col spill, TransformConstExprValue fresh_data vt val s = Some (Some e, s') /\ ev_step strs s s' /\
    transFormExpr2RowColumnData fresh behind (mem s') (Some e) i = Some (Some col, spill) /\
    shows_value col vt i v /\ length spill = match v with VI _ => 0%nat | VS _ => 48%nat end.
Proof.
  intros Hv Hs Hi Hok. destruct (TransformConstExpr_run vt val v s Hv Hok) as (e & s' & E & Hst & He).
  destruct v as [z|b].
  - destruct (transForm_int _ _ i z He Hi) as (col & Ec & Hsh). exists e, s', col, []. destruct Hv as [Ht _].
    split_and!; [done|done|done|by apply Hsh|done].
  - destruct (transForm_string _ _ i b He Hi Hs) as (col & spill & Ec & Hsp & Hsh). exists e, s', col, spill. destruct Hv as [Ht _].
    split_and!; [done|done|done|by apply Hsh|done].
Qed.

(** A float has no new column: it is written before there is one. *)
Lemma transForm_float m e i : type e = VT_FLOAT \/ type e = VT_DOUBLE ->
  transFormExpr2RowColumnData fresh behind m (Some e) i = None.
Proof. unfold transFormExpr2RowColumnData. by intros [-> | ->]. Qed.

End operands.
End columns.

(** ** A concrete row: [INSERT INTO t (b, a) VALUES ('ab', 7)] in a table of three
    columns *)

Definition three_columns : list ColumnDefInfo := [mkColDef [97] VT_INT 0; mkColDef [98] VT_VARCHAR 1; mkColDef [99] VT_FLOAT 2].
Definition ba_targets : list TargetEntry := [mkTE 1 1 VT_VARCHAR [98] [98] None; mkTE 0 1 VT_INT [97] [97] None].
Definition ba_values : list Node := [N_ConstValue 1 8 VT_VARCHAR 0; N_ConstValue 2 7 VT_INT 0].
Definition ab_mem : strmem := {[ 8 := [97; 98; 0] ]}.

Lemma ab_cstr : cstr ab_mem 8 [97; 98].
Proof. split; [done|]. split; [by repeat constructor|]. by exists []. Qed.

Lemma ValuesFormRowData_row_witness :
  exists row, ValuesFormRowData (fun _ => []) 0 ab_mem three_columns (Some ba_targets) (Some ba_values) = RowOk row /\
    length (tr_columns row) = 3%nat.
Proof.
  pose proof (ValuesFormRowData_row (fun _ => []) 0 ab_mem three_columns (Some ba_targets) (Some ba_values)
    [Some (VI 7); Some (VS [97; 98]); None] 3) as [H _].
  - cbn [take three_columns]. constructor; [|constructor; [|constructor; [|constructor]]].
    + exists VT_INT, 7, (VI 7). by split_and!.
    + exists VT_VARCHAR, 8, (VS [97; 98]). split; [done|]. split; [done|]. split; [split; [done|apply ab_cstr]|by vm_compute].
    + reflexivity.
  - by vm_compute.
  - destruct H as (row & E & Hl & _); [simpl; lia|]. exists row. split; [exact E|exact Hl].
Defined.

Lemma SetValue_column_roundtrip_witness :
  exists e s' col spill, TransformConstExprValue 0 VT_VARCHAR 8 eval0 = Some (Some e, s') /\
    transFormExpr2RowColumnData (fun _ => []) (replicate 48 0) (mem s') (Some e) 1 = Some (Some col, spill) /\
    column_value col VT_VARCHAR = Some (VS [97; 98]).
Proof.
  destruct (SetValue_column_roundtrip (fun _ => []) 0 (replicate 48 0) ltac:(rewrite length_replicate; lia) strs0
    VT_VARCHAR 8 (VS [97; 98]) 1 eval0) as (e & s' & col & spill & E & _ & Ec & (_ & _ & _ & Hv) & _).
  - split; [done|]. apply ab_cstr.
  - by vm_compute.
  - by vm_compute.
  - apply eval0_ok.
  - exists e, s', col, spill. split; [exact E|]. split; [exact Ec|exact Hv].
Defined.
