(* ===== verification/Insert.v ===== *)
(** * INSERT

    Models how [INSERT] runs: the plan of [subPlanInsertStmt]
    ([src/src/sqlcore/plan/plan.c]), the scan of the [VALUES] rows
    ([executor/scan/valueScan.c]), the modify node and [pax_ExecInsert] of
    [executor/execModifyTable.c] with its state from [execInitNode.c], and the
    search for a group with room ([GetSpaceGroupPage], [GetFreeSpaceMemberPage] of
    [storage/buffer/buffer.c]). New structures are zero, as the code relies on. *)

From S2P Require Import Prelude Bytes Locks Transaction Snapshot Page PageStore Space DataTypes Express Plan Executor SeqScan Query Tuple.

(** ** A group with room *)

(** Entries are a column number, the number of its pages, and the pages. *)
Definition sizeof_MemberData : Z := 8.
Definition sizeof_PageOffset : Z := 8.

Fixpoint member_offset (members : list Z) (n : nat) (offset : Z) : option Z :=
  match n with
  | O => Some offset
  | S n => k ← load_i32 members (offset + 4); member_offset members n (offset + sizeof_MemberData + k * sizeof_PageOffset)
  end.

Definition member_pageno (members : list Z) (offset i : Z) : option Z :=
  load_i32 members (offset + sizeof_MemberData + i * sizeof_PageOffset + 4).

(** The pages of a column from the last one on. *)
Fixpoint member_pages (fuel : nat) (size : Z) (members : list Z) (offset pageIndex subPageNum : Z) : PM (option ptr) :=
  match fuel with
  | O => st_fault
  | S fuel =>
      if pageIndex =? 0 then mret None else
      page ← GetPageByIndex pageIndex MAIN_FORK;
      match page with
      | None => mret None
      | Some p =>
          LockPage page RWLock_READ;;
          b ← get_page p;
          free ← st_lift (HasFreeSpace b size);
          UnLockPage page RWLock_READ;;
          if (free : bool) then mret page else
          ReleasePage page;;
          if subPageNum <? 0 then mret None else
          next ← st_lift (member_pageno members offset subPageNum);
          member_pages fuel size members offset next (subPageNum - 1)
      end
  end.

Definition GetFreeSpaceMemberPage (fuel : nat) (size : Z) (members : list Z) (colIndex : Z) : PM (option ptr) :=
  offset ← st_lift (member_offset members (Z.to_nat colIndex) 0);
  memNum ← st_lift (load_i32 members (offset + 4));
  pageIndex ← st_lift (member_pageno members offset (memNum - 1));
  member_pages fuel size members offset pageIndex (memNum - 2).

(** [ReleasePageListMember] is [ReleasePageList] under another name. *)
Definition ReleasePageListMember := ReleasePageList.

(** The [ScanPageInfo] of the modify node: [searchPageList], the member entries of
    [groupItem], and the page list. *)
Record ModifyScan := mkModify {
  mo_search : SearchPageInfo; mo_groupItem : list Z; mo_pageList : list (option ptr); mo_isNoSpace : bool; mo_rowData : RowData }.

(** One page per column; the number of columns that got one. *)
Fixpoint pick_pages (fuel : nat) (members : list Z) (insertdata : list (list Z)) (num : Z) (colNum : nat)
    (pageList : list (option ptr)) : PM (nat * list (option ptr)) :=
  match insertdata with
  | [] => mret (colNum, pageList)
  | c :: insertdata =>
      size ← st_lift (col_size c);
      attrindex ← st_lift (load_i32 c off_attrindex);
      pageHeader ← GetFreeSpaceMemberPage fuel (size + (sizeof_TableRowData + ITEM_SIZE)) members attrindex;
      match pageHeader with
      | None => r ← ReleasePageListMember pageList num; mret (colNum, r.1)
      | Some _ =>
          if decide (colNum < length pageList)%nat then pick_pages fuel members insertdata num (S colNum) (<[colNum := pageHeader]> pageList)
          else st_fault
      end
  end.

(** The group item read last; its entries overwrite the item's buffer. *)
Definition with_group_item (found : Z) (g : option GroupItemData) (si : SearchPageInfo) (sc : ModifyScan) : ModifyScan :=
  mkModify si (match g with Some g => gi_members g | None => mo_groupItem sc end) (mo_pageList sc) (negb (found =? 1)) (mo_rowData sc).

Definition with_page_list (pl : list (option ptr)) (isNoSpace : bool) (sc : ModifyScan) : ModifyScan :=
  mkModify (mo_search sc) (mo_groupItem sc) pl isNoSpace (mo_rowData sc).

Fixpoint GetSpaceGroupPage (rounds fuel : nat) (insertdata : list (list Z)) (colNum : nat) (sc : ModifyScan) : PM (Z * ModifyScan) :=
  match rounds with
  | O => st_fault
  | S rounds =>
      let num := length insertdata in
      '(found, sc) ← (if mo_isNoSpace sc then
                        r ← GetGroupInfo fuel (mo_search sc);
                        mret (r.1.1, with_group_item r.1.1 r.1.2 r.2 sc)
                      else mret (1, sc));
      if negb (found =? 1) then mret (if (colNum <? num)%nat then -1 else 0, sc) else
      '(colNum, pl) ← pick_pages fuel (mo_groupItem sc) insertdata (Z.of_nat num) 0 (mo_pageList sc);
      if decide (colNum = num) then mret (0, with_page_list pl false sc)
      else GetSpaceGroupPage rounds fuel insertdata colNum (with_page_list pl true sc)
  end.

(** ** execModifyTable.c: inserting a row *)

Definition estat (r : EStat_RET) : Z :=
  match r with ESTAT_ERORR => 0 | ESTAT_SUCESS => 1 | ESTAT_NO_SPACE => 2 | ESTAT_UNKNOW => 3 end.

Section insert.
(** The transaction's id, the number of columns of the table, and bounds on the loops:
    the groups and pages of the table, and the extensions of one row. *)
Context (curr colNum : Z) (fuel rounds : nat).

(** The inner loop: a group with room, extending the table by one group after the
    other until there is one. [false] when the table cannot be extended. *)
Fixpoint find_space (tries : nat) (insertdata : list (list Z)) (sc : ModifyScan) : PM (bool * ModifyScan) :=
  match tries with
  | O => st_fault
  | S tries =>
      '(ret, sc) ← GetSpaceGroupPage rounds fuel insertdata 0 sc;
      if ret <? 0 then
        st_modify (emit EvExtStart);;
        page ← ExtensionTbl colNum MAIN_FORK;
        match page with
        | None => mret (false, sc)
        | Some _ =>
            InsertGroupItem fuel page colNum;;
            st_modify (emit EvExtEnd);;
            ReleasePage page;;
            find_space tries insertdata sc
        end
      else mret (true, sc)
  end.

Definition with_row (pl : list (option ptr)) (row : RowData) (sc : ModifyScan) : ModifyScan :=
  mkModify (mo_search sc) (mo_groupItem sc) pl (mo_isNoSpace sc) row.

(** [goto RETRY] when the pages were filled meanwhile. *)
Fixpoint insert_retry (tries : nat) (insertdata : list (list Z)) (sc : ModifyScan) : PM (Z * ModifyScan) :=
  match tries with
  | O => st_fault
  | S tries' =>
      '(ok, sc) ← find_space tries insertdata sc;
      if negb ok then mret (-1, sc) else
      '(ret, row) ← InsertRowDataWithGroup curr insertdata (mo_pageList sc) (mo_rowData sc);
      r ← ReleasePageList (mo_pageList sc) (Z.of_nat (length insertdata));
      let sc := with_row r.1 row sc in
      match ret with
      | ESTAT_NO_SPACE => insert_retry tries' insertdata sc
      | _ => mret (estat ret, sc)
      end
  end.

Definition pax_ExecInsert (tries : nat) (insertdata : list (list Z)) (sc : ModifyScan) : PM (Z * ModifyScan) :=
  if (length (mo_pageList sc) <? length insertdata)%nat then mret (-1, sc)
  else insert_retry tries insertdata sc.

End insert.

(** The scan state [InitExecNodeModifyTbl] makes: [targets] the length of the target
    list of the table's entry. *)
Definition InitExecNodeModifyTbl (targets colNum : Z) : ModifyScan :=
  let n := if targets <? colNum then colNum else targets in
  mkModify (mkSearch None 0 0 (PAGE_HEAD_PAGE_NUM + 1)) [] (replicate (Z.to_nat n) None) true
    (mkRowData (mkRowPos 0 0 0) (mkItem 0 0 0) 0 []).

(** ** The modify node

    Rows come from [child], the plan below; [modify] changes the table by one row and
    is given the result of the row before, which it keeps where the code leaves the
    switch early. *)

Definition ExecRetCode_SUC : Z := 0.

Section modify.
Context {X R : Type} (retCode : X -> Z) (set_retCode : Z -> X -> X).
Context (child : option (ST X (option R))) (modify : R -> Z -> ST X Z) (release : ST X unit).

Fixpoint modify_loop (fuel : nat) (next : ST X (option R)) (opRet suc_rows : Z) : ST X Z :=
  match fuel with
  | O => st_fault
  | S fuel =>
      rowData ← next;
      rc ← st_gets retCode;
      if rc <? ExecRetCode_SUC then mret suc_rows else
      match rowData with
      | None => mret suc_rows
      | Some row =>
          opRet ← modify row opRet;
          if opRet <? 0 then st_modify (set_retCode opRet);; mret suc_rows
          else modify_loop fuel next opRet (i32 (suc_rows + 1))
      end
  end.

Definition ExecTableModifyTbl (fuel : nat) : ST X unit :=
  match child with
  | None => st_modify (set_retCode ExecRetCode_ERR)
  | Some next =>
      suc_rows ← modify_loop fuel next (-1) 0;
      release;;
      if 0 <? suc_rows then st_modify (set_retCode suc_rows) else mret tt
  end.
End modify.

(** ** plan.c: the plan of an [INSERT]

    A modify node over the table's entry and a scan of the entry of the values, which
    is given the table. *)

Record InsertPlan := mkInsertPlan { ip_rangTbl : RTE; ip_values : RTE; ip_targetList : list TargetEntry }.

Definition GetValuesTypeRangTbl (rangTblList : list RTE) : option RTE :=
  List.find (fun e => match qr_relkind e with RELKIND_VALUES => true | _ => false end) rangTblList.

Definition with_tblInfo (t : Z) (e : RTE) : RTE :=
  mkRTEntry (qr_relkind e) (qr_rindex e) t (qr_relname e) (qr_targetList e) (qr_ValueList e) (qr_isScaned e) (qr_isNeeded e).

Definition subPlanInsertStmt (q : QueryTree) : option InsertPlan :=
  values ← GetValuesTypeRangTbl (qt_rtable q);
  first ← qt_rtable q !! 0%nat;
  Some (mkInsertPlan first (with_tblInfo (qr_tblInfo first) values) (qt_targetList q)).

(** ** valueScan.c *)

Record ValueScan := mkVS { vs_rows : list (list (list Z)); vs_rowNum : Z; vs_current : option (list (list Z)) }.

(** The executor's state for an [INSERT]. *)
Record InsState := mkIns { in_pages : PageState; in_retCode : Z; in_scan : option ValueScan; in_modify : ModifyScan }.

Abbreviation IM := (ST InsState).

Definition set_inretCode (z : Z) (s : InsState) : InsState := mkIns (in_pages s) z (in_scan s) (in_modify s).
Definition set_inscan (v : ValueScan) (s : InsState) : InsState := mkIns (in_pages s) (in_retCode s) (Some v) (in_modify s).

Section values.
(** What new memory holds, by row and column; the strings of the statement; the columns
    of a table. *)
Context (fresh : nat -> Z -> list Z) (fresh_size : Z) (m : strmem) (tableDef : Z -> list ColumnDefInfo).

(** The rows up to the first one that is given up. *)
Fixpoint transform_rows (tblMeta : list ColumnDefInfo) (targetList : list TargetEntry) (valueList : list (list Node)) (n : nat)
    : option (list (list (list Z))) :=
  match valueList with
  | [] => Some []
  | values :: valueList =>
      match ValuesFormRowData (fresh n) fresh_size m tblMeta (Some targetList) (Some values) with
      | RowFault => None
      | RowNull => Some []
      | RowOk row => rows ← transform_rows tblMeta targetList valueList (S n); Some (tr_columns row :: rows)
      end
  end.

Definition TransformValues (rte : RTE) : IM Z :=
  if decide (qr_tblInfo rte = 0) then st_modify (set_inretCode ExecRetCode_ERR);; mret (-1) else
  valueList ← st_lift (qr_ValueList rte);
  rows ← st_lift (transform_rows (tableDef (qr_tblInfo rte)) (qr_targetList rte) valueList 0);
  let rowNum := Z.of_nat (length rows) in
  st_modify (set_inscan (mkVS rows (u32 rowNum) None));;
  mret (i32 rowNum).

Definition ValueScanNext (rte : RTE) : IM (option (list (list Z))) :=
  scanState ← st_gets in_scan;
  transformNum ← match scanState with Some _ => mret 1 | None => TransformValues rte end;
  if transformNum <=? 0 then mret None else
  scanState ← st_gets in_scan;
  sc ← st_lift scanState;
  match vs_rows sc with
  | [] =>
      st_modify (set_inscan (mkVS [] (vs_rowNum sc) None));;
      st_modify (set_inretCode ExecRetCode_SUC);;
      mret None
  | rowData :: rows =>
      st_modify (set_inscan (mkVS rows (vs_rowNum sc) (Some rowData)));;
      mret (Some rowData)
  end.

(** [pax_ExecModifyTable] with [T_InsertStmt]: no row is skipped. *)
Definition ExecModifyTable (curr colNum : Z) (fuel rounds tries : nat) (rowData : list (list Z)) (opRet : Z) : IM Z := fun s =>
  match pax_ExecInsert curr colNum fuel rounds tries rowData (in_modify s) (in_pages s) with
  | Some ((ret, sc), pg) => Some (ret, mkIns pg (in_retCode s) (in_scan s) sc)
  | None => None
  end.

(** The page of the group file the search holds. *)
Definition release_search : IM unit := fun s =>
  match ReleasePage (sp_page (mo_search (in_modify s))) (in_pages s) with
  | Some (_, pg) => Some (tt, mkIns pg (in_retCode s) (in_scan s) (in_modify s))
  | None => None
  end.

(** Initialising and running the plan: what it returns is the result code. *)
Definition ExecInsertPlan (curr : Z) (fuel rounds tries rows_max : nat) (plan : InsertPlan) (pg : PageState) : option (Z * PageState) :=
  let colNum := Z.of_nat (length (tableDef (qr_tblInfo (ip_rangTbl plan)))) in
  let s := mkIns pg 0 None (InitExecNodeModifyTbl (Z.of_nat (length (qr_targetList (ip_rangTbl plan)))) colNum) in
  '(_, s) ← ExecTableModifyTbl in_retCode set_inretCode (Some (ValueScanNext (ip_values plan)))
              (ExecModifyTable curr colNum fuel rounds tries) release_search rows_max s;
  Some (in_retCode s, in_pages s).
End values.

(** ** A stored table

    A group is its id, its first page and the rows of its columns; the pages of a
    group are consecutive, one per column. *)

Record StoredGroup := mkSG { sg_id : Z; sg_first : Z; sg_cols : list (list row) }.

Section stored.
Context (colNum : nat) (colNum_ok : (0 < colNum <= 250)%nat).

Abbreviation gpage := (GROUP_FORK, 2).

Definition group_item (g : StoredGroup) : row :=
  mkRow (group_len (Z.of_nat colNum)) (sg_id g) (member_data colNum 0 (sg_first g)).

Definition member_ptr (g : StoredGroup) (k : nat) : ptr := (MAIN_FORK, sg_first g + Z.of_nat k).
Definition member_ptrs (g : StoredGroup) : list ptr := member_ptr g <$> seq 0 colNum.

(** The group file: only its header, or one page of group items. *)
Definition group_file (gs : list StoredGroup) (s : PageState) : Prop :=
  (gs = [] /\ file_of GROUP_FORK 1 s) \/
  (file_of GROUP_FORK 2 s /\ exists gb, content s gpage = Some gb /\ page_rep gb (group_item <$> gs)).

(** The table has [N] pages; groups lie one behind the other. *)
Record stored (N : Z) (gs : list StoredGroup) (s : PageState) : Prop := {
  st_main : file_of MAIN_FORK N s;
  st_gfile : group_file gs s;
  st_bounds i g : gs !! i = Some g -> length (sg_cols g) = colNum /\ 1 < sg_first g /\ sg_first g + Z.of_nat colNum - 1 <= N;
  st_pages i g k rows : gs !! i = Some g -> sg_cols g !! k = Some rows ->
    exists b, content s (member_ptr g k) = Some b /\ page_rep b rows;
  st_apart i j g h : gs !! i = Some g -> gs !! j = Some h -> (i < j)%nat -> sg_first g + Z.of_nat colNum <= sg_first h }.

Lemma stored_reads N gs s s' : stored N gs s -> reads_to s s' -> stored N gs s'.
Proof.
  intros [A B C D E] [Hs _]. split; [by eapply file_of_same| |done| |done].
  - destruct B as [[H1 H2]|(H1 & gb & H2 & H3)]; [left|right]; (split; [done || by eapply file_of_same|]); [by eapply file_of_same|].
    exists gb. by rewrite (sc_content _ _ Hs).
  - intros i g k rows Hg Hk. destruct (D i g k rows Hg Hk) as (b & Hb & R). exists b. by rewrite (sc_content _ _ Hs).
Qed.

(** *** Member entries *)

Lemma member_data_memNum num : forall i0 pageno i, 0 <= i < Z.of_nat num ->
  load_i32 (member_data num i0 pageno) (i * 16 + 4) = Some 1.
Proof.
  induction num as [|num IH]; intros i0 pageno i Hi; [lia|]. cbn [member_data].
  assert (length (member_bytes i0 pageno) = 16%nat) as Hl by (unfold member_bytes; by rewrite !length_app, !length_le).
  unfold load_i32, load_u32 in *. destruct (decide (i = 0)) as [->|].
  - rewrite load_app_l by (rewrite Hl; lia). unfold member_bytes.
    rewrite load_app_r by (rewrite !length_le; lia). rewrite !length_le. simpl Z.sub. reflexivity.
  - rewrite load_app_r, Hl by (rewrite Hl; lia).
    replace (i * 16 + 4 - Z.of_nat 16) with ((i - 1) * 16 + 4) by lia. apply IH. lia.
Qed.

Lemma member_offset_run m n k : forall j,
  (forall c, 0 <= c < Z.of_nat n -> load_i32 m (c * 16 + 4) = Some 1) -> (j + k <= n)%nat ->
  member_offset m k (Z.of_nat j * 16) = Some (Z.of_nat (j + k) * 16).
Proof.
  induction k as [|k IH]; intros j Hm Hj; cbn [member_offset]; [by rewrite Nat.add_0_r|].
  rewrite Hm by lia. cbn [mbind option_bind]. unfold sizeof_MemberData, sizeof_PageOffset.
  replace (Z.of_nat j * 16 + 8 + 1 * 8) with (Z.of_nat (S j) * 16) by lia. rewrite IH by (done || lia). f_equal. lia.
Qed.

(** The page of a column, when it has room. *)
Lemma GetFreeSpaceMemberPage_run fuel size g k rows b s : (0 < fuel)%nat -> (k < colNum)%nat ->
  0 < sg_first g -> sg_first g + Z.of_nat colNum <= 2 ^ 31 ->
  content s (member_ptr g k) = Some b -> page_rep b rows ->
  exists s', GetFreeSpaceMemberPage fuel size (member_data colNum 0 (sg_first g)) (Z.of_nat k) s =
      Some (if size <? free_space rows then Some (member_ptr g k) else None, s') /\ reads_to s s' /\
    (size < free_space rows -> pages s' !! member_ptr g k = Some b).
Proof.
  intros Hf Hk Hp Hmax Hb R. unfold GetFreeSpaceMemberPage. rewrite Nat2Z.id.
  pose proof (member_offset_run (member_data colNum 0 (sg_first g)) colNum k 0 (member_data_memNum colNum 0 (sg_first g)) ltac:(lia)) as Ho.
  run (st_lift_run _ _ s Ho). cbn [Nat.add].
  run (st_lift_run _ _ s (member_data_memNum colNum 0 (sg_first g) (Z.of_nat k) ltac:(lia))).
  assert (member_pageno (member_data colNum 0 (sg_first g)) (Z.of_nat k * 16) (1 - 1) = Some (sg_first g + Z.of_nat k)) as Hpg.
  { unfold member_pageno, sizeof_MemberData, sizeof_PageOffset.
    pose proof (member_data_pageno colNum 0 (sg_first g) (Z.of_nat k) ltac:(lia) ltac:(unfold in_i32; lia)) as H.
    unfold GetGroupMemberPageNo, sizeof_Member in H. rewrite <- H. f_equal. lia. }
  run (st_lift_run _ _ s Hpg). destruct fuel as [|f]; [lia|]. cbn [member_pages].
  rewrite (proj2 (Z.eqb_neq _ _)) by lia.
  destruct (GetPageByIndex_reads s MAIN_FORK (sg_first g + Z.of_nat k) b) as (s1 & E1 & Hs1 & Hc1); [lia|exact Hb|].
  run E1. destruct (LockPage_reads (Some (member_ptr g k)) RWLock_READ s1) as (s2 & E2 & Hs2). run E2.
  assert (pages s2 !! member_ptr g k = Some b) as Hc2 by (by apply (rt_cached _ _ Hs2)).
  run (get_page_run _ _ _ Hc2). run (st_lift_run _ _ s2 (HasFreeSpace_rep _ _ size R)).
  destruct (UnLockPage_reads (Some (member_ptr g k)) RWLock_READ s2) as (s3 & E3 & Hs3). run E3.
  assert (reads_to s s3) as H3 by (eapply reads_to_trans; [exact Hs1|]; by eapply reads_to_trans).
  destruct (Z.ltb_spec size (free_space rows)) as [Hlt|Hge].
  - exists s3. split_and!; [done|done|]. intros _. by apply (rt_cached _ _ Hs3).
  - destruct (ReleasePage_reads (Some (member_ptr g k)) s3) as (s4 & E4 & Hs4). run E4.
    exists s4. split_and!; [done|by eapply reads_to_trans|lia].
Qed.

(** A row of the table: one complete column per place. *)
Definition row_ready (cols : list (list Z)) : Prop :=
  length cols = colNum /\ forall k c, cols !! k = Some c -> column_ok c /\ load_i32 c off_attrindex = Some (Z.of_nat k).

Definition cached (s : PageState) (g : StoredGroup) (n : nat) : Prop :=
  forall j, (j < n)%nat -> is_Some (pages s !! member_ptr g j).

Lemma cached_reads s s' g n : cached s g n -> reads_to s s' -> cached s' g n.
Proof. intros Hc Hs j Hj. destruct (Hc j Hj) as [b Hb]. exists b. by apply (rt_cached _ _ Hs). Qed.

(** The pages of a group, as long as its columns have room. *)
Lemma pick_pages_run fuel N gs i g cols : (0 < fuel)%nat -> gs !! i = Some g -> row_ready cols -> forall rest k pl s,
  stored N gs s -> drop k cols = rest -> (k <= colNum)%nat -> (colNum <= length pl)%nat ->
  take k pl = Some <$> (member_ptr g <$> seq 0 k) -> cached s g k ->
  exists n pl' s', pick_pages fuel (member_data colNum 0 (sg_first g)) rest (Z.of_nat colNum) k pl s = Some ((n, pl'), s') /\
    reads_to s s' /\ length pl' = length pl /\
    if all_fit (drop k (sg_cols g)) rest
    then n = colNum /\ take colNum pl' = Some <$> member_ptrs g /\ cached s' g colNum
    else (n < colNum)%nat.
Proof.
  intros Hf Hg [Hlen Hcols]. induction rest as [|c rest IH]; intros k pl s St Hrest Hk Hpl Htk Hc; cbn [pick_pages].
  - assert (k = colNum) as -> by (apply (f_equal length) in Hrest; rewrite length_drop in Hrest; simpl in Hrest; lia).
    exists colNum, pl, s. split_and!; [done|apply reads_to_refl|done|]. by destruct (drop colNum (sg_cols g)).
  - assert (cols !! k = Some c) as Hck by (rewrite <- (Nat.add_0_r k), <- lookup_drop, Hrest; done).
    pose proof (lookup_lt_Some _ _ _ Hck) as Hlt. destruct (Hcols k c Hck) as ([Hok _] & Hat).
    destruct (st_bounds _ _ _ St i g Hg) as (Hl & H1 & H2). destruct (fo_pos _ _ _ (st_main _ _ _ St)) as [_ HN].
    destruct (lookup_lt_is_Some_2 (sg_cols g) k) as [rows Hrows]; [lia|].
    destruct (st_pages _ _ _ St i g k rows Hg Hrows) as (b & Hb & R).
    run (st_lift_run _ _ s Hok). run (st_lift_run _ _ s Hat).
    assert (Z.of_nat (length c) + (sizeof_TableRowData + ITEM_SIZE) = row_need c) as Hn by (unfold row_need; lia). rewrite Hn.
    destruct (GetFreeSpaceMemberPage_run fuel (row_need c) g k rows b s) as (s1 & E1 & Hs1 & Hp1); [done|lia|lia|lia|done|done|].
    run E1. rewrite (drop_S _ _ _ Hrows). cbn [all_fit].
    assert (drop (S k) cols = rest) as Hrest' by (rewrite (drop_S _ _ _ Hck) in Hrest; by injection Hrest).
    destruct (Z.ltb_spec (row_need c) (free_space rows)) as [Hlt'|Hge]; cbn [andb].
    + rewrite decide_True by lia.
      destruct (IH (S k) (<[k:=Some (member_ptr g k)]> pl) s1) as (n & pl' & s' & E & Hs' & Hl' & Hr).
      * by eapply stored_reads.
      * done.
      * lia.
      * by rewrite length_insert.
      * rewrite (take_S_r _ _ (Some (member_ptr g k))) by (apply list_lookup_insert_eq; lia).
        rewrite take_insert_ge, Htk, seq_S, !fmap_app by lia. done.
      * intros j Hj. destruct (decide (j = k)) as [->|]; [by rewrite (Hp1 Hlt')|].
        apply (cached_reads s s1 g k Hc Hs1). lia.
      * exists n, pl', s'. split_and!; [done|by eapply reads_to_trans|by rewrite Hl', length_insert|done].
    + destruct (ReleasePageList_reads pl colNum s1) as (pl' & z & s2 & E2 & Hl2 & Hs2); [lia|lia|].
      exists k, pl', s2. split_and!; [by run E2|by eapply reads_to_trans|done|lia].
Qed.

(** *** Where the search stands *)

(** The next group the search reads is [i]. *)
Definition before (si : SearchPageInfo) (i : nat) (s : PageState) : Prop :=
  (sp_page si = None /\ sp_pageNum si = 2 /\ i = 0%nat) \/
  (sp_page si = Some gpage /\ is_Some (pages s !! gpage) /\ exists j, i = S j /\ sp_item_offset si = item_off j).

(** The state of the modify node before group [i] is tried. *)
Record ready (sc : ModifyScan) (gs : list StoredGroup) (i : nat) (s : PageState) : Prop := {
  rd_pages : (colNum <= length (mo_pageList sc))%nat;
  rd_row : item_clean (item (mo_rowData sc));
  rd_at : if mo_isNoSpace sc then before (mo_search sc) i s
          else (exists g, gs !! i = Some g /\ mo_groupItem sc = member_data colNum 0 (sg_first g)) /\ before (mo_search sc) (S i) s;
  rd_le : (i <= length gs)%nat }.

(** The first group from [i] on with room for a row. *)
Definition first_fit (gs : list StoredGroup) (cols : list (list Z)) (i : nat) : option nat :=
  (fun x => (i + x.1)%nat) <$> list_find (fun g => all_fit (sg_cols g) cols = true) (drop i gs).

Lemma first_fit_step gs cols i g : gs !! i = Some g ->
  first_fit gs cols i = if all_fit (sg_cols g) cols then Some i else first_fit gs cols (S i).
Proof.
  intros Hg. unfold first_fit. rewrite (drop_S _ _ _ Hg). cbn [list_find].
  destruct (all_fit (sg_cols g) cols) eqn:E.
  - rewrite decide_True by done. cbn. f_equal. lia.
  - rewrite decide_False by done. destruct (list_find _ (drop (S i) gs)) as [[k x]|]; [|done]. cbn. f_equal. lia.
Qed.

Lemma first_fit_end gs cols : first_fit gs cols (length gs) = None.
Proof. unfold first_fit. by rewrite drop_ge. Qed.

Lemma first_fit_some gs cols i j : first_fit gs cols i = Some j -> exists g, gs !! j = Some g /\ all_fit (sg_cols g) cols = true.
Proof.
  unfold first_fit. destruct (list_find _ (drop i gs)) as [[k g]|] eqn:E; [|done]. intros [= <-].
  apply list_find_Some in E as (Hg & Hfit & _). rewrite lookup_drop in Hg. by exists g.
Qed.

(** What [GetGroupInfo] finds. *)
Lemma GetGroupInfo_stored fuel N gs si i s : (2 <= fuel)%nat -> stored N gs s -> before si i s -> (i <= length gs)%nat ->
  match gs !! i with
  | Some g => exists it rid s', GetGroupInfo fuel si s =
        Some ((1, Some (mkGroup 2 it (member_data colNum 0 (sg_first g))), mkSearch (Some gpage) (item_off i) rid 2), s') /\
      reads_to s s' /\ is_Some (pages s' !! gpage)
  | None => exists z off rid s', z <> 1 /\ GetGroupInfo fuel si s = Some ((z, None, mkSearch None off rid 2), s') /\ reads_to s s'
  end.
Proof.
  intros Hf St Hb Hi. destruct (st_gfile _ _ _ St) as [[-> HF]|(HF & gb & Hgb & R)].
  - destruct Hb as [(Hpg & Hn & ->)|(Hpg & [b Hc] & _)].
    + exists (-1), (sp_item_offset si), (sp_group_id si), s. split; [done|]. split; [|apply reads_to_refl].
      unfold GetGroupInfo. rewrite Hpg, Hn.
      assert (GetPageByIndex 2 GROUP_FORK s = Some (None, s)) as E by (apply GetPageByIndex_none; [lia|]; apply (fo_end _ _ _ HF); lia).
      by run E.
    + pose proof (fo_end _ _ _ HF 2 ltac:(lia)) as He. unfold content in He. by rewrite Hc in He.
  - destruct (fo_page _ _ _ HF 2 ltac:(lia)) as (b & rm & Hb' & _ & Hno & _). assert (b = gb) as -> by congruence.
    assert (at_group gb si i s) as Hat.
    { destruct Hb as [H|(Hpg & Hc & H)]; [by left|right]. split; [done|]. split; [|done]. by apply cached_content. }
    pose proof (GetGroupInfo_item gb (group_item <$> gs) R Hno fuel Hf si i s Hat Hgb (fo_end _ _ _ HF 3 ltac:(lia))) as H.
    rewrite length_fmap, list_lookup_fmap in H. specialize (H Hi). destruct (gs !! i) as [g|]; cbn [fmap option_fmap option_map] in H.
    + destruct H as (it & rid & s' & E & Hs' & Hc). exists it, rid, s'. split_and!; [exact E|exact Hs'|by exists gb].
    + destruct H as (off & rid & s' & E & Hs'). by exists 0, off, rid, s'.
Qed.

(** The search for a group with room is a first fit over the groups. *)
Lemma GetSpaceGroupPage_run fuel N gs cols : (2 <= fuel)%nat -> row_ready cols -> forall rounds i sc n0 s,
  stored N gs s -> ready sc gs i s -> (length gs - i < rounds)%nat -> (n0 < colNum)%nat ->
  exists r sc' s', GetSpaceGroupPage rounds fuel cols n0 sc s = Some ((r, sc'), s') /\ reads_to s s' /\
    match first_fit gs cols i with
    | Some j => r = 0 /\ ready sc' gs j s' /\ mo_isNoSpace sc' = false /\
        exists g, gs !! j = Some g /\ take colNum (mo_pageList sc') = Some <$> member_ptrs g /\ cached s' g colNum
    | None => r = -1 /\ ready sc' gs 0 s' /\ mo_isNoSpace sc' = true
    end.
Proof.
  intros Hf Hrow. induction rounds as [|rounds IH]; intros i sc n0 s St Hrd Hrounds Hn0; [lia|]. cbn [GetSpaceGroupPage].
  destruct Hrow as [Hlen Hcols]. rewrite Hlen.
  assert (forall g sc1 s1, gs !! i = Some g -> stored N gs s1 -> reads_to s s1 -> (colNum <= length (mo_pageList sc1))%nat ->
    item_clean (item (mo_rowData sc1)) -> mo_groupItem sc1 = member_data colNum 0 (sg_first g) -> before (mo_search sc1) (S i) s1 ->
    exists r sc' s', ('(colNum0, pl) ← pick_pages fuel (mo_groupItem sc1) cols (Z.of_nat colNum) 0 (mo_pageList sc1);
       if decide (colNum0 = colNum) then mret (0, with_page_list pl false sc1)
       else GetSpaceGroupPage rounds fuel cols colNum0 (with_page_list pl true sc1)) s1 = Some ((r, sc'), s') /\ reads_to s s' /\
    match first_fit gs cols i with
    | Some j => r = 0 /\ ready sc' gs j s' /\ mo_isNoSpace sc' = false /\
        exists g, gs !! j = Some g /\ take colNum (mo_pageList sc') = Some <$> member_ptrs g /\ cached s' g colNum
    | None => r = -1 /\ ready sc' gs 0 s' /\ mo_isNoSpace sc' = true
    end) as Htry.
  { intros g sc1 s1 Hg St1 Hs1 Hpl Hit Hgi Hb. rewrite Hgi, (first_fit_step gs cols i g Hg).
    pose proof (lookup_lt_Some _ _ _ Hg) as Hil.
    assert (forall s2, reads_to s1 s2 -> before (mo_search sc1) (S i) s2) as Hb'.
    { intros s2 Hs2. destruct Hb as [H|(H1 & [b H2] & H3)]; [by left|right]. split_and!; [done| |done].
      exists b. by apply (rt_cached _ _ Hs2). }
    destruct (pick_pages_run fuel N gs i g cols ltac:(lia) Hg (conj Hlen Hcols) cols 0 (mo_pageList sc1) s1) as
      (n & pl' & s2 & E2 & Hs2 & Hl2 & Hr); [done|by rewrite drop_0|lia|done|done|by intros j Hj; lia|].
    run E2. rewrite drop_0 in Hr. destruct (all_fit (sg_cols g) cols).
    - destruct Hr as (-> & Htk & Hc). rewrite decide_True by done.
      exists 0, (with_page_list pl' false sc1), s2. split; [done|]. split; [by eapply reads_to_trans|].
      split; [done|]. split; [|split; [done|by exists g]].
      split; [simpl; lia|done| |lia]. simpl. split; [by exists g|by apply Hb'].
    - rewrite decide_False by lia.
      destruct (IH (S i) (with_page_list pl' true sc1) n s2) as (r & sc' & s' & E & Hs' & H); [by eapply stored_reads| |lia|done|].
      + split; [simpl; lia|done|simpl; by apply Hb'|lia].
      + exists r, sc', s'. split_and!; [exact E| |exact H]. eapply reads_to_trans; [exact Hs1|]. by eapply reads_to_trans. }
  destruct (mo_isNoSpace sc) eqn:Hno.
  - pose proof (rd_at _ _ _ _ Hrd) as Hat. rewrite Hno in Hat.
    pose proof (GetGroupInfo_stored fuel N gs (mo_search sc) i s Hf St Hat (rd_le _ _ _ _ Hrd)) as HG.
    destruct (gs !! i) as [g|] eqn:Hg.
    + destruct HG as (it & rid & s1 & E1 & Hs1 & Hc1).
      erewrite st_bind_some by (run E1; reflexivity). cbn [fst snd]. change (negb (1 =? 1)) with false. cbv iota.
      apply (Htry g); [done|by eapply stored_reads|done|apply (rd_pages _ _ _ _ Hrd)|apply (rd_row _ _ _ _ Hrd)|done|].
      right. split_and!; [done|done|]. by exists i.
    + destruct HG as (z & off & rid & s1 & Hz & E1 & Hs1).
      erewrite st_bind_some by (run E1; reflexivity). cbn [fst snd]. rewrite (proj2 (Z.eqb_neq z 1)) by done. cbn [negb].
      rewrite (proj2 (Nat.ltb_lt _ _)) by done. apply lookup_ge_None in Hg.
      assert (i = length gs) as -> by (pose proof (rd_le _ _ _ _ Hrd); lia). rewrite first_fit_end.
      eexists (-1), _, s1. split; [reflexivity|]. split; [done|]. split; [done|].
      split; [|simpl; by rewrite (proj2 (Z.eqb_neq z 1))]. split; [apply (rd_pages _ _ _ _ Hrd)|apply (rd_row _ _ _ _ Hrd)| |lia].
      unfold with_group_item. cbn [mo_isNoSpace mo_search]. rewrite (proj2 (Z.eqb_neq z 1)) by done. by left.
  - pose proof (rd_at _ _ _ _ Hrd) as Hat. rewrite Hno in Hat. destruct Hat as [(g & Hg & Hgi) Hb]. run_refl.
    change (negb (1 =? 1)) with false. cbv iota.
    apply (Htry g); [done|done|apply reads_to_refl|apply (rd_pages _ _ _ _ Hrd)|apply (rd_row _ _ _ _ Hrd)|done|done].
Qed.

(** ** Making a group *)

Lemma file_of_other f n s s' : (forall k, content s' (f, k) = content s (f, k)) -> counter f s' = counter f s ->
  file_of f n s -> file_of f n s'.
Proof. intros Hc Hn [A B C D]. split; [intros k Hk; rewrite Hc; by apply A|intros k Hk; rewrite Hc; by apply B|by rewrite Hn|done]. Qed.

(** The file ends where its contents end. *)
Lemma file_of_end f n k s : file_of f n s -> 0 < k -> content s (f, k) <> None -> content s (f, k + 1) = None -> n = k.
Proof.
  intros F Hk H1 H2. destruct (Z.lt_trichotomy n k) as [H|[H|H]]; [|done|].
  - by rewrite (fo_end _ _ _ F k H) in H1.
  - destruct (fo_page _ _ _ F (k + 1) ltac:(lia)) as (b & _ & Hb & _). congruence.
Qed.

Definition blank_group (id N : Z) : StoredGroup := mkSG id (N + 1) (replicate colNum []).

(** Room for one more group, in the files and in the page of group items. *)
Record group_room (N : Z) (gs : list StoredGroup) (s : PageState) : Prop := {
  gr_main : N + Z.of_nat colNum < 2 ^ 31;
  gr_id : 0 <= group_id s < 2 ^ 32 - 1;
  gr_page : ITEM_SIZE + Z.of_nat colNum * sizeof_Member < free_space (group_item <$> gs) }.

Lemma page_rep_unique p rows rows' : page_rep p rows -> page_rep p rows' -> rows = rows'.
Proof.
  intros R R'. assert (length rows = length rows') as Hl.
  { pose proof (pr_do _ _ R) as H. rewrite (pr_do _ _ R') in H. unfold item_off, ITEM_SIZE in H. injection H. lia. }
  apply list_eq_same_length with (length rows); [done|done|]. intros i r r' Hi Hr Hr'.
  pose proof (pr_item _ _ R i r Hr) as E. rewrite (pr_item _ _ R' i r' Hr') in E. injection E as Eo El Ei.
  destruct (pr_ok _ _ R r) as [Hs _]; [by eapply list_elem_of_lookup_2|].
  destruct (pr_ok _ _ R' r') as [Hs' _]; [by eapply list_elem_of_lookup_2|].
  pose proof (pr_row _ _ R i r Hr) as Eb. pose proof (pr_row _ _ R' i r' Hr') as Eb'.
  rewrite Eo, <- Hs', El, Hs, Eb in Eb'. injection Eb' as Eb'. destruct r, r'. simpl in *. congruence.
Qed.

Lemma group_file_pages gs s : group_file gs s -> exists M, file_of GROUP_FORK M s /\ group_pages M s /\
  ((M = 1 /\ gs = []) \/ (M = 2 /\ exists gb, content s gpage = Some gb /\ page_rep gb (group_item <$> gs))).
Proof.
  intros [[-> HF]|(HF & gb & Hgb & R)].
  - exists 1. split; [done|]. split; [intros k Hk; lia|by left].
  - exists 2. split; [done|]. split; [|right; split; [done|by exists gb]].
    intros k Hk. assert (k = 2) as -> by lia. by exists gb, (group_item <$> gs).
Qed.

(** The group file after a group was added. *)
Lemma InsertGroupItem_stored fuel N gs s last lb : (3 < fuel)%nat -> group_file gs s ->
  pages s !! last = Some lb -> pageNum lb = Some (N + Z.of_nat colNum) -> last.1 = MAIN_FORK -> 1 <= N -> group_room N gs s ->
  exists s', InsertGroupItem fuel (Some last) (Z.of_nat colNum) s = Some (0, s') /\
    group_file (gs ++ [blank_group (group_id s + 1) N]) s' /\
    group_id s' = group_id s + 1 /\ pageCnt s' = pageCnt s /\ (forall k, content s' (MAIN_FORK, k) = content s (MAIN_FORK, k)).
Proof.
  intros Hf St Hlast Hno _ HN [Hm Hid Hroom].
  destruct (group_file_pages gs s St) as (M & HF & HG & HM).
  destruct (InsertGroupItem_run fuel last lb (N + Z.of_nat colNum) (Z.of_nat colNum) M s) as
    (k & n' & b & b' & rows & s' & E & R & Hw & Hc' & _ & R' & Hid' & Hcnt & HF' & Hk & Ho & _); try done.
  - destruct HM as [[-> _]|[-> _]]; lia.
  - destruct HM as [[-> _]|[-> _]]; lia.
  - lia.
  - unfold PAGE_HEAD_PAGE_NUM. lia.
  - exists s'. split; [done|]. split_and!; [|done|done|intros j; apply Ho; congruence].
    rewrite Nat2Z.id in R'. replace (N + Z.of_nat colNum - Z.of_nat colNum + 1) with (N + 1) in R' by lia.
    assert (k = 2 /\ rows = group_item <$> gs) as [-> ->].
    { destruct HM as [[-> ->]|(-> & gb & Hgb & Rg)].
      - destruct Hw as [Hw|(-> & -> & _)]; [|done]. by rewrite (fo_end _ _ _ HF k) in Hw by lia.
      - destruct Hw as [Hw|(-> & _ & Hfull)].
        + assert (k = 2) as -> by (destruct (decide (k <= 2)); [lia|by rewrite (fo_end _ _ _ HF k) in Hw by lia]).
          split; [done|]. assert (b = gb) as -> by congruence. by eapply page_rep_unique.
        + exfalso. destruct (Hfull 2 ltac:(lia)) as (b2 & r2 & Hb2 & Hr2 & Hle). assert (b2 = gb) as -> by congruence.
          rewrite (page_rep_room _ _ _ Rg Hr2) in Hle. lia. }
    right. assert (n' = 2) as ->.
    { apply (file_of_end GROUP_FORK n' 2 s' HF'); [lia|by rewrite Hc'|]. rewrite Ho by (intros [= ?]).
      apply (fo_end _ _ _ HF). destruct HM as [[-> _]|[-> _]]; lia. }
    split; [done|]. exists b'. split; [done|]. rewrite fmap_app. exact R'.
Qed.

(** The table extended by a group. *)
Lemma extend_group_run fuel N gs s : (3 < fuel)%nat -> stored N gs s -> group_room N gs s -> 
  exists p s1 s2, ExtensionTbl (Z.of_nat colNum) MAIN_FORK s = Some (Some p, s1) /\
    InsertGroupItem fuel (Some p) (Z.of_nat colNum) s1 = Some (0, s2) /\
    stored (N + Z.of_nat colNum) (gs ++ [blank_group (group_id s + 1) N]) s2 /\ group_id s2 = group_id s + 1.
Proof.
  intros Hf St Hr. destruct (fo_pos _ _ _ (st_main _ _ _ St)) as [HN1 _].
  destruct (ExtensionTbl_run (Z.of_nat colNum) MAIN_FORK N s (st_main _ _ _ St)) as (s1 & E1 & X & _ & [lb Hlb]);
    [unfold PAGE_EXTENSION_MAX_NUM; lia|apply (gr_main _ _ _ Hr)|].
  assert (forall q, q.1 = GROUP_FORK -> content s1 q = content s q) as Hq.
  { intros [f k] Hf'. simpl in Hf'. subst f. apply (ex_other _ _ _ _ _ X); [congruence|]. intros; congruence. }
  assert (group_file gs s1) as G1.
  { pose proof (ex_counter _ _ _ _ _ X GROUP_FORK ltac:(done)) as Hcnt.
    destruct (st_gfile _ _ _ St) as [[H1 H2]|(H1 & gb & H2 & H3)]; [left|right].
    - split; [done|]. eapply file_of_other; [|exact Hcnt|exact H2]. intros k. by apply Hq.
    - split; [eapply file_of_other; [|exact Hcnt|exact H1]; intros k; by apply Hq|]. exists gb. by rewrite Hq. }
  destruct (fo_page _ _ _ (ex_file _ _ _ _ _ X) (N + Z.of_nat colNum) ltac:(lia)) as (lb' & _ & Hlb' & _ & Hno & _).
  assert (lb' = lb) as -> by (unfold content in Hlb'; rewrite Hlb in Hlb'; congruence).
  destruct (InsertGroupItem_stored fuel N gs s1 (MAIN_FORK, N + Z.of_nat colNum) lb) as (s2 & E2 & G2 & Hid & Hcnt & Hmain);
    [done|done|done|done|done|lia|destruct Hr; by split; rewrite ?(ex_group _ _ _ _ _ X)|].
  rewrite (ex_group _ _ _ _ _ X) in *.
  exists (MAIN_FORK, N + Z.of_nat colNum), s1, s2. split; [done|]. split; [done|]. split; [|done].
  assert (forall g k b, 1 < sg_first g -> sg_first g + Z.of_nat k <= N -> content s (member_ptr g k) = Some b ->
    content s2 (member_ptr g k) = Some b) as Hold.
  { intros g k b H1 H2 Hb. unfold member_ptr in *. rewrite Hmain, (ex_other _ _ _ _ _ X); [done|intros [= ?]; lia|intros j Hj [= ?]; lia]. }
  split.
  - eapply file_of_other; [exact Hmain|exact Hcnt|apply (ex_file _ _ _ _ _ X)].
  - exact G2.
  - intros i g Hg. apply lookup_app_Some in Hg as [Hg|[Hi Hg]].
    + destruct (st_bounds _ _ _ St i g Hg) as (? & ? & ?). split_and!; [done|done|lia].
    + apply list_lookup_singleton_Some in Hg as [_ <-]. simpl. rewrite length_replicate. split_and!; [done|lia|lia].
  - intros i g k rows Hg Hk. apply lookup_app_Some in Hg as [Hg|[Hi Hg]].
    + destruct (st_pages _ _ _ St i g k rows Hg Hk) as (b & Hb & R). destruct (st_bounds _ _ _ St i g Hg) as (Hl & H1 & H2).
      apply lookup_lt_Some in Hk. exists b. split; [|done]. apply Hold; [done|lia|done].
    + apply list_lookup_singleton_Some in Hg as [_ <-]. simpl in Hk. apply lookup_replicate in Hk as [-> Hk].
      destruct (ex_blank _ _ _ _ _ X (N + 1 + Z.of_nat k)) as (b & Hb & R); [lia|]. exists b. split; [|done].
      unfold member_ptr. simpl. by rewrite Hmain.
  - intros i j g h Hg Hh Hij. apply lookup_app_Some in Hh as [Hh|[Hj Hh]].
    + pose proof (lookup_lt_Some _ _ _ Hh). rewrite lookup_app_l in Hg by lia. by apply (st_apart _ _ _ St i j).
    + apply list_lookup_singleton_Some in Hh as [Hj' <-]. rewrite lookup_app_l in Hg by lia.
      destruct (st_bounds _ _ _ St i g Hg) as (_ & _ & Hb). simpl. lia.
Qed.

(** *** A group with room, made if there is none *)

Definition fits_page (cols : list (list Z)) : Prop := Forall (fun c => row_need c < free_space []) cols.

(** Group [j] of [gs'] takes the row: the first that fits from [i] on, else the first
    that fits after a group was added. *)
Definition placed (N : Z) (gs : list StoredGroup) (cols : list (list Z)) (i : nat) (s : PageState)
    (N' : Z) (gs' : list StoredGroup) (j : nat) (id' : Z) : Prop :=
  match first_fit gs cols i with
  | Some k => N' = N /\ gs' = gs /\ j = k /\ id' = group_id s
  | None => N' = N + Z.of_nat colNum /\ gs' = gs ++ [blank_group (group_id s + 1) N] /\
      first_fit gs' cols 0 = Some j /\ id' = group_id s + 1
  end.

Lemma all_fit_blank cols n : fits_page cols -> (length cols <= n)%nat -> all_fit (replicate n []) cols = true.
Proof.
  intros Hf. revert n. induction Hf as [|c cols Hc Hf IH]; intros [|n] Hn; simpl in *; try (done || lia).
  rewrite (proj2 (Z.ltb_lt _ _) Hc). apply IH. lia.
Qed.

Lemma first_fit_blank gs id N cols : fits_page cols -> length cols = colNum ->
  is_Some (first_fit (gs ++ [blank_group id N]) cols 0).
Proof.
  intros Hf Hl. unfold first_fit. rewrite drop_0. apply fmap_is_Some. apply list_find_elem_of with (blank_group id N).
  - rewrite elem_of_app. right. by apply list_elem_of_singleton.
  - apply all_fit_blank; [done|lia].
Qed.

Lemma same_contents_emit_stored N gs s e : stored N gs s -> stored N gs (emit e s).
Proof. intros St. eapply stored_reads; [exact St|apply reads_to_emit]. Qed.

Section space.
Context (curr : Z) (fuel rounds : nat) (fuel_ok : (3 < fuel)%nat).

Lemma find_space_run N gs i sc cols tries s : stored N gs s -> ready sc gs i s -> row_ready cols -> fits_page cols ->
  (first_fit gs cols i = None -> group_room N gs s) -> (length gs + 2 < rounds)%nat -> (2 <= tries)%nat ->
  exists N' gs' j id' sc' s', find_space (Z.of_nat colNum) fuel rounds tries cols sc s = Some ((true, sc'), s') /\
    placed N gs cols i s N' gs' j id' /\ stored N' gs' s' /\ group_id s' = id' /\ ready sc' gs' j s' /\ mo_isNoSpace sc' = false /\
    exists g, gs' !! j = Some g /\ all_fit (sg_cols g) cols = true /\
      take colNum (mo_pageList sc') = Some <$> member_ptrs g /\ cached s' g colNum.
Proof.
  intros St Hrd Hrow Hfit Hroom Hrounds Htries. destruct tries as [|[|tries]]; [lia|lia|]. cbn [find_space].
  destruct (GetSpaceGroupPage_run fuel N gs cols ltac:(lia) Hrow rounds i sc 0 s St Hrd ltac:(lia) ltac:(lia))
    as (r & sc1 & s1 & E1 & Hs1 & H1).
  run E1. unfold placed. destruct (first_fit gs cols i) as [j|] eqn:Hff.
  - destruct H1 as (-> & Hrd1 & Hno & g & Hg & Htk & Hc). change (0 <? 0) with false. cbv iota.
    destruct (first_fit_some _ _ _ _ Hff) as (g' & Hg' & Hft). rewrite Hg in Hg'. injection Hg' as <-.
    exists N, gs, j, (group_id s), sc1, s1. split; [done|]. split; [done|]. split; [by eapply stored_reads|].
    split; [apply (sc_group _ _ (rt_same _ _ Hs1))|]. split; [done|]. split; [done|]. by exists g.
  - destruct H1 as (-> & Hrd1 & Hno1). change (-1 <? 0) with true. cbv iota. run_refl. set (s1' := emit _ s1).
    assert (stored N gs s1') as St1 by (apply same_contents_emit_stored; by eapply stored_reads).
    assert (group_id s1' = group_id s) as Hid1 by apply (sc_group _ _ (rt_same _ _ Hs1)).
    assert (group_room N gs s1') as Hr1 by (destruct (Hroom eq_refl); split; by rewrite ?Hid1).
    destruct (extend_group_run fuel N gs s1' fuel_ok St1 Hr1) as (p & s2 & s3 & E2 & E3 & St3 & Hid3).
    run E2. run E3. run_refl. set (s3' := emit _ s3). run_refl. set (s4 := emit _ s3').
    rewrite Hid1 in *. set (gs' := gs ++ [blank_group (group_id s + 1) N]) in *.
    assert (stored (N + Z.of_nat colNum) gs' s4) as St4 by (by do 2 apply same_contents_emit_stored).
    destruct (first_fit_blank gs (group_id s + 1) N cols Hfit (proj1 Hrow)) as [j Hj]. fold gs' in Hj.
    assert (ready sc1 gs' 0 s4) as Hrd4.
    { destruct Hrd1 as [A B C D]. split; [done|done| |lia]. rewrite Hno1 in *.
      left. destruct C as [C|(_ & _ & k & Hk & _)]; [done|lia]. }
    destruct (GetSpaceGroupPage_run fuel _ gs' cols ltac:(lia) Hrow rounds 0 sc1 0 s4 St4 Hrd4)
      as (r5 & sc5 & s5 & E5 & Hs5 & H5); [unfold gs'; rewrite length_app; simpl; lia|lia|].
    rewrite Hj in H5. destruct H5 as (-> & Hrd5 & Hno5 & g & Hg & Htk & Hc).
    destruct (first_fit_some _ _ _ _ Hj) as (g' & Hg' & Hft). rewrite Hg in Hg'. injection Hg' as <-.
    exists (N + Z.of_nat colNum), gs', j, (group_id s + 1), sc5, s5. split; [by run E5|].
    split; [done|]. split; [by eapply stored_reads|].
    split; [rewrite (sc_group _ _ (rt_same _ _ Hs5)); exact Hid3|]. split; [done|]. split; [done|]. by exists g.
Qed.

(** *** Writing the row *)

Definition with_cols (g : StoredGroup) (cols : list (list row)) : StoredGroup := mkSG (sg_id g) (sg_first g) cols.

Lemma LockGroupPages_take num : forall pl s, LockGroupPages pl num s = LockGroupPages (take num pl) num s.
Proof.
  induction num as [|num IH]; intros [|p pl] s; try done. simpl. unfold mbind, ST_bind.
  destruct (LockPage p RWLock_WRITE s) as [[[] s']|]; [apply IH|done].
Qed.

Lemma UnLockGroupPages_take num : forall pl s, UnLockGroupPages pl num s = UnLockGroupPages (take num pl) num s.
Proof.
  induction num as [|num IH]; intros [|p pl] s; try done. simpl. unfold mbind, ST_bind.
  destruct (UnLockPage p RWLock_WRITE s) as [[[] s']|]; [apply IH|done].
Qed.

Lemma FreeSpaceCheck_take cols : forall pl s, FreeSpaceCheck pl cols s = FreeSpaceCheck (take (length cols) pl) cols s.
Proof.
  induction cols as [|c cols IH]; intros [|[p|] pl] s; try done. simpl. unfold mbind, ST_bind.
  destruct (st_lift (col_size c) s) as [[n s1]|]; [|done]. destruct (get_page p s1) as [[b s2]|]; [|done].
  destruct (st_lift _ s2) as [[[] s3]|]; [apply IH|done|done].
Qed.

Lemma insert_columns_take h cols : forall pl row s, insert_columns pl cols h row s = insert_columns (take (length cols) pl) cols h row s.
Proof.
  induction cols as [|c cols IH]; intros [|[p|] pl] row s; try done. simpl. unfold mbind, ST_bind.
  destruct (st_lift (set_header c h) s) as [[c' s1]|]; [|done]. destruct (st_lift (col_size c') s1) as [[n s2]|]; [|done].
  destruct (WriteRowOnePage _ _ s2) as [[r s3]|]; [apply IH|done].
Qed.

(** Only the pages of the columns are used. *)
Lemma InsertRowDataWithGroup_take cols pl row s :
  InsertRowDataWithGroup curr cols pl row s = InsertRowDataWithGroup curr cols (take (length cols) pl) row s.
Proof.
  unfold InsertRowDataWithGroup, mbind, ST_bind. rewrite (LockGroupPages_take _ pl s).
  destruct (LockGroupPages _ _ s) as [[[] s1]|]; [|done]. rewrite (FreeSpaceCheck_take cols pl s1).
  destruct (FreeSpaceCheck _ _ s1) as [[[] s2]|]; [| |done].
  - rewrite (insert_columns_take _ cols pl row s2). destruct (insert_columns _ _ _ _ s2) as [[r s3]|]; [|done].
    unfold mret, ST_ret. by rewrite UnLockGroupPages_take.
  - unfold mret, ST_ret. by rewrite UnLockGroupPages_take.
Qed.

Lemma lookup_member_ptrs g k : (k < colNum)%nat -> member_ptrs g !! k = Some (member_ptr g k).
Proof. intros Hk. unfold member_ptrs. by rewrite list_lookup_fmap, lookup_seq_lt. Qed.

Lemma elem_of_member_ptrs q g : q ∈ member_ptrs g <-> exists k, (k < colNum)%nat /\ q = member_ptr g k.
Proof.
  unfold member_ptrs. rewrite list_elem_of_fmap. split.
  - intros (k & -> & Hk%elem_of_seq). exists k. split; [lia|done].
  - intros (k & Hk & ->). exists k. split; [done|]. apply elem_of_seq. lia.
Qed.

Lemma member_ptrs_NoDup g : NoDup (member_ptrs g).
Proof. unfold member_ptrs. apply NoDup_fmap_2; [|apply NoDup_seq]. intros a b [= H]. lia. Qed.

(** The cached pages of a stored group. *)
Lemma stored_group_rep N gs s j g : stored N gs s -> gs !! j = Some g -> cached s g colNum -> group_rep s (member_ptrs g) (sg_cols g).
Proof.
  intros St Hg Hc. destruct (st_bounds _ _ _ St j g Hg) as (Hl & H1 & H2).
  apply Forall2_same_length_lookup_2; [unfold member_ptrs; by rewrite length_fmap, length_seq|].
  intros k p rows Hp Hrows. pose proof (lookup_lt_Some _ _ _ Hrows) as Hk. rewrite Hl in Hk.
  rewrite lookup_member_ptrs in Hp by done. injection Hp as <-.
  destruct (st_pages _ _ _ St j g k rows Hg Hrows) as (b & Hb & R). destruct (Hc k Hk) as [b' Hb'].
  pose proof Hb as Hb2. unfold content in Hb2. rewrite Hb' in Hb2. injection Hb2 as ->.
  destruct (fo_page _ _ _ (st_main _ _ _ St) (sg_first g + Z.of_nat k)) as (b2 & _ & Hb2 & _ & Hno & _); [lia|].
  unfold member_ptr in *. assert (b2 = b) as -> by congruence. by exists b.
Qed.

(** A page in the cache or the file that holds [rows]. *)
Definition page_holds (s : PageState) (p : ptr) (rows : list row) : Prop :=
  exists b, content s p = Some b /\ page_rep b rows /\ pageNum b = Some p.2.

Lemma group_rep_holds s ps rss : group_rep s ps rss -> Forall2 (page_holds s) ps rss.
Proof.
  intros G. eapply Forall2_impl; [exact G|]. intros p rows (b & Hb & R & _ & Hno). exists b. split; [|by split].
  unfold content. by rewrite Hb.
Qed.

(** The table after the columns of group [j] changed. *)
Lemma stored_changed N gs s s' j g rss : stored N gs s -> gs !! j = Some g -> length rss = colNum ->
  Forall2 (page_holds s') (member_ptrs g) rss -> (forall q, q ∉ member_ptrs g -> content s' q = content s q) ->
  same_counts s s' -> stored N (<[j := with_cols g rss]> gs) s'.
Proof.
  intros St Hg Hl G Hc (C1 & C2 & _). destruct (st_bounds _ _ _ St j g Hg) as (_ & H1 & H2).
  pose proof (lookup_lt_Some _ _ _ Hg) as Hj.
  assert (forall k, (k < colNum)%nat -> exists b rows, rss !! k = Some rows /\ content s' (member_ptr g k) = Some b /\
    page_rep b rows /\ pageNum b = Some (sg_first g + Z.of_nat k)) as Hnew.
  { intros k Hk. destruct (lookup_lt_is_Some_2 rss k) as [rows Hrows]; [lia|].
    destruct (Forall2_lookup_lr _ _ _ _ _ _ G (lookup_member_ptrs g k Hk) Hrows) as (b & Hb & R & Hno).
    exists b, rows. by split_and!. }
  assert (forall i h k, gs !! i = Some h -> i <> j -> (k < colNum)%nat -> member_ptr h k ∉ member_ptrs g) as Hdisj.
  { intros i h k Hh Hij Hk (k' & Hk' & [= E])%elem_of_member_ptrs.
    destruct (decide (i < j)%nat) as [Hlt|]; [pose proof (st_apart _ _ _ St i j h g Hh Hg Hlt); lia|].
    pose proof (st_apart _ _ _ St j i g h Hg Hh ltac:(lia)). lia. }
  assert (forall k, content s' (GROUP_FORK, k) = content s (GROUP_FORK, k)) as Hgf.
  { intros k. apply Hc. by intros (k' & _ & [=])%elem_of_member_ptrs. }
  split.
  - destruct (st_main _ _ _ St) as [A B C D]. split; [| |by rewrite <- C|done].
    + intros n Hn. destruct (decide (sg_first g <= n < sg_first g + Z.of_nat colNum)) as [Hin|Hout].
      * destruct (Hnew (Z.to_nat (n - sg_first g)) ltac:(lia)) as (b & rows & _ & Hb & R & Hno). unfold member_ptr in Hb.
        replace (sg_first g + Z.of_nat (Z.to_nat (n - sg_first g))) with n in * by lia.
        exists b, (free_space rows). split_and!; [done| |done|by rewrite (pr_len _ _ R)].
        unfold room. by rewrite (pr_de _ _ R), (pr_do _ _ R).
      * rewrite Hc; [by apply A|]. intros (k & Hk & [= ->])%elem_of_member_ptrs. lia.
    + intros n Hn. rewrite Hc; [by apply B|]. intros (k & Hk & [= ->])%elem_of_member_ptrs. lia.
  - assert (group_item <$> <[j:=with_cols g rss]> gs = group_item <$> gs) as Hit.
    { rewrite list_fmap_insert. apply list_insert_id. by rewrite list_lookup_fmap, Hg. }
    destruct (st_gfile _ _ _ St) as [[-> _]|(HF & gb & Hgb & R)]; [simpl in Hj; lia|right].
    split; [by eapply file_of_other|]. exists gb. by rewrite Hgf, Hit.
  - intros i h Hh. destruct (decide (i = j)) as [->|Hij].
    + rewrite list_lookup_insert_eq in Hh by done. injection Hh as <-. by split_and!.
    + rewrite list_lookup_insert_ne in Hh by done. by apply (st_bounds _ _ _ St i).
  - intros i h k rows Hh Hk. destruct (decide (i = j)) as [->|Hij].
    + rewrite list_lookup_insert_eq in Hh by done. injection Hh as <-. simpl in Hk.
      pose proof (lookup_lt_Some _ _ _ Hk). destruct (Hnew k ltac:(lia)) as (b & rows' & Hr' & Hb & R & _).
      assert (rows' = rows) as -> by congruence. by exists b.
    + rewrite list_lookup_insert_ne in Hh by done. destruct (st_pages _ _ _ St i h k rows Hh Hk) as (b & Hb & R).
      exists b. split; [|done]. rewrite Hc; [done|]. apply (Hdisj i); [done|done|].
      destruct (st_bounds _ _ _ St i h Hh) as [Hl' _]. apply lookup_lt_Some in Hk. lia.
  - intros a b h1 h2 Ha Hb Hab. assert (forall x y, <[j:=with_cols g rss]> gs !! x = Some y -> exists z, gs !! x = Some z /\ sg_first z = sg_first y) as Hf.
    { intros x y Hx. destruct (decide (x = j)) as [->|]; [rewrite list_lookup_insert_eq in Hx by done; injection Hx as <-; by exists g|].
      rewrite list_lookup_insert_ne in Hx by done. by exists y. }
    destruct (Hf a h1 Ha) as (g1 & Hg1 & <-), (Hf b h2 Hb) as (g2 & Hg2 & <-). by apply (st_apart _ _ _ St a b).
Qed.

(** The row's columns were written with the transaction's header behind the others. *)
Definition row_added (cols : list (list Z)) (g : StoredGroup) (rss : list (list row)) : Prop :=
  Forall3 (one_more (ComputeXminTupleHeader curr zero_header)) (sg_cols g) cols rss.

Lemma pax_ExecInsert_run N gs i sc cols tries s : stored N gs s -> ready sc gs i s -> row_ready cols -> fits_page cols ->
  (first_fit gs cols i = None -> group_room N gs s) -> (length gs + 2 < rounds)%nat -> (2 <= tries)%nat ->
  exists N' gs' j id' g rss sc' s', pax_ExecInsert curr (Z.of_nat colNum) fuel rounds tries cols sc s = Some ((1, sc'), s') /\
    placed N gs cols i s N' gs' j id' /\ gs' !! j = Some g /\ row_added cols g rss /\
    stored N' (<[j := with_cols g rss]> gs') s' /\ group_id s' = id' /\ ready sc' (<[j := with_cols g rss]> gs') j s'.
Proof.
  intros St Hrd Hrow Hfit Hroom Hrounds Htries. unfold pax_ExecInsert.
  rewrite (proj1 Hrow), (proj2 (Nat.ltb_ge _ _)) by apply (rd_pages _ _ _ _ Hrd).
  destruct tries as [|tries]; [lia|]. cbn [insert_retry].
  destruct (find_space_run N gs i sc cols (S tries) s) as
    (N' & gs' & j & id' & sc1 & s1 & E1 & Hpl & St1 & Hid1 & Hrd1 & Hno1 & g & Hg & Hft & Htk & Hc); try done.
  run E1. cbn [negb]. pose proof (stored_group_rep N' gs' s1 j g St1 Hg Hc) as G1.
  assert (length (member_ptrs g) = length cols) as Hlp
    by (unfold member_ptrs; rewrite length_fmap, length_seq; symmetry; apply Hrow).
  assert (Forall column_ok cols) as Hcok by (apply Forall_lookup; intros k c Hk; by apply (proj2 Hrow k c Hk)).
  destruct (InsertRowDataWithGroup_run curr cols s1 (member_ptrs g) (sg_cols g) (mo_rowData sc1) G1 (member_ptrs_NoDup g) Hlp Hcok
    (rd_row _ _ _ _ Hrd1)) as (r & row' & s2 & E2 & _ & H2).
  rewrite Hft in H2. destruct H2 as (-> & rss & G2 & F & Ho & Hw & Hcnt & Hit).
  assert (InsertRowDataWithGroup curr cols (mo_pageList sc1) (mo_rowData sc1) s1 = Some ((ESTAT_SUCESS, row'), s2)) as E2'.
  { rewrite InsertRowDataWithGroup_take, (proj1 Hrow), Htk. exact E2. }
  run E2'. pose proof (rd_pages _ _ _ _ Hrd1) as Hpl1.
  destruct (ReleasePageList_reads (mo_pageList sc1) colNum s2) as (pl & z & s3 & E3 & Hl3 & Hs3); [lia|lia|].
  rewrite (proj1 Hrow). run E3. cbn [fst].
  assert (length rss = colNum) as Hlr.
  { apply Forall3_length_lr in F. destruct (st_bounds _ _ _ St1 j g Hg) as [Hl _]. lia. }
  assert (forall q, q ∉ member_ptrs g -> content s2 q = content s1 q) as Hcn
    by (intros q Hq; unfold content; by destruct (Ho q Hq) as [-> ->]).
  pose proof (stored_changed N' gs' s1 s2 j g rss St1 Hg Hlr (group_rep_holds _ _ _ G2) Hcn Hcnt) as St2.
  assert (length (<[j:=with_cols g rss]> gs') = length gs') as Hlg by apply length_insert.
  exists N', gs', j, id', g, rss, (with_row pl row' sc1), s3. split; [done|]. split; [done|]. split; [done|]. split; [done|].
  split; [by eapply stored_reads|]. split.
  { rewrite (sc_group _ _ (rt_same _ _ Hs3)). destruct Hcnt as (_ & _ & ->). done. }
  pose proof (lookup_lt_Some _ _ _ Hg) as Hjl. pose proof (rd_at _ _ _ _ Hrd1) as Hat. rewrite Hno1 in Hat.
  destruct Hat as [(g1 & Hg1 & Hgi) Hb]. assert (g1 = g) as -> by congruence.
  split; [simpl; lia|exact Hit| |lia]. cbn [with_row mo_isNoSpace mo_groupItem mo_search]. rewrite Hno1. split.
  - exists (with_cols g rss). split; [by apply list_lookup_insert_eq|done].
  - destruct Hb as [(_ & _ & Hb)|(Hb1 & [b Hb2] & Hb3)]; [lia|right]. split; [done|]. split; [|done].
    exists b. apply (rt_cached _ _ Hs3). destruct (Ho gpage) as [-> _]; [|done].
    by intros (k & _ & [=])%elem_of_member_ptrs.
Qed.

(** *** Many rows *)

(** One row inserted: the state of a table is its pages, groups, next group id and
    the group tried first. *)
Inductive inserts : list (list (list Z)) -> Z * list StoredGroup * Z * nat -> Z * list StoredGroup * Z * nat -> Prop :=
  | inserts_nil t : inserts [] t t
  | inserts_cons cols rows N gs id i N' gs' j id' g rss t :
      match first_fit gs cols i with
      | Some k => N' = N /\ gs' = gs /\ j = k /\ id' = id
      | None => N' = N + Z.of_nat colNum /\ gs' = gs ++ [blank_group (id + 1) N] /\ first_fit gs' cols 0 = Some j /\ id' = id + 1
      end -> gs' !! j = Some g -> row_added cols g rss ->
      inserts rows (N', <[j := with_cols g rss]> gs', id', j) t -> inserts (cols :: rows) (N, gs, id, i) t.

(** Room for [k] more groups, whatever the rows. *)
Record capacity (N : Z) (gs : list StoredGroup) (id : Z) (k : nat) : Prop := {
  cp_main : N + Z.of_nat k * Z.of_nat colNum < 2 ^ 31;
  cp_id : 0 <= id /\ id + Z.of_nat k < 2 ^ 32;
  cp_page : Z.of_nat (length gs + k) * (16 * Z.of_nat colNum + 16) < 4056;
  cp_rounds : (length gs + k + 2 < rounds)%nat }.

Lemma group_items_bytes gs : bytes_of (group_item <$> gs) = Z.of_nat (length gs) * (16 * Z.of_nat colNum).
Proof.
  induction gs as [|g gs IH]; [done|]. rewrite fmap_cons. change (group_item g :: (group_item <$> gs)) with ([group_item g] ++ (group_item <$> gs)).
  rewrite bytes_of_app, IH. simpl. rewrite length_member_data. lia.
Qed.

Lemma capacity_room N gs k s : capacity N gs (group_id s) (S k) -> group_room N gs s.
Proof.
  intros [A B C D]. split.
  - rewrite Nat2Z.inj_succ in A. nia.
  - lia.
  - unfold free_space. rewrite group_items_bytes, length_fmap. unfold ITEM_SIZE, sizeof_Member, PAGE_MAX_SIZE, item_off, off_item.
    rewrite Nat2Z.inj_add, Nat2Z.inj_succ in C. unfold ITEM_SIZE. nia.
Qed.

(** One row: the next state of the table, or the room that is left after it. *)
Definition grows (N : Z) (gs : list StoredGroup) (id N' : Z) (gs' : list StoredGroup) (id' : Z) : Prop :=
  (N' = N /\ length gs' = length gs /\ id' = id) \/
  (N' = N + Z.of_nat colNum /\ length gs' = S (length gs) /\ id' = id + 1).

Lemma capacity_step N gs id N' gs' id' k : capacity N gs id (S k) -> grows N gs id N' gs' id' -> capacity N' gs' id' k.
Proof.
  intros [A B C D] [(-> & Hl & ->)|(-> & Hl & ->)]; split; try lia; rewrite ?Hl; nia.
Qed.

Section rows.
Context (fresh : nat -> Z -> list Z) (fresh_size : Z) (m : strmem) (tableDef : Z -> list ColumnDefInfo).

(** The loop of the modify node over the rows the scan still has. *)
Lemma modify_rows_run rte tries : (2 <= tries)%nat -> forall rows n cur N gs i s opRet suc fuel',
  Forall (fun cols => row_ready cols /\ fits_page cols) rows -> stored N gs (in_pages s) -> ready (in_modify s) gs i (in_pages s) ->
  in_scan s = Some (mkVS rows n cur) -> in_retCode s = 0 -> capacity N gs (group_id (in_pages s)) (length rows) ->
  (length rows < fuel')%nat -> 0 <= suc -> suc + Z.of_nat (length rows) < 2 ^ 31 ->
  exists N' gs' id' j s', modify_loop in_retCode set_inretCode
      (ExecModifyTable curr (Z.of_nat colNum) fuel rounds tries) fuel' (ValueScanNext fresh fresh_size m tableDef rte) opRet suc s
      = Some (suc + Z.of_nat (length rows), s') /\
    inserts rows (N, gs, group_id (in_pages s), i) (N', gs', id', j) /\ stored N' gs' (in_pages s') /\ in_retCode s' = 0 /\
    group_id (in_pages s') = id'.
Proof.
  intros Htries. induction rows as [|cols rows IH]; intros n cur N gs i s opRet suc fuel' Hrows St Hrd Hsc Hrc Hcap Hf Hs0 Hs1;
    (destruct fuel' as [|fuel']; [simpl in Hf; lia|]); cbn [modify_loop].
  - erewrite st_bind_some by (unfold ValueScanNext; run_refl; rewrite Hsc; run_refl; change (1 <=? 0) with false; cbv iota;
      run_refl; rewrite Hsc; run_refl; cbn [vs_rows]; run_refl; run_refl; reflexivity).
    run_refl. cbn [in_retCode set_inretCode]. change (ExecRetCode_SUC <? ExecRetCode_SUC) with false. cbv iota.
    exists N, gs, (group_id (in_pages s)), i. eexists. split; [simpl; by rewrite Z.add_0_r|]. split; [constructor|]. by split_and!.
  - apply Forall_cons in Hrows as [[Hrow Hfit] Hrows].
    erewrite st_bind_some by (unfold ValueScanNext; run_refl; rewrite Hsc; run_refl; change (1 <=? 0) with false; cbv iota;
      run_refl; rewrite Hsc; run_refl; cbn [vs_rows]; run_refl; reflexivity).
    set (s1 := set_inscan _ s). run_refl. change (in_retCode s1) with (in_retCode s). rewrite Hrc.
    change (0 <? ExecRetCode_SUC) with false. cbv iota.
    destruct (pax_ExecInsert_run N gs i (in_modify s) cols tries (in_pages s) St Hrd Hrow Hfit) as
      (N' & gs' & j & id' & g & rss & sc' & s' & E & Hpl & Hg & Hra & St' & Hid & Hrd').
    { intros _. exact (capacity_room N gs (length rows) _ Hcap). }
    { pose proof (cp_rounds _ _ _ _ Hcap). simpl in *. lia. }
    { done. }
    erewrite st_bind_some by (unfold ExecModifyTable; change (in_modify s1) with (in_modify s);
      change (in_pages s1) with (in_pages s); rewrite E; reflexivity).
    cbv beta. change (1 <? 0) with false. cbv iota.
    rewrite i32_small by (unfold in_i32; simpl in Hs1; lia).
    pose proof (lookup_lt_Some _ _ _ Hg) as Hj.
    destruct (IH n (Some cols) N' (<[j:=with_cols g rss]> gs') j (mkIns s' (in_retCode s1) (in_scan s1) sc') 1 (suc + 1) fuel') as
      (N2 & gs2 & id2 & j2 & s2 & E2 & Hins & St2 & Hrc2 & Hid2).
    + done.
    + done.
    + done.
    + done.
    + exact Hrc.
    + cbn [in_pages]. rewrite Hid. eapply (capacity_step N gs); [exact Hcap|]. unfold placed in Hpl.
      destruct (first_fit gs cols i).
      * left. destruct Hpl as (-> & -> & _ & ->). by rewrite length_insert.
      * right. destruct Hpl as (-> & -> & _ & ->). rewrite length_insert, length_app. simpl. split_and!; [done|lia|done].
    + simpl in Hf. lia.
    + lia.
    + simpl in Hs1. lia.
    + exists N2, gs2, id2, j2, s2. split; [rewrite E2; do 2 f_equal; simpl; lia|]. split; [|by split_and!].
      cbn [in_pages] in Hins. rewrite Hid in Hins. econstructor; [exact Hpl|exact Hg|exact Hra|exact Hins].
Qed.

(** The first call of the scan makes its rows. *)
Lemma ValueScanNext_first rte rows valueList s : in_scan s = None -> qr_tblInfo rte <> 0 -> qr_ValueList rte = Some valueList ->
  transform_rows fresh fresh_size m (tableDef (qr_tblInfo rte)) (qr_targetList rte) valueList 0 = Some rows ->
  (0 < length rows)%nat -> Z.of_nat (length rows) < 2 ^ 31 ->
  ValueScanNext fresh fresh_size m tableDef rte s =
  ValueScanNext fresh fresh_size m tableDef rte (set_inscan (mkVS rows (u32 (Z.of_nat (length rows))) None) s).
Proof.
  intros Hs Ht Hv Hr H0 H1. unfold ValueScanNext at 1. run_refl. rewrite Hs.
  erewrite st_bind_some by (unfold TransformValues; rewrite decide_False by done; run (st_lift_run _ _ s Hv);
    run (st_lift_run _ _ s Hr); run_refl; rewrite i32_small by (unfold in_i32; lia); reflexivity).
  cbv beta. rewrite (proj2 (Z.leb_gt _ _)) by lia. unfold ValueScanNext. run_refl. done.
Qed.

Lemma ValueScanNext_empty rte valueList s : in_scan s = None -> qr_tblInfo rte <> 0 -> qr_ValueList rte = Some valueList ->
  transform_rows fresh fresh_size m (tableDef (qr_tblInfo rte)) (qr_targetList rte) valueList 0 = Some [] ->
  ValueScanNext fresh fresh_size m tableDef rte s = Some (None, set_inscan (mkVS [] 0 None) s).
Proof.
  intros Hs Ht Hv Hr. unfold ValueScanNext. run_refl. rewrite Hs.
  erewrite st_bind_some by (unfold TransformValues; rewrite decide_False by done; run (st_lift_run _ _ s Hv);
    run (st_lift_run _ _ s Hr); run_refl; reflexivity).
  reflexivity.
Qed.

Lemma release_search_run N gs s : stored N gs (in_pages s) ->
  exists s', release_search s = Some (tt, s') /\ stored N gs (in_pages s') /\ in_retCode s' = in_retCode s.
Proof.
  intros St. unfold release_search. destruct (ReleasePage_reads (sp_page (mo_search (in_modify s))) (in_pages s)) as (pg & -> & Hs).
  eexists. split; [done|]. split; [|done]. by eapply stored_reads.
Qed.

(** A plan whose [VALUES] come out as [rows]. *)
Lemma ExecInsertPlan_run N gs pg plan rows valueList tries rows_max : (2 <= tries)%nat -> (length rows < rows_max)%nat ->
  stored N gs pg -> length (tableDef (qr_tblInfo (ip_rangTbl plan))) = colNum ->
  qr_tblInfo (ip_values plan) <> 0 -> qr_ValueList (ip_values plan) = Some valueList ->
  transform_rows fresh fresh_size m (tableDef (qr_tblInfo (ip_values plan))) (qr_targetList (ip_values plan)) valueList 0 = Some rows ->
  Forall (fun cols => row_ready cols /\ fits_page cols) rows -> capacity N gs (group_id pg) (length rows) ->
  Z.of_nat (length rows) < 2 ^ 31 ->
  exists N' gs' id' j pg', ExecInsertPlan fresh fresh_size m tableDef curr fuel rounds tries rows_max plan pg =
      Some (Z.of_nat (length rows), pg') /\
    inserts rows (N, gs, group_id pg, 0%nat) (N', gs', id', j) /\ stored N' gs' pg' /\ group_id pg' = id'.
Proof.
  intros Htries Hmax St Hcol Ht Hv Hr Hrows Hcap Hlen. unfold ExecInsertPlan. rewrite Hcol.
  set (sc0 := InitExecNodeModifyTbl _ _). set (s0 := mkIns pg 0 None sc0).
  assert (ready sc0 gs 0 pg) as Hrd.
  { split; [|by split_and!| |lia].
    - unfold sc0, InitExecNodeModifyTbl. cbn [mo_pageList]. rewrite length_replicate. destruct (Z.ltb_spec (Z.of_nat (length (qr_targetList (ip_rangTbl plan)))) (Z.of_nat colNum)); lia.
    - cbn. by left. }
  assert (exists N' gs' id' j s1, modify_loop in_retCode set_inretCode (ExecModifyTable curr (Z.of_nat colNum) fuel rounds tries) rows_max
      (ValueScanNext fresh fresh_size m tableDef (ip_values plan)) (-1) 0 s0 = Some (Z.of_nat (length rows), s1) /\
      inserts rows (N, gs, group_id pg, 0%nat) (N', gs', id', j) /\ stored N' gs' (in_pages s1) /\ in_retCode s1 = 0 /\
      group_id (in_pages s1) = id') as (N' & gs' & id' & j & s1 & E & Hins & St1 & Hrc & Hid).
  { destruct (decide (rows = [])) as [->|Hne].
    - destruct rows_max as [|f]; [simpl in Hmax; lia|]. cbn [modify_loop].
      run (ValueScanNext_empty _ _ s0 eq_refl Ht Hv Hr). run_refl. change (_ <? ExecRetCode_SUC) with false. cbv iota.
      exists N, gs, (group_id pg), 0%nat. eexists. split; [reflexivity|]. split; [constructor|]. by split_and!.
    - assert (0 < length rows)%nat as H0 by (destruct rows; [done|simpl; lia]).
      pose proof (ValueScanNext_first (ip_values plan) rows valueList s0 eq_refl Ht Hv Hr H0 Hlen) as E0.
      set (s0' := set_inscan _ s0) in E0.
      destruct (modify_rows_run (ip_values plan) tries Htries rows (u32 (Z.of_nat (length rows))) None N gs 0 s0' (-1) 0 rows_max) as
        (N' & gs' & id' & j & s1 & E1 & H1); try done.
      exists N', gs', id', j, s1. split; [|done]. change (Z.of_nat (length rows)) with (0 + Z.of_nat (length rows)) at 1. rewrite <- E1. destruct rows_max as [|f]; [lia|]. cbn [modify_loop].
      unfold mbind, ST_bind. by rewrite E0. }
  unfold ExecTableModifyTbl.
  destruct (release_search_run N' gs' s1 St1) as (s2 & E2 & St2 & Hrc2).
  assert ((suc_rows ← modify_loop in_retCode set_inretCode (ExecModifyTable curr (Z.of_nat colNum) fuel rounds tries) rows_max
      (ValueScanNext fresh fresh_size m tableDef (ip_values plan)) (-1) 0; release_search;;
      (if 0 <? suc_rows then st_modify (set_inretCode suc_rows) else mret tt)) s0 =
      (if 0 <? Z.of_nat (length rows) then st_modify (set_inretCode (Z.of_nat (length rows))) else mret tt) s2) as ->.
  { run E. by run E2. }
  exists N', gs', id', j, (in_pages s2). assert (group_id (in_pages s2) = id') as Hid2.
  { revert E2. unfold release_search. destruct (ReleasePage_reads (sp_page (mo_search (in_modify s1))) (in_pages s1)) as (pg2 & -> & Hs).
    intros [= <-]. cbn [in_pages]. by rewrite (sc_group _ _ (rt_same _ _ Hs)). }
  destruct (Z.ltb_spec 0 (Z.of_nat (length rows))); (split; [|by split_and!]); cbn; [done|].
  rewrite Hrc2, Hrc. do 2 f_equal. lia.
Qed.

(** *** The rows of the statement *)

(** What a page must have room for to take a value, and no value. *)
Definition value_need (v : option value) : Z :=
  sizeof_RowColumnData + match v with Some w => value_size w | None => 0 end + sizeof_TableRowData + ITEM_SIZE.

(** A row of the statement with a value for every column listed, and one without. *)
Definition row_given (tblMeta : list ColumnDefInfo) (targets : list TargetEntry) (values : list Node) (vs : list (option value)) : Prop :=
  Forall2 (column_given m targets values) tblMeta vs /\ Forall (fun v => value_need v < free_space []) vs.

Definition row_incomplete (tblMeta : list ColumnDefInfo) (targets : list TargetEntry) (values : list Node) : Prop :=
  exists k vs c, Forall2 (column_given m targets values) (take k tblMeta) vs /\ tblMeta !! k = Some c /\
    value_of (colName c) targets values = Missing.

Definition row_holds (tblMeta : list ColumnDefInfo) (vs : list (option value)) (cols : list (list Z)) : Prop :=
  length cols = length tblMeta /\
  forall k c v, tblMeta !! k = Some c -> vs !! k = Some v -> exists col, cols !! k = Some col /\ column_holds (Z.of_nat k) c v col.

Lemma row_holds_ready tblMeta targets values vs cols : length tblMeta = colNum -> row_given tblMeta targets values vs ->
  row_holds tblMeta vs cols -> row_ready cols /\ fits_page cols.
Proof.
  intros Hl [Hg Hf] [Hlen Hh]. pose proof (Forall2_length _ _ _ Hg) as Hlv.
  assert (forall k col, cols !! k = Some col -> exists c v, vs !! k = Some v /\ column_holds (Z.of_nat k) c v col) as Hk.
  { intros k col Hc. pose proof (lookup_lt_Some _ _ _ Hc).
    destruct (lookup_lt_is_Some_2 tblMeta k) as [c Hck]; [lia|]. destruct (lookup_lt_is_Some_2 vs k) as [v Hv]; [lia|].
    destruct (Hh k c v Hck Hv) as (col' & Hc' & H'). exists c, v. split; [done|]. congruence. }
  split; [split; [by rewrite Hlen|]|apply Forall_lookup]; intros k col Hc; destruct (Hk k col Hc) as (c & v & Hv & H).
  - destruct v as [w|]; destruct H as (H1 & H2 & _); by split.
  - rewrite Forall_lookup in Hf. specialize (Hf k v Hv). unfold row_need, value_need in *.
    destruct v as [w|]; destruct H as (_ & _ & H3); [destruct H3 as [H3 _]|]; rewrite H3; lia.
Qed.

Lemma transform_rows_run tblMeta targets given vss rest : (length tblMeta <= 250)%nat ->
  Forall2 (row_given tblMeta targets) given vss ->
  match rest with [] => True | values :: _ => row_incomplete tblMeta targets values end -> forall n,
  exists rows, transform_rows fresh fresh_size m tblMeta targets (given ++ rest) n = Some rows /\ Forall2 (row_holds tblMeta) vss rows.
Proof.
  intros Hl Hg Hrest. induction Hg as [|values vs given vss [Hv _] Hg IH]; intros n.
  - exists []. split; [|constructor]. destruct rest as [|values rest]; [done|]. destruct Hrest as (k & vs & c & Hv & Hc & Hm).
    cbn [app transform_rows]. unfold ValuesFormRowData.
    assert (tblMeta = take k tblMeta ++ c :: drop (S k) tblMeta) as Hsp by (by rewrite take_drop_middle).
    pose proof (form_columns_missing (fresh n) m (Some targets) (Some values) _ _ c (drop (S k) tblMeta) Hv Hm 0) as H.
    rewrite <- Hsp in H. rewrite H; [done|lia|]. rewrite length_take. lia.
  - destruct (IH (S n)) as (rows & E & Hh).
    destruct (form_columns_run (fresh n) m (Some targets) (Some values) tblMeta vs Hv 0
      (mkTableRow (i32 (fresh_size + (Z.of_nat (length tblMeta) * 8 + sizeof_TableRowData))) [])) as (row & Ef & cols & Hc & Hlen & Hk); [lia|lia|].
    cbn [tr_columns app] in Hc. exists (cols :: rows). split; [|constructor; [|done]].
    + cbn [app transform_rows]. unfold ValuesFormRowData. rewrite Ef, E. by rewrite <- Hc.
    + split; [done|]. intros k c v Hck Hvk. apply (Hk k c v); done.
Qed.

(** The plan of an [INSERT] statement. *)
Lemma insert_plan_run GetTableInfo stmt t qs : GetTableInfo (is_tableName stmt) = Some t -> t <> 0 ->
  exists q qs', transformInsertStmt GetTableInfo tableDef stmt qs = Some (Some q, qs') /\
    exists plan, subPlanInsertStmt q = Some plan /\ qr_tblInfo (ip_rangTbl plan) = t /\ qr_tblInfo (ip_values plan) = t /\
      qr_ValueList (ip_values plan) = Some (is_valuesList stmt) /\
      qr_targetList (ip_values plan) = ProcessAttrList tableDef t (is_attrNameList stmt).
Proof.
  intros Ht H0. unfold transformInsertStmt, GetRangTblNode. rewrite Ht. cbn [mbind option_bind]. rewrite decide_False by done.
  eexists _, _. split; [reflexivity|]. eexists. split; [reflexivity|]. by split_and!.
Qed.

(** From the statement to the table. *)
Lemma INSERT_statement_run GetTableInfo stmt t given vss rest N gs pg qs tries rows_max :
  GetTableInfo (is_tableName stmt) = Some t -> t <> 0 -> length (tableDef t) = colNum ->
  is_valuesList stmt = given ++ rest ->
  Forall2 (row_given (tableDef t) (ProcessAttrList tableDef t (is_attrNameList stmt))) given vss ->
  match rest with [] => True | values :: _ => row_incomplete (tableDef t) (ProcessAttrList tableDef t (is_attrNameList stmt)) values end ->
  stored N gs pg -> capacity N gs (group_id pg) (length given) -> Z.of_nat (length given) < 2 ^ 31 ->
  (2 <= tries)%nat -> (length given < rows_max)%nat ->
  exists q qs' plan pg' rows N' gs' id' j,
    transformInsertStmt GetTableInfo tableDef stmt qs = Some (Some q, qs') /\ subPlanInsertStmt q = Some plan /\
    ExecInsertPlan fresh fresh_size m tableDef curr fuel rounds tries rows_max plan pg = Some (Z.of_nat (length given), pg') /\
    Forall2 (row_holds (tableDef t)) vss rows /\ Forall row_ready rows /\
    inserts rows (N, gs, group_id pg, 0%nat) (N', gs', id', j) /\ stored N' gs' pg' /\ group_id pg' = id'.
Proof.
  intros Ht H0 Hcol Hvl Hg Hrest St Hcap Hlen Htries Hmax.
  destruct (insert_plan_run GetTableInfo stmt t qs Ht H0) as (q & qs' & Eq & plan & Ep & Hp1 & Hp2 & Hp3 & Hp4).
  assert (length (tableDef t) <= 250)%nat as Hc by (rewrite Hcol; apply colNum_ok).
  destruct (transform_rows_run _ _ _ _ _ Hc Hg Hrest 0) as (rows & Er & Hh). rewrite <- Hvl in Er.
  pose proof (Forall2_length _ _ _ Hg) as Hl1. pose proof (Forall2_length _ _ _ Hh) as Hl2.
  assert (Forall (fun cols => row_ready cols /\ fits_page cols) rows) as Hrf.
  { apply Forall_lookup. intros i cols Hi. destruct (Forall2_lookup_r _ _ _ _ _ Hh Hi) as (vs & Hvs & H).
    destruct (Forall2_lookup_r _ _ _ _ _ Hg Hvs) as (values & _ & Hrg). by eapply row_holds_ready. }
  destruct (ExecInsertPlan_run N gs pg plan rows (is_valuesList stmt) tries rows_max) as (N' & gs' & id' & j & pg' & E & Hins & St' & Hid).
  - done.
  - lia.
  - done.
  - by rewrite Hp1.
  - by rewrite Hp2.
  - done.
  - by rewrite Hp2, Hp4.
  - done.
  - by rewrite <- Hl2, <- Hl1.
  - lia.
  - exists q, qs', plan, pg', rows, N', gs', id', j. split; [done|]. split; [done|].
    split; [by rewrite E, <- Hl2, <- Hl1|]. split; [done|].
    split; [eapply Forall_impl; [exact Hrf|]; by intros ? [? _]|]. by split_and!.
Qed.

(** C5: an [INSERT] reports the number of its rows that have a value for every column
    listed, up to the first that has not, and each of them - as the columns
    [ValuesFormRowData] makes of it - is in the table then: in the first group from the
    last one used on whose pages all have room, a group being added to the table
    when there is none. Rows from the first incomplete one on are dropped and not
    reported. *)
Theorem INSERT_statement GetTableInfo stmt t given vss rest N gs pg qs tries rows_max :
  GetTableInfo (is_tableName stmt) = Some t -> t <> 0 -> length (tableDef t) = colNum ->
  is_valuesList stmt = given ++ rest ->
  Forall2 (row_given (tableDef t) (ProcessAttrList tableDef t (is_attrNameList stmt))) given vss ->
  match rest with [] => True | values :: _ => row_incomplete (tableDef t) (ProcessAttrList tableDef t (is_attrNameList stmt)) values end ->
  stored N gs pg -> capacity N gs (group_id pg) (length given) -> Z.of_nat (length given) < 2 ^ 31 ->
  (2 <= tries)%nat -> (length given < rows_max)%nat ->
  exists q qs' plan pg' rows N' gs' id' j,
    transformInsertStmt GetTableInfo tableDef stmt qs = Some (Some q, qs') /\ subPlanInsertStmt q = Some plan /\
    ExecInsertPlan fresh fresh_size m tableDef curr fuel rounds tries rows_max plan pg = Some (Z.of_nat (length given), pg') /\
    Forall2 (row_holds (tableDef t)) vss rows /\
    inserts rows (N, gs, group_id pg, 0%nat) (N', gs', id', j) /\ stored N' gs' pg'.
Proof.
  intros Ht H0 Hcol Hvl Hg Hrest St Hcap Hlen Htries Hmax.
  destruct (INSERT_statement_run GetTableInfo stmt t given vss rest N gs pg qs tries rows_max) as
    (q & qs' & plan & pg' & rows & N' & gs' & id' & j & H1 & H2 & H3 & H4 & _ & H5 & H6 & _); try done.
  by exists q, qs', plan, pg', rows, N', gs', id', j.
Qed.
End rows.

(** *** A row too large *)

Lemma not_all_fit cols g : row_ready cols -> length (sg_cols g) = colNum -> ~ fits_page cols -> all_fit (sg_cols g) cols = false.
Proof.
  intros [Hl _] Hg Hn. rewrite <- Hg in Hl. clear Hg. generalize dependent (sg_cols g). induction cols as [|c cols IH]; intros rss Hl.
  - by destruct Hn; constructor.
  - destruct rss as [|rows rss]; [done|]. cbn [all_fit]. simpl in Hl.
    destruct (decide (row_need c < free_space [])) as [Hc|Hc].
    + rewrite IH; [by rewrite andb_false_r|intros H; apply Hn; by constructor|lia].
    + rewrite (proj2 (Z.ltb_ge _ _)); [done|]. etrans; [|apply Z.nlt_ge; exact Hc].
      unfold free_space. pose proof (bytes_of_nonneg rows). unfold item_off, ITEM_SIZE. simpl. lia.
Qed.

Lemma first_fit_none N gs cols s : stored N gs s -> row_ready cols -> ~ fits_page cols -> forall i, first_fit gs cols i = None.
Proof.
  intros St Hr Hn i. unfold first_fit. destruct (list_find _ (drop i gs)) as [[k g]|] eqn:E; [|done].
  apply list_find_Some in E as (Hg & Hfit & _). rewrite lookup_drop in Hg.
  rewrite (not_all_fit cols g) in Hfit; [done|done| |done]. apply (st_bounds _ _ _ St _ _ Hg).
Qed.

(** The groups the extensions add. *)
Fixpoint more_groups (k : nat) (N id : Z) (gs : list StoredGroup) : list StoredGroup :=
  match k with O => gs | S k => more_groups k (N + Z.of_nat colNum) (id + 1) (gs ++ [blank_group (id + 1) N]) end.

Lemma find_space_step N gs i sc cols tries s : stored N gs s -> ready sc gs i s -> row_ready cols -> ~ fits_page cols ->
  group_room N gs s -> (length gs < rounds)%nat ->
  exists sc' s', find_space (Z.of_nat colNum) fuel rounds (S tries) cols sc s = find_space (Z.of_nat colNum) fuel rounds tries cols sc' s' /\
    stored (N + Z.of_nat colNum) (gs ++ [blank_group (group_id s + 1) N]) s' /\ group_id s' = group_id s + 1 /\
    ready sc' (gs ++ [blank_group (group_id s + 1) N]) 0 s'.
Proof.
  intros St Hrd Hrow Hnf Hroom Hrounds. cbn [find_space].
  destruct (GetSpaceGroupPage_run fuel N gs cols ltac:(lia) Hrow rounds i sc 0 s St Hrd ltac:(lia) ltac:(lia))
    as (r & sc1 & s1 & E1 & Hs1 & H1).
  rewrite (first_fit_none N gs cols s St Hrow Hnf i) in H1. destruct H1 as (-> & Hrd1 & Hno1).
  set (s1' := emit EvExtStart s1).
  assert (stored N gs s1') as St1 by (apply same_contents_emit_stored; by eapply stored_reads).
  assert (group_id s1' = group_id s) as Hid1 by apply (sc_group _ _ (rt_same _ _ Hs1)).
  assert (group_room N gs s1') as Hr1 by (destruct Hroom; split; by rewrite ?Hid1).
  destruct (extend_group_run fuel N gs s1' fuel_ok St1 Hr1) as (p & s2 & s3 & E2 & E3 & St3 & Hid3).
  rewrite Hid1 in *. set (s4 := emit (EvUnpin p) (emit EvExtEnd s3)).
  exists sc1, s4. split.
  { run E1. change (-1 <? 0) with true. cbv iota. run_refl. run E2. run E3. run_refl. by run_refl. }
  split; [by do 2 apply same_contents_emit_stored|]. split; [exact Hid3|].
  destruct Hrd1 as [A B C D]. split; [done|done| |lia]. rewrite Hno1 in *.
  left. destruct C as [C|(_ & _ & k & Hk & _)]; [done|lia].
Qed.

(** C34: a row with a column that does not fit an empty page is not refused, and the
    table grows for it: while its group page has room for the new groups, every turn of
    the search for a group with room ([pax_ExecInsert]'s loop) finds none, extends the
    table by an empty group and goes on without storing the row. For [k] turns the
    group page must hold the table's groups and [k] more, which is at most 126 groups of
    one column and one group of 250 columns ([capacity]: each takes 16 bytes for its
    item and 16 for each column of the 4056); what the loop does when that page is full
    is not claimed. *)
Theorem INSERT_too_large k N gs i sc cols tries s : stored N gs s -> ready sc gs i s -> row_ready cols -> ~ fits_page cols ->
  capacity N gs (group_id s) k ->
  exists sc' s', find_space (Z.of_nat colNum) fuel rounds (k + tries) cols sc s = find_space (Z.of_nat colNum) fuel rounds tries cols sc' s' /\
    stored (N + Z.of_nat k * Z.of_nat colNum) (more_groups k N (group_id s) gs) s'.
Proof.
  revert N gs i sc s. induction k as [|k IH]; intros N gs i sc s St Hrd Hrow Hnf Hcap.
  - exists sc, s. split; [done|]. by rewrite Z.mul_0_l, Z.add_0_r.
  - destruct (find_space_step N gs i sc cols (k + tries) s) as (sc1 & s1 & E1 & St1 & Hid1 & Hrd1); try done.
    { by apply (capacity_room N gs k). }
    { pose proof (cp_rounds _ _ _ _ Hcap). lia. }
    destruct (IH _ _ 0%nat sc1 s1 St1 Hrd1 Hrow Hnf) as (sc2 & s2 & E2 & St2).
    + rewrite Hid1. eapply capacity_step; [exact Hcap|]. right. rewrite length_app. simpl. split_and!; [done|lia|done].
    + exists sc2, s2. cbn [Nat.add]. rewrite E1. split; [exact E2|]. rewrite Hid1 in St2. cbn [more_groups].
      replace (N + Z.of_nat (S k) * Z.of_nat colNum) with (N + Z.of_nat colNum + Z.of_nat k * Z.of_nat colNum) by lia. exact St2.
Qed.
End space.
End stored.

(** ** A new table *)

Definition empty_table : PageState :=
  mkPS ∅ {[ (MAIN_FORK, 1) := page_no 1; (GROUP_FORK, 1) := page_no 1 ]} [] 1 1 0.

Lemma empty_file f : f = MAIN_FORK \/ f = GROUP_FORK -> file_of f 1 empty_table.
Proof.
  intros Hf. destruct (page_no_rep 1) as [R Hn]; [unfold in_i32; lia|].
  assert (content empty_table (f, 1) = Some (page_no 1)) as Hc by (by destruct Hf as [-> | ->]).
  split; [| |by destruct Hf as [-> | ->]|lia].
  - intros k Hk. assert (k = 1) as -> by lia. exists (page_no 1), (PAGE_MAX_SIZE - 40).
    split_and!; [exact Hc|by apply blank_room|exact Hn|]. by rewrite (pr_len _ _ R).
  - intros k Hk. unfold content, empty_table. simpl pages. simpl disk. rewrite lookup_empty.
    rewrite lookup_insert_ne by (intros [= ? ?]; lia). apply lookup_singleton_ne. intros [= ? ?]. lia.
Qed.

Lemma empty_stored colNum : stored colNum 1 [] empty_table.
Proof.
  split; [apply empty_file; by left|left; split; [done|apply empty_file; by right]|..]; intros; by destruct i.
Qed.

Definition ab_insert : InsertStmt := mkInsert [116] (Some [[98]; [97]]) [ba_values; [N_ConstValue 1 8 VT_VARCHAR 0]].
Definition ab_catalog (name : bytes) : option Z := if decide (name = [116]) then Some 77 else None.

(** [INSERT INTO t (b, a) VALUES ('ab', 7), ('ab')] *)
Lemma INSERT_statement_witness :
  exists q qs' plan pg', transformInsertStmt ab_catalog (fun _ => three_columns) ab_insert (mkQS 0 0 0 [] [] [] 0 1 0) = Some (Some q, qs') /\
    subPlanInsertStmt q = Some plan /\
    ExecInsertPlan (fun _ _ => []) 0 ab_mem (fun _ => three_columns) 7 10 10 2 5 plan empty_table = Some (1, pg').
Proof.
  destruct (INSERT_statement 3 ltac:(lia) 7 10 10 ltac:(lia) (fun _ _ => []) 0 ab_mem (fun _ => three_columns) ab_catalog ab_insert 77
    [ba_values] [[Some (VI 7); Some (VS [97; 98]); None]] [[N_ConstValue 1 8 VT_VARCHAR 0]] 1 [] empty_table
    (mkQS 0 0 0 [] [] [] 0 1 0) 2 5) as (q & qs' & plan & pg' & rows & N' & gs' & id' & j & H1 & H2 & H3 & _).
  - reflexivity.
  - lia.
  - reflexivity.
  - reflexivity.
  - constructor; [|constructor]. split.
    + constructor; [|constructor; [|constructor; [|constructor]]].
      * exists VT_INT, 7, (VI 7). by split_and!.
      * exists VT_VARCHAR, 8, (VS [97; 98]). split; [done|]. split; [done|]. split; [split; [done|apply ab_cstr]|by vm_compute].
      * reflexivity.
    + repeat constructor; by vm_compute.
  - exists 0%nat, [], (mkColDef [97] VT_INT 0). split; [constructor|]. by split.
  - apply empty_stored.
  - split; simpl; lia.
  - done.
  - lia.
  - simpl. lia.
  - exists q, qs', plan, pg'. split; [exact H1|]. split; [exact H2|exact H3].
Defined.

Definition large_column : list Z := le 4 4080 ++ le 4 0 ++ replicate 4072 0.

Lemma INSERT_too_large_witness :
  exists sc' s', find_space 1 10 10 (3 + 2) [large_column] (InitExecNodeModifyTbl 1 1) empty_table = find_space 1 10 10 2 [large_column] sc' s' /\
    stored 1 4 [blank_group 1 1 1; blank_group 1 2 2; blank_group 1 3 3] s'.
Proof.
  apply (INSERT_too_large 1 ltac:(lia) 10 10 ltac:(lia) 3 1 [] 0 (InitExecNodeModifyTbl 1 1) [large_column] 2 empty_table).
  - apply empty_stored.
  - split; [simpl; lia|by split_and!| |simpl; lia]. by left.
  - split; [done|]. intros [|k] c Hc; [|done]. injection Hc as <-. split; [split; [by vm_compute|by vm_compute]|by vm_compute].
  - intros H. apply Forall_inv in H. by vm_compute in H.
  - split; simpl; lia.
Defined.
