(* ===== verification/InsertScan.v ===== *)
(** * Reading what was inserted

    A sequential scan by the transaction that inserted rows delivers them: [INSERT]
    ([Insert]) and the scan of [executor/scan/seqscan.c] ([SeqScan]) over the same
    files. The table may have rows of any transaction, but no older versions: tables
    whose rows were inserted and deleted. *)

From S2P Require Import Prelude Bytes Locks Transaction Snapshot Page PageStore Space DataTypes Express Plan Executor SeqScan Query Tuple Insert.

(** ** Lists *)

Lemma mapM_fun {A B} (f : A -> option B) (g : A -> B) (l : list A) : (forall x, x ∈ l -> f x = Some (g x)) -> mapM f l = Some (g <$> l).
Proof.
  induction l as [|x l IH]; intros H; [done|]. cbn [mapM fmap list_fmap]. rewrite (H x) by (by left). cbn [mbind option_bind].
  by rewrite IH by (intros y Hy; apply H; by right).
Qed.

Lemma mapM_ext_in {A B} (f g : A -> option B) (l : list A) : (forall x, x ∈ l -> f x = g x) -> mapM f l = mapM g l.
Proof.
  induction l as [|x l IH]; intros H; [done|]. cbn [mapM]. rewrite (H x) by (by left).
  by rewrite IH by (intros y Hy; apply H; by right).
Qed.

Lemma omap_ext_in {A B} (f g : A -> option B) (l : list A) : (forall x, x ∈ l -> f x = g x) -> omap f l = omap g l.
Proof.
  induction l as [|x l IH]; intros H; [done|]. cbn [omap list_omap]. rewrite (H x) by (by left).
  by rewrite IH by (intros y Hy; apply H; by right).
Qed.

Section own.
Context (curr : Z) (snap : option SnapShotInfo).

Definition own : TupleHeader := ComputeXminTupleHeader curr zero_header.

(** The version of a column whose header names no older one. *)
Definition seen_version (c : list Z) : option (list Z) :=
  h ← get_header c; v ← TupleVisibilitySatisfy curr h snap; if decide (v = TUPLE_VISIBLE) then Some c else None.

Definition plain (c : list Z) : Prop :=
  exists h, get_header c = Some h /\ rp_pageno (undo h) = 0 /\ is_Some (TupleVisibilitySatisfy curr h snap).

Lemma visible_plain fuel c s : (0 < fuel)%nat -> plain c -> visible_column curr snap fuel c s = Some (seen_version c, s).
Proof.
  intros Hf (h & Hh & Hu & v & Hv). unfold visible_column, seen_version. run (st_lift_run _ _ s Hh). run (st_lift_run _ _ s Hv).
  rewrite Hh. cbn [mbind option_bind]. rewrite Hv. cbn [mbind option_bind]. destruct (decide (v = TUPLE_VISIBLE)); [done|].
  unfold CurrentReadVersion. run (st_lift_run _ _ s Hh). destruct fuel as [|f]; [lia|]. cbn [version_loop]. by rewrite Hu.
Qed.

Section transaction.
Context (curr_id : in_u64 curr) (curr_valid : XTID_ISINVALID curr = false).

(** A transaction sees what it inserted, whatever its snapshot. *)
Lemma own_visible : TupleVisibilitySatisfy curr own snap = Some TUPLE_VISIBLE.
Proof.
  unfold TupleVisibilitySatisfy. destruct snap as [sn|]; [|done]. unfold own, ComputeXminTupleHeader. cbn [tmin tmax].
  rewrite curr_valid, Z.eqb_refl. by cbn.
Qed.

Lemma own_header : header_ok own.
Proof. split_and!; simpl; try done; unfold in_u64, in_u32; simpl; lia. Qed.

Definition stamped_row (cols : list (list Z)) : list (list Z) := (fun c => default [] (set_header c own)) <$> cols.

Lemma stamped_version c c' : col_ok c -> sizeof_RowColumnData <= Z.of_nat (length c) -> set_header c own = Some c' ->
  seen_version c' = Some c' /\ plain c' /\ col_ok c' /\ length c' = length c /\ forall o n, 48 <= o -> load c' o n = load c o n.
Proof.
  intros Hc Hl Hs. destruct (set_header_spec c own Hc Hl) as (c2 & Hs2 & Hlen & Hok & Hh & Hd).
  assert (c2 = c') as -> by congruence. pose proof (get_header_bytes c' own own_header Hh) as Hg.
  split_and!; try done.
  - unfold seen_version. rewrite Hg. cbn [mbind option_bind]. by rewrite own_visible.
  - exists own. split_and!; [done|done|]. rewrite own_visible. by eexists.
Qed.
End transaction.

(** ** The rows of a stored table *)

Section table.
Context (colNum : nat) (cols : list Z).

Definition sg_len (g : StoredGroup) : nat := length (default [] (sg_cols g !! 0%nat)).

Definition cell (g : StoredGroup) (j : nat) (c : Z) : option (list Z) :=
  r ← default [] (sg_cols g !! Z.to_nat c) !! j; seen_version (r_bytes r).

Definition group_rows (g : StoredGroup) : list (list (list Z)) := omap (fun j => mapM (cell g j) cols) (seq 0 (sg_len g)).

(** The rows the snapshot sees, of the columns [cols]. *)
Definition table_rows (gs : list StoredGroup) : list (list (list Z)) := g ← gs; group_rows g.

(** Columns of the same number of rows, and rows without older versions. *)
Record regular (g : StoredGroup) : Prop := {
  rg_cols : length (sg_cols g) = colNum;
  rg_len rows : rows ∈ sg_cols g -> length rows = sg_len g;
  rg_rows rows r : rows ∈ sg_cols g -> r ∈ rows -> Page.readable r /\ plain (r_bytes r) }.

(** A table as the scan's lemmas have it. *)
Definition to_data (s : PageState) (g : StoredGroup) : GroupData :=
  mkGD (group_item colNum g)
    ((fun c => (sg_first g + c, default [] (content s (member_ptr g (Z.to_nat c))), default [] (sg_cols g !! Z.to_nat c))) <$> cols) (sg_len g).

Lemma row_at_to_data s g j : row_at seen_version (to_data s g) j = mapM (cell g j) cols.
Proof.
  unfold row_at, to_data. cbn [gd_pages]. clear. induction cols as [|c l IH]; [done|].
  cbn [fmap list_fmap mapM]. by rewrite IH.
Qed.

Lemma rows_of_to_data s gs : rows_of seen_version (to_data s <$> gs) = table_rows gs.
Proof.
  induction gs as [|g gs IH]; [done|]. unfold rows_of, table_rows in *. rewrite fmap_cons. cbn [mbind list_bind]. rewrite IH.
  f_equal. unfold rows_from, group_rows. cbn [gd_len to_data]. rewrite Nat.sub_0_r.
  induction (seq 0 (sg_len g)) as [|j l IHl]; [done|]. cbn [omap list_omap]. by rewrite row_at_to_data, IHl.
Qed.

Context (colNum_ok : (0 < colNum <= 250)%nat) (cols_range : Forall (fun c => 0 <= c < Z.of_nat colNum) cols).

Lemma regular_group_ok fuel N gs s i g : (0 < fuel)%nat -> stored colNum N gs s -> regular g -> gs !! i = Some g ->
  group_ok curr snap fuel (content s) colNum cols seen_version (to_data s g).
Proof.
  intros Hf St Hr Hg. destruct (st_bounds _ _ _ _ St i g Hg) as (Hl & H1 & H2). destruct (fo_pos _ _ _ (st_main _ _ _ _ St)) as [_ HN].
  assert (forall c, 0 <= c < Z.of_nat colNum -> load_i32 (r_bytes (group_item colNum g)) (c * 16 + 12) = Some (sg_first g + c)) as Hpg.
  { intros c Hc. apply (member_data_pageno colNum 0 (sg_first g) c); [lia|unfold in_i32; lia]. }
  split; cbn [to_data gd_item gd_pages gd_len].
  - apply length_member_data.
  - intros c Hc. by apply (member_data_memNum colNum colNum_ok).
  - intros c Hc. exists (sg_first g + c). split; [by apply Hpg|lia].
  - by rewrite length_fmap.
  - intros k c Hk. pose proof (Forall_lookup_1 _ _ _ _ cols_range Hk) as Hc. cbv beta in Hc.
    destruct (lookup_lt_is_Some_2 (sg_cols g) (Z.to_nat c)) as [rows Hrows]; [lia|].
    destruct (st_pages _ _ _ _ St i g (Z.to_nat c) rows Hg Hrows) as (b & Hb & R).
    assert (member_ptr g (Z.to_nat c) = (MAIN_FORK, sg_first g + c)) as Hp by (unfold member_ptr; do 2 f_equal; lia).
    pose proof (list_elem_of_lookup_2 _ _ _ Hrows) as Hin.
    exists (sg_first g + c), b, rows. split; [rewrite list_lookup_fmap, Hk; cbn; by rewrite Hb, Hrows|].
    split; [by apply Hpg|]. split; [lia|]. rewrite Hp in Hb. split; [done|]. split; [done|].
    split.
    { destruct (fo_page _ _ _ (st_main _ _ _ _ St) (sg_first g + c)) as (b' & _ & Hb' & _ & Hno & _); [lia|].
      assert (b' = b) as -> by congruence. by eexists. }
    split; [apply Forall_forall; intros r Hrr; by apply (rg_rows g Hr rows)|].
    split; [by apply (rg_len g Hr)|].
    apply Forall_forall. intros r Hrr s' _. exists s'. split; [|apply reads_to_refl].
    apply visible_plain; [done|]. by apply (rg_rows g Hr rows r).
Qed.

(** ** What an insertion adds *)

(** The columns the scan takes of a row. *)
Definition pick (new : list (list Z)) : list (list Z) := omap (fun c => new !! Z.to_nat c) cols.

Lemma pick_fmap new : length new = colNum -> pick new = (fun c => default [] (new !! Z.to_nat c)) <$> cols.
Proof.
  intros Hl. unfold pick. induction cols_range as [|c l Hc Hr IH]; [done|]. cbn [omap list_omap fmap list_fmap].
  destruct (lookup_lt_is_Some_2 new (Z.to_nat c)) as [x ->]; [lia|]. cbn. by rewrite IH.
Qed.

Context (curr_id : in_u64 curr) (curr_valid : XTID_ISINVALID curr = false).

(** Column by column, a row added to a group. *)
Lemma row_added_lookup ins g rss k rows rows' : row_ready colNum ins -> row_added curr ins g rss ->
  sg_cols g !! k = Some rows -> rss !! k = Some rows' ->
  exists r, rows' = rows ++ [r] /\ Page.readable r /\ plain (r_bytes r) /\ seen_version (r_bytes r) = Some (r_bytes r) /\
    stamped_row ins !! k = Some (r_bytes r).
Proof.
  intros [_ Hins] Ha Hk Hk'. destruct (Forall3_lookup_l _ _ _ _ _ _ Ha Hk) as (c & rows2 & Hc & Hk2 & r & -> & Hr & Hs).
  rewrite Hk' in Hk2. injection Hk2 as ->. destruct (Hins k c Hc) as [[Hok Hl] _].
  destruct (stamped_version curr_id curr_valid c (r_bytes r) Hok Hl Hs) as (Hv & Hp & _).
  exists r. split_and!; [done|done|done|done|]. unfold stamped_row. rewrite list_lookup_fmap, Hc. cbn [fmap option_fmap option_map]. fold own in Hs. by rewrite Hs.
Qed.

Lemma added_lookup ins g rss k : regular g -> row_ready colNum ins -> row_added curr ins g rss -> (k < colNum)%nat ->
  exists rows r, sg_cols g !! k = Some rows /\ rss !! k = Some (rows ++ [r]) /\ length rows = sg_len g /\
    Page.readable r /\ plain (r_bytes r) /\ seen_version (r_bytes r) = Some (r_bytes r) /\ stamped_row ins !! k = Some (r_bytes r).
Proof.
  intros Hg Hr Ha Hk. destruct (lookup_lt_is_Some_2 (sg_cols g) k) as [rows Hrows]; [by rewrite (rg_cols g Hg)|].
  destruct (Forall3_lookup_l _ _ _ _ _ _ Ha Hrows) as (c & rows' & _ & Hrss & _).
  destruct (row_added_lookup ins g rss k rows rows' Hr Ha Hrows Hrss) as (r & -> & H).
  exists rows, r. split; [done|]. split; [done|]. split; [|done]. apply (rg_len g Hg). by eapply list_elem_of_lookup_2.
Qed.

Lemma added_len ins g rss : regular g -> row_ready colNum ins -> row_added curr ins g rss -> sg_len (with_cols g rss) = S (sg_len g).
Proof.
  intros Hg Hr Ha. destruct (added_lookup ins g rss 0 Hg Hr Ha) as (rows & r & Hk & Hk' & Hl & _); [lia|].
  unfold sg_len in *. cbn [with_cols sg_cols]. rewrite Hk'. cbn. rewrite length_app, Hl. simpl. lia.
Qed.

Lemma added_regular ins g rss : regular g -> row_ready colNum ins -> row_added curr ins g rss -> regular (with_cols g rss).
Proof.
  intros Hg Hr Ha. pose proof (added_len ins g rss Hg Hr Ha) as Hl. pose proof (rg_cols g Hg) as Hgc.
  assert (length rss = colNum) as Hrl by (rewrite <- (Forall3_length_lr _ _ _ _ Ha); done).
  assert (forall rows', rows' ∈ rss -> exists rows r, rows' = rows ++ [r] /\ rows ∈ sg_cols g /\ length rows = sg_len g /\
    Page.readable r /\ plain (r_bytes r)) as Hin.
  { intros rows' Hin. apply list_elem_of_lookup in Hin as [k Hk]. pose proof (lookup_lt_Some _ _ _ Hk).
    destruct (added_lookup ins g rss k Hg Hr Ha) as (rows & r & Hk1 & Hk2 & Hlen & H1 & H2 & _); [lia|].
    exists rows, r. rewrite Hk in Hk2. injection Hk2 as ->. split_and!; try done. by eapply list_elem_of_lookup_2. }
  split; [done| |].
  - intros rows' H. destruct (Hin rows' H) as (rows & r & -> & _ & Hlen & _). rewrite length_app, Hl, Hlen. simpl. lia.
  - intros rows' r' H Hr'. destruct (Hin rows' H) as (rows & r & -> & Hrows & _ & H1 & H2).
    apply elem_of_app in Hr' as [Hr'|Hr']; [by apply (rg_rows g Hg rows)|]. apply list_elem_of_singleton in Hr' as ->. done.
Qed.

Lemma added_rows ins g rss : regular g -> row_ready colNum ins -> row_added curr ins g rss ->
  group_rows (with_cols g rss) = group_rows g ++ [pick (stamped_row ins)].
Proof.
  intros Hg Hr Ha. unfold group_rows. rewrite (added_len ins g rss Hg Hr Ha), seq_S, omap_app. cbn [Nat.add].
  assert (forall c, c ∈ cols -> (Z.to_nat c < colNum)%nat) as Hcr.
  { intros c Hc. rewrite Forall_forall in cols_range. specialize (cols_range c Hc). cbv beta in cols_range. lia. }
  f_equal.
  - apply omap_ext_in. intros j Hj%elem_of_seq. apply mapM_ext_in. intros c Hc. unfold cell. cbn [with_cols sg_cols].
    destruct (added_lookup ins g rss (Z.to_nat c) Hg Hr Ha (Hcr c Hc)) as (rows & r & -> & -> & Hlen & _).
    cbn [from_option id]. rewrite lookup_app_l by lia. done.
  - cbn [omap list_omap]. rewrite (mapM_fun _ (fun c => default [] (stamped_row ins !! Z.to_nat c))).
    + rewrite pick_fmap; [done|]. unfold stamped_row. rewrite length_fmap. apply Hr.
    + intros c Hc. unfold cell. cbn [with_cols sg_cols].
      destruct (added_lookup ins g rss (Z.to_nat c) Hg Hr Ha (Hcr c Hc)) as (rows & r & _ & -> & Hlen & _ & _ & Hv & ->).
      cbn [from_option id]. rewrite lookup_app_r by lia. rewrite Hlen, Nat.sub_diag. exact Hv.
Qed.

Lemma table_rows_insert gs j g g' x : gs !! j = Some g -> group_rows g' = group_rows g ++ x ->
  table_rows (<[j := g']> gs) ≡ₚ table_rows gs ++ x.
Proof.
  intros Hg Hx. pose proof (lookup_lt_Some _ _ _ Hg). rewrite insert_take_drop by done. rewrite <- (take_drop_middle gs j g Hg) at 3.
  unfold table_rows. rewrite !bind_app. cbn [mbind list_bind]. rewrite Hx. solve_Permutation.
Qed.

(** A new group has no rows. *)
Lemma blank_regular id N : regular (blank_group colNum id N).
Proof.
  split; cbn [blank_group sg_cols].
  - apply length_replicate.
  - intros rows [-> Hn]%elem_of_replicate. unfold sg_len. cbn [blank_group sg_cols]. destruct colNum; [done|]. done.
  - intros rows r [-> _]%elem_of_replicate Hr. by apply not_elem_of_nil in Hr.
Qed.

Lemma table_rows_blank gs id N : table_rows (gs ++ [blank_group colNum id N]) = table_rows gs.
Proof.
  unfold table_rows. rewrite bind_app. cbn [mbind list_bind]. rewrite app_nil_r.
  assert (group_rows (blank_group colNum id N) = []) as ->; [|by rewrite app_nil_r].
  unfold group_rows, sg_len. cbn [blank_group sg_cols]. by destruct colNum.
Qed.

Definition groups_of (t : Z * list StoredGroup * Z * nat) : list StoredGroup := t.1.1.2.

(** Inserting rows adds them, each once, to the rows of the table. *)
Lemma inserts_rows rows t t' : inserts colNum curr rows t t' -> Forall (row_ready colNum) rows -> Forall regular (groups_of t) ->
  Forall regular (groups_of t') /\ table_rows (groups_of t') ≡ₚ table_rows (groups_of t) ++ (pick ∘ stamped_row <$> rows) /\
  (rows <> [] -> groups_of t' <> []).
Proof.
  induction 1 as [t|ins rows N gs id i N' gs' j id' g rss t Hpl Hg Ha Hins IH]; intros Hrows Ht.
  - split_and!; [done| |done]. by rewrite app_nil_r.
  - apply Forall_cons in Hrows as [Hr Hrows]. cbn [groups_of fst snd] in *.
    assert (Forall regular gs' /\ table_rows gs' = table_rows gs) as [Hgs' Heq].
    { destruct (first_fit gs ins i).
      - by destruct Hpl as (_ & -> & _).
      - destruct Hpl as (_ & -> & _). split; [|apply table_rows_blank]. apply Forall_app. split; [done|].
        apply Forall_singleton, blank_regular. }
    pose proof (Forall_lookup_1 _ _ _ _ Hgs' Hg) as Hgr.
    destruct IH as (H1 & H2 & H3); [done|apply Forall_insert; [done|by eapply added_regular]|].
    split; [done|]. split.
    + rewrite H2, (table_rows_insert gs' j g _ _ Hg (added_rows ins g rss Hgr Hr Ha)), Heq. rewrite fmap_cons, <- app_assoc. done.
    + intros _. destruct rows as [|r rows]; [|by apply H3]. inversion Hins; subst. cbn [groups_of fst snd].
      intros Hn. apply (f_equal length) in Hn. rewrite length_insert in Hn. apply lookup_lt_Some in Hg. simpl in Hn. lia.
Qed.

(** *** What the new rows hold *)

Lemma stamped_value c c' t : col_ok c -> sizeof_RowColumnData <= Z.of_nat (length c) -> set_header c own = Some c' ->
  column_value c' t = column_value c t.
Proof.
  intros Hc Hl Hs. destruct (stamped_version curr_id curr_valid c c' Hc Hl Hs) as (_ & _ & Hc' & Hlen & Hd). by apply column_value_same.
Qed.

(** A delivered row shows the values of the statement in the columns scanned; a
    column that was not listed is empty. *)
Definition delivered (tblMeta : list ColumnDefInfo) (vs : list (option value)) (new : list (list Z)) : Prop :=
  Forall2 (fun c col => forall d v, tblMeta !! Z.to_nat c = Some d -> vs !! Z.to_nat c = Some v ->
    match v with Some w => column_value col (cd_type d) = Some w | None => Z.of_nat (length col) = sizeof_RowColumnData end) cols new.

Lemma row_holds_delivered tblMeta vs ins : length tblMeta = colNum -> row_ready colNum ins -> row_holds tblMeta vs ins ->
  delivered tblMeta vs (pick (stamped_row ins)).
Proof.
  intros Hm [Hl Hins] [_ Hh]. assert (length (stamped_row ins) = colNum) as Hsl by (unfold stamped_row; by rewrite length_fmap).
  unfold delivered. rewrite pick_fmap by done. apply Forall2_fmap_r, Forall_Forall2_diag, Forall_forall. intros c Hc d v Hd Hv.
  destruct (Hh (Z.to_nat c) d v Hd Hv) as (col & Hcol & Hch). destruct (Hins _ _ Hcol) as [[Hok Hlen] _].
  destruct (set_header_spec col own Hok Hlen) as (col' & Hs & Hlen' & _).
  unfold stamped_row. rewrite list_lookup_fmap, Hcol. cbn [fmap option_fmap option_map from_option id]. rewrite Hs. cbn [from_option id].
  destruct v as [w|]; cbn in Hch.
  - rewrite (stamped_value col col' _ Hok Hlen Hs). apply Hch.
  - rewrite Hlen'. apply Hch.
Qed.

(** ** The scan of a stored table *)

Context (cols_ne : cols <> []) (cols_len : (length cols <= colNum)%nat).
Context (cols_up : forall k c c', cols !! k = Some c -> cols !! S k = Some c' -> c < c').
Context (fuel : nat) (fuel_ok : (300 <= fuel)%nat) (tbl rindex : Z) (columns : Z -> list bytes) (rte : RangTblEntry) (targets : list TargetEntry).
Context (rte_tbl : rte_tblInfo rte = tbl) (rte_index : rte_rindex rte = rindex) (tbl_here : tbl <> 0)
  (targets_here : targets <> []) (tbl_columns : length (columns tbl) = colNum)
  (targets_cols : scan_columns (columns tbl) rindex targets = cols).

(** A new scan delivers [l], and ends; the files are only read. *)
Definition scan_delivers (s : PageState) (l : list (list (list Z))) : Prop :=
  forall n, (length l < n)%nat -> exists c c1 s1, InitSeqScan columns (Some rte) targets = Some c /\
    scan_all curr snap fuel columns n c s = Some ((mkRowOf tbl rindex cols <$> l, c1), s1) /\ same_contents s s1.

Lemma stored_delivers N gs s : stored colNum N gs s -> gs <> [] -> Forall regular gs -> scan_delivers s (table_rows gs).
Proof.
  intros St Hne Hr n Hn.
  destruct (st_gfile _ _ _ _ St) as [[? _]|(HF & gb & Hgb & R)]; [done|].
  destruct (fo_page _ _ _ HF 2 ltac:(lia)) as (gb' & _ & Hgb' & _ & Hno & _). assert (gb' = gb) as -> by congruence.
  set (gd := to_data s <$> gs).
  assert (page_rep gb (gd_item <$> gd)) as R' by (unfold gd; rewrite <- list_fmap_compose; exact R).
  assert (Forall (group_ok curr snap fuel (content s) colNum cols seen_version) gd) as Hok.
  { unfold gd. apply Forall_fmap, Forall_lookup. intros i g Hg. cbn. eapply regular_group_ok; [lia|done| |done].
    by apply (Forall_lookup_1 _ _ _ _ Hr Hg). }
  destruct (InitSeqScan_run fuel fuel_ok colNum cols ltac:(lia) seen_version gb gd cols_len tbl rindex columns rte targets s) as (c & Ec & Hc); try done.
  destruct (scan_all_from curr snap fuel fuel_ok (content s) colNum cols cols_ne cols_range cols_up ltac:(lia) seen_version gb gd Hgb
    (fo_end _ _ _ HF 3 ltac:(lia)) R' Hno Hok cols_len tbl rindex columns tbl_columns 0 n c s) as (c1 & s1 & E1 & Hs1 & _); try done.
  - unfold gd. rewrite rows_of_to_data. lia.
  - lia.
  - exists c, c1, s1. split; [exact Ec|]. split; [|apply Hs1]. rewrite E1, drop_0. unfold stored_rows, gd. by rewrite rows_of_to_data.
Qed.

(** C3: what a transaction inserted it reads. After an [INSERT] whose rows have all
    their values, a new scan of the table by the same transaction - whatever its
    snapshot - delivers the rows it would have delivered before and the rows of the
    statement, each once, and each with the values the statement gave for the
    columns scanned. *)
Theorem INSERT_then_scan rounds fresh fresh_size m tableDef GetTableInfo stmt given vss rest N gs pg qs tries rows_max :
  GetTableInfo (is_tableName stmt) = Some tbl -> columns tbl = colName <$> tableDef tbl -> is_valuesList stmt = given ++ rest ->
  Forall2 (row_given m (tableDef tbl) (ProcessAttrList tableDef tbl (is_attrNameList stmt))) given vss -> given <> [] ->
  match rest with [] => True | values :: _ => row_incomplete m (tableDef tbl) (ProcessAttrList tableDef tbl (is_attrNameList stmt)) values end ->
  stored colNum N gs pg -> Forall regular gs -> capacity colNum rounds N gs (group_id pg) (length given) ->
  Z.of_nat (length given) < 2 ^ 31 -> (2 <= tries)%nat -> (length given < rows_max)%nat ->
  exists q qs' plan pg' old new all,
    transformInsertStmt GetTableInfo tableDef stmt qs = Some (Some q, qs') /\ subPlanInsertStmt q = Some plan /\
    ExecInsertPlan fresh fresh_size m tableDef curr fuel rounds tries rows_max plan pg = Some (Z.of_nat (length given), pg') /\
    (gs <> [] -> scan_delivers pg old) /\ (gs = [] -> old = []) /\ scan_delivers pg' all /\ all ≡ₚ old ++ new /\
    Forall2 (delivered (tableDef tbl)) vss new.
Proof.
  intros Ht Hcols Hvl Hg Hne Hrest St Hreg Hcap Hlen Htries Hmax.
  assert (length (tableDef tbl) = colNum) as Hm by (by rewrite <- tbl_columns, Hcols, length_fmap).
  destruct (INSERT_statement_run colNum colNum_ok curr fuel rounds ltac:(lia) fresh fresh_size m tableDef GetTableInfo stmt tbl
    given vss rest N gs pg qs tries rows_max) as (q & qs' & plan & pg' & rows & N' & gs' & id' & j & H1 & H2 & H3 & Hh & Hready & Hins & St' & _);
    try done.
  destruct (inserts_rows _ _ _ Hins Hready Hreg) as (Hreg' & Hperm & Hne'). cbn [groups_of fst snd] in *.
  assert (gs' <> []) as Hgs'.
  { apply Hne'. pose proof (Forall2_length _ _ _ Hg). pose proof (Forall2_length _ _ _ Hh). destruct given; [done|].
    destruct rows; [simpl in *; lia|done]. }
  exists q, qs', plan, pg', (table_rows gs), (pick ∘ stamped_row <$> rows), (table_rows gs').
  split; [done|]. split; [done|]. split; [done|]. split; [by intros; eapply stored_delivers|]. split; [by intros ->|].
  split; [by eapply stored_delivers|]. split; [done|].
  apply Forall2_fmap_r. eapply Forall2_impl; [|intros x y H; exact H].
  apply Forall2_same_length_lookup. split; [by apply Forall2_length in Hh|]. intros i vs ins Hvs Hi.
  apply row_holds_delivered; [done|by apply (Forall_lookup_1 _ _ _ _ Hready Hi)|]. by eapply Forall2_lookup_lr.
Qed.
End table.
End own.

Definition abc_columns (t : Z) : list bytes := colName <$> three_columns.

(** Inserted into a new table, ('ab', 7) is the row the scan of a and b delivers. *)
Lemma INSERT_then_scan_witness :
  exists plan pg' c a b c1 s1, ExecInsertPlan (fun _ _ => []) 0 ab_mem (fun _ => three_columns) 7 300 10 2 5 plan empty_table = Some (1, pg') /\
    InitSeqScan abc_columns (Some (mkRTE 1 77)) small_targets = Some c /\
    scan_all 7 small_snapshot 300 abc_columns 2 c pg' = Some (([mkRowOf 77 1 [0; 1] [a; b]], c1), s1) /\
    column_value a VT_INT = Some (VI 7) /\ column_value b VT_VARCHAR = Some (VS [97; 98]).
Proof.
  destruct (INSERT_then_scan 7 small_snapshot 3 [0; 1] ltac:(lia) ltac:(repeat constructor; lia) ltac:(unfold in_u64; lia) ltac:(reflexivity)
    ltac:(done) ltac:(simpl; lia) small_up 300 ltac:(lia) 77 1 abc_columns (mkRTE 1 77) small_targets eq_refl eq_refl ltac:(lia) ltac:(done)
    eq_refl ltac:(by vm_compute) 10 (fun _ _ => []) 0 ab_mem (fun _ => three_columns) ab_catalog ab_insert
    [ba_values] [[Some (VI 7); Some (VS [97; 98]); None]] [[N_ConstValue 1 8 VT_VARCHAR 0]] 1 [] empty_table
    (mkQS 0 0 0 [] [] [] 0 1 0) 2 5) as (q & qs' & plan & pg' & old & new & all & _ & _ & E & _ & Hold & Hscan & Hperm & Hnew).
  - reflexivity.
  - reflexivity.
  - reflexivity.
  - constructor; [|constructor]. split.
    + constructor; [|constructor; [|constructor; [|constructor]]].
      * exists VT_INT, 7, (VI 7). by split_and!.
      * exists VT_VARCHAR, 8, (VS [97; 98]). split; [done|]. split; [done|]. split; [split; [done|apply ab_cstr]|by vm_compute].
      * reflexivity.
    + repeat constructor; by vm_compute.
  - done.
  - exists 0%nat, [], (mkColDef [97] VT_INT 0). split; [constructor|]. by split.
  - apply empty_stored.
  - constructor.
  - split; simpl; lia.
  - done.
  - lia.
  - simpl. lia.
  - rewrite Hold in Hperm by done. simpl in Hperm.
    apply Forall2_cons_inv_l in Hnew as (row & new' & Hrow & Hnil & ->). apply Forall2_nil_inv_l in Hnil as ->.
    apply Permutation_singleton_r in Hperm as ->.
    apply Forall2_cons_inv_l in Hrow as (a & row' & Ha & Hrow & ->).
    apply Forall2_cons_inv_l in Hrow as (b & row'' & Hb & Hnil & ->). apply Forall2_nil_inv_l in Hnil as ->.
    destruct (Hscan 2%nat) as (c & c1 & s1 & Ec & Es & _); [simpl; lia|].
    exists plan, pg', c, a, b, c1, s1. split; [exact E|]. split; [exact Ec|]. split; [exact Es|].
    split; [apply (Ha _ (Some (VI 7)) eq_refl eq_refl)|apply (Hb _ (Some (VS [97; 98])) eq_refl eq_refl)].
Defined.
