(* ===== verification/Modify.v ===== *)
(** * UPDATE and DELETE

    Models how rows are changed: the modify node with its updates and deletions
    ([ExecTableModifyTbl], [pax_ExecUpdate], [pax_ExecDelete] of
    [src/src/sqlcore/executor/execModifyTable.c]), the new values and the places of the
    columns ([FormNewRowsPos], [FormOriginRowsPos], [ProcessSetValueExpr] of
    [executor/execSelect.c]) and the plans ([subPlanUpdateStmt], [subPlanDeleteStmt] of
    [plan/plan.c]). Row structures are released with their statement and not modelled;
    the row that is left in [scanRowDataLeft] is never read. *)

From S2P Require Import Prelude Bytes Locks Transaction Snapshot Page PageStore Space DataTypes Express Plan Executor SeqScan Tuple Insert.

(** ** plan.c *)

(** The modify node: its left plan delivers the rows; the right one, a [SelectNewValue]
    of address [mp_self], has the targets and the range table. *)
Record ModifyPlan := mkModifyPlan {
  mp_left : option Plan; mp_rangTbl : option RangTblEntry; mp_self : PNode;
  mp_targetList : option (list TargetEntry); mp_rtable : RangTable }.

Definition GetFirstCellNode {A} (l : option (list A)) : option A := match l with Some (x :: _) => Some x | _ => None end.

(** The selection is [sel]. *)
Definition subPlanDeleteStmt (sel self : PNode) (q : Query) : ModifyPlan :=
  let left := ProcessTableScan q in
  let left := match q_joinTree q with Some _ => ProcessSelectQual sel q left | None => left end in
  mkModifyPlan (ProcessTopNode q left) (GetFirstCellNode (q_rtable q)) self (q_targetList q) (q_rtable q).

(** Refused with more than one entry in the range table. *)
Definition subPlanUpdateStmt (sel self : PNode) (q : Query) : option ModifyPlan :=
  if decide (1 < Z.of_nat (length (default [] (q_rtable q)))) then None
  else Some (subPlanDeleteStmt sel self q).

(** ** execSelect.c: the columns to change *)

(** An [AttrDataPosition]: [headItem] and the column. *)
Record AttrDataPosition := mkAttrPos { headItem : HeapItem; ap_column : list Z }.

Definition zero_head : HeapItem := (mkItem 0 0 0, 0, 0).

(** Where the column of a target is; [temp] is [tempDataPos], which keeps what the
    column before it left there. Nothing stops the loop over the targets. *)
Definition target_position (rangTbl : RangTable) (row : ScanTableRowData) (t : TargetEntry) (temp : HeapItem)
    : PM (option (list Z * HeapItem)) :=
  match GetCellValueByIndex rangTbl (te_rindex t) with
  | None => mret None
  | Some rte =>
      match GetTblRowDataPosition (Some row) (rte_tblInfo rte) (rte_rindex rte) with
      | None => mret None
      | Some pos =>
          r ← GetColRowDataEx pos (te_attrIndex t) true 0;
          mret match r.1.1 with None => None | Some c => Some (c, default temp r.1.2) end
      end
  end.

Fixpoint origin_columns (rangTbl : RangTable) (row : ScanTableRowData) (targets : list TargetEntry) (temp : HeapItem)
    : PM (list AttrDataPosition) :=
  match targets with
  | [] => mret []
  | t :: targets =>
      r ← target_position rangTbl row t temp;
      match r with
      | None => mret []
      | Some (c, temp) => rest ← origin_columns rangTbl row targets temp; mret (mkAttrPos temp c :: rest)
      end
  end.

Section new_values.
Context (behind : list Z) (fresh : Z -> list Z) (fresh_data : Z).

(** The evaluation has a result cell of its own, as the state of the node has. What a
    copied string writes behind its column is not followed. *)
Definition ProcessSetValueExpr (rangTbl : RangTable) (row : ScanTableRowData) (self v : PNode) : EV (option ExprDataInfo) :=
  match v with
  | ConstValue _ val vt _ => TransformConstExprValue fresh_data vt val
  | _ =>
      cell ← st_gets resultExpreData;
      st_modify (set_result zero_expr);;
      st_modify (set_subPlanNode self);;
      e ← ExecSelectQual rangTbl (Some row) behind (Some v);
      st_modify (set_result cell);;
      mret e
  end.

(** A target without a new value is passed over. *)
Fixpoint new_columns (rangTbl : RangTable) (row : ScanTableRowData) (self : PNode) (targets : list TargetEntry) (temp : HeapItem)
    : EV (list AttrDataPosition) :=
  match targets with
  | [] => mret []
  | t :: targets =>
      match te_setValue t with
      | None => new_columns rangTbl row self targets temp
      | Some v =>
          match GetCellValueByIndex rangTbl (te_rindex t) with
          | None => mret []
          | Some _ =>
              e ← ProcessSetValueExpr rangTbl row self v;
              match e with
              | None => mret []
              | Some e =>
                  r ← on_pages (target_position rangTbl row t temp);
                  match r with
                  | None => mret []
                  | Some (_, temp) =>
                      m ← st_gets mem;
                      c ← st_lift (transFormExpr2RowColumnData fresh behind m (Some e) (te_attrIndex t));
                      c ← st_lift c.1;
                      rest ← new_columns rangTbl row self targets temp;
                      mret (mkAttrPos temp c :: rest)
                  end
              end
          end
      end
  end.
End new_values.

(** ** execModifyTable.c *)

#[export] Instance TupleUpdateResult_eq_dec : EqDecision TupleUpdateResult.
Proof. solve_decision. Defined.

Section change.
(** The transaction's id. *)
Context (curr : Z).

(** [headItem]'s item, page and offset. *)
Definition hi_item (h : HeapItem) : ItemData := h.1.1.
Definition hi_pageno (h : HeapItem) : Z := h.1.2.
Definition hi_offset (h : HeapItem) : Z := h.2.

Definition unlock_out (p : option ptr) : PM unit := UnLockPage p RWLock_WRITE;; ReleasePage p.

(** One column: [None] when its page is not found or the row may not be changed. *)
Definition delete_column (a : AttrDataPosition) (row : RowData) : PM (option RowData) :=
  originPage ← GetPageByIndex (hi_pageno (headItem a)) MAIN_FORK;
  match originPage with
  | None => mret None
  | Some p =>
      LockPage originPage RWLock_WRITE;;
      h ← st_lift (get_header (ap_column a));
      if decide (TupleUpdateSatisfy curr h = TU_OK) then
        c ← st_lift (set_header (ap_column a) (ComputeXmaxTupleHeader curr zero_header h).2);
        size ← st_lift (col_size c);
        let row := mkRowData (rowPos row) (item row) size [c] in
        WriteRowDataOnly p row (hi_item (headItem a));;
        unlock_out originPage;; mret (Some row)
      else unlock_out originPage;; mret None
  end.

Fixpoint delete_columns (attrs : list AttrDataPosition) (row : RowData) : PM (Z * RowData) :=
  match attrs with
  | [] => mret (0, row)
  | a :: attrs =>
      r ← delete_column a row;
      match r with None => mret (-1, row) | Some row => delete_columns attrs row end
  end.

Definition pax_ExecDelete (delDataPos : list AttrDataPosition) (row : RowData) : PM (Z * RowData) :=
  match delDataPos with [] => mret (-1, row) | _ => delete_columns delDataPos row end.

(** A column of the old row, and the cell of the scan's row it is, if it is one: a
    change of its header shows in every entry of that cell. *)
Record OldColumn := mkOld { oc_column : list Z; oc_cell : option nat }.

Definition put_header (h : TupleHeader) (cell : option nat) (o : OldColumn) : option OldColumn :=
  if decide (cell <> None /\ oc_cell o = cell) then c ← set_header (oc_column o) h; Some (mkOld c (oc_cell o)) else Some o.

(** The old column with its header, in every entry it is in, and the header of the new
    version; [prev] is what [newTupHeader] holds. *)
Definition old_version (olds : list OldColumn) (k : nat) (prev : TupleHeader) : option (list Z * list OldColumn * TupleHeader) :=
  o ← olds !! k;
  h ← get_header (oc_column o);
  let '(new, old) := ComputeXmaxTupleHeader curr prev h in
  c ← set_header (oc_column o) old;
  olds ← mapM (put_header old (oc_cell o)) (<[k := mkOld c (oc_cell o)]> olds);
  Some (c, olds, new).

(** The new version of a column that is longer than the old one: on the same page at
    its end, or on an extension page, to which the item is redirected. [false] when no
    page has room. Its lock is released once more than it was taken: that of the origin
    page, when the new version is put there. *)
Definition move_column (a : AttrDataPosition) (origin : ptr) (row : RowData) : PM (option RowData) :=
  ob ← get_page origin; on ← st_lift (pageNum ob);
  size ← st_lift (match columnData row with c :: _ => col_size c | [] => None end);
  let rowSize := size + ITEM_SIZE in
  newRowPage ← GetSpaceSpecifyPage rowSize PAGE_NEW MAIN_FORK on PAGE_DATA;
  match newRowPage with
  | None => mret None
  | Some p =>
      nb ← get_page p; nn ← st_lift (pageNum nb);
      row ← (if decide (nn = on) then
               it ← st_lift (GET_ITEM (hi_offset (headItem a)) nb);
               e ← st_lift (dataEndOffset nb);
               let it := mkItem (e - rowSize) (it_len it) (it_rowid it) in
               nb ← st_lift (store nb (hi_offset (headItem a)) (item_bytes it));
               nb ← st_lift (store32 nb off_dataEndOffset (it_offset it));
               put_page p nb;;
               WriteRowDataOnly p row it;; mret row
             else
               LockPage newRowPage RWLock_WRITE;;
               row ← WriteRowItemDataWithHeader p row;
               ob ← get_page origin;
               it ← st_lift (GET_ITEM (hi_offset (headItem a)) ob);
               let it := mkItem (rp_pageno (rowPos row))
                           (SetItemSize (Z.lor (it_len it) ITEM_REDIRECT_MASK) (rp_itemIndex (rowPos row))) (it_rowid it) in
               ob ← st_lift (store ob (hi_offset (headItem a)) (item_bytes it));
               put_page origin ob;;
               WritePage origin MAIN_FORK;;
               UnLockPage newRowPage RWLock_WRITE;; mret row);
      unlock_out newRowPage;; mret (Some row)
  end.

(** The version written: [Some] with the row structure, or nothing. *)
Definition write_version (a : AttrDataPosition) (origin : ptr) (oldRowSize : Z) (row : RowData) : PM (option RowData) :=
  if decide (rd_size row <= oldRowSize) then
    WriteRowDataOnly origin row (hi_item (headItem a));; mret (Some row)
  else move_column a origin row.

(** One column; [size] is the size of the whole old row. Without the undo page the
    origin page keeps its pin. *)
Definition update_column (a : AttrDataPosition) (olds : list OldColumn) (k : nat) (size : Z) (prev : TupleHeader) (row : RowData)
    : PM (option (list OldColumn * TupleHeader * RowData)) :=
  originPage ← GetPageByIndex (hi_pageno (headItem a)) MAIN_FORK;
  match originPage with
  | None => mret None
  | Some p =>
      b ← get_page p; n ← st_lift (pageNum b);
      undoPage ← GetSpaceSpecifyPage (ITEM_SIZE + size) PAGE_NEW MAIN_FORK n PAGE_UNDO;
      match undoPage with
      | None => mret None
      | Some u =>
          LockPage originPage RWLock_WRITE;;
          LockPage undoPage RWLock_WRITE;;
          o ← st_lift (olds !! k);
          h ← st_lift (get_header (oc_column o));
          r ← (if decide (TupleUpdateSatisfy curr h = TU_OK) then
                 '(c, olds, new) ← st_lift (old_version olds k prev);
                 oldRowSize ← st_lift (col_size c);
                 row ← WriteRowItemDataWithHeader u (mkRowData (rowPos row) (item row) oldRowSize [c]);
                 let new := mkTuple (tmin new) (tmax new) (tinfo new) (cid new) (rowPos row) in
                 c ← st_lift (set_header (ap_column a) new);
                 newSize ← st_lift (col_size c);
                 row ← write_version a p oldRowSize (mkRowData (rowPos row) (item row) newSize [c]);
                 mret ((fun row => (olds, new, row)) <$> row)
               else mret None);
          unlock_out undoPage;;
          unlock_out originPage;;
          mret r
      end
  end.

Fixpoint update_columns (attrs : list AttrDataPosition) (olds : list OldColumn) (k : nat) (size : Z) (prev : TupleHeader)
    (row : RowData) : PM (Z * RowData) :=
  match attrs with
  | [] => mret (0, row)
  | a :: attrs =>
      r ← update_column a olds k size prev row;
      match r with
      | None => mret (-1, row)
      | Some (olds, prev, row) => update_columns attrs olds (S k) size prev row
      end
  end.

(** [newTupHeader] starts as zero. *)
Definition pax_ExecUpdate (updateDataPos : list AttrDataPosition) (olds : list OldColumn) (size : Z) (row : RowData) : PM (Z * RowData) :=
  match updateDataPos with [] => mret (-1, row) | _ => update_columns updateDataPos olds 0 size zero_header row end.

End change.

(** ** The modify node *)

Section node.
Context {C P : Type} `{Scanner C} `{Port P}.
Context (behind : list Z) (fresh : Z -> list Z) (fresh_data curr : Z).

(** The executor's state, the state of the left plan and the row structure of the
    node's scan state. *)
Record ModState := mkMod { md_exec : EState C P; md_left : option PlanState; md_row : RowData }.

Abbreviation MM := (ST ModState).

Definition set_exec (e : EState C P) (s : ModState) : ModState := mkMod e (md_left s) (md_row s).

Definition on_exec {A} (x : ST (EState C P) A) : MM A := fun s =>
  match x (md_exec s) with Some (a, e) => Some (a, set_exec e s) | None => None end.

Definition mod_retCode (s : ModState) : Z := retCode (md_exec s).
Definition set_mod_retCode (z : Z) (s : ModState) : ModState := set_exec (set_retCode z (md_exec s)) s.

(** The next row of the left plan. *)
Definition next_left (fuel : nat) (left : option Plan) : MM (option RowPtr) := fun s =>
  match ExecChild (ExecNodeProc behind fuel) left (md_left s) (md_exec s) with
  | Some ((row, st), e) => Some (row, mkMod e st (md_row s))
  | None => None
  end.

(** The columns to change, [None] when not every target has one. *)
Definition FormOriginRowsPos (targetList : option (list TargetEntry)) (rangTbl : RangTable) : ST (EState C P) (option (list AttrDataPosition)) :=
  rowPtr ← st_gets scanRowDataLeft;
  match targetList, rowPtr, rangTbl with
  | Some targets, Some rowPtr, Some _ =>
      row ← deref_row rowPtr;
      attrs ← on_ev (on_pages (origin_columns rangTbl row targets zero_head));
      mret (if decide (length attrs = length targets) then Some attrs else None)
  | _, _, _ => mret None
  end.

Definition FormNewRowsPos (self : PNode) (targetList : option (list TargetEntry)) (rangTbl : RangTable)
    : ST (EState C P) (option (list AttrDataPosition)) :=
  rowPtr ← st_gets scanRowDataLeft;
  match targetList, rowPtr, rangTbl with
  | Some targets, Some rowPtr, Some _ =>
      row ← deref_row rowPtr;
      attrs ← on_ev (new_columns behind fresh fresh_data rangTbl row self targets zero_head);
      mret (if decide (length attrs = length targets) then Some attrs else None)
  | _, _, _ => mret None
  end.

(** The old row: the columns of the projection, which are cells of the scan's row
    where the scan has them. A column of size zero is a null pointer. *)
Definition old_columns (targets : list TargetEntry) (row : RowPtr) : ST (EState C P) (list OldColumn) :=
  cols ← row_data row;
  rowPtr ← st_gets scanRowDataLeft;
  scanned ← (match rowPtr with Some l => deref_row l | None => mret [] end);
  let cells := match scanned with
               | [Some t] => match rowDataPosition t with pos :: _ => colindexList (scanPostionInfo pos) | [] => [] end
               | _ => []
               end in
  cols ← st_lift (mapM id cols);
  mret (zip_with (fun c t => mkOld c (column_position cells (te_attrIndex t) 0)) cols targets).

Definition row_size (olds : list OldColumn) : option Z := sizes ← mapM (col_size ∘ oc_column) olds; Some (foldl Z.add 0 sizes).

(** The row of the right plan; without one nothing is changed and [opRet] is that of
    the row before. *)
Definition with_row_data {A} (x : RowData -> PM (A * RowData)) : MM A := fun s =>
  match on_ev (on_pages (x (md_row s))) (md_exec s) with
  | Some ((a, row), e) => Some (a, mkMod e (md_left s) row)
  | None => None
  end.

Definition delete_row (plan : ModifyPlan) (row : RowPtr) (opRet : Z) : MM Z :=
  on_exec (st_modify (fun s => set_sides (scanRowDataLeft s) (Some row) s));;
  newRowData ← on_exec (FormOriginRowsPos (mp_targetList plan) (mp_rtable plan));
  rc ← st_gets mod_retCode;
  match newRowData with
  | Some attrs => if rc <? ExecRetCode_SUC then mret opRet else with_row_data (pax_ExecDelete curr attrs)
  | None => mret opRet
  end.

Definition update_row (plan : ModifyPlan) (row : RowPtr) (opRet : Z) : MM Z :=
  on_exec (st_modify (fun s => set_sides (scanRowDataLeft s) (Some row) s));;
  newRowData ← on_exec (FormNewRowsPos (mp_self plan) (mp_targetList plan) (mp_rtable plan));
  rc ← st_gets mod_retCode;
  match newRowData with
  | Some attrs =>
      if rc <? ExecRetCode_SUC then mret opRet else
      olds ← on_exec (old_columns (default [] (mp_targetList plan)) row);
      size ← st_lift (row_size olds);
      with_row_data (pax_ExecUpdate curr attrs olds size)
  | None => mret opRet
  end.

Definition new_row : RowData := mkRowData (mkRowPos 0 0 0) (mkItem 0 0 0) 0 [].

(** Initialising and running the modify node below the top of a plan; the result code
    is in the state. *)
Definition ExecModifyPlan (rows_max fuel : nat) (modify : RowPtr -> Z -> MM Z) (plan : ModifyPlan) : ST (EState C P) unit := fun e =>
  '(st, e) ← InitChild InitExecNode (mp_left plan) e;
  '(_, s) ← ExecTableModifyTbl mod_retCode set_mod_retCode
              (match mp_left plan with Some _ => Some (next_left fuel (mp_left plan)) | None => None end)
              modify (mret tt) rows_max (mkMod e st new_row);
  Some (tt, md_exec s).

Definition ExecDeletePlan (rows_max fuel : nat) (plan : ModifyPlan) : ST (EState C P) unit :=
  ExecModifyPlan rows_max fuel (delete_row plan) plan.

(** Without a plan below the top node the result is an error. *)
Definition ExecUpdatePlan (rows_max fuel : nat) (plan : option ModifyPlan) : ST (EState C P) unit :=
  match plan with None => exec_error | Some plan => ExecModifyPlan rows_max fuel (update_row plan) plan end.

End node.

Arguments ModState : clear implicits.

(** ** Changing a row in place *)

Lemma ReplaceRowData_pageNum p rows i r c it p' : page_rep p rows -> rows !! i = Some r -> it_offset it = row_off rows i ->
  col_ok c -> (length c <= length (r_bytes r))%nat -> ReplaceRowData p [c] it = Some p' -> pageNum p' = pageNum p.
Proof.
  intros R Hi Hit Hok Hl E. unfold ReplaceRowData in E. rewrite Hit in E.
  pose proof (row_off_bounds _ _ _ Hi) as [Hb1 Hb2]. pose proof (pr_len _ _ R) as Hp. pose proof (pr_fit _ _ R) as Hfit.
  unfold item_off, off_item, ITEM_SIZE in Hfit. 
  rewrite copy_columns_store in E; [|by apply Forall_singleton|lia|simpl; rewrite app_nil_r; unfold PAGE_MAX_SIZE in *; lia].
  unfold pageNum, load_i32, load_u32. rewrite (load_store_ne _ _ _ _ _ _ E); [done|]. unfold off_pageNum. lia.
Qed.

(** The item of a row. *)
Definition item_of (rows : list row) (i : nat) (r : row) : ItemData := mkItem (row_off rows i) (r_len r) (r_id r).

Lemma WriteRowDataOnly_run s p rows i r c row : member_rep s p rows -> rows !! i = Some r -> columnData row = [c] ->
  col_ok c -> (length c <= length (r_bytes r))%nat ->
  exists s', WriteRowDataOnly p row (item_of rows i r) s = Some (tt, s') /\
    member_rep s' p (<[i := replaced r c]> rows) /\ rewritten [p] s s'.
Proof.
  intros (b & Hb & R & Hp1 & Hp2) Hi Hc Hok Hl.
  assert (concat [c] = c) as Hcc by apply app_nil_r.
  destruct (ReplaceRowData_in_place b rows i r [c] (item_of rows i r) R Hi) as (b' & E & R').
  - unfold GET_ITEM_BY_INDEX. exact (pr_item _ _ R i r Hi).
  - by apply Forall_singleton.
  - by rewrite Hcc.
  - rewrite Hcc in R'. pose proof (ReplaceRowData_pageNum b rows i r c (item_of rows i r) b' R Hi eq_refl Hok Hl E) as Hn.
    set (s1 := set_pages (<[p := b']> (pages s)) s). set (s2 := set_disk (<[p := b']> (disk s1)) s1).
    assert (pages s2 !! p = Some b') as Hp by apply lookup_insert_eq.
    exists s2. split_and!.
    + unfold WriteRowDataOnly. run (get_page_run _ _ _ Hb). rewrite Hc. run (st_lift_run _ _ s E). run_refl. fold s1.
      unfold WritePage. run (get_page_run p b' s1 Hp). unfold TableWrite, mbind, option_bind.
      rewrite Hn, Hp2, <- Hp1. by destruct p.
    + exists b'. split_and!; [done|done|done|congruence].
    + split; simpl.
      * intros q Hq. rewrite lookup_insert_ne; [done|]. intros ->. apply Hq. by apply list_elem_of_singleton.
      * intros q Hq. rewrite lookup_insert_ne; [done|]. intros ->. apply Hq. by apply list_elem_of_singleton.
      * intros q ->%list_elem_of_singleton. rewrite !lookup_insert_eq. eauto.
      * done.
      * done.
Qed.

Lemma alter_insert_lookup {A} (f : A -> A) (l : list A) i x : l !! i = Some x -> alter f i l = <[i := f x]> l.
Proof. intros Hi. rewrite list_insert_alter. apply list_alter_ext; [|done]. intros y Hy. congruence. Qed.

(** What may have changed: the contents of [ps]; pages stay in the cache. *)
Record changed (ps : list ptr) (s s' : PageState) : Prop := {
  ch_content q : q ∉ ps -> content s' q = content s q;
  ch_cached q : is_Some (pages s !! q) -> is_Some (pages s' !! q);
  ch_counts : same_counts s s' }.

Lemma changed_reads ps s s' : reads_to s s' -> changed ps s s'.
Proof.
  intros [[A B C D] H]. split; [by intros q _|intros q [b Hb]; exists b; by apply H|].
  split_and!; [apply (C MAIN_FORK)|apply (C GROUP_FORK)|done].
Qed.

Lemma changed_trans ps s1 s2 s3 : changed ps s1 s2 -> changed ps s2 s3 -> changed ps s1 s3.
Proof.
  intros [A1 B1 (C1 & D1 & E1)] [A2 B2 (C2 & D2 & E2)]. split; [|by auto|split_and!; congruence].
  intros q Hq. by rewrite A2, A1.
Qed.

Lemma changed_sub ps qs s s' : (forall q, q ∈ ps -> q ∈ qs) -> changed ps s s' -> changed qs s s'.
Proof. intros Hs [A B C]. split; [|done|done]. intros q Hq. apply A. intros Hq'. by apply Hq, Hs. Qed.

Lemma changed_rewritten ps s s' : rewritten ps s s' -> changed ps s s'.
Proof.
  intros W. split; [|intros q Hq|apply (rw_counts _ _ _ W)].
  - intros q Hq. unfold content. by rewrite (rw_other _ _ _ W), (rw_disk_other _ _ _ W).
  - destruct (decide (q ∈ ps)) as [Hin|Hin]; [by apply (rw_disk _ _ _ W)|by rewrite (rw_other _ _ _ W)].
Qed.

Lemma page_holds_changed ps s s' p rows : changed ps s s' -> p ∉ ps -> page_holds s p rows -> page_holds s' p rows.
Proof. intros [A _ _] Hp (b & Hb & H). exists b. by rewrite A. Qed.

Section deletion.
Context (curr : Z) (curr_id : in_u64 curr).

(** A column marked as deleted by the transaction. *)
Definition deleted_col (c : list Z) : list Z :=
  default c (h ← get_header c; set_header c (ComputeXmaxTupleHeader curr zero_header h).2).

Definition deleted_row (r : row) : row := mkRow (r_len r) (r_id r) (deleted_col (r_bytes r)).

Definition updatable (c : list Z) : Prop :=
  column_ok c /\ exists h, get_header c = Some h /\ header_ok h /\ TupleUpdateSatisfy curr h = TU_OK.

Lemma deleted_col_spec c : column_ok c -> forall h, get_header c = Some h -> header_ok h ->
  set_header c (ComputeXmaxTupleHeader curr zero_header h).2 = Some (deleted_col c) /\ length (deleted_col c) = length c /\
  column_ok (deleted_col c) /\ get_header (deleted_col c) = Some (ComputeXmaxTupleHeader curr zero_header h).2 /\
  (forall o n, 48 <= o -> load (deleted_col c) o n = load c o n).
Proof.
  intros [Hc Hl] h Hh Hok. unfold deleted_col. rewrite Hh. cbn [mbind option_bind]. unfold sizeof_RowColumnData in Hl.
  destruct (set_header_spec c (ComputeXmaxTupleHeader curr zero_header h).2 Hc Hl) as (c' & E & Hlen & Hc' & Hhd & Hd).
  rewrite E. cbn [from_option id]. split; [done|]. split; [done|]. split; [split; [done|unfold sizeof_RowColumnData; lia]|].
  split; [|done]. apply get_header_bytes; [|done]. destruct Hok as (H1 & H2 & H3 & H4 & H5). by split_and!.
Qed.

(** *** One column, one row *)

(** The copy [c] of the column is marked and written over the column of the page. *)
Lemma delete_column_run s n rows i r c row : page_holds s (MAIN_FORK, n) rows -> 0 < n -> rows !! i = Some r -> updatable c ->
  length c = length (r_bytes r) ->
  exists row' s', delete_column curr (mkAttrPos (item_of rows i r, n, item_off i) c) row s = Some (Some row', s') /\
    page_holds s' (MAIN_FORK, n) (<[i := mkRow (r_len r) (r_id r) (deleted_col c)]> rows) /\ changed [(MAIN_FORK, n)] s s'.
Proof.
  intros (b & Hb & R & Hno) Hn Hi (Hok & h & Hh & Hhok & Hup) Hlc. unfold delete_column. cbn [headItem ap_column hi_pageno fst snd].
  destruct (GetPageByIndex_reads s MAIN_FORK n b Hn Hb) as (s1 & E1 & Hs1 & Hc1). unfold hi_pageno. cbn [fst snd]. run E1.
  destruct (LockPage_reads (Some (MAIN_FORK, n)) RWLock_WRITE s1) as (s2 & E2 & Hs2). run E2.
  run (st_lift_run _ _ s2 Hh). rewrite decide_True by done.
  destruct (deleted_col_spec c Hok h Hh Hhok) as (Ed & Hlen & Hdok & _). run (st_lift_run _ _ s2 Ed).
  run (st_lift_run _ _ s2 (proj1 Hdok)).
  set (row1 := mkRowData _ _ _ _).
  destruct (WriteRowDataOnly_run s2 (MAIN_FORK, n) rows i r (deleted_col c) row1) as (s3 & E3 & (b3 & Hb3 & R3 & _ & Hno3) & W); try done.
  { exists b. split_and!; [by apply (rt_cached _ _ Hs2)|done|done|done]. }
  { apply Hdok. }
  { lia. }
  unfold hi_item. cbn [fst snd]. run E3.
  destruct (UnLockPage_reads (Some (MAIN_FORK, n)) RWLock_WRITE s3) as (s4 & E4 & Hs4).
  destruct (ReleasePage_reads (Some (MAIN_FORK, n)) s4) as (s5 & E5 & Hs5).
  exists row1, s5. split; [|split].
  - assert (unlock_out (Some (MAIN_FORK, n)) s3 = Some (tt, s5)) as Eo by (unfold unlock_out; by run E4). by run Eo.
  - assert (reads_to s3 s5) as Hs35 by (by eapply reads_to_trans). exists b3. split; [|split; [|done]].
    + rewrite (sc_content _ _ (rt_same _ _ Hs35)). unfold content. by rewrite Hb3.
    + assert (replaced r (deleted_col c) = mkRow (r_len r) (r_id r) (deleted_col c)) as <-; [|done].
      unfold replaced. rewrite drop_ge by lia. by rewrite app_nil_r.
  - eapply changed_trans; [apply changed_reads; exact Hs1|]. eapply changed_trans; [apply changed_reads; exact Hs2|].
    eapply changed_trans; [apply changed_rewritten; exact W|]. eapply changed_trans; [apply changed_reads; exact Hs4|apply changed_reads; exact Hs5].
Qed.

Lemma delete_columns_run ps : forall rss attrs i s row, Forall2 (page_holds s) ps rss -> NoDup ps ->
  Forall (fun p => p.1 = MAIN_FORK /\ 0 < p.2) ps ->
  Forall2 (fun x a => exists r, x.2 !! i = Some r /\ updatable (r_bytes r) /\
    a = mkAttrPos (item_of x.2 i r, x.1.2, item_off i) (r_bytes r)) (zip ps rss) attrs ->
  exists row' s', delete_columns curr attrs row s = Some ((0, row'), s') /\
    Forall2 (page_holds s') ps (alter deleted_row i <$> rss) /\ changed ps s s'.
Proof.
  induction ps as [|p ps IH]; intros rss attrs i s row Hp Hnd Hps Ha.
  - apply Forall2_nil_inv_l in Hp as ->. apply Forall2_nil_inv_l in Ha as ->. exists row, s. split; [done|]. split; [constructor|].
    apply changed_reads, reads_to_refl.
  - apply Forall2_cons_inv_l in Hp as (rows & rss' & Hr & Hp & ->). apply NoDup_cons in Hnd as [Hni Hnd]. apply Forall_cons in Hps as [[Hf H0] Hps].
    cbn [zip zip_with] in Ha. apply Forall2_cons_inv_l in Ha as (a & attrs' & (r & Hri & Hu & ->) & Ha & ->). cbn [fst snd] in *.
    destruct p as [f n]. cbn [fst snd] in *. subst f. cbn [delete_columns].
    destruct (delete_column_run s n rows i r (r_bytes r) row Hr H0 Hri Hu eq_refl) as (row1 & s1 & E1 & Hr1 & C1). run E1.
    destruct (IH rss' attrs' i s1 row1) as (row2 & s2 & E2 & Hp2 & C2); try done.
    { apply Forall2_same_length_lookup_2; [by eapply Forall2_length|]. intros k q rs Hq Hrs.
      eapply page_holds_changed; [exact C1| |by eapply Forall2_lookup_lr]. intros Hin%list_elem_of_singleton. subst q.
      by apply Hni, (list_elem_of_lookup_2 _ k). }
    exists row2, s2. split; [exact E2|]. split; [|eapply changed_trans; eapply changed_sub; [|exact C1| |exact C2]; set_solver].
    constructor; [|done]. eapply page_holds_changed; [exact C2|done|].
    by rewrite (alter_insert_lookup deleted_row rows i r Hri).
Qed.
End deletion.

(** ** Two transactions delete the same row *)

Lemma item_of_deleted curr rows i r : rows !! i = Some r -> length (deleted_col curr (r_bytes r)) = length (r_bytes r) ->
  item_of (<[i := deleted_row curr r]> rows) i (deleted_row curr r) = item_of rows i r.
Proof.
  intros Hi Hl. unfold item_of. by rewrite (row_off_insert rows i r) by done.
Qed.

(** C26: a deletion does not see what happened since its scan. Whether the row may be
    changed is decided on the copy of the column that the scan made, not on the page,
    although the page is locked by then: two transactions that have both scanned the
    row both delete it and succeed, and only the second one's id is left in it. *)
Theorem DELETE_races curr1 curr2 s n rows i r row : in_u64 curr1 -> in_u64 curr2 -> XTID_ISINVALID curr1 = false -> page_holds s (MAIN_FORK, n) rows -> 0 < n ->
  rows !! i = Some r -> updatable curr1 (r_bytes r) -> updatable curr2 (r_bytes r) ->
  let scanned := mkAttrPos (item_of rows i r, n, item_off i) (r_bytes r) in
  exists row1 s1 row2 s2, pax_ExecDelete curr1 [scanned] row s = Some ((0, row1), s1) /\
    page_holds s1 (MAIN_FORK, n) (<[i := deleted_row curr1 r]> rows) /\
    TupleUpdateSatisfy curr2 (default zero_header (get_header (r_bytes (deleted_row curr1 r)))) = TU_Invsible /\
    pax_ExecDelete curr2 [scanned] row1 s1 = Some ((0, row2), s2) /\
    page_holds s2 (MAIN_FORK, n) (<[i := deleted_row curr2 r]> rows).
Proof.
  intros I1 I2 Hv Hp Hn Hi H1 H2 scanned.
  destruct (delete_column_run curr1 I1 s n rows i r (r_bytes r) row Hp Hn Hi H1 eq_refl) as (row1 & s1 & E1 & Hp1 & _).
  pose proof H1 as (Hok & h & Hh & Hhok & Hup). destruct (deleted_col_spec curr1 I1 (r_bytes r) Hok h Hh Hhok) as (_ & Hlen & _ & Hg & _).
  pose proof (lookup_lt_Some _ _ _ Hi) as Hil.
  destruct (delete_column_run curr2 I2 s1 n (<[i := deleted_row curr1 r]> rows) i (deleted_row curr1 r) (r_bytes r) row1)
    as (row2 & s2 & E2 & Hp2 & _); [done|done|by apply list_lookup_insert_eq|done|done|].
  rewrite (item_of_deleted curr1 rows i r Hi Hlen), list_insert_insert_eq in *.
  exists row1, s1, row2, s2. split; [unfold pax_ExecDelete; cbn [delete_columns]; by run E1|]. split; [exact Hp1|].
  split; [|split; [unfold pax_ExecDelete; cbn [delete_columns]; by run E2|exact Hp2]].
  cbn [deleted_row r_bytes]. rewrite Hg. unfold TupleUpdateSatisfy, GetTransactionState. cbn [from_option id tmin tmax snd ComputeXmaxTupleHeader].
  rewrite Hv. by destruct (XTID_ISINVALID (tmin h)).
Qed.

(** Transactions 9 and 11 delete the first row of a page. *)
Lemma DELETE_races_witness :
  exists row1 s1 row2 s2 p, pax_ExecDelete 9 [mkAttrPos (item_of rows_a 0 (row_with 1 (stamp 3 10)), 2, 40) (stamp 3 10)] new_row small_state =
      Some ((0, row1), s1) /\
    pax_ExecDelete 11 [mkAttrPos (item_of rows_a 0 (row_with 1 (stamp 3 10)), 2, 40) (stamp 3 10)] row1 s1 = Some ((0, row2), s2) /\
    content s2 (MAIN_FORK, 2) = Some p /\
    (tmax <$> (ReadRowData p (row_off rows_a 0) ≫= (fun c => c ≫= get_header))) = Some 11.
Proof.
  destruct (DELETE_races 9 11 small_state 2 rows_a 0 (row_with 1 (stamp 3 10)) new_row) as (row1 & s1 & row2 & s2 & E1 & _ & _ & E2 & (p & Hc & R & _)).
  - by vm_compute.
  - by vm_compute.
  - by vm_compute.
  - exists page_a. split; [by vm_compute|]. split; [apply page_a_rep|by vm_compute].
  - lia.
  - done.
  - split; [split; by vm_compute|]. eexists. split; [vm_compute; reflexivity|]. split; [split_and!; by vm_compute|by vm_compute].
  - split; [split; by vm_compute|]. eexists. split; [vm_compute; reflexivity|]. split; [split_and!; by vm_compute|by vm_compute].
  - exists row1, s1, row2, s2, p. split; [exact E1|]. split; [exact E2|]. split; [exact Hc|].
    assert (row_off (<[0%nat := deleted_row 11 (row_with 1 (stamp 3 10))]> rows_a) 0 = row_off rows_a 0) as Ho by (by vm_compute).
    rewrite <- Ho. rewrite (ReadRowData_row p _ 0 (deleted_row 11 (row_with 1 (stamp 3 10))) R eq_refl) by (split_and!; by vm_compute). by vm_compute.
Defined.
