(* ===== verification/Delete.v ===== *)
(** * DELETE

    What [DELETE] does to a stored table: the loop of [ExecTableModifyTbl] over the
    selected rows of a sequential scan, each marked as deleted on the page of every
    column ([Modify]), while the scan goes on over the pages that change. *)

From S2P Require Import Prelude Bytes Locks Transaction Snapshot Page PageStore Space DataTypes Express Plan Executor SeqScan Query Statement Tuple Insert InsertScan Modify.

Section table.
Context (curr : Z) (snap : option SnapShotInfo) (colNum : nat) (cols : list Z).
Context (colNum_ok : (0 < colNum <= 250)%nat) (cols_range : Forall (fun c => 0 <= c < Z.of_nat colNum) cols).
Context (cols_ne : cols <> []) (cols_len : (length cols <= colNum)%nat).
Context (cols_up : forall k c c', cols !! k = Some c -> cols !! S k = Some c' -> c < c').
Context (fuel : nat) (fuel_ok : (300 <= fuel)%nat) (tbl rindex : Z).

Abbreviation gpage := (GROUP_FORK, 2).
Abbreviation version := (seen_version curr snap).
Abbreviation data := (to_data colNum cols).
Abbreviation regular := (regular curr snap colNum).

(** ** A scan over a stored table *)

Definition Ahead (gs : list StoredGroup) (s : PageState) (c : ScanState) (rest : list (list (list Z))) : Prop :=
  exists gb, content s gpage = Some gb /\ scan_ahead colNum cols version gb (data s <$> gs) tbl rindex s c rest.

Definition Read (gs : list StoredGroup) (s : PageState) (c : ScanState) (vs : list (list Z)) (rest : list (list (list Z))) : Prop :=
  exists gb, content s gpage = Some gb /\ scan_read colNum cols version gb (data s <$> gs) tbl rindex s c vs rest.

Lemma to_data_content s s' g : (forall p, content s' p = content s p) -> data s' g = data s g.
Proof. intros Hc. unfold to_data. f_equal. apply list_fmap_ext. intros i c _. by rewrite Hc. Qed.

Lemma to_data_reads s s' (gs : list StoredGroup) : reads_to s s' -> data s' <$> gs = data s <$> gs.
Proof. intros [H _]. apply list_fmap_ext. intros i g _. apply to_data_content, (sc_content _ _ H). Qed.

(** The group page of a table with groups. *)
Lemma stored_group_page N gs s : stored colNum N gs s -> gs <> [] ->
  exists gb, content s gpage = Some gb /\ content s (GROUP_FORK, 3) = None /\ page_rep gb (group_item colNum <$> gs) /\ pageNum gb = Some 2.
Proof.
  intros St Hne. destruct (st_gfile _ _ _ _ St) as [[? _]|(HF & gb & Hgb & R)]; [done|].
  destruct (fo_page _ _ _ HF 2 ltac:(lia)) as (gb' & _ & Hgb' & _ & Hno & _). assert (gb' = gb) as -> by congruence.
  exists gb. split_and!; [done|apply (fo_end _ _ _ HF); lia|done|done].
Qed.

Lemma next_stored N gs s c rest : stored colNum N gs s -> gs <> [] -> Forall regular gs -> Ahead gs s c rest ->
  match rest with
  | vs :: rest => exists c' s', SeqscanNext curr snap fuel c s = Some ((true, c'), s') /\ reads_to s s' /\ Read gs s' c' vs rest /\
      shows (scanTableRow c') = Some (mkRowOf tbl rindex cols vs)
  | [] => exists c' s', SeqscanNext curr snap fuel c s = Some ((false, c'), s') /\ reads_to s s'
  end.
Proof.
  intros St Hne Hr (gb & Hgb & Ha). destruct (stored_group_page N gs s St Hne) as (gb' & Hgb' & Hlast & R & Hno).
  assert (gb' = gb) as -> by congruence.
  assert (page_rep gb (gd_item <$> (data s <$> gs))) as R' by (rewrite <- list_fmap_compose; exact R).
  assert (Forall (group_ok curr snap fuel (content s) colNum cols version) (data s <$> gs)) as Hok.
  { apply Forall_fmap, Forall_lookup. intros i g Hg. cbn. eapply (regular_group_ok curr snap colNum cols colNum_ok cols_range);
      [lia|done| |done]. by apply (Forall_lookup_1 _ _ _ _ Hr Hg). }
  pose proof (SeqscanNext_ahead curr snap fuel fuel_ok (content s) colNum cols cols_ne cols_range cols_up ltac:(lia) version gb (data s <$> gs)
    Hgb Hlast R' Hno Hok cols_len tbl rindex c rest s Ha ltac:(done)) as HS.
  destruct rest as [|vs rest]; destruct HS as (c' & s' & E & Hs & HS); exists c', s'; split; [done| |done|]; [done|].
  destruct HS as [Hrd Hsh]. split; [done|]. split; [|done]. exists gb.
  rewrite (sc_content _ _ (rt_same _ _ Hs)). split; [done|]. by rewrite (to_data_reads s s').
Qed.

(** *** Where the scan is *)

(** The scan has just read row [j] of group [k]. *)
Record at_place (g : StoredGroup) (k j : nat) (i : ScanInfo) (s : PageState) : Prop := {
  ap_num : si_pageListNum i = length cols;
  ap_cols : si_colindexList i = cols ++ replicate (colNum - length cols) 0;
  ap_pages m c : cols !! m = Some c -> si_pageList i !! m = Some (Some (MAIN_FORK, sg_first g + c)) /\
    is_Some (pages s !! (MAIN_FORK, sg_first g + c));
  ap_offset : exists x, si_searchPageList i !! 0%nat = Some x /\ sp_item_offset x = item_off j;
  ap_group : sp_page (si_groupPageInfo i) = Some gpage /\ sp_item_offset (si_groupPageInfo i) = item_off k /\ is_Some (pages s !! gpage);
  ap_columns m c : cols !! m = Some c -> exists v, cell curr snap g j c = Some v /\ si_columnData i !! m = Some (Col v) }.

Lemma Read_place gs s c vs rest : Read gs s c vs rest ->
  exists i k j g, ss_scanPostionInfo c = Some i /\ ss_tblInfo c = tbl /\ ss_rindex c = rindex /\ gs !! k = Some g /\
    (j < sg_len g)%nat /\ mapM (cell curr snap g j) cols = Some vs /\ at_place g k j i s /\
    rest = rows_from version (data s g) (S j) ++ rows_of version (drop (S k) (data s <$> gs)) /\
    forall gs' s' g', gs' !! k = Some g' -> sg_first g' = sg_first g -> sg_len g' = sg_len g ->
      changed ((fun c => (MAIN_FORK, sg_first g + c)) <$> seqZ 0 (Z.of_nat colNum)) s s' ->
      Ahead gs' s' c (rows_from version (data s' g') (S j) ++ rows_of version (drop (S k) (data s' <$> gs'))).
Proof.
  intros (gb & Hgb & Ht & Hrx & i & Hi & Hok & k & gd & j & Hgd & Hb & Hrs & Hin & Hj & Hc & Hrow & Hrest & Hbu).
  rewrite list_lookup_fmap in Hgd. destruct (gs !! k) as [g|] eqn:Hg; [|done]. injection Hgd as <-.
  exists i, k, j, g. split; [done|]. split; [done|]. split; [done|]. split; [done|]. split; [exact Hj|].
  rewrite row_at_to_data in Hrow. split; [done|].
  destruct Hb as [(_ & _ & ?)|(Hb1 & Hb2 & k' & [= <-] & Hb3)]; [done|].
  destruct Hin as [Hpl Hbr].
  assert (forall m c, cols !! m = Some c -> si_pageList i !! m = Some (Some (MAIN_FORK, sg_first g + c))) as Hpg.
  { intros m x Hm. pose proof (lookup_lt_Some _ _ _ Hm). rewrite <- (lookup_take_lt _ (length cols)), Hpl by lia.
    unfold group_ptrs, to_data. cbn [gd_pages]. by rewrite !list_lookup_fmap, Hm. }
  split.
  - split.
    + apply (io_num _ _ _ Hok).
    + apply (io_cols _ _ _ Hok).
    + intros m x Hm. split; [by apply Hpg|].
      destruct (gd_pages (data s g) !! m) as [[[n b] rows]|] eqn:Hgp.
      * pose proof (Hc m n b rows Hgp) as Hn. unfold to_data in Hgp. cbn [gd_pages] in Hgp. rewrite list_lookup_fmap, Hm in Hgp.
        injection Hgp as <- _ _. by rewrite Hn.
      * unfold to_data in Hgp. cbn [gd_pages] in Hgp. by rewrite list_lookup_fmap, Hm in Hgp.
    + destruct (Hbr 0%nat) as (x & Hx & Hoff); [destruct cols; [done|simpl; lia]|]. exists x. split; [done|].
      rewrite Hrs in Hoff. rewrite decide_False in Hoff by lia. unfold next_item, item_off, off_item, ITEM_SIZE in *.
      destruct (0 <? sp_item_offset x); lia.
    + by split_and!.
    + intros m x Hm. destruct Hbu as [Hvl Hcol]. pose proof (lookup_lt_Some _ _ _ Hm).
      destruct (lookup_lt_is_Some_2 vs m) as [v Hv]; [lia|]. exists v. split; [|exact (Hcol m v Hv)].
      apply mapM_Some in Hrow. by apply (Forall2_lookup_lr _ _ _ _ _ _ Hrow Hm Hv).
  - split; [exact Hrest|]. intros gs' s' g' Hg' Hf Hl Hch. exists gb.
    assert (gpage ∉ ((fun c => (MAIN_FORK, sg_first g + c)) <$> seqZ 0 (Z.of_nat colNum))) as Hgn
      by (rewrite list_elem_of_fmap; by intros (x & [=] & _)).
    assert (pages s' !! gpage = Some gb) as Hgp.
    { destruct (ch_cached _ _ _ Hch gpage) as [b Hb]; [by eexists|]. rewrite <- Hgb, <- (ch_content _ _ _ Hch gpage Hgn).
      unfold content. by rewrite Hb. }
    split; [rewrite (ch_content _ _ _ Hch gpage Hgn); exact Hgb|]. split; [done|]. split; [done|]. exists i. split; [done|]. split; [done|]. split; [by apply (fresh_built fuel fuel_ok colNum cols ltac:(lia) cols_len i vs); apply Hbu|].
    apply ahead_in; [by rewrite list_lookup_fmap, Hg'| |done| |change (S j <= sg_len g')%nat; rewrite Hl; exact Hj|].
    + right. split; [done|]. split; [done|]. by exists k.
    + split; [|done]. rewrite Hpl. unfold group_ptrs, to_data. cbn [gd_pages]. rewrite <- !list_fmap_compose. apply list_fmap_ext.
      intros x y _. cbn. by rewrite Hf.
    + intros m n b rows Hm. unfold to_data in Hm. cbn [gd_pages] in Hm. rewrite list_lookup_fmap in Hm.
      destruct (cols !! m) as [x|] eqn:Hx; [|done]. injection Hm as <- <- _. rewrite Hf.
      assert (is_Some (pages s !! (MAIN_FORK, sg_first g + x))) as Hs.
      { destruct (gd_pages (data s g) !! m) as [[[n b] rows']|] eqn:Hgp'; [|unfold to_data in Hgp'; cbn [gd_pages] in Hgp'; by rewrite list_lookup_fmap, Hx in Hgp'].
        pose proof (Hc m n b rows' Hgp') as Hn. unfold to_data in Hgp'. cbn [gd_pages] in Hgp'. rewrite list_lookup_fmap, Hx in Hgp'.
        injection Hgp' as <- _ _. by rewrite Hn. }
      apply (ch_cached _ _ _ Hch) in Hs as [b' Hb']. rewrite Hb'. f_equal.
      pose proof (Forall_lookup_1 _ _ _ _ cols_range Hx) as Hxr. cbv beta in Hxr.
      assert (member_ptr g' (Z.to_nat x) = (MAIN_FORK, sg_first g + x)) as -> by (unfold member_ptr; rewrite Hf; do 2 f_equal; lia).
      unfold content. by rewrite Hb'.
Qed.

(** ** The columns of the row *)

Lemma column_position_run l a : forall i,
  match column_position l a i with
  | Some m => (i <= m)%nat /\ l !! (m - i)%nat = Some a
  | None => a ∉ l
  end.
Proof.
  induction l as [|c l IH]; intros i; cbn [column_position]; [apply not_elem_of_nil|].
  destruct (decide (a = c)) as [->|Hne]; [by rewrite Nat.sub_diag|].
  specialize (IH (S i)). destruct (column_position l a (S i)) as [m|].
  - destruct IH as [Hm Hl]. split; [lia|]. by replace (m - i)%nat with (S (m - S i)) by lia.
  - rewrite not_elem_of_cons. by split.
Qed.

(** A cell of a regular group. *)
Lemma regular_cell g a j : regular g -> 0 <= a < Z.of_nat colNum -> (j < sg_len g)%nat ->
  exists rows r, sg_cols g !! Z.to_nat a = Some rows /\ rows !! j = Some r /\ rows ∈ sg_cols g /\ r ∈ rows /\
    Page.readable r /\ plain curr snap (r_bytes r) /\ forall v, cell curr snap g j a = Some v -> v = r_bytes r.
Proof.
  intros Hr Ha Hj. destruct (lookup_lt_is_Some_2 (sg_cols g) (Z.to_nat a)) as [rows Hrows]; [rewrite (rg_cols _ _ _ _ Hr); lia|].
  pose proof (list_elem_of_lookup_2 _ _ _ Hrows) as Hin.
  destruct (lookup_lt_is_Some_2 rows j) as [r Hrow]; [by rewrite (rg_len _ _ _ _ Hr)|].
  pose proof (list_elem_of_lookup_2 _ _ _ Hrow) as Hin'. destruct (rg_rows _ _ _ _ Hr rows r Hin Hin') as [H1 H2].
  exists rows, r. split_and!; try done. intros v. unfold cell. rewrite Hrows. cbn [from_option id]. rewrite Hrow. cbn [mbind option_bind].
  unfold seen_version. destruct (get_header (r_bytes r)); [|done]. cbn [mbind option_bind].
  destruct (TupleVisibilitySatisfy _ _ _) as [t0|]; [|done]. cbn [mbind option_bind]. destruct (decide _); [congruence|done].
Qed.

(** Reading the column where the scan is: from its cell, or from the page. *)
Lemma GetColRow_at N gs s c i k j g a want : stored colNum N gs s -> regular g -> gs !! k = Some g -> (j < sg_len g)%nat ->
  at_place g k j i s -> ss_scanPostionInfo c = Some i -> 0 <= a < Z.of_nat colNum ->
  exists rows r heap found s', sg_cols g !! Z.to_nat a = Some rows /\ rows !! j = Some r /\
    GetColRowDataEx (scanTableRow c) a want 0 s = Some ((Some (r_bytes r), heap, found), s') /\ reads_to s s' /\
    (want = true -> heap = Some (item_of rows j r, sg_first g + a, item_off j)).
Proof.
  intros St Hr Hg Hj [Hnum Hcols Hpg (x & Hx & Hoff) (Hg1 & Hg2 & [gb Hg3]) Hcol] Hi Ha.
  destruct (regular_cell g a j Hr Ha Hj) as (rows & r & Hrows & Hrow & Hin1 & Hin2 & Hread & _ & Hcell).
  destruct (st_bounds _ _ _ _ St k g Hg) as (_ & H1 & H2). destruct (fo_pos _ _ _ (st_main _ _ _ _ St)) as [_ HN].
  destruct (st_pages _ _ _ _ St k g (Z.to_nat a) rows Hg Hrows) as (b & Hb & R).
  assert (member_ptr g (Z.to_nat a) = (MAIN_FORK, sg_first g + a)) as Hp by (unfold member_ptr; do 2 f_equal; lia).
  rewrite Hp in Hb. pose proof (lookup_lt_Some _ _ _ Hrow) as Hjl.
  unfold GetColRowDataEx, scanTableRow. rewrite Hi. cbn [rowDataPosition length].
  rewrite decide_False by lia. rewrite decide_False by lia. run_refl.
  cbn [scanPostionInfo scan_position colindexList rowData pageList searchPageList groupPageInfo].
  rewrite Hnum, Hcols, take_app_length. pose proof (column_position_run cols a 0) as Hcp.
  destruct (column_position cols a 0) as [m|].
  - destruct Hcp as [_ Hm]. rewrite Nat.sub_0_r in Hm. pose proof (lookup_lt_Some _ _ _ Hm).
    destruct (Hcol m a Hm) as (v & Hv & Hcd). apply Hcell in Hv as ->.
    assert ((raw_bytes <$> take (length cols) (si_columnData i)) !! m = Some (r_bytes r)) as Hraw
      by (by rewrite list_lookup_fmap, lookup_take_lt, Hcd by lia).
    run (st_lift_run _ _ s Hraw). destruct want.
    + destruct (Hpg m a Hm) as [Hpm [b' Hb']].
      assert (mjoin (si_pageList i !! m) = Some (MAIN_FORK, sg_first g + a)) as Hj1 by (by rewrite Hpm).
      run (st_lift_run _ _ s Hj1). assert (b' = b) as -> by (unfold content in Hb; rewrite Hb' in Hb; by injection Hb).
      run (get_page_run _ _ _ Hb').
      destruct (fo_page _ _ _ (st_main _ _ _ _ St) (sg_first g + a)) as (b2 & _ & Hb2 & _ & Hno & _); [lia|].
      assert (b2 = b) as -> by congruence. run (st_lift_run _ _ s Hno). run (st_lift_run _ _ s Hx).
      rewrite Hoff. run (st_lift_run _ _ s (pr_item _ _ R j r Hrow)).
      exists rows, r, (Some (item_of rows j r, sg_first g + a, item_off j)), true, s. split_and!; try done. apply reads_to_refl.
    + exists rows, r, None, true, s. split_and!; try done. apply reads_to_refl.
  - rewrite decide_True by (destruct cols; [done|simpl; lia]).
    erewrite st_bind_some by (run (st_lift_run _ _ s Hx); reflexivity). rewrite Hoff.
    assert (gs <> []) as Hne by (by intros ->).
    destruct (stored_group_page N gs s St Hne) as (gb' & Hgb' & _ & Rg & _).
    assert (gb' = gb) as -> by (unfold content in Hgb'; rewrite Hg3 in Hgb'; by injection Hgb').
    assert (GetPageNoFromGroupInfo (si_groupPageInfo i) a s = Some (sg_first g + a, s)) as E1.
    { apply (GetPageNoFromGroupInfo_item s gpage gb (group_item colNum <$> gs) k (sg_id g) (Z.of_nat colNum)); try done; [|lia|unfold in_i32; lia].
      by rewrite list_lookup_fmap, Hg, Nat2Z.id. }
    run E1.
    destruct (GetPageByIndex_reads s MAIN_FORK (sg_first g + a) b) as (s2 & E2 & Hs2 & Hc2); [lia|done|].
    destruct (LockPage_reads (Some (MAIN_FORK, sg_first g + a)) RWLock_READ s2) as (s3 & E3 & Hs3).
    assert (pages s3 !! (MAIN_FORK, sg_first g + a) = Some b) as Hc3 by (by apply (rt_cached _ _ Hs3)).
    destruct (UnLockPage_reads (Some (MAIN_FORK, sg_first g + a)) RWLock_READ s3) as (s4 & E4 & Hs4).
    destruct (ReleasePage_reads (Some (MAIN_FORK, sg_first g + a)) s4) as (s5 & E5 & Hs5).
    assert (GetRowDataFromPageByIndexEx (sg_first g + a) (item_off j) s =
      Some ((Some (r_bytes r), Some (item_of rows j r, sg_first g + a, item_off j)), s5)) as E.
    { unfold GetRowDataFromPageByIndexEx. run E2. run E3. run (get_page_run _ _ _ Hc3).
      erewrite st_bind_some.
      2:{ rewrite (proj2 (Z.leb_gt (item_off j) 0)) by (unfold item_off, off_item, ITEM_SIZE; lia).
          run (st_lift_run _ _ s3 (item_end _ _ j R)). rewrite (proj2 (Nat.leb_gt _ _)) by lia.
          run (st_lift_run _ _ s3 (pr_item _ _ R j r Hrow)). cbn [it_len it_offset].
          destruct (pr_ok _ _ R r Hin2) as [_ ->]. cbn [negb]. pose proof Hread as (_ & _ & Hr3). rewrite Hr3.
          run (st_lift_run _ _ s3 (ReadRowData_row _ _ _ _ R Hrow Hread)). reflexivity. }
      run E4. run E5. done. }
    run E. exists rows, r, (Some (item_of rows j r, sg_first g + a, item_off j)), false, s5. split_and!; try done.
    eapply reads_to_trans; [exact Hs2|]. eapply reads_to_trans; [exact Hs3|]. by eapply reads_to_trans.
Qed.

(** ** The rows before and after a row *)

Abbreviation row_here := (fun g j => mapM (cell curr snap g j) cols).
Abbreviation table_rows := (table_rows curr snap cols).

Definition rows_before (gs : list StoredGroup) (k j : nat) (g : StoredGroup) : list (list (list Z)) :=
  table_rows (take k gs) ++ omap (row_here g) (seq 0 j).
Definition rows_after (gs : list StoredGroup) (k j : nat) (g : StoredGroup) : list (list (list Z)) :=
  omap (row_here g) (seq j (sg_len g - j)) ++ table_rows (drop (S k) gs).

Lemma rows_around gs k j g : gs !! k = Some g -> (j < sg_len g)%nat ->
  table_rows gs = rows_before gs k j g ++ option_list (row_here g j) ++ rows_after gs k (S j) g.
Proof.
  intros Hg Hj. unfold rows_before, rows_after. rewrite <- (take_drop_middle gs k g Hg) at 1.
  unfold InsertScan.table_rows. rewrite bind_app, bind_cons, <- !app_assoc. f_equal. rewrite !app_assoc. f_equal.
  unfold group_rows. assert (seq 0 (sg_len g) = seq 0 j ++ j :: seq (S j) (sg_len g - S j)) as ->
    by (replace (sg_len g) with (j + S (sg_len g - S j))%nat at 1 by lia; by rewrite seq_app).
  rewrite omap_app. cbn [omap list_omap].
  rewrite <- app_assoc. f_equal. by destruct (mapM (cell curr snap g j) cols).
Qed.

Lemma rows_ahead_data s gs k j g : gs !! k = Some g ->
  rows_from version (data s g) j ++ rows_of version (drop (S k) (data s <$> gs)) = rows_after gs k j g.
Proof.
  intros Hg. unfold rows_after. rewrite <- fmap_drop, (rows_of_to_data curr snap colNum cols). f_equal.
  unfold rows_from. cbn [gd_len to_data]. apply omap_ext_in. intros x _. apply row_at_to_data.
Qed.

(** ** A row marked as deleted *)

Section marked.
Context (sn : SnapShotInfo) (snap_is : snap = Some sn) (curr_id : in_u64 curr) (curr_valid : XTID_ISINVALID curr = false).

Lemma deleted_invisible h v : TupleVisibilitySatisfy curr h snap = Some v ->
  TupleVisibilitySatisfy curr (ComputeXmaxTupleHeader curr zero_header h).2 snap = Some TUPLE_INVISIBLE.
Proof.
  rewrite snap_is. unfold TupleVisibilitySatisfy, ComputeXmaxTupleHeader. cbn [snd tmin tmax]. rewrite Z.eqb_refl, curr_valid.
  destruct (XTID_ISINVALID (tmin h)); [done|]. destruct (if tmin h =? curr then _ else _) as [m|]; [|done].
  cbn [mbind option_bind negb andb]. destruct (decide (m = IN_SNAPSHOT)); [done|]. by destruct (negb (tmin h =? curr) && _).
Qed.

Lemma deleted_version r : plain curr snap (r_bytes r) -> updatable curr (r_bytes r) -> Page.readable r ->
  version (r_bytes (deleted_row curr r)) = None /\ plain curr snap (r_bytes (deleted_row curr r)) /\ Page.readable (deleted_row curr r).
Proof.
  intros (h & Hh & Hu & v & Hv) (Hok & h' & Hh' & Hhok & _) (H1 & H2 & H3). assert (h' = h) as -> by congruence.
  destruct (deleted_col_spec curr curr_id (r_bytes r) Hok h Hh Hhok) as (_ & Hlen & Hdok & Hg & _).
  pose proof (deleted_invisible h v Hv) as Hi. cbn [deleted_row r_bytes]. split; [|split].
  - unfold seen_version. rewrite Hg. cbn [mbind option_bind]. by rewrite Hi.
  - exists (ComputeXmaxTupleHeader curr zero_header h).2. split; [done|]. split; [done|]. rewrite Hi. by eexists.
  - split; [apply Hdok|]. cbn [r_bytes r_len deleted_row]. by rewrite Hlen.
Qed.

Abbreviation deleted g j := (with_cols g (alter (deleted_row curr) j <$> sg_cols g)).

Lemma deleted_len g j : sg_len (deleted g j) = sg_len g.
Proof. unfold sg_len. cbn [with_cols sg_cols]. rewrite list_lookup_fmap. destruct (sg_cols g !! 0%nat); [|done]. cbn. apply length_alter. Qed.

Lemma cell_deleted_other g j x c : x <> j -> cell curr snap (deleted g j) x c = cell curr snap g x c.
Proof.
  intros Hx. unfold cell. cbn [with_cols sg_cols]. rewrite list_lookup_fmap. destruct (sg_cols g !! Z.to_nat c); [|done].
  cbn. by rewrite list_lookup_alter_ne by done.
Qed.

Lemma row_deleted_other g j x : x <> j -> row_here (deleted g j) x = row_here g x.
Proof. intros Hx. apply mapM_ext_in. intros c _. by apply cell_deleted_other. Qed.

(** Every column of the row may be changed by the transaction. *)
Definition unlocked_row (g : StoredGroup) (j : nat) : Prop :=
  forall rows r, rows ∈ sg_cols g -> rows !! j = Some r -> updatable curr (r_bytes r).

Lemma cell_deleted_here g j c : regular g -> unlocked_row g j -> (j < sg_len g)%nat -> 0 <= c < Z.of_nat colNum ->
  cell curr snap (deleted g j) j c = None.
Proof.
  intros Hr Hu Hj Hc. destruct (regular_cell g c j Hr Hc Hj) as (rows & r & Hrows & Hrow & Hin & Hin' & Hread & Hp & _).
  unfold cell. cbn [with_cols sg_cols]. rewrite list_lookup_fmap, Hrows. cbn [fmap option_fmap option_map from_option id].
  rewrite list_lookup_alter_eq, Hrow. cbn. by apply deleted_version; [|by eapply Hu|].
Qed.

Lemma row_deleted_here g j : regular g -> unlocked_row g j -> (j < sg_len g)%nat -> row_here (deleted g j) j = None.
Proof.
  intros Hr Hu Hj. destruct (lookup_lt_is_Some_2 cols 0) as [c Hc0]; [by destruct cols; [|simpl; lia]|].
  pose proof (Forall_lookup_1 _ _ _ _ cols_range Hc0) as Hc. cbv beta in Hc.
  pose proof (cell_deleted_here g j c Hr Hu Hj Hc) as Hn.
  destruct (mapM _ cols) as [vs|] eqn:E; [|done]. apply mapM_Some in E.
  destruct (Forall2_lookup_l _ _ _ _ _ E Hc0) as (v & _ & Hv). congruence.
Qed.

Lemma deleted_regular g j : regular g -> unlocked_row g j -> regular (deleted g j).
Proof.
  intros Hr Hu. split; cbn [with_cols sg_cols].
  - rewrite length_fmap. apply (rg_cols _ _ _ _ Hr).
  - intros rows' (rows & -> & Hin)%list_elem_of_fmap. rewrite length_alter, deleted_len. by apply (rg_len _ _ _ _ Hr).
  - intros rows' r' (rows & -> & Hin)%list_elem_of_fmap Hr'. apply list_elem_of_lookup in Hr' as [x Hx].
    destruct (decide (x = j)) as [->|Hne].
    + rewrite list_lookup_alter_eq in Hx. destruct (rows !! j) as [r|] eqn:Hrow; [|done]. injection Hx as <-.
      destruct (rg_rows _ _ _ _ Hr rows r Hin) as [H1 H2]; [by eapply list_elem_of_lookup_2|].
      destruct (deleted_version r H2 (Hu rows r Hin Hrow) H1) as (_ & ? & ?). by split.
    + rewrite list_lookup_alter_ne in Hx by done. apply (rg_rows _ _ _ _ Hr rows r' Hin). by eapply list_elem_of_lookup_2.
Qed.

(** ** The rows a clause chooses *)

Section clearing.
Context (chosen : list (list Z) -> bool).

(** The row [j] of a group is visible and the clause chooses it. *)
Definition row_chosen (g : StoredGroup) (j : nat) : bool :=
  match row_here g j with Some vs => chosen vs | None => false end.

(** The columns [cols2] of the rows that are not chosen. *)
Definition kept_rows (cols2 : list Z) (gs : list StoredGroup) : list (list (list Z)) :=
  gs ≫= fun g => omap (fun j => if row_chosen g j then None else mapM (cell curr snap g j) cols2) (seq 0 (sg_len g)).

(** The group [g'] is [g] without the chosen rows, in every column. *)
Definition swept (g g' : StoredGroup) : Prop :=
  sg_len g' = sg_len g /\ forall j a, (j < sg_len g)%nat -> 0 <= a < Z.of_nat colNum ->
    cell curr snap g' j a = if row_chosen g j then None else cell curr snap g j a.

Lemma swept_none gs : Forall (fun vs => chosen vs = false) (table_rows gs) -> Forall2 swept gs gs.
Proof.
  intros HF. apply Forall_Forall2_diag, Forall_forall. intros g Hg. split; [done|]. intros j a Hj _.
  unfold row_chosen. destruct (mapM (cell curr snap g j) cols) as [vs|] eqn:E; [|done]. rewrite Forall_forall in HF. rewrite (HF vs); [done|].
  unfold InsertScan.table_rows. apply list_elem_of_bind. exists g. split; [|done]. apply list_elem_of_omap. exists j. split; [apply elem_of_seq; lia|done].
Qed.

Lemma swept_deleted g g' j : regular g -> unlocked_row g j -> (j < sg_len g)%nat -> row_chosen g j = true ->
  swept (deleted g j) g' -> swept g g'.
Proof.
  intros Hr Hu Hj Hch [Hl Hc]. rewrite deleted_len in Hl, Hc. split; [done|]. intros x a Hx Ha. rewrite (Hc x a Hx Ha).
  unfold row_chosen. destruct (decide (x = j)) as [->|Hne].
  - rewrite (row_deleted_here g j), (cell_deleted_here g j a) by done. unfold row_chosen in Hch. by rewrite Hch.
  - by rewrite (row_deleted_other g j x), (cell_deleted_other g j x) by done.
Qed.

Lemma swept_step gs gs' k j g : gs !! k = Some g -> regular g -> unlocked_row g j -> (j < sg_len g)%nat -> row_chosen g j = true ->
  Forall2 swept (<[k := deleted g j]> gs) gs' -> Forall2 swept gs gs'.
Proof.
  intros Hg Hr Hu Hj Hch HF. pose proof (lookup_lt_Some _ _ _ Hg). apply Forall2_same_length_lookup_2.
  { by rewrite <- (Forall2_length _ _ _ HF), length_insert. }
  intros m h h' Hh Hh'. destruct (decide (m = k)) as [->|Hne].
  - assert (h = g) as -> by congruence. apply (swept_deleted g h' j); try done.
    eapply Forall2_lookup_lr; [exact HF|by apply list_lookup_insert_eq|done].
  - eapply Forall2_lookup_lr; [exact HF|by rewrite list_lookup_insert_ne|done].
Qed.

Lemma swept_rows cols2 gs gs' : cols2 <> [] -> Forall (fun c => 0 <= c < Z.of_nat colNum) cols2 -> Forall2 swept gs gs' ->
  InsertScan.table_rows curr snap cols2 gs' = kept_rows cols2 gs.
Proof.
  intros Hne Hr. unfold InsertScan.table_rows, kept_rows. induction 1 as [|g g' gs gs' [Hl Hc] _ IH]; [done|].
  cbn [mbind list_bind]. f_equal; [|exact IH]. unfold group_rows. rewrite Hl. apply omap_ext_in. intros j Hj%elem_of_seq.
  destruct (row_chosen g j) eqn:E.
  - destruct cols2 as [|a cols2]; [done|]. apply Forall_cons in Hr as [Ha _]. simpl. by rewrite Hc, E by (done || lia).
  - apply mapM_ext_in. intros a Ha. rewrite Forall_forall in Hr. by rewrite Hc, E by (first [lia|by apply Hr]).
Qed.

End clearing.

Lemma kept_rows_ext (f h : list (list Z) -> bool) cols2 gs : (forall vs, f vs = h vs) -> kept_rows f cols2 gs = kept_rows h cols2 gs.
Proof.
  intros Hf. unfold kept_rows. apply list_bind_ext; [|done]. intros g. apply omap_ext_in. intros j _. unfold row_chosen.
  destruct (mapM (cell curr snap g j) cols); [by rewrite Hf|done].
Qed.

(** The rows of the table without the one deleted. *)
Lemma rows_deleted gs k j g : gs !! k = Some g -> regular g -> unlocked_row g j -> (j < sg_len g)%nat ->
  let gs' := <[k := deleted g j]> gs in
  table_rows gs' = rows_before gs k j g ++ rows_after gs k (S j) g /\
  rows_after gs' k (S j) (deleted g j) = rows_after gs k (S j) g.
Proof.
  intros Hg Hr Hu Hj gs'. pose proof (lookup_lt_Some _ _ _ Hg) as Hk.
  assert (rows_after gs' k (S j) (deleted g j) = rows_after gs k (S j) g) as Ha.
  { unfold rows_after, gs'. rewrite drop_insert_lt, deleted_len by lia. f_equal. apply omap_ext_in. intros x Hx%elem_of_seq.
    apply row_deleted_other. lia. }
  split; [|done].
  rewrite (rows_around gs' k j (deleted g j)); [|by apply list_lookup_insert_eq|by rewrite deleted_len].
  rewrite (row_deleted_here g j Hr Hu Hj), Ha. cbn [option_list app]. f_equal.
  unfold rows_before, gs'. rewrite take_insert_ge by lia. f_equal. apply omap_ext_in. intros x Hx%elem_of_seq. apply row_deleted_other. lia.
Qed.

(** ** Deleting the row the scan is at *)

(** Where the column [c] of row [j] is. *)
Definition attr_at (g : StoredGroup) (j : nat) (c : Z) (a : AttrDataPosition) : Prop :=
  exists rows r, sg_cols g !! Z.to_nat c = Some rows /\ rows !! j = Some r /\
    a = mkAttrPos (item_of rows j r, sg_first g + c, item_off j) (r_bytes r).

Lemma stored_holds N gs s k g : stored colNum N gs s -> gs !! k = Some g -> Forall2 (page_holds s) (member_ptrs colNum g) (sg_cols g).
Proof.
  intros St Hg. destruct (st_bounds _ _ _ _ St k g Hg) as (Hl & H1 & H2).
  apply Forall2_same_length_lookup_2; [unfold member_ptrs; by rewrite length_fmap, length_seq|]. intros c p rows Hp Hrows.
  pose proof (lookup_lt_Some _ _ _ Hrows). rewrite lookup_member_ptrs in Hp by lia. injection Hp as <-.
  destruct (st_pages _ _ _ _ St k g c rows Hg Hrows) as (b & Hb & R).
  destruct (fo_page _ _ _ (st_main _ _ _ _ St) (sg_first g + Z.of_nat c)) as (b' & _ & Hb' & _ & Hno & _); [lia|].
  exists b. split; [done|]. split; [done|]. unfold member_ptr in Hb. by assert (b' = b) as <- by congruence.
Qed.

Lemma pax_ExecDelete_row N gs s k g j attrs row : stored colNum N gs s -> gs !! k = Some g -> unlocked_row g j ->
  Forall2 (attr_at g j) (seqZ 0 (Z.of_nat colNum)) attrs ->
  exists row' s', pax_ExecDelete curr attrs row s = Some ((0, row'), s') /\ stored colNum N (<[k := deleted g j]> gs) s' /\
    changed (member_ptrs colNum g) s s'.
Proof.
  intros St Hg Hu Ha. destruct (st_bounds _ _ _ _ St k g Hg) as (Hl & H1 & H2). pose proof (stored_holds N gs s k g St Hg) as Hps.
  assert (length attrs = colNum) as Hla by (rewrite <- (Forall2_length _ _ _ Ha), length_seqZ; lia).
  destruct (delete_columns_run curr curr_id (member_ptrs colNum g) (sg_cols g) attrs j s row Hps) as (row' & s' & E & Hps' & Hch).
  - apply (member_ptrs_NoDup colNum colNum_ok fuel). lia.
  - apply Forall_forall. intros q Hq. unfold member_ptrs in Hq. apply list_elem_of_fmap in Hq as (c & -> & _). simpl. split; [done|lia].
  - apply Forall2_same_length_lookup_2.
    { rewrite length_zip_with. unfold member_ptrs. rewrite length_fmap, length_seq. lia. }
    intros c [p rows] a Hx Hc. apply lookup_zip_Some in Hx as [Hp Hrows]. pose proof (lookup_lt_Some _ _ _ Hrows).
    rewrite lookup_member_ptrs in Hp by lia. injection Hp as <-. cbn [fst snd] in *.
    assert (seqZ 0 (Z.of_nat colNum) !! c = Some (Z.of_nat c)) as Hz by (apply lookup_seqZ; lia).
    destruct (Forall2_lookup_lr _ _ _ _ _ _ Ha Hz Hc) as (rows' & r & Hr1 & Hr2 & ->). rewrite Nat2Z.id in Hr1.
    assert (rows' = rows) as -> by congruence. exists r. split; [done|]. split; [|done].
    apply (Hu rows); [by eapply list_elem_of_lookup_2|done].
  - exists row', s'. split; [|split; [|done]].
    + unfold pax_ExecDelete. destruct attrs; [simpl in Hla; lia|exact E].
    + eapply (stored_changed colNum colNum_ok fuel ltac:(lia) N gs s s' k g); try done; [by rewrite length_fmap|apply Hch|apply Hch].
Qed.

Context (rtable : RangTable) (rte : RangTblEntry) (rte_tbl : rte_tblInfo rte = tbl) (rte_index : rte_rindex rte = rindex) (tbl_here : tbl <> 0).

Definition here (t : TargetEntry) : Prop :=
  GetCellValueByIndex rtable (te_rindex t) = Some rte /\ 0 <= te_attrIndex t < Z.of_nat colNum.

Lemma at_place_reads g k j i s s' : reads_to s s' -> at_place g k j i s -> at_place g k j i s'.
Proof.
  intros H [A B C D (E1 & E2 & [b E3]) F]. split; try done.
  - intros m c Hm. destruct (C m c Hm) as [? [b' Hb]]. split; [done|]. exists b'. by apply (rt_cached _ _ H).
  - split_and!; [done|done|]. exists b. by apply (rt_cached _ _ H).
Qed.

Lemma origin_columns_run N gs c i k j g : gs !! k = Some g -> regular g -> (j < sg_len g)%nat ->
  ss_scanPostionInfo c = Some i -> ss_tblInfo c = tbl -> ss_rindex c = rindex ->
  forall ts s temp, stored colNum N gs s -> at_place g k j i s -> Forall here ts ->
  exists attrs s', origin_columns rtable [Some (scanTableRow c)] ts temp s = Some (attrs, s') /\ reads_to s s' /\
    Forall2 (attr_at g j) (te_attrIndex <$> ts) attrs.
Proof.
  intros Hg Hr Hj Hi Ht Hx. induction ts as [|t ts IH]; intros s temp St Hat Hts.
  - exists [], s. split; [done|]. split; [apply reads_to_refl|constructor].
  - apply Forall_cons in Hts as [[Hrte Ha] Hts]. cbn [origin_columns].
    destruct (GetColRow_at N gs s c i k j g (te_attrIndex t) true St Hr Hg Hj Hat Hi Ha)
      as (rows & r & heap & found & s1 & Hrows & Hrow & E & Hs1 & Hh). rewrite (Hh eq_refl) in E.
    assert (target_position rtable [Some (scanTableRow c)] t temp s =
      Some (Some (r_bytes r, (item_of rows j r, sg_first g + te_attrIndex t, item_off j)), s1)) as Et.
    { unfold target_position. rewrite Hrte, rte_tbl, rte_index. unfold GetTblRowDataPosition. rewrite decide_False by done.
      cbn [GetTblRow_loop]. assert (tr_tblInfo (scanTableRow c) = tbl) as -> by exact Ht.
      assert (tr_rindex (scanTableRow c) = rindex) as -> by exact Hx. rewrite decide_True by done. by run E. }
    run Et.
    destruct (IH s1 (item_of rows j r, sg_first g + te_attrIndex t, item_off j)) as (attrs & s2 & E2 & Hs2 & HF); try done;
      [by eapply stored_reads|by eapply at_place_reads|].
    run E2. eexists _, s2. split; [reflexivity|]. split; [by eapply reads_to_trans|]. cbn [fmap list_fmap]. constructor; [|done].
    by exists rows, r.
Qed.

(** ** The left plan *)

Section executor.
Context {P : Type} `{Port P} (columns : Z -> list bytes) (behind : list Z) (strs : Z -> option bytes) (behind_ok : (48 <= length behind)%nat).
Context (scan_addr ri : Z) (scan_targets : list TargetEntry) (self : PNode) (quals : option (list PNode)).
Context (targets : list TargetEntry) (targets_ne : targets <> []).
Context (targets_here : Forall here targets).
Context (targets_all : te_attrIndex <$> targets = seqZ 0 (Z.of_nat colNum)).

#[local] Instance the_scan : Scanner ScanState := seqscan_scanner columns curr snap fuel.

Abbreviation state := (EState ScanState P).
Abbreviation scan := (SeqScan scan_addr (Some rte) scan_targets).
Abbreviation seen := (fun vs => [mkRowOf tbl rindex cols vs]).
Abbreviation chosen := (fun vs => clause strs rtable quals (seen vs)).

(** The plan of the rows to change, and its states. *)
Definition row_plan : Plan := match quals with None => scan | Some _ => SelectResult self quals rtable (Some scan) end.
Definition row_state : PlanState :=
  match quals with None => SeqScanState scan_addr | Some _ => SelectState (Some (SeqScanState scan_addr)) end.

(** The rest of the executor keeps. *)
Record stepped (s s' : state) : Prop := {
  sp_ok : ev_ok strs (ev s');
  sp_portal : portal s' = portal s;
  sp_ret : retCode s' = retCode s;
  sp_pages : reads_to (pages_of (ev s)) (pages_of (ev s')) }.

Lemma stepped_trans s1 s2 s3 : stepped s1 s2 -> stepped s2 s3 -> stepped s1 s3.
Proof. intros [A1 B1 C1 D1] [A2 B2 C2 D2]. split; [done|congruence|congruence|by eapply reads_to_trans]. Qed.

(** The scan is at the row [vs]. *)
Definition scan_on (gs : list StoredGroup) (s : state) (vs : list (list Z)) (rest : list (list (list Z))) : Prop :=
  exists c, scanning s !! scan_addr = Some c /\ Read gs (pages_of (ev s)) c vs rest /\
    shows (scanTableRow c) = Some (mkRowOf tbl rindex cols vs).

Lemma scan_step N gs s c R : stored colNum N gs (pages_of (ev s)) -> gs <> [] -> Forall regular gs -> ev_ok strs (ev s) ->
  scanning s !! scan_addr = Some c -> Ahead gs (pages_of (ev s)) c R ->
  exists s', ExecSeqscanNode scan_addr s = Some (match R with [] => None | _ => Some (ScanRow [scan_addr]) end, s') /\ stepped s s' /\
    match R with [] => True | vs :: R => scan_on gs s' vs R end.
Proof.
  intros St Hne Hr Hok Hc Ha. pose proof (next_stored N gs (pages_of (ev s)) c R St Hne Hr Ha) as HS.
  unfold ExecSeqscanNode. rewrite Hc. cbn [mbind option_bind].
  destruct R as [|vs R].
  - destruct HS as (c' & p' & E & Hs). unfold on_pages, ScanNext, the_scan, seqscan_scanner. rewrite E.
    eexists. split; [reflexivity|]. split; [|done]. split; [by destruct Hok|done|done|done].
  - destruct HS as (c' & p' & E & Hs & Hrd & Hsh). unfold on_pages, ScanNext, the_scan, seqscan_scanner. rewrite E.
    eexists. split; [reflexivity|]. split; [split; [by destruct Hok|done|done|done]|].
    exists c'. split; [apply lookup_insert_eq|]. by split.
Qed.

Lemma Read_ahead gs s c vs rest : Read gs s c vs rest -> Ahead gs s c rest.
Proof.
  intros (gb & Hgb & Ht & Hx & i & Hi & Hok & Hj). exists gb. split; [done|]. split; [done|]. split; [done|]. exists i.
  destruct (just_read_ahead _ _ _ _ _ _ _ _ Hj) as [Ha [Hl Hcs]].
  split; [done|]. split; [done|]. split; [by apply (fresh_built fuel fuel_ok colNum cols ltac:(lia) cols_len i vs)|done].
Qed.

Lemma Read_reads gs s s' c vs rest : reads_to s s' -> Read gs s c vs rest -> Read gs s' c vs rest.
Proof.
  intros Hs (gb & Hgb & Ht & Hx & i & Hi & Hok & k & g & j & Hg & Hb & Hr & Hin & Hj & Hc & Hrow & Hrest & Hbu).
  exists gb. rewrite (sc_content _ _ (rt_same _ _ Hs)), (to_data_reads s s') by done. split; [done|]. split; [done|]. split; [done|].
  exists i. split; [done|]. split; [done|]. exists k, g, j.
  split; [done|]. split; [by eapply before_group_reads|]. split; [done|]. split; [done|]. split; [done|].
  split; [by eapply group_cached_reads|done].
Qed.

(** The next row the plan selects: the rows before it are not selected. *)
Definition row_found (gs : list StoredGroup) (s : state) (row : option RowPtr) (R : list (list (list Z))) : Prop :=
  (row = None /\ Forall (fun vs => chosen vs = false) R) \/
  exists skipped vs rest, R = skipped ++ vs :: rest /\ Forall (fun vs => chosen vs = false) skipped /\ chosen vs = true /\
    row = Some (ScanRow [scan_addr]) /\ scan_on gs s vs rest.

Lemma row_found_skip gs s row vs R : chosen vs = false -> row_found gs s row R -> row_found gs s row (vs :: R).
Proof.
  intros Hv [[-> HF]|(sk & v & rest & -> & HF & Hv2)]; [left; split; [done|by constructor]|].
  right. exists (vs :: sk), v, rest. split; [done|]. split; [by constructor|done].
Qed.

Lemma select_step N gs qs self' fuel2 : gs <> [] -> Forall regular gs -> quals = Some qs -> forall R rounds s c,
  stored colNum N gs (pages_of (ev s)) -> ev_ok strs (ev s) -> scanning s !! scan_addr = Some c -> Ahead gs (pages_of (ev s)) c R ->
  (length R < rounds)%nat -> Forall (fun vs => clause_judged strs rtable quals (seen vs)) R ->
  exists row s', ExecSelect_loop behind self' (Some qs) rtable (ExecChild (ExecNodeProc behind fuel2) (Some scan)) rounds
      (Some (SeqScanState scan_addr)) s = Some ((row, Some (SeqScanState scan_addr)), s') /\ stepped s s' /\ row_found gs s' row R.
Proof.
  intros Hne Hr Hq. induction R as [|vs R IH]; intros rounds s c St Hok Hc Ha Hro HJ; (destruct rounds as [|rounds]; [simpl in Hro; lia|]);
    destruct (scan_step N gs s c _ St Hne Hr Hok Hc Ha) as (s1 & E1 & Hs1 & Hon); cbn [ExecSelect_loop];
    (erewrite st_bind_some; [|apply ExecChild_some; cbn [ExecNodeProc]; run E1; reflexivity]).
  - exists None, s1. split; [done|]. split; [done|]. by left.
  - apply Forall_cons in HJ as [Hj HJ]. set (s2 := set_ev (set_subPlanNode self' (ev s1)) s1).
    erewrite (st_bind_some (on_ev _)) by reflexivity. fold s2.
    destruct Hon as (c1 & Hc1 & Hrd & Hsh).
    assert (deref_row (ScanRow [scan_addr]) s2 = Some ([Some (scanTableRow c1)], s2)) as Ed
      by (unfold deref_row; cbn [mapM]; unfold s2; cbn [scanning set_ev]; by rewrite Hc1).
    run Ed. rewrite Hq in Hj. cbn [clause_judged] in Hj.
    assert (ev_ok strs (ev s2)) as Hok2 by (destruct (sp_ok _ _ Hs1); by split).
    destruct (exec_quals_run (fun _ => True) behind strs rtable behind_ok qs [Some (scanTableRow c1)] (seen vs) s2)
      as (e & Eq & Hoke & Hpg); [constructor; [by eexists|constructor]|done|by split|].
    run Eq. assert (stepped s (set_ev e s2)) as Hs3.
    { destruct Hs1 as [_ B C D]. split; [done|done|done|]. cbn [ev set_ev]. rewrite Hpg. exact D. }
    assert (scan_on gs (set_ev e s2) vs R) as Hon2 by (exists c1; cbn [scanning set_ev ev]; rewrite Hpg; by split_and!).
    destruct (selected strs rtable qs (seen vs)) eqn:Hsel.
    + eexists _, _. split; [reflexivity|]. split; [done|]. right. exists [], vs, R. unfold clause. rewrite Hq. by split_and!.
    + destruct (IH rounds (set_ev e s2) c1) as (row & s4 & E4 & Hs4 & Hf); try done.
      * cbn [ev set_ev]. rewrite Hpg. by eapply stored_reads; [|apply (sp_pages _ _ Hs1)].
      * cbn [ev set_ev]. rewrite Hpg. by eapply Read_ahead.
      * simpl in Hro. lia.
      * exists row, s4. split; [exact E4|]. split; [by eapply stepped_trans|]. apply row_found_skip; [|done]. unfold clause. by rewrite Hq.
Qed.

Lemma row_plan_step N gs fuel2 R s c : gs <> [] -> Forall regular gs -> stored colNum N gs (pages_of (ev s)) -> ev_ok strs (ev s) ->
  scanning s !! scan_addr = Some c -> Ahead gs (pages_of (ev s)) c R -> (length R < fuel2)%nat ->
  Forall (fun vs => clause_judged strs rtable quals (seen vs)) R ->
  exists row s', ExecChild (ExecNodeProc behind fuel2) (Some row_plan) (Some row_state) s = Some ((row, Some row_state), s') /\
    stepped s s' /\ row_found gs s' row R.
Proof.
  intros Hne Hr St Hok Hc Ha Hf HJ. unfold row_plan, row_state.
  assert (quals = None \/ exists qs, quals = Some qs) as [Hq|[qs Hq]] by (destruct quals; eauto).
  - destruct (scan_step N gs s c R St Hne Hr Hok Hc Ha) as (s' & E & Hs & Hon). eexists _, s'. split; [|split; [exact Hs|]].
    + rewrite Hq. apply ExecChild_some. cbn [ExecNodeProc]. by run E.
    + destruct R as [|vs R]; [by left|]. right. exists [], vs, R. unfold clause. by rewrite Hq.
  - destruct (select_step N gs qs self fuel2 Hne Hr Hq R fuel2 s c St Hok Hc Ha Hf HJ) as (row & s' & E & Hs & Hrf).
    exists row, s'. split; [|done]. rewrite Hq. apply ExecChild_some. cbn [ExecNodeProc]; unfold_handlers. by run E.
Qed.

(** *** The projection *)

(** The columns of a row that is not all in its scan: from the scan's cells, or from
    the pages. *)
Lemma fetch_stored_run N gs c i k j g : gs !! k = Some g -> regular g -> (j < sg_len g)%nat ->
  ss_scanPostionInfo c = Some i -> ss_tblInfo c = tbl -> ss_rindex c = rindex ->
  forall ts e, stored colNum N gs (pages_of e) -> at_place g k j i (pages_of e) -> Forall here ts ->
  exists cs p, fetch_columns rtable [Some (scanTableRow c)] ts e = Some (cs, set_pages_of p e) /\ reads_to (pages_of e) p /\
    length cs = length ts /\ Forall (fun c => exists n, col_size c = Some n /\ 0 < n) cs.
Proof.
  intros Hg Hr Hj Hi Ht Hx. induction ts as [|t ts IH]; intros e St Hat Hts.
  - exists [], (pages_of e). split; [by destruct e|]. split; [apply reads_to_refl|by split].
  - apply Forall_cons in Hts as [[Hrte Ha] Hts]. cbn [fetch_columns]. rewrite Hrte, rte_tbl, rte_index.
    unfold GetTblRowDataPosition. rewrite decide_False by done. cbn [GetTblRow_loop].
    assert (tr_tblInfo (scanTableRow c) = tbl) as -> by exact Ht. assert (tr_rindex (scanTableRow c) = rindex) as -> by exact Hx.
    rewrite decide_True by done.
    destruct (GetColRow_at N gs (pages_of e) c i k j g (te_attrIndex t) false St Hr Hg Hj Hat Hi Ha)
      as (rows & r & heap & found & p & Hrows & Hrow & E & Hs & _).
    assert (on_pages (GetColRowDataEx (scanTableRow c) (te_attrIndex t) false 0) e = Some ((Some (r_bytes r), heap, found), set_pages_of p e)) as Ep
      by (unfold on_pages; by rewrite E).
    run Ep. cbn [fst snd].
    destruct (IH (set_pages_of p e)) as (cs & p2 & E2 & Hs2 & Hl & HF); [by eapply stored_reads|by eapply at_place_reads|done|].
    exists (r_bytes r :: cs), p2. split; [run E2; by destruct e|]. split; [by eapply reads_to_trans|]. split; [simpl; by rewrite Hl|].
    constructor; [|done]. destruct (rg_rows _ _ _ _ Hr rows r) as ((Hco & _) & _); [by eapply list_elem_of_lookup_2..|].
    exists (Z.of_nat (length (r_bytes r))). split; [exact Hco|]. unfold col_ok, col_size in Hco. apply load_i32_bound in Hco. lia.
Qed.

Abbreviation project_plan := (ProjectTbl (Some targets) rtable (Some row_plan)).
Abbreviation project_state prj := (ProjectTblState prj (Some row_state)).

Lemma project_step N gs fuel2 R prj s c : gs <> [] -> Forall regular gs -> stored colNum N gs (pages_of (ev s)) -> ev_ok strs (ev s) ->
  scanning s !! scan_addr = Some c -> Ahead gs (pages_of (ev s)) c R -> (length R < fuel2)%nat -> is_Some rtable ->
  Forall (fun vs => clause_judged strs rtable quals (seen vs)) R ->
  exists row prj' s', ExecChild (ExecNodeProc behind fuel2) (Some project_plan) (Some (project_state prj)) s =
      Some ((row, Some (project_state prj')), s') /\ stepped s s' /\
    ((row = None /\ Forall (fun vs => chosen vs = false) R) \/
     exists skipped vs rest, R = skipped ++ vs :: rest /\ Forall (fun vs => chosen vs = false) skipped /\ chosen vs = true /\
       is_Some row /\ scanRowDataLeft s' = Some (ScanRow [scan_addr]) /\ scan_on gs s' vs rest).
Proof.
  intros Hne Hr St Hok Hc Ha Hf Hrt HJ.
  destruct (row_plan_step N gs fuel2 R s c Hne Hr St Hok Hc Ha Hf HJ) as (row & s1 & E1 & Hs1 & [[-> HF]|(sk & vs & rest & HR & HF & Hv & -> & Hon)]).
  - exists None, prj, s1. split; [|split; [done|by left]]. apply ExecChild_some. cbn [ExecNodeProc]; unfold_handlers. by run E1.
  - set (s2 := set_sides (Some (ScanRow [scan_addr])) (scanRowDataRight s1) s1).
    destruct Hon as (c1 & Hc1 & Hrd & Hsh).
    destruct (Read_place gs _ c1 vs rest Hrd) as (i & k & j & g & Hi & Ht & Hx & Hg & Hj & _ & Hat & _).
    pose proof (Forall_lookup_1 _ _ _ _ Hr Hg) as Hrg. cbv beta in Hrg.
    assert (deref_row (ScanRow [scan_addr]) s2 = Some ([Some (scanTableRow c1)], s2)) as Ed
      by (unfold deref_row; cbn [mapM]; unfold s2; cbn [scanning set_sides]; by rewrite Hc1).
    destruct (fetch_stored_run N gs c1 i k j g Hg Hrg Hj Hi Ht Hx targets (ev s2)) as (cs & p & Ef & Hp & Hlen & Hpos);
      [by eapply stored_reads; [|apply (sp_pages _ _ Hs1)]|done|done|].
    set (s3 := set_ev (set_pages_of p (ev s2)) s2).
    assert (cs <> []) as Hne' by (intros ->; by destruct targets).
    assert (FetchTargetColumns [Some (scanTableRow c1)] (Some targets) rtable prj s2 =
      Some ((Some (ProjRow true (Some <$> cs)), Some <$> cs), s3)) as Eft.
    { assert (on_ev (fetch_columns rtable [Some (scanTableRow c1)] targets) s2 = Some (cs, s3)) as Ef'
        by (unfold on_ev; by rewrite Ef).
      unfold FetchTargetColumns. destruct rtable as [rt|]; [|by destruct Hrt]. run Ef'. rewrite decide_True by done.
      run (st_lift_run _ _ s3 (FormCol2_run cs prj Hne' Hpos)). reflexivity. }
    exists (Some (ProjRow true (Some <$> cs))), (Some <$> cs), s3. split.
    + apply ExecChild_some. cbn [ExecNodeProc]; unfold_handlers. run E1. run_refl. run_refl. fold s2. run Ed. by run Eft.
    + split; [destruct Hs1 as [[? ?] ? ? ?]; split; [by split|done|done|by eapply reads_to_trans]|].
      right. exists sk, vs, rest. split; [done|]. split; [done|]. split; [done|]. split; [by eexists|]. split; [done|].
      exists c1. split; [done|]. split; [by eapply Read_reads|done].
Qed.

(** ** The loop *)

Abbreviation mstate := (ModState ScanState P).
Abbreviation mpages s := (pages_of (ev (md_exec (C := ScanState) (P := P) s))).

(** The transaction may change every row it sees. *)
Definition unlocked (gs : list StoredGroup) : Prop :=
  forall g j vs, g ∈ gs -> (j < sg_len g)%nat -> row_here g j = Some vs -> unlocked_row g j.

Lemma unlocked_deleted gs k g j : unlocked gs -> gs !! k = Some g -> regular g -> unlocked_row g j -> (j < sg_len g)%nat ->
  unlocked (<[k := deleted g j]> gs).
Proof.
  intros Hu Hg Hr Hj Hjl h x vs Hin Hx Hrow. apply list_elem_of_lookup in Hin as [m Hm].
  destruct (decide (m = k)) as [->|Hne].
  - rewrite list_lookup_insert_eq in Hm by (by eapply lookup_lt_Some). injection Hm as <-. rewrite deleted_len in Hx.
    destruct (decide (x = j)) as [->|Hxj]; [by rewrite (row_deleted_here g j) in Hrow|].
    rewrite row_deleted_other in Hrow by done. intros rows r (rows' & -> & Hrows)%list_elem_of_fmap Hr'.
    rewrite list_lookup_alter_ne in Hr' by done.
    by apply (Hu g x vs ltac:(by eapply list_elem_of_lookup_2) Hx Hrow rows' r).
  - rewrite list_lookup_insert_ne in Hm by done. apply (Hu h x vs); [by eapply list_elem_of_lookup_2|done|done].
Qed.

(** The state of the table and the scan between two rows. *)
Record table_at (N : Z) (gs : list StoredGroup) (R : list (list (list Z))) (s : mstate) : Prop := {
  ta_stored : stored colNum N gs (mpages s);
  ta_groups : gs <> [];
  ta_regular : Forall regular gs;
  ta_unlocked : unlocked gs;
  ta_ev : ev_ok strs (ev (md_exec s));
  ta_ret : mod_retCode s = 0;
  ta_left : exists prj, md_left s = Some (project_state prj);
  ta_scan : exists c, scanning (md_exec s) !! scan_addr = Some c /\ Ahead gs (mpages s) c R }.

Context (rtable_here : is_Some rtable) (plan : ModifyPlan).
Context (plan_targets : mp_targetList plan = Some targets) (plan_rtable : mp_rtable plan = rtable).

Lemma member_ptrs_seqZ g : member_ptrs colNum g = (fun c => (MAIN_FORK, sg_first g + c)) <$> seqZ 0 (Z.of_nat colNum).
Proof.
  unfold member_ptrs, seqZ. rewrite <- list_fmap_compose, Nat2Z.id. apply list_fmap_ext. intros x y _. unfold member_ptr. cbn. do 2 f_equal. lia.
Qed.

Lemma delete_row_step N gs vs rest row opRet (s : mstate) : stored colNum N gs (mpages s) -> gs <> [] -> Forall regular gs -> unlocked gs ->
  ev_ok strs (ev (md_exec s)) -> mod_retCode s = 0 -> (exists prj, md_left s = Some (project_state prj)) ->
  scanRowDataLeft (md_exec s) = Some (ScanRow [scan_addr]) -> scan_on gs (md_exec s) vs rest ->
  exists k j g s', gs !! k = Some g /\ (j < sg_len g)%nat /\ row_here g j = Some vs /\ let gs' := <[k := deleted g j]> gs in
    delete_row curr plan row opRet s = Some (0, s') /\ table_at N gs' rest s' /\
    forall pre, table_rows gs = pre ++ vs :: rest -> table_rows gs' = pre ++ rest.
Proof.
  intros St Hne Hr Hu Hok Hrc Hl Hleft (c & Hc & Hrd & Hsh).
  destruct (Read_place gs _ c vs rest Hrd) as (i & k & j & g & Hi & Ht & Hx & Hg & Hj & Hrow & Hat & Hrest & Hnext).
  pose proof (list_elem_of_lookup_2 _ _ _ Hg) as Hin. pose proof (Forall_lookup_1 _ _ _ _ Hr Hg) as Hrg. cbv beta in Hrg.
  pose proof (Hu g j vs Hin Hj Hrow) as Huj. pose proof (lookup_lt_Some _ _ _ Hg) as Hk.
  rewrite (rows_ahead_data _ gs k (S j) g Hg) in Hrest.
  set (e1 := set_sides (scanRowDataLeft (md_exec s)) (Some row) (md_exec s)).
  destruct (origin_columns_run N gs c i k j g Hg Hrg Hj Hi Ht Hx targets (mpages s) zero_head St Hat) as (attrs & p2 & E2 & Hs2 & Hattrs);
    [exact targets_here|].
  set (e2 := set_ev (set_pages_of p2 (ev e1)) e1).
  assert (FormOriginRowsPos (Some targets) rtable e1 = Some (Some attrs, e2)) as Ef.
  { assert (deref_row (ScanRow [scan_addr]) e1 = Some ([Some (scanTableRow c)], e1)) as Ed
      by (unfold deref_row; cbn [mapM]; unfold e1; cbn [scanning set_sides]; by rewrite Hc).
    assert (on_ev (on_pages (origin_columns rtable [Some (scanTableRow c)] targets zero_head)) e1 = Some (attrs, e2)) as Eo
      by (unfold on_ev, on_pages; cbn [ev e1 set_sides]; by rewrite E2).
    unfold FormOriginRowsPos. run_refl. unfold e1 at 1. cbn [scanRowDataLeft set_sides]. rewrite Hleft.
    destruct rtable as [rt|]; [|by destruct rtable_here]. run Ed. run Eo. rewrite decide_True; [done|].
    apply Forall2_length in Hattrs. by rewrite <- Hattrs, length_fmap. }
  rewrite targets_all in Hattrs.
  destruct (pax_ExecDelete_row N gs p2 k g j attrs (md_row s)) as (row' & p3 & E3 & St3 & Hch); [by eapply stored_reads|done|done|done|].
  exists k, j, g, (mkMod (set_ev (set_pages_of p3 (ev e2)) e2) (md_left s) row').
  split; [done|]. split; [done|]. split; [done|]. cbv zeta.
  assert (delete_row curr plan row opRet s = Some (0, mkMod (set_ev (set_pages_of p3 (ev e2)) e2) (md_left s) row')) as E.
  { unfold delete_row. rewrite plan_targets, plan_rtable.
    erewrite (st_bind_some (on_exec _)) by reflexivity. fold e1.
    assert (on_exec (FormOriginRowsPos (Some targets) rtable) (set_exec e1 s) = Some (Some attrs, set_exec e2 s)) as Ex
      by (unfold on_exec; cbn [md_exec set_exec]; by rewrite Ef).
    run Ex. run_refl. assert (mod_retCode (set_exec e2 s) = 0) as -> by exact Hrc. change (0 <? ExecRetCode_SUC) with false. cbv iota.
    unfold with_row_data, on_ev, on_pages. cbn [md_exec md_row set_exec ev e2 set_ev pages_of set_pages_of]. by rewrite E3. }
  destruct (rows_deleted gs k j g Hg Hrg Huj Hj) as [Hrows Hafter].
  split; [exact E|]. split.
  - split; [exact St3|intros Hn; apply (f_equal length) in Hn; rewrite length_insert in Hn; simpl in Hn; lia|apply Forall_insert; [done|by apply deleted_regular]|by apply unlocked_deleted|by destruct Hok|exact Hrc|exact Hl|].
    exists c. split; [exact Hc|].
    pose proof (Hnext (<[k := deleted g j]> gs) p3 (deleted g j)) as Hn.
    rewrite (rows_ahead_data p3 _ k (S j) (deleted g j)), Hafter, <- Hrest in Hn by (by apply list_lookup_insert_eq).
    apply Hn; [by apply list_lookup_insert_eq|done|apply deleted_len|]. rewrite <- member_ptrs_seqZ.
    eapply changed_trans; [apply changed_reads; exact Hs2|exact Hch].
  - intros pre Hpre. rewrite (rows_around gs k j g Hg Hj), Hrow, <- Hrest in Hpre. cbn [option_list app] in Hpre.
    apply app_inj_2 in Hpre as [<- _]; [|done]. by rewrite Hrows, <- Hrest.
Qed.

Lemma filter_none {A} (f : A -> bool) l : Forall (fun x => f x = false) l -> List.filter f l = [].
Proof. induction 1 as [|x l Hx _ IH]; [done|]. simpl. by rewrite Hx. Qed.

(** One call of the left plan. *)
Lemma next_row N gs R fuel2 (s : mstate) : table_at N gs R s -> (length R < fuel2)%nat ->
  Forall (fun vs => clause_judged strs rtable quals (seen vs)) R ->
  exists row s', next_left behind fuel2 (Some project_plan) s = Some (row, s') /\ reads_to (mpages s) (mpages s') /\
    ev_ok strs (ev (md_exec s')) /\ mod_retCode s' = 0 /\
    (exists prj, md_left s' = Some (project_state prj)) /\
    ((row = None /\ Forall (fun vs => chosen vs = false) R) \/
     exists skipped vs rest, R = skipped ++ vs :: rest /\ Forall (fun vs => chosen vs = false) skipped /\ chosen vs = true /\
       is_Some row /\ scanRowDataLeft (md_exec s') = Some (ScanRow [scan_addr]) /\ scan_on gs (md_exec s') vs rest).
Proof.
  intros [St Hne Hr Hu Hok Hrc [prj Hl] (c & Hc & Ha)] Hf HJ.
  destruct (project_step N gs fuel2 R prj (md_exec s) c Hne Hr St Hok Hc Ha Hf rtable_here HJ) as (row & prj' & e & E & [H1 H2 H3 H4] & Hcase).
  exists row, (mkMod e (Some (project_state prj')) (md_row s)). split; [unfold next_left; by rewrite Hl, E|].
  split; [done|]. split; [done|]. split; [unfold mod_retCode in *; simpl; congruence|]. split; [by eexists|done].
Qed.

(** Deleting the rows that are selected: the others stay, and the loop counts. *)
Lemma delete_loop N fuel2 : forall R gs kept (s : mstate) opRet suc rounds, (length R < rounds)%nat -> table_at N gs R s ->
  table_rows gs = kept ++ R -> Forall (fun vs => chosen vs = false) kept -> (length R < fuel2)%nat -> 0 <= suc -> suc + Z.of_nat (length R) < 2 ^ 31 ->
  Forall (fun vs => clause_judged strs rtable quals (seen vs)) R ->
  exists gs' s', modify_loop mod_retCode set_mod_retCode (delete_row curr plan) rounds (next_left behind fuel2 (Some project_plan)) opRet suc s =
      Some (suc + Z.of_nat (length (List.filter chosen R)), s') /\
    stored colNum N gs' (mpages s') /\ gs' <> [] /\ Forall regular gs' /\ unlocked gs' /\
    Forall2 (swept chosen) gs gs' /\ mod_retCode s' = 0.
Proof.
  induction R as [R IH] using (induction_ltof1 _ length). intros gs kept s opRet suc rounds Hro Hta Hrows Hkept Hf Hs0 Hs1 HJ.
  destruct rounds as [|rounds]; [lia|]. cbn [modify_loop].
  destruct (next_row N gs R fuel2 s Hta Hf HJ) as (row & s1 & E1 & Hs & Hok & Hrc & Hl & Hcase). destruct Hta as [St Hne Hr Hu _ _ _ _].
  run E1. run_refl. rewrite Hrc. change (0 <? ExecRetCode_SUC) with false. cbv iota.
  pose proof (stored_reads _ _ _ _ _ St Hs) as St1.
  destruct Hcase as [[-> HF]|(sk & vs & rest & -> & HF & Hv & [r ->] & Hleft & Hon)].
  - exists gs, s1. rewrite filter_none by done. split; [simpl; by rewrite Z.add_0_r|].
    assert (Forall2 (swept chosen) gs gs) by (apply swept_none; rewrite Hrows; by apply Forall_app). by split_and!.
  - destruct (delete_row_step N gs vs rest r opRet s1 St1 Hne Hr Hu Hok Hrc Hl Hleft Hon)
      as (k & j & g & s2 & Hg & Hj & Hrow & E2 & Hta2 & Hrows2). cbv zeta in E2, Hta2, Hrows2.
    run E2. change (0 <? 0) with false. cbv iota.
    rewrite length_app in Hs1, Hro, Hf. simpl in Hs1, Hro, Hf. apply Forall_app in HJ as [_ HJ]. apply Forall_cons in HJ as [_ HJ].
    assert (i32 (suc + 1) = suc + 1) as -> by (apply i32_small; unfold in_i32; lia).
    destruct (IH rest ltac:(unfold ltof; rewrite length_app; simpl; lia) (<[k := deleted g j]> gs) (kept ++ sk) s2 0 (suc + 1) rounds) as (gs3 & s3 & E3 & St3 & Hne3 & Hr3 & Hu3 & Hcl3 & Hrc3);
      [lia|exact Hta2| |by apply Forall_app|lia|lia|lia|done|].
    { apply Hrows2. by rewrite Hrows, <- app_assoc. }
    exists gs3, s3. split; [|split; [done|split; [done|split; [done|split; [done|split; [|done]]]]]].
    + rewrite E3. do 2 f_equal. rewrite List.filter_app, (filter_none _ sk) by done. cbn [app List.filter]. rewrite Hv. simpl. lia.
    + apply (swept_step chosen gs gs3 k j g); try done; [by apply (Forall_lookup_1 _ _ _ _ Hr Hg)| |by unfold row_chosen; rewrite Hrow].
      by apply (Hu g j vs); [eapply list_elem_of_lookup_2|..].
Qed.

(** ** The statement *)

Lemma new_scan N gs s : stored colNum N gs s -> gs <> [] -> scan_targets <> [] -> length (columns tbl) = colNum ->
  scan_columns (columns tbl) rindex scan_targets = cols ->
  exists c, InitSeqScan columns (Some rte) scan_targets = Some c /\ Ahead gs s c (table_rows gs).
Proof.
  intros St Hne Hst Hcl Hsc. destruct (stored_group_page N gs s St Hne) as (gb & Hgb & Hlast & R & Hno).
  destruct (InitSeqScan_run fuel fuel_ok colNum cols ltac:(lia) version gb (data s <$> gs) cols_len tbl rindex columns rte scan_targets s)
    as (c & Ec & Ht & Hx & i & Hi & Hok & Ha); try done.
  exists c. split; [exact Ec|]. exists gb. split; [done|]. split; [done|]. split; [done|]. exists i. split; [done|]. split; [done|].
  rewrite drop_0, (rows_of_to_data curr snap colNum cols) in Ha. exact Ha.
Qed.
End executor.
End marked.

Section statement.
Context {P : Type} `{Port P} (columns : Z -> list bytes) (behind : list Z) (strs : Z -> option bytes) (behind_ok : (48 <= length behind)%nat).
Context (sn : SnapShotInfo) (snap_is : snap = Some sn) (curr_id : in_u64 curr) (curr_valid : XTID_ISINVALID curr = false).
Context (rtable : RangTable) (rte : RangTblEntry) (rte_tbl : rte_tblInfo rte = tbl) (rte_index : rte_rindex rte = rindex) (tbl_here : tbl <> 0).
Context (scan_addr ri : Z) (rte_here : GetCellValueByIndex rtable ri = Some rte).
Context (targets : list TargetEntry) (targets_index : Forall (fun t => te_rindex t = ri) targets)
  (targets_all : te_attrIndex <$> targets = seqZ 0 (Z.of_nat colNum)) (tbl_columns : length (columns tbl) = colNum).
(** The columns of the scan. *)
Context (scanned : list TargetEntry) (scanned_cols : scan_columns (columns tbl) rindex scanned = cols).

#[local] Instance table_scan : Scanner ScanState := seqscan_scanner columns curr snap fuel.

Abbreviation seen := (fun vs => [mkRowOf tbl rindex cols vs]).

(** The plan of a [DELETE] from one table, run: the chosen rows are gone. *)
Lemma delete_runs N gs quals sel self rounds fuel2 (e : EState ScanState P) :
  stored colNum N gs (pages_of (ev e)) -> gs <> [] -> Forall regular gs -> unlocked gs -> ev_ok strs (ev e) -> retCode e = 0 ->
  let rows := table_rows gs in
  (length rows < Nat.min rounds fuel2)%nat -> Z.of_nat (length rows) < 2 ^ 31 ->
  Forall (fun vs => clause_judged strs rtable quals (seen vs)) rows ->
  let chosen vs := clause strs rtable quals (seen vs) in
  exists e' gs', ExecDeletePlan behind curr rounds fuel2 (subPlanDeleteStmt sel self
      (mkQuery CMD_DELETE rtable (Some (AddJoinTblNodes [(scan_addr, ri, scanned)])) quals (Some targets))) e = Some (tt, e') /\
    retCode e' = Z.of_nat (length (List.filter chosen rows)) /\
    Forall2 (swept chosen) gs gs' /\ stored colNum N gs' (pages_of (ev e')) /\ gs' <> [] /\ Forall regular gs' /\ unlocked gs'.
Proof.
  intros St Hne Hr Hu Hok Hrc rows Hlen Hmax HJ chosen.
  assert (targets <> []) as Htn by (intros ->; apply (f_equal length) in targets_all; rewrite length_seqZ in targets_all; simpl in targets_all; lia).
  assert (scanned <> []) as Hsn by (intros ->; by rewrite <- scanned_cols in cols_ne).
  assert (Forall (here rtable rte) targets) as Hth.
  { apply Forall_forall. intros t Ht. rewrite Forall_forall in targets_index. specialize (targets_index t Ht). cbv beta in targets_index.
    assert (te_attrIndex t ∈ seqZ 0 (Z.of_nat colNum)) as Hin by (rewrite <- targets_all; by apply list_elem_of_fmap_2).
    split; [by rewrite targets_index|]. apply elem_of_seqZ in Hin. lia. }
  assert (is_Some rtable) as Hrt by (apply not_eq_None_Some; intros Hn; by rewrite Hn in rte_here).
  destruct (new_scan rte rte_tbl rte_index tbl_here columns behind behind_ok scanned N gs _ St Hne Hsn tbl_columns scanned_cols) as (c & Ec & Ha).
  set (q := mkQuery CMD_DELETE rtable (Some (AddJoinTblNodes [(scan_addr, ri, scanned)])) quals (Some targets)).
  set (plan := subPlanDeleteStmt sel self q).
  set (left := ProjectTbl (Some targets) rtable (Some (row_plan rtable rte scan_addr scanned sel quals))).
  assert (mp_left plan = Some left) as Hleft.
  { unfold plan, left, subPlanDeleteStmt, row_plan, ProcessTableScan, ProcessSelectQual, ProcessTopNode, q, ProcessQual, AddJoinTblNodes.
    cbn. unfold ProcessScanNode. rewrite rte_here. by destruct quals. }
  set (e1 := set_scanning (<[scan_addr := c]> (scanning e)) e).
  assert (InitExecNode left e = Some (Some (ProjectTblState [] (Some (row_state scan_addr quals))), e1)) as Ei.
  { assert (ScanInit (Some rte) scanned = Some c) as Ec' by exact Ec.
    assert (InitExecNode (SeqScan scan_addr (Some rte) scanned) e = Some (Some (SeqScanState scan_addr), e1)) as Es
      by (unfold_init; run (st_lift_run _ _ e Ec'); by run_refl).
    unfold left, row_plan, row_state. destruct quals as [qs|].
    - assert (InitExecNode (SelectResult sel (Some qs) rtable (Some (SeqScan scan_addr (Some rte) scanned))) e =
        Some (Some (SelectState (Some (SeqScanState scan_addr))), e1)) as Es2 by (unfold_init; by run Es).
      change (InitExecNodeProjectTbl InitExecNode (Some (SelectResult sel (Some qs) rtable (Some (SeqScan scan_addr (Some rte) scanned)))) e =
        Some (Some (ProjectTblState [] (Some (SelectState (Some (SeqScanState scan_addr))))), e1)).
      unfold InitExecNodeProjectTbl, InitChild. by run Es2.
    - change (InitExecNodeProjectTbl InitExecNode (Some (SeqScan scan_addr (Some rte) scanned)) e =
        Some (Some (ProjectTblState [] (Some (SeqScanState scan_addr))), e1)).
      unfold InitExecNodeProjectTbl, InitChild. by run Es. }
  destruct (delete_loop sn snap_is curr_id curr_valid rtable rte rte_tbl rte_index tbl_here columns behind strs behind_ok scan_addr scanned sel quals
    targets Htn Hth targets_all Hrt plan eq_refl eq_refl N fuel2 (table_rows gs) gs [] (mkMod e1 (Some (ProjectTblState [] (Some (row_state scan_addr quals)))) new_row)
    (-1) 0 rounds) as (gs' & s' & E & St' & Hne' & Hr' & Hu' & Hcl & Hrc').
  { fold rows. lia. }
  { split; try done; [by eexists|]. exists c. split; [apply lookup_insert_eq|exact Ha]. }
  { done. }
  { constructor. }
  { fold rows. lia. }
  { done. }
  { fold rows. lia. }
  { done. }
  set (n := Z.of_nat (length (List.filter chosen rows))).
  match type of E with _ = Some (?k, _) => change k with n in E end. assert (0 <= n) as Hn0 by lia.
  exists (md_exec (if 0 <? n then set_mod_retCode n s' else s')), gs'.
  assert (ExecDeletePlan behind curr rounds fuel2 plan e = Some (tt, md_exec (if 0 <? n then set_mod_retCode n s' else s'))) as Er.
  { unfold ExecDeletePlan, ExecModifyPlan. rewrite Hleft. unfold InitChild. rewrite Ei. cbn [mbind option_bind].
    unfold ExecTableModifyTbl. erewrite st_bind_some by exact E. run_refl. by destruct (0 <? n). }
  split; [exact Er|]. split; [destruct (Z.ltb_spec 0 n); [done|]; unfold mod_retCode in Hrc'; rewrite Hrc'; fold n; lia|].
  split; [exact Hcl|].
  assert (pages_of (ev (md_exec (if 0 <? n then set_mod_retCode n s' else s'))) = pages_of (ev (md_exec s'))) as -> by (by destruct (0 <? n)).
  by split.
Qed.
End statement.
End table.

(** ** The statement

    A table whose columns are numbered from 0 and named apart. *)
Record table_definition (defs : list ColumnDefInfo) : Prop := {
  td_size : (0 < length defs <= 250)%nat;
  td_index : cd_attrIndex <$> defs = seqZ 0 (Z.of_nat (length defs));
  td_names : NoDup (colName <$> defs) }.

Lemma GetAttrIndex_loop_nth l : NoDup l -> forall i a k, l !! i = Some a -> GetAttrIndex_loop l a k = k + Z.of_nat i.
Proof.
  induction 1 as [|x l Hx _ IH]; intros i a k Hi; [done|]. cbn [GetAttrIndex_loop]. destruct i as [|i].
  - injection Hi as ->. by rewrite decide_True, Z.add_0_r.
  - cbn in Hi. rewrite decide_False by (intros ->; apply Hx; by eapply list_elem_of_lookup_2). rewrite (IH i) by done. lia.
Qed.

Lemma scan_columns_all defs : table_definition defs ->
  scan_columns (colName <$> defs) 1 (column_target 1 <$> defs) = seqZ 0 (Z.of_nat (length defs)).
Proof.
  intros [_ _ Hn]. unfold scan_columns. assert (filter (fun t => te_rindex t = 1) (column_target 1 <$> defs) = column_target 1 <$> defs) as ->.
  - clear Hn. induction defs as [|d defs IH]; [done|]. cbn [fmap list_fmap]. rewrite filter_cons_True by done. by f_equal.
  - apply list_eq. intros i. rewrite !list_lookup_fmap. destruct (defs !! i) as [d|] eqn:Hd.
    + pose proof (lookup_lt_Some _ _ _ Hd). rewrite lookup_seqZ_lt by lia. cbn. f_equal. unfold GetAttrIndex.
      rewrite (GetAttrIndex_loop_nth _ Hn i); [done|by rewrite list_lookup_fmap, Hd].
    + cbn. apply lookup_ge_None in Hd. symmetry. apply lookup_seqZ_ge. lia.
Qed.

Lemma seqZ_up n k c c' : seqZ 0 n !! k = Some c -> seqZ 0 n !! S k = Some c' -> c < c'.
Proof. intros [-> _]%lookup_seqZ [-> _]%lookup_seqZ. lia. Qed.

Section delete.
Context {P : Type} `{Port P} (behind : list Z) (strs : Z -> option bytes) (behind_ok : (48 <= length behind)%nat).
Context (curr : Z) (sn : SnapShotInfo) (curr_id : in_u64 curr) (curr_valid : XTID_ISINVALID curr = false).
Context (fuel : nat) (fuel_ok : (300 <= fuel)%nat).
Context (GetTableInfo : bytes -> option Z) (tableDef : Z -> list ColumnDefInfo).

Definition column_names (tbl : Z) : list bytes := colName <$> tableDef tbl.

#[local] Instance delete_scan : Scanner ScanState := seqscan_scanner column_names curr (Some sn) fuel.

(** C6: what [DELETE] does to its table. The statement: [DELETE FROM] one table, its
    [WHERE] conditions (of several, one must hold) [well_placed] as for [SELECT]. Its
    scan has the columns the planner gives it, those of the [WHERE] clause when there
    is one and all otherwise, which must be in the order of the table. The table fills
    one page of groups, its rows have no older versions, and the transaction may change
    each row it sees; the conditions, without [<] and unary signs, evaluate on every
    row. Analysed, planned and executed over the sequential scan, which goes on while
    the pages under it change and fetches the columns it does not have from them, the
    statement counts the rows that satisfy its clause as it was written. Before it a
    scan of all columns delivers every row the transaction sees; after it such a scan
    delivers exactly the rows that do not satisfy the clause, whole and in their order;
    the table is still stored well. *)
Theorem DELETE_statement rel tbl conds qs : GetTableInfo (relname rel) = Some tbl -> tbl <> 0 -> table_definition (tableDef tbl) ->
  let table := delete_entry rel tbl in let rtb := Some [mkRTE 1 tbl] in
  Forall (fun n => well_placed tableDef [table] n = true) conds ->
  exists q qs' addr scanned, transformDeleteStmt GetTableInfo tableDef
      (mkDelete rel None (match conds with [] => None | _ => Some (Some <$> conds) end)) qs = Some (Some q, qs') /\
    qt_rtjoinTree q = AddJoinTblNodes [(addr, 1, scanned)] /\
    let cols := scan_columns (column_names tbl) 1 scanned in let colNum := length (tableDef tbl) in
    let all := seqZ 0 (Z.of_nat colNum) in let row vs := [mkRowOf tbl 1 cols vs] in
    let chosen vs := satisfies strs tableDef [table] rtb conds (row vs) in
    let shows := scan_delivers curr (Some sn) all fuel tbl 1 column_names (mkRTE 1 tbl) (column_target 1 <$> tableDef tbl) in
    cols <> [] -> Forall (fun c => 0 <= c < Z.of_nat colNum) cols -> (length cols <= colNum)%nat ->
    (forall k c c', cols !! k = Some c -> cols !! S k = Some c' -> c < c') ->
    forall N gs sel self rounds fuel2 (e : EState ScanState P),
    stored colNum N gs (pages_of (ev e)) -> gs <> [] -> Forall (regular curr (Some sn) colNum) gs -> unlocked curr (Some sn) cols gs ->
    ev_ok strs (ev e) -> retCode e = 0 ->
    let rows := table_rows curr (Some sn) cols gs in
    (length rows < Nat.min rounds fuel2)%nat -> Z.of_nat (length rows) < 2 ^ 31 ->
    Forall (fun vs => clause_judged strs rtb (q_joinTree (plan_query q)) (row vs)) rows ->
    exists e' gs', ExecDeletePlan behind curr rounds fuel2 (subPlanDeleteStmt sel self (plan_query q)) e = Some (tt, e') /\
      retCode e' = Z.of_nat (length (List.filter chosen rows)) /\
      shows (pages_of (ev e)) (table_rows curr (Some sn) all gs) /\
      shows (pages_of (ev e')) (kept_rows curr (Some sn) cols chosen all gs) /\
      stored colNum N gs' (pages_of (ev e')) /\ Forall (regular curr (Some sn) colNum) gs' /\ unlocked curr (Some sn) cols gs'.
Proof.
  intros Ht H0 Hdef table rtb Hw. destruct (td_size _ Hdef) as [Hs1 Hs2].
  assert (tableDef tbl <> []) as Hne0 by (intros Hn; rewrite Hn in Hs1; simpl in Hs1; lia).
  destruct (transformDeleteStmt_run GetTableInfo tableDef rel tbl conds qs Ht H0 Hne0 Hw) as (q & qs' & addr & scanned & E & Hq & Hd).
  exists q, qs', addr, scanned. split; [exact E|]. split.
  { apply (f_equal q_rtjoinTree) in Hq. cbn [plan_query q_rtjoinTree] in Hq. destruct (qt_rtjoinTree q); [done|by apply (inj Some) in Hq]. }
  intros cols colNum all row chosen shows Hc1 Hc2 Hc3 Hc4
    N gs sel self rounds fuel2 e St Hne Hr Hu Hok Hrc rows Hlen Hmax HJ.
  rewrite Hq in HJ |- *. cbn [q_joinTree] in HJ.
  assert (forall vs, clause strs rtb (match qt_joinTree q with [] => None | ps => Some ps end) (row vs) = chosen vs) as Hch
    by (intros vs; unfold chosen; rewrite <- (satisfies_conds strs tableDef [table] rtb (qt_joinTree q) conds (row vs))
      by (intros; by apply Hd); by destruct (qt_joinTree q)).
  assert (column_target 1 <$> tableDef tbl <> []) as Htn by (by destruct (tableDef tbl)).
  assert (length (column_names tbl) = colNum) as Hcn by (unfold column_names; by rewrite length_fmap).
  destruct (delete_runs curr (Some sn) colNum cols ltac:(lia) Hc2 Hc1 Hc3 Hc4 fuel fuel_ok tbl 1 column_names behind strs behind_ok
    sn eq_refl curr_id curr_valid rtb (mkRTE 1 tbl) eq_refl eq_refl H0 addr 1 eq_refl (column_target 1 <$> tableDef tbl))
    with (scanned := scanned) (N := N) (gs := gs) (quals := match qt_joinTree q with [] => None | ps => Some ps end) (sel := sel)
      (self := self) (rounds := rounds) (fuel2 := fuel2) (e := e) as (e' & gs' & Ex & Hn & Hcl & St' & Hne' & Hr' & Hu'); try done.
  - apply Forall_fmap, Forall_true. done.
  - rewrite <- list_fmap_compose. exact (td_index _ Hdef).
  - exists e', gs'. split; [exact Ex|]. rewrite (List.filter_ext _ _ Hch) in Hn. split; [exact Hn|].
    assert (Forall (fun c => 0 <= c < Z.of_nat colNum) all) as Ha1 by (apply Forall_forall; intros c Hc%elem_of_seqZ; lia).
    assert (all <> []) as Ha2
      by (intros Hn0; apply (f_equal length) in Hn0; unfold all in Hn0; rewrite length_seqZ in Hn0; simpl in Hn0; lia).
    assert (forall g s, stored colNum N g s -> g <> [] -> Forall (regular curr (Some sn) colNum) g ->
      shows s (table_rows curr (Some sn) all g)) as Hsh.
    { intros g s. apply (stored_delivers curr (Some sn) colNum all); try done.
      - unfold all. rewrite length_seqZ. lia.
      - apply seqZ_up.
      - apply scan_columns_all, Hdef. }
    split; [by apply Hsh|]. split; [|done].
    assert (table_rows curr (Some sn) all gs' = kept_rows curr (Some sn) cols chosen all gs) as <-; [|by apply Hsh].
    rewrite (swept_rows _ _ _ _ (conj Hs1 Hs2) Hc3 _ fuel_ok _ _ _ _ Ha2 Ha1 Hcl). by apply kept_rows_ext.
Qed.
End delete.

(** ** A concrete deletion

    Two columns in one group, three rows, of which the transaction sees two. *)

Definition del_group : StoredGroup := mkSG 1 2 [rows_a; rows_b].
Definition del_groups_page : list Z := default [] (write_group_item (page_no 2) 1 (group_len 2) (member_data 2 0 2)).
Definition del_state : PageState :=
  mkPS ∅ {[ (MAIN_FORK, 1) := page_no 1; (MAIN_FORK, 2) := page_a; (MAIN_FORK, 3) := page_b;
          (GROUP_FORK, 1) := page_no 1; (GROUP_FORK, 2) := del_groups_page ]} [] 3 2 0.

Lemma del_content p : content del_state p = 
  if decide (p = (MAIN_FORK, 1)) then Some (page_no 1) else if decide (p = (MAIN_FORK, 2)) then Some page_a else
  if decide (p = (MAIN_FORK, 3)) then Some page_b else if decide (p = (GROUP_FORK, 1)) then Some (page_no 1) else
  if decide (p = (GROUP_FORK, 2)) then Some del_groups_page else None.
Proof.
  unfold content, del_state. simpl pages. rewrite lookup_empty. simpl disk.
  repeat (case_decide; [subst p; by vm_compute|]). rewrite !lookup_insert_ne by congruence. by rewrite lookup_singleton_ne by congruence.
Qed.

Lemma del_groups_rep : page_rep del_groups_page [group_item 2 del_group].
Proof. concrete_rep. Qed.

Lemma del_file f n : (f = MAIN_FORK /\ n = 3) \/ (f = GROUP_FORK /\ n = 2) -> file_of f n del_state.
Proof.
  intros Hf. split.
  - intros k Hk. rewrite del_content.
    destruct Hf as [[-> ->]|[-> ->]]; [assert (k = 1 \/ k = 2 \/ k = 3) as [-> | [-> | ->]] by lia|assert (k = 1 \/ k = 2) as [-> | ->] by lia];
      (eexists _, _; split; [reflexivity|]; split_and!; by vm_compute).
  - intros k Hk. rewrite del_content. destruct Hf as [[-> ->]|[-> ->]]; repeat (case_decide as Hp; [exfalso; simplify_eq; lia|clear Hp]); done.
  - by destruct Hf as [[-> ->]|[-> ->]].
  - destruct Hf as [[-> ->]|[-> ->]]; lia.
Qed.

Lemma del_stored : stored 2 3 [del_group] del_state.
Proof.
  split.
  - apply del_file. by left.
  - right. split; [apply del_file; by right|]. exists del_groups_page. split; [by rewrite del_content|apply del_groups_rep].
  - intros [|i] g Hg; [|done]. injection Hg as <-. split; [done|]. simpl. lia.
  - intros [|i] g k rows Hg Hk; [|done]. injection Hg as <-. rewrite del_content.
    destruct k as [|[|k]]; [|injection Hk as <-|done]; [injection Hk as <-; exists page_a|exists page_b];
      (split; [by vm_compute|]); [apply page_a_rep|apply page_b_rep].
  - intros [|i] [|j] g h Hg Hh Hij; try done; lia.
Qed.

Lemma del_row r : r ∈ rows_a ++ rows_b -> updatable 9 (r_bytes r) /\ InsertScan.plain 9 small_snapshot (r_bytes r).
Proof.
  intros Hr. unfold rows_a, rows_b in Hr. cbn [app] in Hr.
  repeat (apply elem_of_cons in Hr as [->|Hr];
    [split; [split; [split; by vm_compute|]; eexists; split; [vm_compute; reflexivity|]; split; [split_and!; by vm_compute|by vm_compute]
            |eexists; split; [vm_compute; reflexivity|]; split; [by vm_compute|eexists; by vm_compute]]|]).
  by apply not_elem_of_nil in Hr.
Qed.

Lemma del_rows rows r : rows ∈ sg_cols del_group -> r ∈ rows -> r ∈ rows_a ++ rows_b.
Proof. intros [->|[->|?%not_elem_of_nil]%elem_of_cons]%elem_of_cons Hr; [..|done]; apply elem_of_app; auto. Qed.

Lemma del_regular : InsertScan.regular 9 small_snapshot 2 del_group.
Proof.
  split; [done| |].
  - by intros rows [->|[->|?%not_elem_of_nil]%elem_of_cons]%elem_of_cons.
  - intros rows r Hrows Hr. pose proof (del_rows rows r Hrows Hr) as Hin. split; [by apply small_readable|by apply del_row].
Qed.

Lemma del_unlocked : unlocked 9 small_snapshot [0] [del_group].
Proof.
  intros g j vs ->%list_elem_of_singleton _ _ rows r Hrows Hr. apply del_row. apply (del_rows rows); [done|].
  by eapply list_elem_of_lookup_2.
Qed.

(** [DELETE FROM t WHERE t.a = 10]: the scan reads the column [a]. *)
Definition del_cond : Node := N_A_Expr EQUAL (Some (N_ColumnRef 3 [97] (Some [116]))) (Some (N_ConstValue 4 10 VT_INT 0)).

Definition del_exec : EState ScanState MemPort :=
  mkES (mkEv del_state {[ 8 := [97; 98; 0] ]} 100 zero_expr (OtherNode 1 0 0 0)) ∅ [] None None 0.

Lemma two_definition : table_definition (two_defs 77).
Proof. split; [simpl; lia|done|]. by apply (bool_decide_unpack (NoDup [[97]; [98]])); vm_compute. Qed.

Lemma DELETE_statement_witness :
  exists q qs' e', transformDeleteStmt two_catalog two_defs (mkDelete (mkRangeVar [116] None) None (Some [Some del_cond])) start_query = Some (Some q, qs') /\
    qt_rtjoinTree q = AddJoinTblNodes [(101, 1, [mkTE 0 1 VT_INT [97] [97] None])] /\
    @ExecDeletePlan _ _ (seqscan_scanner (column_names two_defs) 9 small_snapshot 300) _ (replicate 48 0) 9 10 10
      (subPlanDeleteStmt (OtherNode 1 0 0 0) (OtherNode 2 0 0 0) (plan_query q)) del_exec = Some (tt, e') /\
    retCode e' = 1 /\
    scan_delivers 9 small_snapshot [0; 1] 300 77 1 (column_names two_defs) (mkRTE 1 77) small_targets (pages_of (ev e')) [[stamp 5 12; stamp 5 22]].
Proof.
  destruct (DELETE_statement (P := MemPort) (replicate 48 0) strs0 ltac:(rewrite length_replicate; lia) 9 (mkSnap 8 8 0 16 []) ltac:(by vm_compute)
    ltac:(by vm_compute) 300 ltac:(lia) two_catalog two_defs (mkRangeVar [116] None) 77 [del_cond] start_query eq_refl ltac:(lia) two_definition
    ltac:(by repeat constructor)) as (q & qs' & addr & scanned & E & Hj & Hrun).
  exists q, qs'. vm_compute in E. injection E as <- <-. vm_compute in Hj. injection Hj as <- <-.
  assert (scan_columns (column_names two_defs 77) 1 [mkTE 0 1 VT_INT [97] [97] None] = [0]) as Hcols by reflexivity.
  cbv zeta in Hrun. rewrite Hcols in Hrun.
  assert (table_rows 9 small_snapshot [0] [del_group] = [[stamp 3 10]; [stamp 5 12]]) as Hrows by (by vm_compute).
  destruct (Hrun ltac:(done) ltac:(repeat constructor; simpl; lia) ltac:(simpl; lia) ltac:(by intros [|k])
    3 [del_group] (OtherNode 1 0 0 0) (OtherNode 2 0 0 0) 10%nat 10%nat del_exec) as (e' & gs' & Ex & Hrc & _ & Hd & _).
  - apply del_stored.
  - done.
  - apply Forall_singleton, del_regular.
  - apply del_unlocked.
  - destruct eval0_ok. by split.
  - done.
  - change (Some (mkSnap 8 8 0 16 [])) with small_snapshot. rewrite Hrows. simpl. lia.
  - change (Some (mkSnap 8 8 0 16 [])) with small_snapshot. rewrite Hrows. simpl. lia.
  - change (Some (mkSnap 8 8 0 16 [])) with small_snapshot. rewrite Hrows. repeat (apply Forall_cons_2 || apply Forall_nil_2);
      (split; [exact I|split; [reflexivity|split; eexists; vm_compute; reflexivity]]).
  - change (Some (mkSnap 8 8 0 16 [])) with small_snapshot in Hrc, Hd. rewrite Hrows in Hrc.
    exists e'. split; [reflexivity|]. split; [reflexivity|]. split; [exact Ex|]. split; [rewrite Hrc; by vm_compute|].
    match type of Hd with scan_delivers _ _ _ _ _ _ _ _ _ _ ?l => assert (l = [[stamp 5 12; stamp 5 22]]) as Hl by (by vm_compute) end.
    rewrite Hl in Hd. exact Hd.
Defined.
