(* ===== verification/Update.v ===== *)
(** * UPDATE

    What [UPDATE] does to a column of a stored row ([pax_ExecUpdate] of
    [src/src/sqlcore/executor/execModifyTable.c], modelled in [Modify]) when the new
    value is not longer than the old one and the page has an undo page with room: the
    old version is kept there for the transactions that still see it. *)

From S2P Require Import Prelude Bytes Locks Transaction Snapshot Page PageStore Space DataTypes Express Plan Executor SeqScan Tuple Insert InsertScan Modify.

(** ** The undo page *)

(** The page [n] with the bytes [b] has the undo page [u], which holds [urows]. *)
Record undo_page (s : PageState) (b : list Z) (u : Z) (urows : list row) : Prop := {
  un_link : load_i32 b off_undo_pageno = Some u;
  un_pos : 0 < u;
  un_holds : exists ub t, content s (MAIN_FORK, u) = Some ub /\ page_rep ub urows /\ pageNum ub = Some u /\
    Page.pageType ub = Some t /\ GET_PAGE_TYPE t = PAGE_UNDO }.

(** The chain from a data page to its undo page. *)
Lemma GetSpaceSpecifyPage_undo s n b u urows size : 0 < n -> content s (MAIN_FORK, n) = Some b -> undo_page s b u urows ->
  0 <= size -> size < free_space urows -> size + PAGE_DATA_HEADER_SIZE < PAGE_MAX_SIZE ->
  exists s', GetSpaceSpecifyPage size PAGE_NEW MAIN_FORK n PAGE_UNDO s = Some (Some (MAIN_FORK, u), s') /\ reads_to s s' /\
    is_Some (pages s' !! (MAIN_FORK, u)).
Proof.
  intros Hn Hb [Hl Hu (ub & t & Hub & R & Hno & Ht & Hty)] H0 Hroom Hs.
  destruct (GetPageByIndex_reads s MAIN_FORK n b Hn Hb) as (s1 & E1 & Hs1 & Hc1).
  destruct (LockPage_reads (Some (MAIN_FORK, n)) RWLock_WRITE s1) as (s2 & E2 & Hs2).
  assert (pages s2 !! (MAIN_FORK, n) = Some b) as Hc2 by (by apply (rt_cached _ _ Hs2)).
  destruct (GetPageByIndex_reads s2 MAIN_FORK u ub Hu) as (s3 & E3 & Hs3 & Hc3).
  { by rewrite (sc_content _ _ (rt_same _ _ Hs2)), (sc_content _ _ (rt_same _ _ Hs1)). }
  destruct (LockPage_reads (Some (MAIN_FORK, u)) RWLock_WRITE s3) as (s4 & E4 & Hs4).
  assert (pages s4 !! (MAIN_FORK, u) = Some ub) as Hc4 by (by apply (rt_cached _ _ Hs4)).
  destruct (UnLockPage_reads (Some (MAIN_FORK, u)) RWLock_WRITE s4) as (s5 & E5 & Hs5).
  destruct (UnLockPage_reads (Some (MAIN_FORK, n)) RWLock_WRITE s5) as (s6 & E6 & Hs6).
  destruct (ReleasePage_reads (Some (MAIN_FORK, n)) s6) as (s7 & E7 & Hs7).
  assert (reads_to s4 s7) as Hs47 by (eapply reads_to_trans; [exact Hs5|]; by eapply reads_to_trans).
  exists s7. split; [|split].
  - unfold GetSpaceSpecifyPage. rewrite (proj2 (Z.leb_gt _ _)) by lia.
    assert (chain_loop chain_fuel_max size MAIN_FORK None n PAGE_UNDO 0 s = Some (ChainFound (MAIN_FORK, u), s7)) as Hc; [|by run Hc].
    unfold chain_fuel_max. cbn [chain_loop]. run E1. run E2. run (get_page_run _ _ _ Hc2).
    rewrite bool_decide_true by done. change (PAGE_UNDO =? PAGE_UNDO) with true. cbn [andb]. run (st_lift_run _ _ s2 Hl).
    rewrite (proj2 (Z.eqb_neq u 0)) by lia. change (0 <? 2) with true. cbn [negb andb].
    run E3. run E4. run (get_page_run _ _ _ Hc4). rewrite bool_decide_false by done. cbn [andb]. run (st_lift_run _ _ s4 Ht).
    rewrite Hty. change (PAGE_UNDO =? PAGE_UNDO) with true. cbn [negb].
    run (st_lift_run _ _ s4 (HasFreeSpace_rep _ _ size R)). rewrite (proj2 (Z.ltb_lt _ _)) by done.
    run E5. assert (unlock_release (Some (MAIN_FORK, n)) s5 = Some (tt, s7)) as Eu by (unfold unlock_release; by run E6). by run Eu.
  - eapply reads_to_trans; [exact Hs1|]. eapply reads_to_trans; [exact Hs2|]. eapply reads_to_trans; [exact Hs3|].
    eapply reads_to_trans; [exact Hs4|exact Hs47].
  - exists ub. by apply (rt_cached _ _ Hs47).
Qed.

(** ** A new version in place *)

Section update.
Context (curr : Z) (curr_id : in_u64 curr).

(** The header of a new version whose old one is row [idx] of page [u]. *)
Definition new_head (seg u idx : Z) : TupleHeader := mkTuple curr INVALID_XTID CLEAN_XTID 0 (mkRowPos seg u idx).

Lemma deleted_any prev h : (ComputeXmaxTupleHeader curr prev h).2 = (ComputeXmaxTupleHeader curr zero_header h).2.
Proof. done. Qed.

(** The old version with its header, in the row structure of the scan too. *)
Lemma old_version_run olds k prev c cell h : olds !! k = Some (mkOld c cell) -> updatable curr c -> get_header c = Some h ->
  Forall (fun o => column_ok (oc_column o)) olds ->
  exists olds', old_version curr olds k prev = Some (deleted_col curr c, olds', (ComputeXmaxTupleHeader curr prev h).1) /\
    length olds' = length olds.
Proof.
  intros Hk (Hok & h' & Hh' & Hhok & Hup) Hh Holds. assert (h' = h) as -> by congruence.
  destruct (deleted_col_spec curr curr_id c Hok h Hh Hhok) as (Ed & Hlen & Hdok & _).
  set (old := (ComputeXmaxTupleHeader curr prev h).2). set (olds1 := <[k := mkOld (deleted_col curr c) cell]> olds).
  assert (Forall (fun o => column_ok (oc_column o)) olds1) as H1 by (by apply Forall_insert).
  assert (exists olds', mapM (put_header old cell) olds1 = Some olds' /\ length olds' = length olds1) as (olds' & Em & Hl).
  { clear -H1. induction H1 as [|o l Ho _ (l' & IH & Hl)]; [by exists []|]. cbn [mapM].
    assert (exists o', put_header old cell o = Some o') as [o' ->].
    { unfold put_header. destruct (decide _); [|by eexists]. destruct Ho as [Hc Hlc].
      destruct (set_header_spec (oc_column o) old Hc Hlc) as (c' & -> & _). cbn [mbind option_bind]. by eexists. }
    cbn [mbind option_bind]. rewrite IH. eexists. split; [reflexivity|]. simpl. by rewrite Hl. }
  exists olds'. split; [|by rewrite Hl; unfold olds1; rewrite length_insert].
  unfold old_version. rewrite Hk. cbn [mbind option_bind oc_column oc_cell]. rewrite Hh. cbn [mbind option_bind].
  change (ComputeXmaxTupleHeader curr prev h) with ((ComputeXmaxTupleHeader curr prev h).1, old). cbv iota.
  unfold old. rewrite deleted_any, Ed. cbn [mbind option_bind]. rewrite <- (deleted_any prev). fold old olds1. by rewrite Em.
Qed.

(** One column: the page has the new version, its header leading to the old one on the
    undo page. *)
Lemma update_column_run s n b rows i r u urows c olds k cell size prev row :
  content s (MAIN_FORK, n) = Some b -> page_rep b rows -> pageNum b = Some n -> 0 < n -> n <> u -> undo_page s b u urows ->
  rows !! i = Some r -> updatable curr (r_bytes r) -> column_ok c -> (length c <= length (r_bytes r))%nat ->
  olds !! k = Some (mkOld (r_bytes r) cell) -> Forall (fun o => column_ok (oc_column o)) olds ->
  Z.of_nat (length (r_bytes r)) <= size -> ITEM_SIZE + size < free_space urows -> ITEM_SIZE + size + PAGE_DATA_HEADER_SIZE < PAGE_MAX_SIZE ->
  item_clean (item row) ->
  exists olds' hd row' s' c' ur, update_column curr (mkAttrPos (item_of rows i r, n, item_off i) c) olds k size prev row s =
      Some (Some (olds', hd, row'), s') /\
    set_header c (new_head (rp_segno (rowPos row)) u (Z.of_nat (length urows))) = Some c' /\
    page_holds s' (MAIN_FORK, n) (<[i := replaced r c']> rows) /\
    page_holds s' (MAIN_FORK, u) (urows ++ [ur]) /\ r_bytes ur = deleted_col curr (r_bytes r) /\ Page.readable ur /\
    changed [(MAIN_FORK, n); (MAIN_FORK, u)] s s' /\ is_Some (pages s' !! (MAIN_FORK, u)) /\ is_Some (pages s' !! (MAIN_FORK, n)) /\
    item_clean (item row') /\ length olds' = length olds.
Proof.
  intros Hb R Hno Hn Hnu Hundo Hi Hup Hc Hlc Hk Holds Hsize Hroom Hs Hit.
  pose proof Hundo as [Hl Hu (ub & t & Hub & Ru & Huno & Ht & Hty)]. pose proof Hup as (Hok & h & Hh & Hhok & Htu).
  destruct (deleted_col_spec curr curr_id (r_bytes r) Hok h Hh Hhok) as (_ & Hdlen & Hdok & _).
  destruct (old_version_run olds k prev (r_bytes r) cell h Hk Hup Hh Holds) as (olds' & Eo & Holen).
  set (new := new_head (rp_segno (rowPos row)) u (Z.of_nat (length urows))).
  destruct (set_header_spec c new (proj1 Hc) (proj2 Hc)) as (c' & Ec & Hclen & Hcok & _).
  (* the pages *)
  destruct (GetPageByIndex_reads s MAIN_FORK n b Hn Hb) as (s1 & E1 & Hs1 & Hc1).
  assert (undo_page s1 b u urows) as Hundo1.
  { split; [done|done|]. exists ub, t. rewrite (sc_content _ _ (rt_same _ _ Hs1)). by split_and!. }
  destruct (GetSpaceSpecifyPage_undo s1 n b u urows (ITEM_SIZE + size) Hn) as (s2 & E2 & Hs2 & [ub2 Hub2]);
    [by rewrite (sc_content _ _ (rt_same _ _ Hs1))|done|unfold ITEM_SIZE; lia|done|done|].
  destruct (LockPage_reads (Some (MAIN_FORK, n)) RWLock_WRITE s2) as (s3 & E3 & Hs3).
  destruct (LockPage_reads (Some (MAIN_FORK, u)) RWLock_WRITE s3) as (s4 & E4 & Hs4).
  assert (reads_to s s4) as Hs14 by (eapply reads_to_trans; [exact Hs1|]; eapply reads_to_trans; [exact Hs2|]; by eapply reads_to_trans).
  assert (pages s4 !! (MAIN_FORK, u) = Some ub) as Hub4.
  { apply (rt_cached _ _ Hs4), (rt_cached _ _ Hs3). rewrite Hub2. f_equal.
    assert (content s2 (MAIN_FORK, u) = Some ub) as Hx by (by rewrite (sc_content _ _ (rt_same _ _ Hs2)), (sc_content _ _ (rt_same _ _ Hs1))).
    unfold content in Hx. rewrite Hub2 in Hx. by injection Hx. }
  assert (pages s4 !! (MAIN_FORK, n) = Some b) as Hb4 by (by apply (rt_cached _ _ Hs4), (rt_cached _ _ Hs3), (rt_cached _ _ Hs2)).
  (* the old version *)
  assert (col_size (deleted_col curr (r_bytes r)) = Some (Z.of_nat (length (deleted_col curr (r_bytes r))))) as Hds by apply Hdok.
  destruct (WriteRowOnePage_run s4 (MAIN_FORK, u) urows (deleted_col curr (r_bytes r))
    (mkRowData (rowPos row) (item row) (Z.of_nat (length (deleted_col curr (r_bytes r)))) [deleted_col curr (r_bytes r)]))
    as (s5 & row5 & ur & E5 & Hm5 & Hread & Hubytes & Hit5 & W5 & Hpos5); try done.
  { by exists ub. }
  { rewrite Hdlen. lia. }
  (* the new version *)
  assert (member_rep s5 (MAIN_FORK, n) rows) as Hm5n.
  { exists b. rewrite (rw_other _ _ _ W5) by (intros [= ->]%list_elem_of_singleton; done). by split_and!. }
  destruct (WriteRowDataOnly_run s5 (MAIN_FORK, n) rows i r c' (mkRowData (rowPos row5) (item row5) (Z.of_nat (length c')) [c']) Hm5n Hi eq_refl Hcok)
    as (s6 & E6 & Hm6 & W6); [lia|].
  destruct (UnLockPage_reads (Some (MAIN_FORK, u)) RWLock_WRITE s6) as (s7 & E7 & Hs7).
  destruct (ReleasePage_reads (Some (MAIN_FORK, u)) s7) as (s8 & E8 & Hs8).
  destruct (UnLockPage_reads (Some (MAIN_FORK, n)) RWLock_WRITE s8) as (s9 & E9 & Hs9).
  destruct (ReleasePage_reads (Some (MAIN_FORK, n)) s9) as (s10 & E10 & Hs10).
  assert (reads_to s6 s10) as Hs610 by (eapply reads_to_trans; [exact Hs7|]; eapply reads_to_trans; [exact Hs8|]; by eapply reads_to_trans).
  assert (forall p rs, member_rep s6 p rs -> page_holds s10 p rs /\ is_Some (pages s10 !! p)) as Hend.
  { intros p rs (x & Hx & Rx & _ & Hnx). split; [|exists x; by apply (rt_cached _ _ Hs610)]. exists x. split; [|by split].
    rewrite (sc_content _ _ (rt_same _ _ Hs610)). unfold content. by rewrite Hx. }
  assert (member_rep s6 (MAIN_FORK, u) (urows ++ [ur])) as Hm6u.
  { eapply member_rep_frame; [exact W6| |exact Hm5]. intros [= ->]%list_elem_of_singleton. done. }
  eexists olds', _, _, s10, c', ur. split.
  { unfold update_column. unfold hi_pageno. cbn [headItem ap_column fst snd]. run E1. run (get_page_run _ _ _ Hc1). run (st_lift_run _ _ s1 Hno).
    run E2. run E3. run E4. run (st_lift_run _ _ s4 Hk). run (st_lift_run _ _ s4 Hh). rewrite decide_True by done.
    assert (WriteRowItemDataWithHeader = WriteRowOnePage) as -> by done.
    erewrite st_bind_some.
    2:{ run (st_lift_run _ _ s4 Eo). run (st_lift_run _ _ s4 Hds). run E5. cbn [tmin tmax tinfo cid ComputeXmaxTupleHeader fst].
        assert (set_header c (mkTuple curr INVALID_XTID CLEAN_XTID 0 (rowPos row5)) = Some c') as Ec5 by (by rewrite Hpos5).
        run (st_lift_run _ _ s5 Ec5). run (st_lift_run _ _ s5 Hcok).
        unfold write_version. cbn [rd_size]. rewrite decide_True by lia. unfold hi_item. cbn [fst snd].
        erewrite st_bind_some by (run E6; reflexivity). reflexivity. }
    assert (unlock_out (Some (MAIN_FORK, u)) s6 = Some (tt, s8)) as Eu by (unfold unlock_out; by run E7). run Eu.
    assert (unlock_out (Some (MAIN_FORK, n)) s8 = Some (tt, s10)) as En by (unfold unlock_out; by run E9). run En. reflexivity. }
  destruct (Hend _ _ Hm6) as [P1 P2]. destruct (Hend _ _ Hm6u) as [P3 P4].
  split; [exact Ec|]. split; [exact P1|]. split; [exact P3|]. split; [exact Hubytes|]. split; [exact Hread|].
  split; [|split; [exact P4|split; [exact P2|split; [exact Hit5|exact Holen]]]].
  eapply changed_trans; [apply changed_reads; exact Hs14|]. eapply changed_trans; [|eapply changed_trans; [|apply changed_reads; exact Hs610]].
  - eapply changed_sub; [|apply changed_rewritten; exact W5]. set_solver.
  - eapply changed_sub; [|apply changed_rewritten; exact W6]. set_solver.
Qed.
End update.

(** ** Who sees which version *)

(** A column written over a row that is not shorter is what is read there. *)
Lemma ReadRowData_replaced p rows i r c : page_rep p rows -> rows !! i = Some (replaced r c) -> col_ok c -> 
  ReadRowData p (row_off rows i) = Some (Some c).
Proof.
  intros R Hi Hc. pose proof (pr_row _ _ R i _ Hi) as Hl. pose proof (row_off_bounds _ _ _ Hi) as [Hb1 Hb2].
  pose proof (pr_fit _ _ R) as Hfit. pose proof (lookup_lt_Some _ _ _ Hi) as Hil.
  cbn [replaced r_bytes] in Hl, Hb2. pose proof Hl as Hl0. rewrite length_app in Hl, Hb2. set (rest := drop (length c) (r_bytes r)) in *.
  pose proof Hl as (H0 & _ & H2 & Hbs & _)%load_inv.
  unfold ReadRowData. unfold col_ok, col_size in Hc. pose proof (load_i32_bound _ _ _ Hc) as Hc4.
  assert (load_i32 p (row_off rows i) = Some (Z.of_nat (length c))) as ->.
  { rewrite <- Hc. unfold load_i32. f_equal. rewrite <- (Z.add_0_r (row_off rows i)).
    rewrite (load_u32_bytes p (row_off rows i) (c ++ rest) 0 Hl0) by (rewrite ?length_app; lia). unfold load_u32. f_equal.
    apply load_app_l. lia. }
  cbn [mbind option_bind]. rewrite (proj2 (Z.ltb_ge _ _)).
  - rewrite load_some by lia. cbn [mbind option_bind]. do 2 f_equal. rewrite Nat2Z.id. apply (f_equal (take (length c))) in Hbs.
    rewrite take_app_length, take_take in Hbs. rewrite Nat.min_l in Hbs by lia. done.
  - unfold MAX_ROW_DATA_SIZE, item_off, off_item, ITEM_SIZE, PAGE_MAX_SIZE, PAGE_DATA_HEADER_SIZE in *. lia.
Qed.

(** The walk ends at the first version when it is visible. *)
Lemma version_first curr snap fuel s sg n i rows r h : 0 < n -> page_holds s (MAIN_FORK, n) rows -> is_Some (pages s !! (MAIN_FORK, n)) ->
  rows !! i = Some r -> Page.readable r -> get_header (r_bytes r) = Some h -> TupleVisibilitySatisfy curr h snap = Some TUPLE_VISIBLE ->
  exists s', version_loop (S fuel) curr snap (mkRowPos sg n (Z.of_nat i)) s = Some (Some (r_bytes r), s') /\ reads_to s s'.
Proof.
  intros Hn (b & Hc & R & _) [b' Hb] Hi Hr Hh Hv. assert (b' = b) as -> by (unfold content in Hc; rewrite Hb in Hc; by injection Hc).
  pose proof (lookup_lt_Some _ _ _ Hi). destruct (pr_ok _ _ R r) as [_ Hvd]; [by eapply list_elem_of_lookup_2|].
  exists (emit (EvUnlock (MAIN_FORK, n) RWLock_READ) (emit (EvLock (MAIN_FORK, n) RWLock_READ) (with_trace s [EvPin (MAIN_FORK, n)]))).
  split; [|apply reads_to_emit_r, reads_to_emit_r; split; [by split|by intros ? ?]].
  cbn [version_loop rp_pageno rp_itemIndex]. rewrite (proj2 (Z.eqb_neq _ _)) by lia. run (ReadPage_cached s n MAIN_FORK b Hn Hb).
  run_refl. set (s1 := emit _ _). assert (pages s1 !! (MAIN_FORK, n) = Some b) as Hb1 by done. run (get_page_run _ _ s1 Hb1).
  pose proof (item_end _ _ i R) as He. unfold item_off in He. rewrite (proj2 (Nat.leb_gt _ _)) in He by lia. run (st_lift_run _ _ s1 He).
  pose proof (pr_item _ _ R i r Hi) as Hit. unfold item_off in Hit. run (st_lift_run _ _ s1 Hit). cbn [it_len it_offset]. rewrite Hvd. cbn [negb].
  run (st_lift_run _ _ s1 (ReadRowData_row _ _ _ _ R Hi Hr)). run_refl. set (s2 := emit _ s1). run (st_lift_run _ _ s2 Hh).
  run (st_lift_run _ _ s2 Hv). by rewrite decide_True by done.
Qed.

Section versions.
Context (curr : Z) (curr_id : in_u64 curr) (curr_valid : XTID_ISINVALID curr = false).

(** The writer sees its version. *)
Lemma new_visible seg u idx snap : TupleVisibilitySatisfy curr (new_head curr seg u idx) snap = Some TUPLE_VISIBLE.
Proof. destruct snap as [sn|]; [|done]. unfold TupleVisibilitySatisfy. cbn [new_head tmin tmax]. by rewrite curr_valid, Z.eqb_refl. Qed.

(** A reader whose snapshot has the writer does not. *)
Lemma new_hidden other sn seg u idx : other <> curr -> TupleVisibililtySnapshot curr sn = Some IN_SNAPSHOT ->
  TupleVisibilitySatisfy other (new_head curr seg u idx) (Some sn) = Some TUPLE_INVISIBLE.
Proof.
  intros Hne Hin. unfold TupleVisibilitySatisfy. cbn [new_head tmin tmax]. rewrite curr_valid, (proj2 (Z.eqb_neq _ _)) by congruence.
  by rewrite Hin.
Qed.

(** What the reader saw it still sees in the old version. *)
Lemma old_seen other sn h : other <> curr -> TupleVisibililtySnapshot curr sn = Some IN_SNAPSHOT ->
  TupleVisibilitySatisfy other h (Some sn) = Some TUPLE_VISIBLE ->
  TupleVisibilitySatisfy other (ComputeXmaxTupleHeader curr zero_header h).2 (Some sn) = Some TUPLE_VISIBLE.
Proof.
  intros Hne Hin. unfold TupleVisibilitySatisfy, ComputeXmaxTupleHeader. cbn [snd tmin tmax]. rewrite curr_valid.
  rewrite (proj2 (Z.eqb_neq curr other)) by congruence. rewrite Hin.
  destruct (XTID_ISINVALID (tmin h)); [done|]. destruct (if tmin h =? other then _ else _) as [m|]; [|done]. cbn [mbind option_bind].
  destruct (decide (m = IN_SNAPSHOT)); [done|]. by destruct (negb (tmin h =? other) && _).
Qed.

(** C7: an update in place keeps the old version for the transactions that see it. A
    new value that is not longer than the old one is written over it, with the id of
    the transaction, and the old version goes to the undo page behind those already
    there; the transaction reads the new value, and a transaction that saw the old one
    and whose snapshot has the writer still reads the old value, through the undo
    page, from any state the tables are read to. *)
Theorem UPDATE_keeps_versions s n b rows i r h u urows c cell size row other sn snap fuel :
  content s (MAIN_FORK, n) = Some b -> page_rep b rows -> pageNum b = Some n -> 0 < n -> n <> u -> undo_page s b u urows ->
  rows !! i = Some r -> updatable curr (r_bytes r) -> get_header (r_bytes r) = Some h -> column_ok c ->
  (length c <= length (r_bytes r))%nat -> Z.of_nat (length (r_bytes r)) <= size -> ITEM_SIZE + size < free_space urows ->
  ITEM_SIZE + size + PAGE_DATA_HEADER_SIZE < PAGE_MAX_SIZE -> item_clean (item row) -> in_i32 (rp_segno (rowPos row)) ->
  other <> curr -> TupleVisibililtySnapshot curr sn = Some IN_SNAPSHOT -> TupleVisibilitySatisfy other h (Some sn) = Some TUPLE_VISIBLE ->
  exists row' s' p' c' old, pax_ExecUpdate curr [mkAttrPos (item_of rows i r, n, item_off i) c] [mkOld (r_bytes r) cell] size row s =
      Some ((0, row'), s') /\
    content s' (MAIN_FORK, n) = Some p' /\ ReadRowData p' (row_off rows i) = Some (Some c') /\
    (forall t, column_value c' t = column_value c t) /\ (forall t, column_value old t = column_value (r_bytes r) t) /\
    forall s1, reads_to s' s1 ->
      visible_column curr snap fuel c' s1 = Some (Some c', s1) /\
      exists s2, visible_column other (Some sn) (S fuel) c' s1 = Some (Some old, s2) /\ reads_to s1 s2.
Proof.
  intros Hb R Hno Hn Hnu Hundo Hi Hup Hh Hc Hlc Hsize Hroom Hs Hit Hseg Hne Hin Hvis.
  assert (Forall (fun o => column_ok (oc_column o)) [mkOld (r_bytes r) cell]) as Holds by (apply Forall_singleton; apply Hup).
  destruct (update_column_run curr curr_id s n b rows i r u urows c [mkOld (r_bytes r) cell] 0 cell size zero_header row Hb R Hno Hn Hnu Hundo
    Hi Hup Hc Hlc eq_refl Holds Hsize Hroom Hs Hit) as
    (olds' & hd & row' & s' & c' & ur & E & Ec & (p' & Hp' & R' & _) & Hu & Hub & Hread & _ & Hcu & _).
  destruct (set_header_spec c (new_head curr (rp_segno (rowPos row)) u (Z.of_nat (length urows))) (proj1 Hc) (proj2 Hc)) as (c2 & Ec2 & Hlen & Hcok & Hhd & Hd). assert (c2 = c') as -> by congruence.
  pose proof Hup as (Hok & h' & Hh' & Hhok & _). assert (h' = h) as -> by congruence.
  destruct (deleted_col_spec curr curr_id (r_bytes r) Hok h Hh Hhok) as (_ & Hdlen & Hdok & Hdh & Hdd).
  assert (get_header c' = Some (new_head curr (rp_segno (rowPos row)) u (Z.of_nat (length urows)))) as Hg.
  { apply get_header_bytes; [|done].
    destruct Hu as (ub & _ & Ru & _). pose proof (pr_fit _ _ Ru) as Hfit. pose proof (bytes_of_nonneg (urows ++ [ur])).
    rewrite length_app in Hfit. unfold item_off, off_item, ITEM_SIZE, PAGE_MAX_SIZE in Hfit.
    split; [exact curr_id|]. do 3 (split; [by vm_compute|]). split; [exact Hseg|]. split; cbn; [|unfold in_i32; lia].
    destruct Hundo as [Hl _ _]. unfold load_i32 in Hl. destruct (load_u32 b off_undo_pageno); [|done]. injection Hl as <-. apply i32_range. }
  exists row', s', p', c', (deleted_col curr (r_bytes r)). split; [unfold pax_ExecUpdate; cbn [update_columns]; by run E|].
  split; [done|]. split.
  { rewrite <- (row_off_insert rows i r (replaced r c')) by (done || by (rewrite length_replaced; [|lia])).
    apply (ReadRowData_replaced p' _ i r c' R'); [|done]. apply list_lookup_insert_eq. by eapply lookup_lt_Some. }
  split; [intros t; apply column_value_same; [apply Hc|exact Hcok|exact Hlen|apply Hc|exact Hd]|].
  split; [intros t; apply column_value_same; [apply Hok|apply Hdok|exact Hdlen|apply Hok|exact Hdd]|].
  intros s1 Hs1. split.
  { unfold visible_column. run (st_lift_run _ _ s1 Hg). run (st_lift_run _ _ s1 (new_visible (rp_segno (rowPos row)) u (Z.of_nat (length urows)) snap)).
    by rewrite decide_True. }
  destruct Hundo as [_ Hupos _].
  destruct (version_first other (Some sn) fuel s1 (rp_segno (rowPos row)) u (length urows) (urows ++ [ur]) ur
    (ComputeXmaxTupleHeader curr zero_header h).2 Hupos) as (s2 & E2 & Hs2).
  - destruct Hu as (ub & Hubc & Hu). exists ub. by rewrite (sc_content _ _ (rt_same _ _ Hs1)).
  - destruct Hcu as [x Hx]. exists x. by apply (rt_cached _ _ Hs1).
  - by rewrite lookup_app_r, Nat.sub_diag by lia.
  - done.
  - by rewrite Hub.
  - by apply old_seen.
  - exists s2. split; [|done]. unfold visible_column. run (st_lift_run _ _ s1 Hg).
    run (st_lift_run _ _ s1 (new_hidden other sn (rp_segno (rowPos row)) u (Z.of_nat (length urows)) Hne Hin)). rewrite decide_False by done.
    unfold CurrentReadVersion. run (st_lift_run _ _ s1 Hg). cbn [new_head undo]. by rewrite E2, Hub.
Qed.
End versions.

(** ** A concrete update

    Transaction 9 sets the column 10 of the first row to 99; transaction 12, whose
    snapshot ends before 9, reads 10. *)

Definition up_page : list Z := default [] (store32 page_a off_undo_pageno 4).
Definition up_undo : list Z := default [] (store32 (page_no 4) off_pageType PAGE_UNDO).
Definition up_state : PageState := mkPS ∅ {[ (MAIN_FORK, 2) := up_page; (MAIN_FORK, 4) := up_undo ]} [] 4 1 0.

Lemma up_page_rep : page_rep up_page rows_a.
Proof. concrete_rep. Qed.

Lemma up_undo_page : undo_page up_state up_page 4 [].
Proof.
  split; [by vm_compute|lia|]. exists up_undo, PAGE_UNDO. split; [by vm_compute|]. split; [|split_and!; by vm_compute].
  split; [by vm_compute|by vm_compute|by vm_compute|by vm_compute|by intros i r Hr|by intros i r Hr|].
  intros r Hr. by apply not_elem_of_nil in Hr.
Qed.

Lemma UPDATE_keeps_versions_witness :
  exists row' s' p' c' old s2, pax_ExecUpdate 9 [mkAttrPos (item_of rows_a 0 (row_with 1 (stamp 3 10)), 2, 40) (int_column 99)]
      [mkOld (stamp 3 10) (Some 0%nat)] 104 new_row up_state = Some ((0, row'), s') /\
    content s' (MAIN_FORK, 2) = Some p' /\ ReadRowData p' (row_off rows_a 0) = Some (Some c') /\
    visible_column 9 small_snapshot 299 c' s' = Some (Some c', s') /\ column_value c' VT_INT = Some (VI 99) /\
    visible_column 12 small_snapshot 300 c' s' = Some (Some old, s2) /\ column_value old VT_INT = Some (VI 10).
Proof.
  destruct (UPDATE_keeps_versions 9 ltac:(by vm_compute) ltac:(by vm_compute) up_state 2 up_page rows_a 0 (row_with 1 (stamp 3 10))
    (mkTuple 3 INVALID_XTID CLEAN_XTID 0 (mkRowPos 0 0 0)) 4 [] (int_column 99) (Some 0%nat) 104 new_row 12 (mkSnap 8 8 0 16 []) small_snapshot 299)
    as (row' & s' & p' & c' & old & E & Hp & Hr & Hc & Ho & Hs).
  - by vm_compute.
  - apply up_page_rep.
  - by vm_compute.
  - lia.
  - lia.
  - apply up_undo_page.
  - done.
  - split; [split; by vm_compute|]. eexists. split; [vm_compute; reflexivity|]. split; [split_and!; by vm_compute|by vm_compute].
  - by vm_compute.
  - split; by vm_compute.
  - by vm_compute.
  - by vm_compute.
  - by vm_compute.
  - by vm_compute.
  - split_and!; by vm_compute.
  - by vm_compute.
  - lia.
  - by vm_compute.
  - by vm_compute.
  - destruct (Hs s' (reads_to_refl s')) as [H1 (s2 & H2 & _)].
    exists row', s', p', c', old, s2. split; [exact E|]. split; [exact Hp|]. split; [exact Hr|]. split; [|split; [|split; [exact H2|]]].
    + exact H1.
    + rewrite Hc. by vm_compute.
    + rewrite Ho. by vm_compute.
Defined.
