(* ===== verification/Portal.v ===== *)
(** * The portal of the server

    Models [src/src/portal/portal.c] and the formatting of [portal/netclient.c] in the
    server of the client-server mode: rows are formatted into the body of the portal's
    message, which is written to the client's socket. It is the [Port] the executor
    sends its rows through. [printf] conversions are functions to bytes; a [snprintf]
    past the end of the message body is a fault. Blocks of [AllocMem] are numbered, and
    what is allocated and freed is recorded as a trace. *)

From Stdlib Require Import SpecFloat String Ascii.
From S2P Require Import Prelude Bytes DataTypes Net Page Express Plan Executor.

(** ** printf *)

Definition text (s : string) : list Z := (fun c => Z.of_N (N_of_ascii c)) <$> list_ascii_of_string s.

(** The decimal digits of a number below [10 ^ n]. *)
Fixpoint digits (n : nat) (z : Z) : list Z :=
  match n with O => [] | S n => (if z <? 10 then [] else digits n (z / 10)) ++ [48 + z mod 10] end.

(** Its last [n] digits. *)
Fixpoint last_digits (n : nat) (z : Z) : list Z :=
  match n with O => [] | S n => last_digits n (z / 10) ++ [48 + z mod 10] end.

(** [%d] *)
Definition fmt_d (z : Z) : list Z := (if z <? 0 then [45] else []) ++ digits 10 (Z.abs z).

Definition round_even (n d : Z) : Z :=
  let q := n / d in let r := n mod d in
  if 2 * r <? d then q else if d <? 2 * r then q + 1 else if Z.even q then q else q + 1.

(** [%f] of the float with these bits: six decimals, rounded to the nearest, a tie to
    the even one. *)
Definition fmt_f (bits : Z) : list Z :=
  (if 2 ^ 31 <=? u32 bits then [45] else []) ++
  match float_of bits with
  | S754_zero _ => text "0.000000"
  | S754_infinity _ => text "inf"
  | S754_nan => text "nan"
  | S754_finite _ m e =>
      let n := if 0 <=? e then Z.pos m * 2 ^ e * 10 ^ 6 else round_even (Z.pos m * 10 ^ 6) (2 ^ (- e)) in
      digits 40 (n / 10 ^ 6) ++ [46] ++ last_digits 6 (n mod 10 ^ 6)
  end.

(** The width of a conversion: spaces on the left. *)
Definition pad (width : Z) (s : list Z) : list Z := replicate (Z.to_nat (width - zlen s)) 32 ++ s.

(** [snprintf(buf + off, n, ...)] with the formatted text. *)
Definition snprintf (buf : list Z) (off n : Z) (s : list Z) : option (list Z) :=
  if n =? 0 then Some buf else store buf off (take (Z.to_nat (n - 1)) s ++ [0]).

(** ** portal.h *)

Inductive PortFlag := PORT_ROW_HEADER | PORT_ROW_STRING | PORT_NOTHING.

(** [p_targetValTypeArr] is a block and its contents, [p_attrWidth] a block, whose
    contents the server does not use; [buffer] is the body of the message. *)
Record Portal := mkPortal {
  p_clientFd : Z; p_flag : PortFlag; p_msgBody : MsgHeader; p_rowData : option (list (option (list Z)));
  p_targetList : option (list TargetEntry); p_targetValTypeArr : option (Z * list valueType); p_attrWidth : option Z }.

Inductive MemEvent := Alloc (block : Z) | Free (block : Z).

(** The portal, the client's socket and the blocks. *)
Record PortState := mkPS { ps_portal : Portal; ps_sock : Sock; ps_mem : list MemEvent }.

Definition set_flag (f : PortFlag) (p : Portal) : Portal :=
  mkPortal (p_clientFd p) f (p_msgBody p) (p_rowData p) (p_targetList p) (p_targetValTypeArr p) (p_attrWidth p).
Definition set_msgBody (m : MsgHeader) (p : Portal) : Portal :=
  mkPortal (p_clientFd p) (p_flag p) m (p_rowData p) (p_targetList p) (p_targetValTypeArr p) (p_attrWidth p).
Definition set_rowData (r : option (list (option (list Z)))) (p : Portal) : Portal :=
  mkPortal (p_clientFd p) (p_flag p) (p_msgBody p) r (p_targetList p) (p_targetValTypeArr p) (p_attrWidth p).
Definition set_targets (t : option (list TargetEntry)) (p : Portal) : Portal :=
  mkPortal (p_clientFd p) (p_flag p) (p_msgBody p) (p_rowData p) t (p_targetValTypeArr p) (p_attrWidth p).
Definition set_types (v : option (Z * list valueType)) (p : Portal) : Portal :=
  mkPortal (p_clientFd p) (p_flag p) (p_msgBody p) (p_rowData p) (p_targetList p) v (p_attrWidth p).
Definition set_width (w : option Z) (p : Portal) : Portal :=
  mkPortal (p_clientFd p) (p_flag p) (p_msgBody p) (p_rowData p) (p_targetList p) (p_targetValTypeArr p) w.

Definition set_type (f : Z -> Z) (m : MsgHeader) : MsgHeader := mkMsg (f (msg_type m)) (msg_size m) (msg_body m).
Definition set_size (n : Z) (m : MsgHeader) : MsgHeader := mkMsg (msg_type m) n (msg_body m).
Definition set_body (b : list Z) (m : MsgHeader) : MsgHeader := mkMsg (msg_type m) (msg_size m) b.

Definition on_portal_of (f : Portal -> Portal) : ST PortState unit :=
  st_modify (fun s => mkPS (f (ps_portal s)) (ps_sock s) (ps_mem s)).
Definition get_portal : ST PortState Portal := st_gets ps_portal.
Definition mem_event (e : MemEvent) : ST PortState unit :=
  st_modify (fun s => mkPS (ps_portal s) (ps_sock s) (ps_mem s ++ [e])).

(** [AllocMem]: blocks get the next number. *)
Definition alloc_block : ST PortState Z := n ← st_gets (fun s => zlen (ps_mem s)); mem_event (Alloc n);; mret n.
Definition free_block (o : option Z) : ST PortState unit := match o with Some b => mem_event (Free b) | None => mret tt end.

(** ** Formatting a row *)

Definition NULL_VALUE : list Z := [32].

(** [buffer] is an offset of the message body, or [NULL]. *)
Definition print_at (body : list Z) (buffer : option Z) (s : list Z) : option (list Z) :=
  match buffer with None => Some body | Some off => snprintf body off PORT_BUFFER_SIZE (124 :: s) end.

Definition GetValueInfo (vt : valueType) (colmnData : option (list Z)) (body : list Z) (buffer : option Z) (Maxwidth : Z) :
    option (Z * list Z) :=
  match colmnData with
  | None => Some (-1, body)
  | Some c =>
      size ← col_size c;
      if size =? sizeof_RowColumnData then
        body ← print_at body buffer (pad Maxwidth NULL_VALUE); Some (zlen NULL_VALUE + 1, body)
      else
        match vt with
        | VT_INT | VT_INTEGER =>
            v ← load_i32 c off_data;
            let w := Z.max Maxwidth (zlen (fmt_d v)) in
            body ← print_at body buffer (pad w (fmt_d v)); Some (w, body)
        | VT_VARCHAR | VT_STRING =>
            let w := Z.max Maxwidth size in
            match buffer with
            | None => Some (w, body)
            | Some _ => s ← c_string (drop (Z.to_nat off_data) c); body ← print_at body buffer (pad w s); Some (w, body)
            end
        | VT_CHAR | VT_BOOL =>
            data ← load c off_data 1;
            let w := Z.max Maxwidth 1 in
            body ← print_at body buffer (pad w data); Some (w, body)
        | VT_DOUBLE | VT_FLOAT =>
            v ← load_u32 c off_data;
            let w := Z.max Maxwidth (zlen (fmt_f v)) in
            body ← print_at body buffer (pad w (fmt_f v)); Some (w, body)
        | _ => Some (Maxwidth, body)
        end
  end.

(** The loop over the columns: the new offset and the body. *)
Fixpoint row_columns (vts : list valueType) (cols : list (option (list Z))) (index : nat) (off : Z) (body : list Z) : option (Z * list Z) :=
  match cols with
  | [] => Some (off, body)
  | c :: cols =>
      vt ← vts !! index;
      '(width, body) ← GetValueInfo vt c body (Some off) 0;
      row_columns vts cols (S index) (off + (width + 1)) body
  end.

(** The length of the line with its zero byte, and the portal. *)
Definition ClientRowDataSend (p : Portal) : option (Z * Portal) :=
  match p_rowData p with
  | None => Some (0, p)
  | Some cols =>
      '(off, body) ← row_columns (from_option snd [] (p_targetValTypeArr p)) cols 0 0 (msg_body (p_msgBody p));
      body ← snprintf body off (u64 (PORT_BUFFER_SIZE - off)) [124];
      Some (off + 2, set_msgBody (set_body body (p_msgBody p)) p)
  end.

Definition PortalSendRows (p : Portal) : option (Z * Portal) := ClientRowDataSend p.

Fixpoint header_columns (targets : list TargetEntry) (off : Z) (body : list Z) : option (Z * list Z) :=
  match targets with
  | [] => Some (off, body)
  | te :: targets =>
      body ← snprintf body off (u64 (PORT_BUFFER_SIZE - off)) (124 :: te_label te);
      off ← cstrlen body;
      header_columns targets off body
  end.

Definition GeneralVirtualTableHeadRaw (p : Portal) : option (Z * Portal) :=
  match p_targetList p with
  | None => Some (-1, p)
  | Some targets =>
      '(off, body) ← header_columns targets 0 (msg_body (p_msgBody p));
      body ← snprintf body off (u64 (PORT_BUFFER_SIZE - off)) [124];
      Some (off + 2, set_msgBody (set_body body (p_msgBody p)) p)
  end.

(** ** Sending *)

Section portal.
Context (send : nat -> list Z -> SendResult) (fuel : nat).

Definition on_sock {A} (m : ST Sock A) : ST PortState A := fun s =>
  '(a, k) ← m (ps_sock s); Some (a, mkPS (ps_portal s) k (ps_mem s)).

Definition WritePortalMessage : ST PortState Z :=
  p ← get_portal;
  if p_clientFd p <=? 0 then mret (-2) else on_sock (write_msg send fuel (p_msgBody p)).

Definition FlushPortal : ST PortState Z :=
  p ← get_portal;
  (if msg_size (p_msgBody p) <=? 0 then
     len ← st_lift (cstrlen (msg_body (p_msgBody p)));
     on_portal_of (set_msgBody (set_size (len + 1) (p_msgBody p)))
   else mret tt);;
  ret ← WritePortalMessage;
  on_portal_of (fun p => set_msgBody (mkMsg (msg_type (p_msgBody p)) (-1) (replicate 2048 0)) p);;
  mret ret.

(** A formatter leaves its text in the portal. *)
Definition formatted (f : Portal -> option (Z * Portal)) : ST PortState Z :=
  p ← get_portal;
  '(n, p) ← st_lift (f p);
  on_portal_of (fun _ => p);;
  mret n.

Definition with_size (n : Z) (p : Portal) : Portal := set_msgBody (set_size n (p_msgBody p)) p.

(** The end of [SendToNetPort]: what has been formatted is written. *)
Definition send_row (f : Portal -> option (Z * Portal)) : ST PortState Z :=
  ret ← formatted f;
  if ret <=? 0 then mret ret
  else on_portal_of (with_size ret);; FlushPortal;; mret ret.

Definition next_type (t : Z) : Z :=
  if t =? PORT_MSG_START then PORT_MSG_BEGIN else if t =? PORT_MSG_BEGIN then PORT_MSG_CONTINUE else t.

Definition SendToNetPort : ST PortState Z :=
  on_portal_of (fun p => set_msgBody (set_type next_type (p_msgBody p)) p);;
  p ← get_portal;
  match p_flag p with
  | PORT_ROW_HEADER =>
      ret ← formatted GeneralVirtualTableHeadRaw;
      on_portal_of (set_flag PORT_NOTHING);;
      if ret <=? 0 then mret ret
      else
        on_portal_of (with_size ret);; FlushPortal;;
        send_row PortalSendRows
  | PORT_ROW_STRING =>
      on_portal_of (set_flag PORT_NOTHING);;
      ret ← st_lift (cstrlen (msg_body (p_msgBody p)));
      on_portal_of (with_size ret);; FlushPortal;; mret ret
  | PORT_NOTHING => send_row PortalSendRows
  end.

Definition put_text (s : list Z) : ST PortState unit :=
  p ← get_portal;
  body ← st_lift (snprintf (msg_body (p_msgBody p)) 0 PORT_BUFFER_SIZE s);
  on_portal_of (set_msgBody (set_body body (p_msgBody p))).

Definition SendToPortStr (str : option (list Z)) : ST PortState Z :=
  match str with
  | Some (c :: s) => put_text (c :: s);; on_portal_of (set_flag PORT_ROW_STRING);; SendToNetPort
  | _ => mret (-1)
  end.

Definition InitTargetAttrType : ST PortState Z :=
  p ← get_portal;
  match p_targetList p with
  | Some ((_ :: _) as targets) =>
      vtArr ← alloc_block;
      free_block (fst <$> p_targetValTypeArr p);;
      on_portal_of (set_types (Some (vtArr, te_vt <$> targets)));;
      width ← alloc_block;
      on_portal_of (set_width (Some width));;
      mret 0
  | _ => mret (-1)
  end.

Definition portal_InitSelectPortal (targetList : option (list TargetEntry)) : ST PortState Z :=
  p ← get_portal;
  (match p_targetList p with None => on_portal_of (set_targets targetList) | Some _ => mret tt end);;
  on_portal_of (set_flag PORT_ROW_HEADER);;
  InitTargetAttrType.

Definition portal_SendToPort (rowData : list (option (list Z))) : ST PortState Z :=
  on_portal_of (set_rowData (Some rowData));;
  SendToNetPort.

(** The array of widths is freed and stays in the portal. *)
Definition portal_FinishSend : ST PortState Z :=
  p ← get_portal;
  match p_targetList p with
  | None => mret (-1)
  | Some _ => free_block (p_attrWidth p);; mret 0
  end.

Definition EndPort : ST PortState Z :=
  FlushPortal;;
  on_portal_of (fun p => set_msgBody (set_type (fun _ => PORT_MSG_FINISH) (p_msgBody p)) p);;
  FlushPortal;;
  p ← get_portal;
  free_block (fst <$> p_targetValTypeArr p);;
  on_portal_of (set_types None);;
  free_block (p_attrWidth p);;
  on_portal_of (set_width None);;
  on_portal_of (set_targets None);;
  on_portal_of (set_rowData None);;
  mret 0.

Definition InitPortal : ST PortState Z :=
  on_portal_of (fun p => set_flag PORT_NOTHING (set_msgBody (set_type (fun _ => PORT_MSG_START) (p_msgBody p)) p));;
  mret 0.

(** The message [ExecutorPlan] ends a statement with. *)
Definition result_text (retCode : Z) : list Z :=
  if 0 <=? retCode then text "total " ++ fmt_d retCode ++ text " rows sucess"
  else text "process falure(" ++ fmt_d retCode ++ text ")".

Definition ExecutorReport (retCode : Z) : ST PortState unit :=
  put_text (result_text retCode);; FlushPortal;; mret tt.

Definition server_port : Port PortState := {|
  InitSelectPortal := portal_InitSelectPortal;
  SendToPort := portal_SendToPort;
  FinishSend := portal_FinishSend |}.
End portal.

(** ** Numbers read back *)

Fixpoint number (acc : Z) (s : list Z) : Z :=
  match s with [] => acc | c :: s => number (10 * acc + (c - 48)) s end.

Lemma number_app s1 : forall acc s2, number acc (s1 ++ s2) = number (number acc s1) s2.
Proof. induction s1 as [|c s1 IH]; [done|]. intros. apply IH. Qed.

Lemma digits_number n : forall z, 0 <= z < 10 ^ Z.of_nat n -> (0 < n)%nat -> number 0 (digits n z) = z.
Proof.
  induction n as [|n IH]; intros z Hz Hn; [lia|]. cbn [digits]. destruct (Z.ltb_spec z 10) as [H|H].
  - cbn [app number]. rewrite Z.mod_small by lia. lia.
  - destruct (decide (n = 0%nat)) as [->|Hn']; [simpl in Hz; lia|].
    rewrite number_app, IH; [|split; [by apply Z.div_pos; lia|]|lia].
    + cbn [number]. pose proof (Z.div_mod z 10). lia.
    + apply Z.div_lt_upper_bound; [lia|]. rewrite Nat2Z.inj_succ, Z.pow_succ_r in Hz by lia. lia.
Qed.

Lemma digits_range n : forall z, Forall (fun c => 48 <= c <= 57) (digits n z).
Proof.
  induction n as [|n IH]; intros z; [constructor|]. cbn [digits]. apply Forall_app. split; [by destruct (z <? 10)|].
  constructor; [|done]. pose proof (Z.mod_pos_bound z 10). lia.
Qed.

Lemma last_digits_range n : forall z, Forall (fun c => 48 <= c <= 57) (last_digits n z).
Proof.
  induction n as [|n IH]; intros z; [constructor|]. cbn [last_digits]. apply Forall_app. split; [done|].
  constructor; [|done]. pose proof (Z.mod_pos_bound z 10). lia.
Qed.

Definition shown_text (s : list Z) : Prop := Forall (fun c => c <> 0) s.

Lemma digits_shown n z : shown_text (digits n z).
Proof. eapply Forall_impl; [apply digits_range|]. simpl. lia. Qed.

Lemma text_shown (f : bool) s : shown_text (if f then [45] else []) -> shown_text s -> shown_text ((if f then [45] else []) ++ s).
Proof. intros. by apply Forall_app. Qed.

Lemma fmt_d_shown z : shown_text (fmt_d z).
Proof. apply Forall_app. split; [destruct (z <? 0); repeat constructor; lia|]. apply digits_shown. Qed.

Lemma fmt_f_shown b : shown_text (fmt_f b).
Proof.
  unfold fmt_f. apply Forall_app. split; [destruct (_ <=? _); repeat constructor; lia|].
  destruct (float_of b); [vm_compute; repeat constructor; discriminate..|].
  apply Forall_app. split; [apply digits_shown|]. constructor; [lia|]. eapply Forall_impl; [apply last_digits_range|]. simpl. lia.
Qed.

Lemma pad_shown w s : shown_text s -> shown_text (pad w s).
Proof. intros. apply Forall_app. split; [|done]. apply Forall_replicate. lia. Qed.

Lemma pad_length w s : zlen s <= w -> zlen (pad w s) = w.
Proof. intros. unfold pad. rewrite length_app, length_replicate. lia. Qed.

Lemma pad_exact s : pad (zlen s) s = s.
Proof. unfold pad. by rewrite Z.sub_diag. Qed.

Lemma shown_until s t : shown_text s -> until_zero (s ++ 0 :: t) = s.
Proof. induction 1 as [|c s Hc _ IH]; [done|]. cbn [app until_zero]. rewrite decide_False by done. by rewrite IH. Qed.

Lemma shown_strlen s t : shown_text s -> cstrlen (s ++ 0 :: t) = Some (zlen s).
Proof.
  induction 1 as [|c s Hc _ IH]; [done|]. cbn [app cstrlen]. rewrite decide_False by done. rewrite IH. cbn [mbind option_bind length].
  f_equal. lia.
Qed.

(** ** Text in the message body *)

(** The body holds a text and is zero behind it. *)
Definition body_of (s : list Z) : list Z := s ++ replicate (2048 - length s) 0.

Lemma body_of_length s : (length s <= 2048)%nat -> length (body_of s) = 2048%nat.
Proof. intros. unfold body_of. rewrite length_app, length_replicate. lia. Qed.

Lemma body_of_zero s : (length s < 2048)%nat -> body_of s = s ++ 0 :: replicate (2047 - length s) 0.
Proof. intros. unfold body_of. by replace (2048 - length s)%nat with (S (2047 - length s)) by lia. Qed.

Lemma snprintf_end s t n : (length s + length t < 2048)%nat -> zlen t < n ->
  snprintf (body_of s) (zlen s) n t = Some (body_of (s ++ t)).
Proof.
  intros Hl Hn. unfold snprintf. rewrite (proj2 (Z.eqb_neq _ _)) by lia. rewrite take_ge by lia. unfold body_of.
  rewrite store_app by (rewrite length_app, length_replicate; simpl; lia). f_equal. rewrite drop_replicate, !length_app, <- !app_assoc.
  do 2 f_equal. change [0] with (replicate 1 (0 : Z)). rewrite <- replicate_add. f_equal. simpl. lia.
Qed.

(** The text a line of the client shows. *)
Lemma body_line s : shown_text s -> (length s < 2048)%nat -> until_zero (body_of s) = s.
Proof. intros. rewrite body_of_zero by done. by apply shown_until. Qed.

(** ** The line of a row *)

(** The text of a column that is not empty. *)
Definition cell (vt : valueType) (c : list Z) : option (list Z) :=
  size ← col_size c;
  if decide (size = sizeof_RowColumnData) then None
  else match vt with
       | VT_INT | VT_INTEGER => fmt_d <$> load_i32 c off_data
       | VT_VARCHAR | VT_STRING => s ← c_string (drop (Z.to_nat off_data) c); if decide (zlen s <= size) then Some (pad size s) else None
       | VT_CHAR | VT_BOOL => load c off_data 1
       | VT_DOUBLE | VT_FLOAT => fmt_f <$> load_u32 c off_data
       | _ => None
       end.

Fixpoint cells (vts : list valueType) (cols : list (option (list Z))) : option (list (list Z)) :=
  match vts, cols with
  | [], [] => Some []
  | vt :: vts, Some c :: cols => t ← cell vt c; ts ← cells vts cols; Some (t :: ts)
  | _, _ => None
  end.

(** A line of a table: its cells between bars. *)
Definition bars (ts : list (list Z)) : list Z := concat ((fun t => 124 :: t) <$> ts).
Definition line (ts : list (list Z)) : list Z := bars ts ++ [124].

Lemma bars_cons t ts : bars (t :: ts) = (124 :: t) ++ bars ts.
Proof. done. Qed.

Lemma GetValueInfo_cell vt c t s : cell vt c = Some t -> (length s + S (length t) < 2048)%nat ->
  GetValueInfo vt (Some c) (body_of s) (Some (zlen s)) 0 = Some (zlen t, body_of (s ++ 124 :: t)).
Proof.
  intros Hc Hl. unfold cell in Hc. unfold GetValueInfo. destruct (col_size c) as [size|]; [|done]. cbn [mbind option_bind] in *.
  case_decide as Hs; [done|]. rewrite (proj2 (Z.eqb_neq _ _) Hs).
  assert (print_at (body_of s) (Some (zlen s)) t = Some (body_of (s ++ 124 :: t))) as Ep.
  { unfold print_at. apply snprintf_end; [done|]. unfold PORT_BUFFER_SIZE. simpl in *. lia. }
  destruct vt; try done;
    [destruct (load_i32 c off_data) as [v|]; [|done]; injection Hc as <-..| | | | | | ].
  1, 2: cbn [mbind option_bind]; rewrite Z.max_r, pad_exact, Ep by lia; done.
  1, 2: destruct (c_string _) as [x|]; [|done]; cbn [mbind option_bind] in *; case_decide; [|done]; injection Hc as <-;
    pose proof (pad_length size x); rewrite Z.max_r, Ep by lia; cbn [mbind option_bind]; do 2 f_equal; lia.
  1, 4: rewrite Hc; cbn [mbind option_bind]; apply load_inv in Hc as (_ & _ & _ & _ & L); replace (Z.max 0 1) with (zlen t) by lia;
    rewrite pad_exact, Ep; done.
  all: destruct (load_u32 c off_data) as [v|]; [|done]; injection Hc as <-; cbn [mbind option_bind]; rewrite Z.max_r, pad_exact, Ep by lia; done.
Qed.

Lemma row_columns_run cols more : forall vts ts vts0 s, cells vts cols = Some ts -> (length s + length (bars ts) < 2048)%nat ->
  row_columns (vts0 ++ vts ++ more) cols (length vts0) (zlen s) (body_of s) = Some (zlen (s ++ bars ts), body_of (s ++ bars ts)).
Proof.
  induction cols as [|c cols IH]; intros vts ts vts0 s Hc Hl; destruct vts as [|vt vts]; cbn [cells] in Hc; try done.
  - injection Hc as <-. cbn [row_columns]. unfold bars. cbn. by rewrite app_nil_r.
  - destruct c as [c|]; [|done]. destruct (cell vt c) as [t|] eqn:Et; [|done]. cbn [mbind option_bind] in Hc.
    destruct (cells vts cols) as [ts'|] eqn:Ets; [|done]. cbn [mbind option_bind] in Hc. injection Hc as <-.
    rewrite bars_cons, length_app in Hl. cbn [length] in Hl. cbn [row_columns app]. rewrite list_lookup_middle by done. cbn [mbind option_bind].
    rewrite (GetValueInfo_cell vt c t s Et) by lia. cbn [mbind option_bind].
    replace (vts0 ++ vt :: vts ++ more) with ((vts0 ++ [vt]) ++ vts ++ more) by (by rewrite <- app_assoc).
    replace (S (length vts0)) with (length (vts0 ++ [vt])) by (rewrite length_app; simpl; lia).
    replace (zlen s + (zlen t + 1)) with (zlen (s ++ 124 :: t)) by (rewrite length_app; simpl; lia).
    rewrite (IH vts ts' (vts0 ++ [vt]) (s ++ 124 :: t) Ets) by (rewrite length_app; simpl; lia).
    by rewrite bars_cons, app_assoc.
Qed.

(** What the client can be shown: a line without zero bytes that fits a message. *)
Definition printable (ts : list (list Z)) : Prop := shown_text (line ts) /\ (length (line ts) <= 2040)%nat.

Lemma snprintf_bar s : (length s < 2047)%nat -> snprintf (body_of s) (zlen s) (u64 (PORT_BUFFER_SIZE - zlen s)) [124] = Some (body_of (s ++ [124])).
Proof.
  intros H. unfold PORT_BUFFER_SIZE. rewrite u64_small by (unfold in_u64; lia). apply snprintf_end; simpl; lia.
Qed.

Lemma ClientRowDataSend_run p cols ts b vts : p_rowData p = Some cols -> p_targetValTypeArr p = Some (b, vts) -> cells vts cols = Some ts ->
  (length (line ts) <= 2040)%nat -> msg_body (p_msgBody p) = body_of [] ->
  ClientRowDataSend p = Some (zlen (line ts) + 1, set_msgBody (set_body (body_of (line ts)) (p_msgBody p)) p).
Proof.
  intros Hr Hv Hc Hl Hb. unfold ClientRowDataSend. rewrite Hr, Hv, Hb. cbn [from_option snd]. unfold line in *. rewrite length_app in *. cbn [length] in *.
  pose proof (row_columns_run cols [] vts ts [] [] Hc) as E. rewrite app_nil_r in E. cbn [app length] in E. change (Z.of_nat 0) with 0 in E. rewrite E by lia.
  cbn [mbind option_bind]. rewrite snprintf_bar by lia. cbn [mbind option_bind]. do 2 f_equal. lia.
Qed.

(** The line of the column labels. *)
Lemma header_columns_run targets : forall s, shown_text s -> shown_text (bars (te_label <$> targets)) ->
  (length s + length (bars (te_label <$> targets)) < 2048)%nat ->
  header_columns targets (zlen s) (body_of s) = Some (zlen (s ++ bars (te_label <$> targets)), body_of (s ++ bars (te_label <$> targets))).
Proof.
  induction targets as [|te targets IH]; intros s Hs Ht Hl.
  - cbn [header_columns]. unfold bars. cbn. by rewrite app_nil_r.
  - cbn [fmap list_fmap] in *. rewrite bars_cons in *. rewrite length_app in Hl. cbn [length] in Hl. apply Forall_app in Ht as [Ht1 Ht2].
    cbn [header_columns]. unfold PORT_BUFFER_SIZE. rewrite u64_small by (unfold in_u64; simpl in Hl; lia).
    rewrite snprintf_end by (simpl in *; lia). cbn [mbind option_bind].
    assert (shown_text (s ++ 124 :: te_label te)) as Hs' by (by apply Forall_app).
    rewrite body_of_zero by (rewrite length_app; simpl; lia). rewrite shown_strlen by done. cbn [mbind option_bind].
    rewrite <- body_of_zero by (rewrite length_app; simpl; lia). rewrite IH; [|done|done|rewrite length_app; simpl; lia]. by rewrite app_assoc.
Qed.

Lemma GeneralVirtualTableHeadRaw_run p targets : p_targetList p = Some targets -> printable (te_label <$> targets) ->
  msg_body (p_msgBody p) = body_of [] ->
  GeneralVirtualTableHeadRaw p = Some (zlen (line (te_label <$> targets)) + 1, set_msgBody (set_body (body_of (line (te_label <$> targets))) (p_msgBody p)) p).
Proof.
  intros Ht [Hs Hl] Hb. unfold GeneralVirtualTableHeadRaw. rewrite Ht, Hb. unfold line in *. rewrite length_app in *. cbn [length] in *.
  apply Forall_app in Hs as [Hs _]. pose proof (header_columns_run targets [] (Forall_nil_2 _) Hs) as E. cbn [app length] in E. change (Z.of_nat 0) with 0 in E.
  rewrite E by lia. cbn [mbind option_bind]. rewrite snprintf_bar by lia. cbn [mbind option_bind]. do 2 f_equal. lia.
Qed.

(** ** Messages of the portal *)

(** A line is sent with its zero byte. *)
Definition line_msg (ty : Z) (s : list Z) : Message := mkMessage ty (s ++ [0]).

Definition open_type (ty : Z) : Prop := 0 <= ty < PORT_MSG_FINISH.

Lemma line_msg_memory ty s : (length s <= 2046)%nat -> in_memory (line_msg ty s) = mkMsg ty (zlen s + 1) (body_of s).
Proof.
  intros H. unfold in_memory, line_msg. cbn [g_type g_body]. rewrite length_app. cbn [length]. f_equal; [lia|].
  rewrite body_of_zero by lia. rewrite <- app_assoc. cbn [app]. do 3 f_equal. lia.
Qed.

Lemma line_msg_line ty s : shown_text s -> line_of (line_msg ty s) = s.
Proof. intros. unfold line_of, line_msg. cbn [g_body]. by apply shown_until. Qed.

Lemma line_msg_ok ty s : open_type ty -> (length s <= 2040)%nat -> answerable (line_msg ty s) /\ g_type (line_msg ty s) <> PORT_MSG_FINISH.
Proof.
  unfold open_type, PORT_MSG_FINISH. intros Ht Hl. unfold answerable, well_sized, line_msg. cbn [g_type g_body]. rewrite length_app. cbn [length].
  split_and!; try lia; unfold in_i32; lia.
Qed.

Section sending.
Context (send : nat -> list Z -> SendResult) (fuel : nat) (Hsend : accepting send) (Hfuel : (2056 <= fuel)%nat).

(** The message is written and the portal is empty again. *)
Lemma WritePortalMessage_run g p k mem : p_msgBody p = in_memory g -> well_sized g -> 0 < p_clientFd p ->
  exists ret k', WritePortalMessage send fuel (mkPS p k mem) = Some (ret, mkPS p k' mem) /\ sk_out k' = sk_out k ++ wire g.
Proof using Hsend Hfuel.
  intros Hm Hg Hfd. destruct (write_msg_run send fuel g k Hsend Hg Hfuel) as (ret & k' & E & _ & Ho). exists ret, k'. split; [|done].
  unfold WritePortalMessage. run_refl. cbn [ps_portal]. rewrite (proj2 (Z.leb_gt _ _) Hfd), Hm.
  unfold on_sock. cbn [ps_sock]. by rewrite E.
Qed.

Lemma FlushPortal_sends g st : p_msgBody (ps_portal st) = in_memory g -> well_sized g -> 0 < p_clientFd (ps_portal st) ->
  exists ret k, FlushPortal send fuel st = Some (ret, mkPS (set_msgBody (mkMsg (g_type g) (-1) (body_of [])) (ps_portal st)) k (ps_mem st)) /\
    sk_out k = sk_out (ps_sock st) ++ wire g.
Proof using Hsend Hfuel.
  intros Hm Hg Hfd. destruct st as [p k mem]. cbn [ps_portal ps_sock ps_mem] in *. pose proof Hg as [_ Hb].
  destruct (WritePortalMessage_run g p k mem Hm Hg Hfd) as (ret & k' & E & Ho). exists ret, k'. split; [|done].
  unfold FlushPortal. run_refl. cbn [ps_portal]. rewrite Hm. cbn [in_memory msg_size]. rewrite (proj2 (Z.leb_gt _ _)) by lia.
  run_refl. run E. unfold on_portal_of. run_refl. cbn [ps_portal]. by rewrite Hm.
Qed.

(** Without a size the text up to its zero byte is sent. *)
Lemma FlushPortal_text ty n s st : p_msgBody (ps_portal st) = mkMsg ty n (body_of s) -> n <= 0 ->
  shown_text s -> (length s <= 2046)%nat -> in_i32 ty -> 0 < p_clientFd (ps_portal st) ->
  exists ret k, FlushPortal send fuel st = Some (ret, mkPS (set_msgBody (mkMsg ty (-1) (body_of [])) (ps_portal st)) k (ps_mem st)) /\
    sk_out k = sk_out (ps_sock st) ++ wire (line_msg ty s).
Proof using Hsend Hfuel.
  intros Hm Hn Hs Hl Hty Hfd. destruct st as [p k mem]. cbn [ps_portal ps_sock ps_mem] in *.
  destruct (WritePortalMessage_run (line_msg ty s) (set_msgBody (mkMsg ty (zlen s + 1) (body_of s)) p) k mem) as (ret & k' & E & Ho); try done.
  { by rewrite line_msg_memory. }
  { split; [done|]. unfold line_msg. cbn [g_body]. rewrite length_app. simpl. lia. }
  exists ret, k'. split; [|done]. unfold FlushPortal. run_refl. cbn [ps_portal]. rewrite Hm. cbn [msg_size msg_body].
  rewrite (proj2 (Z.leb_le _ _) Hn). rewrite body_of_zero, shown_strlen by (done || lia). rewrite <- body_of_zero by lia.
  erewrite st_bind_some; [|run_refl; reflexivity]. unfold set_size. cbn [msg_type msg_body ps_portal ps_sock ps_mem]. run E. reflexivity.
Qed.

(** What has been formatted is sent as one line. *)
Lemma send_row_run f ty n s st : p_msgBody (ps_portal st) = mkMsg ty n (body_of []) ->
  f (ps_portal st) = Some (zlen s + 1, set_msgBody (mkMsg ty n (body_of s)) (ps_portal st)) ->
  (length s <= 2046)%nat -> in_i32 ty -> 0 < p_clientFd (ps_portal st) ->
  exists k, send_row send fuel f st = Some (zlen s + 1, mkPS (set_msgBody (mkMsg ty (-1) (body_of [])) (ps_portal st)) k (ps_mem st)) /\
    sk_out k = sk_out (ps_sock st) ++ wire (line_msg ty s).
Proof using Hsend Hfuel.
  intros Hm Hf Hl Hty Hfd.
  destruct (FlushPortal_sends (line_msg ty s) (mkPS (set_msgBody (mkMsg ty (zlen s + 1) (body_of s)) (ps_portal st)) (ps_sock st) (ps_mem st)))
    as (ret & k & E & Ho); [by rewrite line_msg_memory|split; [done|]; unfold line_msg; cbn [g_body]; rewrite length_app; simpl; lia|done|].
  exists k. split; [|exact Ho].
  assert (formatted f st = Some (zlen s + 1, mkPS (set_msgBody (mkMsg ty n (body_of s)) (ps_portal st)) (ps_sock st) (ps_mem st))) as E1.
  { unfold formatted. run_refl. run (st_lift_run (f (ps_portal st)) _ st Hf). reflexivity. }
  unfold send_row. run E1. rewrite (proj2 (Z.leb_gt _ _)) by lia.
  assert (on_portal_of (with_size (zlen s + 1)) (mkPS (set_msgBody (mkMsg ty n (body_of s)) (ps_portal st)) (ps_sock st) (ps_mem st)) =
    Some (tt, mkPS (set_msgBody (mkMsg ty (zlen s + 1) (body_of s)) (ps_portal st)) (ps_sock st) (ps_mem st))) as E2 by done.
  run E2. run E. reflexivity.
Qed.
End sending.

(** ** The portal keeps the executor's contract *)

(** The line of a row and the lines of a result: the titles come with the first row. *)
Definition row_line (targets : list TargetEntry) (cols : list (option (list Z))) : list Z :=
  line (from_option id [] (cells (te_vt <$> targets) cols)).

Definition table_lines (targets : list TargetEntry) (rows : list (list (option (list Z)))) : list (list Z) :=
  match rows with [] => [] | _ => line (te_label <$> targets) :: (row_line targets <$> rows) end.

(** Rows whose lines and titles fit a message. *)
Definition row_printable (targets : list TargetEntry) (cols : list (option (list Z))) : Prop :=
  printable (te_label <$> targets) /\ exists ts, cells (te_vt <$> targets) cols = Some ts /\ printable ts.

(** The lines [ls] have been written since [st]. *)
Definition wrote (st : PortState) (ls : list (list Z)) (st' : PortState) : Prop :=
  exists gs, sk_out (ps_sock st') = sk_out (ps_sock st) ++ stream gs /\ line_of <$> gs = ls /\
    Forall (fun g => answerable g /\ g_type g <> PORT_MSG_FINISH) gs.

Lemma wrote_nil st st' : sk_out (ps_sock st') = sk_out (ps_sock st) -> wrote st [] st'.
Proof. intros E. exists []. split; [by rewrite E; unfold stream; cbn; rewrite app_nil_r|]. by split. Qed.

Lemma wrote_line st ls st1 st2 ty s : wrote st ls st1 -> sk_out (ps_sock st2) = sk_out (ps_sock st1) ++ wire (line_msg ty s) ->
  open_type ty -> shown_text s -> (length s <= 2040)%nat -> wrote st (ls ++ [s]) st2.
Proof.
  intros (gs & E & El & HF) E2 Ht Hs Hl. exists (gs ++ [line_msg ty s]). split_and!.
  - by rewrite E2, E, stream_app, stream_one, app_assoc.
  - rewrite fmap_app, El. cbn [fmap list_fmap]. by rewrite line_msg_line.
  - apply Forall_app. split; [done|]. constructor; [|done]. by apply line_msg_ok.
Qed.

(** The portal between statements and while rows are sent. *)
Definition quiet (p : Portal) : Prop :=
  0 < p_clientFd p /\ exists ty n, p_msgBody p = mkMsg ty n (body_of []) /\ n <= 0 /\ open_type ty.

Definition idle (st : PortState) : Prop :=
  quiet (ps_portal st) /\ p_targetList (ps_portal st) = None /\ p_targetValTypeArr (ps_portal st) = None /\ p_attrWidth (ps_portal st) = None.

Record opened (st : PortState) (targets : list TargetEntry) (rows : list (list (option (list Z)))) (st' : PortState) : Prop := {
  op_quiet : quiet (ps_portal st');
  op_flag : p_flag (ps_portal st') = match rows with [] => PORT_ROW_HEADER | _ => PORT_NOTHING end;
  op_targets : p_targetList (ps_portal st') = Some targets;
  op_types : p_targetValTypeArr (ps_portal st') = Some (zlen (ps_mem st), te_vt <$> targets);
  op_width : p_attrWidth (ps_portal st') = Some (zlen (ps_mem st) + 1);
  op_mem : ps_mem st' = ps_mem st ++ [Alloc (zlen (ps_mem st)); Alloc (zlen (ps_mem st) + 1)];
  op_wrote : wrote st (table_lines targets rows) st' }.

(** After [FinishSend] the block of the widths has been freed and is still known. *)
Definition finished (st : PortState) (targets : list TargetEntry) (rows : list (list (option (list Z)))) (st' : PortState) : Prop :=
  exists st1, opened st targets rows st1 /\ ps_portal st' = ps_portal st1 /\ ps_sock st' = ps_sock st1 /\
    ps_mem st' = ps_mem st1 ++ [Free (zlen (ps_mem st) + 1)].

Lemma next_type_open ty : open_type ty -> open_type (next_type ty).
Proof.
  unfold open_type, next_type, PORT_MSG_FINISH, PORT_MSG_START, PORT_MSG_BEGIN, PORT_MSG_CONTINUE. intros.
  destruct (ty =? 0); [lia|]. destruct (ty =? 2); lia.
Qed.

Lemma open_type_i32 ty : open_type ty -> in_i32 ty.
Proof. unfold open_type, PORT_MSG_FINISH, in_i32. lia. Qed.

Lemma InitSelectPortal_run t ts st : idle st ->
  exists st', portal_InitSelectPortal (Some (t :: ts)) st = Some (0, st') /\ opened st (t :: ts) [] st'.
Proof.
  intros (Hq & H1 & H2 & H3). destruct st as [p k mem]. destruct p as [fd fl m rd tl vt aw]. cbn in H1, H2, H3. subst.
  eexists. split; [reflexivity|]. split; try done; cbn.
  - rewrite length_app. cbn. do 2 f_equal. lia.
  - rewrite <- app_assoc. cbn. rewrite length_app. cbn. do 4 f_equal. lia.
  - by apply wrote_nil.
Qed.

Section server.
Context (send : nat -> list Z -> SendResult) (fuel : nat) (Hsend : accepting send) (Hfuel : (2056 <= fuel)%nat).

(** The row in the portal is formatted and sent. *)
Lemma send_rows_run st targets cols ts b ty n : p_rowData (ps_portal st) = Some cols ->
  p_targetValTypeArr (ps_portal st) = Some (b, te_vt <$> targets) -> cells (te_vt <$> targets) cols = Some ts -> printable ts ->
  p_msgBody (ps_portal st) = mkMsg ty n (body_of []) -> in_i32 ty -> 0 < p_clientFd (ps_portal st) ->
  exists k, send_row send fuel PortalSendRows st = Some (zlen (line ts) + 1, mkPS (set_msgBody (mkMsg ty (-1) (body_of [])) (ps_portal st)) k (ps_mem st)) /\
    sk_out k = sk_out (ps_sock st) ++ wire (line_msg ty (line ts)).
Proof using Hsend Hfuel.
  intros Hr Hv Hc [Hs Hl] Hm Hty Hfd.
  apply (send_row_run send fuel Hsend Hfuel PortalSendRows ty n (line ts)); try done; [|lia].
  unfold PortalSendRows. rewrite (ClientRowDataSend_run _ cols ts b _ Hr Hv Hc) by (lia || by rewrite Hm). by rewrite Hm.
Qed.

(** The titles go before the first row. *)
Lemma send_titles_run st targets ty n : p_targetList (ps_portal st) = Some targets -> printable (te_label <$> targets) ->
  p_msgBody (ps_portal st) = mkMsg ty n (body_of []) -> in_i32 ty -> 0 < p_clientFd (ps_portal st) ->
  exists ret k, (ret ← formatted GeneralVirtualTableHeadRaw;
      on_portal_of (set_flag PORT_NOTHING);;
      if ret <=? 0 then mret ret else on_portal_of (with_size ret);; FlushPortal send fuel;; send_row send fuel PortalSendRows) st =
    send_row send fuel PortalSendRows (mkPS (set_flag PORT_NOTHING (set_msgBody (mkMsg ty (-1) (body_of [])) (ps_portal st))) k (ps_mem st)) /\
    sk_out k = sk_out (ps_sock st) ++ wire (line_msg ty (line (te_label <$> targets))) /\ 0 < ret.
Proof using Hsend Hfuel.
  intros Ht Hp Hm Hty Hfd. set (s := line (te_label <$> targets)). pose proof Hp as [Hs Hl]. fold s in Hs, Hl.
  destruct (FlushPortal_sends send fuel Hsend Hfuel (line_msg ty s)
    (mkPS (set_flag PORT_NOTHING (set_msgBody (mkMsg ty (zlen s + 1) (body_of s)) (ps_portal st))) (ps_sock st) (ps_mem st)))
    as (ret & k & E & Ho); [by rewrite line_msg_memory by lia|split; [done|]; unfold line_msg; cbn [g_body]; rewrite length_app; simpl; lia|done|].
  exists (zlen s + 1), k. split_and!; [|exact Ho|lia].
  assert (formatted GeneralVirtualTableHeadRaw st = Some (zlen s + 1, mkPS (set_msgBody (mkMsg ty n (body_of s)) (ps_portal st)) (ps_sock st) (ps_mem st))) as E1.
  { unfold formatted. run_refl.
    assert (GeneralVirtualTableHeadRaw (ps_portal st) = Some (zlen s + 1, set_msgBody (mkMsg ty n (body_of s)) (ps_portal st))) as Eh
      by (rewrite (GeneralVirtualTableHeadRaw_run _ targets Ht Hp) by (by rewrite Hm); by rewrite Hm).
    run (st_lift_run _ _ st Eh). reflexivity. }
  run E1. run_refl. rewrite (proj2 (Z.leb_gt _ _)) by lia. run_refl. run E. reflexivity.
Qed.

Lemma SendToPort_run st targets rows st1 cols : opened st targets rows st1 -> row_printable targets cols ->
  exists n st', portal_SendToPort send fuel cols st1 = Some (n, st') /\ 0 <= n /\ opened st targets (rows ++ [cols]) st'.
Proof using Hsend Hfuel.
  intros [(Hfd & ty & n & Hm & Hn & Hty) Hf Ht Hv Hw Hmem Hwr] (Hp & ts & Hc & Hp2).
  set (ty' := next_type ty). assert (open_type ty') as Hty' by by apply next_type_open. pose proof (open_type_i32 _ Hty') as Hi.
  set (st2 := mkPS (set_msgBody (mkMsg ty' n (body_of [])) (set_rowData (Some cols) (ps_portal st1))) (ps_sock st1) (ps_mem st1)).
  assert (forall A (m : ST PortState A), (on_portal_of (set_rowData (Some cols));; on_portal_of (fun p => set_msgBody (set_type next_type (p_msgBody p)) p);; m) st1 = m st2) as Estart.
  { intros A m. run_refl. run_refl. unfold st2. cbn [ps_portal]. unfold set_type. cbn [set_rowData p_msgBody]. by rewrite Hm. }
  assert (row_line targets cols = line ts) as Hrl by (unfold row_line; by rewrite Hc).
  unfold portal_SendToPort, SendToNetPort. rewrite Estart. run_refl. assert (p_flag (ps_portal st2) = p_flag (ps_portal st1)) as Hf2 by done. rewrite Hf2, Hf.
  destruct rows as [|r rows].
  - destruct (send_titles_run st2 targets ty' n Ht Hp) as (ret & k1 & E1 & Ho1 & _); try done.
    set (st3 := mkPS (set_flag PORT_NOTHING (set_msgBody (mkMsg ty' (-1) (body_of [])) (ps_portal st2))) k1 (ps_mem st2)) in *.
    destruct (send_rows_run st3 targets cols ts (zlen (ps_mem st)) ty' (-1)) as (k & E & Ho); try done.
    eexists _, _. split; [rewrite E1; exact E|]. split; [lia|]. split; try done.
    + split; [done|]. by exists ty', (-1).
    + unfold table_lines. cbn [app fmap list_fmap]. rewrite Hrl. destruct Hp as [Hs Hl], Hp2 as [Hs2 Hl2].
      apply (wrote_line st [line (te_label <$> targets)] st3 _ ty' (line ts)); try done.
      apply (wrote_line st [] st1 st3 ty'); try done.
  - destruct (send_rows_run st2 targets cols ts (zlen (ps_mem st)) ty' n) as (k & E & Ho); try done.
    eexists _, _. split; [exact E|]. split; [lia|]. split; try done.
    + split; [done|]. by exists ty', (-1).
    + unfold table_lines in *. cbn [app] in *. rewrite app_comm_cons, fmap_app, app_comm_cons. cbn [fmap list_fmap]. rewrite Hrl. destruct Hp2 as [Hs2 Hl2].
      by apply (wrote_line st _ st1 _ ty').
Qed.

Lemma FinishSend_run st targets rows st1 : opened st targets rows st1 ->
  exists n st', portal_FinishSend st1 = Some (n, st') /\ finished st targets rows st'.
Proof using.
  intros Ho. eexists _, _. split.
  - unfold portal_FinishSend. run_refl. rewrite (op_targets _ _ _ _ Ho), (op_width _ _ _ _ Ho). reflexivity.
  - exists st1. by split_and!.
Qed.

(** The server's portal takes the rows of a statement. *)
Definition server_port_laws : @PortLaws PortState (server_port send fuel).
Proof using Hsend Hfuel.
  refine {| port_idle := idle; sendable := row_printable; port_open := opened; port_shown := finished |}.
  - intros t ts st Hi. destruct (InitSelectPortal_run t ts st Hi) as (st' & E & Ho). by exists 0, st'.
  - intros st targets rows st1 cols Ho Hr. by apply SendToPort_run.
  - intros st targets rows st1 Ho. by apply FinishSend_run.
Defined.
End server.

(** ** The answer to a statement *)

Lemma digits_length n : forall z, (length (digits n z) <= n)%nat.
Proof.
  induction n as [|n IH]; intros z; [done|]. cbn [digits]. rewrite length_app. cbn [length]. pose proof (IH (z / 10)).
  destruct (z <? 10); cbn [length]; lia.
Qed.

Lemma result_text_ok n : shown_text (result_text n) /\ (length (result_text n) <= 2040)%nat.
Proof.
  pose proof (fmt_d_shown n) as Hs. assert (length (fmt_d n) <= 11)%nat as Hl.
  { unfold fmt_d. rewrite length_app. pose proof (digits_length 10 (Z.abs n)). destruct (n <? 0); cbn [length]; lia. }
  assert (forall a b : string, shown_text (text a) -> shown_text (text b) -> (length (text a) + length (text b) <= 100)%nat ->
    shown_text (text a ++ fmt_d n ++ text b) /\ (length (text a ++ fmt_d n ++ text b) <= 2040)%nat) as H.
  { intros a b Ha Hb Hab. split; [unfold shown_text in *; by rewrite !Forall_app|]. rewrite !length_app. lia. }
  unfold result_text. destruct (0 <=? n); apply H;
    try (apply Nat.leb_le; vm_compute; reflexivity); vm_compute; repeat constructor; discriminate.
Qed.

(** The lines [ls] and the end of the answer have been written since [st]. *)
Definition answered (st : PortState) (ls : list (list Z)) (st' : PortState) : Prop :=
  exists gs, sk_out (ps_sock st') = sk_out (ps_sock st) ++ stream (gs ++ [finish_msg]) /\ line_of <$> gs = ls /\
    Forall (fun g => answerable g /\ g_type g <> PORT_MSG_FINISH) gs.

Section answering.
Context (send : nat -> list Z -> SendResult) (fuel : nat) (Hsend : accepting send) (Hfuel : (2056 <= fuel)%nat).

Lemma ExecutorReport_run st st1 ls n : wrote st ls st1 -> quiet (ps_portal st1) ->
  exists st2, ExecutorReport send fuel n st1 = Some (tt, st2) /\ wrote st (ls ++ [result_text n]) st2 /\ quiet (ps_portal st2) /\
    p_targetValTypeArr (ps_portal st2) = p_targetValTypeArr (ps_portal st1) /\ p_attrWidth (ps_portal st2) = p_attrWidth (ps_portal st1) /\
    ps_mem st2 = ps_mem st1.
Proof using Hsend Hfuel.
  intros Hw (Hfd & ty & m & Hm & Hm0 & Hty). destruct (result_text_ok n) as [Hs Hl]. set (s := result_text n) in *.
  destruct (FlushPortal_text send fuel Hsend Hfuel ty m s (mkPS (set_msgBody (mkMsg ty m (body_of s)) (ps_portal st1)) (ps_sock st1) (ps_mem st1)))
    as (ret & k & E & Ho); try done; [lia|by apply open_type_i32|].
  exists (mkPS (set_msgBody (mkMsg ty (-1) (body_of [])) (ps_portal st1)) k (ps_mem st1)). split; [|split_and!; try done].
  - unfold ExecutorReport. fold s.
    assert (put_text s st1 = Some (tt, mkPS (set_msgBody (mkMsg ty m (body_of s)) (ps_portal st1)) (ps_sock st1) (ps_mem st1))) as Ep.
    { unfold put_text. run_refl. rewrite Hm. cbn [msg_body].
      assert (snprintf (body_of []) 0 PORT_BUFFER_SIZE s = Some (body_of s)) as Es
        by (apply (snprintf_end []); [simpl; lia|unfold PORT_BUFFER_SIZE; lia]).
      run (st_lift_run _ _ st1 Es). reflexivity. }
    run Ep. run E. reflexivity.
  - by apply (wrote_line st ls st1 _ ty s).
  - split; [done|]. by exists ty, (-1).
Qed.

Lemma EndPort_run st st1 ls v w : wrote st ls st1 -> quiet (ps_portal st1) ->
  fst <$> p_targetValTypeArr (ps_portal st1) = Some v -> p_attrWidth (ps_portal st1) = Some w ->
  exists st2, EndPort send fuel st1 = Some (0, st2) /\ answered st (ls ++ [[]]) st2 /\ ps_mem st2 = ps_mem st1 ++ [Free v; Free w] /\
    exists st3, InitPortal st2 = Some (0, st3) /\ idle st3 /\ ps_sock st3 = ps_sock st2.
Proof using Hsend Hfuel.
  intros (gs & Eo & El & HF) (Hfd & ty & m & Hm & Hm0 & Hty) Hv Hw.
  destruct (FlushPortal_text send fuel Hsend Hfuel ty m [] st1 Hm Hm0) as (r1 & k1 & E1 & O1); [constructor|simpl; lia|by apply open_type_i32|done|].
  set (st2 := mkPS (set_msgBody (mkMsg PORT_MSG_FINISH (-1) (body_of [])) (ps_portal st1)) k1 (ps_mem st1)).
  destruct (FlushPortal_text send fuel Hsend Hfuel PORT_MSG_FINISH (-1) [] st2) as (r2 & k2 & E2 & O2); [done|lia|constructor|simpl; lia|done|done|].
  exists (mkPS (set_rowData None (set_targets None (set_width None (set_types None (set_msgBody (mkMsg PORT_MSG_FINISH (-1) (body_of [])) (ps_portal st1)))))) k2
    ((ps_mem st1 ++ [Free v]) ++ [Free w])). split; [|split_and!].
  - unfold EndPort. run E1.
    erewrite (st_bind_some _ _ _ tt st2) by reflexivity. run E2. run_refl.
    cbn [ps_portal st2 set_msgBody p_targetValTypeArr]. rewrite Hv. run_refl. run_refl. cbn [ps_portal st2 set_msgBody p_attrWidth].
    cbn [ps_portal set_types p_attrWidth]. rewrite Hw. run_refl. reflexivity.
  - exists (gs ++ [line_msg ty []]). cbn [ps_sock]. split_and!.
    + rewrite O2. unfold st2. cbn [ps_sock]. rewrite O1, Eo. rewrite !stream_app, !stream_one, !app_assoc. done.
    + by rewrite fmap_app, El.
    + apply Forall_app. split; [done|]. constructor; [|done]. apply line_msg_ok; [done|simpl; lia].
  - cbn [ps_mem st2]. by rewrite <- app_assoc.
  - eexists. split; [reflexivity|]. split; [|done]. split; [|done]. split; [done|]. exists PORT_MSG_START, (-1). split; [done|]. split; [lia|]. done.
Qed.
End answering.

(** ** Empty columns *)

Lemma row_columns_app cols1 : forall vts cols2 index off body,
  row_columns vts (cols1 ++ cols2) index off body =
  ('(off, body) ← row_columns vts cols1 index off body; row_columns vts cols2 (length cols1 + index) off body).
Proof.
  induction cols1 as [|c cols1 IH]; intros vts cols2 index off body; [done|]. cbn [app row_columns length].
  destruct (vts !! index) as [vt|]; [|done]. cbn [mbind option_bind].
  destruct (GetValueInfo vt c body (Some off) 0) as [[w b]|]; [|done]. cbn [mbind option_bind]. rewrite IH. by rewrite Nat.add_succ_r.
Qed.

Lemma cells_length vts : forall cols ts, cells vts cols = Some ts -> length cols = length vts.
Proof.
  induction vts as [|vt vts IH]; intros [|[c|] cols] ts H; cbn [cells] in H; try done.
  destruct (cell vt c); [|done]. cbn [mbind option_bind] in H. destruct (cells vts cols) eqn:E; [|done]. cbn [length]. by rewrite (IH _ _ E).
Qed.

(** An empty column is a space, but the text goes on behind the zero byte that ends
    it. *)
Lemma GetValueInfo_empty vt c s : col_size c = Some sizeof_RowColumnData -> (length s + 3 < 2048)%nat ->
  GetValueInfo vt (Some c) (body_of s) (Some (zlen s)) 0 = Some (2, body_of (s ++ [124; 32; 0])).
Proof.
  intros Hc Hl. unfold GetValueInfo. rewrite Hc. cbn [mbind option_bind]. rewrite Z.eqb_refl.
  assert (print_at (body_of s) (Some (zlen s)) (pad 0 NULL_VALUE) = Some (body_of (s ++ [124; 32]))) as ->.
  { unfold print_at, NULL_VALUE, pad. cbn [Z.sub]. apply snprintf_end; [simpl; lia|unfold PORT_BUFFER_SIZE; simpl; lia]. }
  cbn [mbind option_bind]. do 2 f_equal. unfold body_of. rewrite !length_app. cbn [length]. rewrite <- !app_assoc. f_equal. cbn [app].
  by replace (2048 - (length s + 2))%nat with (S (2048 - (length s + 3))) by lia.
Qed.

Section empty.
Context (send : nat -> list Z -> SendResult) (fuel : nat) (Hsend : accepting send) (Hfuel : (2056 <= fuel)%nat).

(** C31: The client sees nothing of a row behind its first empty column: the server
    advances past the zero byte that ends the empty column's text and sends the
    whole row, and the client prints the message up to that byte. *)
Theorem empty_column_hides_rest st pre vt c post vts1 vts2 b ts1 ts2 ty n :
  p_rowData (ps_portal st) = Some (pre ++ Some c :: post) -> p_targetValTypeArr (ps_portal st) = Some (b, vts1 ++ vt :: vts2) ->
  cells vts1 pre = Some ts1 -> col_size c = Some sizeof_RowColumnData -> cells vts2 post = Some ts2 ->
  shown_text (bars ts1) -> (length (bars ts1) + length (bars ts2) <= 2036)%nat ->
  p_msgBody (ps_portal st) = mkMsg ty n (body_of []) -> open_type ty -> 0 < p_clientFd (ps_portal st) ->
  exists g ret st', send_row send fuel PortalSendRows st = Some (ret, st') /\
    sk_out (ps_sock st') = sk_out (ps_sock st) ++ wire g /\ answerable g /\
    g_body g = (bars ts1 ++ [124; 32; 0] ++ bars ts2 ++ [124]) ++ [0] /\ line_of g = bars ts1 ++ [124; 32].
Proof using Hsend Hfuel.
  intros Hr Hv H1 Hc H2 Hs Hl Hm Hty Hfd. set (s := bars ts1 ++ [124; 32; 0] ++ bars ts2 ++ [124]).
  assert (length s = length (bars ts1) + (3 + (length (bars ts2) + 1)))%nat as Ls by (unfold s; by rewrite !length_app).
  assert (PortalSendRows (ps_portal st) = Some (zlen s + 1, set_msgBody (mkMsg ty n (body_of s)) (ps_portal st))) as Ef.
  { unfold PortalSendRows, ClientRowDataSend. rewrite Hr, Hv, Hm. cbn [from_option snd msg_body].
    pose proof (row_columns_run pre (vt :: vts2) vts1 ts1 [] [] H1) as E1. cbn [app length] in E1. change (Z.of_nat 0) with 0 in E1.
    rewrite row_columns_app, E1 by lia. cbn [mbind option_bind row_columns]. rewrite Nat.add_0_r, (cells_length _ _ _ H1), list_lookup_middle by done.
    cbn [mbind option_bind]. rewrite (GetValueInfo_empty vt c (bars ts1) Hc) by lia. cbn [mbind option_bind].
    replace (vts1 ++ vt :: vts2) with ((vts1 ++ [vt]) ++ vts2 ++ []) by (by rewrite app_nil_r, <- app_assoc).
    replace (S (length vts1)) with (length (vts1 ++ [vt])) by (rewrite length_app; simpl; lia).
    replace (zlen (bars ts1) + (2 + 1)) with (zlen (bars ts1 ++ [124; 32; 0])) by (rewrite length_app; simpl; lia).
    rewrite (row_columns_run post [] vts2 ts2 _ _ H2) by (rewrite length_app; simpl; lia). cbn [mbind option_bind].
    rewrite snprintf_bar by (rewrite !length_app; simpl; lia). cbn [mbind option_bind]. unfold s. rewrite <- !app_assoc. do 2 f_equal.
    rewrite !length_app. simpl. lia. }
  destruct (send_row_run send fuel Hsend Hfuel PortalSendRows ty n s st Hm Ef) as (k & E & Ho); [lia|by apply open_type_i32|done|].
  exists (line_msg ty s), (zlen s + 1), (mkPS (set_msgBody (mkMsg ty (-1) (body_of [])) (ps_portal st)) k (ps_mem st)).
  split_and!; [done|done|apply line_msg_ok; [done|lia]|done|]. unfold line_of, line_msg, s. cbn [g_body]. rewrite <- !app_assoc. cbn [app].
  replace (bars ts1 ++ 124 :: 32 :: 0 :: bars ts2 ++ [124; 0]) with ((bars ts1 ++ [124; 32]) ++ 0 :: bars ts2 ++ [124; 0]) by (by rewrite <- app_assoc).
  apply shown_until. apply Forall_app. split; [done|]. repeat constructor; lia.
Qed.
End empty.

(** ** Concrete rows *)

Definition empty_column : list Z := le 4 48 ++ replicate 44 0.

Definition portal0 (row : list (option (list Z))) (vts : list valueType) : PortState :=
  mkPS (mkPortal 5 PORT_NOTHING (mkMsg PORT_MSG_BEGIN (-1) (body_of [])) (Some row) None (Some (0, vts)) None) (mkSock 0 []) [].

(** The row [5, '', 7]: the client prints [|5| ]. *)
Lemma empty_column_hides_rest_witness :
  exists g ret st', send_row send0 2056 PortalSendRows
      (portal0 [Some (int_column 5); Some empty_column; Some (int_column 7)] [VT_INT; VT_CHAR; VT_INT]) = Some (ret, st') /\
    sk_out (ps_sock st') = wire g /\ g_body g = [124; 53; 124; 32; 0; 124; 55; 124; 0] /\ line_of g = [124; 53; 124; 32].
Proof.
  destruct (empty_column_hides_rest send0 2056 send0_accepting (le_n _)
    (portal0 [Some (int_column 5); Some empty_column; Some (int_column 7)] [VT_INT; VT_CHAR; VT_INT])
    [Some (int_column 5)] VT_CHAR empty_column [Some (int_column 7)] [VT_INT] [VT_INT] 0 [[53]] [[55]] PORT_MSG_BEGIN (-1)) as (g & ret & st' & E & Ho & _ & Hb & Hl);
    try reflexivity.
  - repeat constructor; discriminate.
  - simpl. lia.
  - by split.
  - exists g, ret, st'. split_and!; [exact E|exact Ho|exact Hb|exact Hl].
Defined.

(** Formats: [%d] is inverted by reading, [%f] of 1.5, of a third and of -0. *)
Example fmt_examples : fmt_d (-2147483648) = text "-2147483648" /\ fmt_f 0x3FC00000 = text "1.500000" /\
  fmt_f 0x3EAAAAAB = text "0.333333" /\ fmt_f 0x80000000 = text "-0.000000".
Proof. vm_compute. auto. Qed.
