(* ===== verification/Session.v ===== *)
(** * A statement and its client

    Composes the executor ([Statement]), the portal ([Portal]) and the messages
    ([Net]): what the client prints for a [SELECT]. *)

From Stdlib Require Import String.
From S2P Require Import Prelude Bytes Page PageStore DataTypes Net Express Plan Executor Query Statement Portal.

Open Scope string_scope.
Open Scope list_scope.
Open Scope Z_scope.

Section session.
Context (send : nat -> list Z -> SendResult) (wfuel : nat) (Hsend : accepting send) (Hwfuel : (2056 <= wfuel)%nat).

(** What [ProcessQuery] and [ExecutorPlan] do after the plan has run. *)
Definition answer (retCode : Z) : ST PortState Z := ExecutorReport send wfuel retCode;; EndPort send wfuel.

(** What is written between [before] and [after] is messages that end an answer, and a
    client at rest prints [ls] from them, in whatever pieces of 8 to 2048 bytes they
    come that do not make it copy between overlapping areas. *)
Definition client_shows (before : list Z) (after : list Z) (ls : list (list Z)) : Prop :=
  exists gs, after = before ++ stream (gs ++ [finish_msg]) /\
  forall turns cl, at_rest cl -> after = before ++ concat (incoming cl) -> Forall piece_ok (incoming cl) ->
  Net.apart 0 (incoming cl) (gs ++ [finish_msg]) -> (length (incoming cl) < turns)%nat ->
  exists cl', ProcessClient turns cl = Some (Done (0, cl')) /\ shown cl' = shown cl ++ ls /\ incoming cl' = [] /\ at_rest cl'.

Lemma answered_shows st ls st' : answered st ls st' -> client_shows (sk_out (ps_sock st)) (sk_out (ps_sock st')) ls.
Proof using Type.
  intros (gs & Eo & El & HF). exists gs. split; [exact Eo|]. intros turns cl Hcl E Hp Hap Ht.
  rewrite Eo in E. apply app_inv_head in E. rewrite <- El. by apply ProcessClient_run.
Qed.

Lemma answer_run st targets rows st1 n : finished st targets rows st1 ->
  let v := zlen (ps_mem st) in let w := v + 1 in
  exists st2, answer n st1 = Some (0, st2) /\ answered st (table_lines targets rows ++ [result_text n; []]) st2 /\
    ps_mem st2 = ps_mem st ++ [Alloc v; Alloc w; Free w; Free v; Free w] /\
    exists st3, InitPortal st2 = Some (0, st3) /\ idle st3.
Proof using Hsend Hwfuel.
  intros (st0 & Ho & Ep & Es & Em) v w. destruct Ho as [Hq _ _ Hv Hw Hm Hwr].
  assert (wrote st (table_lines targets rows) st1) as Hw1 by (destruct Hwr as (gs & E & ?); exists gs; by rewrite Es).
  destruct (ExecutorReport_run send wfuel Hsend Hwfuel st st1 _ n Hw1) as (st2 & E2 & Hw2 & Hq2 & Hv2 & Hwd2 & Hm2); [by rewrite Ep|].
  destruct (EndPort_run send wfuel Hsend Hwfuel st st2 _ v w Hw2 Hq2) as (st3 & E3 & Ha & Hm3 & st4 & E4 & Hi & _).
  - by rewrite Hv2, Ep, Hv.
  - by rewrite Hwd2, Ep, Hw.
  - exists st3. split_and!.
    + unfold answer. by run E2.
    + by rewrite <- app_assoc in Ha.
    + rewrite Hm3, Hm2, Em, Hm. by rewrite <- !app_assoc.
    + by exists st4.
Qed.

Context {C : Type} `{Scanner C} (valid : PageState -> Prop) (keeps : relation PageState) `{!ScannerLaws C valid keeps}.
Context (behind : list Z) (strs : Z -> option bytes) (behind_ok : (48 <= length behind)%nat).
Context (tables : Z -> list TblRow) (GetTableInfo : bytes -> option Z) (tableDef : Z -> list ColumnDefInfo).

#[local] Instance portal_port : Port PortState := server_port send wfuel.
#[local] Instance portal_laws : PortLaws PortState := server_port_laws send wfuel Hsend Hwfuel.

(** C1: the client sees the answer of its statement. Take a [SELECT] as in
    [SELECT_statement]: names found, conditions that keep a column on the left of an
    operator that tells its sides apart and compare no two columns of one table,
    without [NOT], [<] and unary signs, that evaluate on every row; several tables only
    over scans that can be rescanned after their end. The columns of its rows are
    stored and not empty, and a line of them fits a message ([row_printable]). Analysed, planned
    and executed over the server's portal it writes messages from which the client
    prints the titles and a line for each row that satisfies the [WHERE] clause, in
    order, the number of rows and an empty line (without rows there are no titles),
    when the bytes reach it in pieces of 8 to 2048 bytes that do not make it copy
    between overlapping areas ([client_shows]). Then the portal is ready for the next
    statement. *)
Theorem SELECT_on_client stmt rt ts conds qs : resolved GetTableInfo tableDef stmt rt ts conds ->
  exists q qs' from, transformSelectStmt GetTableInfo tableDef stmt qs = Some (Some q, qs') /\
    qt_rtjoinTree q = AddJoinTblNodes from /\ Forall2 (fun e x => x.1.2 = qr_rindex e) rt from /\
    let rtb := q_rtable (plan_query q) in let ids := (fun x => x.1.1) <$> from in
    let rows := statement_rows strs tables tableDef rt rtb conds ids in
    rescannable valid keeps (length from) -> forall self n (s : EState C PortState),
      Forall (scannable valid keeps tables) ((fun x => (x.1.1, GetCellValueByIndex rtb x.1.2, x.2)) <$> from) ->
      (product_bound tables ids + 2 <= n)%nat -> good valid strs s -> idle (portal s) ->
      Forall (clause_judged strs rtb (q_joinTree (plan_query q))) (product tables ids) ->
      Forall (fun row => projectable rtb ts row /\ row_printable ts (project rtb ts row)) rows ->
      exists s' p p', ExecutorPlan behind n (subPlanSelectStmt self (plan_query q)) s = Some (None, s') /\
        answer (retCode s') (portal s') = Some (0, p) /\ InitPortal p = Some (0, p') /\ idle p' /\
        client_shows (sk_out (ps_sock (portal s))) (sk_out (ps_sock p))
          (table_lines ts (project rtb ts <$> rows) ++ [result_text (Z.of_nat (length rows)); []]).
Proof using Hsend Hwfuel behind_ok.
  intros Hres. destruct (statement_sends valid keeps behind strs behind_ok tables GetTableInfo tableDef stmt rt ts conds qs Hres)
    as (q & qs' & from & E & Hj & Hf & Hrun).
  exists q, qs', from. split; [exact E|]. split; [exact Hj|]. split; [exact Hf|]. intros rtb ids rows Hre self n s H1 H2 H3 H4 H5 H6.
  destruct (Hrun Hre self n s H1 H2 H3 H4 H5 H6) as (s' & Ex & Hrc & Hsh).
  destruct (answer_run _ _ _ _ (retCode s') Hsh) as (p & Ea & Hans & _ & p' & Ei & Hid).
  exists s', p, p'. split; [exact Ex|]. split; [exact Ea|]. split; [exact Ei|]. split; [exact Hid|].
  rewrite Hrc in Hans. by apply answered_shows.
Qed.
End session.

(** ** A concrete session *)

Definition session_start : PortState :=
  mkPS (mkPortal 5 PORT_NOTHING (mkMsg PORT_MSG_START (-1) (body_of [])) None None None None) (mkSock 0 []) [].

Definition session_select : EState MemScan PortState := mkES eval0 ∅ session_start None None 0.

Definition session_rows : list (list TblRow) := [[int_row 77 1 3; int_row 78 2 3]; [int_row 77 1 5; int_row 78 2 5]].

Lemma session_idle : idle session_start.
Proof. split; [|done]. split; [done|]. exists PORT_MSG_START, (-1). split; [done|]. split; [lia|done]. Qed.

Lemma session_printable : Forall (fun row => projectable two_rtable join_tes row /\ row_printable join_tes (project two_rtable join_tes row)) session_rows.
Proof.
  repeat (apply Forall_cons_2 || apply Forall_nil_2); (split;
    [repeat (apply Forall_cons_2 || apply Forall_nil_2); eexists _, 52; (split; [vm_compute; reflexivity|split; [vm_compute; reflexivity|reflexivity]])|]);
    (split; [split; [vm_compute; repeat constructor; discriminate|vm_compute; lia]|]);
    eexists; (split; [vm_compute; reflexivity|split; [vm_compute; repeat constructor; discriminate|vm_compute; lia]]).
Qed.

Lemma session_lines : table_lines join_tes (project two_rtable join_tes <$> session_rows) ++ [result_text (Z.of_nat (length session_rows)); []] =
  [text "|a|a|"; text "|3|3|"; text "|5|5|"; text "total 2 rows sucess"; []].
Proof. vm_compute. reflexivity. Qed.

Lemma session_statement_rows : statement_rows strs0 two_tables two_defs two_entries two_rtable [two_cond] [101; 102] = session_rows.
Proof. vm_compute. reflexivity. Qed.

(** [SELECT t.a, x.a FROM t, u x WHERE t.a = x.a]: the client prints [|a|a|], [|3|3|],
    [|5|5|], [total 2 rows sucess] and an empty line. *)
Lemma SELECT_on_client_witness :
  exists q qs' s' p p', transformSelectStmt two_catalog two_defs join_select start_query = Some (Some q, qs') /\
    @ExecutorPlan MemScan PortState _ (server_port send0 2056) (replicate 48 0) 10 (subPlanSelectStmt (OtherNode 1 0 0 0) (plan_query q)) session_select = Some (None, s') /\
    answer send0 2056 (retCode s') (portal s') = Some (0, p) /\ InitPortal p = Some (0, p') /\
    client_shows [] (sk_out (ps_sock p))
      [text "|a|a|"; text "|3|3|"; text "|5|5|"; text "total 2 rows sucess"; []].
Proof.
  destruct (SELECT_on_client send0 2056 send0_accepting (le_n _) (fun _ => True) (fun _ _ => True)
    (replicate 48 0) strs0 ltac:(rewrite length_replicate; lia) two_tables two_catalog two_defs join_select two_entries join_tes [two_cond] start_query join_select_resolved)
    as (q & qs' & from & E & Hjoin & Hrt & Hrun).
  exists q, qs'. vm_compute in E. injection E as <- <-.
  destruct from as [|[[a1 i1] t1] [|[[a2 i2] t2] [|]]]; try (exfalso; by inversion Hrt as [|? ? ? ? _ Hr]; try inversion Hr as [|? ? ? ? _ Hr2]; inversion Hr2).
  vm_compute in Hjoin. injection Hjoin as <- <- <- <- <- <-.
  destruct (Hrun (or_intror I) (OtherNode 1 0 0 0) 10%nat session_select) as (s' & p & p' & Ex & Ea & Ei & _ & Hsh); clear Hrun.
  - repeat (apply Forall_cons_2 || apply Forall_nil_2); eexists; split; try reflexivity; by split.
  - vm_compute. lia.
  - split; [exact I|apply eval0_ok].
  - exact session_idle.
  - change (Forall (clause_judged strs0 two_rtable (Some [ExprEntry 100 1 2 EQUAL (Some (ColumnRef 3 VT_INT 0)) (Some (ColumnRef 4 VT_INT 0))]))
      (product two_tables [101; 102])).
    rewrite two_product. repeat (apply Forall_cons_2 || apply Forall_nil_2);
      (split; [exact I|split; [reflexivity|split; eexists; vm_compute; reflexivity]]).
  - change (Forall (fun row => projectable two_rtable join_tes row /\ row_printable join_tes (project two_rtable join_tes row))
      (statement_rows strs0 two_tables two_defs two_entries two_rtable [two_cond] [101; 102])).
    rewrite session_statement_rows. exact session_printable.
  - exists s', p, p'. split; [reflexivity|]. split; [exact Ex|]. split; [exact Ea|]. split; [exact Ei|].
    change (client_shows [] (sk_out (ps_sock p))
      (table_lines join_tes (project two_rtable join_tes <$> statement_rows strs0 two_tables two_defs two_entries two_rtable [two_cond] [101; 102]) ++
       [result_text (Z.of_nat (length (statement_rows strs0 two_tables two_defs two_entries two_rtable [two_cond] [101; 102]))); []])) in Hsh.
    rewrite session_statement_rows, session_lines in Hsh. exact Hsh.
Defined.
