(* ===== verification/BufferPool.v ===== *)
(** * The buffer pool

    Models [src/src/util/bufferPool/bufferPool.c] and the half of
    [src/src/sqlcore/storage/buffer/buffer.c] that uses it: allocating a buffer for
    a page, evicting by clock sweep, reading, writing and releasing pages. One
    worker runs the operations; what the others do to the descriptor locks shows
    in the outcomes of [TryLockBufDesc]. The hash table that maps page tags to
    buffers is used through the class [TagTable]; the partitioned hash table is an
    instance. *)

From S2P Require Import Prelude Bytes HashTable Page.

(** ** Data: bufferPool.h *)

Record BufferTag := mkTag { databaseId : Z; tableId : Z; segno : Z; pageno : Z; forkNum : Z }.

#[export] Instance BufferTag_eq_dec : EqDecision BufferTag.
Proof. solve_decision. Defined.
#[export] Instance BufferTag_countable : Countable BufferTag.
Proof.
  refine (inj_countable' (fun t => (databaseId t, tableId t, segno t, pageno t, forkNum t))
    (fun '(d, t, s, p, f) => mkTag d t s p f) _).
  by intros [].
Defined.

Definition INVLID_BUFFER : Z := -1.
Definition Free_List_End : Z := -1.
Definition USE_COUNT_MAX : Z := 5.
Definition BUFFER_MIN_NUM : Z := 8.

Inductive BufferValidFlag := BVF_INVALID | BVF_VLID | BVF_TAG.
#[export] Instance BufferValidFlag_eq_dec : EqDecision BufferValidFlag.
Proof. solve_decision. Defined.

Inductive BufferLockMode := BUF_READ | BUF_WRITE.
#[export] Instance BufferLockMode_eq_dec : EqDecision BufferLockMode.
Proof. solve_decision. Defined.

Definition BUFFER_CLEAN : Z := 0.
Definition BUFFER_DITRY : Z := 1.
Definition BUFFER_FOUND : Z := 0.
Definition BUFFER_EMPTY : Z := 1.

Record BufferDesc := mkDesc {
  bufferTag : BufferTag;
  isValid : BufferValidFlag;
  isDirty : Z;
  refCnt : Z;
  usedCnt : Z;
  isInFreeList : Z
}.

(** ** The table of tags, as the pool uses it *)

Class TagTable (T : Type) := {
  tbl_find : BufferTag -> ST T (option Z);
  tbl_insert : BufferTag -> Z -> ST T (option Z * HashOp);
  tbl_delete : BufferTag -> Z -> ST T Z
}.

(** What the pool may rely on: a map from tags to buffer ids of bounded size. *)
Class TagTableLaws (T : Type) `{TagTable T} (tag_ok : BufferTag -> Prop) := {
  trep : T -> Z -> gmap BufferTag Z -> Prop;
  tbl_find_ok t cap M tag : trep t cap M -> tag_ok tag ->
    exists t', tbl_find tag t = Some (M !! tag, t') /\ trep t' cap M;
  tbl_insert_ok t cap M tag id : trep t cap M -> tag_ok tag -> in_i32 id ->
    exists t', tbl_insert tag id t = Some (
        match M !! tag with
        | Some i => (Some i, HASH_FIND)
        | None => if Z.of_nat (size M) <? cap then (Some id, HASH_INSERT) else (None, HASH_NULL)
        end, t') /\
      trep t' cap (match M !! tag with
                   | Some _ => M
                   | None => if Z.of_nat (size M) <? cap then <[tag := id]> M else M
                   end);
  tbl_delete_ok t cap M tag id : trep t cap M -> tag_ok tag -> in_i32 id ->
    exists t' r, tbl_delete tag id t = Some (r, t') /\ trep t' cap (delete tag M)
}.

(** ** State

    [locks] lists the descriptor locks this worker holds. [files] is the content of
    the table files by page. An access outside an array is a fault. *)

Record Pool (T : Type) := mkBP {
  bufferNum : Z;
  freeList : gmap Z Z;
  bufferPool : gmap Z (list Z);
  bufferDesc : gmap Z BufferDesc;
  table : T;
  start : Z;
  files : gmap BufferTag (list Z);
  locks : list (Z * BufferLockMode)
}.
Arguments mkBP {T}. Arguments bufferNum {T}. Arguments freeList {T}. Arguments bufferPool {T}.
Arguments bufferDesc {T}. Arguments table {T}. Arguments start {T}. Arguments files {T}.
Arguments locks {T}.

Section pool.
Context {T : Type} `{TagTable T}.
Notation P := (Pool T).
Notation BM := (ST P).

Definition set_free (m : gmap Z Z) (s : P) : P :=
  mkBP (bufferNum s) m (bufferPool s) (bufferDesc s) (table s) (start s) (files s) (locks s).
Definition set_buffers (m : gmap Z (list Z)) (s : P) : P :=
  mkBP (bufferNum s) (freeList s) m (bufferDesc s) (table s) (start s) (files s) (locks s).
Definition set_descs (m : gmap Z BufferDesc) (s : P) : P :=
  mkBP (bufferNum s) (freeList s) (bufferPool s) m (table s) (start s) (files s) (locks s).
Definition set_table (t : T) (s : P) : P :=
  mkBP (bufferNum s) (freeList s) (bufferPool s) (bufferDesc s) t (start s) (files s) (locks s).
Definition set_start (z : Z) (s : P) : P :=
  mkBP (bufferNum s) (freeList s) (bufferPool s) (bufferDesc s) (table s) z (files s) (locks s).
Definition set_files (m : gmap BufferTag (list Z)) (s : P) : P :=
  mkBP (bufferNum s) (freeList s) (bufferPool s) (bufferDesc s) (table s) (start s) m (locks s).
Definition set_locks (l : list (Z * BufferLockMode)) (s : P) : P :=
  mkBP (bufferNum s) (freeList s) (bufferPool s) (bufferDesc s) (table s) (start s) (files s) l.

Definition get_desc (id : Z) : BM BufferDesc := fun s => d ← bufferDesc s !! id; Some (d, s).
Definition put_desc (id : Z) (d : BufferDesc) : BM unit :=
  st_modify (fun s => set_descs (<[id := d]> (bufferDesc s)) s).
Definition get_free (i : Z) : BM Z := fun s => v ← freeList s !! i; Some (v, s).
Definition put_free (i v : Z) : BM unit := st_modify (fun s => set_free (<[i := v]> (freeList s)) s).
Definition on_table {A} (m : ST T A) : BM A := fun s => '(a, t) ← m (table s); Some (a, set_table t s).

Definition with_valid (f : BufferValidFlag) (d : BufferDesc) : BufferDesc :=
  mkDesc (bufferTag d) f (isDirty d) (refCnt d) (usedCnt d) (isInFreeList d).
Definition with_dirty (f : Z) (d : BufferDesc) : BufferDesc :=
  mkDesc (bufferTag d) (isValid d) f (refCnt d) (usedCnt d) (isInFreeList d).
Definition with_tag (t : BufferTag) (d : BufferDesc) : BufferDesc :=
  mkDesc t (isValid d) (isDirty d) (refCnt d) (usedCnt d) (isInFreeList d).
Definition with_ref (r : Z) (d : BufferDesc) : BufferDesc :=
  mkDesc (bufferTag d) (isValid d) (isDirty d) r (usedCnt d) (isInFreeList d).
Definition with_used (u : Z) (d : BufferDesc) : BufferDesc :=
  mkDesc (bufferTag d) (isValid d) (isDirty d) (refCnt d) u (isInFreeList d).
Definition with_infree (i : Z) (d : BufferDesc) : BufferDesc :=
  mkDesc (bufferTag d) (isValid d) (isDirty d) (refCnt d) (usedCnt d) i.

Definition modify_desc (id : Z) (f : BufferDesc -> BufferDesc) : BM unit :=
  d ← get_desc id; put_desc id (f d).

(** ** Descriptor locks *)

Fixpoint drop_lock (e : Z * BufferLockMode) (l : list (Z * BufferLockMode)) : list (Z * BufferLockMode) :=
  match l with
  | [] => []
  | x :: l => if decide (x = e) then l else x :: drop_lock e l
  end.

Definition LockBufferDescEx (id : Z) (m : BufferLockMode) : BM unit :=
  st_modify (fun s => set_locks ((id, m) :: locks s) s).
Definition UnlockBufferDescEx (id : Z) (m : BufferLockMode) : BM unit :=
  st_modify (fun s => set_locks (drop_lock (id, m) (locks s)) s).

(** ** bufferPool.c *)

Definition zero_tag : BufferTag := mkTag 0 0 0 0 0.
Definition zero_desc : BufferDesc := mkDesc zero_tag BVF_INVALID BUFFER_CLEAN 0 0 0.

(** The free list's cells after the loop, and after its last cell is ended. *)
Definition init_freeList (num : Z) : gmap Z Z :=
  <[num - 1 := Free_List_End]> (list_to_map ((fun i => (i, i + 1)) <$> zrange num)).

(** The memory comes zeroed from [AllocMem]. *)
Definition InitBufferPool (num : Z) (t : T) (disk : gmap BufferTag (list Z)) : option P :=
  if num <? BUFFER_MIN_NUM then None else
  Some (mkBP num (init_freeList num)
    (list_to_map ((fun i => (i, replicate 4096 0)) <$> zrange num))
    (list_to_map ((fun i => (i, zero_desc)) <$> zrange num)) t 0 disk []).

Definition PinBuffer (id : Z) : BM unit :=
  modify_desc id (fun d => with_ref (u32 (refCnt d + 1)) (with_used USE_COUNT_MAX d)).

Definition unPinBuffer (id : Z) : BM unit :=
  modify_desc id (fun d => if 0 <? refCnt d then with_ref (refCnt d - 1) d else d).

Definition ReleaseBuffer (id : Z) : BM unit := unPinBuffer id.

Definition InsertFreeList (id : Z) : BM unit :=
  d ← get_desc id;
  if (0 <? id) && (isInFreeList d =? 0) then
    h ← get_free 0; put_free id h;; put_free 0 id;;
    modify_desc id (with_infree 1)
  else mret tt.

Definition InvalidateBuffer (id : Z) : BM unit :=
  modify_desc id (with_valid BVF_INVALID);; InsertFreeList id.

Definition SetBuffferDirty (id : Z) : BM unit := modify_desc id (with_dirty BUFFER_DITRY).
Definition ClearBufferDirty (id : Z) : BM unit := modify_desc id (with_dirty BUFFER_CLEAN).
Definition SetBuffferValid (id : Z) (f : BufferValidFlag) : BM unit := modify_desc id (with_valid f).

Fixpoint free_loop (fuel : nat) (id : Z) : BM Z :=
  match fuel with
  | O => st_fault
  | S fuel =>
      if id =? Free_List_End then mret id else
      id ← get_free 0;
      next ← get_free id;
      put_free 0 next;;
      modify_desc id (with_infree 0);;
      d ← get_desc id;
      if refCnt d =? 0 then mret id else free_loop fuel id
  end.

Definition GetFreeBufferId : BM Z := fun s =>
  (id ← get_free 0; free_loop (S (size (freeList s))) id) s.

(** [try_lock n id]: whether another worker lets the [n]-th attempt of a sweep
    have buffer [id]'s read lock. *)
Context (try_lock : nat -> Z -> bool).

Definition next_id (id : Z) : BM Z := n ← st_gets bufferNum; mret ((id + 1) mod n).

Fixpoint sweep_loop (fuel n : nat) (id : Z) : BM Z :=
  match fuel with
  | O => st_fault
  | S fuel =>
      if negb (try_lock n id) then id ← next_id id; sweep_loop fuel (S n) id else
      LockBufferDescEx id BUF_READ;;
      d ← get_desc id;
      stop ← (if decide (isValid d = BVF_INVALID) then mret true else
              let used := if 0 <? usedCnt d then usedCnt d - 1 else 0 in
              put_desc id (with_used used d);;
              mret ((refCnt d =? 0) && (used =? 0)));
      UnlockBufferDescEx id BUF_READ;;
      if (stop : bool) then
        LockBufferDescEx id BUF_WRITE;;
        d ← get_desc id;
        if bool_decide (isValid d = BVF_INVALID) || ((refCnt d =? 0) && (usedCnt d =? 0)) then
          next ← next_id id; st_modify (set_start next);; mret id
        else
          UnlockBufferDescEx id BUF_WRITE;; sweep_loop fuel (S n) id
      else id ← next_id id; sweep_loop fuel (S n) id
  end.

Definition ClockSweep (fuel : nat) : BM Z := id ← st_gets start; sweep_loop fuel 0 id.

(** ** buffer.c: allocating *)

Definition SearchBuffer (tag : BufferTag) : BM Z :=
  o ← on_table (tbl_find tag); mret (default INVLID_BUFFER o).

(** [TableWrite]: the page goes to the number its own header holds. *)
Definition TableWrite (tag : BufferTag) (b : list Z) : BM unit := fun s =>
  n ← pageNum b;
  Some (tt, set_files (<[mkTag (databaseId tag) (tableId tag) (segno tag) n (forkNum tag) := b]> (files s)) s).

Definition get_buffer (id : Z) : BM (list Z) := fun s => b ← bufferPool s !! id; Some (b, s).

(** [tag] names the table and the fork the caller passes. *)
Definition WritePage (tag : BufferTag) (id : Z) : BM unit :=
  b ← get_buffer id; TableWrite tag b;; ClearBufferDirty id.

Definition FlushPage := WritePage.

Definition CleanPageBuffer (id : Z) : BM Z :=
  d ← get_desc id;
  (if isDirty d =? BUFFER_DITRY then FlushPage (bufferTag d) id else mret tt);;
  SetBuffferValid id BVF_INVALID;;
  on_table (tbl_delete (bufferTag d) id).

(** [FIND_RECHECK]: [Some found] when the buffer holds the page. *)
Definition recheck (tag : BufferTag) (id : Z) : BM (option Z) :=
  LockBufferDescEx id BUF_WRITE;;
  PinBuffer id;;
  d ← get_desc id;
  if bool_decide (bufferTag d = tag) && negb (bool_decide (isValid d = BVF_INVALID)) then
    if decide (isValid d = BVF_TAG) then mret (Some BUFFER_EMPTY)
    else UnlockBufferDescEx id BUF_WRITE;; mret (Some BUFFER_FOUND)
  else unPinBuffer id;; UnlockBufferDescEx id BUF_WRITE;; mret None.

(** A free buffer or a victim, locked and pinned. *)
Definition take_buffer (sweep_fuel : nat) : BM Z :=
  id ← GetFreeBufferId;
  if negb (id =? INVLID_BUFFER) then
    LockBufferDescEx id BUF_WRITE;; PinBuffer id;; mret id
  else
    id ← ClockSweep sweep_fuel;
    PinBuffer id;; CleanPageBuffer id;; mret id.

(** One pass through the labels per unit of [fuel]; [found] says where the jump
    to [FIND_RECHECK] came with a buffer. Returns the buffer and [*found]. *)
Fixpoint AllocBuffer_loop (fuel sweep_fuel : nat) (tag : BufferTag) (id : Z) : BM (option Z * Z) :=
  match fuel with
  | O => st_fault
  | S fuel =>
      let refind := id ← SearchBuffer tag; AllocBuffer_loop fuel sweep_fuel tag id in
      r ← (if negb (id =? INVLID_BUFFER) then recheck tag id else mret None);
      match r with
      | Some found => mret (Some id, found)
      | None =>
          id ← take_buffer sweep_fuel;
          d ← get_desc id;
          if decide (isValid d = BVF_INVALID) then
            SetBuffferValid id BVF_TAG;;
            modify_desc id (with_tag tag);;
            modify_desc id (with_dirty BUFFER_CLEAN);;
            '(e, flag) ← on_table (tbl_insert tag id);
            match e, flag with
            | None, _ => unPinBuffer id;; UnlockBufferDescEx id BUF_WRITE;; refind
            | Some id', HASH_FIND =>
                unPinBuffer id;; UnlockBufferDescEx id BUF_WRITE;;
                AllocBuffer_loop fuel sweep_fuel tag id'
            | Some _, _ => mret (Some id, BUFFER_EMPTY)
            end
          else unPinBuffer id;; UnlockBufferDescEx id BUF_WRITE;; refind
      end
  end.

Definition AllocBuffer (fuel sweep_fuel : nat) (tag : BufferTag) : BM (option Z * Z) :=
  id ← SearchBuffer tag; AllocBuffer_loop fuel sweep_fuel tag id.

(** The second half of [ReadPage], on a buffer locked for loading; [TableRead] fails
    for a page that is not in the file. *)
Definition load_page (tag : BufferTag) (id : Z) : BM (option Z) :=
  disk ← st_gets files;
  match disk !! tag with
  | None => ReleaseBuffer id;; UnlockBufferDescEx id BUF_WRITE;; mret None
  | Some b =>
      st_modify (fun s => set_buffers (<[id := b]> (bufferPool s)) s);;
      SetBuffferValid id BVF_VLID;;
      UnlockBufferDescEx id BUF_WRITE;;
      mret (Some id)
  end.

Definition ReadPage (fuel sweep_fuel : nat) (relid index fork : Z) : BM (option Z) :=
  if index <=? 0 then mret None else
  let tag := mkTag 0 relid 0 index fork in
  '(page, found) ← AllocBuffer fuel sweep_fuel tag;
  match page with
  | None => mret None
  | Some id =>
      if found =? BUFFER_FOUND then mret (Some id) else load_page tag id
  end.

(** [ReleasePage] up to the resource owner's entry. *)
Definition ReleasePage (id : Z) : BM unit :=
  LockBufferDescEx id BUF_WRITE;; ReleaseBuffer id;; UnlockBufferDescEx id BUF_WRITE.


(** ** The pool's invariant *)

Context {tag_ok : BufferTag -> Prop} `{!TagTableLaws T tag_ok} (zero_ok : tag_ok zero_tag).

Fixpoint free_chain (m : gmap Z Z) (i : Z) (l : list Z) : Prop :=
  match l with
  | [] => m !! i = Some Free_List_End
  | id :: l => m !! i = Some id /\ free_chain m id l
  end.

(** An unpinned page can be dropped: its file has it, or it is marked dirty and
    will be written to its own place. *)
Definition evict_ok (s : P) (id : Z) (d : BufferDesc) : Prop :=
  exists b, bufferPool s !! id = Some b /\
    if decide (isDirty d = BUFFER_DITRY) then pageNum b = Some (pageno (bufferTag d))
    else files s !! bufferTag d = Some b.

(** [M] maps the tags of the buffers in use, [l] is the free list. *)
Record pool_ok (s : P) (M : gmap BufferTag Z) (l : list Z) : Prop := {
  po_num : BUFFER_MIN_NUM <= bufferNum s < 2 ^ 31;
  po_table : trep (table s) (bufferNum s) M;
  po_desc id : is_Some (bufferDesc s !! id) <-> 0 <= id < bufferNum s;
  po_buf id : 0 <= id < bufferNum s -> is_Some (bufferPool s !! id);
  po_map tag id : M !! tag = Some id <->
    exists d, bufferDesc s !! id = Some d /\ bufferTag d = tag /\ isValid d <> BVF_INVALID;
  po_tags tag id : M !! tag = Some id -> tag_ok tag /\ tag <> zero_tag;
  po_counts id d : bufferDesc s !! id = Some d -> 0 <= refCnt d < 2 ^ 31 /\ 0 <= usedCnt d <= USE_COUNT_MAX;
  po_free : free_chain (freeList s) 0 l /\ NoDup l;
  po_freed id : id ∈ l -> 0 < id /\
    exists d, bufferDesc s !! id = Some d /\ isValid d = BVF_INVALID /\ refCnt d = 0;
  po_start : 0 <= start s < bufferNum s;
  po_dirty id d : bufferDesc s !! id = Some d -> isValid d <> BVF_VLID -> isDirty d <> BUFFER_DITRY;
  po_evict id d : bufferDesc s !! id = Some d -> isValid d = BVF_VLID -> refCnt d = 0 -> evict_ok s id d
}.

(** Between two calls an invalid descriptor is one never used. *)
Definition pool_inv (s : P) (M : gmap BufferTag Z) : Prop :=
  (exists l, pool_ok s M l) /\
  forall id d, bufferDesc s !! id = Some d -> isValid d = BVF_INVALID ->
    refCnt d = 0 /\ bufferTag d = zero_tag.

(** What a reader of a page gets: the buffer's content once it is loaded, the
    file's before. *)
Definition view (s : P) (M : gmap BufferTag Z) (tag : BufferTag) : option (list Z) :=
  match M !! tag with
  | Some id =>
      d ← bufferDesc s !! id;
      if decide (isValid d = BVF_VLID) then bufferPool s !! id else files s !! tag
  | None => files s !! tag
  end.

(** The sweep only ages descriptors. *)
Definition aged (d d' : BufferDesc) : Prop :=
  exists u, d' = with_used u d /\ 0 <= u <= usedCnt d.

Record decayed (s s' : P) : Prop := {
  dc_desc id : match bufferDesc s !! id with
               | Some d => exists d', bufferDesc s' !! id = Some d' /\ aged d d'
               | None => bufferDesc s' !! id = None
               end;
  dc_num : bufferNum s' = bufferNum s;
  dc_free : freeList s' = freeList s;
  dc_buf : bufferPool s' = bufferPool s;
  dc_table : table s' = table s;
  dc_files : files s' = files s
}.

Lemma with_used_id d : with_used (usedCnt d) d = d.
Proof. by destruct d. Qed.

Lemma aged_refl d : 0 <= usedCnt d -> aged d d.
Proof. intros. exists (usedCnt d). split; [by rewrite with_used_id|lia]. Qed.

Lemma aged_trans d d' d'' : aged d d' -> aged d' d'' -> aged d d''.
Proof. intros (u & -> & Hu) (v & -> & Hv). exists v. simpl in *. split; [done|lia]. Qed.

Definition counted (s : P) : Prop := forall id d, bufferDesc s !! id = Some d -> 0 <= usedCnt d.

Lemma decayed_refl s : counted s -> decayed s s.
Proof.
  intros Hc. split; try done. intros id. destruct (bufferDesc s !! id) as [d|] eqn:Hd; [|done].
  exists d. split; [done|]. by apply aged_refl, (Hc id).
Qed.

Lemma decayed_trans s s' s'' : decayed s s' -> decayed s' s'' -> decayed s s''.
Proof.
  intros [A1 A2 A3 A4 A5 A6] [B1 B2 B3 B4 B5 B6]. split; try congruence.
  intros id. specialize (A1 id). specialize (B1 id).
  destruct (bufferDesc s !! id) as [d|].
  - destruct A1 as (d' & Hd' & Ha). rewrite Hd' in B1. destruct B1 as (d'' & Hd'' & Hb).
    exists d''. split; [done|by eapply aged_trans].
  - by rewrite A1 in B1.
Qed.

Lemma decayed_lookup s s' id d :
  decayed s s' -> bufferDesc s !! id = Some d -> exists d', bufferDesc s' !! id = Some d' /\ aged d d'.
Proof. intros D Hd. pose proof (dc_desc _ _ D id) as H1. by rewrite Hd in H1. Qed.

Lemma decayed_back s s' id d' :
  decayed s s' -> bufferDesc s' !! id = Some d' -> exists d, bufferDesc s !! id = Some d /\ aged d d'.
Proof.
  intros D Hd. pose proof (dc_desc _ _ D id) as H1. destruct (bufferDesc s !! id) as [d|]; [|congruence].
  destruct H1 as (d2 & Hd2 & Ha). exists d. split; [done|congruence].
Qed.

Lemma decayed_counted s s' : decayed s s' -> counted s'.
Proof. intros D id d' Hd'. destruct (decayed_back _ _ _ _ D Hd') as (d & _ & u & -> & Hu). simpl. lia. Qed.

Lemma ok_decayed s s' M l :
  pool_ok s M l -> decayed s s' -> 0 <= start s' < bufferNum s' -> pool_ok s' M l.
Proof.
  intros [] D Hst. pose proof D as [_ D2 D3 D4 D5 D6]. split; rewrite ?D2, ?D3, ?D4, ?D5 in *; try done.
  - intros id. rewrite <- po_desc0. pose proof (dc_desc _ _ D id) as H1. split.
    + intros [d' Hd']. destruct (decayed_back _ _ _ _ D Hd') as (d & -> & _). eauto.
    + intros [d Hd]. destruct (decayed_lookup _ _ _ _ D Hd) as (d' & -> & _). eauto.
  - intros tag id. rewrite po_map0. split.
    + intros (d & Hd & Ht & Hv). destruct (decayed_lookup _ _ _ _ D Hd) as (d' & Hd' & u & -> & _). eauto.
    + intros (d' & Hd' & Ht & Hv). destruct (decayed_back _ _ _ _ D Hd') as (d & Hd & u & -> & _). eauto.
  - intros id d' Hd'. destruct (decayed_back _ _ _ _ D Hd') as (d & Hd & u & -> & Hu).
    destruct (po_counts0 id d Hd). simpl. lia.
  - intros id Hid. destruct (po_freed0 id Hid) as (H0 & d & Hd & Hv & Hr). split; [done|].
    destruct (decayed_lookup _ _ _ _ D Hd) as (d' & Hd' & u & -> & _). eauto.
  - intros id d' Hd' Hv. destruct (decayed_back _ _ _ _ D Hd') as (d & Hd & u & -> & Hu).
    by apply (po_dirty0 id d).
  - intros id d' Hd' Hv Hr. destruct (decayed_back _ _ _ _ D Hd') as (d & Hd & u & -> & Hu).
    unfold evict_ok. rewrite D4, D6. by apply (po_evict0 id d).
Qed.

Lemma view_decayed s s' M tag : decayed s s' -> view s' M tag = view s M tag.
Proof.
  intros D. unfold view. rewrite (dc_files _ _ D), (dc_buf _ _ D). destruct (M !! tag) as [id|]; [|done].
  destruct (bufferDesc s !! id) as [d|] eqn:Hd.
  - destruct (decayed_lookup _ _ _ _ D Hd) as (d' & -> & u & -> & _). done.
  - pose proof (dc_desc _ _ D id) as H1. rewrite Hd in H1. by rewrite H1.
Qed.

(** ** Primitive steps *)

Lemma get_desc_run id d s : bufferDesc s !! id = Some d -> get_desc id s = Some (d, s).
Proof. intros Hd. unfold get_desc, mbind, option_bind. by rewrite Hd. Qed.

Lemma modify_desc_run id f d s :
  bufferDesc s !! id = Some d ->
  modify_desc id f s = Some (tt, set_descs (<[id := f d]> (bufferDesc s)) s).
Proof. intros Hd. unfold modify_desc. by run (get_desc_run id d s Hd). Qed.

Lemma get_free_run i v s : freeList s !! i = Some v -> get_free i s = Some (v, s).
Proof. intros Hv. unfold get_free, mbind, option_bind. by rewrite Hv. Qed.

Lemma drop_lock_cons e l : drop_lock e (e :: l) = l.
Proof. simpl. by rewrite decide_True. Qed.

Lemma decayed_set s id d u :
  counted s -> bufferDesc s !! id = Some d -> 0 <= u <= usedCnt d ->
  decayed s (set_descs (<[id := with_used u d]> (bufferDesc s)) s).
Proof.
  intros Hc Hd Hu. split; try done. intros j. simpl. destruct (decide (j = id)) as [->|Hne].
  - rewrite Hd, lookup_insert_eq. eexists. split; [done|]. by exists u.
  - rewrite lookup_insert_ne by done. destruct (bufferDesc s !! j) as [dj|] eqn:Hj; [|done].
    exists dj. split; [done|]. by apply aged_refl, (Hc j).
Qed.

(** The start position and the locks do not matter. *)
Lemma decayed_shell s s' s'' :
  bufferDesc s'' = bufferDesc s' -> bufferNum s'' = bufferNum s' -> freeList s'' = freeList s' ->
  bufferPool s'' = bufferPool s' -> table s'' = table s' -> files s'' = files s' ->
  decayed s s' -> decayed s s''.
Proof. intros E1 E2 E3 E4 E5 E6 []. by split; rewrite ?E1, ?E2, ?E3, ?E4, ?E5, ?E6. Qed.

Lemma decayed_locks s s' l : decayed s s' -> decayed s (set_locks l s').
Proof. by intros []. Qed.

(** ** The clock sweep *)

(** Buffer [id] can be taken: it is invalid or unpinned. *)
Definition evictable (d : BufferDesc) : Prop := isValid d = BVF_INVALID \/ refCnt d = 0.

(** Distance on the ring, and the steps left until [id0] is out of uses. *)
Definition ring (n id0 id : Z) : Z := (id0 - id) mod n.
Definition sweep_measure (n id0 id : Z) (d0 : BufferDesc) : Z :=
  (Z.max 1 (usedCnt d0) - 1) * n + ring n id0 id.

Lemma ring_next n id0 id :
  0 < n -> 0 <= id0 < n -> 0 <= id < n ->
  ring n id0 ((id + 1) mod n) = if decide (id = id0) then n - 1 else ring n id0 id - 1.
Proof.
  intros Hn H0 Hid. unfold ring. rewrite Zminus_mod_idemp_r. case_decide as Heq.
  - subst id. replace (id0 - (id0 + 1)) with (-1) by lia.
    rewrite <- (Z.mod_add (-1) 1 n) by lia. rewrite Z.mod_small; lia.
  - destruct (Z.ltb_spec id id0).
    + rewrite !Z.mod_small; lia.
    + rewrite <- (Z.mod_add (id0 - (id + 1)) 1 n), <- (Z.mod_add (id0 - id) 1 n) by lia.
      rewrite !Z.mod_small; lia.
Qed.

Lemma ring_bound n id0 id : 0 < n -> 0 <= ring n id0 id < n.
Proof. intros. by apply Z.mod_pos_bound. Qed.

(** The buffer a sweep stops at: it can be taken, and nothing but use counts
    changed on the way. *)
Definition swept (s s' : P) (r : Z) : Prop :=
  (exists d, bufferDesc s' !! r = Some d /\ evictable d) /\ decayed s s' /\
  0 <= r < bufferNum s /\ start s' = (r + 1) mod bufferNum s /\
  locks s' = (r, BUF_WRITE) :: locks s.

Definition in_range (s : P) : Prop := forall id, is_Some (bufferDesc s !! id) <-> 0 <= id < bufferNum s.

Lemma in_range_decayed s s' : decayed s s' -> in_range s -> in_range s'.
Proof.
  intros D R id. rewrite (dc_num _ _ D), <- (R id). split; intros [d Hd].
  - destruct (decayed_back _ _ _ _ D Hd) as (d0 & -> & _). eauto.
  - destruct (decayed_lookup _ _ _ _ D Hd) as (d0 & -> & _). eauto.
Qed.

(** One visit of the loop to an unlocked buffer. *)
Lemma sweep_visit fuel n id d s :
  counted s -> bufferDesc s !! id = Some d -> try_lock n id = true ->
  0 <= (id + 1) mod bufferNum s ->
  (evictable d /\ (isValid d = BVF_INVALID \/ usedCnt d <= 1) /\
    exists s', sweep_loop (S fuel) n id s = Some (id, s') /\ decayed s s' /\
      (exists d', bufferDesc s' !! id = Some d' /\ evictable d') /\
      start s' = (id + 1) mod bufferNum s /\ locks s' = (id, BUF_WRITE) :: locks s) \/
  (isValid d <> BVF_INVALID /\ (refCnt d <> 0 \/ 1 < usedCnt d) /\
    exists s', sweep_loop (S fuel) n id s = sweep_loop fuel (S n) ((id + 1) mod bufferNum s) s' /\
      decayed s s' /\ locks s' = locks s /\
      s' = set_descs (<[id := with_used (Z.max 0 (usedCnt d - 1)) d]> (bufferDesc s)) s).
Proof.
  intros Hc Hd Htry Hnx. pose proof (Hc id d Hd) as Hu. cbn [sweep_loop]. rewrite Htry. cbn [negb].
  run_refl. set (s1 := set_locks _ s). assert (bufferDesc s1 !! id = Some d) as Hd1 by done.
  run (get_desc_run id d s1 Hd1). destruct (decide (isValid d = BVF_INVALID)) as [Hv|Hv].
  - left. split; [by left|]. split; [by left|]. run_refl. run_refl. run_refl.
    set (s3 := set_locks _ _). assert (bufferDesc s3 !! id = Some d) as Hd3 by done.
    run (get_desc_run id d s3 Hd3). rewrite bool_decide_true by done. cbn [orb].
    unfold next_id. run_refl. run_refl. eexists. split; [reflexivity|]. split_and!.
    + by apply (decayed_shell s s), decayed_refl.
    + exists d. split; [done|by left].
    + done.
    + simpl. by rewrite decide_True.
  - set (u := if 0 <? usedCnt d then usedCnt d - 1 else 0).
    assert (u = Z.max 0 (usedCnt d - 1)) as Hmax
      by (unfold u; destruct (Z.ltb_spec 0 (usedCnt d)); lia).
    set (s2 := set_descs (<[id := with_used u d]> (bufferDesc s1)) s1).
    assert ((if decide (isValid d = BVF_INVALID) then mret true else
              put_desc id (with_used u d);; mret ((refCnt d =? 0) && (u =? 0))) s1 =
            Some ((refCnt d =? 0) && (u =? 0), s2)) as Hstop by by rewrite decide_False.
    rewrite decide_False in Hstop by done. run Hstop. run_refl. set (s3 := set_locks _ s2).
    assert (locks s3 = locks s) as Hlk by (simpl; by rewrite decide_True).
    assert (decayed s s3) as D3
      by (apply (decayed_shell s (set_descs (<[id := with_used u d]> (bufferDesc s)) s)); try done;
          apply decayed_set; [done|done|lia]).
    assert (bufferDesc s3 !! id = Some (with_used u d)) as Hd3 by apply lookup_insert_eq.
    destruct ((refCnt d =? 0) && (u =? 0)) eqn:Hb.
    + apply andb_true_iff in Hb as [Hr Hu0]. apply Z.eqb_eq in Hr, Hu0.
      left. split; [by right|]. split; [right; lia|]. run_refl. set (s4 := set_locks _ s3).
      assert (bufferDesc s4 !! id = Some (with_used u d)) as Hd4 by done.
      run (get_desc_run id _ s4 Hd4). cbn [isValid refCnt usedCnt with_used].
      rewrite (proj2 (Z.eqb_eq (refCnt d) 0)), (proj2 (Z.eqb_eq u 0)) by done.
      rewrite orb_true_r. unfold next_id. run_refl. run_refl. eexists. split; [reflexivity|].
      split_and!.
      * by apply (decayed_shell s s3).
      * exists (with_used u d). split; [done|by right].
      * done.
      * simpl. by rewrite decide_True.
    + right. split; [done|]. split.
      { apply andb_false_iff in Hb as [Hr|Hr]; apply Z.eqb_neq in Hr; [by left|right; lia]. }
      unfold next_id. run_refl. exists s3. split; [done|]. split; [done|]. split; [done|].
      unfold s3, s2, s1, set_locks, set_descs in *. simpl in *. rewrite decide_True by done.
      by rewrite Hmax.
Qed.

Lemma sweep_loop_run id0 : (forall n, try_lock n id0 = true) ->
  forall fuel n id s d0, counted s -> in_range s -> 0 <= id < bufferNum s ->
  bufferDesc s !! id0 = Some d0 -> evictable d0 ->
  sweep_measure (bufferNum s) id0 id d0 < Z.of_nat fuel ->
  exists r s', sweep_loop fuel n id s = Some (r, s') /\ swept s s' r.
Proof.
  intros Htry. induction fuel as [|fuel IH]; intros n id s d0 Hc Hr Hid Hd0 Hev Hf.
  { unfold sweep_measure in Hf. pose proof (ring_bound (bufferNum s) id0 id ltac:(lia)). nia. }
  assert (0 <= id0 < bufferNum s) as Hid0 by (apply Hr; eauto).
  pose proof (Z.mod_pos_bound (id + 1) (bufferNum s) ltac:(lia)) as Hnx.
  pose proof (ring_next (bufferNum s) id0 id ltac:(lia) Hid0 Hid) as Hring.
  destruct (try_lock n id) eqn:Ht.
  - destruct (proj2 (Hr id) Hid) as [d Hd].
    destruct (sweep_visit fuel n id d s Hc Hd Ht (proj1 Hnx)) as
      [(Hevd & _ & s' & Hrun & D & Hres & Hst & Hlk)|(Hv & Hpin & s' & Hrun & D & Hlk & Hs')].
    + exists id, s'. by split.
    + rewrite Hrun.
      assert (exists d0', bufferDesc s' !! id0 = Some d0' /\ evictable d0' /\
        sweep_measure (bufferNum s') id0 ((id + 1) mod bufferNum s) d0' < Z.of_nat fuel)
        as (d0' & Hd0' & Hev' & Hm).
      { unfold sweep_measure in *. rewrite (dc_num _ _ D), Hring. destruct (decide (id = id0)) as [->|Hne].
        - assert (d0 = d) as -> by congruence. destruct Hev as [|Href]; [done|].
          destruct Hpin as [|Hu]; [done|].
          exists (with_used (Z.max 0 (usedCnt d - 1)) d). split; [by rewrite Hs'; apply lookup_insert_eq|].
          split; [by right|]. cbn [usedCnt with_used]. unfold ring in Hf. rewrite Z.sub_diag, Zmod_0_l in Hf. nia.
        - exists d0. split; [by rewrite Hs'; simpl; rewrite lookup_insert_ne|]. split; [done|]. lia. }
      destruct (IH (S n) ((id + 1) mod bufferNum s) s' d0') as (r & s'' & Hrun' & E & D' & Hrng & Hst' & Hlk');
        [by eapply decayed_counted|by eapply in_range_decayed|by rewrite (dc_num _ _ D)|done|done|done|].
      exists r, s''. split; [done|]. rewrite (dc_num _ _ D) in *.
      split_and!; try done; [by eapply decayed_trans|lia|lia|by rewrite Hlk', Hlk].
  - destruct (decide (id = id0)) as [->|Hne]; [congruence|].
    cbn [sweep_loop]. rewrite Ht. cbn [negb]. unfold next_id. run_refl.
    apply (IH (S n) _ s d0); try done. unfold sweep_measure in *. rewrite Hring. lia.
Qed.

Lemma ClockSweep_run id0 d0 fuel s :
  (forall n, try_lock n id0 = true) -> counted s -> in_range s -> 0 <= start s < bufferNum s ->
  bufferDesc s !! id0 = Some d0 -> evictable d0 -> usedCnt d0 <= USE_COUNT_MAX ->
  USE_COUNT_MAX * bufferNum s <= Z.of_nat fuel ->
  exists r s', ClockSweep fuel s = Some (r, s') /\ swept s s' r.
Proof.
  intros Htry Hc Hr Hst Hd Hev Hu Hf. unfold ClockSweep. run_refl.
  apply (sweep_loop_run id0 Htry fuel 0 (start s) s d0); try done.
  unfold sweep_measure. pose proof (ring_bound (bufferNum s) id0 (start s) ltac:(lia)).
  unfold USE_COUNT_MAX in *. nia.
Qed.

Lemma sweep_loop_spins fuel : forall n id s,
  counted s -> in_range s -> 0 <= id < bufferNum s ->
  (forall id d, bufferDesc s !! id = Some d -> isValid d <> BVF_INVALID /\ refCnt d <> 0) ->
  sweep_loop fuel n id s = None.
Proof.
  induction fuel as [|fuel IH]; intros n id s Hc Hr Hid Hall; [done|].
  pose proof (Z.mod_pos_bound (id + 1) (bufferNum s) ltac:(lia)) as Hnx.
  destruct (try_lock n id) eqn:Ht.
  - destruct (proj2 (Hr id) Hid) as [d Hd].
    destruct (sweep_visit fuel n id d s Hc Hd Ht (proj1 Hnx)) as
      [([Hv|Hv] & _)|(Hv & Hpin & s' & Hrun & D & Hlk & Hs')]; [destruct (Hall id d Hd); congruence..|].
    rewrite Hrun. apply IH.
    + by eapply decayed_counted.
    + by eapply in_range_decayed.
    + by rewrite (dc_num _ _ D).
    + intros j dj Hj. destruct (decayed_back _ _ _ _ D Hj) as (d1 & Hd1 & u & -> & _). exact (Hall j d1 Hd1).
  - cbn [sweep_loop]. rewrite Ht. cbn [negb]. unfold next_id. run_refl. by apply IH.
Qed.

(** C32: a clock sweep returns. While some buffer can be taken - it is invalid or
    nobody pins it - and no other worker keeps its lock, the sweep stops within
    [USE_COUNT_MAX] rounds over the pool, with a buffer that can be taken, locked for
    writing; on the way it only lowers use counts, and the next sweep starts
    behind the buffer found. *)
Theorem ClockSweep_finds_victim id0 d0 fuel s :
  (forall n, try_lock n id0 = true) -> in_range s -> 0 <= start s < bufferNum s ->
  (forall id d, bufferDesc s !! id = Some d -> 0 <= usedCnt d <= USE_COUNT_MAX) ->
  bufferDesc s !! id0 = Some d0 -> isValid d0 = BVF_INVALID \/ refCnt d0 = 0 ->
  USE_COUNT_MAX * bufferNum s <= Z.of_nat fuel ->
  exists r d s', ClockSweep fuel s = Some (r, s') /\
    bufferDesc s' !! r = Some d /\ (isValid d = BVF_INVALID \/ refCnt d = 0) /\
    decayed s s' /\ start s' = (r + 1) mod bufferNum s /\ locks s' = (r, BUF_WRITE) :: locks s.
Proof.
  intros Htry Hr Hst Hc Hd Hev Hf.
  destruct (ClockSweep_run id0 d0 fuel s Htry) as (r & s' & Hrun & (d & Hd' & Hev') & D & _ & Hn & Hlk);
    try done; [by intros id d Hid; destruct (Hc id d Hid)|by destruct (Hc id0 d0 Hd)|].
  by exists r, d, s'.
Qed.

(** With every buffer valid and pinned the sweep never returns, however long
    it runs; the error after it ("victim is not found") is never reported. *)
Theorem ClockSweep_spins fuel s :
  in_range s -> 0 <= start s < bufferNum s ->
  (forall id d, bufferDesc s !! id = Some d ->
     isValid d <> BVF_INVALID /\ refCnt d <> 0 /\ 0 <= usedCnt d) ->
  ClockSweep fuel s = None.
Proof.
  intros Hr Hst Hall. unfold ClockSweep. run_refl. apply sweep_loop_spins; try done.
  - intros id d Hd. by destruct (Hall id d Hd) as (_ & _ & ?).
  - intros id d Hd. by destruct (Hall id d Hd) as (? & ? & _).
Qed.

(** ** Keeping the invariant *)

Lemma mapped s M l id d :
  pool_ok s M l -> bufferDesc s !! id = Some d -> isValid d <> BVF_INVALID -> M !! bufferTag d = Some id.
Proof. intros O Hd Hv. apply (po_map _ _ _ O). eauto. Qed.

Lemma mapped_desc s M l tag id :
  pool_ok s M l -> M !! tag = Some id ->
  exists d, bufferDesc s !! id = Some d /\ bufferTag d = tag /\ isValid d <> BVF_INVALID.
Proof. intros O. apply (po_map _ _ _ O). Qed.

Lemma zero_unmapped s M l : pool_ok s M l -> M !! zero_tag = None.
Proof.
  intros O. destruct (M !! zero_tag) as [id|] eqn:Hm; [|done]. by destruct (po_tags _ _ _ O _ _ Hm).
Qed.

(** Buffer [id] becomes invalid and its tag leaves the map. *)
Lemma ok_reset s s1 M l l1 id d d1 :
  pool_ok s M l -> bufferDesc s !! id = Some d -> bufferDesc s1 = <[id := d1]> (bufferDesc s) ->
  isValid d1 = BVF_INVALID -> isDirty d1 <> BUFFER_DITRY -> 0 <= refCnt d1 < 2 ^ 31 ->
  0 <= usedCnt d1 <= USE_COUNT_MAX -> (isValid d = BVF_INVALID -> M !! bufferTag d = None) ->
  trep (table s1) (bufferNum s) (delete (bufferTag d) M) ->
  free_chain (freeList s1) 0 l1 -> NoDup l1 -> id ∉ l1 -> (forall j, j ∈ l1 -> j ∈ l) ->
  bufferNum s1 = bufferNum s -> bufferPool s1 = bufferPool s -> start s1 = start s ->
  (forall tag, tag <> bufferTag d \/ M !! tag = None -> files s1 !! tag = files s !! tag) ->
  pool_ok s1 (delete (bufferTag d) M) l1.
Proof.
  intros O Hd E Hv Hdt Hr Hu Hinv Ht Hch Hnd Hid Hsub En Eb Es Ef. destruct O.
  assert (forall j dj, j <> id -> bufferDesc s !! j = Some dj -> isValid dj <> BVF_INVALID ->
    bufferTag dj <> bufferTag d) as Hdiff.
  { intros j dj Hne Hj Hvj Heq. assert (M !! bufferTag dj = Some j) as H1 by (apply po_map0; eauto).
    rewrite Heq in H1. destruct (decide (isValid d = BVF_INVALID)) as [Hi|Hi]; [by rewrite Hinv in H1|].
    assert (M !! bufferTag d = Some id) as H2 by (apply po_map0; eauto). congruence. }
  split; rewrite ?En, ?Eb, ?Es; try done.
  - intros j. rewrite E, lookup_insert_is_Some, <- po_desc0. split; [|by destruct (decide (id = j)); auto].
    intros [->|[_ Hj]]; [eauto|done].
  - intros tag j. rewrite lookup_delete_Some, po_map0, E. split.
    + intros (Hne & dj & Hj & Htj & Hvj). exists dj. rewrite lookup_insert_ne; [done|].
      intros ->. congruence.
    + intros (dj & Hj & Htj & Hvj). destruct (decide (j = id)) as [->|Hne].
      { rewrite lookup_insert_eq in Hj. by simplify_eq. }
      rewrite lookup_insert_ne in Hj by done. split; [|eauto]. rewrite <- Htj.
      intros Heq. by apply (Hdiff j dj).
  - intros tag j Hj. apply lookup_delete_Some in Hj as [_ Hj]. by apply (po_tags0 tag j).
  - intros j dj Hj. rewrite E in Hj. destruct (decide (j = id)) as [->|].
    + rewrite lookup_insert_eq in Hj. by simplify_eq.
    + rewrite lookup_insert_ne in Hj by done. by apply (po_counts0 j).
  - intros j Hj. destruct (po_freed0 j (Hsub j Hj)) as (H0 & dj & Hdj & Hx). split; [done|].
    exists dj. rewrite E, lookup_insert_ne; [done|]. by intros ->.
  - intros j dj Hj Hvj. rewrite E in Hj. destruct (decide (j = id)) as [->|].
    + rewrite lookup_insert_eq in Hj. by simplify_eq.
    + rewrite lookup_insert_ne in Hj by done. by apply (po_dirty0 j).
  - intros j dj Hj Hvj Hrj. rewrite E in Hj. destruct (decide (j = id)) as [->|Hne].
    { rewrite lookup_insert_eq in Hj. simplify_eq. congruence. }
    rewrite lookup_insert_ne in Hj by done.
    destruct (po_evict0 j dj Hj Hvj Hrj) as (b & Hb & Hcase). exists b. rewrite Eb. split; [done|].
    case_decide; [done|]. rewrite Ef; [done|]. left. apply (Hdiff j); congruence.
Qed.

(** Buffer [id], invalid so far, gets a tag. *)
Lemma ok_assign s s1 M l id d d1 :
  pool_ok s M l -> bufferDesc s !! id = Some d -> isValid d = BVF_INVALID -> id ∉ l ->
  bufferDesc s1 = <[id := d1]> (bufferDesc s) ->
  isValid d1 = BVF_TAG -> isDirty d1 <> BUFFER_DITRY -> 0 <= refCnt d1 < 2 ^ 31 ->
  0 <= usedCnt d1 <= USE_COUNT_MAX -> M !! bufferTag d1 = None -> tag_ok (bufferTag d1) ->
  bufferTag d1 <> zero_tag -> trep (table s1) (bufferNum s) (<[bufferTag d1 := id]> M) ->
  bufferNum s1 = bufferNum s -> bufferPool s1 = bufferPool s -> start s1 = start s ->
  files s1 = files s -> freeList s1 = freeList s ->
  pool_ok s1 (<[bufferTag d1 := id]> M) l.
Proof.
  intros O Hd Hvd Hid E Hv Hdt Hr Hu Hm Htok Htz Ht En Eb Es Ef El. destruct O.
  split; rewrite ?En, ?Eb, ?Es, ?El; try done.
  - intros j. rewrite E, lookup_insert_is_Some, <- po_desc0. split; [|by destruct (decide (id = j)); auto].
    intros [->|[_ Hj]]; [eauto|done].
  - intros tag j. rewrite E. destruct (decide (tag = bufferTag d1)) as [->|Hne].
    + rewrite lookup_insert_eq. split.
      * intros [= ->]. exists d1. rewrite lookup_insert_eq. split_and!; congruence.
      * intros (dj & Hj & Htj & Hvj). destruct (decide (j = id)) as [->|Hj']; [done|].
        rewrite lookup_insert_ne in Hj by done.
        assert (M !! bufferTag d1 = Some j) by (apply po_map0; eauto). congruence.
    + rewrite lookup_insert_ne, po_map0 by done. split.
      * intros (dj & Hj & Htj & Hvj). exists dj. rewrite lookup_insert_ne; [done|]. intros ->. congruence.
      * intros (dj & Hj & Htj & Hvj). exists dj. destruct (decide (j = id)) as [->|Hj'].
        { rewrite lookup_insert_eq in Hj. congruence. }
        by rewrite lookup_insert_ne in Hj.
  - intros tag j Hj. apply lookup_insert_Some in Hj as [[<- _]|[_ Hj]]; [done|by apply (po_tags0 tag j)].
  - intros j dj Hj. rewrite E in Hj. apply lookup_insert_Some in Hj as [[_ <-]|[_ Hj]]; [done|].
    by apply (po_counts0 j).
  - intros j Hj. destruct (po_freed0 j Hj) as (H0 & dj & Hdj & Hx). split; [done|].
    exists dj. rewrite E, lookup_insert_ne; [done|]. by intros ->.
  - intros j dj Hj Hvj. rewrite E in Hj. apply lookup_insert_Some in Hj as [[_ <-]|[_ Hj]]; [done|].
    by apply (po_dirty0 j).
  - intros j dj Hj Hvj Hrj. rewrite E in Hj. apply lookup_insert_Some in Hj as [[_ <-]|[_ Hj]]; [congruence|].
    unfold evict_ok. rewrite Eb, Ef. by apply (po_evict0 j dj).
Qed.

(** Buffer [id], in use, keeps its tag. *)
Lemma ok_touch s s1 M l id d d1 :
  pool_ok s M l -> bufferDesc s !! id = Some d -> isValid d <> BVF_INVALID ->
  bufferDesc s1 = <[id := d1]> (bufferDesc s) ->
  isValid d1 <> BVF_INVALID -> bufferTag d1 = bufferTag d -> 0 <= refCnt d1 < 2 ^ 31 ->
  0 <= usedCnt d1 <= USE_COUNT_MAX -> (isValid d1 <> BVF_VLID -> isDirty d1 <> BUFFER_DITRY) ->
  (isValid d1 = BVF_VLID -> refCnt d1 = 0 -> evict_ok s1 id d1) ->
  (forall j, j <> id -> bufferPool s1 !! j = bufferPool s !! j) -> is_Some (bufferPool s1 !! id) ->
  table s1 = table s -> bufferNum s1 = bufferNum s -> start s1 = start s ->
  files s1 = files s -> freeList s1 = freeList s ->
  pool_ok s1 M l.
Proof.
  intros O Hd Hvd E Hv Htag Hr Hu Hdt Hev Hbuf Hbid Et En Es Ef El. destruct O.
  split; rewrite ?En, ?Et, ?Es, ?El; try done.
  - intros j. rewrite E, lookup_insert_is_Some, <- po_desc0. split; [|by destruct (decide (id = j)); auto].
    intros [->|[_ Hj]]; [eauto|done].
  - intros j Hj. destruct (decide (j = id)) as [->|Hne]; [done|]. rewrite Hbuf by done. by apply po_buf0.
  - intros tag j. rewrite po_map0, E. split; intros (dj & Hj & Htj & Hvj).
    + destruct (decide (j = id)) as [->|Hne].
      * exists d1. rewrite lookup_insert_eq. split_and!; [done|congruence|done].
      * exists dj. by rewrite lookup_insert_ne.
    + apply lookup_insert_Some in Hj as [[<- <-]|[Hne Hj]]; [|eauto].
      exists d. split_and!; [done|congruence|done].
  - intros j dj Hj. rewrite E in Hj. apply lookup_insert_Some in Hj as [[_ <-]|[_ Hj]]; [done|].
    by apply (po_counts0 j).
  - intros j Hj. destruct (po_freed0 j Hj) as (H0 & dj & Hdj & Hvj & Hx). split; [done|].
    exists dj. rewrite E, lookup_insert_ne; [done|]. intros ->. congruence.
  - intros j dj Hj Hvj. rewrite E in Hj. apply lookup_insert_Some in Hj as [[_ <-]|[_ Hj]]; [by apply Hdt|].
    by apply (po_dirty0 j).
  - intros j dj Hj Hvj Hrj. rewrite E in Hj. apply lookup_insert_Some in Hj as [[<- <-]|[Hne Hj]]; [by apply Hev|].
    unfold evict_ok. rewrite Hbuf, Ef by done. by apply (po_evict0 j dj).
Qed.

Lemma length_zrange n : 0 <= n -> Z.of_nat (length (zrange n)) = n.
Proof. intros. unfold zrange. rewrite length_fmap, length_seq. lia. Qed.

(** While some buffer is invalid the map has room for one more. *)
Lemma map_room s M l id d :
  pool_ok s M l -> bufferDesc s !! id = Some d -> isValid d = BVF_INVALID -> Z.of_nat (size M) < bufferNum s.
Proof.
  intros O Hd Hv. pose proof (po_num _ _ _ O) as [Hn _]. unfold BUFFER_MIN_NUM in Hn.
  assert (NoDup (id :: (map_to_list M).*2)) as Hnd.
  { constructor.
    - intros ((tag & j) & Hj & Hin)%list_elem_of_fmap. simpl in Hj. subst j.
      apply elem_of_map_to_list in Hin. destruct (mapped_desc _ _ _ _ _ O Hin) as (d' & Hd' & _ & Hv').
      congruence.
    - apply NoDup_fmap_2_strong; [|apply NoDup_map_to_list].
      intros [t1 j1] [t2 j2] H1 H2 Heq. simpl in Heq. subst j2.
      apply elem_of_map_to_list in H1, H2.
      destruct (mapped_desc _ _ _ _ _ O H1) as (d1 & Hd1 & <- & _).
      destruct (mapped_desc _ _ _ _ _ O H2) as (d2 & Hd2 & <- & _). by simplify_eq. }
  assert (id :: (map_to_list M).*2 ⊆+ zrange (bufferNum s)) as Hsub%submseteq_length.
  { apply NoDup_submseteq; [done|]. intros j Hj. apply elem_of_zrange, (po_desc _ _ _ O).
    apply elem_of_cons in Hj as [->|((tag & j') & Hj & Hin)%list_elem_of_fmap]; [eauto|].
    simpl in Hj. subst j'. apply elem_of_map_to_list in Hin.
    destruct (mapped_desc _ _ _ _ _ O Hin) as (d' & Hd' & _). eauto. }
  cbn [length] in Hsub. rewrite length_fmap, length_map_to_list in Hsub.
  pose proof (length_zrange (bufferNum s) ltac:(lia)). lia.
Qed.

(** ** Taking a buffer *)

Lemma free_chain_frame m v i l : free_chain m i l -> i <> 0 -> 0 ∉ l -> free_chain (<[0 := v]> m) i l.
Proof.
  revert i. induction l as [|x l IH]; intros i; cbn [free_chain].
  - intros Hi Hne _. by rewrite lookup_insert_ne.
  - intros [Hi Hc] Hne [H0 Hn]%not_elem_of_cons. rewrite lookup_insert_ne by done.
    split; [done|]. by apply IH.
Qed.

Lemma free_chain_pop m id l :
  free_chain m 0 (id :: l) -> id <> 0 -> 0 ∉ l ->
  exists v, m !! id = Some v /\ free_chain (<[0 := v]> m) 0 l.
Proof.
  intros [_ Hc] Hid H0. destruct l as [|x l]; cbn [free_chain] in *.
  - exists Free_List_End. by rewrite lookup_insert_eq.
  - destruct Hc as [Hx Hc]. exists x. rewrite lookup_insert_eq. apply not_elem_of_cons in H0 as [Hx0 H0].
    split_and!; [done|done|]. by apply free_chain_frame.
Qed.

Record taken (s s1 : P) (M M1 : gmap BufferTag Z) (l1 : list Z) (id : Z) : Prop := {
  tk_ok : pool_ok s1 M1 l1;
  tk_free : id ∉ l1;
  tk_desc : exists d, bufferDesc s1 !! id = Some d /\ isValid d = BVF_INVALID /\ refCnt d = 1 /\
    usedCnt d = USE_COUNT_MAX;
  tk_was : exists d, bufferDesc s !! id = Some d /\ refCnt d = 0;
  tk_sub tag j : M1 !! tag = Some j <-> M !! tag = Some j /\ j <> id;
  tk_other j d : j <> id -> bufferDesc s !! j = Some d -> exists d', bufferDesc s1 !! j = Some d' /\ aged d d';
  tk_back j d' : j <> id -> bufferDesc s1 !! j = Some d' -> exists d, bufferDesc s !! j = Some d /\ aged d d';
  tk_buf : bufferPool s1 = bufferPool s;
  tk_view tag : view s1 M1 tag = view s M tag;
  tk_num : bufferNum s1 = bufferNum s;
  tk_locks : locks s1 = (id, BUF_WRITE) :: locks s
}.

Lemma GetFreeBufferId_nil s M : pool_ok s M [] -> GetFreeBufferId s = Some (INVLID_BUFFER, s).
Proof.
  intros O. destruct (po_free _ _ _ O) as [Hc _]. cbn [free_chain] in Hc.
  unfold GetFreeBufferId. by run (get_free_run 0 _ s Hc).
Qed.

(** The head of the free list, taken off. *)
Lemma GetFreeBufferId_cons s M id l d :
  pool_ok s M (id :: l) -> bufferDesc s !! id = Some d ->
  exists m, GetFreeBufferId s =
      Some (id, set_descs (<[id := with_infree 0 d]> (bufferDesc s)) (set_free m s)) /\
    free_chain m 0 l.
Proof.
  intros O Hd. destruct (po_free _ _ _ O) as [Hc Hnd].
  destruct (po_freed _ _ _ O id) as (H0 & d' & Hd' & Hv & Hr); [apply elem_of_cons; by left|]. simplify_eq.
  assert (0 ∉ l) as H0l.
  { intros Hin. destruct (po_freed _ _ _ O 0) as [? _]; [apply elem_of_cons; by right|]. lia. }
  destruct (free_chain_pop _ _ _ Hc ltac:(lia) H0l) as (v & Hv' & Hch).
  exists (<[0 := v]> (freeList s)). split; [|done]. destruct Hc as [Hh _].
  unfold GetFreeBufferId. run (get_free_run 0 _ s Hh). cbn [free_loop].
  rewrite (proj2 (Z.eqb_neq id Free_List_End)) by (unfold Free_List_End; lia).
  run (get_free_run 0 _ s Hh). run (get_free_run id _ s Hv'). run_refl.
  set (s1 := set_free _ s). assert (bufferDesc s1 !! id = Some d) as Hd1 by done.
  run (modify_desc_run id (with_infree 0) d s1 Hd1). set (s2 := set_descs _ s1).
  assert (bufferDesc s2 !! id = Some (with_infree 0 d)) as Hd2 by apply lookup_insert_eq.
  run (get_desc_run id _ s2 Hd2). cbn [refCnt with_infree]. by rewrite Hr.
Qed.

Definition pinned_once (d : BufferDesc) : BufferDesc :=
  with_ref (u32 (refCnt d + 1)) (with_used USE_COUNT_MAX d).

Lemma PinBuffer_run id d s :
  bufferDesc s !! id = Some d ->
  PinBuffer id s = Some (tt, set_descs (<[id := pinned_once d]> (bufferDesc s)) s).
Proof. apply modify_desc_run. Qed.

Lemma aged_self d M s l id : pool_ok s M l -> bufferDesc s !! id = Some d -> aged d d.
Proof. intros O Hd. apply aged_refl. destruct (po_counts _ _ _ O id d Hd). lia. Qed.

Lemma take_free sf s M id l :
  pool_ok s M (id :: l) ->
  (forall j d, bufferDesc s !! j = Some d -> isValid d = BVF_INVALID -> refCnt d = 0 /\ bufferTag d = zero_tag) ->
  exists s1, take_buffer sf s = Some (id, s1) /\ taken s s1 M M l id.
Proof.
  intros O Hz. destruct (po_freed _ _ _ O id) as (H0 & d & Hd & Hv & Hr); [apply elem_of_cons; by left|].
  destruct (GetFreeBufferId_cons s M id l d O Hd) as (m & Hget & Hch).
  destruct (po_free _ _ _ O) as [_ [Hidl Hnd]%NoDup_cons].
  unfold take_buffer. run Hget. set (s1 := set_descs _ _).
  rewrite (proj2 (Z.eqb_neq id INVLID_BUFFER)) by (unfold INVLID_BUFFER; lia). cbn [negb].
  run_refl. set (s2 := set_locks _ s1).
  assert (bufferDesc s2 !! id = Some (with_infree 0 d)) as Hd2 by apply lookup_insert_eq.
  run (PinBuffer_run id _ s2 Hd2). set (d3 := pinned_once _). set (s3 := set_descs _ s2).
  assert (bufferDesc s3 = <[id := d3]> (bufferDesc s)) as E3 by (simpl; apply insert_insert_eq).
  assert (refCnt d3 = 1) as Hr3 by (unfold d3; simpl; by rewrite Hr).
  destruct (Hz id d Hd Hv) as [_ Htag]. pose proof (zero_unmapped _ _ _ O) as Hzm.
  assert (M = delete (bufferTag d) M) as HM by (rewrite Htag, delete_id by done; done).
  exists s3. split; [done|]. split.
  - rewrite HM. apply (ok_reset s s3 M (id :: l) l id d d3 O Hd E3); try done.
    + apply (po_dirty _ _ _ O id d Hd). congruence.
    + lia.
    + by rewrite Htag.
    + rewrite <- HM. apply (po_table _ _ _ O).
    + intros j Hj. apply elem_of_cons. by right.
  - done.
  - exists d3. rewrite E3, lookup_insert_eq. by split_and!.
  - by exists d.
  - intros tag j. split; [|by intros []]. intros Hj. split; [done|]. intros ->.
    destruct (mapped_desc _ _ _ _ _ O Hj) as (d' & Hd' & _ & Hv'). congruence.
  - intros j dj Hne Hj. exists dj. rewrite E3, lookup_insert_ne by done. split; [done|].
    by eapply aged_self.
  - intros j dj Hne Hj. rewrite E3, lookup_insert_ne in Hj by done. exists dj. split; [done|].
    by eapply aged_self.
  - done.
  - intros tag. unfold view. rewrite E3. destruct (M !! tag) as [j|] eqn:Hj; [|done].
    rewrite lookup_insert_ne; [done|]. intros <-.
    destruct (mapped_desc _ _ _ _ _ O Hj) as (d' & Hd' & _ & Hv'). congruence.
  - done.
  - done.
Qed.

(** Writing a page whose header holds its own number. *)
Lemma WritePage_run tag id b d s :
  bufferPool s !! id = Some b -> pageNum b = Some (pageno tag) -> bufferDesc s !! id = Some d ->
  WritePage tag id s =
    Some (tt, set_descs (<[id := with_dirty BUFFER_CLEAN d]> (bufferDesc s))
                (set_files (<[tag := b]> (files s)) s)).
Proof.
  intros Hb Hn Hd. unfold WritePage.
  assert (get_buffer id s = Some (b, s)) as Hg by (unfold get_buffer; by rewrite Hb).
  run Hg.
  assert (TableWrite tag b s = Some (tt, set_files (<[tag := b]> (files s)) s)) as Hw.
  { unfold TableWrite. rewrite Hn. simpl. by destruct tag. }
  run Hw. exact (modify_desc_run id _ d (set_files _ s) Hd).
Qed.

(** Writing back a dirty buffer before it is emptied. *)
Lemma flush_run s M l id d :
  pool_ok s M l -> bufferDesc s !! id = Some d -> refCnt d = 0 ->
  let dp := pinned_once d in let sp := set_descs (<[id := dp]> (bufferDesc s)) s in
  exists s2 d2, (if isDirty dp =? BUFFER_DITRY then FlushPage (bufferTag dp) id else mret tt) sp = Some (tt, s2) /\
    bufferDesc s2 = <[id := d2]> (bufferDesc s) /\ refCnt d2 = 1 /\ usedCnt d2 = USE_COUNT_MAX /\
    isDirty d2 <> BUFFER_DITRY /\ table s2 = table s /\ freeList s2 = freeList s /\ start s2 = start s /\
    bufferPool s2 = bufferPool s /\ bufferNum s2 = bufferNum s /\ locks s2 = locks s /\
    (forall tag, tag <> bufferTag d \/ isValid d <> BVF_VLID -> files s2 !! tag = files s !! tag) /\
    (isValid d = BVF_VLID -> files s2 !! bufferTag d = bufferPool s !! id).
Proof.
  intros O Hd Hr dp sp. assert (refCnt dp = 1) as Hr1 by (unfold dp; simpl; by rewrite Hr).
  destruct (Z.eqb_spec (isDirty dp) BUFFER_DITRY) as [Hdt|Hdt].
  - assert (isValid d = BVF_VLID) as Hv.
    { destruct (decide (isValid d = BVF_VLID)) as [|Hv]; [done|].
      by destruct (po_dirty _ _ _ O id d Hd Hv). }
    destruct (po_evict _ _ _ O id d Hd Hv Hr) as (b & Hb & Hn). rewrite decide_True in Hn by exact Hdt.
    eexists. exists (with_dirty BUFFER_CLEAN dp). split.
    { apply (WritePage_run _ _ b dp); [done|exact Hn|apply lookup_insert_eq]. }
    simpl. rewrite insert_insert_eq. split_and!; try done.
    + intros tag [Ht|]; [|done]. by rewrite lookup_insert_ne.
    + intros _. by rewrite lookup_insert_eq.
  - exists sp, dp. split_and!; try done. intros Hv.
    destruct (po_evict _ _ _ O id d Hd Hv Hr) as (b & Hb & Hn).
    rewrite decide_False in Hn by exact Hdt. simpl. by rewrite Hn, Hb.
Qed.

(** Pinning and emptying an unpinned buffer. *)
Lemma clean_run s M l id d :
  pool_ok s M l -> bufferDesc s !! id = Some d -> refCnt d = 0 -> id ∉ l ->
  (isValid d = BVF_INVALID -> bufferTag d = zero_tag) ->
  exists r s1 d1, (PinBuffer id;; CleanPageBuffer id) s = Some (r, s1) /\
    pool_ok s1 (delete (bufferTag d) M) l /\ bufferDesc s1 = <[id := d1]> (bufferDesc s) /\
    isValid d1 = BVF_INVALID /\ refCnt d1 = 1 /\ usedCnt d1 = USE_COUNT_MAX /\
    bufferPool s1 = bufferPool s /\ bufferNum s1 = bufferNum s /\ locks s1 = locks s /\
    (forall tag, tag <> bufferTag d \/ isValid d <> BVF_VLID -> files s1 !! tag = files s !! tag) /\
    (isValid d = BVF_VLID -> files s1 !! bufferTag d = bufferPool s !! id).
Proof.
  intros O Hd Hr Hl Hz.
  destruct (flush_run s M l id d O Hd Hr) as
    (s2 & d2 & Hfl & E2 & Hr2 & Hu2 & Hd2 & Et & El & Es & Eb & En & Elk & Hf1 & Hf2).
  assert (isValid d = BVF_INVALID -> M !! bufferTag d = None) as Hinv
    by (intros Hv; rewrite Hz by done; by apply (zero_unmapped _ _ _ O)).
  assert (tag_ok (bufferTag d)) as Htok.
  { destruct (decide (isValid d = BVF_INVALID)) as [Hv|Hv]; [by rewrite Hz|].
    by apply (po_tags _ _ _ O _ id), (mapped _ _ _ _ _ O). }
  assert (in_i32 id) as Hid.
  { assert (0 <= id < bufferNum s) by (apply (po_desc _ _ _ O); eauto).
    pose proof (po_num _ _ _ O). unfold in_i32. lia. }
  assert (bufferDesc s2 !! id = Some d2) as Hd2' by (rewrite E2; apply lookup_insert_eq).
  set (d3 := with_valid BVF_INVALID d2). set (s3 := set_descs (<[id := d3]> (bufferDesc s2)) s2).
  destruct (tbl_delete_ok (table s2) (bufferNum s) M (bufferTag d) id) as (t' & r & Hdel & Ht');
    [by rewrite Et; apply (po_table _ _ _ O)|done|done|].
  exists r, (set_table t' s3), d3.
  assert (bufferDesc (set_table t' s3) = <[id := d3]> (bufferDesc s)) as E3
    by (simpl; rewrite E2; apply insert_insert_eq).
  split_and!; try done.
  - run (PinBuffer_run id d s Hd). unfold CleanPageBuffer.
    set (sp := set_descs _ s) in *. set (dp := pinned_once d) in *.
    assert (bufferDesc sp !! id = Some dp) as Hdp by apply lookup_insert_eq.
    run (get_desc_run id dp sp Hdp). run Hfl. unfold SetBuffferValid.
    run (modify_desc_run id (with_valid BVF_INVALID) d2 s2 Hd2'). fold d3 s3.
    unfold on_table. change (table s3) with (table s2). change (bufferTag dp) with (bufferTag d).
    by rewrite Hdel.
  - apply (ok_reset s (set_table t' s3) M l l id d d3 O Hd E3); try done; simpl; rewrite ?El, ?Hr2, ?Hu2.
    + lia.
    + unfold USE_COUNT_MAX. lia.
    + apply (po_free _ _ _ O).
    + apply (po_free _ _ _ O).
    + intros tag [Ht|Ht]; apply Hf1; [by left|].
      destruct (decide (tag = bufferTag d)) as [->|]; [|by left]. right. intros Hv.
      assert (M !! bufferTag d = Some id) by (apply (mapped _ _ _ _ _ O); congruence). congruence.
Qed.

(** Some buffer is unpinned and no other worker keeps its lock. *)
Definition spare (s : P) : Prop :=
  exists id d, bufferDesc s !! id = Some d /\ refCnt d = 0 /\ forall n, try_lock n id = true.

Lemma pool_counted s M l : pool_ok s M l -> counted s.
Proof. intros O id d Hd. destruct (po_counts _ _ _ O id d Hd). lia. Qed.

Lemma take_sweep sf s M :
  pool_ok s M [] -> spare s -> USE_COUNT_MAX * bufferNum s <= Z.of_nat sf ->
  (forall j d, bufferDesc s !! j = Some d -> isValid d = BVF_INVALID -> refCnt d = 0 /\ bufferTag d = zero_tag) ->
  exists id s1 M1, take_buffer sf s = Some (id, s1) /\ taken s s1 M M1 [] id.
Proof.
  intros O (i0 & d0 & Hd0 & Hr0 & Htry) Hf Hz.
  destruct (ClockSweep_run i0 d0 sf s Htry) as (id & s0 & Hrun & (dv & Hdv & Hev) & D & Hid & Hst & Hlk);
    [by eapply pool_counted|exact (po_desc _ _ _ O)|exact (po_start _ _ _ O)|done|by right| |done|].
  { destruct (po_counts _ _ _ O i0 d0 Hd0). lia. }
  assert (pool_ok s0 M []) as O0.
  { apply (ok_decayed s); [done|done|]. rewrite Hst, (dc_num _ _ D). apply Z.mod_pos_bound. lia. }
  destruct (decayed_back _ _ _ _ D Hdv) as (d & Hd & Haged). pose proof Haged as (u & -> & Hu).
  assert (refCnt d = 0) as Hr by (destruct Hev as [Hv|]; [by destruct (Hz id d Hd Hv)|done]).
  destruct (clean_run s0 M [] id (with_used u d) O0 Hdv Hr (not_elem_of_nil _)) as
    (r & s1 & d1 & Hcl & O1 & E1 & Hv1 & Hr1 & Hu1 & Eb & En & El & Hf1 & Hf2).
  { intros Hv. by destruct (Hz id d Hd Hv). }
  change (isValid (with_used u d)) with (isValid d) in *. change (bufferTag (with_used u d)) with (bufferTag d) in *.
  exists id, s1, (delete (bufferTag d) M). split.
  { unfold take_buffer. run (GetFreeBufferId_nil s M O). rewrite Z.eqb_refl. cbn [negb].
    run Hrun. destruct (st_bind_inv _ _ _ _ Hcl) as ([] & sp & Hp & Hc). run Hp. by run Hc. }
  split.
  - exact O1.
  - apply not_elem_of_nil.
  - exists d1. rewrite E1, lookup_insert_eq. by split_and!.
  - by exists d.
  - intros tag j. rewrite lookup_delete_Some. split; intros [H1 H2].
    + split; [done|]. intros ->. destruct (mapped_desc _ _ _ _ _ O H2) as (d' & Hd' & Ht & _). congruence.
    + split; [|done]. intros <-. destruct (mapped_desc _ _ _ _ _ O H1) as (d' & Hd' & Ht & Hv').
      destruct (decide (isValid d = BVF_INVALID)) as [Hv|Hv].
      * destruct (Hz id d Hd Hv) as [_ Hzt]. rewrite Hzt, (zero_unmapped _ _ _ O) in H1. done.
      * pose proof (mapped _ _ _ _ _ O Hd Hv). congruence.
  - intros j dj Hne Hj. rewrite E1, lookup_insert_ne by done. by eapply decayed_lookup.
  - intros j dj Hne Hj. rewrite E1, lookup_insert_ne in Hj by done. by eapply decayed_back.
  - by rewrite Eb, (dc_buf _ _ D).
  - intros tag. rewrite <- (view_decayed s s0 M tag D). unfold view. rewrite Eb, E1.
    destruct (decide (tag = bufferTag d)) as [->|Hne].
    + rewrite lookup_delete_eq. destruct (decide (isValid d = BVF_VLID)) as [Hv|Hv].
      * rewrite (mapped s M [] id d O Hd) by congruence.
        rewrite Hdv. cbn [mbind option_bind isValid with_used]. rewrite decide_True by done. by apply Hf2.
      * rewrite Hf1 by (by right). destruct (M !! bufferTag d) as [j|] eqn:Hj; [|done].
        destruct (mapped_desc _ _ _ _ _ O Hj) as (d' & Hd' & Ht & Hv').
        destruct (decide (isValid d = BVF_INVALID)) as [Hi|Hi].
        { destruct (Hz id d Hd Hi) as [_ Hzt]. rewrite Hzt, (zero_unmapped _ _ _ O) in Hj. done. }
        assert (j = id) as ->.
        { pose proof (mapped _ _ _ _ _ O Hd Hi). congruence. }
        rewrite Hdv. cbn [mbind option_bind isValid with_used]. by rewrite decide_False.
    + rewrite lookup_delete_ne, Hf1 by (done || by left). destruct (M !! tag) as [j|] eqn:Hj; [|done].
      destruct (mapped_desc _ _ _ _ _ O Hj) as (d' & Hd' & Ht & Hv').
      rewrite lookup_insert_ne; [done|]. intros <-. congruence.
  - by rewrite En, (dc_num _ _ D).
  - by rewrite El.
Qed.

Lemma take_run sf s M :
  pool_inv s M -> spare s -> USE_COUNT_MAX * bufferNum s <= Z.of_nat sf ->
  exists id s1 M1 l1, take_buffer sf s = Some (id, s1) /\ taken s s1 M M1 l1 id.
Proof.
  intros [[l O] Hz] Hsp Hf. destruct l as [|id l].
  - destruct (take_sweep sf s M O Hsp Hf Hz) as (id & s1 & M1 & Hrun & Tk). by exists id, s1, M1, [].
  - destruct (take_free sf s M id l O Hz) as (s1 & Hrun & Tk). by exists id, s1, M, l.
Qed.

(** ** AllocBuffer *)

Lemma ok_shell s s' M l :
  pool_ok s M l -> bufferDesc s' = bufferDesc s -> bufferNum s' = bufferNum s ->
  freeList s' = freeList s -> bufferPool s' = bufferPool s -> files s' = files s -> start s' = start s ->
  trep (table s') (bufferNum s) M -> pool_ok s' M l.
Proof. intros [] E1 E2 E3 E4 E5 E6 Ht. split; unfold evict_ok; rewrite ?E1, ?E2, ?E3, ?E4, ?E5, ?E6; done. Qed.

Lemma SearchBuffer_run s M l tag :
  pool_ok s M l -> tag_ok tag ->
  exists t', SearchBuffer tag s = Some (default INVLID_BUFFER (M !! tag), set_table t' s) /\
    trep t' (bufferNum s) M.
Proof.
  intros O Ht. destruct (tbl_find_ok (table s) (bufferNum s) M tag (po_table _ _ _ O) Ht) as (t' & Hf & Ht').
  exists t'. split; [|done]. unfold SearchBuffer.
  assert (on_table (tbl_find tag) s = Some (M !! tag, set_table t' s)) as Hon by (unfold on_table; by rewrite Hf).
  by run Hon.
Qed.

(** The state in which [recheck] leaves a buffer that holds the page. *)
Definition rechecked (id : Z) (d : BufferDesc) (s : P) : P :=
  set_descs (<[id := pinned_once d]> (bufferDesc s))
    (if decide (isValid d = BVF_TAG) then set_locks ((id, BUF_WRITE) :: locks s) s else s).

Lemma recheck_run id d s :
  bufferDesc s !! id = Some d -> isValid d <> BVF_INVALID ->
  recheck (bufferTag d) id s =
    Some (Some (if decide (isValid d = BVF_TAG) then BUFFER_EMPTY else BUFFER_FOUND), rechecked id d s).
Proof.
  intros Hd Hv. unfold recheck, rechecked. run_refl. set (s2 := set_locks _ s).
  assert (bufferDesc s2 !! id = Some d) as Hd2 by done. run (PinBuffer_run id d s2 Hd2).
  set (s3 := set_descs _ s2).
  assert (bufferDesc s3 !! id = Some (pinned_once d)) as Hd3 by apply lookup_insert_eq.
  run (get_desc_run id _ s3 Hd3). change (bufferTag (pinned_once d)) with (bufferTag d).
  change (isValid (pinned_once d)) with (isValid d).
  rewrite bool_decide_true, bool_decide_false by done. cbn [andb negb].
  destruct (decide (isValid d = BVF_TAG)); [done|]. run_refl.
  apply st_ret_eq; [done|]. unfold set_locks. simpl. rewrite decide_True by done. done.
Qed.

Lemma AllocBuffer_found fuel sf s M l tag id d :
  pool_ok s M l -> tag_ok tag -> M !! tag = Some id -> bufferDesc s !! id = Some d ->
  exists t', trep t' (bufferNum s) M /\
    AllocBuffer (S fuel) sf tag s =
      Some (Some id, if decide (isValid d = BVF_TAG) then BUFFER_EMPTY else BUFFER_FOUND,
            rechecked id d (set_table t' s)).
Proof.
  intros O Ht Hm Hd. destruct (SearchBuffer_run s M l tag O Ht) as (t' & Hs & Ht'). exists t'. split; [done|].
  rewrite Hm in Hs. change (default INVLID_BUFFER (Some id)) with id in Hs.
  unfold AllocBuffer. run Hs. cbn [AllocBuffer_loop].
  assert (0 <= id) as Hid by (apply (po_desc _ _ _ O id); eauto).
  rewrite (proj2 (Z.eqb_neq id INVLID_BUFFER)) by (unfold INVLID_BUFFER; lia). cbn [negb].
  destruct (mapped_desc _ _ _ _ _ O Hm) as (d' & Hd' & <- & Hv).
  assert (d' = d) as -> by congruence. by run (recheck_run id d (set_table t' s) Hd Hv).
Qed.

(** A buffer that was unpinned, with the page's tag and locked for loading. *)
Record assigned (s s2 : P) (M M2 : gmap BufferTag Z) (tag : BufferTag) (id : Z) : Prop := {
  as_ok : exists l, pool_ok s2 M2 l;
  as_map : M2 !! tag = Some id;
  as_desc : exists d, bufferDesc s2 !! id = Some d /\ isValid d = BVF_TAG /\ bufferTag d = tag /\ refCnt d = 1;
  as_was : exists d, bufferDesc s !! id = Some d /\ refCnt d = 0;
  as_other j d : j <> id -> bufferDesc s !! j = Some d -> exists d', bufferDesc s2 !! j = Some d' /\ aged d d';
  as_back j d' : j <> id -> bufferDesc s2 !! j = Some d' -> exists d, bufferDesc s !! j = Some d /\ aged d d';
  as_buf : bufferPool s2 = bufferPool s;
  as_view t : view s2 M2 t = view s M t;
  as_num : bufferNum s2 = bufferNum s;
  as_locks : locks s2 = (id, BUF_WRITE) :: locks s
}.

Definition tagged (tag : BufferTag) (d : BufferDesc) : BufferDesc :=
  with_dirty BUFFER_CLEAN (with_tag tag (with_valid BVF_TAG d)).

Lemma AllocBuffer_new fuel sf s M tag :
  pool_inv s M -> tag_ok tag -> tag <> zero_tag -> M !! tag = None -> spare s ->
  USE_COUNT_MAX * bufferNum s <= Z.of_nat sf ->
  exists id s2 M2, AllocBuffer (S fuel) sf tag s = Some (Some id, BUFFER_EMPTY, s2) /\
    assigned s s2 M M2 tag id.
Proof.
  intros [[l O] Hz] Ht Htz Hm Hsp Hf. destruct (SearchBuffer_run s M l tag O Ht) as (t' & Hs & Ht').
  rewrite Hm in Hs. change (default INVLID_BUFFER None) with INVLID_BUFFER in Hs.
  set (s0 := set_table t' s) in *.
  assert (pool_ok s0 M l) as O0 by by apply (ok_shell s).
  destruct (take_run sf s0 M) as (id & s1 & M1 & l1 & Htake & Tk); [split; [by exists l|exact Hz]|done|done|].
  destruct Tk as [O1 Hfree (d & Hd & Hv & Hr & Hu) Hwas Hsub Hoth Hback Hbuf Hview Hnum Hlk].
  assert (M1 !! tag = None) as Hm1.
  { destruct (M1 !! tag) as [j|] eqn:Hj; [|done]. apply Hsub in Hj as [Hj _]. congruence. }
  pose proof (map_room _ _ _ _ _ O1 Hd Hv) as Hroom.
  assert (0 <= id < bufferNum s1) as Hid by (apply (po_desc _ _ _ O1); eauto).
  assert (in_i32 id) as Hid32 by (pose proof (po_num _ _ _ O1); unfold in_i32; lia).
  set (s2 := set_descs (<[id := tagged tag d]> (bufferDesc s1)) s1).
  destruct (tbl_insert_ok (table s1) (bufferNum s1) M1 tag id (po_table _ _ _ O1) Ht Hid32) as (t2 & Hins & Ht2).
  rewrite Hm1, (proj2 (Z.ltb_lt _ _)) in Hins, Ht2 by done.
  exists id, (set_table t2 s2), (<[tag := id]> M1). split.
  - unfold AllocBuffer. run Hs. cbn [AllocBuffer_loop]. rewrite Z.eqb_refl. cbn [negb]. run_refl.
    run Htake. run (get_desc_run id d s1 Hd). rewrite decide_True by done. unfold SetBuffferValid.
    run (modify_desc_run id (with_valid BVF_TAG) d s1 Hd). set (sa := set_descs _ s1).
    assert (bufferDesc sa !! id = Some (with_valid BVF_TAG d)) as Ha by apply lookup_insert_eq.
    run (modify_desc_run id (with_tag tag) _ sa Ha). set (sb := set_descs _ sa).
    assert (bufferDesc sb !! id = Some (with_tag tag (with_valid BVF_TAG d))) as Hb by apply lookup_insert_eq.
    run (modify_desc_run id (with_dirty BUFFER_CLEAN) _ sb Hb). fold (tagged tag d).
    set (sc := set_descs _ sb).
    assert (sc = s2) as -> by (unfold sc, sb, sa, s2, set_descs; simpl; by rewrite !insert_insert_eq).
    assert (on_table (tbl_insert tag id) s2 = Some (Some id, HASH_INSERT, set_table t2 s2)) as Hon
      by (unfold on_table; change (table s2) with (table s1); by rewrite Hins).
    by run Hon.
  - split.
    + exists l1. apply (ok_assign s1 _ M1 l1 id d (tagged tag d) O1 Hd Hv Hfree); try done; simpl;
        unfold USE_COUNT_MAX in *; lia.
    + apply lookup_insert_eq.
    + exists (tagged tag d). split; [apply lookup_insert_eq|done].
    + exact Hwas.
    + intros j dj Hne Hj. simpl. rewrite lookup_insert_ne by done. by apply Hoth.
    + intros j dj Hne Hj. simpl in Hj. rewrite lookup_insert_ne in Hj by done. by apply Hback.
    + exact Hbuf.
    + intros t. change (view s M t) with (view s0 M t). rewrite <- Hview. unfold view. simpl.
      destruct (decide (t = tag)) as [->|Hne].
      * by rewrite !lookup_insert_eq, Hm1.
      * rewrite lookup_insert_ne by done. destruct (M1 !! t) as [j|] eqn:Hj; [|done].
        rewrite lookup_insert_ne; [done|]. intros <-. by apply Hsub in Hj as [_ ?].
    + exact Hnum.
    + exact Hlk.
Qed.

(** ** ReadPage *)

Lemma aged_fields d d' :
  aged d d' -> bufferTag d' = bufferTag d /\ isValid d' = isValid d /\ refCnt d' = refCnt d /\
    isDirty d' = isDirty d.
Proof. by intros (u & -> & _). Qed.

(** What a read leaves of another page's or caller's pin. *)
Definition kept (s s' : P) (r : option Z) : Prop :=
  forall j d, bufferDesc s !! j = Some d -> exists d', bufferDesc s' !! j = Some d' /\
    refCnt d' = refCnt d + (if decide (r = Some j) then 1 else 0) /\
    (refCnt d <> 0 -> isValid d = BVF_VLID ->
       bufferTag d' = bufferTag d /\ isValid d' = BVF_VLID /\ bufferPool s' !! j = bufferPool s !! j).

Lemma load_page_run s M l tag id d L :
  pool_ok s M l -> bufferDesc s !! id = Some d -> isValid d = BVF_TAG -> bufferTag d = tag -> 0 < refCnt d ->
  locks s = (id, BUF_WRITE) :: L ->
  exists s', load_page tag id s = Some (match files s !! tag with Some _ => Some id | None => None end, s') /\
    pool_ok s' M l /\ locks s' = L /\ (forall t, view s' M t = view s M t) /\
    files s' = files s /\ bufferNum s' = bufferNum s /\
    (forall j, j <> id -> bufferDesc s' !! j = bufferDesc s !! j /\ bufferPool s' !! j = bufferPool s !! j) /\
    match files s !! tag with
    | Some b => bufferDesc s' !! id = Some (with_valid BVF_VLID d) /\ bufferPool s' !! id = Some b
    | None => bufferDesc s' !! id = Some (with_ref (refCnt d - 1) d)
    end.
Proof.
  intros O Hd Hv Htag Hr Hlk. assert (M !! tag = Some id) as Hm.
  { rewrite <- Htag. apply (mapped _ _ _ _ _ O Hd). congruence. }
  destruct (po_counts _ _ _ O id d Hd) as [Hcr Hcu].
  assert (forall t j, M !! t = Some j -> t <> tag -> j <> id) as Hdiff.
  { intros t j Hj Hne ->. destruct (mapped_desc _ _ _ _ _ O Hj) as (dj & Hdj & <- & _). congruence. }
  unfold load_page. run_refl. destruct (files s !! tag) as [b|] eqn:Hb.
  - run_refl. set (s1 := set_buffers _ s). unfold SetBuffferValid.
    run (modify_desc_run id (with_valid BVF_VLID) d s1 Hd). run_refl.
    eexists. split; [reflexivity|]. split; [|split; [simpl; rewrite Hlk; by apply drop_lock_cons|]].
    + apply (ok_touch s _ M l id d (with_valid BVF_VLID d) O Hd); simpl; try done; [congruence|lia| |].
      * intros j Hne. by rewrite lookup_insert_ne.
      * rewrite lookup_insert_eq. eauto.
    + split; [|split_and!; simpl; try done; [|by rewrite lookup_insert_eq|by rewrite lookup_insert_eq]].
      * intros t. unfold view. simpl. destruct (M !! t) as [j|] eqn:Hj; [|done].
        destruct (decide (t = tag)) as [->|Hne].
        -- assert (j = id) as -> by congruence. rewrite !lookup_insert_eq, Hd. simpl. by rewrite Hv.
        -- rewrite !lookup_insert_ne by (intros <-; by eapply Hdiff). done.
      * intros j Hne. by rewrite !lookup_insert_ne.
  - unfold ReleaseBuffer, unPinBuffer.
    run (modify_desc_run id (fun d => if 0 <? refCnt d then with_ref (refCnt d - 1) d else d) d s Hd).
    rewrite (proj2 (Z.ltb_lt 0 (refCnt d))) by done. run_refl.
    eexists. split; [reflexivity|]. split; [|split; [simpl; rewrite Hlk; by apply drop_lock_cons|]].
    + apply (ok_touch s _ M l id d (with_ref (refCnt d - 1) d) O Hd); simpl; try done; try congruence; [lia| |].
      * intros _. apply (po_dirty _ _ _ O id d Hd). congruence.
      * apply (po_buf _ _ _ O), (po_desc _ _ _ O). eauto.
    + split; [|split_and!; simpl; try done; [|by rewrite lookup_insert_eq]].
      * intros t. unfold view. simpl. destruct (M !! t) as [j|] eqn:Hj; [|done].
        destruct (decide (j = id)) as [->|Hne].
        -- rewrite lookup_insert_eq, Hd. done.
        -- by rewrite lookup_insert_ne.
      * intros j Hne. by rewrite lookup_insert_ne.
Qed.

(** A read from [s] to [s']: the page's current content is in the buffer
    returned, which is pinned once more; nothing else is lost or left locked. *)
Record reads (s s' : P) (M M' : gmap BufferTag Z) (tag : BufferTag) (r : option Z) : Prop := {
  rd_inv : pool_inv s' M';
  rd_locks : locks s' = locks s;
  rd_view t : view s' M' t = view s M t;
  rd_num : bufferNum s' = bufferNum s;
  rd_page : match view s M tag with
            | Some b => exists id d, r = Some id /\ M' !! tag = Some id /\ bufferDesc s' !! id = Some d /\
                bufferTag d = tag /\ isValid d = BVF_VLID /\ bufferPool s' !! id = Some b
            | None => r = None
            end;
  rd_kept : kept s s' r
}.

(** The state in which the loading half starts. *)
Record loading (s s2 : P) (M M2 : gmap BufferTag Z) (tag : BufferTag) (id : Z) : Prop := {
  ld_inv : pool_inv s2 M2;
  ld_map : M2 !! tag = Some id;
  ld_desc : exists d, bufferDesc s2 !! id = Some d /\ isValid d = BVF_TAG /\ bufferTag d = tag /\ 0 < refCnt d;
  ld_locks : locks s2 = (id, BUF_WRITE) :: locks s;
  ld_view t : view s2 M2 t = view s M t;
  ld_num : bufferNum s2 = bufferNum s;
  ld_kept : kept s s2 (Some id)
}.

Lemma load_page_reads s s2 M M2 tag id :
  loading s s2 M M2 tag id ->
  exists r s', load_page tag id s2 = Some (r, s') /\ reads s s' M M2 tag r.
Proof.
  intros [[[l O] Hz] Hm (d & Hd & Hv & Ht & Hr) Hlk Hview Hnum Hkept].
  destruct (load_page_run s2 M2 l tag id d (locks s) O Hd Hv Ht Hr Hlk) as
    (s' & Hrun & O' & Hlk' & Hview' & Hf & Hn & Hoth & Hid).
  assert (view s M tag = files s2 !! tag) as Hvt.
  { rewrite <- Hview. unfold view. rewrite Hm, Hd. simpl. by rewrite Hv. }
  eexists _, s'. split; [exact Hrun|]. split.
  - split; [by exists l|]. intros j dj Hj Hvj. destruct (decide (j = id)) as [->|Hne].
    + destruct (files s2 !! tag); [destruct Hid as [Hid _]|]; rewrite Hid in Hj; simplify_eq; simpl in *; congruence.
    + apply (Hz j); [|done]. by rewrite <- (proj1 (Hoth j Hne)).
  - done.
  - intros t. by rewrite Hview', Hview.
  - by rewrite Hn, Hnum.
  - rewrite Hvt. destruct (files s2 !! tag) as [b|]; [|done]. destruct Hid as [Hid Hb].
    by exists id, (with_valid BVF_VLID d).
  - intros j dj Hj. destruct (Hkept j dj Hj) as (d2 & Hd2 & Hr2 & Hk2).
    destruct (decide (j = id)) as [->|Hne].
    + assert (d2 = d) as -> by congruence. rewrite decide_True in Hr2 by done.
      assert (refCnt dj <> 0 -> isValid dj = BVF_VLID -> False) as Hno
        by (intros H1 H2; destruct (Hk2 H1 H2) as (_ & H3 & _); congruence).
      destruct (files s2 !! tag) as [b|].
      * destruct Hid as [Hid _]. eexists. split; [exact Hid|]. rewrite decide_True by done.
        split; [done|]. intros H1 H2. by destruct (Hno H1 H2).
      * eexists. split; [exact Hid|]. rewrite decide_False by done. simpl.
        split; [lia|]. intros H1 H2. by destruct (Hno H1 H2).
    + exists d2. rewrite (proj1 (Hoth j Hne)), (proj2 (Hoth j Hne)). split; [done|].
      rewrite decide_False in Hr2 by congruence. rewrite decide_False by (destruct (files s2 !! tag); congruence).
      by split.
Qed.

Lemma loading_new s s2 M M2 tag id :
  pool_inv s M -> assigned s s2 M M2 tag id -> loading s s2 M M2 tag id.
Proof.
  intros [_ Hz] [O Hm (d & Hd & Hv & Ht & Hr) (d0 & Hd0 & Hr0) Hoth Hback Hbuf Hview Hnum Hlk].
  split; try done.
  - split; [done|]. intros j dj Hj Hvj. destruct (decide (j = id)) as [->|Hne]; [congruence|].
    destruct (Hback j dj Hne Hj) as (dj' & Hj' & Ha). destruct (aged_fields _ _ Ha) as (-> & Hv' & -> & _).
    apply (Hz j); [done|congruence].
  - exists d. split_and!; try done. lia.
  - intros j dj Hj. destruct (decide (j = id)) as [->|Hne].
    + exists d. split; [done|]. assert (dj = d0) as -> by congruence. rewrite decide_True by done.
      split; [lia|]. intros. congruence.
    + destruct (Hoth j dj Hne Hj) as (d' & Hd' & Ha). destruct (aged_fields _ _ Ha) as (E1 & E2 & E3 & _).
      exists d'. split; [done|]. rewrite decide_False by congruence. rewrite E1, E2, E3, Hbuf.
      by split; [lia|].
Qed.

Definition pins_bounded (s : P) : Prop := forall id d, bufferDesc s !! id = Some d -> refCnt d < 2 ^ 31 - 1.

(** Pinning a mapped buffer. *)
Lemma pin_found s M l id d t' :
  pool_ok s M l -> pins_bounded s -> bufferDesc s !! id = Some d -> isValid d <> BVF_INVALID ->
  trep t' (bufferNum s) M ->
  let s' := rechecked id d (set_table t' s) in
  pool_ok s' M l /\ (forall t, view s' M t = view s M t) /\ kept s s' (Some id) /\
  bufferDesc s' = <[id := pinned_once d]> (bufferDesc s) /\ bufferPool s' = bufferPool s.
Proof.
  intros O Hb Hd Hv Ht s'. destruct (po_counts _ _ _ O id d Hd) as [Hr Hu]. pose proof (Hb id d Hd).
  assert (refCnt (pinned_once d) = refCnt d + 1) as Hp by (apply u32_small; unfold in_u32; lia).
  assert (bufferDesc s' = <[id := pinned_once d]> (bufferDesc s)) as E
    by (unfold s', rechecked; by case_decide).
  assert (bufferPool s' = bufferPool s) as Eb by (unfold s', rechecked; by case_decide).
  assert (files s' = files s /\ bufferNum s' = bufferNum s /\ freeList s' = freeList s /\
    start s' = start s /\ table s' = t') as (Ef & En & El & Es & Et)
    by (unfold s', rechecked; by case_decide).
  split_and!; try done.
  - apply (ok_shell (set_descs (<[id := pinned_once d]> (bufferDesc s)) s)); try done; [|by rewrite Et].
    apply (ok_touch s _ M l id d (pinned_once d) O Hd); try done.
    + lia.
    + intros. by apply (po_dirty _ _ _ O id d Hd).
    + intros. lia.
    + apply (po_buf _ _ _ O), (po_desc _ _ _ O). eauto.
  - intros t. unfold view. rewrite E, Eb, Ef. destruct (M !! t) as [j|]; [|done].
    destruct (decide (j = id)) as [->|Hne]; [by rewrite lookup_insert_eq, Hd|by rewrite lookup_insert_ne].
  - intros j dj Hj. rewrite E, Eb. destruct (decide (j = id)) as [->|Hne].
    + exists (pinned_once d). rewrite lookup_insert_eq, decide_True by done. split; [done|].
      assert (dj = d) as -> by congruence. by split.
    + exists dj. rewrite lookup_insert_ne, decide_False by congruence. split; [done|].
      split; [lia|done].
Qed.

Lemma inv_insert s s' M l id d :
  pool_inv s M -> pool_ok s' M l -> bufferDesc s' = <[id := d]> (bufferDesc s) -> isValid d <> BVF_INVALID ->
  pool_inv s' M.
Proof.
  intros [_ Hz] O E Hv. split; [by exists l|]. intros j dj Hj Hvj. rewrite E in Hj.
  apply lookup_insert_Some in Hj as [[_ <-]|[_ Hj]]; [done|by apply (Hz j)].
Qed.

Lemma ReadPage_run fuel sf s M relid index fork :
  let tag := mkTag 0 relid 0 index fork in
  pool_inv s M -> pins_bounded s -> 0 < index -> tag_ok tag -> (M !! tag = None -> spare s) ->
  USE_COUNT_MAX * bufferNum s <= Z.of_nat sf ->
  exists r s' M', ReadPage (S fuel) sf relid index fork s = Some (r, s') /\ reads s s' M M' tag r.
Proof.
  intros tag I Hpb Hidx Htok Hsp Hf. unfold ReadPage. rewrite (proj2 (Z.leb_gt _ _)) by lia. fold tag.
  assert (tag <> zero_tag) as Htz by (unfold tag, zero_tag; intros [=]; lia).
  destruct (M !! tag) as [id|] eqn:Hm.
  - destruct I as [[l O] Hz]. destruct (mapped_desc _ _ _ _ _ O Hm) as (d & Hd & Htag & Hv).
    destruct (AllocBuffer_found fuel sf s M l tag id d O Htok Hm Hd) as (t' & Ht' & Halloc). run Halloc.
    destruct (pin_found s M l id d t' O Hpb Hd Hv Ht') as (O' & Hview & Hk & E & Eb).
    destruct (decide (isValid d = BVF_TAG)) as [Hvt|Hvt].
    + destruct (load_page_reads s (rechecked id d (set_table t' s)) M M tag id) as (r & s' & Hl & R).
      { split; try done.
        - apply (inv_insert s _ M l id (pinned_once d)); [by split; [exists l|]|exact O'|exact E|exact Hv].
        - exists (pinned_once d). rewrite E, lookup_insert_eq. split_and!; try done.
          destruct (po_counts _ _ _ O' id (pinned_once d)) as [Hc _]; [by rewrite E, lookup_insert_eq|].
          destruct (po_counts _ _ _ O id d Hd) as [Hc' _]. pose proof (Hpb id d Hd).
          simpl in *. rewrite u32_small by (unfold in_u32; lia). lia.
        - unfold rechecked. by rewrite decide_True.
        - unfold rechecked. by case_decide. }
      exists r, s', M. split; [exact Hl|exact R].
    + rewrite Z.eqb_refl. exists (Some id). eexists. exists M. split; [reflexivity|]. split.
      * apply (inv_insert s _ M l id (pinned_once d)); [by split; [exists l|]|exact O'|exact E|exact Hv].
      * unfold rechecked. by rewrite decide_False.
      * exact Hview.
      * unfold rechecked. by case_decide.
      * assert (isValid d = BVF_VLID) as Hvv by (by destruct (isValid d)).
        destruct (po_buf _ _ _ O id) as [b Hb]; [apply (po_desc _ _ _ O); eauto|].
        assert (view s M tag = Some b) as ->.
        { unfold view. rewrite Hm, Hd. simpl. by rewrite Hvv. }
        exists id, (pinned_once d). rewrite E, Eb, lookup_insert_eq. by split_and!.
      * exact Hk.
  - destruct (AllocBuffer_new fuel sf s M tag I Htok Htz Hm (Hsp eq_refl) Hf) as (id & s2 & M2 & Halloc & A).
    run Halloc. destruct (load_page_reads _ _ _ _ _ _ (loading_new _ _ _ _ _ _ I A)) as (r & s' & Hl & R).
    exists r, s', M2. split; [exact Hl|exact R].
Qed.

(** C19: reading a page through the pool. For a page the pool holds, or that is in
    its file, the call returns a buffer with that page's current content, mapped
    from its tag, valid and pinned once more; otherwise [NULL] and no pin. Whether
    the page was found, loaded into a free buffer or into one the clock sweep
    emptied, every page of every table still reads the same, pages pinned by others
    stay in their buffers, no descriptor lock is kept and the pool stays well
    formed - in particular no page is in two buffers. *)
Theorem ReadPage_reads fuel sf s M relid index fork :
  let tag := mkTag 0 relid 0 index fork in
  pool_inv s M -> pins_bounded s -> 0 < index -> tag_ok tag -> (M !! tag = None -> spare s) ->
  USE_COUNT_MAX * bufferNum s <= Z.of_nat sf ->
  exists r s' M', ReadPage (S fuel) sf relid index fork s = Some (r, s') /\ reads s s' M M' tag r.
Proof. intros tag. apply ReadPage_run. Qed.

(** ** ReleasePage *)

Lemma ReleasePage_run s M id d :
  pool_inv s M -> bufferDesc s !! id = Some d -> isValid d <> BVF_INVALID ->
  (isValid d = BVF_VLID -> refCnt d <= 1 -> evict_ok s id d) ->
  exists s', ReleasePage id s = Some (tt, s') /\ pool_inv s' M /\
    (forall t, view s' M t = view s M t) /\ locks s' = locks s /\ files s' = files s /\
    bufferPool s' = bufferPool s /\
    bufferDesc s' = <[id := with_ref (Z.max 0 (refCnt d - 1)) d]> (bufferDesc s).
Proof.
  intros [[l O] Hz] Hd Hv Hev. destruct (po_counts _ _ _ O id d Hd) as [Hr Hu].
  unfold ReleasePage. run_refl. set (s1 := set_locks _ s). assert (bufferDesc s1 !! id = Some d) as Hd1 by done.
  set (d' := with_ref (Z.max 0 (refCnt d - 1)) d).
  assert ((if 0 <? refCnt d then with_ref (refCnt d - 1) d else d) = d') as Hd'.
  { unfold d'. destruct (Z.ltb_spec 0 (refCnt d)).
    - by rewrite Z.max_r by lia.
    - assert (refCnt d = 0) as Hz0 by lia. rewrite Hz0. destruct d; simpl in *. by rewrite Hz0. }
  unfold ReleaseBuffer, unPinBuffer. run (modify_desc_run id (fun d => if 0 <? refCnt d then with_ref (refCnt d - 1) d else d) d s1 Hd1).
  rewrite Hd'.
  set (s2 := set_descs _ s1). set (s3 := set_descs (<[id := d']> (bufferDesc s)) s).
  assert (pool_ok s3 M l) as O3.
  { apply (ok_touch s _ M l id d d' O Hd); try done; simpl; [lia|by intros; apply (po_dirty _ _ _ O id d Hd)| |].
    - intros Hvv Hr0. apply Hev; [done|lia].
    - apply (po_buf _ _ _ O), (po_desc _ _ _ O). eauto. }
  assert (UnlockBufferDescEx id BUF_WRITE s2 = Some (tt, s3)) as ->.
  { unfold UnlockBufferDescEx, st_modify. do 2 f_equal. unfold s2, s1, set_locks, set_descs. simpl.
    rewrite decide_True by done. done. }
  exists s3. split; [done|]. split; [by apply (inv_insert s s3 M l id d'); [split; [exists l|]|..]|].
  split_and!; try done. intros t. unfold view. simpl. destruct (M !! t) as [j|]; [|done].
  destruct (decide (j = id)) as [->|Hne]; [by rewrite lookup_insert_eq, Hd|by rewrite lookup_insert_ne].
Qed.

(** Releasing a page takes one pin off its buffer, leaving a count of zero
    alone, and changes nothing else; when that was the last pin the page must be
    one the file has or that is marked dirty. *)
Theorem ReleasePage_unpins s M id d :
  pool_inv s M -> bufferDesc s !! id = Some d -> isValid d <> BVF_INVALID ->
  (isValid d = BVF_VLID -> refCnt d <= 1 -> evict_ok s id d) ->
  exists s', ReleasePage id s = Some (tt, s') /\ pool_inv s' M /\
    (forall t, view s' M t = view s M t) /\ locks s' = locks s /\ files s' = files s /\
    bufferPool s' = bufferPool s /\
    bufferDesc s' = <[id := with_ref (Z.max 0 (refCnt d - 1)) d]> (bufferDesc s).
Proof. apply ReleasePage_run. Qed.

(** ** Creation *)

Lemma zlist_lookup {A} (f : Z -> A) n i :
  (list_to_map ((fun i => (i, f i)) <$> zrange n) : gmap Z A) !! i =
  if decide (0 <= i < n) then Some (f i) else None.
Proof.
  destruct (decide (0 <= i < n)) as [Hi|Hi].
  - apply elem_of_list_to_map_1.
    + rewrite <- list_fmap_compose. simpl. rewrite list_fmap_id. unfold zrange.
      apply NoDup_fmap_2; [intros a b; lia|apply NoDup_seq].
    + apply list_elem_of_fmap. exists i. by rewrite elem_of_zrange.
  - apply not_elem_of_list_to_map_1. rewrite <- list_fmap_compose. simpl. rewrite list_fmap_id.
    by rewrite elem_of_zrange.
Qed.

Lemma init_freeList_lookup n i :
  0 <= i < n -> init_freeList n !! i = Some (if decide (i = n - 1) then Free_List_End else i + 1).
Proof.
  intros Hi. unfold init_freeList. case_decide as Hc.
  - subst i. apply lookup_insert_eq.
  - rewrite lookup_insert_ne by done. rewrite (zlist_lookup (fun i => i + 1)). by rewrite decide_True.
Qed.

Definition zfrom (i n : Z) : list Z := Z.of_nat <$> seq (Z.to_nat i) (Z.to_nat (n - i)).

Lemma elem_of_zfrom i n j : 0 <= i -> j ∈ zfrom i n <-> i <= j < n.
Proof.
  intros Hi. unfold zfrom. rewrite list_elem_of_fmap. split.
  - intros (k & -> & Hk%elem_of_seq). lia.
  - intros Hj. exists (Z.to_nat j). rewrite elem_of_seq. lia.
Qed.

Lemma init_chain n d : forall i, 0 <= i -> i + 1 + Z.of_nat d = n -> free_chain (init_freeList n) i (zfrom (i + 1) n).
Proof.
  induction d as [|d IH]; intros i Hi Hd; unfold zfrom.
  - replace (Z.to_nat (n - (i + 1))) with O by lia. cbn [seq fmap list_fmap free_chain].
    rewrite init_freeList_lookup, decide_True by lia. done.
  - replace (Z.to_nat (n - (i + 1))) with (S (Z.to_nat (n - (i + 1 + 1)))) by lia.
    cbn [seq fmap list_fmap free_chain]. rewrite Z2Nat.id by lia. split.
    + rewrite init_freeList_lookup, decide_False by lia. done.
    + replace (S (Z.to_nat (i + 1))) with (Z.to_nat (i + 1 + 1)) by lia. apply (IH (i + 1)); lia.
Qed.

(** A pool as created: every buffer but the first is on the free list. *)
Lemma InitBufferPool_inv num t disk :
  BUFFER_MIN_NUM <= num < 2 ^ 31 -> trep t num ∅ ->
  exists s, InitBufferPool num t disk = Some s /\ pool_inv s ∅ /\ files s = disk /\ bufferNum s = num /\
    locks s = [] /\ forall id, bufferDesc s !! id = if decide (0 <= id < num) then Some zero_desc else None.
Proof.
  unfold BUFFER_MIN_NUM. intros Hn Ht. unfold InitBufferPool, BUFFER_MIN_NUM.
  rewrite (proj2 (Z.ltb_ge _ _)) by lia. eexists. split; [done|].
  assert (forall id, (list_to_map ((fun i => (i, zero_desc)) <$> zrange num) : gmap Z BufferDesc) !! id =
    if decide (0 <= id < num) then Some zero_desc else None) as Hdesc by (intros id; apply (zlist_lookup (fun _ => zero_desc))).
  split; [|by split_and!].
  split; [exists (zfrom 1 num); split; simpl; try done|].
  - intros id. rewrite Hdesc. case_decide; [split; eauto|]. split; [by intros [? ?]|done].
  - intros id Hid. rewrite (zlist_lookup (fun _ => replicate 4096 0)), decide_True by done. eauto.
  - intros tag id. rewrite lookup_empty. split; [done|]. intros (d & Hd & _ & Hv). rewrite Hdesc in Hd.
    case_decide; by simplify_eq.
  - intros id d Hd. rewrite Hdesc in Hd. case_decide; [|done]. simplify_eq. simpl. unfold USE_COUNT_MAX. lia.
  - split; [apply (init_chain num (Z.to_nat (num - 1)) 0); lia|].
    apply NoDup_fmap_2; [intros a b; lia|apply NoDup_seq].
  - intros id Hid%elem_of_zfrom; [|lia]. split; [lia|]. exists zero_desc. rewrite Hdesc, decide_True by lia. done.
  - lia.
  - intros id d Hd. rewrite Hdesc in Hd. case_decide; [|done]. by simplify_eq.
  - intros id d Hd. rewrite Hdesc in Hd. case_decide; [|done]. by simplify_eq.
  - simpl. intros id d Hd _. rewrite Hdesc in Hd. case_decide; [|done]. by simplify_eq.
Qed.
End pool.

(** ** The partitioned hash table as the table of tags

    The key of a tag is the hash of its bytes, [getHashKey], which is taken as
    given; an entry's value is the tag and the buffer's id. *)

Section tags.
Variable getHashKey : list Z -> Z.

Definition tag_bytes (t : BufferTag) : list Z :=
  le 4 (databaseId t) ++ le 4 (tableId t) ++ le 4 (segno t) ++ le 4 (pageno t) ++ le 4 (forkNum t).

(** [BufferPoolHashValue]. *)
Definition value_bytes (t : BufferTag) (id : Z) : list Z := tag_bytes t ++ le 4 id.
Definition off_bufferId : Z := 20.
Definition sizeof_BufferTag : nat := 20.
Definition sizeof_BufferPoolHashValue : Z := 24.

Definition tag_key (t : BufferTag) : Z := getHashKey (tag_bytes t).

Definition entry_buffer (w : option (list Z)) : ST HashTableInfo (option Z) :=
  match w with
  | None => mret None
  | Some w => id ← st_lift (load_i32 w off_bufferId); mret (Some id)
  end.

Definition hash_find (t : BufferTag) : ST HashTableInfo (option Z) := fun h =>
  let p := GetPartitionIndex (tag_key t) h in
  (HashLockPartition p;;
   o ← HashFindEntry (tag_key t) (tag_bytes t) p;
   w ← entry_value o;
   id ← entry_buffer w;
   HashLockPartitionRelease p;;
   mret id) h.

Definition hash_insert (t : BufferTag) (id : Z) : ST HashTableInfo (option Z * HashOp) :=
  r ← HashGetFreeEntry (tag_key t) (value_bytes t id);
  w ← entry_value (fst r);
  i ← entry_buffer w;
  mret (i, snd r).

Definition hash_delete (t : BufferTag) (id : Z) : ST HashTableInfo Z :=
  HashDeleteEntry (tag_key t) (value_bytes t id).

Definition hash_tags : TagTable HashTableInfo :=
  {| tbl_find := hash_find; tbl_insert := hash_insert; tbl_delete := hash_delete |}.

(** *** Bytes of tags *)

Definition int_tag (t : BufferTag) : Prop :=
  in_i32 (databaseId t) /\ in_i32 (tableId t) /\ in_i32 (segno t) /\ in_i32 (pageno t) /\ in_i32 (forkNum t).

Lemma length_tag_bytes t : length (tag_bytes t) = 20%nat.
Proof. unfold tag_bytes. by rewrite !length_app, !length_le. Qed.

Lemma le4_inj a b : in_i32 a -> in_i32 b -> le 4 a = le 4 b -> a = b.
Proof. intros Ha Hb H. rewrite <- (unle_le4_i32 a), <- (unle_le4_i32 b) by done. by rewrite H. Qed.

Lemma tag_bytes_inj t1 t2 : int_tag t1 -> int_tag t2 -> tag_bytes t1 = tag_bytes t2 -> t1 = t2.
Proof.
  intros (A1 & A2 & A3 & A4 & A5) (B1 & B2 & B3 & B4 & B5) H. unfold tag_bytes in H.
  apply app_inj_1 in H as [H1 H]; [|by rewrite !length_le].
  apply app_inj_1 in H as [H2 H]; [|by rewrite !length_le].
  apply app_inj_1 in H as [H3 H]; [|by rewrite !length_le].
  apply app_inj_1 in H as [H4 H5]; [|by rewrite !length_le].
  destruct t1, t2. simpl in *. f_equal; by apply le4_inj.
Qed.

Lemma take_value_bytes t id : take 20 (value_bytes t id) = tag_bytes t.
Proof. unfold value_bytes. rewrite <- (length_tag_bytes t). apply take_app_length. Qed.

Lemma take_tag_bytes t : take 20 (tag_bytes t) = tag_bytes t.
Proof. apply take_ge. by rewrite length_tag_bytes. Qed.

Lemma load_value_bytes t id : in_i32 id -> load_i32 (value_bytes t id) off_bufferId = Some id.
Proof.
  intros Hid. unfold load_i32, load_u32, value_bytes, off_bufferId.
  rewrite load_app_r by (rewrite length_tag_bytes; lia). rewrite length_tag_bytes. simpl Z.sub.
  pose proof (load_all (le 4 id)) as Hl. rewrite length_le in Hl. change (Z.of_nat 4) with 4 in Hl.
  change (20 - Z.of_nat 20) with 0. rewrite Hl. cbn [fmap option_fmap option_map].
  by rewrite unle_le4_i32.
Qed.

(** *** The laws *)

Definition entry_key (t : BufferTag) : Z * list Z := (tag_key t, tag_bytes t).

(** [M'] is [M] as the hash table sees it. *)
Record encodes (M : gmap BufferTag Z) (M' : gmap (Z * list Z) (list Z)) : Prop := {
  en_lookup t : int_tag t -> M' !! entry_key t = value_bytes t <$> M !! t;
  en_ok t id : M !! t = Some id -> int_tag t /\ in_i32 id;
  en_size : size M' = size M
}.

Definition tags_rep (h : HashTableInfo) (cap : Z) (M : gmap BufferTag Z) : Prop :=
  maxNum h = cap /\ valueSize h = sizeof_BufferPoolHashValue /\ keyValueSize h = sizeof_BufferTag /\
  exists M', table_rep h M' /\ encodes M M'.

Lemma entry_key_inj t1 t2 : int_tag t1 -> int_tag t2 -> entry_key t1 = entry_key t2 -> t1 = t2.
Proof. intros H1 H2 H. apply (f_equal snd) in H. by apply tag_bytes_inj. Qed.

Lemma encodes_insert M M' t id :
  encodes M M' -> int_tag t -> in_i32 id -> M !! t = None ->
  encodes (<[t := id]> M) (<[entry_key t := value_bytes t id]> M').
Proof.
  intros [E1 E2 E3] Ht Hid Hm. split.
  - intros u Hu. destruct (decide (u = t)) as [->|Hne]; [by rewrite !lookup_insert_eq|].
    rewrite !lookup_insert_ne; [by apply E1|done|]. intros H%entry_key_inj; congruence.
  - intros u i [[<- <-]|[_ Hi]]%lookup_insert_Some; [done|by apply E2].
  - rewrite !map_size_insert_None; [by rewrite E3|done|]. by rewrite E1, Hm.
Qed.

Lemma encodes_delete M M' t :
  encodes M M' -> int_tag t -> encodes (delete t M) (delete (entry_key t) M').
Proof.
  intros [E1 E2 E3] Ht. split.
  - intros u Hu. destruct (decide (u = t)) as [->|Hne]; [by rewrite !lookup_delete_eq|].
    rewrite !lookup_delete_ne; [by apply E1|done|]. intros H%entry_key_inj; congruence.
  - intros u i [_ Hi]%lookup_delete_Some. by apply E2.
  - rewrite !map_size_delete, E1 by done. destruct (M !! t); simpl; by rewrite E3.
Qed.

Hypothesis getHashKey_u64 : forall bs, in_u64 (getHashKey bs).

Lemma tags_rep_shape h h' cap M M' :
  tags_rep h cap M -> same_shape h h' -> table_rep h' M' -> forall M1, encodes M1 M' -> tags_rep h' cap M1.
Proof. intros (H1 & H2 & H3 & _) (E1 & E2 & E3) R M1 E. split_and!; try congruence. eauto. Qed.

(** The search under its partition's lock. *)
Lemma find_locked h fl ch M key v :
  rep h fl ch M -> in_u64 key ->
  exists o, (HashLockPartition (GetPartitionIndex key h);; HashFindEntry key v (GetPartitionIndex key h)) h =
      Some (o, set_seglock (GetPartitionIndex key h) 1 h) /\
    entry_value o (set_seglock (GetPartitionIndex key h) 1 h) =
      Some (M !! key_of h key v, set_seglock (GetPartitionIndex key h) 1 h).
Proof.
  intros R Hk. pose proof (geo_lock _ (rep_geo _ _ _ _ R) _ Hk) as Hlk.
  destruct (rep_bucket _ _ _ _ _ R Hk) as (o & Ho & Hc & Hl).
  set (h1 := set_seglock (GetPartitionIndex key h) 1 h).
  exists (first_hit h key v (ch (slot h key))). split.
  - run (lock_run _ _ Hlk). fold h1. unfold HashFindEntry.
    assert (get_bucket (GetPartitionIndex key h, GetBucketIndex key h1) h1 = Some (o, h1)) as Hg
      by (apply get_bucket_run; exact Ho).
    run Hg. rewrite (GetHashEntryFromBucket_chain (chain_fuel h1) o key v h1 _ Hc Hl).
    unfold h1. by rewrite (first_hit_lock h).
  - destruct (first_hit h key v (ch (slot h key))) as [e|] eqn:Hf.
    + destruct (rep_search_some _ _ _ _ _ _ _ R Hf) as (el & He & _ & _ & _ & HM). rewrite HM.
      by apply entry_value_some.
    + by rewrite (rep_search_none _ _ _ _ _ _ R Hf).
Qed.

Lemma hash_find_ok h cap M t :
  tags_rep h cap M -> int_tag t -> hash_find t h = Some (M !! t, h).
Proof.
  intros (_ & _ & Hkv & M' & (fl & ch & R) & E) Ht.
  destruct (find_locked h fl ch M' (tag_key t) (tag_bytes t) R (getHashKey_u64 _)) as (o & Hfind & Hval).
  pose proof (geo_lock _ (rep_geo _ _ _ _ R) _ (getHashKey_u64 (tag_bytes t))) as Hlk.
  unfold hash_find. destruct (st_bind_inv _ _ _ _ Hfind) as ([] & h1 & Hl & Hf). run Hl. run Hf. run Hval.
  unfold key_of. rewrite Hkv. unfold sizeof_BufferTag. rewrite take_tag_bytes.
  fold (entry_key t). rewrite (en_lookup _ _ E t Ht).
  destruct (M !! t) as [id|] eqn:Hm; simpl.
  - set (h2 := set_seglock _ 1 h). destruct (en_ok _ _ E t id Hm) as [_ Hid].
    erewrite st_bind_some by (unfold entry_buffer; run (st_lift_run _ _ h2 (load_value_bytes t id Hid)); reflexivity).
    cbv beta. by run (unlock_run _ _ Hlk).
  - run_refl. by run (unlock_run _ _ Hlk).
Qed.

(** An operation of the hash table through its specification. *)
Lemma hash_op_spec h M' op :
  table_rep h M' -> in_u64 (op_key op) ->
  exists h', run_op op h =
    Some ((spec_op (maxNum h) (Z.to_nat (valueSize h)) (keyValueSize h) op M').1, h') /\
    table_rep h' (spec_op (maxNum h) (Z.to_nat (valueSize h)) (keyValueSize h) op M').2 /\ same_shape h h'.
Proof. apply run_op_spec. Qed.

Lemma take_all_value t id : take (Z.to_nat sizeof_BufferPoolHashValue) (value_bytes t id) = value_bytes t id.
Proof. apply take_ge. unfold value_bytes. by rewrite length_app, length_tag_bytes, length_le. Qed.

Lemma hash_insert_ok h cap M t id :
  tags_rep h cap M -> int_tag t -> in_i32 id ->
  exists h', hash_insert t id h = Some (
      match M !! t with
      | Some i => (Some i, HASH_FIND)
      | None => if Z.of_nat (size M) <? cap then (Some id, HASH_INSERT) else (None, HASH_NULL)
      end, h') /\
    tags_rep h' cap (match M !! t with
                     | Some _ => M
                     | None => if Z.of_nat (size M) <? cap then <[t := id]> M else M
                     end).
Proof.
  intros T Ht Hid. pose proof T as (Hcap & Hvs & Hkv & M' & R & E).
  destruct (hash_op_spec h M' (OpGet (tag_key t) (value_bytes t id)) R (getHashKey_u64 _)) as (h' & Hrun & R' & Hsh).
  exists h'. simpl in Hrun, R'. rewrite Hkv, Hvs, Hcap, take_all_value, take_value_bytes in Hrun, R'.
  fold (entry_key t) in Hrun, R'. rewrite (en_lookup _ _ E t Ht), (en_size _ _ E) in Hrun, R'.
  destruct (st_bind_inv _ _ _ _ Hrun) as ([o f] & h1 & Hget & Hrest).
  destruct (st_bind_inv _ _ _ _ Hrest) as (w & h2 & Hval & Hret). injection Hret as Hres <-.
  unfold hash_insert. run Hget. simpl fst in Hval. run Hval.
  destruct (M !! t) as [i|] eqn:Hm; simpl in Hres, R'.
  - injection Hres as Hf Hw. simpl in Hf, Hw. subst f w. destruct (en_ok _ _ E t i Hm) as [_ Hi]. split.
    + unfold entry_buffer. erewrite st_bind_some by (run (st_lift_run _ _ h2 (load_value_bytes t i Hi)); reflexivity).
      done.
    + by eapply tags_rep_shape.
  - destruct (Z.ltb_spec (Z.of_nat (size M)) cap); simpl in Hres, R'; injection Hres as Hf Hw; subst f w.
    + split.
      * unfold entry_buffer. erewrite st_bind_some by (run (st_lift_run _ _ h2 (load_value_bytes t id Hid)); reflexivity).
        done.
      * eapply tags_rep_shape; [done|done|exact R'|by apply encodes_insert].
    + split; [done|by eapply tags_rep_shape].
Qed.

Lemma hash_delete_ok h cap M t id :
  tags_rep h cap M -> int_tag t -> in_i32 id ->
  exists h' r, hash_delete t id h = Some (r, h') /\ tags_rep h' cap (delete t M).
Proof.
  intros T Ht Hid. pose proof T as (Hcap & Hvs & Hkv & M' & R & E).
  destruct (hash_op_spec h M' (OpDel (tag_key t) (value_bytes t id)) R (getHashKey_u64 _)) as (h' & Hrun & R' & Hsh).
  simpl in Hrun, R'. rewrite Hkv, take_value_bytes in Hrun, R'. fold (entry_key t) in Hrun, R'.
  destruct (st_bind_inv _ _ _ _ Hrun) as (r & h1 & Hdel & Hret). injection Hret as _ <-.
  exists h1, r. split; [exact Hdel|]. pose proof (encodes_delete M M' t E Ht) as Ed.
  destruct (M' !! entry_key t) as [w|] eqn:Hw; simpl in R'; [by eapply tags_rep_shape|].
  eapply tags_rep_shape; [done|done|exact R'|]. by rewrite <- (delete_id M' (entry_key t) Hw).
Qed.

Definition hash_tags_laws : @TagTableLaws HashTableInfo hash_tags int_tag.
Proof.
  refine (@Build_TagTableLaws HashTableInfo hash_tags int_tag tags_rep _ _ _).
  - intros h cap M t T Ht. exists h. split; [by eapply hash_find_ok|done].
  - intros h cap M t id. apply hash_insert_ok.
  - intros h cap M t id. apply hash_delete_ok.
Defined.

(** [CreateBufferPool]: the table has four partitions, room for every buffer and the
    name ["bufferHashTable"] of 15 bytes. *)
Definition CreateBufferPool (num : Z) (disk : gmap BufferTag (list Z)) : option (Pool HashTableInfo) :=
  let num := if num <=? 0 then 128 else num in
  t ← HashTableCreate 4 num sizeof_BufferPoolHashValue sizeof_BufferTag 15;
  InitBufferPool num t disk.

(** The table of eight buffers and more fits its allocation. *)
Lemma buffer_table_fits n : BUFFER_MIN_NUM <= n <= 2 ^ 23 ->
  layout_end 4 n sizeof_BufferPoolHashValue <= hashtableLen 4 n sizeof_BufferPoolHashValue 15.
Proof.
  unfold BUFFER_MIN_NUM. intros Hn. destruct (getAlignNum_spec n ltac:(lia)) as (c & Hc & Ha & Hle & Hlt).
  assert (getAlignNum n <= 2 ^ 23).
  { rewrite Ha in Hlt |- *. apply Z.pow_le_mono_r; [lia|]. assert (2 ^ c < 2 ^ 24) as Hp by lia. apply Z.pow_lt_mono_r_iff in Hp; lia. }
  unfold hashtableLen, GetHashTableSize, layout_end, segments_end. change (getAlignNum 4) with 4. cbv zeta.
  unfold elem_size, sizeof_BufferPoolHashValue, HASH_ELEMENT_SIZE, sizeof_HashSegment, sizeof_HashTableInfo, HASH_SEGMENT_SIZE, sizeof_pointer.
  rewrite (i32_small (getAlignNum n * (24 + 16))) by (unfold in_i32; lia).
  rewrite (i32_small (_ + 4 * _)) by (unfold in_i32; lia). rewrite (i32_small (_ + 160)) by (unfold in_i32; lia).
  rewrite i32_small by (unfold in_i32; lia). lia.
Qed.

Lemma CreateBufferPool_inv num disk :
  num <= 0 \/ BUFFER_MIN_NUM <= num <= 2 ^ 23 ->
  exists s, CreateBufferPool num disk = Some s /\
    @pool_inv HashTableInfo hash_tags int_tag hash_tags_laws s ∅ /\ files s = disk /\
    bufferNum s = (if num <=? 0 then 128 else num) /\ locks s = [] /\
    forall id, bufferDesc s !! id = if decide (0 <= id < bufferNum s) then Some zero_desc else None.
Proof.
  intros Hnum. unfold CreateBufferPool. set (n := if num <=? 0 then 128 else num).
  assert (BUFFER_MIN_NUM <= n <= 2 ^ 23) as Hn
    by (unfold n, BUFFER_MIN_NUM in *; destruct (Z.leb_spec num 0); lia).
  destruct (HashTableCreate_rep 4 n sizeof_BufferPoolHashValue sizeof_BufferTag 15 2) as
    (h & Hc & Hrep & Hmax & Hvs & Hkv); [unfold BUFFER_MIN_NUM in *; lia|lia|done|
      unfold sizeof_BufferTag, sizeof_BufferPoolHashValue; lia|by apply buffer_table_fits|].
  rewrite Hc. cbn [mbind option_bind].
  assert (tags_rep h n ∅) as T.
  { split_and!; try done. exists ∅. split; [done|]. split; [|by intros|by rewrite !map_size_empty].
    intros t _. by rewrite !lookup_empty. }
  assert (BUFFER_MIN_NUM <= n < 2 ^ 31) as Hn2 by lia.
  destruct (@InitBufferPool_inv HashTableInfo hash_tags int_tag hash_tags_laws n h disk Hn2 T) as
    (s & Hs & I & Hf & Hnum' & Hlk & Hd).
  exists s. rewrite Hnum'. by split_and!.
Qed.

End tags.

(** A pool with the hash table, whose key is the sum of the bytes here. *)
Definition sum_hash (bs : list Z) : Z := u64 (foldr Z.add 0 bs).

Lemma sum_hash_u64 bs : in_u64 (sum_hash bs).
Proof. apply u64_range. Qed.

#[local] Instance sum_tags : TagTable HashTableInfo := hash_tags sum_hash.
#[local] Instance sum_tags_laws : TagTableLaws HashTableInfo int_tag := hash_tags_laws sum_hash sum_hash_u64.

Lemma zero_tag_int : int_tag zero_tag.
Proof. unfold int_tag, in_i32; simpl; lia. Qed.

(** Reading page 3 of table 7 into a new pool of 128 buffers. *)
Lemma ReadPage_reads_witness :
  let tag := mkTag 0 7 0 3 0 in let page := replicate 4096 5 in
  exists s id s' M', CreateBufferPool 0 {[ tag := page ]} = Some s /\
    ReadPage (fun _ _ => true) 1 640 7 3 0 s = Some (Some id, s') /\
    bufferPool s' !! id = Some page /\ pool_inv s' M' /\ locks s' = [].
Proof.
  intros tag page. set (disk := {[ tag := page ]} : gmap BufferTag (list Z)).
  destruct (CreateBufferPool_inv sum_hash sum_hash_u64 0 disk) as (s & Hc & I & Hf & Hn & Hlk & Hd); [by left|].
  simpl in Hn. exists s.
  destruct (ReadPage_reads (fun _ _ => true) zero_tag_int 0 640 s ∅ 7 3 0 I) as (r & s' & M' & Hrun & R).
  - intros id d Hid. rewrite Hd in Hid. case_decide; [|done]. simplify_eq. simpl. lia.
  - lia.
  - unfold int_tag, in_i32; simpl; lia.
  - intros _. exists 0, zero_desc. rewrite Hd, decide_True by lia. done.
  - rewrite Hn. unfold USE_COUNT_MAX. lia.
  - pose proof (rd_page _ _ _ _ _ _ R) as Hp. change (mkTag 0 7 0 3 0) with tag in Hp.
    assert (view s ∅ tag = Some page) as Hv by (unfold view; rewrite lookup_empty, Hf; apply lookup_singleton_eq).
    rewrite Hv in Hp. destruct Hp as (id & d & -> & _ & _ & _ & _ & Hb).
    exists id, s', M'. split_and!; [done|done|done|exact (rd_inv _ _ _ _ _ _ R)|].
    by rewrite (rd_locks _ _ _ _ _ _ R).
Defined.

Lemma ClockSweep_finds_victim_witness :
  exists s r d s', CreateBufferPool 8 ∅ = Some s /\ ClockSweep (fun _ _ => true) 40 s = Some (r, s') /\
    bufferDesc s' !! r = Some d /\ (isValid d = BVF_INVALID \/ refCnt d = 0).
Proof.
  destruct (CreateBufferPool_inv sum_hash sum_hash_u64 8 ∅) as (s & Hc & [[l O] Hz] & Hf & Hn & Hlk & Hd);
    [right; unfold BUFFER_MIN_NUM; lia|]. simpl in Hn. exists s.
  destruct (ClockSweep_finds_victim (fun _ _ => true) 0 zero_desc 40 s) as (r & d & s' & Hrun & Hr & Hev & _).
  - done.
  - exact (po_desc _ _ _ O).
  - exact (po_start _ _ _ O).
  - intros id d Hid. destruct (po_counts _ _ _ O id d Hid). lia.
  - rewrite Hd, decide_True by lia. done.
  - by left.
  - rewrite Hn. unfold USE_COUNT_MAX. lia.
  - exists r, d, s'. by split_and!.
Defined.

(** One buffer, pinned. *)
Definition pinned_pool : Pool HashTableInfo :=
  mkBP 1 ∅ ∅ {[ 0 := mkDesc zero_tag BVF_VLID 0 1 5 0 ]}
    (mkHT 0 0 0 0 0 0 0 0 0 ∅ None 0 0 ∅ ∅ 0) 0 ∅ [].

Lemma ClockSweep_spins_witness : ClockSweep (fun _ _ => true) 1000 pinned_pool = None.
Proof.
  apply (ClockSweep_spins (T := HashTableInfo)).
  - intros id. simpl. split.
    + intros [d Hd]. apply lookup_singleton_Some in Hd as [<- _]. lia.
    + intros Hid. assert (id = 0) as -> by lia. eexists. apply lookup_singleton_eq.
  - simpl. lia.
  - intros id d Hd. simpl in Hd. apply lookup_singleton_Some in Hd as [_ <-]. simpl. by split_and!.
Defined.

(** A buffer assigned to a page and released again. *)
Lemma ReleasePage_unpins_witness :
  let tag := mkTag 0 7 0 3 0 in
  exists s s1 id s2 d, CreateBufferPool 8 ∅ = Some s /\
    AllocBuffer (fun _ _ => true) 1 40 tag s = Some (Some id, BUFFER_EMPTY, s1) /\
    ReleasePage id s1 = Some (tt, s2) /\ bufferDesc s2 !! id = Some d /\ refCnt d = 0.
Proof.
  intros tag. destruct (CreateBufferPool_inv sum_hash sum_hash_u64 8 ∅) as (s & Hc & I & Hf & Hn & Hlk & Hd);
    [right; unfold BUFFER_MIN_NUM; lia|]. simpl in Hn. exists s.
  destruct (AllocBuffer_new (fun _ _ => true) zero_tag_int 0 40 s ∅ tag I) as (id & s1 & M1 & Halloc & A).
  - unfold int_tag, in_i32; simpl; lia.
  - done.
  - apply lookup_empty.
  - exists 0, zero_desc. rewrite Hd, decide_True by lia. done.
  - rewrite Hn. unfold USE_COUNT_MAX. lia.
  - destruct (as_desc _ _ _ _ _ _ A) as (d & Hid & Hv & _ & Hr).
    destruct (ReleasePage_unpins s1 M1 id d (ld_inv _ _ _ _ _ _ (loading_new _ _ _ _ _ _ I A)) Hid)
      as (s2 & Hrel & _ & _ & _ & _ & _ & E); [congruence|congruence|].
    exists s1, id, s2. eexists. split_and!; [done|exact Halloc|exact Hrel|rewrite E; apply lookup_insert_eq|].
    simpl. rewrite Hr. lia.
Defined.
