(* ===== verification/PoolStore.v ===== *)
(** * Pages of a worker: the pool, the store of pages and the resource owner

    Joins the layers around [src/src/sqlcore/storage/buffer/buffer.c]: that reading
    through the buffer pool implements reading from PageStore's store of pages,
    and the calls that also keep the worker's resource owner - [GetPageByIndex],
    [ReleasePage] and [ReleaseAllResourceOwner]. *)

From S2P Require Import Prelude Bytes DList ResourceOwner HashTable Page PageStore Space BufferPool.

(** ** The pool implements the store *)

Section store.
Context {T : Type} `{TagTable T} {tag_ok : BufferTag -> Prop} `{!TagTableLaws T tag_ok}.
Context (try_lock : nat -> Z -> bool) (zero_ok : tag_ok zero_tag).

Definition fork_no (f : ForkType) : Z := match f with MAIN_FORK => 0 | GROUP_FORK => 1 end.
Definition page_tag (relid : Z) (p : ptr) : BufferTag := mkTag 0 relid 0 p.2 (fork_no p.1).

(** The table [relid] reads the same from the store and through the pool. *)
Definition store_view (relid : Z) (st : PageState) (s : Pool T) (M : gmap BufferTag Z) : Prop :=
  forall p, 0 < p.2 -> content st p = view s M (page_tag relid p).

Lemma ReadPage_store_content n f st r st' :
  PageStore.ReadPage n f st = Some (r, st') ->
  same_contents st st' /\ (0 < n -> r = match content st (f, n) with Some _ => Some (f, n) | None => None end).
Proof.
  intros Hr. destruct (decide (0 < n)) as [Hn|Hn].
  - destruct (content st (f, n)) as [b|] eqn:Hc.
    + destruct (ReadPage_some st f n b Hn Hc) as (s1 & H1 & H2 & _). rewrite H1 in Hr. by simplify_eq.
    + pose proof (GetPageByIndex_none st f n Hn Hc) as H1. unfold PageStore.GetPageByIndex in H1.
      rewrite (proj2 (Z.eqb_neq n 0)) in H1 by lia. rewrite H1 in Hr. by simplify_eq.
  - unfold PageStore.ReadPage in Hr. rewrite (proj2 (Z.leb_le n 0)) in Hr by lia. simplify_eq.
    split; [apply same_contents_refl|lia].
Qed.

(** C20: reading a page through the buffer pool implements reading it from the
    store of pages that the page-level operations are stated over: the pool's call
    returns a buffer exactly when the store's returns the page, the buffer holds
    what the store has for it, and afterwards every page of the table still reads
    the same on both sides. *)
Theorem ReadPage_refines_store fuel sf relid n f st st' r s M :
  pool_inv s M -> pins_bounded s -> store_view relid st s M -> tag_ok (page_tag relid (f, n)) ->
  (M !! page_tag relid (f, n) = None -> spare try_lock s) ->
  USE_COUNT_MAX * bufferNum s <= Z.of_nat sf -> 0 < n ->
  PageStore.ReadPage n f st = Some (r, st') ->
  exists o s' M', BufferPool.ReadPage try_lock (S fuel) sf relid n (fork_no f) s = Some (o, s') /\
    pool_inv s' M' /\ store_view relid st' s' M' /\ locks s' = locks s /\
    match r with
    | None => o = None
    | Some p => exists id, o = Some id /\ M' !! page_tag relid p = Some id /\
        bufferPool s' !! id = content st' p
    end.
Proof.
  intros I Hpb Hst Htok Hsp Hf Hn Hr.
  destruct (ReadPage_store_content _ _ _ _ _ Hr) as [Hsame Hres]. specialize (Hres Hn).
  destruct (ReadPage_run try_lock zero_ok fuel sf s M relid n (fork_no f) I Hpb Hn Htok Hsp Hf)
    as (o & s' & M' & Hrun & R).
  exists o, s', M'. split; [exact Hrun|]. split; [exact (rd_inv _ _ _ _ _ _ R)|]. split.
  { intros p Hp. by rewrite (sc_content _ _ Hsame), (rd_view _ _ _ _ _ _ R), Hst. }
  split; [exact (rd_locks _ _ _ _ _ _ R)|].
  pose proof (rd_page _ _ _ _ _ _ R) as Hpage.
  change (mkTag 0 relid 0 n (fork_no f)) with (page_tag relid (f, n)) in Hpage.
  rewrite <- (Hst (f, n) Hn) in Hpage. rewrite Hres.
  destruct (content st (f, n)) as [b|] eqn:Hb; [|done].
  destruct Hpage as (id & d & -> & Hm & _ & _ & _ & Hbuf). exists id.
  split_and!; [done|done|]. by rewrite Hbuf, (sc_content _ _ Hsame).
Qed.

(** ** The resource owner's entries *)

Record Worker := mkW { pool : Pool T; owner : ResourceOnwerPool }.
Notation WM := (ST Worker).

Definition on_pool {A} (m : ST (Pool T) A) : WM A := fun w => '(a, s) ← m (pool w); Some (a, mkW s (owner w)).
Definition on_owner {A} (m : ST ResourceOnwerPool A) : WM A := fun w =>
  '(a, o) ← m (owner w); Some (a, mkW (pool w) o).

Definition BUFFER_RESOURCE : Z := 1.

Definition GetPageByIndex (fuel sf : nat) (relid index fork : Z) : WM (option Z) :=
  if index =? 0 then mret None else
  page ← on_pool (BufferPool.ReadPage try_lock fuel sf relid index fork);
  match page with
  | None => mret None
  | Some id => on_owner (PushResourceOwner id BUFFER_RESOURCE);; mret page
  end.

Definition ReleasePage (fuel : nat) (id : Z) : WM Z :=
  on_pool (BufferPool.ReleasePage id);;
  on_owner (ReleaseResourceOwner fuel id BUFFER_RESOURCE);;
  mret 0.

(** [fuel] bounds the entries of the queue. *)
Fixpoint ReleaseAll_loop (fuel : nat) (ret : Z) (page : option Z) : WM Z :=
  match fuel with
  | O => st_fault
  | S fuel' =>
      if ret <=? 0 then mret ret else
      id ← st_lift page;
      ReleasePage fuel id;;
      '(ret, page) ← on_owner PopResourceOwner;
      ReleaseAll_loop fuel' ret page
  end.

Definition ReleaseAllResourceOwner (fuel : nat) : WM Z :=
  '(ret, page) ← on_owner PopResourceOwner; ReleaseAll_loop fuel ret page.

(** ** What is released

    Every round takes the queue's head and, through [ReleasePage], the next entry
    of the same buffer. *)

Fixpoint drain (n : nat) (l : list Resource) : list Resource :=
  match n, l with
  | S n, r :: l => r :: drain n (remove_first r l)
  | _, _ => []
  end.

Definition entries (r : Resource) (l : list Resource) : nat := length (filter (fun x => x = r) l).

Lemma length_remove_first r l : (length (remove_first r l) <= length l)%nat.
Proof. induction l as [|x l IH]; simpl; [done|]. case_decide; simpl; lia. Qed.

Lemma entries_remove r x l :
  entries r (remove_first x l) = (entries r l - (if decide (r = x) then 1 else 0))%nat.
Proof.
  unfold entries. induction l as [|y l IH]; simpl; [by case_decide|].
  destruct (decide (y = x)) as [->|Hne].
  - rewrite filter_cons. repeat case_decide; simpl; try congruence; lia.
  - rewrite !filter_cons. destruct (decide (y = r)) as [->|]; simpl; rewrite IH; [|done].
    rewrite decide_False by congruence. lia.
Qed.

#[local] Arguments Nat.div : simpl never.

(** Of [k] entries for a buffer only [(k + 1) / 2] release it. *)
Lemma entries_drain r : forall n l, (length l <= n)%nat -> entries r (drain n l) = ((entries r l + 1) / 2)%nat.
Proof.
  induction n as [|n IH]; intros l Hl; destruct l as [|x l]; try done; simpl in Hl; [lia|].
  cbn [drain]. unfold entries at 1. rewrite filter_cons.
  pose proof (length_remove_first x l).
  destruct (decide (x = r)) as [->|Hne]; simpl; fold (entries r (drain n (remove_first r l)));
    try fold (entries r (drain n (remove_first x l))); rewrite IH, entries_remove by lia.
  - rewrite decide_True by done. unfold entries. rewrite filter_cons, decide_True by done. simpl.
    set (k := length _). destruct k as [|k]; [done|].
    replace (S (S k + 1))%nat with (k + 1 + 1 * 2)%nat by lia. rewrite Nat.div_add by lia.
    replace (S k - 1)%nat with k by lia. lia.
  - rewrite decide_False by congruence. unfold entries. rewrite filter_cons, decide_False by done.
    by rewrite Nat.sub_0_r.
Qed.
(** *** A worker's queue released *)

(** Pool [s'] is [s] with the pins of the entries [L] taken off. *)
Record unpinned (s s' : Pool T) (M : gmap BufferTag Z) (L : list Resource) : Prop := {
  up_inv : pool_inv s' M;
  up_desc id d : bufferDesc s !! id = Some d -> bufferDesc s' !! id =
    Some (with_ref (Z.max 0 (refCnt d - Z.of_nat (entries (mkRes BUFFER_RESOURCE id) L))) d);
  up_buf : bufferPool s' = bufferPool s;
  up_files : files s' = files s;
  up_locks : locks s' = locks s;
  up_view t : view s' M t = view s M t
}.

(** The queue's entries name loaded pages that may be dropped. *)
Definition releasable (s : Pool T) (l : list Resource) : Prop :=
  forall r, r ∈ l -> res_type r = BUFFER_RESOURCE /\ exists d, bufferDesc s !! res_buffer r = Some d /\
    isValid d <> BVF_INVALID /\ (isValid d = BVF_VLID -> evict_ok s (res_buffer r) d).

Lemma with_ref_id d : 0 <= refCnt d -> with_ref (Z.max 0 (refCnt d - Z.of_nat 0)) d = d.
Proof.
  intros Hr. rewrite Z.max_r by lia. replace (refCnt d - Z.of_nat 0) with (refCnt d) by lia. by destruct d.
Qed.

Lemma unpinned_nil s M : pool_inv s M -> unpinned s s M [].
Proof.
  intros I. split; try done. intros id d Hd. destruct I as [[l O] _].
  destruct (po_counts _ _ _ O id d Hd). change (entries _ []) with 0%nat. by rewrite with_ref_id by lia.
Qed.

(** One release followed by those of [L]. *)
Lemma unpinned_step s s1 s2 M id d L :
  bufferDesc s !! id = Some d -> bufferDesc s1 = <[id := with_ref (Z.max 0 (refCnt d - 1)) d]> (bufferDesc s) ->
  bufferPool s1 = bufferPool s -> files s1 = files s -> locks s1 = locks s ->
  (forall t, view s1 M t = view s M t) ->
  unpinned s1 s2 M L -> unpinned s s2 M (mkRes BUFFER_RESOURCE id :: L).
Proof.
  intros Hd E Eb Ef El Ev [I Hdesc Hbuf Hfil Hlk Hview]. split; [done| |congruence..|].
  - intros j dj Hj. unfold entries. rewrite filter_cons. fold (entries (mkRes BUFFER_RESOURCE j) L).
    destruct (decide (j = id)) as [->|Hne].
    + assert (dj = d) as -> by congruence. rewrite decide_True by done. cbn [length].
      rewrite (Hdesc id (with_ref (Z.max 0 (refCnt d - 1)) d)) by (rewrite E; apply lookup_insert_eq).
      destruct d; simpl. f_equal. unfold with_ref. simpl. f_equal. unfold entries. lia.
    + rewrite decide_False by congruence. apply Hdesc. by rewrite E, lookup_insert_ne.
  - intros t. by rewrite Hview.
Qed.

Lemma releasable_step s s1 id d c r l :
  releasable s (r :: l) -> bufferDesc s !! id = Some d -> bufferDesc s1 = <[id := with_ref c d]> (bufferDesc s) ->
  bufferPool s1 = bufferPool s -> files s1 = files s ->
  forall l', (forall x, x ∈ l' -> x ∈ l) -> releasable s1 l'.
Proof.
  intros R Hd E Eb Ef l' Hsub x Hx. destruct (R x) as (Ht & dx & Hdx & Hv & Hev);
    [apply elem_of_cons; right; by apply Hsub|]. split; [done|].
  destruct (decide (res_buffer x = id)) as [Hid|Hne].
  - rewrite Hid in *. assert (dx = d) as -> by congruence. exists (with_ref c d).
    rewrite E, lookup_insert_eq. split_and!; try done. intros Hvv. unfold evict_ok. rewrite Eb, Ef. by apply Hev.
  - exists dx. rewrite E, lookup_insert_ne by done. split_and!; try done.
    unfold evict_ok. by rewrite Eb, Ef.
Qed.

Lemma elem_of_remove_first x r l : x ∈ remove_first r l -> x ∈ l.
Proof.
  induction l as [|y l IH]; simpl; [done|]. case_decide; rewrite !elem_of_cons; [by right|].
  intros [->|Hx]; [by left|right; by apply IH].
Qed.

Lemma on_pool_run {A} (m : ST (Pool T) A) w a s :
  m (pool w) = Some (a, s) -> on_pool m w = Some (a, mkW s (owner w)).
Proof. intros H1. unfold on_pool. by rewrite H1. Qed.

Lemma on_owner_run {A} (m : ST ResourceOnwerPool A) w a o :
  m (owner w) = Some (a, o) -> on_owner m w = Some (a, mkW (pool w) o).
Proof. intros H1. unfold on_owner. by rewrite H1. Qed.

(** [ReleasePage] with the entry it takes off the queue. *)
Lemma ReleasePage_owner_run fuel w M l id d :
  pool_inv (pool w) M -> pool_queue (owner w) l -> (length l < fuel)%nat ->
  bufferDesc (pool w) !! id = Some d -> isValid d <> BVF_INVALID ->
  (isValid d = BVF_VLID -> evict_ok (pool w) id d) ->
  exists w', ReleasePage fuel id w = Some (0, w') /\ pool_inv (pool w') M /\
    pool_queue (owner w') (remove_first (mkRes BUFFER_RESOURCE id) l) /\
    bufferDesc (pool w') = <[id := with_ref (Z.max 0 (refCnt d - 1)) d]> (bufferDesc (pool w)) /\
    bufferPool (pool w') = bufferPool (pool w) /\ files (pool w') = files (pool w) /\
    locks (pool w') = locks (pool w) /\ (forall t, view (pool w') M t = view (pool w) M t).
Proof.
  intros I Q Hf Hd Hv Hev.
  destruct (ReleasePage_run (pool w) M id d I Hd Hv) as (s1 & Hrun & I1 & V1 & L1 & F1 & B1 & D1);
    [intros; by apply Hev|].
  destruct (ReleaseResourceOwner_queue fuel (owner w) l id BUFFER_RESOURCE Q Hf) as (o1 & Hrel & Q1).
  exists (mkW s1 o1). unfold ReleasePage. run (on_pool_run _ w _ _ Hrun).
  assert (ReleaseResourceOwner fuel id BUFFER_RESOURCE (owner (mkW s1 (owner w))) = Some
    (if decide (mkRes BUFFER_RESOURCE id ∈ l) then 1 else 0, o1)) as Hrel' by exact Hrel.
  run (on_owner_run _ _ _ _ Hrel'). by split_and!.
Qed.

Lemma ReleaseAll_loop_run M fuel : forall n r l w,
  pool_inv (pool w) M -> pool_queue (owner w) l -> releasable (pool w) (r :: l) ->
  (length l <= n)%nat -> (S n < fuel)%nat ->
  exists w', ReleaseAll_loop fuel 1 (Some (res_buffer r)) w = Some (0, w') /\ pool_queue (owner w') [] /\
    unpinned (pool w) (pool w') M (drain (S n) (r :: l)).
Proof.
  induction fuel as [|fuel IH]; intros n r l w I Q R Hl Hf; [lia|].
  destruct (R r) as (Ht & d & Hd & Hv & Hev); [apply elem_of_cons; by left|].
  destruct (ReleasePage_owner_run (S fuel) w M l (res_buffer r) d I Q) as
    (w1 & Hrun & I1 & Q1 & D1 & B1 & F1 & L1 & V1); [lia|done..|].
  assert (mkRes BUFFER_RESOURCE (res_buffer r) = r) as Hr by (rewrite <- Ht; by destruct r).
  rewrite Hr in Q1. cbn [ReleaseAll_loop drain]. rewrite (proj2 (Z.leb_gt 1 0)) by lia.
  run_refl. run Hrun.
  destruct (PopResourceOwner_queue (owner w1) _ Q1) as (o2 & Hpop & Q2).
  pose proof (length_remove_first r l) as Hlen.
  assert (releasable (pool w1) (remove_first r l)) as R1.
  { eapply releasable_step; [exact R|exact Hd|exact D1|exact B1|exact F1|]. intros x. apply elem_of_remove_first. }
  destruct (remove_first r l) as [|r' l'] eqn:Hrem; simpl tail in Q2.
  - run (on_owner_run _ w1 _ _ Hpop). destruct fuel as [|fuel]; [lia|].
    exists (mkW (pool w1) o2). split; [done|]. split; [done|].
    rewrite <- Hr at 1. eapply unpinned_step; [exact Hd|exact D1|done..|].
    destruct n; by apply unpinned_nil.
  - run (on_owner_run _ w1 _ _ Hpop). destruct n as [|n]; [simpl in Hlen; lia|].
    destruct (IH n r' l' (mkW (pool w1) o2)) as (w' & Hloop & Q' & U); try done; [simpl in Hlen; lia|lia|].
    exists w'. split; [exact Hloop|]. split; [done|].
    rewrite <- Hr at 1. eapply unpinned_step; [exact Hd|exact D1|done..|]. exact U.
Qed.

(** [ReleaseAllResourceOwner] empties the worker's queue and always ends, but
    takes off only half of repeated pins: of [k] entries a page has in the queue
    [(k + 1) / 2] release it, because each release of a popped entry also strikes the
    page's next entry off the queue. A page pinned once is released; pinned twice
    it stays pinned once for good. Page contents, files and locks are untouched. *)
Theorem ReleaseAllResourceOwner_halves fuel w M l :
  pool_inv (pool w) M -> pool_queue (owner w) l -> releasable (pool w) l -> (length l < fuel)%nat ->
  exists w', ReleaseAllResourceOwner (S fuel) w = Some (0, w') /\ pool_queue (owner w') [] /\
    pool_inv (pool w') M /\ (forall t, view (pool w') M t = view (pool w) M t) /\
    files (pool w') = files (pool w) /\ locks (pool w') = locks (pool w) /\
    forall id d, bufferDesc (pool w) !! id = Some d -> exists d', bufferDesc (pool w') !! id = Some d' /\
      refCnt d' = Z.max 0 (refCnt d - Z.of_nat ((entries (mkRes BUFFER_RESOURCE id) l + 1) / 2)).
Proof.
  intros I Q R Hf. unfold ReleaseAllResourceOwner.
  destruct (PopResourceOwner_queue (owner w) l Q) as (o1 & Hpop & Q1). run (on_owner_run _ w _ _ Hpop).
  assert (exists w', ReleaseAll_loop (S fuel) (match l with [] => (0, None) | r :: _ => (1, Some (res_buffer r)) end).1
      (match l with [] => (0, None) | r :: _ => (1, Some (res_buffer r)) end).2 (mkW (pool w) o1) = Some (0, w') /\
    pool_queue (owner w') [] /\ unpinned (pool w) (pool w') M (drain (length l) l)) as (w' & Hrun & Q' & U).
  { destruct l as [|r l].
    - exists (mkW (pool w) o1). split; [done|]. split; [done|]. by apply unpinned_nil.
    - apply (ReleaseAll_loop_run M (S fuel) (length l) r l (mkW (pool w) o1)); try done; simpl in Hf; lia. }
  exists w'. destruct U as [U1 U2 U3 U4 U5 U6]. split; [by destruct l|]. split_and!; try done.
  intros id d Hd. eexists. split; [by apply U2|]. by rewrite entries_drain.
Qed.
End store.

(** ** Witnesses: a new pool over the hash table *)

#[local] Instance sum_tags' : TagTable HashTableInfo := hash_tags sum_hash.
#[local] Instance sum_tags_laws' : TagTableLaws HashTableInfo int_tag := hash_tags_laws sum_hash sum_hash_u64.

Definition one_page : PageState := mkPS ∅ {[ (MAIN_FORK, 3) := replicate 4096 5 ]} [] 3 1 1.

Lemma page_tag_inj relid p q : page_tag relid p = page_tag relid q -> p = q.
Proof. destruct p as [[] n], q as [[] m]; by intros [=->]. Qed.

Lemma one_page_view s :
  files s = {[ page_tag 7 (MAIN_FORK, 3) := replicate 4096 5 ]} ->
  store_view (T := HashTableInfo) 7 one_page s ∅.
Proof.
  intros Hf p Hp. unfold view, content. rewrite Hf, lookup_empty. simpl pages. simpl disk.
  rewrite lookup_empty. destruct (decide (p = (MAIN_FORK, 3))) as [->|Hne].
  - by rewrite !lookup_singleton_eq.
  - rewrite !lookup_singleton_ne; [done| |congruence]. intros H%page_tag_inj. congruence.
Qed.

Lemma ReadPage_refines_store_witness :
  exists s o s' M', CreateBufferPool 0 {[ page_tag 7 (MAIN_FORK, 3) := replicate 4096 5 ]} = Some s /\
    BufferPool.ReadPage (fun _ _ => true) 1 640 7 3 0 s = Some (Some o, s') /\
    bufferPool s' !! o = Some (replicate 4096 5) /\
    store_view 7 (emit (EvPin (MAIN_FORK, 3)) (set_pages (<[(MAIN_FORK, 3) := replicate 4096 5]> ∅) one_page)) s' M'.
Proof.
  destruct (CreateBufferPool_inv sum_hash sum_hash_u64 0 {[ page_tag 7 (MAIN_FORK, 3) := replicate 4096 5 ]}) as
    (s & Hc & I & Hf & Hn & Hlk & Hd); [by left|]. simpl in Hn. exists s.
  destruct (ReadPage_refines_store (fun _ _ => true) zero_tag_int 0 640 7 3 MAIN_FORK one_page
    (emit (EvPin (MAIN_FORK, 3)) (set_pages (<[(MAIN_FORK, 3) := replicate 4096 5]> ∅) one_page))
    (Some (MAIN_FORK, 3)) s ∅ I) as (o & s' & M' & Hrun & _ & Hst & _ & id & -> & _ & Hb).
  - intros id d Hid. rewrite Hd in Hid. case_decide; [|done]. simplify_eq. simpl. lia.
  - by apply one_page_view.
  - unfold int_tag, in_i32; simpl; lia.
  - intros _. exists 0, zero_desc. rewrite Hd, decide_True by lia. done.
  - rewrite Hn. unfold USE_COUNT_MAX. lia.
  - lia.
  - reflexivity.
  - exists id, s', M'. split_and!; [done|exact Hrun| |done]. rewrite Hb. unfold content. simpl.
    by rewrite lookup_insert_eq.
Defined.

(** A page pinned twice keeps one pin. *)
Lemma ReleaseAllResourceOwner_halves_witness :
  exists (w w' : Worker (T := HashTableInfo)) id d d', bufferDesc (pool w) !! id = Some d /\ refCnt d = 2 /\
    pool_queue (owner w) [mkRes BUFFER_RESOURCE id; mkRes BUFFER_RESOURCE id] /\
    ReleaseAllResourceOwner 4 w = Some (0, w') /\ pool_queue (owner w') [] /\
    bufferDesc (pool w') !! id = Some d' /\ refCnt d' = 1.
Proof.
  destruct (CreateBufferPool_inv sum_hash sum_hash_u64 8 ∅) as (s & Hc & I & Hf & Hn & Hlk & Hd);
    [right; unfold BUFFER_MIN_NUM; lia|]. simpl in Hn. set (tag := mkTag 0 7 0 3 0).
  destruct (AllocBuffer_new (fun _ _ => true) zero_tag_int 0 40 s ∅ tag I) as (id & s1 & M1 & _ & A).
  { unfold int_tag, in_i32; simpl; lia. }
  { done. }
  { apply lookup_empty. }
  { exists 0, zero_desc. rewrite Hd, decide_True by lia. done. }
  { rewrite Hn. unfold USE_COUNT_MAX. lia. }
  destruct (as_ok _ _ _ _ _ _ A) as [l O]. destruct (as_desc _ _ _ _ _ _ A) as (d & Hid & Hv & _ & Hr).
  assert (pins_bounded s1) as Hpb.
  { intros j dj Hj. destruct (decide (j = id)) as [->|Hne]; [assert (dj = d) as -> by congruence; lia|].
    destruct (as_back _ _ _ _ _ _ A j dj Hne Hj) as (dj' & Hj' & Ha).
    destruct (aged_fields _ _ Ha) as (_ & _ & -> & _). rewrite Hd in Hj'. case_decide; [|done].
    injection Hj' as <-. simpl. lia. }
  assert (isValid d <> BVF_INVALID) as Hvi by congruence.
  destruct (pin_found s1 M1 l id d (table s1) O Hpb Hid Hvi (po_table _ _ _ O)) as (O2 & _ & _ & E & Eb).
  set (s2 := rechecked id d (set_table (table s1) s1)) in *.
  assert (pool_inv s2 M1) as I2
    by (apply (inv_insert s1 s2 M1 l id (pinned_once d)); [exact (ld_inv _ _ _ _ _ _ (loading_new _ _ _ _ _ _ I A))|done..]).
  destruct (PushResourceOwner_queue _ [] id BUFFER_RESOURCE (CreateResourceOwnerPool_queue 1 2 ltac:(done))) as (o1 & _ & Q1).
  destruct (PushResourceOwner_queue _ _ id BUFFER_RESOURCE Q1) as (o2 & _ & Q2).
  assert (bufferDesc s2 !! id = Some (pinned_once d)) as Hd2 by (rewrite E; apply lookup_insert_eq).
  destruct (ReleaseAllResourceOwner_halves 3 (mkW s2 o2) M1 _ I2 Q2) as (w' & Hrun & Q' & _ & _ & _ & _ & Hdesc).
  - intros r Hin. assert (r = mkRes BUFFER_RESOURCE id) as ->
      by (apply elem_of_app in Hin as [Hin|Hin]; apply list_elem_of_singleton in Hin; done).
    split; [done|]. exists (pinned_once d). split_and!; [exact Hd2|simpl; congruence|simpl; congruence].
  - simpl. lia.
  - destruct (Hdesc id _ Hd2) as (d' & Hd' & Hr').
    exists (mkW s2 o2), w', id, (pinned_once d), d'. split_and!; try done.
    + unfold pinned_once. simpl. by rewrite Hr.
    + rewrite Hr'. unfold pinned_once. simpl. rewrite Hr. unfold entries. cbn [app].
      rewrite !filter_cons, !decide_True by done. reflexivity.
Defined.
